(* ===== verification/_CoqProject ===== *)
-Q . S2P
Prelude.v
GoTime.v
GoText.v
GoCrypto.v
GoEncoding.v
Shared.v
GoDate.v
SchedWeekly.v
SchedDate.v
Spans.v
SchedCalendar.v
SchedWindows.v
SchedStore.v
SchedApp.v
BookSlots.v
Appointment.v
BookStore.v
BookApp.v
BookFlow.v
Tables.v
Http.v
TimeText.v
SchedHttp.v
SchedPut.v
BookHttp.v
BizBase.v
Business.v
Branch.v
Invitation.v
BizStore.v
BizFacts.v
BizApp.v
BizFlow.v
BizHttp.v
BizQueue.v
Catalog.v
CatStore.v
CatApp.v
CatFacts.v
CatFlow.v
CatHttp.v
Iam.v
IamStore.v
IamApp.v
IamFacts.v
IamFlow.v
AccessTokens.v
IamHttp.v
Outbox.v
OutboxFlow.v
Discovery.v
DiscStore.v
DiscApp.v
DiscFacts.v
DiscFlow.v
DiscPages.v
Settled.v
DiscQueue.v
DiscCatalog.v
DiscHttp.v
DiscClient.v
HoursFlow.v
Notification.v
NotifFlow.v
Notices.v
NotifHttp.v
Fcm.v
BookNotices.v
Media.v
MediaFlow.v
MediaHttp.v
Billing.v
Edge.v
EdgeFlow.v
Config.v
BranchFlow.v
Acl.v
DocFiles.v
Compose.v
StaffLock.v
