(* ===== verification/Prelude.v ===== *)
(** * Barbershop backend: a verification library

    The program (src/, Go) is the backend of a booking service for barbers in
    Saudi Arabia: a modular monolith, one Go package tree per module under
    src/internal, wired together by src/cmd/server/main.go. A module owns a
    PostgreSQL schema, and is layered: [domain] (values and aggregates),
    [app] (use cases), [adapters] (its tables, its HTTP routes, its access to
    other modules), [module.go] (what other modules may call). Modules speak
    to each other in two ways: a synchronous call through an adapter ("acl")
    that translates types and errors, and events, written to an outbox in the
    transaction that makes the change and delivered, at least once and in any
    order, by a job queue.

    ** The parts, and where they are modelled

    - Go itself and its standard library: GoTime (integers that wrap, instants,
      calendars, time zones), GoText (UTF-8, trimming, formatting), GoDate,
      GoCrypto (SHA-256), GoEncoding (HMAC, base64), TimeText (RFC 3339).
      Prelude has results and sorting, Tables what queries and unique indexes
      say of a table.
    - src/internal/shared: Shared.
    - scheduling, who works when: SchedWeekly, SchedDate, SchedCalendar (the
      aggregates), Spans and SchedWindows (working windows), SchedStore (the
      tables), SchedApp (the handlers), SchedHttp and SchedPut (the API).
    - booking, slots and appointments: BookSlots, Appointment (the lifecycle),
      BookStore, BookApp; BookFlow proves the use cases against the laws of
      the modules booking asks; BookHttp is the API.
    - business, shops, their review, branches, staff and documents: BizBase,
      Business, Branch, Invitation, BizStore, BizApp; BizFacts and BizFlow
      have the invariant and the histories; BizHttp and BizQueue the API and
      the reviewers' queue.
    - catalog, services and who performs them: Catalog, CatStore, CatApp,
      CatFacts, CatFlow, CatHttp.
    - iam, signing in by phone: Iam, IamStore, IamApp, IamFacts, IamFlow;
      AccessTokens and IamHttp, the tokens and the API.
    - platform/outbox, events between modules: Outbox, OutboxFlow; Settled
      says what a module's tables are once the queue has settled.
    - discovery, searching copies of shops: Discovery, DiscStore, DiscApp,
      DiscFacts, DiscFlow, DiscPages; DiscHttp and DiscClient, the API and a
      client that follows its cursors; DiscQueue is discovery behind the
      queue, composed with catalog in DiscCatalog, with scheduling in
      HoursFlow and with business in BranchFlow.
    - notification, pushes to phones: Notification, NotifFlow (the tables, and
      registrations at once), Notices (who is told, how often), NotifHttp, and
      Fcm, the sender through Firebase; BookNotices composes it with booking.
    - media, uploaded files: Media, MediaFlow, MediaHttp; DocFiles composes it
      with business.
    - billing, plans and trials: Billing; BranchFlow composes it with business.
    - platform/httpx and platform/auth, the way of a request to a handler:
      Http has what the adapters share (callers, If-Match, problems), Edge
      the middleware, EdgeFlow its theorems.
    - platform/config, platform/database and src/cmd/server/main.go, the
      start: Config.
    - the adapters and src/cmd/server/main.go's wiring: Acl; Compose proves
      that business, catalog and scheduling keep the laws booking relies on.
    - platform/database/locks.go, the lock that bookings and changes of a
      person's hours share: StaffLock, which runs their transactions step by
      step in any interleaving.

    ** How the code is written here

    A struct is a record, an enum an inductive type, a function a Definition
    with the code's name where Rocq allows it ([Search_handler] for the method
    [Search] of [app.Handlers], [Branches_ByID] for [ByID] of the repository
    [Branches]). An error is a value of the module's error type, up to what
    [errors.Is] can tell; messages are left out. A panic is [None] or the
    error [ErrPanic]; theorems that give a result also show it is not reached.
    A method that changes its receiver returns the changed value, or the error.

    Go integers wrap ([int64], [toInt32]); amounts, sizes and versions stay
    in range by theorems or checks. A [time.Time] is an unbounded number of
    nanoseconds since 1970; where the code reads a calendar the location is an
    argument. A [timestamptz] column keeps microseconds ([stored_time]). A Go
    string is its bytes. [slices.SortFunc] is an insertion sort; every order
    sorted by is proved total where the result depends on it. The iteration
    order of a Go map is an argument, or what follows does not depend on it.

    A table is a [gmap] from its primary key; a CHECK, UNIQUE or exclusion
    constraint is a Boolean function the write evaluates, and a refusal is the
    error the repository makes of it ([ErrStorage] if none). A transaction is
    a function from the tables to a result, with new tables only if it
    commits: an error rolls back. Row and advisory locks make transactions on
    the same rows follow one another, so each runs whole - but for two kinds,
    taken statement by statement in any interleaving: bookings, which read
    other connections half-way (StaffLock), and registrations of devices,
    which no lock on their user orders ([notif_step] of Notification, whose
    rows and tokens are locked as PostgreSQL locks them). A handler that reads
    before its transaction, or has several, takes the tables of each read as
    separate arguments ([auth], [seen], [db]; [between1], [between2] in iam):
    anything may have been committed in between, and theorems quantify over
    it. [Notify] has a push service between its statements: [others] is what
    everybody else did there, and in [notif_step] each of its statements is a
    step of its own. Random IDs and tokens, the clock, and every answer of another system
    are arguments.

    A handler of the API is a function from the decoded request - [Ctx] has the
    caller and the request's ID - and the tables to what is answered, status,
    headers and body, and the new tables; each module's errors have their
    problems in [Problems]. Outside the handlers a middleware is a function
    between functions from a request and the connection to how it ended.

    The states a module reaches are an inductive relation over its handlers
    ([store_reachable], [biz_history], [cat_reachable], [iam_run],
    [reachable] of the outbox, [notif_reachable], [media_reachable],
    [doc_reachable], [step] of StaffLock); invariants are proved by induction over it.

    ** What the theorems show

    - Booking: no barber is ever booked twice at once, the tables refine an
      abstract diary with its moves and their events, a repeated request books
      once - over HTTP too, whatever happened in between -, limits and the
      branch's policy hold, only the people allowed act,
      each operation of the lifecycle does what its table says, the expirer
      ends with nothing due, and - composed with business, catalog and
      scheduling - a slot the shop offers can be booked at once, and no
      booking commits into hours taken away since they were checked.
    - Scheduling: the working windows are exactly the minutes open, scheduled
      and not taken off, however they were set; the invariants of its tables;
      what the API shows of a schedule can be put back as it was.
    - Business: the invariants of its tables in every history, who may do
      what, independent review - the only way to become active -, invitations
      that join the invited and nobody else, once, and keep within limits, edits that never overwrite one another;
      customers find exactly the branches that are published, as they are now,
      and every approved business has its trial; reviewers who follow the
      queue's pages see it whole.
    - Catalog: events announce every version of a service and say what the
      tables hold; discovery, delivered those events in any order and more
      than once, ends with the same menus.
    - Identity: signing in needs a code sent to that phone, guesses are
      bounded, a session has one usable refresh token, what each refresh
      answers, and whose requests an access token makes, for how long.
    - The outbox: nothing published is lost, and a queue that is worked
      catches up. Discovery: copies converge, a branch is open now when its
      calendar says so, and a client that follows a search's pages or its
      cursors ends and sees everything once.
    - Notification: every booking event tells the customer what the table of
      notices says, each device once, however statements interleave, and what
      each way of failing leaves; the tables always read back, and hold ten
      devices a user as long as no two of their registrations overlap (eleven
      can stay if they do); a push ends within bounds whatever Google answers.
    - Media: every row has its whole file, what uploads are refused for, links
      that open one file until they expire; and every document of business has
      its file.
    - Billing: one trial for each business, its length, the standing at every
      instant.
    - The edge: what reaches a handler was checked, everything else is
      answered with a problem, and a panic leaves no request unanswered. The
      start: nothing runs on a configuration that is not valid.

    Each property names its claim ("C1." and so on) in its comment; the one
    that has hypotheses is followed by a witness, which applies it to an
    example. The examples at the ends of files are small shops, evaluated.

    ** Assumptions

    What the program uses and this library cannot read is an interface with
    its documented laws: UUIDs as text ([UuidLib]), zone files ([TzLib]), the
    tables of package unicode ([UnicodeLib], [UnicodeLaws]), PostGIS and
    pg_trgm ([SearchLib], [SearchBounds]), strconv.Quote, floats as text
    ([FloatText], [FloatTextLaws]), no bar in a UUID's text ([UuidText]), JSON
    Web Tokens ([JwtLib], [JwtLaws]), JSON and RSA of the Firebase account
    ([FcmLib]), chi's routes and the OpenAPI validator ([Chi], [OpenAPI],
    [OpenAPILaws]) and the code generated from the document ([Server]), the
    library that parses the environment ([EnvLib]), the machine at the start
    ([Host]). River, the job queue,
    is the step relation of Outbox: a job is worked until its worker says it
    is done or its attempts - a parameter, [max] - run out; a worker that dies
    is a job tried again; several releases may run side by side. The push
    service is what it answers ([send]); Google, the clock, jitter, pauses and
    pushes that run at the same time are [Outside], [OutsideLaws]; the disk and the database of media
    fail where [Faults] says. Theorems of discovery assume events that carry
    stored names, places on Earth and zones that exist ([event_ok]), those of
    [search_follows_catalog] a queue that has settled; Compose assumes zones
    without clock changes, as Saudi Arabia's is. The adapters answer from one
    snapshot of each module's tables; the catalog's steps take whatever answer
    business gave. The queue works a delivery once at a time: two runs of
    [Notify] for one event do not overlap, while everything else of
    notification may run between their statements. A request's body that has
    failed to be read fails again.

    ** Bounds and fuel

    Recursion is structural but for eight loops with fuel: walking the dates
    of a range (SchedWindows.gather, fuel one more than its days), the slot
    grid of a day (BookSlots.grid_loop, fuel its minutes), the expirer's
    batches (BookApp.Run, fuel one more than what is waiting), a client
    following pages (DiscPages.pages and DiscClient.api_pages, fuel one more
    than what is found) or the reviewers' queue (BizQueue.queue_pages, fuel
    one more than what waits), the attempts of a push (Fcm.send_loop, fuel
    two more than its tries) and the parameters of a media type
    (Edge.duplicate_param, fuel one more than its bytes: each takes some).
    That the fuel is enough is part of the theorems, which say each loop ends
    with its result, not only what a result would be.

    ** Not modelled

    - src/internal/apigen, generated from the OpenAPI document: decoding a
      request, encoding an answer. The shapes the handlers use are records.
    - JSON text: a payload is the record its codec reads back.
    - The console senders of codes, invitations and pushes (a line on a
      console), listening and graceful shut-down (httpx/server.go, net/http's
      own), log lines beyond the edge's, the system clock, migrations and
      test databases.
    - Generated query code (sqlcgen) beyond the queries the stores use: its
      models repeat every table in every module's package.
    - SQL is written out query by query where a definition is mapped to it;
      isolation levels and locks are the atomicity described above.
    - Whether a hash or a MAC can be forged. *)
From stdpp Require Export base gmap list strings sorting.
From Stdlib Require Export ZArith Lia.

#[export] Set Default Goal Selector "!".

(** ** Hint databases

    [go] holds the lemmas on the Go standard-library model (widths, instants,
    spans); [inv] the preservation lemmas of the component invariants. *)
Create HintDb go.
Create HintDb inv.

(** ** Results

    A Go function that returns [(T, error)] returns [res E T]: the value, or
    the error that [errors.Is] would recognise. *)
Inductive res (E A : Type) : Type :=
| Ok (a : A)
| Err (e : E).
Arguments Ok {E A} a.
Arguments Err {E A} e.

#[export] Instance res_eq_dec {E A} `{EqDecision E, EqDecision A} : EqDecision (res E A).
Proof. solve_decision. Defined.

#[export] Instance Ok_inj {E A} : Inj eq eq (@Ok E A).
Proof. by intros ?? [= ->]. Qed.

Definition res_bind {E A B} (m : res E A) (f : A → res E B) : res E B :=
  match m with
  | Ok a => f a
  | Err e => Err e
  end.

Definition is_ok {E A} (m : res E A) : bool := match m with Ok _ => true | Err _ => false end.

Definition res_map_err {E F A} (f : E → F) (m : res E A) : res F A :=
  match m with
  | Ok a => Ok a
  | Err e => Err (f e)
  end.

(** [guard b e]: the early return [if !b { return e }]. *)
Definition ensure {E} (b : bool) (e : E) : res E unit := if b then Ok tt else Err e.

Declare Scope go_scope.
Delimit Scope go_scope with go.
Notation "'let!' x ':=' m 'in' k" := (res_bind m (λ x, k))
  (at level 10, x pattern, m at level 100, k at level 200,
   format "'[v' 'let!'  x  ':='  m  'in' '/' k ']'") : go_scope.
Notation "'check!' b 'else' e 'in' k" := (res_bind (ensure b e) (λ _, k))
  (at level 10, b at level 100, e at level 100, k at level 200,
   format "'[v' 'check!'  b  'else'  e  'in' '/' k ']'") : go_scope.
Open Scope go_scope.
Open Scope Z_scope.

Lemma res_bind_ok {E A B} (m : res E A) (f : A → res E B) b :
  res_bind m f = Ok b ↔ ∃ a, m = Ok a ∧ f a = Ok b.
Proof. destruct m; simpl; split; [eauto | by intros (? & [= <-] & ?) | done | by intros (? & ? & ?)]. Qed.

Lemma res_bind_err {E A B} (m : res E A) (f : A → res E B) e :
  res_bind m f = Err e ↔ m = Err e ∨ ∃ a, m = Ok a ∧ f a = Err e.
Proof.
  destruct m as [a|e']; simpl; split.
  - by eauto.
  - by intros [?|(? & [= <-] & ?)].
  - by intros [= ->]; left.
  - intros [[= ->]|(? & ? & ?)]; [done|discriminate].
Qed.

Lemma ensure_ok {E} b (e : E) u : ensure b e = Ok u ↔ b = true.
Proof. by destruct b, u. Qed.

Lemma ensure_err {E} b (e e' : E) : ensure b e = Err e' ↔ b = false ∧ e' = e.
Proof. destruct b; simpl; split; [done | by intros [? ?] | by intros [= ->] | by intros [_ ->]]. Qed.

(** The loop [for _, x := range l { y, err := f(x); if err != nil { return err }; ... }]. *)
Fixpoint res_mapM {E A B} (f : A → res E B) (l : list A) : res E (list B) :=
  match l with
  | [] => Ok []
  | x :: l =>
      let! y := f x in
      let! ys := res_mapM f l in
      Ok (y :: ys)
  end.

Fixpoint res_foldM {E A S} (f : S → A → res E S) (s : S) (l : list A) : res E S :=
  match l with
  | [] => Ok s
  | x :: l =>
      let! s' := f s x in
      res_foldM f s' l
  end.

Lemma res_mapM_ok {E A B} (f : A → res E B) l ys :
  res_mapM f l = Ok ys ↔ Forall2 (λ x y, f x = Ok y) l ys.
Proof.
  revert ys. induction l as [|x l IH]; intros ys; simpl.
  - split; [intros [= <-]; constructor | inversion 1; done].
  - rewrite res_bind_ok. setoid_rewrite res_bind_ok. setoid_rewrite IH. split.
    + intros (y & Hy & ys' & Hl & [= <-]). by constructor.
    + inversion 1; subst; eauto.
Qed.

Lemma res_foldM_inv {E A S} (P : S → Prop) (f : S → A → res E S) s l s' :
  (∀ s x s', x ∈ l → P s → f s x = Ok s' → P s') →
  P s → res_foldM f s l = Ok s' → P s'.
Proof.
  revert s. induction l as [|x l IH]; intros s Hf Hs; simpl; [by intros [= <-]|].
  rewrite res_bind_ok. intros (s1 & H1 & H2). eapply IH; [|eapply Hf; [|done|done]|done].
  - intros ??? Hin. apply Hf. by right.
  - by left.
Qed.

(** [res_inv]: takes apart every successful bind among the hypotheses. *)
Ltac res_inv :=
  repeat match goal with
  | H : res_bind _ _ = Ok _ |- _ =>
      apply res_bind_ok in H; destruct H as (? & ? & ?)
  | H : ensure _ _ = Ok _ |- _ => apply ensure_ok in H
  | H : Ok _ = Ok _ |- _ => injection H as H
  | H : Err _ = Ok _ |- _ => discriminate H
  | H : Ok _ = Err _ |- _ => discriminate H
  | H : (let (_, _) := ?p in _) = Ok _ |- _ => destruct p eqn:?
  end; subst.

(** [bool_prop]: Boolean guards to propositions, in every hypothesis. *)
Ltac bool_prop :=
  repeat match goal with
  | H : _ && _ = true |- _ => apply andb_prop in H; destruct H
  | H : _ || _ = false |- _ => apply orb_false_elim in H; destruct H
  | H : negb _ = true |- _ => apply negb_true_iff in H
  | H : negb _ = false |- _ => apply negb_false_iff in H
  | H : (_ =? _)%Z = true |- _ => apply Z.eqb_eq in H
  | H : (_ =? _)%Z = false |- _ => apply Z.eqb_neq in H
  | H : (_ <? _)%Z = true |- _ => apply Z.ltb_lt in H
  | H : (_ <? _)%Z = false |- _ => apply Z.ltb_ge in H
  | H : (_ <=? _)%Z = true |- _ => apply Z.leb_le in H
  | H : (_ <=? _)%Z = false |- _ => apply Z.leb_gt in H
  | H : bool_decide _ = true |- _ => apply bool_decide_eq_true in H
  | H : bool_decide _ = false |- _ => apply bool_decide_eq_false in H
  end.

(** ** Sorting, as [slices.SortFunc] with a Boolean "not after" order *)

Section sort_by.
Context {A : Type} (le : A → A → bool).

Fixpoint insert_by (x : A) (l : list A) : list A :=
  match l with
  | [] => [x]
  | y :: l' => if le x y then x :: l else y :: insert_by x l'
  end.

Fixpoint sort_by (l : list A) : list A :=
  match l with
  | [] => []
  | x :: l => insert_by x (sort_by l)
  end.

Lemma insert_by_perm x l : insert_by x l ≡ₚ x :: l.
Proof.
  induction l as [|y l IH]; simpl; [done|]. destruct (le x y); [done|].
  rewrite IH. constructor.
Qed.

Lemma sort_by_perm l : sort_by l ≡ₚ l.
Proof. induction l as [|x l IH]; simpl; [done|]. by rewrite insert_by_perm, IH. Qed.

Lemma elem_of_sort_by x l : x ∈ sort_by l ↔ x ∈ l.
Proof. by rewrite sort_by_perm. Qed.

Lemma length_sort_by l : length (sort_by l) = length l.
Proof. by rewrite sort_by_perm. Qed.

Context (le_total : ∀ x y, le x y = false → le y x = true)
        (le_trans : ∀ x y z, le x y = true → le y z = true → le x z = true).

Lemma insert_by_sorted x l :
  StronglySorted (λ a b, le a b = true) l →
  StronglySorted (λ a b, le a b = true) (insert_by x l).
Proof using le_total le_trans.
  induction 1 as [|y l Hs IH Hy]; simpl.
  { by repeat constructor. }
  destruct (le x y) eqn:Hxy.
  - constructor; [by constructor|]. constructor; [done|].
    eapply Forall_impl; [exact Hy|]. intros z Hz. by apply le_trans with y.
  - constructor; [done|]. rewrite insert_by_perm. constructor; [by apply le_total|done].
Qed.

Lemma sort_by_sorted l : StronglySorted (λ a b, le a b = true) (sort_by l).
Proof using le_total le_trans.
  induction l; simpl; [constructor|]. by apply insert_by_sorted.
Qed.
End sort_by.

(** Already sorted input comes back unchanged. *)
Lemma sort_by_id {A} (le : A → A → bool) l :
  StronglySorted (λ a b, le a b = true) l → sort_by le l = l.
Proof.
  induction 1 as [|x l Hs IH Hx]; simpl; [done|]. rewrite IH.
  destruct l as [|y l]; simpl; [done|]. inversion Hx as [|?? Hxy]; subst. by rewrite Hxy.
Qed.

(** ** Lists *)

(** [slices.IndexFunc] followed by indexing: the first match. *)
Fixpoint find_first {A} (f : A → bool) (l : list A) : option A :=
  match l with
  | [] => None
  | x :: l => if f x then Some x else find_first f l
  end.

Lemma find_first_some {A} (f : A → bool) l x :
  find_first f l = Some x → x ∈ l ∧ f x = true.
Proof.
  induction l as [|y l IH]; simpl; [done|]. destruct (f y) eqn:E.
  - intros [= ->]. split; [by left|done].
  - intros H. destruct (IH H). split; [by right|done].
Qed.

Lemma find_first_none {A} (f : A → bool) l :
  find_first f l = None ↔ ∀ x, x ∈ l → f x = false.
Proof.
  induction l as [|y l IH]; simpl; [set_solver|]. destruct (f y) eqn:E.
  - split; [done|]. intros H. rewrite (H y) in E; [done|by left].
  - rewrite IH. set_solver.
Qed.

Lemma find_first_is_some {A} (f : A → bool) l x :
  x ∈ l → f x = true → is_Some (find_first f l).
Proof.
  intros Hin Hf. destruct (find_first f l) eqn:E; [eauto|].
  rewrite find_first_none in E. rewrite E in Hf by done. discriminate.
Qed.

(** [slices.ContainsFunc]. *)
Lemma existsb_elem {A} (f : A → bool) l : existsb f l = true ↔ ∃ x, x ∈ l ∧ f x = true.
Proof. rewrite existsb_exists. by setoid_rewrite list_elem_of_In. Qed.

Lemma existsb_elem_false {A} (f : A → bool) l : existsb f l = false ↔ ∀ x, x ∈ l → f x = false.
Proof.
  rewrite <- not_true_iff_false, existsb_elem. split.
  - intros H x Hx. destruct (f x) eqn:E; [|done]. destruct H; eauto.
  - intros H (x & Hx & Hf). rewrite H in Hf by done. done.
Qed.

(** [seen := map[T]bool{}] over a list: the same element twice. *)
Fixpoint has_dup {A} `{EqDecision A} (seen l : list A) : bool :=
  match l with
  | [] => false
  | x :: l => if bool_decide (x ∈ seen) then true else has_dup (x :: seen) l
  end.

Lemma has_dup_false {A} `{EqDecision A} (seen l : list A) :
  has_dup seen l = false ↔ NoDup l ∧ (∀ x, x ∈ l → x ∉ seen).
Proof.
  revert seen. induction l as [|x l IH]; intros seen; simpl.
  - split; [|done]. split; [constructor|set_solver].
  - case_bool_decide.
    + split; [done|]. set_solver.
    + rewrite IH, NoDup_cons. set_solver.
Qed.

(** ** Pairwise relations

    [StronglySorted R l] says [R] holds from every element to every later
    one; for a symmetric [R] the order does not matter. *)
Lemma pairwise_perm {A} (R : A → A → Prop) l l' :
  (∀ x y, R x y → R y x) → l ≡ₚ l' → StronglySorted R l → StronglySorted R l'.
Proof.
  intros Hsym. induction 1 as [|x l l' Hp IH|x y l|l1 l2 l3 _ IH1 _ IH2]; [done|..|by auto].
  - inversion 1; subst. constructor; [by apply IH|]. by rewrite <- Hp.
  - inversion 1 as [|?? Hs Hy]; subst. inversion Hs as [|?? Hs' Hx]; subst.
    inversion Hy; subst. constructor; [by constructor|]. constructor; [by apply Hsym|done].
Qed.

Lemma pairwise_impl {A} (R S : A → A → Prop) l :
  (∀ x y, x ∈ l → y ∈ l → R x y → S x y) → StronglySorted R l → StronglySorted S l.
Proof.
  intros H Hs. induction Hs as [|x l Hs IH Hx]; [constructor|]. constructor.
  - apply IH. intros. apply H; [by right..|done].
  - rewrite Forall_forall in *. intros y Hy. apply H; [by left|by right|by apply Hx].
Qed.

Lemma pairwise_lookup {A} (R : A → A → Prop) l i j x y :
  StronglySorted R l → (i < j)%nat → l !! i = Some x → l !! j = Some y → R x y.
Proof.
  intros Hs. revert i j. induction Hs as [|z l Hs IH Hz]; intros i j Hij Hi Hj; [done|].
  destruct j as [|j]; [lia|]. simpl in Hj. destruct i as [|i]; simpl in Hi.
  - simplify_eq. rewrite Forall_forall in Hz. apply Hz. by eapply list_elem_of_lookup_2.
  - eapply IH; [|done|done]. lia.
Qed.

Lemma pairwise_intro {A} (R : A → A → Prop) l :
  (∀ i j x y, (i < j)%nat → l !! i = Some x → l !! j = Some y → R x y) → StronglySorted R l.
Proof.
  induction l as [|z l IH]; intros H; constructor.
  - apply IH. intros i j x y Hij Hi Hj. apply (H (S i) (S j)); [lia|done..].
  - apply Forall_forall. intros y Hy. apply list_elem_of_lookup in Hy as [j Hj].
    apply (H 0%nat (S j)); [lia|done..].
Qed.

Lemma and_iff_compat_l_when (A B C : Prop) : (A → B ↔ C) → A ∧ B ↔ A ∧ C.
Proof. tauto. Qed.
