(* ===== verification/GoTime.v ===== *)
(** * The Go standard library this program uses: integers, durations, instants, calendars

    - [int64]: the wrap-around of Go's [int], [int64] and [time.Duration] arithmetic.
    - [time]: a [time.Time] as the program compares it, nanoseconds since the
      Unix epoch; the location a [time.Time] carries only matters to the few
      methods that read the calendar, which take the location explicitly here.
    - [days_of_civil] / [civil_of_days]: the proleptic Gregorian calendar
      behind [time.Date] and [Time.Date], with both round trips proved.
    - [Location]: a [*time.Location] as its list of transitions, with the
      look-up [time.Date] makes (including its second look-up near a
      transition). *)
From S2P Require Import Prelude.

(** ** Machine integers *)

Definition min_int64 : Z := -9223372036854775808.
Definition max_int64 : Z := 9223372036854775807.
Definition max_int32 : Z := 2147483647.
Definition max_int16 : Z := 32767.

(** The value an [int64] holds after exact result [z]. *)
Definition int64 (z : Z) : Z := (z + 9223372036854775808) mod 18446744073709551616 - 9223372036854775808.

Definition in_int64 (z : Z) : Prop := min_int64 ≤ z ≤ max_int64.

#[export] Instance in_int64_dec z : Decision (in_int64 z).
Proof. unfold in_int64. apply _. Defined.

Lemma int64_range z : in_int64 (int64 z).
Proof. unfold in_int64, int64, min_int64, max_int64. Z.div_mod_to_equations; lia. Qed.

Lemma int64_id z : in_int64 z → int64 z = z.
Proof. unfold in_int64, int64, min_int64, max_int64. intros. rewrite Z.mod_small; lia. Qed.

Lemma int64_wrap z : ∃ k, int64 z = z + k * 18446744073709551616.
Proof.
  exists (- ((z + 9223372036854775808) / 18446744073709551616)). unfold int64.
  pose proof (Z.div_mod (z + 9223372036854775808) 18446744073709551616). lia.
Qed.

(** ** Durations and instants, in nanoseconds *)

Definition Microsecond : Z := 1000.
Definition Millisecond : Z := 1000 * Microsecond.
Definition Second : Z := 1000 * Millisecond.
Definition Minute : Z := 60 * Second.
Definition Hour : Z := 60 * Minute.

Abbreviation Duration := Z (only parsing).
Abbreviation time := Z (only parsing).

(** The zero [time.Time]: 1 January of year 1, UTC. *)
Definition zero_time : time := -62135596800 * Second.
Definition IsZero (t : time) : bool := t =? zero_time.

Definition Before (t u : time) : bool := t <? u.
Definition After (t u : time) : bool := u <? t.

(** [t.Add(d)]; [t.Sub(u)] saturates at the ends of [Duration]. *)
Definition Add (t : time) (d : Duration) : time := t + d.
Definition Sub (t u : time) : Duration := Z.max min_int64 (Z.min max_int64 (t - u)).

(** [t.Truncate(d)]: rounds down to a multiple of [d] since the zero time. *)
Definition Truncate (t : time) (d : Duration) : time :=
  if d <=? 0 then t else t - (t - zero_time) mod d.

Definition dur_add (a b : Duration) : Duration := int64 (a + b).

Lemma Sub_exact t u : in_int64 (t - u) → Sub t u = t - u.
Proof. unfold Sub, in_int64. lia. Qed.

Lemma Truncate_le t d : Truncate t d ≤ t.
Proof.
  unfold Truncate. destruct (Z.leb_spec d 0); [lia|].
  pose proof (Z.mod_pos_bound (t - zero_time) d). lia.
Qed.

Lemma Truncate_gt t d : 0 < d → t - d < Truncate t d.
Proof.
  intros Hd. unfold Truncate. destruct (Z.leb_spec d 0); [lia|].
  pose proof (Z.mod_pos_bound (t - zero_time) d). lia.
Qed.

Lemma Truncate_mono t u d : t ≤ u → Truncate t d ≤ Truncate u d.
Proof.
  intros H. unfold Truncate. destruct (Z.leb_spec d 0); [lia|].
  assert (He : ∀ x, x - (x - zero_time) mod d = zero_time + d * ((x - zero_time) / d)).
  { intros x. pose proof (Z.div_mod (x - zero_time) d). lia. }
  rewrite !He. pose proof (Z.div_le_mono (t - zero_time) (u - zero_time) d). nia.
Qed.

Lemma Truncate_idem t d : Truncate (Truncate t d) d = Truncate t d.
Proof.
  unfold Truncate. destruct (Z.leb_spec d 0); [done|].
  replace (t - (t - zero_time) mod d - zero_time) with (d * ((t - zero_time) / d)).
  - rewrite Z.mul_comm, Z.mod_mul by lia. lia.
  - pose proof (Z.div_mod (t - zero_time) d). lia.
Qed.

(** The zero time is a whole number of minutes before the epoch, so
    truncating to a microsecond or a minute rounds down on the epoch's clock. *)
Lemma Truncate_epoch t d : 0 < d → zero_time mod d = 0 → Truncate t d = t - t mod d.
Proof.
  intros Hd Hz. unfold Truncate. destruct (Z.leb_spec d 0); [lia|].
  f_equal. rewrite Zminus_mod, Hz, Z.sub_0_r, Z.mod_mod; lia.
Qed.

(** ** The calendar *)

Definition is_leap (y : Z) : bool := ((y mod 4 =? 0) && negb (y mod 100 =? 0)) || (y mod 400 =? 0).

Definition days_in (y m : Z) : Z :=
  if m =? 2 then (if is_leap y then 29 else 28)
  else if (m =? 4) || (m =? 6) || (m =? 9) || (m =? 11) then 30 else 31.

Definition valid_civil (y m d : Z) : Prop := 1 ≤ m ≤ 12 ∧ 1 ≤ d ≤ days_in y m.

#[export] Instance valid_civil_dec y m d : Decision (valid_civil y m d).
Proof. unfold valid_civil. apply _. Defined.

(** Days since 1 January 1970 of a date (month 1 to 12; any day number). *)
Definition days_of_civil (y m d : Z) : Z :=
  let y' := if m <=? 2 then y - 1 else y in
  let era := y' / 400 in
  let yoe := y' mod 400 in
  let mp := if m <=? 2 then m + 9 else m - 3 in
  let doy := (153 * mp + 2) / 5 + d - 1 in
  let doe := yoe * 365 + yoe / 4 - yoe / 100 + doy in
  era * 146097 + doe - 719468.

Definition civil_of_days (n : Z) : Z * Z * Z :=
  let z := n + 719468 in
  let era := z / 146097 in
  let doe := z mod 146097 in
  let yoe := (doe - doe / 1460 + doe / 36524 - doe / 146096) / 365 in
  let doy := doe - (365 * yoe + yoe / 4 - yoe / 100) in
  let mp := (5 * doy + 2) / 153 in
  let d := doy - (153 * mp + 2) / 5 + 1 in
  let m := if mp <? 10 then mp + 3 else mp - 9 in
  let y := yoe + era * 400 in
  (if m <=? 2 then y + 1 else y, m, d).

Section calendar.
#[local] Set Default Goal Selector "1".

Lemma yoe_bounds doe yoe doy : 0 ≤ doe < 146097 →
  yoe = (doe - doe / 1460 + doe / 36524 - doe / 146096) / 365 →
  doy = doe - (365 * yoe + yoe / 4 - yoe / 100) →
  0 ≤ yoe < 400 ∧ 0 ≤ doy ≤ 365.
Proof. intros H Hy Hd.
 assert (0 ≤ yoe < 400). { (Z.div_mod_to_equations; lia). }
 split; [assumption|]. (Z.div_mod_to_equations; lia). Qed.
Lemma civil_inv n : let '(y,m,d) := civil_of_days n in days_of_civil y m d = n.
Proof.
  unfold civil_of_days. cbv zeta.
  set (doe := (n + 719468) mod 146097). set (era := (n + 719468) / 146097).
  remember ((doe - doe / 1460 + doe / 36524 - doe / 146096) / 365) as yoe eqn:Hy.
  remember (doe - (365 * yoe + yoe / 4 - yoe / 100)) as doy eqn:Hd.
  assert (0 ≤ doe < 146097) by (apply Z.mod_pos_bound; lia).
  destruct (yoe_bounds doe yoe doy H Hy Hd) as [Hyb Hdb].
  remember ((5 * doy + 2) / 153) as mp eqn:Hmp.
  assert (0 ≤ mp ≤ 11) by (Z.div_mod_to_equations; lia).
  assert (Hn : n + 719468 = era * 146097 + doe) by (unfold era, doe; pose proof (Z.div_mod (n+719468) 146097); lia).
  clearbody doe era.
  unfold days_of_civil.
  destruct (mp <? 10) eqn:E; [apply Z.ltb_lt in E|apply Z.ltb_ge in E].
  - replace (mp + 3 <=? 2) with false by (symmetry; apply Z.leb_gt; lia).
    cbv iota. replace (mp + 3 <=? 2) with false by (symmetry; apply Z.leb_gt; lia).
    replace ((yoe + era * 400) / 400) with era by (Z.div_mod_to_equations; lia).
    replace ((yoe + era * 400) mod 400) with yoe by (Z.div_mod_to_equations; lia).
    replace (mp + 3 - 3) with mp by lia. lia.
  - replace (mp - 9 <=? 2) with true by (symmetry; apply Z.leb_le; lia).
    replace (yoe + era * 400 + 1 - 1) with (yoe + era * 400) by lia.
    replace ((yoe + era * 400) / 400) with era by (Z.div_mod_to_equations; lia).
    replace ((yoe + era * 400) mod 400) with yoe by (Z.div_mod_to_equations; lia).
    replace (mp - 9 + 9) with mp by lia. lia.
Qed.
Lemma civil_valid n : let '(y,m,d) := civil_of_days n in valid_civil y m d.
Proof.
  unfold civil_of_days. cbv zeta.
  set (doe := (n + 719468) mod 146097). set (era := (n + 719468) / 146097).
  remember ((doe - doe / 1460 + doe / 36524 - doe / 146096) / 365) as yoe eqn:Hy.
  remember (doe - (365 * yoe + yoe / 4 - yoe / 100)) as doy eqn:Hd.
  assert (0 ≤ doe < 146097) by (apply Z.mod_pos_bound; lia).
  destruct (yoe_bounds doe yoe doy H Hy Hd) as [Hyb Hdb].
  remember ((5 * doy + 2) / 153) as mp eqn:Hmp.
  assert (0 ≤ mp ≤ 11) by (Z.div_mod_to_equations; lia).
  assert (Hleap : doy = 365 → is_leap (yoe + 1 + era*400) = true).
  { intros ->. unfold is_leap. clearbody era. 
    assert (yoe = 399 ∨ (yoe mod 4 = 3 ∧ yoe mod 100 <> 99)) as [->|[Ha Hb]].
    { clearbody doe. Z.div_mod_to_equations; lia. }
    - replace ((399 + 1 + era * 400) mod 400) with 0 by (Z.div_mod_to_equations; lia). rewrite Bool.orb_true_r. reflexivity.
    - replace ((yoe + 1 + era*400) mod 4) with 0 by (Z.div_mod_to_equations; lia).
      replace ((yoe + 1 + era*400) mod 100 =? 0) with false; [reflexivity|].
      symmetry; apply Z.eqb_neq. Z.div_mod_to_equations; lia. }
  clearbody doe era. clear Hy Hd.
  assert (mp = 0 ∨ mp = 1 ∨ mp = 2 ∨ mp = 3 ∨ mp = 4 ∨ mp = 5 ∨ mp = 6 ∨ mp = 7 ∨ mp = 8 ∨ mp = 9 ∨ mp = 10 ∨ mp = 11) as Hc by lia.
  assert (153 * mp ≤ 5 * doy + 2 < 153 * mp + 153) by (Z.div_mod_to_equations; lia).
  unfold valid_civil, days_in.
  repeat destruct Hc as [Hc|Hc]; rewrite Hc in *; simpl; try (Z.div_mod_to_equations; lia).
  destruct (Z.eq_dec doy 365) as [->|].
  - replace (yoe + era*400 + 1) with (yoe+1+era*400) by lia. rewrite Hleap by reflexivity. simpl. Z.div_mod_to_equations; lia.
  - clear Hleap. destruct (is_leap _); Z.div_mod_to_equations; lia.
Qed.
Lemma yoe_inv yoe doy doe : 0 ≤ yoe < 400 → 0 ≤ doy ≤ 365 →
  (doy = 365 → yoe = 399 ∨ (yoe mod 4 = 3 ∧ yoe mod 100 <> 99)) →
  doe = yoe * 365 + yoe / 4 - yoe / 100 + doy →
  0 ≤ doe < 146097 ∧ (doe - doe / 1460 + doe / 36524 - doe / 146096) / 365 = yoe.
Proof.
  intros H1 H2 H3 ->. destruct (Z.eq_dec doy 365) as [->|Hn].
  - destruct (H3 eq_refl) as [->|[Ha Hb]]; [split; [Z.div_mod_to_equations; lia|reflexivity]|].
    assert (yoe = 4 * (yoe / 4) + 3) by (Z.div_mod_to_equations; lia).
    assert (yoe / 100 = yoe / 4 / 25) by (Z.div_mod_to_equations; lia).
    assert (yoe / 4 mod 25 <> 24) by (Z.div_mod_to_equations; lia).
    rewrite H0. set (q := yoe / 4) in *. clearbody q.
    split; (Z.div_mod_to_equations; lia).
  - clear H3. assert (doy ≤ 364) by lia. clear Hn. split; (Z.div_mod_to_equations; lia).
Qed.
Lemma doy_facts y m d : valid_civil y m d →
  let mp := if m <=? 2 then m + 9 else m - 3 in
  let doy := (153 * mp + 2) / 5 + d - 1 in
  0 ≤ mp ≤ 11 ∧ 0 ≤ doy ≤ 365 ∧ (5 * doy + 2) / 153 = mp ∧
  (doy = 365 → m = 2 ∧ is_leap y = true) ∧ (if mp <? 10 then mp + 3 else mp - 9) = m.
Proof.
  intros [Hm Hd] mp doy.
  assert (Hc : m = 1 ∨ m = 2 ∨ m = 3 ∨ m = 4 ∨ m = 5 ∨ m = 6 ∨ m = 7 ∨ m = 8 ∨ m = 9 ∨ m = 10 ∨ m = 11 ∨ m = 12) by lia.
  unfold days_in in Hd. unfold doy, mp. clear doy mp.
  repeat destruct Hc as [Hc|Hc]; subst m;
    cbn [Z.leb Z.ltb Z.compare Pos.compare Pos.compare_cont Z.eqb Pos.eqb orb Z.add Z.sub Z.opp Z.pos_sub Pos.add Pos.succ Pos.pred_double] in *;
    (split; [lia|]); (split; [|split; [|split; [|reflexivity]]]);
    try (Z.div_mod_to_equations; lia); destruct (is_leap y); try (Z.div_mod_to_equations; lia);
    (intros ?; split; [|]; first [reflexivity | exfalso; Z.div_mod_to_equations; lia]).
Qed.
Lemma days_inv y m d : valid_civil y m d → civil_of_days (days_of_civil y m d) = (y, m, d).
Proof.
  intros [Hm Hd]. unfold days_of_civil. cbv zeta.
  set (y' := if m <=? 2 then y - 1 else y).
  set (mp := if m <=? 2 then m + 9 else m - 3).
  set (doy := (153 * mp + 2) / 5 + d - 1).
  destruct (doy_facts y m d (conj Hm Hd)) as (Hmp & Hdoy & Hinv & Hl & Hmm). fold mp in Hmp, Hdoy, Hinv, Hl, Hmm. fold doy in Hdoy, Hinv, Hl.
  pose proof (Z.mod_pos_bound y' 400 ltac:(lia)) as Hyoe.
  pose proof (Z.div_mod y' 400 ltac:(lia)) as Hy'.
  assert (Hl' : doy = 365 → y' mod 400 = 399 ∨ (y' mod 400 mod 4 = 3 ∧ y' mod 400 mod 100 <> 99)).
  { intros E. destruct (Hl E) as [-> Hlp]. unfold y'. simpl.
    unfold is_leap in Hlp. apply Bool.orb_true_iff in Hlp as [Hlp|Hlp]; [apply andb_prop in Hlp as [Ha Hb]|].
    - apply Z.eqb_eq in Ha. apply Bool.negb_true_iff, Z.eqb_neq in Hb. right. Z.div_mod_to_equations; lia.
    - apply Z.eqb_eq in Hlp. left. Z.div_mod_to_equations; lia. }
  destruct (yoe_inv _ _ _ Hyoe Hdoy Hl' eq_refl) as [Hb Hyo].
  set (doe := y' mod 400 * 365 + y' mod 400 / 4 - y' mod 400 / 100 + doy) in *.
  unfold civil_of_days. cbv zeta.
  replace (y' / 400 * 146097 + doe - 719468 + 719468) with (doe + y' / 400 * 146097) by lia.
  rewrite Z.div_add, Z.mod_add by lia. rewrite (Z.div_small doe), (Z.mod_small doe) by lia.
  rewrite Hyo.
  replace (doe - (365 * (y' mod 400) + y' mod 400 / 4 - y' mod 400 / 100)) with doy by (unfold doe; lia).
  rewrite Hinv.
  replace (doy - (153 * mp + 2) / 5 + 1) with d by (unfold doy; lia).
  rewrite Hmm. do 2 f_equal. unfold y' in *. destruct (m <=? 2); lia.
Qed.

End calendar.

(** A day number within or past the month just counts on. *)
Lemma days_of_civil_day y m d n : days_of_civil y m (d + n) = days_of_civil y m d + n.
Proof. unfold days_of_civil. cbv zeta. lia. Qed.

Lemma civil_of_days_inj n n' : civil_of_days n = civil_of_days n' → n = n'.
Proof.
  intros E. pose proof (civil_inv n) as H. pose proof (civil_inv n') as H'. rewrite E in H.
  destruct (civil_of_days n') as [[y m] d]. congruence.
Qed.

Definition secs_per_day : Z := 86400.

(** [Time.Weekday]: Sunday is 0; 1 January 1970 was a Thursday. *)
Definition weekday_of_days (n : Z) : Z := (n + 4) mod 7.

Lemma weekday_range n : 0 ≤ weekday_of_days n < 7.
Proof. apply Z.mod_pos_bound. lia. Qed.

(** ** Locations *)

(** The UTC offset, in seconds, before the first transition, and from each
    transition (Unix seconds, increasing) on. *)
Record Location := { loc_first : Z; loc_tx : list (Z * Z) }.

Definition UTC : Location := {| loc_first := 0; loc_tx := [] |}.

(** [Location.lookup(sec)]: the offset in force, and when it starts and ends. *)
Fixpoint lookup_from (offset start : Z) (tx : list (Z * Z)) (sec : Z) : Z * Z * Z :=
  match tx with
  | [] => (offset, start, max_int64)
  | (when_, off) :: tx' =>
      if sec <? when_ then (offset, start, when_) else lookup_from off when_ tx' sec
  end.

Definition zone_lookup (loc : Location) (sec : Z) : Z * Z * Z :=
  lookup_from (loc_first loc) min_int64 (loc_tx loc) sec.

Definition zone_offset (loc : Location) (sec : Z) : Z := (zone_lookup loc sec).1.1.

(** [time.Date]: normalises the month and the clock, takes the result as
    local time, and subtracts the offset found there, looked up again when
    the instant it gives is outside that offset's period. *)
Definition unix_of_local (loc : Location) (unix : Z) : Z :=
  let '(offset, start, end_) := zone_lookup loc unix in
  if offset =? 0 then unix
  else
    let utc := unix - offset in
    if (utc <? start) || (end_ <=? utc) then unix - zone_offset loc utc else utc.

Definition date (year month day hour min sec nsec : Z) (loc : Location) : time :=
  let y := year + (month - 1) / 12 in
  let m := (month - 1) mod 12 + 1 in
  let unix := days_of_civil y m day * secs_per_day + hour * 3600 + min * 60 + sec in
  unix_of_local loc unix * Second + nsec.

(** What [t.In(loc)] shows: its day number, date and clock. *)
Definition local_secs (loc : Location) (t : time) : Z := t / Second + zone_offset loc (t / Second).
Definition local_day (loc : Location) (t : time) : Z := local_secs loc t / secs_per_day.
Definition local_date (loc : Location) (t : time) : Z * Z * Z := civil_of_days (local_day loc t).
Definition local_hour (loc : Location) (t : time) : Z := local_secs loc t mod secs_per_day / 3600.
Definition local_minute (loc : Location) (t : time) : Z := local_secs loc t mod 3600 / 60.
Definition local_second (loc : Location) (t : time) : Z := local_secs loc t mod 60.
Definition nanosecond (t : time) : Z := t mod Second.

(** A zone with no transitions, such as [Asia/Riyadh] since 1947. *)
Definition fixed_zone (off : Z) : Location := {| loc_first := off; loc_tx := [] |}.

Lemma zone_offset_fixed off sec : zone_offset (fixed_zone off) sec = off.
Proof. done. Qed.

Lemma unix_of_local_fixed off unix : unix_of_local (fixed_zone off) unix = unix - off.
Proof.
  unfold unix_of_local, zone_lookup. simpl. rewrite zone_offset_fixed.
  destruct (Z.eqb_spec off 0); [lia|]. by destruct (_ || _).
Qed.

Lemma date_month y m d h mi s ns loc :
  1 ≤ m ≤ 12 →
  date y m d h mi s ns loc =
    unix_of_local loc (days_of_civil y m d * secs_per_day + h * 3600 + mi * 60 + s) * Second + ns.
Proof.
  intros Hm. unfold date. rewrite (Z.div_small (m - 1)), (Z.mod_small (m - 1)) by lia.
  by rewrite Z.add_0_r, Z.sub_add.
Qed.

Lemma date_fixed y m d h mi s ns off :
  1 ≤ m ≤ 12 →
  date y m d h mi s ns (fixed_zone off) =
    (days_of_civil y m d * secs_per_day + h * 3600 + mi * 60 + s - off) * Second + ns.
Proof. intros Hm. by rewrite date_month, unix_of_local_fixed. Qed.

Lemma date_utc y m d h mi s ns :
  1 ≤ m ≤ 12 →
  date y m d h mi s ns UTC = (days_of_civil y m d * secs_per_day + h * 3600 + mi * 60 + s) * Second + ns.
Proof. intros Hm. rewrite (date_fixed _ _ _ _ _ _ _ 0) by done. lia. Qed.

Lemma local_secs_fixed off t : local_secs (fixed_zone off) t = t / Second + off.
Proof. done. Qed.

(** Which day an instant falls on, in a fixed zone: the day's own bounds. *)
Lemma local_day_fixed off t n :
  local_day (fixed_zone off) t = n ↔
  (n * secs_per_day - off) * Second ≤ t < ((n + 1) * secs_per_day - off) * Second.
Proof.
  unfold local_day. rewrite local_secs_fixed. unfold secs_per_day, Second, Millisecond, Microsecond.
  split; intros; Z.div_mod_to_equations; lia.
Qed.

Lemma local_day_mono off t u : t ≤ u → local_day (fixed_zone off) t ≤ local_day (fixed_zone off) u.
Proof.
  intros H. unfold local_day. rewrite !local_secs_fixed. apply Z.div_le_mono; [done|].
  pose proof (Z.div_le_mono t u Second eq_refl H). lia.
Qed.

(** The tz database's New York around 2026: the spring gap and the autumn
    overlap, as [time.Date] resolves them. *)
Definition new_york_2026 : Location :=
  {| loc_first := -18000; loc_tx := [(1772953200, -14400); (1793512800, -18000)] |}.

(** 02:30 on 8 March does not exist; [time.Date] gives 01:30 EST. 01:30 on
    1 November happens twice; [time.Date] gives the first, in EDT. *)
Example date_gap : date 2026 3 8 2 30 0 0 new_york_2026 = 1772951400 * Second.
Proof. reflexivity. Qed.
Example date_overlap : date 2026 11 1 1 30 0 0 new_york_2026 = 1793511000 * Second.
Proof. reflexivity. Qed.
