(* ===== verification/GoText.v ===== *)
(** * Go strings: UTF-8, runes, trimming, number formatting

    A Go string is its bytes; [string] here is the same, one [ascii] per
    byte. [chunks] decodes it as [for i, r := range s] does: each rune with
    the bytes it came from, an invalid byte giving U+FFFD and one byte. *)
From S2P Require Import Prelude.
From stdpp Require Export pretty.
From Stdlib Require Import Ascii.
Open Scope Z_scope.

(** ** Bytes *)

Definition byte_of (a : ascii) : Z := Z.of_N (N_of_ascii a).
Definition byte_chr (z : Z) : ascii := ascii_of_N (Z.to_N z).

Lemma byte_of_range a : 0 ≤ byte_of a < 256.
Proof. unfold byte_of. pose proof (N_ascii_bounded a). lia. Qed.

Lemma byte_of_chr z : 0 ≤ z < 256 → byte_of (byte_chr z) = z.
Proof. intros H. unfold byte_of, byte_chr. rewrite N_ascii_embedding; lia. Qed.

Lemma byte_chr_of a : byte_chr (byte_of a) = a.
Proof. unfold byte_of, byte_chr. rewrite N2Z.id. apply ascii_N_embedding. Qed.

(** ** Decoding *)

Definition RuneError : Z := 65533.

Definition in_range (lo hi b : Z) : bool := (lo <=? b) && (b <=? hi).
Definition is_cont (b : Z) : bool := in_range 128 191 b.

(** Which second bytes a lead byte of a three- or four-byte sequence accepts
    (no overlong forms, no surrogates, nothing above U+10FFFF). *)
Definition ok3 (b0 b1 : Z) : bool :=
  if b0 =? 224 then in_range 160 191 b1
  else if b0 =? 237 then in_range 128 159 b1
  else in_range 225 239 b0 && is_cont b1.
Definition ok4 (b0 b1 : Z) : bool :=
  if b0 =? 240 then in_range 144 191 b1
  else if b0 =? 244 then in_range 128 143 b1
  else in_range 241 243 b0 && is_cont b1.

Definition rune2 (b0 b1 : Z) : Z := (b0 mod 32) * 64 + b1 mod 64.
Definition rune3 (b0 b1 b2 : Z) : Z := (b0 mod 16) * 4096 + (b1 mod 64) * 64 + b2 mod 64.
Definition rune4 (b0 b1 b2 b3 : Z) : Z :=
  (b0 mod 8) * 262144 + (b1 mod 64) * 4096 + (b2 mod 64) * 64 + b3 mod 64.

Definition str1 (a : ascii) : string := String a EmptyString.

Fixpoint chunks (s : string) : list (Z * string) :=
  match s with
  | EmptyString => []
  | String a0 s0 =>
      if byte_of a0 <? 128 then (byte_of a0, str1 a0) :: chunks s0
      else match s0 with
      | EmptyString => [(RuneError, str1 a0)]
      | String a1 s1 =>
          if in_range 194 223 (byte_of a0) && is_cont (byte_of a1)
          then (rune2 (byte_of a0) (byte_of a1), String a0 (str1 a1)) :: chunks s1
          else match s1 with
          | EmptyString => (RuneError, str1 a0) :: chunks s0
          | String a2 s2 =>
              if ok3 (byte_of a0) (byte_of a1) && is_cont (byte_of a2)
              then (rune3 (byte_of a0) (byte_of a1) (byte_of a2), String a0 (String a1 (str1 a2))) :: chunks s2
              else match s2 with
              | EmptyString => (RuneError, str1 a0) :: chunks s0
              | String a3 s3 =>
                  if ok4 (byte_of a0) (byte_of a1) && is_cont (byte_of a2) && is_cont (byte_of a3)
                  then (rune4 (byte_of a0) (byte_of a1) (byte_of a2) (byte_of a3),
                        String a0 (String a1 (String a2 (str1 a3)))) :: chunks s3
                  else (RuneError, str1 a0) :: chunks s0
              end
          end
      end
  end.

(** The runes of a string, and [utf8.RuneCountInString]. *)
Definition runes (s : string) : list Z := (chunks s).*1.
Definition RuneCountInString (s : string) : Z := Z.of_nat (length (chunks s)).

(** [len(s)]: bytes. *)
Definition len (s : string) : Z := Z.of_nat (String.length s).

Fixpoint concat_strings (l : list string) : string :=
  match l with
  | [] => ""
  | s :: l => s +:+ concat_strings l
  end.

Lemma string_app_assoc (a b c : string) : (a +:+ b) +:+ c = a +:+ (b +:+ c).
Proof. induction a as [|x a IH]; [done|]. change (String x ((a +:+ b) +:+ c) = String x (a +:+ (b +:+ c))). by rewrite IH. Qed.

Lemma string_app_nil_r (a : string) : a +:+ "" = a.
Proof. induction a as [|x a IH]; [done|]. change (String x (a +:+ "") = String x a). by rewrite IH. Qed.

(** Decoding loses no byte. *)
Lemma chunks_concat s : concat_strings (chunks s).*2 = s.
Proof.
  assert (Hn : ∀ n s, (String.length s < n)%nat → concat_strings (chunks s).*2 = s); [|apply (Hn (S (String.length s))); lia].
  clear s. induction n as [|n IH]; [lia|]. intros s Hs.
  destruct s as [|a0 s0]; [done|]. cbn [String.length] in Hs.
  assert (H0 : concat_strings (chunks s0).*2 = s0) by (apply IH; lia).
  assert (He : concat_strings ((RuneError, str1 a0) :: chunks s0).*2 = String a0 s0).
  { rewrite fmap_cons. cbn [concat_strings snd]. by rewrite H0. }
  cbn [chunks]. destruct (_ <? 128); [rewrite fmap_cons; cbn [concat_strings snd]; by rewrite H0|].
  destruct s0 as [|a1 s1]; [done|]. cbn [String.length] in Hs.
  destruct (_ && _); [rewrite fmap_cons; cbn [concat_strings snd]; rewrite IH; [done|lia]|].
  destruct s1 as [|a2 s2]; [done|]. cbn [String.length] in Hs.
  destruct (ok3 _ _ && _); [rewrite fmap_cons; cbn [concat_strings snd]; rewrite IH; [done|lia]|].
  destruct s2 as [|a3 s3]; [done|]. cbn [String.length] in Hs.
  destruct (ok4 _ _ && _ && _); [rewrite fmap_cons; cbn [concat_strings snd]; rewrite IH; [done|lia]|].
  done.
Qed.

(** ** Encoding *)

(** The runes UTF-8 can write: not a surrogate, at most U+10FFFF. *)
Definition scalar (r : Z) : Prop := 0 ≤ r < 55296 ∨ 57344 ≤ r ≤ 1114111.

#[export] Instance scalar_dec r : Decision (scalar r).
Proof. unfold scalar. apply _. Defined.

(** [strings.Builder.WriteRune] of a scalar. *)
Definition encode_rune (r : Z) : string :=
  if r <? 128 then str1 (byte_chr r)
  else if r <? 2048 then String (byte_chr (192 + r / 64)) (str1 (byte_chr (128 + r mod 64)))
  else if r <? 65536 then
    String (byte_chr (224 + r / 4096)) (String (byte_chr (128 + r / 64 mod 64)) (str1 (byte_chr (128 + r mod 64))))
  else
    String (byte_chr (240 + r / 262144)) (String (byte_chr (128 + r / 4096 mod 64))
      (String (byte_chr (128 + r / 64 mod 64)) (str1 (byte_chr (128 + r mod 64))))).

Definition encode (rs : list Z) : string := concat_strings (encode_rune <$> rs).

Ltac zbool := repeat match goal with
  | |- context [?a <? ?b] => first [rewrite (proj2 (Z.ltb_lt a b)) by lia | rewrite (proj2 (Z.ltb_ge a b)) by lia]
  | |- context [?a <=? ?b] => first [rewrite (proj2 (Z.leb_le a b)) by lia | rewrite (proj2 (Z.leb_gt a b)) by lia]
  | |- context [?a =? ?b] => first [rewrite (proj2 (Z.eqb_eq a b)) by lia | rewrite (proj2 (Z.eqb_neq a b)) by lia]
  end; cbn [andb orb negb].

Lemma chunks_2 r s : 128 ≤ r < 2048 →
  chunks (encode_rune r +:+ s) = (r, encode_rune r) :: chunks s.
Proof.
  intros H. unfold encode_rune. zbool.
  set (b0 := 192 + r / 64). set (b1 := 128 + r mod 64).
  assert (Hb : 194 ≤ b0 ≤ 223 ∧ 128 ≤ b1 ≤ 191 ∧ rune2 b0 b1 = r).
  { unfold rune2, b0, b1. Z.div_mod_to_equations; lia. }
  destruct Hb as (H0 & H1 & Hr). clearbody b0 b1.
  change (String (byte_chr b0) (str1 (byte_chr b1)) +:+ s) with (String (byte_chr b0) (String (byte_chr b1) s)).
  cbn [chunks]. rewrite !byte_of_chr by lia. unfold in_range, is_cont, in_range. zbool. by rewrite Hr.
Qed.

Lemma ok3_intro b0 b1 : 224 ≤ b0 ≤ 239 → 128 ≤ b1 ≤ 191 → (b0 = 224 → 160 ≤ b1) → (b0 = 237 → b1 ≤ 159) → ok3 b0 b1 = true.
Proof.
  intros. unfold ok3, is_cont, in_range. destruct (Z.eqb_spec b0 224); [by zbool|].
  destruct (Z.eqb_spec b0 237); by zbool.
Qed.

Lemma ok4_intro b0 b1 : 240 ≤ b0 ≤ 244 → 128 ≤ b1 ≤ 191 → (b0 = 240 → 144 ≤ b1) → (b0 = 244 → b1 ≤ 143) → ok4 b0 b1 = true.
Proof.
  intros. unfold ok4, is_cont, in_range. destruct (Z.eqb_spec b0 240); [by zbool|].
  destruct (Z.eqb_spec b0 244); by zbool.
Qed.

Lemma chunks_3 r s : 2048 ≤ r < 65536 → scalar r →
  chunks (encode_rune r +:+ s) = (r, encode_rune r) :: chunks s.
Proof.
  intros H Hs. unfold encode_rune. zbool.
  set (b0 := 224 + r / 4096). set (b1 := 128 + r / 64 mod 64). set (b2 := 128 + r mod 64).
  assert (Hb : 224 ≤ b0 ≤ 239 ∧ 128 ≤ b1 ≤ 191 ∧ 128 ≤ b2 ≤ 191 ∧ rune3 b0 b1 b2 = r).
  { unfold rune3, b0, b1, b2. Z.div_mod_to_equations; lia. }
  assert (Hk : ok3 b0 b1 = true).
  { apply ok3_intro; [lia|lia|..]; unfold b0, b1; unfold scalar in Hs; Z.div_mod_to_equations; lia. }
  destruct Hb as (H0 & H1 & H2 & Hr). clearbody b0 b1 b2.
  change (String (byte_chr b0) (String (byte_chr b1) (str1 (byte_chr b2))) +:+ s)
    with (String (byte_chr b0) (String (byte_chr b1) (String (byte_chr b2) s))).
  cbn [chunks]. rewrite !byte_of_chr by lia. rewrite Hk. unfold in_range, is_cont, in_range. zbool. by rewrite Hr.
Qed.

Lemma ok3_false b0 b1 : 240 ≤ b0 → ok3 b0 b1 = false.
Proof. intros. unfold ok3, in_range. by zbool. Qed.

Lemma chunks_4 r s : 65536 ≤ r ≤ 1114111 →
  chunks (encode_rune r +:+ s) = (r, encode_rune r) :: chunks s.
Proof.
  intros H. unfold encode_rune. zbool.
  assert (r / 4096 = r / 64 / 64) as -> by (rewrite Z.div_div; [done|lia..]).
  assert (r / 262144 = r / 64 / 64 / 64) as -> by (rewrite !Z.div_div; [done|lia..]).
  pose proof (Z.div_mod r 64 ltac:(lia)) as Hu. pose proof (Z.div_mod (r / 64) 64 ltac:(lia)) as Hv.
  pose proof (Z.div_mod (r / 64 / 64) 64 ltac:(lia)) as Hw.
  pose proof (Z.mod_pos_bound r 64 ltac:(lia)). pose proof (Z.mod_pos_bound (r / 64) 64 ltac:(lia)).
  pose proof (Z.mod_pos_bound (r / 64 / 64) 64 ltac:(lia)).
  set (w := r / 64 / 64 / 64) in *. set (m2 := r / 64 / 64 mod 64) in *.
  set (m1 := r / 64 mod 64) in *. set (m0 := r mod 64) in *.
  assert (Hr0 : r = 262144 * w + 4096 * m2 + 64 * m1 + m0) by lia. clear Hu Hv Hw. clearbody w m2 m1 m0.
  set (b0 := 240 + w). set (b1 := 128 + m2). set (b2 := 128 + m1). set (b3 := 128 + m0).
  assert (Hb : 240 ≤ b0 ≤ 244 ∧ 128 ≤ b1 ≤ 191 ∧ 128 ≤ b2 ≤ 191 ∧ 128 ≤ b3 ≤ 191 ∧ rune4 b0 b1 b2 b3 = r).
  { unfold rune4, b0, b1, b2, b3. Z.div_mod_to_equations; lia. }
  assert (Hk : ok4 b0 b1 = true) by (apply ok4_intro; unfold b0, b1; lia).
  destruct Hb as (G0 & G1 & G2 & G3 & Hr). clearbody b0 b1 b2 b3.
  change (String (byte_chr b0) (String (byte_chr b1) (String (byte_chr b2) (str1 (byte_chr b3)))) +:+ s)
    with (String (byte_chr b0) (String (byte_chr b1) (String (byte_chr b2) (String (byte_chr b3) s)))).
  cbn [chunks]. rewrite !byte_of_chr by lia. rewrite Hk, (ok3_false b0 b1) by lia.
  unfold in_range, is_cont, in_range. zbool. by rewrite Hr.
Qed.

Lemma chunks_encode_rune r s : scalar r →
  chunks (encode_rune r +:+ s) = (r, encode_rune r) :: chunks s.
Proof.
  intros Hs. destruct (decide (r < 128)).
  - unfold encode_rune. zbool. change (str1 (byte_chr r) +:+ s) with (String (byte_chr r) s).
    cbn [chunks]. rewrite byte_of_chr by (unfold scalar in Hs; lia). by zbool.
  - destruct (decide (r < 2048)); [apply chunks_2; lia|].
    destruct (decide (r < 65536)); [by apply chunks_3; [lia|]|].
    apply chunks_4. unfold scalar in Hs. lia.
Qed.

(** Encoding then decoding gives the runes back. *)
Lemma runes_encode rs : Forall scalar rs → runes (encode rs) = rs.
Proof.
  induction 1 as [|r rs Hr _ IH]; [done|].
  unfold runes, encode in *. cbn [fmap list_fmap concat_strings].
  rewrite chunks_encode_rune by done. cbn. by rewrite IH.
Qed.

(** ** Trimming *)

(** [unicode.IsSpace]. *)
Definition IsSpace (r : Z) : bool :=
  in_range 9 13 r || (r =? 32) || (r =? 133) || (r =? 160) || (r =? 5760) || in_range 8192 8202 r
  || (r =? 8232) || (r =? 8233) || (r =? 8239) || (r =? 8287) || (r =? 12288).

Fixpoint drop_while {A} (f : A → bool) (l : list A) : list A :=
  match l with
  | [] => []
  | x :: l' => if f x then drop_while f l' else l
  end.

Definition trim_both {A} (f : A → bool) (l : list A) : list A :=
  reverse (drop_while f (reverse (drop_while f l))).

(** [strings.TrimSpace]. UTF-8 is self-synchronising, so looking for the last
    rune from the end, as Go does, finds the same trailing spaces. *)
Definition TrimSpace (s : string) : string :=
  concat_strings (trim_both (λ c, IsSpace c.1) (chunks s)).*2.

Lemma drop_while_split {A} (f : A → bool) l :
  ∃ pre, l = pre ++ drop_while f l ∧ Forall (λ x, f x = true) pre.
Proof.
  induction l as [|x l (pre & IH & Hpre)]; simpl; [by exists []|].
  destruct (f x) eqn:E; [|by exists []]. exists (x :: pre). simpl. rewrite <- IH. by split; [|constructor].
Qed.

Lemma drop_while_nil {A} (f : A → bool) l : drop_while f l = [] ↔ Forall (λ x, f x = true) l.
Proof.
  induction l as [|x l IH]; simpl; [done|]. rewrite Forall_cons. destruct (f x); [|naive_solver].
  rewrite IH. naive_solver.
Qed.

(** Trimming removes only [f]-elements, and only at the ends. *)
Lemma trim_both_split {A} (f : A → bool) l :
  ∃ pre post, l = pre ++ trim_both f l ++ post ∧ Forall (λ x, f x = true) (pre ++ post).
Proof.
  destruct (drop_while_split f l) as (pre & Hl & Hpre).
  destruct (drop_while_split f (reverse (drop_while f l))) as (post & Hr & Hpost).
  exists pre, (reverse post). split; [|by apply Forall_app_2; [|apply Forall_reverse]].
  unfold trim_both. rewrite <- reverse_app, <- Hr, reverse_involutive. done.
Qed.

Lemma length_trim_both {A} (f : A → bool) l : (length (trim_both f l) ≤ length l)%nat.
Proof. destruct (trim_both_split f l) as (pre & post & E & _). rewrite E at 2. rewrite !length_app. lia. Qed.

Lemma trim_both_nil {A} (f : A → bool) l : trim_both f l = [] ↔ Forall (λ x, f x = true) l.
Proof.
  unfold trim_both. split.
  - intros H. apply (f_equal reverse) in H. rewrite reverse_involutive in H. change (reverse []) with (@nil A) in H.
    rewrite drop_while_nil, Forall_reverse in H. destruct (drop_while f l) as [|x l'] eqn:E; [by apply drop_while_nil|].
    exfalso. revert E. clear -H. induction l as [|y l IH]; simpl; [done|]. destruct (f y) eqn:Hy; [done|].
    intros [= -> ->]. inversion H. congruence.
  - intros H. apply drop_while_nil in H. rewrite H. done.
Qed.

(** ** Prefixes and searching *)

(** [strings.CutPrefix]. *)
Fixpoint CutPrefix (s p : string) : option string :=
  match p with
  | EmptyString => Some s
  | String b p' =>
      match s with
      | String a s' => if Ascii.eqb a b then CutPrefix s' p' else None
      | EmptyString => None
      end
  end.

Definition HasPrefix (s p : string) : bool := match CutPrefix s p with Some _ => true | None => false end.

(** [s[n:]] for [n ≤ len(s)]. *)
Fixpoint drop_bytes (n : nat) (s : string) : string :=
  match n, s with
  | S n, String _ s => drop_bytes n s
  | _, _ => s
  end.

(** [s[:n]] for [n ≤ len(s)]. *)
Fixpoint take_bytes (n : nat) (s : string) : string :=
  match n, s with
  | S n, String a s => String a (take_bytes n s)
  | _, _ => EmptyString
  end.

(** [s[i]], 0 out of range. *)
Fixpoint byte_at (n : nat) (s : string) : Z :=
  match n, s with
  | O, String a _ => byte_of a
  | S n, String _ s => byte_at n s
  | _, EmptyString => 0
  end.

Lemma CutPrefix_app p s r : CutPrefix s p = Some r ↔ s = p +:+ r.
Proof.
  revert s. induction p as [|b p IH]; intros s.
  - change (EmptyString +:+ r) with r. destruct s; cbn; split; congruence.
  - change (String b p +:+ r) with (String b (p +:+ r)). destruct s as [|a s]; [done|]. cbn [CutPrefix].
    destruct (Ascii.eqb_spec a b) as [->|Hn]; [|naive_solver]. rewrite IH. naive_solver.
Qed.

Lemma string_length_app (a b : string) : String.length (a +:+ b) = (String.length a + String.length b)%nat.
Proof. induction a as [|x a IH]; [done|]. change (S (String.length (a +:+ b)) = S (String.length a + String.length b)%nat). by rewrite IH. Qed.

(** [strings.Join]. *)
Fixpoint join (l : list string) (sep : string) : string :=
  match l with
  | [] => ""
  | [s] => s
  | s :: l => s +:+ sep +:+ join l sep
  end.

(** ** Numbers *)

(** [%d], and [%0wd]: zeros after any sign up to width [w]. *)
Definition itoa (z : Z) : string := pretty z.

Fixpoint zeros (n : nat) : string := match n with O => "" | S n => String "0" (zeros n) end.

Definition pad (w : nat) (s : string) : string := zeros (w - String.length s) +:+ s.

Definition fmt_0d (w : nat) (z : Z) : string :=
  if z <? 0 then "-" +:+ pad (w - 1) (itoa (- z)) else pad w (itoa z).

Example fmt_0d_pads : fmt_0d 2 7 = "07". Proof. reflexivity. Qed.
Example fmt_0d_neg : fmt_0d 4 (-5) = "-005". Proof. reflexivity. Qed.
Example fmt_0d_wide : fmt_0d 2 123 = "123". Proof. reflexivity. Qed.

(** ** ASCII text *)

(** The bytes of a string. *)
Fixpoint bytes (s : string) : list Z :=
  match s with EmptyString => [] | String a s => byte_of a :: bytes s end.

Lemma bytes_app (a b : string) : bytes (a +:+ b) = bytes a ++ bytes b.
Proof. induction a as [|x a IH]; [done|]. change (byte_of x :: bytes (a +:+ b) = byte_of x :: bytes a ++ bytes b). by rewrite IH. Qed.

Lemma length_bytes s : length (bytes s) = String.length s.
Proof. induction s; simpl; congruence. Qed.

Lemma bytes_inj (s t : string) : bytes s = bytes t → s = t.
Proof.
  revert t. induction s as [|a s IH]; intros [|b t]; [done..|]. cbn [bytes]. intros [= Hab Hst].
  f_equal; [|by apply IH]. rewrite <- (byte_chr_of a), <- (byte_chr_of b). by rewrite Hab.
Qed.

Definition ascii_only (s : string) : Prop := Forall (λ b, b < 128) (bytes s).

(** ASCII text is its own runes. *)
Lemma runes_ascii s : ascii_only s → runes s = bytes s.
Proof.
  unfold ascii_only, runes. induction s as [|a s IH]; [done|]. cbn [bytes chunks]. intros H. inversion H; subst.
  rewrite (proj2 (Z.ltb_lt _ _)) by done. cbn. by rewrite IH.
Qed.

(** Text with no spaces is its own trim. *)
Lemma drop_while_id {A} (f : A → bool) l : Forall (λ x, f x = false) l → drop_while f l = l.
Proof. destruct 1 as [|x l Hx]; simpl; [done|]. by rewrite Hx. Qed.

Lemma TrimSpace_id s : Forall (λ r, IsSpace r = false) (runes s) → TrimSpace s = s.
Proof.
  unfold TrimSpace, trim_both, runes. rewrite Forall_fmap. intros H.
  rewrite (drop_while_id _ (chunks s)) by done.
  rewrite drop_while_id by by apply Forall_reverse. rewrite reverse_involutive. apply chunks_concat.
Qed.

Lemma CutPrefix_self p s : CutPrefix (p +:+ s) p = Some s.
Proof. by apply CutPrefix_app. Qed.

Lemma bytes_drop n s : bytes (drop_bytes n s) = drop n (bytes s).
Proof. revert s. induction n as [|n IH]; intros [|a s]; simpl; [done..|]. by rewrite IH. Qed.

Lemma byte_at_bytes n s b : bytes s !! n = Some b → byte_at n s = b.
Proof. revert s. induction n as [|n IH]; intros [|a s]; simpl; try done; [by intros [= <-]|apply IH]. Qed.

(** Trimming again changes nothing: cutting the decoded runes anywhere leaves
    the same runes on both sides, even in text that is not valid UTF-8. *)
Lemma chunks_error_prefix a0 p q :
  chunks (String a0 (p +:+ q)) = (RuneError, str1 a0) :: chunks (p +:+ q) →
  chunks (String a0 p) = (RuneError, str1 a0) :: chunks p.
Proof.
  intros H. destruct (byte_of a0 <? 128) eqn:E0.
  { cbn [chunks] in H. rewrite E0 in H. injection H as H. apply Z.ltb_lt in E0. unfold RuneError in H. lia. }
  destruct p as [|a1 p]; [cbn [chunks]; by rewrite E0|].
  change (String a1 p +:+ q) with (String a1 (p +:+ q)) in H. cbn [chunks] in H |- *. rewrite E0 in H |- *.
  destruct (in_range 194 223 (byte_of a0) && is_cont (byte_of a1)); [unfold str1 in H; discriminate|].
  destruct p as [|a2 p]; [done|]. change (String a2 p +:+ q) with (String a2 (p +:+ q)) in H. cbn iota in H |- *.
  destruct (ok3 (byte_of a0) (byte_of a1) && is_cont (byte_of a2)); [unfold str1 in H; discriminate|].
  destruct p as [|a3 p]; [done|]. change (String a3 p +:+ q) with (String a3 (p +:+ q)) in H. cbn iota in H |- *.
  by destruct (ok4 (byte_of a0) (byte_of a1) && is_cont (byte_of a2) && is_cont (byte_of a3)).
Qed.

Lemma concat_strings_app l l' : concat_strings (l ++ l') = concat_strings l +:+ concat_strings l'.
Proof. induction l as [|x l IH]; [done|]. cbn [app concat_strings]. by rewrite IH, string_app_assoc. Qed.

(** One step of decoding: the bytes of the first rune, and that cutting the
    rest short leaves this rune as it is. *)
Lemma chunks_cases a0 s0 :
  ∃ c cs s', String a0 s0 = cs +:+ s' ∧ cs ≠ "" ∧ chunks (String a0 s0) = (c, cs) :: chunks s' ∧
    ∀ p q, s' = p +:+ q → chunks (cs +:+ p) = (c, cs) :: chunks p.
Proof.
  assert (Herr : chunks (String a0 s0) = (RuneError, str1 a0) :: chunks s0 →
    ∃ c cs s', String a0 s0 = cs +:+ s' ∧ cs ≠ "" ∧ chunks (String a0 s0) = (c, cs) :: chunks s' ∧
      ∀ p q, s' = p +:+ q → chunks (cs +:+ p) = (c, cs) :: chunks p).
  { intros H. exists RuneError, (str1 a0), s0. split; [done|]. split; [done|]. split; [done|].
    intros p q ->. by apply (chunks_error_prefix a0 p q). }
  destruct (byte_of a0 <? 128) eqn:E0.
  { exists (byte_of a0), (str1 a0), s0. split; [done|]. split; [done|].
    assert (H : ∀ t, chunks (String a0 t) = (byte_of a0, str1 a0) :: chunks t) by (intros t; cbn [chunks]; by rewrite E0).
    split; [apply H|intros; apply H]. }
  destruct s0 as [|a1 s1]; [apply Herr; cbn [chunks]; by rewrite E0|].
  destruct (in_range 194 223 (byte_of a0) && is_cont (byte_of a1)) eqn:E1.
  { exists (rune2 (byte_of a0) (byte_of a1)), (String a0 (str1 a1)), s1. split; [done|]. split; [done|].
    assert (H : ∀ t, chunks (String a0 (String a1 t)) = (rune2 (byte_of a0) (byte_of a1), String a0 (str1 a1)) :: chunks t)
      by (intros t; cbn [chunks]; by rewrite E0, E1).
    split; [apply H|intros; apply H]. }
  destruct s1 as [|a2 s2]; [apply Herr; cbn [chunks]; by rewrite E0, E1|].
  destruct (ok3 (byte_of a0) (byte_of a1) && is_cont (byte_of a2)) eqn:E2.
  { eexists _, (String a0 (String a1 (str1 a2))), s2. split; [done|]. split; [done|].
    assert (H : ∀ t, chunks (String a0 (String a1 (String a2 t))) =
      (rune3 (byte_of a0) (byte_of a1) (byte_of a2), String a0 (String a1 (str1 a2))) :: chunks t)
      by (intros t; cbn [chunks]; by rewrite E0, E1, E2).
    split; [apply H|intros; apply H]. }
  destruct s2 as [|a3 s3]; [apply Herr; cbn [chunks]; by rewrite E0, E1, E2|].
  destruct (ok4 (byte_of a0) (byte_of a1) && is_cont (byte_of a2) && is_cont (byte_of a3)) eqn:E3.
  { eexists _, (String a0 (String a1 (String a2 (str1 a3)))), s3. split; [done|]. split; [done|].
    assert (H : ∀ t, chunks (String a0 (String a1 (String a2 (String a3 t)))) =
      (rune4 (byte_of a0) (byte_of a1) (byte_of a2) (byte_of a3), String a0 (String a1 (String a2 (str1 a3)))) :: chunks t)
      by (intros t; cbn [chunks]; by rewrite E0, E1, E2, E3).
    split; [apply H|intros; apply H]. }
  apply Herr. cbn [chunks]. by rewrite E0, E1, E2, E3.
Qed.

Lemma string_app_cancel (a b c : string) : a +:+ b = a +:+ c → b = c.
Proof. induction a as [|x a IH]; [done|]. intros H. apply IH. by injection H. Qed.

Lemma chunks_suffix l1 : ∀ s l2, chunks s = l1 ++ l2 → chunks (concat_strings l2.*2) = l2.
Proof.
  induction l1 as [|c l1 IH]; intros s l2 E; [cbn [app] in E; subst l2; by rewrite chunks_concat|].
  destruct s as [|a0 s0]; [done|]. destruct (chunks_cases a0 s0) as (c' & cs & s' & _ & _ & E' & _).
  rewrite E' in E. injection E as _ E. by eapply IH.
Qed.

Lemma chunks_prefix l1 : ∀ s l2, chunks s = l1 ++ l2 → chunks (concat_strings l1.*2) = l1.
Proof.
  induction l1 as [|c l1 IH]; intros s l2 E; [done|].
  destruct s as [|a0 s0]; [done|]. destruct (chunks_cases a0 s0) as (c' & cs & s' & _ & _ & E' & Hcut).
  rewrite E' in E. injection E as <- E. rewrite fmap_cons. cbn [concat_strings snd].
  rewrite (Hcut _ (concat_strings l2.*2)); [f_equal; by eapply IH|].
  by rewrite <- concat_strings_app, <- fmap_app, <- E, chunks_concat.
Qed.

Lemma drop_while_head {A} (f : A → bool) l : head (drop_while f l) = None ∨ ∃ x, head (drop_while f l) = Some x ∧ f x = false.
Proof. induction l as [|x l IH]; simpl; [by left|]. destruct (f x) eqn:E; [done|]. right. by exists x. Qed.

Lemma drop_while_fixed {A} (f : A → bool) l : (∀ x, head l = Some x → f x = false) → drop_while f l = l.
Proof. destruct l as [|x l]; simpl; [done|]. intros H. by rewrite (H x). Qed.

Lemma trim_both_idem {A} (f : A → bool) l : trim_both f (trim_both f l) = trim_both f l.
Proof.
  unfold trim_both. destruct (drop_while_split f (reverse (drop_while f l))) as (pre & E & _).
  set (m := drop_while f l) in *. set (k := drop_while f (reverse m)) in *.
  assert (Ek : drop_while f k = k).
  { apply drop_while_fixed. intros x Hx. destruct (drop_while_head f (reverse m)) as [H|(y & H & ?)]; unfold k in Hx; congruence. }
  rewrite (drop_while_fixed f (reverse k)), reverse_involutive, Ek; [done|].
  intros x Hx. assert (Em : m = reverse k ++ reverse pre) by (rewrite <- reverse_app, <- E; by rewrite reverse_involutive).
  assert (Hm : head m = Some x) by (rewrite Em; by destruct (reverse k)).
  destruct (drop_while_head f l) as [H|(y & H & ?)]; fold m in H; congruence.
Qed.

Lemma chunks_TrimSpace s : chunks (TrimSpace s) = trim_both (λ c, IsSpace c.1) (chunks s).
Proof.
  unfold TrimSpace. destruct (trim_both_split (λ c : Z * string, IsSpace c.1) (chunks s)) as (pre & post & E & _).
  set (m := trim_both _ _) in *. pose proof (chunks_suffix pre s _ E) as E'. by eapply chunks_prefix.
Qed.

Lemma TrimSpace_idem s : TrimSpace (TrimSpace s) = TrimSpace s.
Proof. unfold TrimSpace at 1. by rewrite chunks_TrimSpace, trim_both_idem. Qed.

Lemma RuneCount_TrimSpace s : RuneCountInString (TrimSpace s) ≤ RuneCountInString s.
Proof.
  unfold RuneCountInString. rewrite chunks_TrimSpace. pose proof (length_trim_both (λ c : Z * string, IsSpace c.1) (chunks s)). lia.
Qed.

(** ** The byte-wise order on strings ([strings.Compare]) *)

Lemma leb_cons a s b t : String.leb (String a s) (String b t) =
  match (N_of_ascii a ?= N_of_ascii b)%N with Lt => true | Eq => String.leb s t | Gt => false end.
Proof. unfold String.leb. simpl. unfold Ascii.compare. by destruct (_ ?= _)%N. Qed.

Lemma string_leb_trans a b c : String.leb a b = true → String.leb b c = true → String.leb a c = true.
Proof.
  revert b c. induction a as [|x a IH]; intros [|y b] [|z c]; try done. rewrite !leb_cons.
  destruct (N.compare_spec (N_of_ascii x) (N_of_ascii y)) as [Hxy|Hxy|Hxy]; [| |done];
    destruct (N.compare_spec (N_of_ascii y) (N_of_ascii z)) as [Hyz|Hyz|Hyz]; try done;
    destruct (N.compare_spec (N_of_ascii x) (N_of_ascii z)) as [Hxz|Hxz|Hxz]; try done; try lia. apply IH.
Qed.

Lemma string_leb_total a b : String.leb a b = false → String.leb b a = true.
Proof. intros E. destruct (String.leb_total a b); congruence. Qed.

(** Decoding only gives scalars. *)
Lemma chunks_scalar s : Forall (λ c, scalar c.1) (chunks s).
Proof.
  assert (Herr : scalar RuneError) by (unfold scalar, RuneError; lia).
  assert (Hn : (String.length s ≤ String.length s)%nat) by lia. revert Hn. generalize (String.length s) at 2 as n. intros n. revert s. induction n as [|n IH]; intros [|a0 s0] Hn; [by constructor|cbn in Hn; lia|by constructor|].
  cbn [String.length] in Hn. cbn [chunks]. pose proof (byte_of_range a0).
  destruct (Z.ltb_spec (byte_of a0) 128); [constructor; [unfold scalar; cbn; lia|apply IH; cbn [String.length] in *; lia]|].
  destruct s0 as [|a1 s1]; [by constructor|]. pose proof (byte_of_range a1).
  destruct (in_range 194 223 (byte_of a0) && is_cont (byte_of a1)) eqn:E1.
  { constructor; [|apply IH; cbn [String.length] in *; lia]. unfold is_cont, in_range in E1. bool_prop. unfold scalar, rune2. cbn. Z.to_euclidean_division_equations. lia. }
  destruct s1 as [|a2 s2]; [by constructor; [|apply IH; cbn [String.length] in *; lia]|]. pose proof (byte_of_range a2).
  destruct (ok3 (byte_of a0) (byte_of a1) && is_cont (byte_of a2)) eqn:E2.
  { constructor; [|apply IH; cbn [String.length] in *; lia]. unfold ok3, is_cont, in_range in E2. apply andb_prop in E2 as [E2 E3]. bool_prop. unfold scalar, rune3. cbn.
    destruct (Z.eqb_spec (byte_of a0) 237); destruct (Z.eqb_spec (byte_of a0) 224); bool_prop; Z.to_euclidean_division_equations; lia. }
  destruct s2 as [|a3 s3]; [by constructor; [|apply IH; cbn [String.length] in *; lia]|]. pose proof (byte_of_range a3).
  destruct (ok4 (byte_of a0) (byte_of a1) && is_cont (byte_of a2) && is_cont (byte_of a3)) eqn:E3; [|by constructor; [|apply IH; cbn [String.length] in *; lia]].
  constructor; [|apply IH; cbn [String.length] in *; lia]. unfold ok4, is_cont, in_range in E3. bool_prop. unfold scalar, rune4. cbn.
  destruct (Z.eqb_spec (byte_of a0) 240); destruct (Z.eqb_spec (byte_of a0) 244); bool_prop; Z.to_euclidean_division_equations; lia.
Qed.
