(* ===== verification/GoCrypto.v ===== *)
(** * crypto/sha256

    The digest the program fingerprints requests, codes and tokens with, on
    byte strings. Words are Z modulo 2^32. *)
From S2P Require Import Prelude GoText.
Open Scope Z_scope.

Definition word32 (z : Z) : Z := z mod 4294967296.
Definition rotr (n x : Z) : Z := Z.lor (Z.shiftr x n) (word32 (Z.shiftl x (32 - n))).

(** The constants, as FIPS 180-4 derives them: 32 bits of the fractions of
    the roots of the first primes. *)
Definition is_prime (n : nat) : bool := forallb (λ d, negb (n mod d =? 0)%nat) (seq 2 (n - 2)).
Definition primes (n : nat) : list Z := Z.of_nat <$> take n (List.filter is_prime (seq 2 400)).

(** The whole part of a cube root, bit by bit. *)
Fixpoint cube_root (bits : nat) (r n : Z) : Z :=
  match bits with
  | O => r
  | S i =>
      let r' := r + 2 ^ Z.of_nat i in
      cube_root i (if r' * r' * r' <=? n then r' else r) n
  end.

Definition sha_k : list Z := Eval vm_compute in (λ p, word32 (cube_root 36 0 (p * 2 ^ 96))) <$> primes 64.
Definition sha_init : list Z := Eval vm_compute in (λ p, word32 (Z.sqrt (p * 2 ^ 64))) <$> primes 8.

(** The message schedule, the last sixteen words first. *)
Fixpoint schedule (n : nat) (w : list Z) : list Z :=
  match n with
  | O => w
  | S n =>
      let at_ i := default 0 (w !! i) in
      let s0 := Z.lxor (Z.lxor (rotr 7 (at_ 14%nat)) (rotr 18 (at_ 14%nat))) (Z.shiftr (at_ 14%nat) 3) in
      let s1 := Z.lxor (Z.lxor (rotr 17 (at_ 1%nat)) (rotr 19 (at_ 1%nat))) (Z.shiftr (at_ 1%nat) 10) in
      schedule n (word32 (at_ 15%nat + s0 + at_ 6%nat + s1) :: w)
  end.

Definition sha_round (h : list Z) (kw : Z * Z) : list Z :=
  match h with
  | [a; b; c; d; e; f; g; hh] =>
      let s1 := Z.lxor (Z.lxor (rotr 6 e) (rotr 11 e)) (rotr 25 e) in
      let ch := Z.lxor (Z.land e f) (Z.land (Z.lxor e 4294967295) g) in
      let t1 := word32 (hh + s1 + ch + kw.1 + kw.2) in
      let s0 := Z.lxor (Z.lxor (rotr 2 a) (rotr 13 a)) (rotr 22 a) in
      let maj := Z.lxor (Z.lxor (Z.land a b) (Z.land a c)) (Z.land b c) in
      let t2 := word32 (s0 + maj) in
      [word32 (t1 + t2); a; b; c; word32 (d + t1); e; f; g]
  | _ => h
  end.

Definition sha_block (h : list Z) (block : list Z) : list Z :=
  zip_with (λ x y, word32 (x + y)) h (foldl sha_round h (zip sha_k (reverse (schedule 48 (reverse block))))).

(** Big-endian words of four bytes. *)
Fixpoint words (l : list Z) : list Z :=
  match l with
  | a :: b :: c :: d :: l => (a * 16777216 + b * 65536 + c * 256 + d) :: words l
  | _ => []
  end.

Definition big_endian (n : nat) (z : Z) : list Z :=
  (λ i, Z.shiftr z (8 * Z.of_nat i) mod 256) <$> reverse (seq 0 n).

Definition sha_pad (l : list Z) : list Z :=
  l ++ 128 :: replicate (Z.to_nat ((55 - Z.of_nat (length l)) mod 64)) 0 ++ big_endian 8 (8 * Z.of_nat (length l)).

Fixpoint sha_blocks (n : nat) (h ws : list Z) : list Z :=
  match n with
  | O => h
  | S n => sha_blocks n (sha_block h (take 16 ws)) (drop 16 ws)
  end.

Fixpoint string_of_bytes (l : list Z) : string :=
  match l with
  | [] => ""
  | b :: l => String (byte_chr b) (string_of_bytes l)
  end.

(** [sha256.Sum256], as a byte string. *)
Definition Sum256 (s : string) : string :=
  let ws := words (sha_pad (bytes s)) in
  string_of_bytes (mjoin (big_endian 4 <$> sha_blocks (length ws / 16) sha_init ws)).

(** The test vector of "abc". *)
Lemma Sum256_abc :
  bytes (Sum256 "abc") =
  [0xba; 0x78; 0x16; 0xbf; 0x8f; 0x01; 0xcf; 0xea; 0x41; 0x41; 0x40; 0xde; 0x5d; 0xae; 0x22; 0x23;
   0xb0; 0x03; 0x61; 0xa3; 0x96; 0x17; 0x7a; 0x9c; 0xb4; 0x10; 0xff; 0x61; 0xf2; 0x00; 0x15; 0xad].
Proof. vm_compute. reflexivity. Qed.

Lemma sha_round_length h kw : length h = 8%nat → length (sha_round h kw) = 8%nat.
Proof. by do 8 (destruct h as [|? h]; [done|]); destruct h. Qed.

Lemma sha_blocks_length n h ws : length h = 8%nat → length (sha_blocks n h ws) = 8%nat.
Proof.
  revert h ws. induction n as [|n IH]; intros h ws Hh; simpl; [done|]. apply IH. unfold sha_block.
  assert (Hr : ∀ l x, length x = 8%nat → length (foldl sha_round x l) = 8%nat).
  { induction l as [|kw l IHl]; intros x Hx; simpl; [done|]. by apply IHl, sha_round_length. }
  rewrite length_zip_with, Hr, Hh by done. done.
Qed.

(** Every digest has 32 bytes. *)
Lemma len_Sum256 s : len (Sum256 s) = 32.
Proof.
  unfold Sum256, len. set (h := sha_blocks _ _ _). assert (Hh : length h = 8%nat) by (by apply sha_blocks_length).
  assert (Hl : ∀ l, String.length (string_of_bytes l) = length l) by (induction l; simpl; congruence).
  rewrite Hl. clearbody h. do 8 (destruct h as [|? h]; [done|]). by destruct h.
Qed.
