(* ===== verification/GoEncoding.v ===== *)
(** * crypto/hmac and encoding/base64

    HMAC-SHA256, the keyed digest of login codes and cursors, and
    [base64.RawURLEncoding], the text of tokens, both on byte strings. *)
From S2P Require Import Prelude GoText GoCrypto.
Open Scope Z_scope.

(** ** HMAC-SHA256 (RFC 2104) *)

(** The key filled up to a block of 64 bytes; a longer key is hashed first. *)
Definition hmac_key (key : string) : list Z :=
  let k := bytes (if 64 <? len key then Sum256 key else key) in
  k ++ replicate (64 - length k) 0.

Definition xor_key (pad : Z) (key : string) : string := string_of_bytes ((λ b, Z.lxor b pad) <$> hmac_key key).

(** [hmac.New(sha256.New, key)], written [msg] and summed. *)
Definition HMAC_Sum256 (key msg : string) : string :=
  Sum256 (xor_key 0x5c key +:+ Sum256 (xor_key 0x36 key +:+ msg)).

(** RFC 4231, test case 2. *)
Lemma HMAC_rfc4231 :
  bytes (HMAC_Sum256 "Jefe" "what do ya want for nothing?") =
  [0x5b; 0xdc; 0xc1; 0x46; 0xbf; 0x60; 0x75; 0x4e; 0x6a; 0x04; 0x24; 0x26; 0x08; 0x95; 0x75; 0xc7;
   0x5a; 0x00; 0x3f; 0x08; 0x9d; 0x27; 0x39; 0x83; 0x9d; 0xec; 0x58; 0xb9; 0x64; 0xec; 0x38; 0x43].
Proof. vm_compute. reflexivity. Qed.

Lemma len_HMAC key msg : len (HMAC_Sum256 key msg) = 32.
Proof. apply len_Sum256. Qed.

(** ** Base64 with the URL alphabet, unpadded *)

Definition b64_char (v : Z) : Z :=
  if v <? 26 then 65 + v else if v <? 52 then 97 + (v - 26) else if v <? 62 then 48 + (v - 52) else if v =? 62 then 45 else 95.

Definition b64_value (c : Z) : option Z :=
  if in_range 65 90 c then Some (c - 65)
  else if in_range 97 122 c then Some (c - 97 + 26)
  else if in_range 48 57 c then Some (c - 48 + 52)
  else if c =? 45 then Some 62 else if c =? 95 then Some 63 else None.

(** Bytes to six-bit digits, and back: the bits left over at the end are zero
    when written and ignored when read. *)
Fixpoint b64_digits (l : list Z) : list Z :=
  match l with
  | a :: b :: c :: l => a / 4 :: (a mod 4) * 16 + b / 16 :: (b mod 16) * 4 + c / 64 :: c mod 64 :: b64_digits l
  | [a; b] => [a / 4; (a mod 4) * 16 + b / 16; (b mod 16) * 4]
  | [a] => [a / 4; (a mod 4) * 16]
  | [] => []
  end.

Fixpoint b64_bytes (l : list Z) : option (list Z) :=
  match l with
  | w :: x :: y :: z :: l => (λ r, w * 4 + x / 16 :: (x mod 16) * 16 + y / 4 :: (y mod 4) * 64 + z :: r) <$> b64_bytes l
  | [w; x; y] => Some [w * 4 + x / 16; (x mod 16) * 16 + y / 4]
  | [w; x] => Some [w * 4 + x / 16]
  | [_] => None
  | [] => Some []
  end.

Definition EncodeToString (b : list Z) : string := string_of_bytes (b64_char <$> b64_digits b).

(** Line breaks are skipped, as the decoder does. *)
Definition line_break (b : Z) : bool := (b =? 10) || (b =? 13).

Definition DecodeString (s : string) : option (list Z) :=
  mapM b64_value (List.filter (λ b, negb (line_break b)) (bytes s)) ≫= b64_bytes.

Definition is_byte (b : Z) : Prop := 0 ≤ b < 256.

(** What holds of every number below [n] holds where it computes. *)
Lemma below_forall (n : nat) (p : Z → bool) :
  forallb p (seqZ 0 (Z.of_nat n)) = true → ∀ z, 0 ≤ z < Z.of_nat n → p z = true.
Proof. intros H z Hz. rewrite forallb_forall in H. apply H, list_elem_of_In, elem_of_seqZ. lia. Qed.

Lemma b64_value_char v : 0 ≤ v < 64 → b64_value (b64_char v) = Some v ∧ line_break (b64_char v) = false ∧ is_byte (b64_char v).
Proof.
  intros Hv. pose (p := λ v, bool_decide (b64_value (b64_char v) = Some v) && negb (line_break (b64_char v)) && (0 <=? b64_char v) && (b64_char v <? 256)).
  assert (Hp : p v = true) by (by apply (below_forall 64)). unfold p in Hp. bool_prop. unfold is_byte. by split_and!.
Qed.

(** Three bytes at a time. *)
Lemma by_threes (P : list Z → Prop) :
  P [] → (∀ a, P [a]) → (∀ a b, P [a; b]) → (∀ a b c l, P l → P (a :: b :: c :: l)) → ∀ l, P l.
Proof.
  intros H0 H1 H2 H3. fix IH 1. intros [|a [|b [|c l]]]; [done|apply H1|apply H2|apply H3, IH].
Qed.

Ltac byte_arith := unfold is_byte in *; Z.to_euclidean_division_equations; lia.

Lemma b64_digits_range l : Forall is_byte l → Forall (λ v, 0 ≤ v < 64) (b64_digits l).
Proof.
  induction l as [|a|a b|a b c l IH] using by_threes; cbn [b64_digits]; rewrite ?Forall_cons; intros Hl; [done|..].
  - destruct Hl as [? _]. split_and!; [byte_arith..|done].
  - destruct Hl as (? & ? & _). split_and!; [byte_arith..|done].
  - destruct Hl as (? & ? & ? & ?). split_and!; [byte_arith..|by apply IH].
Qed.

Lemma b64_bytes_digits l : Forall is_byte l → b64_bytes (b64_digits l) = Some l.
Proof.
  induction l as [|a|a b|a b c l IH] using by_threes; cbn [b64_digits b64_bytes]; rewrite ?Forall_cons; intros Hl; [done|..].
  - destruct Hl as [? _]. do 2 f_equal. byte_arith.
  - destruct Hl as (? & ? & _). do 2 f_equal; [byte_arith|]. f_equal. byte_arith.
  - destruct Hl as (? & ? & ? & ?). rewrite IH by done. cbn [fmap option_fmap option_map]. f_equal. f_equal; [byte_arith|].
    f_equal; [byte_arith|]. f_equal. byte_arith.
Qed.

Lemma length_digits l : Z.of_nat (length (b64_digits l)) = (4 * Z.of_nat (length l) + 2) / 3.
Proof. induction l as [|a|a b|a b c l IH] using by_threes; cbn [b64_digits length]; [done..|]. rewrite !Nat2Z.inj_succ, IH. byte_arith. Qed.

Lemma bytes_of_string l : Forall is_byte l → bytes (string_of_bytes l) = l.
Proof. induction 1 as [|b l Hb _ IH]; [done|]. cbn [string_of_bytes bytes]. by rewrite IH, byte_of_chr. Qed.

Lemma bytes_EncodeToString b : Forall is_byte b → bytes (EncodeToString b) = b64_char <$> b64_digits b.
Proof.
  intros Hb%b64_digits_range. unfold EncodeToString. apply bytes_of_string, Forall_fmap. eapply Forall_impl; [exact Hb|].
  intros v Hv. by apply b64_value_char.
Qed.

Lemma len_EncodeToString b : Forall is_byte b → len (EncodeToString b) = (4 * Z.of_nat (length b) + 2) / 3.
Proof. intros Hb. unfold len. by rewrite <- length_bytes, bytes_EncodeToString, length_fmap, length_digits. Qed.

(** Decoding what was encoded gives it back. *)
Lemma DecodeString_Encode b : Forall is_byte b → DecodeString (EncodeToString b) = Some b.
Proof.
  intros Hb. unfold DecodeString. rewrite bytes_EncodeToString by done. pose proof (b64_digits_range b Hb) as Hd.
  assert (Hf : List.filter (λ b, negb (line_break b)) (b64_char <$> b64_digits b) = b64_char <$> b64_digits b).
  { induction Hd as [|v l Hv _ IH]; [done|]. cbn [fmap list_fmap List.filter]. destruct (b64_value_char v Hv) as (_ & -> & _). by rewrite IH. }
  rewrite Hf. assert (Hm : mapM b64_value (b64_char <$> b64_digits b) = Some (b64_digits b)).
  { apply mapM_Some. clear Hf. induction Hd as [|v l Hv _ IH]; constructor; [by apply b64_value_char|done]. }
  rewrite Hm. cbn [mbind option_bind]. by apply b64_bytes_digits.
Qed.
