(* ===== verification/Shared.v ===== *)
(** * The shared kernel (src/internal/shared)

    The value objects every module agrees on: typed IDs, half-open intervals,
    money in minor units, bilingual text, Saudi mobile numbers, map points,
    and the city and category reference lists. *)
From S2P Require Import Prelude GoTime GoText.
From Stdlib Require Import SpecFloat DecimalString DecimalN.
Open Scope Z_scope.

(** ** Typed IDs (id.go) *)

(** A [uuid.UUID] as its sixteen bytes read as one number; [uuid.Nil] is 0. *)
Abbreviation UUID := N.

Record ID (T : Type) : Type := MkID { value : UUID }.
Arguments MkID {T} value.
Arguments value {T} _.

Inductive UserTag : Type := .
Inductive BusinessTag : Type := .
Inductive BranchTag : Type := .
Inductive StaffTag : Type := .
Inductive MediaTag : Type := .
Inductive ServiceTag : Type := .
Inductive AppointmentTag : Type := .

Abbreviation UserID := (ID UserTag).
Abbreviation BusinessID := (ID BusinessTag).
Abbreviation BranchID := (ID BranchTag).
Abbreviation StaffID := (ID StaffTag).
Abbreviation MediaID := (ID MediaTag).
Abbreviation ServiceID := (ID ServiceTag).
Abbreviation AppointmentID := (ID AppointmentTag).

#[export] Instance ID_eq_dec T : EqDecision (ID T).
Proof. solve_decision. Defined.
#[export] Instance ID_countable T : Countable (ID T).
Proof. refine (inj_countable' value MkID _). by intros []. Defined.

Definition ID_IsZero {T} (id : ID T) : bool := bool_decide (value id = 0%N).

(** What the program relies on in github.com/google/uuid: the canonical text
    is one-to-one, and parsing it gives the UUID back. *)
Class UuidLib := {
  uuid_parse : string → option UUID;
  uuid_string : UUID → string;
  uuid_parse_string u : uuid_parse (uuid_string u) = Some u;
}.

Inductive id_error := ErrInvalidID.

Definition ParseID {T} `{UuidLib} (s : string) : res id_error (ID T) :=
  match uuid_parse s with
  | None => Err ErrInvalidID
  | Some u => if bool_decide (u = 0%N) then Err ErrInvalidID else Ok (MkID u)
  end.

Definition IDFromUUID {T} (u : UUID) : ID T := MkID u.
Definition ID_String {T} `{UuidLib} (id : ID T) : string := uuid_string (value id).

(** [MarshalText] and [UnmarshalText]: IDs in JSON. *)
Definition MarshalText {T} `{UuidLib} (id : ID T) : string := ID_String id.
Definition UnmarshalText {T} `{UuidLib} (old : ID T) (b : string) : res id_error (ID T) :=
  let! parsed := ParseID b in Ok parsed.

Lemma uuid_string_inj `{UuidLib} u v : uuid_string u = uuid_string v → u = v.
Proof.
  intros E. pose proof (uuid_parse_string u) as Hu. rewrite E, uuid_parse_string in Hu. congruence.
Qed.

Lemma ParseID_nonzero {T} `{UuidLib} s (id : ID T) : ParseID s = Ok id → ID_IsZero id = false.
Proof.
  unfold ParseID. destruct (uuid_parse s); [|done]. case_bool_decide; [done|].
  intros [= <-]. by apply bool_decide_eq_false_2.
Qed.

(** ** Intervals (interval.go) *)

Inductive interval_error := ErrInvalidInterval.

(** A half-open time range [[i_start, i_end)]. *)
Record Interval := MkInterval { i_start : time; i_end : time }.

#[export] Instance Interval_eq_dec : EqDecision Interval.
Proof. solve_decision. Defined.

Definition NewInterval (start end_ : time) : res interval_error Interval :=
  if negb (After end_ start) then Err ErrInvalidInterval else Ok (MkInterval start end_).

Definition Interval_Duration (i : Interval) : Duration := Sub (i_end i) (i_start i).
Definition Overlaps (i o : Interval) : bool := Before (i_start i) (i_end o) && Before (i_start o) (i_end i).
Definition Contains (i : Interval) (t : time) : bool := negb (Before t (i_start i)) && Before t (i_end i).
Definition Covers (i o : Interval) : bool :=
  negb (Before (i_start o) (i_start i)) && negb (After (i_end o) (i_end i)).

(** A constructed interval is not empty. *)
Definition nonempty (i : Interval) : Prop := i_start i < i_end i.

#[export] Instance nonempty_dec i : Decision (nonempty i).
Proof. unfold nonempty. apply _. Defined.

(** The instants of an interval. *)
Definition in_span (t : time) (i : Interval) : Prop := i_start i ≤ t < i_end i.

#[export] Instance in_span_dec t i : Decision (in_span t i).
Proof. unfold in_span. apply _. Defined.

Lemma NewInterval_ok s e i : NewInterval s e = Ok i ↔ i = MkInterval s e ∧ s < e.
Proof.
  unfold NewInterval, After. destruct (Z.ltb_spec s e); simpl.
  - split; [by intros [= <-]|by intros [-> _]].
  - split; [done|lia].
Qed.

Lemma NewInterval_nonempty s e i : NewInterval s e = Ok i → nonempty i.
Proof. rewrite NewInterval_ok. by intros [-> ?]. Qed.

Lemma Contains_spec i t : Contains i t = true ↔ in_span t i.
Proof. unfold Contains, Before, in_span. rewrite andb_true_iff, negb_true_iff, Z.ltb_ge, Z.ltb_lt. done. Qed.

(** Overlapping is sharing an instant, for intervals that are not empty. *)
Lemma Overlaps_spec i o :
  nonempty i → nonempty o → Overlaps i o = true ↔ ∃ t, in_span t i ∧ in_span t o.
Proof.
  unfold Overlaps, Before, nonempty, in_span. intros Hi Ho.
  rewrite andb_true_iff, !Z.ltb_lt. split.
  - intros [H1 H2]. exists (Z.max (i_start i) (i_start o)). lia.
  - intros (t & ? & ?). lia.
Qed.

Lemma Covers_spec i o : nonempty o → Covers i o = true ↔ ∀ t, in_span t o → in_span t i.
Proof.
  unfold Covers, Before, After, nonempty, in_span. intros Ho.
  rewrite andb_true_iff, !negb_true_iff, !Z.ltb_ge. split.
  - intros [H1 H2] t Ht. lia.
  - intros H. pose proof (H (i_start o)). pose proof (H (i_end o - 1)). lia.
Qed.

Lemma Overlaps_false i o : Overlaps i o = false ↔ i_end i ≤ i_start o ∨ i_end o ≤ i_start i.
Proof. unfold Overlaps, Before. rewrite andb_false_iff, !Z.ltb_ge. lia. Qed.

Lemma Covers_true i o : Covers i o = true ↔ i_start i ≤ i_start o ∧ i_end o ≤ i_end i.
Proof. unfold Covers, Before, After. rewrite andb_true_iff, !negb_true_iff, !Z.ltb_ge. done. Qed.

#[export] Hint Resolve NewInterval_nonempty : go.

(** ** Money (money.go) *)

Inductive money_error := ErrUnsupportedCurrency | ErrCurrencyMismatch | ErrMoneyOverflow.

Abbreviation Currency := string (only parsing).
Definition SAR : Currency := "SAR".

(** [minorPerMajor[currency]]. *)
Definition minorPerMajor (c : Currency) : option Z := if bool_decide (c = SAR) then Some 100 else None.

Record Money := MkMoney { amount : Z; currency : Currency }.

#[export] Instance Money_eq_dec : EqDecision Money.
Proof. solve_decision. Defined.

Definition NewMoney (a : Z) (c : Currency) : res money_error Money :=
  match minorPerMajor c with
  | None => Err ErrUnsupportedCurrency
  | Some _ => Ok (MkMoney a c)
  end.

Definition Halalas (a : Z) : Money := MkMoney a SAR.
Definition Money_IsZero (m : Money) : bool := amount m =? 0.
Definition IsNegative (m : Money) : bool := amount m <? 0.

Definition Money_Add (m o : Money) : res money_error Money :=
  if negb (bool_decide (currency m = currency o)) then Err ErrCurrencyMismatch
  else if ((0 <? amount o) && (int64 (max_int64 - amount o) <? amount m))
       || ((amount o <? 0) && (amount m <? int64 (min_int64 - amount o))) then Err ErrMoneyOverflow
  else Ok (MkMoney (int64 (amount m + amount o)) (currency m)).

Definition Multiply (m : Money) (n : Z) : res money_error Money :=
  let product := int64 (amount m * n) in
  if negb (amount m =? 0)
     && (negb (int64 (Z.quot product (amount m)) =? n) || ((amount m =? -1) && (n =? min_int64)))
  then Err ErrMoneyOverflow
  else Ok (MkMoney product (currency m)).

Definition Money_String (m : Money) : string :=
  match minorPerMajor (currency m) with
  | None => itoa (amount m) +:+ " " +:+ currency m
  | Some per =>
      let whole := Z.quot (amount m) per in
      let frac := Z.rem (amount m) per in
      let '(whole, frac, sign) :=
        if amount m <? 0 then (int64 (- whole), int64 (- frac), "-") else (whole, frac, "") in
      sign +:+ itoa whole +:+ "." +:+ fmt_0d 2 frac +:+ " " +:+ currency m
  end.

(** A Go [Money] holds an [int64]. *)
Definition money_ok (m : Money) : Prop := in_int64 (amount m).

Lemma Money_Add_spec m o :
  money_ok m → money_ok o →
  Money_Add m o =
    if decide (currency m ≠ currency o) then Err ErrCurrencyMismatch
    else if decide (in_int64 (amount m + amount o)) then Ok (MkMoney (amount m + amount o) (currency m))
    else Err ErrMoneyOverflow.
Proof.
  unfold money_ok. intros Hm Ho. unfold Money_Add. case_bool_decide as Hc; simpl; [|by rewrite decide_True].
  rewrite decide_False by tauto.
  destruct (decide (in_int64 (amount m + amount o))) as [Hr|Hr].
  - rewrite (int64_id _ Hr). unfold in_int64 in *. unfold min_int64, max_int64 in *.
    destruct (Z.ltb_spec 0 (amount o)), (Z.ltb_spec (amount o) 0); simpl; try lia; try done.
    + rewrite int64_id by (unfold in_int64, min_int64, max_int64; lia).
      by rewrite (proj2 (Z.ltb_ge _ _)) by lia.
    + rewrite int64_id by (unfold in_int64, min_int64, max_int64; lia).
      by rewrite (proj2 (Z.ltb_ge _ _)) by lia.
  - unfold in_int64 in *. unfold min_int64, max_int64 in *.
    destruct (Z.ltb_spec 0 (amount o)), (Z.ltb_spec (amount o) 0); simpl; try lia.
    + rewrite int64_id by (unfold in_int64, min_int64, max_int64; lia).
      by rewrite (proj2 (Z.ltb_lt _ _)) by lia.
    + rewrite int64_id by (unfold in_int64, min_int64, max_int64; lia).
      by rewrite (proj2 (Z.ltb_lt _ _)) by lia.
Qed.

(** Dividing the wrapped product back detects every overflow but one. *)
Lemma wrapped_product_exact a n :
  in_int64 a → in_int64 n → a ≠ 0 → int64 (Z.quot (int64 (a * n)) a) = n →
  ¬ (a = -1 ∧ n = min_int64) → int64 (a * n) = a * n.
Proof.
  intros Ha Hn Ha0 Hq Hx. pose proof (int64_range (a * n)) as Hp.
  destruct (int64_wrap (a * n)) as [k Hk]. set (p := int64 (a * n)) in *.
  assert (Hquot : Z.quot p a = n).
  { destruct (decide (a = -1 ∧ p = min_int64)) as [[-> Hpm]|Hd].
    - destruct Hx. split; [done|]. by rewrite <- Hq, Hpm.
    - rewrite <- Hq. symmetry. apply int64_id. unfold in_int64, min_int64, max_int64 in *.
      destruct (decide (a = -1)) as [->|]; [change (-1) with (- (1)); rewrite Z.quot_opp_r, Z.quot_1_r; lia|].
      destruct (decide (a = 1)) as [->|]; [rewrite Z.quot_1_r; lia|].
      pose proof (Z.quot_abs p a Ha0) as Hqa.
      assert (Z.abs p ÷ Z.abs a ≤ Z.abs p ÷ 2) by (apply Z.quot_le_compat_l; lia).
      assert (Z.abs p ÷ 2 ≤ 4611686018427387904).
      { change 4611686018427387904 with (9223372036854775808 ÷ 2). apply Z.quot_le_mono; lia. }
      lia. }
  pose proof (Z.quot_rem' p a) as Hd. rewrite Hquot in Hd.
  pose proof (Z.rem_bound_abs p a Ha0) as Hr. unfold in_int64, min_int64, max_int64 in *. lia.
Qed.

Lemma Multiply_spec m n :
  money_ok m → in_int64 n →
  Multiply m n =
    if decide (in_int64 (amount m * n)) then Ok (MkMoney (amount m * n) (currency m))
    else Err ErrMoneyOverflow.
Proof.
  unfold money_ok, Multiply. intros Hm Hn. destruct (Z.eqb_spec (amount m) 0) as [->|H0]; cbn [negb andb].
  { rewrite Z.mul_0_l, decide_True; [done|by vm_compute]. }
  destruct (decide (in_int64 (amount m * n))) as [Hr|Hr].
  - rewrite (int64_id _ Hr). rewrite Z.mul_comm, Z.quot_mul, (int64_id n), Z.eqb_refl by done. simpl.
    destruct (Z.eqb_spec (amount m) (-1)) as [E|]; simpl; [|by rewrite Z.mul_comm].
    destruct (Z.eqb_spec n min_int64) as [->|]; simpl; [|by rewrite Z.mul_comm].
    exfalso. rewrite E in Hr. unfold in_int64, min_int64, max_int64 in Hr. lia.
  - destruct (negb _ || _) eqn:E; [done|]. exfalso. apply Hr. bool_prop.
    rewrite <- (wrapped_product_exact (amount m) n); [apply int64_range|done..|].
    intros [Ha Hb]. rewrite Ha, Hb in *. done.
Qed.

(** ** Localised text (localized.go) *)

Inductive Language := Arabic | English.

#[export] Instance Language_eq_dec : EqDecision Language.
Proof. solve_decision. Defined.

Definition Language_string (l : Language) : string := match l with Arabic => "ar" | English => "en" end.

(** [strings.ToLower] on ASCII letters. No other letter's lower case is an
    ASCII letter of "en", so this decides the comparison below as Go does. *)
Definition lower_ascii (a : Ascii.ascii) : Ascii.ascii :=
  if in_range 65 90 (byte_of a) then byte_chr (byte_of a + 32) else a.
Fixpoint ToLower (s : string) : string :=
  match s with EmptyString => "" | String a s => String (lower_ascii a) (ToLower s) end.

(** [strings.Cut(s, "-")]: what comes before the first dash. *)
Fixpoint before_dash (s : string) : string :=
  match s with
  | EmptyString => ""
  | String a s => if byte_of a =? 45 then "" else String a (before_dash s)
  end.

Definition ParseLanguage (tag : string) : Language :=
  let primary := before_dash (ToLower (TrimSpace tag)) in
  if bool_decide (primary = "en") then English else Arabic.

Record LocalizedText := MkLocalized { ar : string; en : string }.

#[export] Instance LocalizedText_eq_dec : EqDecision LocalizedText.
Proof. solve_decision. Defined.

Inductive localized_error := ErrArabicRequired.

Definition NewLocalizedText (a e : string) : res localized_error LocalizedText :=
  let a := TrimSpace a in
  let e := TrimSpace e in
  if bool_decide (a = "") then Err ErrArabicRequired else Ok (MkLocalized a e).

Lemma NewLocalizedText_stored a e t : NewLocalizedText a e = Ok t → NewLocalizedText (ar t) (en t) = Ok t ∧ ar t ≠ "".
Proof.
  unfold NewLocalizedText. case_bool_decide as Ha; [done|]. intros [= <-]. simpl. by rewrite !TrimSpace_idem, bool_decide_eq_false_2.
Qed.

(** [t.In(lang)]. *)
Definition In_lang (t : LocalizedText) (lang : Language) : string :=
  if bool_decide (lang = English) && negb (bool_decide (en t = "")) then en t else ar t.

Lemma In_lang_nonempty t lang : ar t ≠ "" → In_lang t lang ≠ "".
Proof.
  intros H. unfold In_lang. destruct (bool_decide (lang = English)); simpl; [|done].
  by case_bool_decide.
Qed.

(** ** Map points (geo.go) *)

Inductive geo_error := ErrInvalidCoordinates.

(** A [float64] as its IEEE 754 value. *)
Abbreviation float64 := spec_float.

Record GeoPoint := MkGeo { lat : float64; lng : float64 }.

Definition isFinite (f : float64) : bool :=
  match f with S754_infinity _ | S754_nan => false | _ => true end.

(** The float64 of a small integer. *)
Definition float_of (z : Z) : float64 := binary_normalize 53 1024 z 0 false.

Definition NewGeoPoint (la ln : float64) : res geo_error GeoPoint :=
  if negb (isFinite la) || negb (isFinite ln)
     || SFltb la (float_of (-90)) || SFltb (float_of 90) la
     || SFltb ln (float_of (-180)) || SFltb (float_of 180) ln
  then Err ErrInvalidCoordinates
  else Ok (MkGeo la ln).

(** ** Digits (digits.go) *)

Definition WesternDigit (r : Z) : option Z :=
  if (48 <=? r) && (r <=? 57) then Some r
  else if (1632 <=? r) && (r <=? 1641) then Some (48 + (r - 1632))
  else if (1776 <=? r) && (r <=? 1785) then Some (48 + (r - 1776))
  else None.

Lemma WesternDigit_range r d : WesternDigit r = Some d → 48 ≤ d ≤ 57.
Proof.
  unfold WesternDigit. intros H. repeat case_match; simplify_eq; bool_prop; lia.
Qed.

Lemma WesternDigit_western d : 48 ≤ d ≤ 57 → WesternDigit d = Some d.
Proof. intros H. unfold WesternDigit. by rewrite !(proj2 (Z.leb_le _ _)) by lia. Qed.

(** ** Phone numbers (phone.go) *)

Inductive phone_error := ErrInvalidPhoneNumber.

Definition maxPhoneInput : Z := 64.

Record PhoneNumber := MkPhone { e164 : string }.

#[export] Instance PhoneNumber_eq_dec : EqDecision PhoneNumber.
Proof. solve_decision. Defined.
#[export] Instance PhoneNumber_countable : Countable PhoneNumber.
Proof. refine (inj_countable' e164 MkPhone _). by intros []. Defined.

(** The characters people type between digits: [" -.()\u00a0"]. *)
Definition separator (r : Z) : bool :=
  (r =? 32) || (r =? 45) || (r =? 46) || (r =? 40) || (r =? 41) || (r =? 160).

(** The loop of [NewPhoneNumber]: [first] is [i == 0]. *)
Fixpoint scan_phone (first plus : bool) (digits : string) (rs : list Z) : option (string * bool) :=
  match rs with
  | [] => Some (digits, plus)
  | r :: rs =>
      match WesternDigit r with
      | Some d => scan_phone false plus (digits +:+ str1 (byte_chr d)) rs
      | None =>
          if (r =? 43) && first then scan_phone false true digits rs
          else if separator r then scan_phone false plus digits rs
          else None
      end
  end.

Definition saudiNational (d : string) (plus : bool) : option string :=
  let cut :=
    if plus then CutPrefix d "966"
    else if HasPrefix d "00966" then Some (drop_bytes 5 d)
    else if HasPrefix d "966" && (12 <=? len d) then Some (drop_bytes 3 d)
    else Some d in
  match cut with
  | None => None
  | Some d =>
      let d := if (len d =? 10) && (byte_at 0 d =? 48) then drop_bytes 1 d else d in
      if negb (len d =? 9) || negb (byte_at 0 d =? 53) then None else Some d
  end.

Definition NewPhoneNumber (raw : string) : res phone_error PhoneNumber :=
  if maxPhoneInput <? len raw then Err ErrInvalidPhoneNumber
  else match scan_phone true false "" (runes (TrimSpace raw)) with
  | None => Err ErrInvalidPhoneNumber
  | Some (digits, plus) =>
      match saudiNational digits plus with
      | None => Err ErrInvalidPhoneNumber
      | Some national => Ok (MkPhone ("+966" +:+ national))
      end
  end.

Definition Phone_IsZero (p : PhoneNumber) : bool := bool_decide (e164 p = "").

Definition Masked (p : PhoneNumber) : string :=
  if Phone_IsZero p then ""
  else take_bytes 5 (e164 p) +:+ "•••••" +:+ drop_bytes (String.length (e164 p) - 3) (e164 p).

(** What a phone number prints as in logs and errors: never itself. *)
Definition LogValue (p : PhoneNumber) : string := Masked p.

(** ** Reference data (city.go, category.go) *)

Inductive city_error := ErrUnknownCity.
Record City := MkCity { city_code : string; city_name : LocalizedText }.
Definition city (code a e : string) : City := MkCity code (MkLocalized a e).

Definition cities : list City := [
  city "riyadh" "الرياض" "Riyadh"; city "jeddah" "جدة" "Jeddah"; city "makkah" "مكة المكرمة" "Makkah";
  city "madinah" "المدينة المنورة" "Madinah"; city "dammam" "الدمام" "Dammam"; city "al_khobar" "الخبر" "Al Khobar";
  city "dhahran" "الظهران" "Dhahran"; city "al_ahsa" "الأحساء" "Al Ahsa"; city "qatif" "القطيف" "Qatif";
  city "jubail" "الجبيل" "Jubail"; city "taif" "الطائف" "Taif"; city "tabuk" "تبوك" "Tabuk";
  city "buraydah" "بريدة" "Buraydah"; city "unaizah" "عنيزة" "Unaizah"; city "hail" "حائل" "Hail";
  city "abha" "أبها" "Abha"; city "khamis_mushait" "خميس مشيط" "Khamis Mushait"; city "jazan" "جازان" "Jazan";
  city "najran" "نجران" "Najran"; city "al_baha" "الباحة" "Al Baha"; city "yanbu" "ينبع" "Yanbu";
  city "al_kharj" "الخرج" "Al Kharj"; city "arar" "عرعر" "Arar"; city "sakaka" "سكاكا" "Sakaka"].

Definition Cities : list City := cities.

Definition ParseCity (code : string) : res city_error City :=
  match find_first (λ c, bool_decide (city_code c = code)) cities with
  | None => Err ErrUnknownCity
  | Some c => Ok c
  end.

Inductive category_error := ErrUnknownCategory.
Record Category := MkCategory { cat_code : string; cat_name : LocalizedText; cat_icon : string }.
Definition category (code a e icon : string) : Category := MkCategory code (MkLocalized a e) icon.

Definition categories : list Category := [
  category "haircut" "قص الشعر" "Haircut" "scissors"; category "beard" "اللحية" "Beard" "beard";
  category "shave" "الحلاقة" "Shave" "razor"; category "kids" "الأطفال" "Kids" "child";
  category "skincare" "العناية بالبشرة" "Skin care" "face"; category "colour" "الصبغة" "Colour" "palette";
  category "packages" "الباقات" "Packages" "package"].

Definition Categories : list Category := categories.

Definition ParseCategory (code : string) : res category_error Category :=
  match find_first (λ c, bool_decide (cat_code c = code)) categories with
  | None => Err ErrUnknownCategory
  | Some c => Ok c
  end.

Example phone_local : NewPhoneNumber "055 123-4567" = Ok (MkPhone "+966551234567").
Proof. reflexivity. Qed.
Example phone_arabic : NewPhoneNumber "٠٥٥١٢٣٤٥٦٧" = Ok (MkPhone "+966551234567").
Proof. reflexivity. Qed.
Example phone_plus_trunk : NewPhoneNumber "+966 055 123 4567" = Ok (MkPhone "+966551234567").
Proof. reflexivity. Qed.
Example phone_00 : NewPhoneNumber "00966551234567" = Ok (MkPhone "+966551234567").
Proof. reflexivity. Qed.
Example phone_kuwait : NewPhoneNumber "+965551234567" = Err ErrInvalidPhoneNumber.
Proof. reflexivity. Qed.
Example geo_ok : is_ok (NewGeoPoint (float_of 24) (float_of 46)) = true. Proof. reflexivity. Qed.
Example geo_bad : is_ok (NewGeoPoint (float_of 91) (float_of 46)) = false. Proof. reflexivity. Qed.

(** ** A concrete [UuidLib], for examples: decimal numerals *)

Lemma decimal_round_trip u : N.of_uint <$> DecimalString.NilZero.uint_of_string (DecimalString.NilZero.string_of_uint (N.to_uint u)) = Some u.
Proof.
  rewrite DecimalString.NilZero.usu; [by rewrite <- (DecimalN.Unsigned.of_to u) at 2|].
  intros E. pose proof (DecimalN.Unsigned.of_to u) as Hu. rewrite E in Hu. cbn in Hu. by subst u.
Qed.

Definition decimal_ids : UuidLib := {|
  uuid_parse s := N.of_uint <$> DecimalString.NilZero.uint_of_string s;
  uuid_string u := DecimalString.NilZero.string_of_uint (N.to_uint u);
  uuid_parse_string := decimal_round_trip |}.

(** ** Properties *)

(** Western digits only. *)
Definition digits_only (s : string) : Prop := Forall (λ b, 48 ≤ b ≤ 57) (bytes s).

#[export] Instance digits_only_dec s : Decision (digits_only s).
Proof. unfold digits_only. apply _. Defined.

(** The nine digits of a Saudi mobile: 5XXXXXXXX. *)
Definition saudi_mobile (n : string) : Prop :=
  digits_only n ∧ len n = 9 ∧ byte_at 0 n = 53.

Lemma digits_only_app a b : digits_only (a +:+ b) ↔ digits_only a ∧ digits_only b.
Proof. unfold digits_only. by rewrite bytes_app, Forall_app. Qed.

Lemma digits_only_drop n s : digits_only s → digits_only (drop_bytes n s).
Proof. unfold digits_only. rewrite bytes_drop. apply Forall_drop. Qed.

Lemma scan_phone_digits first plus acc rs d plus' :
  digits_only acc → scan_phone first plus acc rs = Some (d, plus') → digits_only d.
Proof.
  revert first plus acc. induction rs as [|r rs IH]; intros first plus acc Hacc; simpl; [by intros [= <- <-]|].
  destruct (WesternDigit r) as [w|] eqn:Hw.
  - apply IH. apply digits_only_app. split; [done|]. apply WesternDigit_range in Hw.
    repeat constructor; rewrite byte_of_chr; lia.
  - destruct (_ && _); [by apply IH|]. destruct (separator r); [by apply IH|done].
Qed.

Lemma saudiNational_mobile d plus n : digits_only d → saudiNational d plus = Some n → saudi_mobile n.
Proof.
  intros Hd. unfold saudiNational. set (cut := if plus then _ else _).
  assert (Hcut : ∀ x, cut = Some x → digits_only x).
  { intros x. unfold cut. repeat case_match; intros; simplify_eq; try by apply digits_only_drop.
    - apply CutPrefix_app in H0 as ->. by apply digits_only_app in Hd as [_ ?].
    - done. }
  clearbody cut. destruct cut as [x|]; [|done]. specialize (Hcut x eq_refl).
  set (y := if (_ : bool) then _ else x).
  assert (digits_only y) by (unfold y; case_match; [by apply digits_only_drop|done]). clearbody y.
  destruct (_ || _) eqn:E; [done|]. intros [= <-]. bool_prop. done.
Qed.

Lemma NewPhoneNumber_form raw p :
  NewPhoneNumber raw = Ok p → ∃ n, e164 p = "+966" +:+ n ∧ saudi_mobile n.
Proof.
  unfold NewPhoneNumber. destruct (_ <? _); [done|]. destruct (scan_phone _ _ _ _) as [[d plus]|] eqn:Hs; [|done].
  apply scan_phone_digits in Hs; [|constructor]. destruct (saudiNational d plus) as [n|] eqn:Hn; [|done].
  intros [= <-]. exists n. split; [done|]. by eapply saudiNational_mobile.
Qed.

Lemma scan_phone_western first plus acc s :
  digits_only s → scan_phone first plus acc (bytes s) = Some (acc +:+ s, plus).
Proof.
  revert first acc. induction s as [|a s IH]; intros first acc; [by rewrite string_app_nil_r|].
  intros Hs. inversion Hs as [|?? Ha Hs']; subst. cbn [bytes scan_phone].
  rewrite WesternDigit_western, byte_chr_of, IH by done. by rewrite string_app_assoc.
Qed.

Lemma digits_ascii s : digits_only s → ascii_only s.
Proof. intros H. eapply Forall_impl; [exact H|]. intros b ?. simpl in *. lia. Qed.

Lemma digit_not_space b : 43 ≤ b ≤ 57 → IsSpace b = false.
Proof. intros H. unfold IsSpace, in_range. by zbool. Qed.

Lemma NewPhoneNumber_stored raw p : NewPhoneNumber raw = Ok p → NewPhoneNumber (e164 p) = Ok p.
Proof.
  intros H. destruct (NewPhoneNumber_form _ _ H) as (n & He & Hn).
  destruct p as [s]. simpl in *. subst s. destruct Hn as (Hd & Hl & H5).
  assert (Hd' : digits_only ("966" +:+ n)) by (apply digits_only_app; split; [by apply (bool_decide_eq_true_1 (digits_only _))|done]).
  assert (Hb : bytes ("+966" +:+ n) = 43 :: bytes ("966" +:+ n)) by done.
  assert (Hr : runes ("+966" +:+ n) = 43 :: bytes ("966" +:+ n)).
  { rewrite runes_ascii; [done|]. unfold ascii_only. rewrite Hb. constructor; [lia|by apply digits_ascii]. }
  unfold NewPhoneNumber. rewrite TrimSpace_id, Hr.
  2:{ rewrite Hr. constructor; [done|]. eapply Forall_impl; [exact Hd'|]. intros; apply digit_not_space; simpl in *; lia. }
  rewrite (proj2 (Z.ltb_ge _ _)).
  2:{ unfold maxPhoneInput, len in *. rewrite string_length_app, Nat2Z.inj_add. simpl. lia. }
  cbn [scan_phone WesternDigit]. change (WesternDigit 43) with (@None Z). cbn [Z.eqb Pos.eqb andb].
  rewrite scan_phone_western by done. change ("" +:+ ("966" +:+ n)) with ("966" +:+ n).
  unfold saudiNational. rewrite CutPrefix_self. rewrite Hl. cbn [Z.eqb Pos.eqb andb]. by rewrite Hl, H5.
Qed.

(** The stored form of every phone number the constructor accepts, in
    whatever form and digits it was typed, is [+966] and nine Western digits
    starting with 5; and that stored form is itself accepted and read back as
    the same number, so reading it from storage can't fail or change it. *)
Theorem phone_stored_form_round_trip raw p :
  NewPhoneNumber raw = Ok p →
  (∃ n, e164 p = "+966" +:+ n ∧ saudi_mobile n) ∧ NewPhoneNumber (e164 p) = Ok p.
Proof. intros H. split; [by eapply NewPhoneNumber_form|by eapply NewPhoneNumber_stored]. Qed.

Lemma phone_stored_form_round_trip_witness :
  (∃ n, "+966551234567" = "+966" +:+ n ∧ saudi_mobile n) ∧
  NewPhoneNumber "+966551234567" = Ok (MkPhone "+966551234567").
Proof. apply (phone_stored_form_round_trip "٠٥٥ ١٢٣ ٤٥٦٧" (MkPhone "+966551234567")). reflexivity. Defined.

(** Money arithmetic on int64 amounts never silently wraps: adding and
    multiplying give the exact amount whenever it fits and the currencies
    agree, and [ErrMoneyOverflow] exactly when the exact result does not fit —
    the division check in [Multiply] and its one special case are enough. *)
Theorem money_arithmetic_exact m o n :
  money_ok m → money_ok o → in_int64 n →
  Money_Add m o =
    (if decide (currency m ≠ currency o) then Err ErrCurrencyMismatch
     else if decide (in_int64 (amount m + amount o)) then Ok (MkMoney (amount m + amount o) (currency m))
     else Err ErrMoneyOverflow) ∧
  Multiply m n =
    (if decide (in_int64 (amount m * n)) then Ok (MkMoney (amount m * n) (currency m))
     else Err ErrMoneyOverflow).
Proof. intros Hm Ho Hn. split; [by apply Money_Add_spec|by apply Multiply_spec]. Qed.

(** The edge the special case exists for: −1 × MinInt64. *)
Lemma money_arithmetic_exact_witness :
  Money_Add (Halalas max_int64) (Halalas 1) = Err ErrMoneyOverflow ∧
  Multiply (Halalas (-1)) min_int64 = Err ErrMoneyOverflow ∧
  Multiply (Halalas 6000) 3 = Ok (Halalas 18000).
Proof.
  assert (H1 : money_ok (Halalas max_int64)) by (split; vm_compute; discriminate).
  assert (H2 : money_ok (Halalas 1)) by (split; vm_compute; discriminate).
  assert (H3 : money_ok (Halalas (-1))) by (split; vm_compute; discriminate).
  assert (H4 : money_ok (Halalas 6000)) by (split; vm_compute; discriminate).
  assert (H5 : in_int64 min_int64) by (split; vm_compute; discriminate).
  assert (H6 : in_int64 3) by (split; vm_compute; discriminate).
  split; [|split].
  - exact (proj1 (money_arithmetic_exact _ _ _ H1 H2 H6)).
  - exact (proj2 (money_arithmetic_exact _ _ _ H3 H2 H5)).
  - exact (proj2 (money_arithmetic_exact _ _ _ H4 H2 H6)).
Defined.

(** A reference list's codes are its keys: parsing a listed code gives that
    entry, and nothing else parses. *)
Lemma ParseCity_codes code : is_ok (ParseCity code) = bool_decide (code ∈ city_code <$> Cities).
Proof.
  unfold ParseCity. destruct (find_first _ cities) as [c|] eqn:E; cbn [is_ok]; symmetry.
  - apply find_first_some in E as [Hc Hb]. bool_prop. apply bool_decide_eq_true_2. rewrite <- Hb. by apply list_elem_of_fmap_2.
  - apply bool_decide_eq_false_2. rewrite list_elem_of_fmap. intros (c & -> & Hc).
    rewrite find_first_none in E. specialize (E c Hc). bool_prop. done.
Qed.

Lemma ParseCity_round_trip c : c ∈ Cities → ParseCity (city_code c) = Ok c.
Proof.
  unfold Cities. intros Hc. unfold ParseCity. destruct (find_first _ cities) as [c'|] eqn:E.
  - apply find_first_some in E as [Hc' Hb]. bool_prop. f_equal.
    assert (Hnd : NoDup (city_code <$> cities)) by (apply (bool_decide_eq_true_1 (NoDup _)); reflexivity).
    apply list_elem_of_lookup in Hc as [i Hi]. apply list_elem_of_lookup in Hc' as [j Hj].
    assert (i = j) as ->; [|congruence].
    eapply NoDup_lookup; [exact Hnd|rewrite list_lookup_fmap; by rewrite Hi|rewrite list_lookup_fmap, Hj; simpl; by f_equal].
  - rewrite find_first_none in E. specialize (E c Hc). bool_prop. done.
Qed.
