(* ===== verification/GoDate.v ===== *)
(** * Dates as text: [time.Parse(time.DateOnly, s)] and ["%04d-%02d-%02d"] *)
From S2P Require Import Prelude GoTime GoText.
From Stdlib Require Import Ascii.
Open Scope Z_scope.

(** The value of a run of ASCII digits; [None] for anything else. *)
Fixpoint digits_value (acc : Z) (bs : list Z) : option Z :=
  match bs with
  | [] => Some acc
  | b :: bs => if in_range 48 57 b then digits_value (acc * 10 + (b - 48)) bs else None
  end.

(** [time.Parse] with layout ["2006-01-02"]: four, two and two digits, then
    the range checks of the calendar. *)
Definition parse_date_only (s : string) : option (Z * Z * Z) :=
  match bytes s with
  | [y1; y2; y3; y4; s1; m1; m2; s2; d1; d2] =>
      if (s1 =? 45) && (s2 =? 45) then
        match digits_value 0 [y1; y2; y3; y4], digits_value 0 [m1; m2], digits_value 0 [d1; d2] with
        | Some y, Some m, Some d => if bool_decide (valid_civil y m d) then Some (y, m, d) else None
        | _, _, _ => None
        end
      else None
  | _ => None
  end.

(** ["%04d-%02d-%02d"]. *)
Definition format_date (y m d : Z) : string :=
  fmt_0d 4 y +:+ "-" +:+ fmt_0d 2 m +:+ "-" +:+ fmt_0d 2 d.

Definition digits2 (n : Z) : list Z := [48 + n / 10; 48 + n mod 10].
Definition digits4 (n : Z) : list Z := [48 + n / 1000; 48 + n / 100 mod 10; 48 + n / 10 mod 10; 48 + n mod 10].

Lemma fmt_0d_2 n : 0 ≤ n < 100 → bytes (fmt_0d 2 n) = digits2 n.
Proof.
  intros H. assert (Hall : forallb (λ n, bool_decide (bytes (fmt_0d 2 n) = digits2 n)) (seqZ 0 100) = true)
    by (vm_compute; reflexivity).
  rewrite forallb_forall in Hall. eapply bool_decide_eq_true_1, Hall, list_elem_of_In, elem_of_seqZ. lia.
Qed.

Lemma fmt_0d_4 n : 0 ≤ n < 10000 → bytes (fmt_0d 4 n) = digits4 n.
Proof.
  intros H. assert (Hall : forallb (λ n, bool_decide (bytes (fmt_0d 4 n) = digits4 n)) (seqZ 0 10000) = true)
    by (vm_compute; reflexivity).
  rewrite forallb_forall in Hall. eapply bool_decide_eq_true_1, Hall, list_elem_of_In, elem_of_seqZ. lia.
Qed.

Lemma digits_value_2 a b n : digits_value 0 [a; b] = Some n ↔ 0 ≤ n < 100 ∧ [a; b] = digits2 n.
Proof.
  unfold digits2. simpl. unfold in_range. split.
  - intros H. repeat case_match; simplify_eq; bool_prop. split; [lia|]. repeat f_equal; Z.div_mod_to_equations; lia.
  - intros [Hn [= -> ->]]. pose proof (Z.mod_pos_bound n 10). assert (0 ≤ n / 10 ≤ 9) by (Z.div_mod_to_equations; lia).
    rewrite !(proj2 (Z.leb_le _ _)) by lia. simpl. f_equal. Z.div_mod_to_equations; lia.
Qed.

Lemma digits_value_4 a b c d n : digits_value 0 [a; b; c; d] = Some n ↔ 0 ≤ n < 10000 ∧ [a; b; c; d] = digits4 n.
Proof.
  unfold digits4. simpl. unfold in_range. split.
  - intros H. repeat case_match; simplify_eq; bool_prop. split; [lia|].
    assert (Hk : ∀ x y z w, 48 ≤ x ≤ 57 → 48 ≤ y ≤ 57 → 48 ≤ z ≤ 57 → 48 ≤ w ≤ 57 →
       let v := (((0 * 10 + (x - 48)) * 10 + (y - 48)) * 10 + (z - 48)) * 10 + (w - 48) in
       v / 1000 = x - 48 ∧ v / 100 = (x - 48) * 10 + (y - 48) ∧ v / 10 = ((x - 48) * 10 + (y - 48)) * 10 + (z - 48)).
    { intros. subst v. repeat split; Z.div_mod_to_equations; lia. }
    destruct (Hk a b c d) as (Q1 & Q2 & Q3); [lia..|]. rewrite Q1, Q2, Q3.
    repeat f_equal; Z.div_mod_to_equations; lia.
  - intros [Hn [= -> -> -> ->]].
    assert (0 ≤ n / 1000 ≤ 9) by (Z.div_mod_to_equations; lia).
    pose proof (Z.mod_pos_bound n 10). pose proof (Z.mod_pos_bound (n / 10) 10). pose proof (Z.mod_pos_bound (n / 100) 10).
    rewrite !(proj2 (Z.leb_le _ _)) by lia. simpl. f_equal.
    assert (n / 1000 = n / 100 / 10) as -> by (rewrite Z.div_div; [done|lia..]).
    assert (n / 100 = n / 10 / 10) as -> by (rewrite Z.div_div; [done|lia..]).
    pose proof (Z.div_mod n 10). pose proof (Z.div_mod (n / 10) 10). pose proof (Z.div_mod (n / 10 / 10) 10). lia.
Qed.

Lemma days_in_range y m : 28 ≤ days_in y m ≤ 31.
Proof. unfold days_in. repeat case_match; lia. Qed.

(** Dates printed with a four-digit year read back, and nothing else reads. *)
Lemma parse_format_date s y m d :
  parse_date_only s = Some (y, m, d) ↔ 0 ≤ y < 10000 ∧ valid_civil y m d ∧ s = format_date y m d.
Proof.
  unfold parse_date_only. split.
  - intros H. destruct (bytes s) as [|y1 [|y2 [|y3 [|y4 [|s1 [|m1 [|m2 [|s2 [|d1 [|d2 [|? ?]]]]]]]]]]] eqn:E; try done.
    destruct (_ && _) eqn:Es; [|done]. bool_prop. subst s1 s2.
    destruct (digits_value 0 [y1; y2; y3; y4]) as [y'|] eqn:Ey; [|done].
    destruct (digits_value 0 [m1; m2]) as [m'|] eqn:Em; [|done].
    destruct (digits_value 0 [d1; d2]) as [d'|] eqn:Ed; [|done].
    case_bool_decide; [|done]. simplify_eq.
    apply digits_value_4 in Ey as [Hy Ey]. apply digits_value_2 in Em as [Hm Em], Ed as [Hd Ed].
    split; [done|]. split; [done|]. apply bytes_inj. unfold format_date. rewrite !bytes_app, fmt_0d_4, !fmt_0d_2 by done.
    rewrite E. rewrite <- Ey, <- Em, <- Ed. done.
  - intros (Hy & Hv & ->). pose proof Hv as [Hm Hd]. pose proof (days_in_range y m).
    unfold format_date. rewrite !bytes_app, fmt_0d_4, !fmt_0d_2 by lia.
    unfold digits4, digits2. cbn [app bytes]. change (byte_of "-"%char) with 45. cbn [Z.eqb Pos.eqb andb].
    rewrite (proj2 (digits_value_4 _ _ _ _ y)) by (split; [lia|done]).
    rewrite (proj2 (digits_value_2 _ _ m)) by (split; [lia|done]).
    rewrite (proj2 (digits_value_2 _ _ d)) by (split; [lia|done]).
    by rewrite bool_decide_eq_true_2.
Qed.

Lemma format_date_inj y m d y' m' d' :
  0 ≤ y < 10000 → valid_civil y m d → 0 ≤ y' < 10000 → valid_civil y' m' d' →
  format_date y m d = format_date y' m' d' → (y, m, d) = (y', m', d').
Proof.
  intros Hy Hv Hy' Hv' E. pose proof (proj2 (parse_format_date _ y m d) (conj Hy (conj Hv eq_refl))) as H1.
  pose proof (proj2 (parse_format_date _ y' m' d') (conj Hy' (conj Hv' eq_refl))) as H2. rewrite E in H1. congruence.
Qed.
