(* ===== verification/SchedWeekly.v ===== *)
(** * Weekly hours (src/internal/scheduling/domain/weekly.go, errors.go)

    A week of repeating intervals on the branch's wall clock. The validation
    compares each interval with the next one only, in sorted order and around
    the end of the week; here it is proved to accept exactly the sets of
    intervals no two of which share a minute of the repeating week. *)
From S2P Require Import Prelude GoTime.
Open Scope Z_scope.

(** Scheduling's errors; [ErrStorage] is any failure of the database. *)
Inductive sched_error :=
| ErrNotFound | ErrForbidden | ErrVersionConflict
| ErrInvalidWeekday | ErrInvalidInterval | ErrTooManyIntervals | ErrOverlappingIntervals
| ErrInvalidDate | ErrTooManyOverrides | ErrScheduleClash | ErrInvalidTimeOff | ErrReasonTooLong
| ErrTimeOffOverlaps | ErrInvalidRange | ErrStorage.

#[export] Instance sched_error_eq_dec : EqDecision sched_error.
Proof. solve_decision. Defined.

Definition MinutesPerDay : Z := 24 * 60.
Definition MinutesPerWeek : Z := 7 * MinutesPerDay.
Definition Step : Z := 5.
Definition MaxPerDay : Z := 4.

(** A [time.Weekday]: Sunday is 0, Saturday 6. *)
Definition Sunday : Z := 0.
Definition Saturday : Z := 6.

Record WeeklyInterval := MkWeekly { Day : Z; Start : Z; Minutes : Z }.

#[export] Instance WeeklyInterval_eq_dec : EqDecision WeeklyInterval.
Proof. solve_decision. Defined.

Definition interval_End (i : WeeklyInterval) : Z := int64 (Start i + Minutes i).
Definition weekStart (i : WeeklyInterval) : Z := int64 (Day i * MinutesPerDay + Start i).

Record WeeklyHours := MkHours { intervals : list WeeklyInterval }.

#[export] Instance WeeklyHours_eq_dec : EqDecision WeeklyHours.
Proof. solve_decision. Defined.

(** The checks of one interval in the first loop of [NewWeeklyHours];
    [perDay] counts the intervals seen so far by weekday. *)
Definition bad_shape (i : WeeklyInterval) : bool :=
  (Start i <? 0) || (MinutesPerDay <=? Start i) || negb (Z.rem (Start i) Step =? 0)
  || (Minutes i <? Step) || (MinutesPerDay <? Minutes i) || negb (Z.rem (Minutes i) Step =? 0).

Fixpoint check_each (perDay : gmap Z Z) (l : list WeeklyInterval) : res sched_error unit :=
  match l with
  | [] => Ok tt
  | i :: l =>
      if (Day i <? Sunday) || (Saturday <? Day i) then Err ErrInvalidWeekday
      else if bad_shape i then Err ErrInvalidInterval
      else
        let n := default 0 (perDay !! Day i) + 1 in
        if MaxPerDay <? n then Err ErrTooManyIntervals
        else check_each (<[Day i := n]> perDay) l
  end.

(** The second loop: each interval against the next, the last against the
    first a week later; [first] is [sorted[0]]. One interval alone is fine. *)
Fixpoint any_overlap (many : bool) (first : WeeklyInterval) (l : list WeeklyInterval) : bool :=
  match l with
  | [] => false
  | cur :: l' =>
      let nextStart := match l' with
                       | next :: _ => weekStart next
                       | [] => int64 (weekStart first + MinutesPerWeek)
                       end in
      (many && (nextStart <? int64 (weekStart cur + Minutes cur))) || any_overlap many first l'
  end.

Definition starts_before (a b : WeeklyInterval) : bool := weekStart a <=? weekStart b.

Definition NewWeeklyHours (l : list WeeklyInterval) : res sched_error WeeklyHours :=
  let sorted := sort_by starts_before l in
  let! _ := check_each ∅ sorted in
  match sorted with
  | [] => Ok (MkHours [])
  | first :: _ =>
      if any_overlap (1 <? Z.of_nat (length sorted)) first sorted then Err ErrOverlappingIntervals
      else Ok (MkHours sorted)
  end.

Definition IsClosed (w : WeeklyHours) : bool := match intervals w with [] => true | _ => false end.

Definition IntervalFromClock (day opens closes : Z) : WeeklyInterval :=
  let minutes := Z.rem (Z.rem (closes - opens) MinutesPerDay + MinutesPerDay) MinutesPerDay in
  MkWeekly day opens (if minutes =? 0 then MinutesPerDay else minutes).

Definition Clock (i : WeeklyInterval) : Z * Z :=
  let end_ := interval_End i in
  if end_ =? MinutesPerDay then (Start i, MinutesPerDay) else (Start i, Z.rem end_ MinutesPerDay).

Definition shifts : list Z := [- MinutesPerWeek; 0; MinutesPerWeek].

Definition clash (a b : WeeklyInterval) (shift : Z) : bool :=
  (weekStart a <? weekStart b + shift + Minutes b) && (weekStart b + shift <? weekStart a + Minutes a).

Definition Overlaps (w o : WeeklyHours) : bool :=
  existsb (λ a, existsb (λ b, existsb (clash a b) shifts) (intervals o)) (intervals w).

(** ** What it means *)

Definition valid_interval (i : WeeklyInterval) : Prop :=
  0 ≤ Day i ≤ 6 ∧ 0 ≤ Start i < 1440 ∧ (5 | Start i) ∧ 5 ≤ Minutes i ≤ 1440 ∧ (5 | Minutes i).

(** Minute [m] of the endlessly repeating week is inside [i]. *)
Definition covers_minute (i : WeeklyInterval) (m : Z) : Prop :=
  (m - (Day i * 1440 + Start i)) mod 10080 < Minutes i.

Definition disjoint (a b : WeeklyInterval) : Prop := ∀ m, ¬ (covers_minute a m ∧ covers_minute b m).

Definition starting_on (d : Z) (l : list WeeklyInterval) : Z :=
  Z.of_nat (length (filter (λ i, Day i = d) l)).

(** A set of hours the program may keep. *)
Definition valid_week (l : list WeeklyInterval) : Prop :=
  Forall valid_interval l ∧ (∀ d, starting_on d l ≤ 4) ∧ StronglySorted disjoint l.

Lemma weekStart_valid i : valid_interval i → weekStart i = Day i * 1440 + Start i ∧ 0 ≤ weekStart i < 10080.
Proof.
  unfold valid_interval, weekStart, MinutesPerDay. intros (? & ? & _). rewrite int64_id; [lia|].
  unfold in_int64, min_int64, max_int64. lia.
Qed.

Lemma bad_shape_spec i : bad_shape i = false ↔
  0 ≤ Start i < 1440 ∧ (5 | Start i) ∧ 5 ≤ Minutes i ≤ 1440 ∧ (5 | Minutes i).
Proof.
  unfold bad_shape, Step, MinutesPerDay. change (24 * 60) with 1440.
  rewrite !orb_false_iff, !negb_false_iff, !Z.ltb_ge, !Z.leb_gt, !Z.eqb_eq.
  rewrite !Z.rem_divide by done. tauto.
Qed.

Lemma disjoint_sym a b : disjoint a b → disjoint b a.
Proof. unfold disjoint. intros H m [? ?]. by apply (H m). Qed.

(** Two valid intervals, the first starting no later, share no minute exactly
    when one ends before the other starts, this week and the next. *)
Lemma disjoint_ordered a b :
  valid_interval a → valid_interval b → weekStart a ≤ weekStart b →
  disjoint a b ↔ weekStart a + Minutes a ≤ weekStart b ∧ weekStart b + Minutes b ≤ weekStart a + 10080.
Proof.
  intros Ha Hb. destruct (weekStart_valid a Ha) as [Ea Ra], (weekStart_valid b Hb) as [Eb Rb].
  destruct Ha as (_ & _ & _ & Ma & _), Hb as (_ & _ & _ & Mb & _).
  unfold disjoint, covers_minute. rewrite <- Ea, <- Eb. clear Ea Eb. intros Hab. split.
  - intros H. pose proof (H (weekStart b)) as H1. pose proof (H (weekStart a)) as H2.
    rewrite Z.sub_diag, Z.mod_0_l in H1, H2 by lia.
    rewrite (Z.mod_small (weekStart b - weekStart a)) in H1 by lia.
    destruct (decide (weekStart a = weekStart b)) as [E|]; [rewrite E, Z.sub_diag in *; lia|].
    replace (weekStart a - weekStart b) with (weekStart a - weekStart b + 10080 + (-1) * 10080) in H2 by lia.
    rewrite Z.mod_add, (Z.mod_small (_ + 10080)) in H2 by lia. lia.
  - intros [H1 H2] m [Hm1 Hm2]. Z.div_mod_to_equations; lia.
Qed.

Lemma starting_on_cons d i l : starting_on d (i :: l) = (if decide (Day i = d) then 1 else 0) + starting_on d l.
Proof.
  unfold starting_on. destruct (decide (Day i = d)) as [E|E].
  - rewrite filter_cons_True by done. simpl. lia.
  - by rewrite filter_cons_False.
Qed.

Lemma starting_on_nonneg d l : 0 ≤ starting_on d l.
Proof. unfold starting_on. lia. Qed.

Lemma check_each_spec perDay l :
  (∀ d, 0 ≤ default 0 (perDay !! d) ≤ 4) →
  check_each perDay l = Ok tt ↔
  Forall valid_interval l ∧ ∀ d, default 0 (perDay !! d) + starting_on d l ≤ 4.
Proof.
  revert perDay. induction l as [|i l IH]; intros perDay Hp; simpl.
  { split; [|done]. intros _. split; [constructor|]. intros d. specialize (Hp d). unfold starting_on. simpl. lia. }
  unfold MaxPerDay. rewrite Forall_cons. pose proof (Hp (Day i)) as Hi.
  assert (Hv : valid_interval i ↔ ((Day i <? Sunday) || (Saturday <? Day i)) = false ∧ bad_shape i = false).
  { unfold valid_interval, Sunday, Saturday. rewrite orb_false_iff, !Z.ltb_ge, bad_shape_spec. tauto. }
  destruct ((Day i <? Sunday) || _); [split; [done|naive_solver]|].
  destruct (bad_shape i); [split; [done|naive_solver]|].
  destruct (Z.ltb_spec 4 (default 0 (perDay !! Day i) + 1)) as [Hc|Hc].
  - split; [done|]. intros [_ H]. specialize (H (Day i)). rewrite starting_on_cons, decide_True in H by done.
    pose proof (starting_on_nonneg (Day i) l). lia.
  - assert (Hstep : ∀ d, default 0 (<[Day i := default 0 (perDay !! Day i) + 1]> perDay !! d) =
                         default 0 (perDay !! d) + (if decide (Day i = d) then 1 else 0)).
    { intros d. destruct (decide (Day i = d)) as [<-|]; [by rewrite lookup_insert_eq|rewrite lookup_insert_ne by done; lia]. }
    rewrite IH; [|intros d; rewrite Hstep; specialize (Hp d); destruct (decide _) as [<-|]; lia].
    split.
    + intros [Hl H]. split; [tauto|]. intros d. specialize (H d). rewrite Hstep in H. rewrite starting_on_cons. lia.
    + intros [[_ Hl] H]. split; [done|]. intros d. specialize (H d). rewrite starting_on_cons in H. rewrite Hstep. lia.
Qed.

Definition ends_before (a b : WeeklyInterval) : Prop := weekStart a + Minutes a ≤ weekStart b.

Lemma week_sum_exact i : valid_interval i →
  int64 (weekStart i + Minutes i) = weekStart i + Minutes i ∧ int64 (weekStart i + MinutesPerWeek) = weekStart i + 10080.
Proof.
  intros Hi. destruct (weekStart_valid i Hi) as [_ ?]. destruct Hi as (_ & _ & _ & ? & _).
  change MinutesPerWeek with 10080. split; apply int64_id; unfold in_int64, min_int64, max_int64; lia.
Qed.

Lemma any_overlap_false first l :
  valid_interval first → Forall valid_interval l → StronglySorted (λ a b, starts_before a b = true) l →
  any_overlap true first l = false ↔
  StronglySorted ends_before l ∧ Forall (λ a, weekStart a + Minutes a ≤ weekStart first + 10080) l.
Proof.
  intros Hf. destruct (week_sum_exact first Hf) as [_ Ef]. unfold starts_before.
  induction l as [|cur l IH]; intros Hv Hs; simpl.
  { split; [|done]. split; constructor. }
  apply Forall_cons in Hv as [Hc Hv]. destruct (week_sum_exact cur Hc) as [Ec _].
  inversion Hs as [|?? Hs' Hle]; subst. specialize (IH Hv Hs'). rewrite orb_false_iff, Z.ltb_ge, IH, Forall_cons, Ec.
  destruct l as [|next l].
  - rewrite Ef. split; [intros (H & _ & _)|intros (_ & H & _)]; repeat split; try done; by repeat constructor.
  - apply Forall_cons in Hle as [Hle Hle']. inversion Hs' as [|?? _ Hn]; subst. split.
    + intros (Hcn & Hss & Hall). split; [|split; [|done]].
      * constructor; [done|]. constructor; [done|]. eapply Forall_impl; [exact Hn|].
        intros x Hx. unfold ends_before. simpl in Hx. apply Z.leb_le in Hx. lia.
      * apply Forall_cons in Hall as [Hnx _]. apply Forall_cons in Hv as [(_ & _ & _ & ? & _) _]. lia.
    + intros (Hss & _ & Hall). inversion Hss as [|?? Hss' Hh]; subst. apply Forall_cons in Hh as [? _]. done.
Qed.

(** For sorted valid intervals, that is pairwise disjointness. *)
Lemma sorted_disjoint first l :
  Forall valid_interval (first :: l) → StronglySorted (λ a b, starts_before a b = true) (first :: l) →
  any_overlap (1 <? Z.of_nat (length (first :: l))) first (first :: l) = false ↔
  StronglySorted disjoint (first :: l).
Proof.
  intros Hv Hs. destruct l as [|next l].
  { simpl. split; [|done]. intros _. repeat constructor. }
  rewrite (proj2 (Z.ltb_lt _ _)) by (simpl; lia).
  rewrite any_overlap_false by (done || by apply Forall_cons in Hv as [? _]).
  unfold starts_before in Hs. inversion Hs as [|?? _ Hfirst]; subst.
  assert (Hge : ∀ a, a ∈ first :: next :: l → weekStart first ≤ weekStart a).
  { intros a [->|Ha]%elem_of_cons; [lia|]. rewrite Forall_forall in Hfirst. by apply Z.leb_le, Hfirst. }
  rewrite Forall_forall in Hv. split.
  - intros [He Hall]. rewrite Forall_forall in Hall. apply pairwise_intro. intros i j x y Hij Hi Hj.
    pose proof (pairwise_lookup _ _ _ _ _ _ Hs Hij Hi Hj) as Hxy. simpl in Hxy. apply Z.leb_le in Hxy.
    pose proof (pairwise_lookup _ _ _ _ _ _ He Hij Hi Hj) as Hend.
    apply list_elem_of_lookup_2 in Hi, Hj. apply disjoint_ordered; [by apply Hv..|done|].
    specialize (Hall y Hj). specialize (Hge x Hi). unfold ends_before in Hend. simpl in Hall. lia.
  - intros Hd. assert (Hp : ∀ i j x y, (i < j)%nat → (first :: next :: l) !! i = Some x → (first :: next :: l) !! j = Some y →
        weekStart x + Minutes x ≤ weekStart y ∧ weekStart y + Minutes y ≤ weekStart x + 10080).
    { intros i j x y Hij Hi Hj. pose proof (pairwise_lookup _ _ _ _ _ _ Hs Hij Hi Hj) as Hxy. simpl in Hxy.
      pose proof (pairwise_lookup _ _ _ _ _ _ Hd Hij Hi Hj) as Hdj.
      apply list_elem_of_lookup_2 in Hi, Hj. apply disjoint_ordered in Hdj; [done|by apply Hv..|by apply Z.leb_le]. }
    split; [apply pairwise_intro; intros; by eapply Hp|]. apply Forall_forall. intros a Ha.
    apply list_elem_of_lookup in Ha as [[|k] Hk].
    + simpl in Hk. injection Hk as <-. pose proof (Hv first ltac:(by left)) as (_ & _ & _ & ? & _). lia.
    + destruct (Hp 0%nat (S k) first a) as [_ ?]; [lia|done..].
Qed.

Lemma starts_before_total x y : starts_before x y = false → starts_before y x = true.
Proof. unfold starts_before. rewrite Z.leb_gt, Z.leb_le. lia. Qed.
Lemma starts_before_trans x y z : starts_before x y = true → starts_before y z = true → starts_before x z = true.
Proof. unfold starts_before. rewrite !Z.leb_le. lia. Qed.

Lemma starting_on_perm d l l' : l ≡ₚ l' → starting_on d l = starting_on d l'.
Proof. intros H. unfold starting_on. by rewrite H. Qed.

Lemma valid_week_perm l l' : l ≡ₚ l' → valid_week l → valid_week l'.
Proof.
  intros Hp (Hv & Hn & Hd). split; [by rewrite <- Hp|]. split.
  - intros d. by rewrite <- (starting_on_perm d l l').
  - eapply pairwise_perm; [apply disjoint_sym|done|done].
Qed.

Lemma NewWeeklyHours_ok l w :
  NewWeeklyHours l = Ok w ↔ valid_week l ∧ intervals w = sort_by starts_before l.
Proof.
  unfold NewWeeklyHours.
  pose proof (sort_by_perm starts_before l) as Hperm.
  pose proof (sort_by_sorted starts_before starts_before_total starts_before_trans l) as Hs.
  set (s := sort_by starts_before l) in *. clearbody s.
  assert (Hw : valid_week l ↔ valid_week s) by (split; apply valid_week_perm; [by symmetry|done]).
  rewrite Hw. clear Hw Hperm. rewrite res_bind_ok.
  assert (Hc : ∀ u, check_each ∅ s = Ok u ↔ Forall valid_interval s ∧ ∀ d, starting_on d s ≤ 4).
  { intros []. rewrite check_each_spec; [|intros d; rewrite lookup_empty; simpl; lia].
    by setoid_rewrite lookup_empty. }
  destruct s as [|first s].
  - split.
    + intros ([] & _ & [= <-]). split; [|done]. repeat split; try constructor. intros d. unfold starting_on. simpl. lia.
    + intros [_ Hi]. exists tt. split; [done|]. destruct w. simpl in *. by subst.
  - split.
    + intros (u & Hu & Hw). apply Hc in Hu as [Hv Hn]. destruct (any_overlap _ _ _) eqn:E; [done|].
      apply sorted_disjoint in E; [|done..]. injection Hw as <-. done.
    + intros [(Hv & Hn & Hd) Hi]. exists tt. split; [by apply Hc|].
      apply sorted_disjoint in Hd; [|done..]. rewrite Hd. destruct w. simpl in *. by subst.
Qed.

Lemma NewWeeklyHours_is_ok l : is_ok (NewWeeklyHours l) = true ↔ valid_week l.
Proof.
  split.
  - destruct (NewWeeklyHours l) as [w|] eqn:E; [|done]. by apply NewWeeklyHours_ok in E as [? _].
  - intros H. by rewrite (proj2 (NewWeeklyHours_ok l (MkHours (sort_by starts_before l)))).
Qed.

(** Hours the program made. *)
Definition week_ok (w : WeeklyHours) : Prop :=
  valid_week (intervals w) ∧ StronglySorted (λ a b, starts_before a b = true) (intervals w).

Lemma NewWeeklyHours_week_ok l w : NewWeeklyHours l = Ok w → week_ok w.
Proof.
  intros [Hv Hw]%NewWeeklyHours_ok. unfold week_ok. rewrite Hw. split.
  - by eapply valid_week_perm; [symmetry; apply sort_by_perm|].
  - apply sort_by_sorted; [apply starts_before_total|apply starts_before_trans].
Qed.

(** Storing hours and validating them again, as loading does, changes nothing. *)
Lemma NewWeeklyHours_again w : week_ok w → NewWeeklyHours (intervals w) = Ok w.
Proof. intros [Hv Hs]. apply NewWeeklyHours_ok. split; [done|]. by rewrite sort_by_id. Qed.

(** In a valid week a start belongs to one interval only, so the order
    [slices.SortFunc] leaves equal starts in never matters. *)
Lemma start_unique l a b :
  valid_week l → a ∈ l → b ∈ l → weekStart a = weekStart b → a = b.
Proof.
  intros (Hv & _ & Hd) Ha Hb E. rewrite Forall_forall in Hv.
  assert (Hno : ∀ x y, x ∈ l → y ∈ l → weekStart x = weekStart y → ¬ disjoint x y).
  { intros x y Hx Hy Exy Hxy. apply disjoint_ordered in Hxy; [|by apply Hv..|lia].
    pose proof (Hv x Hx) as (_ & _ & _ & ? & _). lia. }
  pose proof Ha as Ha'. pose proof Hb as Hb'.
  apply list_elem_of_lookup in Ha as [i Hi], Hb as [j Hj].
  destruct (decide (i < j)%nat) as [Hij|].
  { destruct (Hno a b); [done..|]. by eapply pairwise_lookup. }
  destruct (decide (j < i)%nat) as [Hji|]; [|assert (i = j) by lia; congruence].
  destruct (Hno b a); [done..|]. by eapply pairwise_lookup.
Qed.

(** In whatever order the rows come back. *)
Lemma NewWeeklyHours_perm w l :
  week_ok w → l ≡ₚ intervals w → NewWeeklyHours l = Ok w.
Proof.
  intros [Hv Hs] Hp. apply NewWeeklyHours_ok. split; [by eapply valid_week_perm; [symmetry|]|].
  eapply StronglySorted_unique_strong; [|exact Hs|apply sort_by_sorted; [apply starts_before_total|apply starts_before_trans]|].
  - intros a b Ha Hb. unfold starts_before. rewrite !Z.leb_le. intros.
    rewrite elem_of_sort_by, Hp in Hb. apply (start_unique (intervals w)); [done..|lia].
  - by rewrite sort_by_perm.
Qed.

#[export] Hint Resolve NewWeeklyHours_week_ok : inv.

(** ** Clock times and clashes *)

Lemma clash_spec a b :
  valid_interval a → valid_interval b →
  existsb (clash a b) shifts = true ↔ ∃ m, covers_minute a m ∧ covers_minute b m.
Proof.
  intros Ha Hb. destruct (weekStart_valid a Ha) as [Ea Ra], (weekStart_valid b Hb) as [Eb Rb].
  destruct Ha as (_ & _ & _ & Ma & _), Hb as (_ & _ & _ & Mb & _).
  unfold covers_minute, clash. rewrite <- Ea, <- Eb. clear Ea Eb.
  rewrite existsb_elem. unfold shifts. change MinutesPerWeek with 10080. split.
  - intros (s & Hs & Hc). bool_prop. assert (s = -10080 ∨ s = 0 ∨ s = 10080) as Hs' by set_solver.
    exists (Z.max (weekStart a) (weekStart b + s)).
    assert (Hmod : ∀ x k, 0 ≤ x < 10080 → (x + k * 10080) mod 10080 = x).
    { intros x k Hx. rewrite Z.mod_add, Z.mod_small; lia. }
    split.
    + rewrite Z.mod_small; lia.
    + destruct Hs' as [->|[->| ->]].
      * replace (_ - weekStart b) with (Z.max (weekStart a) (weekStart b + -10080) - weekStart b + 10080 + (-1) * 10080) by lia.
        rewrite Hmod; lia.
      * rewrite Z.mod_small; lia.
      * replace (_ - weekStart b) with (Z.max (weekStart a) (weekStart b + 10080) - weekStart b - 10080 + 1 * 10080) by lia.
        rewrite Hmod; lia.
  - intros (m & H1 & H2).
    pose proof (Z.div_mod (m - weekStart a) 10080 ltac:(lia)) as Da. pose proof (Z.mod_pos_bound (m - weekStart a) 10080 ltac:(lia)).
    pose proof (Z.div_mod (m - weekStart b) 10080 ltac:(lia)) as Db. pose proof (Z.mod_pos_bound (m - weekStart b) 10080 ltac:(lia)).
    set (ka := (m - weekStart a) / 10080) in *. set (kb := (m - weekStart b) / 10080) in *.
    set (ra := (m - weekStart a) mod 10080) in *. set (rb := (m - weekStart b) mod 10080) in *.
    clearbody ka kb ra rb. exists ((kb - ka) * 10080).
    assert (kb - ka = -1 ∨ kb - ka = 0 ∨ kb - ka = 1) as Hk by lia.
    split; [destruct Hk as [->|[->| ->]]; set_solver|]. rewrite andb_true_iff, !Z.ltb_lt. lia.
Qed.

(** [NewWeeklyHours] accepts exactly the weeks whose intervals are each
    well-formed (a real weekday, on 5-minute steps, 5 minutes to 24 hours), of
    which at most four start per day, and no two of which share a minute of the
    endlessly repeating week — including a Saturday night that runs into
    Sunday — although it only compares each interval with the next; it keeps
    exactly the intervals given, by start, whatever order they came in. *)
Theorem NewWeeklyHours_accepts l w :
  NewWeeklyHours l = Ok w ↔
  (Forall valid_interval l ∧ (∀ d, starting_on d l ≤ 4) ∧
   ∀ i j a b, i ≠ j → l !! i = Some a → l !! j = Some b → ∀ m, ¬ (covers_minute a m ∧ covers_minute b m)) ∧
  intervals w ≡ₚ l ∧ StronglySorted (λ a b, weekStart a ≤ weekStart b) (intervals w).
Proof.
  assert (Hle : ∀ s, StronglySorted (λ a b, weekStart a ≤ weekStart b) s ↔ StronglySorted (λ a b, starts_before a b = true) s).
  { intros s. split; apply pairwise_impl; intros; by apply Z.leb_le. }
  assert (Hvw : (∀ i j a b, i ≠ j → l !! i = Some a → l !! j = Some b → ∀ m, ¬ (covers_minute a m ∧ covers_minute b m))
                ↔ StronglySorted disjoint l).
  { split.
    - intros H. apply pairwise_intro. intros i j x y Hij Hi Hj m. apply (H i j x y); [lia|done..].
    - intros H i j a b Hij Hi Hj. destruct (decide (i < j)%nat); [by eapply (pairwise_lookup disjoint)|].
      apply disjoint_sym. eapply (pairwise_lookup disjoint l j i); [done|lia|done..]. }
  rewrite Hvw, Hle. split.
  - intros H. pose proof (NewWeeklyHours_week_ok _ _ H) as [_ Hs]. apply NewWeeklyHours_ok in H as [Hv Hw].
    split; [exact Hv|]. split; [by rewrite Hw, sort_by_perm|done].
  - intros (Hv & Hp & Hs). apply NewWeeklyHours_perm; [|by symmetry]. split; [|done]. by eapply valid_week_perm; [symmetry|].
Qed.

Lemma Overlaps_iff w o :
  week_ok w → week_ok o →
  Overlaps w o = true ↔ ∃ a b m, a ∈ intervals w ∧ b ∈ intervals o ∧ covers_minute a m ∧ covers_minute b m.
Proof.
  intros ((Hw & _) & _) ((Ho & _) & _). rewrite Forall_forall in Hw, Ho. unfold Overlaps. rewrite existsb_elem. split.
  - intros (a & Ha & Hb). apply existsb_elem in Hb as (b & Hb & Hc).
    apply clash_spec in Hc as (m & ? & ?); [|auto..]. by exists a, b, m.
  - intros (a & b & m & Ha & Hb & Hm). exists a. split; [done|]. apply existsb_elem. exists b. split; [done|].
    apply clash_spec; [auto..|by exists m].
Qed.

Lemma Overlaps_sym w o : week_ok w → week_ok o → Overlaps w o = Overlaps o w.
Proof.
  intros Hw Ho. apply eq_bool_prop_intro. rewrite !Is_true_true, !Overlaps_iff by done. naive_solver.
Qed.

Lemma Overlaps_false_minutes w o :
  week_ok w → week_ok o →
  Overlaps w o = false ↔ ∀ a b m, a ∈ intervals w → b ∈ intervals o → ¬ (covers_minute a m ∧ covers_minute b m).
Proof. intros Hw Ho. rewrite <- not_true_iff_false, Overlaps_iff by done. naive_solver. Qed.

(** [Overlaps] — the check that one person's templates at two branches
    never put them in both — answers true exactly when the two weeks share a
    minute on the repeating clock, for any two weeks the program made; so
    the check does not depend on which of the two templates is being saved. *)
Theorem Overlaps_shares_a_minute w o :
  week_ok w → week_ok o →
  (Overlaps w o = true ↔ ∃ a b m, a ∈ intervals w ∧ b ∈ intervals o ∧ covers_minute a m ∧ covers_minute b m) ∧ Overlaps w o = Overlaps o w.
Proof.
  intros Hw Ho. split; [by apply Overlaps_iff|by apply Overlaps_sym]. Qed.

Definition week_sat_night : WeeklyHours := MkHours [MkWeekly 6 1320 360].
Definition week_sun_morning : WeeklyHours := MkHours [MkWeekly 0 180 240].

Lemma Overlaps_shares_a_minute_witness : Overlaps week_sat_night week_sun_morning = true.
Proof.
  assert (H1 : week_ok week_sat_night) by (apply (NewWeeklyHours_week_ok [MkWeekly 6 1320 360]); reflexivity).
  assert (H2 : week_ok week_sun_morning) by (apply (NewWeeklyHours_week_ok [MkWeekly 0 180 240]); reflexivity).
  apply (proj2 (proj1 (Overlaps_shares_a_minute _ _ H1 H2))).
  exists (MkWeekly 6 1320 360), (MkWeekly 0 180 240), (7 * 1440 + 200).
  split; [by left|]. split; [by left|]. split; vm_compute; reflexivity.
Defined.

(** The arithmetic of [IntervalFromClock]: [x] is closing minus opening. *)
Lemma clock_minutes x m :
  5 ≤ m ≤ 1440 → x = m ∨ x = m - 1440 ∨ (x = 0 ∧ m = 1440) →
  (if Z.rem (Z.rem x 1440 + 1440) 1440 =? 0 then 1440 else Z.rem (Z.rem x 1440 + 1440) 1440) = m.
Proof.
  intros Hm Hx. assert (Hr : ∀ y, 0 ≤ y < 1440 → Z.rem (y + 1440) 1440 = y).
  { intros y Hy. rewrite Z.rem_mod_nonneg by lia. replace (y + 1440) with (y + 1 * 1440) by lia.
    rewrite Z.mod_add, Z.mod_small; lia. }
  destruct (decide (m = 1440)) as [->|Hm'].
  { assert (x = 1440 ∨ x = 0) as [->| ->] by lia; reflexivity. }
  assert (Z.rem (Z.rem x 1440 + 1440) 1440 = m) as ->; [|by rewrite (proj2 (Z.eqb_neq _ _)) by lia].
  destruct Hx as [->|[->|[_ ?]]]; [|..|lia].
  - rewrite (Z.rem_small m) by lia. apply Hr. lia.
  - replace (m - 1440) with (- (1440 - m)) by lia. rewrite Z.rem_opp_l, (Z.rem_small (1440 - m)) by lia.
    replace (- (1440 - m) + 1440) with m by lia. apply Z.rem_small. lia.
Qed.

(** Opening and closing times on the clock give the interval back. *)
Lemma Clock_round_trip i :
  valid_interval i → IntervalFromClock (Day i) (Clock i).1 (Clock i).2 = i.
Proof.
  intros (Hd & Hs & _ & Hm & _). unfold IntervalFromClock, Clock, interval_End. change MinutesPerDay with 1440.
  rewrite int64_id by (unfold in_int64, min_int64, max_int64; lia).
  destruct i as [d s m]; cbn [Day Start Minutes] in *.
  destruct (Z.eqb_spec (s + m) 1440) as [E|E]; cbn [fst snd]; f_equal; apply clock_minutes; [lia|lia|lia|].
  rewrite Z.rem_mod_nonneg by lia. Z.div_mod_to_equations; lia.
Qed.

Lemma clock_wrap o c : 0 ≤ o < 1440 → 0 ≤ c ≤ 1440 →
  ∃ m, Z.rem (Z.rem (c - o) 1440 + 1440) 1440 = m mod 1440 ∧ 0 < m ≤ 1440 ∧
       (o + m = c ∨ o + m = c + 1440).
Proof.
  intros Ho Hc. destruct (decide (c ≤ o)).
  - exists (c - o + 1440). split; [|lia]. replace (c - o) with (- (o - c)) by lia.
    rewrite Z.rem_opp_l, (Z.rem_small (o - c)) by lia. rewrite Z.rem_mod_nonneg by lia. done.
  - exists (c - o). split; [|lia].
    destruct (decide (c - o = 1440)) as [->|]; [done|]. rewrite (Z.rem_small (c - o)) by lia.
    rewrite Z.rem_mod_nonneg by lia. replace (c - o + 1440) with (c - o + 1 * 1440) by lia. by rewrite Z.mod_add.
Qed.

(** Times of day survive the API: what [Clock] shows of a valid interval
    is read back by [IntervalFromClock] as the same interval (shifts past
    midnight, whole days and the day's end included), and opening and closing
    times on 5-minute steps become a valid interval whose [Clock] is those
    times, a closing 00:00 showing as 24:00. *)
Theorem clock_round_trip d o c i :
  valid_interval i →
  0 ≤ d ≤ 6 → 0 ≤ o < 1440 → 0 ≤ c ≤ 1440 → (5 | o) → (5 | c) →
  IntervalFromClock (Day i) (Clock i).1 (Clock i).2 = i ∧
  valid_interval (IntervalFromClock d o c) ∧
  Clock (IntervalFromClock d o c) = (o, if c =? 0 then 1440 else c).
Proof.
  intros Hi Hd Ho Hc Do Dc. split; [by apply Clock_round_trip|].
  unfold IntervalFromClock. change MinutesPerDay with 1440.
  destruct (clock_wrap o c Ho Hc) as (m & -> & Hm & Hend).
  assert (Hmin : (if m mod 1440 =? 0 then 1440 else m mod 1440) = m).
  { destruct (decide (m = 1440)) as [->|]; [done|]. rewrite Z.mod_small by lia. by rewrite (proj2 (Z.eqb_neq _ _)) by lia. }
  rewrite Hmin. assert (Dm : (5 | m)).
  { replace m with (c - o + (if decide (o + m = c) then 0 else 1440)) by (destruct (decide _); lia).
    apply Z.divide_add_r; [by apply Z.divide_sub_r|]. destruct (decide _); [by exists 0|by exists 288]. }
  split.
  - unfold valid_interval. cbn [Day Start Minutes]. destruct Dm as [k Hk]. repeat split; try done; try lia. by exists k.
  - unfold Clock, interval_End. cbn [Start Minutes]. change MinutesPerDay with 1440.
    rewrite int64_id by (unfold in_int64, min_int64, max_int64; lia).
    destruct (Z.eqb_spec (o + m) 1440) as [E|E]; f_equal.
    + destruct (Z.eqb_spec c 0); lia.
    + rewrite Z.rem_mod_nonneg by lia. rewrite (proj2 (Z.eqb_neq c 0)) by lia.
      destruct Hend as [He|He]; rewrite He.
      * rewrite Z.mod_small; lia.
      * replace (c + 1440) with (c + 1 * 1440) by lia. rewrite Z.mod_add, Z.mod_small; lia.
Qed.

Lemma clock_round_trip_witness :
  IntervalFromClock 4 960 120 = MkWeekly 4 960 600 ∧ Clock (IntervalFromClock 4 960 120) = (960, 120).
Proof.
  assert (Hv : valid_interval (MkWeekly 4 960 600)).
  { repeat split; try (vm_compute; discriminate); [by exists 192|by exists 120]. }
  destruct (clock_round_trip 4 960 120 (MkWeekly 4 960 600) Hv) as (H1 & _ & H2).
  1-3: by split; vm_compute. 1: by exists 192. 1: by exists 24.
  split; [exact H1|exact H2].
Defined.
