(* ===== verification/SchedDate.v ===== *)
(** * Calendar dates (src/internal/scheduling/domain/date.go) *)
From S2P Require Import Prelude GoTime GoText GoDate SchedWeekly.
Open Scope Z_scope.

Record Date := MkDate { Year : Z; Month : Z; DayOfMonth : Z }.

#[export] Instance Date_eq_dec : EqDecision Date.
Proof. solve_decision. Defined.
#[export] Instance Date_countable : Countable Date.
Proof.
  refine (inj_countable' (λ d, (Year d, Month d, DayOfMonth d)) (λ p, MkDate p.1.1 p.1.2 p.2) _). by intros [].
Defined.

Definition date_of_triple (p : Z * Z * Z) : Date := MkDate p.1.1 p.1.2 p.2.

(** [DateOf(t)], for a [t] in location [loc]. *)
Definition DateOf (loc : Location) (t : time) : Date := date_of_triple (local_date loc t).

Definition ParseDate (s : string) : res sched_error Date :=
  match parse_date_only s with
  | None => Err ErrInvalidDate
  | Some p => Ok (date_of_triple p)
  end.

Definition Date_String (d : Date) : string := format_date (Year d) (Month d) (DayOfMonth d).

Definition midnightUTC (d : Date) : time := date (Year d) (Month d) (DayOfMonth d) 0 0 0 0 UTC.

Definition Weekday (d : Date) : Z := weekday_of_days (local_day UTC (midnightUTC d)).

(** [t.AddDate(0, 0, n)] in UTC. *)
Definition AddDate_days (t : time) (n : Z) : time :=
  let '(y, m, d) := local_date UTC t in
  date y m (d + n) (local_hour UTC t) (local_minute UTC t) (local_second UTC t) (nanosecond t) UTC.

Definition AddDays (d : Date) (n : Z) : Date := DateOf UTC (AddDate_days (midnightUTC d) n).

(** [time.Compare] of the two midnights. *)
Definition Date_Compare (d o : Date) : Z :=
  if midnightUTC d <? midnightUTC o then -1 else if midnightUTC o <? midnightUTC d then 1 else 0.

Definition At (d : Date) (minute : Z) (loc : Location) : time :=
  date (Year d) (Month d) (DayOfMonth d) 0 minute 0 0 loc.

(** ** Dates are day numbers *)

Definition valid_date (d : Date) : Prop := valid_civil (Year d) (Month d) (DayOfMonth d).

#[export] Instance valid_date_dec d : Decision (valid_date d).
Proof. unfold valid_date. apply _. Defined.

Definition day_number (d : Date) : Z := days_of_civil (Year d) (Month d) (DayOfMonth d).
Definition date_of_day (n : Z) : Date := date_of_triple (civil_of_days n).

Lemma date_of_day_valid n : valid_date (date_of_day n).
Proof. unfold valid_date, date_of_day. pose proof (civil_valid n). by destruct (civil_of_days n) as [[]]. Qed.

Lemma day_number_date_of_day n : day_number (date_of_day n) = n.
Proof. unfold day_number, date_of_day. pose proof (civil_inv n). by destruct (civil_of_days n) as [[]]. Qed.

Lemma date_of_day_number d : valid_date d → date_of_day (day_number d) = d.
Proof. intros H. unfold date_of_day, day_number. rewrite days_inv by done. by destruct d. Qed.

Lemma day_number_inj d o : valid_date d → valid_date o → day_number d = day_number o → d = o.
Proof. intros Hd Ho E. by rewrite <- (date_of_day_number d), <- (date_of_day_number o), E. Qed.

(** Nanoseconds in a day. *)
Definition Day_ns : Z := secs_per_day * Second.

Lemma midnightUTC_valid d : valid_date d → midnightUTC d = day_number d * Day_ns.
Proof. intros [Hm _]. unfold midnightUTC, day_number, Day_ns. rewrite date_utc by done. lia. Qed.

Lemma local_day_midnight d : valid_date d → local_day UTC (midnightUTC d) = day_number d.
Proof.
  intros H. rewrite midnightUTC_valid by done. apply (local_day_fixed 0). unfold Day_ns.
  assert (0 < secs_per_day * Second) by done. lia.
Qed.

Lemma DateOf_midnight d : valid_date d → DateOf UTC (midnightUTC d) = d.
Proof. intros H. unfold DateOf, local_date. rewrite local_day_midnight by done. by apply date_of_day_number. Qed.

Lemma Weekday_valid d : valid_date d → Weekday d = weekday_of_days (day_number d).
Proof. intros H. unfold Weekday. by rewrite local_day_midnight. Qed.

Lemma Date_Compare_spec d o : valid_date d → valid_date o →
  Date_Compare d o = match Z.compare (day_number d) (day_number o) with Lt => -1 | Eq => 0 | Gt => 1 end.
Proof.
  intros Hd Ho. unfold Date_Compare. rewrite !midnightUTC_valid by done. assert (0 < Day_ns) by done.
  destruct (Z.compare_spec (day_number d) (day_number o)) as [->|Hlt|Hgt].
  - by rewrite Z.ltb_irrefl.
  - by rewrite (proj2 (Z.ltb_lt _ _)) by nia.
  - rewrite (proj2 (Z.ltb_ge _ _)) by nia. by rewrite (proj2 (Z.ltb_lt _ _)) by nia.
Qed.

Lemma AddDays_day d n : valid_date d → AddDays d n = date_of_day (day_number d + n).
Proof.
  intros H. unfold AddDays, AddDate_days, local_date. rewrite local_day_midnight by done.
  pose proof (date_of_day_number d H) as E. unfold date_of_day in E.
  assert (Hc : local_secs UTC (midnightUTC d) = day_number d * 86400).
  { rewrite midnightUTC_valid by done. unfold UTC. change {| loc_first := 0; loc_tx := [] |} with (fixed_zone 0).
    rewrite local_secs_fixed. unfold Day_ns. rewrite Z.mul_assoc, Z.div_mul by done. unfold secs_per_day. lia. }
  assert (Hh : local_hour UTC (midnightUTC d) = 0).
  { unfold local_hour, secs_per_day. by rewrite Hc, Z.mod_mul. }
  assert (Hmi : local_minute UTC (midnightUTC d) = 0).
  { unfold local_minute. rewrite Hc. replace (day_number d * 86400) with (day_number d * 24 * 3600) by lia. by rewrite Z.mod_mul. }
  assert (Hs : local_second UTC (midnightUTC d) = 0).
  { unfold local_second. rewrite Hc. replace (day_number d * 86400) with (day_number d * 1440 * 60) by lia. by rewrite Z.mod_mul. }
  assert (Hn : nanosecond (midnightUTC d) = 0).
  { unfold nanosecond. rewrite midnightUTC_valid by done. unfold Day_ns. by rewrite Z.mul_assoc, Z.mod_mul. }
  rewrite Hh, Hmi, Hs, Hn. destruct (civil_of_days (day_number d)) as [[y m] dd] eqn:Ec.
  cbn in E. subst d. destruct H as [Hm _]. cbn [Year Month DayOfMonth] in *.
  unfold DateOf, local_date, date_of_day. f_equal. f_equal. apply (local_day_fixed 0).
  change UTC with (fixed_zone 0). rewrite date_fixed by done. rewrite days_of_civil_day.
  unfold day_number. cbn [Year Month DayOfMonth date_of_triple fst snd].
  unfold secs_per_day, Second, Millisecond, Microsecond. lia.
Qed.

Lemma AddDays_valid d n : valid_date d → valid_date (AddDays d n) ∧ day_number (AddDays d n) = day_number d + n.
Proof. intros H. rewrite AddDays_day by done. split; [apply date_of_day_valid|apply day_number_date_of_day]. Qed.

Lemma DateOf_valid loc t : valid_date (DateOf loc t) ∧ day_number (DateOf loc t) = local_day loc t.
Proof. unfold DateOf, local_date. split; [apply date_of_day_valid|apply day_number_date_of_day]. Qed.

(** In a fixed zone, [At] is the wall clock. *)
Lemma At_fixed d minute off :
  valid_date d → At d minute (fixed_zone off) = (day_number d * 86400 + minute * 60 - off) * Second.
Proof. intros [Hm _]. unfold At, day_number. rewrite date_fixed by done. unfold secs_per_day. lia. Qed.

(** The check [Set] makes of an override's date: only a date that exists
    prints like the day it normalises to. *)
Definition is_real_date (d : Date) : bool := bool_decide (Date_String d = Date_String (DateOf UTC (midnightUTC d))).

Lemma is_real_date_valid d : valid_date d → is_real_date d = true.
Proof. intros H. apply bool_decide_eq_true_2. by rewrite DateOf_midnight. Qed.

#[export] Hint Resolve date_of_day_valid is_real_date_valid : go.

(** Dates survive their text form and day arithmetic: a string parses
    exactly when it is the four-digit-year YYYY-MM-DD form of a date that
    exists, and then to that date; and adding days to any real date is the
    calendar's day count, month ends and leap years included, and undone by
    adding the opposite. *)
Theorem date_text_and_days s d e n :
  valid_date e →
  (ParseDate s = Ok d ↔ 0 ≤ Year d < 10000 ∧ valid_date d ∧ s = Date_String d) ∧
  day_number (AddDays e n) = day_number e + n ∧ AddDays (AddDays e n) (- n) = e ∧
  Weekday (AddDays e n) = (Weekday e + n) mod 7.
Proof.
  intros He. destruct (AddDays_valid e n He) as [Hv Hn]. split; [|split; [done|split]].
  - unfold ParseDate. destruct d as [y m dd]. unfold valid_date, Date_String. cbn [Year Month DayOfMonth].
    rewrite <- parse_format_date. destruct (parse_date_only s) as [[[y' m'] d']|]; [|done].
    unfold date_of_triple. simpl. split; by intros [= -> -> ->].
  - rewrite AddDays_day by done. rewrite Hn. replace (_ + _) with (day_number e) by lia. by apply date_of_day_number.
  - rewrite !Weekday_valid, Hn by done. unfold weekday_of_days. rewrite Zplus_mod_idemp_l. f_equal. lia.
Qed.

Lemma date_text_and_days_witness :
  day_number (AddDays (MkDate 2028 2 28) 2) = day_number (MkDate 2028 2 28) + 2 ∧
  AddDays (AddDays (MkDate 2028 2 28) 2) (-2) = MkDate 2028 2 28.
Proof.
  assert (Hv : valid_date (MkDate 2028 2 28)) by (apply (bool_decide_eq_true_1 _); reflexivity).
  destruct (date_text_and_days "2028-02-28" (MkDate 2028 2 28) (MkDate 2028 2 28) 2 Hv) as (_ & H1 & H2 & _).
  split; [exact H1|exact H2].
Defined.

Example feb_29_2028 : AddDays (MkDate 2028 2 28) 1 = MkDate 2028 2 29. Proof. reflexivity. Qed.
Example feb_29_2100 : ParseDate "2100-02-29" = Err ErrInvalidDate. Proof. reflexivity. Qed.
