(* ===== verification/Spans.v ===== *)
(** * Sets of instants as lists of spans (src/internal/scheduling/domain/windows.go)

    The span operations behind the working windows. [mustSpan] panics on an
    empty span; here a panic is [None], so every theorem that gives [Some]
    also shows the panic is never reached. *)
From S2P Require Import Prelude GoTime Shared.
Open Scope Z_scope.

Definition later (a b : time) : time := if After a b then a else b.
Definition earlier (a b : time) : time := if Before a b then a else b.

Definition mustSpan (start end_ : time) : option Interval :=
  match NewInterval start end_ with
  | Ok s => Some s
  | Err _ => None
  end.

Definition appendSpan (spans : list Interval) (start end_ : time) : list Interval :=
  match NewInterval start end_ with
  | Ok s => spans ++ [s]
  | Err _ => spans
  end.

Definition starts_no_later (a b : Interval) : bool := i_start a <=? i_start b.

(** The merging loop; [out] holds the result so far, newest first. *)
Fixpoint merge_loop (out spans : list Interval) : option (list Interval) :=
  match spans with
  | [] => Some (reverse out)
  | s :: spans' =>
      match out with
      | last :: rest =>
          if negb (After (i_start s) (i_end last)) then
            if After (i_end s) (i_end last)
            then m ← mustSpan (i_start last) (i_end s); merge_loop (m :: rest) spans'
            else merge_loop out spans'
          else merge_loop (s :: out) spans'
      | [] => merge_loop [s] spans'
      end
  end.

Definition normalize (spans : list Interval) : option (list Interval) :=
  merge_loop [] (sort_by starts_no_later spans).

(** The two indices of [intersect] are the remaining suffixes of [a] and [b]. *)
Fixpoint intersect (a : list Interval) : list Interval → option (list Interval) :=
  fix go (b : list Interval) : option (list Interval) :=
    match a, b with
    | x :: a', y :: b' =>
        let start := later (i_start x) (i_start y) in
        let end_ := earlier (i_end x) (i_end y) in
        rest ← (if Before (i_end x) (i_end y) then intersect a' b else go b');
        if Before start end_ then s ← mustSpan start end_; Some (s :: rest) else Some rest
    | _, _ => Some []
    end.

(** [subtract]'s pointer [j]: skip the spans that end before [start]. *)
Fixpoint skip_before (start : time) (b : list Interval) : list Interval :=
  match b with
  | x :: b' => if negb (After (i_end x) start) then skip_before start b' else b
  | [] => []
  end.

(** Its inner loop over [k]: the pieces cut out, and where the rest starts. *)
Fixpoint cut (start end_ : time) (b : list Interval) : option (list Interval * time) :=
  match b with
  | [] => Some ([], start)
  | x :: b' =>
      if Before (i_start x) end_ then
        piece ← (if After (i_start x) start then s ← mustSpan start (i_start x); Some [s] else Some []);
        more ← cut (if After (i_end x) start then i_end x else start) end_ b';
        Some (piece ++ more.1, more.2)
      else Some ([], start)
  end.

Fixpoint subtract (a b : list Interval) : option (list Interval) :=
  match a with
  | [] => Some []
  | s :: a' =>
      let b' := skip_before (i_start s) b in
      pieces ← cut (i_start s) (i_end s) b';
      tail ← (if Before pieces.2 (i_end s) then l ← mustSpan pieces.2 (i_end s); Some [l] else Some []);
      rest ← subtract a' b';
      Some (pieces.1 ++ tail ++ rest)
  end.

Fixpoint clip (spans : list Interval) (from to : time) : option (list Interval) :=
  match spans with
  | [] => Some []
  | s :: spans' =>
      let start := later (i_start s) from in
      let end_ := earlier (i_end s) to in
      rest ← clip spans' from to;
      if Before start end_ then s ← mustSpan start end_; Some (s :: rest) else Some rest
  end.

(** ** What the lists mean *)

(** The instants of a list of spans. *)
Definition covered (t : time) (l : list Interval) : Prop := ∃ i, i ∈ l ∧ in_span t i.

(** Sorted, not empty, and never touching: one way only to write a set. *)
Definition gap_before (a b : Interval) : Prop := i_end a < i_start b.
Definition normalized (l : list Interval) : Prop := Forall nonempty l ∧ StronglySorted gap_before l.

#[export] Instance covered_dec t l : Decision (covered t l).
Proof.
  refine (cast_if (decide (Exists (in_span t) l))); rewrite Exists_exists in *; done.
Defined.

#[export] Instance gap_before_dec a b : Decision (gap_before a b).
Proof. unfold gap_before. apply _. Defined.

Lemma covered_nil t : ¬ covered t [].
Proof. intros (i & Hi & _). by apply not_elem_of_nil in Hi. Qed.

Lemma covered_cons t i l : covered t (i :: l) ↔ in_span t i ∨ covered t l.
Proof. unfold covered. setoid_rewrite elem_of_cons. naive_solver. Qed.

Lemma covered_app t l l' : covered t (l ++ l') ↔ covered t l ∨ covered t l'.
Proof. unfold covered. setoid_rewrite elem_of_app. naive_solver. Qed.

Lemma covered_perm t l l' : l ≡ₚ l' → covered t l → covered t l'.
Proof. intros Hp (i & Hi & ?). exists i. by rewrite <- Hp. Qed.

Lemma mustSpan_some s e : s < e → mustSpan s e = Some (MkInterval s e).
Proof. intros H. unfold mustSpan, NewInterval, After. by rewrite (proj2 (Z.ltb_lt _ _)). Qed.

Lemma later_max a b : later a b = Z.max a b.
Proof. unfold later, After. destruct (Z.ltb_spec b a); lia. Qed.
Lemma earlier_min a b : earlier a b = Z.min a b.
Proof. unfold earlier, Before. destruct (Z.ltb_spec a b); lia. Qed.

Lemma appendSpan_covered t spans s e :
  covered t (appendSpan spans s e) ↔ covered t spans ∨ s ≤ t < e.
Proof.
  unfold appendSpan, NewInterval, After. destruct (Z.ltb_spec s e); simpl.
  - rewrite covered_app, covered_cons. unfold in_span. simpl. pose proof (covered_nil t). tauto.
  - split; [tauto|]. intros [?|?]; [done|lia].
Qed.

Lemma appendSpan_nonempty spans s e : Forall nonempty spans → Forall nonempty (appendSpan spans s e).
Proof.
  intros H. unfold appendSpan. destruct (NewInterval s e) eqn:E; [|done].
  apply Forall_app. split; [done|]. constructor; [by eapply NewInterval_nonempty|constructor].
Qed.

Lemma normalized_cons i l :
  normalized (i :: l) ↔ nonempty i ∧ (∀ j, j ∈ l → i_end i < i_start j) ∧ normalized l.
Proof.
  unfold normalized, gap_before. rewrite Forall_cons. split.
  - intros ((Hi & Hl) & Hs). inversion Hs as [|?? Hs' Hg]; subst. rewrite Forall_forall in Hg. done.
  - intros (Hi & Hg & Hl & Hs). split; [done|]. constructor; [done|]. by apply Forall_forall.
Qed.

Lemma normalized_nil : normalized [].
Proof. split; constructor. Qed.

Lemma normalized_app a b :
  normalized a → normalized b → (∀ x y, x ∈ a → y ∈ b → i_end x < i_start y) → normalized (a ++ b).
Proof.
  induction a as [|x a IH]; [done|]. intros (Hx & Hg & Hn)%normalized_cons Hb Hab. cbn [app]. apply normalized_cons.
  split; [done|]. split; [|apply IH; [done..|]; intros; apply Hab; [by right|done]].
  intros j [Hj|Hj]%elem_of_app; [by apply Hg|apply Hab; [by left|done]].
Qed.

(** Two normalised lists of the same instants are the same list. *)
Lemma normalized_unique l l' :
  normalized l → normalized l' → (∀ t, covered t l ↔ covered t l') → l = l'.
Proof.
  revert l'. induction l as [|i l IH]; intros [|j l']; [done|..].
  - intros _ Hj H. apply normalized_cons in Hj as (Hn & _). destruct (covered_nil (i_start j)).
    apply H. rewrite covered_cons. left. unfold in_span, nonempty in *. lia.
  - intros Hi _ H. apply normalized_cons in Hi as (Hn & _). destruct (covered_nil (i_start i)).
    apply H. rewrite covered_cons. left. unfold in_span, nonempty in *. lia.
  - intros (Hi & Hgi & Hl)%normalized_cons (Hj & Hgj & Hl')%normalized_cons H.
    unfold nonempty in *. setoid_rewrite covered_cons in H. unfold in_span in H.
    assert (Hlo : ∀ (k k' : Interval) m m', i_start k < i_end k → (∀ x, x ∈ m' → i_end k' < i_start x) → i_start k' < i_end k' →
       (∀ t, i_start k ≤ t < i_end k ∨ covered t m → i_start k' ≤ t < i_end k' ∨ covered t m') → i_start k' ≤ i_start k).
    { intros k k' m m' Hk Hg Hk' Hc. destruct (Hc (i_start k)) as [?|(x & Hx & ?)]; [lia|lia|].
      specialize (Hg x Hx). unfold in_span in *. lia. }
    assert (Es : i_start i = i_start j).
    { apply Z.le_antisymm; [apply (Hlo j i l' l); try done; intros t; apply H|apply (Hlo i j l l'); try done; intros t; apply H]. }
    assert (Hhi : ∀ (k k' : Interval) m m', i_start k = i_start k' → i_start k < i_end k → i_start k' < i_end k' →
       (∀ x, x ∈ m' → i_end k' < i_start x) →
       (∀ t, i_start k ≤ t < i_end k ∨ covered t m → i_start k' ≤ t < i_end k' ∨ covered t m') → i_end k ≤ i_end k').
    { intros k k' m m' E Hk Hk' Hg Hc. destruct (Z.le_gt_cases (i_end k) (i_end k')) as [|Hlt]; [done|].
      destruct (Hc (i_end k')) as [?|(x & Hx & ?)]; [lia|lia|]. specialize (Hg x Hx). unfold in_span in *. lia. }
    assert (Ee : i_end i = i_end j).
    { apply Z.le_antisymm; [apply (Hhi i j l l'); try done; intros t; apply H|apply (Hhi j i l' l); try done; intros t; apply H]. }
    destruct i as [a b], j as [a' b']; simpl in *. subst a' b'. f_equal. apply IH; [done..|]. intros t.
    split; intros Hc; pose proof Hc as (x & Hx & Ht); unfold in_span in Ht.
    + specialize (Hgi x Hx). destruct (proj1 (H t)); [by right|lia|done].
    + specialize (Hgj x Hx). destruct (proj2 (H t)); [by right|lia|done].
Qed.

(** ** Normalising *)

Lemma merge_loop_spec out spans :
  Forall nonempty out → StronglySorted (λ a b, i_end b < i_start a) out →
  Forall nonempty spans → StronglySorted (λ a b, starts_no_later a b = true) spans →
  (∀ o s, head out = Some o → s ∈ spans → i_start o ≤ i_start s) →
  ∃ r, merge_loop out spans = Some r ∧ normalized r ∧ ∀ t, covered t r ↔ covered t out ∨ covered t spans.
Proof.
  revert out. induction spans as [|s spans IH]; intros out Hn Ho Hns Hs Hh; cbn [merge_loop].
  { exists (reverse out). split; [done|]. split.
    - split; [by apply Forall_reverse|]. apply pairwise_intro. intros i j x y Hij Hi Hj.
      pose proof (lookup_lt_Some _ _ _ Hi) as Li. pose proof (lookup_lt_Some _ _ _ Hj) as Lj. rewrite length_reverse in Li, Lj.
      rewrite reverse_lookup in Hi, Hj by done.
      unfold gap_before. eapply (pairwise_lookup _ _ _ _ _ _ Ho); [|exact Hj|exact Hi]. lia.
    - intros t. split.
      + intros H. left. eapply covered_perm; [apply reverse_Permutation|done].
      + intros [H|H]; [|by apply covered_nil in H]. eapply covered_perm; [symmetry; apply reverse_Permutation|done]. }
  apply Forall_cons in Hns as [Hsn Hns]. inversion Hs as [|?? Hs' Hle]; subst. rewrite Forall_forall in Hle.
  assert (Hle' : ∀ x, x ∈ spans → i_start s ≤ i_start x) by (intros x Hx; by apply Z.leb_le, Hle). clear Hle Hs.
  destruct out as [|last rest].
  - destruct (IH [s]) as (r & Hr & Hrn & Hc); [by repeat constructor|by repeat constructor|done|done| |].
    { intros o x [= <-] Hx. by apply Hle'. }
    exists r. split; [done|]. split; [done|]. intros t. rewrite Hc, !covered_cons. pose proof (covered_nil t). tauto.
  - pose proof (Hh last s eq_refl ltac:(by left)) as Hls. apply Forall_cons in Hn as [Hln Hrn].
    inversion Ho as [|?? Ho' Hg]; subst. unfold After. unfold nonempty in Hsn, Hln.
    destruct (Z.ltb_spec (i_end last) (i_start s)) as [Hgap|Htouch]; cbn [negb].
    + destruct (IH (s :: last :: rest)) as (r & Hr & Hrno & Hc); [by repeat constructor| |done|done| |].
      { constructor; [done|]. constructor; [done|]. eapply Forall_impl; [exact Hg|]. intros x Hx; simpl in *. lia. }
      { intros o x [= <-] Hx. by apply Hle'. }
      exists r. split; [done|]. split; [done|]. intros t. rewrite Hc, !covered_cons. tauto.
    + destruct (Z.ltb_spec (i_end last) (i_end s)) as [Hext|Hin].
      * rewrite mustSpan_some by lia. cbn [mbind option_bind].
        destruct (IH (MkInterval (i_start last) (i_end s) :: rest)) as (r & Hr & Hrno & Hc); [|by constructor|done|done| |].
        { constructor; [unfold nonempty; simpl; lia|done]. }
        { intros o x [= <-] Hx. simpl. specialize (Hle' x Hx). lia. }
        exists r. split; [done|]. split; [done|]. intros t. rewrite Hc, !covered_cons. unfold in_span. simpl.
        assert (i_start last ≤ t < i_end s ↔ i_start last ≤ t < i_end last ∨ i_start s ≤ t < i_end s) as -> by lia. tauto.
      * destruct (IH (last :: rest)) as (r & Hr & Hrno & Hc); [by constructor|done|done|done| |].
        { intros o x [= <-] Hx. specialize (Hle' x Hx). lia. }
        exists r. split; [done|]. split; [done|]. intros t. rewrite Hc, !covered_cons. unfold in_span. split; [tauto|].
        intros [[?|?]|[?|?]]; [tauto|tauto|left; left; lia|tauto].
Qed.

Lemma normalize_spec spans :
  Forall nonempty spans →
  ∃ r, normalize spans = Some r ∧ normalized r ∧ ∀ t, covered t r ↔ covered t spans.
Proof.
  intros Hn. unfold normalize.
  destruct (merge_loop_spec [] (sort_by starts_no_later spans)) as (r & Hr & Hrn & Hc).
  - constructor.
  - constructor.
  - by rewrite sort_by_perm.
  - apply sort_by_sorted; unfold starts_no_later; intros *; rewrite ?Z.leb_gt, ?Z.leb_le; lia.
  - done.
  - exists r. split; [done|]. split; [done|]. intros t. rewrite Hc. split.
    + intros [H|H]; [by apply covered_nil in H|]. eapply covered_perm; [apply sort_by_perm|done].
    + intros H. right. eapply covered_perm; [symmetry; apply sort_by_perm|done].
Qed.

(** ** Intersecting *)

Lemma covered_after t l s : (∀ j, j ∈ l → s < i_start j) → covered t l → s < t.
Proof. intros H (j & Hj & ?). specialize (H j Hj). unfold in_span in *. lia. Qed.

(** What one step of [intersect] emits, before the rest. *)
Lemma intersect_emit x y r :
  let m := Z.max (i_start x) (i_start y) in
  let l := Z.min (i_end x) (i_end y) in
  nonempty x → nonempty y → normalized r → (∀ k, k ∈ r → l < i_start k) →
  ∃ r', (if Before m l then s ← mustSpan m l; Some (s :: r) else Some r) = Some r' ∧ normalized r' ∧
    (∀ t, covered t r' ↔ m ≤ t < l ∨ covered t r) ∧
    (∀ k, k ∈ r' → m ≤ i_start k ∨ k ∈ r).
Proof.
  intros m l Hx Hy Hr Hg. subst m l. unfold Before. destruct (Z.ltb_spec (Z.max (i_start x) (i_start y)) (Z.min (i_end x) (i_end y))) as [Hlt|Hge].
  - rewrite mustSpan_some by done. cbn [mbind option_bind]. eexists. split; [done|]. split; [|split].
    + apply normalized_cons. unfold nonempty. simpl. split; [lia|]. split; [|done]. intros k Hk. specialize (Hg k Hk). lia.
    + intros t. rewrite covered_cons. unfold in_span. simpl. done.
    + intros k [->|Hk]%elem_of_cons; [left; simpl; lia|by right].
  - eexists. split; [done|]. split; [done|]. split; [|by right]. intros t. split; [tauto|]. intros [?|?]; [lia|done].
Qed.

Lemma intersect_step x a y b :
  intersect (x :: a) (y :: b) =
    (rest ← (if i_end x <? i_end y then intersect a (y :: b) else intersect (x :: a) b);
     let m := Z.max (i_start x) (i_start y) in
     let l := Z.min (i_end x) (i_end y) in
     if Before m l then s ← mustSpan m l; Some (s :: rest) else Some rest).
Proof. cbn [intersect]. by rewrite later_max, earlier_min. Qed.

Lemma intersect_spec a b :
  normalized a → normalized b →
  ∃ r, intersect a b = Some r ∧ normalized r ∧ (∀ t, covered t r ↔ covered t a ∧ covered t b) ∧
       (∀ k, k ∈ r → (∃ i, i ∈ a ∧ i_start i ≤ i_start k) ∧ (∃ j, j ∈ b ∧ i_start j ≤ i_start k)).
Proof.
  revert b. induction a as [|x a IHa]; intros b Ha Hb.
  { exists []. destruct b; (split; [done|]); (split; [apply normalized_nil|]); (split; [|by intros k ?%not_elem_of_nil]);
      intros t; split; [by intros ?%covered_nil|by intros [?%covered_nil _]|by intros ?%covered_nil|by intros [?%covered_nil _]]. }
  induction b as [|y b IHb].
  { exists []. split; [done|]. split; [apply normalized_nil|]. split; [|by intros k ?%not_elem_of_nil].
    intros t; split; [by intros ?%covered_nil|by intros [_ ?%covered_nil]]. }
  pose proof Ha as (Hx & Hga & Hna)%normalized_cons. pose proof Hb as (Hy & Hgb & Hnb)%normalized_cons.
  rewrite intersect_step. destruct (Z.ltb_spec (i_end x) (i_end y)) as [Hlt|Hge].
  - destruct (IHa (y :: b) Hna Hb) as (r & -> & Hr & Hc & Hk). cbn [mbind option_bind].
    destruct (intersect_emit x y r Hx Hy Hr) as (r' & Hr' & Hn' & Hc' & Hk').
    { intros k Hkr. destruct (Hk k Hkr) as [(i & Hi & ?) _]. specialize (Hga i Hi). lia. }
    exists r'. split; [exact Hr'|]. split; [done|]. split.
    + intros t. rewrite Hc', Hc, !covered_cons. unfold in_span, nonempty in *. split; [intros [?|?]; [split; left; lia|tauto]|].
      intros [[?|?] [?|Hcb]]; [left; lia| |right; tauto|right; tauto]. apply (covered_after _ _ _ Hgb) in Hcb. lia.
    + intros k Hkr. destruct (Hk' k Hkr) as [?|Hin]; [split; [exists x|exists y]; split; (try by left); lia|].
      destruct (Hk k Hin) as [(i & Hi & ?) ?]. split; [|done]. exists i. by split; [right|].
  - destruct (IHb Hnb) as (r & -> & Hr & Hc & Hk). cbn [mbind option_bind].
    destruct (intersect_emit x y r Hx Hy Hr) as (r' & Hr' & Hn' & Hc' & Hk').
    { intros k Hkr. destruct (Hk k Hkr) as [_ (j & Hj & ?)]. specialize (Hgb j Hj). lia. }
    exists r'. split; [exact Hr'|]. split; [done|]. split.
    + intros t. rewrite Hc', Hc, !covered_cons. unfold in_span, nonempty in *. split; [intros [?|?]; [split; left; lia|tauto]|].
      intros [[?|Hca] [?|?]]; [left; lia|right; tauto| |right; tauto]. apply (covered_after _ _ _ Hga) in Hca. lia.
    + intros k Hkr. destruct (Hk' k Hkr) as [?|Hin]; [split; [exists x|exists y]; split; (try by left); lia|].
      destruct (Hk k Hin) as [? (j & Hj & ?)]. split; [done|]. exists j. by split; [right|].
Qed.

(** ** Subtracting *)

Lemma skip_before_spec start b :
  normalized b → normalized (skip_before start b) ∧
  (∀ t, start ≤ t → covered t (skip_before start b) ↔ covered t b).
Proof.
  induction b as [|x b IH]; intros Hb; simpl; [done|]. pose proof Hb as (Hx & Hg & Hn)%normalized_cons.
  unfold After. destruct (Z.ltb_spec start (i_end x)); cbn [negb]; [done|]. destruct (IH Hn) as [H1 H2]. split; [done|].
  intros t Ht. rewrite H2, covered_cons by done. unfold in_span. split; [tauto|]. intros [?|?]; [lia|done].
Qed.

Lemma cut_spec start end_ b :
  start < end_ → normalized b →
  ∃ ps st, cut start end_ b = Some (ps, st) ∧ normalized ps ∧ start ≤ st ∧
    (∀ k, k ∈ ps → start ≤ i_start k ∧ i_end k < st ∧ i_end k ≤ end_) ∧
    (∀ t, (covered t ps ∨ st ≤ t < end_) ↔ start ≤ t < end_ ∧ ¬ covered t b).
Proof.
  intros Hse Hb. revert start Hse. induction b as [|x b IH]; intros start Hse; cbn [cut].
  { exists [], start. split; [done|]. split; [apply normalized_nil|]. split; [lia|]. split; [by intros k ?%not_elem_of_nil|].
    intros t. pose proof (covered_nil t). tauto. }
  apply normalized_cons in Hb as (Hx & Hg & Hn). specialize (IH Hn). unfold nonempty in Hx.
  unfold Before at 1. destruct (Z.ltb_spec (i_start x) end_) as [Hlt|Hge].
  2:{ exists [], start. split; [done|]. split; [apply normalized_nil|]. split; [lia|]. split; [by intros k ?%not_elem_of_nil|].
      intros t. rewrite covered_cons. pose proof (covered_nil t). unfold in_span. split; [|tauto]. intros [?|?]; [tauto|].
      split; [lia|]. intros [?|(k & Hk & ?)]; [lia|]. specialize (Hg k Hk). unfold in_span in *. lia. }
  set (start' := if After (i_end x) start then i_end x else start).
  assert (Hst : start' = Z.max (i_end x) start) by (unfold start', After; destruct (Z.ltb_spec start (i_end x)); lia).
  assert (Hrest : ∃ ps st, cut start' end_ b = Some (ps, st) ∧ normalized ps ∧ start' ≤ st ∧
    (∀ k, k ∈ ps → start' ≤ i_start k ∧ i_end k < st ∧ i_end k ≤ end_) ∧
    (∀ t, (covered t ps ∨ st ≤ t < end_) ↔ start' ≤ t < end_ ∧ ¬ covered t b)).
  { destruct (Z.le_gt_cases end_ start') as [Hle|]; [|by apply IH].
    exists [], start'. split.
    - destruct b as [|z b]; [done|]. cbn [cut]. unfold Before. specialize (Hg z ltac:(by left)).
      destruct (Z.ltb_spec (i_start z) end_); [|done]. lia.
    - split; [apply normalized_nil|]. split; [lia|]. split; [by intros k ?%not_elem_of_nil|].
      intros t. pose proof (covered_nil t). split; [intros [?|?]; [tauto|lia]|lia]. }
  destruct Hrest as (ps & st & Hcut & Hps & Hle & Hk & Hc).
  set (piece := if After (i_start x) start then [MkInterval start (i_start x)] else []).
  assert (Hpiece : (if After (i_start x) start then s ← mustSpan start (i_start x); Some [s] else Some []) = Some piece).
  { unfold piece, After. destruct (Z.ltb_spec start (i_start x)); [by rewrite mustSpan_some|done]. }
  rewrite Hpiece, Hcut. cbn [mbind option_bind fst snd]. exists (piece ++ ps), st. split; [done|].
  unfold piece, After. destruct (Z.ltb_spec start (i_start x)) as [Hp|Hp]; cbn [app].
  - split; [apply normalized_cons; unfold nonempty; simpl; split; [lia|]; split; [|done]; intros k Hkp; specialize (Hk k Hkp); lia|].
    split; [lia|]. split; [intros k [->|Hkp]%elem_of_cons; [simpl; lia|]; specialize (Hk k Hkp); lia|].
    intros t. rewrite !covered_cons. unfold in_span at 1 2. simpl. specialize (Hc t).
    pose proof (covered_after t b (i_end x) Hg) as Hlate.
    assert (Hps' : covered t ps → start' ≤ t). { intros (k & Hkp & ?). specialize (Hk k Hkp). unfold in_span in *. lia. }
    destruct (Z.le_gt_cases start' t) as [Hd|Hd].
    + assert (Hc' : covered t ps ∨ st ≤ t < end_ ↔ t < end_ ∧ ¬ covered t b) by (rewrite Hc; intuition lia).
      split; [intros H1|intros [H1 H2]].
      * assert (H2 : covered t ps ∨ st ≤ t < end_) by (destruct H1 as [[?|?]|?]; [lia|tauto|tauto]).
        apply Hc' in H2 as [? ?]. split; [lia|]. intros [?|?]; [lia|done].
      * destruct (proj2 Hc'); [split; [lia|tauto]|tauto|tauto].
    + split; [|intros [? Hnc]; left; left; lia]. intros [[?|Hcp]|?]; [|apply Hps' in Hcp; lia|lia].
      split; [lia|]. intros [?|Hcb]; [lia|apply Hlate in Hcb; lia].
  - split; [done|]. split; [lia|]. split; [intros k Hkp; specialize (Hk k Hkp); lia|].
    intros t. rewrite Hc, covered_cons. unfold in_span. split; [intros [? ?]; split; [lia|]; intros [?|?]; [lia|done]|].
    intros [? Hnc]. split; [|tauto]. split; [|lia]. destruct (Z.le_gt_cases start' t); [done|]. destruct Hnc. left. lia.
Qed.

Lemma subtract_spec a b :
  normalized a → normalized b →
  ∃ r, subtract a b = Some r ∧ normalized r ∧ (∀ t, covered t r ↔ covered t a ∧ ¬ covered t b) ∧
       (∀ k, k ∈ r → ∃ i, i ∈ a ∧ i_start i ≤ i_start k).
Proof.
  revert b. induction a as [|x a IH]; intros b Ha Hb; cbn [subtract].
  { exists []. split; [done|]. split; [apply normalized_nil|]. split; [|by intros k ?%not_elem_of_nil].
    intros t. pose proof (covered_nil t). tauto. }
  apply normalized_cons in Ha as (Hx & Hg & Hna). unfold nonempty in Hx.
  destruct (skip_before_spec (i_start x) b Hb) as [Hb' Hskip]. set (b' := skip_before (i_start x) b) in *. clearbody b'.
  destruct (cut_spec (i_start x) (i_end x) b' Hx Hb') as (ps & st & Hcut & Hps & Hst & Hk & Hc).
  rewrite Hcut. cbn [mbind option_bind fst snd].
  set (tail := if Before st (i_end x) then [MkInterval st (i_end x)] else []).
  assert (Htail : (if Before st (i_end x) then l ← mustSpan st (i_end x); Some [l] else Some []) = Some tail).
  { unfold tail, Before. destruct (Z.ltb_spec st (i_end x)); [by rewrite mustSpan_some|done]. }
  rewrite Htail. destruct (IH b' Hna Hb') as (r & -> & Hr & Hcr & Hkr). cbn [mbind option_bind].
  exists (ps ++ tail ++ r). split; [done|].
  assert (Hlater : ∀ k, k ∈ r → i_end x < i_start k).
  { intros k Hin. destruct (Hkr k Hin) as (i & Hi & ?). specialize (Hg i Hi). lia. }
  assert (Htr : normalized (tail ++ r) ∧ (∀ t, covered t (tail ++ r) ↔ st ≤ t < i_end x ∨ covered t r)
                ∧ (∀ k, k ∈ tail ++ r → k = MkInterval st (i_end x) ∨ k ∈ r)).
  { unfold tail, Before. destruct (Z.ltb_spec st (i_end x)); cbn [app].
    - split; [by apply normalized_cons|]. split; [intros t; by rewrite covered_cons|]. by intros k [->|?]%elem_of_cons; [left|right].
    - split; [done|]. split; [|by right]. intros t. split; [tauto|]. intros [?|?]; [lia|done]. }
  destruct Htr as (Htn & Htc & Htk). split; [|split].
  - apply normalized_app; [done|done|]. intros p k Hp Hin. specialize (Hk p Hp).
    destruct (Htk k Hin) as [->|Hkin]; [simpl; lia|]. specialize (Hlater k Hkin). lia.
  - intros t. rewrite covered_app, Htc, Hcr, covered_cons. specialize (Hc t). unfold in_span at 1.
    pose proof (covered_after t a (i_end x) Hg) as Hlate.
    assert (Hsk : i_start x ≤ t → covered t b' ↔ covered t b) by apply Hskip.
    split.
    + intros [H1|[H1|[H1 H2]]]; [| |pose proof (Hlate H1); rewrite <- Hsk by lia; tauto];
        (destruct (proj1 Hc) as [? ?]; [tauto|]; rewrite <- Hsk by lia; tauto).
    + intros [[H1|H1] H2]; [|pose proof (Hlate H1)]; rewrite <- Hsk in H2 by lia; [|tauto].
      destruct (proj2 Hc (conj H1 H2)); tauto.
  - intros k [Hp|Hin]%elem_of_app; [exists x; split; [by left|]; by apply Hk|].
    destruct (Htk k Hin) as [->|Hkin]; [exists x; split; [by left|done]|].
    destruct (Hkr k Hkin) as (i & ? & ?). exists i. by split; [right|].
Qed.

(** ** Clipping *)

Lemma clip_spec a from to :
  normalized a →
  ∃ r, clip a from to = Some r ∧ normalized r ∧ (∀ t, covered t r ↔ covered t a ∧ from ≤ t < to) ∧
       (∀ k, k ∈ r → from ≤ i_start k ∧ i_end k ≤ to ∧ ∃ i, i ∈ a ∧ i_start i ≤ i_start k).
Proof.
  induction a as [|x a IH]; intros Ha; cbn [clip].
  { exists []. split; [done|]. split; [apply normalized_nil|]. split; [|by intros k ?%not_elem_of_nil].
    intros t. pose proof (covered_nil t). tauto. }
  apply normalized_cons in Ha as (Hx & Hg & Hna). destruct (IH Hna) as (r & -> & Hr & Hc & Hk). cbn [mbind option_bind].
  rewrite later_max, earlier_min. unfold nonempty, Before in *.
  assert (Hk' : ∀ k, k ∈ r → i_end x < i_start k).
  { intros k Hin. destruct (Hk k Hin) as (_ & _ & i & Hi & ?). specialize (Hg i Hi). lia. }
  destruct (Z.ltb_spec (Z.max (i_start x) from) (Z.min (i_end x) to)) as [Hlt|Hge].
  - rewrite mustSpan_some by done. cbn [mbind option_bind]. eexists. split; [done|]. split; [|split].
    + apply normalized_cons. unfold nonempty. simpl. split; [done|]. split; [|done]. intros k Hin. specialize (Hk' k Hin). lia.
    + intros t. rewrite !covered_cons, Hc. unfold in_span. simpl. split.
      * intros [?|?]; [|tauto]. split; [left|]; lia.
      * intros [[?|?] ?]; [left; lia|tauto].
    + intros k [->|Hin]%elem_of_cons; simpl.
      * split; [lia|]. split; [lia|]. exists x. split; [by left|lia].
      * destruct (Hk k Hin) as (? & ? & i & ? & ?). split; [done|]. split; [done|]. exists i. by split; [right|].
  - exists r. split; [done|]. split; [done|]. split.
    + intros t. rewrite Hc, covered_cons. unfold in_span. split; [tauto|]. intros [[?|?] ?]; [lia|tauto].
    + intros k Hin. destruct (Hk k Hin) as (? & ? & i & ? & ?). split; [done|]. split; [done|]. exists i. by split; [right|].
Qed.
