(* ===== verification/SchedCalendar.v ===== *)
(** * Branch calendars, barber schedules and time off
      (src/internal/scheduling/domain/calendar.go, schedule.go, timeoff.go, events.go)

    The three aggregates behind the working windows: a branch's weekly opening
    hours, a person's weekly template with its date overrides, and stretches
    of time off. *)
From S2P Require Import Prelude GoTime GoText Shared SchedWeekly SchedDate.
Open Scope Z_scope.

(** ** A branch's calendar *)

Record OpeningHoursChangedEvent := MkHoursChanged {
  ohc_Business : BusinessID; ohc_Branch : BranchID; ohc_At : time; ohc_Version : Z; ohc_Hours : WeeklyHours }.

Record BranchCalendar := MkCalendar {
  cal_business : BusinessID;
  cal_branch : BranchID;
  cal_hours : WeeklyHours;
  cal_version : Z;
  cal_updatedAt : time;
  cal_events : list OpeningHoursChangedEvent }.

Definition NewBranchCalendar (business : BusinessID) (branch : BranchID) : BranchCalendar :=
  MkCalendar business branch (MkHours []) 0 zero_time [].

Definition RehydrateBranchCalendar (business : BusinessID) (branch : BranchID) (hours : WeeklyHours) (version : Z) (updatedAt : time)
  : BranchCalendar := MkCalendar business branch hours version updatedAt [].

Definition SetOpeningHours (c : BranchCalendar) (hours : WeeklyHours) (now : time) : BranchCalendar :=
  let version := int64 (cal_version c + 1) in
  let updatedAt := Truncate now Microsecond in
  MkCalendar (cal_business c) (cal_branch c) hours version updatedAt
    (cal_events c ++ [MkHoursChanged (cal_business c) (cal_branch c) updatedAt version hours]).

(** ** One person's schedule at a branch *)

Definition MaxOverrides : nat := 400.

Record DayInterval := MkDay { di_Start : Z; di_Minutes : Z }.

#[export] Instance DayInterval_eq_dec : EqDecision DayInterval.
Proof. solve_decision. Defined.

Definition on_sunday (i : DayInterval) : WeeklyInterval := MkWeekly Sunday (di_Start i) (di_Minutes i).
Definition day_starts_before (a b : DayInterval) : bool := di_Start a <=? di_Start b.

Definition CheckDayIntervals (l : list DayInterval) : res sched_error (list DayInterval) :=
  let! _ := NewWeeklyHours (on_sunday <$> l) in
  Ok (sort_by day_starts_before l).

Record BarberSchedule := MkSchedule {
  sch_business : BusinessID;
  sch_branch : BranchID;
  sch_staff : StaffID;
  sch_weekly : WeeklyHours;
  sch_overrides : gmap Date (list DayInterval);
  sch_version : Z;
  sch_updatedAt : time }.

Definition NewBarberSchedule (business : BusinessID) (branch : BranchID) (staff : StaffID) : BarberSchedule :=
  MkSchedule business branch staff (MkHours []) ∅ 0 zero_time.

Definition RehydrateBarberSchedule (business : BusinessID) (branch : BranchID) (staff : StaffID) (weekly : WeeklyHours)
    (overrides : gmap Date (list DayInterval)) (version : Z) (updatedAt : time) : BarberSchedule :=
  MkSchedule business branch staff weekly overrides version updatedAt.

(** The loop over the overrides. Go visits a map's entries in any order, so
    the order is an argument: a list of the map's entries. *)
Definition check_override (checked : gmap Date (list DayInterval)) (e : Date * list DayInterval)
  : res sched_error (gmap Date (list DayInterval)) :=
  check! is_real_date e.1 else ErrInvalidDate in
  let! ivs := CheckDayIntervals e.2 in
  Ok (<[e.1 := ivs]> checked).

Definition Set_schedule (s : BarberSchedule) (weekly : WeeklyHours) (overrides : gmap Date (list DayInterval))
    (order : list (Date * list DayInterval)) (elsewhere : list WeeklyHours) (now : time) : res sched_error BarberSchedule :=
  if bool_decide (MaxOverrides < size overrides)%nat then Err ErrTooManyOverrides
  else if existsb (SchedWeekly.Overlaps weekly) elsewhere then Err ErrScheduleClash
  else
    let! checked := res_foldM check_override ∅ order in
    Ok (MkSchedule (sch_business s) (sch_branch s) (sch_staff s) weekly checked
          (int64 (sch_version s + 1)) (Truncate now Microsecond)).

Definition startingOn (w : WeeklyHours) (day : Z) : list DayInterval :=
  (λ i, MkDay (Start i) (Minutes i)) <$> filter (λ i, Day i = day) (intervals w).

Definition IntervalsStarting (s : BarberSchedule) (d : Date) : list DayInterval :=
  match sch_overrides s !! d with
  | Some o => o
  | None => startingOn (sch_weekly s) (Weekday d)
  end.

(** ** Time off *)

Inductive TimeOffTag : Type := .
Abbreviation TimeOffID := (ID TimeOffTag).

Definition MaxTimeOff : Duration := 366 * 24 * Hour.
Definition MaxTimeOffReason : Z := 200.

Record TimeOff := MkTimeOff {
  off_id : TimeOffID;
  off_business : BusinessID;
  off_staff : StaffID;
  off_span : Interval;
  off_reason : string;
  off_createdAt : time }.

Definition NewTimeOff (id : TimeOffID) (business : BusinessID) (staff : StaffID) (from to : time) (reason : string) (now : time)
  : res sched_error TimeOff :=
  let from := Truncate from Microsecond in
  let to := Truncate to Microsecond in
  let! span := res_map_err (λ _, ErrInvalidTimeOff) (NewInterval from to) in
  check! negb (MaxTimeOff <? Interval_Duration span) else ErrInvalidTimeOff in
  let reason := TrimSpace reason in
  check! negb (MaxTimeOffReason <? RuneCountInString reason) else ErrReasonTooLong in
  Ok (MkTimeOff id business staff span reason (Truncate now Microsecond)).

Definition RehydrateTimeOff (id : TimeOffID) (business : BusinessID) (staff : StaffID) (span : Interval) (reason : string) (createdAt : time)
  : TimeOff := MkTimeOff id business staff span reason createdAt.

(** ** Well-formed aggregates *)

Definition valid_day (l : list DayInterval) : Prop := valid_week (on_sunday <$> l).

Definition day_sorted (l : list DayInterval) : Prop := StronglySorted (λ a b, di_Start a < di_Start b) l.

(** What a saved schedule keeps: a valid template, and valid hours in order
    on real dates, at most 400 of them. *)
Definition schedule_ok (s : BarberSchedule) : Prop :=
  week_ok (sch_weekly s) ∧ (size (sch_overrides s) ≤ MaxOverrides)%nat ∧
  map_Forall (λ d l, is_real_date d = true ∧ valid_day l ∧ day_sorted l) (sch_overrides s).

Definition calendar_ok (c : BranchCalendar) : Prop := week_ok (cal_hours c).

Definition time_off_ok (t : TimeOff) : Prop :=
  nonempty (off_span t) ∧ i_end (off_span t) - i_start (off_span t) ≤ MaxTimeOff ∧
  RuneCountInString (off_reason t) ≤ MaxTimeOffReason ∧ TrimSpace (off_reason t) = off_reason t.

Lemma on_sunday_inj : Inj (=) (=) on_sunday.
Proof. intros [a b] [c d] E. by simplify_eq/=. Qed.

Lemma valid_day_perm l l' : l ≡ₚ l' → valid_day l → valid_day l'.
Proof. intros Hp. apply valid_week_perm. by apply fmap_Permutation. Qed.

Lemma valid_day_nil : valid_day [].
Proof. unfold valid_day. by apply NewWeeklyHours_is_ok. Qed.

Lemma CheckDayIntervals_is_ok l : is_ok (CheckDayIntervals l) = true ↔ valid_day l.
Proof.
  unfold CheckDayIntervals, valid_day. rewrite <- NewWeeklyHours_is_ok.
  by destruct (NewWeeklyHours (on_sunday <$> l)).
Qed.

(** In a valid day no two intervals start together, so sorting by start has
    one result only. *)
Lemma sort_day_sorted l : valid_day l → day_sorted (sort_by day_starts_before l).
Proof.
  intros Hv. unfold day_sorted.
  assert (Hs : StronglySorted (λ a b, day_starts_before a b = true) (sort_by day_starts_before l)).
  { apply sort_by_sorted; unfold day_starts_before; intros *; rewrite ?Z.leb_gt, ?Z.leb_le; lia. }
  assert (Hv' : valid_day (sort_by day_starts_before l)) by (eapply valid_day_perm; [symmetry; apply sort_by_perm|done]).
  revert Hs Hv'. generalize (sort_by day_starts_before l). clear. intros l Hs Hv. apply pairwise_intro.
  intros i j x y Hij Hx Hy. pose proof (pairwise_lookup _ _ _ _ _ _ Hs Hij Hx Hy) as Hle. apply Z.leb_le in Hle.
  destruct (decide (di_Start x = di_Start y)) as [E|]; [|lia]. exfalso.
  destruct Hv as (Hf & _ & Hd). rewrite Forall_forall in Hf.
  assert (Lx : (on_sunday <$> l) !! i = Some (on_sunday x)) by (by rewrite list_lookup_fmap, Hx).
  assert (Ly : (on_sunday <$> l) !! j = Some (on_sunday y)) by (by rewrite list_lookup_fmap, Hy).
  pose proof (pairwise_lookup _ _ _ _ _ _ Hd Hij Lx Ly) as Hdis.
  assert (Vx : valid_interval (on_sunday x)) by (apply Hf; by eapply list_elem_of_lookup_2).
  assert (Vy : valid_interval (on_sunday y)) by (apply Hf; by eapply list_elem_of_lookup_2).
  assert (Es : weekStart (on_sunday x) = weekStart (on_sunday y)) by (unfold weekStart; simpl; by rewrite E).
  apply disjoint_ordered in Hdis as [Hend _]; [|done|done|lia].
  destruct Vx as (_ & _ & _ & ? & _). lia.
Qed.

Lemma CheckDayIntervals_ok l l' :
  CheckDayIntervals l = Ok l' ↔ valid_day l ∧ l' = sort_by day_starts_before l.
Proof.
  unfold CheckDayIntervals, valid_day. rewrite <- NewWeeklyHours_is_ok.
  destruct (NewWeeklyHours (on_sunday <$> l)); simpl; naive_solver.
Qed.

Definition override_ok (e : Date * list DayInterval) : Prop := is_real_date e.1 = true ∧ valid_day e.2.

Lemma check_override_ok m e m' :
  check_override m e = Ok m' ↔ override_ok e ∧ m' = <[e.1 := sort_by day_starts_before e.2]> m.
Proof.
  unfold check_override, override_ok. rewrite res_bind_ok. setoid_rewrite ensure_ok. setoid_rewrite res_bind_ok.
  setoid_rewrite CheckDayIntervals_ok. split.
  - intros (_ & Hd & l & (Hv & ->) & [= <-]). done.
  - intros ((Hd & Hv) & ->). exists tt. split; [done|]. by eexists.
Qed.

Lemma check_overrides_ok m order m' :
  NoDup order.*1 →
  res_foldM check_override m order = Ok m' ↔
    Forall override_ok order ∧ m' = (sort_by day_starts_before <$> list_to_map order) ∪ m.
Proof.
  revert m. induction order as [|e order IH]; intros m Hnd; cbn [res_foldM].
  - rewrite list_to_map_nil, fmap_empty, map_empty_union. split; [intros [= <-]; by split; [constructor|]|by intros [_ ->]].
  - apply NoDup_cons in Hnd as [Hni Hnd]. rewrite res_bind_ok, Forall_cons. setoid_rewrite check_override_ok.
    assert (Em : (sort_by day_starts_before <$> list_to_map order) ∪ <[e.1:=sort_by day_starts_before e.2]> m =
       (sort_by day_starts_before <$> list_to_map (e :: order) : gmap Date (list DayInterval)) ∪ m).
    { destruct e as [d l]. simpl. rewrite fmap_insert, <- insert_union_l, insert_union_r; [done|].
      rewrite lookup_fmap, not_elem_of_list_to_map_1; done. }
    split.
    + intros (m1 & [He ->] & Hr). apply IH in Hr as [Hf ->]; [|done]. by rewrite Em.
    + intros [[He Hf] ->]. eexists. split; [done|]. apply IH; [done|]. by rewrite Em.
Qed.

Lemma map_order_nodup (m : gmap Date (list DayInterval)) order : order ≡ₚ map_to_list m → NoDup order.*1.
Proof. intros Hp. rewrite Hp. apply NoDup_fst_map_to_list. Qed.

Lemma check_overrides_map m order m' :
  order ≡ₚ map_to_list m →
  res_foldM check_override ∅ order = Ok m' ↔
    map_Forall (λ d l, override_ok (d, l)) m ∧ m' = sort_by day_starts_before <$> m.
Proof.
  intros Hp. rewrite check_overrides_ok by by eapply map_order_nodup. rewrite map_union_empty.
  rewrite (list_to_map_proper order (map_to_list m)), list_to_map_to_list by (done || by eapply map_order_nodup).
  rewrite Hp, map_Forall_to_list. split; (intros [Hf ?]; split; [|done]); eapply Forall_impl; try exact Hf; by intros [].
Qed.

Lemma Set_schedule_ok s weekly overrides order elsewhere now s' :
  order ≡ₚ map_to_list overrides →
  Set_schedule s weekly overrides order elsewhere now = Ok s' ↔
    (size overrides ≤ MaxOverrides)%nat ∧ Forall (λ o, SchedWeekly.Overlaps weekly o = false) elsewhere ∧
    map_Forall (λ d l, override_ok (d, l)) overrides ∧
    s' = MkSchedule (sch_business s) (sch_branch s) (sch_staff s) weekly (sort_by day_starts_before <$> overrides)
           (int64 (sch_version s + 1)) (Truncate now Microsecond).
Proof.
  intros Hp. unfold Set_schedule. rewrite Forall_forall. case_bool_decide; [split; [done|lia]|].
  destruct (existsb _ elsewhere) eqn:He.
  - split; [done|]. intros (_ & Hn & _). apply existsb_elem in He as (o & Ho & Hc). rewrite Hn in Hc; done.
  - rewrite existsb_elem_false in He. rewrite res_bind_ok. setoid_rewrite (check_overrides_map _ _ _ Hp). split.
    + intros (m & [Hm ->] & [= <-]). split; [lia|]. done.
    + intros (_ & _ & Hm & ->). eexists. split; [by split|done].
Qed.

Lemma Set_schedule_invariant s weekly overrides order elsewhere now s' :
  order ≡ₚ map_to_list overrides → week_ok weekly →
  Set_schedule s weekly overrides order elsewhere now = Ok s' → schedule_ok s'.
Proof.
  intros Hp Hw (Hsz & _ & Hf & ->)%Set_schedule_ok; [|done]. unfold schedule_ok. simpl.
  split; [done|]. split; [by rewrite map_size_fmap|]. apply map_Forall_fmap.
  eapply map_Forall_impl; [exact Hf|]. intros d l [Hd Hv]; simpl in *. split; [done|]. split.
  - eapply valid_day_perm; [symmetry; apply sort_by_perm|done].
  - by apply sort_day_sorted.
Qed.

(** Setting a schedule accepts exactly: at most 400 date overrides, a
    weekly template that shares no minute with the person's templates at
    their other branches, and overrides that are valid hours on real dates -
    in whatever order Go visits the overrides. An accepted schedule keeps the
    template and every override (its intervals in start order), takes the
    next version, and is well formed; the order of the visit leaves no trace. *)
Theorem Set_schedule_accepts s weekly overrides order elsewhere now :
  week_ok weekly → Forall week_ok elsewhere → order ≡ₚ map_to_list overrides →
  (is_ok (Set_schedule s weekly overrides order elsewhere now) = true ↔
     (size overrides ≤ 400)%nat ∧
     Forall (λ o, ∀ a b m, a ∈ intervals weekly → b ∈ intervals o → ¬ (covers_minute a m ∧ covers_minute b m)) elsewhere ∧
     ∀ d l, overrides !! d = Some l → is_real_date d = true ∧ valid_day l) ∧
  (∀ s', Set_schedule s weekly overrides order elsewhere now = Ok s' →
     schedule_ok s' ∧ sch_weekly s' = weekly ∧ sch_version s' = int64 (sch_version s + 1) ∧
     ∀ d, match overrides !! d, sch_overrides s' !! d with
          | Some l, Some l' => l' ≡ₚ l ∧ day_sorted l'
          | None, None => True
          | _, _ => False
          end).
Proof.
  intros Hw He Hp. split.
  - trans (∃ s', Set_schedule s weekly overrides order elsewhere now = Ok s').
    { destruct (Set_schedule s weekly overrides order elsewhere now); naive_solver. }
    setoid_rewrite (Set_schedule_ok _ _ _ _ _ _ _ Hp).
    assert (Hcl : ∀ o, o ∈ elsewhere → SchedWeekly.Overlaps weekly o = false ↔
       ∀ a b m, a ∈ intervals weekly → b ∈ intervals o → ¬ (covers_minute a m ∧ covers_minute b m)).
    { intros o Ho. rewrite Forall_forall in He. specialize (He o Ho). apply Overlaps_false_minutes; [apply Hw|apply He]. }
    assert (Hall : Forall (λ o, SchedWeekly.Overlaps weekly o = false) elsewhere ↔ Forall (λ o,
       ∀ a b m, a ∈ intervals weekly → b ∈ intervals o → ¬ (covers_minute a m ∧ covers_minute b m)) elsewhere).
    { rewrite !Forall_forall. split; intros H o Ho; by apply Hcl, H. }
    rewrite <- Hall. unfold map_Forall, override_ok, MaxOverrides. split.
    + by intros (s' & ? & ? & ? & _).
    + intros (? & ? & ?). by eexists.
  - intros s' Hs. split; [by eapply Set_schedule_invariant|].
    apply Set_schedule_ok in Hs as (_ & _ & Hf & ->); [|done]. simpl. split; [done|]. split; [done|].
    intros d. rewrite lookup_fmap. destruct (overrides !! d) as [l|] eqn:E; simpl; [|done].
    split; [apply sort_by_perm|]. apply sort_day_sorted. by apply (Hf _ _ E).
Qed.

(** The witness: a Friday off and a late Saturday, beside a template at
    another branch that shares no minute. *)
Definition nights_week : WeeklyHours := MkHours [MkWeekly 4 1320 360].
Definition eid_overrides : gmap Date (list DayInterval) :=
  {[ MkDate 2026 3 20 := [MkDay 1200 360; MkDay 600 120] ]}.

Lemma Set_schedule_accepts_witness :
  is_ok (Set_schedule (NewBarberSchedule (MkID 1) (MkID 2) (MkID 3)) nights_week eid_overrides
           (map_to_list eid_overrides) [week_sun_morning] 0) = true.
Proof.
  assert (Hw : week_ok nights_week) by (apply (NewWeeklyHours_week_ok [MkWeekly 4 1320 360]); reflexivity).
  assert (He : week_ok week_sun_morning) by (apply (NewWeeklyHours_week_ok [MkWeekly 0 180 240]); reflexivity).
  refine (proj2 (proj1 (Set_schedule_accepts _ nights_week eid_overrides _ [week_sun_morning] 0 Hw _ _)) _).
  - by constructor.
  - reflexivity.
  - split; [vm_compute; lia|]. split.
    + constructor; [|constructor]. apply Overlaps_false_minutes; [done..|reflexivity].
    + unfold eid_overrides. intros d l [<- <-]%lookup_singleton_Some. split; [reflexivity|].
      apply CheckDayIntervals_is_ok. reflexivity.
Defined.

(** ** Time off *)

Lemma Sub_le_bound t u b : 0 ≤ b < max_int64 → t ≤ u → (b <? Sub u t) = false ↔ u - t ≤ b.
Proof. unfold Sub, max_int64, min_int64. intros Hb Htu. rewrite Z.ltb_ge. lia. Qed.

Lemma NewTimeOff_cases id business staff from to reason now :
  NewTimeOff id business staff from to reason now =
    if bool_decide (0 < Truncate to Microsecond - Truncate from Microsecond ≤ MaxTimeOff) then
      if bool_decide (RuneCountInString (TrimSpace reason) ≤ MaxTimeOffReason) then
        Ok (MkTimeOff id business staff (MkInterval (Truncate from Microsecond) (Truncate to Microsecond))
             (TrimSpace reason) (Truncate now Microsecond))
      else Err ErrReasonTooLong
    else Err ErrInvalidTimeOff.
Proof.
  unfold NewTimeOff, NewInterval, After. set (f := Truncate from Microsecond). set (u := Truncate to Microsecond).
  destruct (Z.ltb_spec f u) as [Hlt|Hge]; cbn [negb res_map_err res_bind]; [|rewrite bool_decide_eq_false_2 by lia; done].
  unfold Interval_Duration. cbn [i_start i_end].
  assert (Hs : (MaxTimeOff <? Sub u f) = false ↔ u - f ≤ MaxTimeOff)
    by (apply Sub_le_bound; [vm_compute; split; [intros ?|]; congruence|lia]).
  destruct (MaxTimeOff <? Sub u f); cbn [negb ensure res_bind].
  - rewrite bool_decide_eq_false_2; [done|]. intros [_ H]. by apply Hs in H.
  - rewrite bool_decide_eq_true_2 by (split; [lia|by apply Hs]).
    destruct (Z.ltb_spec MaxTimeOffReason (RuneCountInString (TrimSpace reason))); cbn [negb ensure res_bind];
      [rewrite bool_decide_eq_false_2 by lia|rewrite bool_decide_eq_true_2 by lia]; done.
Qed.

Lemma NewTimeOff_ok id business staff from to reason now t :
  NewTimeOff id business staff from to reason now = Ok t ↔
    0 < Truncate to Microsecond - Truncate from Microsecond ≤ MaxTimeOff ∧
    RuneCountInString (TrimSpace reason) ≤ MaxTimeOffReason ∧
    t = MkTimeOff id business staff (MkInterval (Truncate from Microsecond) (Truncate to Microsecond))
          (TrimSpace reason) (Truncate now Microsecond).
Proof. rewrite NewTimeOff_cases. repeat case_bool_decide; naive_solver. Qed.

(** Time off is accepted exactly when, at microsecond precision, it ends
    after it starts and lasts at most 366 days (the comparison never fooled by
    a saturated [time.Duration]) and its trimmed reason has at most 200
    characters, each refusal with its own error; what is stored is that span
    and that reason, well formed, and creating time off again from a stored
    one stores the same. *)
Theorem NewTimeOff_accepts id business staff from to reason now :
  let start := Truncate from 1000 in
  let end_ := Truncate to 1000 in
  match NewTimeOff id business staff from to reason now with
  | Ok t =>
      (start < end_ ∧ end_ - start ≤ 366 * 86400 * Second ∧ RuneCountInString (TrimSpace reason) ≤ 200) ∧
      off_span t = MkInterval start end_ ∧ off_reason t = TrimSpace reason ∧ time_off_ok t ∧
      NewTimeOff (off_id t) (off_business t) (off_staff t) (i_start (off_span t)) (i_end (off_span t))
        (off_reason t) (off_createdAt t) = Ok t
  | Err ErrInvalidTimeOff => end_ ≤ start ∨ 366 * 86400 * Second < end_ - start
  | Err ErrReasonTooLong => 200 < RuneCountInString (TrimSpace reason)
  | Err _ => False
  end.
Proof.
  intros start end_. rewrite NewTimeOff_cases. change Microsecond with 1000. fold start end_.
  change MaxTimeOff with (366 * 86400 * Second). unfold MaxTimeOffReason.
  case_bool_decide as Hd; [|unfold start, end_ in *; lia]. case_bool_decide as Hr; [|lia].
  cbn [off_span off_reason off_id off_business off_staff off_createdAt i_start i_end].
  split; [lia|]. split; [done|]. split; [done|]. split.
  - unfold time_off_ok, nonempty. cbn [off_span off_reason i_start i_end].
    change MaxTimeOff with (366 * 86400 * Second). rewrite TrimSpace_idem. split; [lia|]. split; [lia|]. done.
  - apply NewTimeOff_ok. change Microsecond with 1000. change MaxTimeOff with (366 * 86400 * Second).
    unfold start, end_. by rewrite !Truncate_idem, TrimSpace_idem.
Qed.
