(* ===== verification/SchedWindows.v ===== *)
(** * Working windows (src/internal/scheduling/domain/windows.go)

    When one person can work at one branch: opening hours and schedule laid
    out on the dates of the range, intersected, minus closed dates and time
    off, cut to the range. The main theorems say which instants come out, that
    the panic in [mustSpan] is never reached, and that walking the dates from
    the day before [from] to the day of [to] misses nothing. *)
From S2P Require Import Prelude GoTime Shared SchedWeekly SchedDate Spans SchedCalendar.
Open Scope Z_scope.

Record WindowsInput := MkWindowsInput {
  in_Location : Location;
  in_Opening : WeeklyHours;
  in_Closed : gmap Date bool;
  in_Schedule : BarberSchedule;
  in_TimeOff : list Interval }.

(** The inner loops: the intervals that start on [d], as instants. *)
Definition append_intervals (loc : Location) (d : Date) (spans : list Interval) (l : list DayInterval) : list Interval :=
  fold_left (λ spans i, appendSpan spans (At d (di_Start i) loc) (At d (int64 (di_Start i + di_Minutes i)) loc)) l spans.

Definition append_closed (inp : WindowsInput) (d : Date) (closed : list Interval) : list Interval :=
  if default false (in_Closed inp !! d)
  then appendSpan closed (At d 0 (in_Location inp)) (At (AddDays d 1) 0 (in_Location inp))
  else closed.

(** The loop over the dates; [None] when the fuel runs out. *)
Fixpoint gather (fuel : nat) (inp : WindowsInput) (d last : Date) (opn work closed : list Interval)
  : option (list Interval * list Interval * list Interval) :=
  if Date_Compare d last <=? 0 then
    match fuel with
    | O => None
    | S fuel =>
        gather fuel inp (AddDays d 1) last
          (append_intervals (in_Location inp) d opn (startingOn (in_Opening inp) (Weekday d)))
          (append_intervals (in_Location inp) d work (IntervalsStarting (in_Schedule inp) d))
          (append_closed inp d closed)
    end
  else Some (opn, work, closed).

Definition first_date (loc : Location) (from : time) : Date := AddDays (DateOf loc from) (-1).
Definition last_date (loc : Location) (to : time) : Date := DateOf loc to.

(** Enough for every date from the first to the last. *)
Definition dates_fuel (loc : Location) (from to : time) : nat :=
  Z.to_nat (day_number (last_date loc to) - day_number (first_date loc from) + 1).

Definition WorkingWindows (inp : WindowsInput) (from to : time) : option (list Interval) :=
  if negb (After to from) then Some [] else
  let loc := in_Location inp in
  '(opn, work, closed) ← gather (dates_fuel loc from to) inp (first_date loc from) (last_date loc to) [] [] [];
  o ← normalize opn;
  w ← normalize work;
  windows ← intersect o w;
  c ← normalize closed;
  windows ← subtract windows c;
  off ← normalize (in_TimeOff inp);
  windows ← subtract windows off;
  clip windows from to.

(** ** The instants of a date's intervals *)

(** [t] is in interval [i] of date [d], on the clock of [loc]. *)
Definition in_day_interval (loc : Location) (d : Date) (i : DayInterval) (t : time) : Prop :=
  At d (di_Start i) loc ≤ t < At d (int64 (di_Start i + di_Minutes i)) loc.

Definition in_any (loc : Location) (d : Date) (l : list DayInterval) (t : time) : Prop :=
  ∃ i, i ∈ l ∧ in_day_interval loc d i t.

Definition in_closed_date (inp : WindowsInput) (d : Date) (t : time) : Prop :=
  in_Closed inp !! d = Some true ∧ At d 0 (in_Location inp) ≤ t < At (AddDays d 1) 0 (in_Location inp).

Lemma append_intervals_spec loc d l spans :
  (Forall nonempty spans → Forall nonempty (append_intervals loc d spans l)) ∧
  ∀ t, covered t (append_intervals loc d spans l) ↔ covered t spans ∨ in_any loc d l t.
Proof.
  unfold append_intervals, in_any. revert spans. induction l as [|i l IH]; intros spans; cbn [fold_left].
  - split; [done|]. intros t. split; [by left|]. intros [?|(i & Hi & _)]; [done|]. by apply not_elem_of_nil in Hi.
  - destruct (IH (appendSpan spans (At d (di_Start i) loc) (At d (int64 (di_Start i + di_Minutes i)) loc))) as [IHn IHc].
    split; [intros; apply IHn; by apply appendSpan_nonempty|].
    intros t. rewrite IHc, appendSpan_covered. setoid_rewrite elem_of_cons. unfold in_day_interval. naive_solver.
Qed.

Lemma append_closed_spec inp d closed :
  (Forall nonempty closed → Forall nonempty (append_closed inp d closed)) ∧
  ∀ t, covered t (append_closed inp d closed) ↔ covered t closed ∨ in_closed_date inp d t.
Proof.
  unfold append_closed, in_closed_date. destruct (in_Closed inp !! d) as [[]|]; simpl.
  - split; [apply appendSpan_nonempty|]. intros t. rewrite appendSpan_covered. tauto.
  - split; [done|]. intros t. naive_solver.
  - split; [done|]. intros t. naive_solver.
Qed.

(** A date of the walk from [d] to [last]. *)
Definition between_dates (d last e : Date) : Prop := valid_date e ∧ day_number d ≤ day_number e ≤ day_number last.

Lemma between_dates_step d last e :
  valid_date d → day_number d ≤ day_number last →
  between_dates d last e ↔ e = d ∨ between_dates (AddDays d 1) last e.
Proof.
  intros Hd Hle. unfold between_dates. destruct (AddDays_valid d 1 Hd) as [_ ->]. split.
  - intros [He ?]. destruct (decide (day_number e = day_number d)); [left; by apply day_number_inj|right; split; [done|lia]].
  - intros [->|[? ?]]; (split; [done|lia]).
Qed.

Lemma Date_not_after d last : valid_date d → valid_date last →
  (Date_Compare d last <=? 0) = (day_number d <=? day_number last).
Proof.
  intros Hd Hl. rewrite Date_Compare_spec by done.
  destruct (Z.compare_spec (day_number d) (day_number last)), (Z.leb_spec (day_number d) (day_number last)); try done; lia.
Qed.

Lemma gather_spec fuel inp d last opn work closed :
  valid_date d → valid_date last → day_number last - day_number d + 1 ≤ Z.of_nat fuel →
  Forall nonempty opn → Forall nonempty work → Forall nonempty closed →
  ∃ o w c, gather fuel inp d last opn work closed = Some (o, w, c) ∧
    Forall nonempty o ∧ Forall nonempty w ∧ Forall nonempty c ∧
    (∀ t, covered t o ↔ covered t opn ∨ ∃ e, between_dates d last e ∧ in_any (in_Location inp) e (startingOn (in_Opening inp) (Weekday e)) t) ∧
    (∀ t, covered t w ↔ covered t work ∨ ∃ e, between_dates d last e ∧ in_any (in_Location inp) e (IntervalsStarting (in_Schedule inp) e) t) ∧
    (∀ t, covered t c ↔ covered t closed ∨ ∃ e, between_dates d last e ∧ in_closed_date inp e t).
Proof.
  revert d opn work closed. induction fuel as [|fuel IH]; intros d opn work closed Hd Hl Hf Ho Hw Hc; cbn [gather];
    rewrite Date_not_after by done; destruct (Z.leb_spec (day_number d) (day_number last)) as [Hle|Hgt]; try lia.
  2: destruct (AddDays_valid d 1 Hd) as [Hd1 Hn1];
    destruct (append_intervals_spec (in_Location inp) d (startingOn (in_Opening inp) (Weekday d)) opn) as [Ho1 Co];
    destruct (append_intervals_spec (in_Location inp) d (IntervalsStarting (in_Schedule inp) d) work) as [Hw1 Cw];
    destruct (append_closed_spec inp d closed) as [Hc1 Cc];
    edestruct (IH (AddDays d 1)) as (o & w & c & -> & Hon & Hwn & Hcn & Eo & Ew & Ec);
      [exact Hd1|exact Hl|lia|exact (Ho1 Ho)|exact (Hw1 Hw)|exact (Hc1 Hc)|];
    exists o, w, c; split; [done|]; split; [done|]; split; [done|]; split; [done|];
    setoid_rewrite (between_dates_step d last _ Hd Hle);
    split; [|split]; intros t; rewrite ?Eo, ?Ew, ?Ec, ?Co, ?Cw, ?Cc; naive_solver.
  all: assert (Hno : ∀ e, ¬ between_dates d last e) by (intros e [? ?]; lia);
    exists opn, work, closed; split; [done|]; split; [done|]; split; [done|]; split; [done|]; naive_solver.
Qed.

(** The dates the calculation looks at. *)
Definition walked (loc : Location) (from to : time) (d : Date) : Prop :=
  between_dates (first_date loc from) (last_date loc to) d.

(** [t] is inside opening hours, inside the schedule, on a closed date - over
    a set of dates. *)
Definition open_at (inp : WindowsInput) (P : Date → Prop) (t : time) : Prop :=
  ∃ d, P d ∧ in_any (in_Location inp) d (startingOn (in_Opening inp) (Weekday d)) t.
Definition works_at (inp : WindowsInput) (P : Date → Prop) (t : time) : Prop :=
  ∃ d, P d ∧ in_any (in_Location inp) d (IntervalsStarting (in_Schedule inp) d) t.
Definition closed_at (inp : WindowsInput) (P : Date → Prop) (t : time) : Prop :=
  ∃ d, P d ∧ in_closed_date inp d t.

Lemma WorkingWindows_spec inp from to :
  Forall nonempty (in_TimeOff inp) →
  ∃ r, WorkingWindows inp from to = Some r ∧ normalized r ∧
    ∀ t, covered t r ↔ from ≤ t < to ∧
      let P := walked (in_Location inp) from to in
      open_at inp P t ∧ works_at inp P t ∧ ¬ closed_at inp P t ∧ ¬ covered t (in_TimeOff inp).
Proof.
  intros Hoff. unfold WorkingWindows, After. destruct (Z.ltb_spec from to) as [Hlt|Hge]; cbn [negb].
  2:{ exists []. split; [done|]. split; [apply normalized_nil|]. intros t. pose proof (covered_nil t). split; [done|lia]. }
  set (loc := in_Location inp). destruct (DateOf_valid loc from) as [Hvf Hnf], (DateOf_valid loc to) as [Hvt Hnt].
  destruct (AddDays_valid (DateOf loc from) (-1) Hvf) as [Hv1 Hn1].
  destruct (gather_spec (dates_fuel loc from to) inp (first_date loc from) (last_date loc to) [] [] [])
    as (o & w & c & -> & Hon & Hwn & Hcn & Eo & Ew & Ec); [done|done|unfold dates_fuel; lia|done..|].
  cbn [mbind option_bind].
  destruct (normalize_spec o Hon) as (o' & -> & No & Co). cbn [mbind option_bind].
  destruct (normalize_spec w Hwn) as (w' & -> & Nw & Cw). cbn [mbind option_bind].
  destruct (intersect_spec o' w' No Nw) as (x & -> & Nx & Cx & _). cbn [mbind option_bind].
  destruct (normalize_spec c Hcn) as (c' & -> & Nc & Cc). cbn [mbind option_bind].
  destruct (subtract_spec x c' Nx Nc) as (y & -> & Ny & Cy & _). cbn [mbind option_bind].
  destruct (normalize_spec _ Hoff) as (f & -> & Nf & Cf). cbn [mbind option_bind].
  destruct (subtract_spec y f Ny Nf) as (z & -> & Nz & Cz & _). cbn [mbind option_bind].
  destruct (clip_spec z from to Nz) as (r & -> & Nr & Cr & _). exists r. split; [done|]. split; [done|].
  intros t. rewrite Cr, Cz, Cy, Cx, Co, Cw, Cc, Cf, Eo, Ew, Ec. pose proof (covered_nil t).
  unfold open_at, works_at, closed_at, walked. fold loc. cbv zeta. tauto.
Qed.

(** Where the schedule and the hours are ones the program accepts. *)
Definition hours_ok (s : BarberSchedule) : Prop :=
  week_ok (sch_weekly s) ∧ map_Forall (λ _ l, valid_day l ∧ day_sorted l) (sch_overrides s).

Definition input_ok (inp : WindowsInput) : Prop :=
  week_ok (in_Opening inp) ∧ hours_ok (in_Schedule inp) ∧ Forall nonempty (in_TimeOff inp).

Definition short_day (l : list DayInterval) : Prop := Forall (λ i, 0 ≤ di_Start i < 1440 ∧ 5 ≤ di_Minutes i ≤ 1440) l.

Lemma valid_day_short l : valid_day l → short_day l.
Proof.
  intros (Hf & _). unfold short_day. rewrite Forall_fmap in Hf. eapply Forall_impl; [exact Hf|].
  intros i (_ & ? & _ & ? & _). cbn [on_sunday Start Minutes] in *. lia.
Qed.

Lemma startingOn_short w day : week_ok w → short_day (startingOn w day).
Proof.
  intros [(Hf & _) _]. apply Forall_forall. intros i Hi. unfold startingOn in Hi.
  apply list_elem_of_fmap in Hi as (j & -> & Hj). apply list_elem_of_filter in Hj as [_ Hj].
  rewrite Forall_forall in Hf. destruct (Hf j Hj) as (_ & ? & _ & ? & _). done.
Qed.

Lemma IntervalsStarting_short s d : hours_ok s → short_day (IntervalsStarting s d).
Proof.
  intros (Hw & Ho). unfold IntervalsStarting. destruct (sch_overrides s !! d) as [l|] eqn:E; [|by apply startingOn_short].
  apply valid_day_short. by apply (Ho _ _ E).
Qed.

(** In a zone without clock changes, an instant of an interval belongs to the
    interval's date or the day after. *)
Lemma in_day_interval_fixed off d i t :
  valid_date d → 0 ≤ di_Start i < 1440 → 5 ≤ di_Minutes i ≤ 1440 →
  in_day_interval (fixed_zone off) d i t →
  day_number d ≤ local_day (fixed_zone off) t ≤ day_number d + 1.
Proof.
  intros Hd Hs Hm. unfold in_day_interval. rewrite int64_id by (unfold in_int64, min_int64, max_int64; lia).
  rewrite !At_fixed by done. intros Ht. pose proof (proj1 (local_day_fixed off t _) eq_refl) as Hday.
  unfold secs_per_day in Hday. assert (0 < Second) by done. nia.
Qed.

Lemma closed_date_fixed off d t :
  valid_date d →
  (At d 0 (fixed_zone off) ≤ t < At (AddDays d 1) 0 (fixed_zone off)) ↔ local_day (fixed_zone off) t = day_number d.
Proof.
  intros Hd. destruct (AddDays_valid d 1 Hd) as [Hd1 E1]. rewrite local_day_fixed, !At_fixed, E1 by done.
  unfold secs_per_day. split; intros; nia.
Qed.

Lemma walked_near off from to d t :
  valid_date d → from ≤ t < to → day_number d ≤ local_day (fixed_zone off) t ≤ day_number d + 1 →
  walked (fixed_zone off) from to d.
Proof.
  intros Hd Ht Hday. unfold walked, between_dates, first_date, last_date.
  destruct (DateOf_valid (fixed_zone off) from) as [Hvf Hnf], (DateOf_valid (fixed_zone off) to) as [_ ->].
  destruct (AddDays_valid _ (-1) Hvf) as [_ ->]. rewrite Hnf.
  pose proof (local_day_mono off from t ltac:(lia)). pose proof (local_day_mono off t to ltac:(lia)). split; [done|lia].
Qed.

(** When the person works, with no range: opening hours and schedule on any
    date, the branch not closed that day, no time off. *)
Definition works_anytime (inp : WindowsInput) (t : time) : Prop :=
  open_at inp valid_date t ∧ works_at inp valid_date t ∧
  in_Closed inp !! DateOf (in_Location inp) t ≠ Some true ∧ ¬ covered t (in_TimeOff inp).

Lemma WorkingWindows_fixed inp off from to :
  input_ok inp → in_Location inp = fixed_zone off →
  ∃ r, WorkingWindows inp from to = Some r ∧ normalized r ∧
    ∀ t, covered t r ↔ from ≤ t < to ∧ works_anytime inp t.
Proof.
  intros (Hopen & Hsch & Hoff) Hloc. destruct (WorkingWindows_spec inp from to Hoff) as (r & Hr & Hn & Hc).
  exists r. split; [done|]. split; [done|]. intros t. rewrite Hc. cbv zeta. rewrite Hloc. unfold works_anytime.
  assert (Hnear : ∀ d l, short_day l → valid_date d → in_any (fixed_zone off) d l t →
    day_number d ≤ local_day (fixed_zone off) t ≤ day_number d + 1).
  { intros d l Hl Hd (i & Hi & Ht). unfold short_day in Hl. rewrite Forall_forall in Hl. destruct (Hl i Hi).
    by eapply in_day_interval_fixed. }
  assert (Ho : from ≤ t < to → open_at inp (walked (fixed_zone off) from to) t ↔ open_at inp valid_date t).
  { intros Ht. unfold open_at. rewrite Hloc. split; intros (d & Hd & Hi).
    - exists d. by destruct Hd.
    - exists d. split; [|done]. eapply walked_near; [done|done|]. eapply Hnear; [|done|done]. by apply startingOn_short. }
  assert (Hw : from ≤ t < to → works_at inp (walked (fixed_zone off) from to) t ↔ works_at inp valid_date t).
  { intros Ht. unfold works_at. rewrite Hloc. split; intros (d & Hd & Hi).
    - exists d. by destruct Hd.
    - exists d. split; [|done]. eapply walked_near; [done|done|]. eapply Hnear; [|done|done]. by apply IntervalsStarting_short. }
  assert (Hcl : from ≤ t < to →
    closed_at inp (walked (fixed_zone off) from to) t ↔ in_Closed inp !! DateOf (in_Location inp) t = Some true).
  { intros Ht. unfold closed_at, in_closed_date. rewrite Hloc. destruct (DateOf_valid (fixed_zone off) t) as [Hv Hd]. split.
    - intros (d & [Hvd _] & Hin & Hday). apply closed_date_fixed in Hday; [|done].
      rewrite (day_number_inj (DateOf (fixed_zone off) t) d); [done..|]. by rewrite Hd.
    - intros Hin. eexists. split; [|split; [exact Hin|by apply closed_date_fixed]].
      eapply walked_near; [done..|]. rewrite Hd. lia. }
  split; intros [Ht H]; (split; [done|]); specialize (Ho Ht); specialize (Hw Ht); specialize (Hcl Ht); tauto.
Qed.

(** For any branch time zone and any staff member, the calculation
    finishes without reaching its panic, and returns sorted, merged, never
    touching spans that hold exactly the instants of the range inside the
    opening hours and inside the schedule of the dates it walks, not on one of
    those dates that is closed, and not in time off. *)
Theorem working_windows_set inp from to :
  Forall nonempty (in_TimeOff inp) →
  ∃ r, WorkingWindows inp from to = Some r ∧ normalized r ∧
    (∀ t, covered t r ↔ from ≤ t < to ∧
      let P := walked (in_Location inp) from to in
      open_at inp P t ∧ works_at inp P t ∧ ¬ closed_at inp P t ∧ ¬ covered t (in_TimeOff inp)) ∧
    (∀ r', normalized r' → (∀ t, covered t r' ↔ covered t r) → r' = r).
Proof.
  intros Hoff. destruct (WorkingWindows_spec inp from to Hoff) as (r & Hr & Hn & Hc).
  exists r. split; [done|]. split; [done|]. split; [done|]. intros r' Hn' Hc'. by apply normalized_unique.
Qed.

(** In a time zone without clock changes (Saudi Arabia's) the dates walked
    are enough: an instant of the range comes out exactly when some date's
    opening hours and some date's schedule hold it, the branch is not closed on
    the instant's own date, and it is not time off - shifts past midnight
    included; so a narrower range gives the same answer inside it. *)
Theorem working_windows_complete inp off from to from' to' :
  input_ok inp → in_Location inp = fixed_zone off → from ≤ from' → to' ≤ to →
  ∃ r r', WorkingWindows inp from to = Some r ∧ WorkingWindows inp from' to' = Some r' ∧
    (∀ t, covered t r ↔ from ≤ t < to ∧ works_anytime inp t) ∧
    clip r from' to' = Some r'.
Proof.
  intros Hin Hloc Hf Ht. destruct (WorkingWindows_fixed inp off from to Hin Hloc) as (r & Hr & Hn & Hc).
  destruct (WorkingWindows_fixed inp off from' to' Hin Hloc) as (r' & Hr' & Hn' & Hc').
  exists r, r'. split; [done|]. split; [done|]. split; [done|].
  destruct (clip_spec r from' to' Hn) as (k & Hk & Hnk & Hck & _). rewrite Hk. f_equal.
  apply normalized_unique; [done..|]. intros t. rewrite Hck, Hc, Hc'. split; [tauto|]. intros [? ?]. split; [split; [lia|done]|done].
Qed.

(** A Thursday in Riyadh: open 16:00 to 02:00, on shift 18:00 to 03:00, off
    20:00 to 21:00. *)
Definition riyadh : Location := fixed_zone 10800.
Definition riyadh_at (day minute : Z) : time := At (MkDate 2026 10 day) minute riyadh.

Definition thursday_night : WindowsInput :=
  MkWindowsInput riyadh (MkHours [MkWeekly 4 960 600]) ∅
    (MkSchedule (MkID 1) (MkID 2) (MkID 3) (MkHours [MkWeekly 4 1080 540]) ∅ 1 0)
    [MkInterval (riyadh_at 1 1200) (riyadh_at 1 1260)].

Definition thursday_windows : list Interval :=
  [MkInterval (riyadh_at 1 1080) (riyadh_at 1 1200); MkInterval (riyadh_at 1 1260) (riyadh_at 2 120)].

Lemma thursday_night_ok : input_ok thursday_night.
Proof.
  split; [by apply (NewWeeklyHours_week_ok [MkWeekly 4 960 600])|].
  split; [split; [by apply (NewWeeklyHours_week_ok [MkWeekly 4 1080 540])|]; apply map_Forall_empty|].
  by repeat constructor.
Qed.

Lemma working_windows_set_witness :
  WorkingWindows thursday_night (riyadh_at 1 0) (riyadh_at 3 0) = Some thursday_windows ∧ normalized thursday_windows.
Proof.
  assert (E : WorkingWindows thursday_night (riyadh_at 1 0) (riyadh_at 3 0) = Some thursday_windows) by (vm_compute; reflexivity).
  split; [exact E|].
  destruct (working_windows_set thursday_night (riyadh_at 1 0) (riyadh_at 3 0)) as (r & Hr & Hn & _).
  - apply thursday_night_ok.
  - rewrite E in Hr. injection Hr as <-. exact Hn.
Defined.

(** Asking only for the early hours of Friday still finds Thursday's shift. *)
Lemma working_windows_complete_witness :
  WorkingWindows thursday_night (riyadh_at 2 0) (riyadh_at 2 600) = Some [MkInterval (riyadh_at 2 0) (riyadh_at 2 120)] ∧
  works_anytime thursday_night (riyadh_at 2 60).
Proof.
  destruct (working_windows_complete thursday_night 10800 (riyadh_at 1 0) (riyadh_at 3 0) (riyadh_at 2 0) (riyadh_at 2 600))
    as (r & r' & Hr & Hr' & Hc & Hk); [apply thursday_night_ok|reflexivity|vm_compute; congruence|vm_compute; congruence|].
  assert (E : WorkingWindows thursday_night (riyadh_at 1 0) (riyadh_at 3 0) = Some thursday_windows) by (vm_compute; reflexivity).
  rewrite E in Hr. injection Hr as <-. split.
  - rewrite Hr', <- Hk. vm_compute. reflexivity.
  - apply Hc. exists (MkInterval (riyadh_at 1 1260) (riyadh_at 2 120)). split; [right; left|].
    unfold in_span. split; vm_compute; congruence.
Defined.
