(* ===== verification/SchedStore.v ===== *)
(** * Scheduling's tables
      (src/internal/scheduling/adapters/postgres/repository.go, schedules.go, queries.sql)

    The tables of the scheduling schema and the repositories' transactions on
    them. A transaction is a function from the tables to a result and new
    tables; an error rolls back, so it carries no tables. Row and advisory
    locks make transactions on the same rows follow one another, so each runs
    whole. A database that refuses a row ([CHECK], primary key) or is out of
    reach answers [ErrStorage]. *)
From S2P Require Import Prelude GoTime Shared SchedWeekly SchedDate SchedCalendar.
Open Scope Z_scope.

Abbreviation CalKey := (BusinessID * BranchID)%type.
Abbreviation SchKey := (BusinessID * BranchID * StaffID)%type.

(** Rows of hours by (weekday, start minute), the tables' primary key within
    one calendar or schedule; the value is the duration. *)
Abbreviation HourRows := (gmap (Z * Z) Z).

(** Columns [version] and [updated_at]. *)
Record VersionRow := MkVersionRow { row_version : Z; row_updated_at : time }.

Record SchedDB := MkSchedDB {
  branch_calendars : gmap CalKey VersionRow;
  opening_hours : gmap CalKey HourRows;
  barber_schedules : gmap SchKey VersionRow;
  barber_hours : gmap SchKey HourRows;
  schedule_overrides : gmap SchKey (gmap Date (gmap Z Z));   (* joined with override_hours *)
  time_off : gmap TimeOffID TimeOff;
  outbox : list OpeningHoursChangedEvent }.

Definition empty_db : SchedDB := MkSchedDB ∅ ∅ ∅ ∅ ∅ ∅ [].

Definition toInt16 (n : Z) : res sched_error Z := if (n <? 0) || (max_int16 <? n) then Err ErrStorage else Ok n.
Definition toInt32 (n : Z) : res sched_error Z := if (n <? 0) || (max_int32 <? n) then Err ErrStorage else Ok n.

(** ** Rows of hours *)

Definition weeklyRow (i : WeeklyInterval) : res sched_error (Z * Z * Z) :=
  let! day := toInt16 (Day i) in
  let! start := toInt16 (Start i) in
  let! minutes := toInt16 (Minutes i) in
  Ok (day, start, minutes).

(** The CHECK constraints of [opening_hours], [barber_hours] and [override_hours]. *)
Definition minute_checks (start minutes : Z) : bool :=
  (0 <=? start) && (start <=? 1435) && (Z.rem start 5 =? 0) && (5 <=? minutes) && (minutes <=? 1440) && (Z.rem minutes 5 =? 0).
Definition day_check (day : Z) : bool := (0 <=? day) && (day <=? 6).

(** An INSERT under a primary key. *)
Definition insert_row {K A} `{Countable K} (t : gmap K A) (k : K) (a : A) (checks : bool) : res sched_error (gmap K A) :=
  check! checks else ErrStorage in
  check! bool_decide (t !! k = None) else ErrStorage in
  Ok (<[k := a]> t).

Definition insert_hour (rows : HourRows) (i : WeeklyInterval) : res sched_error HourRows :=
  let! r := weeklyRow i in
  let '(day, start, minutes) := r in
  insert_row rows (day, start) minutes (day_check day && minute_checks start minutes).

(** The deletes and inserts that replace the rows of one calendar or schedule. *)
Definition replace_hours (w : WeeklyHours) : res sched_error HourRows := res_foldM insert_hour ∅ (intervals w).

Definition row_interval (r : Z * Z * Z) : WeeklyInterval := MkWeekly r.1.1 r.1.2 r.2.
Definition by_weekday_start (a b : Z * Z * Z) : bool :=
  (a.1.1 <? b.1.1) || ((a.1.1 =? b.1.1) && (a.1.2 <=? b.1.2)).

(** [SELECT ... ORDER BY weekday, start_minute]. *)
Definition select_hours (rows : HourRows) : list WeeklyInterval := row_interval <$> sort_by by_weekday_start (map_to_list rows).

(** ** Calendars *)

Definition loadCalendar (db : SchedDB) (k : CalKey) (row : VersionRow) : res sched_error BranchCalendar :=
  let! hours := NewWeeklyHours (select_hours (default ∅ (opening_hours db !! k))) in
  Ok (RehydrateBranchCalendar k.1 k.2 hours (row_version row) (row_updated_at row)).

Definition Calendars_Get (db : SchedDB) (business : BusinessID) (branch : BranchID) : res sched_error BranchCalendar :=
  match branch_calendars db !! (business, branch) with
  | None => Ok (NewBranchCalendar business branch)
  | Some row => loadCalendar db (business, branch) row
  end.

Definition out_of_int32 (v : Z) : bool := (v <? 0) || (max_int32 <? v).

(** INSERT or UPDATE of the version row. The unique violation of a lost race
    is reported as a version conflict. *)
Definition write_version {K} `{Countable K} (t : gmap K VersionRow) (k : K) (expected : Z) (row : VersionRow)
  : res sched_error (gmap K VersionRow) :=
  check! 0 <? row_version row else ErrStorage in
  if expected =? 0 then
    match t !! k with
    | Some _ => Err ErrVersionConflict
    | None => Ok (<[k := row]> t)
    end
  else
    match t !! k with
    | Some old => if row_version old =? expected then Ok (<[k := row]> t) else Err ErrVersionConflict
    | None => Err ErrVersionConflict
    end.

Definition saveHours (db : SchedDB) (cal : BranchCalendar) : res sched_error SchedDB :=
  let! rows := replace_hours (cal_hours cal) in
  Ok (MkSchedDB (branch_calendars db) (<[(cal_business cal, cal_branch cal) := rows]> (opening_hours db))
        (barber_schedules db) (barber_hours db) (schedule_overrides db) (time_off db) (outbox db)).

Definition publish (db : SchedDB) (evs : list OpeningHoursChangedEvent) : SchedDB :=
  MkSchedDB (branch_calendars db) (opening_hours db) (barber_schedules db) (barber_hours db) (schedule_overrides db)
    (time_off db) (outbox db ++ evs).

Definition set_calendars (db : SchedDB) (t : gmap CalKey VersionRow) : SchedDB :=
  MkSchedDB t (opening_hours db) (barber_schedules db) (barber_hours db) (schedule_overrides db) (time_off db) (outbox db).

Definition Calendars_Update (db : SchedDB) (business : BusinessID) (branch : BranchID) (expectedVersion : Z)
    (fn : BranchCalendar → res sched_error BranchCalendar) : res sched_error (BranchCalendar * SchedDB) :=
  if out_of_int32 expectedVersion then Err ErrVersionConflict else
  let k := (business, branch) in
  let! cal := Calendars_Get db business branch in
  check! cal_version cal =? expectedVersion else ErrVersionConflict in
  let! cal := fn cal in
  let! version := toInt32 (cal_version cal) in
  let! t := write_version (branch_calendars db) k expectedVersion (MkVersionRow version (cal_updatedAt cal)) in
  let! db := saveHours (set_calendars db t) cal in
  Ok (cal, publish db (cal_events cal)).

(** ** Schedules *)

Definition insert_override_hour (rows : gmap Z Z) (i : DayInterval) : res sched_error (gmap Z Z) :=
  let! start := toInt16 (di_Start i) in
  let! minutes := toInt16 (di_Minutes i) in
  insert_row rows start minutes (minute_checks start minutes).

(** An override's date goes to a [date] column as [AsTime] and comes back
    through [DateOf]. *)
Definition stored_date (d : Date) : Date := DateOf UTC (midnightUTC d).

Definition insert_override (t : gmap Date (gmap Z Z)) (e : Date * list DayInterval) : res sched_error (gmap Date (gmap Z Z)) :=
  let! rows := res_foldM insert_override_hour ∅ e.2 in
  insert_row t (stored_date e.1) rows true.

Definition replace_overrides (order : list (Date * list DayInterval)) : res sched_error (gmap Date (gmap Z Z)) :=
  res_foldM insert_override ∅ order.

Definition by_start (a b : Z * Z) : bool := a.1 <=? b.1.
Definition select_day (rows : gmap Z Z) : list DayInterval := (λ r, MkDay r.1 r.2) <$> sort_by by_start (map_to_list rows).

Definition loadSchedule (db : SchedDB) (k : SchKey) (row : VersionRow) : res sched_error BarberSchedule :=
  let! weekly := NewWeeklyHours (select_hours (default ∅ (barber_hours db !! k))) in
  Ok (RehydrateBarberSchedule k.1.1 k.1.2 k.2 weekly (select_day <$> default ∅ (schedule_overrides db !! k))
        (row_version row) (row_updated_at row)).

Definition Schedules_Get (db : SchedDB) (business : BusinessID) (branch : BranchID) (staff : StaffID) : res sched_error BarberSchedule :=
  match barber_schedules db !! (business, branch, staff) with
  | None => Ok (NewBarberSchedule business branch staff)
  | Some row => loadSchedule db (business, branch, staff) row
  end.

(** The person's rows at their other branches, grouped by branch; a branch
    with no rows of hours does not appear. *)
Definition elsewhere_rows (db : SchedDB) (k : SchKey) : list HourRows :=
  snd <$> filter (λ e : SchKey * HourRows, (e.1.1.1 = k.1.1 ∧ e.1.2 = k.2 ∧ e.1.1.2 ≠ k.1.2) ∧ e.2 ≠ ∅) (map_to_list (barber_hours db)).

Definition hoursElsewhere (db : SchedDB) (k : SchKey) : res sched_error (list WeeklyHours) :=
  res_mapM (λ rows, NewWeeklyHours (select_hours rows)) (elsewhere_rows db k).

(** [order] is the order in which Go visits the overrides. *)
Definition saveSchedule (db : SchedDB) (k : SchKey) (s : BarberSchedule) (order : list (Date * list DayInterval)) (expectedVersion : Z)
  : res sched_error SchedDB :=
  let! version := toInt32 (sch_version s) in
  let! expected := toInt32 expectedVersion in
  let! t := write_version (barber_schedules db) k expected (MkVersionRow version (sch_updatedAt s)) in
  let! rows := replace_hours (sch_weekly s) in
  let! ovs := replace_overrides order in
  Ok (MkSchedDB (branch_calendars db) (opening_hours db) t (<[k := rows]> (barber_hours db))
        (<[k := ovs]> (schedule_overrides db)) (time_off db) (outbox db)).

Definition Schedules_Update (db : SchedDB) (business : BusinessID) (branch : BranchID) (staff : StaffID) (expectedVersion : Z)
    (fn : BarberSchedule → list WeeklyHours → res sched_error BarberSchedule)
    (order : BarberSchedule → list (Date * list DayInterval)) : res sched_error (BarberSchedule * SchedDB) :=
  if out_of_int32 expectedVersion then Err ErrVersionConflict else
  let k := (business, branch, staff) in
  let! s := Schedules_Get db business branch staff in
  check! sch_version s =? expectedVersion else ErrVersionConflict in
  let! elsewhere := hoursElsewhere db k in
  let! s := fn s elsewhere in
  let! db := saveSchedule db k s (order s) expectedVersion in
  Ok (s, db).

(** ** Time off *)

Definition set_time_off (db : SchedDB) (t : gmap TimeOffID TimeOff) : SchedDB :=
  MkSchedDB (branch_calendars db) (opening_hours db) (barber_schedules db) (barber_hours db) (schedule_overrides db) t (outbox db).

(** The table's exclusion constraint: the same person, overlapping spans. *)
Definition excludes (t o : TimeOff) : bool :=
  bool_decide (off_business t = off_business o) && bool_decide (off_staff t = off_staff o) && Shared.Overlaps (off_span t) (off_span o).

Definition time_off_checks (t : TimeOff) : bool :=
  After (i_end (off_span t)) (i_start (off_span t))
  && (i_end (off_span t) - i_start (off_span t) <=? 366 * 24 * Hour)
  && (GoText.RuneCountInString (off_reason t) <=? 200).

Definition TimeOffs_Add (db : SchedDB) (t : TimeOff) : res sched_error SchedDB :=
  check! time_off_checks t else ErrStorage in
  check! bool_decide (time_off db !! off_id t = None) else ErrStorage in
  if existsb (λ e, excludes t e.2) (map_to_list (time_off db)) then Err ErrTimeOffOverlaps
  else Ok (set_time_off db (<[off_id t := t]> (time_off db))).

Definition starts_first (a b : TimeOff) : bool := i_start (off_span a) <=? i_start (off_span b).

Definition TimeOffs_List (db : SchedDB) (business : BusinessID) (staff : StaffID) (since : time) : res sched_error (list TimeOff) :=
  let rows := sort_by starts_first (filter (λ t, off_business t = business ∧ off_staff t = staff ∧ since < i_end (off_span t))
                (snd <$> map_to_list (time_off db))) in
  res_mapM (λ row,
    let! span := res_map_err (λ _, ErrStorage) (NewInterval (i_start (off_span row)) (i_end (off_span row))) in
    Ok (RehydrateTimeOff (off_id row) business staff span (off_reason row) (off_createdAt row))) rows.

Definition TimeOffs_Delete (db : SchedDB) (business : BusinessID) (staff : StaffID) (id : TimeOffID) : res sched_error SchedDB :=
  match time_off db !! id with
  | Some t =>
      if bool_decide (off_business t = business) && bool_decide (off_staff t = staff)
      then Ok (set_time_off db (delete id (time_off db)))
      else Err ErrNotFound
  | None => Err ErrNotFound
  end.

(** ** Rows keep hours *)

Definition hour_row (i : WeeklyInterval) : Z * Z * Z := (Day i, Start i, Minutes i).

Lemma row_interval_hour_row i : row_interval (hour_row i) = i.
Proof. by destruct i. Qed.

Lemma insert_row_ok {K A} `{Countable K} (t : gmap K A) k a checks t' :
  insert_row t k a checks = Ok t' ↔ checks = true ∧ t !! k = None ∧ t' = <[k := a]> t.
Proof.
  unfold insert_row. rewrite res_bind_ok. setoid_rewrite ensure_ok. setoid_rewrite res_bind_ok. setoid_rewrite ensure_ok.
  setoid_rewrite bool_decide_eq_true. split.
  - by intros (_ & ? & _ & ? & [= <-]).
  - intros (? & ? & ->). exists tt. split; [done|]. by exists tt.
Qed.

Lemma toInt16_ok n : 0 ≤ n ≤ max_int16 → toInt16 n = Ok n.
Proof. intros ?. unfold toInt16. by rewrite (proj2 (Z.ltb_ge _ _)), (proj2 (Z.ltb_ge _ _)) by lia. Qed.

Lemma toInt32_ok n m : toInt32 n = Ok m ↔ m = n ∧ 0 ≤ n ≤ max_int32.
Proof.
  unfold toInt32. destruct (Z.ltb_spec n 0), (Z.ltb_spec max_int32 n); simpl; (split; [intros [= <-]|intros [-> ?]]); done || lia.
Qed.

Lemma rem5 z : (5 | z) → Z.rem z 5 = 0.
Proof. intros [k ->]. by rewrite Z.rem_mul. Qed.

Lemma minute_checks_valid start minutes :
  0 ≤ start < 1440 → (5 | start) → 5 ≤ minutes ≤ 1440 → (5 | minutes) → minute_checks start minutes = true.
Proof.
  intros Hs Ds Hm Dm. unfold minute_checks. rewrite !rem5 by done. destruct Ds as [k ->].
  rewrite !andb_true_iff, !Z.leb_le. repeat split; lia.
Qed.

Lemma insert_hour_valid rows i :
  valid_interval i → rows !! (Day i, Start i) = None → insert_hour rows i = Ok (<[(Day i, Start i) := Minutes i]> rows).
Proof.
  intros (Hd & Hs & Ds & Hm & Dm) Hn. unfold insert_hour, weeklyRow.
  rewrite !toInt16_ok by (unfold max_int16; lia). cbn [res_bind]. apply insert_row_ok.
  rewrite minute_checks_valid by done. unfold day_check. by rewrite !(proj2 (Z.leb_le _ _)) by lia.
Qed.

Lemma insert_hours_perm l rows :
  Forall valid_interval l → NoDup ((λ i, (Day i, Start i)) <$> l) → (∀ i, i ∈ l → rows !! (Day i, Start i) = None) →
  ∃ rows', res_foldM insert_hour rows l = Ok rows' ∧ map_to_list rows' ≡ₚ (hour_row <$> l) ++ map_to_list rows.
Proof.
  revert rows. induction l as [|i l IH]; intros rows Hv Hnd Hn; cbn [res_foldM]; [by exists rows|].
  apply Forall_cons in Hv as [Hi Hv]. rewrite fmap_cons in Hnd. apply NoDup_cons in Hnd as [Hni Hnd].
  rewrite insert_hour_valid by (done || apply Hn; by left). cbn [res_bind].
  destruct (IH (<[(Day i, Start i) := Minutes i]> rows)) as (rows' & -> & Hp); [done|done| |].
  { intros j Hj. rewrite lookup_insert_ne; [apply Hn; by right|]. intros E. apply Hni. rewrite E.
    apply list_elem_of_fmap. by exists j. }
  exists rows'. split; [done|]. rewrite Hp, map_to_list_insert by (apply Hn; by left). rewrite fmap_cons. cbn [app].
  by rewrite Permutation_middle.
Qed.

Lemma valid_week_keys l : valid_week l → NoDup ((λ i, (Day i, Start i)) <$> l).
Proof.
  intros Hv. assert (Hnd : NoDup l).
  { destruct Hv as (Hf & _ & Hd). apply NoDup_alt. intros i j x Hi Hj.
    destruct (decide (i = j)) as [|Hne]; [done|exfalso]. rewrite Forall_forall in Hf.
    pose proof (list_elem_of_lookup_2 _ _ _ Hi) as Hx. specialize (Hf x Hx).
    assert (Hdis : disjoint x x).
    { destruct (decide (i < j)%nat); [by eapply (pairwise_lookup _ _ i j)|].
      by eapply (pairwise_lookup _ _ j i); [exact Hd|lia|..]. }
    apply disjoint_ordered in Hdis as [? _]; [|done|done|lia]. destruct Hf as (_ & _ & _ & ? & _). lia. }
  apply NoDup_fmap_2_strong; [|done]. intros x y Hx Hy [= E1 E2]. apply (start_unique l); [done..|].
  unfold weekStart. by rewrite E1, E2.
Qed.

Lemma replace_hours_spec w :
  week_ok w → ∃ rows, replace_hours w = Ok rows ∧ NewWeeklyHours (select_hours rows) = Ok w.
Proof.
  intros Hw. destruct Hw as [Hv Hs] eqn:EHw.
  destruct (insert_hours_perm (intervals w) ∅) as (rows & Hr & Hp); [apply Hv|by apply valid_week_keys|done|].
  exists rows. split; [done|]. apply NewWeeklyHours_perm; [done|]. unfold select_hours.
  rewrite sort_by_perm, Hp, map_to_list_empty, app_nil_r, <- list_fmap_compose.
  rewrite (list_fmap_ext _ id); [by rewrite list_fmap_id|]. intros _ i _. apply row_interval_hour_row.
Qed.

Definition day_row (i : DayInterval) : Z * Z := (di_Start i, di_Minutes i).

Lemma insert_override_hour_valid rows i :
  valid_interval (on_sunday i) → rows !! di_Start i = None →
  insert_override_hour rows i = Ok (<[di_Start i := di_Minutes i]> rows).
Proof.
  intros (_ & Hs & Ds & Hm & Dm) Hn. cbn [on_sunday Start Minutes] in *. unfold insert_override_hour.
  rewrite !toInt16_ok by (unfold max_int16; lia). cbn [res_bind]. apply insert_row_ok. by rewrite minute_checks_valid.
Qed.

Lemma insert_override_hours_perm l rows :
  Forall (λ i, valid_interval (on_sunday i)) l → NoDup (di_Start <$> l) → (∀ i, i ∈ l → rows !! di_Start i = None) →
  ∃ rows', res_foldM insert_override_hour rows l = Ok rows' ∧ map_to_list rows' ≡ₚ (day_row <$> l) ++ map_to_list rows.
Proof.
  revert rows. induction l as [|i l IH]; intros rows Hv Hnd Hn; cbn [res_foldM]; [by exists rows|].
  apply Forall_cons in Hv as [Hi Hv]. rewrite fmap_cons in Hnd. apply NoDup_cons in Hnd as [Hni Hnd].
  rewrite insert_override_hour_valid by (done || apply Hn; by left). cbn [res_bind].
  destruct (IH (<[di_Start i := di_Minutes i]> rows)) as (rows' & -> & Hp); [done|done| |].
  { intros j Hj. rewrite lookup_insert_ne; [apply Hn; by right|]. intros E. apply Hni. rewrite E.
    apply list_elem_of_fmap. by exists j. }
  exists rows'. split; [done|]. rewrite Hp, map_to_list_insert by (apply Hn; by left). rewrite fmap_cons. cbn [app].
  by rewrite Permutation_middle.
Qed.

Lemma day_sorted_nodup l : day_sorted l → NoDup (di_Start <$> l).
Proof.
  intros Hs. apply NoDup_alt. intros i j x Hi Hj. rewrite list_lookup_fmap in Hi, Hj.
  destruct (l !! i) as [a|] eqn:Ha, (l !! j) as [b|] eqn:Hb; try done. simplify_eq/=.
  destruct (decide (i < j)%nat) as [Hij|]; [pose proof (pairwise_lookup _ _ _ _ _ _ Hs Hij Ha Hb); simpl in *; lia|].
  destruct (decide (j < i)%nat) as [Hji|]; [pose proof (pairwise_lookup _ _ _ _ _ _ Hs Hji Hb Ha); simpl in *; lia|lia].
Qed.

Lemma day_sorted_unique l l' : day_sorted l → day_sorted l' → l ≡ₚ l' → l = l'.
Proof.
  intros Hl Hl' Hp. eapply StronglySorted_unique_strong; [|exact Hl|exact Hl'|done]. intros a b _ _ ??. simpl in *. lia.
Qed.

Lemma replace_day_spec l :
  valid_day l → day_sorted l → ∃ rows, res_foldM insert_override_hour ∅ l = Ok rows ∧ select_day rows = l.
Proof.
  intros Hv Hs. pose proof (day_sorted_nodup l Hs) as Hnd.
  destruct (insert_override_hours_perm l ∅) as (rows & Hr & Hp);
    [destruct Hv as (Hf & _); by rewrite Forall_fmap in Hf|done|done|].
  exists rows. split; [done|]. rewrite map_to_list_empty, app_nil_r in Hp.
  assert (Hperm : select_day rows ≡ₚ l).
  { unfold select_day. rewrite sort_by_perm, Hp, <- list_fmap_compose.
    rewrite (list_fmap_ext _ id); [by rewrite list_fmap_id|]. by intros _ [] _. }
  apply day_sorted_unique; [|done|done].
  assert (Hle : StronglySorted (λ a b, di_Start a ≤ di_Start b) (select_day rows)).
  { assert (Hs' : StronglySorted (λ a b, by_start a b = true) (sort_by by_start (map_to_list rows))).
    { apply sort_by_sorted; unfold by_start; intros *; rewrite ?Z.leb_gt, ?Z.leb_le; lia. }
    apply pairwise_intro. unfold select_day. intros i j a b Hij Ha Hb. apply list_lookup_fmap_Some in Ha as (x & -> & Hx), Hb as (y & -> & Hy).
    pose proof (pairwise_lookup _ _ _ _ _ _ Hs' Hij Hx Hy) as Hxy. by apply Z.leb_le in Hxy. }
  unfold day_sorted. apply pairwise_intro. intros i j a b Hij Ha Hb.
  pose proof (pairwise_lookup _ _ _ _ _ _ Hle Hij Ha Hb) as Hab. simpl in Hab.
  assert (Hnd' : NoDup (di_Start <$> select_day rows)) by (by rewrite Hperm).
  destruct (decide (di_Start a = di_Start b)) as [E|]; [|lia].
  assert (i = j); [|lia]. eapply (NoDup_lookup _ i j (di_Start b) Hnd'); rewrite list_lookup_fmap; [by rewrite Ha, <- E|by rewrite Hb].
Qed.

Lemma stored_date_valid d : valid_date d → stored_date d = d.
Proof. apply DateOf_midnight. Qed.

(** Saving overrides: whatever dates, what lands in the table reads back as
    valid hours; on dates that exist, as the overrides themselves. *)
Definition days_ok (m : gmap Date (gmap Z Z)) : Prop :=
  map_Forall (λ _ rows, valid_day (select_day rows) ∧ day_sorted (select_day rows)) m.

Lemma insert_override_ok t e t' :
  valid_day e.2 → day_sorted e.2 → insert_override t e = Ok t' →
  ∃ rows, select_day rows = e.2 ∧ t' = <[stored_date e.1 := rows]> t.
Proof.
  intros Hv Hs. unfold insert_override. destruct (replace_day_spec e.2 Hv Hs) as (rows & -> & Hsel). cbn [res_bind].
  intros (_ & _ & ->)%insert_row_ok. by exists rows.
Qed.

Lemma replace_overrides_ok order t :
  Forall (λ e : Date * list DayInterval, valid_day e.2 ∧ day_sorted e.2) order →
  replace_overrides order = Ok t → days_ok t.
Proof.
  intros Hf. unfold replace_overrides. apply (res_foldM_inv days_ok); [|apply map_Forall_empty].
  intros m e m' He Hm Hi. rewrite Forall_forall in Hf. destruct (Hf e He) as [Hv Hs].
  destruct (insert_override_ok _ _ _ Hv Hs Hi) as (rows & Hsel & ->). apply map_Forall_insert_2; [by rewrite Hsel|done].
Qed.

Lemma replace_overrides_spec order t :
  Forall (λ e : Date * list DayInterval, valid_date e.1 ∧ valid_day e.2 ∧ day_sorted e.2) order → NoDup order.*1 →
  (∀ e, e ∈ order → t !! e.1 = None) →
  ∃ t', res_foldM insert_override t order = Ok t' ∧
    select_day <$> t' = list_to_map order ∪ (select_day <$> t).
Proof.
  revert t. induction order as [|e order IH]; intros t Hf Hnd Hn; cbn [res_foldM].
  { exists t. by rewrite list_to_map_nil, map_empty_union. }
  apply Forall_cons in Hf as [(Hd & Hv & Hs) Hf]. rewrite fmap_cons in Hnd. apply NoDup_cons in Hnd as [Hni Hnd].
  destruct (replace_day_spec e.2 Hv Hs) as (rows & Hrows & Hsel).
  unfold insert_override at 1. rewrite Hrows. cbn [res_bind]. rewrite stored_date_valid by done.
  rewrite (proj2 (insert_row_ok t e.1 rows true _)) by (split; [done|]; split; [apply Hn; by left|done]). cbn [res_bind].
  destruct (IH (<[e.1 := rows]> t)) as (t' & -> & Ht'); [done|done| |].
  { intros x Hx. rewrite lookup_insert_ne; [apply Hn; by right|]. intros E. apply Hni. rewrite E.
    apply list_elem_of_fmap. by exists x. }
  exists t'. split; [done|]. rewrite Ht', fmap_insert, Hsel. destruct e as [d l]. simpl.
  rewrite <- insert_union_l, insert_union_r; [done|]. by apply not_elem_of_list_to_map_1.
Qed.

(** ** What every transaction keeps *)

Definition loads (rows : HourRows) : Prop := is_ok (NewWeeklyHours (select_hours rows)) = true.

Definition current_version {K} `{Countable K} (t : gmap K VersionRow) (k : K) : Z := from_option row_version 0 (t !! k).

(** The versions of the events published about one branch, oldest first. *)
Definition event_key (e : OpeningHoursChangedEvent) : CalKey := (ohc_Business e, ohc_Branch e).
Definition published_versions (db : SchedDB) (k : CalKey) : list Z :=
  ohc_Version <$> filter (λ e, event_key e = k) (outbox db).

Record db_ok (db : SchedDB) : Prop := {
  ok_cal k row : branch_calendars db !! k = Some row →
    0 < row_version row ≤ max_int32 ∧ loads (default ∅ (opening_hours db !! k));
  ok_events k : published_versions db k = seqZ 1 (current_version (branch_calendars db) k);
  ok_sch k row : barber_schedules db !! k = Some row →
    0 < row_version row ≤ max_int32 ∧ loads (default ∅ (barber_hours db !! k)) ∧ days_ok (default ∅ (schedule_overrides db !! k));
  ok_hours k rows : barber_hours db !! k = Some rows → loads rows;
  ok_one_shop b br br' st rows rows' w w' : br ≠ br' →
    barber_hours db !! (b, br, st) = Some rows → barber_hours db !! (b, br', st) = Some rows' →
    NewWeeklyHours (select_hours rows) = Ok w → NewWeeklyHours (select_hours rows') = Ok w' → SchedWeekly.Overlaps w w' = false;
  ok_off id t : time_off db !! id = Some t → off_id t = id ∧ nonempty (off_span t);
  ok_off_apart id id' t t' : id ≠ id' → time_off db !! id = Some t → time_off db !! id' = Some t' → excludes t t' = false }.

Lemma empty_db_ok : db_ok empty_db.
Proof. by constructor. Qed.

Lemma write_version_ok {K} `{Countable K} (t : gmap K VersionRow) k expected row t' :
  (∀ old, t !! k = Some old → 0 < row_version old) →
  write_version t k expected row = Ok t' ↔ 0 < row_version row ∧ expected = current_version t k ∧ t' = <[k := row]> t.
Proof.
  intros Hpos. unfold write_version, current_version. destruct (Z.ltb_spec 0 (row_version row)); cbn [ensure res_bind];
    [|split; [done|lia]].
  destruct (t !! k) as [old|]; simpl.
  - specialize (Hpos old eq_refl). destruct (Z.eqb_spec expected 0); [split; [done|lia]|].
    destruct (Z.eqb_spec (row_version old) expected); [|split; [done|lia]]. split; [by intros [= <-]|by intros (_ & _ & ->)].
  - destruct (Z.eqb_spec expected 0) as [->|]; [|split; [done|lia]]. split; [by intros [= <-]|by intros (_ & _ & ->)].
Qed.

Lemma Calendars_Get_ok db b br :
  db_ok db → ∃ cal, Calendars_Get db b br = Ok cal ∧ cal_business cal = b ∧ cal_branch cal = br ∧
    cal_version cal = current_version (branch_calendars db) (b, br) ∧ cal_events cal = [] ∧ week_ok (cal_hours cal).
Proof.
  intros Hok. unfold Calendars_Get, current_version. destruct (branch_calendars db !! (b, br)) as [row|] eqn:E; simpl.
  - destruct (ok_cal _ Hok _ _ E) as [Hv Hl]. unfold loadCalendar. unfold loads in Hl.
    destruct (NewWeeklyHours _) as [w|] eqn:Ew; [|done]. simpl. eexists. split; [done|]. simpl. repeat (split; [done|]).
    by eapply NewWeeklyHours_week_ok.
  - eexists. split; [done|]. simpl. repeat (split; [done|]). by apply (NewWeeklyHours_week_ok []).
Qed.

Definition hours_change (b : BusinessID) (br : BranchID) (hours : WeeklyHours) (v : Z) (at_ : time) : OpeningHoursChangedEvent :=
  MkHoursChanged b br at_ v hours.

Lemma out_of_int32_false v : 0 ≤ v ≤ max_int32 → out_of_int32 v = false.
Proof. intros ?. unfold out_of_int32. destruct (Z.ltb_spec v 0), (Z.ltb_spec max_int32 v); done || lia. Qed.

(** The whole effect of setting opening hours. *)
Lemma set_hours_effect db b br expected hours now :
  db_ok db → week_ok hours →
  let at_ := Truncate now Microsecond in
  let cur := current_version (branch_calendars db) (b, br) in
  match Calendars_Update db b br expected (λ c, Ok (SetOpeningHours c hours now)) with
  | Ok (cal, db') =>
      expected = cur ∧ cur < max_int32 ∧ cal = MkCalendar b br hours (cur + 1) at_ [hours_change b br hours (cur + 1) at_] ∧
      ∃ rows, NewWeeklyHours (select_hours rows) = Ok hours ∧
        db' = MkSchedDB (<[(b, br) := MkVersionRow (cur + 1) at_]> (branch_calendars db)) (<[(b, br) := rows]> (opening_hours db))
                (barber_schedules db) (barber_hours db) (schedule_overrides db) (time_off db)
                (outbox db ++ [hours_change b br hours (cur + 1) at_])
  | Err e => (e = ErrVersionConflict ∧ expected ≠ cur) ∨ (e = ErrStorage ∧ expected = cur ∧ cur = max_int32)
  end.
Proof.
  intros Hok Hw at_ cur. unfold Calendars_Update.
  destruct (Calendars_Get_ok db b br Hok) as (cal & HGet & Hb & Hbr & Hv & Hev & _). fold cur in Hv.
  assert (Hcur : 0 ≤ cur ≤ max_int32).
  { unfold cur, current_version. destruct (_ !! _) as [row|] eqn:E; simpl; [|done]. destruct (ok_cal _ Hok _ _ E) as [? _]. lia. }
  destruct (decide (expected = cur)) as [->|Hne].
  2:{ destruct (out_of_int32 expected); [by left|]. rewrite HGet. cbn [res_bind]. rewrite Hv, (proj2 (Z.eqb_neq _ _)) by done. by left. }
  rewrite out_of_int32_false by done. rewrite HGet. cbn [res_bind].
  rewrite Hv, Z.eqb_refl. cbn [ensure res_bind]. unfold SetOpeningHours. cbn [cal_version cal_updatedAt cal_hours cal_business cal_branch cal_events].
  rewrite Hv, Hb, Hbr, Hev. rewrite int64_id by (unfold in_int64, min_int64, max_int64, max_int32 in *; lia).
  destruct (decide (cur = max_int32)) as [Hmax|].
  { replace (toInt32 (cur + 1)) with (Err ErrStorage : res sched_error Z) by (rewrite Hmax; done). by right. }
  rewrite (proj2 (toInt32_ok (cur + 1) _)) by (split; [done|lia]). cbn [res_bind].
  assert (Hwv : write_version (branch_calendars db) (b, br) cur (MkVersionRow (cur + 1) at_) = Ok (<[(b, br) := MkVersionRow (cur + 1) at_]> (branch_calendars db))).
  { apply write_version_ok; [intros old Hold; destruct (ok_cal _ Hok _ _ Hold) as [? _]; lia|]. simpl. split; [lia|done]. }
  fold at_. rewrite Hwv. cbn [res_bind]. unfold saveHours. cbn [cal_hours cal_business cal_branch].
  destruct (replace_hours_spec hours Hw) as (rows & -> & Hrows). cbn [res_bind].
  split; [done|]. split; [lia|]. split; [done|]. by exists rows.
Qed.

Lemma published_versions_app db evs k :
  published_versions (publish db evs) k = published_versions db k ++ (ohc_Version <$> filter (λ e, event_key e = k) evs).
Proof. unfold published_versions, publish. simpl. by rewrite filter_app, fmap_app. Qed.

Lemma seqZ_snoc v : 0 ≤ v → seqZ 1 (v + 1) = seqZ 1 v ++ [v + 1].
Proof. intros Hv. rewrite seqZ_app by lia. f_equal. by rewrite Z.add_comm. Qed.

Lemma current_version_insert {K} `{Countable K} (t : gmap K VersionRow) k k' row :
  current_version (<[k := row]> t) k' = if decide (k = k') then row_version row else current_version t k'.
Proof. unfold current_version. destruct (decide (k = k')) as [->|]; [by rewrite lookup_insert_eq|by rewrite lookup_insert_ne]. Qed.

Lemma current_version_range db k : db_ok db →
  0 ≤ current_version (branch_calendars db) k ≤ max_int32.
Proof.
  intros Hok. unfold current_version. destruct (_ !! k) as [row|] eqn:E; simpl; [|done].
  destruct (ok_cal _ Hok _ _ E) as [? _]. lia.
Qed.

Lemma loads_ok rows w : NewWeeklyHours (select_hours rows) = Ok w → loads rows.
Proof. unfold loads. by intros ->. Qed.

Lemma set_hours_keeps db b br expected hours now cal db' :
  db_ok db → week_ok hours →
  Calendars_Update db b br expected (λ c, Ok (SetOpeningHours c hours now)) = Ok (cal, db') →
  db_ok db' ∧ Calendars_Get db' b br = Ok (RehydrateBranchCalendar b br hours (cal_version cal) (cal_updatedAt cal)).
Proof.
  intros Hok Hw Hu. pose proof (set_hours_effect db b br expected hours now Hok Hw) as H. cbv zeta in H. rewrite Hu in H.
  destruct H as (_ & Hlt & -> & rows & Hrows & ->). pose proof (current_version_range db (b, br) Hok) as Hr.
  set (cur := current_version _ _) in *. split.
  - constructor; cbn [branch_calendars opening_hours barber_schedules barber_hours schedule_overrides time_off outbox];
      try (by apply Hok).
    + intros k row. rewrite lookup_insert_Some. intros [[<- <-]|[Hne Hk]].
      * rewrite lookup_insert_eq. simpl. split; [lia|by eapply loads_ok].
      * rewrite lookup_insert_ne by done. by apply (ok_cal _ Hok).
    + intros k. unfold published_versions. cbn [outbox]. rewrite filter_app, fmap_app.
      pose proof (ok_events _ Hok k) as He. unfold published_versions in He. rewrite He, current_version_insert.
      rewrite filter_cons, filter_nil. unfold event_key, hours_change. cbn [ohc_Business ohc_Branch].
      destruct (decide ((b, br) = k)) as [<-|]; simpl; [|by rewrite app_nil_r]. fold cur. by rewrite seqZ_snoc by lia.
  - unfold Calendars_Get, loadCalendar. cbn [branch_calendars opening_hours]. rewrite !lookup_insert_eq. simpl. by rewrite Hrows.
Qed.

Lemma elsewhere_elem db b br st rows :
  rows ∈ elsewhere_rows db (b, br, st) ↔ rows ≠ ∅ ∧ ∃ br', br' ≠ br ∧ barber_hours db !! (b, br', st) = Some rows.
Proof.
  unfold elsewhere_rows. rewrite list_elem_of_fmap. split.
  - intros ([[[b' br'] st'] r] & -> & He). apply list_elem_of_filter in He as [[(? & ? & ?) ?] He]. simpl in *. subst.
    apply elem_of_map_to_list in He. split; [done|]. by exists br'.
  - intros [Hne (br' & Hbr & Hl)]. exists ((b, br', st), rows). split; [done|]. apply list_elem_of_filter. simpl.
    split; [done|]. by apply elem_of_map_to_list.
Qed.

Lemma hoursElsewhere_ok db b br st :
  db_ok db → ∃ ws, hoursElsewhere db (b, br, st) = Ok ws ∧
    ∀ w, w ∈ ws ↔ ∃ br' rows, br' ≠ br ∧ rows ≠ ∅ ∧ barber_hours db !! (b, br', st) = Some rows ∧ NewWeeklyHours (select_hours rows) = Ok w.
Proof.
  intros Hok. unfold hoursElsewhere.
  assert (Hall : ∀ l, (∀ r, r ∈ l → loads r) → ∃ ws, res_mapM (λ rows, NewWeeklyHours (select_hours rows)) l = Ok ws ∧
    ∀ w, w ∈ ws ↔ ∃ r, r ∈ l ∧ NewWeeklyHours (select_hours r) = Ok w).
  { induction l as [|r l IH]; intros Hl; simpl.
    - exists []. split; [done|]. intros w. split; [by intros ?%not_elem_of_nil|]. by intros (r & ?%not_elem_of_nil & _).
    - pose proof (Hl r ltac:(by left)) as Hr. unfold loads in Hr. destruct (NewWeeklyHours (select_hours r)) as [w0|] eqn:E0; [|done].
      destruct IH as (ws & -> & Hws); [intros; apply Hl; by right|]. simpl. exists (w0 :: ws). split; [done|].
      intros w. rewrite elem_of_cons, Hws. setoid_rewrite elem_of_cons. split.
      + intros [->|(x & ? & ?)]; [exists r; by split; [left|]|exists x; by split; [right|]].
      + intros (x & [->|?] & Hx); [left; congruence|right; by exists x]. }
  destruct (Hall (elsewhere_rows db (b, br, st))) as (ws & -> & Hws).
  { intros r Hr. apply elsewhere_elem in Hr as [_ (br' & _ & Hr)]. by eapply ok_hours. }
  exists ws. split; [done|]. intros w. rewrite Hws. setoid_rewrite elsewhere_elem. naive_solver.
Qed.

(** An empty template overlaps nothing. *)
Lemma Overlaps_nil_r w : SchedWeekly.Overlaps w (MkHours []) = false.
Proof. unfold SchedWeekly.Overlaps. by apply existsb_elem_false. Qed.

Lemma Schedules_Get_ok db b br st :
  db_ok db → ∃ s, Schedules_Get db b br st = Ok s ∧ sch_business s = b ∧ sch_branch s = br ∧ sch_staff s = st ∧
    sch_version s = current_version (barber_schedules db) (b, br, st) ∧ week_ok (sch_weekly s) ∧
    map_Forall (λ _ l, valid_day l ∧ day_sorted l) (sch_overrides s).
Proof.
  intros Hok. unfold Schedules_Get, current_version. destruct (barber_schedules db !! (b, br, st)) as [row|] eqn:E; simpl.
  - destruct (ok_sch _ Hok _ _ E) as (Hv & Hl & Hd). unfold loadSchedule. unfold loads in Hl.
    destruct (NewWeeklyHours _) as [w|] eqn:Ew; [|done]. simpl. eexists. split; [done|]. simpl. repeat (split; [done|]).
    split; [by eapply NewWeeklyHours_week_ok|]. by apply map_Forall_fmap.
  - eexists. split; [done|]. simpl. repeat (split; [done|]). split; [by apply (NewWeeklyHours_week_ok [])|apply map_Forall_empty].
Qed.

Lemma sched_version_range db k : db_ok db → 0 ≤ current_version (barber_schedules db) k ≤ max_int32.
Proof.
  intros Hok. unfold current_version. destruct (_ !! k) as [row|] eqn:E; simpl; [|done].
  destruct (ok_sch _ Hok _ _ E) as [? _]. lia.
Qed.

(** No overlap with any template the person has at another branch. *)
Definition apart_elsewhere (db : SchedDB) (b : BusinessID) (br : BranchID) (st : StaffID) (w : WeeklyHours) : Prop :=
  ∀ br' rows w', br' ≠ br → barber_hours db !! (b, br', st) = Some rows →
    NewWeeklyHours (select_hours rows) = Ok w' → SchedWeekly.Overlaps w w' = false.

Lemma apart_elsewhere_ok db b br st w ws :
  (∀ w', w' ∈ ws ↔ ∃ br' rows, br' ≠ br ∧ rows ≠ ∅ ∧ barber_hours db !! (b, br', st) = Some rows ∧ NewWeeklyHours (select_hours rows) = Ok w') →
  Forall (λ o, SchedWeekly.Overlaps w o = false) ws ↔ apart_elsewhere db b br st w.
Proof.
  intros Hws. rewrite Forall_forall. split.
  - intros H br' rows w' Hbr Hrows Hw'. destruct (decide (rows = ∅)) as [->|].
    + unfold select_hours in Hw'. rewrite map_to_list_empty in Hw'. injection Hw' as <-. apply Overlaps_nil_r.
    + apply H, Hws. by exists br', rows.
  - intros H w' Hw'. apply Hws in Hw' as (br' & rows & ? & _ & ? & ?). by eapply H.
Qed.

Section SetSchedule.
Context (db : SchedDB) (b : BusinessID) (br : BranchID) (st : StaffID) (expected : Z) (now : time).
Context (weekly : WeeklyHours) (overrides : gmap Date (list DayInterval)) (visit : list (Date * list DayInterval)).
Context (order : BarberSchedule → list (Date * list DayInterval)).
Hypothesis Hok : db_ok db.
Hypothesis Hweekly : week_ok weekly.
Hypothesis Hvisit : visit ≡ₚ map_to_list overrides.
Hypothesis Horder : ∀ s, order s ≡ₚ map_to_list (sch_overrides s).

Let set s elsewhere := Set_schedule s weekly overrides visit elsewhere now.
Let cur := current_version (barber_schedules db) (b, br, st).

Lemma set_schedule_effect s' db' :
  Schedules_Update db b br st expected set order = Ok (s', db') →
  expected = cur ∧ cur < max_int32 ∧ apart_elsewhere db b br st weekly ∧ schedule_ok s' ∧
  s' = MkSchedule b br st weekly (sort_by day_starts_before <$> overrides) (cur + 1) (Truncate now Microsecond) ∧
  ∃ rows ovs, NewWeeklyHours (select_hours rows) = Ok weekly ∧ days_ok ovs ∧
    (map_Forall (λ d _, valid_date d) overrides → select_day <$> ovs = sch_overrides s') ∧
    db' = MkSchedDB (branch_calendars db) (opening_hours db)
            (<[(b, br, st) := MkVersionRow (cur + 1) (Truncate now Microsecond)]> (barber_schedules db))
            (<[(b, br, st) := rows]> (barber_hours db)) (<[(b, br, st) := ovs]> (schedule_overrides db)) (time_off db) (outbox db).
Proof using Hok Hweekly Hvisit Horder.
  unfold Schedules_Update. destruct (out_of_int32 expected); [done|].
  destruct (Schedules_Get_ok db b br st Hok) as (s & -> & Hb & Hbr & Hst & Hv & _). cbn [res_bind].
  rewrite Hv. fold cur. destruct (Z.eqb_spec cur expected) as [<-|]; [|done]. cbn [ensure res_bind].
  destruct (hoursElsewhere_ok db b br st Hok) as (ws & -> & Hws). cbn [res_bind].
  rewrite res_bind_ok. intros (s1 & Hset & Hsave). unfold set in Hset.
  pose proof (Set_schedule_invariant _ _ _ _ _ _ _ Hvisit Hweekly Hset) as Hs1ok.
  apply Set_schedule_ok in Hset as (_ & Hap & _ & Es1); [|done]. rewrite Hb, Hbr, Hst, Hv in Es1. fold cur in Es1.
  pose proof (sched_version_range db (b, br, st) Hok) as Hr. fold cur in Hr.
  rewrite int64_id in Es1 by (unfold in_int64, min_int64, max_int64, max_int32 in *; lia).
  apply res_bind_ok in Hsave as (db1 & Hsave & [= <- <-]). unfold saveSchedule in Hsave.
  apply res_bind_ok in Hsave as (v & Hv1 & Hsave). apply toInt32_ok in Hv1 as [-> Hv1].
  apply res_bind_ok in Hsave as (e & He & Hsave). apply toInt32_ok in He as [-> _].
  apply res_bind_ok in Hsave as (t & Ht & Hsave).
  apply write_version_ok in Ht as (_ & _ & ->); [|intros old Hold; destruct (ok_sch _ Hok _ _ Hold) as [? _]; lia].
  apply res_bind_ok in Hsave as (rows & Hrows & Hsave). apply res_bind_ok in Hsave as (ovs & Hovs & [= <-]).
  rewrite Es1 in Hv1, Hrows. simpl in Hv1, Hrows. rewrite <- Es1.
  destruct (replace_hours_spec weekly Hweekly) as (rows' & Hrows' & Hload). rewrite Hrows in Hrows'. injection Hrows' as <-.
  split; [done|]. split; [lia|]. split; [by apply (apart_elsewhere_ok db b br st weekly ws)|]. split; [done|]. split; [done|].
  destruct Hs1ok as (_ & _ & Hovok).
  assert (Hf : Forall (λ e : Date * list DayInterval, valid_day e.2 ∧ day_sorted e.2) (order s1)).
  { rewrite Horder. apply Forall_forall. intros [d l] Hin. apply elem_of_map_to_list in Hin. by destruct (Hovok _ _ Hin). }
  exists rows, ovs. split; [done|]. split; [by eapply replace_overrides_ok|]. split.
  - intros Hdates. unfold replace_overrides in Hovs.
    destruct (replace_overrides_spec (order s1) ∅) as (ovs' & Hovs' & Hsel); [| |done|].
    + rewrite Horder. apply Forall_forall. intros [d l] Hin. apply elem_of_map_to_list in Hin. simpl.
      split; [|by destruct (Hovok _ _ Hin)]. rewrite Es1 in Hin. simpl in Hin. rewrite lookup_fmap in Hin.
      destruct (overrides !! d) as [l0|] eqn:E0; [|done]. by apply (Hdates d l0).
    + rewrite Horder. apply NoDup_fst_map_to_list.
    + rewrite Hovs in Hovs'. injection Hovs' as <-. rewrite Hsel, fmap_empty, map_union_empty.
      rewrite (list_to_map_proper (order s1) (map_to_list (sch_overrides s1))), list_to_map_to_list; [done| |done].
      rewrite Horder. apply NoDup_fst_map_to_list.
  - by rewrite Es1.
Qed.

Lemma set_schedule_keeps s' db' :
  Schedules_Update db b br st expected set order = Ok (s', db') →
  db_ok db' ∧ (map_Forall (λ d _, valid_date d) overrides → Schedules_Get db' b br st = Ok s').
Proof using Hok Hweekly Hvisit Horder.
  intros Hu. destruct (set_schedule_effect s' db' Hu) as (_ & Hlt & Hap & Hs' & Es' & rows & ovs & Hrows & Hovs & Hsel & ->).
  pose proof (sched_version_range db (b, br, st) Hok) as Hr. fold cur in Hr. split.
  - constructor; cbn [branch_calendars opening_hours barber_schedules barber_hours schedule_overrides time_off outbox];
      try (by apply Hok).
    + intros k row. rewrite lookup_insert_Some. intros [[<- <-]|[Hne Hk]].
      * rewrite !lookup_insert_eq. simpl. split; [lia|]. split; [by eapply loads_ok|done].
      * rewrite !lookup_insert_ne by done. by apply (ok_sch _ Hok).
    + intros k r. rewrite lookup_insert_Some. intros [[<- <-]|[Hne Hk]]; [by eapply loads_ok|by apply (ok_hours _ Hok k)].
    + intros b1 br1 br2 st1 r1 r2 w1 w2 Hne H1 H2 E1 E2. rewrite lookup_insert_Some in H1. rewrite lookup_insert_Some in H2.
      destruct H1 as [[K1 <-]|[N1 H1]], H2 as [[K2 <-]|[N2 H2]].
      * congruence.
      * injection K1 as <- <- <-. rewrite Hrows in E1. injection E1 as <-. by apply (Hap br2 r2 w2).
      * injection K2 as <- <- <-. rewrite Hrows in E2. injection E2 as <-.
        rewrite Overlaps_sym; [by apply (Hap br1 r1 w1)|by eapply NewWeeklyHours_week_ok|done].
      * by apply (ok_one_shop _ Hok b1 br1 br2 st1 r1 r2).
  - intros Hdates. unfold Schedules_Get, loadSchedule. cbn [barber_schedules barber_hours schedule_overrides].
    rewrite !lookup_insert_eq. simpl. rewrite Hrows. simpl. by rewrite Hsel, Es' by done.
Qed.
End SetSchedule.

(** ** Time off never overlaps *)

Lemma TimeOffs_Add_ok db t db' :
  db_ok db →
  TimeOffs_Add db t = Ok db' ↔
    time_off_checks t = true ∧ time_off db !! off_id t = None ∧
    (∀ id o, time_off db !! id = Some o → excludes t o = false) ∧
    db' = set_time_off db (<[off_id t := t]> (time_off db)).
Proof.
  intros Hok. unfold TimeOffs_Add. destruct (time_off_checks t); cbn [ensure res_bind]; [|split; [done|by intros []]].
  case_bool_decide as Hn; cbn [ensure res_bind]; [|split; [done|by intros (_ & ? & _)]].
  destruct (existsb _ _) eqn:E.
  - split; [done|]. intros (_ & _ & H & _). apply existsb_elem in E as ([id o] & Hin & Ho).
    apply elem_of_map_to_list in Hin. simpl in Ho. by rewrite (H _ _ Hin) in Ho.
  - rewrite existsb_elem_false in E. split; [intros [= <-]|by intros (_ & _ & _ & ->)].
    split; [done|]. split; [done|]. split; [|done]. intros id o Hid. by apply (E (id, o)), elem_of_map_to_list.
Qed.

Lemma excludes_sym t o : excludes t o = excludes o t.
Proof.
  unfold excludes, Shared.Overlaps. rewrite (andb_comm (Before (i_start (off_span t)) _)).
  f_equal. f_equal; apply bool_decide_ext; by split.
Qed.

Lemma set_time_off_keeps db t :
  db_ok db →
  (∀ id o, t !! id = Some o → off_id o = id ∧ nonempty (off_span o)) →
  (∀ id id' o o', id ≠ id' → t !! id = Some o → t !! id' = Some o' → excludes o o' = false) →
  db_ok (set_time_off db t).
Proof. intros Hok H1 H2. constructor; cbn [set_time_off branch_calendars opening_hours barber_schedules barber_hours schedule_overrides time_off outbox]; try done; apply Hok. Qed.

Lemma TimeOffs_Add_keeps db t db' : db_ok db → TimeOffs_Add db t = Ok db' → db_ok db'.
Proof.
  intros Hok (Hc & Hn & Hex & ->)%TimeOffs_Add_ok; [|done]. apply set_time_off_keeps; [done|..].
  - intros id o [[<- <-]|[_ Ho]]%lookup_insert_Some; [|by apply (ok_off _ Hok)]. split; [done|].
    unfold time_off_checks in Hc. rewrite !andb_true_iff in Hc. destruct Hc as ((Hc & _) & _). by apply Z.ltb_lt in Hc.
  - intros id id' o o' Hne [[<- <-]|[N Ho]]%lookup_insert_Some [[<- <-]|[N' Ho']]%lookup_insert_Some; [done|..].
    + by eapply Hex.
    + rewrite excludes_sym. by eapply Hex.
    + by apply (ok_off_apart _ Hok id id').
Qed.

Lemma TimeOffs_Delete_ok db b st id db' :
  TimeOffs_Delete db b st id = Ok db' ↔
    (∃ t, time_off db !! id = Some t ∧ off_business t = b ∧ off_staff t = st) ∧ db' = set_time_off db (delete id (time_off db)).
Proof.
  unfold TimeOffs_Delete. destruct (time_off db !! id) as [t|]; [|split; [done|by intros [(? & ? & _) _]]].
  destruct (bool_decide (off_business t = b) && bool_decide (off_staff t = st)) eqn:E.
  - rewrite andb_true_iff, !bool_decide_eq_true in E. split; [intros [= <-]; split; [by exists t|done]|by intros [_ ->]].
  - split; [done|]. intros [(t' & [= <-] & Hb & Hs) _]. rewrite andb_false_iff, !bool_decide_eq_false in E. tauto.
Qed.

Lemma TimeOffs_Delete_keeps db b st id db' : db_ok db → TimeOffs_Delete db b st id = Ok db' → db_ok db'.
Proof.
  intros Hok (_ & ->)%TimeOffs_Delete_ok. apply set_time_off_keeps; [done|..].
  - intros id' o Ho. apply lookup_delete_Some in Ho as [_ Ho]. by apply (ok_off _ Hok).
  - intros i j o o' Hne [_ Ho]%lookup_delete_Some [_ Ho']%lookup_delete_Some. by apply (ok_off_apart _ Hok i j).
Qed.

(** What [List] returns: the person's stretches that end later, by start. *)
Lemma TimeOffs_List_ok db b st since :
  db_ok db → ∃ l, TimeOffs_List db b st since = Ok l ∧
    (∀ t, t ∈ l ↔ time_off db !! off_id t = Some t ∧ off_business t = b ∧ off_staff t = st ∧ since < i_end (off_span t)).
Proof.
  intros Hok. unfold TimeOffs_List.
  set (rows := sort_by _ _).
  assert (Hrows : ∀ t, t ∈ rows ↔ time_off db !! off_id t = Some t ∧ off_business t = b ∧ off_staff t = st ∧ since < i_end (off_span t)).
  { intros t. unfold rows. rewrite elem_of_sort_by, list_elem_of_filter, list_elem_of_fmap. split.
    - intros [H ([id o] & -> & Ho%elem_of_map_to_list)]. simpl in *. destruct (ok_off _ Hok _ _ Ho) as [-> _]. tauto.
    - intros [H ?]. split; [done|]. exists (off_id t, t). split; [done|]. by apply elem_of_map_to_list. }
  exists rows. split; [|done]. clearbody rows. apply res_mapM_ok.
  assert (Hall : ∀ t, t ∈ rows → off_business t = b ∧ off_staff t = st ∧ nonempty (off_span t)).
  { intros t Ht. apply Hrows in Ht as (Ht & ? & ? & _). by destruct (ok_off _ Hok _ _ Ht). }
  clear Hrows. induction rows as [|t rows IH]; constructor; [|apply IH; intros; apply Hall; by right].
  destruct (Hall t ltac:(by left)) as (<- & <- & Hn). unfold NewInterval, After. rewrite (proj2 (Z.ltb_lt _ _)) by done.
  by destruct t as [? ? ? [] ? ?].
Qed.
