(* ===== verification/SchedApp.v ===== *)
(** * Scheduling's use cases (src/internal/scheduling/app)

    The handlers of app.go, schedules.go and windows.go over the tables of
    SchedStore, and business's side as an interface, [Access]. The steps of
    the system are the handlers that change state; the theorems at the end
    hold in every state they can reach. *)
From S2P Require Import Prelude GoTime Shared SchedWeekly SchedDate Spans SchedCalendar SchedWindows SchedStore.
Open Scope Z_scope.

Inductive Role := RoleManager | RoleBarber.

Record Member := MkMember {
  mem_ID : StaffID;
  mem_Owner : bool;
  mem_Manager : bool;
  mem_Branches : list BranchID }.

Definition WorksAt (m : Member) (branch : BranchID) : bool := mem_Owner m || bool_decide (branch ∈ mem_Branches m).

Definition sharesBranchWith (m o : Member) : bool := existsb (WorksAt m) (mem_Branches o).

(** What scheduling asks business. *)
Class Access := {
  acc_Branch : UserID → BusinessID → BranchID → Role → res sched_error unit;
  acc_MemberOf : UserID → BusinessID → res sched_error Member;
  acc_StaffMember : BusinessID → StaffID → res sched_error Member;
  acc_StaffAtBranch : BusinessID → BranchID → list StaffID → res sched_error unit;
  acc_BranchLocation : BusinessID → BranchID → res sched_error Location }.

Record BranchRef := MkBranchRef { br_Actor : UserID; br_Business : BusinessID; br_Branch : BranchID }.
Record StaffRef := MkStaffRef { sr_Branch : BranchRef; sr_Staff : StaffID }.

Section Handlers.
Context `{Access}.

(** ** Branch calendars (app.go) *)

Definition OpeningHours_handler (db : SchedDB) (ref : BranchRef) : res sched_error BranchCalendar :=
  let! _ := acc_Branch (br_Actor ref) (br_Business ref) (br_Branch ref) RoleBarber in
  Calendars_Get db (br_Business ref) (br_Branch ref).

Definition SetOpeningHours_handler (db : SchedDB) (now : time) (ref : BranchRef) (expected : Z) (l : list WeeklyInterval)
  : res sched_error (BranchCalendar * SchedDB) :=
  let! _ := acc_Branch (br_Actor ref) (br_Business ref) (br_Branch ref) RoleManager in
  let! hours := NewWeeklyHours l in
  Calendars_Update db (br_Business ref) (br_Branch ref) expected (λ c, Ok (SetOpeningHours c hours now)).

(** ** Who may read and change schedules (schedules.go) *)

Definition canRead (ref : StaffRef) : res sched_error unit :=
  let b := sr_Branch ref in
  let! _ := acc_Branch (br_Actor b) (br_Business b) (br_Branch b) RoleBarber in
  let! target := acc_StaffMember (br_Business b) (sr_Staff ref) in
  if negb (WorksAt target (br_Branch b)) then Err ErrNotFound else Ok tt.

Definition canWrite (ref : StaffRef) : res sched_error unit :=
  let b := sr_Branch ref in
  let! _ := canRead ref in
  let! me := acc_MemberOf (br_Actor b) (br_Business b) in
  if bool_decide (mem_ID me = sr_Staff ref) then Ok tt
  else acc_Branch (br_Actor b) (br_Business b) (br_Branch b) RoleManager.

Definition canManageTimeOff (actor : UserID) (business : BusinessID) (staff : StaffID) : res sched_error unit :=
  let! me := acc_MemberOf actor business in
  let! target := acc_StaffMember business staff in
  if bool_decide (mem_ID me = mem_ID target) || mem_Owner me then Ok tt
  else if mem_Manager me && sharesBranchWith me target then Ok tt
  else Err ErrForbidden.

(** ** Schedules *)

Definition Schedule_handler (db : SchedDB) (ref : StaffRef) : res sched_error BarberSchedule :=
  let! _ := canRead ref in
  Schedules_Get db (br_Business (sr_Branch ref)) (br_Branch (sr_Branch ref)) (sr_Staff ref).

(** [visit] and [order]: the orders in which Go visits the two maps of
    overrides. *)
Definition SetSchedule_handler (db : SchedDB) (now : time) (ref : StaffRef) (expected : Z) (l : list WeeklyInterval)
    (overrides : gmap Date (list DayInterval)) (visit : list (Date * list DayInterval))
    (order : BarberSchedule → list (Date * list DayInterval)) : res sched_error (BarberSchedule * SchedDB) :=
  let! _ := canWrite ref in
  let! weekly := NewWeeklyHours l in
  Schedules_Update db (br_Business (sr_Branch ref)) (br_Branch (sr_Branch ref)) (sr_Staff ref) expected
    (λ s elsewhere, Set_schedule s weekly overrides visit elsewhere now) order.

(** ** Time off *)

Definition TimeOff_handler (db : SchedDB) (now : time) (actor : UserID) (business : BusinessID) (staff : StaffID)
  : res sched_error (list TimeOff) :=
  let! _ := canManageTimeOff actor business staff in
  TimeOffs_List db business staff now.

Definition AddTimeOff_handler (db : SchedDB) (now : time) (newID : TimeOffID) (actor : UserID) (business : BusinessID) (staff : StaffID)
    (from to : time) (reason : string) : res sched_error (TimeOff * SchedDB) :=
  let! _ := canManageTimeOff actor business staff in
  let! t := NewTimeOff newID business staff from to reason now in
  let! db := TimeOffs_Add db t in
  Ok (t, db).

Definition DeleteTimeOff_handler (db : SchedDB) (actor : UserID) (business : BusinessID) (staff : StaffID) (id : TimeOffID)
  : res sched_error SchedDB :=
  let! _ := canManageTimeOff actor business staff in
  TimeOffs_Delete db business staff id.

(** ** Working windows (windows.go) *)

Definition MaxWindowsRange : Duration := 62 * 24 * Hour.

(** [None] inside is the panic of [mustSpan]. *)
Definition windows_of (db : SchedDB) (business : BusinessID) (branch : BranchID) (loc : Location) (opening : WeeklyHours)
    (from to : time) (s : StaffID) : res sched_error (option (list Interval)) :=
  let! schedule := Schedules_Get db business branch s in
  let! offs := TimeOffs_List db business s from in
  Ok (WorkingWindows (MkWindowsInput loc opening ∅ schedule (off_span <$> offs)) from to).

Definition compute (db : SchedDB) (business : BusinessID) (branch : BranchID) (staff : list StaffID) (from to : time)
  : res sched_error (gmap StaffID (option (list Interval)) * Location) :=
  check! negb (negb (After to from) || (MaxWindowsRange <? Sub to from)) else ErrInvalidRange in
  let! _ := acc_StaffAtBranch business branch staff in
  let! loc := acc_BranchLocation business branch in
  let! cal := Calendars_Get db business branch in
  let! out := res_foldM (λ out s, let! w := windows_of db business branch loc (cal_hours cal) from to s in Ok (<[s := w]> out)) ∅ staff in
  Ok (out, loc).

Definition ForStaff (db : SchedDB) (ref : StaffRef) (from to : time) : res sched_error (option (list Interval) * Location) :=
  let! _ := canRead ref in
  let! r := compute db (br_Business (sr_Branch ref)) (br_Branch (sr_Branch ref)) [sr_Staff ref] from to in
  Ok (default (Some []) (r.1 !! sr_Staff ref), r.2).

Definition Windows (db : SchedDB) (business : BusinessID) (branch : BranchID) (staff : list StaffID) (from to : time)
  : res sched_error (gmap StaffID (option (list Interval))) :=
  let! r := compute db business branch staff from to in Ok r.1.

Definition Readiness (db : SchedDB) (business : BusinessID) (branch : BranchID) (staff : list StaffID)
  : res sched_error (bool * list StaffID) :=
  let! cal := Calendars_Get db business branch in
  let! scheduled := res_foldM (λ out s,
    let! schedule := Schedules_Get db business branch s in
    Ok (if IsClosed (sch_weekly schedule) then out else out ++ [s])) [] staff in
  Ok (negb (IsClosed (cal_hours cal)), scheduled).
End Handlers.

(** ** The steps of the system *)

(** One successful handler call; [Access] may answer differently at each step. *)
Inductive sched_step (db db' : SchedDB) : Prop :=
| step_hours (A : Access) now ref expected l cal :
    SetOpeningHours_handler db now ref expected l = Ok (cal, db') → sched_step db db'
| step_schedule (A : Access) now ref expected l overrides visit order s :
    visit ≡ₚ map_to_list overrides → (∀ s, order s ≡ₚ map_to_list (sch_overrides s)) →
    SetSchedule_handler db now ref expected l overrides visit order = Ok (s, db') → sched_step db db'
| step_time_off (A : Access) now newID actor business staff from to reason t :
    AddTimeOff_handler db now newID actor business staff from to reason = Ok (t, db') → sched_step db db'
| step_delete_time_off (A : Access) actor business staff id :
    DeleteTimeOff_handler db actor business staff id = Ok db' → sched_step db db'.

Definition sched_reachable : SchedDB → Prop := rtc sched_step empty_db.

Lemma sched_step_keeps db db' : sched_step db db' → db_ok db → db_ok db'.
Proof.
  intros Hstep Hok. destruct Hstep as [A now ref expected l cal H|A now ref expected l ovs visit order s Hv Ho H
    |A now newID actor b st from to reason t H|A actor b st id H].
  - unfold SetOpeningHours_handler in H. apply res_bind_ok in H as ([] & _ & H). apply res_bind_ok in H as (w & Hw & H).
    eapply set_hours_keeps; [done| |done]. by eapply NewWeeklyHours_week_ok.
  - unfold SetSchedule_handler in H. apply res_bind_ok in H as ([] & _ & H). apply res_bind_ok in H as (w & Hw & H).
    eapply set_schedule_keeps; [done| |done|done|exact H]. by eapply NewWeeklyHours_week_ok.
  - unfold AddTimeOff_handler in H. apply res_bind_ok in H as ([] & _ & H). apply res_bind_ok in H as (t' & _ & H).
    apply res_bind_ok in H as (db1 & H & [= _ <-]). by eapply TimeOffs_Add_keeps.
  - unfold DeleteTimeOff_handler in H. apply res_bind_ok in H as ([] & _ & H). by eapply TimeOffs_Delete_keeps.
Qed.

Lemma sched_reachable_ok db : sched_reachable db → db_ok db.
Proof. unfold sched_reachable. intros H. eapply (rtc_ind_r (λ db, db_ok db)); [apply empty_db_ok| |done]. intros. by eapply sched_step_keeps. Qed.

(** ** Theorems *)

Lemma one_shop_rows db b br br' st s s' :
  db_ok db → br ≠ br' → Schedules_Get db b br st = Ok s → Schedules_Get db b br' st = Ok s' →
  SchedWeekly.Overlaps (sch_weekly s) (sch_weekly s') = false.
Proof.
  intros Hok Hne Hs Hs'.
  assert (Hload : ∀ x y, Schedules_Get db b x st = Ok y → intervals (sch_weekly y) = [] ∨
    ∃ rows, barber_hours db !! (b, x, st) = Some rows ∧ NewWeeklyHours (select_hours rows) = Ok (sch_weekly y)).
  { intros x y. unfold Schedules_Get, loadSchedule. destruct (barber_schedules db !! (b, x, st)); [|intros [= <-]; by left].
    destruct (barber_hours db !! (b, x, st)) as [rows|]; simpl.
    - intros (w & Hw & [= <-])%res_bind_ok. right. by exists rows.
    - intros [= <-]. by left. }
  destruct (Hload _ _ Hs) as [E|(rows & Hr & Hw)]; [unfold SchedWeekly.Overlaps; by rewrite E|].
  destruct (Hload _ _ Hs') as [E|(rows' & Hr' & Hw')].
  - unfold SchedWeekly.Overlaps. rewrite E. by apply existsb_elem_false.
  - by eapply (ok_one_shop _ Hok b br br' st).
Qed.

(** C9. In every state the handlers can reach, whoever calls them and
    whatever business answers: every calendar and schedule loads from its rows
    and holds valid hours; no person's templates at two branches share a
    minute of the week; no two stretches of one person's time off share an
    instant; and each branch's opening-hours events carry the versions 1, 2,
    3, ... up to the saved one. *)
Theorem scheduling_invariants db :
  sched_reachable db →
  (∀ b br, ∃ cal, Calendars_Get db b br = Ok cal ∧ week_ok (cal_hours cal) ∧
     published_versions db (b, br) = seqZ 1 (cal_version cal)) ∧
  (∀ b br st, ∃ s, Schedules_Get db b br st = Ok s ∧ week_ok (sch_weekly s)) ∧
  (∀ b br br' st s s' i j m, br ≠ br' → Schedules_Get db b br st = Ok s → Schedules_Get db b br' st = Ok s' →
     i ∈ intervals (sch_weekly s) → j ∈ intervals (sch_weekly s') → ¬ (covers_minute i m ∧ covers_minute j m)) ∧
  (∀ id id' t t' x, id ≠ id' → time_off db !! id = Some t → time_off db !! id' = Some t' →
     off_business t = off_business t' → off_staff t = off_staff t' → ¬ (in_span x (off_span t) ∧ in_span x (off_span t'))).
Proof.
  intros Hok%sched_reachable_ok. split; [|split; [|split]].
  - intros b br. destruct (Calendars_Get_ok db b br Hok) as (cal & HG & _ & _ & Hv & _ & Hw). exists cal. split; [done|]. split; [done|].
    rewrite Hv. by apply ok_events.
  - intros b br st. destruct (Schedules_Get_ok db b br st Hok) as (s & HG & _ & _ & _ & _ & Hw & _). by exists s.
  - intros b br br' st s s' i j m Hne Hs Hs' Hi Hj.
    destruct (Schedules_Get_ok db b br st Hok) as (s0 & HG & _ & _ & _ & _ & Hw & _). rewrite Hs in HG. injection HG as <-.
    destruct (Schedules_Get_ok db b br' st Hok) as (s1 & HG & _ & _ & _ & _ & Hw' & _). rewrite Hs' in HG. injection HG as <-.
    eapply Overlaps_false_minutes; [exact Hw|exact Hw'|by eapply one_shop_rows|done|done].
  - intros id id' t t' x Hne Ht Ht' Eb Es Hx. pose proof (ok_off_apart _ Hok id id' t t' Hne Ht Ht') as Hex.
    unfold excludes in Hex. rewrite !bool_decide_eq_true_2 in Hex by done. cbn [andb] in Hex.
    rewrite <- not_true_iff_false, Overlaps_spec in Hex; [apply Hex; by exists x|..];
      [by destruct (ok_off _ Hok _ _ Ht)|by destruct (ok_off _ Hok _ _ Ht')].
Qed.

(** Setting opening hours, by a caller business lets, is optimistic
    concurrency: with the version the calendar is at it replaces the hours,
    saves the next version, publishes exactly one event with both, reads back
    as saved, touches no other branch, and makes the same request fail from
    then on; with any other version it is a version conflict. *)
Theorem set_opening_hours_versioned {A : Access} db now ref expected l :
  let b := br_Business ref in
  let br := br_Branch ref in
  sched_reachable db → acc_Branch (br_Actor ref) b br RoleManager = Ok tt → valid_week l →
  ∃ before, Calendars_Get db b br = Ok before ∧
  match SetOpeningHours_handler db now ref expected l with
  | Ok (cal, db') =>
      expected = cal_version before ∧ cal_version cal = cal_version before + 1 ∧
      intervals (cal_hours cal) ≡ₚ l ∧
      Calendars_Get db' b br = Ok (RehydrateBranchCalendar b br (cal_hours cal) (cal_version cal) (cal_updatedAt cal)) ∧
      outbox db' = outbox db ++ [MkHoursChanged b br (cal_updatedAt cal) (cal_version cal) (cal_hours cal)] ∧
      (∀ b' br', (b', br') ≠ (b, br) → Calendars_Get db' b' br' = Calendars_Get db b' br') ∧
      (∀ now', SetOpeningHours_handler db' now' ref expected l = Err ErrVersionConflict)
  | Err ErrVersionConflict => expected ≠ cal_version before
  | Err e => e = ErrStorage ∧ cal_version before = max_int32
  end.
Proof.
  intros b br Hreach Hacc Hl. pose proof (sched_reachable_ok db Hreach) as Hok.
  apply NewWeeklyHours_is_ok in Hl. destruct (NewWeeklyHours l) as [hours|] eqn:Ew; [|done].
  pose proof (NewWeeklyHours_week_ok _ _ Ew) as Hw. apply NewWeeklyHours_ok in Ew as HE. destruct HE as [_ Hsort].
  destruct (Calendars_Get_ok db b br Hok) as (before & HG & _ & _ & Hv & _). exists before. split; [done|].
  assert (Hh : ∀ d n, SetOpeningHours_handler d n ref expected l = Calendars_Update d b br expected (λ c, Ok (SetOpeningHours c hours n))).
  { intros. unfold SetOpeningHours_handler. fold b br. by rewrite Hacc, Ew. }
  rewrite Hh. pose proof (set_hours_effect db b br expected hours now Hok Hw) as He. cbv zeta in He. rewrite <- Hv in He.
  destruct (Calendars_Update _ _ _ _ _) as [[cal db']|e] eqn:Eu; [|by destruct He as [[-> ?]|(-> & ? & ?)]].
  pose proof (set_hours_keeps _ _ _ _ _ _ _ _ Hok Hw Eu) as [Hok' HG'].
  destruct He as (-> & Hlt & -> & rows & Hrows & Edb). cbn [cal_version cal_hours cal_updatedAt] in *.
  split; [done|]. split; [done|]. split; [rewrite Hsort; apply sort_by_perm|]. split; [done|]. split; [by rewrite Edb|]. split.
  - intros b' br' Hne. rewrite Edb. unfold Calendars_Get, loadCalendar. cbn [branch_calendars opening_hours]. by rewrite !lookup_insert_ne.
  - intros now'. rewrite Hh. pose proof (set_hours_effect db' b br (cal_version before) hours now' Hok' Hw) as He. cbv zeta in He.
    destruct (Calendars_Get_ok db' b br Hok') as (c2 & HG2 & _ & _ & Hv2 & _). rewrite HG' in HG2. injection HG2 as <-.
    cbn [RehydrateBranchCalendar cal_version] in Hv2. rewrite <- Hv2 in He.
    destruct (Calendars_Update db' _ _ _ _) as [[]|]; [destruct He as (? & _); lia|].
    destruct He as [[-> ?]|(_ & ? & _)]; [done|lia].
Qed.

(** When a person can work at a branch, said from the tables alone. *)
Definition available (db : SchedDB) (loc : Location) (b : BusinessID) (br : BranchID) (st : StaffID) (t : time) : Prop :=
  ∃ cal s, Calendars_Get db b br = Ok cal ∧ Schedules_Get db b br st = Ok s ∧
    open_at (MkWindowsInput loc (cal_hours cal) ∅ s []) valid_date t ∧
    works_at (MkWindowsInput loc (cal_hours cal) ∅ s []) valid_date t ∧
    ¬ ∃ id o, time_off db !! id = Some o ∧ off_business o = b ∧ off_staff o = st ∧ in_span t (off_span o).

Lemma windows_of_spec db b br st off cal from to :
  db_ok db → Calendars_Get db b br = Ok cal →
  ∃ r, windows_of db b br (fixed_zone off) (cal_hours cal) from to st = Ok (Some r) ∧ normalized r ∧
    ∀ t, covered t r ↔ from ≤ t < to ∧ available db (fixed_zone off) b br st t.
Proof.
  intros Hok HG. destruct (Calendars_Get_ok db b br Hok) as (cal0 & HG0 & _ & _ & _ & _ & Hw). rewrite HG in HG0. injection HG0 as <-.
  destruct (Schedules_Get_ok db b br st Hok) as (s & HS & _ & _ & _ & _ & Hsw & Hso).
  destruct (TimeOffs_List_ok db b st from Hok) as (offs & HL & Hoffs).
  set (inp := MkWindowsInput (fixed_zone off) (cal_hours cal) ∅ s (off_span <$> offs)).
  assert (Hin : input_ok inp).
  { split; [done|]. split; [done|]. simpl. apply Forall_fmap, Forall_forall. intros o Ho. apply Hoffs in Ho as (Ho & _).
    by destruct (ok_off _ Hok _ _ Ho). }
  destruct (WorkingWindows_fixed inp off from to Hin eq_refl) as (r & Hr & Hn & Hc).
  exists r. unfold windows_of. rewrite HS, HL. cbn [res_bind]. fold inp. rewrite Hr. split; [done|]. split; [done|].
  intros t. rewrite Hc. apply and_iff_compat_l_when. intros Ht. unfold works_anytime, available. cbn [in_Closed in_TimeOff inp].
  assert (Hoff : covered t (off_span <$> offs) ↔ ∃ id o, time_off db !! id = Some o ∧ off_business o = b ∧ off_staff o = st ∧ in_span t (off_span o)).
  { unfold covered. split.
    - intros (i & (o & -> & Ho)%list_elem_of_fmap & Hi). apply Hoffs in Ho as (Ho & ? & ? & _). by exists (off_id o), o.
    - intros (id & o & Ho & Hb & Hst & Hi). exists (off_span o). split; [|done]. apply list_elem_of_fmap. exists o. split; [done|].
      apply Hoffs. destruct (ok_off _ Hok _ _ Ho) as [-> _]. split; [done|]. split; [done|]. split; [done|]. unfold in_span in Hi. lia. }
  rewrite Hoff. split.
  - intros (? & ? & _ & ?). by exists cal, s.
  - intros (cal' & s' & HG' & HS' & ? & ? & ?). rewrite HG in HG'. rewrite HS in HS'. injection HG' as <-. injection HS' as <-.
    split; [done|]. split; [done|]. split; [|done]. by rewrite lookup_empty.
Qed.

Lemma Windows_ok {A : Access} db b br staff from to off :
  db_ok db → from < to → to - from ≤ 62 * 86400 * Second →
  acc_StaffAtBranch b br staff = Ok tt → acc_BranchLocation b br = Ok (fixed_zone off) →
  ∃ out, Windows db b br staff from to = Ok out ∧
    ∀ st, match out !! st with
          | None => st ∉ staff
          | Some None => False
          | Some (Some r) => st ∈ staff ∧ normalized r ∧ ∀ t, covered t r ↔ from ≤ t < to ∧ available db (fixed_zone off) b br st t
          end.
Proof.
  intros Hok Hlt Hlen Hstaff Hloc.
  destruct (Calendars_Get_ok db b br Hok) as (cal & HG & _). unfold Windows, compute, After.
  rewrite (proj2 (Z.ltb_lt _ _)) by done.
  assert (Hmax : (MaxWindowsRange <? Sub to from) = false).
  { apply Sub_le_bound; [vm_compute; split; [intros ?|]; congruence|lia|]. change MaxWindowsRange with (62 * 86400 * Second). lia. }
  rewrite Hmax. cbn [negb orb ensure res_bind]. rewrite Hstaff, Hloc, HG. cbn [res_bind].
  set (f := λ out s, let! w := windows_of db b br (fixed_zone off) (cal_hours cal) from to s in Ok (<[s := w]> out)).
  set (good := λ st (x : option (list Interval)), match x with None => False | Some r => normalized r ∧ ∀ t, covered t r ↔ from ≤ t < to ∧ available db (fixed_zone off) b br st t end).
  assert (Hf : ∀ l m, ∃ m', res_foldM f m l = Ok m' ∧ ∀ st, (st ∈ l → ∃ x, m' !! st = Some x ∧ good st x) ∧ (st ∉ l → m' !! st = m !! st)).
  { induction l as [|s l IH]; intros m; cbn [res_foldM].
    - exists m. split; [done|]. intros st. split; [by intros ?%not_elem_of_nil|done].
    - unfold f at 1. destruct (windows_of_spec db b br s off cal from to Hok HG) as (r & -> & Hg). cbn [res_bind].
      destruct (IH (<[s := Some r]> m)) as (m' & -> & Hm'). exists m'. split; [done|]. intros st. destruct (Hm' st) as [H1 H2]. split.
      + intros Hst. destruct (decide (st ∈ l)); [by apply H1|]. apply elem_of_cons in Hst as [->|]; [|done].
        exists (Some r). split; [|done]. by rewrite H2, lookup_insert_eq.
      + intros [Hne Hni]%not_elem_of_cons. by rewrite H2, lookup_insert_ne. }
  destruct (Hf staff ∅) as (m & -> & Hm). cbn [res_bind]. exists m. split; [done|]. intros st. destruct (Hm st) as [H1 H2].
  destruct (decide (st ∈ staff)) as [Hin|Hin].
  - destruct (H1 Hin) as ([r|] & -> & Hg); [by split|done].
  - by rewrite H2.
Qed.

(** C8. The question booking asks: for staff of the branch, over at most 62
    days, in a zone without clock changes, every person gets an answer - never
    an error, never the panic - as sorted, separated spans holding exactly the
    instants of the range when the person is available: opening hours and
    their own schedule both, and no time off of theirs, past or coming. *)
Theorem windows_answer {A : Access} db b br staff from to off :
  sched_reachable db → from < to → to - from ≤ 62 * 86400 * Second →
  acc_StaffAtBranch b br staff = Ok tt → acc_BranchLocation b br = Ok (fixed_zone off) →
  ∃ out, Windows db b br staff from to = Ok out ∧
    ∀ st, match out !! st with
          | None => st ∉ staff
          | Some None => False
          | Some (Some r) => st ∈ staff ∧ normalized r ∧ ∀ t, covered t r ↔ from ≤ t < to ∧ available db (fixed_zone off) b br st t
          end.
Proof. intros Hreach. apply Windows_ok. by apply sched_reachable_ok. Qed.

(** ** The theorems on a concrete shop *)

(** A business that lets everyone in, in Riyadh. *)
Definition open_shop : Access := {|
  acc_Branch _ _ _ _ := Ok tt;
  acc_MemberOf _ _ := Ok (MkMember (MkID 3) true false []);
  acc_StaffMember _ st := Ok (MkMember st true false []);
  acc_StaffAtBranch _ _ _ := Ok tt;
  acc_BranchLocation _ _ := Ok riyadh |}.

Definition shop : BranchRef := MkBranchRef (MkID 9) (MkID 1) (MkID 2).
Definition salem : StaffRef := MkStaffRef shop (MkID 3).
Definition in_order (s : BarberSchedule) : list (Date * list DayInterval) := map_to_list (sch_overrides s).

Definition shop_after_hours : SchedDB :=
  match @SetOpeningHours_handler open_shop empty_db 0 shop 0 [MkWeekly 4 960 600] with Ok r => r.2 | Err _ => empty_db end.
Definition shop_after_schedule : SchedDB :=
  match @SetSchedule_handler open_shop shop_after_hours 0 salem 0 [MkWeekly 4 1080 540] ∅ [] in_order with Ok r => r.2 | Err _ => empty_db end.
Definition shop_db : SchedDB :=
  match @AddTimeOff_handler open_shop shop_after_schedule 0 (MkID 8) (MkID 9) (MkID 1) (MkID 3) (riyadh_at 1 1200) (riyadh_at 1 1260) "" with
  | Ok r => r.2 | Err _ => empty_db end.

Lemma shop_reachable : sched_reachable shop_db.
Proof.
  assert (E1 : ∃ c, @SetOpeningHours_handler open_shop empty_db 0 shop 0 [MkWeekly 4 960 600] = Ok (c, shop_after_hours)) by (vm_compute; eauto).
  assert (E2 : ∃ s, @SetSchedule_handler open_shop shop_after_hours 0 salem 0 [MkWeekly 4 1080 540] ∅ [] in_order = Ok (s, shop_after_schedule))
    by (vm_compute; eauto).
  assert (E3 : ∃ t, @AddTimeOff_handler open_shop shop_after_schedule 0 (MkID 8) (MkID 9) (MkID 1) (MkID 3) (riyadh_at 1 1200) (riyadh_at 1 1260) "" =
    Ok (t, shop_db)) by (vm_compute; eauto).
  destruct E1 as [c E1], E2 as [s E2], E3 as [t E3].
  eapply rtc_l; [by eapply (step_hours _ _ open_shop)|].
  eapply rtc_l; [eapply (step_schedule _ _ open_shop); [| |exact E2]; done|].
  eapply rtc_l; [by eapply (step_time_off _ _ open_shop)|]. apply rtc_refl.
Qed.

Lemma scheduling_invariants_witness :
  sched_reachable shop_db ∧ ∃ s, Schedules_Get shop_db (MkID 1) (MkID 2) (MkID 3) = Ok s ∧ intervals (sch_weekly s) = [MkWeekly 4 1080 540].
Proof.
  split; [exact shop_reachable|].
  destruct (scheduling_invariants shop_db shop_reachable) as (_ & Hs & _).
  destruct (Hs (MkID 1) (MkID 2) (MkID 3)) as (s & Hg & _). exists s. split; [exact Hg|].
  revert Hg. vm_compute. intros [= <-]. reflexivity.
Defined.

(** From version 1 a second change succeeds, and the same request again does not. *)
Lemma set_opening_hours_versioned_witness :
  ∃ cal db', @SetOpeningHours_handler open_shop shop_db 0 shop 1 [MkWeekly 5 1020 300] = Ok (cal, db') ∧ cal_version cal = 2 ∧
    @SetOpeningHours_handler open_shop db' 0 shop 1 [MkWeekly 5 1020 300] = Err ErrVersionConflict.
Proof.
  assert (Hv : valid_week [MkWeekly 5 1020 300]) by (apply NewWeeklyHours_is_ok; reflexivity).
  destruct (@set_opening_hours_versioned open_shop shop_db 0 shop 1 [MkWeekly 5 1020 300] shop_reachable eq_refl Hv) as (before & HG & H).
  assert (Hb : cal_version before = 1) by (revert HG; vm_compute; intros [= <-]; reflexivity).
  destruct (SetOpeningHours_handler _ _ _ _ _) as [[cal db']|e] eqn:E.
  - destruct H as (_ & Hc & _ & _ & _ & _ & Hn). exists cal, db'. split; [reflexivity|]. split; [lia|apply Hn].
  - exfalso. revert E. vm_compute. discriminate.
Defined.

Lemma windows_answer_witness :
  ∃ out, @Windows open_shop shop_db (MkID 1) (MkID 2) [MkID 3] (riyadh_at 1 0) (riyadh_at 3 0) = Ok out ∧
    out !! MkID 3 = Some (Some thursday_windows) ∧ available shop_db riyadh (MkID 1) (MkID 2) (MkID 3) (riyadh_at 1 1080).
Proof.
  destruct (@windows_answer open_shop shop_db (MkID 1) (MkID 2) [MkID 3] (riyadh_at 1 0) (riyadh_at 3 0) 10800 shop_reachable)
    as (out & Hout & Hall); [reflexivity|vm_compute; congruence|reflexivity|reflexivity|].
  exists out. split; [exact Hout|]. specialize (Hall (MkID 3)).
  assert (E : out !! MkID 3 = Some (Some thursday_windows)) by (revert Hout; vm_compute; intros [= <-]; reflexivity).
  split; [exact E|]. rewrite E in Hall. destruct Hall as (_ & _ & Hc). apply Hc. 
  exists (MkInterval (riyadh_at 1 1080) (riyadh_at 1 1200)). split; [left|]. unfold in_span. split; vm_compute; congruence.
Defined.
