(* ===== verification/BookSlots.v ===== *)
(** * Days and slots (src/internal/booking/domain/day.go, availability.go)

    When a booking could start: instants of one local day on the branch's
    clock grid, for which a barber has a working window around the whole
    booking and no appointment in it. *)
From S2P Require Import Prelude GoTime GoText GoDate Shared SchedDate Spans.
Open Scope Z_scope.

(** ** Days (day.go) *)

(** A [domain.Day] has the fields of scheduling's [Date], and stays its own type. *)
Record Day := MkDayOf { day_date : Date }.

#[export] Instance Day_eq_dec : EqDecision Day.
Proof. solve_decision. Defined.

Inductive day_error := ErrInvalidDay.

Definition DayOf (loc : Location) (t : time) : Day := MkDayOf (date_of_triple (local_date loc t)).

Definition ParseDay (s : string) : res day_error Day :=
  match parse_date_only s with
  | None => Err ErrInvalidDay
  | Some p => Ok (MkDayOf (date_of_triple p))
  end.

Definition Day_String (d : Day) : string :=
  format_date (Year (day_date d)) (Month (day_date d)) (DayOfMonth (day_date d)).

Definition Day_Start (d : Day) (loc : Location) : time :=
  date (Year (day_date d)) (Month (day_date d)) (DayOfMonth (day_date d)) 0 0 0 0 loc.

Definition Day_AddDays (d : Day) (n : Z) : Day :=
  DayOf UTC (date (Year (day_date d)) (Month (day_date d)) (DayOfMonth (day_date d) + n) 0 0 0 0 UTC).

Definition Day_Compare (d o : Day) : Z :=
  if Day_Start d UTC <? Day_Start o UTC then -1 else if Day_Start o UTC <? Day_Start d UTC then 1 else 0.

(** ** Slots (availability.go) *)

Definition MaxServices : nat := 5.

Record Candidate := MkCandidate {
  cand_Staff : StaffID;
  cand_Length : Duration;
  cand_Windows : list Interval;
  cand_Busy : list Interval }.

Record SlotRules := MkSlotRules {
  rule_Location : Location;
  rule_Interval : Duration;
  rule_Earliest : time;
  rule_Latest : time }.

Record Slot := MkSlot { slot_Start : time; slot_Staff : list StaffID }.

Definition CanTake (c : Candidate) (start : time) : bool :=
  match NewInterval start (GoTime.Add start (cand_Length c)) with
  | Err _ => false
  | Ok span =>
      if negb (existsb (λ w, Covers w span) (cand_Windows c)) then false
      else negb (existsb (λ b, Overlaps b span) (cand_Busy c))
  end.

Definition OnGrid (t : time) (loc : Location) (interval : Duration) : bool :=
  let step := Z.quot interval Minute in
  (0 <? step) && (local_second loc t =? 0) && (nanosecond t =? 0)
  && (Z.rem (local_hour loc t * 60 + local_minute loc t) step =? 0).

(** The iterator's loop, as the list of what it yields; [None] when the fuel
    runs out. *)
Fixpoint grid_loop (fuel : nat) (t end_ : time) (loc : Location) (step : Z) : option (list time) :=
  if Before t end_ then
    match fuel with
    | O => None
    | S fuel =>
        rest ← grid_loop fuel (GoTime.Add t Minute) end_ loc step;
        Some (if OnGrid t loc (int64 (step * Minute)) then t :: rest else rest)
    end
  else Some [].

(** One step per minute of the day. *)
Definition grid_fuel (start end_ : time) : nat := Z.to_nat ((end_ - start) / Minute + 1).

Definition grid (d : Day) (loc : Location) (step : Z) : option (list time) :=
  let start := Day_Start d loc in
  let end_ := Day_Start (Day_AddDays d 1) loc in
  grid_loop (grid_fuel start end_) start end_ loc step.

Definition free_staff (candidates : list Candidate) (start : time) : list StaffID :=
  cand_Staff <$> filter (λ c, CanTake c start = true) candidates.

Definition slot_at (r : SlotRules) (candidates : list Candidate) (start : time) : option Slot :=
  if Before start (rule_Earliest r) || negb (Before start (rule_Latest r)) then None
  else match free_staff candidates start with
       | [] => None
       | free => Some (MkSlot start free)
       end.

Definition Slots (d : Day) (r : SlotRules) (candidates : list Candidate) : option (list Slot) :=
  let step := Z.quot (rule_Interval r) Minute in
  if step <=? 0 then Some []
  else (λ starts, omap (M:=list) (slot_at r candidates) starts) <$> grid d (rule_Location r) step.

(** ** Days are dates *)

Definition valid_day_of (d : Day) : Prop := valid_date (day_date d).

Lemma Day_Start_At d loc : Day_Start d loc = At (day_date d) 0 loc.
Proof. done. Qed.

Lemma DayOf_valid loc t : valid_day_of (DayOf loc t) ∧ day_number (day_date (DayOf loc t)) = local_day loc t.
Proof. apply (DateOf_valid loc t). Qed.

Lemma Day_AddDays_valid d n :
  valid_day_of d → valid_day_of (Day_AddDays d n) ∧ day_number (day_date (Day_AddDays d n)) = day_number (day_date d) + n.
Proof.
  intros [Hm Hd]. unfold Day_AddDays. split; [apply DayOf_valid|]. destruct (DayOf_valid UTC (date (Year (day_date d)) (Month (day_date d)) (DayOfMonth (day_date d) + n) 0 0 0 0 UTC)) as [_ ->].
  apply (local_day_fixed 0). rewrite date_utc by done. rewrite days_of_civil_day. fold (day_number (day_date d)).
  unfold secs_per_day, Second, Millisecond, Microsecond. lia.
Qed.

Lemma Day_eq d o : valid_day_of d → valid_day_of o → day_number (day_date d) = day_number (day_date o) → d = o.
Proof. destruct d as [d], o as [o]. intros Hd Ho E. f_equal. by apply day_number_inj. Qed.

Lemma Day_Start_fixed d off : valid_day_of d → Day_Start d (fixed_zone off) = (day_number (day_date d) * 86400 - off) * Second.
Proof. intros Hd. rewrite Day_Start_At, At_fixed by done. f_equal. lia. Qed.

Lemma Day_Compare_spec d o : valid_day_of d → valid_day_of o →
  Day_Compare d o = match Z.compare (day_number (day_date d)) (day_number (day_date o)) with Lt => -1 | Eq => 0 | Gt => 1 end.
Proof. apply Date_Compare_spec. Qed.

(** The instants of a day, in a fixed zone. *)
Lemma day_span_fixed d off t :
  valid_day_of d →
  Day_Start d (fixed_zone off) ≤ t < Day_Start (Day_AddDays d 1) (fixed_zone off) ↔ DayOf (fixed_zone off) t = d.
Proof.
  intros Hd. destruct (Day_AddDays_valid d 1 Hd) as [Hd1 E1]. destruct (DayOf_valid (fixed_zone off) t) as [Hv Hn].
  rewrite !Day_Start_fixed, E1 by done.
  pose proof (local_day_fixed off t (day_number (day_date d))) as Hl. unfold secs_per_day in Hl. rewrite <- Hl. split.
  - intros E. apply Day_eq; [done..|]. by rewrite Hn.
  - intros E. by rewrite <- Hn, E.
Qed.

(** ** The grid *)

Lemma grid_loop_spec fuel t end_ loc step :
  end_ - t ≤ Z.of_nat fuel * Minute →
  ∃ l, grid_loop fuel t end_ loc step = Some l ∧ StronglySorted Z.lt l ∧
    ∀ s, s ∈ l ↔ t ≤ s < end_ ∧ (s - t) mod Minute = 0 ∧ OnGrid s loc (int64 (step * Minute)) = true.
Proof.
  assert (HM : 0 < Minute) by done.
  revert t. induction fuel as [|fuel IH]; intros t Hf; cbn [grid_loop]; unfold Before; destruct (Z.ltb_spec t end_) as [Hlt|Hge].
  - simpl in Hf. lia.
  - exists []. split; [done|]. split; [constructor|]. intros s. split; [by intros ?%not_elem_of_nil|]. intros (? & _). lia.
  - destruct (IH (GoTime.Add t Minute)) as (l & -> & Hs & Hl); [unfold GoTime.Add; rewrite Nat2Z.inj_succ, Z.mul_succ_l in Hf; lia|]. unfold GoTime.Add in Hl. cbn [mbind option_bind].
    assert (Hmin : ∀ s, s ∈ l → t < s) by (intros s Hin; apply Hl in Hin; lia).
    eexists. split; [done|]. split.
    + destruct (OnGrid t loc (int64 (step * Minute))); [|done]. constructor; [done|]. by apply Forall_forall.
    + intros s.
      assert (Hiff : s ∈ l ↔ t < s < end_ ∧ (s - t) mod Minute = 0 ∧ OnGrid s loc (int64 (step * Minute)) = true).
      { rewrite Hl. replace (s - (t + Minute)) with ((s - t) + (-1) * Minute) by lia. rewrite Z.mod_add by lia.
        split; (intros (? & Hm & ?); split; [|done]); [lia|]. apply Z.mod_divide in Hm as [k Hk]; [|lia]. assert (0 < k) by nia. split; [nia|lia]. }
      destruct (OnGrid t loc (int64 (step * Minute))) eqn:Eg.
      * rewrite elem_of_cons, Hiff. split.
        -- intros [->|(? & ?)]; [|split; [lia|done]]. split; [lia|]. by rewrite Z.sub_diag.
        -- intros (? & ? & ?). destruct (decide (s = t)); [by left|]. right. split; [lia|done].
      * rewrite Hiff. split; [intros (? & ?); split; [lia|done]|]. intros (? & ? & Hg). split; [|done].
        assert (s ≠ t) by congruence. lia.
  - exists []. split; [done|]. split; [constructor|]. intros s. split; [by intros ?%not_elem_of_nil|]. intros (? & _). lia.
Qed.

Lemma grid_spec d loc step :
  ∃ l, grid d loc step = Some l ∧ StronglySorted Z.lt l ∧
    ∀ s, s ∈ l ↔ Day_Start d loc ≤ s < Day_Start (Day_AddDays d 1) loc ∧ (s - Day_Start d loc) mod Minute = 0 ∧
      OnGrid s loc (int64 (step * Minute)) = true.
Proof.
  unfold grid. apply grid_loop_spec. unfold grid_fuel. set (n := Day_Start (Day_AddDays d 1) loc - Day_Start d loc).
  assert (HM : 0 < Minute) by done.
  destruct (Z.le_gt_cases n 0); [lia|]. pose proof (Z.div_mod n Minute ltac:(lia)). pose proof (Z.mod_pos_bound n Minute HM).
  rewrite Z2Nat.id by (pose proof (Z.div_pos n Minute); lia). nia.
Qed.

(** ** Slots *)

Lemma slot_at_some r cands start s :
  slot_at r cands start = Some s ↔
    rule_Earliest r ≤ start < rule_Latest r ∧ free_staff cands start ≠ [] ∧ s = MkSlot start (free_staff cands start).
Proof.
  unfold slot_at, Before. destruct (Z.ltb_spec start (rule_Earliest r)), (Z.ltb_spec start (rule_Latest r)); cbn [orb negb];
    try (split; [done|lia]).
  destruct (free_staff cands start) eqn:E; [split; [done|by intros (_ & ? & _)]|]. split; [intros [= <-]|intros (_ & _ & ->)]; done.
Qed.

Lemma sorted_omap {A} (f : time → option A) (g : A → time) l :
  (∀ t a, f t = Some a → g a = t) → StronglySorted Z.lt l → StronglySorted (λ a b, g a < g b) (omap f l).
Proof.
  intros Hf. induction 1 as [|t l Hs IH Hall]; cbn; [constructor|]. destruct (f t) as [a|] eqn:E; [|done]. constructor; [done|].
  apply Forall_forall. intros b Hb. apply list_elem_of_omap in Hb as (u & Hu & Eb). rewrite Forall_forall in Hall.
  rewrite (Hf _ _ E), (Hf _ _ Eb). by apply Hall.
Qed.

Lemma Slots_spec d r cands :
  0 < Z.quot (rule_Interval r) Minute → in_int64 (rule_Interval r) →
  ∃ l, Slots d r cands = Some l ∧ StronglySorted (λ a b, slot_Start a < slot_Start b) l ∧
    ∀ s, s ∈ l ↔ Day_Start d (rule_Location r) ≤ slot_Start s < Day_Start (Day_AddDays d 1) (rule_Location r) ∧
      (slot_Start s - Day_Start d (rule_Location r)) mod Minute = 0 ∧
      OnGrid (slot_Start s) (rule_Location r) (Z.quot (rule_Interval r) Minute * Minute) = true ∧
      rule_Earliest r ≤ slot_Start s < rule_Latest r ∧
      slot_Staff s = free_staff cands (slot_Start s) ∧ slot_Staff s ≠ [].
Proof.
  intros Hstep Hint. unfold Slots. rewrite (proj2 (Z.leb_gt _ _)) by done.
  destruct (grid_spec d (rule_Location r) (Z.quot (rule_Interval r) Minute)) as (l & -> & Hs & Hl). simpl.
  exists (omap (slot_at r cands) l). split; [done|]. split.
  { apply sorted_omap; [|done]. by intros t a (_ & _ & ->)%slot_at_some. }
  assert (Hid : int64 (Z.quot (rule_Interval r) Minute * Minute) = Z.quot (rule_Interval r) Minute * Minute).
  { apply int64_id. revert Hint. unfold in_int64, min_int64, max_int64. assert (HM : 0 < Minute) by done.
    pose proof (Z.quot_rem' (rule_Interval r) Minute) as Hqr. rewrite Z.mul_comm in Hqr.
    set (p := Z.quot (rule_Interval r) Minute * Minute) in *. assert (Minute ≤ p) by (unfold p; nia).
    destruct (Z.le_gt_cases 0 (rule_Interval r)) as [Hi|Hi].
    - pose proof (Z.rem_bound_pos (rule_Interval r) Minute Hi HM). lia.
    - pose proof (Z.rem_bound_pos_neg (rule_Interval r) Minute HM ltac:(lia)). lia. }
  rewrite Hid in Hl. intros s. rewrite list_elem_of_omap. setoid_rewrite slot_at_some. setoid_rewrite Hl. split.
  - intros (t & (? & ? & ?) & ? & ? & ->). simpl. done.
  - intros (? & ? & ? & ? & E & Hne). exists (slot_Start s). rewrite E in Hne. destruct s; simpl in *; subst. done.
Qed.

(** ** Who can take a start *)

Lemma normalized_apart l x y : normalized l → x ∈ l → y ∈ l → x = y ∨ i_end x < i_start y ∨ i_end y < i_start x.
Proof.
  intros [_ Hs] Hx Hy. apply list_elem_of_lookup in Hx as [i Hi], Hy as [j Hj].
  destruct (decide (i = j)) as [->|Hne]; [left; congruence|right]. destruct (decide (i < j)%nat).
  - left. by apply (pairwise_lookup gap_before l i j).
  - right. apply (pairwise_lookup gap_before l j i); [done|lia|done|done].
Qed.

(** In merged windows, a span whose every instant is covered is inside one. *)
Lemma covered_by_one l s e :
  normalized l → s < e → (∀ t, s ≤ t < e → covered t l) ↔ ∃ w, w ∈ l ∧ i_start w ≤ s ∧ e ≤ i_end w.
Proof.
  intros Hn Hse. split.
  - intros H. destruct (H s ltac:(lia)) as (w & Hw & Hs). unfold in_span in Hs. exists w. split; [done|]. split; [lia|].
    destruct (Z.le_gt_cases e (i_end w)) as [|Hlt]; [done|exfalso].
    destruct (H (i_end w) ltac:(lia)) as (w' & Hw' & Hs'). unfold in_span in Hs'.
    destruct (normalized_apart l w w' Hn Hw Hw') as [->|[?|?]]; lia.
  - intros (w & Hw & ? & ?) t Ht. exists w. split; [done|]. unfold in_span. lia.
Qed.

Definition free_throughout (c : Candidate) (start : time) : Prop :=
  0 < cand_Length c ∧ ∀ t, start ≤ t < start + cand_Length c → covered t (cand_Windows c) ∧ ¬ covered t (cand_Busy c).

Definition candidate_ok (c : Candidate) : Prop := normalized (cand_Windows c) ∧ Forall nonempty (cand_Busy c).

Lemma CanTake_spec c start : candidate_ok c → CanTake c start = true ↔ free_throughout c start.
Proof.
  intros [Hw Hb]. unfold CanTake, free_throughout, NewInterval, After, GoTime.Add.
  destruct (Z.ltb_spec start (start + cand_Length c)) as [Hlt|]; cbn [negb]; [|split; [done|lia]].
  set (e := start + cand_Length c) in *. rewrite Forall_forall in Hb.
  assert (Hbusy : existsb (λ b, Overlaps b (MkInterval start e)) (cand_Busy c) = false ↔ ∀ t, start ≤ t < e → ¬ covered t (cand_Busy c)).
  { rewrite existsb_elem_false. split.
    - intros H t Ht (b & Hbin & Hbt). specialize (H b Hbin). rewrite <- not_true_iff_false, Overlaps_spec in H; [|by apply Hb|done].
      apply H. exists t. by split.
    - intros H b Hbin. rewrite <- not_true_iff_false, Overlaps_spec; [|by apply Hb|done].
      intros (t & Hbt & Ht). apply (H t Ht). by exists b. }
  assert (Hin : existsb (λ w, Covers w (MkInterval start e)) (cand_Windows c) = true ↔ ∀ t, start ≤ t < e → covered t (cand_Windows c)).
  { rewrite existsb_elem, (covered_by_one _ _ _ Hw Hlt). setoid_rewrite Covers_true. done. }
  destruct (existsb (λ w, Covers w _) _); cbn [negb].
  - rewrite negb_true_iff, Hbusy. destruct Hin as [Hin _]. specialize (Hin eq_refl). split; [|intros [_ H] t Ht; exact (proj2 (H t Ht))].
    intros H. split; [lia|]. intros t Ht. split; [exact (Hin t Ht)|exact (H t Ht)].
  - split; [done|]. intros [_ H]. apply Hin. intros t Ht. exact (proj1 (H t Ht)).
Qed.

(** ** Slots in a zone of whole minutes without clock changes *)

Lemma minute_of_day d off k :
  valid_day_of d → (60 | off) → 0 ≤ k < 1440 →
  let t := Day_Start d (fixed_zone off) + k * Minute in
  local_second (fixed_zone off) t = 0 ∧ nanosecond t = 0 ∧ local_hour (fixed_zone off) t * 60 + local_minute (fixed_zone off) t = k.
Proof.
  intros Hd [o ->] Hk t. unfold t. rewrite Day_Start_fixed by done. set (n := day_number (day_date d)).
  unfold local_hour, local_minute, local_second, nanosecond, secs_per_day. rewrite local_secs_fixed.
  replace ((n * 86400 - o * 60) * Second + k * Minute) with ((n * 86400 - o * 60 + k * 60) * Second)
    by (unfold Minute; ring).
  rewrite Z.div_mul, Z.mod_mul by done.
  replace (n * 86400 - o * 60 + k * 60 + o * 60) with (n * 86400 + k * 60) by ring.
  split; [|split; [done|]]; Z.div_mod_to_equations; lia.
Qed.

Lemma OnGrid_fixed d off k step :
  valid_day_of d → (60 | off) → 0 ≤ k < 1440 → 0 < step →
  OnGrid (Day_Start d (fixed_zone off) + k * Minute) (fixed_zone off) (step * Minute) = true ↔ (step | k).
Proof.
  intros Hd Ho Hk Hs. unfold OnGrid. destruct (minute_of_day d off k Hd Ho Hk) as (-> & -> & ->).
  rewrite Z.quot_mul by done. rewrite (proj2 (Z.ltb_lt _ _)) by done. simpl.
  rewrite Z.rem_mod_nonneg by lia. rewrite Z.eqb_eq. by apply Z.mod_divide; lia.
Qed.

Lemma day_length_fixed d off : valid_day_of d →
  Day_Start (Day_AddDays d 1) (fixed_zone off) = Day_Start d (fixed_zone off) + 1440 * Minute.
Proof.
  intros Hd. destruct (Day_AddDays_valid d 1 Hd) as [Hd1 E1]. rewrite !Day_Start_fixed, E1 by done. unfold Minute. ring.
Qed.

(** C10. A day's slots, in a zone of whole minutes without clock changes, with
    starts every [step] minutes: the search ends, the starts come out in
    order, and a start is offered exactly when it is a multiple of [step]
    minutes after midnight, not too soon, within the horizon, and some
    candidate's every instant of the booking is worked and not booked; the
    slot names all those candidates, in their order. *)
Theorem slots_exact d off step r cands :
  valid_day_of d → (60 | off) → 0 < step ≤ 1440 →
  rule_Location r = fixed_zone off → rule_Interval r = step * Minute → Forall candidate_ok cands →
  ∃ l, Slots d r cands = Some l ∧ StronglySorted (λ a b, slot_Start a < slot_Start b) l ∧
    ∀ s, s ∈ l ↔
      (∃ j, 0 ≤ j * step < 1440 ∧ slot_Start s = Day_Start d (fixed_zone off) + j * step * Minute) ∧
      rule_Earliest r ≤ slot_Start s < rule_Latest r ∧
      slot_Staff s ≠ [] ∧ slot_Staff s = cand_Staff <$> filter (λ c, CanTake c (slot_Start s) = true) cands ∧
      ∀ c, c ∈ cands → CanTake c (slot_Start s) = true ↔ free_throughout c (slot_Start s).
Proof.
  intros Hd Ho Hs Hloc Hint Hc. assert (HM : 0 < Minute) by done.
  assert (Hq : Z.quot (rule_Interval r) Minute = step) by (by rewrite Hint, Z.quot_mul).
  destruct (Slots_spec d r cands) as (l & Hl & Hsort & Hspec); [rewrite Hq; lia|rewrite Hint; unfold in_int64, min_int64, max_int64, Minute, Second, Millisecond, Microsecond; lia|].
  exists l. split; [done|]. split; [done|]. intros s. rewrite Hspec, Hq, Hloc, day_length_fixed by done. unfold free_staff.
  set (mid := Day_Start d (fixed_zone off)).
  assert (Hgrid : (mid ≤ slot_Start s < mid + 1440 * Minute ∧ (slot_Start s - mid) mod Minute = 0 ∧ OnGrid (slot_Start s) (fixed_zone off) (step * Minute) = true)
    ↔ ∃ j, 0 ≤ j * step < 1440 ∧ slot_Start s = mid + j * step * Minute).
  { split.
    - intros (Hr & Hm & Hg). apply Z.mod_divide in Hm as [k Hk]; [|lia]. assert (0 ≤ k < 1440) by nia.
      replace (slot_Start s) with (mid + k * Minute) in Hg by lia. apply OnGrid_fixed in Hg as [j ->]; [|done..|lia].
      exists j. split; [lia|]. lia.
    - intros (j & Hj & E). rewrite E. split; [nia|]. split; [|apply OnGrid_fixed; [done..|lia|by exists j]].
      replace (mid + j * step * Minute - mid) with (j * step * Minute) by lia. by apply Z.mod_mul. }
  split.
  - intros (? & ? & ? & ? & ? & ?). split; [apply Hgrid; done|]. split; [done|]. split; [done|]. split; [done|].
    intros c Hin. apply CanTake_spec. rewrite Forall_forall in Hc. by apply Hc.
  - intros (Hj & ? & ? & ? & _). apply Hgrid in Hj as (? & ? & ?). done.
Qed.

(** A barber who works 18:00 to 19:00 UTC and is booked from 18:15 to 18:30
    takes 15-minute bookings at 18:00, 18:30 and 18:45; a second one, until
    18:30, only at 18:00 and 18:15. *)
Definition demo_day : Day := MkDayOf (MkDate 2026 10 1).
Definition demo_at (minute : Z) : time := Day_Start demo_day (fixed_zone 0) + minute * Minute.
Definition demo_cands : list Candidate := [
  MkCandidate (MkID 1) (15 * Minute) [MkInterval (demo_at 1080) (demo_at 1140)] [MkInterval (demo_at 1095) (demo_at 1110)];
  MkCandidate (MkID 2) (15 * Minute) [MkInterval (demo_at 1080) (demo_at 1110)] [] ].
Definition demo_rules : SlotRules := MkSlotRules (fixed_zone 0) (15 * Minute) (demo_at 0) (demo_at 1440).

Lemma slots_exact_witness :
  Slots demo_day demo_rules demo_cands = Some [
    MkSlot (demo_at 1080) [MkID 1; MkID 2]; MkSlot (demo_at 1095) [MkID 2];
    MkSlot (demo_at 1110) [MkID 1]; MkSlot (demo_at 1125) [MkID 1] ] ∧
  (∃ j, 0 ≤ j * 15 < 1440 ∧ demo_at 1125 = Day_Start demo_day (fixed_zone 0) + j * 15 * Minute).
Proof.
  assert (Hok : Forall candidate_ok demo_cands).
  { repeat constructor; vm_compute; try congruence. }
  destruct (slots_exact demo_day 0 15 demo_rules demo_cands) as (l & Hl & _ & Hs);
    [split; vm_compute; split; congruence|exists 0; reflexivity|lia|reflexivity|reflexivity|exact Hok|].
  assert (E : Slots demo_day demo_rules demo_cands = Some [
    MkSlot (demo_at 1080) [MkID 1; MkID 2]; MkSlot (demo_at 1095) [MkID 2];
    MkSlot (demo_at 1110) [MkID 1]; MkSlot (demo_at 1125) [MkID 1] ]) by (vm_compute; reflexivity).
  split; [exact E|]. rewrite E in Hl. injection Hl as <-.
  destruct (proj1 (Hs (MkSlot (demo_at 1125) [MkID 1]))) as (Hj & _); [right; right; right; left|exact Hj].
Defined.
