(* ===== verification/Appointment.v ===== *)
(** * Appointments and their lifecycle (src/internal/booking/domain/appointment.go, lifecycle.go)

    Booking a visit, and what may happen to it afterwards. The Go struct's
    private fields and its [Snapshot] hold the same values; here an
    appointment is its snapshot and the events recorded since it was loaded. *)
From S2P Require Import Prelude GoTime GoText Shared BookSlots.
Open Scope Z_scope.

Inductive Status := StatusPending | StatusConfirmed | StatusRejected | StatusExpired | StatusCancelled | StatusCompleted | StatusNoShow.
Inductive Source := SourceCustomerApp | SourceStaff.
Inductive Assignment := RequestedBarber | AnyBarber.
Inductive Canceller := ByCustomer | ByStaff.
Inductive Action := ActionConfirm | ActionReject | ActionCancel | ActionComplete | ActionNoShow | ActionExpire.

#[export] Instance Status_eq_dec : EqDecision Status.
Proof. solve_decision. Defined.
#[export] Instance Source_eq_dec : EqDecision Source.
Proof. solve_decision. Defined.
#[export] Instance Assignment_eq_dec : EqDecision Assignment.
Proof. solve_decision. Defined.
#[export] Instance Canceller_eq_dec : EqDecision Canceller.
Proof. solve_decision. Defined.
#[export] Instance Action_eq_dec : EqDecision Action.
Proof. solve_decision. Defined.

(** Their names in the tables, the events and the API. *)
Definition Status_text (s : Status) : string :=
  match s with
  | StatusPending => "pending" | StatusConfirmed => "confirmed" | StatusRejected => "rejected" | StatusExpired => "expired"
  | StatusCancelled => "cancelled" | StatusCompleted => "completed" | StatusNoShow => "no_show"
  end.
Definition Canceller_text (c : Canceller) : string := match c with ByCustomer => "customer" | ByStaff => "staff" end.

Definition Source_text (s : Source) : string := match s with SourceCustomerApp => "customer_app" | SourceStaff => "staff" end.
Definition Assignment_text (a : Assignment) : string := match a with RequestedBarber => "requested_barber" | AnyBarber => "any_barber" end.

(** Booking's errors (errors.go). [TransitionError] matches
    [ErrInvalidTransition]; [ErrMoney] wraps the shared kernel's errors,
    [ErrStorage] is any failure of the database, [ErrInternal] the answer to
    an action no caller can name, [ErrPanic] a run-time panic. *)
Inductive book_error :=
| ErrNotFound | ErrNoServices | ErrServiceUnavailable | ErrBarberUnavailable | ErrSlotUnavailable | ErrInvalidStart
| ErrTooManyBookings | ErrNoteTooLong | ErrIdempotencyReused | ErrForbidden
| TransitionError (action : Action) (status : Status)
| ErrTooLateToCancel | ErrNotStarted | ErrReasonTooLong | ErrNoCustomer | ErrCustomerNameTooLong | ErrBranchNotBookable
| ErrMoney (e : money_error) | ErrStorage | ErrInternal | ErrPanic.

#[export] Instance money_error_eq_dec : EqDecision money_error.
Proof. solve_decision. Defined.
#[export] Instance book_error_eq_dec : EqDecision book_error.
Proof. solve_decision. Defined.

Definition MaxNoteLen : Z := 300.
Definition MaxCustomerNameLen : Z := 100.
Definition MaxReasonLen : Z := 300.

Record Item := MkItem {
  item_Service : ServiceID;
  item_Name : LocalizedText;
  item_Duration : Duration;
  item_Price : Money }.

#[export] Instance Item_eq_dec : EqDecision Item.
Proof. solve_decision. Defined.

Record Cancellation := MkCancellation { can_By : Canceller; can_Reason : string; can_At : time }.

#[export] Instance Cancellation_eq_dec : EqDecision Cancellation.
Proof. solve_decision. Defined.

(** A booking request, with the barber chosen and the branch's rules.
    [bk_Source] is [None] where Go leaves it empty. *)
Record Booking := MkBooking {
  bk_ID : AppointmentID;
  bk_Business : BusinessID;
  bk_Branch : BranchID;
  bk_Barber : StaffID;
  bk_Customer : UserID;
  bk_CustomerName : string;
  bk_Source : option Source;
  bk_Start : time;
  bk_Items : list Item;
  bk_Buffer : Duration;
  bk_Assignment : Assignment;
  bk_Note : string;
  bk_AutoConfirm : bool;
  bk_PendingExpiry : Duration;
  bk_CancellationWindow : Duration }.

Record Snapshot := MkSnapshot {
  ap_ID : AppointmentID;
  ap_Business : BusinessID;
  ap_Branch : BranchID;
  ap_Barber : StaffID;
  ap_Customer : UserID;
  ap_CustomerName : string;
  ap_Items : list Item;
  ap_Start : time;
  ap_End : time;
  ap_BusyUntil : time;
  ap_Price : Money;
  ap_Status : Status;
  ap_Source : Source;
  ap_Assignment : Assignment;
  ap_Note : string;
  ap_PendingUntil : option time;
  ap_CancellableUntil : time;
  ap_Cancellation : option Cancellation;
  ap_Version : Z;
  ap_CreatedAt : time;
  ap_UpdatedAt : time }.

#[export] Instance Snapshot_eq_dec : EqDecision Snapshot.
Proof. solve_decision. Defined.

Inductive Event :=
| AppointmentBooked (a : Snapshot)
| StatusChanged (from : Status) (a : Snapshot).

#[export] Instance Event_eq_dec : EqDecision Event.
Proof. solve_decision. Defined.

Record Appointment := MkAppointment { state : Snapshot; events : list Event }.

Definition Rehydrate (s : Snapshot) : Appointment := MkAppointment s [].

(** [dbTime]: UTC, to the microsecond. *)
Definition dbTime (t : time) : time := Truncate t Microsecond.

(** The loop over the items: total duration, total price. *)
Fixpoint totals (total : Duration) (price : Money) (items : list Item) : res book_error (Duration * Money) :=
  match items with
  | [] => Ok (total, price)
  | it :: items =>
      let! p := res_map_err ErrMoney (Money_Add price (item_Price it)) in
      totals (dur_add total (item_Duration it)) p items
  end.

Definition Book (b : Booking) (now : time) : res book_error Appointment :=
  check! negb ((length (bk_Items b) =? 0)%nat || (MaxServices <? length (bk_Items b))%nat) else ErrNoServices in
  check! negb (MaxNoteLen <? RuneCountInString (bk_Note b)) else ErrNoteTooLong in
  let source := default SourceCustomerApp (bk_Source b) in
  let name := TrimSpace (bk_CustomerName b) in
  check! negb (MaxCustomerNameLen <? RuneCountInString name) else ErrCustomerNameTooLong in
  check! negb (ID_IsZero (bk_Customer b) && (negb (bool_decide (source = SourceStaff)) || bool_decide (name = "")))
    else ErrNoCustomer in
  let now := dbTime now in
  let! t := totals 0 (Halalas 0) (bk_Items b) in
  let end_ := GoTime.Add (bk_Start b) t.1 in
  let busyUntil := GoTime.Add end_ (bk_Buffer b) in
  let pending := negb (bk_AutoConfirm b) && bool_decide (source = SourceCustomerApp) in
  let s := MkSnapshot (bk_ID b) (bk_Business b) (bk_Branch b) (bk_Barber b) (bk_Customer b) name (bk_Items b)
    (bk_Start b) end_ busyUntil t.2
    (if pending then StatusPending else StatusConfirmed) source (bk_Assignment b) (bk_Note b)
    (if pending then Some (GoTime.Add now (bk_PendingExpiry b)) else None)
    (GoTime.Add (bk_Start b) (- Z.max (bk_CancellationWindow b) 0)) None 1 now now in
  Ok (MkAppointment s [AppointmentBooked s]).

(** [Busy]: Go ignores [NewInterval]'s error, leaving the zero interval. *)
Definition Busy (a : Snapshot) : Interval :=
  match NewInterval (ap_Start a) (ap_BusyUntil a) with
  | Ok i => i
  | Err _ => MkInterval zero_time zero_time
  end.

(** ** The lifecycle (lifecycle.go) *)

Definition current (a : Snapshot) (now : time) : Status :=
  match ap_Status a, ap_PendingUntil a with
  | StatusPending, Some until => if negb (Before now until) then StatusExpired else StatusPending
  | s, _ => s
  end.

Definition change (a : Appointment) (cancellation : option Cancellation) (to : Status) (now : time) : Appointment :=
  let s := state a in
  let s' := MkSnapshot (ap_ID s) (ap_Business s) (ap_Branch s) (ap_Barber s) (ap_Customer s) (ap_CustomerName s) (ap_Items s)
    (ap_Start s) (ap_End s) (ap_BusyUntil s) (ap_Price s) to (ap_Source s) (ap_Assignment s) (ap_Note s) None
    (ap_CancellableUntil s) cancellation (int64 (ap_Version s + 1)) (ap_CreatedAt s) (dbTime now) in
  MkAppointment s' (events a ++ [StatusChanged (ap_Status s) s']).

Definition Confirm (a : Appointment) (now : time) : res book_error Appointment :=
  let s := current (state a) now in
  check! bool_decide (s = StatusPending) else TransitionError ActionConfirm s in
  Ok (change a (ap_Cancellation (state a)) StatusConfirmed now).

Definition Reject (a : Appointment) (now : time) : res book_error Appointment :=
  let s := current (state a) now in
  check! bool_decide (s = StatusPending) else TransitionError ActionReject s in
  Ok (change a (ap_Cancellation (state a)) StatusRejected now).

Definition cancel (a : Appointment) (by_ : Canceller) (reason : string) (now : time) : res book_error Appointment :=
  let reason := TrimSpace reason in
  check! negb (MaxReasonLen <? RuneCountInString reason) else ErrReasonTooLong in
  Ok (change a (Some (MkCancellation by_ reason (dbTime now))) StatusCancelled now).

Definition CancelByCustomer (a : Appointment) (reason : string) (now : time) : res book_error Appointment :=
  let! deadline := match current (state a) now with
                   | StatusPending => Ok (ap_Start (state a))
                   | StatusConfirmed => Ok (ap_CancellableUntil (state a))
                   | s => Err (TransitionError ActionCancel s)
                   end in
  check! Before now deadline else ErrTooLateToCancel in
  cancel a ByCustomer reason now.

Definition CancelByStaff (a : Appointment) (reason : string) (now : time) : res book_error Appointment :=
  let s := current (state a) now in
  check! bool_decide (s = StatusPending) || bool_decide (s = StatusConfirmed) else TransitionError ActionCancel s in
  cancel a ByStaff reason now.

Definition Expire (a : Appointment) (now : time) : res book_error Appointment :=
  let s := state a in
  match ap_Status s, ap_PendingUntil s with
  | StatusPending, Some until =>
      if Before now until then Err (TransitionError ActionExpire (current s now))
      else Ok (change a (ap_Cancellation s) StatusExpired now)
  | _, _ => Err (TransitionError ActionExpire (current s now))
  end.

Definition finish (a : Appointment) (to : Status) (action : Action) (now : time) : res book_error Appointment :=
  let s := current (state a) now in
  check! bool_decide (s = StatusConfirmed) else TransitionError action s in
  check! negb (Before now (ap_Start (state a))) else ErrNotStarted in
  Ok (change a (ap_Cancellation (state a)) to now).

Definition Complete (a : Appointment) (now : time) : res book_error Appointment := finish a StatusCompleted ActionComplete now.
Definition MarkNoShow (a : Appointment) (now : time) : res book_error Appointment := finish a StatusNoShow ActionNoShow now.

(** ** What holds of every appointment *)

Definition active (s : Status) : bool :=
  match s with StatusPending | StatusConfirmed => true | _ => false end.

Record appointment_ok (a : Snapshot) : Prop := {
  ok_pending : ap_Status a = StatusPending ↔ ap_PendingUntil a ≠ None;
  ok_cancelled : ap_Status a = StatusCancelled ↔ ap_Cancellation a ≠ None;
  ok_deadline : ap_CancellableUntil a ≤ ap_Start a;
  ok_version : 1 ≤ ap_Version a ≤ (match ap_Status a with StatusPending => 1 | StatusConfirmed => 2 | _ => 3 end);
  ok_customer : ap_Customer a = MkID 0 → ap_Source a = SourceStaff ∧ ap_CustomerName a ≠ "";
  ok_services : (1 ≤ length (ap_Items a) ≤ MaxServices)%nat }.

(** Nothing but the status and what goes with it changes after booking. *)
Definition same_booking (a b : Snapshot) : Prop :=
  ap_ID a = ap_ID b ∧ ap_Business a = ap_Business b ∧ ap_Branch a = ap_Branch b ∧ ap_Barber a = ap_Barber b ∧
  ap_Customer a = ap_Customer b ∧ ap_CustomerName a = ap_CustomerName b ∧ ap_Items a = ap_Items b ∧
  ap_Start a = ap_Start b ∧ ap_End a = ap_End b ∧ ap_BusyUntil a = ap_BusyUntil b ∧ ap_Price a = ap_Price b ∧
  ap_Source a = ap_Source b ∧ ap_Assignment a = ap_Assignment b ∧ ap_Note a = ap_Note b ∧
  ap_CancellableUntil a = ap_CancellableUntil b ∧ ap_CreatedAt a = ap_CreatedAt b.

(** The lifecycle's arrows (domain-model.md 3.5). *)
Definition transition (from to : Status) : bool :=
  match from, to with
  | StatusPending, (StatusConfirmed | StatusRejected | StatusCancelled | StatusExpired) => true
  | StatusConfirmed, (StatusCancelled | StatusCompleted | StatusNoShow) => true
  | _, _ => false
  end.

(** Everything that can be done to an appointment. *)
Inductive Op := OpConfirm | OpReject | OpCancelByCustomer (reason : string) | OpCancelByStaff (reason : string) | OpExpire | OpComplete | OpMarkNoShow.

Definition apply_op (op : Op) (a : Appointment) (now : time) : res book_error Appointment :=
  match op with
  | OpConfirm => Confirm a now
  | OpReject => Reject a now
  | OpCancelByCustomer r => CancelByCustomer a r now
  | OpCancelByStaff r => CancelByStaff a r now
  | OpExpire => Expire a now
  | OpComplete => Complete a now
  | OpMarkNoShow => MarkNoShow a now
  end.

(** What each operation needs. *)
Definition enabled (op : Op) (a : Snapshot) (now : time) : Prop :=
  let waiting := ap_Status a = StatusPending ∧ ∀ until, ap_PendingUntil a = Some until → now < until in
  let reason_ok r := RuneCountInString (TrimSpace r) ≤ MaxReasonLen in
  match op with
  | OpConfirm | OpReject => waiting
  | OpCancelByCustomer r =>
      (waiting ∧ now < ap_Start a ∨ ap_Status a = StatusConfirmed ∧ now < ap_CancellableUntil a) ∧ reason_ok r
  | OpCancelByStaff r => (waiting ∨ ap_Status a = StatusConfirmed) ∧ reason_ok r
  | OpExpire => ap_Status a = StatusPending ∧ ∃ until, ap_PendingUntil a = Some until ∧ until ≤ now
  | OpComplete | OpMarkNoShow => ap_Status a = StatusConfirmed ∧ ap_Start a ≤ now
  end.

(** Where it leads. *)
Definition target (op : Op) : Status :=
  match op with
  | OpConfirm => StatusConfirmed
  | OpReject => StatusRejected
  | OpCancelByCustomer _ | OpCancelByStaff _ => StatusCancelled
  | OpExpire => StatusExpired
  | OpComplete => StatusCompleted
  | OpMarkNoShow => StatusNoShow
  end.

Definition op_action (op : Op) : Action :=
  match op with
  | OpConfirm => ActionConfirm
  | OpReject => ActionReject
  | OpCancelByCustomer _ | OpCancelByStaff _ => ActionCancel
  | OpExpire => ActionExpire
  | OpComplete => ActionComplete
  | OpMarkNoShow => ActionNoShow
  end.

Definition cancellation_of (op : Op) (now : time) (old : option Cancellation) : option Cancellation :=
  match op with
  | OpCancelByCustomer r => Some (MkCancellation ByCustomer (TrimSpace r) (dbTime now))
  | OpCancelByStaff r => Some (MkCancellation ByStaff (TrimSpace r) (dbTime now))
  | _ => old
  end.

Lemma current_pending a now :
  current a now = StatusPending ↔ ap_Status a = StatusPending ∧ ∀ until, ap_PendingUntil a = Some until → now < until.
Proof.
  unfold current, Before. destruct (ap_Status a); try (split; [done|by intros [? _]]).
  destruct (ap_PendingUntil a) as [u|]; [|by split; [intros; split|]].
  destruct (Z.ltb_spec now u); cbn [negb]; split; try done.
  - intros _. split; [done|]. by intros ? [= <-].
  - intros [_ Hall]. specialize (Hall u eq_refl). lia.
Qed.

Lemma current_confirmed a now : current a now = StatusConfirmed ↔ ap_Status a = StatusConfirmed.
Proof.
  unfold current. destruct (ap_Status a); try done. destruct (ap_PendingUntil a); [|done]. by destruct (negb _).
Qed.

(** Every operation, in one form: what it did, or why it did nothing. *)
Lemma apply_op_ok op a now a' :
  apply_op op a now = Ok a' ↔
    enabled op (state a) now ∧ a' = change a (cancellation_of op now (ap_Cancellation (state a))) (target op) now.
Proof.
  destruct op; cbn [apply_op enabled target cancellation_of].
  - unfold Confirm. rewrite <- current_pending. case_bool_decide; simpl; naive_solver.
  - unfold Reject. rewrite <- current_pending. case_bool_decide; simpl; naive_solver.
  - unfold CancelByCustomer, cancel, Before. rewrite <- current_pending, <- (current_confirmed _ now).
    destruct (current (state a) now) eqn:Ec; cbn [res_bind]; try naive_solver.
    + destruct (Z.ltb_spec now (ap_Start (state a))); cbn [ensure res_bind]; [|split; [done|naive_solver lia]].
      destruct (Z.ltb_spec MaxReasonLen (RuneCountInString (TrimSpace reason))); cbn [negb ensure res_bind];
        [split; [done|naive_solver lia]|naive_solver].
    + destruct (Z.ltb_spec now (ap_CancellableUntil (state a))); cbn [ensure res_bind]; [|split; [done|naive_solver lia]].
      destruct (Z.ltb_spec MaxReasonLen (RuneCountInString (TrimSpace reason))); cbn [negb ensure res_bind];
        [split; [done|naive_solver lia]|naive_solver].
  - unfold CancelByStaff, cancel. rewrite <- current_pending, <- (current_confirmed _ now).
    repeat case_bool_decide; cbn [orb ensure res_bind]; try naive_solver;
      (destruct (Z.ltb_spec MaxReasonLen (RuneCountInString (TrimSpace reason))); cbn [negb ensure res_bind];
        [split; [done|naive_solver lia]|naive_solver]).
  - unfold Expire, Before. destruct (ap_Status (state a)) eqn:Es; try naive_solver.
    destruct (ap_PendingUntil (state a)) as [u|] eqn:Eu; [|naive_solver].
    destruct (Z.ltb_spec now u); [split; [done|]; intros [(_ & v & [= <-] & ?) _]; lia|]. naive_solver.
  - unfold Complete, finish, Before. rewrite <- (current_confirmed _ now). case_bool_decide; cbn [ensure res_bind]; [|naive_solver].
    destruct (Z.ltb_spec now (ap_Start (state a))); cbn [negb ensure res_bind]; [split; [done|naive_solver lia]|naive_solver].
  - unfold MarkNoShow, finish, Before. rewrite <- (current_confirmed _ now). case_bool_decide; cbn [ensure res_bind]; [|naive_solver].
    destruct (Z.ltb_spec now (ap_Start (state a))); cbn [negb ensure res_bind]; [split; [done|naive_solver lia]|naive_solver].
Qed.

Lemma version_int64 a : appointment_ok a → int64 (ap_Version a + 1) = ap_Version a + 1.
Proof.
  intros Hok. apply int64_id. pose proof (ok_version _ Hok) as Hv. unfold in_int64, min_int64, max_int64.
  destruct (ap_Status a); lia.
Qed.

Lemma enabled_transition op a now : enabled op a now → transition (ap_Status a) (target op) = true.
Proof. destruct op; cbn [enabled target]; intros H; destruct (ap_Status a) eqn:E; try done; naive_solver. Qed.

Lemma change_ok op a now :
  appointment_ok (state a) → enabled op (state a) now →
  let a' := change a (cancellation_of op now (ap_Cancellation (state a))) (target op) now in
  appointment_ok (state a') ∧ ap_Version (state a') = ap_Version (state a) + 1 ∧ same_booking (state a) (state a').
Proof.
  intros Hok He a'. pose proof (enabled_transition _ _ _ He) as Ht.
  split; [|split; [by apply version_int64|by repeat split]]. constructor; cbn [change state a'].
  - destruct op; simpl; split; done.
  - pose proof (ok_cancelled _ Hok) as Hc.
    assert (Hn : ap_Cancellation (state a) = None).
    { destruct (ap_Cancellation (state a)) eqn:E; [|done]. rewrite (proj2 Hc) in Ht by done. by destruct op. }
    destruct op; simpl; rewrite ?Hn; split; done.
  - apply (ok_deadline _ Hok).
  - cbn [ap_Version ap_Status]. rewrite version_int64 by done. pose proof (ok_version _ Hok) as Hv.
    destruct op; cbn [target] in *; destruct (ap_Status (state a)); try done; lia.
  - apply (ok_customer _ Hok).
  - apply (ok_services _ Hok).
Qed.

(** C7. The lifecycle. Whatever is tried on an appointment, and whenever:
    it succeeds exactly when the rules allow it at that moment (a pending
    booking past its expiry counts as expired, the customer's deadline is the
    booking's own, completion waits for the start); then the status moves
    along an arrow of the diagram, the version goes up by one, exactly one
    event records the move, nothing else of the booking changes and the
    appointment stays well formed. Otherwise the refusal says whether the
    status forbids it (naming the status as of now) or the time or reason does. *)
Theorem lifecycle_step op a now :
  appointment_ok (state a) →
  match apply_op op a now with
  | Ok a' =>
      enabled op (state a) now ∧
      transition (ap_Status (state a)) (ap_Status (state a')) = true ∧ ap_Status (state a') = target op ∧
      ap_Version (state a') = ap_Version (state a) + 1 ∧ same_booking (state a) (state a') ∧
      events a' = events a ++ [StatusChanged (ap_Status (state a)) (state a')] ∧ appointment_ok (state a')
  | Err (TransitionError act s) =>
      ¬ enabled op (state a) now ∧ act = op_action op ∧ s = current (state a) now ∧
      (op ≠ OpExpire → transition s (target op) = false)
  | Err e =>
      ¬ enabled op (state a) now ∧ transition (current (state a) now) (target op) = true ∧
      (e = ErrTooLateToCancel ∨ e = ErrNotStarted ∨ e = ErrReasonTooLong)
  end.
Proof.
  intros Hok. destruct (apply_op op a now) as [a'|e] eqn:E.
  - apply apply_op_ok in E as [He ->]. pose proof (change_ok op a now Hok He) as (? & ? & ?).
    split; [done|]. split; [by eapply enabled_transition|]. done.
  - assert (Hne : ¬ enabled op (state a) now).
    { intros He. rewrite (proj2 (apply_op_ok op a now _) (conj He eq_refl)) in E. done. }
    destruct op; cbn [apply_op target op_action] in E |- *.
    + unfold Confirm in E. case_bool_decide as Hc; [done|]. injection E as <-. split; [done|]. split; [done|]. split; [done|].
      intros _. by destruct (current (state a) now).
    + unfold Reject in E. case_bool_decide as Hc; [done|]. injection E as <-. split; [done|]. split; [done|]. split; [done|].
      intros _. by destruct (current (state a) now).
    + unfold CancelByCustomer, cancel in E. destruct (current (state a) now) eqn:Ec; cbn [res_bind] in E;
        try (injection E as <-; done);
        (destruct (Before now _); [|injection E as <-; split; [done|]; split; [done|by left]]);
        cbn [ensure res_bind] in E; (destruct (negb _); [done|]); injection E as <-; split; [done| |done|]; (split; [done|]); by right; right.
    + unfold CancelByStaff, cancel in E. destruct (current (state a) now) eqn:Ec; cbn in E;
        try (injection E as <-; done); (destruct (negb _); [done|]); injection E as <-; split; [done| |done|]; (split; [done|]); by right; right.
    + unfold Expire in E. destruct (ap_Status (state a)); try (injection E as <-; done).
      destruct (ap_PendingUntil (state a)) as [u|]; [|injection E as <-; done]. destruct (Before now u); [injection E as <-; done|done].
    + unfold Complete, finish in E. case_bool_decide as Hc; cbn [ensure res_bind] in E.
      * destruct (negb _); [done|]. injection E as <-. rewrite Hc. split; [done|]. split; [done|]. by right; left.
      * injection E as <-. split; [done|]. split; [done|]. split; [done|]. intros _. by destruct (current (state a) now).
    + unfold MarkNoShow, finish in E. case_bool_decide as Hc; cbn [ensure res_bind] in E.
      * destruct (negb _); [done|]. injection E as <-. rewrite Hc. split; [done|]. split; [done|]. by right; left.
      * injection E as <-. split; [done|]. split; [done|]. split; [done|]. intros _. by destruct (current (state a) now).
Qed.

(** ** Booking *)

Definition sum_of {A} (f : A → Z) (l : list A) : Z := foldr (λ x n, f x + n) 0 l.

(** What catalog's rules and the table's CHECKs promise of a booked service. *)
Definition item_ok (it : Item) : Prop :=
  5 * Minute ≤ item_Duration it ≤ 480 * Minute ∧ currency (item_Price it) = SAR ∧ 0 ≤ amount (item_Price it) ≤ 10000000.

Lemma sum_of_bounds {A} (f : A → Z) lo hi l :
  Forall (λ x, lo ≤ f x ≤ hi) l → lo * Z.of_nat (length l) ≤ sum_of f l ≤ hi * Z.of_nat (length l).
Proof.
  induction 1 as [|x l Hx _ IH]; simpl; [lia|]. unfold sum_of in *. rewrite Nat2Z.inj_succ, !Z.mul_succ_r. lia.
Qed.

Lemma totals_spec items d p :
  Forall item_ok items → (length items ≤ 1000)%nat → 0 ≤ d ≤ 1000000000000000000 → 0 ≤ p ≤ 1000000000000 →
  totals d (Halalas p) items = Ok (d + sum_of item_Duration items, Halalas (p + sum_of (λ it, amount (item_Price it)) items)).
Proof.
  intros Hok. revert d p. assert (Hgen : ∀ k d p, (length items ≤ k)%nat → (k ≤ 1000)%nat →
    0 ≤ d ≤ 4000000000000000000 - Z.of_nat k * (480 * Minute) → 0 ≤ p ≤ 1000000000000000 - Z.of_nat k * 10000000 →
    totals d (Halalas p) items = Ok (d + sum_of item_Duration items, Halalas (p + sum_of (λ it, amount (item_Price it)) items))).
  { induction Hok as [|it items (Hd & Hc & Ha) _ IH]; intros k d p Hk Hk' Hdr Hpr; cbn [totals sum_of foldr].
    - by rewrite !Z.add_0_r.
    - destruct k as [|k]; [simpl in Hk; lia|]. cbn [length] in Hk. rewrite Nat2Z.inj_succ, Z.mul_succ_l in Hdr, Hpr.
      assert (Eadd : Money_Add (Halalas p) (item_Price it) = Ok (Halalas (p + amount (item_Price it)))).
      { rewrite Money_Add_spec; [|unfold money_ok, in_int64, min_int64, max_int64; cbn; lia..].
        rewrite decide_False by (rewrite Hc; intros Hx; by apply Hx).
        rewrite decide_True by (unfold in_int64, min_int64, max_int64; cbn; lia). done. }
      rewrite Eadd. cbn [res_map_err res_bind]. unfold dur_add.
      unfold Minute, Second, Millisecond, Microsecond in *. rewrite int64_id by (unfold in_int64, min_int64, max_int64; lia).
      rewrite (IH k) by lia. unfold sum_of. by rewrite <- !Z.add_assoc. }
  intros d p Hl Hd Hp. apply (Hgen 1000%nat); [done|lia|unfold Minute, Second, Millisecond, Microsecond; lia|lia].
Qed.

Definition book_refusal (b : Booking) : option book_error :=
  if decide ((length (bk_Items b) = 0)%nat ∨ (MaxServices < length (bk_Items b))%nat) then Some ErrNoServices
  else if decide (MaxNoteLen < RuneCountInString (bk_Note b)) then Some ErrNoteTooLong
  else if decide (MaxCustomerNameLen < RuneCountInString (TrimSpace (bk_CustomerName b))) then Some ErrCustomerNameTooLong
  else if decide (bk_Customer b = MkID 0 ∧ (bk_Source b ≠ Some SourceStaff ∨ TrimSpace (bk_CustomerName b) = "")) then Some ErrNoCustomer
  else None.

Definition must_wait (b : Booking) : Prop := bk_AutoConfirm b = false ∧ bk_Source b ≠ Some SourceStaff.

#[export] Instance must_wait_dec b : Decision (must_wait b).
Proof. unfold must_wait. apply _. Defined.

Lemma ID_IsZero_true {T} (id : ID T) : ID_IsZero id = true ↔ id = MkID 0.
Proof. unfold ID_IsZero. rewrite bool_decide_eq_true. destruct id; simpl. split; [by intros ->|by intros [= ->]]. Qed.

(** The appointment [Book] makes. *)
Definition booked (b : Booking) (now : time) : Snapshot :=
  let end_ := bk_Start b + sum_of item_Duration (bk_Items b) in
  MkSnapshot (bk_ID b) (bk_Business b) (bk_Branch b) (bk_Barber b) (bk_Customer b) (TrimSpace (bk_CustomerName b)) (bk_Items b)
    (bk_Start b) end_ (end_ + bk_Buffer b) (Halalas (sum_of (λ it, amount (item_Price it)) (bk_Items b)))
    (if decide (must_wait b) then StatusPending else StatusConfirmed) (default SourceCustomerApp (bk_Source b))
    (bk_Assignment b) (bk_Note b) (if decide (must_wait b) then Some (dbTime now + bk_PendingExpiry b) else None)
    (bk_Start b - Z.max (bk_CancellationWindow b) 0) None 1 (dbTime now) (dbTime now).

Lemma Book_cases b now :
  Forall item_ok (bk_Items b) →
  Book b now = match book_refusal b with
               | Some e => Err e
               | None => Ok (MkAppointment (booked b now) [AppointmentBooked (booked b now)])
               end.
Proof.
  intros Hit. unfold Book, book_refusal, MaxServices.
  destruct (decide ((length (bk_Items b) = 0)%nat ∨ (5 < length (bk_Items b))%nat)) as [Hl|Hl].
  { replace ((length (bk_Items b) =? 0)%nat || (5 <? length (bk_Items b))%nat) with true; [done|]. symmetry.
    rewrite orb_true_iff, Nat.eqb_eq, Nat.ltb_lt. done. }
  replace ((length (bk_Items b) =? 0)%nat || (5 <? length (bk_Items b))%nat) with false
    by (symmetry; apply orb_false_iff; rewrite Nat.eqb_neq, Nat.ltb_ge; lia).
  cbn [negb ensure res_bind].
  destruct (Z.ltb_spec MaxNoteLen (RuneCountInString (bk_Note b)));
    [by rewrite decide_True by done|rewrite decide_False by lia; cbn [negb ensure res_bind]].
  destruct (Z.ltb_spec MaxCustomerNameLen (RuneCountInString (TrimSpace (bk_CustomerName b))));
    [by rewrite decide_True by done|rewrite decide_False by lia; cbn [negb ensure res_bind]].
  assert (Hsrc : bool_decide (default SourceCustomerApp (bk_Source b) = SourceStaff) = bool_decide (bk_Source b = Some SourceStaff))
    by (destruct (bk_Source b) as [[]|]; done).
  destruct (decide (bk_Customer b = MkID 0 ∧ _)) as [Hc|Hc].
  { replace (ID_IsZero (bk_Customer b) && _) with true; [done|]. symmetry. destruct Hc as [Hz Hc].
    rewrite (proj2 (ID_IsZero_true _) Hz), Hsrc. cbn [andb]. apply orb_true_iff. rewrite negb_true_iff, bool_decide_eq_false, bool_decide_eq_true. done. }
  replace (ID_IsZero (bk_Customer b) && _) with false.
  2:{ symmetry. apply not_true_iff_false. rewrite andb_true_iff, ID_IsZero_true, Hsrc, orb_true_iff, negb_true_iff, bool_decide_eq_false, bool_decide_eq_true.
      done. }
  cbn [negb ensure res_bind]. rewrite totals_spec by (done || lia). cbn [res_bind fst snd]. rewrite !Z.add_0_l.
  assert (Hp : negb (bk_AutoConfirm b) && bool_decide (default SourceCustomerApp (bk_Source b) = SourceCustomerApp) = bool_decide (must_wait b)).
  { apply eq_bool_prop_intro. rewrite andb_True, !bool_decide_spec, Is_true_true, negb_true_iff. unfold must_wait.
    destruct (bk_Source b) as [[]|]; simpl; naive_solver. }
  rewrite Hp. unfold booked, GoTime.Add. rewrite Z.add_opp_r. destruct (decide (must_wait b)) as [w|w]; [by rewrite (bool_decide_eq_true_2 _ w)|by rewrite (bool_decide_eq_false_2 _ w)].
Qed.

Lemma booked_ok b now :
  book_refusal b = None → appointment_ok (booked b now).
Proof.
  unfold book_refusal. repeat (case_decide; [done|]). intros _. constructor; cbn [booked ap_Status ap_PendingUntil ap_Cancellation ap_CancellableUntil ap_Start ap_Version ap_Customer ap_Source ap_CustomerName ap_Items].
  - by case_decide.
  - by case_decide.
  - lia.
  - case_decide; lia.
  - intros Hz. destruct (bk_Source b) as [[]|]; simpl; split; try done; naive_solver.
  - unfold MaxServices in *. lia.
Qed.

(** Booking accepts exactly the requests that name one to five services,
    keep the note and the name to their lengths and say who the customer is
    (only the shop may book someone without an account, by name), and refuses
    the others for the first of those reasons that applies. The appointment
    lasts the sum of the services' durations and costs the sum of their
    prices, exactly - no 64-bit overflow is in reach; it holds the barber from
    its start to the end of the buffer; it waits for the shop, until its
    expiry, exactly when a customer booked it and the branch does not confirm
    by itself; and it is recorded with one event. *)
Theorem booking_as_asked b now :
  Forall item_ok (bk_Items b) → 0 ≤ bk_Buffer b →
  match Book b now with
  | Err e => book_refusal b = Some e
  | Ok a =>
      let s := state a in
      book_refusal b = None ∧ appointment_ok s ∧
      ap_Start s = bk_Start b ∧ ap_End s - ap_Start s = sum_of item_Duration (bk_Items b) ∧
      Busy s = MkInterval (bk_Start b) (ap_End s + bk_Buffer b) ∧ nonempty (Busy s) ∧
      ap_Price s = Halalas (sum_of (λ it, amount (item_Price it)) (bk_Items b)) ∧
      (ap_Status s = StatusPending ↔ must_wait b) ∧ (ap_Status s = StatusConfirmed ↔ ¬ must_wait b) ∧
      (must_wait b → ap_PendingUntil s = Some (dbTime now + bk_PendingExpiry b)) ∧
      ap_Version s = 1 ∧ events a = [AppointmentBooked s]
  end.
Proof.
  intros Hit Hbuf. rewrite Book_cases by done. destruct (book_refusal b) as [e|] eqn:Er; [done|].
  cbn [state events]. split; [done|]. split; [by apply booked_ok|]. split; [done|].
  assert (Hlen : (0 < length (bk_Items b))%nat).
  { unfold book_refusal in Er. destruct (decide ((length (bk_Items b) = 0)%nat ∨ _)) as [|Hl]; [done|]. lia. }
  assert (Hpos : 0 < sum_of item_Duration (bk_Items b)).
  { pose proof (sum_of_bounds item_Duration (5 * Minute) (480 * Minute) (bk_Items b)) as Hb.
    destruct Hb as [Hb _]; [eapply Forall_impl; [exact Hit|]; by intros x [? _]|].
    unfold Minute, Second, Millisecond, Microsecond in Hb. lia. }
  assert (HB : Busy (booked b now) = MkInterval (bk_Start b) (bk_Start b + sum_of item_Duration (bk_Items b) + bk_Buffer b)).
  { unfold Busy, NewInterval, After. cbn [booked ap_Start ap_BusyUntil]. by rewrite (proj2 (Z.ltb_lt _ _)) by lia. }
  split; [cbn [booked ap_End ap_Start]; lia|]. split; [exact HB|]. split; [rewrite HB; unfold nonempty; simpl; lia|].
  split; [done|]. cbn [booked ap_Status ap_PendingUntil ap_Version]. destruct (decide (must_wait b)); naive_solver.
Qed.

(** Trying operations one after another; a refused one changes nothing. *)
Fixpoint run (ops : list (Op * time)) (a : Appointment) : Appointment :=
  match ops with
  | [] => a
  | (op, now) :: ops => run ops (match apply_op op a now with Ok a' => a' | Err _ => a end)
  end.

(** The statuses an event list tells, in order. *)
Definition event_status (e : Event) : Status :=
  match e with AppointmentBooked s | StatusChanged _ s => ap_Status s end.

Record history_ok (s0 : Snapshot) (a : Appointment) : Prop := {
  hist_ok : appointment_ok (state a);
  hist_same : same_booking s0 (state a);
  hist_version : Z.of_nat (length (events a)) = ap_Version (state a);
  hist_last : event_status <$> last (events a) = Some (ap_Status (state a));
  hist_path : ∀ i e e', events a !! i = Some e → events a !! S i = Some e' → transition (event_status e) (event_status e') = true }.

Lemma history_step s0 op a now a' : history_ok s0 a → apply_op op a now = Ok a' → history_ok s0 a'.
Proof.
  intros Hh [He ->]%apply_op_ok. destruct (change_ok op a now (hist_ok _ _ Hh) He) as (Hok & Hv & Hsame).
  pose proof (enabled_transition _ _ _ He) as Ht. set (c := change a _ _ _) in *.
  assert (Eev : events c = events a ++ [StatusChanged (ap_Status (state a)) (state c)]) by done.
  assert (Est : ap_Status (state c) = target op) by done. clearbody c.
  constructor.
  - done.
  - pose proof (hist_same _ _ Hh) as H0. unfold same_booking in *. naive_solver congruence.
  - rewrite Eev, length_app, Hv, <- (hist_version _ _ Hh). simpl. lia.
  - by rewrite Eev, last_snoc.
  - intros i e e' Hi Hi'. rewrite Eev in Hi, Hi'.
    destruct (decide (S i < length (events a))%nat) as [Hlt|Hge].
    + rewrite lookup_app_l in Hi, Hi' by lia. by eapply (hist_path _ _ Hh).
    + pose proof (lookup_lt_Some _ _ _ Hi') as Hl. rewrite length_app in Hl. simpl in Hl.
      assert (Ei : S i = length (events a)) by lia. rewrite Ei, lookup_app_r, Nat.sub_diag in Hi' by lia. injection Hi' as <-.
      rewrite lookup_app_l in Hi by lia. pose proof (hist_last _ _ Hh) as Hl'. rewrite last_lookup in Hl'.
      replace (pred (length (events a))) with i in Hl' by lia. rewrite Hi in Hl'. injection Hl' as ->. simpl. by rewrite Est.
Qed.

Lemma run_history s0 ops a : history_ok s0 a → history_ok s0 (run ops a).
Proof.
  revert a. induction ops as [|[op now] ops IH]; intros a Ha; simpl; [done|]. apply IH.
  destruct (apply_op op a now) as [a'|] eqn:E; [by eapply history_step|done].
Qed.

Lemma final_refuses op a now e : active (ap_Status (state a)) = false → apply_op op a now = Ok e → False.
Proof.
  intros Hf [He _]%apply_op_ok. apply enabled_transition in He. destruct (ap_Status (state a)), op; done.
Qed.

Lemma run_final ops a : active (ap_Status (state a)) = false → run ops a = a.
Proof.
  intros Hf. induction ops as [|[op now] ops IH]; simpl; [done|]. destruct (apply_op op a now) eqn:E; [|done].
  exfalso. by eapply final_refuses.
Qed.

(** A whole life. From a booking, whatever is tried, in any order and at
    any times: the appointment stays well formed; its services, times, price
    and people never change; its recorded events walk the lifecycle's arrows
    from the booking to its current status and number its version; it changes
    at most twice; and once it is rejected, expired, cancelled, completed or a
    no-show, nothing further changes it. *)
Theorem lifecycle_history b now a ops :
  Forall item_ok (bk_Items b) → Book b now = Ok a →
  let a' := run ops a in
  appointment_ok (state a') ∧ same_booking (state a) (state a') ∧
  Z.of_nat (length (events a')) = ap_Version (state a') ∧ (length (events a') ≤ 3)%nat ∧
  head (events a') = Some (AppointmentBooked (state a)) ∧
  (∀ i e e', events a' !! i = Some e → events a' !! S i = Some e' → transition (event_status e) (event_status e') = true) ∧
  event_status <$> last (events a') = Some (ap_Status (state a')) ∧
  (active (ap_Status (state a')) = false → ∀ more, run more a' = a').
Proof.
  intros Hit Hb a'. rewrite Book_cases in Hb by done. destruct (book_refusal b) eqn:Er; [done|]. injection Hb as <-.
  cbn [state]. set (s0 := booked b now) in *.
  assert (Hh : history_ok s0 a').
  { apply run_history. constructor; cbn [state events]; [by apply booked_ok|by repeat split|done|done|by intros [|[]] ?? ?]. }
  pose proof (hist_version _ _ Hh) as Hv. pose proof (ok_version _ (hist_ok _ _ Hh)) as Hvr.
  split; [apply Hh|]. split; [apply Hh|]. split; [done|]. split; [destruct (ap_Status (state a')); lia|]. split.
  - assert (Hhead : ∀ ops x, head (events x) = Some (AppointmentBooked s0) → head (events (run ops x)) = Some (AppointmentBooked s0)).
    { clear. induction ops as [|[op t] ops IH]; intros x Hx; simpl; [done|]. apply IH.
      destruct (apply_op op x t) as [x'|] eqn:E; [|done]. apply apply_op_ok in E as [_ ->]. cbn [change events].
      by destruct (events x). }
    by apply Hhead.
  - split; [apply Hh|]. split; [apply Hh|]. intros Hf more. by apply run_final.
Qed.

(** ** On a concrete booking *)

Definition haircut : Item := MkItem (MkID 7) (MkLocalized "قص شعر" "Haircut") (30 * Minute) (Halalas 5000).
Definition beard : Item := MkItem (MkID 8) (MkLocalized "لحية" "Beard") (15 * Minute) (Halalas 2500).

Definition demo_booking : Booking :=
  MkBooking (MkID 100) (MkID 1) (MkID 2) (MkID 3) (MkID 50) "" None (demo_at 1080) [haircut; beard] (10 * Minute) AnyBarber ""
    false (30 * Minute) (2 * Hour).

Lemma demo_items_ok : Forall item_ok (bk_Items demo_booking).
Proof. repeat constructor; vm_compute; congruence. Qed.

Definition demo_appointment : Appointment := MkAppointment (booked demo_booking (demo_at 900)) [AppointmentBooked (booked demo_booking (demo_at 900))].

Lemma booking_as_asked_witness :
  Book demo_booking (demo_at 900) = Ok demo_appointment ∧
  Busy (state demo_appointment) = MkInterval (demo_at 1080) (demo_at 1135) ∧ ap_Price (state demo_appointment) = Halalas 7500.
Proof.
  assert (E : Book demo_booking (demo_at 900) = Ok demo_appointment) by reflexivity. split; [exact E|].
  pose proof (booking_as_asked demo_booking (demo_at 900) demo_items_ok ltac:(vm_compute; congruence)) as H. rewrite E in H.
  destruct H as (_ & _ & _ & _ & HB & _ & HP & _). rewrite HB, HP. split; reflexivity.
Defined.

Lemma lifecycle_step_witness :
  appointment_ok (state demo_appointment) ∧
  (∃ a, apply_op OpConfirm demo_appointment (demo_at 910) = Ok a ∧ ap_Status (state a) = StatusConfirmed) ∧
  apply_op OpConfirm demo_appointment (demo_at 930) = Err (TransitionError ActionConfirm StatusExpired).
Proof.
  assert (Hok : appointment_ok (state demo_appointment)) by (apply booked_ok; reflexivity).
  split; [exact Hok|]. split; [|reflexivity].
  pose proof (lifecycle_step OpConfirm demo_appointment (demo_at 910) Hok) as H.
  destruct (apply_op OpConfirm demo_appointment (demo_at 910)) as [a|e] eqn:E; [|discriminate E].
  exists a. split; [reflexivity|]. exact (proj1 (proj2 (proj2 H))).
Defined.

(** Confirmed, then cancelled by the customer in time; a late no-show is refused. *)
Lemma lifecycle_history_witness :
  let a := run [(OpConfirm, demo_at 905); (OpCancelByCustomer "ill", demo_at 950); (OpMarkNoShow, demo_at 1100)] demo_appointment in
  ap_Status (state a) = StatusCancelled ∧ ap_Version (state a) = 3 ∧ ∀ more, run more a = a.
Proof.
  destruct (lifecycle_history demo_booking (demo_at 900) demo_appointment
    [(OpConfirm, demo_at 905); (OpCancelByCustomer "ill", demo_at 950); (OpMarkNoShow, demo_at 1100)] demo_items_ok eq_refl)
    as (_ & _ & _ & _ & _ & _ & _ & Hf).
  split; [reflexivity|]. split; [reflexivity|]. apply Hf. reflexivity.
Defined.
