(* ===== verification/BookStore.v ===== *)
(** * Booking's tables
      (src/internal/booking/adapters/postgres/book.go, change.go, appointments.go,
      queries.sql; src/migrations/00017 to 00020)

    The rows of the booking schema, what the tables refuse, and the
    repository's transactions: booking under an Idempotency-Key, changing one
    appointment under its row lock, expiring what is due. An error rolls the
    whole transaction back. Row and advisory locks make transactions on the
    same rows, customer or barber follow one another, so each runs whole;
    [StillWorking] and the rows [SKIP LOCKED] skips are arguments.

    Every instant the program writes is a whole microsecond, so the columns'
    rounding plays no part, and texts are valid UTF-8. *)
From S2P Require Import Prelude GoTime GoText Shared BookSlots Appointment.
Open Scope Z_scope.

(** ** Rows *)

(** booking.appointments; [during] is [[r_starts_at, r_busy_until)]. *)
Record ApptRow := MkApptRow {
  r_id : AppointmentID;
  r_business : BusinessID;
  r_branch : BranchID;
  r_staff : StaffID;
  r_customer : option UserID;
  r_customer_name : string;
  r_status : Status;
  r_source : Source;
  r_assignment : Assignment;
  r_starts_at : time;
  r_ends_at : time;
  r_busy_until : time;
  r_price_amount : Z;
  r_price_currency : string;
  r_note : string;
  r_pending_until : option time;
  r_cancellable_until : time;
  r_cancelled_by : option Canceller;
  r_cancel_reason : string;
  r_cancelled_at : option time;
  r_version : Z;
  r_created_at : time;
  r_updated_at : time }.

(** booking.appointment_items, one appointment's rows. *)
Record ItemRow := MkItemRow {
  ir_position : Z;
  ir_service : ServiceID;
  ir_name_ar : string;
  ir_name_en : string;
  ir_minutes : Z;
  ir_price_amount : Z;
  ir_price_currency : string }.

Record KeyRow := MkKeyRow { k_request_hash : string; k_appointment : option AppointmentID; k_created_at : time }.

(** The outbox event of an appointment event (events.go): its type and payload. *)
Record OutboxEvent := MkOutbox {
  ob_Type : string;
  ob_OccurredAt : time;
  ob_Appointment : AppointmentID;
  ob_Business : BusinessID;
  ob_Branch : BranchID;
  ob_Barber : StaffID;
  ob_Customer : option UserID;
  ob_From : option Status;
  ob_Status : Status;
  ob_StartsAt : time;
  ob_EndsAt : time;
  ob_CancelledBy : option Canceller;
  ob_Reason : string }.

Record BookDB := MkBookDB {
  appointments : gmap AppointmentID ApptRow;
  appointment_items : gmap AppointmentID (list ItemRow);
  idempotency_keys : gmap (UserID * UUID) KeyRow;
  book_outbox : list OutboxEvent }.

Definition empty_book_db : BookDB := MkBookDB ∅ ∅ ∅ [].

Definition set_appointments (db : BookDB) (t : gmap AppointmentID ApptRow) : BookDB :=
  MkBookDB t (appointment_items db) (idempotency_keys db) (book_outbox db).
Definition set_keys (db : BookDB) (t : gmap (UserID * UUID) KeyRow) : BookDB :=
  MkBookDB (appointments db) (appointment_items db) t (book_outbox db).

Definition toInt16 (n : Z) : res book_error Z := if (n <? -32768) || (max_int16 <? n) then Err ErrStorage else Ok n.
Definition toInt32 (n : Z) : res book_error Z := if (n <? -2147483648) || (max_int32 <? n) then Err ErrStorage else Ok n.

Definition customerOf (c : option UserID) : UserID := default (MkID 0) c.
Definition optional (c : UserID) : option UserID := if ID_IsZero c then None else Some c.

(** ** What the tables refuse *)

Definition is_some {A} (o : option A) : bool := match o with Some _ => true | None => false end.

Definition row_checks (r : ApptRow) : bool :=
  (0 <=? r_price_amount r) && (r_price_amount r <=? 50000000) && bool_decide (r_price_currency r = SAR)
  && (RuneCountInString (r_note r) <=? 300) && (RuneCountInString (r_cancel_reason r) <=? 300) && (0 <? r_version r)
  && (r_starts_at r <? r_ends_at r) && (r_ends_at r <=? r_busy_until r)
  && Bool.eqb (bool_decide (r_status r = StatusPending)) (is_some (r_pending_until r))
  && Bool.eqb (bool_decide (r_status r = StatusCancelled)) (is_some (r_cancelled_at r) && is_some (r_cancelled_by r))
  && (r_cancellable_until r <=? r_starts_at r)
  && (RuneCountInString (r_customer_name r) <=? 100)
  && (is_some (r_customer r) || (bool_decide (r_source r = SourceStaff) && negb (bool_decide (r_customer_name r = "")))).

Definition item_checks (i : ItemRow) : bool :=
  (1 <=? ir_position i) && (ir_position i <=? 5) && negb (bool_decide (ir_name_ar i = ""))
  && (5 <=? ir_minutes i) && (ir_minutes i <=? 480) && (0 <=? ir_price_amount i) && (ir_price_amount i <=? 10000000)
  && bool_decide (ir_price_currency i = SAR).

Definition during (r : ApptRow) : Interval := MkInterval (r_starts_at r) (r_busy_until r).

(** The exclusion constraint [appointments_no_overlap]: both active, the same
    barber, ranges that overlap. *)
Definition clashes (r o : ApptRow) : bool :=
  active (r_status r) && active (r_status o) && bool_decide (r_staff r = r_staff o) && Overlaps (during r) (during o).

Definition excluded (t : gmap AppointmentID ApptRow) (r : ApptRow) : bool :=
  existsb (λ e, negb (bool_decide (e.1 = r_id r)) && clashes r e.2) (map_to_list t).

(** ** Loading (appointments.go) *)

Definition hydrate_item (i : ItemRow) : res book_error Item :=
  let! name := res_map_err (λ _, ErrStorage) (NewLocalizedText (ir_name_ar i) (ir_name_en i)) in
  let! price := res_map_err (λ _, ErrStorage) (NewMoney (ir_price_amount i) (ir_price_currency i)) in
  Ok (MkItem (ir_service i) name (int64 (ir_minutes i * Minute)) price).

Definition hydrate (r : ApptRow) (rows : list ItemRow) : res book_error Appointment :=
  let! items := res_mapM hydrate_item rows in
  let! price := res_map_err (λ _, ErrStorage) (NewMoney (r_price_amount r) (r_price_currency r)) in
  let cancellation := match r_cancelled_by r, r_cancelled_at r with
                      | Some by_, Some at_ => Some (MkCancellation by_ (r_cancel_reason r) at_)
                      | _, _ => None
                      end in
  Ok (Rehydrate (MkSnapshot (r_id r) (r_business r) (r_branch r) (r_staff r) (customerOf (r_customer r)) (r_customer_name r) items
    (r_starts_at r) (r_ends_at r) (r_busy_until r) price (r_status r) (r_source r) (r_assignment r) (r_note r)
    (r_pending_until r) (r_cancellable_until r) cancellation (r_version r) (r_created_at r) (r_updated_at r))).

Definition by_position (a b : ItemRow) : bool := ir_position a <=? ir_position b.

Definition withItems (db : BookDB) (r : ApptRow) : res book_error Appointment :=
  hydrate r (sort_by by_position (default [] (appointment_items db !! r_id r))).

Definition load (db : BookDB) (customer : UserID) (id : AppointmentID) : res book_error Appointment :=
  match appointments db !! id with
  | Some r => if bool_decide (r_customer r = Some customer) then withItems db r else Err ErrNotFound
  | None => Err ErrNotFound
  end.

Definition ByCustomer := load.

(** [ORDER BY starts_at, id]. *)
Definition by_start_id (a b : ApptRow) : bool :=
  (r_starts_at a <? r_starts_at b) || ((r_starts_at a =? r_starts_at b) && (value (r_id a) <=? value (r_id b))%N).

Definition Day_list (db : BookDB) (business : BusinessID) (branch : BranchID) (from to : time) (barber : option StaffID)
  : res book_error (list Appointment) :=
  let rows := sort_by by_start_id (filter (λ r, r_business r = business ∧ r_branch r = branch ∧ from ≤ r_starts_at r < to ∧
                (barber = None ∨ barber = Some (r_staff r))) (snd <$> map_to_list (appointments db))) in
  res_mapM (withItems db) rows.

(** [BusyIntervals]: active appointments overlapping [[from, to)], by barber
    and start. *)
Definition by_during (a b : ApptRow) : bool := r_starts_at a <=? r_starts_at b.

Definition busy_rows (db : BookDB) (staff : StaffID) (from to : time) : list ApptRow :=
  sort_by by_during (filter (λ r, r_staff r = staff ∧ active (r_status r) = true ∧ Overlaps (during r) (MkInterval from to) = true)
    (snd <$> map_to_list (appointments db))).

(** The map [Busy] returns, as a lookup; only the staff asked for have entries. *)
Definition Busy_of (db : BookDB) (staff : list StaffID) (from to : time) (s : StaffID) : res book_error (list Interval) :=
  if bool_decide (s ∈ staff)
  then res_mapM (λ r, res_map_err (λ _, ErrStorage) (NewInterval (r_starts_at r) (r_busy_until r))) (busy_rows db s from to)
  else Ok [].

(** ** Writing (book.go) *)

Fixpoint item_rows (position : Z) (items : list Item) : res book_error (list ItemRow) :=
  match items with
  | [] => Ok []
  | it :: items =>
      let! pos := toInt16 position in
      let! minutes := toInt16 (Z.quot (item_Duration it) Minute) in
      let row := MkItemRow pos (item_Service it) (ar (item_Name it)) (en (item_Name it)) minutes
                   (amount (item_Price it)) (currency (item_Price it)) in
      check! item_checks row else ErrStorage in
      let! rows := item_rows (position + 1) items in
      Ok (row :: rows)
  end.

Definition row_of (s : Snapshot) (version : Z) : ApptRow :=
  MkApptRow (ap_ID s) (ap_Business s) (ap_Branch s) (ap_Barber s) (optional (ap_Customer s)) (ap_CustomerName s) (ap_Status s)
    (ap_Source s) (ap_Assignment s) (ap_Start s) (ap_End s) (ap_BusyUntil s) (amount (ap_Price s)) (currency (ap_Price s))
    (ap_Note s) (ap_PendingUntil s) (ap_CancellableUntil s) None "" None version (ap_CreatedAt s) (ap_UpdatedAt s).

(** The answers of the INSERT: the exclusion constraint is told apart. *)
Inductive insert_result := Inserted (db : BookDB) | Excluded | Refused (e : book_error).

Definition insert (db : BookDB) (a : Appointment) : insert_result :=
  let s := state a in
  match toInt32 (ap_Version s) with
  | Err e => Refused e
  | Ok version =>
      let r := row_of s version in
      if negb (row_checks r) || is_some (appointments db !! ap_ID s) then Refused ErrStorage
      else if excluded (appointments db) r then Excluded
      else match item_rows 1 (ap_Items s) with
           | Err e => Refused e
           | Ok rows => Inserted (MkBookDB (<[ap_ID s := r]> (appointments db)) (<[ap_ID s := rows]> (appointment_items db))
                                    (idempotency_keys db) (book_outbox db))
           end
  end.

(** ** Events *)

Definition event_type (s : Status) : option string :=
  match s with
  | StatusConfirmed => Some "booking.appointment_confirmed"
  | StatusRejected => Some "booking.appointment_rejected"
  | StatusCancelled => Some "booking.appointment_cancelled"
  | StatusCompleted => Some "booking.appointment_completed"
  | StatusNoShow => Some "booking.appointment_no_show"
  | StatusExpired => Some "booking.appointment_expired"
  | StatusPending => None
  end%string.

Definition statusChanged (from : Status) (a : Snapshot) : res book_error OutboxEvent :=
  match event_type (ap_Status a) with
  | None => Err ErrInternal
  | Some typ =>
      Ok (MkOutbox typ (ap_UpdatedAt a) (ap_ID a) (ap_Business a) (ap_Branch a) (ap_Barber a) (optional (ap_Customer a))
            (Some from) (ap_Status a) (ap_Start a) (ap_End a)
            (can_By <$> ap_Cancellation a) (from_option can_Reason "" (ap_Cancellation a)))
  end.

Definition to_outbox (e : Event) : res book_error OutboxEvent :=
  match e with
  | AppointmentBooked a =>
      Ok (MkOutbox "booking.appointment_booked" (ap_CreatedAt a) (ap_ID a) (ap_Business a) (ap_Branch a) (ap_Barber a)
            (optional (ap_Customer a)) None (ap_Status a) (ap_Start a) (ap_End a) None "")
  | StatusChanged from a => statusChanged from a
  end.

Definition publish (db : BookDB) (evs : list Event) : res book_error BookDB :=
  let! out := res_mapM to_outbox evs in
  Ok (MkBookDB (appointments db) (appointment_items db) (idempotency_keys db) (book_outbox db ++ out)).

(** ** Booking *)

Record BookingAttempt := MkAttempt {
  att_Requester : UserID;
  att_Branch : BranchID;
  att_Key : UUID;
  att_RequestHash : string;
  att_Now : time;
  att_Allow : option (Z → res book_error unit);
  att_Drafts : list Appointment;
  att_StillWorking : Appointment → res book_error bool }.

(** What an earlier request with the key booked. *)
Definition replay (db : BookDB) (requester : UserID) (key : UUID) (requestHash : string) : res book_error (option Appointment) :=
  match idempotency_keys db !! (requester, key) with
  | None => Ok None
  | Some row =>
      check! bool_decide (k_request_hash row = requestHash) else ErrIdempotencyReused in
      match k_appointment row with
      | None => Err ErrIdempotencyReused
      | Some id =>
          match appointments db !! id with
          | None => Err ErrStorage
          | Some r => let! a := withItems db r in Ok (Some a)
          end
      end
  end.

(** [Replay]: outside a transaction. *)
Definition Replay := replay.

Definition upcoming (customer : UserID) (branch : BranchID) (now : time) (r : ApptRow) : bool :=
  bool_decide (r_customer r = Some customer) && bool_decide (r_branch r = branch) && active (r_status r) && (now <? r_starts_at r).

Definition CountActiveBookings (db : BookDB) (customer : UserID) (branch : BranchID) (now : time) : Z :=
  Z.of_nat (length (filter (λ r, upcoming customer branch now r = true) (snd <$> map_to_list (appointments db)))).

(** One draft, in a savepoint: [Ok None] rolls it back and tries the next. *)
Definition try_draft (db : BookDB) (draft : Appointment) (stillWorking : Appointment → res book_error bool) : res book_error (option BookDB) :=
  let! working := stillWorking draft in
  if negb working then Ok None
  else match insert db draft with
       | Inserted db' => Ok (Some db')
       | Excluded => Ok None
       | Refused e => Err e
       end.

Definition SettleIdempotencyKey (db : BookDB) (k : UserID * UUID) (id : AppointmentID) : BookDB :=
  match idempotency_keys db !! k with
  | Some row => set_keys db (<[k := MkKeyRow (k_request_hash row) (Some id) (k_created_at row)]> (idempotency_keys db))
  | None => db
  end.

Fixpoint try_drafts (db : BookDB) (att : BookingAttempt) (drafts : list Appointment) : res book_error (Appointment * BookDB) :=
  match drafts with
  | [] => Err ErrSlotUnavailable
  | draft :: drafts =>
      let! r := try_draft db draft (att_StillWorking att) in
      match r with
      | None => try_drafts db att drafts
      | Some db' =>
          let! db'' := publish (SettleIdempotencyKey db' (att_Requester att, att_Key att) (ap_ID (state draft))) (events draft) in
          Ok (draft, db'')
      end
  end.

(** The idempotency_keys table keeps 32-byte hashes only. *)
Definition hash_check (h : string) : bool := len h =? 32.

(** [Store.Book]: the appointment, whether it is a replay, and the tables. *)
Definition Store_Book (db : BookDB) (att : BookingAttempt) : res book_error (option Appointment * bool * BookDB) :=
  check! hash_check (att_RequestHash att) else ErrStorage in
  let k := (att_Requester att, att_Key att) in
  match idempotency_keys db !! k with
  | Some _ =>
      let! r := replay db (att_Requester att) (att_Key att) (att_RequestHash att) in
      Ok (r, is_some r, db)
  | None =>
      let db := set_keys db (<[k := MkKeyRow (att_RequestHash att) None (att_Now att)]> (idempotency_keys db)) in
      check! negb (length (att_Drafts att) =? 0)%nat else ErrSlotUnavailable in
      let! _ := match att_Allow att with
                | Some allow => allow (CountActiveBookings db (att_Requester att) (att_Branch att) (att_Now att))
                | None => Ok tt
                end in
      let! r := try_drafts db att (att_Drafts att) in
      Ok (Some r.1, false, r.2)
  end.

(** ** Changing (change.go) *)

(** [UpdateAppointmentStatus] under the version that was loaded. *)
Definition update_row (r : ApptRow) (s : Snapshot) (version : Z) : ApptRow :=
  MkApptRow (r_id r) (r_business r) (r_branch r) (r_staff r) (r_customer r) (r_customer_name r) (ap_Status s) (r_source r)
    (r_assignment r) (r_starts_at r) (r_ends_at r) (r_busy_until r) (r_price_amount r) (r_price_currency r) (r_note r)
    (ap_PendingUntil s) (r_cancellable_until r) (can_By <$> ap_Cancellation s) (from_option can_Reason "" (ap_Cancellation s))
    (can_At <$> ap_Cancellation s) version (r_created_at r) (ap_UpdatedAt s).

Definition save (db : BookDB) (row : ApptRow) (a : Appointment) : res book_error BookDB :=
  let! version := toInt32 (ap_Version (state a)) in
  match appointments db !! r_id row with
  | Some r =>
      check! r_version r =? r_version row else ErrStorage in
      let r' := update_row r (state a) version in
      check! row_checks r' && negb (excluded (appointments db) r') else ErrStorage in
      Ok (set_appointments db (<[r_id row := r']> (appointments db)))
  | None => Err ErrStorage
  end.

(** One change in one transaction, of the row [lock] finds. *)
Definition change_row (db : BookDB) (lock : option ApptRow) (change : Appointment → res book_error Appointment)
  : res book_error (Appointment * BookDB) :=
  match lock with
  | None => Err ErrNotFound
  | Some row =>
      let! a := withItems db row in
      let! a' := change a in
      let! db := save db row a' in
      let! db := publish db (events a') in
      Ok (a', db)
  end.

Definition find_row (db : BookDB) (id : AppointmentID) (p : ApptRow → bool) : option ApptRow :=
  match appointments db !! id with
  | Some r => if p r then Some r else None
  | None => None
  end.

Definition ChangeMine (db : BookDB) (customer : UserID) (id : AppointmentID) (change : Appointment → res book_error Appointment)
  : res book_error (Appointment * BookDB) :=
  change_row db (find_row db id (λ r, bool_decide (r_customer r = Some customer))) change.

Definition ChangeAtBusiness (db : BookDB) (business : BusinessID) (id : AppointmentID) (change : Appointment → res book_error Appointment)
  : res book_error (Appointment * BookDB) :=
  change_row db (find_row db id (λ r, bool_decide (r_business r = business))) change.

(** [ORDER BY pending_until, id]. *)
Definition by_expiry (a b : ApptRow) : bool :=
  let ua := default 0 (r_pending_until a) in
  let ub := default 0 (r_pending_until b) in
  (ua <? ub) || ((ua =? ub) && (value (r_id a) <=? value (r_id b))%N).

Definition due (now : time) (r : ApptRow) : Prop :=
  r_status r = StatusPending ∧ ∃ until, r_pending_until r = Some until ∧ until ≤ now.

#[export] Instance due_dec now r : Decision (due now r).
Proof.
  unfold due. refine (and_dec _ _). destruct (r_pending_until r) as [u|]; [|right; by intros (? & ? & _)].
  destruct (decide (u ≤ now)); [left; by exists u|right]. by intros (? & [= <-] & ?).
Defined.

(** [locked]: the rows other transactions hold right now. *)
Definition DuePendingForUpdate (db : BookDB) (now : time) (limit : nat) (locked : AppointmentID → bool) : list ApptRow :=
  take limit (sort_by by_expiry (filter (λ r, due now r ∧ locked (r_id r) = false) (snd <$> map_to_list (appointments db)))).

Definition expire_row (now : time) (acc : BookDB * list Event) (row : ApptRow) : res book_error (BookDB * list Event) :=
  let! a := withItems acc.1 row in
  let! a' := Expire a now in
  let! db := save acc.1 row a' in
  Ok (db, acc.2 ++ events a').

Definition ExpireDue (db : BookDB) (now : time) (limit : nat) (locked : AppointmentID → bool) : res book_error (nat * BookDB) :=
  let! _ := toInt32 (Z.of_nat limit) in
  let rows := DuePendingForUpdate db now limit locked in
  let! r := res_foldM (expire_row now) (db, []) rows in
  let! db := publish r.1 r.2 in
  Ok (length rows, db).

(** ** What rows hold *)

(** The row of an appointment, cancellation included. *)
Definition row_for (s : Snapshot) : ApptRow :=
  MkApptRow (ap_ID s) (ap_Business s) (ap_Branch s) (ap_Barber s) (optional (ap_Customer s)) (ap_CustomerName s) (ap_Status s)
    (ap_Source s) (ap_Assignment s) (ap_Start s) (ap_End s) (ap_BusyUntil s) (amount (ap_Price s)) (currency (ap_Price s))
    (ap_Note s) (ap_PendingUntil s) (ap_CancellableUntil s) (can_By <$> ap_Cancellation s)
    (from_option can_Reason "" (ap_Cancellation s)) (can_At <$> ap_Cancellation s) (ap_Version s) (ap_CreatedAt s) (ap_UpdatedAt s).

Definition item_storable (it : Item) : Prop :=
  item_ok it ∧ (Minute | item_Duration it) ∧ NewLocalizedText (ar (item_Name it)) (en (item_Name it)) = Ok (item_Name it).

(** Appointments the tables keep whole. *)
Record storable (s : Snapshot) : Prop := {
  st_ok : appointment_ok s;
  st_items : Forall item_storable (ap_Items s);
  st_price : currency (ap_Price s) = SAR ∧ 0 ≤ amount (ap_Price s) ≤ 50000000;
  st_times : ap_Start s < ap_End s ≤ ap_BusyUntil s;
  st_note : RuneCountInString (ap_Note s) ≤ 300;
  st_name : RuneCountInString (ap_CustomerName s) ≤ 100;
  st_reason c : ap_Cancellation s = Some c → RuneCountInString (can_Reason c) ≤ 300 }.

Lemma customerOf_optional c : customerOf (optional c) = c.
Proof.
  unfold optional, customerOf. destruct (ID_IsZero c) eqn:E; [|done]. apply ID_IsZero_true in E. by subst.
Qed.

Lemma is_some_spec {A} (o : option A) : is_some o = true ↔ o ≠ None.
Proof. by destruct o. Qed.

Lemma eqb_iff (b c : bool) : Bool.eqb b c = true ↔ (b = true ↔ c = true).
Proof. destruct b, c; simpl; naive_solver. Qed.

Lemma row_for_checks s : storable s → row_checks (row_for s) = true.
Proof.
  intros H. unfold row_checks. cbn [row_for r_price_amount r_price_currency r_note r_cancel_reason r_version r_starts_at r_ends_at
    r_busy_until r_status r_pending_until r_cancelled_at r_cancelled_by r_cancellable_until r_customer_name r_customer r_source].
  pose proof (st_ok _ H) as Hok. destruct (st_price _ H) as [Hc Ha]. pose proof (st_times _ H). pose proof (st_note _ H). pose proof (st_name _ H).
  assert (Hr : RuneCountInString (from_option can_Reason "" (ap_Cancellation s)) ≤ 300).
  { destruct (ap_Cancellation s) as [c|] eqn:E; [by apply (st_reason _ H)|done]. }
  assert (Hcan : ap_Status s = StatusCancelled ↔ is_some (can_At <$> ap_Cancellation s) = true ∧ is_some (can_By <$> ap_Cancellation s) = true).
  { rewrite (ok_cancelled _ Hok). destruct (ap_Cancellation s); simpl; naive_solver. }
  assert (Hpend : ap_Status s = StatusPending ↔ is_some (ap_PendingUntil s) = true) by (rewrite is_some_spec; apply (ok_pending _ Hok)).
  assert (Hv : 0 < ap_Version s) by (pose proof (ok_version _ Hok); lia).
  pose proof (ok_deadline _ Hok) as Hd.
  assert (Hcust : is_some (optional (ap_Customer s)) = true ∨ ap_Source s = SourceStaff ∧ ap_CustomerName s ≠ "").
  { unfold optional. destruct (ID_IsZero (ap_Customer s)) eqn:E; [right|by left]. apply (ok_customer _ Hok). by apply ID_IsZero_true. }
  repeat (apply andb_true_intro; split); rewrite ?Z.leb_le, ?Z.ltb_lt, ?bool_decide_eq_true; try lia; try done.
  - by rewrite eqb_iff, bool_decide_eq_true.
  - by rewrite eqb_iff, bool_decide_eq_true, andb_true_iff.
  - apply orb_true_iff. rewrite andb_true_iff, negb_true_iff, bool_decide_eq_true, bool_decide_eq_false. done.
Qed.

Lemma toInt32_le v : 0 ≤ v ≤ max_int32 → toInt32 v = Ok v.
Proof. unfold max_int32. intros ?. unfold toInt32, max_int32. rewrite (proj2 (Z.ltb_ge _ _)), (proj2 (Z.ltb_ge _ _)) by lia. done. Qed.

Lemma toInt32_small v : 0 ≤ v ≤ 3 → toInt32 v = Ok v.
Proof. intros ?. apply toInt32_le. unfold max_int32. lia. Qed.

Lemma toInt16_small v : 0 ≤ v ≤ 480 → toInt16 v = Ok v.
Proof. intros ?. unfold toInt16, max_int16. rewrite (proj2 (Z.ltb_ge _ _)), (proj2 (Z.ltb_ge _ _)) by lia. done. Qed.

Definition item_row (position : Z) (it : Item) : ItemRow :=
  MkItemRow position (item_Service it) (ar (item_Name it)) (en (item_Name it)) (Z.quot (item_Duration it) Minute)
    (amount (item_Price it)) (currency (item_Price it)).

Fixpoint item_rows_of (position : Z) (items : list Item) : list ItemRow :=
  match items with
  | [] => []
  | it :: items => item_row position it :: item_rows_of (position + 1) items
  end.

Lemma item_minutes it : item_storable it → 5 ≤ Z.quot (item_Duration it) Minute ≤ 480 ∧ Z.quot (item_Duration it) Minute * Minute = item_Duration it.
Proof.
  intros ((Hd & _) & [k Hk] & _). rewrite Hk, Z.quot_mul by done. rewrite Hk in Hd.
  unfold Minute, Second, Millisecond, Microsecond in *. lia.
Qed.

Lemma item_rows_ok position items :
  Forall item_storable items → 1 ≤ position → position + Z.of_nat (length items) ≤ 6 →
  item_rows position items = Ok (item_rows_of position items).
Proof.
  intros Hit. revert position. induction Hit as [|it items Hi _ IH]; intros position Hp Hl; cbn [item_rows item_rows_of]; [done|].
  cbn [length] in Hl. rewrite Nat2Z.inj_succ in Hl. destruct (item_minutes it Hi) as [Hm _]. destruct Hi as ((_ & Hcur & Ha) & _ & Hname).
  rewrite toInt16_small by lia. cbn [res_bind]. rewrite toInt16_small by lia. cbn [res_bind].
  fold (item_row position it). assert (Hc : item_checks (item_row position it) = true).
  { unfold item_checks. cbn [item_row ir_position ir_name_ar ir_minutes ir_price_amount ir_price_currency]. repeat (apply andb_true_intro; split);
      rewrite ?Z.leb_le, ?negb_true_iff, ?bool_decide_eq_false, ?bool_decide_eq_true; try lia; try done. unfold NewLocalizedText in Hname. case_bool_decide as Hn; [done|]. injection Hname as Hname.
    intros E. rewrite E in Hn. by apply Hn. }
  rewrite Hc. cbn [ensure res_bind]. rewrite IH by lia. done.
Qed.

Lemma hydrate_item_row position it : item_storable it → hydrate_item (item_row position it) = Ok it.
Proof.
  intros Hi. destruct (item_minutes it Hi) as [Hm Hmul]. destruct Hi as ((Hd & Hcur & _) & _ & Hname).
  unfold hydrate_item. cbn [item_row ir_name_ar ir_name_en ir_price_amount ir_price_currency ir_service ir_minutes].
  rewrite Hname. cbn [res_map_err res_bind]. unfold NewMoney, minorPerMajor. rewrite Hcur, bool_decide_eq_true_2 by done. cbn [res_map_err res_bind].
  rewrite Hmul, int64_id by (unfold in_int64, min_int64, max_int64; unfold Minute, Second, Millisecond, Microsecond in Hd; lia).
  destruct it as [? ? ? [? ?]]. simpl in *. by subst.
Qed.

Lemma hydrate_item_rows position items : Forall item_storable items → res_mapM hydrate_item (item_rows_of position items) = Ok items.
Proof.
  intros Hit. revert position. induction Hit as [|it items Hi _ IH]; intros position; cbn [item_rows_of res_mapM]; [done|].
  rewrite hydrate_item_row by done. cbn [res_bind]. by rewrite IH.
Qed.

Lemma item_rows_sorted position items : sort_by by_position (item_rows_of position items) = item_rows_of position items.
Proof.
  apply sort_by_id.
  assert (Hpos : ∀ items p r, r ∈ item_rows_of p items → p ≤ ir_position r).
  { clear. induction items as [|it items IH]; intros p r; cbn [item_rows_of]; [by intros ?%not_elem_of_nil|].
    intros [->|Hr]%elem_of_cons; [done|]. specialize (IH _ _ Hr). lia. }
  revert position. induction items as [|it items IH]; intros position; cbn [item_rows_of]; constructor; [apply IH|].
  apply Forall_forall. intros r Hr. apply Hpos in Hr. unfold by_position. apply Z.leb_le. cbn. lia.
Qed.

(** Reading back what was written. *)
Lemma hydrate_row_for s :
  storable s → hydrate (row_for s) (sort_by by_position (item_rows_of 1 (ap_Items s))) = Ok (Rehydrate s).
Proof.
  intros H. rewrite item_rows_sorted. unfold hydrate. rewrite hydrate_item_rows by apply (st_items _ H). cbn [res_bind].
  destruct (st_price _ H) as [Hc _]. unfold NewMoney, minorPerMajor. cbn [row_for r_price_amount r_price_currency].
  rewrite Hc, bool_decide_eq_true_2 by done. cbn [res_map_err res_bind]. change (r_customer (row_for s)) with (optional (ap_Customer s)). rewrite customerOf_optional.
  destruct s as [? ? ? ? ? ? ? ? ? ? [am cu] ? ? ? ? ? ? can ? ? ?]. cbn in *. subst cu. destruct can as [[? ? ?]|]; done.
Qed.

Lemma rows_inj s s' :
  storable s → storable s' → row_for s = row_for s' → item_rows_of 1 (ap_Items s) = item_rows_of 1 (ap_Items s') → s = s'.
Proof.
  intros Hs Hs' Er Ei. pose proof (hydrate_row_for s Hs) as H. rewrite Er, Ei, (hydrate_row_for s' Hs') in H. unfold Rehydrate in H; congruence.
Qed.

(** ** What every transaction keeps *)

Record tables_ok (db : BookDB) : Prop := {
  so_row id r : appointments db !! id = Some r →
    ∃ s, storable s ∧ ap_ID s = id ∧ r = row_for s ∧ appointment_items db !! id = Some (item_rows_of 1 (ap_Items s));
  so_apart id id' r r' : id ≠ id' → appointments db !! id = Some r → appointments db !! id' = Some r' → clashes r r' = false }.

(** Every saved Idempotency-Key names a saved appointment. *)
Definition keys_ok (db : BookDB) : Prop :=
  ∀ k row, idempotency_keys db !! k = Some row → ∃ id, k_appointment row = Some id ∧ is_Some (appointments db !! id).

Definition store_ok (db : BookDB) : Prop := tables_ok db ∧ keys_ok db.

Lemma empty_book_db_ok : store_ok empty_book_db.
Proof. split; [by constructor|done]. Qed.

(** The appointments the tables hold, as the domain sees them. *)
Definition diary (db : BookDB) : gmap AppointmentID Snapshot :=
  map_imap (λ _ r, match withItems db r with Ok a => Some (state a) | Err _ => None end) (appointments db).

Lemma withItems_ok db s :
  storable s → appointment_items db !! ap_ID s = Some (item_rows_of 1 (ap_Items s)) →
  withItems db (row_for s) = Ok (Rehydrate s).
Proof. intros Hs Hi. unfold withItems. cbn [row_for r_id]. rewrite Hi. by apply hydrate_row_for. Qed.

Lemma diary_lookup db id s :
  tables_ok db → diary db !! id = Some s ↔
    ap_ID s = id ∧ storable s ∧ appointments db !! id = Some (row_for s) ∧
    appointment_items db !! id = Some (item_rows_of 1 (ap_Items s)).
Proof.
  intros Hok. unfold diary. rewrite map_lookup_imap. split.
  - destruct (appointments db !! id) as [r|] eqn:E; simpl; [|done].
    destruct (so_row _ Hok _ _ E) as (s0 & Hst & <- & -> & Hitems). rewrite withItems_ok by done. by intros [= <-].
  - intros (<- & Hst & -> & Hitems). simpl. by rewrite withItems_ok.
Qed.

Lemma diary_none db id : tables_ok db → diary db !! id = None ↔ appointments db !! id = None.
Proof.
  intros Hok. unfold diary. rewrite map_lookup_imap. destruct (appointments db !! id) as [r|] eqn:E; simpl; [|done].
  destruct (so_row _ Hok _ _ E) as (s0 & Hst & Hid & -> & Hitems). subst id. by rewrite withItems_ok.
Qed.

(** Two appointments that hold one barber at once. *)
Definition double_booked (s o : Snapshot) : Prop :=
  ap_Barber s = ap_Barber o ∧ active (ap_Status s) = true ∧ active (ap_Status o) = true ∧
  ∃ t, ap_Start s ≤ t < ap_BusyUntil s ∧ ap_Start o ≤ t < ap_BusyUntil o.

Lemma clashes_spec s o : storable s → storable o → clashes (row_for s) (row_for o) = true ↔ double_booked s o.
Proof.
  intros Hs Ho. unfold clashes, double_booked, during. cbn [row_for r_status r_staff r_starts_at r_busy_until].
  pose proof (st_times _ Hs). pose proof (st_times _ Ho).
  rewrite !andb_true_iff, bool_decide_eq_true, Overlaps_spec by (unfold nonempty; simpl; lia). unfold in_span. cbn [i_start i_end]. tauto.
Qed.

Lemma clashes_sym r o : clashes r o = clashes o r.
Proof.
  unfold clashes, Overlaps. rewrite (andb_comm (active (r_status r))), (andb_comm (Before (i_start (during r)) _)).
  f_equal. f_equal. apply bool_decide_ext. by split.
Qed.

Lemma excluded_false t r : excluded t r = false ↔ ∀ id o, t !! id = Some o → id ≠ r_id r → clashes r o = false.
Proof.
  unfold excluded. rewrite existsb_elem_false. split.
  - intros H id o Ho Hne. specialize (H (id, o)). simpl in H. rewrite bool_decide_eq_false_2 in H by done. apply H. by apply elem_of_map_to_list.
  - intros H [id o] Hin. apply elem_of_map_to_list in Hin. simpl. case_bool_decide; [done|]. by eapply H.
Qed.

(** Saving [s] over its own row. *)
Definition with_row (db : BookDB) (s : Snapshot) : BookDB := set_appointments db (<[ap_ID s := row_for s]> (appointments db)).

(** Adding [s]. *)
Definition with_new (db : BookDB) (s : Snapshot) : BookDB :=
  MkBookDB (<[ap_ID s := row_for s]> (appointments db)) (<[ap_ID s := item_rows_of 1 (ap_Items s)]> (appointment_items db))
    (idempotency_keys db) (book_outbox db).

Lemma with_new_ok db s :
  tables_ok db → storable s → appointments db !! ap_ID s = None → excluded (appointments db) (row_for s) = false →
  tables_ok (with_new db s) ∧ diary (with_new db s) = <[ap_ID s := s]> (diary db).
Proof.
  intros Hok Hs Hnew Hex. rewrite excluded_false in Hex. assert (Ht : tables_ok (with_new db s)).
  { constructor; cbn [with_new appointments appointment_items].
    - intros id r [[<- <-]|[Hne Hr]]%lookup_insert_Some.
      + exists s. rewrite lookup_insert_eq. done.
      + destruct (so_row _ Hok _ _ Hr) as (s' & ? & ? & ? & Hi). exists s'. by rewrite lookup_insert_ne by done.
    - intros id id' r r' Hne [[<- <-]|[N Hr]]%lookup_insert_Some [[E' <-]|[N' Hr']]%lookup_insert_Some; [done| | |].
      + by eapply Hex.
      + subst id'. rewrite clashes_sym. eapply Hex; [exact Hr|]. cbn. congruence.
      + by apply (so_apart _ Hok id id'). }
  split; [done|]. apply map_eq. intros id. apply option_eq. intros s'. rewrite lookup_insert_Some, !diary_lookup by done.
  cbn [with_new appointments appointment_items]. destruct (decide (ap_ID s = id)) as [<-|Hne].
  - rewrite !lookup_insert_eq. split; [|intros [[_ <-]|[? _]]; done].
    intros (_ & Hst & Er & Ei). left. split; [done|]. apply (inj Some) in Er, Ei. by apply rows_inj.
  - rewrite !lookup_insert_ne by done. naive_solver.
Qed.

Lemma same_booking_row s s' : same_booking s s' → update_row (row_for s) s' (ap_Version s') = row_for s'.
Proof.
  intros (E1 & E2 & E3 & E4 & E5 & E6 & E7 & E8 & E9 & E10 & E11 & E12 & E13 & E14 & E15 & E16).
  unfold update_row, row_for. cbn. by rewrite E1, E2, E3, E4, E5, E6, E8, E9, E10, E11, E12, E13, E14, E15, E16.
Qed.

Lemma with_row_ok db s s' :
  tables_ok db → diary db !! ap_ID s = Some s → storable s' → same_booking s s' →
  (active (ap_Status s') = true → active (ap_Status s) = true) →
  tables_ok (with_row db s') ∧ diary (with_row db s') = <[ap_ID s := s']> (diary db) ∧
  excluded (appointments db) (row_for s') = false.
Proof.
  intros Hok Hd Hs' Hsame Hact. pose proof Hd as (_ & Hs & Hr & Hi)%diary_lookup; [|done].
  assert (Hid : ap_ID s' = ap_ID s) by (symmetry; apply Hsame).
  assert (Hitems : ap_Items s' = ap_Items s) by (symmetry; apply Hsame).
  assert (Hcl : ∀ o, clashes (row_for s') o = true → clashes (row_for s) o = true).
  { intros o. unfold clashes, during. destruct Hsame as (_ & _ & _ & Hb & _ & _ & _ & Hst & _ & Hbu & _).
    cbn [row_for r_status r_staff r_starts_at r_busy_until]. rewrite Hb, Hst, Hbu, !andb_true_iff. naive_solver. }
  assert (Hex : excluded (appointments db) (row_for s') = false).
  { apply excluded_false. intros id o Ho Hne. cbn [row_for r_id] in Hne. apply not_true_iff_false. intros Hc%Hcl.
    rewrite (so_apart _ Hok (ap_ID s) id) in Hc; congruence. }
  rewrite excluded_false in Hex.
  assert (Ht : tables_ok (with_row db s')).
  { constructor; cbn [with_row set_appointments appointments appointment_items]; rewrite Hid.
    - intros id r [[<- <-]|[Hne Hrr]]%lookup_insert_Some; [exists s'; by rewrite Hitems|by apply (so_row _ Hok)].
    - intros id id' r r' Hne [[E <-]|[N Hrr]]%lookup_insert_Some [[E' <-]|[N' Hr']]%lookup_insert_Some; [congruence| | |].
      + eapply Hex; [exact Hr'|]. cbn. congruence.
      + rewrite clashes_sym. eapply Hex; [exact Hrr|]. cbn. congruence.
      + by apply (so_apart _ Hok id id'). }
  split; [done|]. split; [|by apply excluded_false].
  apply map_eq. intros id. apply option_eq. intros x. rewrite lookup_insert_Some, !diary_lookup by done.
  cbn [with_row set_appointments appointments appointment_items]. rewrite Hid. destruct (decide (ap_ID s = id)) as [<-|Hne].
  - rewrite lookup_insert_eq, Hi. split.
    + intros (_ & Hst & Er & Ei). left. split; [done|]. apply (inj Some) in Er, Ei. apply rows_inj; [done..|by rewrite Hitems].
    + intros [[_ <-]|[? _]]; [|done]. by rewrite Hitems.
  - rewrite !lookup_insert_ne by done. naive_solver.
Qed.

(** ** One change *)

Lemma change_storable op a now :
  storable (state a) → enabled op (state a) now →
  storable (state (change a (cancellation_of op now (ap_Cancellation (state a))) (target op) now)).
Proof.
  intros Hs He. pose proof (change_ok op a now (st_ok _ Hs) He) as (Hok & _ & _).
  constructor; [exact Hok|apply (st_items _ Hs)|apply (st_price _ Hs)|apply (st_times _ Hs)|apply (st_note _ Hs)|apply (st_name _ Hs)|].
  cbn [change state ap_Cancellation]. intros c Hc. destruct op; cbn [cancellation_of enabled] in *;
    try (by apply (st_reason _ Hs)); injection Hc as <-; apply He.
Qed.

Lemma transition_active s s' : transition s s' = true → active s' = true → active s = true.
Proof. by destruct s. Qed.

(** An event a change records always has its contract. *)
Definition outbox_event (typ : string) (from : option Status) (at_ : time) (a : Snapshot) : OutboxEvent :=
  MkOutbox typ at_ (ap_ID a) (ap_Business a) (ap_Branch a) (ap_Barber a) (optional (ap_Customer a)) from (ap_Status a) (ap_Start a) (ap_End a)
    (can_By <$> ap_Cancellation a) (from_option can_Reason "" (ap_Cancellation a)).

Definition changed_event (from : Status) (a : Snapshot) : OutboxEvent :=
  outbox_event (default ""%string (event_type (ap_Status a))) (Some from) (ap_UpdatedAt a) a.

Lemma statusChanged_ok from a : transition from (ap_Status a) = true → to_outbox (StatusChanged from a) = Ok (changed_event from a).
Proof.
  cbn [to_outbox]. unfold statusChanged, changed_event, outbox_event. destruct from, (ap_Status a); done.
Qed.

Definition with_events (db : BookDB) (out : list OutboxEvent) : BookDB :=
  MkBookDB (appointments db) (appointment_items db) (idempotency_keys db) (book_outbox db ++ out).

Lemma with_events_ok db out : tables_ok db → tables_ok (with_events db out).
Proof. intros Hok. constructor; apply Hok. Qed.

Lemma diary_with_events db out : diary (with_events db out) = diary db.
Proof. done. Qed.

Lemma save_ok db s a' op now :
  tables_ok db → diary db !! ap_ID s = Some s → apply_op op (Rehydrate s) now = Ok a' →
  save db (row_for s) a' = Ok (with_row db (state a')) ∧
  tables_ok (with_row db (state a')) ∧ diary (with_row db (state a')) = <[ap_ID s := state a']> (diary db) ∧
  storable (state a') ∧ events a' = [StatusChanged (ap_Status s) (state a')] ∧
  transition (ap_Status s) (ap_Status (state a')) = true ∧ same_booking s (state a').
Proof.
  intros Hok Hd Hop. pose proof Hd as (_ & Hs & Hr & _)%diary_lookup; [|done].
  apply apply_op_ok in Hop as [He ->]. cbn [Rehydrate state] in *.
  pose proof (change_storable op (Rehydrate s) now Hs He) as Hst. pose proof (change_ok op (Rehydrate s) now (st_ok _ Hs) He) as (Hok' & Hv & Hsame).
  pose proof (enabled_transition _ _ _ He) as Ht. cbn [Rehydrate state] in *. set (a' := change _ _ _ _) in *.
  assert (Estat : ap_Status (state a') = target op) by done. assert (Eev : events a' = [StatusChanged (ap_Status s) (state a')]) by done. clearbody a'.
  rewrite <- Estat in Ht.
  destruct (with_row_ok db s (state a') Hok Hd Hst Hsame (transition_active _ _ Ht)) as (Ht' & Hdd & Hex).
  assert (Hid : ap_ID (state a') = ap_ID s) by (symmetry; apply Hsame).
  split; [|done]. unfold save. rewrite toInt32_small by (pose proof (ok_version _ Hok') as Hvr; destruct (ap_Status (state a')); lia).
  cbn [res_bind]. cbn [row_for r_id r_version]. rewrite Hr. cbn [r_version row_for]. rewrite Z.eqb_refl. cbn [ensure res_bind].
  fold (row_for s). rewrite same_booking_row by done. rewrite row_for_checks, Hex by done. cbn [andb negb ensure res_bind].
  unfold with_row. by rewrite Hid.
Qed.

(** The change one transaction makes, as the domain sees it. *)
Definition lifecycle_change (f : Appointment → res book_error Appointment) : Prop :=
  ∀ a a', f a = Ok a' → ∃ op now, apply_op op a now = Ok a'.

Lemma change_row_spec db s f :
  store_ok db → lifecycle_change f → diary db !! ap_ID s = Some s →
  match f (Rehydrate s) with
  | Err e => change_row db (Some (row_for s)) f = Err e
  | Ok a' =>
      change_row db (Some (row_for s)) f = Ok (a', with_events (with_row db (state a')) [changed_event (ap_Status s) (state a')]) ∧
      store_ok (with_events (with_row db (state a')) [changed_event (ap_Status s) (state a')]) ∧
      diary (with_row db (state a')) = <[ap_ID s := state a']> (diary db)
  end.
Proof.
  intros [Hok Hkeys] Hf Hd. pose proof Hd as (_ & Hs & Hr & Hi)%diary_lookup; [|done].
  unfold change_row. rewrite withItems_ok by done. cbn [res_bind]. destruct (f (Rehydrate s)) as [a'|e] eqn:Ef; [|done].
  destruct (Hf _ _ Ef) as (op & now & Hop). destruct (save_ok db s a' op now Hok Hd Hop) as (Hsave & Ht & Hdd & Hst & Hev & Htr & Hsame).
  cbn [res_bind]. rewrite Hsave. cbn [res_bind]. unfold publish. rewrite Hev. cbn [res_mapM]. rewrite statusChanged_ok by done. cbn [res_bind].
  split; [done|]. split; [|done]. split; [by apply with_events_ok|].
  intros k row Hk. destruct (Hkeys k row Hk) as (id & Hid & Hsome). exists id. split; [done|].
  cbn [with_events with_row set_appointments appointments]. apply lookup_insert_is_Some. destruct (decide (ap_ID (state a') = id)); [by left|by right].
Qed.

(** ** Expiring *)

Definition expired (now : time) (s : Snapshot) : Snapshot :=
  state (change (Rehydrate s) (ap_Cancellation s) StatusExpired now).

Lemma due_enabled now s : due now (row_for s) ↔ enabled OpExpire s now.
Proof. done. Qed.

Lemma expire_due s now : due now (row_for s) → apply_op OpExpire (Rehydrate s) now = Ok (MkAppointment (expired now s) [StatusChanged StatusPending (expired now s)]).
Proof. intros Hd. apply apply_op_ok. split; [done|]. destruct Hd as [Hs _]. cbn in Hs. unfold expired, change, Rehydrate. cbn [state events]. by rewrite Hs. Qed.

Definition expire_event (now : time) (s : Snapshot) : Event := StatusChanged StatusPending (expired now s).

Lemma expire_fold now db ss evs :
  tables_ok db → NoDup (ap_ID <$> ss) → (∀ s, s ∈ ss → diary db !! ap_ID s = Some s ∧ due now (row_for s)) →
  ∃ db', res_foldM (expire_row now) (db, evs) (row_for <$> ss) = Ok (db', evs ++ (expire_event now <$> ss)) ∧ tables_ok db' ∧
    idempotency_keys db' = idempotency_keys db ∧ book_outbox db' = book_outbox db ∧
    (∀ id, is_Some (appointments db' !! id) ↔ is_Some (appointments db !! id)) ∧
    diary db' = list_to_map ((λ s, (ap_ID s, expired now s)) <$> ss) ∪ diary db.
Proof.
  revert db evs. induction ss as [|s ss IH]; intros db evs Hok Hnd Hss; rewrite ?fmap_nil, ?fmap_cons; cbn [res_foldM].
  - exists db. rewrite app_nil_r, list_to_map_nil, map_empty_union. done.
  - rewrite fmap_cons in Hnd. apply NoDup_cons in Hnd as [Hni Hnd]. destruct (Hss s ltac:(by left)) as [Hd Hdue].
    pose proof Hd as (_ & Hs & Hr & Hi)%diary_lookup; [|done].
    unfold expire_row at 1. cbn [fst snd]. rewrite withItems_ok by done. cbn [res_bind].
    pose proof (expire_due s now Hdue) as He. cbn [apply_op] in He. rewrite He. cbn [res_bind].
    destruct (save_ok db s _ OpExpire now Hok Hd He) as (-> & Ht & Hdd & Hst & _ & _ & Hsame). cbn [res_bind state events] in *.
    destruct (IH (with_row db (expired now s)) (evs ++ [expire_event now s])) as (db' & Hf & Hok' & Hk & Ho & Hdom & Hdiary); [done|done| |].
    { intros x Hx. rewrite Hdd, lookup_insert_ne; [apply Hss; by right|]. intros E. apply Hni. rewrite E. apply list_elem_of_fmap. by exists x. }
    exists db'. unfold expire_event in *. rewrite Hf, <- app_assoc. split; [done|]. split; [done|]. split; [done|]. split; [done|]. split.
    + intros id. rewrite Hdom. cbn [with_row set_appointments appointments]. rewrite lookup_insert_is_Some.
      change (ap_ID (expired now s)) with (ap_ID s).
      split; [intros [<-|[_ ?]]; [by rewrite Hr; eexists|done]|]. intros ?. destruct (decide (ap_ID s = id)); [by left|by right].
    + rewrite Hdiary, Hdd. cbn [list_to_map foldr]. rewrite <- insert_union_l. rewrite insert_union_r; [done|].
      apply not_elem_of_list_to_map_1. rewrite <- list_fmap_compose. exact Hni.
Qed.

(** The appointments one run takes: due, not locked, the first [limit] by
    expiry and ID. *)
Definition due_now (db : BookDB) (now : time) (limit : nat) (locked : AppointmentID → bool) (s : Snapshot) : Prop :=
  diary db !! ap_ID s = Some s ∧ row_for s ∈ DuePendingForUpdate db now limit locked.

Lemma rows_are_snapshots db (rows : list ApptRow) :
  tables_ok db → (∀ r, r ∈ rows → appointments db !! r_id r = Some r) →
  ∃ ss : list Snapshot, rows = row_for <$> ss ∧ ∀ s, s ∈ ss → diary db !! ap_ID s = Some s.
Proof.
  intros Hok. induction rows as [|r rows IH]; intros H; [exists []; split; [done|]; by intros s ?%not_elem_of_nil|].
  destruct IH as (ss & -> & Hss); [intros; apply H; by right|]. pose proof (H r ltac:(by left)) as Hr.
  destruct (so_row _ Hok _ _ Hr) as (s & Hs & Hid & -> & Hi). exists (s :: ss). split; [done|].
  intros x [->|Hx]%elem_of_cons; [|by apply Hss]. apply diary_lookup; [done|]. cbn [row_for r_id] in *. done.
Qed.

Lemma table_rows_nodup (t : gmap AppointmentID ApptRow) :
  (∀ id r, t !! id = Some r → r_id r = id) → NoDup (r_id <$> (snd <$> map_to_list t)).
Proof.
  intros H. rewrite <- list_fmap_compose. rewrite (list_fmap_ext _ fst); [apply NoDup_fst_map_to_list|].
  intros i [id r] Hi. apply list_elem_of_lookup_2, elem_of_map_to_list in Hi. simpl. by apply H.
Qed.

Lemma due_rows db now limit locked :
  tables_ok db →
  let rows := DuePendingForUpdate db now limit locked in
  NoDup (r_id <$> rows) ∧ (∀ r, r ∈ rows → appointments db !! r_id r = Some r ∧ due now r ∧ locked (r_id r) = false).
Proof.
  intros Hok rows.
  assert (Hid : ∀ id r, appointments db !! id = Some r → r_id r = id).
  { intros id r Hr. by destruct (so_row _ Hok _ _ Hr) as (s & _ & <- & -> & _). }
  set (all := snd <$> map_to_list (appointments db)). split.
  - unfold rows, DuePendingForUpdate. rewrite fmap_take. eapply sublist_NoDup; [|apply sublist_take].
    rewrite (fmap_Permutation _ _ _ (sort_by_perm _ _)). eapply sublist_NoDup; [apply (table_rows_nodup _ Hid)|].
    apply fmap_sublist, sublist_filter.
  - intros r Hr. unfold rows, DuePendingForUpdate in Hr.
    apply (subseteq_take limit) in Hr. apply elem_of_sort_by, list_elem_of_filter in Hr as [[Hdue Hl] Hr].
    apply list_elem_of_fmap in Hr as ([id r'] & -> & Hin). apply elem_of_map_to_list in Hin. cbn [snd] in *. split; [by rewrite (Hid _ _ Hin)|done].
Qed.

Lemma publish_expired now db ss :
  (∀ s, s ∈ ss → ap_Status s = StatusPending) →
  publish db (expire_event now <$> ss) = Ok (with_events db ((λ s, changed_event StatusPending (expired now s)) <$> ss)).
Proof.
  intros _. unfold publish. assert (E : res_mapM to_outbox (expire_event now <$> ss) = Ok ((λ s, changed_event StatusPending (expired now s)) <$> ss)).
  { induction ss as [|s ss IH]; [done|]. rewrite !fmap_cons. cbn [res_mapM]. unfold expire_event at 1.
    rewrite statusChanged_ok by done. cbn [res_bind]. by rewrite IH. }
  by rewrite E.
Qed.

Lemma ExpireDue_spec db now limit locked :
  store_ok db → Z.of_nat limit ≤ max_int32 →
  ∃ (ss : list Snapshot) db', ExpireDue db now limit locked = Ok (length ss, db') ∧ store_ok db' ∧ NoDup (ap_ID <$> ss) ∧
    (length ss ≤ limit)%nat ∧
    (∀ s, s ∈ ss → diary db !! ap_ID s = Some s ∧ due now (row_for s) ∧ locked (ap_ID s) = false) ∧
    ((length ss < limit)%nat → ∀ s, diary db !! ap_ID s = Some s → due now (row_for s) → locked (ap_ID s) = false → s ∈ ss) ∧
    idempotency_keys db' = idempotency_keys db ∧
    book_outbox db' = book_outbox db ++ ((λ s, changed_event StatusPending (expired now s)) <$> ss) ∧
    diary db' = list_to_map ((λ s, (ap_ID s, expired now s)) <$> ss) ∪ diary db.
Proof.
  intros [Hok Hkeys] Hlim. destruct (due_rows db now limit locked Hok) as [Hnd Hrows].
  destruct (rows_are_snapshots db (DuePendingForUpdate db now limit locked) Hok) as (ss & Ess & Hss); [intros r Hr; by apply Hrows|].
  assert (Hdue : ∀ s, s ∈ ss → diary db !! ap_ID s = Some s ∧ due now (row_for s) ∧ locked (ap_ID s) = false).
  { intros s Hs. split; [by apply Hss|]. destruct (Hrows (row_for s)) as (_ & ? & ?); [|done]. rewrite Ess. apply list_elem_of_fmap. by exists s. }
  assert (Hnd' : NoDup (ap_ID <$> ss)) by (rewrite Ess, <- list_fmap_compose in Hnd; exact Hnd).
  destruct (expire_fold now db ss [] Hok Hnd') as (db1 & Hf & Hok1 & Hk & Ho & Hdom & Hdiary); [intros s Hs; destruct (Hdue s Hs) as (? & ? & _); done|].
  exists ss, (with_events db1 ((λ s, changed_event StatusPending (expired now s)) <$> ss)).
  unfold ExpireDue. rewrite Ess. rewrite toInt32_le by lia. cbn [res_bind]. rewrite Hf. cbn [res_bind fst snd app].
  rewrite publish_expired by (intros s Hs; destruct (Hdue s Hs) as (_ & [? _] & _); done). cbn [res_bind]. rewrite length_fmap.
  split; [done|]. split; [split; [by apply with_events_ok|]|].
  { intros k row. cbn [with_events idempotency_keys appointments]. rewrite Hk. intros Hrow. destruct (Hkeys _ _ Hrow) as (id & ? & ?).
    exists id. split; [done|]. by apply Hdom. }
  split; [done|]. split.
  { rewrite <- (length_fmap row_for), <- Ess. unfold DuePendingForUpdate. rewrite length_take. lia. }
  split; [done|]. split; [|cbn [with_events idempotency_keys book_outbox]; rewrite Hk, Ho; done].
  intros Hlt s Hs Hd Hl. pose proof Hs as (_ & _ & Hr & _)%diary_lookup; [|done].
  assert (Hin : row_for s ∈ DuePendingForUpdate db now limit locked).
  { revert Hlt. rewrite <- (length_fmap row_for), <- Ess. unfold DuePendingForUpdate. rewrite length_take. intros Hlt.
    rewrite take_ge by lia. apply elem_of_sort_by, list_elem_of_filter. split; [done|].
    apply list_elem_of_fmap. exists (ap_ID s, row_for s). split; [done|]. by apply elem_of_map_to_list. }
  rewrite Ess in Hin. apply list_elem_of_fmap in Hin as (s' & Er & Hin). destruct (Hdue s' Hin) as (Hd' & _ & _).
  assert (Eid : ap_ID s' = ap_ID s) by exact (eq_sym (f_equal r_id Er)). rewrite Eid, Hs in Hd'. by injection Hd' as <-.
Qed.

(** ** Booking *)

Definition draft_ok (d : Appointment) : Prop :=
  storable (state d) ∧ ap_Cancellation (state d) = None ∧ events d = [AppointmentBooked (state d)].

Lemma insert_spec db d :
  draft_ok d →
  insert db d =
    if is_some (appointments db !! ap_ID (state d)) then Refused ErrStorage
    else if excluded (appointments db) (row_for (state d)) then Excluded
    else Inserted (with_new db (state d)).
Proof.
  intros (Hs & Hc & _). unfold insert. pose proof (ok_version _ (st_ok _ Hs)) as Hv.
  rewrite toInt32_small by (destruct (ap_Status (state d)); lia).
  assert (Er : row_of (state d) (ap_Version (state d)) = row_for (state d)) by (unfold row_of, row_for; by rewrite Hc).
  rewrite Er, row_for_checks by done. cbn [negb orb]. destruct (is_some _); [done|]. destruct (excluded _ _); [done|].
  rewrite item_rows_ok; [done|apply (st_items _ Hs)|lia|]. pose proof (ok_services _ (st_ok _ Hs)) as Hl. unfold MaxServices in Hl. lia.
Qed.

Definition booked_event (s : Snapshot) : OutboxEvent := outbox_event "booking.appointment_booked" None (ap_CreatedAt s) s.

(** The tables once [d] is booked under key [k]. *)
Definition with_booking (db : BookDB) (k : UserID * UUID) (row : KeyRow) (s : Snapshot) : BookDB :=
  with_events (set_keys (with_new db s) (<[k := MkKeyRow (k_request_hash row) (Some (ap_ID s)) (k_created_at row)]> (idempotency_keys db)))
    [booked_event s].

(** A draft can be saved: its barber still works then and is not taken. *)
Definition takes (db : BookDB) (att : BookingAttempt) (d : Appointment) : Prop :=
  att_StillWorking att d = Ok true ∧ appointments db !! ap_ID (state d) = None ∧ excluded (appointments db) (row_for (state d)) = false.

(** A draft is passed over: its barber stopped working then, or was taken. *)
Definition passes (db : BookDB) (att : BookingAttempt) (d : Appointment) : Prop :=
  att_StillWorking att d = Ok false ∨
  att_StillWorking att d = Ok true ∧ appointments db !! ap_ID (state d) = None ∧ excluded (appointments db) (row_for (state d)) = true.

Lemma publish_booked db d : draft_ok d → publish db (events d) = Ok (with_events db [booked_event (state d)]).
Proof. intros (_ & Hc & ->). unfold publish. cbn [res_mapM to_outbox res_bind]. unfold booked_event, outbox_event. by rewrite Hc. Qed.

Lemma try_drafts_spec db att drafts row :
  Forall draft_ok drafts → idempotency_keys db !! (att_Requester att, att_Key att) = Some row →
  match try_drafts db att drafts with
  | Ok (d, db') =>
      ∃ before after, drafts = before ++ d :: after ∧ Forall (passes db att) before ∧ takes db att d ∧
        db' = with_booking db (att_Requester att, att_Key att) row (state d)
  | Err ErrSlotUnavailable => Forall (passes db att) drafts ∨ ∃ d, d ∈ drafts ∧ att_StillWorking att d = Err ErrSlotUnavailable
  | Err e => ∃ before d after, drafts = before ++ d :: after ∧ Forall (passes db att) before ∧
      (att_StillWorking att d = Err e ∨ e = ErrStorage ∧ is_Some (appointments db !! ap_ID (state d)))
  end.
Proof.
  intros Hd Hk. induction Hd as [|d drafts Hd _ IH]; cbn [try_drafts]; [by left|].
  unfold try_draft. destruct (att_StillWorking att d) as [[]|e] eqn:Ew; cbn [res_bind negb].
  - rewrite insert_spec by done. destruct (appointments db !! ap_ID (state d)) as [r|] eqn:Ea; cbn [is_some res_bind].
    { exists [], d, drafts. split; [done|]. split; [constructor|]. right. split; [done|]. by exists r. }
    destruct (excluded (appointments db) (row_for (state d))) eqn:Ex; cbn [res_bind].
    + assert (Hp : passes db att d) by (by right). destruct (try_drafts db att drafts) as [[d' db']|e].
      * destruct IH as (before & after & -> & Hf & Ht & ->). exists (d :: before), after. split; [done|]. by split; [constructor|].
      * destruct e; try (destruct IH as (before & x & after & -> & Hf & Hx); exists (d :: before), x, after; split; [done|]; by split; [constructor|]).
        destruct IH as [Hf|(x & Hx & Hw)]; [left; by constructor|right; exists x; by split; [right|]].
    + unfold SettleIdempotencyKey. cbn [with_new idempotency_keys]. rewrite Hk. rewrite publish_booked by done. cbn [res_bind].
      exists [], drafts. split; [done|]. split; [constructor|]. split; [|done]. by split_and!.
  - assert (Hp : passes db att d) by (by left). destruct (try_drafts db att drafts) as [[d' db']|e].
    * destruct IH as (before & after & -> & Hf & Ht & ->). exists (d :: before), after. split; [done|]. by split; [constructor|].
    * destruct e; try (destruct IH as (before & x & after & -> & Hf & Hx); exists (d :: before), x, after; split; [done|]; by split; [constructor|]).
      destruct IH as [Hf|(x & Hx & Hw)]; [left; by constructor|right; exists x; by split; [right|]].
  - destruct e; try (exists [], d, drafts; split; [done|]; split; [constructor|]; by left).
    right. exists d. by split; [left|].
Qed.

Lemma with_booking_ok db k row s :
  store_ok db → storable s → appointments db !! ap_ID s = None → excluded (appointments db) (row_for s) = false →
  store_ok (with_booking db k row s) ∧ diary (with_booking db k row s) = <[ap_ID s := s]> (diary db).
Proof.
  intros [Hok Hkeys] Hs Hn Hex. destruct (with_new_ok db s Hok Hs Hn Hex) as [Ht Hd]. split; [split|].
  - unfold with_booking. apply with_events_ok. constructor; apply Ht.
  - intros k' row'. cbn [with_booking with_events set_keys with_new idempotency_keys appointments]. rewrite lookup_insert_Some.
    intros [[<- <-]|[Hne Hr]].
    + exists (ap_ID s). split; [done|]. rewrite lookup_insert_eq. by eexists.
    + destruct (Hkeys _ _ Hr) as (id & Hid & Hsome). exists id. split; [done|]. apply lookup_insert_is_Some.
      destruct (decide (ap_ID s = id)); [by left|by right].
  - exact Hd.
Qed.

Lemma replay_spec db req key hash :
  store_ok db →
  match idempotency_keys db !! (req, key) with
  | None => replay db req key hash = Ok None
  | Some row =>
      if decide (k_request_hash row = hash)
      then ∃ id s, k_appointment row = Some id ∧ diary db !! id = Some s ∧ replay db req key hash = Ok (Some (Rehydrate s))
      else replay db req key hash = Err ErrIdempotencyReused
  end.
Proof.
  intros [Hok Hkeys]. unfold replay. destruct (idempotency_keys db !! (req, key)) as [row|] eqn:Ek; [|done].
  case_decide as Hh; [rewrite bool_decide_eq_true_2 by done|rewrite bool_decide_eq_false_2 by done; done]. cbn [ensure res_bind].
  destruct (Hkeys _ _ Ek) as (id & -> & [r Hr]). rewrite Hr. destruct (so_row _ Hok _ _ Hr) as (s & Hs & Hid & -> & Hi).
  exists id, s. split; [done|]. split; [apply diary_lookup; [done|]; by subst|]. subst id. by rewrite withItems_ok.
Qed.

Definition attempt_key (att : BookingAttempt) : UserID * UUID := (att_Requester att, att_Key att).
Definition claim (att : BookingAttempt) : KeyRow := MkKeyRow (att_RequestHash att) None (att_Now att).

Definition allowed (db : BookDB) (att : BookingAttempt) : Prop :=
  match att_Allow att with
  | Some allow => allow (CountActiveBookings db (att_Requester att) (att_Branch att) (att_Now att)) = Ok tt
  | None => True
  end.

(** The two ways a booking transaction commits. *)
Definition replays (db : BookDB) (att : BookingAttempt) (a : Appointment) : Prop :=
  ∃ row id s, idempotency_keys db !! attempt_key att = Some row ∧ k_request_hash row = att_RequestHash att ∧
    k_appointment row = Some id ∧ diary db !! id = Some s ∧ a = Rehydrate s.
Definition books (db : BookDB) (att : BookingAttempt) (d : Appointment) (db' : BookDB) : Prop :=
  idempotency_keys db !! attempt_key att = None ∧ allowed db att ∧
  (∃ before after, att_Drafts att = before ++ d :: after ∧ Forall (passes db att) before) ∧ takes db att d ∧
  db' = with_booking db (attempt_key att) (claim att) (state d).

Lemma with_booking_claimed db k row s :
  with_booking (set_keys db (<[k := row]> (idempotency_keys db))) k row s = with_booking db k row s.
Proof. unfold with_booking, with_events, set_keys, with_new. cbn. by rewrite insert_insert_eq. Qed.

Lemma Store_Book_spec db att r replayed db' :
  store_ok db → Forall draft_ok (att_Drafts att) → Store_Book db att = Ok (r, replayed, db') →
  ∃ a, r = Some a ∧
    (replayed = true ∧ replays db att a ∧ db' = db ∨ replayed = false ∧ books db att a db').
Proof.
  intros Hok Hd. unfold Store_Book. destruct (hash_check _); cbn [ensure res_bind]; [|done].
  pose proof (replay_spec db (att_Requester att) (att_Key att) (att_RequestHash att) Hok) as Hr.
  destruct (idempotency_keys db !! (att_Requester att, att_Key att)) as [row|] eqn:Ek.
  - case_decide as Hh; [|by rewrite Hr]. destruct Hr as (id & s & Hid & Hs & ->). cbn [res_bind is_some]. intros [= <- <- <-].
    exists (Rehydrate s). split; [done|]. left. split; [done|]. split; [|done]. by exists row, id, s.
  - set (db1 := set_keys db _). destruct (length (att_Drafts att) =? 0)%nat; cbn [negb ensure res_bind]; [done|].
    destruct (match att_Allow att with Some allow => _ | None => _ end) as [[]|] eqn:Ea; cbn [res_bind]; [|done].
    pose proof (try_drafts_spec db1 att (att_Drafts att) (claim att) Hd) as Ht.
    destruct (try_drafts db1 att (att_Drafts att)) as [[d db2]|e]; cbn [res_bind]; [|done]. intros [= <- <- <-].
    destruct Ht as (before & after & Eatt & Hp & Htake & ->); [by apply lookup_insert_eq|]. cbn [fst snd]. exists d. split; [done|]. right.
    split; [done|]. split; [done|]. split; [|split; [by exists before, after|split; [done|apply with_booking_claimed]]].
    unfold allowed. destruct (att_Allow att); [exact Ea|done].
Qed.

(** The other way round: what makes a booking transaction commit. *)
Lemma Store_Book_books db att before d after :
  store_ok db → Forall draft_ok (att_Drafts att) → hash_check (att_RequestHash att) = true →
  idempotency_keys db !! attempt_key att = None → allowed db att →
  att_Drafts att = before ++ d :: after → Forall (passes db att) before → takes db att d →
  Store_Book db att = Ok (Some d, false, with_booking db (attempt_key att) (claim att) (state d)).
Proof.
  intros Hok Hd Hh Hk Hall Eatt Hp Ht. unfold Store_Book. rewrite Hh. cbn [ensure res_bind]. unfold attempt_key in *. rewrite Hk.
  set (db1 := set_keys db _). rewrite Eatt at 1. rewrite length_app. cbn [length]. rewrite (proj2 (Nat.eqb_neq _ _)) by lia. cbn [negb ensure res_bind].
  assert (Ea : match att_Allow att with
               | Some allow => allow (CountActiveBookings db1 (att_Requester att) (att_Branch att) (att_Now att))
               | None => Ok tt end = Ok tt).
  { unfold allowed in Hall. destruct (att_Allow att); [exact Hall|done]. }
  rewrite Ea. cbn [res_bind]. rewrite Eatt in Hd |- *.
  assert (Htry : try_drafts db1 att (before ++ d :: after) = Ok (d, with_booking db1 (att_Requester att, att_Key att) (claim att) (state d))).
  { clear Eatt. induction Hp as [|x before Hx Hp IH]; cbn [app try_drafts].
    - apply Forall_cons in Hd as [Hdd _]. destruct Ht as (Hw & Hn & Hex). unfold try_draft. rewrite Hw. cbn [res_bind negb].
      rewrite insert_spec by done. cbn [db1 set_keys appointments]. rewrite Hn, Hex. cbn [is_some res_bind].
      unfold SettleIdempotencyKey. cbn [db1 with_new set_keys idempotency_keys]. rewrite lookup_insert_eq, publish_booked by done. done.
    - cbn [app] in Hd. apply Forall_cons in Hd as [Hdx Hd]. unfold try_draft. destruct Hx as [->|(-> & Hn & Hex)]; cbn [res_bind negb]; [by apply IH|].
      rewrite insert_spec by done. cbn [db1 set_keys appointments]. rewrite Hn, Hex. cbn [is_some res_bind]. by apply IH. }
  rewrite Htry. cbn [res_bind fst snd]. do 2 f_equal. apply with_booking_claimed.
Qed.

(** ** The steps of the system *)

Inductive store_step (db db' : BookDB) : Prop :=
| step_book att r replayed :
    Forall draft_ok (att_Drafts att) → Store_Book db att = Ok (r, replayed, db') → store_step db db'
| step_change_mine customer id f a :
    lifecycle_change f → ChangeMine db customer id f = Ok (a, db') → store_step db db'
| step_change_at_business business id f a :
    lifecycle_change f → ChangeAtBusiness db business id f = Ok (a, db') → store_step db db'
| step_expire now limit locked n :
    Z.of_nat limit ≤ max_int32 → ExpireDue db now limit locked = Ok (n, db') → store_step db db'.

Definition store_reachable : BookDB → Prop := rtc store_step empty_book_db.

(** ** The abstract diary: a set of appointments and two moves. *)
Inductive diary_move (d : gmap AppointmentID Snapshot) : gmap AppointmentID Snapshot → list OutboxEvent → Prop :=
| move_book s :
    storable s → d !! ap_ID s = None → (∀ id o, d !! id = Some o → ¬ double_booked s o) →
    diary_move d (<[ap_ID s := s]> d) [booked_event s]
| move_change s op now a :
    d !! ap_ID s = Some s → apply_op op (Rehydrate s) now = Ok a →
    diary_move d (<[ap_ID s := state a]> d) [changed_event (ap_Status s) (state a)].

Inductive diary_moves (d : gmap AppointmentID Snapshot) : gmap AppointmentID Snapshot → list OutboxEvent → Prop :=
| moves_nil : diary_moves d d []
| moves_cons d1 d2 out out' : diary_move d d1 out → diary_moves d1 d2 out' → diary_moves d d2 (out ++ out').

Lemma find_row_diary db id p r : tables_ok db → find_row db id p = Some r → ∃ s, ap_ID s = id ∧ r = row_for s ∧ p r = true ∧ diary db !! id = Some s.
Proof.
  intros Hok. unfold find_row. destruct (appointments db !! id) as [r'|] eqn:E; [|done]. destruct (p r') eqn:Ep; [|done]. intros [= <-].
  destruct (so_row _ Hok _ _ E) as (s & Hs & Hid & -> & Hi). exists s. split; [done|]. split; [done|]. split; [done|].
  apply diary_lookup; [done|]. by subst.
Qed.

Lemma excluded_double db s : tables_ok db → storable s → appointments db !! ap_ID s = None →
  excluded (appointments db) (row_for s) = false ↔ ∀ id o, diary db !! id = Some o → ¬ double_booked s o.
Proof.
  intros Hok Hs Hn. rewrite excluded_false. split.
  - intros H id o Ho Hdb. apply diary_lookup in Ho as (Hid & Hso & Hr & _); [|done].
    apply clashes_spec in Hdb; [|done..]. rewrite (H _ _ Hr) in Hdb; [done|]. cbn. intros ->. congruence.
  - intros H id o Ho _. destruct (so_row _ Hok _ _ Ho) as (s' & Hs' & Hid & -> & Hi). apply not_true_iff_false.
    rewrite clashes_spec by done. apply (H id). apply diary_lookup; [done|]. by subst.
Qed.

Lemma change_step_moves db id p f a db' :
  store_ok db → lifecycle_change f → change_row db (find_row db id p) f = Ok (a, db') →
  ∃ s out, diary db !! id = Some s ∧ diary_move (diary db) (diary db') out ∧ store_ok db' ∧
    book_outbox db' = book_outbox db ++ out ∧ idempotency_keys db' = idempotency_keys db ∧ f (Rehydrate s) = Ok a.
Proof.
  intros Hok Hf H. destruct (find_row db id p) as [r|] eqn:Er; [|done].
  destruct (find_row_diary _ _ _ _ (proj1 Hok) Er) as (s & <- & -> & _ & Hd).
  pose proof (change_row_spec db s f Hok Hf Hd) as Hs. destruct (f (Rehydrate s)) as [a'|e] eqn:Ef; [|congruence].
  destruct Hs as (Hc & Hok' & Hdd). rewrite Hc in H. injection H as <- <-.
  exists s, [changed_event (ap_Status s) (state a')]. split; [done|]. split; [|done]. rewrite diary_with_events, Hdd.
  destruct (Hf _ _ Ef) as (op & now & Hop). by eapply move_change.
Qed.

(** Every step is a few moves of the diary, publishing just their events. *)
Lemma store_step_moves db db' :
  store_ok db → store_step db db' →
  store_ok db' ∧ (∀ k row, idempotency_keys db !! k = Some row → idempotency_keys db' !! k = Some row) ∧
  ∃ out, diary_moves (diary db) (diary db') out ∧ book_outbox db' = book_outbox db ++ out.
Proof.
  intros Hok Hstep. destruct Hstep as [att r replayed Hd H|customer id f a Hf H|business id f a Hf H|now limit locked n Hl H].
  - destruct (Store_Book_spec db att r replayed db' Hok Hd H) as (a & _ & [(_ & _ & ->)|(_ & Hk & _ & (before & after & Eatt & _) & (_ & Hn & Hex) & ->)]).
    { split; [done|]. split; [done|]. exists []. split; [constructor|by rewrite app_nil_r]. }
    assert (Hst : storable (state a)) by (rewrite Eatt, Forall_app, Forall_cons in Hd; apply Hd).
    destruct (with_booking_ok db (attempt_key att) (claim att) (state a) Hok Hst Hn Hex) as [Hok' Hdd]. split; [done|]. split.
    + intros k row Hrow. cbn [with_booking with_events set_keys with_new idempotency_keys]. rewrite lookup_insert_ne; [done|congruence].
    + exists [booked_event (state a)]. split; [|done]. rewrite Hdd. rewrite <- (app_nil_r [booked_event (state a)]).
      eapply moves_cons; [|constructor]. apply move_book; [done| |].
      * by apply diary_none; [apply Hok|].
      * by apply excluded_double; [apply Hok|..].
  - destruct (change_step_moves _ _ _ _ _ _ Hok Hf H) as (s & out & _ & Hm & Hok' & Ho & Hk & _). split; [done|]. split; [by rewrite Hk|].
    exists (out ++ []). split; [eapply moves_cons; [exact Hm|constructor]|by rewrite app_nil_r].
  - destruct (change_step_moves _ _ _ _ _ _ Hok Hf H) as (s & out & _ & Hm & Hok' & Ho & Hk & _). split; [done|]. split; [by rewrite Hk|].
    exists (out ++ []). split; [eapply moves_cons; [exact Hm|constructor]|by rewrite app_nil_r].
  - destruct (ExpireDue_spec db now limit locked Hok Hl) as (ss & db1 & H1 & Hok' & Hnd & _ & Hss & _ & Hk & Ho & Hd).
    rewrite H1 in H. injection H as _ <-. split; [done|]. split; [by rewrite Hk|]. eexists. split; [|exact Ho].
    rewrite Hd. clear -Hnd Hss. revert Hnd Hss. generalize (diary db) as d. induction ss as [|s ss IH]; intros d Hnd Hss.
    + rewrite !fmap_nil, list_to_map_nil, map_empty_union. constructor.
    + rewrite fmap_cons in Hnd. apply NoDup_cons in Hnd as [Hni Hnd]. rewrite !fmap_cons. cbn [list_to_map foldr].
      destruct (Hss s ltac:(by left)) as (Hs & Hdue & _).
      change (changed_event StatusPending (expired now s) :: ?l) with ([changed_event StatusPending (expired now s)] ++ l).
      assert (Ep : ap_Status s = StatusPending) by apply Hdue. rewrite <- Ep at 1.
      eapply moves_cons; [by apply (move_change d s OpExpire now _ Hs (expire_due s now Hdue))|]. cbn [state fst snd].
      rewrite <- insert_union_l, insert_union_r.
      2:{ apply not_elem_of_list_to_map_1. rewrite <- list_fmap_compose. exact Hni. }
      apply IH; [done|]. intros x Hx. destruct (Hss x ltac:(by right)) as (Hxd & ? & ?). split; [|done].
      rewrite lookup_insert_ne; [done|]. intros E. apply Hni. rewrite E. apply list_elem_of_fmap. by exists x.
Qed.

Lemma store_reachable_ok db : store_reachable db → store_ok db.
Proof.
  unfold store_reachable. intros H. eapply (rtc_ind_r (λ db, store_ok db)); [apply empty_book_db_ok| |done].
  intros x y _ Hs Hx. by destruct (store_step_moves _ _ Hx Hs).
Qed.

Lemma same_booking_refl s : same_booking s s.
Proof. by repeat split. Qed.
Lemma same_booking_trans a b c : same_booking a b → same_booking b c → same_booking a c.
Proof. unfold same_booking. intros H1 H2. decompose [and] H1. decompose [and] H2. split_and!; congruence. Qed.

(** Nothing ever leaves the diary, and nothing of a booking but its status moves on. *)
Lemma diary_moves_keep d d' out : diary_moves d d' out → ∀ id s, d !! id = Some s → ∃ s', d' !! id = Some s' ∧ same_booking s s'.
Proof.
  induction 1 as [d|d d1 d2 out out' Hm _ IH]; intros id s Hs; [exists s; by split; [|apply same_booking_refl]|].
  assert (∃ s1, d1 !! id = Some s1 ∧ same_booking s s1) as (s1 & Hs1 & E1).
  { destruct Hm as [x Hx Hn _|x op now a Hx Hop].
    - exists s. rewrite lookup_insert_ne by congruence. by split; [|apply same_booking_refl].
    - destruct (decide (ap_ID x = id)) as [<-|Hne].
      + exists (state a). rewrite lookup_insert_eq. split; [done|]. rewrite Hx in Hs. injection Hs as ->.
        apply apply_op_ok in Hop as [_ ->]. by repeat split.
      + exists s. rewrite lookup_insert_ne by done. by split; [|apply same_booking_refl]. }
  destruct (IH id s1 Hs1) as (s2 & Hs2 & E2). exists s2. split; [done|]. by eapply same_booking_trans.
Qed.

Lemma store_steps_keep db db' :
  store_ok db → rtc store_step db db' →
  store_ok db' ∧ (∀ k row, idempotency_keys db !! k = Some row → idempotency_keys db' !! k = Some row) ∧
  ∀ id s, diary db !! id = Some s → ∃ s', diary db' !! id = Some s' ∧ same_booking s s'.
Proof.
  intros Hok H. revert Hok. induction H as [db|db db1 db2 Hs _ IH]; intros Hok.
  - split; [done|]. split; [done|]. intros id s Hd. exists s. by split; [|apply same_booking_refl].
  - destruct (store_step_moves db db1 Hok Hs) as (Hok1 & Hk & out & Hm & _). destruct (IH Hok1) as (Hok2 & Hk2 & Hd2).
    split; [done|]. split; [auto|]. intros id s Hd. destruct (diary_moves_keep _ _ _ Hm id s Hd) as (s1 & Hs1 & E1).
    destruct (Hd2 id s1 Hs1) as (s2 & Hs2 & E2). exists s2. split; [done|]. by eapply same_booking_trans.
Qed.

(** Booking one more appointment counts for one more, if it is upcoming. *)
Lemma CountActiveBookings_booking db k row s customer branch now :
  appointments db !! ap_ID s = None →
  CountActiveBookings (with_booking db k row s) customer branch now =
  CountActiveBookings db customer branch now + (if upcoming customer branch now (row_for s) then 1 else 0).
Proof.
  intros Hn. unfold CountActiveBookings. cbn [with_booking with_events set_keys with_new appointments].
  rewrite (map_to_list_insert _ _ _ Hn), fmap_cons, filter_cons. cbn [snd].
  destruct (upcoming customer branch now (row_for s)); [rewrite decide_True by done|rewrite decide_False by done]; cbn [length]; lia.
Qed.

(** ** Theorems *)

(** C1. No barber is ever double-booked. In every state the store can reach,
    whatever is booked, changed and expired in whatever order - and whatever
    the shown slots, the limits or the working hours said - no two
    appointments that are pending or confirmed hold the same barber at the
    same instant; and every saved appointment reads back from its rows well
    formed. *)
Theorem no_double_booking db :
  store_reachable db →
  (∀ id id' s s', id ≠ id' → diary db !! id = Some s → diary db !! id' = Some s' → ¬ double_booked s s') ∧
  (∀ id r, appointments db !! id = Some r → ∃ s, diary db !! id = Some s ∧ withItems db r = Ok (Rehydrate s) ∧ appointment_ok s).
Proof.
  intros [Hok Hkeys]%store_reachable_ok. split.
  - intros id id' s s' Hne Hs Hs'. apply diary_lookup in Hs as (Hid & Hst & Hr & _); [|done].
    apply diary_lookup in Hs' as (Hid' & Hst' & Hr' & _); [|done]. rewrite <- clashes_spec, (so_apart _ Hok _ _ _ _ Hne Hr Hr') by done. done.
  - intros id r Hr. destruct (so_row _ Hok _ _ Hr) as (s & Hs & Hid & -> & Hi). exists s. split; [apply diary_lookup; [done|]; by subst|].
    split; [apply withItems_ok; [done|by rewrite Hid]|apply (st_ok _ Hs)].
Qed.

(** C2. The tables are an appointment book. Each committed transaction is a
    sequence of moves of an abstract diary - writing in one new appointment
    whose barber is free, or applying one lifecycle operation to one
    appointment - and it appends to the outbox exactly the events of those
    moves, in their order: nothing is changed without its event, no event is
    published without its change. *)
Theorem booking_store_refines_diary db db' :
  store_reachable db → store_step db db' →
  ∃ out, diary_moves (diary db) (diary db') out ∧ book_outbox db' = book_outbox db ++ out.
Proof. intros Hok%store_reachable_ok Hs. by apply store_step_moves. Qed.

(** What a booked request leaves, for good: its key, naming the appointment. *)
Lemma booked_key db att a db1 db2 :
  store_reachable db → Forall draft_ok (att_Drafts att) → Store_Book db att = Ok (Some a, false, db1) → rtc store_step db1 db2 →
  store_ok db2 ∧ idempotency_keys db2 !! attempt_key att = Some (MkKeyRow (att_RequestHash att) (Some (ap_ID (state a))) (att_Now att)) ∧
  ∃ s, diary db2 !! ap_ID (state a) = Some s ∧ same_booking (state a) s ∧ diary db !! ap_ID (state a) = None.
Proof.
  intros Hreach Hd HB Hsteps. pose proof (store_reachable_ok db Hreach) as Hok.
  assert (Hok1 : store_ok db1) by (by destruct (store_step_moves db db1 Hok (step_book _ _ att _ _ Hd HB))).
  destruct (Store_Book_spec db att _ _ _ Hok Hd HB) as (x & [= <-] & [(? & _)|(_ & Hnew & _ & (before & after & Eatt & _) & (_ & Hn & Hex) & Edb)]); [done|].
  destruct (store_steps_keep db1 db2 Hok1 Hsteps) as (Hok2 & Hkeys & Hdiary).
  assert (Hst : storable (state a)) by (rewrite Eatt, Forall_app, Forall_cons in Hd; apply Hd).
  destruct (with_booking_ok db (attempt_key att) (claim att) (state a) Hok Hst Hn Hex) as [_ Hdd]. rewrite <- Edb in Hdd.
  split; [done|]. split; [apply Hkeys; rewrite Edb; apply lookup_insert_eq|].
  destruct (Hdiary (ap_ID (state a)) (state a)) as (s & Hs & Hsame); [rewrite Hdd; apply lookup_insert_eq|].
  exists s. split_and!; [done..|]. apply diary_none; [apply Hok|done].
Qed.

(** Booking is idempotent under its key. Once a request with a key has
    booked an appointment, then - whatever happens in between - every later
    request of the same requester with that key and the same fingerprint gets
    that same appointment back (in its status by then) and changes nothing,
    and one with another fingerprint is refused; so one key never books twice. *)
Theorem booking_idempotent db att a db1 db2 att' :
  store_reachable db → Forall draft_ok (att_Drafts att) →
  Store_Book db att = Ok (Some a, false, db1) → rtc store_step db1 db2 →
  attempt_key att' = attempt_key att → hash_check (att_RequestHash att') = true →
  if decide (att_RequestHash att' = att_RequestHash att)
  then ∃ s, same_booking (state a) s ∧ diary db2 !! ap_ID (state a) = Some s ∧ Store_Book db2 att' = Ok (Some (Rehydrate s), true, db2) ∧
         Replay db2 (att_Requester att') (att_Key att') (att_RequestHash att') = Ok (Some (Rehydrate s))
  else Store_Book db2 att' = Err ErrIdempotencyReused.
Proof.
  intros Hreach Hd HB Hsteps Hk Hh. destruct (booked_key db att a db1 db2 Hreach Hd HB Hsteps) as (Hok2 & Hrow & s & Hs & Hsame & _).
  rewrite <- Hk in Hrow. pose proof (replay_spec db2 (att_Requester att') (att_Key att') (att_RequestHash att') Hok2) as Hr.
  unfold attempt_key in Hrow at 1. unfold Store_Book. rewrite Hrow in Hr |- *. rewrite Hh. cbn [ensure res_bind k_request_hash k_appointment] in *.
  destruct (decide (att_RequestHash att' = att_RequestHash att)) as [E|E].
  - rewrite decide_True in Hr by done. destruct Hr as (id & s' & [= <-] & Hs' & Hr). rewrite Hs in Hs'. injection Hs' as <-.
    exists s. unfold Replay. by rewrite Hr.
  - rewrite decide_False in Hr by congruence. by rewrite Hr.
Qed.

(** The branch's limit of upcoming bookings holds. When a customer's own
    request books an appointment, fewer than the limit were upcoming at the
    branch before it, and at most the limit are upcoming after it; at the
    limit, a new request is refused and nothing is saved. *)
Theorem booking_limit db att limit :
  store_reachable db → Forall draft_ok (att_Drafts att) → att_Drafts att ≠ [] → hash_check (att_RequestHash att) = true →
  att_Allow att = Some (λ active, if limit <=? active then Err ErrTooManyBookings else Ok tt) →
  idempotency_keys db !! attempt_key att = None →
  let upcoming db := CountActiveBookings db (att_Requester att) (att_Branch att) (att_Now att) in
  (limit ≤ upcoming db → Store_Book db att = Err ErrTooManyBookings) ∧
  ∀ a replayed db', Store_Book db att = Ok (a, replayed, db') → upcoming db < limit ∧ upcoming db' ≤ limit.
Proof.
  intros Hreach Hd Hne Hh Hall Hk. cbn zeta. split.
  - intros Hlim. unfold Store_Book. rewrite Hh. unfold attempt_key in Hk. rewrite Hk, Hall. cbn [ensure res_bind].
    destruct (att_Drafts att) as [|d ds]; [done|]. cbn [length Nat.eqb negb ensure res_bind].
    change (CountActiveBookings (set_keys db _) ?c ?b ?n) with (CountActiveBookings db c b n).
    by rewrite (proj2 (Z.leb_le _ _) Hlim).
  - intros a replayed db' HB.
    destruct (Store_Book_spec db att _ _ _ (store_reachable_ok db Hreach) Hd HB) as (x & _ & [(_ & (row & id & s & Hrow & _) & _)|(_ & _ & Hal & _ & (_ & Hn & _) & ->)]); [congruence|].
    unfold allowed in Hal. rewrite Hall in Hal. destruct (Z.leb_spec limit (CountActiveBookings db (att_Requester att) (att_Branch att) (att_Now att))); [done|].
    split; [done|]. rewrite CountActiveBookings_booking by done. destruct (upcoming _ _ _ _); lia.
Qed.

(** ** On a concrete day *)

(** Two customers ask for the same barber and time; the second comes second. *)
Definition demo_hash : string := "0123456789abcdef0123456789abcdef".
Definition demo_attempt : BookingAttempt :=
  MkAttempt (MkID 50) (MkID 2) 900 demo_hash (demo_at 900) (Some (λ active, if 2 <=? active then Err ErrTooManyBookings else Ok tt))
    [demo_appointment] (λ _, Ok true).

Lemma demo_storable : storable (state demo_appointment).
Proof.
  assert (Hi : Forall item_storable [haircut; beard]).
  { constructor; [|constructor; [|constructor]]; (split; [|split]); try reflexivity.
    1, 3: exact (Forall_inv demo_items_ok) + exact (Forall_inv (Forall_inv_tail demo_items_ok)).
    - by exists 30.
    - by exists 15. }
  constructor; [apply booked_ok; reflexivity|exact Hi| | |done|done|done].
  - split; [done|]. by split; apply Z.leb_le.
  - split; [by apply Z.ltb_lt|by apply Z.leb_le].
Qed.

Lemma demo_drafts_ok : Forall draft_ok (att_Drafts demo_attempt).
Proof. constructor; [|constructor]. split; [apply demo_storable|by split]. Qed.

Definition demo_db : BookDB := with_booking empty_book_db (attempt_key demo_attempt) (claim demo_attempt) (state demo_appointment).

Lemma demo_books : Store_Book empty_book_db demo_attempt = Ok (Some demo_appointment, false, demo_db).
Proof.
  refine (Store_Book_books empty_book_db demo_attempt [] demo_appointment [] empty_book_db_ok demo_drafts_ok eq_refl eq_refl eq_refl eq_refl _ _); [constructor|].
  by split.
Qed.

Lemma demo_step : store_step empty_book_db demo_db.
Proof. eapply step_book; [apply demo_drafts_ok|apply demo_books]. Qed.

Lemma demo_reachable : store_reachable demo_db.
Proof. eapply rtc_once, demo_step. Qed.

(** The same barber again, once the first customer is gone. *)
Definition demo_next_booking : Booking :=
  MkBooking (MkID 101) (MkID 1) (MkID 2) (MkID 3) (MkID 51) "" None (demo_at 1135) [haircut] (10 * Minute) AnyBarber ""
    false (30 * Minute) (2 * Hour).
Definition demo_next : Appointment :=
  MkAppointment (booked demo_next_booking (demo_at 900)) [AppointmentBooked (booked demo_next_booking (demo_at 900))].
Definition demo_next_attempt : BookingAttempt :=
  MkAttempt (MkID 51) (MkID 2) 902 demo_hash (demo_at 900) None [demo_next] (λ _, Ok true).

Lemma demo_next_ok : Forall draft_ok (att_Drafts demo_next_attempt).
Proof.
  constructor; [|constructor]. split; [|by split].
  assert (Hi : Forall item_storable [haircut]) by exact (Forall_cons_2 _ _ _ (Forall_inv (st_items _ demo_storable)) (Forall_nil_2 _)).
  constructor; [apply booked_ok; reflexivity|exact Hi| | |done|done|done].
  - split; [done|]. by split; apply Z.leb_le.
  - split; [by apply Z.ltb_lt|by apply Z.leb_le].
Qed.

Definition demo_db2 : BookDB := with_booking demo_db (attempt_key demo_next_attempt) (claim demo_next_attempt) (state demo_next).

Lemma demo_db2_reachable : store_reachable demo_db2.
Proof.
  eapply rtc_r; [exact demo_reachable|]. eapply step_book; [exact demo_next_ok|].
  refine (Store_Book_books demo_db demo_next_attempt [] demo_next [] (store_reachable_ok _ demo_reachable) demo_next_ok eq_refl eq_refl I eq_refl _ _); [constructor|].
  by split.
Qed.

Lemma no_double_booking_witness :
  diary demo_db2 !! MkID 100 = Some (state demo_appointment) ∧ diary demo_db2 !! MkID 101 = Some (state demo_next) ∧
  ¬ double_booked (state demo_appointment) (state demo_next).
Proof.
  assert (H1 : diary demo_db2 !! MkID 100 = Some (state demo_appointment)) by (vm_compute; reflexivity).
  assert (H2 : diary demo_db2 !! MkID 101 = Some (state demo_next)) by (vm_compute; reflexivity).
  split; [exact H1|]. split; [exact H2|].
  exact (proj1 (no_double_booking demo_db2 demo_db2_reachable) (MkID 100) (MkID 101) _ _ ltac:(discriminate) H1 H2).
Defined.

Lemma booking_store_refines_diary_witness : ∃ out, diary_moves (diary empty_book_db) (diary demo_db) out ∧ out = [booked_event (state demo_appointment)].
Proof.
  destruct (booking_store_refines_diary empty_book_db demo_db (rtc_refl _ _) demo_step) as (out & Hm & Ho).
  exists out. split; [exact Hm|]. symmetry. exact Ho.
Defined.

(** A retry gets the appointment back; the key for another request is refused. *)
Lemma booking_idempotent_witness :
  (∃ s, Store_Book demo_db demo_attempt = Ok (Some (Rehydrate s), true, demo_db)) ∧
  ∀ att, attempt_key att = attempt_key demo_attempt → att_RequestHash att = "another request of thirty-two b." → Store_Book demo_db att = Err ErrIdempotencyReused.
Proof.
  pose proof (booking_idempotent empty_book_db demo_attempt demo_appointment demo_db demo_db) as H. split.
  - specialize (H demo_attempt (rtc_refl _ _) demo_drafts_ok demo_books (rtc_refl _ _) eq_refl eq_refl).
    rewrite decide_True in H by reflexivity. destruct H as (s & _ & _ & HB & _). exists s. exact HB.
  - intros att Hk Hh. specialize (H att (rtc_refl _ _) demo_drafts_ok demo_books (rtc_refl _ _) Hk).
    rewrite Hh in H. specialize (H eq_refl). rewrite decide_False in H by discriminate. exact H.
Defined.

Definition demo_second : BookingAttempt :=
  MkAttempt (MkID 50) (MkID 2) 901 demo_hash (demo_at 900) (Some (λ active, if 1 <=? active then Err ErrTooManyBookings else Ok tt))
    [demo_appointment] (λ _, Ok true).

Lemma booking_limit_witness :
  Store_Book demo_db demo_second = Err ErrTooManyBookings ∧
  CountActiveBookings demo_db (MkID 50) (MkID 2) (demo_at 900) ≤ 2.
Proof.
  split.
  - apply (booking_limit demo_db demo_second 1 demo_reachable demo_drafts_ok ltac:(discriminate) eq_refl eq_refl eq_refl). vm_compute. congruence.
  - destruct (booking_limit empty_book_db demo_attempt 2 (rtc_refl _ _) demo_drafts_ok ltac:(discriminate) eq_refl eq_refl eq_refl) as [_ H].
    apply (H _ _ _ demo_books).
Defined.
