(* ===== verification/BookApp.v ===== *)
(** * Booking's use cases (src/internal/booking/app)

    The handlers of availability.go, book.go, manage.go and expire.go over the
    tables of BookStore. What booking asks the other modules - business for
    the branch and its people, catalog for the menu, scheduling for working
    windows - is the interface [Ports]. Where a handler reads, decides and
    only then writes, what it read and what it writes to are separate
    arguments: other requests may commit in between. *)
From S2P Require Import Prelude GoTime GoText GoDate GoCrypto Shared Spans BookSlots Appointment BookStore.
Open Scope Z_scope.

(** ** What booking asks (availability.go, manage.go) *)

Record Policy := MkPolicy {
  MinLead : Duration;
  HorizonDays : Z;
  SlotInterval : Duration;
  Buffer : Duration;
  AutoConfirm : bool;
  PendingExpiry : Duration;
  MaxActiveBookings : Z;
  CancellationWindow : Duration }.

Record Branch := MkBranch {
  b_BusinessID : BusinessID;
  b_ID : BranchID;
  b_Location : Location;
  b_Policy : Policy }.

Record Barber := MkBarber { barber_ID : StaffID; barber_Name : string }.
Record Performer := MkPerformer { perf_Staff : StaffID; perf_Duration : Duration; perf_Price : Money }.
Record MenuItem := MkMenuItem { menu_ID : ServiceID; menu_Name : LocalizedText; menu_Performers : list Performer }.

Inductive Role := RoleOwner | RoleManager | RoleBarber.
#[export] Instance Role_eq_dec : EqDecision Role.
Proof. solve_decision. Defined.

Record Member := MkMember { mem_Staff : StaffID; mem_Role : Role; mem_Branches : list BranchID }.

Class Ports := {
  Bookable : BranchID → res book_error Branch;
  Barbers : BusinessID → BranchID → list StaffID → res book_error (list Barber);
  Menu : BusinessID → BranchID → res book_error (list MenuItem);
  WorkingWindows : BusinessID → BranchID → list StaffID → time → time → res book_error (gmap StaffID (list Interval));
  MemberOf : UserID → BusinessID → res book_error Member;
  BranchLocation : BusinessID → BranchID → res book_error Location }.

Record AvailabilityQuery := MkQuery {
  q_Branch : BranchID;
  q_Day : Day;
  q_Services : list ServiceID;
  q_Barber : option StaffID }.

Record Offer := MkOffer { offer_ID : StaffID; offer_Name : string; offer_Duration : Duration; offer_Price : Money }.

(** [av_Slots] is [None] only if the slot search ran out of fuel. *)
Record Availability := MkAvailability {
  av_Branch : Branch;
  av_Day : Day;
  av_Offers : list Offer;
  av_Slots : option (list Slot) }.

(** ** Offers *)

Definition services_ok (services : list ServiceID) : bool :=
  negb ((length services =? 0)%nat || (MaxServices <? length services)%nat || has_dup [] services).

Definition service_in (menu : list MenuItem) (id : ServiceID) : option MenuItem := find_first (λ m, bool_decide (menu_ID m = id)) menu.

(** The map [byStaff]: a later row of the same performer replaces an earlier one. *)
Definition by_staff (performers : list Performer) : gmap StaffID Performer :=
  foldl (λ m p, <[perf_Staff p := p]> m) ∅ performers.

Definition first_offer (p : Performer) : Offer := MkOffer (perf_Staff p) "" (perf_Duration p) (perf_Price p).

(** One more service: who performs it too, for its time and price more. *)
Fixpoint add_service (byStaff : gmap StaffID Performer) (offers : list Offer) : res book_error (list Offer) :=
  match offers with
  | [] => Ok []
  | o :: offers =>
      match byStaff !! offer_ID o with
      | None => add_service byStaff offers
      | Some p =>
          let! price := res_map_err ErrMoney (Money_Add (offer_Price o) (perf_Price p)) in
          let! kept := add_service byStaff offers in
          Ok (MkOffer (offer_ID o) (offer_Name o) (dur_add (offer_Duration o) (perf_Duration p)) price :: kept)
      end
  end.

Fixpoint offers_loop (n : nat) (offers : list Offer) (services : list ServiceID) (menu : list MenuItem) : res book_error (list Offer) :=
  match services with
  | [] => Ok offers
  | id :: services =>
      match service_in menu id with
      | None => Err ErrServiceUnavailable
      | Some m =>
          if (n =? 0)%nat then offers_loop (S n) (offers ++ (first_offer <$> menu_Performers m)) services menu
          else
            let! kept := add_service (by_staff (menu_Performers m)) offers in
            offers_loop (S n) kept services menu
      end
  end.

Section Texts.
Context `{UuidLib}.

Definition by_id (a b : Offer) : bool := String.leb (ID_String (offer_ID a)) (ID_String (offer_ID b)).

Definition offersFor (services : list ServiceID) (menu : list MenuItem) : res book_error (list Offer) :=
  let! offers := offers_loop 0 [] services menu in
  Ok (sort_by by_id offers).
End Texts.

Section Handlers.
Context `{UuidLib} `{P : Ports}.

(** [stillThere]: who works at the branch today, by name; of two answers
    about one person the later counts. *)
Definition stillThere (branch : Branch) (offers : list Offer) : res book_error (list Offer) :=
  match offers with
  | [] => Ok []
  | _ =>
      let! barbers := Barbers (b_BusinessID branch) (b_ID branch) (offer_ID <$> offers) in
      let names : gmap StaffID string := foldl (λ m b, <[barber_ID b := barber_Name b]> m) ∅ barbers in
      Ok (omap (λ o, name ← names !! offer_ID o; Some (MkOffer (offer_ID o) name (offer_Duration o) (offer_Price o))) offers)
  end.

(** [candidates]: everyone's windows and appointments around the day. *)
Definition longest (branch : Branch) (offers : list Offer) : Duration :=
  foldl (λ l o, Z.max l (dur_add (offer_Duration o) (Buffer (b_Policy branch)))) 0 offers.

Definition candidates (db : BookDB) (branch : Branch) (day : Day) (offers : list Offer) : res book_error (list Candidate) :=
  let ids := offer_ID <$> offers in
  let from := Day_Start day (b_Location branch) in
  let to := GoTime.Add (Day_Start (Day_AddDays day 1) (b_Location branch)) (longest branch offers) in
  let! windows := WorkingWindows (b_BusinessID branch) (b_ID branch) ids from to in
  res_mapM (λ o,
    let! busy := Busy_of db ids from to (offer_ID o) in
    Ok (MkCandidate (offer_ID o) (dur_add (offer_Duration o) (Buffer (b_Policy branch))) (default [] (windows !! offer_ID o)) busy)) offers.

(** Only the barber asked for, when one is. *)
Definition choose (barber : option StaffID) (offers : list Offer) : res book_error (list Offer) :=
  match barber with
  | None => Ok offers
  | Some id =>
      match find_first (λ o, bool_decide (offer_ID o = id)) offers with
      | None => Err ErrBarberUnavailable
      | Some o => Ok [o]
      end
  end.

Definition last_day (now : time) (branch : Branch) : Day :=
  Day_AddDays (DayOf (b_Location branch) now) (HorizonDays (b_Policy branch)).

Definition Query (db : BookDB) (now : time) (q : AvailabilityQuery) : res book_error Availability :=
  check! services_ok (q_Services q) else ErrNoServices in
  let! branch := Bookable (q_Branch q) in
  let! menu := Menu (b_BusinessID branch) (b_ID branch) in
  let! offers := offersFor (q_Services q) menu in
  let! offers := stillThere branch offers in
  let! offers := choose (q_Barber q) offers in
  let today := DayOf (b_Location branch) now in
  let last := last_day now branch in
  if (length offers =? 0)%nat || (Day_Compare (q_Day q) today <? 0) || (0 <? Day_Compare (q_Day q) last)
  then Ok (MkAvailability branch (q_Day q) offers (Some []))
  else
    let! cands := candidates db branch (q_Day q) offers in
    Ok (MkAvailability branch (q_Day q) offers
          (Slots (q_Day q)
             (MkSlotRules (b_Location branch) (SlotInterval (b_Policy branch)) (GoTime.Add now (MinLead (b_Policy branch)))
                (Day_Start (Day_AddDays last 1) (b_Location branch))) cands)).

(** ** Booking (book.go) *)

Record BookAppointment := MkBook {
  c_Customer : UserID;
  c_IdempotencyKey : UUID;
  c_Branch : BranchID;
  c_Start : time;
  c_Services : list ServiceID;
  c_Barber : option StaffID;
  c_Note : string }.

Record StaffBooking := MkStaffBooking {
  s_Actor : UserID;
  s_Business : BusinessID;
  s_Branch : BranchID;
  s_IdempotencyKey : UUID;
  s_Start : time;
  s_Services : list ServiceID;
  s_Barber : StaffID;
  s_CustomerName : string;
  s_Note : string }.

(** [time.RFC3339Nano], in UTC: the fraction without its trailing zeros. *)
Fixpoint trim_zeros (width : nat) (n : Z) : nat * Z :=
  match width with
  | O => (O, n)
  | S w => if n mod 10 =? 0 then trim_zeros w (n / 10) else (width, n)
  end.

Definition format_rfc3339nano (t : time) : string :=
  let '(y, m, d) := local_date UTC t in
  format_date y m d +:+ "T" +:+ fmt_0d 2 (local_hour UTC t) +:+ ":" +:+ fmt_0d 2 (local_minute UTC t) +:+ ":" +:+ fmt_0d 2 (local_second UTC t) +:+
  (if nanosecond t =? 0 then "" else let '(w, n) := trim_zeros 9 (nanosecond t) in "." +:+ fmt_0d w n) +:+ "Z".

(** [quote] is strconv.Quote, the verb %q. *)
Context (quote : string → string).

Definition requestHash (cmd : BookAppointment) : string :=
  let barber := match c_Barber cmd with None => "any" | Some b => ID_String b end in
  let services := join (ID_String <$> c_Services cmd) "," in
  Sum256 (ID_String (c_Branch cmd) +:+ "|" +:+ format_rfc3339nano (c_Start cmd) +:+ "|" +:+ services +:+ "|" +:+ barber +:+ "|" +:+
          quote (TrimSpace (c_Note cmd))).

Definition staffRequestHash (cmd : StaffBooking) : string :=
  let services := join (ID_String <$> s_Services cmd) "," in
  Sum256 ("staff|" +:+ ID_String (s_Branch cmd) +:+ "|" +:+ format_rfc3339nano (s_Start cmd) +:+ "|" +:+ services +:+ "|" +:+
          ID_String (s_Barber cmd) +:+ "|" +:+ quote (TrimSpace (s_CustomerName cmd)) +:+ "|" +:+ quote (TrimSpace (s_Note cmd))).

Definition checkStart (start now : time) (b : Branch) : res book_error unit :=
  if negb (OnGrid start (b_Location b) (SlotInterval (b_Policy b)))
     || Before start (GoTime.Add now (MinLead (b_Policy b)))
     || negb (Before start (Day_Start (Day_AddDays (last_day now b) 1) (b_Location b)))
  then Err ErrInvalidStart else Ok tt.

Definition WalkInGrace : Duration := 15 * Minute.

Definition checkStaffStart (start now : time) (b : Branch) : res book_error unit :=
  if negb (start =? Truncate start Minute)
     || Before start (GoTime.Add now (- WalkInGrace))
     || negb (Before start (Day_Start (Day_AddDays (last_day now b) 1) (b_Location b)))
  then Err ErrInvalidStart else Ok tt.

(** The minutes of the day a barber is already booked. *)
Definition booked_within (busy : list Interval) (from to : time) : Duration :=
  foldl (λ n b,
    let s := later (i_start b) from in
    let e := earlier (i_end b) to in
    if After e s then dur_add n (Sub e s) else n) 0 busy.

Definition less_booked (a b : StaffID * Duration) : bool :=
  if a.2 <? b.2 then true else if b.2 <? a.2 then false else String.leb (ID_String a.1) (ID_String b.1).

Definition freeAt (start : time) (cands : list Candidate) (day : Day) (loc : Location) : list StaffID :=
  let from := Day_Start day loc in
  let to := Day_Start (Day_AddDays day 1) loc in
  fst <$> sort_by less_booked ((λ c, (cand_Staff c, booked_within (cand_Busy c) from to)) <$> filter (λ c, CanTake c start = true) cands).

(** Indexing with the -1 of an [IndexFunc] that found nothing panics. *)
Definition itemsFor (services : list ServiceID) (menu : list MenuItem) (staff : StaffID) : res book_error (list Item) :=
  res_mapM (λ id,
    match service_in menu id with
    | None => Err ErrPanic
    | Some m =>
        match find_first (λ p, bool_decide (perf_Staff p = staff)) (menu_Performers m) with
        | None => Err ErrPanic
        | Some p => Ok (MkItem id (menu_Name m) (perf_Duration p) (perf_Price p))
        end
    end) services.

(** What a working-windows answer says of a draft. *)
Definition stillWorking (branch : Branch) (windows : BusinessID → BranchID → list StaffID → time → time → res book_error (gmap StaffID (list Interval)))
    (a : Appointment) : res book_error bool :=
  let busy := Busy (state a) in
  let! w := windows (b_BusinessID branch) (b_ID branch) [ap_Barber (state a)] (i_start busy) (i_end busy) in
  Ok (existsb (λ w, Covers w busy) (default [] (w !! ap_Barber (state a)))).

Definition customer_booking (cmd : BookAppointment) (branch : Branch) (id : AppointmentID) (staff : StaffID) (items : list Item) : Booking :=
  let p := b_Policy branch in
  MkBooking id (b_BusinessID branch) (b_ID branch) staff (c_Customer cmd) "" None (c_Start cmd) items (Buffer p)
    (match c_Barber cmd with None => AnyBarber | Some _ => RequestedBarber end) (TrimSpace (c_Note cmd))
    (AutoConfirm p) (PendingExpiry p) (CancellationWindow p).

(** One draft for each free barber; the IDs are drawn one after another. *)
Fixpoint drafts_for (cmd : BookAppointment) (branch : Branch) (menu : list MenuItem) (now : time) (newID : nat → AppointmentID) (n : nat)
    (free : list StaffID) : res book_error (list Appointment) :=
  match free with
  | [] => Ok []
  | staff :: free =>
      let! items := itemsFor (c_Services cmd) menu staff in
      let! d := Appointment.Book (customer_booking cmd branch (newID n) staff items) now in
      let! ds := drafts_for cmd branch menu now newID (S n) free in
      Ok (d :: ds)
  end.

(** Either an earlier request's appointment, or what to save. *)
Inductive plan := Replayed (a : Appointment) | Attempt (att : BookingAttempt).

(** [Book] up to [bookings.Book]; [old] is what [Replay] reads, [seen] what
    [Busy] reads, [windows] what scheduling answers under the lock. *)
Definition Book_plan (old seen : BookDB) (now : time) (newID : nat → AppointmentID)
    (windows : BusinessID → BranchID → list StaffID → time → time → res book_error (gmap StaffID (list Interval)))
    (cmd : BookAppointment) : res book_error plan :=
  check! services_ok (c_Services cmd) else ErrNoServices in
  let hash := requestHash cmd in
  let! r := Replay old (c_Customer cmd) (c_IdempotencyKey cmd) hash in
  match r with
  | Some a => Ok (Replayed a)
  | None =>
      let! branch := Bookable (c_Branch cmd) in
      let! _ := checkStart (c_Start cmd) now branch in
      let! menu := Menu (b_BusinessID branch) (b_ID branch) in
      let! offers := offersFor (c_Services cmd) menu in
      let! offers := stillThere branch offers in
      let! offers := choose (c_Barber cmd) offers in
      let day := DayOf (b_Location branch) (c_Start cmd) in
      let! cands := candidates seen branch day offers in
      let free := freeAt (c_Start cmd) cands day (b_Location branch) in
      let! drafts := drafts_for cmd branch menu now newID 0 free in
      let limit := MaxActiveBookings (b_Policy branch) in
      Ok (Attempt (MkAttempt (c_Customer cmd) (b_ID branch) (c_IdempotencyKey cmd) hash now
            (Some (λ active, if limit <=? active then Err ErrTooManyBookings else Ok tt)) drafts (stillWorking branch windows)))
  end.

(** Carrying a plan out on the tables as they are by then. *)
Definition carry_out (db : BookDB) (p : plan) : res book_error (option Appointment * bool * BookDB) :=
  match p with
  | Replayed a => Ok (Some a, true, db)
  | Attempt att => Store_Book db att
  end.

Definition Book (old seen db : BookDB) (now : time) (newID : nat → AppointmentID)
    (windows : BusinessID → BranchID → list StaffID → time → time → res book_error (gmap StaffID (list Interval)))
    (cmd : BookAppointment) : res book_error (option Appointment * bool * BookDB) :=
  let! p := Book_plan old seen now newID windows cmd in carry_out db p.

(** ** Staff bookings *)

Definition worksAt (m : Member) (branch : BranchID) : bool :=
  bool_decide (mem_Role m = RoleOwner) || bool_decide (branch ∈ mem_Branches m).

Definition mayActOn (m : Member) (a : Snapshot) : res book_error unit :=
  if negb (worksAt m (ap_Branch a)) || (bool_decide (mem_Role m = RoleBarber) && negb (bool_decide (ap_Barber a = mem_Staff m)))
  then Err ErrForbidden else Ok tt.

Definition staff_booking (cmd : StaffBooking) (branch : Branch) (id : AppointmentID) (items : list Item) : Booking :=
  MkBooking id (b_BusinessID branch) (b_ID branch) (s_Barber cmd) (MkID 0) (s_CustomerName cmd) (Some SourceStaff) (s_Start cmd) items
    (Buffer (b_Policy branch)) RequestedBarber (TrimSpace (s_Note cmd)) true 0 0.

Definition bookable_here (cmd : StaffBooking) : res book_error Branch :=
  match Bookable (s_Branch cmd) with
  | Err ErrNotFound => Err ErrBranchNotBookable
  | Err e => Err e
  | Ok branch => if bool_decide (b_BusinessID branch = s_Business cmd) then Ok branch else Err ErrBranchNotBookable
  end.

Definition StaffBook_plan (old seen : BookDB) (now : time) (newID : nat → AppointmentID)
    (windows : BusinessID → BranchID → list StaffID → time → time → res book_error (gmap StaffID (list Interval)))
    (cmd : StaffBooking) : res book_error plan :=
  check! services_ok (s_Services cmd) else ErrNoServices in
  let! member := MemberOf (s_Actor cmd) (s_Business cmd) in
  let! _ := BranchLocation (s_Business cmd) (s_Branch cmd) in
  check! negb (negb (worksAt member (s_Branch cmd)) || (bool_decide (mem_Role member = RoleBarber) && negb (bool_decide (s_Barber cmd = mem_Staff member))))
    else ErrForbidden in
  let hash := staffRequestHash cmd in
  let! r := Replay old (s_Actor cmd) (s_IdempotencyKey cmd) hash in
  match r with
  | Some a => Ok (Replayed a)
  | None =>
      let! branch := bookable_here cmd in
      let! _ := checkStaffStart (s_Start cmd) now branch in
      let! menu := Menu (b_BusinessID branch) (b_ID branch) in
      let! offers := offersFor (s_Services cmd) menu in
      let! offers := stillThere branch offers in
      let! offers := choose (Some (s_Barber cmd)) offers in
      let day := DayOf (b_Location branch) (s_Start cmd) in
      let! cands := candidates seen branch day offers in
      let! drafts :=
        if (length (freeAt (s_Start cmd) cands day (b_Location branch)) =? 1)%nat then
          let! items := itemsFor (s_Services cmd) menu (s_Barber cmd) in
          let! d := Appointment.Book (staff_booking cmd branch (newID 0%nat) items) now in
          Ok [d]
        else Ok [] in
      Ok (Attempt (MkAttempt (s_Actor cmd) (b_ID branch) (s_IdempotencyKey cmd) hash now None drafts (stillWorking branch windows)))
  end.

Definition StaffBook (old seen db : BookDB) (now : time) (newID : nat → AppointmentID)
    (windows : BusinessID → BranchID → list StaffID → time → time → res book_error (gmap StaffID (list Interval)))
    (cmd : StaffBooking) : res book_error (option Appointment * bool * BookDB) :=
  let! p := StaffBook_plan old seen now newID windows cmd in carry_out db p.

(** ** Looking at appointments *)

Record AppointmentView := MkView { view_of : Appointment; BarberName : string }.

Definition distinct_staff (list_ : list Appointment) : list StaffID :=
  foldl (λ staff a, if bool_decide (ap_Barber (state a) ∈ staff) then staff else staff ++ [ap_Barber (state a)]) [] list_.

Definition views (business : BusinessID) (branch : BranchID) (list_ : list Appointment) : res book_error (list AppointmentView) :=
  let staff := distinct_staff list_ in
  let! names :=
    (if (0 <? length staff)%nat then
       let! barbers := Barbers business branch staff in
       Ok (foldl (λ m b, <[barber_ID b := barber_Name b]> m) ∅ barbers)
     else Ok (∅ : gmap StaffID string)) in
  Ok ((λ a, MkView a (default "" (names !! ap_Barber (state a)))) <$> list_).

Definition view (a : Appointment) : res book_error AppointmentView :=
  let! v := views (ap_Business (state a)) (ap_Branch (state a)) [a] in
  match v with
  | v :: _ => Ok v
  | [] => Err ErrPanic
  end.

Definition Appointment_handler (db : BookDB) (customer : UserID) (id : AppointmentID) : res book_error Appointment := ByCustomer db customer id.

(** ** Managing (manage.go): the change is saved even if naming the barber
    then fails. *)

Definition viewed (db : BookDB) (r : res book_error (Appointment * BookDB)) : res book_error AppointmentView * BookDB :=
  match r with
  | Err e => (Err e, db)
  | Ok (a, db') => (view a, db')
  end.

Definition CancelMine (db : BookDB) (now : time) (customer : UserID) (id : AppointmentID) (reason : string) : res book_error AppointmentView * BookDB :=
  viewed db (ChangeMine db customer id (λ a, CancelByCustomer a reason now)).

Record StaffAction := MkStaffAction {
  act_Actor : UserID;
  act_Business : BusinessID;
  act_Appointment : AppointmentID;
  act_Action : Action;
  act_Reason : string }.

Definition staff_change (member : Member) (cmd : StaffAction) (now : time) (a : Appointment) : res book_error Appointment :=
  let! _ := mayActOn member (state a) in
  match act_Action cmd with
  | ActionConfirm => Confirm a now
  | ActionReject => Reject a now
  | ActionCancel => CancelByStaff a (act_Reason cmd) now
  | ActionComplete => Complete a now
  | ActionNoShow => MarkNoShow a now
  | ActionExpire => Err ErrInternal
  end.

Definition Act (db : BookDB) (now : time) (cmd : StaffAction) : res book_error AppointmentView * BookDB :=
  match MemberOf (act_Actor cmd) (act_Business cmd) with
  | Err e => (Err e, db)
  | Ok member => viewed db (ChangeAtBusiness db (act_Business cmd) (act_Appointment cmd) (staff_change member cmd now))
  end.

Record DayQuery := MkDayQuery { dq_Actor : UserID; dq_Business : BusinessID; dq_Branch : BranchID; dq_Day : Day }.
Record BranchDay := MkBranchDay { bd_Location : Location; bd_Appointments : list AppointmentView }.

Definition Day_handler (db : BookDB) (q : DayQuery) : res book_error BranchDay :=
  let! member := MemberOf (dq_Actor q) (dq_Business q) in
  let! loc := BranchLocation (dq_Business q) (dq_Branch q) in
  check! worksAt member (dq_Branch q) else ErrForbidden in
  let barber := if bool_decide (mem_Role member = RoleBarber) then Some (mem_Staff member) else None in
  let! list_ := Day_list db (dq_Business q) (dq_Branch q) (Day_Start (dq_Day q) loc) (Day_Start (Day_AddDays (dq_Day q) 1) loc) barber in
  let! all := views (dq_Business q) (dq_Branch q) list_ in
  Ok (MkBranchDay loc all).

(** ** Expiring (expire.go) *)

Definition ExpiryBatch : nat := 100.

(** [Run]: a batch a turn, on the clock of that turn; [None] when the fuel
    runs out. Other workers' locks are skipped in every batch. *)
Fixpoint Run (fuel : nat) (db : BookDB) (clock : nat → time) (locked : nat → AppointmentID → bool) : option (res book_error unit * BookDB) :=
  match fuel with
  | O => None
  | S fuel =>
      match ExpireDue db (clock O) ExpiryBatch (locked O) with
      | Err e => Some (Err e, db)
      | Ok (n, db') =>
          if (n <? ExpiryBatch)%nat then Some (Ok tt, db')
          else Run fuel db' (λ i, clock (S i)) (λ i, locked (S i))
      end
  end.
End Handlers.
