(* ===== verification/BookFlow.v ===== *)
(** * Booking, end to end

    What the handlers of BookApp promise, against the laws of the modules
    they ask: an offered slot can be booked, a booking keeps the branch's
    policy, only the people allowed change an appointment, and the expirer
    leaves nothing due. *)
From S2P Require Import Prelude GoTime GoText GoDate GoCrypto Shared Spans BookSlots Appointment BookStore BookApp.
From Stdlib Require DecimalString DecimalN.
Open Scope Z_scope.

(** ** What the other modules promise *)

(** A service as catalog keeps it: each performer once, with a duration and a
    price inside catalog's bounds. *)
Definition menu_item_ok (m : MenuItem) : Prop :=
  NoDup (perf_Staff <$> menu_Performers m) ∧
  ∀ p, p ∈ menu_Performers m → item_storable (MkItem (menu_ID m) (menu_Name m) (perf_Duration p) (perf_Price p)).

Definition policy_ok (p : Policy) : Prop :=
  0 ≤ Buffer p ≤ 24 * Hour ∧ (∃ step, 0 < step ≤ 1440 ∧ SlotInterval p = step * Minute).

Class PortsLaws (P : Ports) := {
  (** who works where, and when: what business and scheduling answer from *)
  at_branch : BusinessID → BranchID → StaffID → Prop;
  works : BusinessID → BranchID → StaffID → time → Prop;
  law_Bookable id b : Bookable id = Ok b → b_ID b = id ∧ policy_ok (b_Policy b);
  law_Barbers id branch staff bs b :
    Bookable id = Ok branch → Barbers (b_BusinessID branch) (b_ID branch) staff = Ok bs → b ∈ bs → at_branch (b_BusinessID branch) (b_ID branch) (barber_ID b);
  law_Menu biz br menu : Menu biz br = Ok menu → Forall menu_item_ok menu;
  law_Windows biz br staff from to :
    from < to → to - from ≤ 62 * 86400 * Second → Forall (at_branch biz br) staff →
    ∃ out, WorkingWindows biz br staff from to = Ok out ∧
      ∀ st, st ∈ staff → ∃ r, out !! st = Some r ∧ normalized r ∧ ∀ t, covered t r ↔ from ≤ t < to ∧ works biz br st t }.

(** ** Offers *)

(** What someone asks for some services, from the items they would perform. *)
Definition offered (menu : list MenuItem) (services : list ServiceID) (o : Offer) : Prop :=
  ∃ items, itemsFor services menu (offer_ID o) = Ok items ∧
    offer_Duration o = sum_of item_Duration items ∧ offer_Price o = Halalas (sum_of (λ it, amount (item_Price it)) items).

Lemma service_in_some menu id m : service_in menu id = Some m → m ∈ menu ∧ menu_ID m = id.
Proof. intros [Hin H]%find_first_some. by apply bool_decide_eq_true in H. Qed.

Lemma performer_lookup (ps : list Performer) st p :
  NoDup (perf_Staff <$> ps) →
  find_first (λ p, bool_decide (perf_Staff p = st)) ps = Some p ↔ p ∈ ps ∧ perf_Staff p = st.
Proof.
  intros Hnd. split.
  - intros [Hin H]%find_first_some. by apply bool_decide_eq_true in H.
  - intros [Hin <-]. induction ps as [|x ps IH]; [by apply not_elem_of_nil in Hin|].
    rewrite fmap_cons in Hnd. apply NoDup_cons in Hnd as [Hni Hnd]. simpl. apply elem_of_cons in Hin as [->|Hin]; [by rewrite bool_decide_eq_true_2|].
    rewrite bool_decide_eq_false_2; [by apply IH|]. intros E. apply Hni. rewrite E. apply list_elem_of_fmap. by exists p.
Qed.

Lemma by_staff_lookup ps st p :
  NoDup (perf_Staff <$> ps) → by_staff ps !! st = Some p ↔ p ∈ ps ∧ perf_Staff p = st.
Proof.
  intros Hnd. unfold by_staff.
  assert (H : ∀ m : gmap StaffID Performer, foldl (λ m p, <[perf_Staff p := p]> m) m ps !! st = Some p ↔
                   p ∈ ps ∧ perf_Staff p = st ∨ m !! st = Some p ∧ st ∉ perf_Staff <$> ps).
  { induction ps as [|x ps IH]; intros m; cbn [foldl].
    - rewrite fmap_nil. split; [intros ?; right; by split; [|apply not_elem_of_nil]|]. intros [[?%not_elem_of_nil _]|[? _]]; done.
    - rewrite fmap_cons in Hnd. apply NoDup_cons in Hnd as [Hni Hnd]. rewrite (IH Hnd), fmap_cons, elem_of_cons, not_elem_of_cons, lookup_insert_Some.
      split.
      + intros [[? ?]|[[[<- ->]|[? ?]] ?]]; [left; by split; [right|]|left; by split; [left|]|right; by split; [|split]].
      + intros [[[->|?] <-]|(? & ? & ?)]; [right; split; [by left|done]|by left|right]. split; [right; by split|done]. }
  rewrite H, lookup_empty. split; [intros [?|[? _]]; done|by left].
Qed.

(** The bounds that keep five services clear of overflow. *)
Definition small_offer (k : nat) (o : Offer) : Prop :=
  0 ≤ offer_Duration o ≤ Z.of_nat k * (480 * Minute) ∧ currency (offer_Price o) = SAR ∧ 0 ≤ amount (offer_Price o) ≤ Z.of_nat k * 10000000.

Lemma itemsFor_cons id services menu st :
  itemsFor (id :: services) menu st = res_bind (itemsFor [id] menu st) (λ its, res_bind (itemsFor services menu st) (λ l, Ok (its ++ l))).
Proof.
  unfold itemsFor. cbn [res_mapM]. destruct (service_in menu id); [|done]. destruct (find_first _ _); [|done]. cbn [res_bind].
  by destruct (res_mapM _ services).
Qed.

Lemma itemsFor_snoc services id menu st :
  itemsFor (services ++ [id]) menu st = res_bind (itemsFor services menu st) (λ l, res_bind (itemsFor [id] menu st) (λ its, Ok (l ++ its))).
Proof.
  induction services as [|x services IH].
  - cbn [app]. change (itemsFor [] menu st) with (Ok (E := book_error) ([] : list Item)). cbn [res_bind app]. by destruct (itemsFor [id] menu st).
  - rewrite <- app_comm_cons, itemsFor_cons, IH, (itemsFor_cons x services). destruct (itemsFor [x] menu st); cbn [res_bind]; [|done].
    destruct (itemsFor services menu st); cbn [res_bind]; [|done]. destruct (itemsFor [id] menu st); cbn [res_bind]; [|done]. by rewrite app_assoc.
Qed.

Lemma itemsFor_one menu id st m :
  service_in menu id = Some m → menu_item_ok m →
  ∀ its, itemsFor [id] menu st = Ok its ↔ ∃ p, p ∈ menu_Performers m ∧ perf_Staff p = st ∧ its = [MkItem id (menu_Name m) (perf_Duration p) (perf_Price p)].
Proof.
  intros Hm [Hnd _] its. unfold itemsFor. cbn [res_mapM]. rewrite Hm. cbn [res_bind].
  destruct (find_first _ _) as [p|] eqn:Ef; cbn [res_bind].
  - pose proof Ef as [Hp Hst]%performer_lookup; [|done]. split; [intros [= <-]; by exists p|]. intros (p' & Hp' & Hst' & ->).
    pose proof (proj2 (performer_lookup _ st p' Hnd) (conj Hp' Hst')) as E. rewrite Ef in E. by injection E as ->.
  - split; [done|]. intros (p & Hp & Hst & _). rewrite (proj2 (performer_lookup _ st p Hnd)) in Ef; [done|by split].
Qed.

Lemma itemsFor_ok services menu st items :
  Forall menu_item_ok menu → itemsFor services menu st = Ok items →
  Forall item_storable items ∧ item_Service <$> items = services.
Proof.
  intros Hmenu. unfold itemsFor. intros H%res_mapM_ok. induction H as [|id it services items Hf _ [IH1 IH2]]; [done|].
  destruct (service_in menu id) as [m|] eqn:Em; [|done]. destruct (find_first _ _) as [p|] eqn:Ep; [|done]. injection Hf as <-.
  apply service_in_some in Em as [Hin <-]. rewrite Forall_forall in Hmenu. destruct (Hmenu m Hin) as [_ Hp].
  rewrite fmap_cons, IH2. split; [|done]. constructor; [|done]. apply Hp. by apply find_first_some in Ep as [? _].
Qed.

Lemma storable_item_ok it : item_storable it → item_ok it.
Proof. by intros [? _]. Qed.

Lemma sum_of_app {A} (f : A → Z) l l' : sum_of f (l ++ l') = sum_of f l + sum_of f l'.
Proof. unfold sum_of. induction l as [|x l IH]; simpl; lia. Qed.

Lemma offered_small menu services o :
  Forall menu_item_ok menu → offered menu services o → small_offer (length services) o.
Proof.
  intros Hmenu (items & Hi & Hd & Hp). destruct (itemsFor_ok _ _ _ _ Hmenu Hi) as [Hs Hl].
  assert (Hok : Forall item_ok items) by (eapply Forall_impl; [exact Hs|apply storable_item_ok]).
  assert (El : length items = length services) by (by rewrite <- Hl, length_fmap).
  pose proof (sum_of_bounds item_Duration (5 * Minute) (480 * Minute) items) as Hb.
  pose proof (sum_of_bounds (λ it, amount (item_Price it)) 0 10000000 items) as Hb'.
  rewrite El in Hb, Hb'. destruct Hb as [Hb1 Hb2]; [eapply Forall_impl; [exact Hok|by intros ? [? _]]|].
  destruct Hb' as [Hb1' Hb2']; [eapply Forall_impl; [exact Hok|by intros ? (_ & _ & ?)]|].
  unfold small_offer. rewrite Hd, Hp. cbn [Halalas amount currency]. unfold Minute, Second, Millisecond, Microsecond in *.
  split; [lia|]. split; [done|lia].
Qed.

Definition plus_offer (o : Offer) (p : Performer) : Offer :=
  MkOffer (offer_ID o) (offer_Name o) (offer_Duration o + perf_Duration p) (Halalas (amount (offer_Price o) + amount (perf_Price p))).

Lemma add_service_spec (byStaff : gmap StaffID Performer) offers k :
  Forall (small_offer k) offers → (k ≤ 100)%nat →
  (∀ st p, byStaff !! st = Some p → 0 ≤ perf_Duration p ≤ 480 * Minute ∧ currency (perf_Price p) = SAR ∧ 0 ≤ amount (perf_Price p) ≤ 10000000) →
  ∃ kept, add_service byStaff offers = Ok kept ∧ (offer_ID <$> kept) `sublist_of` (offer_ID <$> offers) ∧
    ∀ o', o' ∈ kept ↔ ∃ o p, o ∈ offers ∧ byStaff !! offer_ID o = Some p ∧ o' = plus_offer o p.
Proof.
  intros Hs Hk Hp. induction Hs as [|o offers (Hd & Hc & Ha) _ IH]; cbn [add_service].
  - exists []. split; [done|]. split; [done|]. intros o'. split; [by intros ?%not_elem_of_nil|by intros (? & ? & ?%not_elem_of_nil & _)].
  - destruct IH as (kept & Hkept & Hsub & Hel). rewrite Hkept. destruct (byStaff !! offer_ID o) as [p|] eqn:Eo.
    + destruct (Hp _ _ Eo) as (Hpd & Hpc & Hpa).
      assert (E : Money_Add (offer_Price o) (perf_Price p) = Ok (Halalas (amount (offer_Price o) + amount (perf_Price p)))).
      { rewrite Money_Add_spec by (unfold money_ok, in_int64, min_int64, max_int64; lia).
        rewrite decide_False by congruence. rewrite decide_True by (unfold in_int64, min_int64, max_int64; lia). by rewrite Hc. }
      rewrite E. cbn [res_map_err res_bind]. eexists. split; [done|]. split; [by rewrite !fmap_cons; apply sublist_skip|].
      assert (Ed : dur_add (offer_Duration o) (perf_Duration p) = offer_Duration o + perf_Duration p).
      { unfold dur_add. apply int64_id. unfold in_int64, min_int64, max_int64, Minute, Second, Millisecond, Microsecond in *. lia. }
      rewrite Ed. intros o'. rewrite elem_of_cons, Hel. split.
      * intros [->|(o1 & p1 & ? & ? & ->)]; [exists o, p; by split; [left|]|exists o1, p1; by split; [right|]].
      * intros (o1 & p1 & [->|?]%elem_of_cons & Hb & ->); [left; rewrite Eo in Hb; by injection Hb as ->|right; by exists o1, p1].
    + exists kept. split; [done|]. split; [by rewrite fmap_cons; apply sublist_cons|]. intros o'. rewrite Hel. split.
      * intros (o1 & p1 & ? & ?). exists o1, p1. by split; [right|].
      * intros (o1 & p1 & [->|?]%elem_of_cons & Hb & ->); [congruence|by exists o1, p1].
Qed.

Lemma performer_bounds m st p :
  menu_item_ok m → by_staff (menu_Performers m) !! st = Some p →
  0 ≤ perf_Duration p ≤ 480 * Minute ∧ currency (perf_Price p) = SAR ∧ 0 ≤ amount (perf_Price p) ≤ 10000000.
Proof.
  intros [Hnd Hp] [Hin _]%by_staff_lookup; [|done]. destruct (Hp p Hin) as [(Hd & Hc & Ha) _]. cbn in Hd, Hc, Ha.
  split; [unfold Minute, Second, Millisecond, Microsecond in *; lia|done].
Qed.

(** What the loop keeps: everyone who performs the services so far. *)
Definition offers_of (menu : list MenuItem) (services : list ServiceID) (offers : list Offer) : Prop :=
  NoDup (offer_ID <$> offers) ∧ ∀ o, o ∈ offers ↔ offer_Name o = "" ∧ offered menu services o.

Lemma offered_snoc menu services id m o :
  Forall menu_item_ok menu → service_in menu id = Some m →
  offer_Name o = "" ∧ offered menu (services ++ [id]) o ↔
  ∃ o0 p, (offer_Name o0 = "" ∧ offered menu services o0) ∧ by_staff (menu_Performers m) !! offer_ID o0 = Some p ∧ o = plus_offer o0 p.
Proof.
  intros Hmenu Hm. pose proof (service_in_some _ _ _ Hm) as [Hin _]. rewrite Forall_forall in Hmenu. pose proof (Hmenu m Hin) as Hok.
  unfold offered. split.
  - intros (Hname & items & Hi & Hd & Hp). rewrite itemsFor_snoc in Hi. apply res_bind_ok in Hi as (l & Hl & (its & Hits & Hlast)%res_bind_ok).
    injection Hlast as <-. apply (itemsFor_one _ _ _ _ Hm Hok) in Hits as (p & Hpin & Hst & ->).
    exists (MkOffer (offer_ID o) "" (sum_of item_Duration l) (Halalas (sum_of (λ it, amount (item_Price it)) l))), p.
    split; [split; [done|by exists l]|]. split; [apply by_staff_lookup; [apply Hok|by split]|].
    unfold plus_offer. cbn [offer_ID offer_Name offer_Duration offer_Price Halalas amount]. destruct o as [i n d pr]. cbn in *. rewrite Hd, Hp, Hname.
    rewrite !sum_of_app. cbn. by rewrite !Z.add_0_r.
  - intros (o0 & p & (Hname & l & Hl & Hd & Hp) & Hby & ->). split; [done|].
    apply by_staff_lookup in Hby as [Hpin Hst]; [|apply Hok].
    exists (l ++ [MkItem id (menu_Name m) (perf_Duration p) (perf_Price p)]). cbn [plus_offer offer_ID offer_Duration offer_Price].
    rewrite itemsFor_snoc, Hl. cbn [res_bind].
    rewrite (proj2 (itemsFor_one menu id (offer_ID o0) m Hm Hok _) (ex_intro _ p (conj Hpin (conj Hst eq_refl)))).
    split; [done|]. rewrite !sum_of_app, Hd, Hp. cbn. by rewrite !Z.add_0_r.
Qed.

Lemma offers_loop_spec menu services : ∀ n prefix offers,
  Forall menu_item_ok menu → n ≠ 0%nat → (length (prefix ++ services) ≤ 100)%nat → offers_of menu prefix offers →
  match offers_loop n offers services menu with
  | Ok out => offers_of menu (prefix ++ services) out
  | Err e => e = ErrServiceUnavailable ∧ ∃ id, id ∈ services ∧ service_in menu id = None
  end.
Proof.
  induction services as [|id services IH]; intros n prefix offers Hmenu Hn Hlen [Hnd Hel]; cbn [offers_loop]; [by rewrite app_nil_r|].
  destruct (service_in menu id) as [m|] eqn:Em; [|split; [done|]; exists id; by split; [left|]].
  rewrite (proj2 (Nat.eqb_neq _ _) Hn).
  pose proof (service_in_some _ _ _ Em) as [Hin _]. pose proof Hmenu as Hm. rewrite Forall_forall in Hm. specialize (Hm m Hin).
  destruct (add_service_spec (by_staff (menu_Performers m)) offers (length prefix)) as (kept & -> & Hsub & Hkept).
  { apply Forall_forall. intros o [_ Ho]%Hel. by eapply offered_small. }
  { rewrite length_app in Hlen. lia. }
  { intros st p. by apply performer_bounds. }
  cbn [res_bind]. specialize (IH (S n) (prefix ++ [id]) kept Hmenu ltac:(lia)). rewrite <- app_assoc in IH. cbn [app] in IH.
  assert (Hkept' : offers_of menu (prefix ++ [id]) kept).
  { split; [by eapply sublist_NoDup|]. intros o. rewrite Hkept, (offered_snoc _ _ _ _ _ Hmenu Em). by setoid_rewrite Hel. }
  specialize (IH Hlen Hkept'). destruct (offers_loop (S n) kept services menu) as [out|e]; [done|].
  destruct IH as (-> & x & Hx & Hnone). split; [done|]. exists x. by split; [right|].
Qed.

Lemma services_ok_spec services : services_ok services = true ↔ (1 ≤ length services ≤ 5)%nat ∧ NoDup services.
Proof.
  unfold services_ok, MaxServices. rewrite negb_true_iff, !orb_false_iff, Nat.eqb_neq, Nat.ltb_ge, has_dup_false. split.
  - intros [[H1 H2] [H3 _]]. split; [lia|exact H3].
  - intros [Hl Hd]. split; [lia|]. split; [exact Hd|]. intros ? _. apply not_elem_of_nil.
Qed.

Lemma Halalas_amount p : currency p = SAR → Halalas (amount p) = p.
Proof. destruct p; cbn. by intros ->. Qed.

Lemma offersFor_spec `{UuidLib} services menu :
  Forall menu_item_ok menu → services_ok services = true →
  match offersFor services menu with
  | Ok offers => offers_of menu services offers
  | Err e => e = ErrServiceUnavailable ∧ ∃ id, id ∈ services ∧ service_in menu id = None
  end.
Proof.
  intros Hmenu [Hlen _]%services_ok_spec.
  unfold offersFor. destruct services as [|id services]; [cbn in Hlen; lia|]. cbn [offers_loop].
  destruct (service_in menu id) as [m|] eqn:Em; cbn [res_bind]; [|split; [done|]; exists id; by split; [left|]].
  cbn [Nat.eqb app]. pose proof (service_in_some _ _ _ Em) as [Hin _]. pose proof Hmenu as Hm. rewrite Forall_forall in Hm. specialize (Hm m Hin).
  assert (Hfirst : offers_of menu [id] (first_offer <$> menu_Performers m)).
  { split; [rewrite <- list_fmap_compose; apply Hm|]. intros o. unfold offered. rewrite list_elem_of_fmap. split.
    - intros (p & -> & Hp). split; [done|]. exists [MkItem id (menu_Name m) (perf_Duration p) (perf_Price p)].
      split; [apply (itemsFor_one _ _ _ _ Em Hm); by exists p|]. destruct Hm as [_ Hm]. destruct (Hm p Hp) as [(_ & Hc & _) _]. cbn in *.
      rewrite !Z.add_0_r. split; [done|]. by rewrite Halalas_amount.
    - intros (Hname & items & Hi & Hd & Hp). apply (itemsFor_one _ _ _ _ Em Hm) in Hi as (p & Hpin & Hst & ->). exists p. split; [|done].
      destruct Hm as [_ Hm]. destruct (Hm p Hpin) as [(_ & Hc & _) _]. cbn in *. rewrite !Z.add_0_r in *. destruct o as [i n d pr]; cbn in *. subst.
      unfold first_offer. by rewrite Halalas_amount. }
  pose proof (offers_loop_spec menu services 1 [id] (first_offer <$> menu_Performers m) Hmenu ltac:(lia)) as Hl.
  specialize (Hl ltac:(cbn [length app] in *; lia) Hfirst). destruct (offers_loop 1 _ services menu) as [out|e]; cbn [res_bind app] in *.
  - destruct Hl as [Hnd Hel]. split; [by rewrite (fmap_Permutation _ _ _ (sort_by_perm by_id out))|]. intros o. by rewrite elem_of_sort_by.
  - destruct Hl as (-> & x & Hx & Hnone). split; [done|]. exists x. by split; [right|].
Qed.

(** The first entry for an ID is the entry, when IDs are distinct. *)
Lemma choose_spec who offers l :
  NoDup (offer_ID <$> offers) → choose who offers = Ok l →
  NoDup (offer_ID <$> l) ∧ (∀ o, o ∈ l → o ∈ offers) ∧ (∀ id, who = Some id → ∃ o, l = [o] ∧ offer_ID o = id) ∧ (who = None → l = offers).
Proof.
  intros Hnd. unfold choose. destruct who as [id|]; [|intros [= <-]; done].
  destruct (find_first _ offers) as [o|] eqn:Ef; [|done]. intros [= <-]. apply find_first_some in Ef as [Hin E]. apply bool_decide_eq_true in E.
  split; [apply NoDup_singleton|]. split; [by intros x ->%list_elem_of_singleton|]. split; [intros ? [= <-]; by exists o|done].
Qed.

Lemma choose_one offers o :
  NoDup (offer_ID <$> offers) → o ∈ offers → choose (Some (offer_ID o)) offers = Ok [o].
Proof.
  intros Hnd Hin. unfold choose. assert (Hf : find_first (λ x, bool_decide (offer_ID x = offer_ID o)) offers = Some o); [|by rewrite Hf].
  induction offers as [|x offers IH]; [by apply not_elem_of_nil in Hin|]. rewrite fmap_cons in Hnd. apply NoDup_cons in Hnd as [Hni Hnd].
  simpl. apply elem_of_cons in Hin as [->|Hin]; [by rewrite bool_decide_eq_true_2|]. rewrite bool_decide_eq_false_2; [by apply IH|].
  intros E. apply Hni. rewrite E. apply list_elem_of_fmap. by exists o.
Qed.

(** ** What the tables say a barber is doing *)

Definition taken (db : BookDB) (st : StaffID) (t : time) : Prop :=
  ∃ id x, diary db !! id = Some x ∧ ap_Barber x = st ∧ active (ap_Status x) = true ∧ ap_Start x ≤ t < ap_BusyUntil x.

Lemma busy_row_spec db st from to r :
  tables_ok db → r ∈ busy_rows db st from to ↔
    ∃ x, diary db !! ap_ID x = Some x ∧ r = row_for x ∧ ap_Barber x = st ∧ active (ap_Status x) = true ∧ ap_Start x < to ∧ from < ap_BusyUntil x.
Proof.
  intros Hok. unfold busy_rows. rewrite elem_of_sort_by, list_elem_of_filter, list_elem_of_fmap. unfold Overlaps, during, Before. cbn [i_start i_end]. split.
  - intros ((Hst & Ha & Ho) & [id r'] & -> & Hin). apply elem_of_map_to_list in Hin. cbn [snd] in *.
    destruct (so_row _ Hok _ _ Hin) as (x & Hx & Hid & -> & Hi). bool_prop. exists x. split; [apply diary_lookup; [done|]; by subst|]. done.
  - intros (x & Hd & -> & Hst & Ha & ? & ?). apply diary_lookup in Hd as (Hid & Hx & Hr & Hi); [|done]. split.
    + split; [done|]. split; [done|]. cbn [row_for r_starts_at r_busy_until]. apply andb_true_intro. by rewrite !Z.ltb_lt.
    + exists (ap_ID x, row_for x). split; [done|]. by apply elem_of_map_to_list.
Qed.

Lemma Busy_of_spec db ids from to st :
  tables_ok db → st ∈ ids →
  ∃ l, Busy_of db ids from to st = Ok l ∧ Forall nonempty l ∧ ∀ t, from ≤ t < to → covered t l ↔ taken db st t.
Proof.
  intros Hok Hin. unfold Busy_of. rewrite bool_decide_eq_true_2 by done.
  assert (Hrow : ∀ r, r ∈ busy_rows db st from to → r_starts_at r < r_busy_until r).
  { intros r (x & Hd & -> & _)%busy_row_spec; [|done]. apply diary_lookup in Hd as (_ & Hx & _); [|done]. pose proof (st_times _ Hx). cbn. lia. }
  exists (during <$> busy_rows db st from to). split; [|split].
  - apply res_mapM_ok, Forall2_fmap_r, Forall_Forall2_diag, Forall_forall. intros r Hr. unfold NewInterval, After.
    by rewrite (proj2 (Z.ltb_lt _ _) (Hrow r Hr)).
  - apply Forall_fmap, Forall_forall. intros r Hr. by apply Hrow.
  - intros t Ht. unfold covered, taken. split.
    + intros (i & (r & -> & Hr)%list_elem_of_fmap & Hi). apply busy_row_spec in Hr as (x & Hd & -> & ? & ? & _); [|done]. by exists (ap_ID x), x.
    + intros (id & x & Hd & Hst & Ha & Hi). pose proof Hd as (<- & _)%diary_lookup; [|done]. exists (during (row_for x)). split; [|done].
      apply list_elem_of_fmap. exists (row_for x). split; [done|]. apply busy_row_spec; [done|]. exists x. split_and!; [done..|lia|lia].
Qed.

(** ** Candidates *)

(** Free for a whole booking: working, and not taken, at every instant. *)
Definition free_of {P : Ports} {L : PortsLaws P} (db : BookDB) (branch : Branch) (st : StaffID) (length_ : Duration) (start : time) : Prop :=
  0 < length_ ∧ ∀ t, start ≤ t < start + length_ → works (b_BusinessID branch) (b_ID branch) st t ∧ ¬ taken db st t.

Section Flow.
Context `{U : UuidLib} {P : Ports} {L : PortsLaws P}.

Lemma names_lookup (bs : list Barber) (m : gmap StaffID string) st name :
  foldl (λ m b, <[barber_ID b := barber_Name b]> m) m bs !! st = Some name → m !! st = Some name ∨ ∃ b, b ∈ bs ∧ barber_ID b = st.
Proof.
  revert m. induction bs as [|b bs IH]; intros m; cbn [foldl]; [by left|]. intros [Hm|(x & Hx & <-)]%IH.
  - apply lookup_insert_Some in Hm as [[<- _]|[_ ?]]; [right; exists b; by split; [left|]|by left].
  - right. exists x. by split; [right|].
Qed.

Lemma stillThere_spec id branch offers kept :
  Bookable id = Ok branch → NoDup (offer_ID <$> offers) → stillThere branch offers = Ok kept →
  NoDup (offer_ID <$> kept) ∧
  ∀ o, o ∈ kept → at_branch (b_BusinessID branch) (b_ID branch) (offer_ID o) ∧
    ∃ o0, o0 ∈ offers ∧ offer_ID o0 = offer_ID o ∧ offer_Duration o0 = offer_Duration o ∧ offer_Price o0 = offer_Price o.
Proof.
  intros Hbk Hnd. unfold stillThere. destruct offers as [|o1 offers1]; [intros [= <-]; split; [done|]; by intros ? ?%not_elem_of_nil|].
  set (offers := o1 :: offers1) in *. intros (bs & Hbs & Hk)%res_bind_ok. apply (inj Ok) in Hk. subst kept. set (names := foldl _ _ bs). split.
  - clear -Hnd. induction offers as [|o offers IH]; [done|]. rewrite fmap_cons in Hnd. apply NoDup_cons in Hnd as [Hni Hnd]. cbn.
    destruct (names !! offer_ID o) as [n|]; cbn; [|by apply IH]. constructor; [|by apply IH]. intros Hin. apply Hni.
    apply list_elem_of_fmap in Hin as (x & -> & Hx). apply list_elem_of_omap in Hx as (y & Hy & Ey).
    destruct (names !! offer_ID y); [|done]. injection Ey as <-. apply list_elem_of_fmap. by exists y.
  - intros o (y & Hy & Ey)%list_elem_of_omap. destruct (names !! offer_ID y) as [n|] eqn:En; [|done]. injection Ey as <-. split; [|by exists y].
    apply names_lookup in En as [?|(b & Hb & <-)]; [done|]. by eapply law_Barbers.
Qed.

Definition total_length (branch : Branch) (o : Offer) : Duration := offer_Duration o + Buffer (b_Policy branch).

Definition day_offer (branch : Branch) (o : Offer) : Prop :=
  at_branch (b_BusinessID branch) (b_ID branch) (offer_ID o) ∧ 0 ≤ offer_Duration o ≤ 40 * Hour.

Lemma length_exact branch o : policy_ok (b_Policy branch) → day_offer branch o →
  dur_add (offer_Duration o) (Buffer (b_Policy branch)) = total_length branch o ∧ 0 ≤ total_length branch o ≤ 64 * Hour.
Proof.
  intros [Hb _] [_ Hd]. unfold dur_add, total_length. split; [|lia]. apply int64_id.
  unfold in_int64, min_int64, max_int64, Hour, Minute, Second, Millisecond, Microsecond in *. lia.
Qed.

Lemma longest_spec branch offers :
  policy_ok (b_Policy branch) → Forall (day_offer branch) offers →
  0 ≤ longest branch offers ≤ 64 * Hour ∧ ∀ o, o ∈ offers → total_length branch o ≤ longest branch offers.
Proof.
  intros Hp Ho. unfold longest.
  assert (H : ∀ l, 0 ≤ l ≤ 64 * Hour → let r := foldl (λ l o, Z.max l (dur_add (offer_Duration o) (Buffer (b_Policy branch)))) l offers in
    l ≤ r ≤ 64 * Hour ∧ ∀ o, o ∈ offers → total_length branch o ≤ r).
  { induction Ho as [|o offers Ho _ IH]; intros l Hl; cbn [foldl]; [split; [lia|by intros ? ?%not_elem_of_nil]|].
    destruct (length_exact branch o Hp Ho) as [-> Hlen]. destruct (IH (Z.max l (total_length branch o)) ltac:(lia)) as [H1 H2].
    split; [lia|]. intros x [->|Hx]%elem_of_cons; [lia|by apply H2]. }
  destruct (H 0 ltac:(unfold Hour, Minute, Second, Millisecond, Microsecond; lia)) as [H1 H2]. done.
Qed.

Definition candidate_for (db : BookDB) (branch : Branch) (d : Day) (o : Offer) (c : Candidate) : Prop :=
  cand_Staff c = offer_ID o ∧ cand_Length c = total_length branch o ∧
  ∀ start, DayOf (b_Location branch) start = d → CanTake c start = true ↔ free_of db branch (offer_ID o) (total_length branch o) start.

Lemma candidates_spec db branch d off offers :
  tables_ok db → policy_ok (b_Policy branch) → b_Location branch = fixed_zone off → valid_day_of d → Forall (day_offer branch) offers →
  ∃ cands, candidates db branch d offers = Ok cands ∧ Forall2 (candidate_for db branch d) offers cands.
Proof.
  intros Hok Hp Hloc Hd Ho. unfold candidates. set (from := Day_Start d (b_Location branch)).
  set (to := GoTime.Add _ _). destruct (longest_spec branch offers Hp Ho) as [Hl Hlo].
  assert (Hto : to = from + 24 * Hour + longest branch offers).
  { unfold to, from, GoTime.Add. rewrite Hloc, day_length_fixed by done. unfold Hour. lia. }
  destruct (law_Windows (b_BusinessID branch) (b_ID branch) (offer_ID <$> offers) from to) as (out & -> & Hout).
  { unfold Hour, Minute, Second, Millisecond, Microsecond in *. lia. }
  { unfold Hour, Minute, Second, Millisecond, Microsecond in *. lia. }
  { apply Forall_fmap. eapply Forall_impl; [exact Ho|]. by intros o [? _]. }
  cbn [res_bind]. pose proof Ho as Hall. rewrite Forall_forall in Hall.
  assert (Hone : ∀ o, o ∈ offers → ∃ c, (let! busy := Busy_of db (offer_ID <$> offers) from to (offer_ID o) in
    Ok (MkCandidate (offer_ID o) (dur_add (offer_Duration o) (Buffer (b_Policy branch))) (default [] (out !! offer_ID o)) busy)) = Ok c ∧
    candidate_for db branch d o c).
  { intros o Hin. assert (Hid : offer_ID o ∈ offer_ID <$> offers) by (apply list_elem_of_fmap; by exists o).
    destruct (Busy_of_spec db (offer_ID <$> offers) from to (offer_ID o) Hok Hid) as (busy & -> & Hne & Hbusy).
    destruct (Hout _ Hid) as (r & -> & Hn & Hr). destruct (length_exact branch o Hp (Hall o Hin)) as [-> Hlen].
    cbn [res_bind default]. eexists. split; [done|]. split; [done|]. split; [done|]. intros start Hday. cbn [id].
    rewrite CanTake_spec by done. unfold free_throughout, free_of. cbn [cand_Length cand_Windows cand_Busy].
    rewrite Hloc in Hday. apply day_span_fixed in Hday; [|done]. rewrite <- Hloc in Hday. fold from in Hday.
    assert (Hend : start + total_length branch o ≤ to).
    { rewrite Hloc, day_length_fixed, <- Hloc in Hday by done. fold from in Hday. specialize (Hlo o Hin). rewrite Hto. unfold Hour. lia. }
    split; (intros [Hpos H]; split; [done|]; intros t Ht; specialize (H t Ht); rewrite Hr, Hbusy in *; [|lia..]); [tauto|].
    split; [split; [lia|tauto]|tauto]. }
  clear -Hone. clearbody to from. revert Hone. generalize (offer_ID <$> offers) as ids. induction offers as [|o offers IH]; intros ids Hone; [by exists []|].
  destruct (Hone o ltac:(by left)) as (c & Hc & Hcf). destruct (IH ids) as (cands & Hcs & Hf); [intros x Hx; apply Hone; by right|].
  exists (c :: cands). cbn [res_mapM]. rewrite Hc. cbn [res_bind]. rewrite Hcs. cbn [res_bind]. split; [done|]. by constructor.
Qed.

(** ** Drafts *)

Lemma booked_storable b now :
  Forall item_storable (bk_Items b) → 0 ≤ bk_Buffer b → book_refusal b = None → storable (booked b now).
Proof.
  intros Hi Hb Hr. pose proof (booked_ok b now Hr) as Hok. unfold book_refusal in Hr. repeat (case_decide; [done|]).
  assert (Hit : Forall item_ok (bk_Items b)) by (eapply Forall_impl; [exact Hi|apply storable_item_ok]).
  pose proof (sum_of_bounds item_Duration (5 * Minute) (480 * Minute) (bk_Items b)) as Hd.
  pose proof (sum_of_bounds (λ it, amount (item_Price it)) 0 10000000 (bk_Items b)) as Hp.
  destruct Hd as [Hd _]; [eapply Forall_impl; [exact Hit|by intros ? [? _]]|].
  destruct Hp as [Hp1 Hp2]; [eapply Forall_impl; [exact Hit|by intros ? (_ & _ & ?)]|].
  unfold MaxServices, MaxNoteLen, MaxCustomerNameLen in *.
  constructor; cbn [booked ap_Items ap_Price ap_Start ap_End ap_BusyUntil ap_Note ap_CustomerName ap_Cancellation Halalas amount currency]; try done.
  - split; [done|lia].
  - assert (0 < 5 * Minute) by done. nia.
  - lia.
  - lia.
Qed.

(** The draft for one barber. *)
Definition draft_of (b : Booking) (now : time) : Appointment := MkAppointment (booked b now) [AppointmentBooked (booked b now)].

Lemma Book_draft b now d :
  Forall item_storable (bk_Items b) → 0 ≤ bk_Buffer b → Appointment.Book b now = Ok d → d = draft_of b now ∧ draft_ok d ∧ book_refusal b = None.
Proof.
  intros Hi Hb. rewrite Book_cases by (eapply Forall_impl; [exact Hi|apply storable_item_ok]).
  destruct (book_refusal b) eqn:Er; [done|]. intros [= <-]. split; [done|]. split; [|done]. split; [by apply booked_storable|]. done.
Qed.

Definition draft_for (cmd : BookAppointment) (branch : Branch) (menu : list MenuItem) (now : time) (st : StaffID) (id : AppointmentID) (d : Appointment) : Prop :=
  ∃ items, itemsFor (c_Services cmd) menu st = Ok items ∧ d = draft_of (customer_booking cmd branch id st items) now ∧ draft_ok d.

Lemma drafts_for_spec cmd branch menu now newID n free ds :
  Forall menu_item_ok menu → policy_ok (b_Policy branch) → drafts_for cmd branch menu now newID n free = Ok ds →
  ∀ d, d ∈ ds → ∃ st id, st ∈ free ∧ draft_for cmd branch menu now st id d.
Proof.
  intros Hmenu [Hb _]. revert n ds. induction free as [|st free IH]; intros n ds; cbn [drafts_for]; [intros [= <-] d ?%not_elem_of_nil; done|].
  intros (items & Hi & (d0 & Hd0 & (ds' & Hds & Hlast)%res_bind_ok)%res_bind_ok)%res_bind_ok. injection Hlast as <-.
  destruct (itemsFor_ok _ _ _ _ Hmenu Hi) as [Hst _]. apply Book_draft in Hd0 as (-> & Hok & _); [|done|apply Hb].
  intros d [->|Hd]%elem_of_cons.
  - exists st, (newID n). split; [by left|]. by exists items.
  - destruct (IH _ _ Hds d Hd) as (st' & id & ? & ?). exists st', id. by split; [right|].
Qed.

(** Nothing but the request itself can stop a draft. *)
Definition request_ok (cmd : BookAppointment) : Prop :=
  c_Customer cmd ≠ MkID 0 ∧ RuneCountInString (TrimSpace (c_Note cmd)) ≤ MaxNoteLen ∧ services_ok (c_Services cmd) = true.

Lemma request_not_refused cmd branch id st items :
  request_ok cmd → item_Service <$> items = c_Services cmd → book_refusal (customer_booking cmd branch id st items) = None.
Proof.
  intros (Hc & Hn & [Hlen _]%services_ok_spec) Hl.
  assert (El : length items = length (c_Services cmd)) by (by rewrite <- Hl, length_fmap).
  unfold book_refusal. cbn [customer_booking bk_Items bk_Note bk_CustomerName bk_Customer bk_Source].
  rewrite decide_False by (unfold MaxServices; rewrite El; lia). rewrite decide_False by lia. rewrite decide_False by done. rewrite decide_False; [done|]. by intros [? _].
Qed.

Lemma drafts_for_total cmd branch menu now newID n st free :
  Forall menu_item_ok menu → policy_ok (b_Policy branch) → request_ok cmd →
  (∀ x, x ∈ st :: free → ∃ items, itemsFor (c_Services cmd) menu x = Ok items) →
  ∃ d ds, drafts_for cmd branch menu now newID n (st :: free) = Ok (d :: ds) ∧ draft_for cmd branch menu now st (newID n) d ∧ Forall draft_ok (d :: ds).
Proof.
  intros Hmenu Hp Hreq. revert n st. induction free as [|st' free IH]; intros n st Hitems.
  - destruct (Hitems st ltac:(by left)) as (items & Hi). destruct (itemsFor_ok _ _ _ _ Hmenu Hi) as [Hst Hl].
    assert (E : Appointment.Book (customer_booking cmd branch (newID n) st items) now = Ok (draft_of (customer_booking cmd branch (newID n) st items) now)).
    { rewrite Book_cases by (eapply Forall_impl; [exact Hst|apply storable_item_ok]). by rewrite request_not_refused. }
    exists (draft_of (customer_booking cmd branch (newID n) st items) now), []. cbn [drafts_for]. rewrite Hi. cbn [res_bind]. rewrite E. cbn [res_bind].
    apply Book_draft in E as (_ & Hok & _); [|done|apply Hp]. split; [done|]. split; [by exists items|by constructor].
  - destruct (IH (S n) st') as (d' & ds' & Hds & _ & Hok'); [intros x Hx; apply Hitems; by right|].
    destruct (Hitems st ltac:(by left)) as (items & Hi). destruct (itemsFor_ok _ _ _ _ Hmenu Hi) as [Hst Hl].
    assert (E : Appointment.Book (customer_booking cmd branch (newID n) st items) now = Ok (draft_of (customer_booking cmd branch (newID n) st items) now)).
    { rewrite Book_cases by (eapply Forall_impl; [exact Hst|apply storable_item_ok]). by rewrite request_not_refused. }
    exists (draft_of (customer_booking cmd branch (newID n) st items) now), (d' :: ds').
    change (drafts_for cmd branch menu now newID n (st :: st' :: free)) with
      (let! items := itemsFor (c_Services cmd) menu st in let! d := Appointment.Book (customer_booking cmd branch (newID n) st items) now in
       let! ds := drafts_for cmd branch menu now newID (S n) (st' :: free) in Ok (d :: ds)).
    rewrite Hi. cbn [res_bind]. rewrite E. cbn [res_bind]. rewrite Hds. cbn [res_bind].
    apply Book_draft in E as (_ & Hok & _); [|done|apply Hp]. split; [done|]. split; [by exists items|by constructor].
Qed.

Lemma elem_of_freeAt start cands day loc st :
  st ∈ freeAt start cands day loc ↔ ∃ c, c ∈ cands ∧ cand_Staff c = st ∧ CanTake c start = true.
Proof.
  unfold freeAt. rewrite list_elem_of_fmap. setoid_rewrite elem_of_sort_by. setoid_rewrite list_elem_of_fmap. setoid_rewrite list_elem_of_filter. split.
  - intros (x & -> & c & -> & ? & ?). by exists c.
  - intros (c & ? & <- & ?). eexists. split; [|by exists c]. done.
Qed.

Lemma elem_of_free_staff cands start st : st ∈ free_staff cands start ↔ ∃ c, c ∈ cands ∧ cand_Staff c = st ∧ CanTake c start = true.
Proof. unfold free_staff. rewrite list_elem_of_fmap. setoid_rewrite list_elem_of_filter. naive_solver. Qed.

Lemma candidates_staff db branch d offers cands : candidates db branch d offers = Ok cands → cand_Staff <$> cands = offer_ID <$> offers.
Proof.
  unfold candidates. intros (w & _ & H%res_mapM_ok)%res_bind_ok. induction H as [|o c offers' cands' Hoc _ IH]; [done|].
  apply res_bind_ok in Hoc as (b & _ & [= <-]). by rewrite !fmap_cons, IH.
Qed.

(** Everything the two handlers know of an offer. *)
Lemma offers_known id services branch menu offers0 offers :
  Bookable id = Ok branch → policy_ok (b_Policy branch) → Forall menu_item_ok menu → services_ok services = true →
  offersFor services menu = Ok offers0 → stillThere branch offers0 = Ok offers →
  NoDup (offer_ID <$> offers) ∧
  ∀ o, o ∈ offers → day_offer branch o ∧ ∃ items, itemsFor services menu (offer_ID o) = Ok items ∧ offer_Duration o = sum_of item_Duration items.
Proof.
  intros Hbk Hp Hmenu Hs H0 H1. pose proof (offersFor_spec services menu Hmenu Hs) as H. rewrite H0 in H. destruct H as [Hnd Hel].
  destruct (stillThere_spec id branch offers0 offers Hbk Hnd H1) as [Hnd' Hk]. split; [done|]. intros o Ho.
  destruct (Hk o Ho) as (Hat & o0 & Hin & Ei & Ed & _). apply Hel in Hin as [_ Hoff].
  destruct (offered_small _ _ _ Hmenu Hoff) as ([Hd1 Hd2] & _). destruct Hoff as (items & Hi & Hd & _). rewrite Ei in Hi.
  split; [split; [done|]|exists items; split; [done|congruence]].
  apply services_ok_spec in Hs as [Hlen _]. rewrite Ed in Hd1, Hd2.
  unfold Hour, Minute, Second, Millisecond, Microsecond in *. lia.
Qed.
End Flow.

(** ** Booking follows the branch's rules *)

Section Rules.
Context `{U : UuidLib} {P : Ports} {L : PortsLaws P} (quote : string → string).

Lemma checkStart_ok start now b u :
  checkStart start now b = Ok u ↔
    OnGrid start (b_Location b) (SlotInterval (b_Policy b)) = true ∧
    now + MinLead (b_Policy b) ≤ start < Day_Start (Day_AddDays (last_day now b) 1) (b_Location b).
Proof.
  unfold checkStart, Before, GoTime.Add. destruct (OnGrid _ _ _); cbn [negb orb]; [|split; [done|by intros [? _]]].
  destruct (Z.ltb_spec start (now + MinLead (b_Policy b))); cbn [orb]; [split; [done|lia]|].
  destruct (Z.ltb_spec start (Day_Start (Day_AddDays (last_day now b) 1) (b_Location b))); cbn [negb]; [|split; [done|lia]].
  destruct u. by split.
Qed.

(** What a plan's drafts are. *)
Lemma Book_plan_attempt old seen now newID windows cmd att :
  Book_plan quote old seen now newID windows cmd = Ok (Attempt att) →
  ∃ branch menu, Bookable (c_Branch cmd) = Ok branch ∧ Menu (b_BusinessID branch) (b_ID branch) = Ok menu ∧
    services_ok (c_Services cmd) = true ∧ checkStart (c_Start cmd) now branch = Ok tt ∧
    Forall draft_ok (att_Drafts att) ∧
    (∀ d, d ∈ att_Drafts att → ∃ st id, draft_for cmd branch menu now st id d ∧ at_branch (b_BusinessID branch) (b_ID branch) st ∧
      ∀ who, c_Barber cmd = Some who → st = who) ∧
    att_Requester att = c_Customer cmd ∧ att_Branch att = b_ID branch ∧ att_Now att = now ∧
    att_Allow att = Some (λ active, if MaxActiveBookings (b_Policy branch) <=? active then Err ErrTooManyBookings else Ok tt) ∧
    att_StillWorking att = stillWorking branch windows.
Proof.
  unfold Book_plan. destruct (services_ok (c_Services cmd)) eqn:Es; cbn [ensure res_bind]; [|done].
  destruct (Replay _ _ _ _) as [[a|]|]; cbn [res_bind]; [done| |done].
  intros (branch & Hb & ([] & Hc & (menu & Hm & (offers0 & H0 & (offers1 & H1 & (offers & H2 & (cands & H3 & (ds & H4 & Hlast)
    %res_bind_ok)%res_bind_ok)%res_bind_ok)%res_bind_ok)%res_bind_ok)%res_bind_ok)%res_bind_ok)%res_bind_ok.
  injection Hlast as <-. destruct (law_Bookable _ _ Hb) as [_ Hp]. pose proof (law_Menu _ _ _ Hm) as Hmenu.
  exists branch, menu. cbn [att_Drafts att_Requester att_Branch att_Now att_Allow att_StillWorking].
  destruct (offers_known _ _ _ _ _ _ Hb Hp Hmenu Es H0 H1) as [Hnd Hk]. destruct (choose_spec _ _ _ Hnd H2) as (_ & Hsub & Hone & _).
  assert (Hd : ∀ d, d ∈ ds → ∃ st id, draft_for cmd branch menu now st id d ∧ at_branch (b_BusinessID branch) (b_ID branch) st ∧
      ∀ who, c_Barber cmd = Some who → st = who).
  { intros d Hin. destruct (drafts_for_spec _ _ _ _ _ _ _ _ Hmenu Hp H4 d Hin) as (st & id & Hst & Hd). exists st, id. split; [done|].
    apply elem_of_freeAt in Hst as (c & Hc' & <- & _). pose proof (list_elem_of_fmap_2 cand_Staff _ _ Hc') as Hin'.
    rewrite (candidates_staff _ _ _ _ _ H3) in Hin'. apply list_elem_of_fmap in Hin' as (o & -> & Ho).
    split; [apply (Hk o (Hsub o Ho))|]. intros who Hwho. destruct (Hone who Hwho) as (o' & -> & <-). by apply list_elem_of_singleton in Ho as ->. }
  split_and!; try done. apply Forall_forall. intros d Hin. destruct (Hd d Hin) as (st & id & (items & _ & _ & Hok) & _). done.
Qed.

(** C5. A booking keeps the branch's rules. Whatever changed between the
    reads and the transaction, when a customer's request books: the branch
    takes bookings; one to five different services are booked, in the order
    asked, each as this barber performs it on the menu; the barber works at
    the branch and is the one asked for, if one was; the start is on the
    grid, after the lead time and within the horizon; scheduling's answer
    under the lock covers the whole booking, buffer included; the customer
    was below the limit; and no active appointment of that barber's shares
    an instant with it. The diary gains exactly this appointment, pending
    or confirmed as the branch's policy says. *)
Theorem booking_follows_policy old seen db now newID windows cmd a db' :
  store_reachable db → Book quote old seen db now newID windows cmd = Ok (Some a, false, db') →
  ∃ branch menu items id,
    let p := b_Policy branch in
    let st := ap_Barber (state a) in
    Bookable (c_Branch cmd) = Ok branch ∧ Menu (b_BusinessID branch) (b_ID branch) = Ok menu ∧
    itemsFor (c_Services cmd) menu st = Ok items ∧ item_Service <$> items = c_Services cmd ∧
    (1 ≤ length (c_Services cmd) ≤ 5)%nat ∧ NoDup (c_Services cmd) ∧
    state a = booked (customer_booking cmd branch id st items) now ∧
    at_branch (b_BusinessID branch) (b_ID branch) st ∧ (∀ who, c_Barber cmd = Some who → st = who) ∧
    OnGrid (c_Start cmd) (b_Location branch) (SlotInterval p) = true ∧
    now + MinLead p ≤ c_Start cmd < Day_Start (Day_AddDays (last_day now branch) 1) (b_Location branch) ∧
    (∃ w, windows (b_BusinessID branch) (b_ID branch) [st] (c_Start cmd) (ap_BusyUntil (state a)) = Ok w ∧
       ∃ i, i ∈ default [] (w !! st) ∧ i_start i ≤ c_Start cmd ∧ ap_BusyUntil (state a) ≤ i_end i) ∧
    CountActiveBookings db (c_Customer cmd) (b_ID branch) now < MaxActiveBookings p ∧
    (∀ id o, diary db !! id = Some o → ¬ double_booked (state a) o) ∧
    diary db' = <[ap_ID (state a) := state a]> (diary db) ∧
    (ap_Status (state a) = if AutoConfirm p then StatusConfirmed else StatusPending).
Proof.
  intros Hreach HB. pose proof (store_reachable_ok db Hreach) as Hok. unfold Book in HB.
  apply res_bind_ok in HB as ([x|att] & Hplan & HB); cbn [carry_out] in HB; [done|].
  destruct (Book_plan_attempt _ _ _ _ _ _ _ Hplan) as (branch & menu & Hb & Hm & Hs & Hc & Hd & Hdraft & Hreq & Hbr & Hnow & Hallow & Hstill).
  destruct (Store_Book_spec db att _ _ _ Hok Hd HB) as (x & [= <-] & [(? & _)|(_ & _ & Hal & (before & after & Eatt & _) & (Hw & Hn & Hex) & ->)]); [done|].
  destruct (Hdraft a) as (st & id & (items & Hi & Ea & Hst & _) & Hat & Hwho); [rewrite Eatt; set_solver|].
  pose proof (law_Menu _ _ _ Hm) as Hmenu. destruct (law_Bookable _ _ Hb) as [_ Hp].
  assert (Ebar : ap_Barber (state a) = st) by (by rewrite Ea). exists branch, menu, items, id. cbn zeta. rewrite Ebar.
  apply checkStart_ok in Hc as [Hgrid Htime]. apply services_ok_spec in Hs as [Hlen Hnd]. destruct (itemsFor_ok _ _ _ _ Hmenu Hi) as [_ Hl].
  split; [done|]. split; [done|]. split; [done|]. split; [done|]. split; [done|]. split; [done|]. split; [by rewrite Ea|]. split; [done|]. split; [done|].
  split; [done|]. split; [done|]. split.
  { rewrite Hstill in Hw. unfold stillWorking in Hw.
    assert (EB : Busy (state a) = MkInterval (c_Start cmd) (ap_BusyUntil (state a))).
    { pose proof (st_times _ Hst) as Ht. unfold Busy, NewInterval, After. rewrite (proj2 (Z.ltb_lt _ _)) by lia. cbn [negb]. f_equal. by rewrite Ea. }
    rewrite EB, Ebar in Hw. cbn [i_start i_end] in Hw. apply res_bind_ok in Hw as (w & Hw & Hcov). exists w. split; [done|].
    apply (inj Ok) in Hcov. apply existsb_elem in Hcov as (i & Hin & Hcov). apply Covers_true in Hcov. by exists i. }
  split.
  { unfold allowed in Hal. rewrite Hallow, Hreq, Hbr, Hnow in Hal.
    destruct (Z.leb_spec (MaxActiveBookings (b_Policy branch)) (CountActiveBookings db (c_Customer cmd) (b_ID branch) now)); [done|lia]. }
  split; [by apply excluded_double; [apply Hok|..]|]. split; [by apply with_booking_ok|].
  rewrite Ea. cbn [draft_of state booked ap_Status]. destruct (decide (must_wait _)) as [[Hm' _]|Hm']; cbn in Hm'; [by rewrite Hm'|].
  destruct (AutoConfirm (b_Policy branch)) eqn:Eauto; [done|]. destruct Hm'. by split.
Qed.

(** ** What is offered can be booked *)

(** A slot of an answer, taken apart. *)
Lemma Query_slot db now q av slots s st off :
  tables_ok db → Query db now q = Ok av → av_Slots av = Some slots → s ∈ slots → st ∈ slot_Staff s →
  b_Location (av_Branch av) = fixed_zone off → valid_day_of (q_Day q) →
  let branch := av_Branch av in
  ∃ menu offers0 offers1,
    services_ok (q_Services q) = true ∧ Bookable (q_Branch q) = Ok branch ∧ Menu (b_BusinessID branch) (b_ID branch) = Ok menu ∧
    offersFor (q_Services q) menu = Ok offers0 ∧ stillThere branch offers0 = Ok offers1 ∧ choose (q_Barber q) offers1 = Ok (av_Offers av) ∧
    DayOf (b_Location branch) (slot_Start s) = q_Day q ∧ checkStart (slot_Start s) now branch = Ok tt ∧
    ∀ x, x ∈ slot_Staff s ↔ ∃ o, o ∈ av_Offers av ∧ offer_ID o = x ∧ free_of db branch x (total_length branch o) (slot_Start s).
Proof.
  intros Hok HQ Hslots Hs Hst Hloc Hday branch. unfold Query in HQ.
  destruct (services_ok (q_Services q)) eqn:Es; cbn [ensure res_bind] in HQ; [|done].
  apply res_bind_ok in HQ as (b & Hb & (menu & Hm & (offers0 & H0 & (offers1 & H1 & (offers & H2 & HQ)
    %res_bind_ok)%res_bind_ok)%res_bind_ok)%res_bind_ok).
  destruct (_ || _ || _) in HQ; [injection HQ as <-; injection Hslots as <-; by apply not_elem_of_nil in Hs|].
  apply res_bind_ok in HQ as (cands & Hc & HQ). injection HQ as <-. cbn [av_Branch av_Slots av_Offers] in *. subst branch.
  destruct (law_Bookable _ _ Hb) as [_ Hp]. pose proof (law_Menu _ _ _ Hm) as Hmenu.
  destruct (offers_known _ _ _ _ _ _ Hb Hp Hmenu Es H0 H1) as [Hnd Hk]. destruct (choose_spec _ _ _ Hnd H2) as (_ & Hsub & _).
  assert (Hday_offers : Forall (day_offer b) offers) by (apply Forall_forall; intros o Ho; apply Hk, Hsub, Ho).
  destruct (candidates_spec db b (q_Day q) off offers Hok Hp Hloc Hday Hday_offers) as (cands' & Hc' & Hcf). rewrite Hc in Hc'. injection Hc' as <-.
  pose proof Hp as (_ & step & Hstep & Eint). assert (HM : 0 < Minute) by done.
  match type of Hslots with Slots ?d ?r ?c = _ => destruct (Slots_spec d r c) as (l & Hl & _ & Hspec) end; cbn [rule_Interval rule_Location rule_Earliest rule_Latest] in *.
  { rewrite Eint, Z.quot_mul by lia. lia. }
  { rewrite Eint. unfold in_int64, min_int64, max_int64, Minute, Second, Millisecond, Microsecond. lia. }
  rewrite Hslots in Hl. injection Hl as <-. apply Hspec in Hs as (Hin & _ & Hgrid & Htime & Hstaff & _).
  rewrite Eint, Z.quot_mul in Hgrid by lia. rewrite <- Eint in Hgrid.
  assert (EDay : DayOf (b_Location b) (slot_Start s) = q_Day q) by (rewrite Hloc in Hin |- *; by apply day_span_fixed).
  exists menu, offers0, offers1. do 7 (split; [done|]). split; [by apply checkStart_ok|].
  intros x. rewrite Hstaff, elem_of_free_staff. split.
  - intros (c & Hcin & <- & Htake). apply list_elem_of_lookup in Hcin as [i Hi]. destruct (Forall2_lookup_r _ _ _ _ _ Hcf Hi) as (o & Ho & (-> & _ & Hiff)).
    exists o. split; [by eapply list_elem_of_lookup_2|]. split; [done|]. by apply Hiff.
  - intros (o & Ho & <- & Hfree). apply list_elem_of_lookup in Ho as [i Hi]. destruct (Forall2_lookup_l _ _ _ _ _ Hcf Hi) as (c & Hci & (Ec & _ & Hiff)).
    exists c. split; [by eapply list_elem_of_lookup_2|]. split; [done|]. by apply Hiff.
Qed.

(** When scheduling answers by its law under the lock, a free barber's
    draft is taken by the store. *)
Lemma draft_takes db branch cmd menu now st id d off att :
  store_ok db → Forall menu_item_ok menu → at_branch (b_BusinessID branch) (b_ID branch) st → policy_ok (b_Policy branch) →
  b_Location branch = fixed_zone off → draft_for cmd branch menu now st id d → services_ok (c_Services cmd) = true →
  free_of db branch st (ap_BusyUntil (state d) - c_Start cmd) (c_Start cmd) →
  appointments db !! id = None → att_StillWorking att = stillWorking branch WorkingWindows → takes db att d.
Proof.
  intros Hok Hmenu Hat Hp Hloc (items & Hi & -> & Hst & _) Hs [Hpos Hfree] Hid Hstill. unfold draft_of in *. cbn [state] in *.
  set (s := booked _ now) in *. assert (Ebar : ap_Barber s = st) by done. assert (Estart : ap_Start s = c_Start cmd) by done.
  assert (Eid : ap_ID s = id) by done.
  assert (Ebusy : ap_BusyUntil s = c_Start cmd + sum_of item_Duration items + Buffer (b_Policy branch)) by done.
  assert (Hlong : ap_BusyUntil s - c_Start cmd ≤ 64 * Hour).
  { destruct (itemsFor_ok _ _ _ _ Hmenu Hi) as [Hsi Hl]. apply services_ok_spec in Hs as [Hlen _].
    pose proof (sum_of_bounds item_Duration (5 * Minute) (480 * Minute) items) as [_ Hb]; [eapply Forall_impl; [exact Hsi|by intros ? [[? _] _]]|].
    assert (length items ≤ 5)%nat by (rewrite <- (length_fmap item_Service), Hl; lia). destruct Hp as [Hbuf _].
    unfold Hour, Minute, Second, Millisecond, Microsecond in *. nia. }
  clearbody s. split; [|split; [cbn; by rewrite Eid|]].
  - rewrite Hstill. unfold stillWorking.
    assert (EB : Busy s = MkInterval (c_Start cmd) (ap_BusyUntil s)).
    { unfold Busy, NewInterval, After. by rewrite (proj2 (Z.ltb_lt _ _)), Estart by lia. }
    cbn [state]. rewrite EB, Ebar. cbn [i_start i_end].
    destruct (law_Windows (b_BusinessID branch) (b_ID branch) [st] (c_Start cmd) (ap_BusyUntil s)) as (out & -> & Hout).
    { lia. }
    { unfold Hour, Minute, Second, Millisecond, Microsecond in *. lia. }
    { by constructor. }
    destruct (Hout st ltac:(by left)) as (r & Hr & Hn & Hcov). cbn [res_bind]. rewrite Hr. cbn. f_equal.
    apply existsb_elem. destruct (proj1 (covered_by_one r (c_Start cmd) (ap_BusyUntil s) Hn ltac:(lia))) as (w & Hw & ? & ?).
    { intros t Ht. apply Hcov. split; [done|]. apply Hfree. lia. }
    exists w. split; [done|]. by apply Covers_true.
  - cbn [state]. apply excluded_double; [apply Hok|done|by rewrite Eid|]. intros id' o Ho (Eb & _ & Hact & t & Ht & Ht').
    destruct (Hfree t ltac:(lia)) as [_ Hnt]. apply Hnt. exists id', o. split; [done|]. split; [congruence|]. done.
Qed.

Lemma offered_slot_books db now q av slots s st off cmd newID :
  store_reachable db →
  Query db now q = Ok av → av_Slots av = Some slots → s ∈ slots → st ∈ slot_Staff s →
  b_Location (av_Branch av) = fixed_zone off → valid_day_of (q_Day q) →
  c_Branch cmd = q_Branch q → c_Services cmd = q_Services q → c_Start cmd = slot_Start s →
  (c_Barber cmd = q_Barber q ∨ c_Barber cmd = Some st) →
  c_Customer cmd ≠ MkID 0 → RuneCountInString (TrimSpace (c_Note cmd)) ≤ MaxNoteLen →
  idempotency_keys db !! (c_Customer cmd, c_IdempotencyKey cmd) = None → appointments db !! newID 0%nat = None →
  CountActiveBookings db (c_Customer cmd) (b_ID (av_Branch av)) now < MaxActiveBookings (b_Policy (av_Branch av)) →
  ∃ a db', Book quote db db db now newID WorkingWindows cmd = Ok (Some a, false, db') ∧
    ap_Start (state a) = slot_Start s ∧ ap_Barber (state a) ∈ slot_Staff s ∧
    (c_Barber cmd = Some st → ap_Barber (state a) = st) ∧ diary db' !! newID 0%nat = Some (state a) ∧
    at_branch (b_BusinessID (av_Branch av)) (b_ID (av_Branch av)) (ap_Barber (state a)) ∧
    free_of db (av_Branch av) (ap_Barber (state a)) (ap_BusyUntil (state a) - slot_Start s) (slot_Start s).
Proof.
  intros Hreach HQ Hslots Hs Hst Hloc Hday Eb Eserv Estart Hwho Hcust Hnote Hkey Hid Hlim. pose proof (store_reachable_ok db Hreach) as Hok.
  destruct (Query_slot db now q av slots s st off (proj1 Hok) HQ Hslots Hs Hst Hloc Hday)
    as (menu & offers0 & offers1 & Hserv & Hb & Hm & H0 & H1 & H2 & EDay & Hcheck & Hstaff).
  destruct (law_Bookable _ _ Hb) as [_ Hp]. pose proof (law_Menu _ _ _ Hm) as Hmenu.
  destruct (offers_known _ _ _ _ _ _ Hb Hp Hmenu Hserv H0 H1) as [Hnd Hk]. destruct (choose_spec _ _ _ Hnd H2) as (_ & Hsub & _ & _).
  apply Hstaff in Hst as (o & Ho & Eo & Hofree).
  (* the offers the booking looks at: those of the answer, or the barber asked for *)
  assert (Hch : ∃ offers, choose (c_Barber cmd) offers1 = Ok offers ∧ o ∈ offers ∧ (∀ x, x ∈ offers → x ∈ av_Offers av) ∧
    (c_Barber cmd = Some st → offers = [o])).
  { destruct Hwho as [E|E]; rewrite E.
    - exists (av_Offers av). split; [done|]. split; [done|]. split; [done|]. intros Hq. destruct (choose_spec _ _ _ Hnd H2) as (_ & _ & Hone & _).
      destruct (Hone st Hq) as (o' & El & _). rewrite El in Ho |- *. by apply list_elem_of_singleton in Ho as ->.
    - exists [o]. rewrite <- Eo, choose_one by auto. split; [done|]. split; [by left|]. split; [by intros x ->%list_elem_of_singleton|done]. }
  destruct Hch as (offers & Hch & Hin & Hsub2 & Honly).
  assert (Hoffers : Forall (day_offer (av_Branch av)) offers) by (apply Forall_forall; intros x Hx; apply Hk, Hsub, Hsub2, Hx).
  destruct (candidates_spec db (av_Branch av) (q_Day q) off offers (proj1 Hok) Hp Hloc Hday Hoffers) as (cands & Hc & Hcf).
  assert (Hfree : ∀ x, x ∈ freeAt (slot_Start s) cands (q_Day q) (b_Location (av_Branch av)) ↔
    ∃ o, o ∈ offers ∧ offer_ID o = x ∧ free_of db (av_Branch av) x (total_length (av_Branch av) o) (slot_Start s)).
  { intros x. rewrite elem_of_freeAt. split.
    - intros (c & Hcin & <- & Htake). apply list_elem_of_lookup in Hcin as [i Hi]. destruct (Forall2_lookup_r _ _ _ _ _ Hcf Hi) as (y & Hy & (-> & _ & Hiff)).
      exists y. split; [by eapply list_elem_of_lookup_2|]. split; [done|]. by apply Hiff.
    - intros (y & Hy & <- & Hf). apply list_elem_of_lookup in Hy as [i Hi]. destruct (Forall2_lookup_l _ _ _ _ _ Hcf Hi) as (c & Hci & (Ec & _ & Hiff)).
      exists c. split; [by eapply list_elem_of_lookup_2|]. split; [done|]. by apply Hiff. }
  destruct (freeAt (slot_Start s) cands (q_Day q) (b_Location (av_Branch av))) as [|st' free] eqn:Ef.
  { exfalso. apply (not_elem_of_nil st), Hfree. by exists o. }
  destruct (proj1 (Hfree st') ltac:(by left)) as (o' & Ho' & <- & Hfree').
  assert (Hreq : request_ok cmd) by (split; [done|]; split; [done|]; by rewrite Eserv).
  destruct (drafts_for_total cmd (av_Branch av) menu now newID 0 (offer_ID o') free Hmenu Hp Hreq) as (d & ds & Hds & Hd & Hdok).
  { intros x Hx. apply Hfree in Hx as (y & Hy & <- & _). destruct (Hk y) as (_ & items & Hi & _); [by apply Hsub, Hsub2|]. exists items. by rewrite Eserv. }
  set (hash := requestHash quote cmd).
  set (att := MkAttempt (c_Customer cmd) (b_ID (av_Branch av)) (c_IdempotencyKey cmd) hash now
    (Some (λ active, if MaxActiveBookings (b_Policy (av_Branch av)) <=? active then Err ErrTooManyBookings else Ok tt)) (d :: ds) (stillWorking (av_Branch av) WorkingWindows)).
  assert (Hplan : Book_plan quote db db now newID WorkingWindows cmd = Ok (Attempt att)).
  { unfold Book_plan. rewrite Eserv, Hserv. cbn [ensure res_bind]. unfold Replay, replay. rewrite Hkey. cbn [res_bind].
    rewrite Eb, Hb. cbn [res_bind]. rewrite Estart, Hcheck. cbn [res_bind]. rewrite Hm. cbn [res_bind]. rewrite H0. cbn [res_bind]. rewrite H1. cbn [res_bind].
    rewrite Hch. cbn [res_bind]. rewrite EDay, Hc. cbn [res_bind]. rewrite Ef, Hds. cbn [res_bind]. done. }
  destruct (Hk o') as (Hday' & items & Hi & Edur); [by apply Hsub, Hsub2|]. pose proof Hd as (items' & Hi' & Ed & _).
  rewrite Eserv, Hi in Hi'. injection Hi' as <-.
  assert (Htakes : takes db att d).
  { apply (draft_takes db (av_Branch av) cmd menu now (offer_ID o') (newID 0%nat) d off); [done|done|apply Hday'|done|done|done|by rewrite Eserv| |done|done].
    rewrite Ed. cbn [draft_of state booked ap_BusyUntil customer_booking bk_Start bk_Items bk_Buffer]. rewrite <- Edur, Estart.
    replace (slot_Start s + offer_Duration o' + Buffer (b_Policy (av_Branch av)) - slot_Start s) with (total_length (av_Branch av) o') by (unfold total_length; lia). done. }
  exists d, (with_booking db (attempt_key att) (claim att) (state d)). unfold Book. rewrite Hplan. cbn [res_bind carry_out]. split.
  { apply (Store_Book_books db att [] d ds); [done|done|unfold hash_check; cbn [att att_RequestHash]; unfold hash, requestHash; by rewrite len_Sum256|done| |done|constructor|done].
    unfold allowed. cbn [att att_Allow att_Requester att_Branch att_Now]. by rewrite (proj2 (Z.leb_gt _ _) Hlim). }
  assert (Es' : ap_Start (state d) = slot_Start s) by (rewrite Ed; exact Estart).
  assert (Ebar : ap_Barber (state d) = offer_ID o') by (by rewrite Ed).
  split; [exact Es'|]. rewrite Ebar. split.
  { apply Hstaff. exists o'. split; [by apply Hsub2|]. done. }
  split.
  { intros Hst. rewrite (Honly Hst) in Ho'. by apply list_elem_of_singleton in Ho' as ->. }
  destruct Htakes as (_ & Hn & Hex). apply Forall_cons in Hdok as [[Hst' _] _].
  destruct (with_booking_ok db (attempt_key att) (claim att) (state d) Hok Hst' Hn Hex) as [_ Hdd].
  assert (Eid : ap_ID (state d) = newID 0%nat) by (by rewrite Ed). rewrite Eid in Hdd. rewrite Hdd. split; [apply lookup_insert_eq|]. split; [apply Hday'|].
  replace (ap_BusyUntil (state d) - slot_Start s) with (total_length (av_Branch av) o'); [done|].
  rewrite Ed. cbn [draft_of state booked ap_BusyUntil customer_booking bk_Start bk_Items bk_Buffer]. rewrite <- Edur, Estart. unfold total_length. lia.
Qed.

(** C3. What is offered can be booked. In a zone without clock changes, a
    slot of an availability answer, asked for at once - with the barber
    shown, or as the question was asked - by a customer below their limit,
    under a new key, is booked, at that start, with one of the barbers the
    slot named (the one asked for, if one was): not refused, not passed
    over, and never a panic. *)
Theorem offered_slot_is_bookable db now q av slots s st off cmd newID :
  store_reachable db →
  Query db now q = Ok av → av_Slots av = Some slots → s ∈ slots → st ∈ slot_Staff s →
  b_Location (av_Branch av) = fixed_zone off → valid_day_of (q_Day q) →
  c_Branch cmd = q_Branch q → c_Services cmd = q_Services q → c_Start cmd = slot_Start s →
  (c_Barber cmd = q_Barber q ∨ c_Barber cmd = Some st) →
  c_Customer cmd ≠ MkID 0 → RuneCountInString (TrimSpace (c_Note cmd)) ≤ MaxNoteLen →
  idempotency_keys db !! (c_Customer cmd, c_IdempotencyKey cmd) = None → appointments db !! newID 0%nat = None →
  CountActiveBookings db (c_Customer cmd) (b_ID (av_Branch av)) now < MaxActiveBookings (b_Policy (av_Branch av)) →
  ∃ a db', Book quote db db db now newID WorkingWindows cmd = Ok (Some a, false, db') ∧
    ap_Start (state a) = slot_Start s ∧ ap_Barber (state a) ∈ slot_Staff s ∧
    (c_Barber cmd = Some st → ap_Barber (state a) = st) ∧ diary db' !! newID 0%nat = Some (state a).
Proof.
  intros H1 H2 H3 H4 H5 H6 H7 H8 H9 H10 H11 H12 H13 H14 H15 H16.
  destruct (offered_slot_books db now q av slots s st off cmd newID H1 H2 H3 H4 H5 H6 H7 H8 H9 H10 H11 H12 H13 H14 H15 H16)
    as (a & db' & E & Hs & Hb & Hw & Hd & _). by exists a, db'.
Qed.
End Rules.

(** ** Who may change an appointment *)

Section Changes.
Context {P : Ports}.

(** The staff's operation an action names. *)
Definition staff_op (cmd : StaffAction) : option Op :=
  match act_Action cmd with
  | ActionConfirm => Some OpConfirm
  | ActionReject => Some OpReject
  | ActionCancel => Some (OpCancelByStaff (act_Reason cmd))
  | ActionComplete => Some OpComplete
  | ActionNoShow => Some OpMarkNoShow
  | ActionExpire => None
  end.

Definition may_act (m : Member) (s : Snapshot) : Prop :=
  (mem_Role m = RoleOwner ∨ ap_Branch s ∈ mem_Branches m) ∧ (mem_Role m = RoleBarber → ap_Barber s = mem_Staff m).

Lemma mayActOn_spec m s : match mayActOn m s with Ok _ => may_act m s | Err e => e = ErrForbidden ∧ ¬ may_act m s end.
Proof.
  unfold mayActOn, worksAt, may_act. repeat case_bool_decide; cbn [negb orb andb]; naive_solver.
Qed.

Lemma staff_change_spec m cmd now a :
  staff_change m cmd now a =
    match mayActOn m (state a) with
    | Err e => Err e
    | Ok _ => match staff_op cmd with Some op => apply_op op a now | None => Err ErrInternal end
    end.
Proof. unfold staff_change, staff_op. destruct (mayActOn m (state a)); [|done]. by destruct (act_Action cmd). Qed.

Lemma staff_change_lifecycle m cmd now : lifecycle_change (staff_change m cmd now).
Proof.
  intros a a'. rewrite staff_change_spec. destruct (mayActOn m (state a)); [|done]. destruct (staff_op cmd) as [op|]; [|done]. intros H. by exists op, now.
Qed.

(** One row changed as [f] says, or a refusal that changes nothing. *)
Lemma change_found db id (p : ApptRow → bool) (f : Appointment → res book_error Appointment) :
  store_ok db → lifecycle_change f →
  match diary db !! id with
  | Some s =>
      if p (row_for s) then
        match f (Rehydrate s) with
        | Err e => change_row db (find_row db id p) f = Err e
        | Ok a => ∃ db', change_row db (find_row db id p) f = Ok (a, db') ∧ diary db' = <[id := state a]> (diary db)
        end
      else change_row db (find_row db id p) f = Err ErrNotFound
  | None => change_row db (find_row db id p) f = Err ErrNotFound
  end.
Proof.
  intros Hok Hf. destruct (diary db !! id) as [s|] eqn:Ed.
  - pose proof (proj1 (diary_lookup db id s (proj1 Hok)) Ed) as (Hid & _ & Hr & _). unfold find_row. rewrite Hr. destruct (p (row_for s)); [|done].
    subst id. pose proof (change_row_spec db s f Hok Hf Ed) as H. destruct (f (Rehydrate s)) as [a|e] eqn:Ef; [|done].
    destruct H as (-> & _ & Hd). eexists. split; [done|]. rewrite diary_with_events. exact Hd.
  - apply (diary_none db id (proj1 Hok)) in Ed. unfold find_row. by rewrite Ed.
Qed.

(** C6. Only the people allowed change an appointment. A customer cancels
    only their own (anyone else's looks as if it were not there). At a
    business, someone who is not its member learns and changes nothing,
    whatever the appointment; another business's appointment is not found;
    a member acts only at the branches they work at, a barber only on their
    own appointments - all others are refused - and then the lifecycle
    decides. Every refusal leaves the tables untouched; every success
    changes that one appointment and no other. *)
Theorem changes_are_authorised db now :
  store_reachable db →
  (∀ customer id reason,
     match diary db !! id with
     | Some s =>
         if decide (ap_Customer s = customer ∧ customer ≠ MkID 0) then
           match CancelByCustomer (Rehydrate s) reason now with
           | Err e => CancelMine db now customer id reason = (Err e, db)
           | Ok a => ∃ db', CancelMine db now customer id reason = (view a, db') ∧ diary db' = <[id := state a]> (diary db)
           end
         else CancelMine db now customer id reason = (Err ErrNotFound, db)
     | None => CancelMine db now customer id reason = (Err ErrNotFound, db)
     end) ∧
  (∀ cmd,
     match MemberOf (act_Actor cmd) (act_Business cmd) with
     | Err e => Act db now cmd = (Err e, db)
     | Ok member =>
         match diary db !! act_Appointment cmd with
         | Some s =>
             (ap_Business s ≠ act_Business cmd → Act db now cmd = (Err ErrNotFound, db)) ∧
             (ap_Business s = act_Business cmd → ¬ may_act member s → Act db now cmd = (Err ErrForbidden, db)) ∧
             (ap_Business s = act_Business cmd → may_act member s → ∀ op, staff_op cmd = Some op →
                match apply_op op (Rehydrate s) now with
                | Err e => Act db now cmd = (Err e, db)
                | Ok a => ∃ db', Act db now cmd = (view a, db') ∧ diary db' = <[act_Appointment cmd := state a]> (diary db)
                end)
         | None => Act db now cmd = (Err ErrNotFound, db)
         end
     end).
Proof.
  intros Hok%store_reachable_ok. split.
  - intros customer id reason. unfold CancelMine, ChangeMine.
    assert (Hl : lifecycle_change (λ a, CancelByCustomer a reason now)) by (intros a a' H; by exists (OpCancelByCustomer reason), now).
    pose proof (change_found db id (λ r, bool_decide (r_customer r = Some customer)) _ Hok Hl) as H.
    destruct (diary db !! id) as [s|]; [|by rewrite H].
    assert (Hc : bool_decide (r_customer (row_for s) = Some customer) = bool_decide (ap_Customer s = customer ∧ customer ≠ MkID 0)).
    { apply bool_decide_ext. cbn [row_for r_customer]. unfold optional. destruct (ID_IsZero (ap_Customer s)) eqn:Ez.
      - apply ID_IsZero_true in Ez. split; [done|]. intros [E Hz]. congruence.
      - split; [intros [= <-]; split; [done|]; intros E; rewrite <- not_true_iff_false, ID_IsZero_true in Ez; done|by intros [-> _]]. }
    cbn beta in H. rewrite Hc in H. destruct (decide (ap_Customer s = customer ∧ customer ≠ MkID 0)) as [E|E];
      [rewrite (bool_decide_eq_true_2 _ E) in H|rewrite (bool_decide_eq_false_2 _ E) in H; by rewrite H].
    destruct (CancelByCustomer (Rehydrate s) reason now) as [a|e]; [|by rewrite H]. destruct H as (db' & -> & Hd). by exists db'.
  - intros cmd. unfold Act. destruct (MemberOf _ _) as [member|e]; [|done]. unfold ChangeAtBusiness.
    pose proof (change_found db (act_Appointment cmd) (λ r, bool_decide (r_business r = act_Business cmd)) _ Hok (staff_change_lifecycle member cmd now)) as H.
    destruct (diary db !! act_Appointment cmd) as [s|]; [|by rewrite H]. cbn [row_for r_business] in H.
    rewrite staff_change_spec in H. cbn [Rehydrate state] in H. pose proof (mayActOn_spec member s) as Hm. split; [|split].
    + intros Hne. rewrite bool_decide_eq_false_2 in H by done. by rewrite H.
    + intros Heq Hnot. rewrite bool_decide_eq_true_2 in H by done. destruct (mayActOn member s); [done|]. destruct Hm as [-> _]. by rewrite H.
    + intros Heq Hmay op Hop. rewrite bool_decide_eq_true_2 in H by done. destruct (mayActOn member s) as [[]|]; [|by destruct Hm]. rewrite Hop in H.
      destruct (apply_op op (Rehydrate s) now) as [a|e]; [|by rewrite H]. destruct H as (db' & -> & Hd). by exists db'.
Qed.
End Changes.

(** ** Expiring *)

Definition waiting (db : BookDB) : gmap AppointmentID Snapshot := filter (λ kv, ap_Status kv.2 = StatusPending) (diary db).

Lemma waiting_lookup db id s : waiting db !! id = Some s ↔ diary db !! id = Some s ∧ ap_Status s = StatusPending.
Proof. apply map_lookup_filter_Some. Qed.

(** What one batch does to the diary, entry by entry. *)
Lemma expired_lookup db ss now id :
  tables_ok db → NoDup (ap_ID <$> ss) → (∀ s, s ∈ ss → diary db !! ap_ID s = Some s) →
  (list_to_map ((λ s, (ap_ID s, expired now s)) <$> ss) ∪ diary db) !! id =
    s ← diary db !! id; Some (if decide (s ∈ ss) then expired now s else s).
Proof.
  intros Hok Hnd Hss. set (m := list_to_map _). destruct (m !! id) as [x|] eqn:Em.
  - rewrite (lookup_union_Some_l _ _ _ _ Em). apply elem_of_list_to_map_2, list_elem_of_fmap in Em as (s & [= -> ->] & Hs).
    rewrite (Hss s Hs). cbn. by rewrite decide_True.
  - rewrite lookup_union_r by done. destruct (diary db !! id) as [s|] eqn:Ed; [|done]. cbn. rewrite decide_False; [done|]. intros Hs.
    apply not_elem_of_list_to_map_2 in Em. apply Em. rewrite <- list_fmap_compose. apply list_elem_of_fmap. exists s. split; [|done]. cbn.
    by apply diary_lookup in Ed as (-> & _).
Qed.

(** What a run may leave of an appointment: as it was, or expired when due. *)
Definition left_by (clock : nat → time) (s s' : Snapshot) : Prop :=
  s' = s ∨ ∃ i, due (clock i) (row_for s) ∧ s' = expired (clock i) s.

Lemma Run_spec fuel db clock locked :
  store_ok db → (∀ i, clock i ≤ clock (S i)) → (∀ i id, locked i id = false) → (size (waiting db) < fuel)%nat →
  ∃ db', Run fuel db clock locked = Some (Ok tt, db') ∧ store_ok db' ∧
    (∀ id s', diary db' !! id = Some s' → ¬ due (clock O) (row_for s')) ∧
    ∀ id s, diary db !! id = Some s → ∃ s', diary db' !! id = Some s' ∧ left_by clock s s'.
Proof.
  revert db clock locked. induction fuel as [|fuel IH]; intros db clock locked Hok Hclock Hlock Hsize; [lia|]. cbn [Run].
  destruct (ExpireDue_spec db (clock O) ExpiryBatch (locked O) Hok) as (ss & db1 & -> & Hok1 & Hnd & Hlen & Hss & Hall & _ & _ & Hd); [done|].
  assert (Hlook : ∀ id, diary db1 !! id = s ← diary db !! id; Some (if decide (s ∈ ss) then expired (clock O) s else s)).
  { intros id. rewrite Hd. apply expired_lookup; [apply Hok|done|]. intros s Hs. by apply Hss. }
  assert (Hleft : ∀ id s, diary db !! id = Some s → ∃ s', diary db1 !! id = Some s' ∧ left_by clock s s' ∧ (s' = s ∨ ap_Status s' = StatusExpired)).
  { intros id s Hs. rewrite Hlook, Hs. cbn. eexists. split; [done|]. case_decide as Hin; [|split; by left].
    split; [|by right]. right. exists O. split; [by apply Hss|done]. }
  destruct (Nat.ltb_spec (length ss) ExpiryBatch) as [Hlt|Hge].
  - exists db1. split; [done|]. split; [done|]. split; [|intros id s Hs; destruct (Hleft id s Hs) as (s' & ? & ? & _); by exists s'].
    intros id s' Hs' Hdue. rewrite Hlook in Hs'. destruct (diary db !! id) as [s|] eqn:Ed; [|done]. cbn in Hs'. injection Hs' as <-.
    case_decide as Hin; [by destruct Hdue as [? _]|]. apply Hin, Hall; [done| |done|by rewrite Hlock].
    pose proof Ed as (-> & _)%diary_lookup; [done|apply Hok].
  - assert (Hsub : waiting db1 ⊂ waiting db).
    { destruct ss as [|s0 ss]; [cbn in Hge; unfold ExpiryBatch in Hge; lia|]. apply map_subset_alt. split.
      - apply map_subseteq_spec. intros id x Hx. apply waiting_lookup in Hx as [Hx Hst]. apply waiting_lookup. rewrite Hlook in Hx.
        destruct (diary db !! id) as [s|]; [|done]. cbn in Hx. injection Hx as <-. case_decide; [done|done].
      - exists (ap_ID s0). destruct (Hss s0 ltac:(by left)) as (E & [Hp _] & _). split.
        + apply eq_None_not_Some. intros [x Hx]. apply waiting_lookup in Hx as [Hx Hst]. rewrite Hlook, E in Hx. cbn in Hx.
          rewrite decide_True in Hx by (by left). by injection Hx as <-.
        + exists s0. by apply waiting_lookup. }
    apply map_subset_size in Hsub.
    destruct (IH db1 (λ i, clock (S i)) (λ i, locked (S i))) as (db' & -> & Hok' & Hnone & Hkeep); [done|intros; apply Hclock|intros; apply Hlock|lia|].
    exists db'. split; [done|]. split; [done|]. split.
    + intros id s' Hs' [Hst (until & Hu & Hle)]. apply (Hnone id s' Hs'). split; [done|]. exists until. split; [done|]. specialize (Hclock O). lia.
    + intros id s Hs. destruct (Hleft id s Hs) as (s1 & Hs1 & Hl1 & Hst1). destruct (Hkeep id s1 Hs1) as (s' & Hs' & Hl').
      exists s'. split; [done|]. destruct Hl' as [->|(i & Hdue & ->)]; [done|]. destruct Hst1 as [->|Hst1].
      * right. by exists (S i).
      * destruct Hdue as [Hp _]. cbn in Hp. congruence.
Qed.

(** C11. The expirer finishes and leaves nothing due. With nobody else holding
    rows and the clock not going back, the run ends - one more turn than there
    are pending bookings is always enough - and then no pending booking's
    expiry lies at or before the time it started; every other appointment is
    as it was, or was due at one of the run's clock readings and expired. *)
Theorem expirer_leaves_nothing_due db clock locked :
  store_reachable db → (∀ i, clock i ≤ clock (S i)) → (∀ i id, locked i id = false) →
  ∃ db', Run (S (size (diary db))) db clock locked = Some (Ok tt, db') ∧
    (∀ id s until, diary db' !! id = Some s → ap_Status s = StatusPending → ap_PendingUntil s = Some until → clock O < until) ∧
    ∀ id s, diary db !! id = Some s → ∃ s', diary db' !! id = Some s' ∧ left_by clock s s'.
Proof.
  intros Hok%store_reachable_ok Hclock Hlock.
  destruct (Run_spec (S (size (diary db))) db clock locked Hok Hclock Hlock) as (db' & Hr & _ & Hnone & Hkeep).
  { assert (size (waiting db) ≤ size (diary db))%nat; [|lia]. apply map_subseteq_size, map_filter_subseteq. }
  exists db'. split; [done|]. split; [|done]. intros id s until Hs Hp Hu. destruct (Z.lt_ge_cases (clock O) until); [done|].
  exfalso. apply (Hnone id s Hs). split; [done|]. by exists until.
Qed.

(** ** A concrete shop *)

(** One branch, open from 18:00 to 20:00 on one day, with one barber who
    cuts hair in half an hour. *)
Definition evening : Interval := MkInterval (demo_at 1080) (demo_at 1200).
Definition evening_within (from to : time) : list Interval :=
  let s := Z.max from (i_start evening) in
  let e := Z.min to (i_end evening) in
  if s <? e then [MkInterval s e] else [].

Definition demo_policy : Policy := MkPolicy (30 * Minute) 14 (15 * Minute) (10 * Minute) true (30 * Minute) 2 (2 * Hour).
Definition demo_branch : Branch := MkBranch (MkID 1) (MkID 2) (fixed_zone 0) demo_policy.
Definition demo_menu : list MenuItem :=
  [MkMenuItem (MkID 7) (item_Name haircut) [MkPerformer (MkID 3) (30 * Minute) (Halalas 5000)]].

#[export] Instance demo_ports : Ports := {|
  Bookable id := if bool_decide (id = MkID 2) then Ok demo_branch else Err ErrNotFound;
  Barbers _ _ staff := Ok (if bool_decide (MkID 3 ∈ staff) then [MkBarber (MkID 3) "Salem"] else []);
  Menu _ _ := Ok demo_menu;
  WorkingWindows _ _ staff from to := Ok (list_to_map ((λ st, (st, evening_within from to)) <$> staff));
  MemberOf actor _ := if bool_decide (actor = MkID 60) then Ok (MkMember (MkID 4) RoleBarber [MkID 2])
                      else if bool_decide (actor = MkID 61) then Ok (MkMember (MkID 5) RoleManager [MkID 2]) else Err ErrNotFound;
  BranchLocation _ _ := Ok (fixed_zone 0) |}.

Lemma evening_within_spec from to :
  normalized (evening_within from to) ∧ ∀ t, covered t (evening_within from to) ↔ from ≤ t < to ∧ in_span t evening.
Proof.
  unfold evening_within. destruct (Z.ltb_spec (Z.max from (i_start evening)) (Z.min to (i_end evening))) as [Hlt|Hge].
  - split; [split; [by constructor|by repeat constructor]|]. intros t. rewrite covered_cons. unfold in_span. cbn [i_start i_end].
    split; [intros [?|?%covered_nil]; [lia|done]|intros ?; left; lia].
  - split; [apply normalized_nil|]. intros t. split; [by intros ?%covered_nil|]. unfold in_span. lia.
Qed.

#[export] Instance demo_laws : PortsLaws demo_ports.
Proof.
  refine {| at_branch := λ _ _ st, st = MkID 3; works := λ _ _ _ t, in_span t evening |}.
  - intros id b. cbn. case_bool_decide; [|done]. intros [= <-]. split; [done|].
    split; [split; apply Z.leb_le; reflexivity|]. by exists 15.
  - intros id branch staff bs b _. cbn. intros [= <-]. case_bool_decide; [|by intros ?%not_elem_of_nil]. by intros ->%list_elem_of_singleton.
  - intros biz br menu. cbn. intros [= <-]. constructor; [|constructor]. split; [apply NoDup_singleton|].
    intros p ->%list_elem_of_singleton. split; [exact (Forall_inv demo_items_ok)|]. split; [by exists 30|reflexivity].
  - intros biz br staff from to _ _ _. cbn. eexists. split; [done|]. intros st Hst. exists (evening_within from to).
    split; [|apply evening_within_spec]. clear -Hst. induction staff as [|x staff IH]; [by apply not_elem_of_nil in Hst|]. cbn.
    destruct (decide (x = st)) as [->|Hne]; [by rewrite lookup_insert_eq|]. rewrite lookup_insert_ne by done. apply IH. set_solver.
Defined.

Definition plain_quote (s : string) : string := s.
Definition demo_query : AvailabilityQuery := MkQuery (MkID 2) demo_day [MkID 7] None.
Definition demo_cmd : BookAppointment := MkBook (MkID 50) 900 (MkID 2) (demo_at 1095) [MkID 7] None "window seat".
Definition demo_id (n : nat) : AppointmentID := MkID (N.of_nat (100 + n)).

Definition demo_result := @Book decimal_ids demo_ports plain_quote empty_book_db empty_book_db empty_book_db (demo_at 900) demo_id WorkingWindows demo_cmd.

Lemma booking_follows_policy_witness :
  ∃ a db', demo_result = Ok (Some a, false, db') ∧ ap_Barber (state a) = MkID 3 ∧ diary db' = <[ap_ID (state a) := state a]> ∅.
Proof.
  assert (E : ∃ a db', demo_result = Ok (Some a, false, db')) by (vm_compute; do 2 eexists; reflexivity).
  destruct E as (a & db' & E). pose proof E as E'. unfold demo_result in E.
  destruct (@booking_follows_policy decimal_ids demo_ports demo_laws plain_quote empty_book_db empty_book_db empty_book_db (demo_at 900) demo_id
    WorkingWindows demo_cmd a db' (rtc_refl _ _) E) as (branch & menu & items & id & H).
  cbn zeta in H. destruct H as (_ & _ & _ & _ & _ & _ & _ & Hat & _ & _ & _ & _ & _ & _ & Hd & _).
  exists a, db'. split; [exact E'|]. split; [exact Hat|exact Hd].
Defined.

Definition demo_availability : Availability := Eval vm_compute in
  match @Query decimal_ids demo_ports empty_book_db (demo_at 900) demo_query with
  | Ok av => av
  | Err _ => MkAvailability demo_branch demo_day [] None
  end.

Lemma offered_slot_is_bookable_witness :
  ∃ a db', @Book decimal_ids demo_ports plain_quote empty_book_db empty_book_db empty_book_db (demo_at 900) demo_id WorkingWindows demo_cmd = Ok (Some a, false, db') ∧
    ap_Start (state a) = demo_at 1095 ∧ ap_Barber (state a) ∈ [MkID 3 : StaffID].
Proof.
  assert (EQ : @Query decimal_ids demo_ports empty_book_db (demo_at 900) demo_query = Ok demo_availability) by (vm_compute; reflexivity).
  destruct (@offered_slot_is_bookable decimal_ids demo_ports demo_laws plain_quote empty_book_db (demo_at 900) demo_query demo_availability
    (default [] (av_Slots demo_availability)) (MkSlot (demo_at 1095) [MkID 3]) (MkID 3) 0 demo_cmd demo_id (rtc_refl _ _) EQ) as (a & db' & HB & Hs & Hb & _);
    try reflexivity.
  - cbn. right. left.
  - left.
  - split; vm_compute; split; congruence.
  - left. reflexivity.
  - discriminate.
  - vm_compute. congruence.
  - exists a, db'. split; [exact HB|]. split; [exact Hs|exact Hb].
Defined.

(** Another branch's barber is refused; a manager confirms nothing confirmed;
    the customer cancels. *)
Lemma changes_are_authorised_witness :
  let by_ actor action := @Act demo_ports demo_db (demo_at 910) (MkStaffAction (MkID actor) (MkID 1) (MkID 100) action "") in
  by_ 60%N ActionConfirm = (Err ErrForbidden, demo_db) ∧ by_ 62%N ActionConfirm = (Err ErrNotFound, demo_db) ∧
  (∃ v db', by_ 61%N ActionConfirm = (Ok v, db') ∧ ap_Status <$> diary db' !! MkID 100 = Some StatusConfirmed) ∧
  @CancelMine demo_ports demo_db (demo_at 910) (MkID 51) (MkID 100) "" = (Err ErrNotFound, demo_db).
Proof.
  destruct (@changes_are_authorised demo_ports demo_db (demo_at 910) demo_reachable) as [Hmine Hact].
  assert (Ed : diary demo_db !! MkID 100 = Some (state demo_appointment)) by (vm_compute; reflexivity).
  split; [|split; [|split]].
  - pose proof (Hact (MkStaffAction (MkID 60) (MkID 1) (MkID 100) ActionConfirm "")) as H. cbn -[demo_db diary Act] in H. rewrite Ed in H.
    destruct H as (_ & Hf & _). apply Hf; [reflexivity|]. intros [_ H]. discriminate (H eq_refl).
  - exact (Hact (MkStaffAction (MkID 62) (MkID 1) (MkID 100) ActionConfirm "")).
  - pose proof (Hact (MkStaffAction (MkID 61) (MkID 1) (MkID 100) ActionConfirm "")) as H. cbn -[demo_db diary Act apply_op] in H. rewrite Ed in H.
    destruct H as (_ & _ & H). specialize (H eq_refl). 
    assert (Hm : may_act (MkMember (MkID 5) RoleManager [MkID 2]) (state demo_appointment)) by (split; [right; left|discriminate]).
    specialize (H Hm OpConfirm eq_refl). destruct (apply_op _ _ _) as [a|e] eqn:Ea; [|vm_compute in Ea; discriminate Ea].
    destruct H as (db' & HA & Hd). exists (MkView a "Salem"), db'. split.
    + etransitivity; [exact HA|]. f_equal. revert Ea. vm_compute. intros [= <-]. reflexivity.
    + rewrite Hd, lookup_insert_eq. revert Ea. vm_compute. intros [= <-]. reflexivity.
  - pose proof (Hmine (MkID 51) (MkID 100) "") as H. rewrite Ed in H. rewrite decide_False in H; [exact H|]. intros [E _]. discriminate E.
Defined.

(** The shop leaves the demo booking unanswered: it expires. *)
Lemma expirer_leaves_nothing_due_witness :
  ∃ db', Run (S (size (diary demo_db))) demo_db (λ i, demo_at (930 + Z.of_nat i)) (λ _ _, false) = Some (Ok tt, db') ∧
    ap_Status <$> diary db' !! MkID 100 = Some StatusExpired.
Proof.
  destruct (expirer_leaves_nothing_due demo_db (λ i, demo_at (930 + Z.of_nat i)) (λ _ _, false) demo_reachable) as (db' & HR & Hnone & _).
  { intros i. unfold demo_at, Minute, Second, Millisecond, Microsecond. lia. }
  { reflexivity. }
  assert (E : match Run (S (size (diary demo_db))) demo_db (λ i, demo_at (930 + Z.of_nat i)) (λ _ _, false) with
              | Some (_, d) => ap_Status <$> diary d !! MkID 100
              | None => None
              end = Some StatusExpired) by (vm_compute; reflexivity).
  rewrite HR in E. exists db'. split; [exact HR|exact E].
Defined.
