(* ===== verification/Tables.v ===== *)
(** * Tables

    A table is a [gmap] from its primary key to its rows. What queries and
    unique indexes say of one: the rows a condition selects, how many they
    are, and which rows a unique index refuses together - with how each answer
    changes when a row is inserted or replaced. And what a timestamp column
    keeps of an instant. *)
From S2P Require Import Prelude GoTime.
Open Scope Z_scope.

Definition present {A} (o : option A) : bool := match o with Some _ => true | None => false end.

Section tables.
Context {K V : Type} `{Countable K}.
Implicit Types (p q : V → bool) (t : gmap K V) (same : V → V → bool).

(** The rows of a table that satisfy [p], in no particular order. *)
Definition rows_where p t : list V := filter (λ r, p r = true) ((map_to_list t).*2).

Definition count_where p t : Z := Z.of_nat (length (rows_where p t)).

(** Another row with which [r] would break a unique index. *)
Definition conflicts same t (k : K) (r : V) : bool := existsb (λ e, negb (bool_decide (e.1 = k)) && same r e.2) (map_to_list t).

(** No two rows break the index. *)
Definition unique same t : Prop := ∀ k k' r o, t !! k = Some r → t !! k' = Some o → k ≠ k' → same r o = false.

Lemma elem_of_rows_where p t r : r ∈ rows_where p t ↔ ∃ k, t !! k = Some r ∧ p r = true.
Proof.
  unfold rows_where. rewrite list_elem_of_filter, list_elem_of_fmap. split.
  - intros (Hp & [k r'] & -> & Hin%elem_of_map_to_list). by exists k.
  - intros (k & Hk & Hp). split; [done|]. exists (k, r). split; [done|]. by apply elem_of_map_to_list.
Qed.

Lemma rows_where_insert p t k v : t !! k = None → rows_where p (<[k:=v]> t) ≡ₚ (if p v then [v] else []) ++ rows_where p t.
Proof.
  intros Hk. unfold rows_where. rewrite map_to_list_insert by done. cbn [fmap list_fmap snd]. rewrite filter_cons.
  destruct (p v) eqn:E; destruct (decide _); simpl in *; try done; congruence.
Qed.

Lemma rows_where_lookup p t k v : t !! k = Some v → rows_where p t ≡ₚ (if p v then [v] else []) ++ rows_where p (delete k t).
Proof. intros Hk. rewrite <- (rows_where_insert p (delete k t) k v) by apply lookup_delete_eq. by rewrite insert_delete_id. Qed.

Lemma count_where_new p t k v : t !! k = None → count_where p (<[k:=v]> t) = count_where p t + Z.b2z (p v).
Proof. intros Hk. unfold count_where. rewrite rows_where_insert, length_app by done. destruct (p v); simpl; lia. Qed.

Lemma count_where_replace p t k v0 v :
  t !! k = Some v0 → count_where p (<[k:=v]> t) + Z.b2z (p v0) = count_where p t + Z.b2z (p v).
Proof.
  intros Hk. rewrite <- insert_delete_eq. rewrite count_where_new by apply lookup_delete_eq.
  unfold count_where. rewrite (rows_where_lookup p t k v0 Hk), length_app. destruct (p v0), (p v); simpl; lia.
Qed.

Lemma count_where_nonneg p t : 0 ≤ count_where p t.
Proof. unfold count_where. lia. Qed.

Lemma rows_where_false p t : (∀ k r, t !! k = Some r → p r = false) → rows_where p t = [].
Proof.
  intros Hp. destruct (rows_where p t) as [|r l] eqn:E; [done|]. assert (Hin : r ∈ rows_where p t) by (rewrite E; by left).
  apply elem_of_rows_where in Hin as (k & Hk & Hr). rewrite (Hp _ _ Hk) in Hr. done.
Qed.

(** At most one row, when all that satisfy the condition share a key. *)
Lemma rows_where_one p t k v :
  t !! k = Some v → p v = true → (∀ k' r, t !! k' = Some r → p r = true → k' = k) → rows_where p t = [v].
Proof.
  intros Hk Hp Hone. apply Permutation_singleton_r. rewrite (rows_where_lookup p t k v Hk), Hp, rows_where_false; [done|].
  intros k' r Hr. apply lookup_delete_Some in Hr as [Hne Hr]. destruct (p r) eqn:E; [|done]. by destruct (Hne (eq_sym (Hone _ _ Hr E))).
Qed.

Lemma rows_where_cons p t r l : rows_where p t = r :: l → ∃ k, t !! k = Some r ∧ p r = true.
Proof. intros E. apply elem_of_rows_where. rewrite E. by left. Qed.

Lemma rows_where_nil p t : rows_where p t = [] ↔ ∀ k r, t !! k = Some r → p r = false.
Proof.
  split; [|apply rows_where_false]. intros E k r Hk. destruct (p r) eqn:Hp; [|done].
  assert (Hin : r ∈ rows_where p t) by (apply elem_of_rows_where; eauto). rewrite E in Hin. by apply elem_of_nil in Hin.
Qed.

(** Exactly one row satisfies the condition. *)
Lemma count_where_one p t : count_where p t = 1 → ∃ k v, t !! k = Some v ∧ p v = true ∧ ∀ k' v', t !! k' = Some v' → p v' = true → k' = k.
Proof.
  intros Hc. destruct (rows_where p t) as [|v [|]] eqn:E; unfold count_where in Hc; rewrite E in Hc; [done| |cbn in Hc; lia].
  destruct (rows_where_cons p t v [] E) as (k & Hk & Hp). exists k, v. split_and!; [done..|]. intros k' v' Hk' Hp'.
  destruct (decide (k' = k)) as [|Hne]; [done|]. pose proof (rows_where_lookup p t k v Hk) as Hperm. rewrite Hp, E in Hperm.
  apply Permutation_cons_inv in Hperm. symmetry in Hperm. apply Permutation_nil_r in Hperm. assert (Hin : v' ∈ rows_where p (delete k t)).
  { apply elem_of_rows_where. exists k'. by rewrite lookup_delete_ne. }
  rewrite Hperm in Hin. by apply not_elem_of_nil in Hin.
Qed.

Lemma conflicts_false same t k r : conflicts same t k r = false ↔ ∀ k' o, t !! k' = Some o → k' ≠ k → same r o = false.
Proof.
  unfold conflicts. rewrite existsb_elem_false. split.
  - intros Hc k' o Ho Hne. specialize (Hc (k', o)). simpl in Hc. rewrite bool_decide_eq_false_2 in Hc by done.
    apply Hc. by apply elem_of_map_to_list.
  - intros Hc [k' o] Hin%elem_of_map_to_list. simpl. destruct (decide (k' = k)) as [->|Hne]; [by rewrite bool_decide_eq_true_2|].
    by rewrite (Hc k' o), andb_false_r.
Qed.

Lemma conflicts_true same t k r : conflicts same t k r = true ↔ ∃ k' o, t !! k' = Some o ∧ k' ≠ k ∧ same r o = true.
Proof.
  split.
  - unfold conflicts. rewrite existsb_elem. intros ([k' o] & Hin%elem_of_map_to_list & Hc). simpl in Hc. bool_prop. eauto.
  - intros (k' & o & Ho & Hne & Hs). destruct (conflicts same t k r) eqn:E; [done|].
    rewrite conflicts_false in E. rewrite (E k' o) in Hs by done. done.
Qed.

Lemma unique_empty same : unique same (∅ : gmap K V).
Proof. intros k k' r o Hr. by rewrite lookup_empty in Hr. Qed.

Lemma unique_insert same t k r :
  (∀ a b, same a b = same b a) → unique same t → conflicts same t k r = false → unique same (<[k:=r]> t).
Proof.
  intros Hsym Hu Hc k1 k2 a b Ha Hb Hne. rewrite conflicts_false in Hc.
  apply lookup_insert_Some in Ha as [[<- <-]|[H1 Ha]]; apply lookup_insert_Some in Hb as [[<- <-]|[H2 Hb]]; [done|..].
  - by apply Hc with k2.
  - rewrite Hsym. by apply Hc with k1.
  - by eapply Hu.
Qed.

(** Replacing rows by others that clash no more keeps the index. *)
Lemma unique_fmap same t (f : V → V) :
  (∀ a b, same (f a) (f b) = true → same a b = true) → unique same t → unique same (f <$> t).
Proof.
  intros Hf Hu k k' r o Hr Ho Hne. rewrite lookup_fmap in *. destruct (t !! k) as [a|] eqn:Ea; [|done]. destruct (t !! k') as [b|] eqn:Eb; [|done].
  simpl in *. simplify_eq. destruct (same (f a) (f b)) eqn:E; [|done]. apply Hf in E. by rewrite (Hu k k' a b) in E.
Qed.

Lemma unique_same same t k k' r o : unique same t → t !! k = Some r → t !! k' = Some o → same r o = true → k = k'.
Proof. intros Hu Hr Ho Hs. destruct (decide (k = k')); [done|]. by rewrite (Hu k k' r o) in Hs. Qed.

Lemma count_where_impl p q t : (∀ k r, t !! k = Some r → p r = true → q r = true) → count_where p t ≤ count_where q t.
Proof.
  intros Himp. unfold count_where, rows_where. enough (∀ l, (∀ r, r ∈ l → p r = true → q r = true) →
    (length (filter (λ r, p r = true) l) ≤ length (filter (λ r, q r = true) l))%nat) as Hl.
  { apply inj_le, Hl. intros r Hr. apply list_elem_of_fmap in Hr as ([k r'] & -> & Hin%elem_of_map_to_list). by apply Himp with k. }
  induction l as [|x l IH]; [done|]. intros Hx. rewrite !filter_cons. specialize (IH (λ r Hr, Hx r (list_elem_of_further _ _ _ Hr))).
  destruct (decide (p x = true)) as [Hp|]; destruct (decide (q x = true)) as [|Hq]; simpl; try lia.
  destruct Hq. apply Hx; [by left|done].
Qed.

(** Rows that carry their key are told apart by it. *)
Lemma rows_where_NoDup {A} (f : V → A) (g : K → A) p t :
  (∀ k k', g k = g k' → k = k') → (∀ k r, t !! k = Some r → f r = g k) → NoDup (f <$> rows_where p t).
Proof.
  intros Hg Hf. unfold rows_where.
  enough (∀ l, NoDup l.*1 → (∀ e, e ∈ l → f e.2 = g e.1) → NoDup (f <$> filter (λ r, p r = true) l.*2)) as Hl.
  { apply Hl; [apply NoDup_fst_map_to_list|]. intros [k r] Hin%elem_of_map_to_list. by apply Hf. }
  induction l as [|[k r] l IH]; [constructor|]. intros [Hk Hl]%NoDup_cons He. rewrite fmap_cons, filter_cons. simpl in *.
  specialize (IH Hl (λ e Hin, He e (list_elem_of_further _ _ _ Hin))). destruct (decide _); [|done]. rewrite fmap_cons. apply NoDup_cons. split; [|done].
  intros (r' & Hr & Hin)%list_elem_of_fmap. apply list_elem_of_filter in Hin as [_ Hin]. apply list_elem_of_fmap in Hin as ([k2 r2] & -> & Hin).
  apply Hk. apply list_elem_of_fmap. exists (k2, r2). split; [|done]. simpl in *. apply Hg.
  pose proof (He (k, r) ltac:(by left)). pose proof (He (k2, r2) ltac:(by right)). simpl in *. congruence.
Qed.
End tables.

Lemma count_where_fmap {K V} `{Countable K} (p : V → bool) (f : V → V) (t : gmap K V) :
  count_where p (f <$> t) = count_where (λ r, p (f r)) t.
Proof.
  unfold count_where, rows_where. rewrite map_to_list_fmap. f_equal.
  induction (map_to_list t) as [|[k v] l IH]; [done|]. rewrite !fmap_cons, !filter_cons. cbn [prod_map snd fst].
  destruct (decide (p (f v) = true)); cbn [length]; by rewrite ?IH.
Qed.

(** ** Stored times

    A [timestamptz] column holds microseconds: what is written is rounded
    down. *)

Definition stored_time (t : time) : time := Truncate t Microsecond.

Lemma stored_time_le t : stored_time t ≤ t.
Proof. apply Truncate_le. Qed.
Lemma stored_time_gt t : t - Microsecond < stored_time t.
Proof. by apply Truncate_gt. Qed.
Lemma stored_time_idem t : stored_time (stored_time t) = stored_time t.
Proof. apply Truncate_idem. Qed.
Lemma stored_time_mono t u : t ≤ u → stored_time t ≤ stored_time u.
Proof. apply Truncate_mono. Qed.

(** Whole microseconds pass through the rounding. *)
Lemma stored_time_add t k : stored_time (t + k * Microsecond) = stored_time t + k * Microsecond.
Proof.
  unfold stored_time. rewrite !Truncate_epoch by done. rewrite Z.mod_add by done. lia.
Qed.

Lemma stored_minutes t n : stored_time (t + n * Minute) = stored_time t + n * Minute.
Proof.
  replace (n * Minute) with (n * 60000000 * Microsecond) by (unfold Minute, Second, Millisecond, Microsecond; lia). apply stored_time_add.
Qed.

Definition is_stored (t : time) : Prop := stored_time t = t.
Lemma stored_is_stored t : is_stored (stored_time t).
Proof. apply stored_time_idem. Qed.

Lemma stored_option o : (∀ t, o = Some t → is_stored t) → stored_time <$> o = o.
Proof. intros Ho. destruct o as [t|]; [|done]. cbn. f_equal. by apply Ho. Qed.

(** ** Sorted by an order no two rows share *)

Section strict.
Context {A I : Type} (id : A → I) (le : A → A → bool).
Context (le_total : ∀ a b, le a b = false → le b a = true)
        (le_trans : ∀ a b c, le a b = true → le b c = true → le a c = true)
        (le_id : ∀ a b, le a b = true → le b a = true → id a = id b).

Definition strictly (a b : A) : Prop := le b a = false.

Lemma sort_strict l : NoDup (id <$> l) → StronglySorted strictly (sort_by le l).
Proof using le_total le_trans le_id.
  intros Hnd. rewrite <- (sort_by_perm le l) in Hnd. pose proof (sort_by_sorted le le_total le_trans l) as Hs. revert Hnd.
  induction Hs as [|a l' _ IH Ha]; intros Hnd; [constructor|]. rewrite fmap_cons, NoDup_cons in Hnd. destruct Hnd as [Hout Hnd].
  constructor; [by apply IH|]. rewrite Forall_forall in Ha |- *. intros b Hb. unfold strictly. destruct (le b a) eqn:E; [|done].
  destruct Hout. rewrite (le_id a b (Ha b Hb) E). by apply list_elem_of_fmap_2.
Qed.

Lemma strict_filter (q : A → bool) l : StronglySorted strictly l → StronglySorted strictly (filter (λ a, q a = true) l).
Proof.
  induction 1 as [|a l _ IH Ha]; [constructor|]. rewrite filter_cons. destruct (decide _); [|done]. constructor; [done|].
  apply Forall_forall. intros b [_ Hb]%list_elem_of_filter. rewrite Forall_forall in Ha. by apply Ha.
Qed.

Lemma strict_unique l l' : StronglySorted strictly l → StronglySorted strictly l' → l ≡ₚ l' → l = l'.
Proof using le_total. apply StronglySorted_unique. intros a b Hab Hba. unfold strictly in *. rewrite (le_total _ _ Hab) in Hba. done. Qed.

(** What comes after an element of the list. *)
Lemma strict_after l i a : StronglySorted strictly l → l !! i = Some a → filter (λ b, negb (le b a) = true) l = drop (S i) l.
Proof using le_total.
  intros Hs. revert i. induction Hs as [|x l Hs IH Hx]; intros i; [done|]. rewrite Forall_forall in Hx. rewrite filter_cons. destruct i as [|i].
  - intros [= ->]. assert (Hrefl : le a a = true) by (destruct (le a a) eqn:E; [done|]; rewrite (le_total _ _ E) in E; done).
    rewrite Hrefl. cbn [negb drop]. destruct (decide _); [done|]. rewrite drop_0. clear IH Hs. induction l as [|y l IHl]; [done|]. rewrite filter_cons, IHl by (intros; apply Hx; by right).
    assert (strictly a y) as Hy by (apply Hx; by left). unfold strictly in Hy. rewrite Hy. done.
  - cbn [lookup list_lookup drop]. intros Ha. assert (Hax : strictly x a) by (apply Hx; by eapply list_elem_of_lookup_2).
    unfold strictly in Hax. rewrite (le_total _ _ Hax). cbn [negb]. destruct (decide _); [done|]. by apply IH.
Qed.
End strict.

(** ** Reading and filtering lists of rows *)

Lemma res_mapM_pure {E A B} (f : A → res E B) (g : A → B) l : (∀ a, a ∈ l → f a = Ok (g a)) → res_mapM f l = Ok (g <$> l).
Proof.
  intros Hf. apply res_mapM_ok. rewrite Forall2_fmap_r. apply Forall_Forall2_diag. by apply Forall_forall.
Qed.

Lemma filter_filter {A} (p q : A → bool) (l : list A) :
  filter (λ a, p a = true) (filter (λ a, q a = true) l) = filter (λ a, q a && p a = true) l.
Proof. rewrite list_filter_filter. apply list_filter_iff. intros a. rewrite andb_true_iff. tauto. Qed.

Lemma filter_same {A} (p q : A → bool) (l : list A) : (∀ x, x ∈ l → p x = q x) → filter (λ x, p x = true) l = filter (λ x, q x = true) l.
Proof.
  induction l as [|x l IH]; intros Hpq; [done|]. rewrite !filter_cons, (Hpq x) by by left. rewrite IH by (intros; apply Hpq; by right). done.
Qed.

Lemma filter_id_true {A} (l : list A) : filter (λ _, true = true) l = l.
Proof. induction l as [|a l IH]; [done|]. rewrite filter_cons, IH. by destruct (decide _). Qed.

Lemma List_filter_fmap {A B} (g : A → B) (p : B → bool) (l : list A) : List.filter p (g <$> l) = g <$> filter (λ a, p (g a) = true) l.
Proof. induction l as [|a l IH]; [done|]. rewrite fmap_cons, filter_cons. cbn. rewrite IH. destruct (p (g a)), (decide _); done. Qed.
