(* ===== verification/Http.v ===== *)
(** * The HTTP edge (src/internal/platform/httpx, src/internal/platform/auth)

    What every module's handlers share: who is calling, the problem an error
    is answered with, versions in If-Match, and the shapes of the API
    (src/internal/apigen) they answer in. The functions of packages strings
    and strconv they use come first. *)
From S2P Require Import Prelude GoTime GoText GoCrypto GoEncoding Shared Tables.
From Stdlib Require Import SpecFloat.
Open Scope Z_scope.

(** ** strings and strconv *)

(** [strings.Cut]: around the first [sep]. *)
Fixpoint Cut (s sep : string) : option (string * string) :=
  match CutPrefix s sep with
  | Some rest => Some ("", rest)
  | None => match s with
            | EmptyString => None
            | String a s => match Cut s sep with Some (before, after) => Some (String a before, after) | None => None end
            end
  end.

Definition TrimPrefix (s p : string) : string := default s (CutPrefix s p).

(** [strconv.Atoi]: an optional sign and decimal digits, within [int]. *)
Fixpoint digits_value (acc : Z) (l : list Z) : option Z :=
  match l with
  | [] => Some acc
  | b :: l => if in_range 48 57 b then digits_value (acc * 10 + (b - 48)) l else None
  end.

Definition split_sign (l : list Z) : bool * list Z :=
  match l with
  | [] => (false, [])
  | b :: rest => if b =? 45 then (true, rest) else if b =? 43 then (false, rest) else (false, l)
  end.

Definition Atoi (s : string) : option Z :=
  let '(negative, digits) := split_sign (bytes s) in
  match digits with
  | [] => None
  | _ => match digits_value 0 digits with
         | None => None
         | Some v => let v := if negative : bool then - v else v in if bool_decide (in_int64 v) then Some v else None
         end
  end.

(** [strings.EqualFold(s, "Bearer")]: no letter of the word folds to one
    outside ASCII. *)
Definition is_bearer (scheme : string) : bool := bool_decide (ToLower scheme = "bearer").

Lemma digits_value_app acc a b : digits_value acc (a ++ b) = digits_value acc a ≫= λ v, digits_value v b.
Proof. revert acc. induction a as [|x a IH]; intros acc; [done|]. cbn [app digits_value]. by destruct (in_range 48 57 x). Qed.

Lemma string_app_cons a (s : string) : String a s = str1 a +:+ s.
Proof. done. Qed.

Lemma string_of_bytes_bytes s : string_of_bytes (bytes s) = s.
Proof. induction s as [|a s IH]; [done|]. cbn [bytes string_of_bytes]. by rewrite byte_chr_of, IH. Qed.

Lemma bytes_range s : Forall is_byte (bytes s).
Proof. induction s as [|a s IH]; constructor; [apply byte_of_range|done]. Qed.

Lemma CutPrefix_cons_ne a b s p : a ≠ b → CutPrefix (String a s) (String b p) = None.
Proof. intros Hne. destruct (CutPrefix _ _) as [r|] eqn:E; [|done]. apply CutPrefix_app in E. by injection E as ? _. Qed.

Lemma Cut_char c a b : byte_of c ∉ bytes a → Cut (a +:+ str1 c +:+ b) (str1 c) = Some (a, b).
Proof.
  induction a as [|x a IH]; intros Ha.
  - change ("" +:+ str1 c +:+ b) with (String c b). cbn [Cut]. pose proof (CutPrefix_self (str1 c) b) as E. change (str1 c +:+ b) with (String c b) in E.
    by rewrite E.
  - cbn [bytes] in Ha. apply not_elem_of_cons in Ha as [Hx Ha]. change (String x a +:+ str1 c +:+ b) with (String x (a +:+ str1 c +:+ b)). cbn [Cut].
    change (CutPrefix (String x (a +:+ str1 c +:+ b)) (str1 c)) with (CutPrefix (String x (a +:+ str1 c +:+ b)) (String c "")).
    rewrite CutPrefix_cons_ne; [by rewrite IH|]. intros ->. by apply Hx.
Qed.

(** A number's digits read back as the number. *)
Lemma pretty_N_digits n : digits_value 0 (bytes (pretty n)) = Some (Z.of_N n) ∧ Forall (λ b, 48 ≤ b ≤ 57) (bytes (pretty n)) ∧ bytes (pretty n) ≠ [].
Proof.
  assert (Hc : ∀ d, (d < 10)%N → byte_of (pretty_N_char d) = 48 + Z.of_N d).
  { intros d Hd. pose (p := λ z, byte_of (pretty_N_char (Z.to_N z)) =? 48 + z).
    assert (Hp : p (Z.of_N d) = true) by (apply (below_forall 10); [reflexivity|lia]). unfold p in Hp. rewrite N2Z.id in Hp. lia. }
  assert (Hgo : ∀ n s l, bytes s = l → Forall (λ b, 48 ≤ b ≤ 57) l → ∃ d, bytes (pretty_N_go n s) = d ++ l ∧
            digits_value 0 d = Some (Z.of_N n) ∧ Forall (λ b, 48 ≤ b ≤ 57) d ∧ ((0 < n)%N → d ≠ [])).
  { intros m. induction m as [m IH] using (well_founded_induction N.lt_wf_0). intros s l Hs Hl.
    destruct (decide (m = 0%N)) as [->|Hm]; [rewrite pretty_N_go_0; exists []; by rewrite Hs|].
    rewrite pretty_N_go_step by lia. assert (Hmod : (m mod 10 < 10)%N) by (apply N.mod_lt; lia).
    pose proof (N.div_mod m 10 ltac:(lia)) as Em. assert (Hlt : (m / 10 < m)%N) by (apply N.div_lt; lia).
    set (r := (m mod 10)%N) in *. set (k := (m / 10)%N) in *. clearbody r k.
    destruct (IH k Hlt (String (pretty_N_char r) s) (48 + Z.of_N r :: l)) as (d & Eb & Ed & Fd & _).
    - cbn [bytes]. by rewrite Hc, Hs.
    - constructor; [lia|done].
    - exists (d ++ [48 + Z.of_N r]). rewrite Eb. split; [by rewrite <- app_assoc|].
      rewrite digits_value_app, Ed. cbn [mbind option_bind digits_value]. unfold in_range.
      rewrite (proj2 (Z.leb_le 48 _)), (proj2 (Z.leb_le _ 57)) by lia. cbn [andb]. split; [|split].
      + f_equal. lia.
      + apply Forall_app. split; [done|]. constructor; [lia|constructor].
      + intros _ E. by apply app_nil in E as [_ ?]. }
  unfold pretty, pretty_N. case_decide as Hn; [subst n; split; [done|]; split; [|done]; constructor; [done|constructor]|].
  destruct (Hgo n "" [] eq_refl (Forall_nil_2 _)) as (d & Eb & Ed & Fd & Hne). rewrite app_nil_r in Eb. rewrite Eb. split_and!; [done|done|]. apply Hne. lia.
Qed.

Lemma itoa_nonneg n : 0 ≤ n → itoa n = pretty (Z.to_N n).
Proof. destruct n; done. Qed.

Lemma itoa_digits n : 0 ≤ n → digits_value 0 (bytes (itoa n)) = Some n ∧ Forall (λ b, 48 ≤ b ≤ 57) (bytes (itoa n)) ∧ bytes (itoa n) ≠ [].
Proof. intros Hn. rewrite itoa_nonneg by done. destruct (pretty_N_digits (Z.to_N n)) as (E & F & Hne). by rewrite E, Z2N.id. Qed.

Lemma Atoi_itoa n : 0 ≤ n → in_int64 n → Atoi (itoa n) = Some n.
Proof.
  intros Hn Hi. destruct (itoa_digits n Hn) as (E & F & Hne). unfold Atoi.
  destruct (bytes (itoa n)) as [|b l]; [done|]. assert (Hb : 48 ≤ b ≤ 57) by (by inversion F). rewrite <- E in *.
  cbn [split_sign]. rewrite (proj2 (Z.eqb_neq b 45)), (proj2 (Z.eqb_neq b 43)) by lia.
  rewrite E. by rewrite bool_decide_eq_true_2.
Qed.

(** ** The caller (platform/auth) *)

Record Principal := MkPrincipal { UserID_of : UserID; SessionID : UUID; PlatformRole : string }.

Definition IsPlatformAdmin (p : Principal) : bool := bool_decide (PlatformRole p = "admin").

(** What a request's context carries. *)
Record Ctx := MkCtx { ctx_RequestID : string; ctx_Principal : option Principal }.

Definition WithPrincipal (ctx : Ctx) (p : Principal) : Ctx := MkCtx (ctx_RequestID ctx) (Some p).
Definition PrincipalFrom (ctx : Ctx) : option Principal := ctx_Principal ctx.
Definition RequestIDFrom (ctx : Ctx) : string := ctx_RequestID ctx.

(** ** Problems (apigen, problem.go, api.go) *)

Record Problem := MkProblem {
  pb_Type : string; pb_Title : string; pb_Status : Z; pb_Code : string; pb_Detail : option string; pb_RequestID : option string }.

Record ProblemResponseHeaders := MkHeaders { hd_RetryAfter : option Z; hd_WWWAuthenticate : option string }.

Definition no_headers : ProblemResponseHeaders := MkHeaders None None.
Definition BearerChallenge : string := "Bearer realm=" +:+ str1 (byte_chr 34) +:+ "barbershop-api" +:+ str1 (byte_chr 34).

(** [http.StatusText], of the codes the handlers answer with. *)
Definition StatusText (status : Z) : string :=
  match status with
  | 200 => "OK" | 201 => "Created" | 204 => "No Content"
  | 400 => "Bad Request" | 401 => "Unauthorized" | 403 => "Forbidden" | 404 => "Not Found" | 405 => "Method Not Allowed"
  | 409 => "Conflict" | 410 => "Gone" | 412 => "Precondition Failed" | 413 => "Request Entity Too Large"
  | 415 => "Unsupported Media Type" | 422 => "Unprocessable Entity" | 423 => "Locked" | 429 => "Too Many Requests"
  | 500 => "Internal Server Error" | 503 => "Service Unavailable"
  | _ => ""
  end.

Definition APIProblem (ctx : Ctx) (status : Z) (code detail : string) : Problem :=
  MkProblem "about:blank" (StatusText status) status code
    (if bool_decide (detail = "") then None else Some detail)
    (if bool_decide (RequestIDFrom ctx = "") then None else Some (RequestIDFrom ctx)).

(** What a handler answers: a success with its body, or a problem. *)
Inductive Response (A : Type) : Type :=
| Answer (status : Z) (body : A)
| Refusal (p : Problem) (h : ProblemResponseHeaders).
Arguments Answer {A} status body.
Arguments Refusal {A} p h.

Definition status_of {A} (r : Response A) : Z := match r with Answer s _ => s | Refusal p _ => pb_Status p end.

(** ** Answering

    Every module's adapter says which problem an error is answered with, and
    which of its errors is [httpx.ErrNoPrincipal]; the handlers then have one
    shape. *)
Class Problems (E : Type) := {
  problem : Ctx → E → Problem * ProblemResponseHeaders;
  no_principal : E }.

Section answering.
Context {E : Type} `{Problems E} (ctx : Ctx).

Definition refuse {A} (err : E) : Response A := let p := problem ctx err in Refusal p.1 p.2.

Definition reply {A} (status : Z) (r : res E A) : Response A :=
  match r with Ok a => Answer status a | Err e => refuse e end.

(** A handler that changes the tables; a failure changes nothing. *)
Definition reply_db {A D} (status : Z) (db : D) (r : res E (A * D)) : Response A * D :=
  match r with Ok (a, db') => (Answer status a, db') | Err e => (refuse e, db) end.

Definition caller : res E Principal :=
  match PrincipalFrom ctx with Some p => Ok p | None => Err no_principal end.
End answering.

(** The problem of a 401, and an error's among a module's. *)
Definition unauthorized : Z * string * string := (401, "unauthorized", "a valid access token is required").
Definition problem_for (ctx : Ctx) (p : option (Z * string * string)) (h : ProblemResponseHeaders) : Problem * ProblemResponseHeaders :=
  let '(status, code, detail) := default (500, "internal", "") p in (APIProblem ctx status code detail, h).
Definition challenge : ProblemResponseHeaders := MkHeaders None (Some BearerChallenge).

(** [int(d.Minutes())], by way of a float64. *)
Definition float_minutes (d : Duration) : float64 :=
  SFadd 53 1024 (float_of (Z.quot d Minute)) (SFdiv 53 1024 (float_of (Z.rem d Minute)) (float_of Minute)).
Definition trunc_int (f : float64) : Z :=
  match f with
  | S754_finite s m e => let n := if 0 <=? e then Z.pos m * 2 ^ e else Z.pos m / 2 ^ - e in if s then - n else n
  | _ => 0
  end.

(** [d.Seconds()], and [int(math.Ceil(f))]. *)
Definition float_seconds (d : Duration) : float64 :=
  SFadd 53 1024 (float_of (Z.quot d Second)) (SFdiv 53 1024 (float_of (Z.rem d Second)) (float_of Second)).
Definition ceil_int (f : float64) : Z :=
  match f with
  | S754_finite s m e => let v := if s then - Z.pos m else Z.pos m in if 0 <=? e then v * 2 ^ e else - ((- v) / 2 ^ - e)
  | _ => 0
  end.

Example seconds_up : ceil_int (float_seconds (1500 * Millisecond)) = 2 ∧ ceil_int (float_seconds (60 * Second)) = 60 ∧ ceil_int (float_seconds 1) = 1.
Proof. vm_compute. by split_and!. Qed.

Lemma whole_minutes n : 0 ≤ n < 1441 → trunc_int (float_minutes (n * Minute)) = n.
Proof.
  intros Hn. pose (p := λ n, trunc_int (float_minutes (n * Minute)) =? n).
  assert (Hp : p n = true) by (apply (below_forall 1441); [vm_compute; reflexivity|lia]). unfold p in Hp. lia.
Qed.

(** ** Requests (request.go, api.go) *)

(** [None] is [ErrBadIfMatch]. *)
Definition ParseIfMatch (v : string) (lowest : Z) : option Z :=
  let v := TrimSpace v in
  let v := if (2 <=? len v) && (byte_at 0 v =? 34) && (byte_at (String.length v - 1) v =? 34)
           then take_bytes (String.length v - 2) (drop_bytes 1 v) else v in
  match Atoi v with
  | None => None
  | Some n => if n <? lowest then None else Some n
  end.

Definition bearerToken (header : string) : option string :=
  match Cut header " " with
  | None => None
  | Some (scheme, token) =>
      if negb (is_bearer scheme) then None
      else let token := TrimSpace token in if bool_decide (token = "") then None else Some token
  end.

(** A bad token is as good as none. *)
Definition bearerAuth {E} (authenticate : string → res E Principal) (ctx : Ctx) (authorization : string) : Ctx :=
  match bearerToken authorization with
  | None => ctx
  | Some token => match authenticate token with Ok p => WithPrincipal ctx p | Err _ => ctx end
  end.

(** [AuthenticationFunc], for the operations the spec protects. *)
Definition protected_passes (ctx : Ctx) : bool := present (PrincipalFrom ctx).

Record api_LocalizedText := MkApiText { at_Ar : string; at_En : option string }.

Definition APIText (t : LocalizedText) : api_LocalizedText :=
  MkApiText (ar t) (if bool_decide (en t = "") then None else Some (en t)).

Record api_Money := MkApiMoney { am_Amount : Z; am_Currency : string }.

Definition toAPIMoney (m : Money) : api_Money := MkApiMoney (amount m) (currency m).

(** ** Hours of a week (apigen) *)

Record TimeRange := MkRange { Opens : string; Closes : string }.
Record DayHours := MkDayHours { dh_Weekday : string; dh_Intervals : list TimeRange }.

(** [strings.ToLower(time.Weekday(d).String())]. *)
Definition weekday_names : list string := ["sunday"; "monday"; "tuesday"; "wednesday"; "thursday"; "friday"; "saturday"].
Definition weekday_name (d : Z) : string := default "" (weekday_names !! Z.to_nat d).

Definition formatClock (minutes : Z) : string := fmt_0d 2 (Z.quot minutes 60) +:+ ":" +:+ fmt_0d 2 (Z.rem minutes 60).

(** ** Facts *)

Lemma present_Some {A} (o : option A) : present o = true ↔ is_Some o.
Proof. destruct o; cbn; split; [eauto|done|done|by intros [? ?]]. Qed.

(** A version reads back, bare or as an ETag. *)
Lemma take_bytes_app a b : take_bytes (String.length a) (a +:+ b) = a.
Proof. induction a as [|x a IH]; [by destruct b|]. change (String x (take_bytes (String.length a) (a +:+ b)) = String x a). by rewrite IH. Qed.

Lemma bytes_space_id s : Forall (λ b, 33 ≤ b < 127) (bytes s) → TrimSpace s = s.
Proof.
  intros Hs. apply TrimSpace_id. rewrite runes_ascii; [|eapply Forall_impl; [exact Hs|intros ?; cbn; lia]].
  eapply Forall_impl; [exact Hs|]. intros b Hb. cbn in Hb. assert (Hin : b ∈ seqZ 33 94) by (apply elem_of_seqZ; lia).
  revert Hin. generalize b. apply Forall_forall. apply (bool_decide_eq_true_1 (Forall (λ x, IsSpace x = false) _)). vm_compute. reflexivity.
Qed.

Lemma ParseIfMatch_version n lowest : lowest ≤ n → 0 ≤ n → in_int64 n →
  ParseIfMatch (itoa n) lowest = Some n ∧ ParseIfMatch (str1 (byte_chr 34) +:+ itoa n +:+ str1 (byte_chr 34)) lowest = Some n.
Proof.
  intros Hl Hn Hi. destruct (itoa_digits n Hn) as (_ & F & Hne). set (q := str1 (byte_chr 34)). set (s := itoa n) in *.
  assert (Hq : bytes q = [34]) by done. unfold ParseIfMatch. rewrite !bytes_space_id.
  - assert (Hb : byte_at 0 s ≠ 34).
    { destruct (bytes s) as [|b l] eqn:E; [done|]. rewrite (byte_at_bytes 0 s b) by (by rewrite E). inversion F; lia. }
    rewrite (proj2 (Z.eqb_neq (byte_at 0 s) 34)) by done. rewrite andb_false_r. cbn [andb]. unfold s at 1. rewrite Atoi_itoa by done.
    rewrite (proj2 (Z.ltb_ge n lowest)) by lia. split; [done|].
    assert (Hlen : String.length (q +:+ s +:+ q) = (String.length s + 2)%nat) by (rewrite !string_length_app; cbn; lia).
    assert (Hbytes : bytes (q +:+ s +:+ q) = 34 :: bytes s ++ [34]) by (by rewrite !bytes_app, Hq).
    rewrite (byte_at_bytes 0 _ 34) by (by rewrite Hbytes).
    rewrite (byte_at_bytes _ _ 34); [|rewrite Hlen, Hbytes; replace (String.length s + 2 - 1)%nat with (S (length (bytes s))) by (rewrite length_bytes; lia);
      change ((bytes s ++ [34]) !! length (bytes s) = Some 34); by rewrite lookup_app_r, Nat.sub_diag].
    rewrite (proj2 (Z.leb_le 2 _)) by (unfold len; rewrite Hlen; lia). cbn [andb Z.eqb Pos.eqb].
    rewrite Hlen. replace (String.length s + 2 - 2)%nat with (String.length s) by lia.
    change (drop_bytes 1 (q +:+ s +:+ q)) with (s +:+ q). rewrite take_bytes_app. unfold s. rewrite Atoi_itoa by done.
    by rewrite (proj2 (Z.ltb_ge n lowest)) by lia.
  - rewrite !bytes_app, Hq. rewrite !Forall_app. split_and!; [repeat constructor; lia|eapply Forall_impl; [exact F|intros ?; cbn; lia]|repeat constructor; lia].
  - eapply Forall_impl; [exact F|intros ?; cbn; lia].
Qed.
