(* ===== verification/TimeText.v ===== *)
(** * Times as text: package time's layout RFC3339Nano

    Writing an instant in UTC as [Time.Format] does, and reading it back as
    [time.Parse] does. [time.Parse] first tries a stricter parser of the same
    layout, which gives the same times: only the general one is written out. *)
From S2P Require Import Prelude GoTime GoText GoCrypto GoEncoding Http.
Open Scope Z_scope.

(** ** Writing ([Time.UTC().Format(time.RFC3339Nano)]) *)

(** The last [k] decimal digits of [n]. *)
Fixpoint digits_of (k : nat) (n : Z) : list Z :=
  match k with O => [] | S k => 48 + n / 10 ^ Z.of_nat k mod 10 :: digits_of k n end.

Definition is_zero_digit (b : Z) : bool := b =? 48.

(** Nine digits after a point, the trailing zeros cut, and the point too when
    nothing is left. *)
Definition nano_digits (nsec : Z) : list Z := reverse (drop_while is_zero_digit (reverse (digits_of 9 nsec))).
Definition appendNano (nsec : Z) : list Z := match nano_digits nsec with [] => [] | ds => 46 :: ds end.

(** The sign is not counted in the width. *)
Definition appendInt (width : nat) (x : Z) : list Z := (if x <? 0 then [45] else []) ++ bytes (pad width (itoa (Z.abs x))).

Definition FormatRFC3339Nano (t : time) : list Z :=
  let '(year, month, day) := local_date UTC t in
  appendInt 4 year ++ 45 :: appendInt 2 month ++ 45 :: appendInt 2 day ++ 84 :: appendInt 2 (local_hour UTC t) ++ 58 :: appendInt 2 (local_minute UTC t)
    ++ 58 :: appendInt 2 (local_second UTC t) ++ appendNano (nanosecond t) ++ [90].

(** ** Reading ([time.Parse(time.RFC3339Nano, s)]) *)

Definition is_digit (b : Z) : bool := in_range 48 57 b.

(** [getnum]: two digits, or one when the layout allows it. *)
Definition getnum (fixed : bool) (l : list Z) : option (Z * list Z) :=
  match l with
  | a :: rest =>
      if negb (is_digit a) then None
      else match rest with
           | b :: rest' => if is_digit b then Some ((a - 48) * 10 + (b - 48), rest') else if fixed then None else Some (a - 48, rest)
           | [] => if fixed then None else Some (a - 48, rest)
           end
  | [] => None
  end.

Definition between (lo hi : Z) (r : option (Z * list Z)) : option (Z * list Z) := '(n, l) ← r; if in_range lo hi n then Some (n, l) else None.

Definition skip (c : Z) (l : list Z) : option (list Z) := match l with b :: l => if b =? c then Some l else None | [] => None end.

Definition year4 (l : list Z) : option (Z * list Z) :=
  match l with a :: b :: c :: d :: l => y ← digits_value 0 [a; b; c; d]; Some (y, l) | _ => None end.

Fixpoint span (p : Z → bool) (l : list Z) : list Z * list Z :=
  match l with
  | x :: l' => if p x then let '(a, b) := span p l' in (x :: a, b) else ([], l)
  | [] => ([], [])
  end.

(** Any number of digits after a point or comma; those past the ninth are
    ignored. *)
Definition nanos_of (ds : list Z) : Z := default 0 (digits_value 0 (take 9 ds)) * 10 ^ (9 - Z.of_nat (length (take 9 ds))).

Definition fraction (l : list Z) : Z * list Z :=
  match l with
  | p :: ((d :: _) as rest) =>
      if ((p =? 46) || (p =? 44)) && is_digit d then let '(ds, rest) := span is_digit rest in (nanos_of ds, rest) else (0, l)
  | _ => (0, l)
  end.

(** Z, or an offset; some people write 24 hours or 60 minutes. *)
Definition zone (l : list Z) : option (Z * list Z) :=
  match l with
  | [] => None
  | s :: rest =>
      if s =? 90 then Some (0, rest)
      else match rest with
           | h1 :: h2 :: c :: m1 :: m2 :: rest =>
               if negb (c =? 58) then None
               else
                 '(hr, _) ← between 0 24 (getnum true [h1; h2]);
                 '(mm, _) ← between 0 60 (getnum true [m1; m2]);
                 if s =? 43 then Some ((hr * 60 + mm) * 60, rest) else if s =? 45 then Some (- ((hr * 60 + mm) * 60), rest) else None
           | _ => None
           end
  end.

Definition ParseRFC3339Nano (s : list Z) : option time :=
  '(year, l) ← year4 s;
  l ← skip 45 l;
  '(month, l) ← between 1 12 (getnum true l);
  l ← skip 45 l;
  '(day, l) ← getnum true l;
  l ← skip 84 l;
  '(hour, l) ← between 0 23 (getnum false l);
  l ← skip 58 l;
  '(min, l) ← between 0 59 (getnum true l);
  l ← skip 58 l;
  '(sec, l) ← between 0 59 (getnum true l);
  let '(nsec, l) := fraction l in
  '(offset, l) ← zone l;
  match l with
  | [] => if in_range 1 (days_in year month) day then Some (date year month day hour min sec nsec UTC - offset * Second) else None
  | _ => None
  end.

Example rfc_written : string_of_bytes (FormatRFC3339Nano (1784030400 * Second + 120300000)) = "2026-07-14T12:00:00.1203Z".
Proof. vm_compute. reflexivity. Qed.
Example rfc_read : ParseRFC3339Nano (bytes "2026-07-14T15:00:00,1203+03:00") = Some (1784030400 * Second + 120300000)
  ∧ ParseRFC3339Nano (bytes "2026-02-29T15:00:00Z") = None ∧ ParseRFC3339Nano (bytes "2026-07-14T9:00:00Z") = Some (1784019600 * Second).
Proof. vm_compute. by split_and!. Qed.

(** ** Facts *)

Lemma appendInt_two n : 0 ≤ n < 100 → appendInt 2 n = [48 + n / 10; 48 + n mod 10].
Proof.
  intros Hn. pose (p := λ n, bool_decide (appendInt 2 n = [48 + n / 10; 48 + n mod 10])).
  assert (Hp : p n = true) by (apply (below_forall 100); [vm_compute; reflexivity|lia]). by apply bool_decide_eq_true in Hp.
Qed.

Lemma year4_written y l : 0 ≤ y < 10000 → year4 (appendInt 4 y ++ l) = Some (y, l).
Proof.
  intros Hy. pose (p := λ y, match appendInt 4 y with [a; b; c; d] => bool_decide (digits_value 0 [a; b; c; d] = Some y) | _ => false end).
  assert (Hp : p y = true) by (apply (below_forall (100 * 100)); [vm_compute; reflexivity|lia]). unfold p in Hp.
  destruct (appendInt 4 y) as [|a [|b [|c [|d [|]]]]]; try done. apply bool_decide_eq_true in Hp. cbn [app year4]. by rewrite Hp.
Qed.

Lemma two_digits n : 0 ≤ n < 100 → 0 ≤ n / 10 ≤ 9 ∧ 0 ≤ n mod 10 ≤ 9 ∧ n / 10 * 10 + n mod 10 = n.
Proof. intros Hn. Z.div_mod_to_equations. lia. Qed.

Lemma is_digit_ok d : 0 ≤ d ≤ 9 → is_digit (48 + d) = true.
Proof. intros Hd. unfold is_digit, in_range. by zbool. Qed.

Lemma getnum_written fixed lo hi n l : lo ≤ n ≤ hi → 0 ≤ n < 100 → between lo hi (getnum fixed (appendInt 2 n ++ l)) = Some (n, l) ∧
  getnum fixed (appendInt 2 n ++ l) = Some (n, l).
Proof.
  intros Hin Hn. destruct (two_digits n Hn) as (Ha & Hb & E). rewrite appendInt_two by done. cbn [app getnum]. rewrite !is_digit_ok by done. cbn [negb].
  replace ((48 + n / 10 - 48) * 10 + (48 + n mod 10 - 48)) with n by lia. split; [|done]. unfold between, in_range. cbn [mbind option_bind]. by zbool.
Qed.

Lemma digits_of_value k n acc : 0 ≤ n → digits_value acc (digits_of k n) = Some (acc * 10 ^ Z.of_nat k + n mod 10 ^ Z.of_nat k) ∧
  Forall (λ b, is_digit b = true) (digits_of k n) ∧ length (digits_of k n) = k.
Proof.
  intros Hn. revert acc. induction k as [|k IH]; intros acc; [cbn; rewrite Z.mod_1_r; split_and!; [f_equal; lia|constructor|done]|].
  cbn [digits_of digits_value length]. set (d := n / 10 ^ Z.of_nat k mod 10). assert (Hd : 0 ≤ d ≤ 9) by (unfold d; pose proof (Z.mod_pos_bound (n / 10 ^ Z.of_nat k) 10); lia).
  destruct (IH (acc * 10 + (48 + d - 48))) as (E & F & L). change (in_range 48 57 (48 + d)) with (is_digit (48 + d)). rewrite is_digit_ok by done.
  rewrite E. split_and!; [|by constructor; [apply is_digit_ok|]|by rewrite L]. f_equal.
  rewrite Nat2Z.inj_succ, Z.pow_succ_r by lia. rewrite (Z.mul_comm 10 (10 ^ Z.of_nat k)), Z.rem_mul_r by lia. fold d. nia.
Qed.

Lemma digits_value_zeros acc l : Forall (λ b, is_zero_digit b = true) l → digits_value acc l = Some (acc * 10 ^ Z.of_nat (length l)).
Proof.
  intros Hl. revert acc. induction Hl as [|b l Hb _ IH]; intros acc; [cbn; f_equal; lia|]. apply Z.eqb_eq in Hb as ->. cbn [digits_value length].
  change (in_range 48 57 48) with true. cbn match. rewrite IH, Nat2Z.inj_succ, Z.pow_succ_r by lia. f_equal. lia.
Qed.

(** The digits written are the nine digits less some zeros. *)
Lemma nano_digits_spec n : 0 ≤ n < 1000000000 → ∃ zeros, digits_of 9 n = nano_digits n ++ zeros ∧ Forall (λ b, is_zero_digit b = true) zeros.
Proof.
  intros Hn. unfold nano_digits. destruct (drop_while_split is_zero_digit (reverse (digits_of 9 n))) as (pre & E & Hpre).
  exists (reverse pre). split; [by rewrite <- reverse_app, <- E, reverse_involutive|by apply Forall_reverse].
Qed.

Lemma nanos_of_written n : 0 ≤ n < 1000000000 →
  nanos_of (nano_digits n) = n ∧ Forall (λ b, is_digit b = true) (nano_digits n) ∧ (nano_digits n = [] → n = 0).
Proof.
  intros Hn. destruct (nano_digits_spec n Hn) as (zs & E & Hz). destruct (digits_of_value 9 n 0 ltac:(lia)) as (V & F & L).
  rewrite E in V, F, L. apply Forall_app in F as [F _]. rewrite length_app in L. rewrite digits_value_app in V.
  destruct (digits_value 0 (nano_digits n)) as [v|] eqn:Ev; [|done]. cbn [mbind option_bind] in V. rewrite digits_value_zeros in V by done.
  change (10 ^ Z.of_nat 9) with 1000000000 in V. rewrite Z.mod_small in V by done. injection V as V.
  assert (Et : take 9 (nano_digits n) = nano_digits n) by (apply take_ge; lia). unfold nanos_of. rewrite Et, Ev. cbn [default].
  split_and!; [|done|].
  - replace (9 - Z.of_nat (length (nano_digits n))) with (Z.of_nat (length zs)) by lia. cbn [from_option]. unfold Datatypes.id. lia.
  - intros En. rewrite En in Ev. injection Ev as <-. lia.
Qed.

Lemma span_stops p a x l : Forall (λ b, p b = true) a → p x = false → span p (a ++ x :: l) = (a, x :: l).
Proof. intros Ha Hx. induction Ha as [|b a Hb _ IH]; cbn [app span]; [by rewrite Hx|]. by rewrite Hb, IH. Qed.

Lemma fraction_written n l : 0 ≤ n < 1000000000 → fraction (appendNano n ++ 90 :: l) = (n, 90 :: l).
Proof.
  intros Hn. destruct (nanos_of_written n Hn) as (V & F & Hnil). unfold appendNano. destruct (nano_digits n) as [|d ds] eqn:E.
  - rewrite Hnil by done. by destruct l.
  - cbn [app fraction]. assert (Hd : is_digit d = true) by (by inversion F). rewrite Hd. change ((46 =? 46) || (46 =? 44)) with true. cbn [andb].
    change (d :: ds ++ 90 :: l) with ((d :: ds) ++ 90 :: l). rewrite span_stops by done. by rewrite V.
Qed.

Lemma skip_here c l : skip c (c :: l) = Some l.
Proof. cbn. by rewrite Z.eqb_refl. Qed.

(** The instants the layout's four digits of a year can say. *)
Definition in_layout (t : time) : Prop := let '(year, _, _) := local_date UTC t in 0 ≤ year < 10000.

(** What is written reads back, to the nanosecond. *)
Lemma Parse_Format t : in_layout t → ParseRFC3339Nano (FormatRFC3339Nano t) = Some t.
Proof.
  unfold in_layout, FormatRFC3339Nano, local_date. pose proof (civil_inv (local_day UTC t)) as Hinv. pose proof (civil_valid (local_day UTC t)) as Hval.
  destruct (civil_of_days (local_day UTC t)) as [[y m] d]. intros Hy. destruct Hval as [Hm Hd].
  assert (Hd31 : 1 ≤ d ≤ 31) by (unfold days_in in Hd; repeat case_match; lia).
  assert (Hs : local_secs UTC t = t / Second) by (unfold local_secs, zone_offset; cbn; lia).
  assert (Hh : 0 ≤ local_hour UTC t ≤ 23) by (unfold local_hour, secs_per_day; Z.div_mod_to_equations; lia).
  assert (Hmi : 0 ≤ local_minute UTC t ≤ 59) by (unfold local_minute; Z.div_mod_to_equations; lia).
  assert (Hse : 0 ≤ local_second UTC t ≤ 59) by (unfold local_second; Z.div_mod_to_equations; lia).
  assert (Hn : 0 ≤ nanosecond t < 1000000000) by (unfold nanosecond, Second, Millisecond, Microsecond; Z.div_mod_to_equations; lia).
  unfold ParseRFC3339Nano. rewrite year4_written by done. cbn [mbind option_bind].
  rewrite skip_here. cbn [mbind option_bind]. rewrite (proj1 (getnum_written true 1 12 m _ Hm ltac:(lia))). cbn [mbind option_bind].
  rewrite skip_here. cbn [mbind option_bind]. rewrite (proj2 (getnum_written true 1 31 d _ Hd31 ltac:(lia))). cbn [mbind option_bind].
  rewrite skip_here. cbn [mbind option_bind]. rewrite (proj1 (getnum_written false 0 23 _ _ Hh ltac:(lia))). cbn [mbind option_bind].
  rewrite skip_here. cbn [mbind option_bind]. rewrite (proj1 (getnum_written true 0 59 _ _ Hmi ltac:(lia))). cbn [mbind option_bind].
  rewrite skip_here. cbn [mbind option_bind]. rewrite (proj1 (getnum_written true 0 59 _ _ Hse ltac:(lia))). cbn [mbind option_bind].
  rewrite fraction_written by done. change (zone [90]) with (Some (0, @nil Z)). cbn [mbind option_bind]. unfold in_range. zbool. f_equal.
  rewrite date_utc by done. rewrite Hinv. unfold local_day, local_hour, local_minute, local_second, nanosecond, secs_per_day. rewrite Hs.
  pose proof (Z.div_mod t Second ltac:(done)) as Et. assert (Hsplit : t / Second = t / Second / 86400 * 86400 + t / Second mod 86400 / 3600 * 3600 +
    t / Second mod 3600 / 60 * 60 + t / Second mod 60) by (Z.div_mod_to_equations; lia). lia.
Qed.

(** Only digits and the marks between them. *)
Lemma bytes_zeros n : Forall (λ b, 0 ≤ b ≤ 90) (bytes (zeros n)).
Proof. induction n; constructor; [by vm_compute|assumption]. Qed.

Lemma appendInt_low w x : Forall (λ b, 0 ≤ b ≤ 90) (appendInt w x).
Proof.
  unfold appendInt, pad. rewrite bytes_app, !Forall_app. split_and!; [destruct (_ <? _); repeat constructor; lia|apply bytes_zeros|].
  destruct (itoa_digits (Z.abs x) ltac:(lia)) as (_ & F & _). eapply Forall_impl; [exact F|]. intros b Hb. cbn in Hb. lia.
Qed.

Lemma appendNano_low t : Forall (λ b, 0 ≤ b ≤ 90) (appendNano (nanosecond t)).
Proof.
  assert (Hn : 0 ≤ nanosecond t < 1000000000) by (unfold nanosecond, Second, Millisecond, Microsecond; Z.div_mod_to_equations; lia).
  destruct (nanos_of_written _ Hn) as (_ & F & _). unfold appendNano. destruct (nano_digits _); [constructor|]. constructor; [lia|].
  eapply Forall_impl; [exact F|]. intros b Hb. unfold is_digit, in_range in Hb. cbn in Hb. bool_prop. lia.
Qed.

Lemma Format_low t : Forall (λ b, 0 ≤ b ≤ 90) (FormatRFC3339Nano t).
Proof.
  unfold FormatRFC3339Nano. destruct (local_date UTC t) as [[y m] d].
  repeat (first [apply Forall_nil_2|apply appendInt_low|apply appendNano_low|apply Forall_app_2|apply Forall_cons_2; [lia|]]).
Qed.
