(* ===== verification/SchedHttp.v ===== *)
(** * Scheduling over HTTP (src/internal/scheduling/adapters/httpapi)

    The handlers of handlers.go and schedules.go: a request to a command, the
    use case, the answer or the problem. Clock times cross as text, and what
    the API showed can be sent back. *)
From S2P Require Import Prelude GoTime GoText GoEncoding Shared Tables SchedWeekly SchedDate Spans SchedCalendar SchedWindows SchedStore SchedApp Http.
Open Scope Z_scope.

(** ** The API's shapes (apigen) *)

Record api_OpeningHours := MkApiHours { ao_Days : list DayHours; ao_UpdatedAt : option time; ao_Version : Z }.

(** [dt_Date] is midnight UTC of the date. *)
Record DateHours := MkDateHours { dt_Date : time; dt_Intervals : list TimeRange }.

Record api_BarberSchedule := MkApiSchedule {
  as_BranchId : UUID; as_Overrides : list DateHours; as_StaffId : UUID; as_UpdatedAt : option time; as_Version : Z; as_Weekly : list DayHours }.

Record BarberScheduleUpdate := MkScheduleUpdate { bu_Overrides : option (list DateHours); bu_Weekly : list DayHours }.

Record api_TimeOff := MkApiTimeOff {
  ato_CreatedAt : time; ato_EndsAt : time; ato_Id : UUID; ato_Reason : option string; ato_StaffId : UUID; ato_StartsAt : time }.

Record TimeOffCreate := MkTimeOffCreate { tc_EndsAt : time; tc_Reason : option string; tc_StartsAt : time }.

Record TimeWindow := MkTimeWindow { tw_EndsAt : time; tw_StartsAt : time }.

Record api_WorkingWindows := MkApiWindows { aw_Data : list TimeWindow; aw_StaffId : UUID; aw_TimeZone : string }.

(** ** Errors (handlers.go) *)

Inductive http_error :=
| ErrNoPrincipal | ErrBadIfMatch | errBadTime | errDuplicateDate | UseCase (e : sched_error).

(** [err.Error()]. *)
Definition error_text (e : sched_error) : string :=
  match e with
  | ErrNotFound => "scheduling: not found"
  | ErrForbidden => "scheduling: not allowed"
  | ErrVersionConflict => "scheduling: changed since it was read"
  | ErrInvalidWeekday => "scheduling: not a weekday"
  | ErrInvalidInterval => "scheduling: times are on 5-minute steps and last 5 minutes to 24 hours"
  | ErrTooManyIntervals => "scheduling: at most 4 intervals start on one day"
  | ErrOverlappingIntervals => "scheduling: intervals overlap"
  | ErrInvalidDate => "scheduling: not a date"
  | ErrTooManyOverrides => "scheduling: at most 400 date overrides"
  | ErrScheduleClash => "scheduling: overlaps this person's schedule at another branch"
  | ErrInvalidTimeOff => "scheduling: time off must end after it starts and last at most a year"
  | ErrReasonTooLong => "scheduling: reason is at most 200 characters"
  | ErrTimeOffOverlaps => "scheduling: overlaps other time off"
  | ErrInvalidRange => "scheduling: the range must end after it starts and span at most 62 days"
  | ErrStorage => ""
  end.

(** Status, code and detail; [None] is an error nobody expected. *)
Definition problem_of (err : http_error) : option (Z * string * string) :=
  match err with
  | ErrNoPrincipal => Some unauthorized
  | ErrBadIfMatch => Some (400, "validation_failed", "If-Match: send the version you last read (0 the first time)")
  | errBadTime => Some (422, "validation_failed", "times are HH:MM")
  | UseCase ErrNotFound => Some (404, "not_found", "")
  | UseCase ErrForbidden => Some (403, "forbidden", "")
  | UseCase ErrVersionConflict => Some (412, "version_conflict", "it changed since you read it; reload and try again")
  | UseCase ErrInvalidRange => Some (422, "validation_failed", "to must be after from, at most 62 days later")
  | UseCase ErrTimeOffOverlaps => Some (409, "time_off_overlaps", "it overlaps other time off; change or remove that first")
  | errDuplicateDate => Some (422, "validation_failed", "overrides: each date at most once")
  | UseCase ErrStorage => None
  | UseCase e => Some (422, "validation_failed", TrimPrefix (error_text e) "scheduling: ")
  end.

#[export] Instance sched_problems : Problems http_error := {|
  problem ctx err := problem_for ctx (problem_of err) (match err with ErrNoPrincipal => challenge | _ => no_headers end);
  no_principal := ErrNoPrincipal |}.

Definition uc {A} (r : res sched_error A) : res http_error A := res_map_err UseCase r.

Definition if_match (v : string) : res http_error Z :=
  match ParseIfMatch v 0 with Some n => Ok n | None => Err ErrBadIfMatch end.

(** ** Hours as text *)

(** [weekdays]. *)
Definition weekday_of (name : string) : option Z := (λ p, Z.of_nat p.1) <$> list_find (λ n, n = name) weekday_names.

Definition parseClock (s : string) : res http_error Z :=
  match Cut s ":" with
  | None => Err errBadTime
  | Some (hh, mm) =>
      match Atoi hh, Atoi mm with
      | Some h, Some m =>
          if (h <? 0) || (24 <? h) || (m <? 0) || (59 <? m) || ((h =? 24) && negb (m =? 0)) then Err errBadTime else Ok (int64 (h * 60 + m))
      | _, _ => Err errBadTime
      end
  end.

Definition range_interval (day : Z) (r : TimeRange) : res http_error WeeklyInterval :=
  let! opens := parseClock (Opens r) in
  let! closes := parseClock (Closes r) in
  Ok (IntervalFromClock day opens closes).

Definition fromAPIDay (d : DayHours) : res http_error (list WeeklyInterval) :=
  match weekday_of (dh_Weekday d) with
  | None => Err (UseCase ErrInvalidWeekday)
  | Some day => res_mapM (range_interval day) (dh_Intervals d)
  end.

Definition fromAPIDays (days : list DayHours) : res http_error (list WeeklyInterval) :=
  let! l := res_mapM fromAPIDay days in Ok (concat l).

Definition clock_range (i : WeeklyInterval) : TimeRange :=
  let '(opens, closes) := Clock i in MkRange (formatClock opens) (formatClock closes).

(** [byDay[i.Day] = append(byDay[i.Day], ...)]. *)
Definition by_day (w : WeeklyHours) : gmap Z (list TimeRange) :=
  foldl (λ m i, <[Day i := default [] (m !! Day i) ++ [clock_range i]]> m) ∅ (intervals w).

Definition orderedWeekdays : list (string * Z) := (λ d, (weekday_name d, d)) <$> seqZ Sunday 7.

Definition toAPIWeek (w : WeeklyHours) : list DayHours :=
  (λ nd, MkDayHours nd.1 (default [] (by_day w !! nd.2))) <$> orderedWeekdays.

Definition updated (t : time) : option time := if IsZero t then None else Some t.

Definition toAPIOpeningHours (cal : BranchCalendar) : api_OpeningHours :=
  MkApiHours (toAPIWeek (cal_hours cal)) (updated (cal_updatedAt cal)) (cal_version cal).

Definition branchRef (actor : UserID) (business branch : UUID) : BranchRef := MkBranchRef actor (IDFromUUID business) (IDFromUUID branch).
Definition staffRef (actor : UserID) (business branch staff : UUID) : StaffRef := MkStaffRef (branchRef actor business branch) (IDFromUUID staff).

Section Handlers.
Context `{Access} (ctx : Ctx).

(** ** Opening hours (handlers.go) *)

Definition GetOpeningHours (db : SchedDB) (business branch : UUID) : Response api_OpeningHours :=
  reply ctx 200 (
    let! p := caller ctx in
    let! cal := uc (OpeningHours_handler db (branchRef (UserID_of p) business branch)) in
    Ok (toAPIOpeningHours cal)).

Definition PutOpeningHours (db : SchedDB) (now : time) (business branch : UUID) (ifMatch : string) (days : list DayHours)
  : Response api_OpeningHours * SchedDB :=
  reply_db ctx 200 db (
    let! p := caller ctx in
    let! version := if_match ifMatch in
    let! ivs := fromAPIDays days in
    let! r := uc (SetOpeningHours_handler db now (branchRef (UserID_of p) business branch) version ivs) in
    Ok (toAPIOpeningHours r.1, r.2)).

(** ** Schedules (schedules.go) *)

Definition toAPISchedule (s : BarberSchedule) : api_BarberSchedule :=
  let dates := sort_by (λ a b, Date_Compare a b <=? 0) (map_to_list (sch_overrides s)).*1 in
  MkApiSchedule (value (sch_branch s))
    ((λ d, MkDateHours (midnightUTC d) (clock_range <$> (on_sunday <$> default [] (sch_overrides s !! d)))) <$> dates)
    (value (sch_staff s)) (updated (sch_updatedAt s)) (sch_version s) (toAPIWeek (sch_weekly s)).

(** One override, into the map of those read so far. *)
Definition add_override (overrides : gmap Date (list DayInterval)) (o : DateHours) : res http_error (gmap Date (list DayInterval)) :=
  let date := DateOf UTC (dt_Date o) in
  let! l := res_mapM (range_interval Sunday) (dt_Intervals o) in
  check! bool_decide (overrides !! date = None) else errDuplicateDate in
  Ok (<[date := (λ i, MkDay (Start i) (Minutes i)) <$> l]> overrides).

Definition fromAPIOverrides (o : option (list DateHours)) : res http_error (gmap Date (list DayInterval)) := res_foldM add_override ∅ (default [] o).

Definition GetBarberSchedule (db : SchedDB) (business branch staff : UUID) : Response api_BarberSchedule :=
  reply ctx 200 (
    let! p := caller ctx in
    let! s := uc (Schedule_handler db (staffRef (UserID_of p) business branch staff)) in
    Ok (toAPISchedule s)).

(** [visit] and [order]: the orders Go visits the maps in. *)
Definition SetBarberSchedule (db : SchedDB) (now : time) (business branch staff : UUID) (ifMatch : string) (body : BarberScheduleUpdate)
    (visit : gmap Date (list DayInterval) → list (Date * list DayInterval)) (order : BarberSchedule → list (Date * list DayInterval))
  : Response api_BarberSchedule * SchedDB :=
  reply_db ctx 200 db (
    let! p := caller ctx in
    let! version := if_match ifMatch in
    let! weekly := fromAPIDays (bu_Weekly body) in
    let! overrides := fromAPIOverrides (bu_Overrides body) in
    let! r := uc (SetSchedule_handler db now (staffRef (UserID_of p) business branch staff) version weekly overrides (visit overrides) order) in
    Ok (toAPISchedule r.1, r.2)).

(** ** Time off *)

Definition toAPITimeOff (t : TimeOff) : api_TimeOff :=
  MkApiTimeOff (off_createdAt t) (i_end (off_span t)) (value (off_id t)) (if bool_decide (off_reason t = "") then None else Some (off_reason t))
    (value (off_staff t)) (i_start (off_span t)).

Definition ListTimeOff (db : SchedDB) (now : time) (business staff : UUID) : Response (list api_TimeOff) :=
  reply ctx 200 (
    let! p := caller ctx in
    let! l := uc (TimeOff_handler db now (UserID_of p) (IDFromUUID business) (IDFromUUID staff)) in
    Ok (toAPITimeOff <$> l)).

Definition PostTimeOff (db : SchedDB) (now : time) (newID : TimeOffID) (business staff : UUID) (body : TimeOffCreate)
  : Response api_TimeOff * SchedDB :=
  reply_db ctx 201 db (
    let! p := caller ctx in
    let! r := uc (AddTimeOff_handler db now newID (UserID_of p) (IDFromUUID business) (IDFromUUID staff) (tc_StartsAt body) (tc_EndsAt body)
                    (default "" (tc_Reason body))) in
    Ok (toAPITimeOff r.1, r.2)).

Definition DeleteTimeOff (db : SchedDB) (business staff time_off : UUID) : Response unit * SchedDB :=
  reply_db ctx 204 db (
    let! p := caller ctx in
    let! db' := uc (DeleteTimeOff_handler db (UserID_of p) (IDFromUUID business) (IDFromUUID staff) (IDFromUUID time_off)) in
    Ok (tt, db')).

(** ** Working windows; [zone_name] is [loc.String()]. [None] is the panic
    of [mustSpan]. *)
Definition GetWorkingWindows (zone_name : Location → string) (db : SchedDB) (business branch staff : UUID) (from to : time)
  : option (Response api_WorkingWindows) :=
  match (let! p := caller ctx in uc (ForStaff db (staffRef (UserID_of p) business branch staff) from to)) with
  | Err e => Some (refuse ctx e)
  | Ok (None, _) => None
  | Ok (Some windows, loc) =>
      Some (Answer 200 (MkApiWindows ((λ w, MkTimeWindow (i_end w) (i_start w)) <$> windows) staff (zone_name loc)))
  end.
End Handlers.

(** ** Clock times read back *)

Lemma hhmm_round_trip m : 0 ≤ m ≤ 1440 → parseClock (formatClock m) = Ok m.
Proof.
  intros Hm. pose (p := λ m, match parseClock (formatClock m) with Ok n => n =? m | Err _ => false end).
  assert (Hp : p m = true) by (apply (below_forall 1441); [vm_compute; reflexivity|lia]). unfold p in Hp.
  destruct (parseClock _); [|done]. by apply Z.eqb_eq in Hp as ->.
Qed.

(** An interval's clock times, as the code computes them. *)
Lemma Clock_valid i : valid_interval i →
  Clock i = (Start i, if Start i + Minutes i =? 1440 then 1440 else (Start i + Minutes i) mod 1440).
Proof.
  intros (_ & Hs & _ & Hm & _). unfold Clock, interval_End, MinutesPerDay. change (24 * 60) with 1440.
  rewrite int64_id by (unfold in_int64, min_int64, max_int64; lia).
  destruct (Z.eqb_spec (Start i + Minutes i) 1440); [done|]. by rewrite Z.rem_mod_nonneg by lia.
Qed.

Lemma range_round_trip i : valid_interval i → range_interval (Day i) (clock_range i) = Ok i.
Proof.
  intros Hi. unfold range_interval, clock_range. rewrite Clock_valid by done. cbn [Opens Closes]. destruct Hi as (_ & Hs & _ & Hm & _).
  set (e := Start i + Minutes i) in *.
  assert (He : 0 ≤ (if e =? 1440 then 1440 else e mod 1440) ≤ 1440).
  { destruct (_ =? _); [lia|]. pose proof (Z.mod_pos_bound e 1440 ltac:(lia)). lia. }
  rewrite !hhmm_round_trip by lia. cbn [res_bind]. unfold IntervalFromClock, MinutesPerDay. change (24 * 60) with 1440. f_equal.
  destruct i as [d s m]. cbn in *. f_equal.
  set (c := if e =? 1440 then 1440 else e mod 1440) in *.
  assert (Hc : Z.rem (Z.rem (c - s) 1440 + 1440) 1440 = if m =? 1440 then 0 else m).
  { unfold c, e. destruct (Z.eqb_spec (s + m) 1440), (Z.eqb_spec m 1440); Z.to_euclidean_division_equations; lia. }
  rewrite Hc. destruct (Z.eqb_spec m 1440) as [->|]; [done|]. by rewrite (proj2 (Z.eqb_neq m 0)) by lia.
Qed.

Lemma ranges_round_trip d l : Forall (λ i, valid_interval i ∧ Day i = d) l → res_mapM (range_interval d) (clock_range <$> l) = Ok l.
Proof.
  intros Hl. apply res_mapM_ok. induction Hl as [|i l [Hi <-] _ IH]; cbn; constructor; [by apply range_round_trip|done].
Qed.

(** ** A week reads back *)

Lemma by_day_spec w d : default [] (by_day w !! d) = clock_range <$> filter (λ i, Day i = d) (intervals w).
Proof.
  unfold by_day. set (f := λ (m : gmap Z (list TimeRange)) i, _).
  assert (Hf : ∀ l m, default [] (foldl f m l !! d) = default [] (m !! d) ++ (clock_range <$> filter (λ i, Day i = d) l)).
  { induction l as [|i l IH]; intros m; cbn [foldl]; [by rewrite app_nil_r|]. rewrite IH, filter_cons. unfold f.
    destruct (decide (Day i = d)) as [<-|Hne].
    - rewrite lookup_insert_eq. cbn [default from_option id]. by rewrite <- app_assoc.
    - by rewrite lookup_insert_ne. }
  by rewrite Hf, lookup_empty.
Qed.

Lemma weekday_of_name d : 0 ≤ d < 7 → weekday_of (weekday_name d) = Some d.
Proof.
  intros Hd. pose (p := λ d, bool_decide (weekday_of (weekday_name d) = Some d)).
  assert (Hp : p d = true) by (apply (below_forall 7); [reflexivity|lia]). by apply bool_decide_eq_true in Hp.
Qed.

(** The week's intervals, day by day. *)
Definition day_parts (l : list WeeklyInterval) : list (list WeeklyInterval) := (λ d, filter (λ i, Day i = d) l) <$> seqZ 0 7.

Lemma day_parts_perm l : Forall valid_interval l → concat (day_parts l) ≡ₚ l.
Proof.
  unfold day_parts. induction 1 as [|i l Hi _ IH]; [done|].
  destruct Hi as (Hd & _). assert (Hin : Day i ∈ seqZ 0 7) by (apply elem_of_seqZ; lia).
  assert (Hgen : ∀ ds, NoDup ds → concat ((λ d, filter (λ i, Day i = d) (i :: l)) <$> ds) ≡ₚ
            (if decide (Day i ∈ ds) then [i] else []) ++ concat ((λ d, filter (λ i, Day i = d) l) <$> ds)).
  { induction 1 as [|d ds Hnd _ IHds]; [done|]. cbn [fmap list_fmap concat]. rewrite IHds, filter_cons.
    destruct (decide (Day i = d)) as [<-|Hne].
    - rewrite (decide_True (P := Day i ∈ Day i :: ds)) by (by left). rewrite decide_False by done. done.
    - destruct (decide (Day i ∈ ds)) as [Hi|Hi].
      + rewrite decide_True by (by right). cbn [app]. by rewrite <- Permutation_middle.
      + rewrite decide_False by (by intros [?|?]%elem_of_cons). done. }
  rewrite Hgen by apply NoDup_seqZ. rewrite decide_True by done. cbn [app]. by rewrite IH.
Qed.

Lemma toAPIWeek_days w : toAPIWeek w = (λ d, MkDayHours (weekday_name d) (clock_range <$> filter (λ i, Day i = d) (intervals w))) <$> seqZ 0 7.
Proof. unfold toAPIWeek, orderedWeekdays. rewrite <- list_fmap_compose. apply list_fmap_ext. intros i d _. cbn. by rewrite by_day_spec. Qed.

Lemma fromAPIDays_toAPIWeek w : Forall valid_interval (intervals w) → fromAPIDays (toAPIWeek w) = Ok (concat (day_parts (intervals w))).
Proof.
  intros Hw. unfold fromAPIDays. rewrite toAPIWeek_days.
  assert (H : res_mapM fromAPIDay ((λ d, MkDayHours (weekday_name d) (clock_range <$> filter (λ i, Day i = d) (intervals w))) <$> seqZ 0 7)
            = Ok (day_parts (intervals w))); [|by rewrite H].
  apply res_mapM_ok, Forall2_fmap, Forall_Forall2_diag, Forall_forall. intros d Hd%elem_of_seqZ. unfold fromAPIDay. cbn [dh_Weekday dh_Intervals].
  rewrite weekday_of_name by lia. apply ranges_round_trip. apply Forall_forall. intros i [Hd' Hi]%list_elem_of_filter.
  by rewrite Forall_forall in Hw; split; [apply Hw|].
Qed.

(** What the API showed is the same hours again, in any state. *)
Lemma week_round_trip w : week_ok w → ∃ l, fromAPIDays (toAPIWeek w) = Ok l ∧ NewWeeklyHours l = Ok w.
Proof.
  intros Hw. pose proof Hw as [[Hv _] _]. exists (concat (day_parts (intervals w))). split; [by apply fromAPIDays_toAPIWeek|].
  apply NewWeeklyHours_perm; [done|by apply day_parts_perm].
Qed.
