(* ===== verification/SchedPut.v ===== *)
(** * What scheduling's API shows can be put back

    A client that reads opening hours or a schedule and sends what it read
    back, with the version it read, changes nothing but the version. *)
From S2P Require Import Prelude GoTime GoText GoDate Shared Tables SchedWeekly SchedDate Spans SchedCalendar SchedStore SchedApp Http SchedHttp.
Open Scope Z_scope.

(** ** The overrides tables hold *)

(** At most 400 dates, each one of the calendar. *)
Definition dates_ok (db : SchedDB) : Prop :=
  map_Forall (λ _ m, (size m ≤ MaxOverrides)%nat ∧ map_Forall (λ d _, valid_date d) m) (schedule_overrides db).

Lemma saved_date_valid d : valid_date (stored_date d).
Proof. apply date_of_day_valid. Qed.

Lemma insert_overrides_dates order t t' :
  res_foldM insert_override t order = Ok t' → map_Forall (λ d _, valid_date d) t →
  map_Forall (λ d _, valid_date d) t' ∧ (size t' ≤ size t + length order)%nat.
Proof.
  revert t. induction order as [|e order IH]; intros t; cbn [res_foldM length]; [intros [= <-] ?; split; [done|lia]|].
  intros H Ht. apply res_bind_ok in H as (t1 & H1 & H). unfold insert_override in H1. apply res_bind_ok in H1 as (rows & _ & H1).
  apply insert_row_ok in H1 as (_ & Hn & ->). destruct (IH _ H) as [Hv Hs].
  - by apply map_Forall_insert_2; [apply saved_date_valid|].
  - split; [done|]. rewrite map_size_insert_None in Hs by done. lia.
Qed.

Lemma update_overrides db b br st expected fn order s' db' :
  Schedules_Update db b br st expected fn order = Ok (s', db') →
  ∃ s ws ovs, fn s ws = Ok s' ∧ replace_overrides (order s') = Ok ovs ∧ schedule_overrides db' = <[(b, br, st) := ovs]> (schedule_overrides db).
Proof.
  unfold Schedules_Update. destruct (out_of_int32 _); [done|]. intros H.
  apply res_bind_ok in H as (s & _ & H). apply res_bind_ok in H as (_ & _ & H). apply res_bind_ok in H as (ws & _ & H).
  apply res_bind_ok in H as (s1 & Hfn & H). apply res_bind_ok in H as (db1 & H & [= <- <-]). unfold saveSchedule in H.
  apply res_bind_ok in H as (v & _ & H). apply res_bind_ok in H as (e & _ & H). apply res_bind_ok in H as (t & _ & H).
  apply res_bind_ok in H as (rows & _ & H). apply res_bind_ok in H as (ovs & Ho & [= <-]). by exists s, ws, ovs.
Qed.

Lemma sched_step_dates db db' : sched_step db db' → dates_ok db → dates_ok db'.
Proof.
  intros Hstep Hok. destruct Hstep as [A now ref expected l cal H|A now ref expected l ovs visit order s Hv Ho H
    |A now newID actor b st from to reason t H|A actor b st id H].
  - unfold SetOpeningHours_handler in H. apply res_bind_ok in H as ([] & _ & H). apply res_bind_ok in H as (w & _ & H).
    unfold Calendars_Update in H. destruct (out_of_int32 _); [done|]. do 3 (apply res_bind_ok in H as (? & _ & H)).
    apply res_bind_ok in H as (v & _ & H). apply res_bind_ok in H as (t & _ & H). apply res_bind_ok in H as (db1 & H & [= _ <-]).
    unfold saveHours in H. apply res_bind_ok in H as (rows & _ & [= <-]). exact Hok.
  - unfold SetSchedule_handler in H. apply res_bind_ok in H as ([] & _ & H). apply res_bind_ok in H as (w & Hw & H).
    apply update_overrides in H as (s0 & ws & ovs' & Hfn & Hr & E). unfold dates_ok. rewrite E. apply map_Forall_insert_2; [|exact Hok].
    apply Set_schedule_ok in Hfn as (Hsz & _ & _ & ->); [|done]. destruct (insert_overrides_dates _ _ _ Hr (map_Forall_empty _)) as [Hd Hle].
    split; [|done]. rewrite (Permutation_length (Ho _)), length_map_to_list in Hle. cbn [sch_overrides] in Hle.
    rewrite map_size_fmap, map_size_empty in Hle. lia.
  - unfold AddTimeOff_handler in H. apply res_bind_ok in H as ([] & _ & H). apply res_bind_ok in H as (t' & _ & H).
    apply res_bind_ok in H as (db1 & H & [= _ <-]). unfold TimeOffs_Add in H. do 2 (apply res_bind_ok in H as ([] & _ & H)).
    destruct (existsb _ _); [done|]. injection H as <-. exact Hok.
  - unfold DeleteTimeOff_handler in H. apply res_bind_ok in H as ([] & _ & H). apply TimeOffs_Delete_ok in H as [_ ->]. exact Hok.
Qed.

Lemma reachable_dates db : sched_reachable db → dates_ok db.
Proof.
  intros Hr. eapply (rtc_ind_r dates_ok empty_db); [apply map_Forall_empty|intros; by eapply sched_step_dates|exact Hr].
Qed.

(** Every schedule read is well formed. *)
Lemma read_schedule_ok db b br st s :
  db_ok db → dates_ok db → Schedules_Get db b br st = Ok s →
  schedule_ok s ∧ map_Forall (λ d _, valid_date d) (sch_overrides s) ∧ sch_version s = current_version (barber_schedules db) (b, br, st).
Proof.
  intros Hok Hd Hs. destruct (Schedules_Get_ok db b br st Hok) as (s' & HG & _ & _ & _ & Hv & Hw & Ho). rewrite Hs in HG. injection HG as <-.
  assert (Hk : (size (sch_overrides s) ≤ MaxOverrides)%nat ∧ map_Forall (λ d _, valid_date d) (sch_overrides s)).
  { unfold Schedules_Get in Hs. destruct (barber_schedules db !! _); [|injection Hs as <-; split; [cbn [sch_overrides NewBarberSchedule]; rewrite map_size_empty; apply Nat.le_0_l|apply map_Forall_empty]].
    unfold loadSchedule in Hs. apply res_bind_ok in Hs as (w & _ & [= <-]). cbn [sch_overrides RehydrateBarberSchedule].
    rewrite map_size_fmap, map_Forall_fmap. destruct (schedule_overrides db !! (b, br, st)) as [m|] eqn:E; cbn [default from_option id].
    - destruct (Hd _ _ E) as [? Hm]. by split.
    - split; [cbn [sch_overrides NewBarberSchedule]; rewrite map_size_empty; apply Nat.le_0_l|apply map_Forall_empty]. }
  destruct Hk as [Hsz Hvd]. split_and!; [|done|done]. split_and!; [done|done|]. intros d l Hl. destruct (Ho _ _ Hl) as [? ?].
  split_and!; [apply is_real_date_valid; by apply (Hvd d l)|done|done].
Qed.

(** ** Saving what was read *)

Lemma map_fmap_id {K A} `{Countable K} (f : A → A) (m : gmap K A) : map_Forall (λ _ x, f x = x) m → f <$> m = m.
Proof. intros Hm. apply map_eq. intros k. rewrite lookup_fmap. destruct (m !! k) as [x|] eqn:E; [|done]. cbn. f_equal. by apply (Hm k). Qed.

Lemma weekly_apart db b br st s :
  db_ok db → Schedules_Get db b br st = Ok s → apart_elsewhere db b br st (sch_weekly s).
Proof.
  intros Hok Hs br' rows w' Hne Hrows Hw'. unfold Schedules_Get in Hs. destruct (barber_schedules db !! (b, br, st)); [|injection Hs as <-; done].
  unfold loadSchedule in Hs. apply res_bind_ok in Hs as (w & Hw & [= <-]). cbn [sch_weekly RehydrateBarberSchedule].
  destruct (barber_hours db !! (b, br, st)) as [r|] eqn:E; cbn [default from_option id] in Hw.
  - by eapply (ok_one_shop _ Hok b br br' st).
  - injection Hw as <-. done.
Qed.

Lemma save_same db b br st s now visit order :
  db_ok db → dates_ok db → Schedules_Get db b br st = Ok s → sch_version s < max_int32 →
  visit ≡ₚ map_to_list (sch_overrides s) → (∀ x, order x ≡ₚ map_to_list (sch_overrides x)) →
  ∃ db', Schedules_Update db b br st (sch_version s) (λ x elsewhere, Set_schedule x (sch_weekly s) (sch_overrides s) visit elsewhere now) order
         = Ok (MkSchedule b br st (sch_weekly s) (sch_overrides s) (sch_version s + 1) (Truncate now Microsecond), db').
Proof.
  intros Hok Hd Hs Hmax Hvisit Horder. destruct (read_schedule_ok db b br st s Hok Hd Hs) as ((Hw & Hsz & Hov) & Hdates & Hv).
  destruct (Schedules_Get_ok db b br st Hok) as (s0 & HG & Hb & Hbr & Hst & _). rewrite Hs in HG. injection HG as <-.
  pose proof (sched_version_range db (b, br, st) Hok) as Hr. rewrite <- Hv in Hr.
  destruct (hoursElsewhere_ok db b br st Hok) as (ws & Hws & Helse).
  assert (Hsort : sort_by day_starts_before <$> sch_overrides s = sch_overrides s).
  { apply map_fmap_id. intros d l Hl. destruct (Hov _ _ Hl) as (_ & _ & Hso). apply sort_by_id. revert Hso. apply pairwise_impl.
    intros x y _ _ Hxy. apply Z.leb_le. cbn in Hxy. lia. }
  set (s' := MkSchedule b br st (sch_weekly s) (sch_overrides s) (sch_version s + 1) (Truncate now Microsecond)).
  assert (Hset : Set_schedule s (sch_weekly s) (sch_overrides s) visit ws now = Ok s').
  { apply Set_schedule_ok; [done|]. split_and!; [done| | |].
    - apply (apart_elsewhere_ok db b br st _ ws Helse). by apply weekly_apart.
    - intros d l Hl. destruct (Hov _ _ Hl) as (? & ? & _). by split.
    - rewrite Hsort, Hb, Hbr, Hst. rewrite int64_id by (unfold in_int64, min_int64, max_int64, max_int32 in *; lia). done. }
  assert (Hsave : ∃ db', saveSchedule db (b, br, st) s' (order s') (sch_version s) = Ok db').
  { unfold saveSchedule. change (sch_version s') with (sch_version s + 1). change (sch_updatedAt s') with (Truncate now Microsecond). change (sch_weekly s') with (sch_weekly s).
    rewrite (proj2 (toInt32_ok (sch_version s + 1) (sch_version s + 1))) by (split; [done|lia]). cbn [res_bind].
    rewrite (proj2 (toInt32_ok (sch_version s) (sch_version s))) by (split; [done|lia]). cbn [res_bind].
    rewrite (proj2 (write_version_ok (barber_schedules db) (b, br, st) (sch_version s) (MkVersionRow (sch_version s + 1) (Truncate now Microsecond)) _
      ltac:(intros old Hold; destruct (ok_sch _ Hok _ _ Hold) as [? _]; lia))) by (cbn [row_version]; split_and!; [lia|done|done]).
    cbn [res_bind]. destruct (replace_hours_spec (sch_weekly s) Hw) as (rows & -> & _). cbn [res_bind].
    destruct (replace_overrides_spec (order s') ∅) as (ovs & Hovs & _).
    - rewrite Horder. apply Forall_forall. intros [d l] Hin%elem_of_map_to_list. cbn in Hin |- *. destruct (Hov _ _ Hin) as (_ & ? & ?).
      split_and!; [by apply (Hdates d l)|done|done].
    - rewrite Horder. apply NoDup_fst_map_to_list.
    - done.
    - unfold replace_overrides. rewrite Hovs. by eexists. }
  destruct Hsave as [db' Hsave]. exists db'. unfold Schedules_Update. rewrite out_of_int32_false by lia. rewrite Hs. cbn [res_bind].
  rewrite Z.eqb_refl. cbn [ensure res_bind]. rewrite Hws. cbn [res_bind]. rewrite Hset. cbn [res_bind]. by rewrite Hsave.
Qed.

(** ** Overrides read back *)

Lemma day_ranges_round_trip l : valid_day l → res_mapM (range_interval Sunday) (clock_range <$> (on_sunday <$> l)) = Ok (on_sunday <$> l).
Proof. intros [Hv _]. apply ranges_round_trip. rewrite Forall_fmap in Hv |- *. eapply Forall_impl; [exact Hv|]. intros i Hi. by split. Qed.

Lemma overrides_round_trip (ov : gmap Date (list DayInterval)) ds m :
  map_Forall (λ _ l, valid_day l) ov → Forall valid_date ds → NoDup ds → (∀ d, d ∈ ds → is_Some (ov !! d) ∧ m !! d = None) →
  ∃ m', res_foldM add_override m ((λ d, MkDateHours (midnightUTC d) (clock_range <$> (on_sunday <$> default [] (ov !! d)))) <$> ds) = Ok m' ∧
    ∀ d, m' !! d = if decide (d ∈ ds) then ov !! d else m !! d.
Proof.
  intros Hov. revert m. induction ds as [|d ds IH]; intros m Hds Hnd Hin; [by exists m|].
  apply Forall_cons in Hds as [Hd Hds]. apply NoDup_cons in Hnd as [Hni Hnd]. destruct (Hin d ltac:(by left)) as [[l Hl] Hm].
  cbn [fmap list_fmap res_foldM]. unfold add_override at 1. cbn [dt_Date dt_Intervals]. rewrite Hl. cbn [default from_option id].
  rewrite day_ranges_round_trip by (by apply (Hov d)). cbn [res_bind]. rewrite DateOf_midnight by done.
  rewrite bool_decide_eq_true_2 by done. cbn [ensure res_bind].
  assert (El : (λ i, MkDay (Start i) (Minutes i)) <$> (on_sunday <$> l) = l).
  { rewrite <- list_fmap_compose. rewrite (list_fmap_ext _ id); [by rewrite list_fmap_id|]. intros _ [] _. done. }
  rewrite El. destruct (IH (<[d := l]> m)) as (m' & -> & Hm'); [done|done| |].
  - intros d' Hd'. destruct (Hin d' ltac:(by right)) as [? ?]. split; [done|]. rewrite lookup_insert_ne; [done|]. by intros ->.
  - exists m'. split; [done|]. intros d'. rewrite Hm'. destruct (decide (d' ∈ ds)) as [H1|H1].
    + rewrite decide_True; [done|by right].
    + destruct (decide (d' = d)) as [->|Hne].
      * rewrite decide_True by (by left). by rewrite lookup_insert_eq.
      * rewrite decide_False by (by intros [?|?]%elem_of_cons). by rewrite lookup_insert_ne.
Qed.

Lemma schedule_round_trip s :
  schedule_ok s → map_Forall (λ d _, valid_date d) (sch_overrides s) →
  ∃ l, fromAPIDays (as_Weekly (toAPISchedule s)) = Ok l ∧ NewWeeklyHours l = Ok (sch_weekly s) ∧
    fromAPIOverrides (Some (as_Overrides (toAPISchedule s))) = Ok (sch_overrides s).
Proof.
  intros (Hw & _ & Hov) Hd. destruct (week_round_trip _ Hw) as (l & Hl & Hnew). exists l. split_and!; [done|done|].
  unfold fromAPIOverrides, toAPISchedule. cbn [as_Overrides default from_option id]. set (ds := sort_by _ _).
  assert (Hds : ds ≡ₚ (map_to_list (sch_overrides s)).*1) by apply sort_by_perm.
  assert (Hin : ∀ d, d ∈ ds ↔ is_Some (sch_overrides s !! d)).
  { intros d. rewrite Hds, list_elem_of_fmap. split.
    - intros ([d' l'] & -> & H%elem_of_map_to_list). by exists l'.
    - intros [l' H]. exists (d, l'). split; [done|]. by apply elem_of_map_to_list. }
  destruct (overrides_round_trip (sch_overrides s) ds ∅) as (m' & -> & Hm').
  - intros d l' Hl'. by destruct (Hov _ _ Hl') as (_ & ? & _).
  - apply Forall_forall. intros d [l' Hl']%Hin. by apply (Hd d l').
  - rewrite Hds. apply NoDup_fst_map_to_list.
  - intros d Hd'%Hin. by rewrite lookup_empty.
  - f_equal. apply map_eq. intros d. rewrite Hm'. destruct (decide (d ∈ ds)) as [|Hn]; [done|]. rewrite lookup_empty.
    destruct (sch_overrides s !! d) eqn:E; [|done]. exfalso. apply Hn, Hin. by eexists.
Qed.

(** ** The round trips *)

(** A version as If-Match may carry it: bare, or as an ETag. *)
Definition version_header (v : string) (n : Z) : Prop := v = itoa n ∨ v = str1 (byte_chr 34) +:+ itoa n +:+ str1 (byte_chr 34).

Lemma if_match_version v n : version_header v n → 0 ≤ n ≤ max_int32 → if_match v = Ok n.
Proof.
  intros Hv Hn. destruct (ParseIfMatch_version n 0) as [E1 E2]; [lia|lia|unfold in_int64, min_int64, max_int64, max_int32 in *; lia|].
  unfold if_match. by destruct Hv as [-> | ->]; rewrite ?E1, ?E2.
Qed.

(** What GET answered of a branch's opening hours can be put back: a
    caller who may change them and sends the same days with the version read,
    bare or as an ETag, is answered 200 with the same days and the next
    version, and a GET from then on answers exactly that - midnight closes
    ("24:00"), nights past midnight and closed days included. *)
Theorem opening_hours_put_back {A : Access} ctx db now business branch body v :
  sched_reachable db →
  GetOpeningHours ctx db business branch = Answer 200 body → ao_Version body < max_int32 →
  (∀ p, PrincipalFrom ctx = Some p → acc_Branch (UserID_of p) (IDFromUUID business) (IDFromUUID branch) RoleManager = Ok tt) →
  version_header v (ao_Version body) →
  ∃ db', PutOpeningHours ctx db now business branch v (ao_Days body) =
           (Answer 200 (MkApiHours (ao_Days body) (updated (Truncate now Microsecond)) (ao_Version body + 1)), db') ∧
    GetOpeningHours ctx db' business branch =
      Answer 200 (MkApiHours (ao_Days body) (updated (Truncate now Microsecond)) (ao_Version body + 1)).
Proof.
  intros Hok%sched_reachable_ok Hget Hmax Hacc Hv. unfold GetOpeningHours, reply, caller in Hget |- *. unfold PutOpeningHours, caller.
  destruct (PrincipalFrom ctx) as [p|]; [|done]. cbn [res_bind] in Hget |- *. specialize (Hacc p eq_refl).
  set (b := IDFromUUID business) in *. set (br := IDFromUUID branch) in *.
  assert (HG : ∀ d, OpeningHours_handler d (branchRef (UserID_of p) business branch) =
    let! _ := acc_Branch (UserID_of p) b br RoleBarber in Calendars_Get d b br) by done.
  rewrite HG in Hget. setoid_rewrite HG. destruct (acc_Branch (UserID_of p) b br RoleBarber) as [[]|]; [|done]. cbn [res_bind] in Hget |- *.
  destruct (Calendars_Get_ok db b br Hok) as (cal & Ecal & _ & _ & Ever & _ & Hw). rewrite Ecal in Hget. cbn [uc res_map_err res_bind] in Hget.
  injection Hget as <-. cbn [toAPIOpeningHours ao_Days ao_Version] in *.
  pose proof (current_version_range db (b, br) Hok) as Hr. rewrite <- Ever in Hr.
  rewrite (if_match_version v (cal_version cal)) by (done || lia). cbn [res_bind].
  destruct (week_round_trip _ Hw) as (l & -> & Hnew). cbn [res_bind].
  assert (HS : SetOpeningHours_handler db now (branchRef (UserID_of p) business branch) (cal_version cal) l =
    Calendars_Update db b br (cal_version cal) (λ c, Ok (SetOpeningHours c (cal_hours cal) now))).
  { unfold SetOpeningHours_handler. cbn [branchRef br_Actor br_Business br_Branch]. fold b br. rewrite Hacc, Hnew. done. }
  rewrite HS. pose proof (set_hours_effect db b br (cal_version cal) (cal_hours cal) now Hok Hw) as He. cbv zeta in He.
  destruct (Calendars_Update _ _ _ _ _) as [[cal' db']|e] eqn:Eu; [|destruct He as [[_ ?]|(_ & _ & ?)]; [done|lia]].
  destruct (set_hours_keeps _ _ _ _ _ _ _ _ Hok Hw Eu) as [_ HG']. destruct He as (_ & _ & -> & _). rewrite <- Ever in *.
  exists db'. cbn [uc res_map_err res_bind reply_db fst snd]. split; [done|]. rewrite HG'. done.
Qed.

(** C32. And a barber's schedule: the week and every date override that GET
    answered, sent back with the version read, are saved as they were under
    the next version - the only dates the database can hold are real ones, and
    an override of closed hours stays one. *)
Theorem schedule_put_back {A : Access} ctx db now business branch staff body v visit order :
  sched_reachable db →
  GetBarberSchedule ctx db business branch staff = Answer 200 body → as_Version body < max_int32 →
  (∀ p, PrincipalFrom ctx = Some p → canWrite (staffRef (UserID_of p) business branch staff) = Ok tt) →
  version_header v (as_Version body) → (∀ m, visit m ≡ₚ map_to_list m) → (∀ s, order s ≡ₚ map_to_list (sch_overrides s)) →
  ∃ db', SetBarberSchedule ctx db now business branch staff v (MkScheduleUpdate (Some (as_Overrides body)) (as_Weekly body)) visit order =
           (Answer 200 (MkApiSchedule branch (as_Overrides body) staff (updated (Truncate now Microsecond)) (as_Version body + 1) (as_Weekly body)), db') ∧
    GetBarberSchedule ctx db' business branch staff =
      Answer 200 (MkApiSchedule branch (as_Overrides body) staff (updated (Truncate now Microsecond)) (as_Version body + 1) (as_Weekly body)).
Proof.
  intros Hreach Hget Hmax Hacc Hv Hvisit Horder. pose proof (sched_reachable_ok _ Hreach) as Hok. pose proof (reachable_dates _ Hreach) as Hd.
  unfold GetBarberSchedule, reply, caller in Hget |- *. unfold SetBarberSchedule, caller.
  destruct (PrincipalFrom ctx) as [p|]; [|done]. cbn [res_bind] in Hget |- *. specialize (Hacc p eq_refl).
  set (ref := staffRef (UserID_of p) business branch staff) in *.
  set (b := IDFromUUID business : BusinessID). set (br := IDFromUUID branch : BranchID). set (st := IDFromUUID staff : StaffID).
  assert (HG : ∀ d, Schedule_handler d ref = let! _ := canRead ref in Schedules_Get d b br st) by done.
  rewrite HG in Hget. setoid_rewrite HG. destruct (canRead ref) as [[]|]; [|done]. cbn [res_bind] in Hget |- *.
  destruct (Schedules_Get_ok db b br st Hok) as (s & Es & Hb & Hbr & Hst & _). rewrite Es in Hget. cbn [uc res_map_err res_bind] in Hget.
  injection Hget as <-. destruct (read_schedule_ok db b br st s Hok Hd Es) as (Hs & Hdates & Ever).
  destruct (schedule_round_trip s Hs Hdates) as (l & Hl & Hnew & Hov).
  pose proof (sched_version_range db (b, br, st) Hok) as Hr. rewrite <- Ever in Hr.
  change (as_Version (toAPISchedule s)) with (sch_version s) in *.
  rewrite (if_match_version v (sch_version s)) by (done || lia). cbn [res_bind bu_Weekly bu_Overrides]. rewrite Hl. cbn [res_bind].
  rewrite Hov. cbn [res_bind].
  destruct (save_same db b br st s now (visit (sch_overrides s)) order Hok Hd Es Hmax (Hvisit _) Horder) as (db' & Eu).
  assert (HS : SetSchedule_handler db now ref (sch_version s) l (sch_overrides s) (visit (sch_overrides s)) order =
    Schedules_Update db b br st (sch_version s) (λ x elsewhere, Set_schedule x (sch_weekly s) (sch_overrides s) (visit (sch_overrides s)) elsewhere now) order).
  { unfold SetSchedule_handler. by rewrite Hacc, Hnew. }
  rewrite HS, Eu. exists db'. cbn [uc res_map_err res_bind reply_db fst snd].
  destruct Hs as (Hw & _). destruct (set_schedule_keeps db b br st _ _ _ _ _ _ Hok Hw (Hvisit _) Horder _ _ Eu) as [_ Hread].
  rewrite (Hread Hdates). unfold toAPISchedule. cbn [uc res_map_err res_bind as_Overrides as_Weekly sch_branch sch_staff sch_overrides sch_weekly sch_version sch_updatedAt].
  by split.
Qed.

(** ** On a concrete shop: a branch open until midnight and a late night *)

Module PutDemo.
Definition manager : Ctx := MkCtx "R1" (Some (MkPrincipal (MkID 9) 5 "none")).
Definition saved : SchedDB := (@PutOpeningHours open_shop manager shop_db 0 1 2 "1"
  [MkDayHours "saturday" [MkRange "16:00" "24:00"]; MkDayHours "thursday" [MkRange "18:00" "03:00"]]).2.
Definition eid : BarberScheduleUpdate :=
  MkScheduleUpdate (Some [MkDateHours (midnightUTC (MkDate 2026 3 20)) []; MkDateHours (midnightUTC (MkDate 2026 3 19)) [MkRange "20:00" "24:00"]])
    [MkDayHours "thursday" [MkRange "18:00" "03:00"]].
Definition with_eid : SchedDB := (@SetBarberSchedule open_shop manager shop_db 0 1 2 3 "1" eid map_to_list in_order).2.

Lemma saved_reachable : sched_reachable saved.
Proof.
  assert (E : ∃ c, @SetOpeningHours_handler open_shop shop_db 0 shop 1 [MkWeekly 6 960 480; MkWeekly 4 1080 540] = Ok (c, saved)) by (vm_compute; eauto).
  destruct E as [c E]. eapply rtc_r; [exact shop_reachable|]. by eapply (step_hours _ _ open_shop).
Qed.

Definition eid_days : gmap Date (list DayInterval) := {[ MkDate 2026 3 20 := []; MkDate 2026 3 19 := [MkDay 1200 240] ]}.

Lemma with_eid_reachable : sched_reachable with_eid.
Proof.
  assert (E : ∃ s, @SetSchedule_handler open_shop shop_db 0 salem 1 [MkWeekly 4 1080 540] eid_days (map_to_list eid_days) in_order = Ok (s, with_eid)) by (vm_compute; eauto).
  destruct E as [s E]. eapply rtc_r; [exact shop_reachable|]. eapply (step_schedule _ _ open_shop); [| |exact E]; done.
Qed.
End PutDemo.

Lemma opening_hours_put_back_witness :
  ∃ body db', @GetOpeningHours open_shop PutDemo.manager PutDemo.saved 1 2 = Answer 200 body ∧ ao_Version body = 2 ∧
    (@PutOpeningHours open_shop PutDemo.manager PutDemo.saved 7 1 2 "2" (ao_Days body)).2 = db' ∧
    @GetOpeningHours open_shop PutDemo.manager db' 1 2 = Answer 200 (MkApiHours (ao_Days body) (updated 0) 3).
Proof.
  assert (E : ∃ body, @GetOpeningHours open_shop PutDemo.manager PutDemo.saved 1 2 = Answer 200 body ∧ ao_Version body = 2)
    by (eexists; split; vm_compute; reflexivity).
  destruct E as (body & E & Hv). exists body.
  destruct (@opening_hours_put_back open_shop PutDemo.manager PutDemo.saved 7 1 2 body "2" PutDemo.saved_reachable E) as (db' & Hput & Hget).
  - rewrite Hv. reflexivity.
  - intros p _. reflexivity.
  - left. rewrite Hv. reflexivity.
  - exists db'. rewrite Hput. split; [exact E|]. split; [exact Hv|]. split; [reflexivity|]. rewrite Hv in Hget. exact Hget.
Defined.

Lemma schedule_put_back_witness :
  ∃ body db', @GetBarberSchedule open_shop PutDemo.manager PutDemo.with_eid 1 2 3 = Answer 200 body ∧ length (as_Overrides body) = 2%nat ∧
    (@SetBarberSchedule open_shop PutDemo.manager PutDemo.with_eid 7 1 2 3 "2" (MkScheduleUpdate (Some (as_Overrides body)) (as_Weekly body))
       map_to_list in_order).2 = db' ∧
    @GetBarberSchedule open_shop PutDemo.manager db' 1 2 3 = Answer 200 (MkApiSchedule 2 (as_Overrides body) 3 (updated 0) 3 (as_Weekly body)).
Proof.
  assert (E : ∃ body, @GetBarberSchedule open_shop PutDemo.manager PutDemo.with_eid 1 2 3 = Answer 200 body ∧ as_Version body = 2 ∧ length (as_Overrides body) = 2%nat)
    by (eexists; split; [vm_compute; reflexivity|split; reflexivity]).
  destruct E as (body & E & Hv & Hlen). exists body.
  destruct (@schedule_put_back open_shop PutDemo.manager PutDemo.with_eid 7 1 2 3 body "2" map_to_list in_order PutDemo.with_eid_reachable E) as (db' & Hput & Hget).
  - rewrite Hv. reflexivity.
  - intros p _. reflexivity.
  - left. rewrite Hv. reflexivity.
  - done.
  - done.
  - exists db'. rewrite Hput. split; [exact E|]. split; [exact Hlen|]. split; [reflexivity|]. rewrite Hv in Hget. exact Hget.
Defined.
