(* ===== verification/BookHttp.v ===== *)
(** * Booking over HTTP (src/internal/booking/adapters/httpapi)

    The handlers of handlers.go, appointments.go and manage.go, from the
    decoded request to the status and body answered, and what a client that
    lost a reply may do. *)
From S2P Require Import Prelude GoTime GoText GoDate Shared Tables Spans BookSlots Appointment BookStore BookApp BookFlow Http.
Open Scope Z_scope.

(** ** The API's shapes (apigen) *)

Record AppointmentBarber := MkApiBarber { bb_DisplayName : string; bb_Id : UUID }.
Record AppointmentItem := MkApiItem { it_DurationMinutes : Z; it_Name : api_LocalizedText; it_Price : api_Money; it_ServiceId : UUID }.
Record api_Cancellation := MkApiCancellation { ac_At : time; ac_By : string; ac_Reason : string }.
Record api_Appointment := MkApiAppointment {
  aa_Assignment : string; aa_Barber : AppointmentBarber; aa_BranchId : UUID; aa_CancellableUntil : time; aa_Cancellation : option api_Cancellation;
  aa_CreatedAt : time; aa_CustomerId : option UUID; aa_CustomerName : option string; aa_EndsAt : time; aa_Id : UUID; aa_Items : list AppointmentItem;
  aa_Note : string; aa_PendingUntil : option time; aa_Price : api_Money; aa_Source : string; aa_StartsAt : time; aa_Status : string; aa_Version : Z }.

Record AppointmentRequest := MkAppointmentRequest {
  ar_BarberId : option UUID; ar_BranchId : UUID; ar_Note : option string; ar_ServiceIds : list UUID; ar_StartsAt : time }.
Record WalkInRequest := MkWalkInRequest {
  wr_BarberId : UUID; wr_CustomerName : string; wr_Note : option string; wr_ServiceIds : list UUID; wr_StartsAt : time }.
Record CancelRequest := MkCancelRequest { cr_Reason : option string }.

(** 201, with the header [Idempotent-Replayed]. *)
Record Booked := MkBooked { bk_Body : api_Appointment; bk_IdempotentReplayed : option bool }.

(** Dates of the API are midnight UTC. *)
Record GetAvailabilityParams := MkAvailabilityParams { ga_Date : time; ga_ServiceIds : list UUID; ga_BarberId : option UUID }.
Record BarberOffer := MkBarberOffer { bo_DisplayName : string; bo_DurationMinutes : Z; bo_Id : UUID; bo_Price : api_Money }.
Record api_Slot := MkApiSlot { sl_BarberIds : list UUID; sl_StartsAt : time }.
Record api_Availability := MkApiAvailability {
  va_Barbers : list BarberOffer; va_BranchId : UUID; va_Date : time; va_Slots : list api_Slot; va_TimeZone : string }.
Record api_BranchDay := MkApiDay { yd_Appointments : list api_Appointment; yd_BranchId : UUID; yd_Date : time; yd_TimeZone : string }.

(** ** Errors (handlers.go) *)

Inductive http_error := ErrNoPrincipal | errReasonNotAllowed | UseCase (e : book_error).

Definition action_done (a : Action) : string :=
  match a with
  | ActionConfirm => "confirmed" | ActionReject => "rejected" | ActionCancel => "cancelled" | ActionComplete => "completed"
  | ActionNoShow => "marked a no-show" | ActionExpire => ""
  end.

(** [transitionDetail], of a [TransitionError]. *)
Definition transitionDetail (action : Action) (status : Status) : string :=
  let now_is := if bool_decide (status = StatusNoShow) then "a no-show" else Status_text status in
  "the appointment is " +:+ now_is +:+ ", so it can't be " +:+ action_done action.

Definition problem_of (err : http_error) : option (Z * string * string) :=
  match err with
  | ErrNoPrincipal => Some unauthorized
  | errReasonNotAllowed => Some (422, "validation_failed", "reason: only with cancel")
  | UseCase e =>
      match e with
      | ErrSlotUnavailable => Some (409, "slot_unavailable", "that time was just taken or is no longer free; ask for availability again")
      | ErrTooManyBookings => Some (409, "booking_limit_reached", "you already hold the most upcoming bookings this branch allows")
      | ErrInvalidStart => Some (422, "invalid_start", "not a start time this branch offers (its grid, lead time and horizon)")
      | ErrIdempotencyReused => Some (422, "idempotency_key_reused", "this Idempotency-Key was used for a different booking")
      | ErrNoteTooLong => Some (422, "validation_failed", "note: at most 300 characters")
      | TransitionError action status => Some (409, "invalid_transition", transitionDetail action status)
      | ErrTooLateToCancel => Some (409, "cancellation_window_passed", "past the deadline to cancel this booking (cancellable_until)")
      | ErrNotStarted => Some (409, "appointment_not_started", "it can be completed or marked a no-show once it has started")
      | ErrReasonTooLong => Some (422, "validation_failed", "reason: at most 300 characters")
      | ErrBranchNotBookable => Some (409, "branch_not_bookable", "the branch takes no bookings until it is published and its business is active")
      | ErrNoCustomer => Some (422, "validation_failed", "customer_name: required")
      | ErrCustomerNameTooLong => Some (422, "validation_failed", "customer_name: at most 100 characters")
      | ErrForbidden => Some (403, "forbidden", "")
      | ErrNotFound => Some (404, "not_found", "")
      | ErrNoServices => Some (422, "validation_failed", "service_ids: 1 to 5 different services")
      | ErrServiceUnavailable => Some (422, "service_unavailable", "a chosen service isn't offered at this branch")
      | ErrBarberUnavailable => Some (422, "barber_unavailable", "this barber doesn't perform all the chosen services here")
      | ErrMoney _ | ErrStorage | ErrInternal | ErrPanic => None
      end
  end.

#[export] Instance book_problems : Problems http_error := {|
  problem ctx err := problem_for ctx (problem_of err) (match err with ErrNoPrincipal => challenge | _ => no_headers end);
  no_principal := ErrNoPrincipal |}.

Definition uc {A} (r : res book_error A) : res http_error A := res_map_err UseCase r.

(** ** Answers *)

Definition api_item (it : Item) : AppointmentItem :=
  MkApiItem (trunc_int (float_minutes (item_Duration it))) (APIText (item_Name it)) (toAPIMoney (item_Price it)) (value (item_Service it)).

Definition toAPIAppointment (v : AppointmentView) : api_Appointment :=
  let s := state (view_of v) in {|
    aa_Assignment := Assignment_text (ap_Assignment s);
    aa_Barber := MkApiBarber (BarberName v) (value (ap_Barber s));
    aa_BranchId := value (ap_Branch s);
    aa_CancellableUntil := ap_CancellableUntil s;
    aa_Cancellation := (λ c, MkApiCancellation (can_At c) (Canceller_text (can_By c)) (can_Reason c)) <$> ap_Cancellation s;
    aa_CreatedAt := ap_CreatedAt s;
    aa_CustomerId := if ID_IsZero (ap_Customer s) then None else Some (value (ap_Customer s));
    aa_CustomerName := if bool_decide (ap_CustomerName s = "") then None else Some (ap_CustomerName s);
    aa_EndsAt := ap_End s;
    aa_Id := value (ap_ID s);
    aa_Items := api_item <$> ap_Items s;
    aa_Note := ap_Note s;
    aa_PendingUntil := ap_PendingUntil s;
    aa_Price := toAPIMoney (ap_Price s);
    aa_Source := Source_text (ap_Source s);
    aa_StartsAt := ap_Start s;
    aa_Status := Status_text (ap_Status s);
    aa_Version := ap_Version s |}.

(** [actions]. *)
Definition action_of (name : string) : option Action :=
  snd <$> find (λ p, bool_decide (p.1 = name))
    [("confirm", ActionConfirm); ("reject", ActionReject); ("cancel", ActionCancel); ("complete", ActionComplete); ("no-show", ActionNoShow)].

Definition reasonOf (body : option CancelRequest) : string := default "" (body ≫= cr_Reason).

Definition book_command (p : Principal) (key : UUID) (body : AppointmentRequest) : BookAppointment :=
  MkBook (UserID_of p) key (IDFromUUID (ar_BranchId body)) (ar_StartsAt body) (IDFromUUID <$> ar_ServiceIds body) (IDFromUUID <$> ar_BarberId body)
    (default "" (ar_Note body)).

Definition walk_in_command (p : Principal) (business branch key : UUID) (body : WalkInRequest) : StaffBooking :=
  MkStaffBooking (UserID_of p) (IDFromUUID business) (IDFromUUID branch) key (wr_StartsAt body) (IDFromUUID <$> wr_ServiceIds body)
    (IDFromUUID (wr_BarberId body)) (wr_CustomerName body) (default "" (wr_Note body)).

Section Handlers.
Context `{UuidLib} `{P : Ports} (quote : string → string) (zone_name : Location → string) (ctx : Ctx).

(** After booking: the view of the appointment; a nil one would panic. *)
Definition booked_answer (r : res http_error (option Appointment * bool * BookDB)) (db : BookDB) : Response Booked * BookDB :=
  match r with
  | Err e => (refuse ctx e, db)
  | Ok (a, replayed, db') =>
      (reply ctx 201 (
         let! a := match a with Some a => Ok a | None => Err (UseCase ErrPanic) end in
         let! v := uc (view a) in
         Ok (MkBooked (toAPIAppointment v) (if replayed : bool then Some true else None))), db')
  end.

Definition PostAppointment (old seen db : BookDB) (now : time) (newID : nat → AppointmentID) (key : UUID) (body : AppointmentRequest)
  : Response Booked * BookDB :=
  booked_answer (
    let! p := caller ctx in
    uc (Book quote old seen db now newID WorkingWindows (book_command p key body))) db.

Definition BookWalkIn (old seen db : BookDB) (now : time) (newID : nat → AppointmentID) (business branch key : UUID) (body : WalkInRequest)
  : Response Booked * BookDB :=
  booked_answer (
    let! p := caller ctx in
    uc (StaffBook quote old seen db now newID WorkingWindows (walk_in_command p business branch key body))) db.

Definition GetMyAppointment (db : BookDB) (appointment : UUID) : Response api_Appointment :=
  reply ctx 200 (
    let! p := caller ctx in
    let! a := uc (Appointment_handler db (UserID_of p) (IDFromUUID appointment)) in
    let! v := uc (view a) in
    Ok (toAPIAppointment v)).

(** The change stays when naming the barber fails. *)
Definition changed_answer (r : res book_error AppointmentView * BookDB) : Response api_Appointment * BookDB :=
  (reply ctx 200 (let! v := uc r.1 in Ok (toAPIAppointment v)), r.2).

Definition CancelMyAppointment (db : BookDB) (now : time) (appointment : UUID) (body : option CancelRequest) : Response api_Appointment * BookDB :=
  match caller ctx with
  | Err e => (refuse ctx e, db)
  | Ok p => changed_answer (CancelMine db now (UserID_of p) (IDFromUUID appointment) (reasonOf body))
  end.

Definition ActOnAppointment (db : BookDB) (now : time) (business appointment : UUID) (action : string) (body : option CancelRequest)
  : Response api_Appointment * BookDB :=
  match (let! p := caller ctx in
         let! a := match action_of action with Some a => Ok a | None => Err (UseCase ErrNotFound) end in
         check! negb (present (body ≫= cr_Reason) && negb (bool_decide (a = ActionCancel))) else errReasonNotAllowed in
         Ok (p, a)) with
  | Err e => (refuse ctx e, db)
  | Ok (p, a) => changed_answer (Act db now (MkStaffAction (UserID_of p) (IDFromUUID business) (IDFromUUID appointment) a (reasonOf body)))
  end.

Definition ListBranchAppointments (db : BookDB) (business branch : UUID) (date : time) : Response api_BranchDay :=
  reply ctx 200 (
    let! p := caller ctx in
    let! d := uc (Day_handler db (MkDayQuery (UserID_of p) (IDFromUUID business) (IDFromUUID branch) (DayOf UTC date))) in
    Ok (MkApiDay (toAPIAppointment <$> bd_Appointments d) branch date (zone_name (bd_Location d)))).

Definition availability_query (branch : UUID) (params : GetAvailabilityParams) : AvailabilityQuery :=
  MkQuery (IDFromUUID branch) (DayOf UTC (ga_Date params)) (IDFromUUID <$> ga_ServiceIds params) (IDFromUUID <$> ga_BarberId params).

(** Public: no caller is asked for. [None] is [Slots] out of fuel. *)
Definition GetAvailability (db : BookDB) (now : time) (branch : UUID) (params : GetAvailabilityParams) : option (Response api_Availability) :=
  match Query db now (availability_query branch params) with
  | Err e => Some (refuse ctx (UseCase e))
  | Ok a => (λ slots, Answer 200 (MkApiAvailability
      ((λ o, MkBarberOffer (offer_Name o) (trunc_int (float_minutes (offer_Duration o))) (value (offer_ID o)) (toAPIMoney (offer_Price o))) <$> av_Offers a)
      (value (b_ID (av_Branch a))) (ga_Date params)
      ((λ s, MkApiSlot (value <$> slot_Staff s) (slot_Start s)) <$> slots) (zone_name (b_Location (av_Branch a))))) <$> av_Slots a
  end.
End Handlers.

(** ** A request and its key *)


Section Keys.
Context `{U : UuidLib} {P : Ports} {L : PortsLaws P} (quote : string → string).





End Keys.


(** ** An example: the reply is lost, the request is sent again *)

Definition me : Ctx := MkCtx "R1" (Some (MkPrincipal (MkID 50) 5 "none")).
Definition cut : AppointmentRequest := MkAppointmentRequest None 2 (Some "window seat") [7%N] (demo_at 1095).
Definition first_post : Response Booked * BookDB :=
  @PostAppointment decimal_ids demo_ports plain_quote me empty_book_db empty_book_db empty_book_db (demo_at 900) demo_id 900 cut.
Definition retried (db : BookDB) (body : AppointmentRequest) : Response Booked * BookDB :=
  @PostAppointment decimal_ids demo_ports plain_quote me db db db (demo_at 905) demo_id 900 body.

Example posted_twice :
  status_of first_post.1 = 201 ∧
  (match first_post.1, (retried first_post.2 cut).1 with
   | Answer 201 a, Answer 201 b => bk_Body a = bk_Body b ∧ bk_IdempotentReplayed a = None ∧ bk_IdempotentReplayed b = Some true
   | _, _ => False
   end) ∧ status_of (retried first_post.2 (MkAppointmentRequest (Some 3%N) 2 None [7%N] (demo_at 1095))).1 = 422.
Proof. vm_compute. split_and!; reflexivity. Qed.

