(* ===== verification/BizBase.v ===== *)
(** * The business module's values (src/internal/business/domain)

    Errors, Commercial Registration numbers, plan limits, roles and staff,
    booking policies, branch profiles and the events aggregates record: what
    the aggregates of Business, Branch and Invitation are made of. *)
From Stdlib Require Import SpecFloat.
From S2P Require Import Prelude GoTime GoText Shared.
Open Scope Z_scope.

(** ** Errors (errors.go) *)

(** [NotReadyError] matches [ErrBranchNotReady], [PolicyError]
    [ErrInvalidBookingPolicy], [InviteRateError] [ErrTooManyInvitations];
    [ErrLocalized], [ErrGeo] and [ErrPhone] wrap the shared kernel's errors;
    [ErrStorage] is any failure of the database or of stored data,
    [ErrUpstream] of another module, [ErrPanic] a run-time panic. *)
Inductive biz_error :=
| ErrNotFound | ErrForbidden | ErrInvalidCRNumber | ErrLegalNameRequired | ErrTextTooLong | ErrAlreadyRegistered
| ErrOwnerRequired | ErrUnknownRole | ErrUnknownStatus | ErrInvalidStateTransition | ErrVersionConflict
| ErrInvalidCityCode | ErrAddressRequired | ErrInvalidTimezone | NotReadyError (missing : list string) | ErrBusinessNotActive
| ErrUnknownDocumentKind | ErrDocumentLimitReached | ErrEmptyFile | ErrFileTooLarge | ErrUnsupportedFile
| ErrCRDocumentRequired | ErrBranchRequired | ErrRejectionReasonRequired | ErrCRNumberClaimed | ErrNotPlatformAdmin | ErrSelfReview
| ErrInvalidInviteRole | ErrStaffNameRequired | ErrStaffBranchRequired | ErrUnknownBranch | ErrInvitationInvalid | ErrAlreadyStaff
| ErrInvitationClosed | ErrBranchLimitReached | ErrStaffLimitReached | InviteRateError (retryAfter : Duration) | ErrTooManyRegistrations
| PolicyError (rule : string)
| ErrLocalized (e : localized_error) | ErrGeo (e : geo_error) | ErrPhone (e : phone_error)
| ErrStorage | ErrUpstream | ErrPanic.

(** [dbTime]: UTC, to the microsecond. *)
Definition dbTime (t : time) : time := Truncate t Microsecond.

(** ** Commercial Registration numbers (cr_number.go) *)

Record CRNumber := MkCR { digits : string }.

#[export] Instance CRNumber_eq_dec : EqDecision CRNumber.
Proof. solve_decision. Defined.

Fixpoint cr_digits (rs : list Z) : option string :=
  match rs with
  | [] => Some ""
  | r :: rs =>
      if (r =? 32) || (r =? 45) then cr_digits rs
      else match WesternDigit r with
      | None => None
      | Some d => s ← cr_digits rs; Some (str1 (byte_chr d) +:+ s)
      end
  end.

Definition NewCRNumber (s : string) : res biz_error CRNumber :=
  match cr_digits (runes s) with
  | None => Err ErrInvalidCRNumber
  | Some ds => if negb (len ds =? 10) then Err ErrInvalidCRNumber else Ok (MkCR ds)
  end.

(** ** Plan limits (limits.go) *)

Record Limits := MkLimits { MaxBranches : Z; MaxStaff : Z }.

Definition AllowBranch (l : Limits) (existing : Z) : res biz_error unit :=
  if MaxBranches l <=? existing then Err ErrBranchLimitReached else Ok tt.
Definition AllowStaff (l : Limits) (seats : Z) : res biz_error unit :=
  if MaxStaff l <=? seats then Err ErrStaffLimitReached else Ok tt.

(** ** Roles and staff (staff.go) *)

Inductive Role := RoleOwner | RoleManager | RoleBarber.

#[export] Instance Role_eq_dec : EqDecision Role.
Proof. solve_decision. Defined.

Definition Role_string (r : Role) : string :=
  match r with RoleOwner => "owner" | RoleManager => "manager" | RoleBarber => "barber" end.

Definition rank (r : Role) : Z := match r with RoleOwner => 3 | RoleManager => 2 | RoleBarber => 1 end.

Definition ParseRole (s : string) : res biz_error Role :=
  if bool_decide (s = "owner") then Ok RoleOwner
  else if bool_decide (s = "manager") then Ok RoleManager
  else if bool_decide (s = "barber") then Ok RoleBarber
  else Err ErrUnknownRole.

Record StaffMember := MkStaff {
  sm_id : StaffID;
  sm_business : BusinessID;
  sm_user : UserID;
  sm_role : Role;
  sm_active : bool;
  sm_createdAt : time;
  sm_displayName : string;
  sm_branches : list BranchID }.

#[export] Instance StaffMember_eq_dec : EqDecision StaffMember.
Proof. solve_decision. Defined.

Definition Authorize (m : StaffMember) (need : Role) : res biz_error unit :=
  if negb (sm_active m) || (rank (sm_role m) <? rank need) then Err ErrForbidden else Ok tt.

Definition WorksAt (m : StaffMember) (branch : BranchID) : bool :=
  bool_decide (sm_role m = RoleOwner) || bool_decide (branch ∈ sm_branches m).

Definition AuthorizeBranch (m : StaffMember) (need : Role) (branch : BranchID) : res biz_error unit :=
  let! _ := Authorize m need in
  if negb (WorksAt m branch) then Err ErrForbidden else Ok tt.

(** ** Booking policies (booking_policy.go) *)

Record PolicyRules := MkRules {
  MinLead : Duration;
  HorizonDays : Z;
  SlotInterval : Duration;
  Buffer : Duration;
  CancellationWindow : Duration;
  AutoConfirm : bool;
  PendingExpiry : Duration;
  MaxActiveBookings : Z }.

#[export] Instance PolicyRules_eq_dec : EqDecision PolicyRules.
Proof. solve_decision. Defined.

Record BookingPolicy := MkBookingPolicy { Rules : PolicyRules }.

#[export] Instance BookingPolicy_eq_dec : EqDecision BookingPolicy.
Proof. solve_decision. Defined.

Definition zeroPolicy : BookingPolicy := MkBookingPolicy (MkRules 0 0 0 0 0 false 0 0).

Definition slotIntervals : list Duration := [5 * Minute; 10 * Minute; 15 * Minute; 20 * Minute; 30 * Minute; Hour].

Definition wholeMinutes (d : Duration) : bool := Z.rem d Minute =? 0.

Definition policy_checks (r : PolicyRules) : list (bool * string) := [
  (wholeMinutes (MinLead r) && (0 <=? MinLead r) && (MinLead r <=? 7 * 24 * Hour),
   "minimum lead time must be 0 to 7 days, in whole minutes");
  ((1 <=? HorizonDays r) && (HorizonDays r <=? 180), "booking horizon must be 1 to 180 days");
  (bool_decide (SlotInterval r ∈ slotIntervals), "slot interval must be 5, 10, 15, 20, 30 or 60 minutes");
  (wholeMinutes (Buffer r) && (0 <=? Buffer r) && (Buffer r <=? Hour), "buffer must be 0 to 60 minutes, in whole minutes");
  (wholeMinutes (CancellationWindow r) && (0 <=? CancellationWindow r) && (CancellationWindow r <=? 48 * Hour),
   "cancellation window must be 0 to 48 hours, in whole minutes");
  (wholeMinutes (PendingExpiry r) && (5 * Minute <=? PendingExpiry r) && (PendingExpiry r <=? 2 * Hour),
   "pending expiry must be 5 to 120 minutes, in whole minutes");
  ((1 <=? MaxActiveBookings r) && (MaxActiveBookings r <=? 10), "active bookings per customer must be 1 to 10") ].

Fixpoint first_broken (checks : list (bool * string)) : option string :=
  match checks with
  | [] => None
  | (ok, rule) :: checks => if negb ok then Some rule else first_broken checks
  end.

Definition NewBookingPolicy (r : PolicyRules) : res biz_error BookingPolicy :=
  match first_broken (policy_checks r) with
  | Some rule => Err (PolicyError rule)
  | None => Ok (MkBookingPolicy r)
  end.

Definition DefaultBookingPolicy : BookingPolicy :=
  MkBookingPolicy (MkRules (30 * Minute) 30 (15 * Minute) 0 (2 * Hour) true (15 * Minute) 2).

(** ** Branch profiles (branch.go) *)

Definition ParseCityCode (s : string) : res biz_error string :=
  match ParseCity s with Err _ => Err ErrInvalidCityCode | Ok _ => Ok s end.

Definition MaxDisplayNameLen : Z := 100.
Definition MaxLegalNameLen : Z := 200.
Definition MaxDistrictLen : Z := 80.
Definition MaxAddressLen : Z := 200.
Definition DefaultTimezone : string := "Asia/Riyadh".

Record BranchProfile := MkProfile {
  p_Name : LocalizedText;
  p_City : string;
  p_District : string;
  p_Address : string;
  p_Location : GeoPoint;
  p_Phone : PhoneNumber;
  p_Timezone : string }.

(** [time.LoadLocation], which reads the system's zone files. *)
Class TzLib := { LoadLocation : string → option Location }.

(** [p == (GeoPoint{})]: Go compares floats by value, so -0 equals 0. *)
Definition Geo_IsZero (g : GeoPoint) : bool := SFeqb (lat g) (S754_zero false) && SFeqb (lng g) (S754_zero false).

Section Profiles.
Context `{TzLib}.

Definition checkTimezone (name : string) : res biz_error unit :=
  if bool_decide (name = "") || bool_decide (name = "Local") then Err ErrInvalidTimezone
  else match LoadLocation name with None => Err ErrInvalidTimezone | Some _ => Ok tt end.

Definition validate (p : BranchProfile) : res biz_error BranchProfile :=
  check! negb (bool_decide (ar (p_Name p) = "")) else ErrLocalized ErrArabicRequired in
  check! negb ((MaxDisplayNameLen <? RuneCountInString (ar (p_Name p))) || (MaxDisplayNameLen <? RuneCountInString (en (p_Name p))))
    else ErrTextTooLong in
  let! _ := ParseCityCode (p_City p) in
  let district := TrimSpace (p_District p) in
  let address := TrimSpace (p_Address p) in
  check! negb (bool_decide (address = "")) else ErrAddressRequired in
  check! negb ((MaxDistrictLen <? RuneCountInString district) || (MaxAddressLen <? RuneCountInString address)) else ErrTextTooLong in
  check! is_ok (NewGeoPoint (lat (p_Location p)) (lng (p_Location p))) && negb (Geo_IsZero (p_Location p)) else ErrGeo ErrInvalidCoordinates in
  let! _ := checkTimezone (p_Timezone p) in
  Ok (MkProfile (p_Name p) (p_City p) district address (p_Location p) (p_Phone p) (p_Timezone p)).
End Profiles.

(** ** Events (events.go) *)

Inductive BranchStatus := BranchDraft | BranchPublished | BranchUnpublished.

#[export] Instance BranchStatus_eq_dec : EqDecision BranchStatus.
Proof. solve_decision. Defined.

Definition BranchStatus_string (s : BranchStatus) : string :=
  match s with BranchDraft => "draft" | BranchPublished => "published" | BranchUnpublished => "unpublished" end.

Definition ParseBranchStatus (s : string) : res biz_error BranchStatus :=
  if bool_decide (s = "draft") then Ok BranchDraft
  else if bool_decide (s = "published") then Ok BranchPublished
  else if bool_decide (s = "unpublished") then Ok BranchUnpublished
  else Err ErrUnknownStatus.

Record BranchSnapshot := MkBranchSnapshot { bs_Version : Z; bs_Status : BranchStatus; bs_Profile : BranchProfile }.

Inductive BizEvent :=
| BusinessApproved (business : BusinessID) (owner : UserID) (at_ : time)
| BranchPublishedEvent (business : BusinessID) (branch : BranchID) (at_ : time) (snapshot : BranchSnapshot)
| BranchUnpublishedEvent (business : BusinessID) (branch : BranchID) (at_ : time) (snapshot : BranchSnapshot)
| BranchUpdatedEvent (business : BusinessID) (branch : BranchID) (at_ : time) (snapshot : BranchSnapshot).

(** ** Facts *)

Lemma dbTime_le t : dbTime t ≤ t.
Proof. apply Truncate_le. Qed.
Lemma dbTime_idem t : dbTime (dbTime t) = dbTime t.
Proof. apply Truncate_idem. Qed.

Lemma ParseRole_string r : ParseRole (Role_string r) = Ok r.
Proof. by destruct r. Qed.
Lemma ParseBranchStatus_string s : ParseBranchStatus (BranchStatus_string s) = Ok s.
Proof. by destruct s. Qed.

Lemma cr_digits_form rs ds : cr_digits rs = Some ds → digits_only ds.
Proof.
  revert ds. induction rs as [|r rs IH]; intros ds; simpl; [by intros [= <-]; constructor|].
  destruct (_ || _); [apply IH|]. destruct (WesternDigit r) as [w|] eqn:Hw; [|done]. intros (s & Hs & [= <-])%bind_Some.
  apply WesternDigit_range in Hw. apply (digits_only_app (str1 _) s). split; [|by apply IH].
  repeat constructor; rewrite byte_of_chr; lia.
Qed.

Lemma cr_digits_western s : digits_only s → cr_digits (bytes s) = Some s.
Proof.
  induction s as [|a s IH]; [done|]. intros Hs. inversion Hs as [|?? Ha Hs']; subst. cbn [bytes cr_digits].
  rewrite (proj2 (Z.eqb_neq _ _)), (proj2 (Z.eqb_neq _ _)) by (simpl in Ha; lia). cbn [orb].
  by rewrite WesternDigit_western, IH, byte_chr_of.
Qed.

(** A CR number as the constructor makes it. *)
Definition cr_ok (c : CRNumber) : Prop := digits_only (digits c) ∧ len (digits c) = 10.

Lemma NewCRNumber_form s c : NewCRNumber s = Ok c → cr_ok c.
Proof.
  unfold NewCRNumber. destruct (cr_digits _) as [ds|] eqn:E; [|done]. destruct (negb _) eqn:Hl; [done|].
  intros [= <-]. bool_prop. split; [by eapply cr_digits_form|done].
Qed.

Lemma NewCRNumber_stored c : cr_ok c → NewCRNumber (digits c) = Ok c.
Proof.
  intros [Hd Hl]. unfold NewCRNumber. rewrite runes_ascii by by apply digits_ascii.
  rewrite cr_digits_western by done. rewrite Hl. by destruct c.
Qed.

(** A policy every rule of which holds. *)
Definition whole_minutes_between (lo hi d : Z) : Prop := ∃ m, d = m * Minute ∧ lo ≤ m ≤ hi.

Record rules_ok (r : PolicyRules) : Prop := {
  ro_lead : whole_minutes_between 0 10080 (MinLead r);
  ro_horizon : 1 ≤ HorizonDays r ≤ 180;
  ro_slot : SlotInterval r ∈ slotIntervals;
  ro_buffer : whole_minutes_between 0 60 (Buffer r);
  ro_cancel : whole_minutes_between 0 2880 (CancellationWindow r);
  ro_expiry : whole_minutes_between 5 120 (PendingExpiry r);
  ro_active : 1 ≤ MaxActiveBookings r ≤ 10 }.

Lemma wholeMinutes_spec lo hi d :
  0 ≤ lo → wholeMinutes d && (lo * Minute <=? d) && (d <=? hi * Minute) = true ↔ whole_minutes_between lo hi d.
Proof.
  intros Hlo. unfold wholeMinutes, whole_minutes_between. rewrite !andb_true_iff, Z.eqb_eq, !Z.leb_le.
  assert (0 < Minute) by done. split.
  - intros [[Hr H1] H2]. exists (Z.quot d Minute). pose proof (Z.quot_rem' d Minute). rewrite Hr in *. nia.
  - intros (m & -> & ?). rewrite Z.rem_mul by lia. repeat split; nia.
Qed.

Lemma first_broken_none checks : first_broken checks = None ↔ Forall (λ c, c.1 = true) checks.
Proof.
  induction checks as [|[[] s] checks IH]; simpl.
  - split; [constructor|done].
  - rewrite IH, Forall_cons. by split; [|intros []].
  - rewrite Forall_cons. by split; [|intros []].
Qed.

Lemma NewBookingPolicy_ok r p : NewBookingPolicy r = Ok p ↔ p = MkBookingPolicy r ∧ rules_ok r.
Proof.
  assert (Hok : first_broken (policy_checks r) = None ↔ rules_ok r).
  { rewrite first_broken_none. unfold policy_checks. rewrite !Forall_cons. cbn [fst].
    pose proof (wholeMinutes_spec 0 10080 (MinLead r) ltac:(lia)) as E1.
    pose proof (wholeMinutes_spec 0 60 (Buffer r) ltac:(lia)) as E2.
    pose proof (wholeMinutes_spec 0 2880 (CancellationWindow r) ltac:(lia)) as E3.
    pose proof (wholeMinutes_spec 5 120 (PendingExpiry r) ltac:(lia)) as E4.
    change (0 * Minute) with 0 in *. change (10080 * Minute) with (7 * 24 * Hour) in *. change (60 * Minute) with Hour in *.
    change (2880 * Minute) with (48 * Hour) in *. change (120 * Minute) with (2 * Hour) in *.
    rewrite E1, E2, E3, E4, bool_decide_eq_true. rewrite !andb_true_iff, !Z.leb_le.
    split; [intros (?&?&?&?&?&?&?&_); by constructor|]. intros [? ? ? ? ? ? ?]. repeat (split; [done|]). constructor. }
  unfold NewBookingPolicy. destruct (first_broken _) as [s|] eqn:E.
  - split; [done|]. intros [_ H%Hok]. done.
  - split; [intros [= <-]; split; [done|by apply Hok]|by intros [-> _]].
Qed.

Lemma Default_policy_ok : rules_ok (Rules DefaultBookingPolicy).
Proof. by apply (NewBookingPolicy_ok _ DefaultBookingPolicy). Qed.

(** A branch profile as [validate] leaves it. *)
Record profile_ok `{TzLib} (p : BranchProfile) : Prop := {
  po_ar : ar (p_Name p) ≠ "";
  po_names : RuneCountInString (ar (p_Name p)) ≤ MaxDisplayNameLen ∧ RuneCountInString (en (p_Name p)) ≤ MaxDisplayNameLen;
  po_city : is_ok (ParseCity (p_City p)) = true;
  po_trimmed : TrimSpace (p_District p) = p_District p ∧ TrimSpace (p_Address p) = p_Address p;
  po_address : p_Address p ≠ "";
  po_lengths : RuneCountInString (p_District p) ≤ MaxDistrictLen ∧ RuneCountInString (p_Address p) ≤ MaxAddressLen;
  po_location : is_ok (NewGeoPoint (lat (p_Location p)) (lng (p_Location p))) = true ∧ Geo_IsZero (p_Location p) = false;
  po_timezone : p_Timezone p ≠ "" ∧ p_Timezone p ≠ "Local" ∧ is_Some (LoadLocation (p_Timezone p)) }.

Definition trimmed (p : BranchProfile) : BranchProfile :=
  MkProfile (p_Name p) (p_City p) (TrimSpace (p_District p)) (TrimSpace (p_Address p)) (p_Location p) (p_Phone p) (p_Timezone p).

Lemma ParseCityCode_ok c c' : ParseCityCode c = Ok c' ↔ c' = c ∧ is_ok (ParseCity c) = true.
Proof. unfold ParseCityCode. destruct (ParseCity c); naive_solver. Qed.

Lemma checkTimezone_ok `{TzLib} n u : checkTimezone n = Ok u ↔ n ≠ "" ∧ n ≠ "Local" ∧ is_Some (LoadLocation n).
Proof.
  unfold checkTimezone. repeat case_bool_decide; simpl; [naive_solver..|].
  destruct (LoadLocation n) eqn:E; split; intros; [naive_solver|by destruct u|done|destruct H2 as (_ & _ & [? ?]); done].
Qed.

Lemma validate_ok `{TzLib} p p' : validate p = Ok p' ↔ p' = trimmed p ∧ profile_ok (trimmed p).
Proof.
  unfold validate. split.
  - intros Hv. res_inv. repeat match goal with
    | H : ParseCityCode _ = Ok _ |- _ => apply ParseCityCode_ok in H as [-> ?]
    | H : checkTimezone _ = Ok _ |- _ => apply checkTimezone_ok in H as (? & ? & ?)
    end. bool_prop. split; [done|]. constructor; simpl; try done.
    + by rewrite !TrimSpace_idem.
  - intros [-> Hp]. destruct Hp as [Har [Hn1 Hn2] Hcity Htr Haddr [Hl1 Hl2] [Hg1 Hg2] Htz]. simpl in *.
    rewrite bool_decide_eq_false_2 by done. cbn [negb ensure res_bind].
    rewrite (proj2 (Z.ltb_ge _ _) Hn1), (proj2 (Z.ltb_ge _ _) Hn2). cbn [negb orb ensure res_bind].
    assert (ParseCityCode (p_City p) = Ok (p_City p)) as -> by by apply ParseCityCode_ok. cbn [res_bind].
    rewrite bool_decide_eq_false_2 by done. cbn [negb ensure res_bind].
    rewrite (proj2 (Z.ltb_ge _ _) Hl1), (proj2 (Z.ltb_ge _ _) Hl2). cbn [negb orb ensure res_bind].
    rewrite Hg1, Hg2. cbn [negb andb ensure res_bind].
    assert (checkTimezone (p_Timezone p) = Ok tt) as -> by by apply checkTimezone_ok. done.
Qed.

Lemma NewGeoPoint_same la ln g : NewGeoPoint la ln = Ok g → g = MkGeo la ln.
Proof. unfold NewGeoPoint. case_match; [done|]. by intros [= <-]. Qed.
