(* ===== verification/Business.v ===== *)
(** * The business aggregate (src/internal/business/domain/business.go, review.go, verification.go)

    Registering a business, renaming it, sending it for review and the
    platform's decision; which documents it may still take. A method that
    changes its receiver returns the changed value, or the error and nothing. *)
From S2P Require Import Prelude GoTime GoText Shared BizBase.
Open Scope Z_scope.

(** ** Status (business.go) *)

Inductive Status := StatusDraft | StatusPendingReview | StatusActive | StatusRejected | StatusSuspended.

#[export] Instance Status_eq_dec : EqDecision Status.
Proof. solve_decision. Defined.

Definition Status_string (s : Status) : string :=
  match s with
  | StatusDraft => "draft" | StatusPendingReview => "pending_review" | StatusActive => "active"
  | StatusRejected => "rejected" | StatusSuspended => "suspended"
  end.

Definition ParseStatus (s : string) : res biz_error Status :=
  if bool_decide (s = "draft") then Ok StatusDraft
  else if bool_decide (s = "pending_review") then Ok StatusPendingReview
  else if bool_decide (s = "active") then Ok StatusActive
  else if bool_decide (s = "rejected") then Ok StatusRejected
  else if bool_decide (s = "suspended") then Ok StatusSuspended
  else Err ErrUnknownStatus.

Definition MaxOpenRegistrations : Z := 3.
Definition MaxRejectionReasonLen : Z := 500.

(** ** The aggregate *)

Record Review := MkReview {
  SubmittedAt : option time;
  ReviewedAt : option time;
  ReviewedBy : UserID;
  RejectionReason : string }.

Definition no_review : Review := MkReview None None (MkID 0) "".

Record Business := MkBusiness {
  id : BusinessID;
  owner : UserID;
  displayName : LocalizedText;
  legalName : string;
  cr : CRNumber;
  status : Status;
  version : Z;
  createdAt : time;
  updatedAt : time;
  review : Review;
  events : list BizEvent }.

Record Registration := MkRegistration { reg_DisplayName : LocalizedText; reg_LegalName : string; reg_CRNumber : CRNumber }.

Definition validateNames (name : LocalizedText) (legal : string) : res biz_error string :=
  check! negb (bool_decide (ar name = "")) else ErrLocalized ErrArabicRequired in
  check! negb ((MaxDisplayNameLen <? RuneCountInString (ar name)) || (MaxDisplayNameLen <? RuneCountInString (en name))) else ErrTextTooLong in
  let legal := TrimSpace legal in
  check! negb (bool_decide (legal = "")) else ErrLegalNameRequired in
  check! negb (MaxLegalNameLen <? RuneCountInString legal) else ErrTextTooLong in
  Ok legal.

Definition RegisterBusiness (bid : BusinessID) (ownerStaff : StaffID) (user : UserID) (r : Registration) (now : time)
    : res biz_error (Business * StaffMember) :=
  check! negb (ID_IsZero user) else ErrOwnerRequired in
  check! negb (bool_decide (reg_CRNumber r = MkCR "")) else ErrInvalidCRNumber in
  let! legal := validateNames (reg_DisplayName r) (reg_LegalName r) in
  let now := dbTime now in
  Ok (MkBusiness bid user (reg_DisplayName r) legal (reg_CRNumber r) StatusDraft 1 now now no_review [],
      MkStaff ownerStaff bid user RoleOwner true now "" []).

Definition RehydrateBusiness (bid : BusinessID) (user : UserID) (name : LocalizedText) (legal : string) (c : CRNumber) (st : Status)
    (v : Z) (created updated : time) (r : Review) : Business :=
  MkBusiness bid user name legal c st v created updated r [].

(** [b.version++; b.updatedAt = at] with the fields a method sets. *)
Definition touch (b : Business) (name : LocalizedText) (legal : string) (st : Status) (r : Review) (evs : list BizEvent) (at_ : time) : Business :=
  MkBusiness (id b) (owner b) name legal (cr b) st (int64 (version b + 1)) (createdAt b) at_ r (events b ++ evs).

Definition editable (s : Status) : bool := bool_decide (s = StatusDraft) || bool_decide (s = StatusRejected).

Definition Rename (b : Business) (name : LocalizedText) (legal : string) (now : time) : res biz_error Business :=
  check! editable (status b) else ErrInvalidStateTransition in
  let! legal := validateNames name legal in
  Ok (touch b name legal (status b) (review b) [] (dbTime now)).

(** ** Review (review.go) *)

Record Readiness := MkReadiness { Documents : Z; Branches : Z }.

Definition Submit (b : Business) (r : Readiness) (now : time) : res biz_error Business :=
  check! editable (status b) else ErrInvalidStateTransition in
  check! negb (Documents r <? 1) else ErrCRDocumentRequired in
  check! negb (Branches r <? 1) else ErrBranchRequired in
  let at_ := dbTime now in
  let v := review b in
  Ok (touch b (displayName b) (legalName b) StatusPendingReview (MkReview (Some at_) (ReviewedAt v) (ReviewedBy v) (RejectionReason v)) [] at_).

Definition canReview (b : Business) (reviewer : UserID) : res biz_error unit :=
  if bool_decide (reviewer = owner b) then Err ErrSelfReview
  else if negb (bool_decide (status b = StatusPendingReview)) then Err ErrInvalidStateTransition
  else Ok tt.

Definition Approve (b : Business) (reviewer : UserID) (now : time) : res biz_error Business :=
  let! _ := canReview b reviewer in
  let at_ := dbTime now in
  Ok (touch b (displayName b) (legalName b) StatusActive (MkReview (SubmittedAt (review b)) (Some at_) reviewer "")
        [BusinessApproved (id b) (owner b) at_] at_).

Definition Reject (b : Business) (reviewer : UserID) (reason : string) (now : time) : res biz_error Business :=
  let! _ := canReview b reviewer in
  let reason := TrimSpace reason in
  check! negb (bool_decide (reason = "")) else ErrRejectionReasonRequired in
  check! negb (MaxRejectionReasonLen <? RuneCountInString reason) else ErrTextTooLong in
  let at_ := dbTime now in
  Ok (touch b (displayName b) (legalName b) StatusRejected (MkReview (SubmittedAt (review b)) (Some at_) reviewer reason) [] at_).

(** ** Verification documents (verification.go) *)

Inductive DocumentKind := DocumentCRCertificate.

Definition DocumentKind_string (k : DocumentKind) : string := match k with DocumentCRCertificate => "cr_certificate" end.

Definition ParseDocumentKind (s : string) : res biz_error DocumentKind :=
  if negb (bool_decide (s = "cr_certificate")) then Err ErrUnknownDocumentKind else Ok DocumentCRCertificate.

Definition MaxVerificationDocuments : Z := 5.

Record VerificationDocument := MkDoc {
  doc_file : MediaID;
  doc_business : BusinessID;
  doc_kind : DocumentKind;
  doc_contentType : string;
  doc_size : Z;
  doc_uploadedBy : UserID;
  doc_uploadedAt : time }.

Definition NewVerificationDocument (file : MediaID) (business : BusinessID) (kind : DocumentKind) (contentType : string) (size : Z)
    (by_ : UserID) (at_ : time) : VerificationDocument :=
  MkDoc file business kind contentType size by_ (dbTime at_).

Definition CanAttachDocument (b : Business) (existing : Z) : res biz_error unit :=
  check! editable (status b) else ErrInvalidStateTransition in
  if MaxVerificationDocuments <=? existing then Err ErrDocumentLimitReached else Ok tt.

(** ** Facts *)

Lemma ParseStatus_string s : ParseStatus (Status_string s) = Ok s.
Proof. by destruct s. Qed.

Lemma editable_spec s : editable s = true ↔ s = StatusDraft ∨ s = StatusRejected.
Proof. unfold editable. by rewrite orb_true_iff, !bool_decide_eq_true. Qed.

(** Names the way [validateNames] accepts them: an Arabic display name, both
    within their limits, and a legal name that is trimmed, present and short. *)
Record names_ok (name : LocalizedText) (legal : string) : Prop := {
  no_ar : ar name ≠ "";
  no_len : RuneCountInString (ar name) ≤ MaxDisplayNameLen ∧ RuneCountInString (en name) ≤ MaxDisplayNameLen;
  no_legal : legal ≠ "" ∧ TrimSpace legal = legal ∧ RuneCountInString legal ≤ MaxLegalNameLen }.

Lemma validateNames_ok name legal l : validateNames name legal = Ok l ↔ l = TrimSpace legal ∧ names_ok name l.
Proof.
  unfold validateNames. split.
  - intros H. res_inv. bool_prop. split; [done|]. constructor; [done|by split|by rewrite TrimSpace_idem].
  - intros [-> [H1 [H2 H3] (H4 & _ & H6)]]. rewrite bool_decide_eq_false_2 by done. cbn [negb ensure res_bind].
    rewrite (proj2 (Z.ltb_ge _ _) H2), (proj2 (Z.ltb_ge _ _) H3). cbn [negb orb ensure res_bind].
    rewrite bool_decide_eq_false_2 by done. cbn [negb ensure res_bind]. by rewrite (proj2 (Z.ltb_ge _ _) H6).
Qed.

(** What every business the module keeps satisfies. *)
Record biz_ok (b : Business) : Prop := {
  bo_owner : ID_IsZero (owner b) = false;
  bo_names : names_ok (displayName b) (legalName b);
  bo_name : NewLocalizedText (ar (displayName b)) (en (displayName b)) = Ok (displayName b);
  bo_cr : cr_ok (cr b);
  bo_submitted : status b ≠ StatusDraft → SubmittedAt (review b) ≠ None;
  bo_stamp t : SubmittedAt (review b) = Some t → dbTime t = t;
  bo_reviewed : ReviewedAt (review b) = None ↔ ID_IsZero (ReviewedBy (review b)) = true;
  bo_reason : RuneCountInString (RejectionReason (review b)) ≤ MaxRejectionReasonLen;
  bo_independent : ReviewedBy (review b) ≠ owner b;
  bo_approved : status b = StatusActive → ReviewedAt (review b) ≠ None ∧ RejectionReason (review b) = "";
  bo_rejected : status b = StatusRejected → ReviewedAt (review b) ≠ None ∧ RejectionReason (review b) ≠ "";
  bo_never_suspended : status b ≠ StatusSuspended }.

(** ** The operations on a registered business *)

Inductive Op :=
| OpRename (name : LocalizedText) (legal : string)
| OpSubmit (r : Readiness)
| OpApprove (reviewer : UserID)
| OpReject (reviewer : UserID) (reason : string).

Definition apply_op (op : Op) (b : Business) (now : time) : res biz_error Business :=
  match op with
  | OpRename name legal => Rename b name legal now
  | OpSubmit r => Submit b r now
  | OpApprove reviewer => Approve b reviewer now
  | OpReject reviewer reason => Reject b reviewer reason now
  end.

(** The life of a business, as business.go draws it, up to suspension. *)
Inductive life : Status → Op → Status → Prop :=
| life_rename_draft name legal : life StatusDraft (OpRename name legal) StatusDraft
| life_rename_rejected name legal : life StatusRejected (OpRename name legal) StatusRejected
| life_submit r : life StatusDraft (OpSubmit r) StatusPendingReview
| life_resubmit r : life StatusRejected (OpSubmit r) StatusPendingReview
| life_approve u : life StatusPendingReview (OpApprove u) StatusActive
| life_reject u why : life StatusPendingReview (OpReject u why) StatusRejected.

(** What else an operation asks for. *)
Definition asks (op : Op) (b : Business) : Prop :=
  match op with
  | OpRename name legal => names_ok name (TrimSpace legal)
  | OpSubmit r => 1 ≤ Documents r ∧ 1 ≤ Branches r
  | OpApprove u => u ≠ owner b
  | OpReject u why => u ≠ owner b ∧ TrimSpace why ≠ "" ∧ RuneCountInString (TrimSpace why) ≤ MaxRejectionReasonLen
  end.

Definition reviewer_known (op : Op) : Prop :=
  match op with OpApprove u | OpReject u _ => ID_IsZero u = false | OpRename name _ => NewLocalizedText (ar name) (en name) = Ok name | OpSubmit _ => True end.

Lemma canReview_ok b u x : canReview b u = Ok x ↔ u ≠ owner b ∧ status b = StatusPendingReview.
Proof.
  unfold canReview. repeat case_bool_decide; cbn [negb]; split; intros Hx; try done; try naive_solver. by destruct x.
Qed.

Lemma touch_version b name legal st r evs at_ : version (touch b name legal st r evs at_) = int64 (version b + 1).
Proof. done. Qed.

(** Takes apart a successful operation. *)
Ltac op_inv :=
  res_inv;
  repeat match goal with
  | H : canReview _ _ = Ok _ |- _ => apply canReview_ok in H as [? ?]
  | H : validateNames _ _ = Ok _ |- _ => apply validateNames_ok in H as [-> ?]
  end; bool_prop;
  repeat match goal with H : editable _ = true |- _ => apply editable_spec in H end.

(** The step of [life] the statuses at hand allow. *)
Ltac by_status :=
  repeat match goal with
  | H : _ ∨ _ |- _ => destruct H
  | H : status _ = _ |- _ => rewrite H
  end; constructor.

Lemma op_ok op b now b' :
  apply_op op b now = Ok b' →
  life (status b) op (status b') ∧ asks op b ∧ version b' = int64 (version b + 1) ∧ updatedAt b' = dbTime now
  ∧ id b' = id b ∧ owner b' = owner b ∧ cr b' = cr b ∧ createdAt b' = createdAt b
  ∧ events b' = events b ++ (match op with OpApprove _ => [BusinessApproved (id b) (owner b) (dbTime now)] | _ => [] end).
Proof.
  intros H. destruct op; simpl in H.
  - unfold Rename in H. op_inv. simpl. rewrite app_nil_r. split_and!; try done. by_status.
  - unfold Submit in H. op_inv. simpl. rewrite app_nil_r. split_and!; try done. by_status.
  - unfold Approve in H. op_inv. simpl. split_and!; try done. by_status.
  - unfold Reject in H. op_inv. simpl. rewrite app_nil_r. split_and!; try done. by_status.
Qed.

Lemma op_total op b now st : life (status b) op st → asks op b → ∃ b', apply_op op b now = Ok b'.
Proof.
  intros Hl Ha. destruct op; simpl in *.
  - unfold Rename. assert (editable (status b) = true) as -> by (inversion Hl; by apply editable_spec; auto).
    cbn [ensure res_bind]. assert (validateNames name legal = Ok (TrimSpace legal)) as -> by by apply validateNames_ok.
    eexists; done.
  - unfold Submit. assert (editable (status b) = true) as -> by (inversion Hl; by apply editable_spec; auto).
    cbn [ensure res_bind]. destruct Ha as [H1 H2].
    rewrite (proj2 (Z.ltb_ge _ _) H1), (proj2 (Z.ltb_ge _ _) H2). eexists; done.
  - unfold Approve. assert (canReview b reviewer = Ok tt) as -> by (apply canReview_ok; by inversion Hl). eexists; done.
  - unfold Reject. destruct Ha as (H1 & H2 & H3).
    assert (canReview b reviewer = Ok tt) as -> by (apply canReview_ok; by inversion Hl). cbn [res_bind].
    rewrite bool_decide_eq_false_2 by done. cbn [negb ensure res_bind]. rewrite (proj2 (Z.ltb_ge _ _) H3). eexists; done.
Qed.

(** [biz_ok] for a changed business: what did not change is assumed already. *)
Ltac keeps_ok := constructor; simpl in *; try assumption; try congruence.

Lemma op_keeps op b now b' : reviewer_known op → biz_ok b → apply_op op b now = Ok b' → biz_ok b'.
Proof.
  intros Hr [? ? ? ? Hs Hst Hrev ? ? ? ? ?] H. destruct op; simpl in H, Hr.
  - unfold Rename in H. op_inv. keeps_ok.
  - unfold Submit in H. op_inv. keeps_ok. intros t [= <-]. apply dbTime_idem.
  - unfold Approve in H. op_inv. keeps_ok.
    + intros _. apply Hs. congruence.
    + split; congruence.
    + unfold RuneCountInString, MaxRejectionReasonLen. simpl. lia.
    + by split.
  - unfold Reject in H. op_inv. keeps_ok.
    + intros _. apply Hs. congruence.
    + split; congruence.
    + by split.
Qed.

Lemma Register_ok bid st user r now b m :
  RegisterBusiness bid st user r now = Ok (b, m) →
  NewLocalizedText (ar (reg_DisplayName r)) (en (reg_DisplayName r)) = Ok (reg_DisplayName r) → cr_ok (reg_CRNumber r) →
  biz_ok b ∧ b = MkBusiness bid user (reg_DisplayName r) (TrimSpace (reg_LegalName r)) (reg_CRNumber r) StatusDraft 1 (dbTime now) (dbTime now) no_review []
  ∧ m = MkStaff st bid user RoleOwner true (dbTime now) "" [].
Proof.
  intros H Hn Hc. unfold RegisterBusiness in H. op_inv. split; [|done]. keeps_ok.
  - done.
  - unfold RuneCountInString, MaxRejectionReasonLen. simpl. lia.
  - intros Hz. rewrite <- Hz in H. discriminate.
Qed.

(** What can happen to a registered business is exactly its life: an
    operation succeeds if and only if the life allows it from the current
    status and what it asks for holds - both names valid, a document and a
    branch before review, a reviewer who is not the owner, a reason to
    reject. A success moves along that arrow, bumps the version, stamps the
    time, records an event only for an approval, keeps the identity, the owner
    and the CR number, and leaves a well-formed business well formed. *)
Theorem business_life_step op b now :
  (is_ok (apply_op op b now) = true ↔ (∃ st, life (status b) op st) ∧ asks op b) ∧
  ∀ b', apply_op op b now = Ok b' →
    life (status b) op (status b') ∧ version b' = int64 (version b + 1) ∧ updatedAt b' = dbTime now ∧
    id b' = id b ∧ owner b' = owner b ∧ cr b' = cr b ∧ createdAt b' = createdAt b ∧
    events b' = events b ++ (match op with OpApprove _ => [BusinessApproved (id b) (owner b) (dbTime now)] | _ => [] end) ∧
    (reviewer_known op → biz_ok b → biz_ok b').
Proof.
  split.
  - split.
    + destruct (apply_op op b now) as [b'|e] eqn:E; [|done]. intros _. apply op_ok in E as (Hl & Ha & _). by split; [eexists|].
    + intros [[st Hl] Ha]. by destruct (op_total op b now st Hl Ha) as [b' ->].
  - intros b' Hop. pose proof (op_ok op b now b' Hop) as (Hl & _ & Hv & Hu & Hi & Ho & Hc & Hcr & He). repeat (split; [done|]). intros Hr Hb. by eapply op_keeps.
Qed.
