(* ===== verification/Branch.v ===== *)
(** * The branch aggregate (src/internal/business/domain/branch.go)

    A shop of a business: creating it, editing it, showing it to customers
    and hiding it again. *)
From S2P Require Import Prelude GoTime GoText Shared BizBase Business.
Open Scope Z_scope.

Record Branch := MkBranch {
  br_id : BranchID;
  br_business : BusinessID;
  br_profile : BranchProfile;
  br_policy : BookingPolicy;
  br_status : BranchStatus;
  br_version : Z;
  br_createdAt : time;
  br_updatedAt : time;
  br_events : list BizEvent }.

(** [b.touch(now)] and the fields set with it; the version wraps as [int] does. *)
Definition touch_branch (b : Branch) (p : BranchProfile) (policy : BookingPolicy) (st : BranchStatus) (now : time) : Branch :=
  MkBranch (br_id b) (br_business b) p policy st (int64 (br_version b + 1)) (br_createdAt b) (dbTime now) (br_events b).

Definition snapshot (b : Branch) : BranchSnapshot := MkBranchSnapshot (br_version b) (br_status b) (br_profile b).

Definition record_event (b : Branch) (e : BizEvent) : Branch :=
  MkBranch (br_id b) (br_business b) (br_profile b) (br_policy b) (br_status b) (br_version b) (br_createdAt b) (br_updatedAt b)
    (br_events b ++ [e]).

Section Branches.
Context `{TzLib}.

Definition NewBranch (bid : BranchID) (business : BusinessID) (p : BranchProfile) (policy : BookingPolicy) (now : time) : res biz_error Branch :=
  let! p := validate p in
  let policy := if bool_decide (policy = zeroPolicy) then DefaultBookingPolicy else policy in
  let now := dbTime now in
  Ok (MkBranch bid business p policy BranchDraft 1 now now []).

Definition Edit (b : Branch) (p : BranchProfile) (policy : BookingPolicy) (now : time) : res biz_error Branch :=
  let! p := validate p in
  check! negb (bool_decide (policy = zeroPolicy)) else PolicyError "a booking policy is required" in
  let b := touch_branch b p policy (br_status b) now in
  Ok (record_event b (BranchUpdatedEvent (br_business b) (br_id b) (br_updatedAt b) (snapshot b))).
End Branches.

Record BranchReadiness := MkBranchReadiness { OpeningHours : bool; OfferedService : bool; BookableBarber : bool }.

Definition missing_parts (r : BranchReadiness) : list string :=
  (if negb (OpeningHours r) then ["set the branch's opening hours"] else []) ++
  (if negb (OfferedService r) then ["add a service and choose who performs it"]
   else if negb (BookableBarber r) then ["give a barber who performs a service a weekly schedule"] else []).

Definition Publish (b : Branch) (business : Status) (r : BranchReadiness) (now : time) : res biz_error Branch :=
  check! bool_decide (business = StatusActive) else ErrBusinessNotActive in
  check! negb (bool_decide (br_status b = BranchPublished)) else ErrInvalidStateTransition in
  let missing := missing_parts r in
  check! (length missing =? 0)%nat else NotReadyError missing in
  let b := touch_branch b (br_profile b) (br_policy b) BranchPublished now in
  Ok (record_event b (BranchPublishedEvent (br_business b) (br_id b) (br_updatedAt b) (snapshot b))).

Definition Unpublish (b : Branch) (now : time) : res biz_error Branch :=
  check! bool_decide (br_status b = BranchPublished) else ErrInvalidStateTransition in
  let b := touch_branch b (br_profile b) (br_policy b) BranchUnpublished now in
  Ok (record_event b (BranchUnpublishedEvent (br_business b) (br_id b) (br_updatedAt b) (snapshot b))).

Definition RehydrateBranch (bid : BranchID) (business : BusinessID) (p : BranchProfile) (policy : BookingPolicy) (st : BranchStatus)
    (v : Z) (created updated : time) : Branch :=
  MkBranch bid business p policy st v created updated [].

(** ** Facts *)

(** What every branch the module keeps satisfies. *)
Record branch_ok `{TzLib} (b : Branch) : Prop := {
  bk_profile : profile_ok (br_profile b);
  bk_name : NewLocalizedText (ar (p_Name (br_profile b))) (en (p_Name (br_profile b))) = Ok (p_Name (br_profile b));
  bk_phone : Phone_IsZero (p_Phone (br_profile b)) = true ∨ NewPhoneNumber (e164 (p_Phone (br_profile b))) = Ok (p_Phone (br_profile b));
  bk_policy : rules_ok (Rules (br_policy b)) }.

Lemma zeroPolicy_not_ok : ¬ rules_ok (Rules zeroPolicy).
Proof. intros [_ H _ _ _ _ _]. simpl in H. lia. Qed.

Lemma ready_parts r : missing_parts r = [] ↔ OpeningHours r = true ∧ OfferedService r = true ∧ BookableBarber r = true.
Proof. destruct r as [[] [] []]; unfold missing_parts; simpl; naive_solver. Qed.

Lemma Publish_ok b s r now b' :
  Publish b s r now = Ok b' ↔
  (s = StatusActive ∧ br_status b ≠ BranchPublished ∧ OpeningHours r = true ∧ OfferedService r = true ∧ BookableBarber r = true) ∧
  b' = (let c := touch_branch b (br_profile b) (br_policy b) BranchPublished now in
        record_event c (BranchPublishedEvent (br_business c) (br_id c) (br_updatedAt c) (snapshot c))).
Proof.
  unfold Publish. split.
  - intros H. res_inv. bool_prop. apply Nat.eqb_eq, nil_length_inv, ready_parts in H1. by split.
  - intros [(-> & Hs & Hr) ->]. rewrite bool_decide_eq_true_2 by done. cbn [ensure res_bind].
    rewrite bool_decide_eq_false_2 by done. cbn [negb ensure res_bind]. apply ready_parts in Hr. by rewrite Hr.
Qed.

Lemma Unpublish_ok b now b' :
  Unpublish b now = Ok b' ↔
  br_status b = BranchPublished ∧
  b' = (let c := touch_branch b (br_profile b) (br_policy b) BranchUnpublished now in
        record_event c (BranchUnpublishedEvent (br_business c) (br_id c) (br_updatedAt c) (snapshot c))).
Proof.
  unfold Unpublish. split.
  - intros H. res_inv. by bool_prop.
  - intros [Hs ->]. by rewrite bool_decide_eq_true_2.
Qed.

Lemma Edit_ok `{TzLib} b p policy now b' :
  Edit b p policy now = Ok b' →
  profile_ok (trimmed p) ∧ policy ≠ zeroPolicy ∧
  b' = (let c := touch_branch b (trimmed p) policy (br_status b) now in
        record_event c (BranchUpdatedEvent (br_business c) (br_id c) (br_updatedAt c) (snapshot c))).
Proof.
  unfold Edit. intros H'. apply res_bind_ok in H' as (p' & Hp & H'). apply validate_ok in Hp as [-> Hp]. res_inv. by bool_prop.
Qed.

Lemma NewBranch_ok `{TzLib} bid business p policy now b' :
  NewBranch bid business p policy now = Ok b' →
  profile_ok (trimmed p) ∧
  b' = MkBranch bid business (trimmed p) (if bool_decide (policy = zeroPolicy) then DefaultBookingPolicy else policy) BranchDraft 1 (dbTime now) (dbTime now) [].
Proof. unfold NewBranch. intros H'. apply res_bind_ok in H' as (p' & Hp & H'). apply validate_ok in Hp as [-> Hp]. by res_inv. Qed.

(** A published or hidden branch keeps its profile and policy, so what was
    well formed stays so. *)
Lemma branch_ok_same `{TzLib} b b' : br_profile b' = br_profile b → br_policy b' = br_policy b → branch_ok b → branch_ok b'.
Proof. intros Hp Hq [? ? ? ?]. by constructor; rewrite ?Hp, ?Hq. Qed.
