(* ===== verification/Invitation.v ===== *)
(** * Staff invitations (src/internal/business/domain/invitation.go)

    Asking a person, by phone, to join a business; accepting and revoking the
    invitation; and how many may be sent. *)
From S2P Require Import Prelude GoTime GoText Shared BizBase.
Open Scope Z_scope.

Inductive InvitationTag : Type := .
Abbreviation InvitationID := (ID InvitationTag).

Definition InvitationTTL : Duration := 7 * 24 * Hour.
Definition MaxStaffNameLen : Z := 80.
Definition MaxStaffBranches : nat := 50.

Inductive InvitationStatus := InvitationPending | InvitationAccepted | InvitationRevoked.

#[export] Instance InvitationStatus_eq_dec : EqDecision InvitationStatus.
Proof. solve_decision. Defined.

Record Invitation := MkInvitation {
  inv_id : InvitationID;
  inv_business : BusinessID;
  inv_phone : PhoneNumber;
  inv_name : string;
  inv_role : Role;
  inv_branches : list BranchID;
  inv_tokenHash : string;
  inv_status : InvitationStatus;
  inv_invitedBy : UserID;
  inv_createdAt : time;
  inv_expiresAt : time;
  inv_acceptedAt : option time;
  inv_acceptedBy : UserID }.

Record StaffInvite := MkInvite { si_Phone : PhoneNumber; si_Name : string; si_Role : Role; si_Branches : list BranchID }.

(** [slices.Compact]: runs of equal elements become one. *)
Fixpoint Compact {A} `{EqDecision A} (l : list A) : list A :=
  match l with
  | x :: (y :: _) as l' => if bool_decide (x = y) then Compact l' else x :: Compact l'
  | _ => l
  end.

Section Texts.
Context `{UuidLib}.

(** [strings.Compare] of the IDs' texts, as "not after". *)
Definition by_text (a b : BranchID) : bool := String.leb (ID_String a) (ID_String b).

Definition NewInvitation (iid : InvitationID) (business : BusinessID) (i : StaffInvite) (tokenHash : string) (by_ : UserID) (now : time)
    : res biz_error Invitation :=
  check! negb (bool_decide (si_Role i = RoleOwner)) else ErrInvalidInviteRole in
  check! negb (Phone_IsZero (si_Phone i)) else ErrPhone ErrInvalidPhoneNumber in
  let name := TrimSpace (si_Name i) in
  check! negb (bool_decide (name = "")) else ErrStaffNameRequired in
  check! negb (MaxStaffNameLen <? RuneCountInString name) else ErrTextTooLong in
  let branches := Compact (sort_by by_text (si_Branches i)) in
  check! negb ((length branches =? 0)%nat || (MaxStaffBranches <? length branches)%nat) else ErrStaffBranchRequired in
  let now := dbTime now in
  Ok (MkInvitation iid business (si_Phone i) name (si_Role i) branches tokenHash InvitationPending by_ now
        (GoTime.Add now InvitationTTL) None (MkID 0)).
End Texts.

Definition with_status (i : Invitation) (st : InvitationStatus) (at_ : option time) (by_ : UserID) : Invitation :=
  MkInvitation (inv_id i) (inv_business i) (inv_phone i) (inv_name i) (inv_role i) (inv_branches i) (inv_tokenHash i) st
    (inv_invitedBy i) (inv_createdAt i) (inv_expiresAt i) at_ by_.

Definition IsOpen (i : Invitation) (now : time) : bool :=
  bool_decide (inv_status i = InvitationPending) && Before now (inv_expiresAt i).

Definition Accept (i : Invitation) (staff : StaffID) (user : UserID) (now : time) : res biz_error (Invitation * StaffMember) :=
  check! IsOpen i now else ErrInvitationInvalid in
  let at_ := dbTime now in
  Ok (with_status i InvitationAccepted (Some at_) user,
      MkStaff staff (inv_business i) user (inv_role i) true at_ (inv_name i) (inv_branches i)).

Definition Revoke (i : Invitation) : res biz_error Invitation :=
  check! bool_decide (inv_status i = InvitationPending) else ErrInvitationClosed in
  Ok (with_status i InvitationRevoked (inv_acceptedAt i) (inv_acceptedBy i)).

(** ** How many may be sent *)

Definition InviteCooldown : Duration := Minute.
Definition MaxInvitesPerPhone : Z := 5.
Definition MaxInvitesPerBusiness : Z := 50.
Definition InviteWindow : Duration := 24 * Hour.

Record InviteHistory := MkHistory {
  LastToPhone : time;
  ToPhone : Z;
  OldestToPhone : time;
  ByBusiness : Z;
  OldestBusiness : time }.

Definition AllowInvite (h : InviteHistory) (now : time) : res biz_error unit :=
  let wait := Sub (GoTime.Add (LastToPhone h) InviteCooldown) now in
  let wait := if MaxInvitesPerPhone <=? ToPhone h then Z.max wait (Sub (GoTime.Add (OldestToPhone h) InviteWindow) now) else wait in
  let wait := if MaxInvitesPerBusiness <=? ByBusiness h then Z.max wait (Sub (GoTime.Add (OldestBusiness h) InviteWindow) now) else wait in
  if 0 <? wait then Err (InviteRateError wait) else Ok tt.

(** ** Facts *)

Lemma elem_of_Compact {A} `{EqDecision A} (x : A) l : x ∈ Compact l ↔ x ∈ l.
Proof.
  induction l as [|y l IH]; [done|]. cbn [Compact]. destruct l as [|z l']; [done|].
  case_bool_decide as E; [subst; rewrite IH; set_solver|]. rewrite (elem_of_cons _ x), IH. set_solver.
Qed.

(** On a sorted list, [Compact] leaves no element twice. *)
Lemma Compact_NoDup {A} `{EqDecision A} (le : A → A → bool) l :
  (∀ x y, le x y = true → le y x = true → x = y) →
  StronglySorted (λ a b, le a b = true) l → NoDup (Compact l).
Proof.
  intros Hanti. induction 1 as [|x l Hs IH Hx]; [constructor|]. cbn [Compact].
  destruct l as [|y l']; [apply NoDup_singleton|]. case_bool_decide as E; [done|].
  apply NoDup_cons. split; [|done]. rewrite elem_of_Compact. intros Hin. apply E.
  inversion Hx as [|?? Hxy Hx']; subst. inversion Hs as [|?? Hs' Hy]; subst.
  apply elem_of_cons in Hin as [->|Hin]; [done|].
  rewrite Forall_forall in Hy. apply Hanti; [done|by apply Hy].
Qed.

(** An invitation may be sent exactly when no limit holds it back. *)
Definition may_invite (h : InviteHistory) (now : time) : Prop :=
  LastToPhone h + InviteCooldown ≤ now ∧
  (MaxInvitesPerPhone ≤ ToPhone h → OldestToPhone h + InviteWindow ≤ now) ∧
  (MaxInvitesPerBusiness ≤ ByBusiness h → OldestBusiness h + InviteWindow ≤ now).

Lemma AllowInvite_ok h now u : AllowInvite h now = Ok u ↔ may_invite h now.
Proof.
  unfold AllowInvite, may_invite, GoTime.Add, Sub, min_int64, max_int64, InviteCooldown, InviteWindow, Hour, Minute, Second, Millisecond, Microsecond.
  destruct u.
  destruct (Z.leb_spec MaxInvitesPerPhone (ToPhone h)); destruct (Z.leb_spec MaxInvitesPerBusiness (ByBusiness h));
    (match goal with |- context [if 0 <? ?w then _ else _] => destruct (Z.ltb_spec 0 w) end); split; try done; lia.
Qed.

Lemma Accept_ok i st u now i' m :
  Accept i st u now = Ok (i', m) ↔
  inv_status i = InvitationPending ∧ now < inv_expiresAt i ∧
  i' = with_status i InvitationAccepted (Some (dbTime now)) u ∧
  m = MkStaff st (inv_business i) u (inv_role i) true (dbTime now) (inv_name i) (inv_branches i).
Proof.
  unfold Accept, IsOpen, Before. destruct (decide (inv_status i = InvitationPending)); destruct (Z.ltb_spec now (inv_expiresAt i));
    rewrite ?bool_decide_eq_true_2, ?bool_decide_eq_false_2 by done; simpl; split; intros; try done; try naive_solver lia.
Qed.

Lemma Revoke_ok i i' :
  Revoke i = Ok i' ↔ inv_status i = InvitationPending ∧ i' = with_status i InvitationRevoked (inv_acceptedAt i) (inv_acceptedBy i).
Proof. unfold Revoke. case_bool_decide; simpl; naive_solver. Qed.

Section New.
Context `{UuidLib}.

Lemma by_text_total a b : by_text a b = false → by_text b a = true.
Proof. apply string_leb_total. Qed.

Lemma by_text_trans a b c : by_text a b = true → by_text b c = true → by_text a c = true.
Proof. apply string_leb_trans. Qed.

Lemma by_text_anti a b : by_text a b = true → by_text b a = true → a = b.
Proof.
  unfold by_text. intros H1 H2. assert (E : ID_String a = ID_String b) by by apply String.leb_antisym.
  unfold ID_String in E. apply uuid_string_inj in E. by destruct a, b; simpl in E; subst.
Qed.
End New.
