(* ===== verification/BizStore.v ===== *)
(** * Business's tables
      (src/internal/business/adapters/postgres; src/migrations/00005, 00006, 00008 to 00010)

    The rows of the business schema, what the tables refuse, and the
    repositories' transactions. An error rolls the whole transaction back;
    row and advisory locks make transactions on the same business, phone or
    owner follow one another. A statement the tables refuse is [ErrStorage]
    unless the repository names the constraint. *)
From Stdlib Require Import SpecFloat.
From S2P Require Import Prelude GoTime GoText Shared Tables BizBase Business Branch Invitation.
Open Scope Z_scope.

(** ** Rows (sqlcgen) *)

Record BizRow := MkBizRow {
  z_ID : BusinessID; z_OwnerUserID : UserID; z_DisplayNameAr : string; z_DisplayNameEn : string; z_LegalName : string;
  z_CrNumber : string; z_Status : string; z_Version : Z; z_CreatedAt : time; z_UpdatedAt : time;
  z_SubmittedAt : option time; z_ReviewedAt : option time; z_ReviewedBy : option UserID; z_RejectionReason : string }.

Record StaffRow := MkStaffRow {
  s_ID : StaffID; s_BusinessID : BusinessID; s_UserID : option UserID; s_Role : string; s_Active : bool; s_CreatedAt : time;
  s_DisplayName : string }.

Record BranchRow := MkBranchRow {
  b_ID : BranchID; b_BusinessID : BusinessID; b_NameAr : string; b_NameEn : string; b_CityCode : string; b_District : string;
  b_Address : string; b_Latitude : float64; b_Longitude : float64; b_Phone : option string; b_Timezone : string; b_Status : string;
  b_MinLeadMinutes : Z; b_HorizonDays : Z; b_SlotIntervalMinutes : Z; b_BufferMinutes : Z; b_CancellationMinutes : Z;
  b_AutoConfirm : bool; b_PendingExpiryMinutes : Z; b_MaxActiveBookings : Z;
  b_Version : Z; b_CreatedAt : time; b_UpdatedAt : time }.

Record InvRow := MkInvRow {
  i_ID : InvitationID; i_BusinessID : BusinessID; i_Phone : string; i_DisplayName : string; i_Role : string; i_BranchIds : list BranchID;
  i_TokenHash : string; i_Status : InvitationStatus; i_InvitedBy : UserID; i_CreatedAt : time; i_ExpiresAt : time;
  i_AcceptedAt : option time; i_AcceptedBy : option UserID }.

Record DocRow := MkDocRow {
  d_ObjectID : MediaID; d_BusinessID : BusinessID; d_Kind : string; d_ContentType : string; d_SizeBytes : Z; d_UploadedBy : UserID; d_UploadedAt : time }.

(** ** The events' JSON shape (events/events.go) *)

Record ContractBranch := MkContract {
  e_Version : Z; e_Status : string; e_Name : LocalizedText; e_CityCode : string; e_District : string; e_Address : string;
  e_Location : GeoPoint; e_Phone : string; e_Timezone : string }.

(** The payloads; the three branch payloads have the same fields. *)
Inductive Payload :=
| ApprovedPayload (business : BusinessID) (owner : UserID) (at_ : time)
| BranchPayload (business : BusinessID) (branch : BranchID) (at_ : time) (b : ContractBranch).

Record OutboxEvent := MkOutbox { ob_Type : string; ob_OccurredAt : time; ob_Payload : Payload }.

Definition TypeBusinessApproved : string := "business.approved".
Definition TypeBranchPublished : string := "business.branch_published".
Definition TypeBranchUnpublished : string := "business.branch_unpublished".
Definition TypeBranchUpdated : string := "business.branch_updated".

Record BizDB := MkBizDB {
  businesses : gmap BusinessID BizRow;
  staff_members : gmap StaffID StaffRow;
  staff_branches : gmap StaffID (list BranchID);
  branches : gmap BranchID BranchRow;
  invitations : gmap InvitationID InvRow;
  documents : gmap MediaID DocRow;
  outbox : list OutboxEvent }.

Definition empty_biz_db : BizDB := MkBizDB ∅ ∅ ∅ ∅ ∅ ∅ [].

Definition set_businesses (db : BizDB) t : BizDB :=
  MkBizDB t (staff_members db) (staff_branches db) (branches db) (invitations db) (documents db) (outbox db).
Definition set_staff (db : BizDB) t u : BizDB := MkBizDB (businesses db) t u (branches db) (invitations db) (documents db) (outbox db).
Definition set_branches (db : BizDB) t : BizDB :=
  MkBizDB (businesses db) (staff_members db) (staff_branches db) t (invitations db) (documents db) (outbox db).
Definition set_invitations (db : BizDB) t : BizDB :=
  MkBizDB (businesses db) (staff_members db) (staff_branches db) (branches db) t (documents db) (outbox db).
Definition set_documents (db : BizDB) t : BizDB :=
  MkBizDB (businesses db) (staff_members db) (staff_branches db) (branches db) (invitations db) t (outbox db).
Definition add_outbox (db : BizDB) out : BizDB :=
  MkBizDB (businesses db) (staff_members db) (staff_branches db) (branches db) (invitations db) (documents db) (outbox db ++ out).

Definition toInt32 (n : Z) : res biz_error Z := if (n <? 0) || (max_int32 <? n) then Err ErrStorage else Ok n.
Definition toInt16 (n : Z) : res biz_error Z := if (n <? -32768) || (max_int16 <? n) then Err ErrStorage else Ok n.


(** [var u *uuid.UUID; if !id.IsZero() { u = &id }], and back. *)
Definition optionalID {T} (i : ID T) : option (ID T) := if ID_IsZero i then None else Some i.
Definition zeroID {T} (i : option (ID T)) : ID T := default (MkID 0) i.

(** ** What the tables refuse *)

Definition digit_string (n : nat) (s : string) : bool :=
  (len s =? Z.of_nat n) && forallb (λ b, (48 <=? b) && (b <=? 57)) (bytes s).

Definition biz_checks (r : BizRow) : bool :=
  negb (bool_decide (z_DisplayNameAr r = "")) && negb (bool_decide (z_LegalName r = "")) && digit_string 10 (z_CrNumber r)
  && is_ok (ParseStatus (z_Status r)) && (0 <? z_Version r) && (RuneCountInString (z_RejectionReason r) <=? 500)
  && (bool_decide (z_Status r = "draft") || present (z_SubmittedAt r))
  && Bool.eqb (present (z_ReviewedAt r)) (present (z_ReviewedBy r)).

(** Whether the row is in the partial index [businesses_claimed_cr_number_key]. *)
Definition claims (r : BizRow) : bool := bool_decide (z_Status r ∈ ["pending_review"; "active"; "suspended"]).

Definition same_owner_cr (r o : BizRow) : bool := bool_decide (z_OwnerUserID r = z_OwnerUserID o ∧ z_CrNumber r = z_CrNumber o).
Definition same_claim (r o : BizRow) : bool := claims r && claims o && bool_decide (z_CrNumber r = z_CrNumber o).

Definition city_check (s : string) : bool :=
  match bytes s with
  | b :: bs => in_range 97 122 b && (1 <=? length bs)%nat && (length bs <=? 39)%nat && forallb (λ b, in_range 97 122 b || (b =? 95)) bs
  | [] => false
  end.

Definition between_floats (lo hi : Z) (f : float64) : bool := SFleb (float_of lo) f && SFleb f (float_of hi).

Definition branch_checks (r : BranchRow) : bool :=
  negb (bool_decide (b_NameAr r = "")) && city_check (b_CityCode r) && negb (bool_decide (b_Address r = ""))
  && between_floats (-90) 90 (b_Latitude r) && between_floats (-180) 180 (b_Longitude r) && is_ok (ParseBranchStatus (b_Status r))
  && (0 <=? b_MinLeadMinutes r) && (b_MinLeadMinutes r <=? 10080) && (1 <=? b_HorizonDays r) && (b_HorizonDays r <=? 180)
  && bool_decide (b_SlotIntervalMinutes r ∈ [5; 10; 15; 20; 30; 60]) && (0 <=? b_BufferMinutes r) && (b_BufferMinutes r <=? 60)
  && (0 <=? b_CancellationMinutes r) && (b_CancellationMinutes r <=? 2880) && (5 <=? b_PendingExpiryMinutes r) && (b_PendingExpiryMinutes r <=? 120)
  && (1 <=? b_MaxActiveBookings r) && (b_MaxActiveBookings r <=? 10) && (0 <? b_Version r).

Definition phone_check (s : string) : bool :=
  match bytes s with
  | 43 :: b :: bs => in_range 49 57 b && (7 <=? length bs)%nat && (length bs <=? 14)%nat && forallb (in_range 48 57) bs
  | _ => false
  end.

Definition inv_checks (r : InvRow) : bool :=
  phone_check (i_Phone r) && negb (bool_decide (i_DisplayName r = "")) && (RuneCountInString (i_DisplayName r) <=? 80)
  && bool_decide (i_Role r ∈ ["manager"; "barber"]) && (1 <=? length (i_BranchIds r))%nat && (length (i_BranchIds r) <=? 50)%nat
  && (len (i_TokenHash r) =? 32) && (i_CreatedAt r <? i_ExpiresAt r)
  && Bool.eqb (bool_decide (i_Status r = InvitationAccepted)) (present (i_AcceptedAt r) && present (i_AcceptedBy r)).

Definition same_token (r o : InvRow) : bool := bool_decide (i_TokenHash r = i_TokenHash o).
Definition same_pending (r o : InvRow) : bool :=
  bool_decide (i_Status r = InvitationPending ∧ i_Status o = InvitationPending ∧ i_BusinessID r = i_BusinessID o ∧ i_Phone r = i_Phone o).

Definition staff_checks (r : StaffRow) : bool := is_ok (ParseRole (s_Role r)) && (RuneCountInString (s_DisplayName r) <=? 80).
Definition same_ownership (r o : StaffRow) : bool :=
  bool_decide (s_Role r = "owner" ∧ s_Role o = "owner" ∧ s_BusinessID r = s_BusinessID o).
Definition same_user (r o : StaffRow) : bool :=
  bool_decide (s_UserID r ≠ None ∧ s_UserID r = s_UserID o ∧ s_BusinessID r = s_BusinessID o).

Definition doc_checks (r : DocRow) : bool := bool_decide (d_Kind r = "cr_certificate") && (0 <? d_SizeBytes r).

(** ** Rows and aggregates *)

Definition toBusiness (r : BizRow) : res biz_error Business :=
  let! name := res_map_err ErrLocalized (NewLocalizedText (z_DisplayNameAr r) (z_DisplayNameEn r)) in
  let! c := NewCRNumber (z_CrNumber r) in
  let! st := ParseStatus (z_Status r) in
  Ok (RehydrateBusiness (z_ID r) (z_OwnerUserID r) name (z_LegalName r) c st (z_Version r) (z_CreatedAt r) (z_UpdatedAt r)
        (MkReview (z_SubmittedAt r) (z_ReviewedAt r) (zeroID (z_ReviewedBy r)) (z_RejectionReason r))).

Definition toStaffMember (bs : list BranchID) (r : StaffRow) : res biz_error StaffMember :=
  let! role := ParseRole (s_Role r) in
  Ok (MkStaff (s_ID r) (s_BusinessID r) (zeroID (s_UserID r)) role (s_Active r) (s_CreatedAt r) (s_DisplayName r) bs).

Definition minutes_of (d : Duration) : Z := Z.quot d Minute.

Definition toBranchRow (b : Branch) : res biz_error BranchRow :=
  let p := br_profile b in
  let rules := Rules (br_policy b) in
  let! version := toInt32 (br_version b) in
  let phone := if Phone_IsZero (p_Phone p) then None else Some (e164 (p_Phone p)) in
  let! minLead := toInt32 (minutes_of (MinLead rules)) in
  let! cancellation := toInt32 (minutes_of (CancellationWindow rules)) in
  let! horizon := toInt16 (HorizonDays rules) in
  let! slot := toInt16 (minutes_of (SlotInterval rules)) in
  let! buffer := toInt16 (minutes_of (Buffer rules)) in
  let! expiry := toInt16 (minutes_of (PendingExpiry rules)) in
  let! maxActive := toInt16 (MaxActiveBookings rules) in
  Ok (MkBranchRow (br_id b) (br_business b) (ar (p_Name p)) (en (p_Name p)) (p_City p) (p_District p) (p_Address p)
        (lat (p_Location p)) (lng (p_Location p)) phone (p_Timezone p) (BranchStatus_string (br_status b))
        minLead horizon slot buffer cancellation (AutoConfirm rules) expiry maxActive version (br_createdAt b) (br_updatedAt b)).

Definition toBranch (r : BranchRow) : res biz_error Branch :=
  let! name := res_map_err ErrLocalized (NewLocalizedText (b_NameAr r) (b_NameEn r)) in
  let! city := ParseCityCode (b_CityCode r) in
  let! loc := res_map_err ErrGeo (NewGeoPoint (b_Latitude r) (b_Longitude r)) in
  let! phone := match b_Phone r with None => Ok (MkPhone "") | Some s => res_map_err ErrPhone (NewPhoneNumber s) end in
  let! policy := (NewBookingPolicy
    (MkRules (int64 (b_MinLeadMinutes r * Minute)) (b_HorizonDays r) (int64 (b_SlotIntervalMinutes r * Minute))
       (int64 (b_BufferMinutes r * Minute)) (int64 (b_CancellationMinutes r * Minute)) (b_AutoConfirm r)
       (int64 (b_PendingExpiryMinutes r * Minute)) (b_MaxActiveBookings r))) in
  let! st := ParseBranchStatus (b_Status r) in
  Ok (RehydrateBranch (b_ID r) (b_BusinessID r)
        (MkProfile name city (b_District r) (b_Address r) loc phone (b_Timezone r)) policy st (b_Version r) (b_CreatedAt r) (b_UpdatedAt r)).

Definition toInvitation (r : InvRow) : res biz_error Invitation :=
  let! phone := res_map_err ErrPhone (NewPhoneNumber (i_Phone r)) in
  let! role := ParseRole (i_Role r) in
  Ok (MkInvitation (i_ID r) (i_BusinessID r) phone (i_DisplayName r) role (i_BranchIds r) (i_TokenHash r) (i_Status r) (i_InvitedBy r)
        (i_CreatedAt r) (i_ExpiresAt r) (i_AcceptedAt r) (zeroID (i_AcceptedBy r))).

Definition toDocument (r : DocRow) : res biz_error VerificationDocument :=
  let! kind := ParseDocumentKind (d_Kind r) in
  Ok (NewVerificationDocument (d_ObjectID r) (d_BusinessID r) kind (d_ContentType r) (d_SizeBytes r) (d_UploadedBy r) (d_UploadedAt r)).

(** ** Publishing (repository.go) *)

Definition branchContract (s : BranchSnapshot) : ContractBranch :=
  let p := bs_Profile s in
  MkContract (bs_Version s) (BranchStatus_string (bs_Status s)) (p_Name p) (p_City p) (p_District p) (p_Address p) (p_Location p)
    (e164 (p_Phone p)) (p_Timezone p).

Definition to_outbox (e : BizEvent) : OutboxEvent :=
  match e with
  | BusinessApproved b o at_ => MkOutbox TypeBusinessApproved at_ (ApprovedPayload b o at_)
  | BranchPublishedEvent b br at_ s => MkOutbox TypeBranchPublished at_ (BranchPayload b br at_ (branchContract s))
  | BranchUnpublishedEvent b br at_ s => MkOutbox TypeBranchUnpublished at_ (BranchPayload b br at_ (branchContract s))
  | BranchUpdatedEvent b br at_ s => MkOutbox TypeBranchUpdated at_ (BranchPayload b br at_ (branchContract s))
  end.

Definition publish (db : BizDB) (evs : list BizEvent) : BizDB := add_outbox db (to_outbox <$> evs).

(** ** Staff (repository.go) *)

Definition branches_of (db : BizDB) (s : StaffID) : list BranchID := default [] (staff_branches db !! s).

(** [insertStaff]: the row, then a row per branch. [staff_members_user_business_key]
    is the one constraint a caller tells apart. *)
Inductive staff_insert := StaffInserted (db : BizDB) | AlreadyThere | StaffRefused.

Definition insertStaff (db : BizDB) (m : StaffMember) : staff_insert :=
  let row := MkStaffRow (sm_id m) (sm_business m) (Some (sm_user m)) (Role_string (sm_role m)) (sm_active m) (sm_createdAt m) (sm_displayName m) in
  if negb (staff_checks row) || bool_decide (is_Some (staff_members db !! sm_id m))
     || conflicts same_ownership (staff_members db) (sm_id m) row then StaffRefused
  else if conflicts same_user (staff_members db) (sm_id m) row then AlreadyThere
  else if bool_decide (businesses db !! sm_business m = None) || has_dup [] (sm_branches m)
       || negb (forallb (λ b, match branches db !! b with Some r => bool_decide (b_BusinessID r = sm_business m) | None => false end) (sm_branches m))
  then StaffRefused
  else StaffInserted (set_staff db (<[sm_id m := row]> (staff_members db))
         (if (length (sm_branches m) =? 0)%nat then staff_branches db else <[sm_id m := sm_branches m]> (staff_branches db))).

Definition load_member (db : BizDB) (r : StaffRow) : res biz_error StaffMember := toStaffMember (branches_of db (s_ID r)) r.

Definition Membership (db : BizDB) (business : BusinessID) (user : UserID) : res biz_error StaffMember :=
  match rows_where (λ r, bool_decide (s_BusinessID r = business ∧ s_UserID r = Some user)) (staff_members db) with
  | [] => Err ErrNotFound
  | r :: _ => load_member db r
  end.

Definition by_created (a b : StaffRow) : bool :=
  if s_CreatedAt a <? s_CreatedAt b then true else if s_CreatedAt b <? s_CreatedAt a then false else (value (s_ID a) <=? value (s_ID b))%N.

Definition List_staff (db : BizDB) (business : BusinessID) : res biz_error (list StaffMember) :=
  res_mapM (load_member db) (sort_by by_created (rows_where (λ r, bool_decide (s_BusinessID r = business)) (staff_members db))).

(** A membership as [ForUser] lists it (app/ports.go). *)
Record MembershipView := MkView { mv_Staff : StaffID; mv_Role : Role; mv_Business : BusinessID; mv_Name : LocalizedText; mv_Status : Status }.

Definition newest_business (a b : StaffRow) : bool := (value (s_BusinessID b) <=? value (s_BusinessID a))%N.

Definition to_view (db : BizDB) (r : StaffRow) : res biz_error (option MembershipView) :=
  match businesses db !! s_BusinessID r with
  | None => Ok None
  | Some b =>
      let! role := ParseRole (s_Role r) in
      let! st := ParseStatus (z_Status b) in
      let! name := res_map_err ErrLocalized (NewLocalizedText (z_DisplayNameAr b) (z_DisplayNameEn b)) in
      Ok (Some (MkView (s_ID r) role (z_ID b) name st))
  end.

Definition ForUser (db : BizDB) (user : UserID) : res biz_error (list MembershipView) :=
  let! vs := res_mapM (to_view db) (sort_by newest_business (rows_where (λ r, bool_decide (s_UserID r = Some user) && s_Active r) (staff_members db))) in
  Ok (omap Datatypes.id vs).

(** ** Businesses (repository.go) *)

Definition open_registration (user : UserID) (r : BizRow) : bool :=
  bool_decide (z_OwnerUserID r = user) && bool_decide (z_Status r ∈ ["draft"; "pending_review"; "rejected"]).

Definition Register (db : BizDB) (b : Business) (o : StaffMember) : res biz_error BizDB :=
  let! version := toInt32 (version b) in
  check! negb (MaxOpenRegistrations <=? count_where (open_registration (owner b)) (businesses db)) else ErrTooManyRegistrations in
  let row := MkBizRow (id b) (owner b) (ar (displayName b)) (en (displayName b)) (legalName b) (digits (cr b)) (Status_string (status b)) version
               (createdAt b) (updatedAt b) None None None "" in
  check! biz_checks row && bool_decide (businesses db !! id b = None) else ErrStorage in
  check! negb (conflicts same_owner_cr (businesses db) (id b) row) else ErrAlreadyRegistered in
  check! negb (conflicts same_claim (businesses db) (id b) row) else ErrStorage in
  match insertStaff (set_businesses db (<[id b := row]> (businesses db))) o with
  | StaffInserted db => Ok db
  | AlreadyThere | StaffRefused => Err ErrStorage
  end.

Definition ByID (db : BizDB) (bid : BusinessID) : res biz_error Business :=
  match businesses db !! bid with None => Err ErrNotFound | Some r => toBusiness r end.

Definition update_biz_row (r : BizRow) (b : Business) (version : Z) : BizRow :=
  MkBizRow (z_ID r) (z_OwnerUserID r) (ar (displayName b)) (en (displayName b)) (legalName b) (z_CrNumber r) (Status_string (status b)) version
    (z_CreatedAt r) (updatedAt b) (SubmittedAt (review b)) (ReviewedAt (review b)) (optionalID (ReviewedBy (review b))) (RejectionReason (review b)).

(** [UPDATE ... WHERE id = @id AND version = @expected_version]. *)
Definition UpdateBusiness (db : BizDB) (b : Business) (version expected : Z) : res biz_error BizDB :=
  match businesses db !! id b with
  | None => Err ErrVersionConflict
  | Some r =>
      if negb (z_Version r =? expected) then Err ErrVersionConflict
      else
        let row := update_biz_row r b version in
        check! biz_checks row else ErrStorage in
        check! negb (conflicts same_claim (businesses db) (id b) row) else ErrCRNumberClaimed in
        Ok (set_businesses db (<[id b := row]> (businesses db)))
  end.

Definition update (db : BizDB) (bid : BusinessID) (expectedVersion : Z) (fn : Business → res biz_error Business) : res biz_error (Business * BizDB) :=
  match toInt32 expectedVersion with
  | Err _ => Err ErrVersionConflict
  | Ok expected =>
      match businesses db !! bid with
      | None => Err ErrNotFound
      | Some row =>
          check! z_Version row =? expected else ErrVersionConflict in
          let! b := toBusiness row in
          let! b := fn b in
          let! version := toInt32 (version b) in
          let! db := UpdateBusiness db b version expected in
          Ok (b, publish db (events b))
      end
  end.

Definition count_documents (db : BizDB) (bid : BusinessID) : Z := count_where (λ r, bool_decide (d_BusinessID r = bid)) (documents db).
Definition count_branches (db : BizDB) (bid : BusinessID) : Z := count_where (λ r, bool_decide (b_BusinessID r = bid)) (branches db).

Definition Update := update.

Definition UpdateWithReadiness (db : BizDB) (bid : BusinessID) (expectedVersion : Z) (fn : Business → Readiness → res biz_error Business)
    : res biz_error (Business * BizDB) :=
  update db bid expectedVersion (λ b, fn b (MkReadiness (count_documents db bid) (count_branches db bid))).

(** ** The review queue *)

Record QueuePosition := MkPosition { qp_SubmittedAt : time; qp_ID : BusinessID }.

(** [(submitted_at, id)] in order; a missing submission time comes last. *)
Definition by_submission (a b : BizRow) : bool :=
  match z_SubmittedAt a, z_SubmittedAt b with
  | Some s, Some t => if s <? t then true else if t <? s then false else (value (z_ID a) <=? value (z_ID b))%N
  | Some _, None => true
  | None, Some _ => false
  | None, None => (value (z_ID a) <=? value (z_ID b))%N
  end.

(** The driver sends a timestamptz to the microsecond. *)
Definition after_position (p : QueuePosition) (r : BizRow) : bool :=
  let at_ := stored_time (qp_SubmittedAt p) in
  match z_SubmittedAt r with
  | None => false
  | Some s => (at_ <? s) || ((at_ =? s) && (value (qp_ID p) <? value (z_ID r))%N)
  end.

Definition ReviewPage (db : BizDB) (st : Status) (after : option QueuePosition) (limit : Z) : res biz_error (list Business) :=
  let! size := toInt32 limit in
  res_mapM toBusiness (take (Z.to_nat size) (sort_by by_submission (rows_where
    (λ r, bool_decide (z_Status r = Status_string st) && match after with None => true | Some p => after_position p r end) (businesses db)))).

(** ** Branches (branches.go) *)

Definition lockBusiness (db : BizDB) (bid : BusinessID) : res biz_error unit :=
  match businesses db !! bid with None => Err ErrNotFound | Some _ => Ok tt end.

Definition Branches_Add (db : BizDB) (b : Branch) (allow : Z → res biz_error unit) : res biz_error BizDB :=
  let! row := toBranchRow b in
  let! _ := lockBusiness db (br_business b) in
  let! _ := allow (count_branches db (br_business b)) in
  check! branch_checks row && bool_decide (branches db !! br_id b = None) else ErrStorage in
  Ok (set_branches db (<[br_id b := row]> (branches db))).

Definition find_branch (db : BizDB) (business : BusinessID) (bid : BranchID) : option BranchRow :=
  match branches db !! bid with
  | Some r => if bool_decide (b_BusinessID r = business) then Some r else None
  | None => None
  end.

Definition Branches_ByID (db : BizDB) (business : BusinessID) (bid : BranchID) : res biz_error Branch :=
  match find_branch db business bid with None => Err ErrNotFound | Some r => toBranch r end.

Definition active_business (db : BizDB) (bid : BusinessID) : bool :=
  match businesses db !! bid with Some b => bool_decide (z_Status b = "active") | None => false end.

Definition Branches_Bookable (db : BizDB) (bid : BranchID) : res biz_error Branch :=
  match branches db !! bid with
  | Some r => if bool_decide (b_Status r = "published") && active_business db (b_BusinessID r) then toBranch r else Err ErrNotFound
  | None => Err ErrNotFound
  end.

Definition by_branch_id (a b : BranchRow) : bool := (value (b_ID a) <=? value (b_ID b))%N.

Definition Branches_List (db : BizDB) (business : BusinessID) : res biz_error (list Branch) :=
  res_mapM toBranch (sort_by by_branch_id (rows_where (λ r, bool_decide (b_BusinessID r = business)) (branches db))).

Definition update_branch_row (r next : BranchRow) : BranchRow :=
  MkBranchRow (b_ID r) (b_BusinessID r) (b_NameAr next) (b_NameEn next) (b_CityCode next) (b_District next) (b_Address next)
    (b_Latitude next) (b_Longitude next) (b_Phone next) (b_Timezone next) (b_Status next)
    (b_MinLeadMinutes next) (b_HorizonDays next) (b_SlotIntervalMinutes next) (b_BufferMinutes next) (b_CancellationMinutes next)
    (b_AutoConfirm next) (b_PendingExpiryMinutes next) (b_MaxActiveBookings next) (b_Version next) (b_CreatedAt r) (b_UpdatedAt next).

Definition Branches_Update (db : BizDB) (business : BusinessID) (bid : BranchID) (expectedVersion : Z) (fn : Branch → res biz_error Branch)
    : res biz_error (Branch * BizDB) :=
  match toInt32 expectedVersion with
  | Err _ => Err ErrVersionConflict
  | Ok expected =>
      match find_branch db business bid with
      | None => Err ErrNotFound
      | Some row =>
          check! b_Version row =? expected else ErrVersionConflict in
          let! b := toBranch row in
          let! b := fn b in
          let! next := toBranchRow b in
          let row := update_branch_row row next in
          check! branch_checks row else ErrStorage in
          Ok (b, publish (set_branches db (<[bid := row]> (branches db))) (br_events b))
      end
  end.

(** ** Invitations (invitations.go) *)

Definition inv_row (i : Invitation) : InvRow :=
  MkInvRow (inv_id i) (inv_business i) (e164 (inv_phone i)) (inv_name i) (Role_string (inv_role i)) (inv_branches i) (inv_tokenHash i)
    (inv_status i) (inv_invitedBy i) (inv_createdAt i) (inv_expiresAt i) None None.

(** [coalesce(max(created_at), since)] and [coalesce(min(created_at), since)]. *)
Definition newest (since : time) (rows : list InvRow) : time :=
  match rows with [] => since | r :: rows => foldl (λ t r, Z.max t (i_CreatedAt r)) (i_CreatedAt r) rows end.
Definition oldest (since : time) (rows : list InvRow) : time :=
  match rows with [] => since | r :: rows => foldl (λ t r, Z.min t (i_CreatedAt r)) (i_CreatedAt r) rows end.

Definition to_phone (phone : string) (since : time) (r : InvRow) : bool := bool_decide (i_Phone r = phone) && (since <? i_CreatedAt r).
Definition by_business (business : BusinessID) (since : time) (r : InvRow) : bool :=
  bool_decide (i_BusinessID r = business) && (since <? i_CreatedAt r).

Definition history (db : BizDB) (business : BusinessID) (phone : string) (since : time) : InviteHistory :=
  let phones := rows_where (to_phone phone since) (invitations db) in
  let ours := rows_where (by_business business since) (invitations db) in
  MkHistory (newest since (rows_where (λ r, by_business business since r && to_phone phone since r) (invitations db)))
    (Z.of_nat (length phones)) (oldest since phones) (Z.of_nat (length ours)) (oldest since ours).

Definition revoke_row (r : InvRow) : InvRow :=
  MkInvRow (i_ID r) (i_BusinessID r) (i_Phone r) (i_DisplayName r) (i_Role r) (i_BranchIds r) (i_TokenHash r) InvitationRevoked
    (i_InvitedBy r) (i_CreatedAt r) (i_ExpiresAt r) (i_AcceptedAt r) (i_AcceptedBy r).

Definition pending_for (business : BusinessID) (phone : string) (r : InvRow) : bool :=
  bool_decide (i_BusinessID r = business ∧ i_Phone r = phone ∧ i_Status r = InvitationPending).

Definition RevokePending (db : BizDB) (business : BusinessID) (phone : string) : BizDB :=
  set_invitations db ((λ r, if pending_for business phone r then revoke_row r else r) <$> invitations db).

Definition CountStaffSeats (db : BizDB) (business : BusinessID) (now : time) : Z :=
  count_where (λ r, bool_decide (s_BusinessID r = business ∧ s_Role r ≠ "owner") && s_Active r) (staff_members db)
  + count_where (λ r, bool_decide (i_BusinessID r = business ∧ i_Status r = InvitationPending) && (now <? i_ExpiresAt r)) (invitations db).

Definition insert_invitation (db : BizDB) (i : Invitation) : res biz_error BizDB :=
  let row := inv_row i in
  check! inv_checks row && bool_decide (invitations db !! inv_id i = None)
         && negb (conflicts same_token (invitations db) (inv_id i) row) && negb (conflicts same_pending (invitations db) (inv_id i) row)
    else ErrStorage in
  Ok (set_invitations db (<[inv_id i := row]> (invitations db))).

Definition Invite (db : BizDB) (i : Invitation) (allow : Z → res biz_error unit) : res biz_error BizDB :=
  let! _ := lockBusiness db (inv_business i) in
  let n := count_where (λ r, bool_decide (b_BusinessID r = inv_business i ∧ b_ID r ∈ inv_branches i)) (branches db) in
  check! n =? Z.of_nat (length (inv_branches i)) else ErrUnknownBranch in
  let! _ := AllowInvite (history db (inv_business i) (e164 (inv_phone i)) (GoTime.Add (inv_createdAt i) (- InviteWindow))) (inv_createdAt i) in
  let db := RevokePending db (inv_business i) (e164 (inv_phone i)) in
  let! _ := allow (CountStaffSeats db (inv_business i) (inv_createdAt i)) in
  insert_invitation db i.

Definition by_newest (a b : InvRow) : bool :=
  if i_CreatedAt b <? i_CreatedAt a then true else if i_CreatedAt a <? i_CreatedAt b then false else (value (i_ID a) <=? value (i_ID b))%N.

Definition Pending (db : BizDB) (business : BusinessID) : res biz_error (list Invitation) :=
  res_mapM toInvitation (sort_by by_newest
    (rows_where (λ r, bool_decide (i_BusinessID r = business ∧ i_Status r = InvitationPending)) (invitations db))).

Definition saveInvitation (db : BizDB) (i : Invitation) : res biz_error BizDB :=
  match invitations db !! inv_id i with
  | None => Ok db
  | Some r =>
      let row := MkInvRow (i_ID r) (i_BusinessID r) (i_Phone r) (i_DisplayName r) (i_Role r) (i_BranchIds r) (i_TokenHash r) (inv_status i)
                   (i_InvitedBy r) (i_CreatedAt r) (i_ExpiresAt r) (inv_acceptedAt i) (optionalID (inv_acceptedBy i)) in
      check! inv_checks row && negb (conflicts same_pending (invitations db) (inv_id i) row) else ErrStorage in
      Ok (set_invitations db (<[inv_id i := row]> (invitations db)))
  end.

Definition Invitations_Update (db : BizDB) (business : BusinessID) (iid : InvitationID) (fn : Invitation → res biz_error Invitation) : res biz_error BizDB :=
  match invitations db !! iid with
  | Some r =>
      check! bool_decide (i_BusinessID r = business) else ErrNotFound in
      let! i := toInvitation r in
      let! i := fn i in
      saveInvitation db i
  | None => Err ErrNotFound
  end.

Definition Invitations_Accept (db : BizDB) (tokenHash : string) (fn : Invitation → res biz_error (Invitation * StaffMember))
    : res biz_error (StaffMember * BizDB) :=
  match rows_where (λ r, bool_decide (i_TokenHash r = tokenHash)) (invitations db) with
  | [] => Err ErrInvitationInvalid
  | r :: _ =>
      let! i := toInvitation r in
      let! im := fn i in
      let! db := saveInvitation db im.1 in
      match insertStaff db im.2 with
      | StaffInserted db => Ok (im.2, db)
      | AlreadyThere => Err ErrAlreadyStaff
      | StaffRefused => Err ErrStorage
      end
  end.

(** ** Verification documents (documents.go) *)

Definition Attach (db : BizDB) (d : VerificationDocument) (check : Business → Z → res biz_error unit) : res biz_error BizDB :=
  match businesses db !! doc_business d with
  | None => Err ErrNotFound
  | Some row =>
      let! b := toBusiness row in
      let! _ := check b (count_documents db (doc_business d)) in
      let r := MkDocRow (doc_file d) (doc_business d) (DocumentKind_string (doc_kind d)) (doc_contentType d) (doc_size d) (doc_uploadedBy d) (doc_uploadedAt d) in
      check! doc_checks r && bool_decide (documents db !! doc_file d = None) else ErrStorage in
      Ok (set_documents db (<[doc_file d := r]> (documents db)))
  end.

Definition by_uploaded (a b : DocRow) : bool :=
  if d_UploadedAt a <? d_UploadedAt b then true else if d_UploadedAt b <? d_UploadedAt a then false
  else (value (d_ObjectID a) <=? value (d_ObjectID b))%N.

Definition Documents_List (db : BizDB) (business : BusinessID) : res biz_error (list VerificationDocument) :=
  res_mapM toDocument (sort_by by_uploaded (rows_where (λ r, bool_decide (d_BusinessID r = business)) (documents db))).

(** ** What subscribers receive (module.go) *)

Record BranchChanged := MkChanged {
  ch_BusinessID : BusinessID; ch_BranchID : BranchID; ch_Version : Z; ch_Published : bool; ch_Name : LocalizedText; ch_City : string;
  ch_District : string; ch_Address : string; ch_Location : GeoPoint; ch_Phone : string; ch_Timezone : string; ch_At : time }.

(** [decodeBranchChanged] on the payload the JSON decoder reads back; an
    event queued before payloads carried the branch has version 0. *)
Definition decodeBranchChanged (e : OutboxEvent) : res biz_error (option BranchChanged) :=
  match ob_Payload e with
  | ApprovedPayload _ _ _ => Ok None
  | BranchPayload business branch _ b =>
      if e_Version b =? 0 then Ok None
      else
        let! name := res_map_err ErrLocalized (NewLocalizedText (ar (e_Name b)) (en (e_Name b))) in
        let! loc := res_map_err ErrGeo (NewGeoPoint (lat (e_Location b)) (lng (e_Location b))) in
        Ok (Some (MkChanged business branch (e_Version b) (bool_decide (e_Status b = "published")) name (e_CityCode b) (e_District b) (e_Address b)
                    loc (e_Phone b) (e_Timezone b) (ob_OccurredAt e)))
  end.
