(* ===== verification/BizFacts.v ===== *)
(** * What business's tables keep

    Aggregates and their rows convert both ways; the invariant of the tables,
    and that every repository transaction keeps it. *)
From Stdlib Require Import SpecFloat.
From S2P Require Import Prelude GoTime GoText Shared Tables BizBase Business Branch Invitation BizStore.
Open Scope Z_scope.

(** ** Rows of well-formed aggregates *)

Lemma zeroID_optionalID {T} (i : ID T) : zeroID (optionalID i) = i.
Proof.
  unfold zeroID, optionalID. destruct (ID_IsZero i) eqn:E; [|done]. unfold ID_IsZero in E. bool_prop. destruct i; simpl in *; by subst.
Qed.

Lemma present_optionalID {T} (i : ID T) : present (optionalID i) = negb (ID_IsZero i).
Proof. unfold optionalID. by destruct (ID_IsZero i). Qed.

Definition biz_row (b : Business) : BizRow :=
  MkBizRow (id b) (owner b) (ar (displayName b)) (en (displayName b)) (legalName b) (digits (cr b)) (Status_string (status b)) (version b)
    (createdAt b) (updatedAt b) (SubmittedAt (review b)) (ReviewedAt (review b)) (optionalID (ReviewedBy (review b))) (RejectionReason (review b)).

Definition as_loaded (b : Business) : Business :=
  MkBusiness (id b) (owner b) (displayName b) (legalName b) (cr b) (status b) (version b) (createdAt b) (updatedAt b) (review b) [].

Lemma toBusiness_row b : biz_ok b → toBusiness (biz_row b) = Ok (as_loaded b).
Proof.
  intros Hb. unfold toBusiness, biz_row. cbn [z_DisplayNameAr z_DisplayNameEn z_CrNumber z_Status].
  rewrite (bo_name b Hb). cbn [res_map_err res_bind]. rewrite (NewCRNumber_stored _ (bo_cr b Hb)). cbn [res_bind].
  rewrite ParseStatus_string. cbn [res_bind]. unfold RehydrateBusiness, as_loaded. simpl. rewrite zeroID_optionalID. by destruct (review b).
Qed.

Lemma as_loaded_ok b : biz_ok b → biz_ok (as_loaded b).
Proof. by intros []. Qed.

Lemma as_loaded_fresh b : events b = [] → as_loaded b = b.
Proof. intros E. destruct b; simpl in *. by subst. Qed.

Lemma Status_string_inj s s' : Status_string s = Status_string s' → s = s'.
Proof. intros E. pose proof (ParseStatus_string s) as H1. rewrite E, ParseStatus_string in H1. by injection H1 as ->. Qed.

Lemma digit_string_ok c : cr_ok c → digit_string 10 (digits c) = true.
Proof.
  intros [Hd Hl]. unfold digit_string. rewrite Hl. simpl. apply forallb_forall. intros x Hx%list_elem_of_In.
  unfold digits_only in Hd. rewrite Forall_forall in Hd. specialize (Hd _ Hx). by zbool.
Qed.

Lemma biz_row_checks b : biz_ok b → 0 < version b → biz_checks (biz_row b) = true.
Proof.
  intros Hb Hv. unfold biz_checks, biz_row. cbn [z_DisplayNameAr z_LegalName z_CrNumber z_Status z_Version z_RejectionReason z_SubmittedAt z_ReviewedAt z_ReviewedBy].
  rewrite (bool_decide_eq_false_2 (ar _ = "")) by apply (no_ar _ _ (bo_names b Hb)).
  rewrite (bool_decide_eq_false_2 (legalName b = "")) by apply (no_legal _ _ (bo_names b Hb)).
  rewrite digit_string_ok by apply (bo_cr b Hb). rewrite ParseStatus_string.
  rewrite (proj2 (Z.ltb_lt _ _) Hv), (proj2 (Z.leb_le _ 500) (bo_reason b Hb)), present_optionalID. cbn [negb andb is_ok].
  pose proof (bo_submitted b Hb) as Hs. pose proof (bo_reviewed b Hb) as Hr. apply andb_true_intro. split.
  - destruct (decide (status b = StatusDraft)) as [->|Hn]; [done|]. specialize (Hs Hn). destruct (SubmittedAt _); [|done]. by rewrite orb_true_r.
  - destruct (ReviewedAt (review b)), (ID_IsZero (ReviewedBy (review b))); simpl; naive_solver.
Qed.

(** *** Branches *)

Definition phone_text (p : PhoneNumber) : option string := if Phone_IsZero p then None else Some (e164 p).

Definition branch_row (b : Branch) : BranchRow :=
  let p := br_profile b in
  let rules := Rules (br_policy b) in
  MkBranchRow (br_id b) (br_business b) (ar (p_Name p)) (en (p_Name p)) (p_City p) (p_District p) (p_Address p)
    (lat (p_Location p)) (lng (p_Location p)) (phone_text (p_Phone p)) (p_Timezone p) (BranchStatus_string (br_status b))
    (minutes_of (MinLead rules)) (HorizonDays rules) (minutes_of (SlotInterval rules)) (minutes_of (Buffer rules)) (minutes_of (CancellationWindow rules))
    (AutoConfirm rules) (minutes_of (PendingExpiry rules)) (MaxActiveBookings rules) (br_version b) (br_createdAt b) (br_updatedAt b).

Definition branch_loaded (b : Branch) : Branch :=
  MkBranch (br_id b) (br_business b) (br_profile b) (br_policy b) (br_status b) (br_version b) (br_createdAt b) (br_updatedAt b) [].

Lemma branch_loaded_fresh b : br_events b = [] → branch_loaded b = b.
Proof. intros E. destruct b. cbn in E. by subst. Qed.

Lemma minutes_whole lo hi d : 0 ≤ lo → hi ≤ 20000 → whole_minutes_between lo hi d →
  lo ≤ minutes_of d ≤ hi ∧ int64 (minutes_of d * Minute) = d.
Proof.
  intros Hlo Hhi (m & -> & Hm). unfold minutes_of. rewrite Z.quot_mul by done. split; [done|].
  apply int64_id. unfold in_int64, min_int64, max_int64, Minute, Second, Millisecond, Microsecond. lia.
Qed.

Lemma slot_minutes d : d ∈ slotIntervals → minutes_of d ∈ [5; 10; 15; 20; 30; 60] ∧ int64 (minutes_of d * Minute) = d.
Proof.
  unfold slotIntervals. rewrite !elem_of_cons, elem_of_nil.
  intros [->|[->|[->|[->|[->|[->|[]]]]]]]; (split; [by apply (bool_decide_eq_true_1 _)|done]).
Qed.

Lemma slot_minutes_range m : m ∈ [5; 10; 15; 20; 30; 60] → 5 ≤ m ≤ 60.
Proof. rewrite !elem_of_cons, elem_of_nil. lia. Qed.

Lemma int32_fits z : 0 ≤ z ≤ max_int32 → toInt32 z = Ok z.
Proof. intros ?. unfold toInt32. by rewrite !(proj2 (Z.ltb_ge _ _)) by lia. Qed.
Lemma toInt32_inv z z' : toInt32 z = Ok z' → z' = z ∧ 0 ≤ z ≤ max_int32.
Proof. unfold toInt32. destruct (_ || _) eqn:E; [done|]. intros [= <-]. by bool_prop. Qed.
Lemma int16_fits z : 0 ≤ z ≤ 10000 → toInt16 z = Ok z.
Proof. intros ?. unfold toInt16, max_int16. by rewrite !(proj2 (Z.ltb_ge _ _)) by lia. Qed.

Lemma toBranchRow_ok `{TzLib} b : branch_ok b → 0 ≤ br_version b ≤ max_int32 → toBranchRow b = Ok (branch_row b).
Proof.
  intros Hb Hv. destruct (bk_policy b Hb) as [H1 H2 H3 H4 H5 H6 H7].
  apply minutes_whole in H1 as [H1 _]; [|lia..]. apply minutes_whole in H4 as [H4 _]; [|lia..].
  apply minutes_whole in H5 as [H5 _]; [|lia..]. apply minutes_whole in H6 as [H6 _]; [|lia..].
  apply slot_minutes in H3 as [H3%slot_minutes_range _]. unfold max_int32 in *.
  unfold toBranchRow. rewrite !int32_fits, !int16_fits by (unfold max_int32; lia). done.
Qed.

Lemma toBranch_row `{TzLib} b : branch_ok b → toBranch (branch_row b) = Ok (branch_loaded b).
Proof.
  intros Hb. unfold toBranch, branch_row.
  cbn [b_NameAr b_NameEn b_CityCode b_Latitude b_Longitude b_Phone b_Status b_MinLeadMinutes b_HorizonDays b_SlotIntervalMinutes b_BufferMinutes b_CancellationMinutes b_AutoConfirm b_PendingExpiryMinutes b_MaxActiveBookings].
  rewrite (bk_name b Hb). cbn [res_map_err res_bind].
  assert (ParseCityCode (p_City (br_profile b)) = Ok (p_City (br_profile b))) as -> by (apply ParseCityCode_ok; split; [done|apply (po_city _ (bk_profile b Hb))]).
  cbn [res_bind]. destruct (po_location _ (bk_profile b Hb)) as [Hg _].
  destruct (NewGeoPoint _ _) as [g|] eqn:Eg; [|done]. apply NewGeoPoint_same in Eg as ->. cbn [res_map_err res_bind].
  assert (∀ A (k : PhoneNumber → res biz_error A),
    res_bind match phone_text (p_Phone (br_profile b)) with None => Ok (MkPhone "") | Some s => res_map_err ErrPhone (NewPhoneNumber s) end k = k (p_Phone (br_profile b))) as ->.
  { intros A k. unfold phone_text. destruct (bk_phone b Hb) as [Hz|Hp].
    - rewrite Hz. unfold Phone_IsZero in Hz. bool_prop. simpl. f_equal. destruct (p_Phone _); simpl in *; by subst.
    - destruct (Phone_IsZero _) eqn:Hz; [unfold Phone_IsZero in Hz; bool_prop; destruct (p_Phone _); simpl in *; by subst|].
      by rewrite Hp. }
  destruct (bk_policy b Hb) as [H1 H2 H3 H4 H5 H6 H7] eqn:E. clear E.
  rewrite (proj2 (minutes_whole 0 10080 _ ltac:(lia) ltac:(lia) H1)), (proj2 (minutes_whole 0 60 _ ltac:(lia) ltac:(lia) H4)),
    (proj2 (minutes_whole 0 2880 _ ltac:(lia) ltac:(lia) H5)), (proj2 (minutes_whole 5 120 _ ltac:(lia) ltac:(lia) H6)), (proj2 (slot_minutes _ H3)).
  assert (NewBookingPolicy (MkRules (MinLead (Rules (br_policy b))) (HorizonDays (Rules (br_policy b))) (SlotInterval (Rules (br_policy b)))
    (Buffer (Rules (br_policy b))) (CancellationWindow (Rules (br_policy b))) (AutoConfirm (Rules (br_policy b))) (PendingExpiry (Rules (br_policy b)))
    (MaxActiveBookings (Rules (br_policy b)))) = Ok (br_policy b)) as ->.
  { apply NewBookingPolicy_ok. pose proof (bk_policy b Hb). by destruct (br_policy b) as [[]]. }
  cbn [res_bind]. rewrite ParseBranchStatus_string. cbn [res_bind]. unfold RehydrateBranch, branch_loaded. cbn. by destruct (br_profile b) as [? ? ? ? []].
Qed.

(** Floats that are no less are no smaller. *)
Lemma SFltb_false a b : a ≠ S754_nan → b ≠ S754_nan → SFltb a b = false → SFleb b a = true.
Proof.
  unfold SFltb, SFleb. intros Ha Hb.
  assert (Hanti : SFcompare b a = match SFcompare a b with Some c => Some (CompOpp c) | None => None end).
  { destruct a as [[]|[]| |[] ma ea], b as [[]|[]| |[] mb eb]; try done; simpl;
      (rewrite (Z.compare_antisym ea eb); destruct (ea ?= eb); simpl; try done;
       change (Pos.compare_cont Eq mb ma) with (mb ?= ma)%positive; change (Pos.compare_cont Eq ma mb) with (ma ?= mb)%positive;
       rewrite (Pos.compare_antisym ma mb); by destruct (ma ?= mb)%positive). }
  assert (Hsome : is_Some (SFcompare a b)) by (destruct a as [[]|[]| |[] ? ?], b as [[]|[]| |[] ? ?]; try done; by eexists).
  rewrite Hanti. destruct Hsome as [c ->]. by destruct c.
Qed.

Lemma finite_not_nan f : isFinite f = true → f ≠ S754_nan.
Proof. by destruct f. Qed.

Lemma geo_between la ln : is_ok (NewGeoPoint la ln) = true → between_floats (-90) 90 la = true ∧ between_floats (-180) 180 ln = true.
Proof.
  unfold NewGeoPoint, between_floats. destruct (_ || _) eqn:E; [done|]. intros _. bool_prop.
  assert (∀ z, z ∈ [-90; 90; -180; 180] → float_of z ≠ S754_nan).
  { intros z Hz. rewrite !elem_of_cons, elem_of_nil in Hz. destruct Hz as [->|[->|[->|[->|[]]]]]; by vm_compute. }
  split; apply andb_true_intro; split; apply SFltb_false; try done; first [by apply finite_not_nan|apply H; set_solver].
Qed.

Lemma city_codes c : is_ok (ParseCity c) = true → city_check c = true.
Proof.
  rewrite ParseCity_codes. intros Hc%bool_decide_eq_true. apply list_elem_of_fmap in Hc as (x & -> & Hx).
  assert (Hall : forallb (λ c, city_check (city_code c)) Cities = true) by by vm_compute.
  rewrite forallb_forall in Hall. apply Hall. by apply list_elem_of_In.
Qed.

Lemma branch_row_checks `{TzLib} b : branch_ok b → 0 < br_version b → branch_checks (branch_row b) = true.
Proof.
  intros Hb Hv. destruct (bk_policy b Hb) as [H1 H2 H3 H4 H5 H6 H7].
  apply minutes_whole in H1 as [H1 _]; [|lia..]. apply minutes_whole in H4 as [H4 _]; [|lia..].
  apply minutes_whole in H5 as [H5 _]; [|lia..]. apply minutes_whole in H6 as [H6 _]; [|lia..].
  apply slot_minutes in H3 as [H3 _]. pose proof (bk_profile b Hb) as Hp. destruct (geo_between _ _ (proj1 (po_location _ Hp))) as [G1 G2].
  unfold branch_checks, branch_row.
  cbn [b_NameAr b_CityCode b_Address b_Latitude b_Longitude b_Status b_MinLeadMinutes b_HorizonDays b_SlotIntervalMinutes b_BufferMinutes b_CancellationMinutes b_PendingExpiryMinutes b_MaxActiveBookings b_Version].
  rewrite (bool_decide_eq_false_2 (ar _ = "")) by apply (po_ar _ Hp). rewrite (bool_decide_eq_false_2 (p_Address _ = "")) by apply (po_address _ Hp).
  rewrite (city_codes _ (po_city _ Hp)), G1, G2, ParseBranchStatus_string. rewrite (bool_decide_eq_true_2 _ H3). cbn [negb andb is_ok]. by zbool.
Qed.

(** *** Staff and invitations *)

Definition staff_row (m : StaffMember) : StaffRow :=
  MkStaffRow (sm_id m) (sm_business m) (Some (sm_user m)) (Role_string (sm_role m)) (sm_active m) (sm_createdAt m) (sm_displayName m).

Lemma toStaffMember_row m : toStaffMember (sm_branches m) (staff_row m) = Ok m.
Proof. unfold toStaffMember, staff_row. cbn [s_Role]. rewrite ParseRole_string. by destruct m. Qed.

Lemma Role_string_inj r r' : Role_string r = Role_string r' → r = r'.
Proof. by destruct r, r'. Qed.

(** An invitation's row, whatever became of it. *)
Definition invitation_row (i : Invitation) : InvRow :=
  MkInvRow (inv_id i) (inv_business i) (e164 (inv_phone i)) (inv_name i) (Role_string (inv_role i)) (inv_branches i) (inv_tokenHash i)
    (inv_status i) (inv_invitedBy i) (inv_createdAt i) (inv_expiresAt i) (inv_acceptedAt i) (optionalID (inv_acceptedBy i)).

Definition phone_ok (p : PhoneNumber) : Prop := NewPhoneNumber (e164 p) = Ok p.

(** What every invitation the module keeps satisfies. *)
Record inv_ok (i : Invitation) : Prop := {
  io_phone : phone_ok (inv_phone i);
  io_role : inv_role i ≠ RoleOwner;
  io_name : inv_name i ≠ "" ∧ RuneCountInString (inv_name i) ≤ MaxStaffNameLen;
  io_branches : NoDup (inv_branches i) ∧ inv_branches i ≠ [] }.

Lemma toInvitation_row i : phone_ok (inv_phone i) → toInvitation (invitation_row i) = Ok i.
Proof.
  intros Hp. unfold toInvitation, invitation_row. cbn [i_Phone i_Role]. rewrite Hp. cbn [res_map_err res_bind].
  rewrite ParseRole_string. cbn [res_bind]. destruct i; simpl. by rewrite zeroID_optionalID.
Qed.

Lemma inv_row_new i : inv_acceptedAt i = None → inv_acceptedBy i = MkID 0 → inv_row i = invitation_row i.
Proof. intros H1 H2. unfold inv_row, invitation_row. by rewrite H1, H2. Qed.

Lemma NewInvitation_ok `{UuidLib} iid business x hash by_ now i :
  NewInvitation iid business x hash by_ now = Ok i → NewPhoneNumber (e164 (si_Phone x)) = Ok (si_Phone x) →
  inv_ok i ∧ inv_business i = business ∧ inv_id i = iid ∧ inv_phone i = si_Phone x ∧ inv_status i = InvitationPending ∧ inv_createdAt i = dbTime now
  ∧ inv_expiresAt i = dbTime now + InvitationTTL ∧ inv_acceptedAt i = None ∧ inv_acceptedBy i = MkID 0 ∧ inv_tokenHash i = hash ∧ inv_role i = si_Role x
  ∧ (∀ b, b ∈ inv_branches i ↔ b ∈ si_Branches x).
Proof.
  unfold NewInvitation. intros Hi Hp. res_inv. bool_prop. split_and!; try done.
  - constructor; simpl; try done. split.
    + apply (Compact_NoDup by_text); [apply by_text_anti|]. apply sort_by_sorted; [apply by_text_total|apply by_text_trans].
    + intros E. rewrite E in *. done.
  - intros b. simpl. by rewrite elem_of_Compact, elem_of_sort_by.
Qed.

(** ** The invariant *)

Definition role_is (s : string) (r : StaffRow) : bool := bool_decide (s_Role r = s).

(** The businesses someone registered that are not approved yet. *)
Definition open_of (db : BizDB) (u : UserID) : Z := count_where (open_registration u) (businesses db).

Record db_ok `{TzLib} (db : BizDB) : Prop := {
  do_business : ∀ k r, businesses db !! k = Some r → ∃ b, biz_ok b ∧ id b = k ∧ r = biz_row b ∧ 1 ≤ version b ≤ max_int32 ∧ events b = [];
  do_owner_cr : unique same_owner_cr (businesses db);
  do_claim : unique same_claim (businesses db);
  do_open : ∀ u, open_of db u ≤ MaxOpenRegistrations;
  do_staff : ∀ k r, staff_members db !! k = Some r →
    ∃ m, r = staff_row m ∧ sm_id m = k ∧ sm_active m = true ∧ ∃ b, businesses db !! sm_business m = Some b ∧ (sm_role m = RoleOwner → sm_user m = z_OwnerUserID b);
  do_user : unique same_user (staff_members db);
  do_ownership : unique same_ownership (staff_members db);
  do_owner : ∀ k b, businesses db !! k = Some b → ∃ st r, staff_members db !! st = Some r ∧ s_BusinessID r = k ∧ s_Role r = "owner";
  do_branch_owners : ∀ st, is_Some (staff_branches db !! st) → is_Some (staff_members db !! st);
  do_staff_branches : ∀ st b, b ∈ branches_of db st → ∃ r br, staff_members db !! st = Some r ∧ branches db !! b = Some br ∧ b_BusinessID br = s_BusinessID r;
  do_branch : ∀ k r, branches db !! k = Some r →
    ∃ b, branch_ok b ∧ br_id b = k ∧ r = branch_row b ∧ 1 ≤ br_version b ≤ max_int32 ∧ br_events b = [] ∧ is_Some (businesses db !! br_business b);
  do_published : ∀ k r, branches db !! k = Some r → b_Status r = "published" → active_business db (b_BusinessID r) = true;
  do_documents : ∀ k, count_documents db k ≤ MaxVerificationDocuments;
  do_invitation : ∀ k r, invitations db !! k = Some r → ∃ i, inv_ok i ∧ inv_id i = k ∧ r = invitation_row i;
  do_pending : unique same_pending (invitations db);
  do_token : unique same_token (invitations db) }.

Lemma empty_biz_db_ok `{TzLib} : db_ok empty_biz_db.
Proof.
  constructor; simpl; try apply unique_empty; try done; try (intros ???; by rewrite lookup_empty in *).
  - intros st [? Hst]. by rewrite lookup_empty in Hst.
  - intros st b. unfold branches_of. simpl. rewrite lookup_empty. simpl. by intros ?%elem_of_nil.
Qed.

(** *** Loading what is stored *)

Section Loading.
Context `{TzLib}.

Lemma ByID_ok db k : db_ok db → businesses db !! k = None ∧ ByID db k = Err ErrNotFound ∨
  ∃ b, businesses db !! k = Some (biz_row b) ∧ ByID db k = Ok b ∧ biz_ok b ∧ id b = k.
Proof.
  intros Hdb. unfold ByID. destruct (businesses db !! k) as [r|] eqn:E; [right|by left].
  destruct (do_business db Hdb k r E) as (b & Hb & Hk & -> & _ & He). exists b. rewrite toBusiness_row by done. by rewrite as_loaded_fresh.
Qed.

Lemma find_branch_some db business bid r : find_branch db business bid = Some r ↔ branches db !! bid = Some r ∧ b_BusinessID r = business.
Proof. unfold find_branch. destruct (branches db !! bid) as [x|]; [|naive_solver]. case_bool_decide; naive_solver. Qed.

Lemma Branches_ByID_ok db business bid : db_ok db →
  find_branch db business bid = None ∧ Branches_ByID db business bid = Err ErrNotFound ∨
  ∃ b, branches db !! bid = Some (branch_row b) ∧ br_business b = business ∧ br_id b = bid ∧ Branches_ByID db business bid = Ok b ∧ branch_ok b.
Proof.
  intros Hdb. unfold Branches_ByID. destruct (find_branch db business bid) as [r|] eqn:E; [right|by left].
  apply find_branch_some in E as [E Hbus]. destruct (do_branch db Hdb bid r E) as (b & Hb & Hk & -> & _ & He & _).
  exists b. rewrite toBranch_row by done. by rewrite branch_loaded_fresh.
Qed.

(** A person's membership: their one row. *)
Lemma Membership_ok db business user : db_ok db →
  Membership db business user = Err ErrNotFound ∧ (∀ k m, staff_members db !! k = Some (staff_row m) → sm_business m = business → sm_user m ≠ user) ∨
  ∃ m, Membership db business user = Ok m ∧ staff_members db !! sm_id m = Some (staff_row m) ∧ sm_business m = business ∧ sm_user m = user
    ∧ sm_active m = true ∧ sm_branches m = branches_of db (sm_id m).
Proof.
  intros Hdb. unfold Membership. destruct (rows_where _ _) as [|r l] eqn:E.
  - left. split; [done|]. intros k m Hk Hbus Hu. rewrite rows_where_nil in E. specialize (E _ _ Hk). simpl in E. subst. by rewrite bool_decide_eq_true_2 in E.
  - right. apply rows_where_cons in E as (k & Hk & Hp). bool_prop. destruct Hp as [Hbus Hu].
    destruct (do_staff db Hdb k r Hk) as (m & -> & Hid & Hact & _). simpl in Hbus, Hu. injection Hu as Hu.
    exists (MkStaff (sm_id m) (sm_business m) (sm_user m) (sm_role m) (sm_active m) (sm_createdAt m) (sm_displayName m) (branches_of db (sm_id m))).
    subst k. split_and!; simpl; try done.
    unfold load_member. apply (toStaffMember_row (MkStaff (sm_id m) (sm_business m) (sm_user m) (sm_role m) (sm_active m) (sm_createdAt m) (sm_displayName m) (branches_of db (sm_id m)))).
Qed.
End Loading.

(** ** Transactions keep the invariant *)

Section Keeps.
Context `{TzLib}.

(** Tables that were not written keep their part of the invariant. *)
Lemma set_invitations_ok db t :
  db_ok db → (∀ k r, t !! k = Some r → ∃ i, inv_ok i ∧ inv_id i = k ∧ r = invitation_row i) → unique same_pending t → unique same_token t →
  db_ok (set_invitations db t).
Proof. intros [] ???. by constructor. Qed.

Lemma set_documents_ok db t : db_ok db → (∀ k, count_documents (set_documents db t) k ≤ MaxVerificationDocuments) → db_ok (set_documents db t).
Proof. intros [] ?. by constructor. Qed.

Lemma add_outbox_ok db out : db_ok db → db_ok (add_outbox db out).
Proof. intros []. by constructor. Qed.

Lemma ParseBranchStatus_eq st : BranchStatus_string st = "published" → st = BranchPublished.
Proof. by destruct st. Qed.

(** A branch table with one row more, or one changed. *)
Lemma set_branch_ok db b :
  db_ok db → branch_ok b → 1 ≤ br_version b ≤ max_int32 → is_Some (businesses db !! br_business b) →
  (∀ r, branches db !! br_id b = Some r → b_BusinessID r = br_business b) →
  (br_status b = BranchPublished → active_business db (br_business b) = true) →
  db_ok (set_branches db (<[br_id b := branch_row b]> (branches db))).
Proof.
  intros [] Hb Hv Hbus Hsame Hpub. constructor; try done.
  - intros st br Hin. destruct (do_staff_branches0 st br Hin) as (r & x & Hr & Hx & Hbx). exists r. simpl.
    destruct (decide (br = br_id b)) as [->|Hne].
    + exists (branch_row b). rewrite lookup_insert_eq. split_and!; try done. simpl. rewrite <- Hbx. symmetry. by apply Hsame.
    + exists x. by rewrite lookup_insert_ne.
  - simpl. intros k r Hr. apply lookup_insert_Some in Hr as [[<- <-]|[_ Hr]]; [|by eapply do_branch0].
    exists (branch_loaded b). split_and!; try done; [by eapply branch_ok_same; [..|exact Hb]|apply Hv..].
  - simpl. intros k r Hr Hp. apply lookup_insert_Some in Hr as [[<- <-]|[_ Hr]]; [|by eapply do_published0].
    apply Hpub. simpl in Hp. by apply ParseBranchStatus_eq in Hp.
Qed.

(** *** Staff *)

Definition with_staff (db : BizDB) (m : StaffMember) : BizDB :=
  set_staff db (<[sm_id m := staff_row m]> (staff_members db))
    (if (length (sm_branches m) =? 0)%nat then staff_branches db else <[sm_id m := sm_branches m]> (staff_branches db)).

Lemma insertStaff_effect db m db' :
  insertStaff db m = StaffInserted db' →
  db' = with_staff db m ∧ staff_members db !! sm_id m = None ∧ is_Some (businesses db !! sm_business m)
  ∧ conflicts same_ownership (staff_members db) (sm_id m) (staff_row m) = false ∧ conflicts same_user (staff_members db) (sm_id m) (staff_row m) = false
  ∧ (∀ b, b ∈ sm_branches m → ∃ r, branches db !! b = Some r ∧ b_BusinessID r = sm_business m).
Proof.
  unfold insertStaff. fold (staff_row m). destruct (_ || conflicts same_ownership _ _ _) eqn:E1; [done|].
  destruct (conflicts same_user _ _ _) eqn:E2; [done|]. destruct (_ || negb (forallb _ _)) eqn:E3; [done|]. intros [= <-]. bool_prop.
  rewrite <- not_eq_None_Some. split_and!; try done.
  - destruct (staff_members db !! sm_id m) eqn:E; [|done]. exfalso. eauto.
  - intros b Hb. match goal with H : forallb _ _ = true |- _ => rewrite forallb_forall in H; specialize (H b (proj1 (list_elem_of_In _ _) Hb)); rename H into Hf end.
    destruct (branches db !! b) as [r|]; [|done]. exists r. by bool_prop.
Qed.

Lemma same_user_sym r o : same_user r o = same_user o r.
Proof. unfold same_user. apply bool_decide_ext. split; intros (H1 & H2 & H3); by rewrite <- H2. Qed.
Lemma same_ownership_sym r o : same_ownership r o = same_ownership o r.
Proof. unfold same_ownership. apply bool_decide_ext. naive_solver. Qed.

(** A new member of an existing business. *)
Lemma with_staff_ok db m :
  db_ok db → staff_members db !! sm_id m = None → sm_active m = true → is_Some (businesses db !! sm_business m) → sm_role m ≠ RoleOwner →
  conflicts same_ownership (staff_members db) (sm_id m) (staff_row m) = false → conflicts same_user (staff_members db) (sm_id m) (staff_row m) = false →
  (∀ b, b ∈ sm_branches m → ∃ r, branches db !! b = Some r ∧ b_BusinessID r = sm_business m) →
  db_ok (with_staff db m).
Proof.
  intros [] Hnew Hact [bz Hbz] Hrole Hown Huser Hbr.
  assert (Hnob : staff_branches db !! sm_id m = None).
  { destruct (staff_branches db !! sm_id m) eqn:E; [|done]. destruct (do_branch_owners0 (sm_id m)) as [? Hs]; [eauto|congruence]. }
  constructor; try done; simpl.
  - intros k r Hk. apply lookup_insert_Some in Hk as [[<- <-]|[_ Hk]]; [|by eapply do_staff0]. exists m. repeat (split; [done|]). by exists bz.
  - apply unique_insert; [apply same_user_sym|done..].
  - apply unique_insert; [apply same_ownership_sym|done..].
  - intros k b Hk. destruct (do_owner0 k b Hk) as (st & r & Hr & ? & ?). exists st, r. rewrite lookup_insert_ne; [done|]. intros <-. congruence.
  - intros st Hst. destruct (decide (st = sm_id m)) as [->|Hne]; [rewrite lookup_insert_eq; eauto|]. rewrite lookup_insert_ne by done.
    apply do_branch_owners0. destruct (_ =? _)%nat; [done|by rewrite lookup_insert_ne in Hst].
  - intros st b Hin. destruct (decide (st = sm_id m)) as [->|Hne].
    + assert (Hb : b ∈ sm_branches m).
      { unfold branches_of, with_staff in Hin. simpl in Hin. destruct (_ =? _)%nat; [rewrite Hnob in Hin; by apply elem_of_nil in Hin|by rewrite lookup_insert_eq in Hin]. }
      destruct (Hbr b Hb) as (r & Hr & Hrb). exists (staff_row m), r. by rewrite lookup_insert_eq.
    + assert (Hb : b ∈ branches_of db st).
      { unfold branches_of, with_staff in *. simpl in Hin. destruct (_ =? _)%nat; [done|]. by rewrite lookup_insert_ne in Hin by done. }
      destruct (do_staff_branches0 st b Hb) as (r & br & Hr & ? & ?). exists r, br. rewrite lookup_insert_ne by done. done.
Qed.

(** *** Businesses *)

Definition sound_change (fn : Business → res biz_error Business) : Prop :=
  ∀ b b', biz_ok b → fn b = Ok b' → biz_ok b' ∧ status b ≠ StatusActive ∧ id b' = id b ∧ owner b' = owner b ∧ cr b' = cr b ∧ createdAt b' = createdAt b
    ∧ version b' = int64 (version b + 1).

Lemma apply_op_sound op now : reviewer_known op → sound_change (λ b, apply_op op b now).
Proof.
  intros Hr b b' Hb Hop. pose proof (op_keeps op b now b' Hr Hb Hop) as Hb'.
  apply op_ok in Hop as (Hl & _ & Hv & _ & Hid & Ho & Hc & Hcr & _). split_and!; try done. by inversion Hl.
Qed.

Lemma update_biz_row_eq b b' : id b' = id b → owner b' = owner b → cr b' = cr b → createdAt b' = createdAt b →
  update_biz_row (biz_row b) b' (version b') = biz_row b'.
Proof. intros H1 H2 H3 H4. unfold update_biz_row, biz_row. simpl. by rewrite H1, H2, H3, H4. Qed.

Lemma next_version v : 1 ≤ v ≤ max_int32 → int64 (v + 1) = v + 1.
Proof. intros ?. apply int64_id. unfold in_int64, min_int64, max_int64, max_int32 in *. lia. Qed.

Lemma update_effect db bid expected fn b' db' :
  db_ok db → sound_change fn → update db bid expected fn = Ok (b', db') →
  ∃ b, businesses db !! bid = Some (biz_row b) ∧ biz_ok b ∧ events b = [] ∧ id b = bid ∧ version b = expected ∧ fn b = Ok b' ∧ biz_ok b'
    ∧ id b' = bid ∧ owner b' = owner b ∧ status b ≠ StatusActive ∧ 1 ≤ version b' ≤ max_int32
    ∧ conflicts same_claim (businesses db) bid (biz_row b') = false
    ∧ biz_checks (biz_row b') = true ∧ cr b' = cr b
    ∧ db' = publish (set_businesses db (<[bid := biz_row b']> (businesses db))) (events b').
Proof.
  intros Hdb Hfn. unfold update. destruct (toInt32 expected) as [e|] eqn:Ee; [|done]. apply toInt32_inv in Ee as [-> He].
  destruct (businesses db !! bid) as [r|] eqn:Er; [|done]. destruct (do_business db Hdb bid r Er) as (b & Hb & Hid & -> & Hv & Hev).
  intros Hu. apply res_bind_ok in Hu as (? & Hver%ensure_ok & Hu). apply Z.eqb_eq in Hver. simpl in Hver.
  rewrite toBusiness_row in Hu by done. cbn [res_bind] in Hu. rewrite as_loaded_fresh in Hu by done.
  apply res_bind_ok in Hu as (b1 & Hf & Hu). apply res_bind_ok in Hu as (v & Hv1 & Hu). apply toInt32_inv in Hv1 as [-> Hv1].
  destruct (Hfn b b1 Hb Hf) as (Hb1 & Hst & Hi & Ho & Hc & Hcr & Hvv). rewrite next_version in Hvv by done.
  apply res_bind_ok in Hu as (db1 & Hupd & [= <- <-]). unfold UpdateBusiness in Hupd. rewrite Hi, Hid, Er in Hupd.
  destruct (negb _); [done|]. rewrite update_biz_row_eq in Hupd by done. res_inv. bool_prop.
  exists b. split_and!; try done; try congruence; lia.
Qed.

Lemma active_business_spec db k : active_business db k = true ↔ ∃ r, businesses db !! k = Some r ∧ z_Status r = "active".
Proof. unfold active_business. destruct (businesses db !! k); [|naive_solver]. rewrite bool_decide_eq_true. naive_solver. Qed.

Lemma open_row b : biz_ok b → status b ≠ StatusActive → open_registration (owner b) (biz_row b) = true.
Proof.
  intros Hb Hs. unfold open_registration. simpl. rewrite bool_decide_eq_true_2 by done. apply bool_decide_eq_true.
  pose proof (bo_never_suspended b Hb). rewrite !elem_of_cons. destruct (status b); simpl; naive_solver.
Qed.

(** Only an approved business is not an open registration. *)
Lemma open_registration_row u b : biz_ok b → open_registration u (biz_row b) = bool_decide (owner b = u) && negb (bool_decide (status b = StatusActive)).
Proof.
  intros Hb. unfold open_registration. simpl. f_equal. pose proof (bo_never_suspended b Hb). destruct (status b); done.
Qed.

Lemma set_business_ok db b b' :
  db_ok db → businesses db !! id b = Some (biz_row b) → biz_ok b → biz_ok b' → id b' = id b → owner b' = owner b → cr b' = cr b → status b ≠ StatusActive →
  1 ≤ version b' ≤ max_int32 → conflicts same_claim (businesses db) (id b) (biz_row b') = false →
  db_ok (set_businesses db (<[id b := biz_row b']> (businesses db))).
Proof.
  intros Hdb Hr Hb Hb' Hi Ho Hc Hs Hv Hcl. destruct Hdb. constructor; try done; simpl.
  - intros k r Hk. apply lookup_insert_Some in Hk as [[<- <-]|[_ Hk]]; [|by eapply do_business0].
    exists (as_loaded b'). split_and!; try done; [by apply as_loaded_ok|apply Hv..].
  - apply unique_insert; [|done|].
    + intros x y. unfold same_owner_cr. apply bool_decide_ext. naive_solver.
    + apply conflicts_false. intros k o Hko Hne. specialize (do_owner_cr0 (id b) k _ o Hr Hko (not_eq_sym Hne)).
      unfold same_owner_cr, biz_row in *. simpl in *. by rewrite Ho, Hc.
  - apply unique_insert; [|done|done]. intros x y. unfold same_claim. rewrite (andb_comm (claims x)). f_equal. apply bool_decide_ext. naive_solver.
  - intros u. specialize (do_open0 u). unfold open_of in *. simpl.
    pose proof (count_where_replace (open_registration u) _ _ _ (biz_row b') Hr) as Hcount.
    rewrite (open_registration_row u b Hb), (open_registration_row u b' Hb'), Ho, (bool_decide_eq_false_2 (status b = _) Hs) in Hcount.
    destruct (bool_decide (owner b = u)), (bool_decide (status b' = StatusActive)); simpl in Hcount; lia.
  - intros k r Hk. destruct (do_staff0 k r Hk) as (m & Hm & Hid & Ha & bz & Hbz & Hown). exists m. split_and!; try done.
    destruct (decide (sm_business m = id b)) as [E|Hne].
    + exists (biz_row b'). rewrite E, lookup_insert_eq. split; [done|]. intros Hrole. rewrite E, Hr in Hbz. injection Hbz as <-. simpl in *. rewrite Ho. by apply Hown.
    + exists bz. by rewrite lookup_insert_ne.
  - intros k r Hk. apply lookup_insert_Some in Hk as [[<- <-]|[_ Hk]]; [by eapply do_owner0|by eapply do_owner0].
  - intros k r Hk. destruct (do_branch0 k r Hk) as (x & ? & ? & ? & ? & ? & Hx). exists x. repeat (split; [done|]).
    destruct (decide (br_business x = id b)) as [->|]; [by rewrite lookup_insert_eq|by rewrite lookup_insert_ne].
  - intros k r Hk Hp. specialize (do_published0 k r Hk Hp). apply active_business_spec in do_published0 as (bz & Hbz & Hst).
    apply active_business_spec. exists bz. split; [|done]. simpl. rewrite lookup_insert_ne; [done|]. intros E. rewrite <- E, Hr in Hbz. injection Hbz as <-.
    apply Hs. by apply Status_string_inj.
Qed.

Lemma update_keeps db bid expected fn b' db' : db_ok db → sound_change fn → update db bid expected fn = Ok (b', db') → db_ok db'.
Proof.
  intros Hdb Hfn Hu. apply update_effect in Hu as (b & Hr & Hb & He & Hid & _ & _ & Hb' & Hi & Ho & Hs & Hv & Hc & _ & Hcr & ->); [|done..].
  apply add_outbox_ok. subst bid. by apply set_business_ok.
Qed.

Lemma same_owner_cr_sym r o : same_owner_cr r o = same_owner_cr o r.
Proof. unfold same_owner_cr. apply bool_decide_ext. naive_solver. Qed.
Lemma same_claim_sym r o : same_claim r o = same_claim o r.
Proof. unfold same_claim. rewrite (andb_comm (claims r)). f_equal. apply bool_decide_ext. naive_solver. Qed.

(** A registration: the draft and its owner, together. *)
Definition registered (db : BizDB) (b : Business) (m : StaffMember) : BizDB :=
  with_staff (set_businesses db (<[id b := biz_row b]> (businesses db))) m.

Lemma Register_effect db b m db' :
  review b = no_review → Register db b m = Ok db' →
  db' = registered db b m ∧ businesses db !! id b = None ∧ staff_members db !! sm_id m = None ∧ open_of db (owner b) < MaxOpenRegistrations
  ∧ conflicts same_owner_cr (businesses db) (id b) (biz_row b) = false ∧ conflicts same_claim (businesses db) (id b) (biz_row b) = false
  ∧ conflicts same_ownership (staff_members db) (sm_id m) (staff_row m) = false ∧ conflicts same_user (staff_members db) (sm_id m) (staff_row m) = false
  ∧ 0 ≤ version b ≤ max_int32.
Proof.
  intros Hrev. unfold Register. intros Hreg. apply res_bind_ok in Hreg as (v & Hv & Hreg). apply toInt32_inv in Hv as [-> Hv].
  change (MkBizRow _ _ _ _ _ _ _ _ _ _ _ _ _ _) with (MkBizRow (id b) (owner b) (ar (displayName b)) (en (displayName b)) (legalName b) (digits (cr b))
    (Status_string (status b)) (version b) (createdAt b) (updatedAt b) None None None "") in Hreg.
  assert (Hrow : MkBizRow (id b) (owner b) (ar (displayName b)) (en (displayName b)) (legalName b) (digits (cr b))
    (Status_string (status b)) (version b) (createdAt b) (updatedAt b) None None None "" = biz_row b) by (unfold biz_row; by rewrite Hrev).
  rewrite Hrow in Hreg. clear Hrow. res_inv. destruct (insertStaff _ _) as [db1| |] eqn:Ei; [|done..]. injection H4 as <-.
  apply insertStaff_effect in Ei as (-> & Hn & _ & Ho & Hu & _). bool_prop. by repeat (split; [done|]).
Qed.

Lemma Register_keeps db b m db' :
  db_ok db → biz_ok b → status b = StatusDraft → version b = 1 → review b = no_review → events b = [] →
  sm_business m = id b → sm_user m = owner b → sm_role m = RoleOwner → sm_active m = true → sm_branches m = [] →
  Register db b m = Ok db' → db_ok db'.
Proof.
  intros Hdb Hb Hst Hver Hrev Hev Hmb Hmu Hmr Hact Hbrs Hreg.
  apply Register_effect in Hreg as (-> & Hnb & Hns & Hopen & Hcr & Hcl & Hown & Hus & Hv); [|done]. destruct Hdb.
  unfold registered, with_staff. rewrite Hbrs. cbn [length Nat.eqb]. constructor; try done; simpl.
  - intros k r Hk. apply lookup_insert_Some in Hk as [[<- <-]|[_ Hk]]; [|by eapply do_business0].
    exists b. rewrite Hver. by repeat (split; [done|]).
  - apply unique_insert; [apply same_owner_cr_sym|done..].
  - apply unique_insert; [apply same_claim_sym|done..].
  - intros u. unfold open_of. simpl. rewrite count_where_new by done. rewrite open_registration_row by done.
    specialize (do_open0 u). unfold open_of, MaxOpenRegistrations in *.
    destruct (decide (owner b = u)) as [<-|]; [rewrite bool_decide_eq_true_2 by done|rewrite bool_decide_eq_false_2 by done; simpl; lia].
    destruct (negb _); simpl; lia.
  - intros k r Hk. apply lookup_insert_Some in Hk as [[<- <-]|[_ Hk]].
    + exists m. repeat (split; [done|]). exists (biz_row b). rewrite Hmb, lookup_insert_eq. split; [done|]. by intros _.
    + destruct (do_staff0 k r Hk) as (x & ? & ? & ? & bz & Hbz & ?). exists x. repeat (split; [done|]). exists bz.
      rewrite lookup_insert_ne; [done|]. intros E. by rewrite <- E, Hnb in Hbz.
  - apply unique_insert; [apply same_user_sym|done..].
  - apply unique_insert; [apply same_ownership_sym|done..].
  - intros k r Hk. apply lookup_insert_Some in Hk as [[<- <-]|[_ Hk]].
    + exists (sm_id m), (staff_row m). rewrite lookup_insert_eq. simpl. by rewrite Hmb, Hmr.
    + destruct (do_owner0 k r Hk) as (st & x & Hx & ? & ?). exists st, x. rewrite lookup_insert_ne; [done|]. intros <-. congruence.
  - intros st Hs. specialize (do_branch_owners0 st Hs). destruct (decide (sm_id m = st)) as [<-|]; [by rewrite lookup_insert_eq|by rewrite lookup_insert_ne].
  - intros st x Hin. destruct (do_staff_branches0 st x Hin) as (r & br & Hr & ? & ?). exists r, br. rewrite lookup_insert_ne; [done|]. intros <-. congruence.
  - intros k r Hk. destruct (do_branch0 k r Hk) as (x & ? & ? & ? & ? & ? & Hx). exists x. repeat (split; [done|]).
    destruct (decide (id b = br_business x)) as [->|]; [by rewrite lookup_insert_eq|by rewrite lookup_insert_ne].
  - intros k r Hk Hp. specialize (do_published0 k r Hk Hp). apply active_business_spec in do_published0 as (bz & Hbz & ?). apply active_business_spec. exists bz.
    simpl. rewrite lookup_insert_ne; [done|]. intros E. by rewrite <- E, Hnb in Hbz.
Qed.

(** *** Branches *)

Definition sound_branch_change (db : BizDB) (business : BusinessID) (fn : Branch → res biz_error Branch) : Prop :=
  ∀ b b', branch_ok b → fn b = Ok b' → branch_ok b' ∧ br_id b' = br_id b ∧ br_business b' = br_business b ∧ br_createdAt b' = br_createdAt b
    ∧ br_version b' = int64 (br_version b + 1)
    ∧ (br_status b' = BranchPublished → br_status b = BranchPublished ∨ active_business db business = true).

Lemma Branches_Add_effect db b allow db' :
  branch_ok b → Branches_Add db b allow = Ok db' →
  db' = set_branches db (<[br_id b := branch_row b]> (branches db)) ∧ branches db !! br_id b = None ∧ is_Some (businesses db !! br_business b)
  ∧ 1 ≤ br_version b ≤ max_int32 ∧ allow (count_branches db (br_business b)) = Ok tt.
Proof.
  intros Hb. unfold Branches_Add. intros Ha. apply res_bind_ok in Ha as (row & Hrow & Ha).
  assert (Hv : 0 ≤ br_version b ≤ max_int32).
  { unfold toBranchRow in Hrow. apply res_bind_ok in Hrow as (v & Hv & _). by apply toInt32_inv in Hv as [_ Hv]. }
  rewrite toBranchRow_ok in Hrow by done. injection Hrow as <-. unfold lockBusiness in Ha. destruct (businesses db !! br_business b); [|done].
  cbn [res_bind] in Ha. destruct (allow _) as [[]|] eqn:Eal; [|done]. cbn [res_bind] in Ha. apply res_bind_ok in Ha as ([] & Hc & [= <-]).
  apply ensure_ok in Hc. bool_prop. split_and!; try done; [|lia].
  match goal with H : branch_checks _ = true |- _ => unfold branch_checks in H end. bool_prop. simpl in *. lia.
Qed.

Lemma Branches_Add_keeps db b allow db' : db_ok db → branch_ok b → br_status b = BranchDraft → Branches_Add db b allow = Ok db' → db_ok db'.
Proof.
  intros Hdb Hb Hs Ha. apply Branches_Add_effect in Ha as (-> & Hn & Hbus & Hv & _); [|done]. apply set_branch_ok; try done.
  - intros r Hr. congruence.
  - congruence.
Qed.

Lemma Branches_Update_effect db business bid expected fn b' db' :
  db_ok db → sound_branch_change db business fn → Branches_Update db business bid expected fn = Ok (b', db') →
  ∃ b, branches db !! bid = Some (branch_row b) ∧ branch_ok b ∧ br_events b = [] ∧ br_id b = bid ∧ br_business b = business ∧ br_version b = expected ∧ fn b = Ok b'
    ∧ branch_ok b' ∧ br_version b' = expected + 1 ∧ 1 ≤ br_version b' ≤ max_int32
    ∧ db' = publish (set_branches db (<[bid := branch_row b']> (branches db))) (br_events b').
Proof.
  intros Hdb Hfn. unfold Branches_Update. destruct (toInt32 expected) as [e|] eqn:Ee; [|done]. apply toInt32_inv in Ee as [-> He].
  destruct (find_branch db business bid) as [r|] eqn:Ef; [|done]. apply find_branch_some in Ef as [Er Hbus].
  destruct (do_branch db Hdb bid r Er) as (b & Hb & Hid & -> & Hv & Hev & _).
  intros Hu. apply res_bind_ok in Hu as (? & Hver%ensure_ok & Hu). apply Z.eqb_eq in Hver. simpl in Hver, Hbus.
  rewrite toBranch_row in Hu by done. cbn [res_bind] in Hu.
  rewrite branch_loaded_fresh in Hu by done.
  apply res_bind_ok in Hu as (b1 & Hf & Hu). destruct (Hfn b b1 Hb Hf) as (Hb1 & Hi & Hbb & Hcr & Hvv & Hpub). rewrite next_version in Hvv by done.
  apply res_bind_ok in Hu as (row & Hrow & Hu).
  assert (Hv1 : 0 ≤ br_version b1 ≤ max_int32).
  { unfold toBranchRow in Hrow. apply res_bind_ok in Hrow as (v & Hv1 & _). by apply toInt32_inv in Hv1 as [_ Hv1]. }
  rewrite toBranchRow_ok in Hrow by done. injection Hrow as <-. res_inv.
  exists b. repeat (split; [first [done|lia]|]). do 2 f_equal. f_equal. unfold update_branch_row, branch_row. simpl. by rewrite Hi, Hbb, Hcr.
Qed.

Lemma Branches_Update_keeps db business bid expected fn b' db' :
  db_ok db → sound_branch_change db business fn → Branches_Update db business bid expected fn = Ok (b', db') → db_ok db'.
Proof.
  intros Hdb Hfn Hu. apply Branches_Update_effect in Hu as (b & Hr & Hb & He & Hid & Hbus & Hver & Hf & Hb' & Hv' & Hv & ->); [|done..].
  destruct (Hfn b b' Hb Hf) as (_ & Hi & Hbb & _ & _ & Hpub). apply add_outbox_ok. rewrite <- Hid, <- Hi.
  destruct (do_branch db Hdb bid _ Hr) as (b0 & _ & _ & E & _ & _ & Hbz). assert (Hb0 : br_business b0 = br_business b) by (by injection E).
  apply set_branch_ok; try done.
  - by rewrite Hbb, <- Hb0.
  - intros r. rewrite Hi, Hid, Hr. intros [= <-]. simpl. by rewrite Hbb.
  - intros Hp. rewrite Hbb, Hbus. destruct (Hpub Hp) as [Hs|Hs]; [|done].
    rewrite <- Hbus. apply (do_published db Hdb bid (branch_row b) Hr). simpl. by rewrite Hs.
Qed.

(** *** Documents *)

Definition doc_row (d : VerificationDocument) : DocRow :=
  MkDocRow (doc_file d) (doc_business d) (DocumentKind_string (doc_kind d)) (doc_contentType d) (doc_size d) (doc_uploadedBy d) (doc_uploadedAt d).

Lemma Attach_effect db d check db' :
  Attach db d check = Ok db' →
  ∃ row b, businesses db !! doc_business d = Some row ∧ toBusiness row = Ok b ∧ check b (count_documents db (doc_business d)) = Ok tt
    ∧ documents db !! doc_file d = None ∧ db' = set_documents db (<[doc_file d := doc_row d]> (documents db)).
Proof.
  unfold Attach. destruct (businesses db !! doc_business d) as [row|] eqn:E; [|done]. intros Ha. apply res_bind_ok in Ha as (b & Hb & Ha).
  apply res_bind_ok in Ha as ([] & Hc & Ha). res_inv. bool_prop. exists row, b. by repeat (split; [done|]).
Qed.

Lemma count_documents_insert db k r j : documents db !! k = None →
  count_documents (set_documents db (<[k := r]> (documents db))) j = count_documents db j + Z.b2z (bool_decide (d_BusinessID r = j)).
Proof. intros Hk. unfold count_documents. simpl. by rewrite count_where_new. Qed.

Lemma Attach_keeps db d db' : db_ok db → Attach db d CanAttachDocument = Ok db' → db_ok db'.
Proof.
  intros Hdb Ha. apply Attach_effect in Ha as (row & b & Hr & _ & Hc & Hn & ->). apply set_documents_ok; [done|].
  intros k. rewrite count_documents_insert by done. pose proof (do_documents db Hdb k). cbn [d_BusinessID doc_row].
  destruct (decide (doc_business d = k)) as [Ek|Hne]; [rewrite bool_decide_eq_true_2 by done|rewrite bool_decide_eq_false_2 by done; cbn; lia].
  unfold CanAttachDocument in Hc. apply res_bind_ok in Hc as (_ & _ & Hc). revert Hc. rewrite Ek.
  destruct (MaxVerificationDocuments <=? count_documents db k) eqn:E; [discriminate|]. intros _. bool_prop. cbn. lia.
Qed.

(** *** Invitations *)

Lemma same_pending_sym r o : same_pending r o = same_pending o r.
Proof. unfold same_pending. apply bool_decide_ext. naive_solver. Qed.
Lemma same_token_sym r o : same_token r o = same_token o r.
Proof. unfold same_token. apply bool_decide_ext. naive_solver. Qed.

Lemma with_status_ok i st at_ by_ : inv_ok i → inv_ok (with_status i st at_ by_).
Proof. by intros []. Qed.

Lemma revoke_row_eq i : revoke_row (invitation_row i) = invitation_row (with_status i InvitationRevoked (inv_acceptedAt i) (inv_acceptedBy i)).
Proof. done. Qed.

Lemma RevokePending_keeps db business phone : db_ok db → db_ok (RevokePending db business phone).
Proof.
  intros Hdb. apply set_invitations_ok; [done|..].
  - intros k r. rewrite lookup_fmap. destruct (invitations db !! k) as [r0|] eqn:E; [|done]. simpl. intros [= <-].
    destruct (do_invitation db Hdb k r0 E) as (i & Hi & Hk & ->). destruct (pending_for _ _ _); [|by exists i].
    rewrite revoke_row_eq. eexists. split; [by apply with_status_ok|done].
  - apply unique_fmap; [|apply do_pending, Hdb]. intros a b. unfold same_pending. rewrite !bool_decide_eq_true.
    destruct (pending_for _ _ a); [by intros [? _]|]. destruct (pending_for _ _ b); [by intros (_ & ? & _)|done].
  - apply unique_fmap; [|apply do_token, Hdb]. intros a b. unfold same_token. by destruct (pending_for _ _ a), (pending_for _ _ b).
Qed.

Definition row_matches (i : Invitation) (r : BranchRow) : bool := bool_decide (b_BusinessID r = inv_business i ∧ b_ID r ∈ inv_branches i).

(** As many matching rows as branches named: each one is the business's. *)
Lemma branches_counted db i :
  db_ok db → NoDup (inv_branches i) → count_where (row_matches i) (branches db) = Z.of_nat (length (inv_branches i)) →
  ∀ b, b ∈ inv_branches i → ∃ r, branches db !! b = Some r ∧ b_BusinessID r = inv_business i.
Proof.
  intros Hdb Hnd Hc b Hb. assert (Hkey : ∀ k r, branches db !! k = Some r → b_ID r = k).
  { intros k r Hr. by destruct (do_branch db Hdb k r Hr) as (x & _ & <- & -> & _). }
  set (ids := b_ID <$> rows_where (row_matches i) (branches db)).
  assert (Hids : ids ≡ₚ inv_branches i).
  { apply submseteq_length_Permutation.
    - apply NoDup_submseteq; [by apply (rows_where_NoDup b_ID Datatypes.id); [|intros; apply Hkey]|].
      intros x (r & -> & Hin)%list_elem_of_fmap. apply elem_of_rows_where in Hin as (k & _ & Hm). unfold row_matches in Hm. bool_prop. by destruct Hm.
    - unfold ids. rewrite length_fmap. unfold count_where in Hc. lia. }
  rewrite <- Hids in Hb. apply list_elem_of_fmap in Hb as (r & -> & Hin). apply elem_of_rows_where in Hin as (k & Hk & Hm).
  exists r. rewrite (Hkey k r Hk). split; [done|]. unfold row_matches in Hm. bool_prop. by destruct Hm.
Qed.

Lemma Invite_effect db i allow db' :
  Invite db i allow = Ok db' → inv_row i = invitation_row i →
  let revoked := RevokePending db (inv_business i) (e164 (inv_phone i)) in
  db' = set_invitations revoked (<[inv_id i := invitation_row i]> (invitations revoked)) ∧ is_Some (businesses db !! inv_business i)
  ∧ count_where (row_matches i) (branches db) = Z.of_nat (length (inv_branches i))
  ∧ may_invite (history db (inv_business i) (e164 (inv_phone i)) (inv_createdAt i - InviteWindow)) (inv_createdAt i)
  ∧ allow (CountStaffSeats revoked (inv_business i) (inv_createdAt i)) = Ok tt
  ∧ invitations revoked !! inv_id i = None
  ∧ conflicts same_token (invitations revoked) (inv_id i) (invitation_row i) = false
  ∧ conflicts same_pending (invitations revoked) (inv_id i) (invitation_row i) = false.
Proof.
  intros Hi Hrow revoked. unfold Invite, lockBusiness in Hi. destruct (businesses db !! inv_business i); [|done]. cbn [res_bind] in Hi.
  apply res_bind_ok in Hi as (? & Hn%ensure_ok & Hi). apply Z.eqb_eq in Hn. apply res_bind_ok in Hi as (? & Hall%AllowInvite_ok & Hi).
  apply res_bind_ok in Hi as ([] & Hal & Hi). unfold insert_invitation in Hi. rewrite Hrow in Hi. res_inv. bool_prop.
  by repeat (split; [done|]).
Qed.

Lemma insert_invitation_keeps db i :
  db_ok db → inv_ok i → conflicts same_token (invitations db) (inv_id i) (invitation_row i) = false →
  conflicts same_pending (invitations db) (inv_id i) (invitation_row i) = false →
  db_ok (set_invitations db (<[inv_id i := invitation_row i]> (invitations db))).
Proof.
  intros Hdb Hi Ht Hp. apply set_invitations_ok; [done|..].
  - intros k r Hk. apply lookup_insert_Some in Hk as [[<- <-]|[_ Hk]]; [by exists i|by apply (do_invitation db Hdb)].
  - apply unique_insert; [apply same_pending_sym|apply do_pending, Hdb|done].
  - apply unique_insert; [apply same_token_sym|apply do_token, Hdb|done].
Qed.

Lemma Invite_keeps db i allow db' : db_ok db → inv_ok i → inv_row i = invitation_row i → Invite db i allow = Ok db' → db_ok db'.
Proof.
  intros Hdb Hi Hrow Hinv. apply Invite_effect in Hinv as (-> & _ & _ & _ & _ & _ & Ht & Hp); [|done].
  apply insert_invitation_keeps; [by apply RevokePending_keeps|done..].
Qed.

Lemma saveInvitation_effect db i i0 db' :
  invitations db !! inv_id i = Some (invitation_row i0) → inv_id i0 = inv_id i →
  i = with_status i0 (inv_status i) (inv_acceptedAt i) (inv_acceptedBy i) →
  saveInvitation db i = Ok db' →
  db' = set_invitations db (<[inv_id i := invitation_row i]> (invitations db))
  ∧ conflicts same_pending (invitations db) (inv_id i) (invitation_row i) = false.
Proof.
  intros Hr Hid Hi. unfold saveInvitation. rewrite Hr. intros Hs. apply res_bind_ok in Hs as (? & Hc%ensure_ok & [= <-]). bool_prop.
  assert (Hrow : MkInvRow (inv_id i0) (inv_business i0) (e164 (inv_phone i0)) (inv_name i0) (Role_string (inv_role i0)) (inv_branches i0) (inv_tokenHash i0)
    (inv_status i) (inv_invitedBy i0) (inv_createdAt i0) (inv_expiresAt i0) (inv_acceptedAt i) (optionalID (inv_acceptedBy i)) = invitation_row i).
  { rewrite Hi. unfold invitation_row. simpl. done. }
  unfold invitation_row at 2 in H1. simpl in H1. unfold invitation_row in *. simpl in *. by rewrite Hrow in *.
Qed.

Definition sound_invitation_change (fn : Invitation → res biz_error Invitation) : Prop :=
  ∀ i i', fn i = Ok i' → i' = with_status i (inv_status i') (inv_acceptedAt i') (inv_acceptedBy i').

Lemma saved_invitation_keeps db i i' :
  db_ok db → invitations db !! inv_id i = Some (invitation_row i) → inv_ok i → i' = with_status i (inv_status i') (inv_acceptedAt i') (inv_acceptedBy i') →
  conflicts same_pending (invitations db) (inv_id i') (invitation_row i') = false →
  db_ok (set_invitations db (<[inv_id i' := invitation_row i']> (invitations db))).
Proof.
  intros Hdb Hr Hi Hsame Hc. assert (Hid : inv_id i' = inv_id i) by by rewrite Hsame. apply insert_invitation_keeps; try done.
  - rewrite Hsame. by apply with_status_ok.
  - apply conflicts_false. intros k o Ho Hne. pose proof (do_token db Hdb _ _ _ _ Hr Ho) as Hu. rewrite <- Hid in Hu. specialize (Hu (not_eq_sym Hne)).
    unfold same_token in *. rewrite Hsame. done.
Qed.

Lemma Invitations_Update_effect db business iid fn db' :
  db_ok db → sound_invitation_change fn → Invitations_Update db business iid fn = Ok db' →
  ∃ i i', invitations db !! iid = Some (invitation_row i) ∧ inv_ok i ∧ inv_id i = iid ∧ inv_business i = business ∧ fn i = Ok i'
    ∧ i' = with_status i (inv_status i') (inv_acceptedAt i') (inv_acceptedBy i')
    ∧ conflicts same_pending (invitations db) (inv_id i') (invitation_row i') = false
    ∧ db' = set_invitations db (<[iid := invitation_row i']> (invitations db)).
Proof.
  intros Hdb Hfn. unfold Invitations_Update. destruct (invitations db !! iid) as [r|] eqn:Er; [|done].
  destruct (do_invitation db Hdb iid r Er) as (i & Hi & Hid & ->). intros Hu. apply res_bind_ok in Hu as (? & Hb%ensure_ok & Hu). bool_prop. simpl in Hb.
  rewrite toInvitation_row in Hu by apply Hi. cbn [res_bind] in Hu. apply res_bind_ok in Hu as (i' & Hf & Hs). pose proof (Hfn i i' Hf) as Hsame.
  assert (Hid' : inv_id i' = iid) by (by rewrite Hsame).
  apply (saveInvitation_effect db i' i) in Hs as [-> Hc]; [|by rewrite Hid'|by rewrite Hid'|done].
  exists i, i'. rewrite Hid'. rewrite Hid' in Hc. by repeat (split; [done|]).
Qed.

Lemma Invitations_Update_keeps db business iid fn db' :
  db_ok db → sound_invitation_change fn → Invitations_Update db business iid fn = Ok db' → db_ok db'.
Proof.
  intros Hdb Hfn Hu. apply Invitations_Update_effect in Hu as (i & i' & Hr & Hi & Hid & _ & _ & Hsame & Hc & ->); [|done..].
  assert (Hid' : inv_id i' = iid) by (by rewrite Hsame). rewrite <- Hid'. apply (saved_invitation_keeps db i); try done. by rewrite Hid.
Qed.

Lemma Revoke_sound : sound_invitation_change Revoke.
Proof. intros i i' [_ ->]%Revoke_ok. done. Qed.

Definition sound_acceptance (fn : Invitation → res biz_error (Invitation * StaffMember)) : Prop :=
  ∀ i i' m, fn i = Ok (i', m) → i' = with_status i (inv_status i') (inv_acceptedAt i') (inv_acceptedBy i') ∧ sm_role m = inv_role i ∧ sm_active m = true.

Lemma Invitations_Accept_effect db hash fn m db' :
  db_ok db → sound_acceptance fn → Invitations_Accept db hash fn = Ok (m, db') →
  ∃ i i', invitations db !! inv_id i = Some (invitation_row i) ∧ inv_ok i ∧ inv_tokenHash i = hash ∧ fn i = Ok (i', m)
    ∧ i' = with_status i (inv_status i') (inv_acceptedAt i') (inv_acceptedBy i')
    ∧ conflicts same_pending (invitations db) (inv_id i') (invitation_row i') = false
    ∧ (let db1 := set_invitations db (<[inv_id i := invitation_row i']> (invitations db)) in
       insertStaff db1 m = StaffInserted db' ∧ db' = with_staff db1 m).
Proof.
  intros Hdb Hfn. unfold Invitations_Accept. destruct (rows_where _ _) as [|r l] eqn:Er; [done|].
  apply rows_where_cons in Er as (k & Hk & Hh). bool_prop. destruct (do_invitation db Hdb k r Hk) as (i & Hi & Hid & ->). simpl in Hh.
  rewrite toInvitation_row by apply Hi. cbn [res_bind]. intros Ha. apply res_bind_ok in Ha as ([i' m'] & Hf & Ha). cbn [fst snd] in Ha.
  destruct (Hfn i i' m' Hf) as (Hsame & Hrole & Hact). assert (Hid' : inv_id i' = k) by (by rewrite Hsame).
  apply res_bind_ok in Ha as (db1 & Hs & Ha). apply (saveInvitation_effect db i' i) in Hs as [-> Hc]; [|by rewrite Hid'|by rewrite Hid'|done].
  destruct (insertStaff _ _) as [db2| |] eqn:Ei; [|done..]. injection Ha as <- <-. exists i, i'. subst k.
  repeat (split; [done|]). cbv zeta. rewrite Hid' in Ei. split; [done|]. by apply insertStaff_effect in Ei as [-> _].
Qed.

Lemma Invitations_Accept_keeps db hash fn m db' : db_ok db → sound_acceptance fn → Invitations_Accept db hash fn = Ok (m, db') → db_ok db'.
Proof.
  intros Hdb Hfn Ha. apply Invitations_Accept_effect in Ha as (i & i' & Hr & Hi & _ & Hf & Hsame & Hc & Hins & _); [|done..].
  destruct (Hfn i i' m Hf) as (_ & Hrole & Hact). assert (Hid' : inv_id i' = inv_id i) by (by rewrite Hsame).
  apply insertStaff_effect in Hins as (-> & Hn & Hbus & Ho & Hu & Hbrs). apply with_staff_ok; try done.
  - rewrite <- Hid'. by apply (saved_invitation_keeps db i).
  - rewrite Hrole. apply Hi.
Qed.

Lemma accept_sound phone actor newID now :
  sound_acceptance (λ i, if negb (bool_decide (inv_phone i = phone)) then Err ErrInvitationInvalid else Accept i newID actor now).
Proof. intros i i' m. destruct (negb _); [done|]. by intros (_ & _ & -> & ->)%Accept_ok. Qed.
End Keeps.

(** A branch whose profile and booking policy the domain accepted fits
    its row exactly: the conversion succeeds, the row passes every check of
    the table, and reading it back gives the same branch, every minute of its
    policy included. *)
Theorem branch_row_round_trip `{TzLib} b :
  branch_ok b → 1 ≤ br_version b ≤ max_int32 → br_events b = [] →
  ∃ row, toBranchRow b = Ok row ∧ branch_checks row = true ∧ toBranch row = Ok b.
Proof.
  intros Hb Hv He. exists (branch_row b). rewrite toBranchRow_ok by (done || lia). rewrite branch_row_checks by (done || lia).
  by rewrite toBranch_row, branch_loaded_fresh by done.
Qed.

(** The zones of an example: Riyadh, three hours ahead, and UTC. *)
Definition demo_zones : TzLib := {|
  LoadLocation n := if bool_decide (n = "Asia/Riyadh") then Some (fixed_zone 10800) else if bool_decide (n = "UTC") then Some UTC else None |}.

Definition demo_profile : BranchProfile :=
  MkProfile (MkLocalized "صالون" "Salon") "riyadh" "Olaya" "King Fahd Rd" (MkGeo (float_of 24) (float_of 46)) (MkPhone "+966551234567") "Asia/Riyadh".
Definition demo_shop : Branch := MkBranch (MkID 2) (MkID 1) demo_profile DefaultBookingPolicy BranchPublished 7 0 Microsecond [].

Lemma demo_shop_ok : @branch_ok demo_zones demo_shop.
Proof.
  constructor.
  - apply (validate_ok (H := demo_zones) demo_profile demo_profile). by vm_compute.
  - by vm_compute.
  - right. by vm_compute.
  - apply Default_policy_ok.
Defined.

Lemma branch_row_round_trip_witness :
  ∃ row, toBranchRow demo_shop = Ok row ∧ branch_checks row = true ∧ toBranch row = Ok demo_shop.
Proof. apply (@branch_row_round_trip demo_zones demo_shop); [exact demo_shop_ok|split; by apply Z.leb_le|done]. Defined.
