(* ===== verification/BizApp.v ===== *)
(** * Business's use cases (src/internal/business/app)

    Each handler of policy.go, register.go, update.go, queries.go, plan.go,
    branches.go, review.go, staff.go, documents.go and access.go over the
    tables of BizStore. A handler that reads before its transaction takes the
    tables it read ([auth], [seen]) and the tables it commits to ([db]) as
    separate arguments: other requests may commit in between. What business
    asks billing, catalog and scheduling, iam and media is the interface
    [Ports]. *)
From Stdlib Require Import SpecFloat.
From S2P Require Import Prelude GoTime GoText GoCrypto Shared BizBase Business Branch Invitation BizStore.
Open Scope Z_scope.

(** ** What business asks (ports.go, staff.go, documents.go) *)

Record PlanStanding := MkStanding {
  ps_Plan : string; ps_PlanName : LocalizedText; ps_Status : string; ps_TrialEndsAt : option time; ps_Limits : Limits }.

Record StoredFile := MkStoredFile { f_ID : MediaID; f_ContentType : string; f_Size : Z }.

Class Ports := {
  Standing : BusinessID → res biz_error PlanStanding;
  Readiness_of : BusinessID → BranchID → res biz_error BranchReadiness;
  PhoneOf : UserID → res biz_error PhoneNumber;
  SendInvitation : PhoneNumber → LocalizedText → string → bool;
  DownloadURL : MediaID → string * time }.

(** ** Who may do what (policy.go) *)

Definition authorize (db : BizDB) (actor : UserID) (business : BusinessID) (need : Role) : res biz_error StaffMember :=
  let! m := Membership db business actor in
  if negb (sm_active m) then Err ErrNotFound
  else let! _ := Authorize m need in Ok m.

(** ** Registering and editing a business (register.go, update.go) *)

Record RegisterCmd := MkRegister { rc_Actor : UserID; rc_NameAr : string; rc_NameEn : string; rc_LegalName : string; rc_CRNumber : string }.

Definition Register_handler (db : BizDB) (now : time) (newBusiness : BusinessID) (newStaff : StaffID) (cmd : RegisterCmd) : res biz_error (Business * BizDB) :=
  let! name := res_map_err ErrLocalized (NewLocalizedText (rc_NameAr cmd) (rc_NameEn cmd)) in
  let! c := NewCRNumber (rc_CRNumber cmd) in
  let! bm := RegisterBusiness newBusiness newStaff (rc_Actor cmd) (MkRegistration name (rc_LegalName cmd) c) now in
  let! db := Register db bm.1 bm.2 in
  Ok (bm.1, db).

Record DisplayName := MkName { dn_Ar : string; dn_En : string }.

Record UpdateCmd := MkUpdate {
  uc_Actor : UserID; uc_Business : BusinessID; uc_ExpectedVersion : Z; uc_DisplayName : option DisplayName; uc_LegalName : option string }.

Definition optional_name (n : option DisplayName) : res biz_error (option LocalizedText) :=
  match n with
  | None => Ok None
  | Some n => let! t := res_map_err ErrLocalized (NewLocalizedText (dn_Ar n) (dn_En n)) in Ok (Some t)
  end.

Definition Update_handler (auth db : BizDB) (now : time) (cmd : UpdateCmd) : res biz_error (Business * BizDB) :=
  let! _ := authorize auth (uc_Actor cmd) (uc_Business cmd) RoleOwner in
  let! name := optional_name (uc_DisplayName cmd) in
  Update db (uc_Business cmd) (uc_ExpectedVersion cmd) (λ b,
    Rename b (default (displayName b) name) (default (legalName b) (uc_LegalName cmd)) now).

(** ** Reading (queries.go, plan.go) *)

Definition Get_handler (auth db : BizDB) (actor : UserID) (business : BusinessID) : res biz_error Business :=
  let! _ := authorize auth actor business RoleOwner in ByID db business.

Definition Memberships_handler (db : BizDB) (actor : UserID) : res biz_error (list MembershipView) := ForUser db actor.

Section Plans.
Context `{Ports}.

Definition Plan_handler (auth : BizDB) (actor : UserID) (business : BusinessID) : res biz_error PlanStanding :=
  let! _ := authorize auth actor business RoleOwner in Standing business.
End Plans.

(** ** Review (review.go) *)

Record Admin := MkAdmin { ad_ID : UserID; ad_IsPlatformAdmin : bool }.

Definition require (a : Admin) : res biz_error unit :=
  if negb (ad_IsPlatformAdmin a) || ID_IsZero (ad_ID a) then Err ErrNotPlatformAdmin else Ok tt.

Definition Submit_handler (auth db : BizDB) (now : time) (actor : UserID) (business : BusinessID) (expectedVersion : Z) : res biz_error (Business * BizDB) :=
  let! _ := authorize auth actor business RoleOwner in
  UpdateWithReadiness db business expectedVersion (λ b r, Submit b r now).

(** Dereferencing a missing submission time would panic. *)
Definition Queue (db : BizDB) (admin : Admin) (st : Status) (after : option QueuePosition) (limit : nat)
    : res biz_error (list Business * option QueuePosition) :=
  let! _ := require admin in
  check! negb (bool_decide (st = StatusDraft)) else ErrUnknownStatus in
  let! page := ReviewPage db st after (Z.of_nat limit + 1) in
  if (length page <=? limit)%nat then Ok (page, None)
  else
    let page := take limit page in
    match last page with
    | None => Err ErrPanic
    | Some b => match SubmittedAt (review b) with
                | None => Err ErrPanic
                | Some t => Ok (page, Some (MkPosition t (id b)))
                end
    end.

Record DocumentView := MkDocView { dv_Document : VerificationDocument; dv_URL : string; dv_Expires : time }.
Record AdminView := MkAdminView { av_Business : Business; av_Documents : list DocumentView; av_Branches : list Branch }.

Definition view_of `{Ports} (d : VerificationDocument) : DocumentView :=
  let '(url, expires) := DownloadURL (doc_file d) in MkDocView d url expires.

Definition Detail `{Ports} (db db2 db3 : BizDB) (admin : Admin) (business : BusinessID) : res biz_error AdminView :=
  let! _ := require admin in
  let! b := ByID db business in
  check! negb (bool_decide (status b = StatusDraft)) else ErrNotFound in
  let! docs := Documents_List db2 business in
  let! brs := Branches_List db3 business in
  Ok (MkAdminView b (view_of <$> docs) brs).

Definition decide_review (seen db : BizDB) (admin : Admin) (business : BusinessID) (expectedVersion : Z) (fn : Business → res biz_error Business)
    : res biz_error (Business * BizDB) :=
  let! _ := require admin in
  match Membership seen business (ad_ID admin) with
  | Ok _ => Err ErrSelfReview
  | Err ErrNotFound => Update db business expectedVersion fn
  | Err e => Err e
  end.

Definition Approve_handler (seen db : BizDB) (now : time) (admin : Admin) (business : BusinessID) (expectedVersion : Z) :=
  decide_review seen db admin business expectedVersion (λ b, Approve b (ad_ID admin) now).
Definition Reject_handler (seen db : BizDB) (now : time) (admin : Admin) (business : BusinessID) (expectedVersion : Z) (reason : string) :=
  decide_review seen db admin business expectedVersion (λ b, Reject b (ad_ID admin) reason now).

(** ** Branches (branches.go) *)

Record GeoInput := MkGeoInput { gi_Lat : float64; gi_Lng : float64 }.

Record CreateBranch := MkCreate {
  cb_Actor : UserID; cb_Business : BusinessID; cb_Name : DisplayName; cb_City : string; cb_District : string; cb_Address : string;
  cb_Location : GeoInput; cb_Phone : string; cb_Timezone : string; cb_Policy : option PolicyRules }.

Record UpdateBranch := MkUpdateBranch {
  ub_Actor : UserID; ub_Business : BusinessID; ub_Branch : BranchID; ub_ExpectedVersion : Z; ub_Name : option DisplayName;
  ub_City : option string; ub_District : option string; ub_Address : option string; ub_Location : option GeoInput;
  ub_Phone : option string; ub_Timezone : option string; ub_Policy : option PolicyRules }.

Definition parsePhone (s : string) : res biz_error PhoneNumber :=
  if bool_decide (TrimSpace s = "") then Ok (MkPhone "") else res_map_err ErrPhone (NewPhoneNumber s).

Definition optional_policy (default_ : BookingPolicy) (p : option PolicyRules) : res biz_error BookingPolicy :=
  match p with None => Ok default_ | Some r => NewBookingPolicy r end.

Section Branches.
Context `{TzLib} `{Ports}.

Definition Create (auth db : BizDB) (now : time) (newID : BranchID) (cmd : CreateBranch) : res biz_error (Branch * BizDB) :=
  let! _ := authorize auth (cb_Actor cmd) (cb_Business cmd) RoleOwner in
  let! name := res_map_err ErrLocalized (NewLocalizedText (dn_Ar (cb_Name cmd)) (dn_En (cb_Name cmd))) in
  let tz := if bool_decide (cb_Timezone cmd = "") then DefaultTimezone else cb_Timezone cmd in
  let! loc := res_map_err ErrGeo (NewGeoPoint (gi_Lat (cb_Location cmd)) (gi_Lng (cb_Location cmd))) in
  let! phone := parsePhone (cb_Phone cmd) in
  let! policy := optional_policy DefaultBookingPolicy (cb_Policy cmd) in
  let! b := NewBranch newID (cb_Business cmd) (MkProfile name (cb_City cmd) (cb_District cmd) (cb_Address cmd) loc phone tz) policy now in
  let! plan := Standing (cb_Business cmd) in
  let! db := Branches_Add db b (AllowBranch (ps_Limits plan)) in
  Ok (b, db).

(** [cmd.apply]: the command's fields over the current ones. *)
Definition apply (cmd : UpdateBranch) (p : BranchProfile) (policy : BookingPolicy) : res biz_error (BranchProfile * BookingPolicy) :=
  let! name := optional_name (ub_Name cmd) in
  let! loc := match ub_Location cmd with None => Ok (p_Location p) | Some l => res_map_err ErrGeo (NewGeoPoint (gi_Lat l) (gi_Lng l)) end in
  let! phone := match ub_Phone cmd with None => Ok (p_Phone p) | Some s => parsePhone s end in
  let! policy := optional_policy policy (ub_Policy cmd) in
  Ok (MkProfile (default (p_Name p) name) (default (p_City p) (ub_City cmd)) (default (p_District p) (ub_District cmd))
        (default (p_Address p) (ub_Address cmd)) loc phone (default (p_Timezone p) (ub_Timezone cmd)), policy).

Definition edit_branch (m : StaffMember) (cmd : UpdateBranch) (now : time) (b : Branch) : res biz_error Branch :=
  let! pp := apply cmd (br_profile b) (br_policy b) in
  check! bool_decide (p_Timezone pp.1 = p_Timezone (br_profile b)) || bool_decide (sm_role m = RoleOwner) else ErrForbidden in
  Edit b pp.1 pp.2 now.

Definition UpdateBranch_handler (auth db : BizDB) (now : time) (cmd : UpdateBranch) : res biz_error (Branch * BizDB) :=
  let! m := authorize auth (ub_Actor cmd) (ub_Business cmd) RoleManager in
  let! _ := AuthorizeBranch m RoleManager (ub_Branch cmd) in
  Branches_Update db (ub_Business cmd) (ub_Branch cmd) (ub_ExpectedVersion cmd) (edit_branch m cmd now).

Definition Publish_handler (auth seen db : BizDB) (now : time) (actor : UserID) (business : BusinessID) (branch : BranchID) (expectedVersion : Z)
    : res biz_error (Branch * BizDB) :=
  let! _ := authorize auth actor business RoleOwner in
  let! biz := ByID seen business in
  let! ready := Readiness_of business branch in
  Branches_Update db business branch expectedVersion (λ b, Publish b (status biz) ready now).

Definition Unpublish_handler (auth db : BizDB) (now : time) (actor : UserID) (business : BusinessID) (branch : BranchID) (expectedVersion : Z)
    : res biz_error (Branch * BizDB) :=
  let! _ := authorize auth actor business RoleOwner in
  Branches_Update db business branch expectedVersion (λ b, Unpublish b now).

Definition ListBranches_handler (auth db : BizDB) (actor : UserID) (business : BusinessID) : res biz_error (list Branch) :=
  let! _ := authorize auth actor business RoleBarber in Branches_List db business.

Definition GetBranch_handler (auth db : BizDB) (actor : UserID) (business : BusinessID) (branch : BranchID) : res biz_error Branch :=
  let! _ := authorize auth actor business RoleBarber in Branches_ByID db business branch.
End Branches.

(** ** Staff (staff.go, invites.go) *)

(** [Tokens.Hash]: SHA-256. *)
Definition token_hash (token : string) : string := Sum256 token.

Record InviteStaff := MkInviteStaff {
  is_Actor : UserID; is_Business : BusinessID; is_Phone : string; is_Name : string; is_Role : string; is_Branches : list BranchID }.

Section Staff.
Context `{UuidLib} `{Ports}.

(** The invitation saved; [token] is the random text [Tokens.New] drew. *)
Definition Invite_save (auth seen db : BizDB) (now : time) (newID : InvitationID) (token : string) (cmd : InviteStaff)
    : res biz_error (Invitation * Business * BizDB) :=
  let! o := authorize auth (is_Actor cmd) (is_Business cmd) RoleOwner in
  let! phone := res_map_err ErrPhone (NewPhoneNumber (is_Phone cmd)) in
  let! role := res_map_err (λ _, ErrInvalidInviteRole) (ParseRole (is_Role cmd)) in
  let! i := NewInvitation newID (is_Business cmd) (MkInvite phone (is_Name cmd) role (is_Branches cmd)) (token_hash token) (sm_user o) now in
  let! b := ByID seen (is_Business cmd) in
  let! plan := Standing (is_Business cmd) in
  let! db := Invite db i (AllowStaff (ps_Limits plan)) in
  Ok (i, b, db).

(** The whole handler: what it answers, and the tables after it. A sender
    that fails leaves the invitation saved. *)
Definition Invite_handler (auth seen db : BizDB) (now : time) (newID : InvitationID) (token : string) (cmd : InviteStaff) : res biz_error Invitation * BizDB :=
  match Invite_save auth seen db now newID token cmd with
  | Err e => (Err e, db)
  | Ok (i, b, db) => (if SendInvitation (inv_phone i) (displayName b) token then Ok i else Err ErrUpstream, db)
  end.

Definition ListInvitations_handler (auth db : BizDB) (actor : UserID) (business : BusinessID) : res biz_error (list Invitation) :=
  let! _ := authorize auth actor business RoleOwner in Pending db business.

Definition Revoke_handler (auth db : BizDB) (actor : UserID) (business : BusinessID) (iid : InvitationID) : res biz_error BizDB :=
  let! _ := authorize auth actor business RoleOwner in
  Invitations_Update db business iid Revoke.

Definition ListStaff_handler (auth db : BizDB) (actor : UserID) (business : BusinessID) : res biz_error (list StaffMember) :=
  let! _ := authorize auth actor business RoleManager in List_staff db business.

Definition accept_as (actor : UserID) (phone : PhoneNumber) (newID : StaffID) (now : time) (i : Invitation) : res biz_error (Invitation * StaffMember) :=
  check! bool_decide (inv_phone i = phone) else ErrInvitationInvalid in
  Accept i newID actor now.

Definition Accept_save (db : BizDB) (now : time) (newID : StaffID) (actor : UserID) (token : string) : res biz_error (StaffMember * BizDB) :=
  let token := TrimSpace token in
  check! negb (bool_decide (token = "")) else ErrInvitationInvalid in
  match PhoneOf actor with
  | Err ErrNotFound => Err ErrInvitationInvalid
  | Err e => Err e
  | Ok phone => Invitations_Accept db (token_hash token) (accept_as actor phone newID now)
  end.

(** The answer reads the business once the membership is saved. *)
Definition Accept_handler (db : BizDB) (now : time) (newID : StaffID) (actor : UserID) (token : string) : res biz_error MembershipView * BizDB :=
  match Accept_save db now newID actor token with
  | Err e => (Err e, db)
  | Ok (m, db) =>
      (let! b := ByID db (sm_business m) in Ok (MkView (sm_id m) (sm_role m) (id b) (displayName b) (status b)), db)
  end.
End Staff.

(** ** Documents (documents.go) *)

Section Documents.
Context `{Ports}.
(** The file store: saving a body answers a file, discarding removes one;
    each changes the store, failing or not. *)
Context {Files : Type} (Save : Files → UserID → string → res biz_error StoredFile * Files) (Discard : Files → MediaID → Files).

Record UploadDocument := MkUpload { ud_Actor : UserID; ud_Business : BusinessID; ud_Kind : string; ud_Body : string }.

(** Up to the stored file: the rules are checked before anything is stored. *)
Definition Upload_check (auth seen seen2 : BizDB) (cmd : UploadDocument) : res biz_error DocumentKind :=
  let! _ := authorize auth (ud_Actor cmd) (ud_Business cmd) RoleOwner in
  let! kind := ParseDocumentKind (ud_Kind cmd) in
  let! b := ByID seen (ud_Business cmd) in
  let! existing := Documents_List seen2 (ud_Business cmd) in
  let! _ := CanAttachDocument b (Z.of_nat (length existing)) in
  Ok kind.

(** The answer, the tables and the file store after it: a file that could not
    be attached is discarded. *)
Definition Upload (auth seen seen2 db : BizDB) (files : Files) (now : time) (cmd : UploadDocument) : res biz_error DocumentView * BizDB * Files :=
  match Upload_check auth seen seen2 cmd with
  | Err e => (Err e, db, files)
  | Ok kind =>
      match Save files (ud_Actor cmd) (ud_Body cmd) with
      | (Err e, files) => (Err e, db, files)
      | (Ok file, files) =>
          let doc := NewVerificationDocument (f_ID file) (ud_Business cmd) kind (f_ContentType file) (f_Size file) (ud_Actor cmd) now in
          match Attach db doc CanAttachDocument with
          | Err e => (Err e, db, Discard files (f_ID file))
          | Ok db => (Ok (view_of doc), db, files)
          end
      end
  end.

Definition ListDocuments_handler (auth db : BizDB) (actor : UserID) (business : BusinessID) : res biz_error (list DocumentView) :=
  let! _ := authorize auth actor business RoleOwner in
  let! docs := Documents_List db business in
  Ok (view_of <$> docs).
End Documents.

(** ** What other modules ask (access.go, module.go) *)

Definition Access_Branch (db db2 : BizDB) (actor : UserID) (business : BusinessID) (branch : BranchID) (need : Role) : res biz_error unit :=
  let! m := authorize db actor business need in
  let! _ := Branches_ByID db2 business branch in
  AuthorizeBranch m need branch.

(** The role arrives as text ([Module.AuthorizeBranch]). *)
Definition Module_AuthorizeBranch (db db2 : BizDB) (actor : UserID) (business : BusinessID) (branch : BranchID) (need : string) : res biz_error unit :=
  let! role := ParseRole need in
  Access_Branch db db2 actor business branch role.

Definition works_there (branch : BranchID) (m : StaffMember) : bool := sm_active m && WorksAt m branch.

Definition StaffAtBranch (db db2 : BizDB) (business : BusinessID) (branch : BranchID) (staff : list StaffID) : res biz_error unit :=
  let! _ := Branches_ByID db business branch in
  if (length staff =? 0)%nat then Ok tt
  else
    let! members := List_staff db2 business in
    let working := sm_id <$> filter (λ m, works_there branch m = true) members in
    if forallb (λ s, bool_decide (s ∈ working)) staff then Ok tt else Err ErrNotFound.

Record Member := MkMember { m_ID : StaffID; m_Role : Role; m_Branches : list BranchID }.

Definition Member_WorksAt (m : Member) (branch : BranchID) : bool := bool_decide (m_Role m = RoleOwner) || bool_decide (branch ∈ m_Branches m).

Definition as_member (m : StaffMember) : Member := MkMember (sm_id m) (sm_role m) (sm_branches m).

Definition MemberOf (db : BizDB) (actor : UserID) (business : BusinessID) : res biz_error Member :=
  let! m := Membership db business actor in
  if negb (sm_active m) then Err ErrNotFound else Ok (as_member m).

Definition StaffMember_of (db : BizDB) (business : BusinessID) (staff : StaffID) : res biz_error Member :=
  let! members := List_staff db business in
  match find_first (λ m, bool_decide (sm_id m = staff) && sm_active m) members with
  | None => Err ErrNotFound
  | Some m => Ok (as_member m)
  end.

Section Zones.
Context `{TzLib}.

Definition BranchLocation (db : BizDB) (business : BusinessID) (branch : BranchID) : res biz_error Location :=
  let! b := Branches_ByID db business branch in
  match LoadLocation (p_Timezone (br_profile b)) with None => Err ErrStorage | Some l => Ok l end.

(** [Module.BookableBranch]: what booking needs to know of a branch. *)
Record BookableBranch := MkBookable { bb_BusinessID : BusinessID; bb_BranchID : BranchID; bb_Location : Location; bb_Policy : PolicyRules }.

Definition Module_BookableBranch (db : BizDB) (branch : BranchID) : res biz_error BookableBranch :=
  let! b := Branches_Bookable db branch in
  match LoadLocation (p_Timezone (br_profile b)) with
  | None => Err ErrStorage
  | Some l => Ok (MkBookable (br_business b) (br_id b) l (Rules (br_policy b)))
  end.
End Zones.

Record Barber := MkBarber { bar_ID : StaffID; bar_Name : string }.

(** The map [byID]: of two members with one ID the later counts. *)
Definition BranchBarbers (db : BizDB) (business : BusinessID) (branch : BranchID) (staff : list StaffID) : res biz_error (list Barber) :=
  let! members := List_staff db business in
  let byID : gmap StaffID StaffMember := foldl (λ t m, <[sm_id m := m]> t) ∅ (filter (λ m, works_there branch m = true) members) in
  Ok (omap (λ s, m ← byID !! s; Some (MkBarber s (sm_displayName m))) staff).
