(* ===== verification/BizFlow.v ===== *)
(** * What business's use cases promise

    Every interleaving of requests as a history of the tables, what holds
    throughout; who may do what; reviews, invitations and concurrent edits. *)
From Stdlib Require Import SpecFloat.
From S2P Require Import Prelude GoTime GoText GoCrypto Shared Tables BizBase Business Branch Invitation BizStore BizFacts BizApp.
Open Scope Z_scope.

(** ** Who may act *)

(** The answer of [authorize]: strangers are told the business does not
    exist, staff with too small a role that they may not. *)
Definition is_member (db : BizDB) (business : BusinessID) (user : UserID) : Prop :=
  ∃ k m, staff_members db !! k = Some (staff_row m) ∧ sm_business m = business ∧ sm_user m = user.

Lemma authorize_spec `{TzLib} db actor business need : db_ok db →
  match authorize db actor business need with
  | Ok m => staff_members db !! sm_id m = Some (staff_row m) ∧ sm_business m = business ∧ sm_user m = actor ∧ rank need ≤ rank (sm_role m)
            ∧ sm_branches m = branches_of db (sm_id m)
  | Err e => (e = ErrNotFound ∧ ¬ is_member db business actor) ∨
             (e = ErrForbidden ∧ ∃ m, staff_members db !! sm_id m = Some (staff_row m) ∧ sm_business m = business ∧ sm_user m = actor ∧ rank (sm_role m) < rank need)
  end.
Proof.
  intros Hdb. unfold authorize. destruct (Membership_ok db business actor Hdb) as [[-> Hno]|(m & -> & Hm & Hb & Hu & Ha & Hbr)]; cbn [res_bind].
  - left. split; [done|]. intros (k & m & Hk & ? & ?). by apply (Hno k m).
  - rewrite Ha. cbn [negb]. unfold Authorize. rewrite Ha. cbn [negb orb]. destruct (Z.ltb_spec (rank (sm_role m)) (rank need)) as [Hlt|Hge]; cbn [res_bind].
    + right. split; [done|]. by exists m.
    + done.
Qed.

(** ** Histories

    [past] holds every state the tables have been in: a request authorizes
    and reads in any of them, and commits to the newest, with whatever the
    other modules answer it. *)
Section Histories.
Context `{UuidLib} `{TzLib}.
Context {Files : Type} (Save : Files → UserID → string → res biz_error StoredFile * Files) (Discard : Files → MediaID → Files).

Inductive biz_step (past : list BizDB) (db db' : BizDB) : Prop :=
| by_register now newB newS cmd b : Register_handler db now newB newS cmd = Ok (b, db') → biz_step past db db'
| by_update auth now cmd b : auth ∈ past → Update_handler auth db now cmd = Ok (b, db') → biz_step past db db'
| by_submit auth now actor bid v b : auth ∈ past → Submit_handler auth db now actor bid v = Ok (b, db') → biz_step past db db'
| by_approve seen now admin bid v b : seen ∈ past → Approve_handler seen db now admin bid v = Ok (b, db') → biz_step past db db'
| by_reject seen now admin bid v why b : seen ∈ past → Reject_handler seen db now admin bid v why = Ok (b, db') → biz_step past db db'
| by_create (P : Ports) auth now newID cmd b : auth ∈ past → Create auth db now newID cmd = Ok (b, db') → biz_step past db db'
| by_edit auth now cmd b : auth ∈ past → UpdateBranch_handler auth db now cmd = Ok (b, db') → biz_step past db db'
| by_publish (P : Ports) auth seen now actor bid br v b :
    auth ∈ past → seen ∈ past → Publish_handler auth seen db now actor bid br v = Ok (b, db') → biz_step past db db'
| by_unpublish auth now actor bid br v b : auth ∈ past → Unpublish_handler auth db now actor bid br v = Ok (b, db') → biz_step past db db'
| by_invite (P : Ports) auth seen now newID token cmd :
    auth ∈ past → seen ∈ past → (Invite_handler auth seen db now newID token cmd).2 = db' → biz_step past db db'
| by_revoke auth actor bid iid : auth ∈ past → Revoke_handler auth db actor bid iid = Ok db' → biz_step past db db'
| by_accept (P : Ports) now newID actor token : (Accept_handler db now newID actor token).2 = db' → biz_step past db db'
| by_upload (P : Ports) auth seen seen2 files now cmd :
    auth ∈ past → seen ∈ past → seen2 ∈ past → (Upload Save Discard auth seen seen2 db files now cmd).1.2 = db' → biz_step past db db'.

Inductive biz_history : list BizDB → Prop :=
| history_start : biz_history [empty_biz_db]
| history_step db past db' : biz_history (db :: past) → biz_step (db :: past) db db' → biz_history (db' :: db :: past).

(** *** Each step keeps the invariant, and what is active stays active *)

Definition still_active (s db : BizDB) : Prop := ∀ k, active_business s k = true → active_business db k = true.

Lemma update_active db bid v fn b' db' : db_ok db → sound_change fn → update db bid v fn = Ok (b', db') → still_active db db'.
Proof.
  intros Hdb Hfn Hu k. apply update_effect in Hu as (b & Hr & Hb & _ & Hid & _ & _ & _ & _ & _ & Hs & _ & _ & _ & _ & ->); [|done..].
  rewrite !active_business_spec. intros (r & Hk & Ha). exists r. split; [|done]. simpl. rewrite lookup_insert_ne; [done|].
  intros <-. rewrite Hr in Hk. injection Hk as <-. apply Hs. by apply Status_string_inj.
Qed.

Lemma same_businesses_active db db' : businesses db' = businesses db → still_active db db'.
Proof. intros E k. unfold active_business. by rewrite E. Qed.

Lemma rename_sound name legal now : (∀ n, name = Some n → NewLocalizedText (ar n) (en n) = Ok n) →
  sound_change (λ b, Rename b (default (displayName b) name) (default (legalName b) legal) now).
Proof.
  intros Hn b b' Hb. apply (apply_op_sound (OpRename _ _)); [|done]. simpl. destruct name as [n|]; simpl; [by apply Hn|apply (bo_name b Hb)].
Qed.

Lemma optional_name_stored n t : optional_name n = Ok (Some t) → NewLocalizedText (ar t) (en t) = Ok t.
Proof.
  unfold optional_name. destruct n as [n|]; [|done]. destruct (NewLocalizedText _ _) as [t'|] eqn:E; [|done]. intros [= <-].
  by apply NewLocalizedText_stored in E as [? _].
Qed.

Lemma require_ok a u : require a = Ok u → ad_IsPlatformAdmin a = true ∧ ID_IsZero (ad_ID a) = false.
Proof. unfold require. destruct (_ || _) eqn:E; [done|]. intros _. by bool_prop. Qed.

Lemma decide_review_ok seen db admin bid v fn r :
  decide_review seen db admin bid v fn = Ok r →
  ad_IsPlatformAdmin admin = true ∧ ID_IsZero (ad_ID admin) = false ∧ Membership seen bid (ad_ID admin) = Err ErrNotFound ∧ Update db bid v fn = Ok r.
Proof.
  unfold decide_review. intros Hd. apply res_bind_ok in Hd as (? & Hreq & Hd). apply require_ok in Hreq as [H1 H2].
  destruct (Membership _ _ _) as [|[]]; done.
Qed.

Lemma Register_handler_ok db now newB newS cmd b db' :
  Register_handler db now newB newS cmd = Ok (b, db') →
  ∃ m, Register db b m = Ok db' ∧ biz_ok b ∧ status b = StatusDraft ∧ version b = 1 ∧ review b = no_review ∧ events b = [] ∧ owner b = rc_Actor cmd ∧ id b = newB
    ∧ m = MkStaff newS (id b) (owner b) RoleOwner true (dbTime now) "" [].
Proof.
  unfold Register_handler. intros Hr. apply res_bind_ok in Hr as (name & Hn & Hr). destruct (NewLocalizedText _ _) as [n|] eqn:En; [|done].
  cbn in Hn; injection Hn as <-. apply res_bind_ok in Hr as (c & Hc & Hr). apply res_bind_ok in Hr as ([b1 m1] & Hreg & Hr). cbn [fst snd] in Hr.
  apply res_bind_ok in Hr as (db1 & Hs & [= <- <-]). apply NewLocalizedText_stored in En as [En _]. apply NewCRNumber_form in Hc.
  apply Register_ok in Hreg as (Hb & -> & ->); [|done..]. eexists. by repeat (split; [done|]).
Qed.

Lemma parsePhone_ok s p : parsePhone s = Ok p → Phone_IsZero p = true ∨ NewPhoneNumber (e164 p) = Ok p.
Proof.
  unfold parsePhone. case_bool_decide; [intros [= <-]; by left|]. destruct (NewPhoneNumber s) eqn:E; [|done]. intros [= <-]. right. by eapply NewPhoneNumber_stored.
Qed.

Lemma optional_policy_ok d o p : rules_ok (Rules d) → optional_policy d o = Ok p → rules_ok (Rules p).
Proof. intros Hd. destruct o; simpl; [by intros [-> ?]%NewBookingPolicy_ok|by intros [= <-]]. Qed.

Lemma Create_ok `{P : Ports} auth db now newID cmd b db' :
  Create auth db now newID cmd = Ok (b, db') →
  ∃ plan, Branches_Add db b (AllowBranch (ps_Limits plan)) = Ok db' ∧ Standing (cb_Business cmd) = Ok plan
    ∧ branch_ok b ∧ br_status b = BranchDraft ∧ br_id b = newID ∧ br_business b = cb_Business cmd ∧ br_version b = 1.
Proof.
  unfold Create. intros Hc. apply res_bind_ok in Hc as (m & _ & Hc). apply res_bind_ok in Hc as (name & Hn & Hc).
  destruct (NewLocalizedText _ _) as [n|] eqn:En; [|done]. cbn in Hn; injection Hn as <-. apply NewLocalizedText_stored in En as [En _].
  apply res_bind_ok in Hc as (loc & Hloc & Hc). apply res_bind_ok in Hc as (phone & Hph & Hc). apply res_bind_ok in Hc as (policy & Hpol & Hc).
  apply res_bind_ok in Hc as (b1 & Hb1 & Hc). apply res_bind_ok in Hc as (plan & Hplan & Hc). apply res_bind_ok in Hc as (db1 & Hadd & [= <- <-]).
  apply NewBranch_ok in Hb1 as [Hp ->]. exists plan. repeat (split; [done|]). simpl. split; [|done].
  constructor; try done; simpl.
  - by eapply parsePhone_ok.
  - destruct (bool_decide (policy = zeroPolicy)); [apply Default_policy_ok|]. eapply optional_policy_ok; [apply Default_policy_ok|done].
Qed.

Lemma edit_sound db business m cmd now : sound_branch_change db business (edit_branch m cmd now).
Proof.
  intros b b' Hb He. unfold edit_branch in He. apply res_bind_ok in He as ([p policy] & Hap & He). apply res_bind_ok in He as (? & _ & He). cbn [fst snd] in He.
  apply Edit_ok in He as (Hp & _ & ->). unfold apply in Hap. apply res_bind_ok in Hap as (name & Hname & Hap). apply res_bind_ok in Hap as (loc & _ & Hap).
  apply res_bind_ok in Hap as (phone & Hph & Hap). apply res_bind_ok in Hap as (pol & Hpol & [= <- <-]).
  split_and!; try done; simpl; [|by left]. constructor; try done; simpl.
  - destruct name as [n|]; simpl; [by eapply optional_name_stored|apply (bk_name b Hb)].
  - destruct (ub_Phone cmd); [by eapply parsePhone_ok|]. injection Hph as <-. apply (bk_phone b Hb).
  - eapply optional_policy_ok; [apply (bk_policy b Hb)|done].
Qed.

Lemma publish_sound db business st r now : (st = StatusActive → active_business db business = true) → sound_branch_change db business (λ b, Publish b st r now).
Proof.
  intros Hact b b' Hb [(Hs & _) ->]%Publish_ok. split_and!; try done; [by eapply branch_ok_same; [..|exact Hb]|]. intros _. right. by apply Hact.
Qed.

Lemma unpublish_sound db business now : sound_branch_change db business (λ b, Unpublish b now).
Proof. intros b b' Hb [Hs ->]%Unpublish_ok. split_and!; try done. by eapply branch_ok_same; [..|exact Hb]. Qed.

Lemma accept_as_sound actor phone newID now : sound_acceptance (accept_as actor phone newID now).
Proof. intros i i' m Ha. unfold accept_as in Ha. apply res_bind_ok in Ha as (? & _ & Ha). by apply Accept_ok in Ha as (_ & _ & -> & ->). Qed.

Lemma Invite_save_ok `{P : Ports} auth seen db now newID token cmd i b db' :
  Invite_save auth seen db now newID token cmd = Ok (i, b, db') →
  ∃ plan phone role o, authorize auth (is_Actor cmd) (is_Business cmd) RoleOwner = Ok o ∧ NewPhoneNumber (is_Phone cmd) = Ok phone
    ∧ Standing (is_Business cmd) = Ok plan
    ∧ NewInvitation newID (is_Business cmd) (MkInvite phone (is_Name cmd) role (is_Branches cmd)) (token_hash token) (sm_user o) now = Ok i
    ∧ inv_ok i ∧ inv_row i = invitation_row i
    ∧ Invite db i (AllowStaff (ps_Limits plan)) = Ok db'.
Proof.
  unfold Invite_save. intros Hi. apply res_bind_ok in Hi as (o & Ho & Hi). apply res_bind_ok in Hi as (phone & Hp & Hi).
  destruct (NewPhoneNumber _) as [p|] eqn:Ep; [|done]. cbn in Hp. injection Hp as <-. apply res_bind_ok in Hi as (role & _ & Hi).
  apply res_bind_ok in Hi as (i1 & Hnew & Hi). apply res_bind_ok in Hi as (b1 & _ & Hi). apply res_bind_ok in Hi as (plan & Hplan & Hi).
  apply res_bind_ok in Hi as (db1 & Hinv & [= <- <- <-]). exists plan, p, role, o.
  pose proof (NewInvitation_ok _ _ _ _ _ _ _ Hnew (NewPhoneNumber_stored _ _ Ep)) as (Hok & _ & _ & _ & _ & _ & _ & H1 & H2 & _).
  repeat (split; [done|]). split; [by apply inv_row_new|done].
Qed.

Lemma Invite_handler_db `{P : Ports} auth seen db now newID token cmd :
  (Invite_handler auth seen db now newID token cmd).2 = db ∨
  ∃ i b, Invite_save auth seen db now newID token cmd = Ok (i, b, (Invite_handler auth seen db now newID token cmd).2).
Proof. unfold Invite_handler. destruct (Invite_save _ _ _ _ _ _ _) as [[[i b] db']|]; [right; by exists i, b|by left]. Qed.

Lemma Accept_save_ok `{P : Ports} db now newID actor token m db' :
  Accept_save db now newID actor token = Ok (m, db') →
  ∃ phone, PhoneOf actor = Ok phone ∧ TrimSpace token ≠ "" ∧ Invitations_Accept db (token_hash (TrimSpace token)) (accept_as actor phone newID now) = Ok (m, db').
Proof.
  unfold Accept_save. intros Ha. apply res_bind_ok in Ha as (? & Ht%ensure_ok & Ha). bool_prop.
  destruct (PhoneOf actor) as [phone|[]]; [by exists phone|done..].
Qed.

Lemma Accept_handler_db `{P : Ports} db now newID actor token :
  (Accept_handler db now newID actor token).2 = db ∨
  ∃ m, Accept_save db now newID actor token = Ok (m, (Accept_handler db now newID actor token).2).
Proof. unfold Accept_handler. destruct (Accept_save _ _ _ _ _) as [[m db']|]; [right; by exists m|by left]. Qed.

Lemma Upload_db `{P : Ports} auth seen seen2 db files now cmd :
  (Upload Save Discard auth seen seen2 db files now cmd).1.2 = db ∨
  ∃ d, Attach db d CanAttachDocument = Ok (Upload Save Discard auth seen seen2 db files now cmd).1.2.
Proof.
  unfold Upload. destruct (Upload_check _ _ _ _); [|by left]. destruct (Save _ _ _) as [[file|] files']; [|by left].
  destruct (Attach _ _ _) eqn:E; [right; by eexists|by left].
Qed.

Lemma biz_step_keeps past db db' :
  (∀ s, s ∈ past → db_ok s ∧ still_active s db) → db ∈ past → biz_step past db db' → db_ok db' ∧ still_active db db'.
Proof.
  intros Hpast Hdb Hstep. destruct (Hpast db Hdb) as [Hok _]. destruct Hstep as
    [now newB newS cmd b Hr | auth now cmd b _ Hr | auth now actor bid v b _ Hr | seen now admin bid v b _ Hr | seen now admin bid v why b _ Hr
    | P auth now newID cmd b _ Hr | auth now cmd b _ Hr | P auth seen now actor bid br v b _ Hseen Hr | auth now actor bid br v b _ Hr
    | P auth seen now newID token cmd _ _ Hr | auth actor bid iid _ Hr | P now newID actor token Hr | P auth seen seen2 files now cmd _ _ _ Hr].
  - apply Register_handler_ok in Hr as (m & Hr & Hb & Hst & Hv & Hrev & Hev & Ho & _ & Hm). split.
    + eapply Register_keeps; [done..| | | | | |done]; by rewrite Hm.
    + apply Register_effect in Hr as (-> & Hn & _); [|done]. intros k. rewrite !active_business_spec. intros (r & Hk & Ha). exists r. split; [|done].
      simpl. rewrite lookup_insert_ne; [done|]. intros <-. congruence.
  - unfold Update_handler in Hr. apply res_bind_ok in Hr as (m & _ & Hr). apply res_bind_ok in Hr as (name & Hname & Hr).
    assert (Hs : sound_change (λ b, Rename b (default (displayName b) name) (default (legalName b) (uc_LegalName cmd)) now)).
    { apply rename_sound. intros n ->. by eapply optional_name_stored. }
    split; [by eapply update_keeps|by eapply update_active].
  - unfold Submit_handler in Hr. apply res_bind_ok in Hr as (m & _ & Hr).
    assert (Hs : sound_change (λ b, Submit b (MkReadiness (count_documents db bid) (count_branches db bid)) now)) by by apply (apply_op_sound (OpSubmit _)).
    split; [by eapply update_keeps|by eapply update_active].
  - apply decide_review_ok in Hr as (_ & Hz & _ & Hr).
    assert (Hs : sound_change (λ b, Approve b (ad_ID admin) now)) by by apply (apply_op_sound (OpApprove _)).
    split; [by eapply update_keeps|by eapply update_active].
  - apply decide_review_ok in Hr as (_ & Hz & _ & Hr).
    assert (Hs : sound_change (λ b, Reject b (ad_ID admin) why now)) by by apply (apply_op_sound (OpReject _ _)).
    split; [by eapply update_keeps|by eapply update_active].
  - apply Create_ok in Hr as (plan & Hr & _ & Hb & Hst & _). split; [by eapply Branches_Add_keeps|].
    apply Branches_Add_effect in Hr as (-> & _); [|done]. by apply same_businesses_active.
  - unfold UpdateBranch_handler in Hr. apply res_bind_ok in Hr as (m & _ & Hr). apply res_bind_ok in Hr as (? & _ & Hr).
    pose proof (edit_sound db (ub_Business cmd) m cmd now) as Hs. split; [by eapply Branches_Update_keeps|].
    apply Branches_Update_effect in Hr as (? & _ & _ & _ & _ & _ & _ & _ & _ & _ & _ & ->); [|done..]. by apply same_businesses_active.
  - unfold Publish_handler in Hr. apply res_bind_ok in Hr as (m & _ & Hr). apply res_bind_ok in Hr as (biz & Hbiz & Hr). apply res_bind_ok in Hr as (ready & _ & Hr).
    assert (Hs : sound_branch_change db bid (λ b, Publish b (status biz) ready now)).
    { apply publish_sound. intros Hact. destruct (Hpast seen Hseen) as [Hsok Hstill]. apply Hstill.
      destruct (ByID_ok seen bid Hsok) as [[_ E]|(b0 & Hrow & E & _)]; [congruence|]. apply active_business_spec. exists (biz_row b0). split; [done|].
      simpl. replace b0 with biz by congruence. by rewrite Hact. }
    split; [by eapply Branches_Update_keeps|].
    apply Branches_Update_effect in Hr as (? & _ & _ & _ & _ & _ & _ & _ & _ & _ & _ & ->); [|done..]. by apply same_businesses_active.
  - unfold Unpublish_handler in Hr. apply res_bind_ok in Hr as (m & _ & Hr). pose proof (unpublish_sound db bid now) as Hs.
    split; [by eapply Branches_Update_keeps|].
    apply Branches_Update_effect in Hr as (? & _ & _ & _ & _ & _ & _ & _ & _ & _ & _ & ->); [|done..]. by apply same_businesses_active.
  - subst db'. destruct (Invite_handler_db auth seen db now newID token cmd) as [->|(i & b & Hi)]; [split; [done|by intros k]|].
    apply Invite_save_ok in Hi as (plan & phone & role & o & _ & _ & _ & _ & Hok' & Hrow & Hi). split; [by eapply Invite_keeps|].
    apply Invite_effect in Hi as (-> & _); [|done]. by apply same_businesses_active.
  - unfold Revoke_handler in Hr. apply res_bind_ok in Hr as (m & _ & Hr). split; [eapply Invitations_Update_keeps; [done|apply Revoke_sound|done]|].
    apply Invitations_Update_effect in Hr as (? & ? & _ & _ & _ & _ & _ & _ & _ & ->); [|done|apply Revoke_sound]. by apply same_businesses_active.
  - subst db'. destruct (Accept_handler_db db now newID actor token) as [->|(m & Hm)]; [split; [done|by intros k]|].
    apply Accept_save_ok in Hm as (phone & _ & _ & Hm). split; [eapply Invitations_Accept_keeps; [done|apply accept_as_sound|done]|].
    apply Invitations_Accept_effect in Hm as (? & ? & _ & _ & _ & _ & _ & _ & _ & ->); [|done|apply accept_as_sound]. by apply same_businesses_active.
  - subst db'. destruct (Upload_db auth seen seen2 db files now cmd) as [->|(d & Hd)]; [split; [done|by intros k]|]. split; [by eapply Attach_keeps|].
    apply Attach_effect in Hd as (? & ? & _ & _ & _ & _ & ->). by apply same_businesses_active.
Qed.

Lemma biz_history_ok h db past : biz_history h → h = db :: past → ∀ s, s ∈ h → db_ok s ∧ still_active s db.
Proof.
  intros Hh. revert db past. induction Hh as [|db0 past0 db' Hh IH Hstep]; intros db past E; injection E as <- <-; intros s Hs.
  - apply list_elem_of_singleton in Hs as ->. split; [apply empty_biz_db_ok|by intros k].
  - pose proof (IH db0 past0 eq_refl) as Hpast.
    assert (Hin : db0 ∈ db0 :: past0) by by left. destruct (biz_step_keeps _ _ _ Hpast Hin Hstep) as [Hok Hact].
    apply elem_of_cons in Hs as [->|Hs]; [split; [done|by intros k]|]. destruct (Hpast s Hs) as [? Hs']. split; [done|]. intros k Hk. by apply Hact, Hs'.
Qed.

(** *** Only an approval activates *)

Lemma Branches_Update_tables db business bid v fn r : Branches_Update db business bid v fn = Ok r → businesses r.2 = businesses db ∧ invitations r.2 = invitations db.
Proof.
  unfold Branches_Update. destruct (toInt32 v) as [e|]; [|done]. destruct (find_branch db business bid) as [row|]; [|done].
  intros (? & _ & (b & _ & (b' & _ & (next & _ & (? & _ & [= <-])%res_bind_ok)%res_bind_ok)%res_bind_ok)%res_bind_ok)%res_bind_ok. done.
Qed.

Lemma same_businesses_inactive db db' k : businesses db' = businesses db → active_business db k = false → active_business db' k = true → False.
Proof. unfold active_business. intros ->. by destruct (match _ with Some _ => _ | None => _ end). Qed.

(** A change of a business that leaves it inactive. *)
Lemma update_inactive db bid v fn b' db' k :
  db_ok db → sound_change fn → (∀ b, fn b = Ok b' → status b ≠ StatusActive → status b' ≠ StatusActive) → update db bid v fn = Ok (b', db') →
  active_business db k = false → active_business db' k = true → False.
Proof.
  intros Hdb Hfn Hst Hu Hno Hyes. apply update_effect in Hu as (b & Hr & _ & _ & _ & _ & Hf & _ & _ & _ & Hs & _ & _ & _ & _ & ->); [|done..].
  apply active_business_spec in Hyes as (r & Hk & Ha). cbn [businesses publish add_outbox set_businesses] in Hk.
  apply lookup_insert_Some in Hk as [[_ <-]|[Hne Hk]]; [apply (Hst b Hf Hs); by apply Status_string_inj|].
  assert (active_business db k = true) by (apply active_business_spec; by exists r). congruence.
Qed.

Lemma edits_inactive b op b' now : (∀ a, op ≠ OpApprove a) → apply_op op b now = Ok b' → status b' ≠ StatusActive.
Proof. intros Hop (Hl & _)%op_ok E. rewrite E in Hl. inversion Hl as [| | | |u|]; subst. by apply (Hop u). Qed.

Lemma activated_by_approval past db db' k :
  (∀ s, s ∈ past → db_ok s ∧ still_active s db) → db ∈ past → biz_step past db db' → active_business db k = false → active_business db' k = true →
  ∃ seen now admin v b, seen ∈ past ∧ Approve_handler seen db now admin k v = Ok (b, db').
Proof.
  intros Hpast Hdb Hstep Hno Hyes. destruct (Hpast db Hdb) as [Hok _]. destruct Hstep as
    [now newB newS cmd b Hr | auth now cmd b _ Hr | auth now actor bid v b _ Hr | seen now admin bid v b Hseen Hr | seen now admin bid v why b _ Hr
    | P auth now newID cmd b _ Hr | auth now cmd b _ Hr | P auth seen now actor bid br v b _ _ Hr | auth now actor bid br v b _ Hr
    | P auth seen now newID token cmd _ _ Hr | auth actor bid iid _ Hr | P now newID actor token Hr | P auth seen seen2 files now cmd _ _ _ Hr].
  - exfalso. apply Register_handler_ok in Hr as (m & Hr & _ & Hst & _ & Hrev & _). apply Register_effect in Hr as (-> & _); [|done].
    apply active_business_spec in Hyes as (r & Hk & Ha). cbn in Hk. apply lookup_insert_Some in Hk as [[_ <-]|[_ Hk]]; [cbn in Ha; by rewrite Hst in Ha|].
    assert (active_business db k = true) by (apply active_business_spec; by exists r). congruence.
  - exfalso. unfold Update_handler in Hr. apply res_bind_ok in Hr as (m & _ & Hr). apply res_bind_ok in Hr as (name & Hname & Hr).
    eapply update_inactive; [done| | |exact Hr|done|done]; [apply rename_sound; intros n ->; by eapply optional_name_stored|].
    intros b0 Hf Hs. by apply (edits_inactive b0 (OpRename (default (displayName b0) name) (default (legalName b0) (uc_LegalName cmd))) _ now).
  - exfalso. unfold Submit_handler in Hr. apply res_bind_ok in Hr as (m & _ & Hr).
    eapply update_inactive; [done|by apply (apply_op_sound (OpSubmit (MkReadiness (count_documents db bid) (count_branches db bid))))| |exact Hr|done|done]. intros b0 Hf Hs. by apply (edits_inactive b0 (OpSubmit (MkReadiness (count_documents db bid) (count_branches db bid))) _ now).
  - destruct (decide (k = bid)) as [->|Hne]; [by exists seen, now, admin, v, b|]. exfalso. apply decide_review_ok in Hr as (_ & Hz & _ & Hr).
    apply update_effect in Hr as (b0 & _ & _ & _ & _ & _ & _ & _ & _ & _ & _ & _ & _ & _ & _ & ->); [|done|by apply (apply_op_sound (OpApprove (ad_ID admin)))].
    unfold active_business in Hno, Hyes. cbn [businesses publish add_outbox set_businesses] in Hyes. rewrite lookup_insert_ne in Hyes by done. congruence.
  - exfalso. apply decide_review_ok in Hr as (_ & Hz & _ & Hr).
    eapply update_inactive; [done|by apply (apply_op_sound (OpReject (ad_ID admin) why))| |exact Hr|done|done]. intros b0 Hf Hs. by apply (edits_inactive b0 (OpReject (ad_ID admin) why) _ now).
  - exfalso. apply Create_ok in Hr as (plan & Hr & _ & Hb & _). apply Branches_Add_effect in Hr as (-> & _); [|done]. by eapply same_businesses_inactive.
  - exfalso. unfold UpdateBranch_handler in Hr. apply res_bind_ok in Hr as (m & _ & Hr). apply res_bind_ok in Hr as (? & _ & Hr).
    apply Branches_Update_effect in Hr as (? & _ & _ & _ & _ & _ & _ & _ & _ & _ & _ & ->); [|done|apply edit_sound]. by eapply same_businesses_inactive.
  - exfalso. unfold Publish_handler in Hr. apply res_bind_ok in Hr as (m & _ & Hr). apply res_bind_ok in Hr as (biz & _ & Hr). apply res_bind_ok in Hr as (ready & _ & Hr).
    apply Branches_Update_tables in Hr as [E _]. by eapply same_businesses_inactive.
  - exfalso. unfold Unpublish_handler in Hr. apply res_bind_ok in Hr as (m & _ & Hr).
    apply Branches_Update_effect in Hr as (? & _ & _ & _ & _ & _ & _ & _ & _ & _ & _ & ->); [|done|apply unpublish_sound]. by eapply same_businesses_inactive.
  - exfalso. subst db'. destruct (Invite_handler_db auth seen db now newID token cmd) as [E|(i & b & Hi)]; [rewrite E in Hyes; congruence|].
    apply Invite_save_ok in Hi as (plan & phone & role & o & _ & _ & _ & _ & _ & Hrow & Hi). apply Invite_effect in Hi as (E & _); [|done].
    rewrite E in Hyes. by eapply same_businesses_inactive.
  - exfalso. unfold Revoke_handler in Hr. apply res_bind_ok in Hr as (m & _ & Hr).
    apply Invitations_Update_effect in Hr as (? & ? & _ & _ & _ & _ & _ & _ & _ & ->); [|done|apply Revoke_sound]. by eapply same_businesses_inactive.
  - exfalso. subst db'. destruct (Accept_handler_db db now newID actor token) as [E|(m & Hm)]; [rewrite E in Hyes; congruence|].
    apply Accept_save_ok in Hm as (phone & _ & _ & Hm). apply Invitations_Accept_effect in Hm as (? & ? & _ & _ & _ & _ & _ & _ & _ & E); [|done|apply accept_as_sound].
    rewrite E in Hyes. by eapply same_businesses_inactive.
  - exfalso. subst db'. destruct (Upload_db auth seen seen2 db files now cmd) as [E|(d & Hd)]; [rewrite E in Hyes; congruence|].
    apply Attach_effect in Hd as (? & ? & _ & _ & _ & _ & E). rewrite E in Hyes. by eapply same_businesses_inactive.
Qed.

(** *** A closed invitation stays as it is *)

Definition still_closed (s db : BizDB) : Prop :=
  ∀ k r, invitations s !! k = Some r → i_Status r ≠ InvitationPending → invitations db !! k = Some r.

Lemma same_invitations_closed db db' : invitations db' = invitations db → still_closed db db'.
Proof. intros E k r. by rewrite E. Qed.

Lemma pending_replaced db k i r : invitations db !! k = Some (invitation_row i) → inv_status i = InvitationPending → still_closed db (set_invitations db (<[k := r]> (invitations db))).
Proof.
  intros Hk Hp k' r' Hk' Hs. cbn [invitations set_invitations]. rewrite lookup_insert_ne; [done|]. intros <-. rewrite Hk in Hk'. injection Hk' as <-. by apply Hs.
Qed.

Lemma biz_step_closed past db db' : (∀ s, s ∈ past → db_ok s ∧ still_active s db) → db ∈ past → biz_step past db db' → still_closed db db'.
Proof.
  intros Hpast Hdb Hstep. destruct (Hpast db Hdb) as [Hok _]. destruct Hstep as
    [now newB newS cmd b Hr | auth now cmd b _ Hr | auth now actor bid v b _ Hr | seen now admin bid v b Hseen Hr | seen now admin bid v why b _ Hr
    | P auth now newID cmd b _ Hr | auth now cmd b _ Hr | P auth seen now actor bid br v b _ _ Hr | auth now actor bid br v b _ Hr
    | P auth seen now newID token cmd _ _ Hr | auth actor bid iid _ Hr | P now newID actor token Hr | P auth seen seen2 files now cmd _ _ _ Hr].
  - apply Register_handler_ok in Hr as (m & Hr & _ & _ & _ & Hrev & _). apply Register_effect in Hr as (-> & _); [|done]. by apply same_invitations_closed.
  - unfold Update_handler in Hr. apply res_bind_ok in Hr as (m & _ & Hr). apply res_bind_ok in Hr as (name & Hname & Hr).
    apply update_effect in Hr as (? & _ & _ & _ & _ & _ & _ & _ & _ & _ & _ & _ & _ & _ & _ & ->); [by apply same_invitations_closed|done|].
    apply rename_sound. intros n ->. by eapply optional_name_stored.
  - unfold Submit_handler in Hr. apply res_bind_ok in Hr as (m & _ & Hr).
    apply update_effect in Hr as (? & _ & _ & _ & _ & _ & _ & _ & _ & _ & _ & _ & _ & _ & _ & ->); [by apply same_invitations_closed|done|by apply (apply_op_sound (OpSubmit (MkReadiness (count_documents db bid) (count_branches db bid))))].
  - apply decide_review_ok in Hr as (_ & Hz & _ & Hr).
    apply update_effect in Hr as (? & _ & _ & _ & _ & _ & _ & _ & _ & _ & _ & _ & _ & _ & _ & ->); [by apply same_invitations_closed|done|by apply (apply_op_sound (OpApprove (ad_ID admin)))].
  - apply decide_review_ok in Hr as (_ & Hz & _ & Hr).
    apply update_effect in Hr as (? & _ & _ & _ & _ & _ & _ & _ & _ & _ & _ & _ & _ & _ & _ & ->); [by apply same_invitations_closed|done|by apply (apply_op_sound (OpReject (ad_ID admin) why))].
  - apply Create_ok in Hr as (plan & Hr & _ & Hb & _). apply Branches_Add_effect in Hr as (-> & _); [|done]. by apply same_invitations_closed.
  - unfold UpdateBranch_handler in Hr. apply res_bind_ok in Hr as (m & _ & Hr). apply res_bind_ok in Hr as (? & _ & Hr).
    apply Branches_Update_effect in Hr as (? & _ & _ & _ & _ & _ & _ & _ & _ & _ & _ & ->); [by apply same_invitations_closed|done|apply edit_sound].
  - unfold Publish_handler in Hr. apply res_bind_ok in Hr as (m & _ & Hr). apply res_bind_ok in Hr as (biz & _ & Hr). apply res_bind_ok in Hr as (ready & _ & Hr).
    apply Branches_Update_tables in Hr as [_ E]. by apply same_invitations_closed.
  - unfold Unpublish_handler in Hr. apply res_bind_ok in Hr as (m & _ & Hr).
    apply Branches_Update_effect in Hr as (? & _ & _ & _ & _ & _ & _ & _ & _ & _ & _ & ->); [by apply same_invitations_closed|done|apply unpublish_sound].
  - subst db'. destruct (Invite_handler_db auth seen db now newID token cmd) as [->|(i & b & Hi)]; [by intros k r|].
    apply Invite_save_ok in Hi as (plan & phone & role & o & _ & _ & _ & _ & _ & Hrow & Hi). apply Invite_effect in Hi as (-> & _ & _ & _ & _ & Hn & _); [|done].
    intros k r Hk Hs. assert (Hk' : invitations (RevokePending db (inv_business i) (e164 (inv_phone i))) !! k = Some r).
    { unfold RevokePending. cbn. rewrite lookup_fmap, Hk. cbn. destruct (pending_for _ _ r) eqn:Ep; [|done]. unfold pending_for in Ep. bool_prop. by destruct Ep as (_ & _ & ?). }
    cbn [invitations set_invitations]. rewrite lookup_insert_ne; [done|]. intros <-. congruence.
  - unfold Revoke_handler in Hr. apply res_bind_ok in Hr as (m & _ & Hr).
    apply Invitations_Update_effect in Hr as (i & i' & Hi & _ & _ & _ & Hf & _ & _ & ->); [|done|apply Revoke_sound]. apply Revoke_ok in Hf as [Hp _]. by eapply pending_replaced.
  - subst db'. destruct (Accept_handler_db db now newID actor token) as [->|(m & Hm)]; [by intros k r|].
    apply Accept_save_ok in Hm as (phone & _ & _ & Hm). apply Invitations_Accept_effect in Hm as (i & i' & Hi & _ & _ & Hf & _ & _ & _ & ->); [|done|apply accept_as_sound].
    unfold accept_as in Hf. apply res_bind_ok in Hf as (? & _ & Hf). apply Accept_ok in Hf as (Hp & _). exact (pending_replaced db _ i _ Hi Hp).
  - subst db'. destruct (Upload_db auth seen seen2 db files now cmd) as [->|(d & Hd)]; [by intros k r|].
    apply Attach_effect in Hd as (? & ? & _ & _ & _ & _ & ->). by apply same_invitations_closed.
Qed.

Lemma biz_history_closed h db past : biz_history h → h = db :: past → ∀ s, s ∈ h → still_closed s db.
Proof.
  intros Hh. revert db past. induction Hh as [|db0 past0 db' Hh IH Hstep]; intros db past E; injection E as <- <-; intros s Hs.
  - apply list_elem_of_singleton in Hs as ->. by intros k r.
  - pose proof (biz_history_ok _ db0 past0 Hh eq_refl) as Hpast. assert (Hin : db0 ∈ db0 :: past0) by by left.
    pose proof (biz_step_closed _ _ _ Hpast Hin Hstep) as Hc. apply elem_of_cons in Hs as [->|Hs]; [by intros k r|].
    intros k r Hk Hp. apply Hc; [|done]. by apply (IH db0 past0 eq_refl s Hs).
Qed.
End Histories.

(** ** What always holds *)

Section Invariants.
Context `{UuidLib} `{TzLib}.
Context {Files : Type} (Save : Files → UserID → string → res biz_error StoredFile * Files) (Discard : Files → MediaID → Files).

Lemma ByID_some db k r : db_ok db → businesses db !! k = Some r → ∃ b, ByID db k = Ok b ∧ biz_ok b ∧ id b = k ∧ r = biz_row b.
Proof. intros Hdb Hk. destruct (ByID_ok db k Hdb) as [[E _]|(b & E & Hb & ? & ?)]; [congruence|]. exists b. repeat (split; [done|]). congruence. Qed.

Lemma one_key {K V} `{Countable K} (same : V → V → bool) (t : gmap K V) k k' r o :
  unique same t → t !! k = Some r → t !! k' = Some o → same r o = true → k = k'.
Proof. apply unique_same. Qed.

(** C12. However requests interleave, in every state business's tables reach:
    every business loads and is well formed; no two submitted businesses
    share a CR number, nobody registers one twice, and nobody has more than
    three registrations waiting for approval; each business has exactly one
    owner, the person who registered it; every branch loads and is well
    formed, and a published one belongs to an active business; nobody keeps
    more than five documents; and a person has at most one invitation pending
    from a business. *)
Theorem business_invariants h db :
  biz_history Save Discard h → db ∈ h →
  (∀ k r, businesses db !! k = Some r → ∃ b, ByID db k = Ok b ∧ biz_ok b ∧ id b = k) ∧
  (∀ k k' r r', businesses db !! k = Some r → businesses db !! k' = Some r' → z_CrNumber r = z_CrNumber r' →
     z_OwnerUserID r = z_OwnerUserID r' ∨ claims r && claims r' = true → k = k') ∧
  (∀ u, open_of db u ≤ MaxOpenRegistrations) ∧
  (∀ k r, businesses db !! k = Some r → ∃ st m, staff_members db !! st = Some (staff_row m) ∧ sm_business m = k ∧ sm_role m = RoleOwner ∧
     sm_user m = z_OwnerUserID r ∧
     ∀ st' m', staff_members db !! st' = Some (staff_row m') → sm_business m' = k → sm_role m' = RoleOwner → st' = st) ∧
  (∀ k r, branches db !! k = Some r → ∃ b, Branches_ByID db (b_BusinessID r) k = Ok b ∧ branch_ok b ∧
     (br_status b = BranchPublished → ∃ biz, ByID db (br_business b) = Ok biz ∧ status biz = StatusActive)) ∧
  (∀ k, count_documents db k ≤ MaxVerificationDocuments) ∧
  (∀ k k' r r', invitations db !! k = Some r → invitations db !! k' = Some r' → same_pending r r' = true → k = k').
Proof.
  intros Hh Hdb. destruct h as [|top past]; [by apply elem_of_nil in Hdb|].
  destruct (biz_history_ok Save Discard _ top past Hh eq_refl db Hdb) as [Hok _]. split_and!.
  - intros k r Hk. destruct (ByID_some db k r Hok Hk) as (b & ? & ? & ? & _). by exists b.
  - intros k k' r r' Hr Hr' Hcr [Ho|Hc].
    + apply (one_key same_owner_cr (businesses db) _ _ r r'); [apply do_owner_cr, Hok|done..|]. by apply bool_decide_eq_true.
    + apply (one_key same_claim (businesses db) _ _ r r'); [apply do_claim, Hok|done..|]. unfold same_claim. rewrite Hc. by apply bool_decide_eq_true.
  - apply do_open, Hok.
  - intros k r Hk. destruct (do_owner db Hok k r Hk) as (st & sr & Hsr & Hb & Hrole). destruct (do_staff db Hok st sr Hsr) as (m & -> & _ & _ & bz & Hbz & Hu).
    simpl in Hb, Hrole. assert (Hro : sm_role m = RoleOwner) by by apply Role_string_inj. subst k. rewrite Hk in Hbz. injection Hbz as <-.
    exists st, m. repeat (split; [done|]). split; [by apply Hu|]. intros st' m' Hm' Hb' Hr'.
    apply (one_key same_ownership (staff_members db) _ _ (staff_row m') (staff_row m)); [apply do_ownership, Hok|done..|].
    apply bool_decide_eq_true. simpl. by rewrite Hr', Hro, Hb'.
  - intros k r Hk. destruct (do_branch db Hok k r Hk) as (b0 & Hb0 & <- & -> & _ & _ & [bz Hbz]).
    destruct (Branches_ByID_ok db (br_business b0) (br_id b0) Hok) as [[E _]|(b & Hr & Hbus & Hid & Hby & Hb)].
    { exfalso. assert (find_branch db (br_business b0) (br_id b0) = Some (branch_row b0)) by (by apply find_branch_some). congruence. }
    exists b. simpl. split; [done|]. split; [done|]. intros Hp. rewrite Hbus.
    assert (Ha : active_business db (br_business b0) = true).
    { apply (do_published db Hok _ _ Hk). assert (E : b_Status (branch_row b) = b_Status (branch_row b0)) by congruence. rewrite <- E. simpl. by rewrite Hp. }
    apply active_business_spec in Ha as (r & Hr' & Hst). destruct (ByID_some db _ r Hok Hr') as (biz & Hbiz & _ & _ & ->). exists biz. split; [done|].
    by apply Status_string_inj.
  - apply do_documents, Hok.
  - intros k k' r r' Hr Hr'. by apply (one_key same_pending (invitations db)); [apply do_pending, Hok|..].
Qed.
End Invariants.

(** ** Authorization *)

Section Authorization.
Context `{UuidLib} `{TzLib} `{P : Ports}.

(** C13. Who may act on a business: its staff, with a role that is enough. A
    stranger - former, from another shop, or asking for a business that does
    not exist - is told "not found" whichever it is; staff with too small a
    role are told "forbidden"; and every business-mode request answers such a
    refusal before it reads or changes anything else. *)
Theorem every_call_is_authorised auth db actor business :
  db_ok auth →
  (∀ need, match authorize auth actor business need with
     | Ok m => is_member auth business actor ∧ sm_user m = actor ∧ sm_business m = business ∧ rank need ≤ rank (sm_role m)
     | Err e => e = ErrNotFound ∧ ¬ is_member auth business actor ∨ e = ErrForbidden ∧ is_member auth business actor
     end) ∧
  (businesses auth !! business = None → ∀ need, authorize auth actor business need = Err ErrNotFound) ∧
  (∀ e, authorize auth actor business RoleOwner = Err e →
     Get_handler auth db actor business = Err e ∧ Plan_handler auth actor business = Err e ∧
     (∀ now v name legal, Update_handler auth db now (MkUpdate actor business v name legal) = Err e) ∧
     (∀ now v, Submit_handler auth db now actor business v = Err e) ∧
     (∀ now nid name city district address loc phone tz policy,
        Create auth db now nid (MkCreate actor business name city district address loc phone tz policy) = Err e) ∧
     (∀ seen now br v, Publish_handler auth seen db now actor business br v = Err e) ∧
     (∀ now br v, Unpublish_handler auth db now actor business br v = Err e) ∧
     (∀ seen now nid token phone name role brs, Invite_handler auth seen db now nid token (MkInviteStaff actor business phone name role brs) = (Err e, db)) ∧
     ListInvitations_handler auth db actor business = Err e ∧ (∀ iid, Revoke_handler auth db actor business iid = Err e) ∧
     ListDocuments_handler auth db actor business = Err e ∧
     (∀ Files (Save : Files → UserID → string → res biz_error StoredFile * Files) (Discard : Files → MediaID → Files) seen seen2 files now kind body,
        Upload Save Discard auth seen seen2 db files now (MkUpload actor business kind body) = (Err e, db, files))) ∧
  (∀ e, authorize auth actor business RoleManager = Err e →
     ListStaff_handler auth db actor business = Err e ∧
     (∀ now br v name city district address loc phone tz policy,
        UpdateBranch_handler auth db now (MkUpdateBranch actor business br v name city district address loc phone tz policy) = Err e)) ∧
  (∀ e, authorize auth actor business RoleBarber = Err e →
     ListBranches_handler auth db actor business = Err e ∧ (∀ br, GetBranch_handler auth db actor business br = Err e)).
Proof.
  intros Hok. assert (Hspec := λ need, authorize_spec auth actor business need Hok). split_and!.
  - intros need. specialize (Hspec need). destruct (authorize _ _ _ _) as [m|e].
    + destruct Hspec as (Hm & Hb & Hu & Hr & _). repeat (split; [by try exists (sm_id m), m|]). done.
    + destruct Hspec as [?|(? & m & Hm & Hb & Hu & _)]; [by left|]. right. split; [done|]. by exists (sm_id m), m.
  - intros Hno need. specialize (Hspec need). destruct (authorize _ _ _ _) as [m|e].
    + destruct Hspec as (Hm & Hb & _). destruct (do_staff auth Hok _ _ Hm) as (m' & Em & _ & _ & bz & Hbz & _).
      assert (sm_business m' = sm_business m) by (by injection Em). congruence.
    + destruct Hspec as [[-> _]|(_ & m & Hm & Hb & _)]; [done|]. destruct (do_staff auth Hok _ _ Hm) as (m' & Em & _ & _ & bz & Hbz & _).
      assert (sm_business m' = sm_business m) by (by injection Em). congruence.
  - intros e He. unfold Get_handler, Plan_handler, Update_handler, Submit_handler, Create, Publish_handler, Unpublish_handler, Invite_handler, Invite_save,
      ListInvitations_handler, Revoke_handler, ListDocuments_handler, Upload, Upload_check. cbn. rewrite He. by repeat (split; [done|]).
  - intros e He. unfold ListStaff_handler, UpdateBranch_handler. cbn. by rewrite He.
  - intros e He. unfold ListBranches_handler, GetBranch_handler. by rewrite He.
Qed.
End Authorization.

(** ** Concurrent edits *)

Section Edits.
Context `{TzLib}.

Lemma UpdateBranch_conflict db business bid v v' fn r : branches db !! bid = Some r → b_BusinessID r = business → b_Version r ≠ v → v' = v →
  Branches_Update db business bid v' fn = Err ErrVersionConflict.
Proof.
  intros Hr Hb Hv ->. unfold Branches_Update. destruct (toInt32 v) as [e|] eqn:E; [|done]. apply toInt32_inv in E as [-> _].
  assert (find_branch db business bid = Some r) as -> by by apply find_branch_some. by rewrite (proj2 (Z.eqb_neq _ _)).
Qed.

(** Edits never overwrite one another silently. When an edit of a
    business (or a branch) made against version v is saved, its version is
    v + 1, reading gives exactly what was saved, no other business (branch)
    changed, and any other edit made against version v is from then on
    refused as a conflict. *)
Theorem edits_do_not_overwrite db :
  db_ok db →
  (∀ bid v fn b db', sound_change fn → Update db bid v fn = Ok (b, db') →
     version b = v + 1 ∧ ByID db' bid = Ok (as_loaded b) ∧ (∀ k, k ≠ bid → businesses db' !! k = businesses db !! k) ∧
     outbox db' = outbox db ++ (to_outbox <$> events b) ∧ ∀ fn2, Update db' bid v fn2 = Err ErrVersionConflict) ∧
  (∀ business bid v fn b db', sound_branch_change db business fn → Branches_Update db business bid v fn = Ok (b, db') →
     br_version b = v + 1 ∧ Branches_ByID db' business bid = Ok (branch_loaded b) ∧ (∀ k, k ≠ bid → branches db' !! k = branches db !! k) ∧
     outbox db' = outbox db ++ (to_outbox <$> br_events b) ∧ ∀ fn2, Branches_Update db' business bid v fn2 = Err ErrVersionConflict).
Proof.
  intros Hdb. split.
  - intros bid v fn b db' Hfn Hu. pose proof (update_effect _ _ _ _ _ _ Hdb Hfn Hu) as (b0 & Hr & Hb0 & _ & Hid0 & Hv0 & Hf & Hb & Hid & _ & _ & Hv & _ & _ & _ & ->).
    destruct (do_business db Hdb bid _ Hr) as (b1 & _ & _ & E & Hv1 & _). assert (version b1 = version b0) as Ev by (by injection E).
    assert (Hvv : version b = v + 1). { destruct (Hfn b0 b Hb0 Hf) as (_ & _ & _ & _ & _ & _ & ->). rewrite <- Hv0, <- Ev. by apply next_version. }
    split; [done|]. split; [|split; [|split; [done|]]].
    + unfold ByID. simpl. rewrite lookup_insert_eq. by apply toBusiness_row.
    + intros k Hk. simpl. by rewrite lookup_insert_ne.
    + intros fn2. unfold Update, update. destruct (toInt32 v) as [e|] eqn:Ee; [|done]. apply toInt32_inv in Ee as [-> _]. simpl. rewrite lookup_insert_eq. simpl.
      by rewrite (proj2 (Z.eqb_neq _ _)) by lia.
  - intros business bid v fn b db' Hfn Hu.
    pose proof (Branches_Update_effect _ _ _ _ _ _ _ Hdb Hfn Hu) as (b0 & Hr & Hb0 & _ & Hid0 & Hbus0 & Hv0 & Hf & Hb & Hv & _ & ->).
    destruct (Hfn b0 b Hb0 Hf) as (_ & Hid & Hbus & _). split; [done|]. split; [|split; [|split; [done|]]].
    + unfold Branches_ByID, find_branch. simpl. rewrite lookup_insert_eq. simpl. rewrite bool_decide_eq_true_2 by congruence. by apply toBranch_row.
    + intros k Hk. simpl. by rewrite lookup_insert_ne.
    + intros fn2. apply (UpdateBranch_conflict _ _ _ v _ _ (branch_row b)); [simpl; by rewrite lookup_insert_eq|simpl; congruence|simpl; lia|done].
Qed.
End Edits.

(** ** Reviews *)

Section Reviews.
Context `{UuidLib} `{TzLib}.
Context {Files : Type} (Save : Files → UserID → string → res biz_error StoredFile * Files) (Discard : Files → MediaID → Files).

(** What an approval stores: all tables but the business's row and the outbox
    as they were. *)
Lemma approval_effect seen db now admin bid v b db' :
  db_ok db → Approve_handler seen db now admin bid v = Ok (b, db') →
  ad_IsPlatformAdmin admin = true ∧ Membership seen bid (ad_ID admin) = Err ErrNotFound ∧
  ∃ b0, ByID db bid = Ok b0 ∧ ByID db' bid = Ok (as_loaded b) ∧ Approve b0 (ad_ID admin) now = Ok b ∧ version b0 = v ∧ id b0 = bid ∧
    version b = v + 1 ∧ events b0 = [] ∧
    db' = MkBizDB (<[bid := biz_row b]> (businesses db)) (staff_members db) (staff_branches db) (branches db) (invitations db) (documents db)
            (outbox db ++ (to_outbox <$> events b)).
Proof.
  intros Hdb Hd. apply decide_review_ok in Hd as (Ha & Hz & Hm & Hu). split; [done|]. split; [done|].
  assert (Hs : sound_change (λ b, Approve b (ad_ID admin) now)) by by apply (apply_op_sound (OpApprove (ad_ID admin))).
  apply update_effect in Hu as (b0 & Hr & Hb0 & He & Hid & Hv & Hf & Hb & Hid' & Ho & _ & _ & _ & _ & Hcr & ->); [|done..].
  exists b0. unfold ByID. rewrite Hr, toBusiness_row, as_loaded_fresh by done. cbn [businesses publish add_outbox set_businesses]. rewrite lookup_insert_eq, toBusiness_row by done.
  split_and!; try done. destruct (do_business db Hdb bid _ Hr) as (b1 & _ & _ & E & Hv1 & _). assert (version b1 = version b0) as Ev by (by injection E).
  destruct (Hs b0 b Hb0 Hf) as (_ & _ & _ & _ & _ & _ & ->). rewrite <- Hv, <- Ev. by apply next_version.
Qed.

(** C14. Approving is independent and happens once. In any history a business
    becomes active only by Approve, and stays active. Approve refuses who is
    no platform admin, and an admin who was on the business's staff when the
    review looked; it succeeds on a business submitted and waiting at the
    version the admin saw, whose owner they are not. What is stored is the
    same business - names, CR number, owner, when it registered and was
    submitted - active, one version on, reviewed now by the admin, with no
    rejection left; it is announced once; every other business, the staff,
    branches, invitations and documents are as they were; and no later
    approval of it succeeds. *)
Theorem approval_is_independent h db past :
  biz_history Save Discard h → h = db :: past →
  (∀ db' k, biz_step Save Discard h db db' → active_business db k = false → active_business db' k = true →
     ∃ seen now admin v b, seen ∈ h ∧ Approve_handler seen db now admin k v = Ok (b, db')) ∧
  (∀ s k, s ∈ h → active_business s k = true → active_business db k = true ∧
     ∀ seen now admin v r, Approve_handler seen db now admin k v ≠ Ok r) ∧
  ∀ seen now admin bid v, seen ∈ h →
    (ad_IsPlatformAdmin admin = false ∨ ID_IsZero (ad_ID admin) = true → Approve_handler seen db now admin bid v = Err ErrNotPlatformAdmin) ∧
    (ad_IsPlatformAdmin admin = true → ID_IsZero (ad_ID admin) = false → is_member seen bid (ad_ID admin) →
       Approve_handler seen db now admin bid v = Err ErrSelfReview) ∧
    ∀ b db', Approve_handler seen db now admin bid v = Ok (b, db') →
      ad_IsPlatformAdmin admin = true ∧ ¬ is_member seen bid (ad_ID admin) ∧
      ∃ b0, ByID db bid = Ok b0 ∧ status b0 = StatusPendingReview ∧ version b0 = v ∧ owner b0 ≠ ad_ID admin ∧
        ByID db' bid = Ok (as_loaded b) ∧ status b = StatusActive ∧ version b = v + 1 ∧ updatedAt b = dbTime now ∧
        review b = MkReview (SubmittedAt (review b0)) (Some (dbTime now)) (ad_ID admin) "" ∧
        id b = bid ∧ displayName b = displayName b0 ∧ legalName b = legalName b0 ∧ cr b = cr b0 ∧ owner b = owner b0 ∧ createdAt b = createdAt b0 ∧
        db' = MkBizDB (<[bid := biz_row b]> (businesses db)) (staff_members db) (staff_branches db) (branches db) (invitations db) (documents db)
                (outbox db ++ [MkOutbox TypeBusinessApproved (dbTime now) (ApprovedPayload bid (owner b0) (dbTime now))]).
Proof.
  intros Hh Eh. pose proof (biz_history_ok Save Discard h db past Hh Eh) as Hall.
  assert (Hin : db ∈ h) by (rewrite Eh; by left). destruct (Hall db Hin) as [Hdb _]. split_and!.
  - intros db' k Hstep. by eapply activated_by_approval.
  - intros s k Hs Hk. destruct (Hall s Hs) as [_ Hact]. specialize (Hact k Hk). split; [done|]. intros seen now admin v [b db'] Hd.
    destruct (approval_effect _ _ _ _ _ _ _ _ Hdb Hd) as (_ & _ & b0 & Hb0 & _ & Hf & _). unfold Approve in Hf. apply res_bind_ok in Hf as (? & [_ Hp]%canReview_ok & _).
    apply active_business_spec in Hact as (r & Hr & Ha). destruct (ByID_ok db k Hdb) as [[_ E]|(b1 & Hrow & E & _)]; [congruence|].
    rewrite Hrow in Hr. injection Hr as <-. assert (b0 = b1) as -> by congruence. cbn in Ha. by rewrite Hp in Ha.
  - intros seen now admin bid v Hseen. destruct (Hall seen Hseen) as [Hsok _]. split_and!.
    + intros Hno. unfold Approve_handler, decide_review, require. by destruct Hno as [->| ->]; rewrite ?orb_true_r.
    + intros Ha Hz (k & m & Hk & Hb & Hu). unfold Approve_handler, decide_review, require. rewrite Ha, Hz. cbn [negb orb res_bind].
      destruct (Membership_ok seen bid (ad_ID admin) Hsok) as [[_ Hno]|(m' & -> & _)]; [by destruct (Hno k m Hk Hb)|done].
    + intros b db' Hd. destruct (approval_effect _ _ _ _ _ _ _ _ Hdb Hd) as (Ha & Hm & b0 & Hb0 & Hb & Hf & Hv & Hid & Hv' & He & ->). split; [done|]. split.
      { intros (k & m & Hk & Hbus & Hus). destruct (Membership_ok seen bid (ad_ID admin) Hsok) as [[_ Hno]|(m' & E & _)]; [by apply (Hno k m)|congruence]. }
      exists b0. unfold Approve in Hf. apply res_bind_ok in Hf as (? & [Hne Hp]%canReview_ok & [= <-]). cbn in Hv' |- *. rewrite He, Hid. by split_and!.
Qed.
End Reviews.

(** ** Invitations *)

Section Joining.
Context `{UuidLib} `{TzLib} `{P : Ports}.

Lemma with_staff_member db m : db_ok db → staff_members db !! sm_id m = None →
  conflicts same_user (staff_members db) (sm_id m) (staff_row m) = false →
  Membership (with_staff db m) (sm_business m) (sm_user m) = Ok m.
Proof.
  intros Hdb Hn Hc. unfold Membership, with_staff. cbn [staff_members set_staff].
  rewrite (rows_where_one _ _ (sm_id m) (staff_row m)).
  - unfold load_member, branches_of. cbn [staff_branches set_staff s_ID staff_row].
    replace (default [] _) with (sm_branches m); [by apply toStaffMember_row|].
    destruct (sm_branches m) as [|x l] eqn:E; cbn [length Nat.eqb]; [|by rewrite lookup_insert_eq].
    destruct (staff_branches db !! sm_id m) eqn:Es; [|done]. destruct (do_branch_owners db Hdb (sm_id m)) as [? Hs]; [eauto|congruence].
  - apply lookup_insert_eq.
  - by apply bool_decide_eq_true.
  - intros k r Hk Hp. apply lookup_insert_Some in Hk as [[<- _]|[Hne Hk]]; [done|]. rewrite conflicts_false in Hc. specialize (Hc k r Hk (not_eq_sym Hne)).
    bool_prop. unfold same_user in Hc. rewrite bool_decide_eq_false in Hc. destruct Hc. simpl. destruct Hp as [-> ->]. done.
Qed.

(** A token names one invitation. *)
Lemma token_row db hash r : db_ok db → (∃ k, invitations db !! k = Some r) → i_TokenHash r = hash →
  rows_where (λ r, bool_decide (i_TokenHash r = hash)) (invitations db) = [r].
Proof.
  intros Hdb [k Hk] Hh. apply (rows_where_one _ _ k); [done|by apply bool_decide_eq_true|].
  intros k' r' Hk' Hp. bool_prop. apply (one_key same_token (invitations db) _ _ r' r); [apply do_token, Hdb|done..|]. apply bool_decide_eq_true. congruence.
Qed.

(** C15. An invitation is accepted by the person it was sent to, once. When
    accepting succeeds, the token is that of a pending invitation that had not
    expired, sent to the very phone the caller signs in with, by a business
    they did not yet work at; they now do, under a new staff row, in the role -
    never owner - and at the branches offered; the invitation is marked
    accepted by them; nothing else changed, nobody else's branches either; and
    the token never works again: in every history that goes on from there,
    accepting with it is refused, for anyone, and changes nothing. *)
Theorem invitation_joins_the_invited db now newID actor token m db' :
  db_ok db → Accept_save db now newID actor token = Ok (m, db') →
  ∃ i, invitations db !! inv_id i = Some (invitation_row i) ∧ inv_tokenHash i = token_hash (TrimSpace token) ∧
    inv_status i = InvitationPending ∧ now < inv_expiresAt i ∧ PhoneOf actor = Ok (inv_phone i) ∧
    ¬ is_member db (inv_business i) actor ∧
    Membership db' (inv_business i) actor = Ok m ∧ sm_role m = inv_role i ∧ sm_role m ≠ RoleOwner ∧ sm_branches m = inv_branches i ∧
    (∀ b, b ∈ inv_branches i → ∃ r, branches db !! b = Some r ∧ b_BusinessID r = inv_business i) ∧
    invitations db' = <[inv_id i := invitation_row (with_status i InvitationAccepted (Some (dbTime now)) actor)]> (invitations db) ∧
    staff_members db !! newID = None ∧ staff_members db' = <[newID := staff_row m]> (staff_members db) ∧
    (∀ s, s ≠ newID → staff_branches db' !! s = staff_branches db !! s) ∧ branches_of db' newID = inv_branches i ∧
    businesses db' = businesses db ∧ branches db' = branches db ∧ documents db' = documents db ∧ outbox db' = outbox db ∧
    ∀ Files (Save : Files → UserID → string → res biz_error StoredFile * Files) Discard later db2 since,
      biz_history Save Discard later → later = db2 :: since → db' ∈ later →
      ∀ (P' : Ports) now' newID' actor', ∃ e, @Accept_handler P' db2 now' newID' actor' token = (Err e, db2).
Proof.
  intros Hdb Ha. apply Accept_save_ok in Ha as (phone & Hphone & Htok & Ha).
  pose proof (Invitations_Accept_keeps _ _ _ _ _ Hdb (accept_as_sound actor phone newID now) Ha) as Hdb'.
  apply Invitations_Accept_effect in Ha as (i & i' & Hr & Hi & Hh & Hf & Hsame & Hc & Hins & Hdb1); [|done|apply accept_as_sound].
  unfold accept_as in Hf. apply res_bind_ok in Hf as (? & Hp%ensure_ok & Hf). bool_prop. apply Accept_ok in Hf as (Hst & Hexp & -> & ->).
  cbv zeta in Hins, Hdb1. apply insertStaff_effect in Hins as (_ & Hn & _ & _ & Hu & Hbrs). subst phone. exists i. repeat (split; [done|]). split.
  { intros (k & m0 & Hk & Hb0 & Hu0). rewrite conflicts_false in Hu. cbn in Hn. destruct (decide (k = newID)) as [->|Hne]; [congruence|].
    specialize (Hu k _ Hk Hne). unfold same_user in Hu. rewrite bool_decide_eq_false in Hu. apply Hu. cbn. by rewrite Hu0, Hb0. }
  split.
  { rewrite Hdb1. apply (with_staff_member _ (MkStaff newID (inv_business i) actor (inv_role i) true (dbTime now) (inv_name i) (inv_branches i))); [|done..].
    apply set_invitations_ok; [done|..].
    - intros k r Hk. apply lookup_insert_Some in Hk as [[<- <-]|[_ Hk]]; [|by apply (do_invitation db Hdb)].
      eexists. split; [by apply with_status_ok|done].
    - apply (do_pending _ (saved_invitation_keeps db i (with_status i InvitationAccepted (Some (dbTime now)) actor) Hdb Hr Hi Hsame Hc)).
    - apply (do_token _ (saved_invitation_keeps db i (with_status i InvitationAccepted (Some (dbTime now)) actor) Hdb Hr Hi Hsame Hc)). }
  split; [done|]. split; [apply Hi|]. split; [done|]. split; [done|]. split; [by rewrite Hdb1|]. split; [done|]. split; [by rewrite Hdb1|]. split.
  { intros s Hs. rewrite Hdb1. cbn. destruct (length _ =? 0)%nat; [done|]. by rewrite lookup_insert_ne by congruence. }
  split.
  { rewrite Hdb1. unfold branches_of. cbn. destruct (inv_branches i) as [|y l] eqn:E; cbn [length Nat.eqb]; [|by rewrite lookup_insert_eq].
    destruct (staff_branches db !! newID) eqn:Es; [|done]. destruct (do_branch_owners db Hdb newID) as [? Hs]; [eauto|]. cbn in Hn. congruence. }
  do 4 (split; [by rewrite Hdb1|]).
  intros Files Save Discard later db2 since Hlater El Hin P' now' newID' actor'.
  destruct (biz_history_ok Save Discard later db2 since Hlater El db2) as [Hdb2 _]; [rewrite El; by left|].
  set (row := invitation_row (with_status i InvitationAccepted (Some (dbTime now)) actor)).
  assert (Hrow : invitations db2 !! inv_id i = Some row).
  { apply (biz_history_closed Save Discard later db2 since Hlater El db' Hin); [|done]. rewrite Hdb1. cbn. apply lookup_insert_eq. }
  unfold Accept_handler. destruct (@Accept_save P' db2 now' newID' actor' token) as [[m2 db3]|e] eqn:Hagain; [exfalso|by exists e].
  apply Accept_save_ok in Hagain as (phone' & _ & _ & Hagain). unfold Invitations_Accept in Hagain.
  rewrite (token_row db2 _ row Hdb2 (ex_intro _ _ Hrow)) in Hagain by done. unfold row in Hagain.
  rewrite toInvitation_row in Hagain by apply Hi. cbn [res_bind] in Hagain. apply res_bind_ok in Hagain as ([i2 m3] & Hf & _).
  unfold accept_as in Hf. apply res_bind_ok in Hf as (? & _ & Hf). apply Accept_ok in Hf as (Hst' & _). done.
Qed.

Lemma oldest_after since rows : (∀ r, r ∈ rows → since < i_CreatedAt r) → rows ≠ [] → since < oldest since rows.
Proof.
  destruct rows as [|r rows]; [done|]. intros Hr _. simpl.
  assert (Hfold : ∀ l t, since < t → (∀ r, r ∈ l → since < i_CreatedAt r) → since < foldl (λ t r, Z.min t (i_CreatedAt r)) t l).
  { induction l as [|x l IH]; intros t Ht Hl; [done|]. simpl. apply IH; [|set_solver]. specialize (Hl x ltac:(by left)). lia. }
  apply Hfold; [apply Hr; by left|]. intros x Hx. apply Hr. by right.
Qed.

Lemma newest_ge since rows r : r ∈ rows → i_CreatedAt r ≤ newest since rows.
Proof.
  destruct rows as [|r0 rows]; [by intros ?%elem_of_nil|]. simpl.
  assert (Hfold : ∀ l t, t ≤ foldl (λ t r, Z.max t (i_CreatedAt r)) t l ∧ ∀ r, r ∈ l → i_CreatedAt r ≤ foldl (λ t r, Z.max t (i_CreatedAt r)) t l).
  { induction l as [|x l IH]; intros t; simpl; [split; [lia|by intros ? ?%elem_of_nil]|]. destruct (IH (Z.max t (i_CreatedAt x))) as [H1 H2]. split; [lia|].
    intros y [->|Hy]%elem_of_cons; [lia|by apply H2]. }
  destruct (Hfold rows (i_CreatedAt r0)) as [H1 H2]. intros [->|Hr]%elem_of_cons; [done|by apply H2].
Qed.

(** A window that is not full: fewer than the limit were sent in it. *)
Lemma under_limit (p : InvRow → bool) db since limit now : 0 < limit → since + InviteWindow = now →
  (∀ k r, invitations db !! k = Some r → p r = true → since < i_CreatedAt r) →
  (limit ≤ count_where p (invitations db) → oldest since (rows_where p (invitations db)) + InviteWindow ≤ now) →
  count_where p (invitations db) < limit.
Proof.
  intros Hl Hw Hp Hold. destruct (Z.lt_ge_cases (count_where p (invitations db)) limit) as [|Hge]; [done|]. specialize (Hold Hge).
  assert (since < oldest since (rows_where p (invitations db))); [|lia]. apply oldest_after.
  - intros r (k & Hk & Hpr)%elem_of_rows_where. by eapply Hp.
  - intros E. unfold count_where in Hge. rewrite E in Hge. simpl in Hge. lia.
Qed.

Lemma AllowStaff_ok l n u : AllowStaff l n = Ok u → n < MaxStaff l.
Proof. unfold AllowStaff. destruct (Z.leb_spec (MaxStaff l) n); [done|lia]. Qed.

(** C16. Invitations stay within every limit. When one is saved, its sender
    owns the business, each branch named is that business's, the business
    had not texted this phone within the last minute, and counting the new
    one the phone got at most five invitations in a day from everyone and the
    business sent at most fifty; the seats in use fit the plan; and the new
    one is the only invitation the phone has pending from the business. *)
Theorem invite_within_limits auth seen db now newID token cmd i b db' :
  db_ok auth → db_ok db → Invite_save auth seen db now newID token cmd = Ok (i, b, db') →
  ∃ plan, Standing (is_Business cmd) = Ok plan ∧
    (∃ m, authorize auth (is_Actor cmd) (is_Business cmd) RoleOwner = Ok m ∧ sm_role m = RoleOwner) ∧
    inv_business i = is_Business cmd ∧ inv_createdAt i = dbTime now ∧
    (∀ br, br ∈ inv_branches i ↔ br ∈ is_Branches cmd) ∧
    (∀ br, br ∈ inv_branches i → ∃ r, branches db !! br = Some r ∧ b_BusinessID r = inv_business i) ∧
    let since := inv_createdAt i - InviteWindow in
    let phone := e164 (inv_phone i) in
    (∀ k r, invitations db !! k = Some r → i_BusinessID r = inv_business i → i_Phone r = phone → i_CreatedAt r + InviteCooldown ≤ inv_createdAt i) ∧
    count_where (to_phone phone since) (invitations db') ≤ MaxInvitesPerPhone ∧
    count_where (by_business (inv_business i) since) (invitations db') ≤ MaxInvitesPerBusiness ∧
    CountStaffSeats db' (inv_business i) (inv_createdAt i) ≤ MaxStaff (ps_Limits plan) ∧
    (∀ k r, invitations db' !! k = Some r → pending_for (inv_business i) phone r = true ↔ k = inv_id i ∧ r = invitation_row i).
Proof.
  intros Hauth Hdb Hi. apply Invite_save_ok in Hi as (plan & phone & role & o & Ho & Hphone & Hplan & Hnew & Hok & Hrow & Hi).
  destruct (NewInvitation_ok _ _ _ _ _ _ _ Hnew (NewPhoneNumber_stored _ _ Hphone)) as (_ & Hbus & _ & _ & Hpend & Hcre & Hexp & _ & _ & _ & _ & Hbrs).
  apply Invite_effect in Hi as (-> & _ & Hcount & (Hcool & Hph & Hby) & Hseats & Hfresh & _ & _); [|done].
  set (since := inv_createdAt i - InviteWindow) in *. set (p := e164 (inv_phone i)) in *. cbv zeta.
  exists plan. split; [done|]. split.
  { exists o. split; [done|]. pose proof (authorize_spec auth (is_Actor cmd) (is_Business cmd) RoleOwner Hauth) as Ha. rewrite Ho in Ha.
    destruct Ha as (_ & _ & _ & Hr & _). by destruct (sm_role o). }
  split; [done|]. split; [done|]. split; [done|]. split.
  { apply branches_counted; [done|apply Hok|done]. }
  assert (Hw : since + InviteWindow = inv_createdAt i) by (unfold since; lia).
  assert (Hcre' : ∀ q, (∀ r, q (revoke_row r) = q r) → count_where q (invitations (RevokePending db (inv_business i) p)) = count_where q (invitations db)).
  { intros q Hq. unfold RevokePending. cbn. rewrite count_where_fmap. unfold count_where, rows_where. f_equal. f_equal. apply list_filter_iff. intros r.
    destruct (pending_for _ _ r); [by rewrite Hq|done]. }
  split; [|split; [|split; [|split]]].
  - intros k r Hk Hrb Hrp. unfold history in Hcool. cbn [LastToPhone] in Hcool.
    destruct (Z.ltb_spec since (i_CreatedAt r)) as [Hlt|Hge].
    + pose proof (newest_ge since (rows_where (λ r, by_business (inv_business i) since r && to_phone p since r) (invitations db)) r) as Hn.
      assert (Hin : r ∈ rows_where (λ r, by_business (inv_business i) since r && to_phone p since r) (invitations db)).
      { apply elem_of_rows_where. exists k. split; [done|]. unfold by_business, to_phone. rewrite !bool_decide_eq_true_2 by done. by rewrite (proj2 (Z.ltb_lt _ _) Hlt). }
      specialize (Hn Hin). lia.
    + unfold since, InviteWindow, InviteCooldown in *. unfold Hour, Minute in *. unfold Second, Millisecond, Microsecond in *. lia.
  - cbn. rewrite count_where_new by done. rewrite Hcre' by done.
    assert (count_where (to_phone p since) (invitations db) < MaxInvitesPerPhone).
    { apply (under_limit _ _ since _ (inv_createdAt i)); [done|done| |done]. intros k r _ Hp. unfold to_phone in Hp. by bool_prop. }
    destruct (to_phone _ _ _); cbn; lia.
  - cbn. rewrite count_where_new by done. rewrite Hcre' by done.
    assert (count_where (by_business (inv_business i) since) (invitations db) < MaxInvitesPerBusiness).
    { apply (under_limit _ _ since _ (inv_createdAt i)); [done|done| |done]. intros k r _ Hp. unfold by_business in Hp. by bool_prop. }
    destruct (by_business _ _ _); cbn; lia.
  - apply AllowStaff_ok in Hseats. unfold CountStaffSeats in *. cbn [invitations set_invitations staff_members] in *. rewrite count_where_new by done.
    match goal with |- context [Z.b2z ?x] => destruct x end; cbn [Z.b2z]; lia.
  - cbn. intros k r Hk. apply lookup_insert_Some in Hk as [[<- <-]|[Hne Hk]].
    + split; [done|]. intros _. unfold pending_for. by apply bool_decide_eq_true.
    + split; [|by intros [-> _]]. intros Hp. exfalso. unfold RevokePending in Hk. cbn in Hk. rewrite lookup_fmap in Hk.
      destruct (invitations db !! k) as [r0|]; [|done]. cbn in Hk. injection Hk as <-. destruct (pending_for (inv_business i) p r0) eqn:Ep; [|congruence].
      unfold pending_for in Hp. bool_prop. by destruct Hp as (_ & _ & ?).
Qed.
End Joining.

(** ** An example: a shop opens and hires *)

#[local] Existing Instance decimal_ids.
#[local] Existing Instance demo_zones.

Definition demo_ports : Ports := {|
  Standing _ := Ok (MkStanding "free" (MkLocalized "مجاني" "Free") "free" None (MkLimits 1 1));
  Readiness_of _ _ := Ok (MkBranchReadiness true true true);
  PhoneOf u := if bool_decide (u = MkID 20) then Ok (MkPhone "+966551234567") else Err ErrNotFound;
  SendInvitation _ _ _ := true;
  DownloadURL _ := ("https://files", 0) |}.
#[local] Existing Instance demo_ports.

Definition demo_save (files : unit) (by_ : UserID) (body : string) : res biz_error StoredFile * unit := (Ok (MkStoredFile (MkID 90) "application/pdf" 10), files).
Definition demo_discard (files : unit) (_ : MediaID) : unit := files.

(** A minute of the example's day. *)
Definition minute (n : Z) : time := (1800000000 + 60 * n) * Second.
Definition committed {A} (r : res biz_error (A * BizDB)) : BizDB := match r with Ok (_, db) => db | Err _ => empty_biz_db end.

Definition founder : UserID := MkID 10.
Definition reviewer : Admin := MkAdmin (MkID 99) true.
Definition register_cmd : RegisterCmd := MkRegister founder " صالون " "Salon" "Salon Co" "١٠١٠ 123456".
Definition branch_cmd : CreateBranch :=
  MkCreate founder (MkID 1) (MkName "الفرع" "Branch") "riyadh" "Olaya" "King Fahd Rd" (MkGeoInput (float_of 24) (float_of 46)) "" "" None.
Definition upload_cmd : UploadDocument := MkUpload founder (MkID 1) "cr_certificate" "%PDF-1".
Definition hire_cmd : InviteStaff := MkInviteStaff founder (MkID 1) "0551234567" "Salem" "barber" [MkID 2].

Definition s1 : BizDB := Eval vm_compute in committed (Register_handler empty_biz_db (minute 0) (MkID 1) (MkID 3) register_cmd).
Definition s2 : BizDB := Eval vm_compute in committed (Create s1 s1 (minute 1) (MkID 2) branch_cmd).
Definition s3 : BizDB := Eval vm_compute in (Upload demo_save demo_discard s2 s2 s2 s2 () (minute 2) upload_cmd).1.2.
Definition s4 : BizDB := Eval vm_compute in committed (Submit_handler s3 s3 (minute 3) founder (MkID 1) 1).
Definition s5 : BizDB := Eval vm_compute in committed (Approve_handler s4 s4 (minute 4) reviewer (MkID 1) 2).
Definition s6 : BizDB := Eval vm_compute in committed (Publish_handler s5 s5 s5 (minute 5) founder (MkID 1) (MkID 2) 1).
Definition s7 : BizDB := Eval vm_compute in (Invite_handler s6 s6 s6 (minute 6) (MkID 70) "inv_token" hire_cmd).2.
Definition s8 : BizDB := Eval vm_compute in (Accept_handler s7 (minute 7) (MkID 4) (MkID 20) "inv_token").2.

Definition demo_past : list BizDB := [s8; s7; s6; s5; s4; s3; s2; s1; empty_biz_db].

Lemma demo_history : biz_history demo_save demo_discard demo_past.
Proof.
  apply history_step.
  2:{ apply (by_accept _ _ _ _ _ demo_ports (minute 7) (MkID 4) (MkID 20) "inv_token"). by vm_compute. }
  apply history_step.
  2:{ apply (by_invite _ _ _ _ _ demo_ports s6 s6 (minute 6) (MkID 70) "inv_token" hire_cmd); [by left..|by vm_compute]. }
  apply history_step.
  2:{ eapply (by_publish _ _ _ _ _ demo_ports s5 s5 (minute 5) founder (MkID 1) (MkID 2) 1); [by left..|by vm_compute]. }
  apply history_step.
  2:{ eapply (by_approve _ _ _ _ _ s4 (minute 4) reviewer (MkID 1) 2); [by left|by vm_compute]. }
  apply history_step.
  2:{ eapply (by_submit _ _ _ _ _ s3 (minute 3) founder (MkID 1) 1); [by left|by vm_compute]. }
  apply history_step.
  2:{ apply (by_upload _ _ _ _ _ demo_ports s2 s2 s2 () (minute 2) upload_cmd); [by left..|by vm_compute]. }
  apply history_step.
  2:{ eapply (by_create _ _ _ _ _ demo_ports s1 (minute 1) (MkID 2) branch_cmd); [by left|by vm_compute]. }
  apply history_step.
  2:{ eapply (by_register _ _ _ _ _ (minute 0) (MkID 1) (MkID 3) register_cmd). by vm_compute. }
  apply history_start.
Qed.

Lemma demo_ok s : s ∈ demo_past → db_ok s.
Proof. apply (biz_history_ok demo_save demo_discard demo_past s8 (tail demo_past) demo_history eq_refl). Qed.

Lemma business_invariants_witness :
  (∃ b, ByID s8 (MkID 1) = Ok b ∧ biz_ok b ∧ id b = MkID 1) ∧ open_of s8 founder ≤ MaxOpenRegistrations ∧
  (∃ b, Branches_ByID s8 (MkID 1) (MkID 2) = Ok b ∧ branch_ok b ∧ (br_status b = BranchPublished → ∃ biz, ByID s8 (br_business b) = Ok biz ∧ status biz = StatusActive)).
Proof.
  destruct (business_invariants demo_save demo_discard demo_past s8 demo_history ltac:(by left)) as (H1 & _ & H3 & _ & H5 & _).
  split; [|split].
  - destruct (businesses s8 !! (MkID 1 : BusinessID)) as [r|] eqn:E; [exact (H1 _ _ E)|vm_compute in E; discriminate E].
  - apply H3.
  - destruct (branches s8 !! (MkID 2 : BranchID)) as [r|] eqn:E; [|vm_compute in E; discriminate E].
    assert (Hb : b_BusinessID r = MkID 1) by (revert E; vm_compute; intros [= <-]; reflexivity).
    rewrite <- Hb. exact (H5 _ _ E).
Defined.

Lemma every_call_is_authorised_witness :
  authorize s8 (MkID 55) (MkID 1) RoleBarber = Err ErrNotFound ∧ GetBranch_handler s8 s8 (MkID 55) (MkID 1) (MkID 2) = Err ErrNotFound ∧
  authorize s8 (MkID 20) (MkID 1) RoleOwner = Err ErrForbidden ∧ Unpublish_handler s8 s8 (minute 9) (MkID 20) (MkID 1) (MkID 2) 2 = Err ErrForbidden.
Proof.
  destruct (every_call_is_authorised s8 s8 (MkID 55) (MkID 1) (demo_ok s8 ltac:(by left))) as (_ & _ & _ & _ & Hbarber).
  destruct (every_call_is_authorised s8 s8 (MkID 20) (MkID 1) (demo_ok s8 ltac:(by left))) as (_ & _ & Howner & _).
  assert (E1 : authorize s8 (MkID 55) (MkID 1) RoleBarber = Err ErrNotFound) by (vm_compute; reflexivity).
  assert (E2 : authorize s8 (MkID 20) (MkID 1) RoleOwner = Err ErrForbidden) by (vm_compute; reflexivity).
  split; [exact E1|]. split; [apply (Hbarber _ E1)|]. split; [exact E2|]. apply (Howner _ E2).
Defined.

Lemma edits_do_not_overwrite_witness :
  Update s5 (MkID 1) 2 (λ b, Approve b (MkID 99) (minute 4)) = Err ErrVersionConflict ∧
  Branches_Update s6 (MkID 1) (MkID 2) 1 (λ b, Unpublish b (minute 6)) = Err ErrVersionConflict.
Proof.
  assert (Hs : sound_change (λ b, Approve b (MkID 99) (minute 4))) by by apply (apply_op_sound (OpApprove _)).
  split.
  - destruct (edits_do_not_overwrite s4 (demo_ok s4 ltac:(by repeat (first [left|right])))) as [Hb _].
    assert (E : ∃ b, Update s4 (MkID 1) 2 (λ b, Approve b (MkID 99) (minute 4)) = Ok (b, s5)) by (eexists; vm_compute; reflexivity).
    destruct E as [b E]. destruct (Hb (MkID 1) 2 _ b s5 Hs E) as (_ & _ & _ & _ & Hc). apply Hc.
  - destruct (edits_do_not_overwrite s5 (demo_ok s5 ltac:(by repeat (first [left|right])))) as [_ Hb].
    assert (E : ∃ b, Branches_Update s5 (MkID 1) (MkID 2) 1 (λ b, Publish b StatusActive (MkBranchReadiness true true true) (minute 5)) = Ok (b, s6))
      by (eexists; vm_compute; reflexivity).
    destruct E as [b E].
    assert (Hp : sound_branch_change s5 (MkID 1) (λ b, Publish b StatusActive (MkBranchReadiness true true true) (minute 5))) by (apply publish_sound; intros _; vm_compute; reflexivity).
    destruct (Hb (MkID 1) (MkID 2) 1 _ b s6 Hp E) as (_ & _ & _ & _ & Hc). apply Hc.
Defined.

Lemma history_before {Files} (Save : Files → UserID → string → res biz_error StoredFile * Files) Discard s s' past :
  biz_history Save Discard (s' :: s :: past) → biz_history Save Discard (s :: past) ∧ biz_step Save Discard (s :: past) s s'.
Proof. intros Hh. by inversion Hh. Qed.

Lemma demo_history_at n s past : drop n demo_past = s :: past → biz_history demo_save demo_discard (s :: past).
Proof.
  revert s past. induction n as [|n IH]; intros s past E; [rewrite drop_0 in E; rewrite <- E; exact demo_history|].
  rewrite <- Nat.add_1_r, <- drop_drop in E. destruct (drop n demo_past) as [|s' past'] eqn:En; [done|].
  cbn [drop] in E. rewrite drop_0 in E. subst past'. destruct (history_before _ _ _ _ _ (IH s' (s :: past) eq_refl)) as [? _]. done.
Qed.

Lemma approval_is_independent_witness :
  Approve_handler s4 s4 (minute 4) (MkAdmin founder true) (MkID 1) 2 = Err ErrSelfReview ∧
  (∃ b, ByID s5 (MkID 1) = Ok (as_loaded b) ∧ status b = StatusActive ∧ ReviewedBy (review b) = MkID 99) ∧
  ∃ seen now admin v b, seen ∈ [s4; s3; s2; s1; empty_biz_db] ∧ Approve_handler seen s4 now admin (MkID 1) v = Ok (b, s5).
Proof.
  pose proof (demo_history_at 4 s4 [s3; s2; s1; empty_biz_db] eq_refl) as H4. pose proof (demo_history_at 3 s5 [s4; s3; s2; s1; empty_biz_db] eq_refl) as H5.
  destruct (approval_is_independent demo_save demo_discard _ s4 [s3; s2; s1; empty_biz_db] H4 eq_refl) as (Honly & _ & Hat).
  assert (Hin : s4 ∈ [s4; s3; s2; s1; empty_biz_db]) by left. split; [|split].
  - destruct (Hat s4 (minute 4) (MkAdmin founder true) (MkID 1) 2 Hin) as (_ & Hself & _). apply Hself; [reflexivity..|].
    eexists (MkID 3), (MkStaff (MkID 3) (MkID 1) founder RoleOwner true _ "" []). split; [vm_compute; reflexivity|split; reflexivity].
  - destruct (Hat s4 (minute 4) reviewer (MkID 1) 2 Hin) as (_ & _ & Hok).
    assert (E : ∃ b, Approve_handler s4 s4 (minute 4) reviewer (MkID 1) 2 = Ok (b, s5)) by (eexists; vm_compute; reflexivity).
    destruct E as [b E]. destruct (Hok b s5 E) as (_ & _ & b0 & _ & _ & _ & _ & Hb & Hst & _ & _ & Hr & _). exists b. split; [exact Hb|split; [exact Hst|rewrite Hr; reflexivity]].
  - apply Honly; [|vm_compute; reflexivity|vm_compute; reflexivity]. destruct (history_before _ _ _ _ _ H5) as [_ Hs]. exact Hs.
Defined.

Lemma invitation_joins_the_invited_witness :
  ∃ m, Accept_save s7 (minute 7) (MkID 4) (MkID 20) "inv_token" = Ok (m, s8) ∧
    (∃ i, PhoneOf (MkID 20) = Ok (inv_phone i) ∧ Membership s8 (inv_business i) (MkID 20) = Ok m ∧ sm_branches m = inv_branches i) ∧
    ∃ e, Accept_handler s8 (minute 8) (MkID 5) (MkID 20) "inv_token" = (Err e, s8).
Proof.
  assert (E : ∃ m, Accept_save s7 (minute 7) (MkID 4) (MkID 20) "inv_token" = Ok (m, s8)) by (eexists; vm_compute; reflexivity).
  destruct E as [m E]. destruct (invitation_joins_the_invited s7 (minute 7) (MkID 4) (MkID 20) "inv_token" m s8) as (i & Hi & Hr);
    [apply demo_ok; by repeat (first [left|right])|exact E|].
  destruct Hr as (_ & _ & _ & Hp & _ & Hm & _ & _ & Hbr & _ & _ & _ & _ & _ & _ & _ & _ & _ & _ & Hagain). exists m. split; [exact E|].
  split; [exists i; split; [exact Hp|split; [exact Hm|exact Hbr]]|]. apply (Hagain unit demo_save demo_discard demo_past s8 [s7; s6; s5; s4; s3; s2; s1; empty_biz_db] demo_history eq_refl). left.
Defined.

Lemma invite_within_limits_witness :
  ∃ i b, Invite_save s6 s6 s6 (minute 6) (MkID 70) "inv_token" hire_cmd = Ok (i, b, s7) ∧
    count_where (to_phone (e164 (inv_phone i)) (inv_createdAt i - InviteWindow)) (invitations s7) ≤ MaxInvitesPerPhone.
Proof.
  assert (E : ∃ i b, Invite_save s6 s6 s6 (minute 6) (MkID 70) "inv_token" hire_cmd = Ok (i, b, s7)) by (do 2 eexists; vm_compute; reflexivity).
  destruct E as (i & b & E). assert (H6 : db_ok s6) by (apply demo_ok; by repeat (first [left|right])).
  destruct (invite_within_limits s6 s6 s6 (minute 6) (MkID 70) "inv_token" hire_cmd i b s7 H6 H6 E) as (plan & _ & _ & _ & _ & _ & _ & Hl).
  exists i, b. split; [exact E|]. apply Hl.
Defined.
