(* ===== verification/BizHttp.v ===== *)
(** * Business over HTTP (src/internal/business/adapters/httpapi)

    The handlers of handlers.go, branches.go, review.go, staff.go,
    documents.go and subscription.go, from the decoded request to the status
    and body answered, and the cursor of the admins' review queue. *)
From Stdlib Require Import SpecFloat.
From S2P Require Import Prelude GoTime GoText GoCrypto GoEncoding Shared Tables BizBase Business Branch Invitation BizStore BizApp Http TimeText.
Open Scope Z_scope.

(** ** The API's shapes (apigen) *)

Record api_Business := MkApiBusiness {
  az_CrNumber : string; az_CreatedAt : time; az_DisplayName : api_LocalizedText; az_Id : UUID; az_LegalName : string;
  az_RejectionReason : option string; az_ReviewedAt : option time; az_Status : string; az_SubmittedAt : option time; az_UpdatedAt : time; az_Version : Z }.
Record BusinessRegistration := MkBusinessRegistration { bg_CrNumber : string; bg_DisplayName : api_LocalizedText; bg_LegalName : string }.
Record BusinessUpdate := MkBusinessUpdate { bu_DisplayName : option api_LocalizedText; bu_LegalName : option string }.

Record BusinessSummary := MkBusinessSummary { bm_DisplayName : api_LocalizedText; bm_Id : UUID; bm_Status : string }.
Record api_Membership := MkApiMembership { am_Business : BusinessSummary; am_Role : string; am_StaffId : UUID }.

Record api_BookingPolicy := MkApiPolicy {
  bp_AutoConfirm : bool; bp_BufferMinutes : Z; bp_CancellationWindowMinutes : Z; bp_HorizonDays : Z; bp_MaxActiveBookings : Z;
  bp_MinLeadMinutes : Z; bp_PendingExpiryMinutes : Z; bp_SlotIntervalMinutes : Z }.
Record api_GeoPoint := MkApiPoint { gp_Latitude : float64; gp_Longitude : float64 }.
Record api_Branch := MkApiBranch {
  ab_Address : string; ab_BookingPolicy : api_BookingPolicy; ab_BusinessId : UUID; ab_CityCode : string; ab_CreatedAt : time;
  ab_District : option string; ab_Id : UUID; ab_Location : api_GeoPoint; ab_Name : api_LocalizedText; ab_Phone : option string; ab_Status : string;
  ab_Timezone : string; ab_UpdatedAt : time; ab_Version : Z }.
Record BranchCreate := MkBranchCreate {
  bc_Address : string; bc_BookingPolicy : option api_BookingPolicy; bc_CityCode : string; bc_District : option string; bc_Location : api_GeoPoint;
  bc_Name : api_LocalizedText; bc_Phone : option string; bc_Timezone : option string }.
Record BranchUpdate := MkBranchUpdate {
  bd_Address : option string; bd_BookingPolicy : option api_BookingPolicy; bd_CityCode : option string; bd_District : option string;
  bd_Location : option api_GeoPoint; bd_Name : option api_LocalizedText; bd_Phone : option string; bd_Timezone : option string }.

Record StaffInvitation := MkStaffInvitation {
  av_BranchIds : list UUID; av_CreatedAt : time; av_DisplayName : string; av_ExpiresAt : time; av_Id : UUID; av_Phone : string; av_Role : string;
  av_Status : string }.
Record StaffInvitationCreate := MkStaffInvitationCreate { vc_BranchIds : list UUID; vc_DisplayName : string; vc_Phone : string; vc_Role : string }.
Record api_StaffMember := MkApiStaff {
  as_Active : bool; as_BranchIds : list UUID; as_DisplayName : string; as_Id : UUID; as_JoinedAt : time; as_Role : string }.

Record api_Document := MkApiDocument {
  ad_ContentType : string; ad_DownloadUrl : string; ad_DownloadUrlExpiresAt : time; ad_Id : UUID; ad_Kind : string; ad_SizeBytes : Z; ad_UploadedAt : time }.

Record AdminBusiness := MkAdminBusiness { aw_Business : api_Business; aw_OwnerUserId : UUID; aw_ReviewedBy : option UUID }.
Record AdminBusinessDetail := MkAdminDetail { al_Branches : list api_Branch; al_Business : AdminBusiness; al_Documents : list api_Document }.
Record AdminBusinessPage := MkAdminPage { ag_Data : list AdminBusiness; ag_NextCursor : option string }.

(** The spec's enumeration of statuses and its minimum of 1 keep other
    statuses and limits from the handler. *)
Record ReviewParams := MkReviewParams { rp_Status : option Status; rp_Limit : option Z; rp_Cursor : option string }.

Record Subscription := MkSubscription {
  ss_MaxBranches : Z; ss_MaxStaff : Z; ss_PlanCode : string; ss_PlanName : api_LocalizedText; ss_Status : string; ss_TrialEndsAt : option time }.

(** ** Errors (handlers.go) *)

Inductive http_error := ErrNoPrincipal | ErrBadIfMatch | errBadCursor | UseCase (e : biz_error).

Definition problem_of (err : http_error) : option (Z * string * string) :=
  match err with
  | ErrNoPrincipal => Some unauthorized
  | errBadCursor => Some (400, "validation_failed", "cursor: pass next_cursor from the previous page")
  | ErrBadIfMatch => Some (400, "validation_failed", "If-Match: send the business version you last read")
  | UseCase e =>
      match e with
      | ErrNotPlatformAdmin => Some (403, "forbidden", "")
      | ErrSelfReview => Some (403, "forbidden", "another admin must review a business you own or work at")
      | ErrCRDocumentRequired => Some (409, "cr_document_required", "upload the CR certificate first")
      | ErrBranchRequired => Some (409, "branch_required", "add a branch with its location first")
      | ErrCRNumberClaimed => Some (409, "cr_number_taken", "another business on the platform already uses this CR number")
      | ErrRejectionReasonRequired => Some (422, "validation_failed", "reason: required")
      | ErrUnknownStatus => Some (422, "validation_failed", "status: drafts are not in the review queue")
      | ErrBranchLimitReached => Some (409, "plan_limit_reached", "your plan's branch limit is reached; see GET /v1/businesses/{business_id}/subscription")
      | InviteRateError _ => Some (429, "rate_limited", "too many invitations; try again later")
      | NotReadyError missing => Some (409, "branch_not_ready", join missing "; ")
      | ErrBusinessNotActive => Some (409, "business_not_active", "the business must be approved first")
      | ErrTooManyRegistrations => Some (409, "registration_limit_reached", "finish, or wait for the review of, an earlier registration first")
      | ErrStaffLimitReached =>
          Some (409, "plan_limit_reached", "your plan's staff limit is reached (pending invitations count); see GET /v1/businesses/{business_id}/subscription")
      | ErrInvitationInvalid => Some (404, "invitation_invalid", "this invitation link is not valid for your account; ask the owner to invite you again")
      | ErrAlreadyStaff => Some (409, "already_staff", "you already work at this business")
      | ErrInvitationClosed => Some (409, "invitation_closed", "it was already accepted or revoked")
      | ErrUnknownBranch => Some (422, "validation_failed", "branch_ids: every branch must belong to this business")
      | ErrStaffBranchRequired => Some (422, "validation_failed", "branch_ids: pick at least one branch")
      | ErrStaffNameRequired => Some (422, "validation_failed", "display_name: required")
      | ErrInvalidInviteRole => Some (422, "validation_failed", "role: invite a manager or a barber")
      | ErrNotFound => Some (404, "not_found", "")
      | ErrForbidden => Some (403, "forbidden", "")
      | ErrAlreadyRegistered => Some (409, "business_already_registered", "you already registered this CR number; see /v1/me/memberships")
      | ErrVersionConflict => Some (412, "version_conflict", "it changed since you read it; reload and try again")
      | ErrInvalidStateTransition => Some (409, "invalid_state_transition", "only allowed while the business is a draft or rejected")
      | ErrUnsupportedFile => Some (415, "unsupported_media_type", "send a PDF, JPEG or PNG file")
      | ErrFileTooLarge => Some (413, "payload_too_large", "files may be up to 10 MiB")
      | ErrEmptyFile => Some (422, "validation_failed", "the file is empty")
      | ErrDocumentLimitReached => Some (409, "document_limit_reached", "a business keeps at most 5 verification documents")
      | ErrInvalidCRNumber => Some (422, "validation_failed", "cr_number: must be 10 digits")
      | ErrLocalized ErrArabicRequired => Some (422, "validation_failed", "an Arabic name is required")
      | PolicyError rule => Some (422, "validation_failed", "booking policy: " +:+ rule)
      | ErrInvalidCityCode => Some (422, "validation_failed", "city_code: not one of the cities in GET /v1/cities")
      | ErrAddressRequired => Some (422, "validation_failed", "address: required")
      | ErrInvalidTimezone => Some (422, "validation_failed", "timezone: not an IANA time zone such as Asia/Riyadh")
      | ErrGeo ErrInvalidCoordinates => Some (422, "validation_failed", "location: not a valid latitude/longitude")
      | ErrPhone ErrInvalidPhoneNumber => Some (422, "validation_failed", "phone: not a Saudi mobile number")
      | ErrLegalNameRequired => Some (422, "validation_failed", "legal_name: required")
      | ErrTextTooLong => Some (422, "validation_failed", "a name is too long")
      | ErrOwnerRequired | ErrUnknownRole | ErrUnknownDocumentKind | ErrStorage | ErrUpstream | ErrPanic => None
      end
  end.

Definition problem_headers (err : http_error) : ProblemResponseHeaders :=
  match err with
  | ErrNoPrincipal => challenge
  | UseCase (InviteRateError after) => MkHeaders (Some (ceil_int (float_seconds after))) None
  | _ => no_headers
  end.

#[export] Instance biz_problems : Problems http_error := {|
  problem ctx err := problem_for ctx (problem_of err) (problem_headers err);
  no_principal := ErrNoPrincipal |}.

Definition uc {A} (r : res biz_error A) : res http_error A := res_map_err UseCase r.

Definition if_match (v : string) : res http_error Z :=
  match ParseIfMatch v 1 with Some n => Ok n | None => Err ErrBadIfMatch end.

(** ** Answers *)

Definition toAPIBusiness (b : Business) : api_Business := {|
  az_Id := value (id b);
  az_DisplayName := APIText (displayName b);
  az_LegalName := legalName b;
  az_CrNumber := digits (cr b);
  az_Status := Status_string (status b);
  az_Version := version b;
  az_CreatedAt := createdAt b;
  az_UpdatedAt := updatedAt b;
  az_SubmittedAt := SubmittedAt (review b);
  az_ReviewedAt := ReviewedAt (review b);
  az_RejectionReason :=
    let reason := RejectionReason (review b) in
    if negb (bool_decide (reason = "")) && bool_decide (status b = StatusRejected) then Some reason else None |}.

Definition toAPIMembership (v : MembershipView) : api_Membership :=
  MkApiMembership (MkBusinessSummary (APIText (mv_Name v)) (value (mv_Business v)) (Status_string (mv_Status v))) (Role_string (mv_Role v)) (value (mv_Staff v)).

(** [minutes] is [minutes_of]. *)
Definition toAPIPolicy (r : PolicyRules) : api_BookingPolicy := {|
  bp_MinLeadMinutes := minutes_of (MinLead r);
  bp_HorizonDays := HorizonDays r;
  bp_SlotIntervalMinutes := minutes_of (SlotInterval r);
  bp_BufferMinutes := minutes_of (Buffer r);
  bp_CancellationWindowMinutes := minutes_of (CancellationWindow r);
  bp_AutoConfirm := AutoConfirm r;
  bp_PendingExpiryMinutes := minutes_of (PendingExpiry r);
  bp_MaxActiveBookings := MaxActiveBookings r |}.

Definition toAPIBranch (b : Branch) : api_Branch :=
  let p := br_profile b in {|
    ab_Id := value (br_id b);
    ab_BusinessId := value (br_business b);
    ab_Name := APIText (p_Name p);
    ab_CityCode := p_City p;
    ab_Address := p_Address p;
    ab_Location := MkApiPoint (lat (p_Location p)) (lng (p_Location p));
    ab_Timezone := p_Timezone p;
    ab_BookingPolicy := toAPIPolicy (Rules (br_policy b));
    ab_Status := BranchStatus_string (br_status b);
    ab_Version := br_version b;
    ab_CreatedAt := br_createdAt b;
    ab_UpdatedAt := br_updatedAt b;
    ab_District := if bool_decide (p_District p = "") then None else Some (p_District p);
    ab_Phone := if Phone_IsZero (p_Phone p) then None else Some (e164 (p_Phone p)) |}.

(** The products wrap as [time.Duration]'s do. *)
Definition toPolicyRules (p : api_BookingPolicy) : PolicyRules := {|
  MinLead := int64 (bp_MinLeadMinutes p * Minute);
  HorizonDays := bp_HorizonDays p;
  SlotInterval := int64 (bp_SlotIntervalMinutes p * Minute);
  Buffer := int64 (bp_BufferMinutes p * Minute);
  CancellationWindow := int64 (bp_CancellationWindowMinutes p * Minute);
  AutoConfirm := bp_AutoConfirm p;
  PendingExpiry := int64 (bp_PendingExpiryMinutes p * Minute);
  MaxActiveBookings := bp_MaxActiveBookings p |}.

Definition toAPIIDs (ids : list BranchID) : list UUID := value <$> ids.

Definition InvitationStatus_string (s : InvitationStatus) : string :=
  match s with InvitationPending => "pending" | InvitationAccepted => "accepted" | InvitationRevoked => "revoked" end.

Definition toAPIInvitation (i : Invitation) : StaffInvitation := {|
  av_Id := value (inv_id i);
  av_Phone := e164 (inv_phone i);
  av_DisplayName := inv_name i;
  av_Role := Role_string (inv_role i);
  av_BranchIds := toAPIIDs (inv_branches i);
  av_Status := InvitationStatus_string (inv_status i);
  av_CreatedAt := inv_createdAt i;
  av_ExpiresAt := inv_expiresAt i |}.

Definition toAPIStaff (m : StaffMember) : api_StaffMember :=
  MkApiStaff (sm_active m) (toAPIIDs (sm_branches m)) (sm_displayName m) (value (sm_id m)) (sm_createdAt m) (Role_string (sm_role m)).

Definition toAPIDocument (v : DocumentView) : api_Document :=
  let d := dv_Document v in
  MkApiDocument (doc_contentType d) (dv_URL v) (dv_Expires v) (value (doc_file d)) (DocumentKind_string (doc_kind d)) (doc_size d) (doc_uploadedAt d).

Definition toAPIAdminBusiness (b : Business) : AdminBusiness :=
  MkAdminBusiness (toAPIBusiness b) (value (owner b))
    (if ID_IsZero (ReviewedBy (review b)) then None else Some (value (ReviewedBy (review b)))).

(** ** Cursors (review.go) *)

Section Cursors.
Context `{UuidLib}.

Definition encodeCursor (p : QueuePosition) : string :=
  EncodeToString (FormatRFC3339Nano (qp_SubmittedAt p) ++ bytes "|" ++ bytes (ID_String (qp_ID p))).

(** [None] is [errBadCursor]. *)
Definition decodeCursor (s : string) : option QueuePosition :=
  raw ← string_of_bytes <$> DecodeString s;
  '(at_, id) ← Cut raw "|";
  t ← ParseRFC3339Nano (bytes at_);
  u ← uuid_parse id;
  Some (MkPosition t (IDFromUUID u)).
End Cursors.

(** ** Commands *)

Definition registration_command (p : Principal) (body : BusinessRegistration) : RegisterCmd :=
  MkRegister (UserID_of p) (at_Ar (bg_DisplayName body)) (default "" (at_En (bg_DisplayName body))) (bg_LegalName body) (bg_CrNumber body).

Definition display_name (n : api_LocalizedText) : DisplayName := MkName (at_Ar n) (default "" (at_En n)).

Definition update_command (p : Principal) (business : UUID) (version : Z) (body : BusinessUpdate) : UpdateCmd :=
  MkUpdate (UserID_of p) (IDFromUUID business) version (display_name <$> bu_DisplayName body) (bu_LegalName body).

Definition place_of (g : api_GeoPoint) : GeoInput := MkGeoInput (gp_Latitude g) (gp_Longitude g).

Definition branch_command (p : Principal) (business : UUID) (body : BranchCreate) : CreateBranch :=
  MkCreate (UserID_of p) (IDFromUUID business) (display_name (bc_Name body)) (bc_CityCode body) (default "" (bc_District body)) (bc_Address body)
    (place_of (bc_Location body)) (default "" (bc_Phone body)) (default "" (bc_Timezone body)) (toPolicyRules <$> bc_BookingPolicy body).

Definition branch_update_command (p : Principal) (business branch : UUID) (version : Z) (body : BranchUpdate) : UpdateBranch :=
  MkUpdateBranch (UserID_of p) (IDFromUUID business) (IDFromUUID branch) version (display_name <$> bd_Name body) (bd_CityCode body) (bd_District body)
    (bd_Address body) (place_of <$> bd_Location body) (bd_Phone body) (bd_Timezone body) (toPolicyRules <$> bd_BookingPolicy body).

Definition invite_command (p : Principal) (business : UUID) (body : StaffInvitationCreate) : InviteStaff :=
  MkInviteStaff (UserID_of p) (IDFromUUID business) (vc_Phone body) (vc_DisplayName body) (vc_Role body) (IDFromUUID <$> vc_BranchIds body).

(** ** The handlers *)

Section Handlers.
Context `{UuidLib} `{TzLib} `{Ports} (ctx : Ctx).

Definition PostBusiness (db : BizDB) (now : time) (newBusiness : BusinessID) (newStaff : StaffID) (body : BusinessRegistration) : Response api_Business * BizDB :=
  reply_db ctx 201 db (
    let! p := caller ctx in
    let! r := uc (Register_handler db now newBusiness newStaff (registration_command p body)) in
    Ok (toAPIBusiness r.1, r.2)).

Definition GetBusiness (auth db : BizDB) (business : UUID) : Response api_Business :=
  reply ctx 200 (
    let! p := caller ctx in
    let! b := uc (Get_handler auth db (UserID_of p) (IDFromUUID business)) in
    Ok (toAPIBusiness b)).

Definition PatchBusiness (auth db : BizDB) (now : time) (business : UUID) (ifMatch : string) (body : BusinessUpdate) : Response api_Business * BizDB :=
  reply_db ctx 200 db (
    let! p := caller ctx in
    let! version := if_match ifMatch in
    let! r := uc (Update_handler auth db now (update_command p business version body)) in
    Ok (toAPIBusiness r.1, r.2)).

Definition ListMyMemberships (db : BizDB) : Response (list api_Membership) :=
  reply ctx 200 (
    let! p := caller ctx in
    let! views := uc (Memberships_handler db (UserID_of p)) in
    Ok (toAPIMembership <$> views)).

Definition GetSubscription (auth : BizDB) (business : UUID) : Response Subscription :=
  reply ctx 200 (
    let! p := caller ctx in
    let! s := uc (Plan_handler auth (UserID_of p) (IDFromUUID business)) in
    Ok (MkSubscription (MaxBranches (ps_Limits s)) (MaxStaff (ps_Limits s)) (ps_Plan s) (APIText (ps_PlanName s)) (ps_Status s) (ps_TrialEndsAt s))).

(** *** branches.go *)

Definition GetBranches (auth db : BizDB) (business : UUID) : Response (list api_Branch) :=
  reply ctx 200 (
    let! p := caller ctx in
    let! bs := uc (ListBranches_handler auth db (UserID_of p) (IDFromUUID business)) in
    Ok (toAPIBranch <$> bs)).

Definition PostBranch (auth db : BizDB) (now : time) (newID : BranchID) (business : UUID) (body : BranchCreate) : Response api_Branch * BizDB :=
  reply_db ctx 201 db (
    let! p := caller ctx in
    let! r := uc (Create auth db now newID (branch_command p business body)) in
    Ok (toAPIBranch r.1, r.2)).

Definition GetBranch (auth db : BizDB) (business branch : UUID) : Response api_Branch :=
  reply ctx 200 (
    let! p := caller ctx in
    let! b := uc (GetBranch_handler auth db (UserID_of p) (IDFromUUID business) (IDFromUUID branch)) in
    Ok (toAPIBranch b)).

Definition PatchBranch (auth db : BizDB) (now : time) (business branch : UUID) (ifMatch : string) (body : BranchUpdate) : Response api_Branch * BizDB :=
  reply_db ctx 200 db (
    let! p := caller ctx in
    let! version := if_match ifMatch in
    let! r := uc (UpdateBranch_handler auth db now (branch_update_command p business branch version body)) in
    Ok (toAPIBranch r.1, r.2)).

(** [statusChange]: the caller and the version; the IDs are the request's. *)
Definition statusChange (ifMatch : string) : res http_error (Principal * Z) :=
  let! p := caller ctx in
  let! version := if_match ifMatch in
  Ok (p, version).

Definition PublishBranch (auth seen db : BizDB) (now : time) (business branch : UUID) (ifMatch : string) : Response api_Branch * BizDB :=
  reply_db ctx 200 db (
    let! c := statusChange ifMatch in
    let! r := uc (Publish_handler auth seen db now (UserID_of c.1) (IDFromUUID business) (IDFromUUID branch) c.2) in
    Ok (toAPIBranch r.1, r.2)).

Definition UnpublishBranch (auth db : BizDB) (now : time) (business branch : UUID) (ifMatch : string) : Response api_Branch * BizDB :=
  reply_db ctx 200 db (
    let! c := statusChange ifMatch in
    let! r := uc (Unpublish_handler auth db now (UserID_of c.1) (IDFromUUID business) (IDFromUUID branch) c.2) in
    Ok (toAPIBranch r.1, r.2)).

(** *** review.go *)

Definition SubmitBusiness (auth db : BizDB) (now : time) (business : UUID) (ifMatch : string) : Response api_Business * BizDB :=
  reply_db ctx 200 db (
    let! p := caller ctx in
    let! version := if_match ifMatch in
    let! r := uc (Submit_handler auth db now (UserID_of p) (IDFromUUID business) version) in
    Ok (toAPIBusiness r.1, r.2)).

Definition adminFrom : res http_error Admin :=
  let! p := caller ctx in
  Ok (MkAdmin (UserID_of p) (IsPlatformAdmin p)).

Definition ListBusinessesForReview (db : BizDB) (params : ReviewParams) : Response AdminBusinessPage :=
  reply ctx 200 (
    let! admin := adminFrom in
    let! after := match rp_Cursor params with
                  | None => Ok None
                  | Some c => match decodeCursor c with Some p => Ok (Some p) | None => Err errBadCursor end
                  end in
    let! r := uc (Queue db admin (default StatusPendingReview (rp_Status params)) after (Z.to_nat (default 20 (rp_Limit params)))) in
    Ok (MkAdminPage (toAPIAdminBusiness <$> r.1) (encodeCursor <$> r.2))).

Definition GetBusinessForReview (db db2 db3 : BizDB) (business : UUID) : Response AdminBusinessDetail :=
  reply ctx 200 (
    let! admin := adminFrom in
    let! v := uc (Detail db db2 db3 admin (IDFromUUID business)) in
    Ok (MkAdminDetail (toAPIBranch <$> av_Branches v) (toAPIAdminBusiness (av_Business v)) (toAPIDocument <$> av_Documents v))).

Definition ApproveBusiness (seen db : BizDB) (now : time) (business : UUID) (ifMatch : string) : Response AdminBusiness * BizDB :=
  reply_db ctx 200 db (
    let! admin := adminFrom in
    let! version := if_match ifMatch in
    let! r := uc (Approve_handler seen db now admin (IDFromUUID business) version) in
    Ok (toAPIAdminBusiness r.1, r.2)).

Definition RejectBusiness (seen db : BizDB) (now : time) (business : UUID) (ifMatch reason : string) : Response AdminBusiness * BizDB :=
  reply_db ctx 200 db (
    let! admin := adminFrom in
    let! version := if_match ifMatch in
    let! r := uc (Reject_handler seen db now admin (IDFromUUID business) version reason) in
    Ok (toAPIAdminBusiness r.1, r.2)).

(** *** staff.go *)

(** The tables stay as the use case left them, whatever it answered. *)
Definition answered {A B} (status : Z) (f : A → B) (r : res biz_error A * BizDB) : Response B * BizDB :=
  (reply ctx status (let! a := uc r.1 in Ok (f a)), r.2).

Definition PostInvitation (auth seen db : BizDB) (now : time) (newID : InvitationID) (token : string) (business : UUID) (body : StaffInvitationCreate)
  : Response StaffInvitation * BizDB :=
  match caller ctx with
  | Err e => (refuse ctx e, db)
  | Ok p => answered 201 toAPIInvitation (Invite_handler auth seen db now newID token (invite_command p business body))
  end.

Definition ListStaffInvitations (auth db : BizDB) (business : UUID) : Response (list StaffInvitation) :=
  reply ctx 200 (
    let! p := caller ctx in
    let! invs := uc (ListInvitations_handler auth db (UserID_of p) (IDFromUUID business)) in
    Ok (toAPIInvitation <$> invs)).

Definition RevokeStaffInvitation (auth db : BizDB) (business invitation : UUID) : Response unit * BizDB :=
  reply_db ctx 204 db (
    let! p := caller ctx in
    let! db' := uc (Revoke_handler auth db (UserID_of p) (IDFromUUID business) (IDFromUUID invitation)) in
    Ok (tt, db')).

Definition ListStaff (auth db : BizDB) (business : UUID) : Response (list api_StaffMember) :=
  reply ctx 200 (
    let! p := caller ctx in
    let! ms := uc (ListStaff_handler auth db (UserID_of p) (IDFromUUID business)) in
    Ok (toAPIStaff <$> ms)).

Definition AcceptStaffInvitation (db : BizDB) (now : time) (newID : StaffID) (token : string) : Response api_Membership * BizDB :=
  match caller ctx with
  | Err e => (refuse ctx e, db)
  | Ok p => answered 200 toAPIMembership (Accept_handler db now newID (UserID_of p) token)
  end.

(** *** documents.go *)

Definition UploadVerificationDocument {Files : Type} (Save : Files → UserID → string → res biz_error StoredFile * Files) (Discard : Files → MediaID → Files)
    (auth seen seen2 db : BizDB) (files : Files) (now : time) (business : UUID) (kind body : string) : Response api_Document * BizDB * Files :=
  match caller ctx with
  | Err e => (refuse ctx e, db, files)
  | Ok p => let '(r, db', files') := Upload Save Discard auth seen seen2 db files now (MkUpload (UserID_of p) (IDFromUUID business) kind body) in
            (answered 201 toAPIDocument (r, db'), files')
  end.

Definition ListVerificationDocuments (auth db : BizDB) (business : UUID) : Response (list api_Document) :=
  reply ctx 200 (
    let! p := caller ctx in
    let! ds := uc (ListDocuments_handler auth db (UserID_of p) (IDFromUUID business)) in
    Ok (toAPIDocument <$> ds)).
End Handlers.
