(* ===== verification/BizQueue.v ===== *)
(** * Following the review queue
      (src/internal/business/adapters/httpapi/review.go, ListBusinessesForReview)

    The last business of a page becomes a cursor, the cursor the next page's
    start: an admin who passes each [next_cursor] back sees every business of
    the status once, oldest submission first. *)
From S2P Require Import Prelude GoTime GoText GoCrypto GoEncoding Shared Tables BizBase Business Branch Invitation BizStore BizFacts BizApp BizFlow Http TimeText BizHttp.
Open Scope Z_scope.

(** ** Cursors *)

Lemma cursor_back `{UuidLib} p : in_layout (qp_SubmittedAt p) → decodeCursor (encodeCursor p) = Some p.
Proof.
  intros Hl. unfold decodeCursor, encodeCursor. pose proof (Format_low (qp_SubmittedAt p)) as Hlow. set (l := FormatRFC3339Nano (qp_SubmittedAt p)) in *.
  assert (Hb : Forall is_byte l). { eapply Forall_impl; [exact Hlow|]. intros x Hx. cbn in Hx. unfold is_byte. lia. }
  rewrite DecodeString_Encode.
  2: { rewrite !Forall_app. split_and!; [done|by repeat constructor|apply bytes_range]. }
  cbn [fmap option_fmap option_map mbind option_bind].
  assert (E : string_of_bytes (l ++ bytes "|" ++ bytes (ID_String (qp_ID p))) = string_of_bytes l +:+ str1 (byte_chr 124) +:+ ID_String (qp_ID p)).
  { apply bytes_inj. rewrite !bytes_app, !bytes_of_string; [done|done|]. rewrite !Forall_app. split_and!; [done|by repeat constructor|apply bytes_range]. }
  rewrite E. change "|" with (str1 (byte_chr 124)). rewrite Cut_char.
  2: { rewrite bytes_of_string by done. change (byte_of (byte_chr 124)) with 124. intros Hin. rewrite Forall_forall in Hlow. specialize (Hlow _ Hin). cbn in Hlow. lia. }
  cbn [mbind option_bind]. rewrite bytes_of_string by done. unfold l. rewrite Parse_Format by done. cbn [mbind option_bind]. unfold ID_String. rewrite uuid_parse_string. by destruct p as [t [u]].
Qed.

(** ** The queue's order *)

Lemma submission_total a b : by_submission a b = false → by_submission b a = true.
Proof.
  unfold by_submission. destruct (z_SubmittedAt a) as [s|], (z_SubmittedAt b) as [t|]; try done; [|rewrite N.leb_gt, N.leb_le; lia].
  destruct (Z.ltb_spec s t), (Z.ltb_spec t s); try done; try lia. rewrite N.leb_gt, N.leb_le. lia.
Qed.

Lemma submission_trans a b c : by_submission a b = true → by_submission b c = true → by_submission a c = true.
Proof.
  unfold by_submission. destruct (z_SubmittedAt a) as [s|], (z_SubmittedAt b) as [t|], (z_SubmittedAt c) as [u|]; try done; rewrite ?N.leb_le; try lia.
  destruct (Z.ltb_spec s t), (Z.ltb_spec t s), (Z.ltb_spec t u), (Z.ltb_spec u t), (Z.ltb_spec s u), (Z.ltb_spec u s); try done; try lia; rewrite ?N.leb_le; lia.
Qed.

Lemma submission_id a b : by_submission a b = true → by_submission b a = true → z_ID a = z_ID b.
Proof.
  assert (Hid : (value (z_ID a) <= value (z_ID b))%N → (value (z_ID b) <= value (z_ID a))%N → z_ID a = z_ID b).
  { intros H1 H2. destruct (z_ID a), (z_ID b). cbn in *. f_equal. lia. }
  unfold by_submission. destruct (z_SubmittedAt a) as [s|], (z_SubmittedAt b) as [t|]; try done; rewrite ?N.leb_le; try apply Hid.
  destruct (Z.ltb_spec s t), (Z.ltb_spec t s); try done; try lia. rewrite ?N.leb_le. apply Hid.
Qed.

(** The place of a row in the queue is where the next page starts after. *)
Lemma after_row a b t : z_SubmittedAt a = Some t → stored_time t = t → is_Some (z_SubmittedAt b) →
  after_position (MkPosition t (z_ID a)) b = negb (by_submission b a).
Proof.
  intros Ha Ht [s Hb]. unfold after_position, by_submission. cbn [qp_SubmittedAt qp_ID]. rewrite Ha, Hb, Ht.
  destruct (Z.ltb_spec t s), (Z.ltb_spec s t); cbn [orb andb negb]; try done; try lia; destruct (Z.eqb_spec t s); cbn [andb negb]; try done; try lia.
  rewrite N.leb_antisym. by destruct (_ <? _)%N.
Qed.

(** Earlier in the queue. *)
Definition earlier (a b : Business) : Prop :=
  ∃ s t, SubmittedAt (review a) = Some s ∧ SubmittedAt (review b) = Some t ∧ (s < t ∨ s = t ∧ (value (id a) < value (id b))%N).

(** Following the cursors; [None] of a refusal, or of more pages than [fuel]. *)
Fixpoint queue_pages `{UuidLib} (fuel : nat) (ctx : Ctx) (db : BizDB) (params : ReviewParams) : option (list (list AdminBusiness)) :=
  match fuel with
  | O => None
  | S fuel =>
      match ListBusinessesForReview ctx db params with
      | Refusal _ _ => None
      | Answer _ page => match ag_NextCursor page with
                         | None => Some [ag_Data page]
                         | Some c => cons (ag_Data page) <$> queue_pages fuel ctx db (MkReviewParams (rp_Status params) (rp_Limit params) (Some c))
                         end
      end
  end.

Section queue.
Context `{UuidLib} `{TzLib} (ctx : Ctx) (db : BizDB) (p : Principal) (st : Status) (limit : Z).
Context (Hdb : db_ok db) (Hyears : ∀ k r t, businesses db !! k = Some r → z_SubmittedAt r = Some t → in_layout t).
Context (Hp : PrincipalFrom ctx = Some p) (Hid : ID_IsZero (UserID_of p) = false) (Hadmin : IsPlatformAdmin p = true) (Hst : st ≠ StatusDraft).
Context (Hlimit : 1 ≤ limit ≤ 100).

Definition queue_rows : list BizRow := sort_by by_submission (rows_where (λ r, bool_decide (z_Status r = Status_string st)) (businesses db)).

Lemma queue_row r : r ∈ queue_rows → ∃ b, toBusiness r = Ok b ∧ ByID db (id b) = Ok b ∧ r = biz_row b ∧ biz_ok b ∧ status b = st.
Proof using Hdb.
  unfold queue_rows. rewrite elem_of_sort_by. intros (k & Hk & Hs%bool_decide_eq_true)%elem_of_rows_where.
  destruct (do_business db Hdb k r Hk) as (b & Hb & Hkb & -> & _ & He). exists b. pose proof (toBusiness_row b Hb) as Hr. rewrite as_loaded_fresh in Hr by done.
  split_and!; [done|by unfold ByID; rewrite Hkb, Hk|done..|by apply Status_string_inj].
Qed.

Lemma queue_submitted r : r ∈ queue_rows → ∃ t, z_SubmittedAt r = Some t ∧ stored_time t = t ∧ in_layout t.
Proof using Hdb Hyears Hst.
  intros Hr. destruct (queue_row r Hr) as (b & _ & Hb & -> & Hok & Hs). pose proof (bo_submitted b Hok ltac:(congruence)) as Hsub.
  destruct (SubmittedAt (review b)) as [t|] eqn:E; [|done]. exists t. split; [done|]. split; [by apply (bo_stamp b Hok)|].
  unfold ByID in Hb. destruct (businesses db !! id b) as [r|] eqn:Hk; [|done]. destruct (do_business db Hdb _ r Hk) as (b' & Hb' & _ & -> & _ & He).
  rewrite toBusiness_row, as_loaded_fresh in Hb by done. injection Hb as ->. by apply (Hyears _ _ _ Hk).
Qed.

Lemma rows_strict q : StronglySorted (strictly by_submission) (sort_by by_submission (rows_where q (businesses db))).
Proof using Hdb.
  apply (sort_strict z_ID by_submission submission_total submission_trans submission_id).
  apply (rows_where_NoDup z_ID (λ k, k)); [done|]. intros k r Hk. by destruct (do_business db Hdb k r Hk) as (b & _ & <- & -> & _).
Qed.

(** A page: the next rows after the position. *)
Lemma page_rows after n :
  filter (λ r, match after with None => true | Some a => after_position a r end = true) queue_rows = drop n queue_rows →
  ∀ bs, res_mapM toBusiness queue_rows = Ok bs → ReviewPage db st after (limit + 1) = Ok (take (Z.to_nat (limit + 1)) (drop n bs)).
Proof using Hdb Hlimit.
  intros Hn bs Hbs. unfold ReviewPage, toInt32, max_int32. destruct (Z.ltb_spec (limit + 1) 0); [lia|]. destruct (Z.ltb_spec 2147483647 (limit + 1)); [lia|].
  cbn [orb res_bind]. apply res_mapM_ok. apply Forall2_take. apply res_mapM_ok in Hbs. apply (Forall2_drop _ _ _ n) in Hbs. rewrite <- Hn in Hbs.
  replace (sort_by _ _) with (filter (λ r, match after with None => true | Some a => after_position a r end = true) queue_rows); [done|].
  apply (strict_unique by_submission submission_total); [apply strict_filter, rows_strict|apply rows_strict|].
  unfold queue_rows. rewrite !sort_by_perm. unfold rows_where. rewrite filter_filter. done.
Qed.

(** What the handler answers from there. *)
Lemma page_answer cursor after n bs :
  match cursor with None => after = None | Some c => decodeCursor c = after ∧ is_Some after end →
  filter (λ r, match after with None => true | Some a => after_position a r end = true) queue_rows = drop n queue_rows →
  res_mapM toBusiness queue_rows = Ok bs →
  let page := take (Z.to_nat (limit + 1)) (drop n bs) in
  ListBusinessesForReview ctx db (MkReviewParams (Some st) (Some limit) cursor) =
    if (length page <=? Z.to_nat limit)%nat then Answer 200 (MkAdminPage (toAPIAdminBusiness <$> page) None)
    else match last (take (Z.to_nat limit) page) with
    | Some b => match SubmittedAt (review b) with
                | Some t => Answer 200 (MkAdminPage (toAPIAdminBusiness <$> take (Z.to_nat limit) page) (Some (encodeCursor (MkPosition t (id b)))))
                | None => refuse ctx (UseCase ErrPanic)
                end
    | None => refuse ctx (UseCase ErrPanic)
    end.
Proof using Hdb Hlimit Hp Hid Hadmin Hst.
  intros Hc Hn Hbs page. unfold ListBusinessesForReview, adminFrom, caller. rewrite Hp. cbn [res_bind rp_Cursor rp_Status rp_Limit default].
  assert (Hafter : match cursor with None => Ok None | Some c => match decodeCursor c with Some a => Ok (Some a) | None => Err errBadCursor end end = Ok after :> res http_error _).
  { destruct cursor as [c|]; [|by subst]. destruct Hc as [-> [a ->]]. done. }
  rewrite Hafter. cbn [res_bind]. unfold Queue, require. cbn [ad_IsPlatformAdmin ad_ID]. rewrite Hadmin, Hid. cbn [negb orb res_bind from_option]. unfold Datatypes.id.
  rewrite (bool_decide_eq_false_2 (st = StatusDraft)) by done. cbn [negb ensure res_bind].
  rewrite Z2Nat.id by lia. rewrite (page_rows after n Hn bs Hbs). fold page. cbn [res_bind]. destruct (_ <=? _)%nat; [done|].
  destruct (last _) as [b|]; [|done]. by destruct (SubmittedAt (review b)).
Qed.

Lemma queue_pages_from bs : res_mapM toBusiness queue_rows = Ok bs → ∀ fuel cursor after n,
  match cursor with None => after = None | Some c => decodeCursor c = after ∧ is_Some after end →
  filter (λ r, match after with None => true | Some a => after_position a r end = true) queue_rows = drop n queue_rows →
  (length bs - n < fuel)%nat →
  ∃ shown, queue_pages fuel ctx db (MkReviewParams (Some st) (Some limit) cursor) = Some shown ∧
    Forall (λ page, Z.of_nat (length page) ≤ limit) shown ∧ concat shown = toAPIAdminBusiness <$> drop n bs.
Proof using Hdb Hlimit Hp Hid Hadmin Hst Hyears.
  intros Hbs. induction fuel as [|fuel IH]; intros cursor after n Hc Hn Hfuel; [lia|]. cbn [queue_pages].
  rewrite (page_answer cursor after n bs Hc Hn Hbs). rewrite length_take, length_drop. destruct (Nat.leb_spec (Z.to_nat (limit + 1) `min` (length bs - n)) (Z.to_nat limit)) as [Hle|Hgt].
  - cbn [ag_NextCursor ag_Data]. rewrite take_ge by (rewrite length_drop; lia). eexists. split; [done|]. split.
    + constructor; [|constructor]. rewrite length_fmap, length_drop. lia.
    + cbn [concat]. apply app_nil_r.
  - rewrite take_take, Nat.min_l by lia. set (k := Z.to_nat limit) in *.
    destruct (lookup_lt_is_Some_2 bs (n + (k - 1))) as [b Hb]; [lia|].
    assert (Hlast : last (take k (drop n bs)) = Some b).
    { rewrite last_lookup, length_take, length_drop, Nat.min_l by lia. rewrite lookup_take_lt, lookup_drop by lia. by replace (pred k) with (k - 1)%nat by lia. }
    rewrite Hlast. pose proof Hbs as Hall. apply res_mapM_ok in Hall. destruct (Forall2_lookup_r _ _ _ _ _ Hall Hb) as (r & Hr & Hread).
    assert (Hin : r ∈ queue_rows) by (by eapply list_elem_of_lookup_2). destruct (queue_submitted r Hin) as (t & Ht & Hstored & Hyear).
    destruct (queue_row r Hin) as (b' & Hb' & _ & Erow & _). rewrite Hread in Hb'. injection Hb' as <-. rewrite Erow in Ht. cbn in Ht. rewrite Ht.
    cbn [ag_NextCursor ag_Data rp_Status rp_Limit]. destruct (IH (Some (encodeCursor (MkPosition t (id b)))) (Some (MkPosition t (id b))) (n + k)%nat) as (shown & Hshown & Hsize & Hcat).
    + by rewrite cursor_back.
    + replace (n + k)%nat with (S (n + (k - 1))) by lia. rewrite <- (strict_after by_submission submission_total queue_rows _ r (rows_strict _) Hr).
      apply filter_same. intros r' Hr'. destruct (queue_submitted r' Hr') as (t' & Ht' & _). replace (id b) with (z_ID r) by (by rewrite Erow).
      rewrite (after_row r r' t); [done|by rewrite Erow|done|by rewrite Ht'].
    + lia.
    + rewrite Hshown. eexists. split; [done|]. split.
      * constructor; [|done]. rewrite length_fmap, length_take. lia.
      * cbn [concat]. rewrite Hcat, <- fmap_app. f_equal. by rewrite <- drop_drop, take_drop.
Qed.

Lemma rows_read l : (∀ r, r ∈ l → ∃ b, toBusiness r = Ok b ∧ r = biz_row b) → ∃ bs, res_mapM toBusiness l = Ok bs ∧ l = biz_row <$> bs.
Proof.
  induction l as [|r l IH]; intros Hl; [by exists []|]. destruct (Hl r ltac:(by left)) as (b & Hb & ->).
  destruct IH as (bs & Hbs & ->); [intros; apply Hl; by right|]. exists (b :: bs). cbn [res_mapM]. by rewrite Hb, Hbs.
Qed.

Lemma sorted_businesses bs : StronglySorted (strictly by_submission) (biz_row <$> bs) → (∀ b, b ∈ bs → is_Some (SubmittedAt (review b))) → StronglySorted earlier bs.
Proof.
  induction bs as [|b bs IH]; intros Hs Hsub; [constructor|]. rewrite fmap_cons in Hs. apply StronglySorted_inv in Hs as [Hs Hb].
  constructor; [apply IH; [done|intros; apply Hsub; by right]|]. apply Forall_forall. intros c Hc. rewrite Forall_forall in Hb.
  specialize (Hb (biz_row c) ltac:(by apply list_elem_of_fmap_2)). destruct (Hsub b ltac:(by left)) as [s Es], (Hsub c ltac:(by right)) as [t Et].
  unfold strictly, by_submission in Hb. cbn [biz_row z_SubmittedAt z_ID] in Hb. rewrite Es, Et in Hb. exists s, t. split_and!; [done..|].
  destruct (Z.ltb_spec t s), (Z.ltb_spec s t); try done; [by left|]. rewrite N.leb_gt in Hb. right. split; [lia|done].
Qed.

(** The queue, read. *)
Lemma queue_businesses : ∃ bs, res_mapM toBusiness queue_rows = Ok bs ∧ (∀ b, b ∈ bs ↔ ByID db (id b) = Ok b ∧ status b = st) ∧ StronglySorted earlier bs.
Proof using Hdb Hyears Hst.
  destruct (rows_read queue_rows) as (bs & Hbs & Erows); [intros r Hr; destruct (queue_row r Hr) as (b & ? & _ & ? & _); eauto|].
  assert (Hin : ∀ b, b ∈ bs → biz_row b ∈ queue_rows) by (intros b Hb; rewrite Erows; by apply list_elem_of_fmap_2).
  assert (Hread : ∀ b, b ∈ bs → toBusiness (biz_row b) = Ok b).
  { intros b Hb. apply res_mapM_ok in Hbs. apply list_elem_of_lookup in Hb as [i Hi]. destruct (Forall2_lookup_r _ _ _ _ _ Hbs Hi) as (r & Hr & Er).
    rewrite Erows, list_lookup_fmap, Hi in Hr. by injection Hr as <-. }
  exists bs. split; [done|]. split.
  - intros b. split.
    + intros Hb. destruct (queue_row _ (Hin b Hb)) as (b' & Hb' & HID & _ & _ & Hs). rewrite Hread in Hb' by done. by injection Hb' as <-.
    + intros [HID Hs]. unfold ByID in HID. destruct (businesses db !! id b) as [r|] eqn:Hk; [|done].
      destruct (do_business db Hdb _ r Hk) as (b' & Hb' & _ & -> & _ & He). rewrite toBusiness_row, as_loaded_fresh in HID by done. injection HID as ->.
      assert (Hq : biz_row b ∈ queue_rows).
      { unfold queue_rows. rewrite elem_of_sort_by. apply elem_of_rows_where. exists (id b). split; [done|]. apply bool_decide_eq_true. cbn. by rewrite Hs. }
      rewrite Erows in Hq. apply list_elem_of_fmap in Hq as (c & Ec & Hc). pose proof (Hread c Hc) as Hrc. rewrite <- Ec in Hrc.
      rewrite toBusiness_row, as_loaded_fresh in Hrc by done. by injection Hrc as ->.
  - apply sorted_businesses; [rewrite <- Erows; by apply rows_strict|]. intros b Hb. destruct (queue_submitted _ (Hin b Hb)) as (t & Ht & _). by exists t.
Qed.
End queue.

(** C38. An admin who passes each page's [next_cursor] back sees the whole
    review queue. Whoever is signed in and no platform admin is answered 403;
    an admin who asks for drafts 422; any other status is answered, to the
    end, in pages of at most the limit, as many as it takes, that show exactly
    the businesses of that status, each once and as stored, the oldest
    submission first - with at most a hundred to a page, as the API's spec
    says, and no business submitted after year 9999. *)
Theorem admin_sees_whole_queue `{UuidLib} `{TzLib} ctx db p st limit :
  db_ok db → (∀ k r t, businesses db !! k = Some r → z_SubmittedAt r = Some t → in_layout t) →
  PrincipalFrom ctx = Some p → ID_IsZero (UserID_of p) = false → 1 ≤ limit ≤ 100 →
  let first := MkReviewParams (Some st) (Some limit) None in
  if negb (IsPlatformAdmin p) then status_of (ListBusinessesForReview ctx db first) = 403
  else if bool_decide (st = StatusDraft) then status_of (ListBusinessesForReview ctx db first) = 422
  else ∃ bs shown,
    queue_pages (S (length bs)) ctx db first = Some shown ∧
    Forall (λ page, Z.of_nat (length page) ≤ limit) shown ∧ concat shown = toAPIAdminBusiness <$> bs ∧
    (∀ b, b ∈ bs ↔ ByID db (id b) = Ok b ∧ status b = st) ∧ StronglySorted earlier bs.
Proof.
  intros Hdb Hyears Hp Hid Hlimit first. unfold first.
  assert (Hfirst : ∀ r, Queue db (MkAdmin (UserID_of p) (IsPlatformAdmin p)) st None (Z.to_nat limit) = Err r →
    ListBusinessesForReview ctx db (MkReviewParams (Some st) (Some limit) None) = refuse ctx (UseCase r)).
  { intros r Hr. unfold ListBusinessesForReview, adminFrom, caller. rewrite Hp. cbn [res_bind rp_Cursor rp_Status rp_Limit default from_option]. unfold Datatypes.id. by rewrite Hr. }
  destruct (IsPlatformAdmin p) eqn:Hadmin; cbn [negb].
  - case_bool_decide as Hst; [subst st|].
    + rewrite (Hfirst ErrUnknownStatus); [done|]. unfold Queue, require. cbn [ad_IsPlatformAdmin ad_ID]. by rewrite Hid.
    + destruct (queue_businesses db st Hdb Hyears Hst) as (bs & Hbs & Hin & Hsorted).
      destruct (queue_pages_from ctx db p st limit Hdb Hyears Hp Hid Hadmin Hst Hlimit bs Hbs (S (length bs)) None None 0) as (shown & Hshown & Hsize & Hcat);
        [done|rewrite drop_0; apply filter_id_true|lia|]. rewrite drop_0 in Hcat. by exists bs, shown.
  - by rewrite (Hfirst ErrNotPlatformAdmin).
Qed.

(** ** An example: two businesses wait for review *)

#[export] Instance in_layout_dec t : Decision (in_layout t).
Proof. unfold in_layout. destruct (local_date UTC t) as [[y m] d]. apply _. Defined.

Module QueueDemo.
#[export] Existing Instances decimal_ids demo_zones demo_ports.

Definition other : UserID := MkID 11.
(** A store that names a file after who uploads it. *)
Definition save (files : unit) (by_ : UserID) (body : string) : res biz_error StoredFile * unit := (Ok (MkStoredFile (MkID (80 + value by_)) "application/pdf" 10), files).

Definition register2 : RegisterCmd := MkRegister other "حلاق" "" "Barber Co" "2020123456".
Definition branch2 : CreateBranch := MkCreate other (MkID 21) (MkName "الفرع" "") "jeddah" "" "Corniche Rd" (MkGeoInput (float_of 21) (float_of 39)) "" "" None.
Definition upload2 : UploadDocument := MkUpload other (MkID 21) "cr_certificate" "%PDF-1".

Definition q1 : BizDB := Eval vm_compute in committed (Register_handler empty_biz_db (minute 0) (MkID 1) (MkID 3) register_cmd).
Definition q2 : BizDB := Eval vm_compute in committed (Create q1 q1 (minute 1) (MkID 2) branch_cmd).
Definition q3 : BizDB := Eval vm_compute in (Upload save demo_discard q2 q2 q2 q2 () (minute 2) upload_cmd).1.2.
Definition q4 : BizDB := Eval vm_compute in committed (Submit_handler q3 q3 (minute 3) founder (MkID 1) 1).
Definition q5 : BizDB := Eval vm_compute in committed (Register_handler q4 (minute 4) (MkID 21) (MkID 23) register2).
Definition q6 : BizDB := Eval vm_compute in committed (Create q5 q5 (minute 5) (MkID 22) branch2).
Definition q7 : BizDB := Eval vm_compute in (Upload save demo_discard q6 q6 q6 q6 () (minute 6) upload2).1.2.
Definition q8 : BizDB := Eval vm_compute in committed (Submit_handler q7 q7 (minute 7) other (MkID 21) 1).

Lemma queue_history : biz_history save demo_discard [q8; q7; q6; q5; q4; q3; q2; q1; empty_biz_db].
Proof.
  apply history_step.
  2:{ eapply (by_submit _ _ _ _ _ q7 (minute 7) other (MkID 21) 1); [by left|by vm_compute]. }
  apply history_step.
  2:{ apply (by_upload _ _ _ _ _ demo_ports q6 q6 q6 () (minute 6) upload2); [by left..|by vm_compute]. }
  apply history_step.
  2:{ eapply (by_create _ _ _ _ _ demo_ports q5 (minute 5) (MkID 22) branch2); [by left|by vm_compute]. }
  apply history_step.
  2:{ eapply (by_register _ _ _ _ _ (minute 4) (MkID 21) (MkID 23) register2). by vm_compute. }
  apply history_step.
  2:{ eapply (by_submit _ _ _ _ _ q3 (minute 3) founder (MkID 1) 1); [by left|by vm_compute]. }
  apply history_step.
  2:{ apply (by_upload _ _ _ _ _ demo_ports q2 q2 q2 () (minute 2) upload_cmd); [by left..|by vm_compute]. }
  apply history_step.
  2:{ eapply (by_create _ _ _ _ _ demo_ports q1 (minute 1) (MkID 2) branch_cmd); [by left|by vm_compute]. }
  apply history_step.
  2:{ eapply (by_register _ _ _ _ _ (minute 0) (MkID 1) (MkID 3) register_cmd). by vm_compute. }
  apply history_start.
Qed.

Definition platform_admin : Principal := MkPrincipal (MkID 99) 7%N "admin".
Definition asking : Ctx := MkCtx "R1" (Some platform_admin).
Definition one_by_one : ReviewParams := MkReviewParams (Some StatusPendingReview) (Some 1) None.
End QueueDemo.
Import QueueDemo.

Lemma q8_years k r t : businesses q8 !! k = Some r → z_SubmittedAt r = Some t → in_layout t.
Proof.
  pose (ok := λ r, match z_SubmittedAt r with Some t => bool_decide (in_layout t) | None => true end).
  assert (Hq : map_Forall (λ _ r, ok r = true) (businesses q8)) by (apply (bool_decide_eq_true_1 _); vm_compute; reflexivity).
  intros Hk Ht. specialize (Hq k r Hk). cbn in Hq. unfold ok in Hq. rewrite Ht in Hq. by apply bool_decide_eq_true in Hq.
Qed.

Lemma admin_sees_whole_queue_witness :
  (map (map (λ a, az_Id (aw_Business a))) <$> queue_pages 3 asking q8 one_by_one) = Some [[1%N]; [21%N]] ∧
  ∃ bs, (∀ b, b ∈ bs ↔ ByID q8 (id b) = Ok b ∧ status b = StatusPendingReview) ∧ StronglySorted earlier bs.
Proof.
  split; [vm_compute; reflexivity|].
  pose proof (admin_sees_whole_queue asking q8 platform_admin StatusPendingReview 1
    (proj1 (biz_history_ok save demo_discard _ q8 _ queue_history eq_refl q8 ltac:(by left))) q8_years eq_refl eq_refl ltac:(lia)) as Hq.
  destruct Hq as (bs & shown & _ & _ & _ & Hin & Hsorted). exists bs. split; [exact Hin|exact Hsorted].
Defined.
