(* ===== verification/Catalog.v ===== *)
(** * The catalog's domain (src/internal/catalog/domain)

    The services a branch sells and who performs them: the checks on a
    service's details and offerings, the service aggregate with the events it
    records, and what a well-formed service is. *)
From S2P Require Import Prelude GoTime GoText Shared.
Open Scope Z_scope.

(** ** Errors (errors.go)

    [ErrLocalized] wraps the shared kernel's error, [ErrStorage] is any
    failure of the database or of stored data, [ErrUpstream] of business. *)
Inductive cat_error :=
| ErrNotFound | ErrForbidden | ErrVersionConflict
| ErrUnknownCategory | ErrNameTooLong | ErrTextTooLong | ErrInvalidDuration | ErrInvalidPrice | ErrInvalidSort
| ErrUnknownStaff | ErrDuplicateOffering | ErrTooManyOfferings
| ErrLocalized (e : localized_error) | ErrStorage | ErrUpstream.

Definition ParseCategory (code : string) : res cat_error string :=
  match Shared.ParseCategory code with Err _ => Err ErrUnknownCategory | Ok _ => Ok code end.

(** ** Offerings (offering.go) *)

Definition MaxOfferings : nat := 100.

Record Offering := MkOffering { o_Staff : StaffID; o_Price : option Money; o_Duration : option Duration }.

#[export] Instance Offering_eq_dec : EqDecision Offering.
Proof. solve_decision. Defined.

Definition PriceOr (o : Offering) (service : Money) : Money := default service (o_Price o).
Definition DurationOr (o : Offering) (service : Duration) : Duration := default service (o_Duration o).

(** ** Service rules (service.go) *)

Definition MaxNameLen : Z := 80.
Definition MaxDescriptionLen : Z := 500.
Definition MinDuration : Duration := 5 * Minute.
Definition MaxDuration : Duration := 8 * Hour.
Definition DurationStep : Duration := 5 * Minute.
Definition MaxPriceHalalas : Z := 10000000.
Definition MaxSortOrder : Z := 1000.

Definition validDuration (d : Duration) : bool := (MinDuration <=? d) && (d <=? MaxDuration) && (Z.rem d DurationStep =? 0).
Definition validPrice (p : Money) : bool := bool_decide (currency p = SAR) && negb (IsNegative p) && (amount p <=? MaxPriceHalalas).

Section Offerings.
Context `{UuidLib}.

Definition by_staff (a b : Offering) : bool := String.leb (ID_String (o_Staff a)) (ID_String (o_Staff b)).

(** The loop over the sorted offerings; [prev] is [out[i-1].Staff]. *)
Fixpoint offerings_valid (prev : option StaffID) (out : list Offering) : res cat_error unit :=
  match out with
  | [] => Ok tt
  | o :: out =>
      check! negb (ID_IsZero (o_Staff o)) else ErrUnknownStaff in
      check! negb (bool_decide (prev = Some (o_Staff o))) else ErrDuplicateOffering in
      check! match o_Duration o with Some d => validDuration d | None => true end else ErrInvalidDuration in
      check! match o_Price o with Some p => validPrice p | None => true end else ErrInvalidPrice in
      offerings_valid (Some (o_Staff o)) out
  end.

Definition checkOfferings (offerings : list Offering) : res cat_error (list Offering) :=
  if (MaxOfferings <? length offerings)%nat then Err ErrTooManyOfferings
  else
    let out := sort_by by_staff offerings in
    let! _ := offerings_valid None out in
    Ok out.
End Offerings.

Record Description := MkDescription { de_Ar : string; de_En : string }.

#[export] Instance Description_eq_dec : EqDecision Description.
Proof. solve_decision. Defined.

Record ServiceDetails := MkDetails {
  d_Category : string; d_Name : LocalizedText; d_Description : Description; d_Duration : Duration; d_Price : Money; d_SortOrder : Z }.

#[export] Instance ServiceDetails_eq_dec : EqDecision ServiceDetails.
Proof. solve_decision. Defined.

Definition tidy (d : ServiceDetails) : ServiceDetails :=
  MkDetails (d_Category d) (d_Name d) (MkDescription (TrimSpace (de_Ar (d_Description d))) (TrimSpace (de_En (d_Description d))))
    (d_Duration d) (d_Price d) (d_SortOrder d).

Definition check (d : ServiceDetails) : res cat_error ServiceDetails :=
  let! _ := ParseCategory (d_Category d) in
  check! negb ((MaxNameLen <? RuneCountInString (ar (d_Name d))) || (MaxNameLen <? RuneCountInString (en (d_Name d)))) else ErrNameTooLong in
  let d := tidy d in
  check! negb ((MaxDescriptionLen <? RuneCountInString (de_Ar (d_Description d))) || (MaxDescriptionLen <? RuneCountInString (de_En (d_Description d))))
    else ErrTextTooLong in
  check! validDuration (d_Duration d) else ErrInvalidDuration in
  check! validPrice (d_Price d) else ErrInvalidPrice in
  check! negb ((d_SortOrder d <? 0) || (MaxSortOrder <? d_SortOrder d)) else ErrInvalidSort in
  Ok d.

(** ** Events (events.go) *)

Record ServiceSnapshot := MkSnapshot { ss_Version : Z; ss_Active : bool; ss_Details : ServiceDetails; ss_Offerings : list Offering }.

(** [PriceFrom]: the cheapest performer's price, the first of equals; [None]
    while nobody performs the service. *)
Definition cheaper (service : Money) (least : option Money) (o : Offering) : option Money :=
  let p := PriceOr o service in
  match least with
  | None => Some p
  | Some l => if amount p <? amount l then Some p else Some l
  end.

Definition PriceFrom (s : ServiceSnapshot) : option Money := foldl (cheaper (d_Price (ss_Details s))) None (ss_Offerings s).

Inductive CatEvent :=
| ServiceCreatedEvent (business : BusinessID) (branch : BranchID) (service : ServiceID) (at_ : time) (snapshot : ServiceSnapshot)
| ServiceUpdatedEvent (business : BusinessID) (branch : BranchID) (service : ServiceID) (at_ : time) (snapshot : ServiceSnapshot).

(** ** The service aggregate (service.go) *)

Definition dbTime (t : time) : time := Truncate t Microsecond.

Record Service := MkService {
  sv_id : ServiceID; sv_business : BusinessID; sv_branch : BranchID; sv_details : ServiceDetails; sv_offerings : list Offering;
  sv_active : bool; sv_version : Z; sv_createdAt : time; sv_updatedAt : time; sv_events : list CatEvent }.

Definition snapshot (s : Service) : ServiceSnapshot := MkSnapshot (sv_version s) (sv_active s) (sv_details s) (sv_offerings s).

Definition record_event (s : Service) (e : CatEvent) : Service :=
  MkService (sv_id s) (sv_business s) (sv_branch s) (sv_details s) (sv_offerings s) (sv_active s) (sv_version s) (sv_createdAt s)
    (sv_updatedAt s) (sv_events s ++ [e]).

Definition NewService (sid : ServiceID) (business : BusinessID) (branch : BranchID) (d : ServiceDetails) (now : time) : res cat_error Service :=
  let! d := check d in
  let now := dbTime now in
  let s := MkService sid business branch d [] true 1 now now [] in
  Ok (record_event s (ServiceCreatedEvent business branch sid now (snapshot s))).

(** [touch]: a new version (the [int] wraps) and time, and the event. *)
Definition touch (s : Service) (now : time) : Service :=
  let s := MkService (sv_id s) (sv_business s) (sv_branch s) (sv_details s) (sv_offerings s) (sv_active s)
             (int64 (sv_version s + 1)) (sv_createdAt s) (dbTime now) (sv_events s) in
  record_event s (ServiceUpdatedEvent (sv_business s) (sv_branch s) (sv_id s) (sv_updatedAt s) (snapshot s)).

Definition set_details (s : Service) (d : ServiceDetails) (active : bool) : Service :=
  MkService (sv_id s) (sv_business s) (sv_branch s) d (sv_offerings s) active (sv_version s) (sv_createdAt s) (sv_updatedAt s) (sv_events s).
Definition set_offerings (s : Service) (os : list Offering) : Service :=
  MkService (sv_id s) (sv_business s) (sv_branch s) (sv_details s) os (sv_active s) (sv_version s) (sv_createdAt s) (sv_updatedAt s) (sv_events s).

Definition Edit (s : Service) (d : ServiceDetails) (active : bool) (now : time) : res cat_error Service :=
  let! d := check d in
  Ok (touch (set_details s d active) now).

Definition SetOfferings `{UuidLib} (s : Service) (offerings : list Offering) (now : time) : res cat_error Service :=
  let! checked := checkOfferings offerings in
  Ok (touch (set_offerings s checked) now).

Definition RehydrateService (sid : ServiceID) (business : BusinessID) (branch : BranchID) (d : ServiceDetails) (os : list Offering)
    (active : bool) (version : Z) (createdAt updatedAt : time) : Service :=
  MkService sid business branch d os active version createdAt updatedAt [].

(** ** Well-formed services *)

Definition five_minutes (d : Duration) : Prop := ∃ k, d = k * DurationStep ∧ 1 ≤ k ≤ 96.
Definition price_ok (p : Money) : Prop := currency p = SAR ∧ 0 ≤ amount p ≤ MaxPriceHalalas.

Record details_ok (d : ServiceDetails) : Prop := {
  do_category : is_ok (Shared.ParseCategory (d_Category d)) = true;
  do_name : RuneCountInString (ar (d_Name d)) ≤ MaxNameLen ∧ RuneCountInString (en (d_Name d)) ≤ MaxNameLen;
  do_text : TrimSpace (de_Ar (d_Description d)) = de_Ar (d_Description d) ∧ TrimSpace (de_En (d_Description d)) = de_En (d_Description d);
  do_lengths : RuneCountInString (de_Ar (d_Description d)) ≤ MaxDescriptionLen ∧ RuneCountInString (de_En (d_Description d)) ≤ MaxDescriptionLen;
  do_duration : five_minutes (d_Duration d);
  do_price : price_ok (d_Price d);
  do_sort : 0 ≤ d_SortOrder d ≤ MaxSortOrder }.

Record offering_ok (o : Offering) : Prop := {
  oo_staff : ID_IsZero (o_Staff o) = false;
  oo_duration : ∀ d, o_Duration o = Some d → five_minutes d;
  oo_price : ∀ p, o_Price o = Some p → price_ok p }.

Record offerings_ok (os : list Offering) : Prop := {
  os_each : Forall offering_ok os;
  os_once : NoDup (o_Staff <$> os);
  os_few : (length os ≤ MaxOfferings)%nat }.

(** ** Facts *)

Lemma validDuration_spec d : validDuration d = true ↔ five_minutes d.
Proof.
  unfold validDuration, five_minutes, MinDuration, MaxDuration, DurationStep. rewrite !andb_true_iff, !Z.leb_le, Z.eqb_eq.
  change (8 * Hour) with (96 * (5 * Minute)). assert (0 < 5 * Minute) by done. set (u := 5 * Minute) in *. split.
  - intros [[H1 H2] Hr]. exists (Z.quot d u). pose proof (Z.quot_rem' d u). rewrite Hr in *. nia.
  - intros (k & -> & ?). rewrite Z.rem_mul by lia. repeat split; nia.
Qed.

Lemma validPrice_spec p : validPrice p = true ↔ price_ok p.
Proof. unfold validPrice, price_ok, IsNegative. rewrite !andb_true_iff, bool_decide_eq_true, negb_true_iff, Z.ltb_ge, Z.leb_le. tauto. Qed.

Lemma check_spec d d' :
  check d = Ok d' ↔ d' = tidy d ∧ details_ok (tidy d).
Proof.
  unfold check, ParseCategory. split.
  - intros Hc. destruct (Shared.ParseCategory _) as [c|] eqn:Ec; [|done]. cbn [res_bind] in Hc. res_inv. bool_prop. split; [done|].
    rewrite validDuration_spec, validPrice_spec in *. constructor; simpl; try done.
    + by rewrite Ec.
    + by rewrite !TrimSpace_idem.
  - intros [-> [Hcat [Hn1 Hn2] _ [Hl1 Hl2] Hd Hp Hs]]. cbn in Hcat, Hn1, Hn2. destruct (Shared.ParseCategory _); [|done]. cbn [res_bind].
    rewrite (proj2 (Z.ltb_ge _ _) Hn1), (proj2 (Z.ltb_ge _ _) Hn2). cbn [orb negb ensure res_bind].
    rewrite (proj2 (Z.ltb_ge _ _) Hl1), (proj2 (Z.ltb_ge _ _) Hl2). cbn [orb negb ensure res_bind].
    rewrite (proj2 (validDuration_spec _) Hd), (proj2 (validPrice_spec _) Hp). cbn [ensure res_bind].
    by rewrite !(proj2 (Z.ltb_ge _ _)) by apply Hs.
Qed.

Lemma tidy_ok d : details_ok d → tidy d = d.
Proof. intros [_ _ [E1 E2] _ _ _ _]. destruct d as [? ? [a e] ? ? ?]. unfold tidy. simpl in *. by rewrite E1, E2. Qed.

Section OfferingFacts.
Context `{UuidLib}.

Lemma by_staff_total a b : by_staff a b = false → by_staff b a = true.
Proof. apply string_leb_total. Qed.
Lemma by_staff_trans a b c : by_staff a b = true → by_staff b c = true → by_staff a c = true.
Proof. apply string_leb_trans. Qed.

(** Equal neighbours only: enough in a sorted list. *)
Lemma offerings_valid_ok prev out :
  StronglySorted (λ a b, by_staff a b = true) out →
  offerings_valid prev out = Ok tt ↔ Forall offering_ok out ∧ NoDup (o_Staff <$> out) ∧ (∀ o, head out = Some o → prev ≠ Some (o_Staff o)).
Proof.
  intros Hs. revert prev. induction Hs as [|o out Hs IH Ho]; intros prev.
  { split; [by repeat split; [constructor..|]|done]. }
  cbn [offerings_valid]. rewrite !res_bind_ok. split.
  - intros (? & Hz & H1). apply ensure_ok in Hz. apply res_bind_ok in H1 as (? & Hp & H1). apply ensure_ok in Hp.
    apply res_bind_ok in H1 as (? & Hd & H1). apply ensure_ok in Hd. apply res_bind_ok in H1 as (? & Hm & H1). apply ensure_ok in Hm.
    apply IH in H1 as (Hall & Hnd & Hh). clear IH. bool_prop. split_and!.
    + constructor; [|done]. constructor; [done|..]; intros y Hy; rewrite Hy in *; [by apply validDuration_spec|by apply validPrice_spec].
    + rewrite fmap_cons. apply NoDup_cons. split; [|done]. intros (o2 & E & Hin)%list_elem_of_fmap.
      destruct out as [|o1 out]; [by apply not_elem_of_nil in Hin|]. apply (Hh o1); [done|]. f_equal.
      apply Forall_cons in Ho as [Ho1 _]. inversion Hs as [|? ? _ Hle]; subst. apply elem_of_cons in Hin as [->|Hin]; [done|].
      rewrite Forall_forall in Hle. specialize (Hle _ Hin).
      unfold by_staff, ID_String in *. rewrite <- E in Hle. pose proof (String.leb_antisym _ _ Ho1 Hle) as E2. apply uuid_string_inj in E2.
      by destruct (o_Staff o), (o_Staff o1); simpl in *; subst.
    + by intros ? [= <-].
  - intros (Hall & Hnd & Hh). apply Forall_cons in Hall as [[Hz Hd Hp] Hall]. rewrite fmap_cons in Hnd. apply NoDup_cons in Hnd as [Hni Hnd].
    exists tt. rewrite Hz. split; [done|]. rewrite bool_decide_eq_false_2 by by apply Hh. cbn [negb ensure res_bind].
    assert (match o_Duration o with Some d => validDuration d | None => true end = true) as -> by
      (destruct (o_Duration o); [by apply validDuration_spec, Hd|done]).
    assert (match o_Price o with Some p => validPrice p | None => true end = true) as -> by (destruct (o_Price o); [by apply validPrice_spec, Hp|done]).
    cbn [ensure res_bind]. apply IH. split_and!; [done..|]. intros o1 Ho1 [= E]. apply Hni. rewrite E. apply list_elem_of_fmap.
    exists o1. split; [done|]. destruct out; simplify_eq/=. by left.
Qed.

(** A full set of offerings is accepted exactly when it is a good one; it
    comes back in order. *)
Lemma checkOfferings_ok os out :
  checkOfferings os = Ok out ↔ out = sort_by by_staff os ∧ offerings_ok os.
Proof.
  unfold checkOfferings. destruct (Nat.ltb_spec MaxOfferings (length os)) as [Hl|Hl].
  { split; [done|]. intros [_ [_ _ ?]]. lia. }
  pose proof (sort_by_sorted by_staff by_staff_total by_staff_trans os) as Hs.
  assert (Hok : offerings_valid None (sort_by by_staff os) = Ok tt ↔ offerings_ok os).
  { rewrite offerings_valid_ok by done. rewrite sort_by_perm. split; [intros (? & ? & _); by constructor|intros []; by split_and!]. }
  rewrite res_bind_ok. split.
  - intros ([] & Hv & [= <-]). split; [done|by apply Hok].
  - intros [-> Hos]. exists tt. split; [by apply Hok|done].
Qed.
End OfferingFacts.
