(* ===== verification/CatStore.v ===== *)
(** * The catalog's tables
      (src/internal/catalog/adapters/postgres, events, module.go; src/migrations/00012, 00013)

    The rows of services and offerings, what the tables refuse, the
    repository's transactions, the events they publish and what subscribers
    read in them. An error rolls the whole transaction back; the row lock
    makes updates of one service follow one another. *)
From S2P Require Import Prelude GoTime GoText Shared Tables Catalog.
Open Scope Z_scope.

(** ** Rows (sqlcgen) *)

Record SvcRow := MkSvcRow {
  v_ID : ServiceID; v_BusinessID : BusinessID; v_BranchID : BranchID; v_CategoryCode : string; v_NameAr : string; v_NameEn : string;
  v_DescriptionAr : string; v_DescriptionEn : string; v_DurationMinutes : Z; v_PriceAmount : Z; v_PriceCurrency : string;
  v_Active : bool; v_SortOrder : Z; v_Version : Z; v_CreatedAt : time; v_UpdatedAt : time }.

Record OffRow := MkOffRow {
  f_BusinessID : BusinessID; f_ServiceID : ServiceID; f_StaffID : StaffID; f_PriceAmount : option Z; f_PriceCurrency : option string;
  f_DurationMinutes : option Z }.

(** ** The events' JSON shape (events/events.go) *)

Record ContractService := MkContractService {
  c_Version : Z; c_Active : bool; c_CategoryCode : string; c_Name : LocalizedText; c_DurationMinutes : Z; c_Price : Money;
  c_PriceFrom : option Money; c_SortOrder : Z }.

Record ServicePayload := MkServicePayload {
  y_BusinessID : BusinessID; y_BranchID : BranchID; y_ServiceID : ServiceID; y_ChangedAt : time; y_Service : ContractService }.

Record OutboxEvent := MkOutbox { ob_Type : string; ob_OccurredAt : time; ob_Payload : ServicePayload }.

Definition TypeServiceCreated : string := "catalog.service_created".
Definition TypeServiceUpdated : string := "catalog.service_updated".

(** The primary key of the offerings is (service, staff). *)
Record CatDB := MkCatDB {
  services : gmap ServiceID SvcRow;
  service_offerings : gmap (ServiceID * StaffID) OffRow;
  cat_outbox : list OutboxEvent }.

Definition empty_cat_db : CatDB := MkCatDB ∅ ∅ [].

Definition toInt32 (n : Z) : res cat_error Z := if (n <? 0) || (max_int32 <? n) then Err ErrStorage else Ok n.
Definition toInt16 (n : Z) : res cat_error Z := if (n <? 0) || (max_int16 <? n) then Err ErrStorage else Ok n.

(** ** What the tables refuse *)

Definition minutes_check (n : Z) : bool := (5 <=? n) && (n <=? 480) && (Z.rem n 5 =? 0).
Definition amount_check (n : Z) : bool := (0 <=? n) && (n <=? 10000000).

Definition service_checks (r : SvcRow) : bool :=
  bool_decide (v_CategoryCode r ∈ ["haircut"; "beard"; "shave"; "kids"; "skincare"; "colour"; "packages"])
  && negb (bool_decide (v_NameAr r = "")) && (RuneCountInString (v_NameAr r) <=? 80) && (RuneCountInString (v_NameEn r) <=? 80)
  && (RuneCountInString (v_DescriptionAr r) <=? 500) && (RuneCountInString (v_DescriptionEn r) <=? 500)
  && minutes_check (v_DurationMinutes r) && amount_check (v_PriceAmount r) && bool_decide (v_PriceCurrency r = "SAR")
  && (0 <=? v_SortOrder r) && (v_SortOrder r <=? 1000) && (0 <? v_Version r).

(** A CHECK on NULL passes. *)
Definition offering_checks (r : OffRow) : bool :=
  match f_PriceAmount r with Some n => amount_check n | None => true end
  && match f_PriceCurrency r with Some c => bool_decide (c = "SAR") | None => true end
  && match f_DurationMinutes r with Some n => minutes_check n | None => true end
  && Bool.eqb (present (f_PriceAmount r)) (present (f_PriceCurrency r)).

(** ** Rows and aggregates (repository.go) *)

Definition minutes_of (d : Duration) : Z := Z.quot d Minute.

Definition toRow (s : Service) : res cat_error SvcRow :=
  let d := sv_details s in
  let! minutes := toInt16 (minutes_of (d_Duration d)) in
  let! sort := toInt16 (d_SortOrder d) in
  let! version := toInt32 (sv_version s) in
  Ok (MkSvcRow (sv_id s) (sv_business s) (sv_branch s) (d_Category d) (ar (d_Name d)) (en (d_Name d))
        (de_Ar (d_Description d)) (de_En (d_Description d)) minutes (amount (d_Price d)) (currency (d_Price d))
        (sv_active s) sort version (sv_createdAt s) (sv_updatedAt s)).

Definition toService (r : SvcRow) (os : list Offering) : res cat_error Service :=
  let! name := res_map_err ErrLocalized (NewLocalizedText (v_NameAr r) (v_NameEn r)) in
  let! price := res_map_err (λ _, ErrStorage) (NewMoney (v_PriceAmount r) (v_PriceCurrency r)) in
  Ok (RehydrateService (v_ID r) (v_BusinessID r) (v_BranchID r)
        (MkDetails (v_CategoryCode r) name (MkDescription (v_DescriptionAr r) (v_DescriptionEn r))
           (int64 (v_DurationMinutes r * Minute)) price (v_SortOrder r))
        os (v_Active r) (v_Version r) (v_CreatedAt r) (v_UpdatedAt r)).

Definition toOffering (r : OffRow) : res cat_error Offering :=
  let! price := match f_PriceAmount r with
                | None => Ok None
                | Some n => let! p := res_map_err (λ _, ErrStorage) (NewMoney n (default "" (f_PriceCurrency r))) in Ok (Some p)
                end in
  Ok (MkOffering (f_StaffID r) price ((λ n, int64 (n * Minute)) <$> f_DurationMinutes r)).

(** ** Publishing *)

Definition serviceContract (s : ServiceSnapshot) : ContractService :=
  let d := ss_Details s in
  MkContractService (ss_Version s) (ss_Active s) (d_Category d) (d_Name d) (minutes_of (d_Duration d)) (d_Price d) (PriceFrom s) (d_SortOrder d).

Definition to_outbox (e : CatEvent) : OutboxEvent :=
  match e with
  | ServiceCreatedEvent b br s at_ snap => MkOutbox TypeServiceCreated at_ (MkServicePayload b br s at_ (serviceContract snap))
  | ServiceUpdatedEvent b br s at_ snap => MkOutbox TypeServiceUpdated at_ (MkServicePayload b br s at_ (serviceContract snap))
  end.

Definition publish (db : CatDB) (evs : list CatEvent) : CatDB :=
  MkCatDB (services db) (service_offerings db) (cat_outbox db ++ (to_outbox <$> evs)).

(** ** The repository *)

Definition set_services (db : CatDB) t : CatDB := MkCatDB t (service_offerings db) (cat_outbox db).
Definition set_offering_rows (db : CatDB) t : CatDB := MkCatDB (services db) t (cat_outbox db).

(** [(business_id, id)] is unique because [id] is. *)
Definition Add (db : CatDB) (s : Service) : res cat_error CatDB :=
  let! row := toRow s in
  check! service_checks row && bool_decide (services db !! sv_id s = None) else ErrStorage in
  Ok (publish (set_services db (<[sv_id s := row]> (services db))) (sv_events s)).

Definition by_display (a b : SvcRow) : bool :=
  if v_SortOrder a <? v_SortOrder b then true else if v_SortOrder b <? v_SortOrder a then false
  else if v_CreatedAt a <? v_CreatedAt b then true else if v_CreatedAt b <? v_CreatedAt a then false
  else (value (v_ID a) <=? value (v_ID b))%N.

Definition at_branch (business : BusinessID) (branch : BranchID) (r : SvcRow) : bool :=
  bool_decide (v_BusinessID r = business ∧ v_BranchID r = branch).

Definition ServicesByBranch (db : CatDB) (business : BusinessID) (branch : BranchID) : list SvcRow :=
  sort_by by_display (rows_where (at_branch business branch) (services db)).

Definition by_service_staff (a b : OffRow) : bool :=
  if (value (f_ServiceID a) <? value (f_ServiceID b))%N then true else if (value (f_ServiceID b) <? value (f_ServiceID a))%N then false
  else (value (f_StaffID a) <=? value (f_StaffID b))%N.

(** The join: the offering's service is of the business and at the branch. *)
Definition offered_at (db : CatDB) (business : BusinessID) (branch : BranchID) (r : OffRow) : bool :=
  match services db !! f_ServiceID r with
  | Some s => bool_decide (v_BusinessID s = f_BusinessID r) && at_branch business branch s
  | None => false
  end.

Definition OfferingsByBranch (db : CatDB) (business : BusinessID) (branch : BranchID) : list OffRow :=
  sort_by by_service_staff (rows_where (offered_at db business branch) (service_offerings db)).

Definition OfferingsByService (db : CatDB) (business : BusinessID) (sid : ServiceID) : list OffRow :=
  sort_by by_service_staff (rows_where (λ r, bool_decide (f_BusinessID r = business ∧ f_ServiceID r = sid)) (service_offerings db)).

(** One turn of the loop that groups the offerings by service. *)
Definition group_offering (offerings : gmap ServiceID (list Offering)) (r : OffRow) : res cat_error (gmap ServiceID (list Offering)) :=
  let! o := toOffering r in
  Ok (<[f_ServiceID r := default [] (offerings !! f_ServiceID r) ++ [o]]> offerings).

Definition List_services (db : CatDB) (business : BusinessID) (branch : BranchID) : res cat_error (list Service) :=
  let! offerings := res_foldM group_offering ∅ (OfferingsByBranch db business branch) in
  res_mapM (λ row, toService row (default [] (offerings !! v_ID row))) (ServicesByBranch db business branch).

Definition offering_row (s : Service) (o : Offering) : res cat_error OffRow :=
  let! minutes := match o_Duration o with None => Ok None | Some d => let! m := toInt16 (minutes_of d) in Ok (Some m) end in
  Ok (MkOffRow (sv_business s) (sv_id s) (o_Staff o) (amount <$> o_Price o) (currency <$> o_Price o) minutes).

(** The foreign key asks for a service of the same business. *)
Definition insert_offering (s : Service) (db : CatDB) (o : Offering) : res cat_error CatDB :=
  let! row := offering_row s o in
  check! offering_checks row && bool_decide (service_offerings db !! (sv_id s, o_Staff o) = None)
      && match services db !! sv_id s with Some r => bool_decide (v_BusinessID r = sv_business s) | None => false end else ErrStorage in
  Ok (set_offering_rows db (<[(sv_id s, o_Staff o) := row]> (service_offerings db))).

Definition DeleteOfferings (db : CatDB) (business : BusinessID) (sid : ServiceID) : CatDB :=
  set_offering_rows db (filter (λ e, ¬ (f_BusinessID e.2 = business ∧ f_ServiceID e.2 = sid)) (service_offerings db)).

Definition saveOfferings (db : CatDB) (s : Service) : res cat_error CatDB :=
  res_foldM (insert_offering s) (DeleteOfferings db (sv_business s) (sv_id s)) (sv_offerings s).

Definition ServiceForUpdate (db : CatDB) (business : BusinessID) (branch : BranchID) (sid : ServiceID) : option SvcRow :=
  match services db !! sid with
  | Some r => if at_branch business branch r then Some r else None
  | None => None
  end.

Definition update_service_row (r next : SvcRow) : SvcRow :=
  MkSvcRow (v_ID r) (v_BusinessID r) (v_BranchID r) (v_CategoryCode next) (v_NameAr next) (v_NameEn next)
    (v_DescriptionAr next) (v_DescriptionEn next) (v_DurationMinutes next) (v_PriceAmount next) (v_PriceCurrency next)
    (v_Active next) (v_SortOrder next) (v_Version next) (v_CreatedAt r) (v_UpdatedAt next).

(** [UPDATE ... WHERE business_id, branch_id, id AND version = @expected_version]. *)
Definition UpdateService (db : CatDB) (business : BusinessID) (branch : BranchID) (next : SvcRow) (expected : Z) : res cat_error CatDB :=
  match ServiceForUpdate db business branch (v_ID next) with
  | Some r =>
      if negb (v_Version r =? expected) then Err ErrVersionConflict
      else
        let row := update_service_row r next in
        check! service_checks row else ErrStorage in
        Ok (set_services db (<[v_ID next := row]> (services db)))
  | None => Err ErrVersionConflict
  end.

Definition Update (db : CatDB) (business : BusinessID) (branch : BranchID) (sid : ServiceID) (expectedVersion : Z)
    (fn : Service → res cat_error Service) : res cat_error (Service * CatDB) :=
  if (expectedVersion <? 1) || (max_int32 <? expectedVersion) then Err ErrVersionConflict
  else
    match ServiceForUpdate db business branch sid with
    | None => Err ErrNotFound
    | Some row =>
        check! v_Version row =? expectedVersion else ErrVersionConflict in
        let! offerings := res_mapM toOffering (OfferingsByService db business sid) in
        let! s := toService row offerings in
        let! s := fn s in
        let! next := toRow s in
        let! db := UpdateService db business branch next (v_Version row) in
        let! db := saveOfferings db s in
        Ok (s, publish db (sv_events s))
    end.

(** ** What subscribers receive (module.go) *)

Record ServiceChanged := MkServiceChanged {
  sc_BusinessID : BusinessID; sc_BranchID : BranchID; sc_ServiceID : ServiceID; sc_Version : Z; sc_Offered : bool; sc_Category : string;
  sc_Name : LocalizedText; sc_Duration : Duration; sc_PriceFrom : Money; sc_SortOrder : Z; sc_At : time }.

Definition decodeServiceChanged (e : OutboxEvent) : res cat_error ServiceChanged :=
  let p := ob_Payload e in
  let s := y_Service p in
  check! negb (c_Version s <? 1) else ErrStorage in
  let from := default (c_Price s) (c_PriceFrom s) in
  let! price := res_map_err (λ _, ErrStorage) (NewMoney (amount from) (currency from)) in
  let! name := res_map_err ErrLocalized (NewLocalizedText (ar (c_Name s)) (en (c_Name s))) in
  Ok (MkServiceChanged (y_BusinessID p) (y_BranchID p) (y_ServiceID p) (c_Version s) (c_Active s && present (c_PriceFrom s))
        (c_CategoryCode s) name (int64 (c_DurationMinutes s * Minute)) price (c_SortOrder s) (ob_OccurredAt e)).
