(* ===== verification/CatApp.v ===== *)
(** * The catalog's use cases (src/internal/catalog/app)

    Each handler of app.go. What it asks business - whether the caller may
    work on the branch, whether staff work there - is the interface
    [Access]. *)
From S2P Require Import Prelude GoTime GoText Shared Tables Catalog CatStore.
Open Scope Z_scope.

Inductive Role := RoleManager | RoleBarber.

Class Access := {
  Access_Branch : UserID → BusinessID → BranchID → Role → res cat_error unit;
  Access_StaffAtBranch : BusinessID → BranchID → list StaffID → res cat_error unit }.

(** ** Commands *)

Record BranchRef := MkRef { Actor : UserID; Ref_Business : BusinessID; Ref_Branch : BranchID }.
Record MoneyInput := MkMoneyInput { mi_Amount : Z; mi_Currency : string }.
Record Name := MkName { n_Ar : string; n_En : string }.

Record CreateService := MkCreateService {
  cs_Ref : BranchRef; cs_Category : string; cs_Name : Name; cs_Description : Description; cs_Duration : Duration; cs_Price : MoneyInput;
  cs_SortOrder : Z }.

Record UpdateServiceCmd := MkUpdateService {
  us_Ref : BranchRef; us_Service : ServiceID; us_ExpectedVersion : Z; us_Category : option string; us_Name : option Name;
  us_Description : option Description; us_Duration : option Duration; us_Price : option MoneyInput; us_SortOrder : option Z;
  us_Active : option bool }.

Record OfferingInput := MkOfferingInput { oi_Staff : StaffID; oi_Price : option MoneyInput; oi_Duration : option Duration }.

Record SetOfferingsCmd := MkSetOfferings { so_Ref : BranchRef; so_Service : ServiceID; so_ExpectedVersion : Z; so_Offerings : list OfferingInput }.

(** ** Values from commands *)

Definition money (m : MoneyInput) : res cat_error Money := res_map_err (λ _, ErrInvalidPrice) (NewMoney (mi_Amount m) (mi_Currency m)).

Definition details (category : string) (name : Name) (desc : Description) (duration : Duration) (price : MoneyInput) (sort : Z)
    : res cat_error ServiceDetails :=
  let! text := res_map_err ErrLocalized (NewLocalizedText (n_Ar name) (n_En name)) in
  let! p := money price in
  Ok (MkDetails category text desc duration p sort).

(** [cmd.apply]: the command's fields over the current ones. *)
Definition apply (cmd : UpdateServiceCmd) (s : Service) : res cat_error (ServiceDetails * bool) :=
  let d := sv_details s in
  let! name := match us_Name cmd with
               | None => Ok (d_Name d)
               | Some n => res_map_err ErrLocalized (NewLocalizedText (n_Ar n) (n_En n))
               end in
  let! price := match us_Price cmd with None => Ok (d_Price d) | Some m => money m end in
  Ok (MkDetails (default (d_Category d) (us_Category cmd)) name (default (d_Description d) (us_Description cmd))
        (default (d_Duration d) (us_Duration cmd)) price (default (d_SortOrder d) (us_SortOrder cmd)),
      default (sv_active s) (us_Active cmd)).

(** ** Handlers *)

Section Handlers.
Context `{UuidLib} `{Access}.

Definition Categories_handler : list Category := Shared.Categories.

Definition Create (db : CatDB) (now : time) (newID : ServiceID) (cmd : CreateService) : res cat_error (Service * CatDB) :=
  let r := cs_Ref cmd in
  let! _ := Access_Branch (Actor r) (Ref_Business r) (Ref_Branch r) RoleManager in
  let! d := details (cs_Category cmd) (cs_Name cmd) (cs_Description cmd) (cs_Duration cmd) (cs_Price cmd) (cs_SortOrder cmd) in
  let! s := NewService newID (Ref_Business r) (Ref_Branch r) d now in
  let! db := Add db s in
  Ok (s, db).

Definition List_handler (db : CatDB) (r : BranchRef) : res cat_error (list Service) :=
  let! _ := Access_Branch (Actor r) (Ref_Business r) (Ref_Branch r) RoleBarber in
  List_services db (Ref_Business r) (Ref_Branch r).

Definition Update_handler (db : CatDB) (now : time) (cmd : UpdateServiceCmd) : res cat_error (Service * CatDB) :=
  let r := us_Ref cmd in
  let! _ := Access_Branch (Actor r) (Ref_Business r) (Ref_Branch r) RoleManager in
  Update db (Ref_Business r) (Ref_Branch r) (us_Service cmd) (us_ExpectedVersion cmd) (λ s,
    let! da := apply cmd s in
    Edit s da.1 da.2 now).

Definition to_offering (i : OfferingInput) : res cat_error Offering :=
  let! price := match oi_Price i with None => Ok None | Some m => let! p := money m in Ok (Some p) end in
  Ok (MkOffering (oi_Staff i) price (oi_Duration i)).

Definition SetOfferings_handler (db : CatDB) (now : time) (cmd : SetOfferingsCmd) : res cat_error (Service * CatDB) :=
  let r := so_Ref cmd in
  let! _ := Access_Branch (Actor r) (Ref_Business r) (Ref_Branch r) RoleManager in
  let! offerings := res_mapM to_offering (so_Offerings cmd) in
  check! negb (MaxOfferings <? length offerings)%nat else ErrTooManyOfferings in
  let! _ := Access_StaffAtBranch (Ref_Business r) (Ref_Branch r) (oi_Staff <$> so_Offerings cmd) in
  Update db (Ref_Business r) (Ref_Branch r) (so_Service cmd) (so_ExpectedVersion cmd) (λ s, SetOfferings s offerings now).

(** ** What other modules ask *)

Definition staff_id_order (a b : StaffID) : bool := String.leb (ID_String a) (ID_String b).

(** [slices.Compact]: of equal neighbours the first stays. *)
Fixpoint Compact {A} `{EqDecision A} (l : list A) : list A :=
  match l with
  | [] => []
  | x :: l =>
      match l with
      | y :: _ => if bool_decide (x = y) then Compact l else x :: Compact l
      | [] => [x]
      end
  end.

Definition PerformingStaff (db : CatDB) (business : BusinessID) (branch : BranchID) : res cat_error (list StaffID) :=
  let! ss := List_services db business branch in
  Ok (Compact (sort_by staff_id_order (ss ≫= λ s, if sv_active s then o_Staff <$> sv_offerings s else []))).

Record Performer := MkPerformer { pf_Staff : StaffID; pf_Duration : Duration; pf_Price : Money }.
Record MenuItem := MkMenuItem { mn_ID : ServiceID; mn_Name : LocalizedText; mn_Performers : list Performer }.

Definition performer (d : ServiceDetails) (o : Offering) : Performer :=
  MkPerformer (o_Staff o) (DurationOr o (d_Duration d)) (PriceOr o (d_Price d)).

Definition Menu (db : CatDB) (business : BusinessID) (branch : BranchID) : res cat_error (list MenuItem) :=
  let! ss := List_services db business branch in
  Ok (omap (λ s, if negb (sv_active s) then None
                 else let d := sv_details s in Some (MkMenuItem (sv_id s) (d_Name d) (performer d <$> sv_offerings s))) ss).
End Handlers.
