(* ===== verification/CatFacts.v ===== *)
(** * What the catalog's tables hold

    The row of a well-formed service fits the table and reads back; a service
    is [stored] when its row and its offerings' rows are there; [cat_ok] says
    that every row belongs to a stored, well-formed service. Each transaction
    keeps it, and never fails on what the domain accepted. *)
From S2P Require Import Prelude GoTime GoText Shared Tables Catalog CatStore.
Open Scope Z_scope.

Definition svc_row (s : Service) : SvcRow :=
  let d := sv_details s in
  MkSvcRow (sv_id s) (sv_business s) (sv_branch s) (d_Category d) (ar (d_Name d)) (en (d_Name d))
    (de_Ar (d_Description d)) (de_En (d_Description d)) (minutes_of (d_Duration d)) (amount (d_Price d)) (currency (d_Price d))
    (sv_active s) (d_SortOrder d) (sv_version s) (sv_createdAt s) (sv_updatedAt s).

Definition off_row (s : Service) (o : Offering) : OffRow :=
  MkOffRow (sv_business s) (sv_id s) (o_Staff o) (amount <$> o_Price o) (currency <$> o_Price o) (minutes_of <$> o_Duration o).

Record svc_ok (s : Service) : Prop := {
  vk_details : details_ok (sv_details s);
  vk_name : NewLocalizedText (ar (d_Name (sv_details s))) (en (d_Name (sv_details s))) = Ok (d_Name (sv_details s));
  vk_offerings : offerings_ok (sv_offerings s);
  vk_version : 1 ≤ sv_version s }.

Record stored (db : CatDB) (s : Service) : Prop := {
  st_row : services db !! sv_id s = Some (svc_row s);
  st_offerings st r : service_offerings db !! (sv_id s, st) = Some r ↔ ∃ o, o ∈ sv_offerings s ∧ o_Staff o = st ∧ r = off_row s o }.

Record cat_ok (db : CatDB) : Prop := {
  ck_services sid r : services db !! sid = Some r → ∃ s, sv_id s = sid ∧ svc_ok s ∧ stored db s ∧ sv_version s ≤ max_int32;
  ck_offerings k r : service_offerings db !! k = Some r → is_Some (services db !! k.1) }.

(** ** Minutes, prices and rows *)

Lemma five_minutes_minutes d : five_minutes d → ∃ k, d = k * 5 * Minute ∧ minutes_of d = k * 5 ∧ 1 ≤ k ≤ 96 ∧ int64 (minutes_of d * Minute) = d.
Proof.
  intros (k & -> & Hk). exists k. unfold DurationStep, minutes_of. rewrite Z.mul_assoc, Z.quot_mul by done.
  split_and!; try done; try lia. apply int64_id. unfold in_int64, min_int64, max_int64, Minute, Second, Millisecond, Microsecond. lia.
Qed.

Lemma minutes_check_ok d : five_minutes d → minutes_check (minutes_of d) = true.
Proof.
  intros (k & _ & -> & Hk & _)%five_minutes_minutes. unfold minutes_check. rewrite !andb_true_iff, !Z.leb_le, Z.eqb_eq.
  split; [lia|]. by apply Z.rem_mul.
Qed.

Lemma toInt16_minutes d : five_minutes d → toInt16 (minutes_of d) = Ok (minutes_of d).
Proof.
  intros (k & _ & -> & Hk & _)%five_minutes_minutes. unfold toInt16, max_int16. by rewrite !(proj2 (Z.ltb_ge _ _)) by lia.
Qed.

Lemma NewMoney_stored p : price_ok p → NewMoney (amount p) (currency p) = Ok p.
Proof. intros [E _]. unfold NewMoney. rewrite E. destruct p; simpl in *; by subst. Qed.

Lemma category_listed c : is_ok (Shared.ParseCategory c) = true → c ∈ cat_code <$> Categories.
Proof.
  unfold Shared.ParseCategory. destruct (find_first _ _) as [x|] eqn:E; [|done]. intros _. apply find_first_some in E as [Hin Hc].
  apply bool_decide_eq_true in Hc as <-. by apply list_elem_of_fmap_2.
Qed.

Lemma toRow_ok s : svc_ok s → toRow s = if max_int32 <? sv_version s then Err ErrStorage else Ok (svc_row s).
Proof.
  intros [Hd _ _ Hv]. unfold toRow. rewrite toInt16_minutes by apply Hd. cbn [res_bind]. unfold toInt16, toInt32.
  pose proof (do_sort _ Hd) as Hs. unfold MaxSortOrder in Hs. rewrite !(proj2 (Z.ltb_ge (d_SortOrder _) _)), (proj2 (Z.ltb_ge max_int16 _)) by (unfold max_int16; lia). cbn [orb res_bind].
  rewrite (proj2 (Z.ltb_ge (sv_version s) 0)) by lia. cbn [orb]. by destruct (max_int32 <? sv_version s).
Qed.

Lemma svc_row_checks s : svc_ok s → service_checks (svc_row s) = true.
Proof.
  intros [[Hcat [H1 H2] _ [H3 H4] Hd [Hcur Hp] Hs] Hn _ Hv]. unfold service_checks, svc_row, amount_check. cbn.
  apply category_listed in Hcat. rewrite !andb_true_iff, !Z.leb_le, !Z.ltb_lt, !bool_decide_eq_true, negb_true_iff, bool_decide_eq_false.
  unfold MaxNameLen, MaxDescriptionLen, MaxPriceHalalas, MaxSortOrder in *.
  pose proof (minutes_check_ok _ Hd). apply NewLocalizedText_stored in Hn as [_ Hn]. by repeat (split; [|lia || done]).
Qed.

Lemma toService_row s os : svc_ok s →
  toService (svc_row s) os = Ok (RehydrateService (sv_id s) (sv_business s) (sv_branch s) (sv_details s) os (sv_active s) (sv_version s) (sv_createdAt s) (sv_updatedAt s)).
Proof.
  intros [Hd Hn _ _]. unfold toService, svc_row. cbn [v_NameAr v_NameEn v_PriceAmount v_PriceCurrency]. rewrite Hn. cbn [res_map_err res_bind].
  rewrite NewMoney_stored by apply Hd. cbn [res_map_err res_bind]. unfold RehydrateService. cbn.
  destruct (five_minutes_minutes _ (do_duration _ Hd)) as (k & _ & _ & _ & ->). by destruct (sv_details s) as [? ? [] ? ? ?].
Qed.

Lemma toOffering_row s o : offering_ok o → toOffering (off_row s o) = Ok o.
Proof.
  intros [_ Hd Hp]. unfold toOffering, off_row. cbn [f_PriceAmount f_PriceCurrency f_DurationMinutes f_StaffID].
  assert (Ed : (λ n, int64 (n * Minute)) <$> (minutes_of <$> o_Duration o) = o_Duration o).
  { destruct (o_Duration o) as [d|]; [|done]. cbn. f_equal. by destruct (five_minutes_minutes d (Hd d eq_refl)) as (? & _ & _ & _ & ->). }
  rewrite Ed. destruct (o_Price o) as [p|] eqn:E; cbn [fmap option_fmap option_map].
  - cbn [default from_option]. rewrite NewMoney_stored by (by apply Hp). cbn [res_map_err res_bind]. destruct o; simpl in *; by subst.
  - cbn [res_bind]. destruct o; simpl in *; by subst.
Qed.

Lemma offering_row_ok s o : offering_ok o → offering_row s o = Ok (off_row s o).
Proof.
  intros [_ Hd _]. unfold offering_row, off_row. destruct (o_Duration o) as [d|]; [|done]. by rewrite toInt16_minutes by by apply Hd.
Qed.

Lemma off_row_checks s o : offering_ok o → offering_checks (off_row s o) = true.
Proof.
  intros [_ Hd Hp]. unfold offering_checks, off_row, amount_check. cbn.
  destruct (o_Price o) as [p|], (o_Duration o) as [d|]; simpl; try (destruct (Hp p eq_refl) as [-> Hb]; unfold MaxPriceHalalas in Hb;
    rewrite !(proj2 (Z.leb_le _ _)) by lia; simpl); try done; by rewrite minutes_check_ok by by apply Hd.
Qed.

(** ** Reading *)

Section lists.
Context {A B : Type} (f : B → res cat_error A).

(** Distinct rows of distinct things: what the rows read as. *)
Lemma read_rows (rows : list B) (os : list A) :
  (∀ r, r ∈ rows → ∃ o, o ∈ os ∧ f r = Ok o) →
  ∃ out, res_mapM f rows = Ok out ∧ ∀ o, o ∈ out ↔ ∃ r, r ∈ rows ∧ f r = Ok o.
Proof.
  induction rows as [|r rows IH]; intros Hr.
  { exists []. split; [done|]. intros o. split; [by intros ?%not_elem_of_nil|]. by intros (? & ?%not_elem_of_nil & _). }
  destruct (Hr r ltac:(by left)) as (o & _ & Ho). destruct IH as (out & Hout & Hin); [intros; apply Hr; by right|].
  exists (o :: out). simpl. rewrite Ho. simpl. rewrite Hout. split; [done|]. intros o2. rewrite elem_of_cons, Hin. split.
  - intros [->|(r2 & ? & ?)]; [exists r; split; [by left|done]|exists r2; split; [by right|done]].
  - intros (r2 & [->|Hr2]%elem_of_cons & E); [left; rewrite Ho in E; by injection E|right; by exists r2].
Qed.
End lists.

Lemma off_row_inj s o o' : offering_ok o → offering_ok o' → off_row s o = off_row s o' → o = o'.
Proof. intros H1 H2 E. apply (toOffering_row s) in H1, H2. rewrite E, H2 in H1. by injection H1. Qed.

Lemma staff_unique s o o' : svc_ok s → o ∈ sv_offerings s → o' ∈ sv_offerings s → o_Staff o = o_Staff o' → o = o'.
Proof.
  intros [_ _ [_ Hnd _] _] [i Hi]%list_elem_of_lookup [j Hj]%list_elem_of_lookup E.
  assert (i = j) as ->; [|congruence]. apply (NoDup_lookup _ _ _ (o_Staff o) Hnd); rewrite list_lookup_fmap, ?Hi, ?Hj; cbn; by rewrite ?E.
Qed.

Lemma offering_of s o : svc_ok s → o ∈ sv_offerings s → offering_ok o.
Proof. intros [_ _ [Ho _ _] _] Hin. rewrite Forall_forall in Ho. by apply Ho. Qed.

(** The rows of one service read back as its offerings. *)
Lemma read_service_rows s rows :
  svc_ok s → NoDup rows → (∀ r, r ∈ rows ↔ ∃ o, o ∈ sv_offerings s ∧ r = off_row s o) →
  ∃ os, res_mapM toOffering rows = Ok os ∧ os ≡ₚ sv_offerings s.
Proof.
  intros Hs Hnd Hrows. destruct (read_rows toOffering rows (sv_offerings s)) as (os & Hos & Hin).
  { intros r (o & Ho & ->)%Hrows. exists o. split; [done|]. by apply toOffering_row, (offering_of s). }
  exists os. split; [done|]. apply res_mapM_ok in Hos as Hf. apply NoDup_Permutation.
  - apply NoDup_fmap_1 with (f := off_row s). replace (off_row s <$> os) with rows; [done|]. symmetry. clear Hnd Hin Hos.
    assert (Hrow : ∀ r, r ∈ rows → ∃ o, o ∈ sv_offerings s ∧ r = off_row s o) by (intros; by apply Hrows). clear Hrows.
    induction Hf as [|r o rows os Hr Hf IH]; [done|]. rewrite fmap_cons, IH by (intros; apply Hrow; by right). f_equal.
    destruct (Hrow r ltac:(by left)) as (o2 & Ho2 & ->). rewrite toOffering_row in Hr by by apply (offering_of s). by injection Hr as ->.
  - destruct (vk_offerings s Hs) as [_ Hn _]. by apply NoDup_fmap_1 in Hn.
  - intros o. rewrite Hin. split.
    + intros (r & (o2 & Ho2 & ->)%Hrows & E). rewrite toOffering_row in E by by apply (offering_of s). by injection E as ->.
    + intros Ho. exists (off_row s o). split; [apply Hrows; by exists o|]. by apply toOffering_row, (offering_of s).
Qed.

Section reading.
Context (db : CatDB) (Hdb : cat_ok db).

Lemma service_at sid r : services db !! sid = Some r → ∃ s, sv_id s = sid ∧ svc_ok s ∧ stored db s ∧ r = svc_row s ∧ sv_version s ≤ max_int32.
Proof using Hdb.
  intros Hr. destruct (ck_services db Hdb sid r Hr) as (s & <- & Hs & Hst & Hv). exists s. split_and!; [done..| |done].
  pose proof (st_row db s Hst) as E. congruence.
Qed.

Lemma offering_at k r : service_offerings db !! k = Some r →
  ∃ s o, svc_ok s ∧ stored db s ∧ o ∈ sv_offerings s ∧ r = off_row s o ∧ k = (sv_id s, o_Staff o).
Proof using Hdb.
  intros Hr. destruct (ck_offerings db Hdb k r Hr) as [row Hrow]. destruct (service_at _ _ Hrow) as (s & E & Hs & Hst & _).
  destruct k as [sid st]. cbn in E. subst sid. apply (st_offerings db s Hst) in Hr as Ho. destruct Ho as (o & Hin & <- & ->). by exists s, o.
Qed.

Lemma offering_rows_NoDup p : NoDup (rows_where p (service_offerings db)).
Proof using Hdb.
  apply NoDup_fmap_1 with (f := λ r, (f_ServiceID r, f_StaffID r)).
  apply rows_where_NoDup with (g := λ k, k); [done|]. intros k r (s & o & _ & _ & _ & -> & ->)%offering_at. done.
Qed.

(** The rows of a stored service, among those a query selects. *)
Lemma rows_of_service s p rows :
  stored db s → rows ≡ₚ rows_where p (service_offerings db) →
  (∀ o, o ∈ sv_offerings s → p (off_row s o) = true) →
  ∀ r, r ∈ filter (λ r, f_ServiceID r = sv_id s) rows ↔ ∃ o, o ∈ sv_offerings s ∧ r = off_row s o.
Proof using Hdb.
  intros Hst Hrows Hp r. rewrite list_elem_of_filter, Hrows, elem_of_rows_where. split.
  - intros (E & [sid st] & Hk & _). destruct (offering_at _ _ Hk) as (s2 & o & _ & _ & _ & -> & [= E1 E2]). cbn in E. rewrite E in E1. subst sid.
    apply (st_offerings db s Hst) in Hk as (o2 & ? & _ & ->). by exists o2.
  - intros (o & Ho & ->). split; [done|]. exists (sv_id s, o_Staff o). split; [|by apply Hp]. apply (st_offerings db s Hst). by exists o.
Qed.

(** What the storage gives back: a service it holds, without events. *)
Definition loaded (s : Service) : Prop := stored db s ∧ svc_ok s ∧ sv_events s = [] ∧ sv_version s ≤ max_int32.

Lemma stored_reordered s os : stored db s → svc_ok s → sv_version s ≤ max_int32 → os ≡ₚ sv_offerings s →
  loaded (RehydrateService (sv_id s) (sv_business s) (sv_branch s) (sv_details s) os (sv_active s) (sv_version s) (sv_createdAt s) (sv_updatedAt s)).
Proof.
  intros [Hr Ho] [Hd Hn [H1 H2 H3] Hv] Hmax E. unfold loaded. split_and!; [constructor|constructor|done|done]; try done.
  - intros st r. rewrite Ho. split; intros (o & Hin & H); exists o; (split; [|done]); cbn in *; by rewrite ?E in *.
  - constructor; cbn; by rewrite E.
Qed.

Lemma load_service s :
  stored db s → svc_ok s → sv_version s ≤ max_int32 →
  ∃ os s', res_mapM toOffering (OfferingsByService db (sv_business s) (sv_id s)) = Ok os ∧ toService (svc_row s) os = Ok s' ∧
    loaded s' ∧ svc_row s' = svc_row s.
Proof using Hdb.
  intros Hst Hs Hv. pose proof (sort_by_perm by_service_staff (rows_where (λ r, bool_decide (f_BusinessID r = sv_business s ∧ f_ServiceID r = sv_id s)) (service_offerings db))) as Hperm.
  set (rows := OfferingsByService db (sv_business s) (sv_id s)). fold (OfferingsByService db (sv_business s) (sv_id s)) in Hperm. fold rows in Hperm.
  assert (Hrows : ∀ r, r ∈ rows ↔ ∃ o, o ∈ sv_offerings s ∧ r = off_row s o).
  { intros r. rewrite <- (rows_of_service s _ rows Hst Hperm); [|by intros; apply bool_decide_eq_true].
    rewrite list_elem_of_filter. split; [|by intros []]. intros Hin. split; [|done].
    rewrite Hperm, elem_of_rows_where in Hin. destruct Hin as (k & _ & E%bool_decide_eq_true). by destruct E. }
  destruct (read_service_rows s rows) as (os & Hos & E); [done| |done|].
  { rewrite Hperm. apply offering_rows_NoDup. }
  exists os, (RehydrateService (sv_id s) (sv_business s) (sv_branch s) (sv_details s) os (sv_active s) (sv_version s) (sv_createdAt s) (sv_updatedAt s)).
  split_and!; [done|by apply toService_row|by apply stored_reordered|done].
Qed.

(** Grouping the branch's offerings by service. *)
Lemma group_offerings rows m :
  (∀ r, r ∈ rows → ∃ o, toOffering r = Ok o) →
  ∃ m', res_foldM group_offering m rows = Ok m' ∧
    ∀ sid os, res_mapM toOffering (filter (λ r, f_ServiceID r = sid) rows) = Ok os → default [] (m' !! sid) = default [] (m !! sid) ++ os.
Proof.
  revert m. induction rows as [|r rows IH]; intros m Hr.
  { exists m. split; [done|]. intros sid os [= <-]. by rewrite app_nil_r. }
  destruct (Hr r ltac:(by left)) as [o Ho]. cbn [res_foldM].
  assert (group_offering m r = Ok (<[f_ServiceID r := default [] (m !! f_ServiceID r) ++ [o]]> m)) as -> by (unfold group_offering; by rewrite Ho).
  cbn [res_bind].
  destruct (IH (<[f_ServiceID r := default [] (m !! f_ServiceID r) ++ [o]]> m)) as (m' & Hm & Hget); [intros; apply Hr; by right|].
  exists m'. split; [done|]. intros sid os. rewrite filter_cons. destruct (decide (f_ServiceID r = sid)) as [<-|Hne]; cbn [res_mapM].
  - rewrite Ho. cbn [res_bind]. intros (os' & Hos & [= <-])%res_bind_ok. rewrite (Hget _ _ Hos), lookup_insert_eq. cbn. by rewrite <- app_assoc.
  - intros Hos. by rewrite (Hget _ _ Hos), lookup_insert_ne.
Qed.

Lemma List_services_ok business branch :
  ∃ ss, List_services db business branch = Ok ss ∧ svc_row <$> ss = ServicesByBranch db business branch ∧ Forall loaded ss.
Proof using Hdb.
  unfold List_services. pose proof (sort_by_perm by_service_staff (rows_where (offered_at db business branch) (service_offerings db))) as Hperm.
  fold (OfferingsByBranch db business branch) in Hperm. set (rows := OfferingsByBranch db business branch) in *.
  destruct (group_offerings rows ∅) as (m & Hm & Hget).
  { intros r Hr. rewrite Hperm, elem_of_rows_where in Hr. destruct Hr as (k & Hk & _).
    destruct (offering_at _ _ Hk) as (s & o & Hs & _ & Ho & -> & _). exists o. by apply toOffering_row, (offering_of s). }
  rewrite Hm. cbn [res_bind].
  assert (Hall : ∀ row, row ∈ ServicesByBranch db business branch → ∃ s, toService row (default [] (m !! v_ID row)) = Ok s ∧ svc_row s = row ∧ loaded s).
  { intros row Hrow. unfold ServicesByBranch in Hrow. rewrite elem_of_sort_by in Hrow. apply elem_of_rows_where in Hrow as (sid & Hrow & Hat).
    destruct (service_at _ _ Hrow) as (s & <- & Hs & Hst & -> & Hv). cbn [v_ID svc_row].
    destruct (read_service_rows s (filter (λ r, f_ServiceID r = sv_id s) rows)) as (os & Hos & E); [done|..].
    - apply NoDup_filter. rewrite Hperm. apply offering_rows_NoDup.
    - apply (rows_of_service s _ rows Hst Hperm). intros o Ho. unfold offered_at. cbn. rewrite (st_row db s Hst).
      rewrite bool_decide_eq_true_2 by done. done.
    - rewrite (Hget _ _ Hos), lookup_empty. cbn [default from_option app].
      exists (RehydrateService (sv_id s) (sv_business s) (sv_branch s) (sv_details s) os (sv_active s) (sv_version s) (sv_createdAt s) (sv_updatedAt s)).
      split_and!; [by apply toService_row|done|by apply stored_reordered]. }
  clear Hget Hm Hperm. induction (ServicesByBranch db business branch) as [|row l IH].
  { exists []. split_and!; [done..|constructor]. }
  destruct (Hall row ltac:(by left)) as (s & Es & <- & Hs). destruct IH as (ss & Ess & <- & Hss); [intros; apply Hall; by right|].
  cbn [res_mapM]. rewrite Es. cbn [res_bind]. rewrite Ess. cbn [res_bind]. exists (s :: ss). split_and!; [done..|by constructor].
Qed.
End reading.

(** ** Writing *)

(** The tables once the service is saved. *)
Definition put_offering (s : Service) (t : gmap (ServiceID * StaffID) OffRow) (o : Offering) := <[(sv_id s, o_Staff o) := off_row s o]> t.

Definition saved (db : CatDB) (s : Service) : CatDB :=
  MkCatDB (<[sv_id s := svc_row s]> (services db))
    (foldl (put_offering s) (filter (λ e, ¬ (f_BusinessID e.2 = sv_business s ∧ f_ServiceID e.2 = sv_id s)) (service_offerings db)) (sv_offerings s))
    (cat_outbox db).

Lemma put_offerings_lookup s t os k r :
  NoDup (o_Staff <$> os) →
  foldl (put_offering s) t os !! k = Some r ↔
    (∃ o, o ∈ os ∧ k = (sv_id s, o_Staff o) ∧ r = off_row s o) ∨ (t !! k = Some r ∧ ∀ o, o ∈ os → k ≠ (sv_id s, o_Staff o)).
Proof.
  revert t. induction os as [|o os IH]; intros t Hnd.
  { cbn. split; [intros ?; right; split; [done|by intros ? ?%not_elem_of_nil]|by intros [(? & ?%not_elem_of_nil & _)|[]]]. }
  rewrite fmap_cons in Hnd. apply NoDup_cons in Hnd as [Hni Hnd]. cbn [foldl]. rewrite IH by done. unfold put_offering at 1. rewrite lookup_insert_Some. split.
  - intros [(o2 & ? & -> & ->)|[[[<- <-]|[Hne Ht]] Ho]].
    + left. exists o2. split_and!; [by right|done..].
    + left. exists o. split_and!; [by left|done..].
    + right. split; [done|]. intros o2 [->|?]%elem_of_cons; [by intros ->|by apply Ho].
  - intros [(o2 & [->|Ho2]%elem_of_cons & -> & ->)|[Ht Ho]].
    + right. split; [by left|]. intros o3 Ho3 [= E]. apply Hni. rewrite E. by apply list_elem_of_fmap_2.
    + left. by exists o2.
    + right. split; [right; split; [|done]|].
      * intros E. by apply (Ho o); [left|].
      * intros o2 Ho2. apply Ho. by right.
Qed.

(** The writes never fail on a well-formed service. *)
Lemma saveOfferings_ok db s :
  svc_ok s → services db !! sv_id s = Some (svc_row s) →
  (∀ k r, service_offerings db !! k = Some r → k.1 = sv_id s → f_BusinessID r = sv_business s ∧ f_ServiceID r = sv_id s) →
  saveOfferings db s = Ok (set_offering_rows db (service_offerings (saved db s))).
Proof.
  intros Hs Hrow Hold. unfold saveOfferings, saved, DeleteOfferings, set_offering_rows. cbn [service_offerings].
  set (t := filter _ (service_offerings db)).
  assert (Ht : ∀ st, t !! (sv_id s, st) = None).
  { intros st. apply map_lookup_filter_None. right. intros r Hr Hn. apply Hn. by apply (Hold (sv_id s, st)). }
  pose proof (vk_offerings s Hs) as [Hall Hnd _]. clearbody t. clear Hold.
  assert (Hfree : ∀ o, o ∈ sv_offerings s → t !! (sv_id s, o_Staff o) = None) by (intros; apply Ht). clear Ht. revert t Hfree.
  induction (sv_offerings s) as [|o os IH]; intros t Hfree; [done|]. apply Forall_cons in Hall as [Ho Hall].
  rewrite fmap_cons in Hnd. apply NoDup_cons in Hnd as [Hni Hnd]. cbn [res_foldM]. unfold insert_offering at 1.
  rewrite offering_row_ok by done. cbn [res_bind]. cbn [services service_offerings cat_outbox].
  rewrite off_row_checks, bool_decide_eq_true_2, Hrow by (try done; apply Hfree; by left). cbn [v_BusinessID svc_row].
  rewrite bool_decide_eq_true_2 by done. cbn [andb ensure res_bind]. unfold set_offering_rows. cbn [services service_offerings cat_outbox]. rewrite IH; [done..|].
  intros o2 Ho2. rewrite lookup_insert_ne; [apply Hfree; by right|]. intros [= E]. apply Hni. rewrite E. by apply list_elem_of_fmap_2.
Qed.

Lemma saved_offerings db s k r :
  cat_ok db → svc_ok s → (∀ row, services db !! sv_id s = Some row → v_BusinessID row = sv_business s) →
  service_offerings (saved db s) !! k = Some r ↔
    (∃ o, o ∈ sv_offerings s ∧ k = (sv_id s, o_Staff o) ∧ r = off_row s o) ∨ (service_offerings db !! k = Some r ∧ k.1 ≠ sv_id s).
Proof.
  intros Hdb Hs Hb. cbn [saved service_offerings]. rewrite put_offerings_lookup by apply Hs. rewrite map_lookup_filter_Some. split.
  - intros [?|[[Hr Hn] Ho]]; [by left|right]. split; [done|]. intros E. apply Hn. cbn.
    destruct (offering_at _ Hdb _ _ Hr) as (s2 & o & _ & Hst & _ & -> & ->). cbn in *. split; [|done]. symmetry.
    rewrite <- E in Hb. specialize (Hb _ (st_row _ _ Hst)). done.
  - intros [?|[Hr Hne]]; [by left|right]. destruct (offering_at _ Hdb _ _ Hr) as (s2 & o & _ & Hst & _ & -> & ->). cbn in *.
    split; [split; [done|by intros [_ ?]]|]. by intros o2 _ [= ? _].
Qed.

Lemma saved_ok db s :
  cat_ok db → svc_ok s → sv_version s ≤ max_int32 → (∀ row, services db !! sv_id s = Some row → v_BusinessID row = sv_business s) →
  cat_ok (saved db s) ∧ stored (saved db s) s ∧ ∀ s', sv_id s' ≠ sv_id s → stored (saved db s) s' ↔ stored db s'.
Proof.
  intros Hdb Hs Hv Hb. assert (Hst : stored (saved db s) s).
  { constructor; [by apply lookup_insert_eq|]. intros st r. rewrite saved_offerings by done. split.
    - intros [(o & ? & [= ->] & ->)|[_ ?]]; [by exists o|done].
    - intros (o & ? & <- & ->). left. by exists o. }
  assert (Hother : ∀ s', sv_id s' ≠ sv_id s → stored (saved db s) s' ↔ stored db s').
  { intros s' Hne.
    assert (Hk : ∀ st r, service_offerings (saved db s) !! (sv_id s', st) = Some r ↔ service_offerings db !! (sv_id s', st) = Some r).
    { intros st r. rewrite saved_offerings by done. split; [intros [(? & _ & [= ? _] & _)|[? _]]; [done..]|by right]. }
    split; intros [Hr Ho]; constructor.
    - cbn in Hr. by rewrite lookup_insert_ne in Hr.
    - intros st r. by rewrite <- Hk.
    - cbn. by rewrite lookup_insert_ne.
    - intros st r. by rewrite Hk. }
  split_and!; [constructor|done|done].
  - intros sid r Hr. destruct (decide (sid = sv_id s)) as [->|Hne]; [by exists s|]. cbn in Hr. rewrite lookup_insert_ne in Hr by done.
    destruct (ck_services db Hdb sid r Hr) as (s' & <- & ? & ? & ?). exists s'. split_and!; try done. by apply Hother.
  - intros k r. rewrite saved_offerings by done. cbn. intros [(o & _ & -> & _)|[Hr Hne]]; [rewrite lookup_insert_eq; by eexists|].
    rewrite lookup_insert_ne by done. by apply (ck_offerings db Hdb k r).
Qed.

(** What a change may do to a service: keep it well formed and in its place. *)
Definition good_change (s s' : Service) : Prop :=
  svc_ok s' ∧ sv_id s' = sv_id s ∧ sv_business s' = sv_business s ∧ sv_branch s' = sv_branch s ∧ sv_createdAt s' = sv_createdAt s.

Lemma update_service_row_svc s s' : good_change s s' → update_service_row (svc_row s) (svc_row s') = svc_row s'.
Proof. intros (_ & E1 & E2 & E3 & E4). unfold update_service_row, svc_row. cbn. by rewrite E1, E2, E3, E4. Qed.

(** The whole transaction, on a service the branch has at the version seen. *)
Lemma Update_found db business branch sid row fn :
  cat_ok db → ServiceForUpdate db business branch sid = Some row →
  (∀ s, loaded db s → match fn s with Ok s' => good_change s s' | Err _ => True end) →
  ∃ s, loaded db s ∧ svc_row s = row ∧ sv_id s = sid ∧ sv_business s = business ∧ sv_branch s = branch ∧
    Update db business branch sid (v_Version row) fn =
      match fn s with
      | Err e => Err e
      | Ok s' => if max_int32 <? sv_version s' then Err ErrStorage else Ok (s', publish (saved db s') (sv_events s'))
      end.
Proof.
  intros Hdb Hrow Hfn. unfold ServiceForUpdate in Hrow. destruct (services db !! sid) as [r|] eqn:Er; [|done].
  destruct (at_branch business branch r) eqn:Hat; [|done]. injection Hrow as <-.
  destruct (service_at _ Hdb _ _ Er) as (s0 & <- & Hs0 & Hst0 & -> & Hv0). unfold at_branch in Hat. bool_prop. cbn in Hat. destruct Hat as [<- <-].
  destruct (load_service _ Hdb s0 Hst0 Hs0 Hv0) as (os & s & Hos & Hto & Hl & Erow). exists s.
  assert (sv_id s = sv_id s0 ∧ sv_business s = sv_business s0 ∧ sv_branch s = sv_branch s0) as (E1 & E2 & E3) by (injection Erow; done).
  split_and!; [done..|]. unfold Update. cbn [v_Version svc_row]. pose proof (vk_version s0 Hs0).
  rewrite (proj2 (Z.ltb_ge _ 1)), (proj2 (Z.ltb_ge max_int32 _)) by lia. cbn [orb]. unfold ServiceForUpdate. rewrite Er. unfold at_branch at 1.
  cbn [v_BusinessID v_BranchID svc_row]. rewrite bool_decide_eq_true_2 by done. cbn [v_Version svc_row]. rewrite Z.eqb_refl. cbn [ensure res_bind].
  rewrite Hos. cbn [res_bind]. rewrite Hto. cbn [res_bind]. specialize (Hfn s Hl). destruct (fn s) as [s'|e]; [|done]. cbn [res_bind].
  pose proof Hfn as (Hs' & I1 & I2 & I3 & I4). rewrite toRow_ok by done. destruct (max_int32 <? sv_version s') eqn:Hmax; [done|]. cbn [res_bind].
  unfold UpdateService, ServiceForUpdate. cbn [v_ID svc_row]. rewrite I1, E1, Er. unfold at_branch. cbn [v_BusinessID v_BranchID svc_row].
  rewrite bool_decide_eq_true_2 by done. cbn [v_Version svc_row]. rewrite Z.eqb_refl. cbn [negb].
  rewrite <- Erow, update_service_row_svc by done. rewrite svc_row_checks by done. cbn [ensure res_bind].
  rewrite saveOfferings_ok; [cbn [res_bind]; unfold saved; by rewrite I1, E1|done| |].
  - cbn. rewrite I1, E1. by rewrite lookup_insert_eq.
  - cbn. intros k x Hx Ek. destruct (offering_at _ Hdb _ _ Hx) as (s2 & o & _ & Hst2 & _ & -> & ->). cbn in Ek |- *. split; [|done].
    pose proof (st_row _ _ Hst2) as Er2. rewrite Ek, I1, E1 in Er2. rewrite Er2 in Er. injection Er. intros. congruence.
Qed.

Lemma Add_ok db s :
  svc_ok s → sv_version s ≤ max_int32 → sv_offerings s = [] → services db !! sv_id s = None → cat_ok db →
  Add db s = Ok (publish (saved db s) (sv_events s)).
Proof.
  intros Hs Hv Hno Hfresh Hdb. unfold Add. rewrite toRow_ok by done. rewrite (proj2 (Z.ltb_ge _ _)) by done. cbn [res_bind].
  rewrite svc_row_checks, bool_decide_eq_true_2 by done. cbn [andb ensure res_bind]. unfold saved, set_services. rewrite Hno. cbn [foldl].
  repeat f_equal. symmetry. apply map_filter_id. intros k r Hr [_ E].
  destruct (ck_offerings db Hdb k r Hr) as [row Hrow]. destruct (offering_at _ Hdb _ _ Hr) as (s2 & o & _ & _ & _ & -> & ->). cbn in *. congruence.
Qed.

(** Publishing leaves the tables as they are. *)
Lemma publish_cat_ok db evs : cat_ok (publish db evs) ↔ cat_ok db.
Proof. split; intros [H1 H2]; constructor; try done; intros sid r Hr; destruct (H1 sid r Hr) as (s & ? & ? & [? ?] & ?); by exists s. Qed.
Lemma publish_stored db evs s : stored (publish db evs) s ↔ stored db s.
Proof. split; intros [H1 H2]; by constructor. Qed.
