(* ===== verification/CatFlow.v ===== *)
(** * The catalog over time

    The states the catalog's tables reach by its handlers, whatever business
    answers each of them: what they hold, what their events tell, and what
    the menu built from them says. *)
From S2P Require Import Prelude GoTime GoText Shared Tables Catalog CatStore CatApp CatFacts.
Open Scope Z_scope.

(** ** What each handler does to the tables *)

(** The one event of a change, of the service as saved. *)
Definition announces (s : Service) (e : CatEvent) : Prop :=
  e = ServiceCreatedEvent (sv_business s) (sv_branch s) (sv_id s) (sv_updatedAt s) (snapshot s) ∨
  e = ServiceUpdatedEvent (sv_business s) (sv_branch s) (sv_id s) (sv_updatedAt s) (snapshot s).

Definition version_of (db : CatDB) (sid : ServiceID) : Z := match services db !! sid with Some r => v_Version r | None => 0 end.

(** A saved change: one version on, one event more, the tables as the service says. *)
Record change (db : CatDB) (s : Service) (db' : CatDB) : Prop := {
  cg_ok : svc_ok s;
  cg_version : sv_version s = version_of db (sv_id s) + 1 ∧ sv_version s ≤ max_int32;
  cg_place row : services db !! sv_id s = Some row → v_BusinessID row = sv_business s ∧ v_BranchID row = sv_branch s;
  cg_event : ∃ e, sv_events s = [e] ∧ announces s e;
  cg_tables : db' = publish (saved db s) (sv_events s) }.

Lemma Update_inv db business branch sid v fn s' db' :
  cat_ok db → (∀ s, loaded db s → match fn s with Ok s' => good_change s s' | Err _ => True end) →
  Update db business branch sid v fn = Ok (s', db') →
  ∃ s, loaded db s ∧ sv_id s = sid ∧ sv_business s = business ∧ sv_branch s = branch ∧ sv_version s = v ∧
    fn s = Ok s' ∧ sv_version s' ≤ max_int32 ∧ db' = publish (saved db s') (sv_events s').
Proof.
  intros Hdb Hfn Hu. destruct (ServiceForUpdate db business branch sid) as [row|] eqn:Er.
  2: { unfold Update in Hu. rewrite Er in Hu. by destruct (_ || _). }
  destruct (Z.eq_dec (v_Version row) v) as [<-|Hne].
  2: { unfold Update in Hu. rewrite Er in Hu. destruct (_ || _); [done|]. rewrite (proj2 (Z.eqb_neq _ _) Hne) in Hu. discriminate Hu. }
  destruct (Update_found db business branch sid row fn Hdb Er Hfn) as (s & Hl & <- & E1 & E2 & E3 & Eu). rewrite Eu in Hu.
  destruct (fn s) as [s2|] eqn:Ef; [|done]. destruct (max_int32 <? sv_version s2) eqn:Hmax; [done|]. injection Hu as <- <-. bool_prop. by exists s.
Qed.

Lemma touched_version db s : loaded db s → int64 (sv_version s + 1) = sv_version s + 1.
Proof.
  intros (_ & Hs & _ & Hv). apply int64_id. pose proof (vk_version s Hs). unfold in_int64, min_int64, max_int64, max_int32 in *. lia.
Qed.

Lemma touch_good db s s2 now :
  loaded db s → sv_id s2 = sv_id s → sv_business s2 = sv_business s → sv_branch s2 = sv_branch s → sv_createdAt s2 = sv_createdAt s →
  sv_version s2 = sv_version s → sv_events s2 = sv_events s → details_ok (sv_details s2) →
  NewLocalizedText (ar (d_Name (sv_details s2))) (en (d_Name (sv_details s2))) = Ok (d_Name (sv_details s2)) → offerings_ok (sv_offerings s2) →
  good_change s (touch s2 now) ∧ sv_version (touch s2 now) = sv_version s + 1 ∧ ∃ e, sv_events (touch s2 now) = [e] ∧ announces (touch s2 now) e.
Proof.
  intros Hl E1 E2 E3 E4 E5 E6 Hd Hn Ho. unfold touch, record_event, good_change. cbn. rewrite E1, E2, E3, E4, E5, E6, (touched_version db) by done.
  pose proof Hl as (_ & Hs & -> & _). pose proof (vk_version s Hs). split_and!; try done.
  - constructor; cbn; try done. lia.
  - eexists. split; [done|]. right. unfold snapshot. cbn. done.
Qed.

Lemma Edit_good db s d active now s' :
  loaded db s → NewLocalizedText (ar (d_Name d)) (en (d_Name d)) = Ok (d_Name d) → Edit s d active now = Ok s' →
  good_change s s' ∧ sv_version s' = sv_version s + 1 ∧ ∃ e, sv_events s' = [e] ∧ announces s' e.
Proof.
  intros Hl Hn He. unfold Edit in He. apply res_bind_ok in He as (d' & Hd & [= <-]). apply check_spec in Hd as [-> Hd].
  apply (touch_good db); try done. apply Hl.
Qed.

Lemma SetOfferings_good `{UuidLib} db s os now s' :
  loaded db s → SetOfferings s os now = Ok s' →
  good_change s s' ∧ sv_version s' = sv_version s + 1 ∧ ∃ e, sv_events s' = [e] ∧ announces s' e.
Proof.
  intros Hl He. unfold SetOfferings in He. apply res_bind_ok in He as (out & Ho & [= <-]). apply checkOfferings_ok in Ho as [-> [H1 H2 H3]].
  destruct Hl as (Hst & Hs & ?) eqn:E. apply (touch_good db); try done; [apply Hs..|]. constructor; cbn; by rewrite sort_by_perm.
Qed.

Lemma apply_name cmd s da :
  svc_ok s → apply cmd s = Ok da → NewLocalizedText (ar (d_Name da.1)) (en (d_Name da.1)) = Ok (d_Name da.1).
Proof.
  intros Hs Ha. unfold apply in Ha. apply res_bind_ok in Ha as (n & Hn & Ha). apply res_bind_ok in Ha as (p & _ & [= <-]). cbn.
  destruct (us_Name cmd) as [nm|]; [|injection Hn as <-; apply Hs]. destruct (NewLocalizedText _ _) as [t|] eqn:Et; [|done].
  cbn in Hn. injection Hn as <-. by apply NewLocalizedText_stored in Et as [? _].
Qed.

Lemma edit_keeps db cmd now s :
  loaded db s → match (let! da := apply cmd s in Edit s da.1 da.2 now) with Ok s' => good_change s s' | Err _ => True end.
Proof.
  intros Hl. destruct (apply cmd s) as [da|] eqn:Ha; cbn [res_bind]; [|done]. destruct (Edit _ _ _ _) as [s'|] eqn:He; [|done].
  by eapply Edit_good; [|eapply apply_name; [apply Hl|]|].
Qed.

Lemma set_offerings_keeps `{UuidLib} db os now s :
  loaded db s → match SetOfferings s os now with Ok s' => good_change s s' | Err _ => True end.
Proof. intros Hl. destruct (SetOfferings _ _ _) eqn:E; [|done]. by eapply SetOfferings_good. Qed.

Lemma good_change_change db s s' db' :
  loaded db s → good_change s s' → sv_version s' = sv_version s + 1 → (∃ e, sv_events s' = [e] ∧ announces s' e) → sv_version s' ≤ max_int32 →
  db' = publish (saved db s') (sv_events s') → change db s' db'.
Proof.
  intros (Hst & Hs & _ & Hv) (Hs' & E1 & E2 & E3 & _) Ev He Hmax ->. pose proof (st_row _ _ Hst) as Er. constructor; try done.
  - unfold version_of. by rewrite E1, Er.
  - rewrite E1, Er, E2, E3. by intros ? [= <-].
Qed.

Section effects.
Context `{UuidLib} `{Access}.

Lemma Create_effect db now newID cmd s db' :
  cat_ok db → Create db now newID cmd = Ok (s, db') →
  change db s db' ∧ sv_active s = true ∧ sv_offerings s = [] ∧ sv_id s = newID ∧ services db !! newID = None ∧
  sv_business s = Ref_Business (cs_Ref cmd) ∧ sv_branch s = Ref_Branch (cs_Ref cmd) ∧
  Access_Branch (Actor (cs_Ref cmd)) (sv_business s) (sv_branch s) RoleManager = Ok tt.
Proof.
  intros Hdb Hc. unfold Create in Hc. apply res_bind_ok in Hc as ([] & Ha & Hc). apply res_bind_ok in Hc as (d & Hd & Hc).
  apply res_bind_ok in Hc as (s0 & Hs & Hc). apply res_bind_ok in Hc as (db0 & Hadd & [= <- <-]).
  unfold NewService in Hs. apply res_bind_ok in Hs as (d' & Hd' & [= <-]). apply check_spec in Hd' as [-> Hok].
  assert (Hn : NewLocalizedText (ar (d_Name d)) (en (d_Name d)) = Ok (d_Name d)).
  { unfold details in Hd. apply res_bind_ok in Hd as (t & Ht & Hd). apply res_bind_ok in Hd as (p & _ & [= <-]). cbn.
    destruct (NewLocalizedText (n_Ar _) _) as [t'|] eqn:Et; [|done]. cbn in Ht. injection Ht as <-. by apply NewLocalizedText_stored in Et as [? _]. }
  unfold record_event in *. cbn in Hadd.
  set (s := MkService _ _ _ _ _ _ _ _ _ _) in *.
  assert (Hs : svc_ok s).
  { constructor; try done. constructor; [constructor..|cbn; lia]. }
  assert (Hfresh : services db !! newID = None).
  { unfold Add in Hadd. rewrite toRow_ok in Hadd by done. cbn [s sv_version] in Hadd. change (max_int32 <? 1) with false in Hadd.
    cbn [res_bind] in Hadd. apply res_bind_ok in Hadd as (? & Hc & ?). apply ensure_ok in Hc. by bool_prop. }
  rewrite Add_ok in Hadd by done. injection Hadd as <-. split_and!; try done. constructor; try done.
  - cbn. unfold version_of. by rewrite Hfresh.
  - intros row. cbn. by rewrite Hfresh.
  - eexists. split; [done|]. by left.
Qed.

Lemma Update_effect db now cmd s db' :
  cat_ok db → Update_handler db now cmd = Ok (s, db') →
  change db s db' ∧ sv_id s = us_Service cmd ∧ version_of db (sv_id s) = us_ExpectedVersion cmd ∧
  sv_business s = Ref_Business (us_Ref cmd) ∧ sv_branch s = Ref_Branch (us_Ref cmd) ∧
  Access_Branch (Actor (us_Ref cmd)) (sv_business s) (sv_branch s) RoleManager = Ok tt.
Proof.
  intros Hdb Hu. unfold Update_handler in Hu. apply res_bind_ok in Hu as ([] & Ha & Hu).
  destruct (Update_inv _ _ _ _ _ _ _ _ Hdb (λ s Hs, edit_keeps db cmd now s Hs) Hu) as (s0 & Hl & Eid & Eb & Ebr & Ev & Hf & Hmax & ->).
  apply res_bind_ok in Hf as (da & Hap & He). destruct (Edit_good db s0 _ _ _ _ Hl ltac:(eapply apply_name; [apply Hl|done]) He) as (Hg & Hv & Hev).
  pose proof Hg as (_ & E1 & E2 & E3 & _). rewrite E1, E2, E3, <- Eid, <- Ev, Eb, Ebr. split_and!; try done; [by apply (good_change_change db s0)|].
  unfold version_of. by rewrite (st_row _ _ (proj1 Hl)).
Qed.

Lemma SetOfferings_effect db now cmd s db' :
  cat_ok db → SetOfferings_handler db now cmd = Ok (s, db') →
  change db s db' ∧ sv_id s = so_Service cmd ∧ version_of db (sv_id s) = so_ExpectedVersion cmd ∧
  sv_business s = Ref_Business (so_Ref cmd) ∧ sv_branch s = Ref_Branch (so_Ref cmd) ∧
  Access_Branch (Actor (so_Ref cmd)) (sv_business s) (sv_branch s) RoleManager = Ok tt ∧
  Access_StaffAtBranch (sv_business s) (sv_branch s) (oi_Staff <$> so_Offerings cmd) = Ok tt ∧
  o_Staff <$> sv_offerings s ≡ₚ oi_Staff <$> so_Offerings cmd.
Proof.
  intros Hdb Hu. unfold SetOfferings_handler in Hu. apply res_bind_ok in Hu as ([] & Ha & Hu). apply res_bind_ok in Hu as (os & Hos & Hu).
  apply res_bind_ok in Hu as (? & _ & Hu). apply res_bind_ok in Hu as ([] & Hst & Hu).
  destruct (Update_inv _ _ _ _ _ _ _ _ Hdb (λ s Hs, set_offerings_keeps db os now s Hs) Hu) as (s0 & Hl & Eid & Eb & Ebr & Ev & Hf & Hmax & ->).
  destruct (SetOfferings_good db s0 _ _ _ Hl Hf) as (Hg & Hv & Hev).
  pose proof Hg as (_ & E1 & E2 & E3 & _). rewrite E1, E2, E3, <- Eid, <- Ev, Eb, Ebr. split_and!; try done; [by apply (good_change_change db s0)|..].
  - unfold version_of. by rewrite (st_row _ _ (proj1 Hl)).
  - unfold SetOfferings in Hf. apply res_bind_ok in Hf as (out & Ho & [= <-]). apply checkOfferings_ok in Ho as [-> _]. cbn.
    rewrite sort_by_perm. clear -Hos. apply res_mapM_ok in Hos. induction Hos as [|i o ins os Hi _ IH]; [done|]. rewrite !fmap_cons, IH.
    unfold to_offering in Hi. by apply res_bind_ok in Hi as (p & _ & [= <-]).
Qed.
End effects.

(** ** What the events tell *)

Definition prices (s : Service) : list Money := (λ o, PriceOr o (d_Price (sv_details s))) <$> sv_offerings s.

(** What a subscriber should know of a service. *)
Record tells (s : Service) (c : ServiceChanged) : Prop := {
  te_ids : sc_BusinessID c = sv_business s ∧ sc_BranchID c = sv_branch s ∧ sc_ServiceID c = sv_id s;
  te_version : sc_Version c = sv_version s;
  te_offered : sc_Offered c = true ↔ sv_active s = true ∧ sv_offerings s ≠ [];
  te_details : sc_Category c = d_Category (sv_details s) ∧ sc_Name c = d_Name (sv_details s) ∧
               sc_Duration c = d_Duration (sv_details s) ∧ sc_SortOrder c = d_SortOrder (sv_details s);
  te_price : if (length (sv_offerings s) =? 0)%nat then sc_PriceFrom c = d_Price (sv_details s)
             else sc_PriceFrom c ∈ prices s ∧ ∀ p, p ∈ prices s → amount (sc_PriceFrom c) ≤ amount p }.

Lemma cheaper_fold service os acc :
  (∀ p, acc = Some p → ∃ q, foldl (cheaper service) acc os = Some q ∧ amount q ≤ amount p ∧
     (q = p ∨ q ∈ (λ o, PriceOr o service) <$> os) ∧ ∀ x, x ∈ (λ o, PriceOr o service) <$> os → amount q ≤ amount x).
Proof.
  revert acc. induction os as [|o os IH]; intros acc p ->.
  { exists p. split_and!; [done|lia|by left|]. by intros ? ?%not_elem_of_nil. }
  cbn [foldl]. set (p' := if amount (PriceOr o service) <? amount p then PriceOr o service else p).
  destruct (IH (Some p') p' eq_refl) as (q & Hq & Hle & Hin & Hall). exists q.
  assert (E : cheaper service (Some p) o = Some p') by (unfold cheaper, p'; by destruct (_ <? _)). rewrite E.
  assert (Hp' : amount p' ≤ amount p ∧ amount p' ≤ amount (PriceOr o service)).
  { unfold p'. destruct (Z.ltb_spec (amount (PriceOr o service)) (amount p)); lia. }
  split_and!; [done|lia| |].
  - rewrite fmap_cons, elem_of_cons. destruct Hin as [->|?]; [|tauto]. unfold p'. destruct (_ <? _); [right; by left|by left].
  - intros x. rewrite fmap_cons, elem_of_cons. intros [->|Hx]; [lia|by apply Hall].
Qed.

(** The least of the performers' prices, and none without performers. *)
Lemma PriceFrom_spec s :
  match PriceFrom (snapshot s) with
  | None => sv_offerings s = []
  | Some p => sv_offerings s ≠ [] ∧ p ∈ prices s ∧ ∀ x, x ∈ prices s → amount p ≤ amount x
  end.
Proof.
  unfold PriceFrom, snapshot, prices. cbn. destruct (sv_offerings s) as [|o os]; [done|]. cbn [foldl].
  destruct (cheaper_fold (d_Price (sv_details s)) os (Some (PriceOr o (d_Price (sv_details s)))) _ eq_refl) as (q & Hq & Hle & Hin & Hall).
  assert (E : cheaper (d_Price (sv_details s)) None o = Some (PriceOr o (d_Price (sv_details s)))) by done. rewrite E, Hq.
  split; [done|]. rewrite fmap_cons. split; [by rewrite elem_of_cons|]. intros x [->|Hx]%elem_of_cons; [done|by apply Hall].
Qed.

Lemma price_or_ok s o : svc_ok s → o ∈ sv_offerings s → price_ok (PriceOr o (d_Price (sv_details s))).
Proof.
  intros Hs Ho. pose proof (oo_price _ (offering_of s o Hs Ho)) as Hp. unfold PriceOr. destruct (o_Price o); [by apply Hp|apply Hs].
Qed.

(** The published event decodes to just what the service says. *)
Lemma decode_announced s e :
  svc_ok s → announces s e →
  ∃ c, decodeServiceChanged (to_outbox e) = Ok c ∧ tells s c ∧ sc_At c = sv_updatedAt s.
Proof.
  intros Hs He. pose proof (vk_version s Hs) as Hv. pose proof (do_price _ (vk_details s Hs)) as Hprice.
  pose proof (PriceFrom_spec s) as Hfrom.
  assert (Hout : ∃ ty, to_outbox e = MkOutbox ty (sv_updatedAt s) (MkServicePayload (sv_business s) (sv_branch s) (sv_id s) (sv_updatedAt s) (serviceContract (snapshot s)))).
  { destruct He as [-> | ->]; by eexists. }
  destruct Hout as [ty ->]. unfold decodeServiceChanged.
  cbn [ob_Payload ob_OccurredAt y_Service y_BusinessID y_BranchID y_ServiceID serviceContract c_Version c_Active c_CategoryCode c_Name c_DurationMinutes
    c_Price c_PriceFrom c_SortOrder ss_Version ss_Active ss_Details].
  change (ss_Version (snapshot s)) with (sv_version s). change (ss_Details (snapshot s)) with (sv_details s). change (ss_Active (snapshot s)) with (sv_active s).
  rewrite (proj2 (Z.ltb_ge _ _)) by done. cbn [negb ensure res_bind].
  set (from := default (d_Price (sv_details s)) (PriceFrom (snapshot s))).
  assert (Hok : price_ok from).
  { unfold from. destruct (PriceFrom (snapshot s)) as [p|]; [|done]. destruct Hfrom as (_ & Hin & _). unfold prices in Hin.
    apply list_elem_of_fmap in Hin as (o & -> & Ho). by apply price_or_ok. }
  rewrite (NewMoney_stored from Hok). cbn [res_map_err res_bind]. rewrite (vk_name s Hs). cbn [res_map_err res_bind].
  eexists. split; [done|]. split; [|done].
  destruct (five_minutes_minutes _ (do_duration _ (vk_details s Hs))) as (_ & _ & _ & _ & Ed).
  constructor; cbn [sc_BusinessID sc_BranchID sc_ServiceID sc_Version sc_Offered sc_Category sc_Name sc_Duration sc_PriceFrom sc_SortOrder]; try done.
  - destruct (PriceFrom (snapshot s)); cbn [present].
    + destruct Hfrom as (Hne & _). rewrite andb_true_r. tauto.
    + rewrite andb_false_r. split; [done|]. by intros [_ ?].
  - unfold from. destruct (PriceFrom (snapshot s)) as [p|].
    + destruct Hfrom as (Hne & Hin & Hall). destruct (sv_offerings s); [done|]. done.
    + by rewrite Hfrom.
Qed.

(** Two views of one stored service tell the same. *)
Lemma stored_same db s s' :
  stored db s → svc_ok s → stored db s' → svc_ok s' → sv_id s' = sv_id s →
  svc_row s' = svc_row s ∧ sv_details s' = sv_details s ∧ sv_offerings s' ≡ₚ sv_offerings s.
Proof.
  intros [Hr Ho] Hs [Hr' Ho'] Hs' E. rewrite E, Hr in Hr'. assert (Hrow : svc_row s' = svc_row s) by (by apply (inj Some) in Hr'). split; [done|].
  assert (Hd : sv_details s' = sv_details s).
  { pose proof (toService_row s [] Hs) as E1. pose proof (toService_row s' [] Hs') as E2. rewrite <- Hrow, E2 in E1. by injection E1. }
  split; [done|]. apply NoDup_Permutation; [apply (NoDup_fmap_1 o_Staff), Hs'|apply (NoDup_fmap_1 o_Staff), Hs|].
  assert (Hb : ∀ o, off_row s' o = off_row s o) by (intros o; unfold off_row; injection Hrow; intros; congruence).
  assert (Hd1 : ∀ s1 s2 o, svc_ok s1 → svc_ok s2 → (∀ o, off_row s1 o = off_row s2 o) → sv_id s1 = sv_id s2 →
     (∀ st r, service_offerings db !! (sv_id s1, st) = Some r ↔ ∃ o, o ∈ sv_offerings s1 ∧ o_Staff o = st ∧ r = off_row s1 o) →
     (∀ st r, service_offerings db !! (sv_id s2, st) = Some r ↔ ∃ o, o ∈ sv_offerings s2 ∧ o_Staff o = st ∧ r = off_row s2 o) →
     o ∈ sv_offerings s1 → o ∈ sv_offerings s2).
  { intros s1 s2 o H1 H2 Hrows Eid Ho1 Ho2 Hin.
    destruct (proj1 (Ho2 (o_Staff o) (off_row s1 o))) as (o2 & Hin2 & _ & Eo).
    - rewrite <- Eid. apply Ho1. by exists o.
    - rewrite Hrows in Eo. apply off_row_inj in Eo as ->; [done|by apply (offering_of s1)|by apply (offering_of s2)]. }
  intros o. split; [by apply (Hd1 s' s)|by apply (Hd1 s s')].
Qed.

Lemma tells_same db s s' c : stored db s → svc_ok s → stored db s' → svc_ok s' → sv_id s' = sv_id s → tells s c → tells s' c.
Proof.
  intros H1 H2 H3 H4 E [(I1 & I2 & I3) Hv Ho Hd Hp]. destruct (stored_same db s s' H1 H2 H3 H4 E) as (Er & Ed & Ep). injection Er as E1 E2 E3 E4.
  assert (Epr : prices s' ≡ₚ prices s) by (unfold prices; by rewrite Ed, Ep).
  constructor; [repeat split; congruence|congruence| |by rewrite Ed|].
  - rewrite Ho. assert (sv_active s' = sv_active s) as -> by congruence. enough (sv_offerings s' = [] ↔ sv_offerings s = []) by tauto.
    split; intros En; rewrite En in Ep; [by apply Permutation_nil in Ep|by symmetry in Ep; apply Permutation_nil in Ep].
  - assert (length (sv_offerings s') = length (sv_offerings s)) as -> by (by rewrite Ep). destruct (_ =? _)%nat; [by rewrite Ed|].
    setoid_rewrite Epr. done.
Qed.

(** ** The event log *)

Definition versions (sid : ServiceID) (cs : list ServiceChanged) : list Z := sc_Version <$> filter (λ c, sc_ServiceID c = sid) cs.

Record log_ok (db : CatDB) (cs : list ServiceChanged) : Prop := {
  lg_read : res_mapM decodeServiceChanged (cat_outbox db) = Ok cs;
  lg_versions sid : versions sid cs = seqZ 1 (version_of db sid);
  lg_newest s : stored db s → svc_ok s → ∃ c, c ∈ cs ∧ tells s c }.

Lemma res_mapM_app {E A B} (f : A → res E B) l l' ys ys' :
  res_mapM f l = Ok ys → res_mapM f l' = Ok ys' → res_mapM f (l ++ l') = Ok (ys ++ ys').
Proof. rewrite !res_mapM_ok. apply Forall2_app. Qed.

Lemma service_change_ok db s db' : cat_ok db → change db s db' → cat_ok db' ∧ stored db' s ∧ ∀ s', sv_id s' ≠ sv_id s → stored db' s' ↔ stored db s'.
Proof.
  intros Hdb [Hs [_ Hmax] Hp _ ->]. destruct (saved_ok db s Hdb Hs Hmax) as (H1 & H2 & H3); [by intros row Hr; apply Hp in Hr as [? _]|].
  split_and!; [by apply publish_cat_ok|by apply publish_stored|]. intros s' Hne. rewrite publish_stored. by apply H3.
Qed.

Lemma change_log db s db' cs : cat_ok db → log_ok db cs → change db s db' → ∃ c, tells s c ∧ log_ok db' (cs ++ [c]).
Proof.
  intros Hdb [Hr Hv Hn] Hc. pose proof (service_change_ok db s db' Hdb Hc) as (Hdb' & Hst & Hother).
  destruct Hc as [Hs [Ev Hmax] Hp (e & Ee & He) ->]. destruct (decode_announced s e Hs He) as (c & Hc & Ht & _). exists c. split; [done|].
  pose proof (te_ids s c Ht) as (_ & _ & Eid). constructor.
  - cbn. apply res_mapM_app; [done|]. rewrite Ee. cbn. by rewrite Hc.
  - intros sid. unfold versions. rewrite filter_app, fmap_app, filter_cons. fold (versions sid cs). rewrite Hv, filter_nil. unfold version_of. cbn.
    destruct (decide (sc_ServiceID c = sid)) as [E|Hne].
    + rewrite <- E, Eid, lookup_insert_eq. cbn. rewrite (te_version s c Ht), Ev. fold (version_of db (sv_id s)).
      assert (0 ≤ version_of db (sv_id s)) by (pose proof (vk_version s Hs); lia).
      rewrite seqZ_app by lia. change (seqZ ?a 1) with [a]. do 2 f_equal. lia.
    + rewrite lookup_insert_ne by congruence. by rewrite app_nil_r.
  - intros s2 Hst2 Hs2. destruct (decide (sv_id s2 = sv_id s)) as [E|Hne].
    + exists c. split; [apply elem_of_app; right; by left|]. by eapply tells_same; [exact Hst|..].
    + destruct (Hn s2) as (c2 & Hin & Ht2); [by apply Hother|done|]. exists c2. split; [apply elem_of_app; by left|done].
Qed.

(** ** Reachable states

    Business may answer each request differently, so every step has its own
    [Access]. *)
Inductive cat_step `{UuidLib} : CatDB → CatDB → Prop :=
| step_create (A : Access) db now newID cmd s db' : Create db now newID cmd = Ok (s, db') → cat_step db db'
| step_update (A : Access) db now cmd s db' : Update_handler db now cmd = Ok (s, db') → cat_step db db'
| step_offerings (A : Access) db now cmd s db' : SetOfferings_handler db now cmd = Ok (s, db') → cat_step db db'.

Inductive cat_reachable `{UuidLib} : CatDB → Prop :=
| cat_start : cat_reachable empty_cat_db
| cat_next db db' : cat_reachable db → cat_step db db' → cat_reachable db'.

Section reachable.
Context `{UuidLib}.

Lemma cat_step_change db db' : cat_ok db → cat_step db db' → ∃ s, change db s db'.
Proof.
  intros Hdb Hst. destruct Hst as [A db now newID cmd s db' Hc|A db now cmd s db' Hc|A db now cmd s db' Hc]; exists s.
  - by apply Create_effect in Hc as [? _].
  - by apply Update_effect in Hc as [? _].
  - by apply SetOfferings_effect in Hc as [? _].
Qed.

Lemma empty_cat_ok : cat_ok empty_cat_db.
Proof. constructor; intros ? ?; cbn; by rewrite lookup_empty. Qed.

Lemma cat_reachable_ok db : cat_reachable db → cat_ok db ∧ ∃ cs, log_ok db cs.
Proof.
  induction 1 as [|db db' _ [Hdb [cs Hcs]] Hst].
  - split; [apply empty_cat_ok|]. exists []. constructor; [done| |].
    + intros sid. unfold version_of. cbn. by rewrite lookup_empty.
    + intros s [Hr _]. cbn in Hr. by rewrite lookup_empty in Hr.
  - destruct (cat_step_change db db' Hdb Hst) as [s Hc]. split; [by eapply service_change_ok|].
    destruct (change_log db s db' cs Hdb Hcs Hc) as (c & _ & Hl). by exists (cs ++ [c]).
Qed.

(** C18. The catalog's events tell its subscribers everything, once: in every
    state the tables reach, each service announced its versions 1, 2, ... up
    to its own, in order, and the newest announcement says exactly what the
    tables hold - whether customers can choose it, its details, and the least
    its performers charge. Every announcement can be decoded. *)
Theorem service_events_tell_menu db :
  cat_reachable db →
  ∃ cs, res_mapM decodeServiceChanged (cat_outbox db) = Ok cs ∧
    (∀ sid, versions sid cs = seqZ 1 (version_of db sid)) ∧
    (∀ sid row, services db !! sid = Some row → ∃ s c, stored db s ∧ svc_ok s ∧ sv_id s = sid ∧ c ∈ cs ∧ tells s c ∧
       sc_Version c = version_of db sid).
Proof.
  intros Hr. destruct (cat_reachable_ok db Hr) as [Hdb [cs [H1 H2 H3]]]. exists cs. split_and!; [done..|].
  intros sid row Hrow. destruct (service_at db Hdb sid row Hrow) as (s & <- & Hs & Hst & -> & _). destruct (H3 s Hst Hs) as (c & Hin & Ht).
  exists s, c. split_and!; try done. unfold version_of. by rewrite Hrow, (te_version s c Ht).
Qed.

(** ** The menu *)

Lemma Compact_sorted (l : list StaffID) :
  StronglySorted (λ a b, staff_id_order a b = true) l → NoDup (Compact l) ∧ ∀ x, x ∈ Compact l ↔ x ∈ l.
Proof.
  induction 1 as [|x l Hs [IH1 IH2] Hx]; [by split; [constructor|]|]. cbn [Compact]. destruct l as [|y l]; [by split; [apply NoDup_singleton|]|].
  case_bool_decide as E.
  - subst y. split; [done|]. intros z. rewrite IH2, !elem_of_cons. tauto.
  - split; [|intros z; rewrite !(elem_of_cons _ z x), IH2; done]. apply NoDup_cons. split; [|done]. rewrite IH2. intros Hin.
    apply elem_of_cons in Hin as [->|Hin]; [done|]. inversion Hs as [|? ? _ Hy]; subst. apply Forall_cons in Hx as [Hxy _].
    rewrite Forall_forall in Hy. specialize (Hy _ Hin). unfold staff_id_order, ID_String in *.
    pose proof (String.leb_antisym _ _ Hxy Hy) as E2. apply uuid_string_inj in E2. apply E. destruct x, y; simpl in *; by subst.
Qed.

Lemma services_distinct db business branch ss :
  cat_ok db → svc_row <$> ss = ServicesByBranch db business branch → NoDup (sv_id <$> ss).
Proof.
  intros Hdb E. replace (sv_id <$> ss) with (v_ID <$> ServicesByBranch db business branch).
  - unfold ServicesByBranch. rewrite sort_by_perm. apply (rows_where_NoDup v_ID (λ k, k)); [done|]. intros k r Hr.
    by destruct (service_at db Hdb k r Hr) as (s & <- & _ & _ & -> & _).
  - rewrite <- E, <- list_fmap_compose. done.
Qed.

Lemma services_complete db business branch ss :
  svc_row <$> ss = ServicesByBranch db business branch → Forall (loaded db) ss →
  (∀ s, s ∈ ss → stored db s ∧ svc_ok s ∧ sv_business s = business ∧ sv_branch s = branch) ∧
  (∀ s, stored db s → svc_ok s → sv_business s = business → sv_branch s = branch →
     ∃ s', s' ∈ ss ∧ sv_id s' = sv_id s ∧ svc_row s' = svc_row s ∧ sv_details s' = sv_details s ∧ sv_offerings s' ≡ₚ sv_offerings s).
Proof.
  intros E Hl. rewrite Forall_forall in Hl. split.
  - intros s Hin. destruct (Hl s Hin) as (Hst & Hs & _). assert (Hr : svc_row s ∈ ServicesByBranch db business branch) by (rewrite <- E; by apply list_elem_of_fmap_2).
    unfold ServicesByBranch in Hr. rewrite elem_of_sort_by, elem_of_rows_where in Hr. destruct Hr as (k & _ & Hat). unfold at_branch in Hat.
    apply bool_decide_eq_true in Hat as [? ?]. by split_and!.
  - intros s Hst Hs Hb Hbr. assert (Hr : svc_row s ∈ svc_row <$> ss).
    { rewrite E. unfold ServicesByBranch. rewrite elem_of_sort_by, elem_of_rows_where. exists (sv_id s). split; [apply Hst|].
      unfold at_branch. by apply bool_decide_eq_true. }
    apply list_elem_of_fmap in Hr as (s' & Er & Hin). exists s'. destruct (Hl s' Hin) as (Hst' & Hs' & _).
    assert (Eid : sv_id s' = sv_id s) by (injection Er; done). destruct (stored_same db s s' Hst Hs Hst' Hs' Eid) as (? & ? & ?). by split_and!.
Qed.

(** A menu item says what a stored, active service says. *)
Record item_of (s : Service) (m : MenuItem) : Prop := {
  im_id : mn_ID m = sv_id s ∧ mn_Name m = d_Name (sv_details s);
  im_once : NoDup (pf_Staff <$> mn_Performers m);
  im_performers p : p ∈ mn_Performers m ↔ ∃ o, o ∈ sv_offerings s ∧
    p = MkPerformer (o_Staff o) (DurationOr o (d_Duration (sv_details s))) (PriceOr o (d_Price (sv_details s))) }.

Lemma item_of_service s : svc_ok s → item_of s (MkMenuItem (sv_id s) (d_Name (sv_details s)) (performer (sv_details s) <$> sv_offerings s)).
Proof.
  intros Hs. constructor; [done| |].
  - cbn. rewrite <- list_fmap_compose. apply Hs.
  - intros p. cbn. rewrite list_elem_of_fmap. naive_solver.
Qed.

Lemma item_of_reordered s s' m : sv_id s' = sv_id s → sv_details s' = sv_details s → sv_offerings s' ≡ₚ sv_offerings s → item_of s' m → item_of s m.
Proof.
  intros E1 E2 E3 [I1 I2 I3]. constructor; [by rewrite <- E1, <- E2|done|]. intros p. rewrite I3, E2.
  split; intros (o & Ho & ->); exists o; (split; [|done]); [by rewrite <- E3|by rewrite E3].
Qed.

(** The branch's menu from what the storage gives back. *)
Definition item_from (s : Service) : option MenuItem :=
  if negb (sv_active s) then None
  else let d := sv_details s in Some (MkMenuItem (sv_id s) (d_Name d) (performer d <$> sv_offerings s)).

Lemma item_from_some s m : item_from s = Some m ↔
  sv_active s = true ∧ m = MkMenuItem (sv_id s) (d_Name (sv_details s)) (performer (sv_details s) <$> sv_offerings s).
Proof. unfold item_from. destruct (sv_active s); simpl; naive_solver. Qed.

Lemma Menu_ok db business branch :
  cat_ok db →
  ∃ ss, List_services db business branch = Ok ss ∧ Menu db business branch = Ok (omap item_from ss) ∧ NoDup (mn_ID <$> omap item_from ss) ∧
    (∀ s, s ∈ ss → stored db s ∧ svc_ok s ∧ sv_business s = business ∧ sv_branch s = branch) ∧
    (∀ s, stored db s → svc_ok s → sv_business s = business → sv_branch s = branch →
       ∃ s', s' ∈ ss ∧ sv_id s' = sv_id s ∧ svc_row s' = svc_row s ∧ sv_details s' = sv_details s ∧ sv_offerings s' ≡ₚ sv_offerings s).
Proof.
  intros Hdb. destruct (List_services_ok db Hdb business branch) as (ss & Hss & Erows & Hl).
  destruct (services_complete db business branch ss Erows Hl) as [Hin Hall]. pose proof (services_distinct db business branch ss Hdb Erows) as Hnd.
  exists ss. unfold Menu. rewrite Hss. cbn [res_bind]. split_and!; [done..| |done|done].
  clear -Hnd. induction ss as [|s ss IH]; [constructor|]. rewrite fmap_cons in Hnd. apply NoDup_cons in Hnd as [Hni Hnd].
  cbn [omap list_omap]. destruct (item_from s) as [m|] eqn:E; [|by apply IH]. apply item_from_some in E as [_ ->]. rewrite fmap_cons.
  apply NoDup_cons. split; [|by apply IH]. cbn.
  intros (m & E & (s2 & Hs2 & [_ ->]%item_from_some)%list_elem_of_omap)%list_elem_of_fmap. apply Hni. cbn in E. rewrite E. by apply list_elem_of_fmap_2.
Qed.

Lemma menu_performer s m p : svc_ok s → item_from s = Some m → p ∈ mn_Performers m → five_minutes (pf_Duration p) ∧ price_ok (pf_Price p).
Proof.
  intros Hok [_ ->]%item_from_some Hp. cbn in Hp. apply list_elem_of_fmap in Hp as (o & -> & Ho). cbn.
  pose proof (oo_duration _ (offering_of s o Hok Ho)) as Hd. unfold DurationOr. split; [|by apply price_or_ok].
  destruct (o_Duration o); [by apply Hd|apply Hok].
Qed.

Lemma PerformingStaff_ok db business branch ss :
  List_services db business branch = Ok ss →
  ∃ staff, PerformingStaff db business branch = Ok staff ∧ NoDup staff ∧
    ∀ st, st ∈ staff ↔ ∃ m p, m ∈ omap item_from ss ∧ p ∈ mn_Performers m ∧ pf_Staff p = st.
Proof.
  intros Hss. unfold PerformingStaff. rewrite Hss. cbn [res_bind]. eexists. split; [done|].
  set (all := ss ≫= _). pose proof (sort_by_sorted staff_id_order (λ a b, string_leb_total _ _) (λ a b c, string_leb_trans _ _ _) all) as Hsort.
  destruct (Compact_sorted _ Hsort) as [Hnds Hels]. split; [done|]. intros st. rewrite Hels, elem_of_sort_by. unfold all. rewrite list_elem_of_bind. split.
  - intros (s & Hst & Hs). destruct (sv_active s) eqn:Ha; [|by apply not_elem_of_nil in Hst]. apply list_elem_of_fmap in Hst as (o & -> & Ho).
    eexists _, (performer (sv_details s) o). split; [apply list_elem_of_omap; exists s; split; [done|by apply item_from_some]|].
    cbn. split; [by apply (list_elem_of_fmap_2 (performer _))|done].
  - intros (m & p & (s & Hs & [Ha ->]%item_from_some)%list_elem_of_omap & Hp & <-). cbn in Hp. apply list_elem_of_fmap in Hp as (o & -> & Ho).
    exists s. rewrite Ha. split; [by apply (list_elem_of_fmap_2 o_Staff)|done].
Qed.

(** Reading a menu never fails. It lists the branch's active services, each
    once, and no other; each names exactly its performers, once each, at
    their own time and price or else the service's - always 5 to 480 minutes
    in steps of five, 0 to 100,000 SAR. Those performers are whom
    [PerformingStaff] answers. *)
Theorem menu_answer db business branch :
  cat_reachable db →
  ∃ menu staff, Menu db business branch = Ok menu ∧ PerformingStaff db business branch = Ok staff ∧
    NoDup (mn_ID <$> menu) ∧ NoDup staff ∧
    (∀ m, m ∈ menu → ∃ s, stored db s ∧ svc_ok s ∧ sv_business s = business ∧ sv_branch s = branch ∧ sv_active s = true ∧ item_of s m) ∧
    (∀ s, stored db s → svc_ok s → sv_business s = business → sv_branch s = branch → sv_active s = true → ∃ m, m ∈ menu ∧ item_of s m) ∧
    (∀ m p, m ∈ menu → p ∈ mn_Performers m → five_minutes (pf_Duration p) ∧ price_ok (pf_Price p)) ∧
    (∀ st, st ∈ staff ↔ ∃ m p, m ∈ menu ∧ p ∈ mn_Performers m ∧ pf_Staff p = st).
Proof.
  intros Hr. destruct (cat_reachable_ok db Hr) as [Hdb _]. destruct (Menu_ok db business branch Hdb) as (ss & Hss & Hmenu & Hnd & Hin & Hall).
  destruct (PerformingStaff_ok _ _ _ _ Hss) as (staff & Hst & Hnds & Hels). exists (omap item_from ss), staff. split_and!; try done.
  - intros m (s & Hs & Hm)%list_elem_of_omap. exists s. destruct (Hin s Hs) as (? & ? & ? & ?). apply item_from_some in Hm as [Ha ->].
    split_and!; try done. by apply item_of_service.
  - intros s Hs1 Hs Hb Hbr Ha. destruct (Hall s Hs1 Hs Hb Hbr) as (s' & Hs' & E1 & E2 & E3 & E4).
    exists (MkMenuItem (sv_id s') (d_Name (sv_details s')) (performer (sv_details s') <$> sv_offerings s')). split.
    + apply list_elem_of_omap. exists s'. split; [done|]. apply item_from_some. split; [|done]. injection E2. intros. congruence.
    + apply (item_of_reordered s s'); [done..|]. apply item_of_service. by destruct (Hin s' Hs') as (_ & ? & _).
  - intros m p (s & Hs & Hm)%list_elem_of_omap Hp. apply (menu_performer s m); [|done..]. by apply Hin.
Qed.
End reachable.

(** ** A branch's first service *)

Section demo.
#[local] Existing Instance decimal_ids.

Definition everyone : Access := {| Access_Branch _ _ _ _ := Ok tt; Access_StaffAtBranch _ _ _ := Ok tt |}.
#[local] Existing Instance everyone.

Definition here : BranchRef := MkRef (MkID 1) (MkID 2) (MkID 3).

Definition haircut : CreateService :=
  MkCreateService here "haircut" (MkName " قص شعر " "Haircut") (MkDescription "" "  Wash and cut ") (30 * Minute) (MkMoneyInput 6000 "SAR") 1.

Definition after_create : CatDB :=
  Eval vm_compute in match Create empty_cat_db 1000 (MkID 7) haircut with Ok (_, db) => db | Err _ => empty_cat_db end.

Definition performers_of_haircut : SetOfferingsCmd :=
  MkSetOfferings here (MkID 7) 1 [MkOfferingInput (MkID 22) (Some (MkMoneyInput 9000 "SAR")) None;
                                  MkOfferingInput (MkID 21) (Some (MkMoneyInput 4500 "SAR")) (Some (45 * Minute))].

Definition after_offerings : CatDB :=
  Eval vm_compute in match SetOfferings_handler after_create 3000 performers_of_haircut with Ok (_, db) => db | Err _ => empty_cat_db end.

Lemma created_service : is_ok (Create empty_cat_db 1000 (MkID 7) haircut) = true.
Proof. by vm_compute. Qed.

Lemma shop_reached : cat_reachable after_offerings.
Proof.
  apply (cat_next after_create); [apply (cat_next empty_cat_db); [constructor|]|].
  - destruct (Create empty_cat_db 1000 (MkID 7) haircut) as [[s db]|] eqn:E; [|by vm_compute in E].
    replace after_create with db; [by eapply step_create|]. vm_compute in E. by injection E.
  - destruct (SetOfferings_handler after_create 3000 performers_of_haircut) as [[s db]|] eqn:E; [|by vm_compute in E].
    replace after_offerings with db; [by eapply step_offerings|]. vm_compute in E. by injection E.
Qed.

Lemma service_events_tell_menu_witness :
  (∃ cs, res_mapM decodeServiceChanged (cat_outbox after_offerings) = Ok cs ∧
    (sc_Version <$> cs) = [1; 2] ∧ (sc_Offered <$> cs) = [false; true] ∧ (amount ∘ sc_PriceFrom <$> cs) = [6000; 4500]) ∧
  ∃ cs, res_mapM decodeServiceChanged (cat_outbox after_offerings) = Ok cs ∧ versions (MkID 7) cs = seqZ 1 2.
Proof.
  split.
  - eexists. split; [by vm_compute|]. by vm_compute.
  - destruct (service_events_tell_menu after_offerings shop_reached) as (cs & H1 & H2 & _). exists cs. split; [exact H1|]. exact (H2 (MkID 7)).
Defined.

Lemma menu_answer_witness :
  Menu after_offerings (MkID 2) (MkID 3) =
    Ok [MkMenuItem (MkID 7) (MkLocalized "قص شعر" "Haircut")
          [MkPerformer (MkID 21) (45 * Minute) (Halalas 4500); MkPerformer (MkID 22) (30 * Minute) (Halalas 9000)]] ∧
  ∃ menu staff, Menu after_offerings (MkID 2) (MkID 3) = Ok menu ∧ PerformingStaff after_offerings (MkID 2) (MkID 3) = Ok staff ∧
    NoDup (mn_ID <$> menu) ∧ NoDup staff.
Proof.
  split; [by vm_compute|].
  destruct (menu_answer after_offerings (MkID 2) (MkID 3) shop_reached) as (menu & staff & H1 & H2 & H3 & H4 & _). by exists menu, staff.
Defined.
End demo.
