(* ===== verification/CatHttp.v ===== *)
(** * The catalog over HTTP (src/internal/catalog/adapters/httpapi/handlers.go)

    The handlers, from the decoded request to the status and body answered,
    and a service's price list put back as it was read. *)
From S2P Require Import Prelude GoTime GoText Shared Tables Catalog CatStore CatApp Http.
Open Scope Z_scope.

(** ** The API's shapes (apigen) *)

Record ServiceCategory := MkApiCategory { ac_Code : string; ac_Icon : string; ac_Name : api_LocalizedText }.
Record ServiceDescription := MkApiDescription { ad_Ar : option string; ad_En : option string }.
Record api_Offering := MkApiOffering { ao_DurationMinutes : option Z; ao_Price : option api_Money; ao_StaffId : UUID }.
Record api_Service := MkApiService {
  as_Active : bool; as_BranchId : UUID; as_Category : string; as_CreatedAt : time; as_Description : option ServiceDescription;
  as_DurationMinutes : Z; as_Id : UUID; as_Name : api_LocalizedText; as_Offerings : list api_Offering; as_Price : api_Money; as_SortOrder : Z;
  as_UpdatedAt : time; as_Version : Z }.
Record ServiceCreate := MkServiceCreate {
  ac_Category : string; ac_Description : option ServiceDescription; ac_DurationMinutes : Z; ac_ServiceName : api_LocalizedText; ac_Price : api_Money;
  ac_SortOrder : option Z }.
Record ServiceUpdate := MkServiceUpdate {
  au_Active : option bool; au_Category : option string; au_Description : option ServiceDescription; au_DurationMinutes : option Z;
  au_Name : option api_LocalizedText; au_Price : option api_Money; au_SortOrder : option Z }.

(** ** Errors *)

Inductive http_error := ErrNoPrincipal | ErrBadIfMatch | UseCase (e : cat_error).

Definition problem_of (err : http_error) : option (Z * string * string) :=
  match err with
  | ErrNoPrincipal => Some unauthorized
  | ErrBadIfMatch => Some (400, "validation_failed", "If-Match: send the service version you last read")
  | UseCase e =>
      match e with
      | ErrNotFound => Some (404, "not_found", "")
      | ErrForbidden => Some (403, "forbidden", "")
      | ErrVersionConflict => Some (412, "version_conflict", "it changed since you read it; reload and try again")
      | ErrUnknownCategory => Some (422, "validation_failed", "category: use a code from GET /v1/service-categories")
      | ErrLocalized ErrArabicRequired => Some (422, "validation_failed", "name: an Arabic name is required")
      | ErrNameTooLong => Some (422, "validation_failed", "name: at most 80 characters")
      | ErrTextTooLong => Some (422, "validation_failed", "description: at most 500 characters")
      | ErrInvalidDuration => Some (422, "validation_failed", "duration_minutes: 5 to 480, in steps of 5")
      | ErrInvalidPrice => Some (422, "validation_failed", "price: 0 to 10,000,000 halalas (100,000 SAR)")
      | ErrInvalidSort => Some (422, "validation_failed", "sort_order: 0 to 1000")
      | ErrUnknownStaff => Some (422, "validation_failed", "offerings: everyone listed must be active staff working at this branch")
      | ErrDuplicateOffering => Some (422, "validation_failed", "offerings: each staff member at most once")
      | ErrTooManyOfferings => Some (422, "validation_failed", "offerings: at most 100")
      | ErrStorage | ErrUpstream => None
      end
  end.

#[export] Instance cat_problems : Problems http_error := {|
  problem ctx err := problem_for ctx (problem_of err) (match err with ErrNoPrincipal => challenge | _ => no_headers end);
  no_principal := ErrNoPrincipal |}.

Definition uc {A} (r : res cat_error A) : res http_error A := res_map_err UseCase r.

Definition if_match (v : string) : res http_error Z :=
  match ParseIfMatch v 1 with Some n => Ok n | None => Err ErrBadIfMatch end.

(** ** Answers *)

Definition toAPICategory (c : Category) : ServiceCategory := MkApiCategory (cat_code c) (cat_icon c) (APIText (cat_name c)).

Definition toAPIOffering (o : Offering) : api_Offering :=
  MkApiOffering ((λ d, Z.quot d Minute) <$> o_Duration o) (toAPIMoney <$> o_Price o) (value (o_Staff o)).

Definition optional_text (s : string) : option string := if bool_decide (s = "") then None else Some s.

Definition toAPIDescription (d : Description) : option ServiceDescription :=
  if bool_decide (d = MkDescription "" "") then None else Some (MkApiDescription (optional_text (de_Ar d)) (optional_text (de_En d))).

Definition toAPIService (s : Service) : api_Service :=
  let d := sv_details s in {|
    as_Id := value (sv_id s);
    as_BranchId := value (sv_branch s);
    as_Category := d_Category d;
    as_Name := APIText (d_Name d);
    as_DurationMinutes := Z.quot (d_Duration d) Minute;
    as_Price := toAPIMoney (d_Price d);
    as_Offerings := toAPIOffering <$> sv_offerings s;
    as_Active := sv_active s;
    as_SortOrder := d_SortOrder d;
    as_Version := sv_version s;
    as_CreatedAt := sv_createdAt s;
    as_UpdatedAt := sv_updatedAt s;
    as_Description := toAPIDescription (d_Description d) |}.

(** ** Commands *)

Definition branchRef (actor : UserID) (business branch : UUID) : BranchRef := MkRef actor (IDFromUUID business) (IDFromUUID branch).

(** [deref]. *)
Definition name_of (t : api_LocalizedText) : Name := MkName (at_Ar t) (default "" (at_En t)).
Definition description_of (d : ServiceDescription) : Description := MkDescription (default "" (ad_Ar d)) (default "" (ad_En d)).
Definition money_of (m : api_Money) : MoneyInput := MkMoneyInput (am_Amount m) (am_Currency m).

(** [time.Duration(n) * time.Minute], which wraps. *)
Definition minutes_duration (n : Z) : Duration := int64 (n * Minute).

Definition create_command (p : Principal) (business branch : UUID) (body : ServiceCreate) : CreateService :=
  MkCreateService (branchRef (UserID_of p) business branch) (ac_Category body) (name_of (ac_ServiceName body))
    (default (MkDescription "" "") (description_of <$> ac_Description body)) (minutes_duration (ac_DurationMinutes body)) (money_of (ac_Price body))
    (default 0 (ac_SortOrder body)).

Definition update_command (p : Principal) (business branch service : UUID) (version : Z) (body : ServiceUpdate) : UpdateServiceCmd :=
  MkUpdateService (branchRef (UserID_of p) business branch) (IDFromUUID service) version (au_Category body) (name_of <$> au_Name body)
    (description_of <$> au_Description body) (minutes_duration <$> au_DurationMinutes body) (money_of <$> au_Price body) (au_SortOrder body)
    (au_Active body).

Definition offering_of (o : api_Offering) : OfferingInput :=
  MkOfferingInput (IDFromUUID (ao_StaffId o)) (money_of <$> ao_Price o) (minutes_duration <$> ao_DurationMinutes o).

Definition offerings_command (p : Principal) (business branch service : UUID) (version : Z) (offerings : list api_Offering) : SetOfferingsCmd :=
  MkSetOfferings (branchRef (UserID_of p) business branch) (IDFromUUID service) version (offering_of <$> offerings).

(** ** The handlers *)

(** Public. *)
Definition ListServiceCategories : Response (list ServiceCategory) := Answer 200 (toAPICategory <$> Categories_handler).

Section Handlers.
Context `{UuidLib} `{Access} (ctx : Ctx).

Definition ListServices (db : CatDB) (business branch : UUID) : Response (list api_Service) :=
  reply ctx 200 (
    let! p := caller ctx in
    let! ss := uc (List_handler db (branchRef (UserID_of p) business branch)) in
    Ok (toAPIService <$> ss)).

Definition PostService (db : CatDB) (now : time) (newID : ServiceID) (business branch : UUID) (body : ServiceCreate) : Response api_Service * CatDB :=
  reply_db ctx 201 db (
    let! p := caller ctx in
    let! r := uc (Create db now newID (create_command p business branch body)) in
    Ok (toAPIService r.1, r.2)).

Definition PatchService (db : CatDB) (now : time) (business branch service : UUID) (ifMatch : string) (body : ServiceUpdate)
    : Response api_Service * CatDB :=
  reply_db ctx 200 db (
    let! p := caller ctx in
    let! version := if_match ifMatch in
    let! r := uc (Update_handler db now (update_command p business branch service version body)) in
    Ok (toAPIService r.1, r.2)).

Definition PutOfferings (db : CatDB) (now : time) (business branch service : UUID) (ifMatch : string) (offerings : list api_Offering)
    : Response api_Service * CatDB :=
  reply_db ctx 200 db (
    let! p := caller ctx in
    let! version := if_match ifMatch in
    let! r := uc (SetOfferings_handler db now (offerings_command p business branch service version offerings)) in
    Ok (toAPIService r.1, r.2)).
End Handlers.
