(* ===== verification/Iam.v ===== *)
(** * The identity domain (src/internal/iam/domain)

    One-time codes, the guard that locks a phone, sessions with their chain of
    refresh tokens, and users. Times a clock gave are kept as they are; the
    store rounds them down. *)
From S2P Require Import Prelude GoTime GoText Shared.
Open Scope Z_scope.

(** ** Identifiers and errors (errors.go) *)

Inductive OTPChallengeTag : Type := .
Inductive SessionTag : Type := .
Abbreviation OTPChallengeID := (ID OTPChallengeTag).
Abbreviation SessionID := (ID SessionTag).

(** [RetryLaterError] wraps its reason and says how long to wait. The last
    three: an error of a constructor, of the database, of the sender or signer. *)
Inductive iam_error :=
| ErrOTPLocked | ErrNotFound | ErrInvalidOTPCode | ErrOTPInvalid | ErrOTPExpired | ErrOTPTooManyAttempts | ErrOTPCooldown
| ErrOTPRateLimited | ErrUserBlocked | ErrUnauthenticated | ErrRefreshTokenInvalid | ErrRefreshTokenReused
| RetryLaterError (Reason : iam_error) (After : Duration)
| ErrPhone (e : phone_error)
| ErrInternal | ErrStorage | ErrUpstream.

#[export] Instance phone_error_eq_dec : EqDecision phone_error.
Proof. by intros [] []; left. Defined.
#[export] Instance iam_error_eq_dec : EqDecision iam_error.
Proof. unfold EqDecision, Decision. decide equality; apply (decide_rel eq). Defined.

(** ** One-time codes (otp.go) *)

Record OTPPolicy := MkOTPPolicy {
  TTL : Duration; ResendCooldown : Duration; MaxAttempts : Z; MaxFailures : Z; FailureWindow : Duration; Lockout : Duration; MaxPerHour : Z }.

Definition DefaultOTPPolicy : OTPPolicy := MkOTPPolicy (5 * Minute) Minute 5 10 (15 * Minute) (15 * Minute) 5.

Record OTPCode := MkCode { digits : string }.

#[export] Instance OTPCode_eq_dec : EqDecision OTPCode.
Proof. solve_decision. Defined.

(** The loop of [ParseOTPCode]: every rune a digit, turned Western. *)
Fixpoint code_digits (rs : list Z) : option string :=
  match rs with
  | [] => Some ""
  | r :: rs =>
      match WesternDigit r, code_digits rs with
      | Some d, Some s => Some (String (byte_chr d) s)
      | _, _ => None
      end
  end.

Definition ParseOTPCode (raw : string) : res iam_error OTPCode :=
  match code_digits (runes (TrimSpace raw)) with
  | None => Err ErrInvalidOTPCode
  | Some s => if negb (len s =? 6) then Err ErrInvalidOTPCode else Ok (MkCode s)
  end.

Definition Code_LogValue (c : OTPCode) : string := "******".

Record OTPChallenge := MkChallenge {
  oc_id : OTPChallengeID; oc_phone : PhoneNumber; oc_codeHash : string; oc_attempts : Z; oc_createdAt : time; oc_expiresAt : time;
  oc_consumedAt : option time }.

Definition NewOTPChallenge (id : OTPChallengeID) (phone : PhoneNumber) (codeHash : string) (now : time) (ttl : Duration)
    : res iam_error OTPChallenge :=
  if ID_IsZero id || Phone_IsZero phone then Err ErrInternal
  else if len codeHash =? 0 then Err ErrInternal
  else if ttl <=? 0 then Err ErrInternal
  else Ok (MkChallenge id phone codeHash 0 now (GoTime.Add now ttl) None).

Definition RehydrateOTPChallenge : OTPChallengeID → PhoneNumber → string → Z → time → time → option time → OTPChallenge := MkChallenge.

(** [Verify]: the answer, and the challenge as the call leaves it. *)
Definition Verify (c : OTPChallenge) (guessHash : string) (now : time) (maxAttempts : Z) : option iam_error * OTPChallenge :=
  if match oc_consumedAt c with Some _ => true | None => false end then (Some ErrOTPInvalid, c)
  else if negb (Before now (oc_expiresAt c)) then (Some ErrOTPExpired, c)
  else if maxAttempts <=? oc_attempts c then (Some ErrOTPTooManyAttempts, c)
  else
    let tries := oc_attempts c + 1 in
    let with_consumed := MkChallenge (oc_id c) (oc_phone c) (oc_codeHash c) tries (oc_createdAt c) (oc_expiresAt c) in
    if negb (bool_decide (oc_codeHash c = guessHash))
    then (Some (if maxAttempts <=? tries then ErrOTPTooManyAttempts else ErrOTPInvalid), with_consumed (oc_consumedAt c))
    else (None, with_consumed (Some now)).

(** ** The guard of a phone (otp_guard.go) *)

Record OTPGuard := MkGuard { og_failures : Z; og_windowStart : time; og_lockedUntil : time }.

(** [OTPGuard{}]. *)
Definition zero_guard : OTPGuard := MkGuard 0 zero_time zero_time.

Definition Guard_Check (g : OTPGuard) (now : time) : option iam_error :=
  if Before now (og_lockedUntil g) then Some (RetryLaterError ErrOTPLocked (Sub (og_lockedUntil g) now)) else None.

Definition Guard_Reset (g : OTPGuard) : OTPGuard := zero_guard.

Definition Guard_Fail (g : OTPGuard) (now : time) (policy : OTPPolicy) : option iam_error * OTPGuard :=
  match Guard_Check g now with
  | Some err => (Some err, g)
  | None =>
      let g := if negb (Before now (GoTime.Add (og_windowStart g) (FailureWindow policy)))
                  || (negb (IsZero (og_lockedUntil g)) && negb (Before now (og_lockedUntil g)))
               then Guard_Reset g else g in
      let start := if og_failures g =? 0 then now else og_windowStart g in
      let failures := og_failures g + 1 in
      let locked := if MaxFailures policy <=? failures then GoTime.Add now (Lockout policy) else og_lockedUntil g in
      let g := MkGuard failures start locked in
      (Guard_Check g now, g)
  end.

(** ** Sessions and refresh tokens (session.go) *)

Record TokenPolicy := MkTokenPolicy { AccessTTL : Duration; RefreshTTL : Duration }.
Definition DefaultTokenPolicy : TokenPolicy := MkTokenPolicy (15 * Minute) (30 * 24 * Hour).

Definition RevokedLogout : string := "logout".
Definition RevokedReuse : string := "reuse".
Definition RevokedBlocked : string := "blocked".

Record Session := MkSession {
  ses_id : SessionID; ses_userID : UserID; ses_createdAt : time; ses_lastRefreshedAt : time; ses_revokedAt : option time;
  ses_revokeReason : string }.

Definition NewSession (id : SessionID) (user : UserID) (now : time) : res iam_error Session :=
  if ID_IsZero id || ID_IsZero user then Err ErrInternal else Ok (MkSession id user now now None "").

Definition RehydrateSession : SessionID → UserID → time → time → option time → string → Session := MkSession.

Record RefreshToken := MkToken { rt_hash : string; rt_sessionID : SessionID; rt_createdAt : time; rt_expiresAt : time; rt_usedAt : option time }.

Definition NewRefreshToken (hash : string) (session : SessionID) (now : time) (ttl : Duration) : res iam_error RefreshToken :=
  if len hash =? 0 then Err ErrInternal
  else if ID_IsZero session then Err ErrInternal
  else if ttl <=? 0 then Err ErrInternal
  else Ok (MkToken hash session now (GoTime.Add now ttl) None).

Definition RehydrateRefreshToken : string → SessionID → time → time → option time → RefreshToken := MkToken.

Definition Session_IsRevoked (s : Session) : bool := match ses_revokedAt s with Some _ => true | None => false end.

Definition Session_Revoke (s : Session) (now : time) (reason : string) : Session :=
  if Session_IsRevoked s then s
  else MkSession (ses_id s) (ses_userID s) (ses_createdAt s) (ses_lastRefreshedAt s) (Some now) reason.

(** [Rotate]: the token that replaces [t] or the refusal, with the session and
    the presented token as the call leaves them. *)
Definition Session_Rotate (s : Session) (t : RefreshToken) (nextHash : string) (now : time) (p : TokenPolicy)
    : res iam_error RefreshToken * Session * RefreshToken :=
  if negb (bool_decide (rt_sessionID t = ses_id s)) then (Err ErrInternal, s, t)
  else if Session_IsRevoked s then (Err ErrRefreshTokenInvalid, s, t)
  else match rt_usedAt t with
  | Some _ => (Err ErrRefreshTokenReused, Session_Revoke s now RevokedReuse, t)
  | None =>
      if negb (Before now (rt_expiresAt t)) then (Err ErrRefreshTokenInvalid, s, t)
      else match NewRefreshToken nextHash (ses_id s) now (RefreshTTL p) with
      | Err e => (Err e, s, t)
      | Ok next =>
          (Ok next, MkSession (ses_id s) (ses_userID s) (ses_createdAt s) now (ses_revokedAt s) (ses_revokeReason s),
           MkToken (rt_hash t) (rt_sessionID t) (rt_createdAt t) (rt_expiresAt t) (Some now))
      end
  end.

(** ** Users (user.go) *)

Definition UserActive : string := "active".
Definition UserBlocked : string := "blocked".
Definition PlatformRoleNone : string := "none".
Definition PlatformRoleAdmin : string := "admin".

Record User := MkUser {
  us_id : UserID; us_phone : PhoneNumber; us_name : string; us_locale : Language; us_status : string; us_role : string; us_createdAt : time }.

Definition NewUser (id : UserID) (phone : PhoneNumber) (locale : Language) (now : time) : User :=
  MkUser id phone "" locale UserActive PlatformRoleNone now.

Definition RehydrateUser : UserID → PhoneNumber → string → Language → string → string → time → User := MkUser.

Definition IsBlocked (u : User) : bool := bool_decide (us_status u = UserBlocked).
