(* ===== verification/IamStore.v ===== *)
(** * The identity tables
      (src/internal/iam/adapters/postgres; src/migrations/00002 to 00004)

    The rows of the iam schema, what the tables refuse and the repositories'
    transactions. The columns hold microseconds, so times are rounded down as
    they are written. A statement the tables refuse is [ErrStorage]; an error
    rolls its transaction back. The phone's advisory lock and the row locks
    make transactions on one phone, or on one session, follow one another. *)
From S2P Require Import Prelude GoTime GoText Shared Tables Iam.
Open Scope Z_scope.

(** ** Rows (sqlcgen) *)

Record UserRow := MkUserRow {
  ur_ID : UserID; ur_Phone : string; ur_Name : option string; ur_Locale : string; ur_Status : string; ur_PlatformRole : string;
  ur_CreatedAt : time; ur_UpdatedAt : time }.

Record ChallengeRow := MkChallengeRow {
  cr_ID : OTPChallengeID; cr_Phone : string; cr_CodeHash : string; cr_Attempts : Z; cr_CreatedAt : time; cr_ExpiresAt : time;
  cr_ConsumedAt : option time }.

Record GuardRow := MkGuardRow { gr_Failures : Z; gr_WindowStart : time; gr_LockedUntil : time }.

Record SessionRow := MkSessionRow {
  sr_ID : SessionID; sr_UserID : UserID; sr_CreatedAt : time; sr_LastRefreshedAt : time; sr_RevokedAt : option time;
  sr_RevokeReason : option string }.

Record TokenRow := MkTokenRow {
  tr_TokenHash : string; tr_SessionID : SessionID; tr_CreatedAt : time; tr_ExpiresAt : time; tr_UsedAt : option time }.

(** Guards are keyed by phone, refresh tokens by hash. *)
Record IamDB := MkIamDB {
  users : gmap UserID UserRow;
  challenges : gmap OTPChallengeID ChallengeRow;
  guards : gmap string GuardRow;
  sessions : gmap SessionID SessionRow;
  tokens : gmap string TokenRow }.

Definition empty_iam_db : IamDB := MkIamDB ∅ ∅ ∅ ∅ ∅.

Definition set_users (db : IamDB) t : IamDB := MkIamDB t (challenges db) (guards db) (sessions db) (tokens db).
Definition set_challenges (db : IamDB) t : IamDB := MkIamDB (users db) t (guards db) (sessions db) (tokens db).
Definition set_guards (db : IamDB) t : IamDB := MkIamDB (users db) (challenges db) t (sessions db) (tokens db).
Definition set_sessions (db : IamDB) t : IamDB := MkIamDB (users db) (challenges db) (guards db) t (tokens db).
Definition set_tokens (db : IamDB) t : IamDB := MkIamDB (users db) (challenges db) (guards db) (sessions db) t.

Definition toInt16 (n : Z) : res iam_error Z := if (n <? -32768) || (max_int16 <? n) then Err ErrStorage else Ok n.

(** ** What the tables refuse *)

Definition user_checks (r : UserRow) : bool :=
  bool_decide (ur_Locale r ∈ ["ar"; "en"]) && bool_decide (ur_Status r ∈ ["active"; "blocked"])
  && bool_decide (ur_PlatformRole r ∈ ["none"; "admin"]).
Definition same_phone (r o : UserRow) : bool := bool_decide (ur_Phone r = ur_Phone o).

Definition challenge_checks (r : ChallengeRow) : bool := (0 <=? cr_Attempts r) && (cr_CreatedAt r <? cr_ExpiresAt r).
Definition guard_checks (r : GuardRow) : bool := 0 <=? gr_Failures r.

Definition session_checks (r : SessionRow) : bool :=
  match sr_RevokeReason r with Some w => bool_decide (w ∈ ["logout"; "reuse"; "blocked"]) | None => true end
  && Bool.eqb (present (sr_RevokedAt r)) (present (sr_RevokeReason r)).

Definition token_checks (r : TokenRow) : bool := (len (tr_TokenHash r) =? 32) && (tr_CreatedAt r <? tr_ExpiresAt r).

(** ** One-time codes (repository.go) *)

Definition toOTPChallenge (r : ChallengeRow) : res iam_error OTPChallenge :=
  let! phone := res_map_err (λ _, ErrStorage) (NewPhoneNumber (cr_Phone r)) in
  Ok (RehydrateOTPChallenge (cr_ID r) phone (cr_CodeHash r) (cr_Attempts r) (cr_CreatedAt r) (cr_ExpiresAt r) (cr_ConsumedAt r)).

Definition challenge_row (c : OTPChallenge) (attempts : Z) : ChallengeRow :=
  MkChallengeRow (oc_id c) (e164 (oc_phone c)) (oc_codeHash c) attempts (stored_time (oc_createdAt c)) (stored_time (oc_expiresAt c))
    (stored_time <$> oc_consumedAt c).

Definition InsertOTPChallenge (db : IamDB) (row : ChallengeRow) : res iam_error IamDB :=
  check! challenge_checks row && bool_decide (challenges db !! cr_ID row = None) else ErrStorage in
  Ok (set_challenges db (<[cr_ID row := row]> (challenges db))).

Definition Challenges_Add (db : IamDB) (c : OTPChallenge) : res iam_error IamDB :=
  let! attempts := toInt16 (oc_attempts c) in
  InsertOTPChallenge db (challenge_row c attempts).

(** [ORDER BY created_at DESC LIMIT 1]. Of challenges of one instant the
    database may give any; here the one of greatest id. *)
Definition newer (a b : ChallengeRow) : bool :=
  if cr_CreatedAt b <? cr_CreatedAt a then true else if cr_CreatedAt a <? cr_CreatedAt b then false
  else (value (cr_ID b) <=? value (cr_ID a))%N.

Definition of_phone (phone : string) (r : ChallengeRow) : bool := bool_decide (cr_Phone r = phone).

Definition LatestOTPChallenge (db : IamDB) (phone : string) : option ChallengeRow :=
  head (sort_by newer (rows_where (of_phone phone) (challenges db))).

Definition Latest (db : IamDB) (phone : PhoneNumber) : res iam_error OTPChallenge :=
  match LatestOTPChallenge db (e164 phone) with
  | None => Err ErrNotFound
  | Some row => toOTPChallenge row
  end.

Definition CountOTPChallengesSince (db : IamDB) (phone : string) (since : time) : Z :=
  count_where (λ r, of_phone phone r && (stored_time since <=? cr_CreatedAt r)) (challenges db).

Definition CountSince (db : IamDB) (phone : PhoneNumber) (since : time) : Z := CountOTPChallengesSince db (e164 phone) since.

Definition update_challenge (r : ChallengeRow) (attempts : Z) (consumed : option time) : ChallengeRow :=
  MkChallengeRow (cr_ID r) (cr_Phone r) (cr_CodeHash r) attempts (cr_CreatedAt r) (cr_ExpiresAt r) (stored_time <$> consumed).

(** Updating a challenge that is gone changes nothing. *)
Definition UpdateOTPChallenge (db : IamDB) (id : OTPChallengeID) (attempts : Z) (consumed : option time) : res iam_error IamDB :=
  match challenges db !! id with
  | None => Ok db
  | Some row =>
      let next := update_challenge row attempts consumed in
      check! challenge_checks next else ErrStorage in
      Ok (set_challenges db (<[id := next]> (challenges db)))
  end.

(** [UpdateLatest] with [fn] as the challenge it leaves and what it records
    outside; its error would roll back. *)
Definition UpdateLatest {A} (db : IamDB) (phone : PhoneNumber) (fn : OTPChallenge → res iam_error (A * OTPChallenge)) : res iam_error (A * IamDB) :=
  match LatestOTPChallenge db (e164 phone) with
  | None => Err ErrNotFound
  | Some row =>
      let! c := toOTPChallenge row in
      let! ac := fn c in
      let! attempts := toInt16 (oc_attempts ac.2) in
      let! db := UpdateOTPChallenge db (oc_id ac.2) attempts (oc_consumedAt ac.2) in
      Ok (ac.1, db)
  end.

Definition LoadOTPGuard (db : IamDB) (phone : string) : option GuardRow := guards db !! phone.

Definition LoadGuard (db : IamDB) (phone : PhoneNumber) : OTPGuard :=
  match LoadOTPGuard db (e164 phone) with
  | None => zero_guard
  | Some r => MkGuard (gr_Failures r) (gr_WindowStart r) (gr_LockedUntil r)
  end.

Definition SaveOTPGuard (db : IamDB) (phone : string) (row : GuardRow) : res iam_error IamDB :=
  check! guard_checks row else ErrStorage in
  Ok (set_guards db (<[phone := row]> (guards db))).

Definition SaveGuard (db : IamDB) (phone : PhoneNumber) (g : OTPGuard) : res iam_error IamDB :=
  let! failures := toInt16 (og_failures g) in
  SaveOTPGuard db (e164 phone) (MkGuardRow failures (stored_time (og_windowStart g)) (stored_time (og_lockedUntil g))).

(** [WithPhoneLock]: everything [fn] does is one transaction. *)
Definition WithPhoneLock {A} (db : IamDB) (fn : IamDB → res iam_error (A * IamDB)) : res iam_error (A * IamDB) := fn db.

(** ** Users (repository.go) *)

Definition toUser (r : UserRow) : res iam_error User :=
  let! phone := res_map_err (λ _, ErrStorage) (NewPhoneNumber (ur_Phone r)) in
  Ok (RehydrateUser (ur_ID r) phone (default "" (ur_Name r)) (ParseLanguage (ur_Locale r)) (ur_Status r) (ur_PlatformRole r) (ur_CreatedAt r)).

Definition UserByPhone (db : IamDB) (phone : string) : option UserRow :=
  head (rows_where (λ r, bool_decide (ur_Phone r = phone)) (users db)).

(** The columns the statement leaves out take their defaults. *)
Definition new_user_row (u : User) : UserRow :=
  MkUserRow (us_id u) (e164 (us_phone u)) None (Language_string (us_locale u)) "active" "none"
    (stored_time (us_createdAt u)) (stored_time (us_createdAt u)).

(** [InsertUserIfNew]: [None] when the phone is taken. *)
Definition InsertUserIfNew (db : IamDB) (u : User) : res iam_error (option IamDB) :=
  let row := new_user_row u in
  check! user_checks row else ErrStorage in
  match UserByPhone db (ur_Phone row) with
  | Some _ => Ok None
  | None =>
      check! bool_decide (users db !! us_id u = None) else ErrStorage in
      Ok (Some (set_users db (<[us_id u := row]> (users db))))
  end.

(** The insert commits before the user is read back; the read failing leaves
    the row. *)
Definition Users_Register (db : IamDB) (u : User) : res iam_error (User * bool) * IamDB :=
  match InsertUserIfNew db u with
  | Err e => (Err e, db)
  | Ok ins =>
      let '(db, created) := match ins with Some db => (db, true) | None => (db, false) end in
      (match UserByPhone db (e164 (us_phone u)) with
       | None => Err ErrStorage
       | Some row => let! stored := toUser row in Ok (stored, created)
       end, db)
  end.

Definition UserByID (db : IamDB) (id : UserID) : option UserRow := users db !! id.

Definition Users_ByID (db : IamDB) (id : UserID) : res iam_error User :=
  match UserByID db id with None => Err ErrNotFound | Some row => toUser row end.

(** ** Sessions (sessions.go) *)

Definition revokeReason (s : Session) : option string := if negb (Session_IsRevoked s) then None else Some (ses_revokeReason s).
Definition toRevokeReason (stored : option string) : string := default "" stored.

Definition session_row (s : Session) : SessionRow :=
  MkSessionRow (ses_id s) (ses_userID s) (stored_time (ses_createdAt s)) (stored_time (ses_lastRefreshedAt s))
    (stored_time <$> ses_revokedAt s) (revokeReason s).

Definition InsertRefreshToken (db : IamDB) (row : TokenRow) : res iam_error IamDB :=
  check! token_checks row && bool_decide (tokens db !! tr_TokenHash row = None) && present (sessions db !! tr_SessionID row) else ErrStorage in
  Ok (set_tokens db (<[tr_TokenHash row := row]> (tokens db))).

Definition insertRefreshToken (db : IamDB) (t : RefreshToken) : res iam_error IamDB :=
  InsertRefreshToken db
    (MkTokenRow (rt_hash t) (rt_sessionID t) (stored_time (rt_createdAt t)) (stored_time (rt_expiresAt t)) (stored_time <$> rt_usedAt t)).

Definition InsertSession (db : IamDB) (row : SessionRow) : res iam_error IamDB :=
  check! session_checks row && bool_decide (sessions db !! sr_ID row = None) && present (users db !! sr_UserID row) else ErrStorage in
  Ok (set_sessions db (<[sr_ID row := row]> (sessions db))).

Definition Sessions_Start (db : IamDB) (s : Session) (first : RefreshToken) : res iam_error IamDB :=
  let! db := InsertSession db (session_row s) in
  insertRefreshToken db first.

Definition toSession (id : SessionID) (r : SessionRow) : Session :=
  RehydrateSession id (sr_UserID r) (sr_CreatedAt r) (sr_LastRefreshedAt r) (sr_RevokedAt r) (toRevokeReason (sr_RevokeReason r)).

Definition update_session (r : SessionRow) (s : Session) : SessionRow :=
  MkSessionRow (sr_ID r) (sr_UserID r) (sr_CreatedAt r) (stored_time (ses_lastRefreshedAt s)) (stored_time <$> ses_revokedAt s) (revokeReason s).

(** Updating a session that is gone changes nothing. *)
Definition UpdateSession (db : IamDB) (s : Session) : res iam_error IamDB :=
  match sessions db !! ses_id s with
  | None => Ok db
  | Some r =>
      check! session_checks (update_session r s) else ErrStorage in
      Ok (set_sessions db (<[ses_id s := update_session r s]> (sessions db)))
  end.

Definition saveSession (db : IamDB) (s : Session) : res iam_error IamDB := UpdateSession db s.

Definition MarkRefreshTokenUsed (db : IamDB) (hash : string) (at_ : time) : IamDB :=
  set_tokens db (alter (λ r, MkTokenRow (tr_TokenHash r) (tr_SessionID r) (tr_CreatedAt r) (tr_ExpiresAt r) (Some (stored_time at_))) hash (tokens db)).

(** The token joined with its session. *)
Definition RefreshTokenForUpdate (db : IamDB) (hash : string) : option (TokenRow * SessionRow) :=
  match tokens db !! hash with
  | None => None
  | Some row => match sessions db !! tr_SessionID row with None => None | Some srow => Some (row, srow) end
  end.

Definition SessionForUpdate (db : IamDB) (id : SessionID) : option SessionRow := sessions db !! id.

(** [Rotate] with [fn] as the next token, what it records outside, and the
    session and token it leaves. *)
Definition Sessions_Rotate {A} (db : IamDB) (hash : string)
    (fn : Session → RefreshToken → res iam_error (A * option RefreshToken * Session * RefreshToken)) : res iam_error (A * IamDB) :=
  match RefreshTokenForUpdate db hash with
  | None => Err ErrNotFound
  | Some (row, srow) =>
      let! r := fn (toSession (tr_SessionID row) srow)
               (RehydrateRefreshToken (tr_TokenHash row) (tr_SessionID row) (tr_CreatedAt row) (tr_ExpiresAt row) (tr_UsedAt row)) in
      let '(a, next, session, token) := r in
      let! db := saveSession db session in
      let db := match rt_usedAt token, tr_UsedAt row with
                | Some used, None => MarkRefreshTokenUsed db (rt_hash token) used
                | _, _ => db
                end in
      let! db := match next with Some t => insertRefreshToken db t | None => Ok db end in
      Ok (a, db)
  end.

Definition Sessions_Update (db : IamDB) (id : SessionID) (fn : Session → res iam_error Session) : res iam_error IamDB :=
  match SessionForUpdate db id with
  | None => Err ErrNotFound
  | Some r =>
      let! s := fn (toSession id r) in
      saveSession db s
  end.
