(* ===== verification/IamApp.v ===== *)
(** * Identity's use cases
      (src/internal/iam/app, adapters/otpcode, adapters/tokens/refresh.go, module.go)

    Signing in with a code, refreshing, signing out. A handler of several
    transactions takes functions of the tables, [between1] and [between2]:
    what other requests commit between its own; it answers with its result
    and the tables it leaves. The random source, the clock, the SMS sender
    and the signer of access tokens are arguments. *)
From S2P Require Import Prelude GoTime GoText GoCrypto GoEncoding Shared Iam IamStore.
Open Scope Z_scope.

(** ** Codes (otpcode.go) *)

(** [RandomCodes.NewCode]; [n] is what [rand.Int] below a million gave. *)
Definition NewCode (n : Z) : res iam_error OTPCode := ParseOTPCode (fmt_0d 6 n).

Definition MinSecretLen : Z := 32.

Definition NewHMACHasher (secret : string) : res iam_error string := if len secret <? MinSecretLen then Err ErrInternal else Ok secret.

Definition Hash_code (secret : string) (c : OTPCode) : string := HMAC_Sum256 secret (digits c).

(** ** Refresh tokens (refresh.go) *)

Definition refreshPrefix : string := "rt_".
Definition refreshBytes : nat := 32.

(** [RefreshSecrets.New]: the token of 32 random bytes and its stored form. *)
Definition New_refresh (b : list Z) : string * string :=
  let token := refreshPrefix +:+ EncodeToString b in (token, Sum256 token).

(** [RefreshSecrets.Hash]; [None] is a token that was never issued. *)
Definition Hash_refresh (token : string) : option string :=
  match CutPrefix token refreshPrefix with
  | None => None
  | Some body =>
      match DecodeString body with
      | Some b => if (length b =? refreshBytes)%nat then Some (Sum256 token) else None
      | None => None
      end
  end.

(** ** What the use cases ask (ports.go) *)

Record AccessClaims := MkClaims {
  ac_UserID : UserID; ac_SessionID : SessionID; ac_PlatformRole : string; ac_IssuedAt : time; ac_ExpiresAt : time }.

Class IamPorts := {
  SendOTP : PhoneNumber → OTPCode → bool;
  Issue : AccessClaims → res iam_error string }.

Record OTPRequested := MkRequested { rq_ExpiresIn : Duration; rq_ResendAfter : Duration }.
Record Tokens := MkTokens { tk_Access : string; tk_AccessExpiresIn : Duration; tk_Refresh : string; tk_RefreshExpiresIn : Duration }.

(** [Locale] is [None] for "". *)
Record VerifyOTP := MkVerify { vo_Phone : string; vo_Code : string; vo_Locale : option Language }.
Record Login := MkLogin { lg_User : User; lg_IsNewUser : bool; lg_Tokens : Tokens }.

Section Handlers.
Context (secret : string) (policy : OTPPolicy) (token_policy : TokenPolicy) `{IamPorts}.

(** ** Asking for a code (request_otp.go) *)

(** [codes] is what the generator gives, should it be asked. *)
Definition RequestOTP_tx (db : IamDB) (now : time) (newID : OTPChallengeID) (codes : res iam_error OTPCode) (phone : PhoneNumber)
    : res iam_error (OTPCode * IamDB) :=
  WithPhoneLock db (λ db,
    let! _ := match Guard_Check (LoadGuard db phone) now with Some err => Err err | None => Ok tt end in
    let! _ := match Latest db phone with
              | Err ErrNotFound => Ok tt
              | Err e => Err e
              | Ok latest =>
                  let wait := Sub (GoTime.Add (oc_createdAt latest) (ResendCooldown policy)) now in
                  if 0 <? wait then Err (RetryLaterError ErrOTPCooldown wait) else Ok tt
              end in
    let sent := CountSince db phone (GoTime.Add now (- Hour)) in
    check! negb (MaxPerHour policy <=? sent) else RetryLaterError ErrOTPRateLimited Hour in
    let! code := codes in
    let! challenge := NewOTPChallenge newID phone (Hash_code secret code) now (TTL policy) in
    let! db := Challenges_Add db challenge in
    Ok (code, db)).

Definition RequestOTP_handler (db : IamDB) (now : time) (newID : OTPChallengeID) (codes : res iam_error OTPCode) (raw : string)
    : res iam_error OTPRequested * IamDB :=
  match NewPhoneNumber raw with
  | Err e => (Err (ErrPhone e), db)
  | Ok phone =>
      match RequestOTP_tx db now newID codes phone with
      | Err e => (Err e, db)
      | Ok (code, db) => (if SendOTP phone code then Ok (MkRequested (TTL policy) (ResendCooldown policy)) else Err ErrUpstream, db)
      end
  end.

(** ** Starting a session (sessions.go) *)

Definition issue_tokens (user : User) (session : SessionID) (refresh : string) (now : time) : res iam_error Tokens :=
  let! access := Issue (MkClaims (us_id user) session (us_role user) now (GoTime.Add now (AccessTTL token_policy))) in
  Ok (MkTokens access (AccessTTL token_policy) refresh (RefreshTTL token_policy)).

Definition Start_tx (db : IamDB) (now : time) (newID : SessionID) (b : list Z) (user : User) : res iam_error IamDB :=
  let! session := NewSession newID (us_id user) now in
  let! first := NewRefreshToken (New_refresh b).2 (ses_id session) now (RefreshTTL token_policy) in
  Sessions_Start db session first.

Definition Start (db : IamDB) (now : time) (newID : SessionID) (b : list Z) (user : User) : res iam_error Tokens * IamDB :=
  match Start_tx db now newID b user with
  | Err e => (Err e, db)
  | Ok db => (issue_tokens user newID (New_refresh b).1 now, db)
  end.

(** ** Checking a code (verify_otp.go) *)

(** The transaction: what is wrong with the attempt, if anything, and the
    tables with the attempt counted. *)
Definition VerifyOTP_tx (db : IamDB) (now : time) (phone : PhoneNumber) (code : OTPCode) : res iam_error (option iam_error * IamDB) :=
  WithPhoneLock db (λ db,
    let guard := LoadGuard db phone in
    let! _ := match Guard_Check guard now with Some err => Err err | None => Ok tt end in
    let! vd := match UpdateLatest db phone (λ c, Ok (Verify c (Hash_code secret code) now (MaxAttempts policy))) with
               | Err ErrNotFound => Ok (Some ErrOTPInvalid, db)
               | Err e => Err e
               | Ok vd => Ok vd
               end in
    let '(verifyErr, db) := vd in
    let '(verifyErr, guard) :=
      match verifyErr with
      | None => (None, Guard_Reset guard)
      | Some _ => let '(lockErr, guard) := Guard_Fail guard now policy in
                  (match lockErr with Some _ => lockErr | None => verifyErr end, guard)
      end in
    let! db := SaveGuard db phone guard in
    Ok (verifyErr, db)).

Definition VerifyOTP_handler (between1 between2 : IamDB → IamDB) (db : IamDB) (now1 now2 now3 : time) (newUser : UserID) (newSession : SessionID)
    (b : list Z) (cmd : VerifyOTP) : res iam_error Login * IamDB :=
  match NewPhoneNumber (vo_Phone cmd) with
  | Err e => (Err (ErrPhone e), db)
  | Ok phone =>
      match ParseOTPCode (vo_Code cmd) with
      | Err e => (Err e, db)
      | Ok code =>
          match VerifyOTP_tx db now1 phone code with
          | Err e => (Err e, db)
          | Ok (Some e, db) => (Err e, db)
          | Ok (None, db) =>
              let '(registered, db) := Users_Register (between1 db) (NewUser newUser phone (default Arabic (vo_Locale cmd)) now2) in
              match registered with
              | Err e => (Err e, db)
              | Ok (user, created) =>
                  if IsBlocked user then (Err ErrUserBlocked, db)
                  else
                    let '(started, db) := Start (between2 db) now3 newSession b user in
                    (let! tokens := started in Ok (MkLogin user created tokens), db)
              end
          end
      end
  end.

(** ** Refreshing (sessions.go) *)

Definition Rotate_tx (db : IamDB) (now : time) (hash nextHash : string) : res iam_error (Session * option iam_error * IamDB) :=
  Sessions_Rotate db hash (λ sess presented,
    let '(next, sess, presented) := Session_Rotate sess presented nextHash now token_policy in
    Ok (sess, match next with Ok _ => None | Err refused => Some refused end,
        match next with Ok t => Some t | Err _ => None end, sess, presented)).

Definition Block_tx (db : IamDB) (now : time) (session : SessionID) : res iam_error IamDB :=
  Sessions_Update db session (λ s, Ok (Session_Revoke s now RevokedBlocked)).

Definition Refresh_handler (between1 between2 : IamDB → IamDB) (db : IamDB) (now : time) (b : list Z) (raw : string)
    : res iam_error Tokens * IamDB :=
  match Hash_refresh raw with
  | None => (Err ErrRefreshTokenInvalid, db)
  | Some hash =>
      let '(nextRefresh, nextHash) := New_refresh b in
      match Rotate_tx db now hash nextHash with
      | Err ErrNotFound => (Err ErrRefreshTokenInvalid, db)
      | Err e => (Err e, db)
      | Ok (_, Some refused, db) => (Err refused, db)
      | Ok (session, None, db) =>
          let db := between1 db in
          match Users_ByID db (ses_userID session) with
          | Err ErrNotFound => (Err ErrRefreshTokenInvalid, db)
          | Err e => (Err e, db)
          | Ok user =>
              if IsBlocked user then
                let db := between2 db in
                match Block_tx db now (ses_id session) with
                | Err e => (Err e, db)
                | Ok db => (Err ErrUserBlocked, db)
                end
              else (issue_tokens user (ses_id session) nextRefresh now, db)
          end
      end
  end.

(** ** Signing out, and who is asking (sessions.go) *)

Definition Logout_tx (db : IamDB) (now : time) (user : UserID) (session : SessionID) : res iam_error IamDB :=
  Sessions_Update db session (λ s,
    if negb (bool_decide (ses_userID s = user)) then Err ErrNotFound else Ok (Session_Revoke s now RevokedLogout)).

Definition Logout_handler (db : IamDB) (now : time) (user : UserID) (session : SessionID) : res iam_error IamDB :=
  match Logout_tx db now user session with
  | Err ErrNotFound => Ok db
  | r => r
  end.

Definition GetMe_handler (db : IamDB) (user : UserID) : res iam_error User :=
  match Users_ByID db user with
  | Err ErrNotFound => Err ErrUnauthenticated
  | Err e => Err e
  | Ok u => if IsBlocked u then Err ErrUserBlocked else Ok u
  end.
End Handlers.

(** ** What other modules ask (module.go)

    [ErrUnknownUser] is [ErrNotFound] here. *)
Definition PhoneOf (db : IamDB) (id : UserID) : res iam_error PhoneNumber :=
  let! u := Users_ByID db id in Ok (us_phone u).
