(* ===== verification/IamFacts.v ===== *)
(** * What the identity tables keep

    What a well-formed state of the iam schema is, that each transaction of
    IamApp keeps it, and what each transaction does, on every branch. *)
From S2P Require Import Prelude GoTime GoText GoCrypto GoEncoding Shared Tables Iam IamStore IamApp.
Open Scope Z_scope.

(** ** Well-formed tables *)

Definition canonical (phone : string) : Prop := NewPhoneNumber phone = Ok (MkPhone phone).

Lemma NewPhoneNumber_canonical raw p : NewPhoneNumber raw = Ok p → canonical (e164 p).
Proof. intros H%NewPhoneNumber_stored. unfold canonical. by rewrite H; destruct p. Qed.

Record challenge_ok (id : OTPChallengeID) (r : ChallengeRow) : Prop := {
  ch_key : cr_ID r = id;
  ch_phone : canonical (cr_Phone r);
  ch_attempts : 0 ≤ cr_Attempts r ≤ 5;
  ch_created : is_stored (cr_CreatedAt r);
  ch_expires : cr_ExpiresAt r = cr_CreatedAt r + 5 * Minute;
  ch_consumed : ∀ t, cr_ConsumedAt r = Some t → is_stored t }.

(** Sent to [phone] within the hour that starts at [t]. *)
Definition in_hour (phone : string) (t : time) (r : ChallengeRow) : bool :=
  of_phone phone r && (t <=? cr_CreatedAt r) && (cr_CreatedAt r <=? t + Hour).

Record challenges_ok (t : gmap OTPChallengeID ChallengeRow) : Prop := {
  chs_rows : ∀ id r, t !! id = Some r → challenge_ok id r;
  chs_apart : ∀ id id' r r', t !! id = Some r → t !! id' = Some r' → id ≠ id' → cr_Phone r = cr_Phone r' →
    cr_CreatedAt r + Minute ≤ cr_CreatedAt r' ∨ cr_CreatedAt r' + Minute ≤ cr_CreatedAt r;
  chs_hour : ∀ phone s, count_where (in_hour phone s) t ≤ 5 }.

(** Ten failures lock. *)
Definition guard_ok (r : GuardRow) : Prop := 0 ≤ gr_Failures r ≤ 10 ∧ (gr_Failures r = 10 → gr_LockedUntil r ≠ zero_time).

Record user_ok (id : UserID) (r : UserRow) : Prop := {
  ur_key : ur_ID r = id;
  ur_phone : canonical (ur_Phone r);
  ur_checks : user_checks r = true }.

Record session_ok (us : gmap UserID UserRow) (id : SessionID) (r : SessionRow) : Prop := {
  ss_key : sr_ID r = id;
  ss_nonzero : id ≠ MkID 0;
  ss_user : is_Some (us !! sr_UserID r);
  ss_checks : session_checks r = true;
  ss_refreshed : is_stored (sr_LastRefreshedAt r);
  ss_revoked : ∀ t, sr_RevokedAt r = Some t → is_stored t }.

Definition unused (id : SessionID) (r : TokenRow) : bool := bool_decide (tr_SessionID r = id) && negb (present (tr_UsedAt r)).

Record iam_ok (db : IamDB) : Prop := {
  io_users : ∀ id r, users db !! id = Some r → user_ok id r;
  io_phones : unique same_phone (users db);
  io_challenges : challenges_ok (challenges db);
  io_guards : ∀ phone r, guards db !! phone = Some r → guard_ok r;
  io_sessions : ∀ id r, sessions db !! id = Some r → session_ok (users db) id r;
  io_tokens : ∀ h r, tokens db !! h = Some r → tr_TokenHash r = h ∧ is_Some (sessions db !! tr_SessionID r);
  io_one : ∀ id, is_Some (sessions db !! id) → count_where (unused id) (tokens db) = 1 }.

Lemma empty_iam_ok : iam_ok empty_iam_db.
Proof.
  constructor; cbn [users challenges guards sessions tokens empty_iam_db]; [|apply unique_empty|constructor; [| |done]|..]; intros.
  all: match goal with
       | E : ∅ !! _ = Some _ |- _ => by rewrite lookup_empty in E
       | E : is_Some (∅ !! _) |- _ => rewrite lookup_empty in E; by destruct E
       end.
Qed.

(** ** The latest challenge *)

Lemma newer_total a b : newer a b = false → newer b a = true.
Proof.
  unfold newer. destruct (Z.ltb_spec (cr_CreatedAt b) (cr_CreatedAt a)); [done|]. destruct (Z.ltb_spec (cr_CreatedAt a) (cr_CreatedAt b)); [done|].
  intros Hle%N.leb_gt. apply N.leb_le. lia.
Qed.

Lemma newer_created a b : newer a b = true → cr_CreatedAt b ≤ cr_CreatedAt a.
Proof.
  unfold newer. destruct (Z.ltb_spec (cr_CreatedAt b) (cr_CreatedAt a)); [lia|]. destruct (Z.ltb_spec (cr_CreatedAt a) (cr_CreatedAt b)); [done|lia].
Qed.

Lemma newer_trans a b c : newer a b = true → newer b c = true → newer a c = true.
Proof.
  unfold newer. intros H1 H2. repeat match goal with H : context [if ?x <? ?y then _ else _] |- _ => destruct (Z.ltb_spec x y) in H end; try done.
  all: repeat match goal with |- context [if ?x <? ?y then _ else _] => destruct (Z.ltb_spec x y) end; try done; try lia.
  apply N.leb_le in H1, H2. apply N.leb_le. lia.
Qed.

Lemma Latest_none db phone : LatestOTPChallenge db phone = None ↔ ∀ id r, challenges db !! id = Some r → cr_Phone r ≠ phone.
Proof.
  unfold LatestOTPChallenge. assert (E : head (sort_by newer (rows_where (of_phone phone) (challenges db))) = None ↔ rows_where (of_phone phone) (challenges db) = []).
  { split; [|by intros ->]. intros Hn. assert (Hl : sort_by newer (rows_where (of_phone phone) (challenges db)) = []) by (by destruct (sort_by _ _)).
    apply length_zero_iff_nil. by rewrite <- (length_sort_by newer), Hl. }
  rewrite E, rows_where_nil. unfold of_phone. setoid_rewrite bool_decide_eq_false. done.
Qed.

Lemma Latest_some db phone r : iam_ok db → LatestOTPChallenge db phone = Some r →
  challenges db !! cr_ID r = Some r ∧ cr_Phone r = phone ∧ challenge_ok (cr_ID r) r ∧
  ∀ id o, challenges db !! id = Some o → cr_Phone o = phone → cr_CreatedAt o ≤ cr_CreatedAt r.
Proof.
  intros Hdb Hl. unfold LatestOTPChallenge in Hl. pose proof (sort_by_sorted newer newer_total newer_trans (rows_where (of_phone phone) (challenges db))) as Hs.
  assert (Hperm : ∀ x, x ∈ sort_by newer (rows_where (of_phone phone) (challenges db)) ↔ ∃ k, challenges db !! k = Some x ∧ cr_Phone x = phone).
  { intros x. rewrite elem_of_sort_by, elem_of_rows_where. unfold of_phone. by setoid_rewrite bool_decide_eq_true. }
  destruct (sort_by _ _) as [|r' l] eqn:E; [done|]. injection Hl as ->. destruct (proj1 (Hperm r) ltac:(by left)) as (id & Hid & Hp).
  pose proof (chs_rows _ (io_challenges _ Hdb) _ _ Hid) as Hok. rewrite (ch_key _ _ Hok) in *. split_and!; try done.
  intros id' o Ho Hop. destruct (proj1 (elem_of_cons l o r) (proj2 (Hperm o) (ex_intro _ id' (conj Ho Hop)))) as [->|Hin]; [lia|]. inversion Hs as [|? ? _ Hall]; subst. rewrite Forall_forall in Hall.
  by apply newer_created, Hall.
Qed.

Lemma toOTPChallenge_row id r : challenge_ok id r →
  toOTPChallenge r = Ok (MkChallenge (cr_ID r) (MkPhone (cr_Phone r)) (cr_CodeHash r) (cr_Attempts r) (cr_CreatedAt r) (cr_ExpiresAt r) (cr_ConsumedAt r)).
Proof. intros Hr. unfold toOTPChallenge. by rewrite (ch_phone _ _ Hr). Qed.

(** ** Asking for a code *)

Definition new_challenge_row (secret : string) (id : OTPChallengeID) (phone : PhoneNumber) (code : OTPCode) (now : time) : ChallengeRow :=
  MkChallengeRow id (e164 phone) (Hash_code secret code) 0 (stored_time now) (stored_time now + 5 * Minute) None.

Definition with_challenge (db : IamDB) (r : ChallengeRow) : IamDB := set_challenges db (<[cr_ID r := r]> (challenges db)).

(** What must hold for a new code to be sent to [phone] at [now]. *)
Record may_send (db : IamDB) (phone : PhoneNumber) (now : time) : Prop := {
  ms_unlocked : og_lockedUntil (LoadGuard db phone) ≤ now;
  ms_cooldown : ∀ id o, challenges db !! id = Some o → cr_Phone o = e164 phone → cr_CreatedAt o + Minute ≤ stored_time now;
  ms_hour : CountSince db phone (now - Hour) < 5 }.

Lemma Guard_Check_none g now : Guard_Check g now = None ↔ og_lockedUntil g ≤ now.
Proof. unfold Guard_Check, Before. destruct (Z.ltb_spec now (og_lockedUntil g)); split; try done; lia. Qed.

Lemma Latest_challenge db phone : iam_ok db →
  match LatestOTPChallenge db (e164 phone) with
  | None => Latest db phone = Err ErrNotFound
  | Some r => Latest db phone = Ok (MkChallenge (cr_ID r) (MkPhone (cr_Phone r)) (cr_CodeHash r) (cr_Attempts r) (cr_CreatedAt r) (cr_ExpiresAt r) (cr_ConsumedAt r))
  end.
Proof.
  intros Hdb. unfold Latest. destruct (LatestOTPChallenge db (e164 phone)) as [r|] eqn:E; [|done].
  destruct (Latest_some db _ r Hdb E) as (_ & _ & Hr & _). by apply (toOTPChallenge_row (cr_ID r)).
Qed.

Lemma RequestOTP_tx_ok secret db now id codes phone code db' : iam_ok db →
  RequestOTP_tx secret DefaultOTPPolicy db now id codes phone = Ok (code, db') →
  codes = Ok code ∧ challenges db !! id = None ∧ may_send db phone now ∧ db' = with_challenge db (new_challenge_row secret id phone code now).
Proof.
  intros Hdb Htx. unfold RequestOTP_tx, WithPhoneLock in Htx. apply res_bind_ok in Htx as (? & Hg & Htx).
  destruct (Guard_Check _ now) as [|] eqn:Hguard in Hg; [done|]. apply Guard_Check_none in Hguard. clear Hg.
  apply res_bind_ok in Htx as (? & Hl & Htx). apply res_bind_ok in Htx as (? & Hc & Htx). apply res_bind_ok in Htx as (code' & Hcode & Htx).
  apply res_bind_ok in Htx as (c & Hnew & Htx). apply res_bind_ok in Htx as (db1 & Hadd & Htx). injection Htx as -> ->.
  apply ensure_ok in Hc. cbn [MaxPerHour DefaultOTPPolicy] in Hc. bool_prop.
  unfold NewOTPChallenge in Hnew. destruct (_ || _) in Hnew; [done|]. destruct (_ =? _) in Hnew; [done|]. destruct (_ <=? _) in Hnew; [done|].
  injection Hnew as <-. unfold Challenges_Add, InsertOTPChallenge, challenge_row in Hadd. cbn [oc_id oc_phone oc_codeHash oc_attempts oc_createdAt oc_expiresAt oc_consumedAt] in Hadd.
  change (toInt16 0) with (@Ok iam_error Z 0) in Hadd. cbn [res_bind] in Hadd. apply res_bind_ok in Hadd as (? & Hchk & Hadd). injection Hadd as <-.
  apply ensure_ok in Hchk. bool_prop. split_and!; try done.
  - constructor; [done| |done]. intros id' o Ho Hop. pose proof (Latest_challenge db phone Hdb) as Hlat.
    destruct (LatestOTPChallenge db (e164 phone)) as [r|] eqn:El; [|by destruct (proj1 (Latest_none _ _) El _ _ Ho)].
    rewrite Hlat in Hl. cbn [oc_createdAt ResendCooldown DefaultOTPPolicy] in Hl. destruct (0 <? _) eqn:Hw in Hl; [done|]. bool_prop.
    destruct (Latest_some db _ r Hdb El) as (_ & _ & Hr & Hmax). specialize (Hmax id' o Ho Hop).
    assert (Hle : cr_CreatedAt r + Minute ≤ now) by (unfold Sub, GoTime.Add, min_int64, max_int64 in *; lia).
    apply stored_time_mono in Hle. rewrite <- (Z.mul_1_l Minute), stored_minutes, (ch_created _ _ Hr) in Hle. lia.
  - unfold with_challenge, new_challenge_row. cbn [cr_ID]. unfold GoTime.Add. cbn [TTL DefaultOTPPolicy]. by rewrite stored_minutes.
Qed.

(** When a code may be sent, it is. *)
Lemma RequestOTP_tx_sends secret db now id code phone : iam_ok db →
  may_send db phone now → id ≠ MkID 0 → e164 phone ≠ "" → challenges db !! id = None →
  RequestOTP_tx secret DefaultOTPPolicy db now id (Ok code) phone = Ok (code, with_challenge db (new_challenge_row secret id phone code now)).
Proof.
  intros Hdb [Hg Hc Hh] Hid Hphone Hfree. unfold RequestOTP_tx, WithPhoneLock. rewrite (proj2 (Guard_Check_none _ _) Hg). cbn [res_bind].
  pose proof (Latest_challenge db phone Hdb) as Hlat. match goal with |- res_bind ?m _ = _ => assert (Hgate : m = Ok tt) end.
  { destruct (LatestOTPChallenge db (e164 phone)) as [r|] eqn:El; [|by rewrite Hlat]. rewrite Hlat. cbn [oc_createdAt ResendCooldown DefaultOTPPolicy].
    destruct (Latest_some db _ r Hdb El) as (Hin & Hp & _ & _). specialize (Hc _ _ Hin Hp). pose proof (stored_time_le now).
    destruct (Z.ltb_spec 0 (Sub (GoTime.Add (cr_CreatedAt r) Minute) now)); [|done]. unfold Sub, GoTime.Add, min_int64, max_int64 in *. lia. }
  rewrite Hgate. cbn [res_bind]. unfold GoTime.Add at 1. rewrite Z.add_opp_r. cbn [MaxPerHour DefaultOTPPolicy].
  rewrite (proj2 (Z.leb_gt 5 _)) by lia. cbn [negb ensure res_bind]. unfold NewOTPChallenge, ID_IsZero, Phone_IsZero.
  rewrite (bool_decide_eq_false_2 (value id = 0%N)) by (destruct id; cbn; congruence). rewrite bool_decide_eq_false_2 by done.
  pose proof (len_HMAC secret (digits code)) as Hlen. unfold Hash_code. rewrite Hlen. cbn [orb Z.eqb TTL DefaultOTPPolicy]. rewrite (proj2 (Z.leb_gt (5 * Minute) 0)) by done.
  cbn [res_bind]. unfold Challenges_Add, InsertOTPChallenge, challenge_row. cbn [oc_id oc_phone oc_codeHash oc_attempts oc_createdAt oc_expiresAt oc_consumedAt].
  change (toInt16 0) with (@Ok iam_error Z 0). cbn [res_bind]. unfold GoTime.Add. rewrite stored_minutes. unfold challenge_checks. cbn [cr_Attempts cr_CreatedAt cr_ExpiresAt].
  rewrite (proj2 (Z.ltb_lt _ _)), bool_decide_eq_true_2 by (done || (unfold Minute, Second, Millisecond, Microsecond; lia)). done.
Qed.

Lemma with_challenge_ok secret db id phone code now : iam_ok db → canonical (e164 phone) → challenges db !! id = None → may_send db phone now →
  iam_ok (with_challenge db (new_challenge_row secret id phone code now)).
Proof.
  intros Hdb Hphone Hfree [_ Hc Hh]. destruct Hdb as [H1 H2 [C1 C2 C3] H4 H5 H6 H7]. constructor; try done. cbn [with_challenge set_challenges challenges new_challenge_row cr_ID].
  constructor.
  - intros id' r [[<- <-]|[_ Hr]]%lookup_insert_Some; [|by apply C1]. constructor; cbn; try done. apply stored_is_stored.
  - intros i1 i2 r1 r2 [[<- <-]|[N1 Hr1]]%lookup_insert_Some [[<- <-]|[N2 Hr2]]%lookup_insert_Some Hne Hp; cbn in *; [done|..].
    + right. by eapply Hc.
    + left. by eapply Hc.
    + by eapply C2.
  - intros p s. rewrite count_where_new by done. set (row := new_challenge_row secret id phone code now).
    destruct (in_hour p s row) eqn:Hin; cbn [Z.b2z]; [|specialize (C3 p s); lia].
    enough (count_where (in_hour p s) (challenges db) ≤ CountSince db phone (now - Hour)) by lia.
    unfold CountSince, CountOTPChallengesSince. apply count_where_impl. intros k r _ Hr. unfold in_hour, row, new_challenge_row, of_phone in *. cbn [cr_Phone cr_CreatedAt] in Hin. bool_prop. subst p.
    rewrite bool_decide_eq_true_2 by done. apply Z.leb_le. change Hour with (60 * Minute). rewrite <- Z.add_opp_r.
    replace (- (60 * Minute)) with ((-60) * Minute) by lia. rewrite stored_minutes. unfold Hour in *. unfold Minute, Second, Millisecond, Microsecond in *. lia.
Qed.

(** ** Guessing a code *)

(** Whether a guess at [now] is compared with the code at all. *)
Definition usable (r : ChallengeRow) (now : time) : bool :=
  negb (present (cr_ConsumedAt r)) && (now <? cr_ExpiresAt r) && (cr_Attempts r <? 5).

Definition right_guess (secret : string) (r : ChallengeRow) (code : OTPCode) : bool := bool_decide (cr_CodeHash r = Hash_code secret code).

(** The challenge with one more guess counted. *)
Definition guessed (r : ChallengeRow) (now : time) (right : bool) : ChallengeRow :=
  update_challenge r (cr_Attempts r + 1) (if right then Some now else None).

(** Why a guess is not compared. *)
Definition unusable_error (o : option ChallengeRow) (now : time) : iam_error :=
  match o with
  | None => ErrOTPInvalid
  | Some r => if present (cr_ConsumedAt r) then ErrOTPInvalid else if cr_ExpiresAt r <=? now then ErrOTPExpired else ErrOTPTooManyAttempts
  end.

Definition with_guard (db : IamDB) (phone : PhoneNumber) (g : OTPGuard) : IamDB :=
  set_guards db (<[e164 phone := MkGuardRow (og_failures g) (stored_time (og_windowStart g)) (stored_time (og_lockedUntil g))]> (guards db)).

(** Whether failures are counted anew: the window is over, or a lockout is. *)
Definition counts_anew (g : OTPGuard) (now : time) : bool := (og_windowStart g + 15 * Minute <=? now) || negb (IsZero (og_lockedUntil g)).

Definition next_failures (g : OTPGuard) (now : time) : Z := if counts_anew g now then 1 else og_failures g + 1.

Definition failed_guard (g : OTPGuard) (now : time) : OTPGuard :=
  MkGuard (next_failures g now) (if counts_anew g now || (og_failures g =? 0) then now else og_windowStart g)
    (if 10 <=? next_failures g now then now + 15 * Minute else zero_time).

(** The tenth failure is answered with the lockout, any other with what was
    wrong. *)
Definition failed_error (g : OTPGuard) (now : time) (e : iam_error) : iam_error :=
  if 10 <=? next_failures g now then RetryLaterError ErrOTPLocked (15 * Minute) else e.

Definition good_guard (g : OTPGuard) : Prop := 0 ≤ og_failures g ≤ 10 ∧ (og_failures g = 10 → og_lockedUntil g ≠ zero_time).

Lemma LoadGuard_good db phone : iam_ok db → good_guard (LoadGuard db phone).
Proof.
  intros Hdb. unfold LoadGuard, LoadOTPGuard. destruct (guards db !! e164 phone) as [r|] eqn:E; [by apply (io_guards _ Hdb _ _ E)|]. split; cbn; lia.
Qed.

Lemma Guard_Fail_spec g now : good_guard g → 0 ≤ now → og_lockedUntil g ≤ now →
  Guard_Fail g now DefaultOTPPolicy =
    (if 10 <=? next_failures g now then Some (RetryLaterError ErrOTPLocked (15 * Minute)) else None, failed_guard g now) ∧
  1 ≤ next_failures g now ≤ 10.
Proof.
  intros [Hf H10] Hnow Hun. assert (Hz : zero_time < 0) by done. assert (Hm : 0 < 15 * Minute) by done.
  assert (Hnext : 1 ≤ next_failures g now ≤ 10).
  { unfold next_failures, counts_anew, IsZero. destruct (Z.leb_spec (og_windowStart g + 15 * Minute) now); cbn [orb]; [lia|].
    destruct (Z.eqb_spec (og_lockedUntil g) zero_time) as [E|E]; cbn [negb]; [|lia]. destruct (decide (og_failures g = 10)) as [E2|]; [by destruct (H10 E2)|lia]. }
  split; [|done]. unfold Guard_Fail. rewrite (proj2 (Guard_Check_none _ _) Hun). cbn [FailureWindow Lockout MaxFailures DefaultOTPPolicy].
  replace (negb (Before now (GoTime.Add (og_windowStart g) (15 * Minute))) || negb (IsZero (og_lockedUntil g)) && negb (Before now (og_lockedUntil g)))
    with (counts_anew g now).
  2:{ unfold counts_anew, Before, GoTime.Add. rewrite (proj2 (Z.ltb_ge now (og_lockedUntil g))) by done. cbn [negb]. rewrite andb_true_r. f_equal.
      by rewrite <- Z.leb_antisym. }
  unfold failed_guard, next_failures in *. destruct (counts_anew g now) eqn:Hc; cbn [Guard_Reset zero_guard og_failures og_windowStart og_lockedUntil orb].
  - change (10 <=? 0 + 1) with false. change (10 <=? 1) with false. cbn [Z.eqb]. change (0 + 1) with 1. f_equal.
    apply Guard_Check_none. cbn [og_lockedUntil]. lia.
  - unfold counts_anew in Hc. apply orb_false_elim in Hc as [_ Hc]. apply negb_false_iff, Z.eqb_eq in Hc. rewrite Hc. unfold GoTime.Add.
    destruct (Z.leb_spec 10 (og_failures g + 1)); f_equal; unfold Guard_Check, Before; cbn [og_lockedUntil].
    + rewrite (proj2 (Z.ltb_lt _ _)) by lia. do 2 f_equal. unfold Sub. replace (now + 15 * Minute - now) with (15 * Minute) by lia. done.
    + by rewrite (proj2 (Z.ltb_ge _ _)) by lia.
Qed.

Lemma SaveGuard_ok db phone g : 0 ≤ og_failures g ≤ 10 → SaveGuard db phone g = Ok (with_guard db phone g).
Proof.
  intros Hf. unfold SaveGuard, SaveOTPGuard, toInt16, max_int16. rewrite (proj2 (Z.ltb_ge _ _)), (proj2 (Z.ltb_ge _ _)) by lia. cbn [orb res_bind].
  unfold guard_checks. cbn [gr_Failures]. by rewrite (proj2 (Z.leb_le _ _)) by lia.
Qed.

Lemma same_row r c : challenge_ok c r → update_challenge r (cr_Attempts r) (cr_ConsumedAt r) = r.
Proof. intros Hr. unfold update_challenge. rewrite stored_option by apply (ch_consumed _ _ Hr). by destruct r. Qed.

Lemma guess_checks r c right now : challenge_ok c r → challenge_checks (guessed r now right) = true.
Proof.
  intros Hr. unfold challenge_checks, guessed. cbn. pose proof (ch_attempts _ _ Hr). rewrite (ch_expires _ _ Hr). bool_prop.
  apply andb_true_intro. split; [apply Z.leb_le; lia|]. apply Z.ltb_lt. unfold Minute, Second, Millisecond, Microsecond. lia.
Qed.

(** What the update of the latest challenge does with a guess. *)
Definition guess_outcome (secret : string) (db : IamDB) (phone : PhoneNumber) (code : OTPCode) (now : time) : option iam_error * IamDB :=
  match LatestOTPChallenge db (e164 phone) with
  | Some r =>
      if usable r now then
        let right := right_guess secret r code in
        (if right then None else Some (if 4 <=? cr_Attempts r then ErrOTPTooManyAttempts else ErrOTPInvalid), with_challenge db (guessed r now right))
      else (Some (unusable_error (Some r) now), db)
  | None => (Some (unusable_error None now), db)
  end.

Lemma UpdateLatest_guess secret db phone code now : iam_ok db →
  match UpdateLatest db phone (λ c, Ok (Verify c (Hash_code secret code) now (MaxAttempts DefaultOTPPolicy))) with
  | Err ErrNotFound => Ok (Some ErrOTPInvalid, db)
  | Err e => Err e
  | Ok vd => Ok vd
  end = Ok (guess_outcome secret db phone code now).
Proof.
  intros Hdb. unfold UpdateLatest, guess_outcome. destruct (LatestOTPChallenge db (e164 phone)) as [r|] eqn:El; [|done].
  destruct (Latest_some db _ r Hdb El) as (Hin & Hp & Hr & _). pose proof (ch_attempts _ _ Hr) as Hatt.
  assert (Hi16 : ∀ n, 0 ≤ n ≤ 6 → toInt16 n = Ok n).
  { intros n Hn. unfold toInt16, max_int16. by rewrite (proj2 (Z.ltb_ge _ _)), (proj2 (Z.ltb_ge _ _)) by lia. }
  assert (Hsame : challenge_checks r = true).
  { unfold challenge_checks. rewrite (ch_expires _ _ Hr). apply andb_true_intro. split; [apply Z.leb_le; lia|]. apply Z.ltb_lt. unfold Minute, Second, Millisecond, Microsecond. lia. }
  rewrite (toOTPChallenge_row _ _ Hr). cbn [res_bind]. unfold Verify, usable, unusable_error, right_guess.
  cbn [oc_id oc_phone oc_codeHash oc_attempts oc_createdAt oc_expiresAt oc_consumedAt MaxAttempts DefaultOTPPolicy].
  assert (Hkeep : ∀ e : iam_error, (let! attempts := toInt16 (cr_Attempts r) in
                        let! db := UpdateOTPChallenge db (cr_ID r) attempts (cr_ConsumedAt r) in
                        Ok (Some e, db)) = @Ok iam_error (option iam_error * IamDB) (Some e, db)).
  { intros e. rewrite Hi16 by lia. cbn [res_bind]. unfold UpdateOTPChallenge. rewrite Hin, (same_row _ _ Hr), Hsame. cbn [ensure res_bind].
    rewrite insert_id by done. by destruct db. }
  assert (Hcount : ∀ right : bool, UpdateOTPChallenge db (cr_ID r) (cr_Attempts r + 1) (if right then Some now else None) = Ok (with_challenge db (guessed r now right))).
  { intros right. unfold UpdateOTPChallenge. rewrite Hin. fold (guessed r now right). by rewrite (guess_checks _ _ _ _ Hr). }
  destruct (cr_ConsumedAt r) as [t|] eqn:Ec; cbn [present negb andb fst snd]; [cbn [oc_id oc_attempts oc_consumedAt]; by rewrite Hkeep|].
  unfold Before. destruct (Z.ltb_spec now (cr_ExpiresAt r)); cbn [negb andb fst snd oc_id oc_attempts oc_consumedAt].
  2:{ rewrite Hkeep. by rewrite (proj2 (Z.leb_le _ _)) by done. }
  destruct (Z.leb_spec 5 (cr_Attempts r)); cbn [fst snd oc_id oc_attempts oc_consumedAt].
  { rewrite Hkeep, (proj2 (Z.ltb_ge _ _)) by done. by rewrite (proj2 (Z.leb_gt _ _)) by lia. }
  rewrite (proj2 (Z.ltb_lt _ 5)) by lia. replace (5 <=? cr_Attempts r + 1) with (4 <=? cr_Attempts r) by (apply eq_iff_eq_true; rewrite !Z.leb_le; lia).
  destruct (bool_decide (cr_CodeHash r = Hash_code secret code)); cbn [negb fst snd oc_id oc_attempts oc_consumedAt]; rewrite Hi16 by lia; cbn [res_bind].
  - by rewrite (Hcount true).
  - by rewrite (Hcount false).
Qed.

(** The transaction, on every branch. *)
Lemma VerifyOTP_tx_spec secret db now phone code : iam_ok db → 0 ≤ now →
  VerifyOTP_tx secret DefaultOTPPolicy db now phone code =
    let g := LoadGuard db phone in
    if now <? og_lockedUntil g then Err (RetryLaterError ErrOTPLocked (Sub (og_lockedUntil g) now))
    else match guess_outcome secret db phone code now with
         | (None, db1) => Ok (None, with_guard db1 phone zero_guard)
         | (Some e, db1) => Ok (Some (failed_error g now e), with_guard db1 phone (failed_guard g now))
         end.
Proof.
  intros Hdb Hnow. unfold VerifyOTP_tx, WithPhoneLock. cbn zeta. unfold Guard_Check at 1, Before.
  destruct (Z.ltb_spec now (og_lockedUntil (LoadGuard db phone))) as [|Hun]; [done|]. cbn [res_bind]. rewrite UpdateLatest_guess by done. cbn [res_bind].
  destruct (guess_outcome _ _ _ _ _) as [[e|] db1].
  - destruct (Guard_Fail_spec _ now (LoadGuard_good db phone Hdb) Hnow Hun) as [-> Hn]. unfold failed_error.
    rewrite SaveGuard_ok by (unfold failed_guard; cbn [og_failures]; lia). cbn [res_bind]. by destruct (10 <=? next_failures _ _).
  - rewrite SaveGuard_ok by done. done.
Qed.

Lemma guessed_ok db r now right : iam_ok db → challenges db !! cr_ID r = Some r → usable r now = true → iam_ok (with_challenge db (guessed r now right)).
Proof.
  intros Hdb Hin Hu. pose proof (chs_rows _ (io_challenges _ Hdb) _ _ Hin) as Hr. destruct Hdb as [H1 H2 [C1 C2 C3] H4 H5 H6 H7].
  assert (Hlook : ∀ id o, <[cr_ID r := guessed r now right]> (challenges db) !! id = Some o →
            ∃ o', challenges db !! id = Some o' ∧ cr_Phone o' = cr_Phone o ∧ cr_CreatedAt o' = cr_CreatedAt o).
  { intros id o [[<- <-]|[_ Ho]]%lookup_insert_Some; [by exists r|by exists o]. }
  constructor; try done. cbn [with_challenge set_challenges challenges]. change (cr_ID (guessed r now right)) with (cr_ID r). constructor.
  - intros id o [[<- <-]|[_ Ho]]%lookup_insert_Some; [|by apply C1]. unfold usable in Hu. bool_prop. pose proof (ch_attempts _ _ Hr).
    constructor; cbn; try apply Hr; [lia|]. intros t. destruct right; [|done]. intros [= <-]. apply stored_is_stored.
  - intros i1 i2 r1 r2 (o1 & Ho1 & <- & <-)%Hlook (o2 & Ho2 & <- & <-)%Hlook. by eapply C2.
  - intros p s. pose proof (count_where_replace (in_hour p s) (challenges db) (cr_ID r) r (guessed r now right) Hin) as Hc.
    change (in_hour p s (guessed r now right)) with (in_hour p s r) in Hc. specialize (C3 p s). lia.
Qed.

Lemma with_guard_ok db phone g : iam_ok db → good_guard (MkGuard (og_failures g) (og_windowStart g) (stored_time (og_lockedUntil g))) → iam_ok (with_guard db phone g).
Proof.
  intros [H1 H2 H3 H4 H5 H6 H7] Hg. constructor; try done. cbn [with_guard set_guards guards].
  intros p r [[<- <-]|[_ Hr]]%lookup_insert_Some; [|by eapply H4]. exact Hg.
Qed.

Lemma guess_outcome_ok secret db phone code now : iam_ok db → iam_ok (guess_outcome secret db phone code now).2.
Proof.
  intros Hdb. unfold guess_outcome. destruct (LatestOTPChallenge _ _) as [r|] eqn:El; [|done]. destruct (usable r now) eqn:Hu; [|done].
  destruct (Latest_some db _ r Hdb El) as (Hin & _). by apply guessed_ok.
Qed.

Lemma failed_guard_good g now : good_guard g → 0 ≤ now → og_lockedUntil g ≤ now →
  good_guard (MkGuard (og_failures (failed_guard g now)) (og_windowStart (failed_guard g now)) (stored_time (og_lockedUntil (failed_guard g now)))).
Proof.
  intros Hg Hnow Hun. destruct (Guard_Fail_spec g now Hg Hnow Hun) as [_ Hn]. unfold good_guard, failed_guard. cbn [og_failures og_lockedUntil].
  split; [lia|]. intros E. rewrite (proj2 (Z.leb_le _ _)) by lia. rewrite stored_minutes. pose proof (stored_time_gt now) as Hs.
  unfold zero_time, Minute, Second, Millisecond, Microsecond in *. lia.
Qed.

Lemma VerifyOTP_tx_ok secret db now phone code v db' : iam_ok db → 0 ≤ now →
  VerifyOTP_tx secret DefaultOTPPolicy db now phone code = Ok (v, db') → iam_ok db'.
Proof.
  intros Hdb Hnow Htx. rewrite VerifyOTP_tx_spec in Htx by done. cbn zeta in Htx. destruct (Z.ltb_spec now (og_lockedUntil (LoadGuard db phone))); [done|].
  pose proof (guess_outcome_ok secret db phone code now Hdb) as Hok. destruct (guess_outcome _ _ _ _ _) as [[e|] db1]; injection Htx as <- <-.
  - apply with_guard_ok; [done|]. apply failed_guard_good; [by apply LoadGuard_good|done|done].
  - apply with_guard_ok; [done|]. split; cbn; lia.
Qed.

(** ** Users *)

Definition user_of (r : UserRow) : User :=
  MkUser (ur_ID r) (MkPhone (ur_Phone r)) (default "" (ur_Name r)) (ParseLanguage (ur_Locale r)) (ur_Status r) (ur_PlatformRole r) (ur_CreatedAt r).

Lemma toUser_row id r : user_ok id r → toUser r = Ok (user_of r).
Proof. intros Hr. unfold toUser. by rewrite (ur_phone _ _ Hr). Qed.

Lemma UserByPhone_some db phone r : UserByPhone db phone = Some r → ∃ id, users db !! id = Some r ∧ ur_Phone r = phone.
Proof.
  unfold UserByPhone. intros Hr. assert (Hin : r ∈ rows_where (λ r, bool_decide (ur_Phone r = phone)) (users db)).
  { destruct (rows_where _ _); [done|]. injection Hr as ->. by left. }
  apply elem_of_rows_where in Hin as (id & Hid & Hp). exists id. split; [done|]. by apply bool_decide_eq_true in Hp.
Qed.

Lemma UserByPhone_none db phone : UserByPhone db phone = None → ∀ id r, users db !! id = Some r → ur_Phone r ≠ phone.
Proof.
  unfold UserByPhone. intros Hn. destruct (rows_where _ _) eqn:E; [|done]. intros id r Hr.
  pose proof (proj1 (rows_where_nil _ _) E id r Hr) as Hp. by apply bool_decide_eq_false in Hp.
Qed.

Lemma same_phone_sym a b : same_phone a b = same_phone b a.
Proof. unfold same_phone. by apply bool_decide_ext. Qed.

(** Registering finds the phone's account or opens one. *)
Lemma Register_spec db id phone locale now : iam_ok db → canonical (e164 phone) →
  let u := NewUser id phone locale now in
  match UserByPhone db (e164 phone) with
  | Some r => Users_Register db u = (Ok (user_of r, false), db)
  | None => if bool_decide (users db !! id = None)
            then Users_Register db u = (Ok (user_of (new_user_row u), true), set_users db (<[id := new_user_row u]> (users db)))
            else Users_Register db u = (Err ErrStorage, db)
  end.
Proof.
  intros Hdb Hphone u. unfold Users_Register, InsertUserIfNew.
  assert (Hchk : user_checks (new_user_row u) = true) by (by destruct locale). rewrite Hchk. cbn [ensure res_bind new_user_row ur_Phone u NewUser us_phone us_id].
  destruct (UserByPhone db (e164 phone)) as [r|] eqn:E.
  - rewrite E. destruct (UserByPhone_some db _ r E) as (uid & Hr & _). rewrite (toUser_row uid) by (by apply (io_users _ Hdb)). done.
  - case_bool_decide as Hid; [|done]. cbn [ensure res_bind]. unfold UserByPhone at 1. cbn [set_users users].
    rewrite (rows_where_one _ _ id (new_user_row u)).
    + cbn [head]. by rewrite (toUser_row id).
    + apply lookup_insert_eq.
    + by apply bool_decide_eq_true_2.
    + intros k r Hr Hp%bool_decide_eq_true. apply lookup_insert_Some in Hr as [[-> _]|[_ Hr]]; [done|]. by destruct (UserByPhone_none db _ E _ _ Hr).
Qed.

Lemma Users_Register_ok db id phone locale now r db' : iam_ok db → canonical (e164 phone) →
  Users_Register db (NewUser id phone locale now) = (r, db') → iam_ok db'.
Proof.
  intros Hdb Hphone Hreg. pose proof (Register_spec db id phone locale now Hdb Hphone) as Hs. cbn zeta in Hs.
  destruct (UserByPhone db (e164 phone)) as [ur|] eqn:E; [congruence|]. case_bool_decide as Hid; [|congruence].
  rewrite Hreg in Hs. injection Hs as _ ->. destruct Hdb as [H1 H2 H3 H4 H5 H6 H7]. set (row := new_user_row _).
  assert (Hkeep : ∀ k, is_Some (users db !! k) → is_Some (<[id := row]> (users db) !! k)).
  { intros k [x Hx]. destruct (decide (k = id)) as [->|]; [by rewrite lookup_insert_eq|by rewrite lookup_insert_ne by done; eauto]. }
  constructor; try done; cbn [set_users users sessions tokens].
  - intros k o [[<- <-]|[_ Ho]]%lookup_insert_Some; [|by apply H1]. constructor; [done..|by destruct locale].
  - apply unique_insert; [apply same_phone_sym|done|]. apply conflicts_false. intros k o Ho _. apply bool_decide_eq_false_2. cbn.
    intros Heq. by destruct (UserByPhone_none db _ E _ _ Ho).
  - intros k s Hs. destruct (H5 k s Hs). constructor; try done. by apply Hkeep.
Qed.

(** An operator's change of a user's name, status or role. *)
Definition operated (r : UserRow) (name : option string) (status role : string) (at_ : time) : UserRow :=
  MkUserRow (ur_ID r) (ur_Phone r) name (ur_Locale r) status role (ur_CreatedAt r) (stored_time at_).

Lemma operated_ok db id r name status role at_ : iam_ok db → users db !! id = Some r → user_checks (operated r name status role at_) = true →
  iam_ok (set_users db (<[id := operated r name status role at_]> (users db))).
Proof.
  intros [H1 H2 H3 H4 H5 H6 H7] Hr Hchk. pose proof (H1 _ _ Hr) as Hu. constructor; try done; cbn [set_users users sessions tokens].
  - intros k o [[<- <-]|[_ Ho]]%lookup_insert_Some; [|by apply H1]. destruct Hu. by constructor.
  - apply unique_insert; [apply same_phone_sym|done|]. apply conflicts_false. intros k o Ho Hne. by apply (H2 id k r o).
  - intros k s Hs. destruct (H5 k s Hs). constructor; try done. destruct (decide (sr_UserID s = id)) as [->|]; [by rewrite lookup_insert_eq|by rewrite lookup_insert_ne by done].
Qed.

(** ** Sessions and their tokens *)

Definition with_session (db : IamDB) (r : SessionRow) : IamDB := set_sessions db (<[sr_ID r := r]> (sessions db)).

Definition started_row (id : SessionID) (user : UserID) (now : time) : SessionRow := MkSessionRow id user (stored_time now) (stored_time now) None None.
Definition revoked_row (r : SessionRow) (now : time) (reason : string) : SessionRow :=
  MkSessionRow (sr_ID r) (sr_UserID r) (sr_CreatedAt r) (sr_LastRefreshedAt r) (Some (stored_time now)) (Some reason).
Definition refreshed_row (r : SessionRow) (now : time) : SessionRow :=
  MkSessionRow (sr_ID r) (sr_UserID r) (sr_CreatedAt r) (stored_time now) None None.

(** A token starts unused, for thirty days. *)
Definition new_token_row (hash : string) (id : SessionID) (now : time) : TokenRow :=
  MkTokenRow hash id (stored_time now) (stored_time now + 30 * 24 * Hour) None.
Definition used_row (r : TokenRow) (now : time) : TokenRow :=
  MkTokenRow (tr_TokenHash r) (tr_SessionID r) (tr_CreatedAt r) (tr_ExpiresAt r) (Some (stored_time now)).

Lemma stored_month now : stored_time (GoTime.Add now (30 * 24 * Hour)) = stored_time now + 30 * 24 * Hour.
Proof. unfold GoTime.Add. change (30 * 24 * Hour) with (43200 * Minute). apply stored_minutes. Qed.

Lemma insertRefreshToken_spec db hash id now : len hash = 32 →
  insertRefreshToken db (MkToken hash id now (GoTime.Add now (30 * 24 * Hour)) None) =
  if bool_decide (tokens db !! hash = None) && present (sessions db !! id)
  then Ok (set_tokens db (<[hash := new_token_row hash id now]> (tokens db))) else Err ErrStorage.
Proof.
  intros Hl. unfold insertRefreshToken, InsertRefreshToken. cbn [rt_hash rt_sessionID rt_createdAt rt_expiresAt rt_usedAt fmap option_fmap option_map]. rewrite stored_month.
  unfold token_checks. cbn [tr_TokenHash tr_CreatedAt tr_ExpiresAt]. rewrite Hl, (proj2 (Z.ltb_lt _ _)) by (unfold Hour, Minute, Second, Millisecond, Microsecond; lia).
  cbn [andb Z.eqb Pos.eqb]. by destruct (bool_decide _ && _).
Qed.

Lemma NewRefreshToken_ok hash id now : len hash = 32 → id ≠ MkID 0 →
  NewRefreshToken hash id now (RefreshTTL DefaultTokenPolicy) = Ok (MkToken hash id now (GoTime.Add now (30 * 24 * Hour)) None).
Proof.
  intros Hl Hid. unfold NewRefreshToken, ID_IsZero. rewrite Hl, bool_decide_eq_false_2 by (destruct id; cbn; congruence). done.
Qed.

Lemma Start_tx_spec db now id b user db' : Start_tx DefaultTokenPolicy db now id b user = Ok db' →
  let hash := (New_refresh b).2 in
  id ≠ MkID 0 ∧ sessions db !! id = None ∧ is_Some (users db !! us_id user) ∧ tokens db !! hash = None ∧
  db' = set_tokens (with_session db (started_row id (us_id user) now)) (<[hash := new_token_row hash id now]> (tokens db)).
Proof.
  intros Htx hash. unfold Start_tx in Htx. apply res_bind_ok in Htx as (s & Hs & Htx). apply res_bind_ok in Htx as (t & Ht & Htx).
  unfold NewSession in Hs. destruct (ID_IsZero id) eqn:Hz; [done|]. destruct (ID_IsZero (us_id user)); [done|]. injection Hs as <-. cbn [ses_id] in Ht.
  assert (Hid : id ≠ MkID 0) by (intros ->; done). rewrite NewRefreshToken_ok in Ht by (try done; apply len_Sum256). injection Ht as <-.
  unfold Sessions_Start, InsertSession in Htx. apply res_bind_ok in Htx as (db1 & Hins & Htx). apply res_bind_ok in Hins as (? & Hc & Hins). injection Hins as <-.
  apply ensure_ok in Hc. cbn [session_row sr_ID sr_UserID ses_id ses_userID] in Hc. bool_prop.
  rewrite insertRefreshToken_spec in Htx by apply len_Sum256. destruct (_ && _) eqn:Hf in Htx; [|done]. injection Htx as <-.
  cbn [set_sessions tokens sessions] in Hf. bool_prop. split_and!; try done. by destruct (users db !! us_id user).
Qed.

Lemma count_none_session db id : iam_ok db → sessions db !! id = None → count_where (unused id) (tokens db) = 0.
Proof.
  intros Hdb Hn. unfold count_where. rewrite rows_where_false; [done|]. intros h r Hr. unfold unused.
  rewrite bool_decide_eq_false_2; [done|]. intros E. destruct (io_tokens _ Hdb _ _ Hr) as [_ [s Hs]]. congruence.
Qed.

Lemma Start_tx_ok db now id b user db' : iam_ok db → Start_tx DefaultTokenPolicy db now id b user = Ok db' → iam_ok db'.
Proof.
  intros Hdb Htx. apply Start_tx_spec in Htx as (Hid & Hfree & Huser & Htok & ->). pose proof (count_none_session db id Hdb Hfree) as Hzero.
  destruct Hdb as [H1 H2 H3 H4 H5 H6 H7]. set (hash := (New_refresh b).2) in *.
  constructor; try done; cbn [set_tokens with_session set_sessions users sessions tokens started_row sr_ID].
  - intros k s [[<- <-]|[_ Hs]]%lookup_insert_Some; [|by apply H5]. constructor; cbn; try done. apply stored_is_stored.
  - intros h r [[<- <-]|[_ Hr]]%lookup_insert_Some; [split; [done|]; cbn; by rewrite lookup_insert_eq|].
    destruct (H6 h r Hr) as [? Hs]. split; [done|]. destruct (decide (tr_SessionID r = id)) as [->|]; [by rewrite lookup_insert_eq|by rewrite lookup_insert_ne].
  - intros k Hk. rewrite count_where_new by done. unfold unused at 2. cbn [new_token_row tr_SessionID tr_UsedAt present negb]. rewrite andb_true_r.
    destruct (decide (k = id)) as [->|Hne]; [by rewrite bool_decide_eq_true_2, Hzero|]. rewrite bool_decide_eq_false_2 by done.
    rewrite lookup_insert_ne in Hk by done. rewrite (H7 k Hk). done.
Qed.

Lemma saveSession_row db r s : sessions db !! ses_id s = Some r → ses_id s = sr_ID r → session_checks (update_session r s) = true →
  saveSession db s = Ok (with_session db (update_session r s)).
Proof. intros Hr Hid Hc. unfold saveSession, UpdateSession. rewrite Hr, Hc. cbn [ensure res_bind]. unfold with_session. cbn [update_session sr_ID]. by rewrite Hid. Qed.

Lemma session_unrevoked us id r : session_ok us id r → sr_RevokedAt r = None → sr_RevokeReason r = None.
Proof. intros Hr E. pose proof (ss_checks _ _ _ Hr) as Hc. unfold session_checks in Hc. rewrite E in Hc. destruct (sr_RevokeReason r); [|done]. by rewrite andb_false_r in Hc. Qed.

Lemma update_session_same us id r : session_ok us id r → update_session r (toSession id r) = r.
Proof.
  intros Hr. unfold update_session, toSession, RehydrateSession, revokeReason, Session_IsRevoked. cbn [ses_lastRefreshedAt ses_revokedAt ses_revokeReason].
  rewrite (ss_refreshed _ _ _ Hr), stored_option by apply (ss_revoked _ _ _ Hr). pose proof (ss_checks _ _ _ Hr) as Hc. pose proof (session_unrevoked _ _ _ Hr) as Hu.
  destruct r as [? ? ? ? [t|] [w|]]; cbn in *; [done|by rewrite ?andb_false_r in Hc|by specialize (Hu eq_refl)|done].
Qed.

Lemma update_session_revoked us id r now reason : session_ok us id r → sr_RevokedAt r = None →
  update_session r (Session_Revoke (toSession id r) now reason) = revoked_row r now reason.
Proof.
  intros Hr E. unfold Session_Revoke, Session_IsRevoked, toSession, RehydrateSession. cbn [ses_revokedAt]. rewrite E.
  unfold update_session, revokeReason, Session_IsRevoked. cbn [ses_lastRefreshedAt ses_revokedAt ses_revokeReason negb fmap option_fmap option_map].
  by rewrite (ss_refreshed _ _ _ Hr).
Qed.

Lemma revoked_checks us id r now reason : session_ok us id r → reason ∈ ["logout"; "reuse"; "blocked"] → session_checks (revoked_row r now reason) = true.
Proof. intros Hr Hin. unfold session_checks. cbn. by rewrite bool_decide_eq_true_2. Qed.

(** Replacing a session's row keeps the tables, as long as it stays the same
    session. *)
Lemma with_session_ok db id r r' : iam_ok db → sessions db !! id = Some r → session_ok (users db) id r' → iam_ok (with_session db r').
Proof.
  intros Hdb Hin Hr'. destruct Hdb as [H1 H2 H3 H4 H5 H6 H7]. pose proof (ss_key _ _ _ Hr') as Hk.
  assert (Hkeep : ∀ k, is_Some (<[sr_ID r' := r']> (sessions db) !! k) ↔ is_Some (sessions db !! k)).
  { intros k. rewrite Hk. destruct (decide (k = id)) as [->|]; [rewrite lookup_insert_eq, Hin; split; eauto|by rewrite lookup_insert_ne]. }
  constructor; try done; cbn [with_session set_sessions users sessions tokens].
  - intros k s [[<- <-]|[_ Hs]]%lookup_insert_Some; [by rewrite Hk|by apply H5].
  - intros h t Ht. rewrite Hkeep. by apply H6.
  - intros k Hs%Hkeep. by apply H7.
Qed.

Lemma revoked_row_ok us id r now reason : session_ok us id r → reason ∈ ["logout"; "reuse"; "blocked"] → session_ok us id (revoked_row r now reason).
Proof.
  intros Hr Hin. destruct Hr as [? ? ? ? ? ?]. constructor; cbn; try done; [by eapply revoked_checks|].
  intros t [= <-]. apply stored_is_stored.
Qed.

(** Revoking: the first reason stays. *)
Definition revoke_session (db : IamDB) (r : SessionRow) (now : time) (reason : string) : IamDB :=
  if present (sr_RevokedAt r) then db else with_session db (revoked_row r now reason).

Lemma with_session_same db id r us : sessions db !! id = Some r → session_ok us id r → with_session db r = db.
Proof. intros Hr Hok. unfold with_session. rewrite (ss_key _ _ _ Hok), insert_id by done. by destruct db. Qed.

Lemma save_revoked db id r now reason : iam_ok db → sessions db !! id = Some r → reason ∈ ["logout"; "reuse"; "blocked"] →
  saveSession db (Session_Revoke (toSession id r) now reason) = Ok (revoke_session db r now reason).
Proof.
  intros Hdb Hr Hin. pose proof (io_sessions _ Hdb _ _ Hr) as Hok. unfold revoke_session. destruct (sr_RevokedAt r) as [t|] eqn:E; cbn [present].
  - assert (Hs : Session_Revoke (toSession id r) now reason = toSession id r) by (unfold Session_Revoke, Session_IsRevoked, toSession, RehydrateSession; cbn; by rewrite E).
    rewrite Hs, (saveSession_row db r); rewrite ?(update_session_same _ _ _ Hok); try done; [|symmetry; by apply (ss_key _ _ _ Hok)|by apply (ss_checks _ _ _ Hok)].
    by rewrite (with_session_same db id r (users db)).
  - assert (Hid : ses_id (Session_Revoke (toSession id r) now reason) = id) by (unfold Session_Revoke; by destruct (Session_IsRevoked _)).
    rewrite (saveSession_row db r); rewrite ?Hid, ?(update_session_revoked _ _ _ _ _ Hok E); try done; [symmetry; by apply (ss_key _ _ _ Hok)|by eapply revoked_checks].
Qed.

Lemma revoke_session_ok db id r now reason : iam_ok db → sessions db !! id = Some r → reason ∈ ["logout"; "reuse"; "blocked"] → iam_ok (revoke_session db r now reason).
Proof.
  intros Hdb Hr Hin. unfold revoke_session. destruct (present _); [done|]. pose proof (io_sessions _ Hdb _ _ Hr) as Hok.
  eapply with_session_ok; [done|exact Hr|]. by apply revoked_row_ok.
Qed.

(** ** Refreshing *)

(** The tables after [hash] was spent for [next]. *)
Definition rotated (db : IamDB) (row : TokenRow) (srow : SessionRow) (next : string) (now : time) : IamDB :=
  set_tokens (with_session db (refreshed_row srow now))
    (<[next := new_token_row next (tr_SessionID row) now]> (<[tr_TokenHash row := used_row row now]> (tokens db))).

(** What presenting a known token does: the refusal, if any, and the tables. *)
Definition rotate_outcome (db : IamDB) (row : TokenRow) (srow : SessionRow) (next : string) (now : time) : option iam_error * IamDB :=
  if present (sr_RevokedAt srow) then (Some ErrRefreshTokenInvalid, db)
  else if present (tr_UsedAt row) then (Some ErrRefreshTokenReused, revoke_session db srow now RevokedReuse)
  else if tr_ExpiresAt row <=? now then (Some ErrRefreshTokenInvalid, db)
  else (None, rotated db row srow next now).

Lemma Rotate_tx_spec db now hash next row : iam_ok db → len next = 32 → tokens db !! hash = Some row →
  ∃ srow s, sessions db !! tr_SessionID row = Some srow ∧ ses_id s = tr_SessionID row ∧ ses_userID s = sr_UserID srow ∧
    let out := rotate_outcome db row srow next now in
    Rotate_tx DefaultTokenPolicy db now hash next =
      match out.1 with
      | None => if bool_decide (tokens db !! next = None) then Ok (s, None, out.2) else Err ErrStorage
      | refused => Ok (s, refused, out.2)
      end.
Proof.
  intros Hdb Hl Hrow. destruct (io_tokens _ Hdb _ _ Hrow) as [Hh [srow Hsrow]]. pose proof (io_sessions _ Hdb _ _ Hsrow) as Hs.
  pose proof (update_session_same _ _ _ Hs) as Hsame.
  assert (Hkeep : saveSession db (toSession (tr_SessionID row) srow) = Ok db).
  { rewrite (saveSession_row db srow); rewrite ?Hsame; try done; [by rewrite (with_session_same db _ srow _ Hsrow Hs)|symmetry; by apply (ss_key _ _ _ Hs)|by apply (ss_checks _ _ _ Hs)]. }
  exists srow. unfold Rotate_tx, Sessions_Rotate, RefreshTokenForUpdate. rewrite Hrow, Hsrow. unfold Session_Rotate.
  unfold RehydrateRefreshToken. cbn [rt_sessionID]. rewrite bool_decide_eq_true_2 by done. cbn [negb]. unfold rotate_outcome.
  replace (Session_IsRevoked (toSession (tr_SessionID row) srow)) with (present (sr_RevokedAt srow)) by done.
  destruct (present (sr_RevokedAt srow)) eqn:Hrev.
  { exists (toSession (tr_SessionID row) srow). cbn [fst snd res_bind]. split_and!; try done. rewrite Hkeep. cbn [res_bind rt_usedAt]. by destruct (tr_UsedAt row). }
  cbn [rt_usedAt]. destruct (tr_UsedAt row) as [used|] eqn:Hused; cbn [present].
  { exists (Session_Revoke (toSession (tr_SessionID row) srow) now RevokedReuse). cbn [fst snd res_bind].
    split_and!; [done|by unfold Session_Revoke; destruct (Session_IsRevoked _)|by unfold Session_Revoke; destruct (Session_IsRevoked _)|]. rewrite (save_revoked db (tr_SessionID row) srow) by (done || set_solver).
    cbn [res_bind rt_usedAt]. done. }
  cbn [rt_expiresAt]. unfold Before. destruct (Z.leb_spec (tr_ExpiresAt row) now) as [Hexp|Hexp].
  { rewrite (proj2 (Z.ltb_ge _ _)) by done. cbn [negb]. exists (toSession (tr_SessionID row) srow). cbn [fst snd res_bind]. split_and!; try done. rewrite Hkeep. done. }
  rewrite (proj2 (Z.ltb_lt _ _)) by done. cbn [negb]. change (ses_id (toSession (tr_SessionID row) srow)) with (tr_SessionID row).
  rewrite NewRefreshToken_ok by (done || apply (ss_nonzero _ _ _ Hs)). cbn [res_bind fst snd].
  eexists. split; [done|]. split; [|split]; cycle 2.
  - cbn [rt_usedAt rt_hash]. rewrite (saveSession_row db srow); cbn [ses_id]; [|done|symmetry; apply (ss_key _ _ _ Hs)|]; cycle 1.
    { unfold update_session, revokeReason, Session_IsRevoked. cbn [ses_revokedAt toSession RehydrateSession]. by destruct (sr_RevokedAt srow). }
    replace (update_session srow _) with (refreshed_row srow now).
    2:{ unfold update_session, revokeReason, Session_IsRevoked. cbn [ses_revokedAt ses_lastRefreshedAt toSession RehydrateSession]. by destruct (sr_RevokedAt srow). }
    cbn [res_bind]. rewrite insertRefreshToken_spec by done. unfold MarkRefreshTokenUsed. rewrite alter_alt. cbn [with_session set_sessions set_tokens tokens sessions].
    rewrite Hh. rewrite Hrow. fold (used_row row now). cbn [refreshed_row sr_ID]. rewrite (ss_key _ _ _ Hs), lookup_insert_eq. cbn [present]. rewrite andb_true_r.
    assert (Hnone : <[hash := used_row row now]> (tokens db) !! next = None ↔ tokens db !! next = None).
    { destruct (decide (next = hash)) as [->|]; [rewrite lookup_insert_eq, Hrow; done|by rewrite lookup_insert_ne]. }
    rewrite (bool_decide_ext _ _ Hnone). case_bool_decide; cbn [res_bind]; [|done]. do 2 f_equal. unfold rotated, with_session. cbn [refreshed_row sr_ID]. by rewrite (ss_key _ _ _ Hs), Hh.
  - done.
  - done.
Qed.

Lemma rotate_outcome_ok db row srow next now : iam_ok db → tokens db !! tr_TokenHash row = Some row → sessions db !! tr_SessionID row = Some srow →
  ((rotate_outcome db row srow next now).1 = None → tokens db !! next = None) → iam_ok (rotate_outcome db row srow next now).2.
Proof.
  intros Hdb Hrow Hsrow Hfree. unfold rotate_outcome in *. destruct (present (sr_RevokedAt srow)); [done|].
  destruct (present (tr_UsedAt row)) eqn:Hused; [by eapply revoke_session_ok; [done|exact Hsrow|set_solver]|].
  destruct (tr_ExpiresAt row <=? now); [done|]. cbn [fst snd] in *. specialize (Hfree eq_refl). unfold rotated. pose proof (io_sessions _ Hdb _ _ Hsrow) as Hs.
  assert (Hok : session_ok (users db) (tr_SessionID row) (refreshed_row srow now)).
  { destruct Hs. constructor; cbn; try done. apply stored_is_stored. }
  pose proof (with_session_ok db _ srow _ Hdb Hsrow Hok) as Hdb'. destruct Hdb as [_ _ _ _ _ T6 T7]. destruct Hdb' as [H1 H2 H3 H4 H5 H6 H7].
  cbn [with_session set_sessions tokens] in H6, H7.
  constructor; try done; cbn [set_tokens with_session set_sessions sessions tokens refreshed_row sr_ID] in *.
  - intros h r [[<- <-]|[_ [[<- <-]|[_ Hr]]%lookup_insert_Some]]%lookup_insert_Some; [|by split; [|apply (H6 _ _ Hrow)]|by apply H6].
    split; [done|]. cbn. by apply (H6 _ _ Hrow).
  - intros k Hk. specialize (H7 k Hk). pose proof (count_where_replace (unused k) (tokens db) _ _ (used_row row now) Hrow) as Hc.
    rewrite count_where_new.
    2:{ destruct (decide (next = tr_TokenHash row)) as [->|]; [congruence|by rewrite lookup_insert_ne]. }
    unfold unused in Hc at 2 4. cbn [used_row tr_SessionID tr_UsedAt present negb] in Hc. unfold unused at 2. cbn [new_token_row tr_SessionID tr_UsedAt present negb].
    rewrite Hused in Hc. cbn [negb] in Hc. rewrite andb_true_r, andb_false_r in Hc. rewrite andb_true_r. cbn [Z.b2z] in Hc. lia.
Qed.

Lemma Rotate_tx_ok db now hash next s refused db' : iam_ok db → len next = 32 → Rotate_tx DefaultTokenPolicy db now hash next = Ok (s, refused, db') → iam_ok db'.
Proof.
  intros Hdb Hl Htx. destruct (tokens db !! hash) as [row|] eqn:Hrow; [|unfold Rotate_tx, Sessions_Rotate, RefreshTokenForUpdate in Htx; by rewrite Hrow in Htx].
  destruct (Rotate_tx_spec db now hash next row Hdb Hl Hrow) as (srow & s' & Hsrow & _ & _ & E). cbn zeta in E. rewrite E in Htx. destruct (io_tokens _ Hdb _ _ Hrow) as [Hh _].
  enough (db' = (rotate_outcome db row srow next now).2 ∧ ((rotate_outcome db row srow next now).1 = None → tokens db !! next = None)) as [-> Hn].
  { apply rotate_outcome_ok; try done. by rewrite Hh. }
  destruct ((rotate_outcome db row srow next now).1); [by injection Htx as _ _ <-|]. case_bool_decide; [by injection Htx as _ _ <-|done].
Qed.

(** ** Ending a session *)

Lemma Block_tx_spec db now id : iam_ok db → Block_tx db now id =
  match sessions db !! id with None => Err ErrNotFound | Some r => Ok (revoke_session db r now RevokedBlocked) end.
Proof. intros Hdb. unfold Block_tx, Sessions_Update, SessionForUpdate. destruct (sessions db !! id) as [r|] eqn:E; [|done]. cbn [res_bind]. apply save_revoked; [done|done|set_solver]. Qed.

Lemma Logout_tx_spec db now user id : iam_ok db → Logout_tx db now user id =
  match sessions db !! id with
  | None => Err ErrNotFound
  | Some r => if bool_decide (sr_UserID r = user) then Ok (revoke_session db r now RevokedLogout) else Err ErrNotFound
  end.
Proof.
  intros Hdb. unfold Logout_tx, Sessions_Update, SessionForUpdate. destruct (sessions db !! id) as [r|] eqn:E; [|done]. cbn [toSession RehydrateSession ses_userID].
  case_bool_decide; cbn [negb res_bind]; [|done]. apply save_revoked; [done|done|set_solver].
Qed.
