(* ===== verification/IamFlow.v ===== *)
(** * Signing in

    Runs of the identity transactions, with the codes issued and the guesses
    compared with them in a log, and the theorems: nobody signs in without the
    latest code sent to their phone, guessing is bounded, each session has one
    usable refresh token, and what refreshing answers. *)
From S2P Require Import Prelude GoTime GoText GoCrypto GoEncoding Shared Tables Iam IamStore IamApp IamFacts.
Open Scope Z_scope.

(** ** Runs *)

(** A code sent to a phone; a guess compared with a code. *)
Inductive iam_event :=
| Issued (id : OTPChallengeID) (phone : PhoneNumber) (code : OTPCode) (at_ : time)
| Guessed (id : OTPChallengeID) (code : OTPCode) (at_ : time) (right : bool).

Definition count_events (p : iam_event → bool) (log : list iam_event) : Z := Z.of_nat (length (List.filter p log)).

Definition issued_in (phone : string) (s : time) (e : iam_event) : bool :=
  match e with
  | Issued _ p _ at_ => bool_decide (e164 p = phone) && (s <=? stored_time at_) && (stored_time at_ <=? s + Hour)
  | Guessed _ _ _ _ => false
  end.

Definition guess_at (id : OTPChallengeID) (e : iam_event) : bool :=
  match e with Guessed i _ _ _ => bool_decide (i = id) | Issued _ _ _ _ => false end.

Section Runs.
Context (secret : string).

(** The guess [VerifyOTP_tx] compares, if it compares one. *)
Definition guess_event (db : IamDB) (phone : PhoneNumber) (code : OTPCode) (now : time) : list iam_event :=
  match LatestOTPChallenge db (e164 phone) with
  | Some r => if usable r now then [Guessed (cr_ID r) code now (right_guess secret r code)] else []
  | None => []
  end.

(** One committed transaction. The clock of a guess is past 1970; random
    bytes are bytes; an operator may rename, block or promote a user. *)
Inductive iam_step (db : IamDB) : list iam_event → IamDB → Prop :=
| step_request now id codes raw phone code db' :
    NewPhoneNumber raw = Ok phone → RequestOTP_tx secret DefaultOTPPolicy db now id codes phone = Ok (code, db') →
    iam_step db [Issued id phone code now] db'
| step_verify now raw phone code v db' :
    0 ≤ now → NewPhoneNumber raw = Ok phone → VerifyOTP_tx secret DefaultOTPPolicy db now phone code = Ok (v, db') →
    iam_step db (guess_event db phone code now) db'
| step_register now id raw phone locale r db' :
    NewPhoneNumber raw = Ok phone → Users_Register db (NewUser id phone locale now) = (r, db') → iam_step db [] db'
| step_start now id b user db' : Start_tx DefaultTokenPolicy db now id b user = Ok db' → iam_step db [] db'
| step_rotate now hash b s refused db' :
    Rotate_tx DefaultTokenPolicy db now hash (New_refresh b).2 = Ok (s, refused, db') → iam_step db [] db'
| step_block now id db' : Block_tx db now id = Ok db' → iam_step db [] db'
| step_logout now user id db' : Logout_tx db now user id = Ok db' → iam_step db [] db'
| step_operator now id r name status role :
    users db !! id = Some r → user_checks (operated r name status role now) = true →
    iam_step db [] (set_users db (<[id := operated r name status role now]> (users db))).

(** Transactions one after another, with their log. *)
Inductive iam_steps (db : IamDB) : list iam_event → IamDB → Prop :=
| steps_none : iam_steps db [] db
| steps_snoc log db1 evs db2 : iam_steps db log db1 → iam_step db1 evs db2 → iam_steps db (log ++ evs) db2.

Definition iam_run : list iam_event → IamDB → Prop := iam_steps empty_iam_db.

(** What others commit while a handler is between its transactions. *)
Definition others (f : IamDB → IamDB) : Prop := ∀ db, ∃ more, iam_steps db more (f db).

Lemma others_id : others id.
Proof. intros db. exists []. constructor. Qed.

Lemma iam_steps_trans db1 l1 db2 l2 db3 : iam_steps db1 l1 db2 → iam_steps db2 l2 db3 → iam_steps db1 (l1 ++ l2) db3.
Proof. intros H1. induction 1 as [|log db evs db' _ IH Hst]; [by rewrite app_nil_r|]. rewrite app_assoc. by econstructor. Qed.

Lemma run_one log db evs db' : iam_run log db → iam_step db evs db' → ∃ more, iam_run (log ++ more) db'.
Proof. intros Hr Hst. exists evs. by econstructor. Qed.

Lemma run_others log db f : others f → iam_run log db → ∃ more, iam_run (log ++ more) (f db).
Proof. intros Hf Hr. destruct (Hf db) as [more Hm]. exists more. by eapply iam_steps_trans. Qed.

(** ** What a step does *)

(** To the codes. *)
Inductive code_effect (db : IamDB) : list iam_event → IamDB → Prop :=
| no_effect db' : challenges db' = challenges db → code_effect db [] db'
| issue_effect id phone code now db' :
    canonical (e164 phone) → challenges db !! id = None → may_send db phone now →
    challenges db' = <[id := new_challenge_row secret id phone code now]> (challenges db) →
    code_effect db [Issued id phone code now] db'
| guess_effect r code now db' :
    challenges db !! cr_ID r = Some r → usable r now = true →
    challenges db' = <[cr_ID r := guessed r now (right_guess secret r code)]> (challenges db) →
    code_effect db [Guessed (cr_ID r) code now (right_guess secret r code)] db'.

Lemma Register_challenges db u r db' : Users_Register db u = (r, db') → challenges db' = challenges db.
Proof.
  unfold Users_Register, InsertUserIfNew. destruct (user_checks _); cbn [ensure res_bind]; [|by intros [= _ <-]].
  destruct (UserByPhone db _); [by intros [= _ <-]|]. case_bool_decide; cbn [ensure res_bind]; by intros [= _ <-].
Qed.

Lemma revoke_challenges db r now reason : challenges (revoke_session db r now reason) = challenges db.
Proof. unfold revoke_session. by destruct (present _). Qed.

Lemma Rotate_challenges db now hash next s refused db' : iam_ok db → len next = 32 →
  Rotate_tx DefaultTokenPolicy db now hash next = Ok (s, refused, db') → challenges db' = challenges db.
Proof.
  intros Hdb Hl Htx. destruct (tokens db !! hash) as [row|] eqn:Hrow; [|unfold Rotate_tx, Sessions_Rotate, RefreshTokenForUpdate in Htx; by rewrite Hrow in Htx].
  destruct (Rotate_tx_spec db now hash next row Hdb Hl Hrow) as (srow & s' & _ & _ & _ & E). cbn zeta in E. rewrite E in Htx.
  assert (Hc : challenges (rotate_outcome db row srow next now).2 = challenges db).
  { unfold rotate_outcome. destruct (present _); [done|]. destruct (present _); [apply revoke_challenges|]. by destruct (_ <=? _). }
  destruct ((rotate_outcome db row srow next now).1); [by injection Htx as _ _ <-|]. case_bool_decide; [by injection Htx as _ _ <-|done].
Qed.

Lemma iam_step_effect db evs db' : iam_ok db → iam_step db evs db' → iam_ok db' ∧ code_effect db evs db'.
Proof.
  intros Hdb Hst. destruct Hst as [now id codes raw phone code db' Hp Htx|now raw phone code v db' Hnow Hp Htx|now id raw phone locale r db' Hp Hreg
    |now id b user db' Htx|now hash b s refused db' Htx|now id db' Htx|now user id db' Htx|now id r name status role Hr Hchk].
  - apply RequestOTP_tx_ok in Htx as (_ & Hfree & Hms & ->); [|done]. apply NewPhoneNumber_canonical in Hp.
    split; [by apply with_challenge_ok|]. by econstructor.
  - split; [by eapply VerifyOTP_tx_ok|]. rewrite VerifyOTP_tx_spec in Htx by done. cbn zeta in Htx. destruct (Z.ltb_spec now (og_lockedUntil (LoadGuard db phone))); [done|].
    assert (Hc : challenges db' = challenges (guess_outcome secret db phone code now).2) by (destruct (guess_outcome _ _ _ _ _) as [[e|] db1]; by injection Htx as <- <-).
    unfold guess_event, guess_outcome in *. destruct (LatestOTPChallenge _ _) as [r|] eqn:El; [|by constructor]. destruct (usable r now) eqn:Hu; [|by constructor].
    destruct (Latest_some db _ r Hdb El) as (Hin & _). by apply guess_effect.
  - split; [eapply Users_Register_ok; [done|by eapply NewPhoneNumber_canonical|done]|]. constructor. by eapply Register_challenges.
  - split; [by eapply Start_tx_ok|]. constructor. apply Start_tx_spec in Htx as (_ & _ & _ & _ & ->). done.
  - assert (Hl : len (New_refresh b).2 = 32) by apply len_Sum256. split; [by eapply Rotate_tx_ok|]. constructor. by eapply Rotate_challenges.
  - rewrite Block_tx_spec in Htx by done. destruct (sessions db !! id) as [r|] eqn:E; [|done]. injection Htx as <-.
    split; [eapply revoke_session_ok; [done|exact E|set_solver]|]. constructor. apply revoke_challenges.
  - rewrite Logout_tx_spec in Htx by done. destruct (sessions db !! id) as [r|] eqn:E; [|done]. case_bool_decide; [|done]. injection Htx as <-.
    split; [eapply revoke_session_ok; [done|exact E|set_solver]|]. constructor. apply revoke_challenges.
  - split; [by apply operated_ok|]. by constructor.
Qed.

(** ** What the log tells *)

Definition row_of_issue (r : ChallengeRow) (phone : PhoneNumber) (code : OTPCode) (at_ : time) : Prop :=
  cr_Phone r = e164 phone ∧ cr_CodeHash r = Hash_code secret code ∧ cr_CreatedAt r = stored_time at_.

Record log_matches (log : list iam_event) (db : IamDB) : Prop := {
  lm_issued : ∀ id phone code at_, Issued id phone code at_ ∈ log → ∃ r, challenges db !! id = Some r ∧ row_of_issue r phone code at_;
  lm_rows : ∀ id r, challenges db !! id = Some r → ∃ phone code at_, Issued id phone code at_ ∈ log ∧ row_of_issue r phone code at_;
  lm_known : ∀ id code at_ right, Guessed id code at_ right ∈ log → is_Some (challenges db !! id);
  lm_guesses : ∀ id r, challenges db !! id = Some r → count_events (guess_at id) log = cr_Attempts r;
  lm_right : ∀ id r code at_, challenges db !! id = Some r → Guessed id code at_ true ∈ log → present (cr_ConsumedAt r) = true;
  lm_hour : ∀ phone s, count_events (issued_in phone s) log = count_where (in_hour phone s) (challenges db) }.

Lemma count_events_app p l l' : count_events p (l ++ l') = count_events p l + count_events p l'.
Proof. unfold count_events. rewrite List.filter_app, length_app. lia. Qed.

Lemma count_one p e : count_events p [e] = Z.b2z (p e).
Proof. unfold count_events. cbn [List.filter]. by destruct (p e). Qed.

Lemma count_events_none p l : (∀ e, e ∈ l → p e = false) → count_events p l = 0.
Proof.
  intros Hp. unfold count_events. induction l as [|e l IH]; [done|]. cbn [List.filter]. rewrite Hp by (by left).
  apply IH. intros e' He'. apply Hp. by right.
Qed.

Lemma log_issue log db id phone code now db' : iam_ok db → log_matches log db → challenges db !! id = None →
  challenges db' = <[id := new_challenge_row secret id phone code now]> (challenges db) → log_matches (log ++ [Issued id phone code now]) db'.
Proof.
  intros Hdb [L1 L2 L3 L4 L5 L6] Hfree Hc. set (row := new_challenge_row secret id phone code now) in *.
  assert (Hrow : row_of_issue row phone code now) by done.
  constructor; rewrite Hc.
  - intros i p c a [Hin|[= -> -> -> ->]%list_elem_of_singleton]%elem_of_app; [|exists row; split; [by apply lookup_insert_eq|done]].
    destruct (L1 _ _ _ _ Hin) as (r & Hr & Hm). exists r. split; [|done]. rewrite lookup_insert_ne; [done|]. intros ->. congruence.
  - intros i r [[<- <-]|[_ Hr]]%lookup_insert_Some.
    + exists phone, code, now. split; [|done]. apply elem_of_app. right. by apply list_elem_of_singleton.
    + destruct (L2 _ _ Hr) as (p & c & a & Hin & Hm). exists p, c, a. split; [|done]. apply elem_of_app. by left.
  - intros i c a rt [Hin|Hin%list_elem_of_singleton]%elem_of_app; [|done]. destruct (L3 _ _ _ _ Hin) as [r Hr].
    rewrite lookup_insert_ne by (intros ->; congruence). by exists r.
  - intros i r Hr. rewrite count_events_app, count_one. cbn [guess_at Z.b2z]. apply lookup_insert_Some in Hr as [[<- <-]|[_ Hr]]; [|rewrite (L4 _ _ Hr); lia].
    rewrite count_events_none; [done|]. intros [|i c a rt] Hin; [done|]. cbn. apply bool_decide_eq_false_2. intros ->. destruct (L3 _ _ _ _ Hin). congruence.
  - intros i r c a Hr [Hin|Hin%list_elem_of_singleton]%elem_of_app; [|done]. apply lookup_insert_Some in Hr as [[<- <-]|[_ Hr]]; [|by eapply L5].
    destruct (L3 _ _ _ _ Hin). congruence.
  - intros p s. rewrite count_events_app, count_one, count_where_new, L6 by done. done.
Qed.

Lemma log_guess log db r code now db' : iam_ok db → log_matches log db → challenges db !! cr_ID r = Some r → usable r now = true →
  challenges db' = <[cr_ID r := guessed r now (right_guess secret r code)]> (challenges db) →
  log_matches (log ++ [Guessed (cr_ID r) code now (right_guess secret r code)]) db'.
Proof.
  intros Hdb [L1 L2 L3 L4 L5 L6] Hin Hu Hc. set (row := guessed r now (right_guess secret r code)) in *.
  constructor; rewrite Hc.
  - intros i p c a [He|He%list_elem_of_singleton]%elem_of_app; [|done]. destruct (L1 _ _ _ _ He) as (o & Ho & Hm).
    destruct (decide (i = cr_ID r)) as [->|Hne]; [|exists o; by rewrite lookup_insert_ne]. exists row. rewrite lookup_insert_eq. split; [done|].
    rewrite Hin in Ho. by injection Ho as <-.
  - intros i o [[<- <-]|[_ Ho]]%lookup_insert_Some.
    + destruct (L2 _ _ Hin) as (p & c & a & He & Hm). exists p, c, a. split; [|done]. apply elem_of_app. by left.
    + destruct (L2 _ _ Ho) as (p & c & a & He & Hm). exists p, c, a. split; [|done]. apply elem_of_app. by left.
  - intros i c a rt [He|[= -> _ _ _]%list_elem_of_singleton]%elem_of_app; [|by rewrite lookup_insert_eq]. destruct (L3 _ _ _ _ He) as [o Ho].
    destruct (decide (i = cr_ID r)) as [->|]; [by rewrite lookup_insert_eq|rewrite lookup_insert_ne by done; by exists o].
  - intros i o Ho. rewrite count_events_app, count_one. cbn [guess_at]. apply lookup_insert_Some in Ho as [[<- <-]|[Hne Ho]].
    + rewrite bool_decide_eq_true_2 by done. rewrite (L4 _ _ Hin). done.
    + rewrite bool_decide_eq_false_2 by done. rewrite (L4 _ _ Ho). cbn [Z.b2z]. lia.
  - intros i o c a Ho He. apply lookup_insert_Some in Ho as [[<- <-]|[Hne Ho]].
    + apply elem_of_app in He as [He|[= _ _ Hrg]%list_elem_of_singleton]; [|unfold row, guessed; by rewrite <- Hrg]. pose proof (L5 _ _ _ _ Hin He) as Hused. unfold usable in Hu. by rewrite Hused in Hu.
    + apply elem_of_app in He as [He|[= -> _ _ _]%list_elem_of_singleton]; [by eapply L5|done].
  - intros p s. rewrite count_events_app, count_one. cbn [issued_in Z.b2z]. pose proof (count_where_replace (in_hour p s) _ _ _ row Hin) as Hw.
    change (in_hour p s row) with (in_hour p s r) in Hw. rewrite L6. lia.
Qed.

Lemma log_same log db db' : challenges db' = challenges db → log_matches log db → log_matches log db'.
Proof. intros Hc [L1 L2 L3 L4 L5 L6]. constructor; by rewrite Hc. Qed.

Lemma iam_run_ok log db : iam_run log db → iam_ok db ∧ log_matches log db.
Proof.
  induction 1 as [|log db evs db' _ [Hdb Hlog] Hst].
  - split; [apply empty_iam_ok|].
    constructor; cbn [empty_iam_db challenges]; try done; intros; match goal with
      | H : _ ∈ [] |- _ => by apply not_elem_of_nil in H
      | H : ∅ !! _ = Some _ |- _ => by rewrite lookup_empty in H
      end.
  - destruct (iam_step_effect db evs db' Hdb Hst) as [Hdb' He]. split; [done|]. destruct He as [db' Hc|id phone code now db' Hp Hfree Hms Hc|r code now db' Hin Hu Hc].
    + rewrite app_nil_r. by eapply log_same.
    + by apply (log_issue log db).
    + by apply (log_guess log db).
Qed.

(** ** Guessing *)

Lemma LoadGuard_with db phone g : LoadGuard (with_guard db phone g) phone = MkGuard (og_failures g) (stored_time (og_windowStart g)) (stored_time (og_lockedUntil g)).
Proof. unfold LoadGuard, LoadOTPGuard, with_guard. cbn [set_guards guards]. by rewrite lookup_insert_eq. Qed.

Lemma guards_outcome db phone code now : guards (guess_outcome secret db phone code now).2 = guards db.
Proof. unfold guess_outcome. destruct (LatestOTPChallenge _ _) as [r|]; [|done]. by destruct (usable r now). Qed.

(** C20. Guessing is bounded, whatever happens in any order: within any hour at
    most five codes are sent to a phone, and at most five guesses are compared
    with each. Every attempt that does not sign in counts as a failure of the
    phone, whichever code it was for; the tenth of a window locks the phone
    for fifteen minutes, in which nothing is compared and no code is sent. A
    lockout is the only error of the check itself. *)
Theorem guesses_are_bounded log db :
  iam_run log db →
  (∀ phone s, count_events (issued_in phone s) log ≤ 5) ∧
  (∀ id, count_events (guess_at id) log ≤ 5) ∧
  (∀ now phone code, 0 ≤ now →
    let g := LoadGuard db phone in
    match VerifyOTP_tx secret DefaultOTPPolicy db now phone code with
    | Err e => now < og_lockedUntil g ∧ e = RetryLaterError ErrOTPLocked (Sub (og_lockedUntil g) now)
    | Ok (None, db') => og_lockedUntil g ≤ now ∧ og_failures (LoadGuard db' phone) = 0
    | Ok (Some e, db') => og_lockedUntil g ≤ now ∧
        og_failures (LoadGuard db' phone) = next_failures g now ∧ next_failures g now ≤ 10 ∧
        (og_failures (LoadGuard db' phone) = 10 →
         e = RetryLaterError ErrOTPLocked (15 * Minute) ∧ og_lockedUntil (LoadGuard db' phone) = stored_time now + 15 * Minute)
    end) ∧
  (∀ now id codes phone, now < og_lockedUntil (LoadGuard db phone) →
    RequestOTP_tx secret DefaultOTPPolicy db now id codes phone = Err (RetryLaterError ErrOTPLocked (Sub (og_lockedUntil (LoadGuard db phone)) now))).
Proof.
  intros Hr. destruct (iam_run_ok log db Hr) as [Hdb Hlog]. split_and!.
  - intros phone s. rewrite (lm_hour _ _ Hlog). apply (chs_hour _ (io_challenges _ Hdb)).
  - intros id. destruct (challenges db !! id) as [r|] eqn:E.
    + rewrite (lm_guesses _ _ Hlog _ _ E). apply (ch_attempts _ _ (chs_rows _ (io_challenges _ Hdb) _ _ E)).
    + rewrite count_events_none; [done|]. intros [|i c a rt] Hin; [done|]. apply bool_decide_eq_false_2. intros ->.
      destruct (lm_known _ _ Hlog _ _ _ _ Hin). congruence.
  - intros now phone code Hnow g. rewrite VerifyOTP_tx_spec by done. cbn zeta. fold g. destruct (Z.ltb_spec now (og_lockedUntil g)) as [|Hun]; [done|].
    destruct (guess_outcome secret db phone code now) as [[e|] db1]; rewrite LoadGuard_with; cbn [og_failures og_lockedUntil failed_guard zero_guard]; [|done].
    destruct (Guard_Fail_spec g now (LoadGuard_good db phone Hdb) Hnow Hun) as [_ Hn]. split_and!; [done|done|lia|]. intros E.
    unfold failed_error. rewrite E. split; [done|]. apply stored_minutes.
  - intros now id codes phone Hlock. unfold RequestOTP_tx, WithPhoneLock, Guard_Check, Before. by rewrite (proj2 (Z.ltb_lt _ _)).
Qed.

(** ** Signing in *)

(** A check that passes compared the right guess with the phone's latest
    code. *)
Lemma VerifyOTP_passed db now phone code db1 : iam_ok db → 0 ≤ now → VerifyOTP_tx secret DefaultOTPPolicy db now phone code = Ok (None, db1) →
  ∃ r, LatestOTPChallenge db (e164 phone) = Some r ∧ usable r now = true ∧ cr_CodeHash r = Hash_code secret code ∧
    guess_event db phone code now = [Guessed (cr_ID r) code now true].
Proof.
  intros Hdb Hnow Htx. rewrite VerifyOTP_tx_spec in Htx by done. cbn zeta in Htx. destruct (_ <? _) in Htx; [done|]. unfold guess_outcome in Htx. unfold guess_event.
  destruct (LatestOTPChallenge db (e164 phone)) as [r|] eqn:El; [|done]. exists r. destruct (usable r now); [|done].
  destruct (right_guess secret r code) eqn:Hg; [|done]. unfold right_guess in Hg. apply bool_decide_eq_true in Hg. done.
Qed.

Lemma Register_found db id phone locale now user created db' : iam_ok db → canonical (e164 phone) →
  Users_Register db (NewUser id phone locale now) = (Ok (user, created), db') →
  us_phone user = phone ∧ ∃ r, users db' !! us_id user = Some r ∧ user = user_of r.
Proof.
  intros Hdb Hp Hreg. pose proof (Register_spec db id phone locale now Hdb Hp) as Hs. cbn zeta in Hs. destruct (UserByPhone db (e164 phone)) as [r|] eqn:E.
  - rewrite Hs in Hreg. injection Hreg as <- _ <-. destruct (UserByPhone_some _ _ _ E) as (uid & Hr & Hrp). cbn. rewrite Hrp.
    rewrite (ur_key _ _ (io_users _ Hdb _ _ Hr)). split; [by destruct phone|]. by exists r.
  - case_bool_decide; rewrite Hs in Hreg; [|done]. injection Hreg as <- _ <-. split; [by destruct phone|]. eexists. split; [by apply lookup_insert_eq|done].
Qed.

(** C19. Nobody signs in without the code. When a code is accepted, it is the last
    one sent to that very phone, less than five minutes ago, with fewer than
    five guesses made at it and none of them right: a code works once. Who
    signs in is the phone's one user, not blocked; a session is open for them
    and its only usable token is the one answered. Other requests may run
    between the three transactions. *)
Theorem sign_in_needs_the_code `{IamPorts} log db between1 between2 now1 now2 now3 newUser newSession b cmd login db' :
  iam_run log db → others between1 → others between2 → 0 ≤ now1 →
  VerifyOTP_handler secret DefaultOTPPolicy DefaultTokenPolicy between1 between2 db now1 now2 now3 newUser newSession b cmd = (Ok login, db') →
  ∃ phone code id sent at_ db1,
    NewPhoneNumber (vo_Phone cmd) = Ok phone ∧ ParseOTPCode (vo_Code cmd) = Ok code ∧
    Issued id phone sent at_ ∈ log ∧ Hash_code secret code = Hash_code secret sent ∧ now1 < stored_time at_ + 5 * Minute ∧
    (∀ id' sent' at', Issued id' phone sent' at' ∈ log → stored_time at' ≤ stored_time at_) ∧
    count_events (guess_at id) log < 5 ∧ (∀ c t, Guessed id c t true ∉ log) ∧
    iam_run (log ++ [Guessed id code now1 true]) db1 ∧ VerifyOTP_tx secret DefaultOTPPolicy db now1 phone code = Ok (None, db1) ∧
    us_phone (lg_User login) = phone ∧ us_status (lg_User login) ≠ UserBlocked ∧
    (∃ more, iam_run (log ++ more) db') ∧
    (let hash := Sum256 (tk_Refresh (lg_Tokens login)) in
     sessions db' !! newSession = Some (started_row newSession (us_id (lg_User login)) now3) ∧
     ∀ h t, tokens db' !! h = Some t → unused newSession t = true ↔ h = hash ∧ t = new_token_row hash newSession now3).
Proof.
  intros Hr Ho1 Ho2 Hnow Hh. destruct (iam_run_ok log db Hr) as [Hdb Hlog]. unfold VerifyOTP_handler in Hh.
  destruct (NewPhoneNumber (vo_Phone cmd)) as [phone|] eqn:Hphone; [|done]. destruct (ParseOTPCode (vo_Code cmd)) as [code|] eqn:Hcode; [|done].
  destruct (VerifyOTP_tx secret DefaultOTPPolicy db now1 phone code) as [[[e|] db1]|] eqn:Hv; [done| |done].
  destruct (VerifyOTP_passed _ _ _ _ _ Hdb Hnow Hv) as (r & Hlat & Hu & Hhash & Hev). destruct (Latest_some _ _ _ Hdb Hlat) as (Hin & Hrp & Hrok & Hmax).
  assert (Hr1 : iam_run (log ++ [Guessed (cr_ID r) code now1 true]) db1).
  { rewrite <- Hev. econstructor; [done|]. by eapply step_verify. }
  destruct (run_others _ _ _ Ho1 Hr1) as [m1 Hr1']. destruct (iam_run_ok _ _ Hr1') as [Hdb1 _].
  destruct (Users_Register (between1 db1) _) as [[[user created]|] db2] eqn:Hreg; [|done].
  assert (Hcan : canonical (e164 phone)) by by eapply NewPhoneNumber_canonical.
  destruct (Register_found _ _ _ _ _ _ _ _ Hdb1 Hcan Hreg) as (Hup & _). destruct (IsBlocked user) eqn:Hblk; [done|].
  destruct (run_one _ _ _ _ Hr1' (step_register _ _ _ _ _ _ _ _ Hphone Hreg)) as [m2 Hr2]. destruct (run_others _ _ _ Ho2 Hr2) as [m3 Hr3]. destruct (iam_run_ok _ _ Hr3) as [Hdb3 _].
  unfold Start in Hh. destruct (Start_tx DefaultTokenPolicy (between2 db2) now3 newSession b user) as [db4|] eqn:Hst; [|done].
  injection Hh as Htok <-. apply res_bind_ok in Htok as (tk & Hiss & Htok). injection Htok as <-.
  unfold issue_tokens in Hiss. apply res_bind_ok in Hiss as (access & _ & Hiss). injection Hiss as <-.
  destruct (run_one _ _ _ _ Hr3 (step_start _ _ _ _ _ _ Hst)) as [m4 Hr4]. apply Start_tx_spec in Hst as (_ & Hfree & _ & Htfree & ->).
  destruct (lm_rows _ _ Hlog _ _ Hin) as (p & sent & at_ & Hiss & Hp & Hs & Hat).
  assert (p = phone) as -> by (destruct p, phone; cbn in *; congruence).
  pose proof (ch_expires _ _ Hrok) as Hexp. unfold usable in Hu. bool_prop.
  exists phone, code, (cr_ID r), sent, at_, db1. cbn [lg_User lg_Tokens tk_Refresh]. split_and!; try done.
  - congruence.
  - rewrite <- Hat. lia.
  - intros id' sent' at' Hiss'. destruct (lm_issued _ _ Hlog _ _ _ _ Hiss') as (r' & Hr' & Hp' & _ & Hat'). rewrite <- Hat, <- Hat'. by eapply Hmax.
  - rewrite (lm_guesses _ _ Hlog _ _ Hin). lia.
  - intros c t Hg. pose proof (lm_right _ _ Hlog _ _ _ _ Hin Hg). congruence.
  - unfold IsBlocked in Hblk. by apply bool_decide_eq_false in Hblk.
  - exists ((([Guessed (cr_ID r) code now1 true] ++ m1) ++ m2) ++ m3 ++ m4). by rewrite !app_assoc in *.
  - by apply lookup_insert_eq.
  - cbn [set_tokens tokens]. intros h t Ht. change (Sum256 (New_refresh b).1) with (New_refresh b).2. split.
    + intros Hun. apply lookup_insert_Some in Ht as [[<- <-]|[_ Ht]]; [done|]. cbn [with_session set_sessions tokens] in Ht.
      unfold unused in Hun. bool_prop. destruct (io_tokens _ Hdb3 _ _ Ht) as [_ [s Hsess]]. congruence.
    + intros [-> ->]. unfold unused. cbn. by rewrite bool_decide_eq_true_2.
Qed.

(** ** Refresh tokens *)

(** Nothing is forgotten: users and sessions stay, a session stays its user's
    and once ended stays as it ended, a token once used stays used. *)
Record grows (db db' : IamDB) : Prop := {
  gr_users : ∀ id u, users db !! id = Some u → ∃ u', users db' !! id = Some u' ∧ ur_Phone u' = ur_Phone u;
  gr_sessions : ∀ id s, sessions db !! id = Some s →
    ∃ s', sessions db' !! id = Some s' ∧ sr_UserID s' = sr_UserID s ∧ (sr_RevokedAt s ≠ None → s' = s);
  gr_tokens : ∀ h t, tokens db !! h = Some t →
    ∃ t', tokens db' !! h = Some t' ∧ tr_SessionID t' = tr_SessionID t ∧ (tr_UsedAt t ≠ None → t' = t) }.

Lemma grows_refl db : grows db db.
Proof. constructor; eauto. Qed.

Lemma grows_trans db1 db2 db3 : grows db1 db2 → grows db2 db3 → grows db1 db3.
Proof.
  intros [A1 A2 A3] [B1 B2 B3]. constructor.
  - intros id u Hu. destruct (A1 _ _ Hu) as (u1 & Hu1 & E1). destruct (B1 _ _ Hu1) as (u2 & Hu2 & E2). exists u2. split; [done|congruence].
  - intros id s Hs. destruct (A2 _ _ Hs) as (s1 & Hs1 & E1 & R1). destruct (B2 _ _ Hs1) as (s2 & Hs2 & E2 & R2). exists s2. split_and!; [done|congruence|].
    intros Hr. specialize (R1 Hr). subst s1. by apply R2.
  - intros h t Ht. destruct (A3 _ _ Ht) as (t1 & Ht1 & E1 & R1). destruct (B3 _ _ Ht1) as (t2 & Ht2 & E2 & R2). exists t2. split_and!; [done|congruence|].
    intros Hr. specialize (R1 Hr). subst t1. by apply R2.
Qed.

Lemma grows_tables db db' : users db' = users db → sessions db' = sessions db → tokens db' = tokens db → grows db db'.
Proof. intros Eu Es Et. constructor; rewrite ?Eu, ?Es, ?Et; eauto. Qed.

Lemma grows_session db id s s' : sessions db !! id = Some s → sr_ID s' = id → sr_UserID s' = sr_UserID s → sr_RevokedAt s = None → grows db (with_session db s').
Proof.
  intros Hs Hid Hu Hr. constructor; cbn [with_session set_sessions users sessions tokens]; eauto. intros k o Ho. rewrite Hid.
  destruct (decide (k = id)) as [->|]; [|exists o; by rewrite lookup_insert_ne]. exists s'. rewrite lookup_insert_eq. rewrite Hs in Ho. injection Ho as <-. done.
Qed.

Lemma grows_revoke db id s now reason : iam_ok db → sessions db !! id = Some s → grows db (revoke_session db s now reason).
Proof.
  intros Hdb Hs. unfold revoke_session. destruct (sr_RevokedAt s) eqn:E; cbn [present]; [apply grows_refl|].
  by eapply grows_session; [exact Hs|apply (ss_key _ _ _ (io_sessions _ Hdb _ _ Hs))| |].
Qed.

Lemma grows_rotated db t s next now : iam_ok db → tokens db !! tr_TokenHash t = Some t → sessions db !! tr_SessionID t = Some s →
  sr_RevokedAt s = None → tr_UsedAt t = None → tokens db !! next = None → grows db (rotated db t s next now).
Proof.
  intros Hdb Ht Hs Hrev Hused Hfree. eapply grows_trans; [eapply (grows_session db _ s (refreshed_row s now)); [exact Hs|apply (ss_key _ _ _ (io_sessions _ Hdb _ _ Hs))|done|done]|].
  constructor; cbn [rotated set_tokens users sessions tokens]; eauto. intros h o Ho. cbn [with_session set_sessions tokens] in Ho.
  rewrite lookup_insert_ne by (intros ->; congruence). destruct (decide (h = tr_TokenHash t)) as [->|]; [|exists o; by rewrite lookup_insert_ne].
  exists (used_row t now). rewrite lookup_insert_eq. rewrite Ht in Ho. injection Ho as <-. done.
Qed.

Lemma iam_step_grows db evs db' : iam_ok db → iam_step db evs db' → grows db db'.
Proof.
  intros Hdb Hst. destruct Hst as [now id codes raw phone code db' Hp Htx|now raw phone code v db' Hnow Hp Htx|now id raw phone locale r db' Hp Hreg
    |now id b user db' Htx|now hash b s refused db' Htx|now id db' Htx|now user id db' Htx|now id r name status role Hr Hchk].
  - apply RequestOTP_tx_ok in Htx as (_ & _ & _ & ->); [|done]. by apply grows_tables.
  - rewrite VerifyOTP_tx_spec in Htx by done. cbn zeta in Htx. destruct (_ <? _) in Htx; [done|]. unfold guess_outcome in Htx.
    destruct (LatestOTPChallenge _ _) as [r|]; [|injection Htx as _ <-; by apply grows_tables]. destruct (usable r now); [|injection Htx as _ <-; by apply grows_tables].
    destruct (right_guess secret r code); injection Htx as _ <-; by apply grows_tables.
  - pose proof (Register_spec db id phone locale now Hdb (NewPhoneNumber_canonical _ _ Hp)) as Hs. cbn zeta in Hs.
    destruct (UserByPhone db (e164 phone)) as [ur|]; [rewrite Hs in Hreg; injection Hreg as _ <-; apply grows_refl|].
    case_bool_decide as Hid; rewrite Hs in Hreg; injection Hreg as _ <-; [|apply grows_refl]. constructor; cbn [set_users users sessions tokens]; eauto.
    intros k u Hu. exists u. rewrite lookup_insert_ne by (intros ->; congruence). done.
  - apply Start_tx_spec in Htx as (_ & Hfree & _ & Htfree & ->). constructor; cbn [set_tokens with_session set_sessions users sessions tokens started_row sr_ID]; eauto.
    + intros k s Hs. exists s. rewrite lookup_insert_ne by (intros ->; congruence). done.
    + intros h t Ht. exists t. rewrite lookup_insert_ne by (intros E; congruence). done.
  - destruct (tokens db !! hash) as [row|] eqn:Hrow; [|unfold Rotate_tx, Sessions_Rotate, RefreshTokenForUpdate in Htx; by rewrite Hrow in Htx].
    destruct (Rotate_tx_spec db now hash (New_refresh b).2 row Hdb (len_Sum256 _) Hrow) as (srow & s' & Hsrow & _ & _ & E). cbn zeta in E. rewrite E in Htx. clear E.
    destruct (io_tokens _ Hdb _ _ Hrow) as [<- _]. unfold rotate_outcome in Htx.
    destruct (sr_RevokedAt srow) eqn:E1; cbn [present fst snd] in Htx; [injection Htx as _ _ <-; apply grows_refl|].
    destruct (tr_UsedAt row) eqn:E2; cbn [present fst snd] in Htx; [injection Htx as _ _ <-; by eapply grows_revoke|].
    destruct (_ <=? _) in Htx; cbn [fst snd] in Htx; [injection Htx as _ _ <-; apply grows_refl|]. case_bool_decide; [|done]. injection Htx as _ _ <-. by apply grows_rotated.
  - rewrite Block_tx_spec in Htx by done. destruct (sessions db !! id) as [r|] eqn:E; [|done]. injection Htx as <-. by eapply grows_revoke.
  - rewrite Logout_tx_spec in Htx by done. destruct (sessions db !! id) as [r|] eqn:E; [|done]. case_bool_decide; [|done]. injection Htx as <-. by eapply grows_revoke.
  - constructor; cbn [set_users users sessions tokens]; eauto. intros k u Hu. destruct (decide (k = id)) as [->|]; [|exists u; by rewrite lookup_insert_ne].
    eexists. rewrite lookup_insert_eq. split; [done|]. rewrite Hr in Hu. by injection Hu as <-.
Qed.

Lemma iam_steps_grow db evs db' : iam_ok db → iam_steps db evs db' → iam_ok db' ∧ grows db db'.
Proof.
  intros Hdb. induction 1 as [|log db1 evs db2 _ [Hdb1 Hg] Hst]; [split; [done|apply grows_refl]|].
  split; [by eapply iam_step_effect|]. eapply grows_trans; [exact Hg|]. by eapply iam_step_grows.
Qed.

(** C21. At most one refresh token of a session is ever usable: each session has
    exactly one unused token. And nothing brings a token back: whatever
    commits next, a session that ended stays as it ended, a token that was
    used stays used, and neither changes hands. *)
Theorem one_usable_token log db :
  iam_run log db →
  (∀ id s, sessions db !! id = Some s →
     ∃ h t, tokens db !! h = Some t ∧ unused id t = true ∧ ∀ h' t', tokens db !! h' = Some t' → unused id t' = true → h' = h) ∧
  (∀ h t, tokens db !! h = Some t → is_Some (sessions db !! tr_SessionID t)) ∧
  ∀ evs db', iam_step db evs db' →
    (∀ id s, sessions db !! id = Some s →
       ∃ s', sessions db' !! id = Some s' ∧ sr_UserID s' = sr_UserID s ∧ (sr_RevokedAt s ≠ None → s' = s)) ∧
    (∀ h t, tokens db !! h = Some t →
       ∃ t', tokens db' !! h = Some t' ∧ tr_SessionID t' = tr_SessionID t ∧ (tr_UsedAt t ≠ None → t' = t)).
Proof.
  intros Hr. destruct (iam_run_ok log db Hr) as [Hdb _]. split_and!.
  - intros id s Hs. apply count_where_one, (io_one _ Hdb). by exists s.
  - intros h t Ht. by apply (io_tokens _ Hdb h).
  - intros evs db' Hst. destruct (iam_step_grows db evs db' Hdb Hst). done.
Qed.

(** What refreshing answers, on every branch: a token nobody was given, one of
    an ended session and an expired one are invalid and change nothing; one
    used before ends its session; else it is spent for the next one, and the
    answer depends on the user at that moment - an account blocked meanwhile
    gets nothing and loses the session. *)
Theorem refresh_answers `{IamPorts} log db between1 between2 now b raw answer db' :
  iam_run log db → others between1 → others between2 →
  Refresh_handler DefaultTokenPolicy between1 between2 db now b raw = (answer, db') →
  match hash ← Hash_refresh raw; tokens db !! hash with
  | None => answer = Err ErrRefreshTokenInvalid ∧ db' = db
  | Some t =>
      ∃ s, sessions db !! tr_SessionID t = Some s ∧
      if present (sr_RevokedAt s) then answer = Err ErrRefreshTokenInvalid ∧ db' = db
      else if present (tr_UsedAt t) then answer = Err ErrRefreshTokenReused ∧ db' = with_session db (revoked_row s now RevokedReuse)
      else if tr_ExpiresAt t <=? now then answer = Err ErrRefreshTokenInvalid ∧ db' = db
      else if present (tokens db !! (New_refresh b).2) then answer = Err ErrStorage ∧ db' = db
      else
        let spent := between1 (rotated db t s (New_refresh b).2 now) in
        ∃ u, users spent !! sr_UserID s = Some u ∧
        if IsBlocked (user_of u)
        then answer = Err ErrUserBlocked ∧ ∃ s', sessions db' !! tr_SessionID t = Some s' ∧ sr_RevokedAt s' ≠ None
        else answer = issue_tokens DefaultTokenPolicy (user_of u) (tr_SessionID t) (New_refresh b).1 now ∧ db' = spent
  end.
Proof.
  intros Hr Ho1 Ho2 Hh. destruct (iam_run_ok log db Hr) as [Hdb _]. unfold Refresh_handler in Hh.
  destruct (Hash_refresh raw) as [hash|]; cbn [mbind option_bind]; [|by injection Hh as <- <-].
  rewrite (surjective_pairing (New_refresh b)) in Hh. set (next := (New_refresh b).2) in *. set (next_text := (New_refresh b).1) in *.
  destruct (tokens db !! hash) as [t|] eqn:Ht.
  2:{ unfold Rotate_tx, Sessions_Rotate, RefreshTokenForUpdate in Hh. rewrite Ht in Hh. by injection Hh as <- <-. }
  assert (Hl : len next = 32) by apply len_Sum256. destruct (Rotate_tx_spec db now hash next t Hdb Hl Ht) as (s & ses & Hs & Hsid & Hsu & E).
  cbn zeta in E. exists s. split; [done|]. destruct (io_tokens _ Hdb _ _ Ht) as [Hth _]. rewrite E in Hh. unfold rotate_outcome in Hh, E.
  destruct (sr_RevokedAt s) as [rv|] eqn:Er; cbn [present fst snd] in Hh, E |- *; [by injection Hh as <- <-|].
  destruct (tr_UsedAt t) as [us|] eqn:Eu; cbn [present fst snd] in Hh, E |- *.
  { injection Hh as <- <-. split; [done|]. unfold revoke_session. by rewrite Er. }
  destruct (tr_ExpiresAt t <=? now); cbn [fst snd] in Hh, E; [by injection Hh as <- <-|].
  destruct (tokens db !! next) as [o|] eqn:En; cbn [present]; [rewrite bool_decide_eq_false_2 in Hh by done; by injection Hh as <- <-|].
  rewrite bool_decide_eq_true_2 in Hh, E by done. set (db1 := rotated db t s next now) in *. cbn zeta.
  assert (Hst : iam_step db [] db1) by (by eapply step_rotate). destruct (iam_step_effect db [] db1 Hdb Hst) as [Hdb1 _].
  pose proof (iam_step_grows db [] db1 Hdb Hst) as Hg1. destruct (Ho1 db1) as [m1 Hm1]. destruct (iam_steps_grow db1 m1 _ Hdb1 Hm1) as [Hdb2 Hg2].
  destruct (gr_sessions _ _ (grows_trans _ _ _ Hg1 Hg2) _ _ Hs) as (s2 & Hs2 & Hu2 & _). destruct (ss_user _ _ _ (io_sessions _ Hdb2 _ _ Hs2)) as [u Hu].
  rewrite Hu2 in Hu. exists u. split; [done|]. unfold Users_ByID, UserByID in Hh. rewrite Hsu, Hu in Hh. rewrite (toUser_row _ _ (io_users _ Hdb2 _ _ Hu)) in Hh.
  rewrite Hsid in Hh. destruct (IsBlocked (user_of u)); [|by injection Hh as <- <-].
  destruct (Ho2 (between1 db1)) as [m2 Hm2]. destruct (iam_steps_grow _ m2 _ Hdb2 Hm2) as [Hdb3 Hg3]. destruct (gr_sessions _ _ Hg3 _ _ Hs2) as (s3 & Hs3 & _ & _).
  rewrite Block_tx_spec, Hs3 in Hh by done. injection Hh as <- <-. split; [done|]. unfold revoke_session.
  destruct (sr_RevokedAt s3) eqn:E3; cbn [present]; [exists s3; split; [done|by rewrite E3]|]. eexists. cbn [with_session set_sessions sessions revoked_row sr_ID].
  rewrite (ss_key _ _ _ (io_sessions _ Hdb3 _ _ Hs3)), lookup_insert_eq. done.
Qed.
End Runs.

(** ** The text of refresh tokens and codes *)

(** A refresh token is read back: the text of 32 random bytes is "rt_" and 43
    characters, its digest is what was stored for it, and different bytes give
    different texts. *)
Theorem refresh_token_round_trip b :
  length b = refreshBytes → Forall is_byte b →
  Hash_refresh (New_refresh b).1 = Some (New_refresh b).2 ∧ len (New_refresh b).1 = 46 ∧ len (New_refresh b).2 = 32 ∧
  ∀ b', Forall is_byte b' → (New_refresh b').1 = (New_refresh b).1 → b' = b.
Proof.
  intros Hl Hb. unfold New_refresh. cbn [fst snd]. split_and!.
  - unfold Hash_refresh. rewrite CutPrefix_self, DecodeString_Encode by done. by rewrite Hl.
  - unfold len. rewrite string_length_app, Nat2Z.inj_add. change (Z.of_nat (String.length (EncodeToString b))) with (len (EncodeToString b)).
    rewrite len_EncodeToString, Hl by done. done.
  - apply len_Sum256.
  - intros b' Hb' E%string_app_cancel. pose proof (DecodeString_Encode b' Hb') as Hd. rewrite E, DecodeString_Encode in Hd by done. by injection Hd as <-.
Qed.

(** ** A demonstration *)

#[local] Instance demo_ports : IamPorts := {| SendOTP := λ _ _, true; Issue := λ _, Ok "access" |}.

Definition demo_secret : string := "an otp secret of thirty-two bytes".
Definition demo_phone : PhoneNumber := MkPhone "+966551234567".
Definition demo_code : OTPCode := MkCode "042137".
Definition demo_noon : time := 1800000000 * Second.
Definition demo_bytes : list Z := replicate 32 7.

Definition asked : IamDB := Eval vm_compute in
  match RequestOTP_tx demo_secret DefaultOTPPolicy empty_iam_db demo_noon (MkID 1) (Ok demo_code) demo_phone with Ok (_, db) => db | Err _ => empty_iam_db end.

Lemma asked_run : iam_run demo_secret [Issued (MkID 1) demo_phone demo_code demo_noon] asked.
Proof.
  change [Issued (MkID 1) demo_phone demo_code demo_noon] with ([] ++ [Issued (MkID 1) demo_phone demo_code demo_noon]).
  econstructor; [constructor|]. apply step_request with (codes := Ok demo_code) (raw := "0551234567"); vm_compute; reflexivity.
Qed.

Definition demo_attempt : VerifyOTP := MkVerify "055 123 4567" " 042137 " None.
Definition demo_sign_in : res iam_error Login * IamDB := Eval vm_compute in
  VerifyOTP_handler demo_secret DefaultOTPPolicy DefaultTokenPolicy id id asked (demo_noon + Minute) (demo_noon + Minute) (demo_noon + Minute)
    (MkID 2) (MkID 3) demo_bytes demo_attempt.
Definition demo_login : Login := Eval vm_compute in match demo_sign_in.1 with Ok l => l | Err _ => MkLogin (NewUser (MkID 0) demo_phone Arabic 0) false (MkTokens "" 0 "" 0) end.

Lemma guesses_are_bounded_witness :
  count_events (issued_in "+966551234567" demo_noon) [Issued (MkID 1) demo_phone demo_code demo_noon] ≤ 5 ∧
  count_events (guess_at (MkID 1)) [Issued (MkID 1) demo_phone demo_code demo_noon] ≤ 5.
Proof. destruct (guesses_are_bounded demo_secret [Issued (MkID 1) demo_phone demo_code demo_noon] asked asked_run) as (H1 & H2 & _). split; [apply H1|apply H2]. Defined.

Lemma sign_in_needs_the_code_witness :
  demo_sign_in.1 = Ok demo_login ∧ us_phone (lg_User demo_login) = demo_phone.
Proof.
  split; [vm_compute; reflexivity|].
  destruct (sign_in_needs_the_code demo_secret [Issued (MkID 1) demo_phone demo_code demo_noon] asked id id (demo_noon + Minute) (demo_noon + Minute) (demo_noon + Minute) (MkID 2) (MkID 3) demo_bytes demo_attempt demo_login demo_sign_in.2)
    as (phone & code & i & sent & at_ & db1 & Hp & _ & _ & _ & _ & _ & _ & _ & _ & _ & Hus & _).
  - exact asked_run.
  - exact (others_id demo_secret).
  - exact (others_id demo_secret).
  - vm_compute. discriminate.
  - vm_compute. reflexivity.
  - rewrite Hus. assert (NewPhoneNumber (vo_Phone demo_attempt) = Ok demo_phone) as E by (vm_compute; reflexivity). rewrite E in Hp. by injection Hp as <-.
Defined.

Definition verified : IamDB := Eval vm_compute in
  match VerifyOTP_tx demo_secret DefaultOTPPolicy asked (demo_noon + Minute) demo_phone demo_code with Ok (_, db) => db | Err _ => asked end.
Definition registered : IamDB := Eval vm_compute in (Users_Register verified (NewUser (MkID 2) demo_phone Arabic (demo_noon + Minute))).2.
Definition signed_in : IamDB := Eval vm_compute in demo_sign_in.2.
Definition demo_log : list iam_event := [Issued (MkID 1) demo_phone demo_code demo_noon; Guessed (MkID 1) demo_code (demo_noon + Minute) true].

Lemma signed_in_run : iam_run demo_secret demo_log signed_in.
Proof.
  change demo_log with ((([Issued (MkID 1) demo_phone demo_code demo_noon] ++ guess_event demo_secret asked demo_phone demo_code (demo_noon + Minute)) ++ []) ++ []).
  eapply (steps_snoc _ _ _ registered).
  - eapply (steps_snoc _ _ _ verified).
    + econstructor; [exact asked_run|].
      eapply step_verify with (raw := "0551234567"); [vm_compute; discriminate|vm_compute; reflexivity|vm_compute; reflexivity].
    + eapply (step_register _ _ (demo_noon + Minute) (MkID 2) "0551234567" demo_phone Arabic); [vm_compute; reflexivity|vm_compute; reflexivity].
  - eapply (step_start _ _ (demo_noon + Minute) (MkID 3) demo_bytes (lg_User demo_login)). vm_compute. reflexivity.
Qed.

Lemma one_usable_token_witness :
  ∃ h t, tokens signed_in !! h = Some t ∧ unused (MkID 3) t = true.
Proof.
  destruct (one_usable_token demo_secret demo_log signed_in signed_in_run) as (H1 & _).
  destruct (H1 (MkID 3) (started_row (MkID 3) (MkID 2) (demo_noon + Minute))) as (h & t & Ht & Hu & _); [vm_compute; reflexivity|]. by exists h, t.
Defined.

Definition fresh_bytes : list Z := replicate 32 9.
Definition demo_refresh : res iam_error Tokens * IamDB := Eval vm_compute in
  Refresh_handler DefaultTokenPolicy id id signed_in (demo_noon + Hour) fresh_bytes (tk_Refresh (lg_Tokens demo_login)).

(** The first refresh answers new tokens; the same token again ends the
    session. *)
Lemma refresh_answers_witness :
  demo_refresh.1 = Ok (MkTokens "access" (15 * Minute) (New_refresh fresh_bytes).1 (30 * 24 * Hour)) ∧
  ∃ t, tokens signed_in !! (New_refresh demo_bytes).2 = Some t ∧ demo_refresh.2 = rotated signed_in t (started_row (MkID 3) (MkID 2) (demo_noon + Minute)) (New_refresh fresh_bytes).2 (demo_noon + Hour).
Proof.
  assert (Hh : Refresh_handler DefaultTokenPolicy id id signed_in (demo_noon + Hour) fresh_bytes (tk_Refresh (lg_Tokens demo_login)) = (demo_refresh.1, demo_refresh.2))
    by (vm_compute; reflexivity).
  pose proof (refresh_answers demo_secret demo_log signed_in id id (demo_noon + Hour) fresh_bytes (tk_Refresh (lg_Tokens demo_login)) demo_refresh.1 demo_refresh.2
    signed_in_run (others_id demo_secret) (others_id demo_secret) Hh) as Hr. clear Hh.
  assert (Et : (hash ← Hash_refresh (tk_Refresh (lg_Tokens demo_login)); tokens signed_in !! hash) = Some (new_token_row (New_refresh demo_bytes).2 (MkID 3) (demo_noon + Minute)))
    by (vm_compute; reflexivity).
  rewrite Et in Hr. destruct Hr as (s & Hs & Hr). assert (Es : sessions signed_in !! MkID 3 = Some (started_row (MkID 3) (MkID 2) (demo_noon + Minute))) by (vm_compute; reflexivity).
  change (tr_SessionID (new_token_row _ _ _)) with (@MkID SessionTag 3) in Hs. rewrite Es in Hs. injection Hs as <-.
  cbn [started_row sr_RevokedAt present new_token_row tr_UsedAt] in Hr.
  assert (Ex : tr_ExpiresAt (new_token_row (New_refresh demo_bytes).2 (MkID 3) (demo_noon + Minute)) <=? demo_noon + Hour = false) by (vm_compute; reflexivity).
  rewrite Ex in Hr. assert (En : tokens signed_in !! (New_refresh fresh_bytes).2 = None) by (vm_compute; reflexivity). rewrite En in Hr. cbn [present] in Hr.
  destruct Hr as (u & Hu & Hr). assert (Eu : IsBlocked (user_of u) = false).
  { assert (Hux : u = MkUserRow (MkID 2) "+966551234567" None "ar" "active" "none" (demo_noon + Minute) (demo_noon + Minute)) by (vm_compute in Hu; injection Hu as <-; reflexivity). by subst u. }
  rewrite Eu in Hr. destruct Hr as [H1 H2]. split; [rewrite H1; reflexivity|]. eexists. split; [vm_compute; reflexivity|]. exact H2.
Defined.

Lemma refresh_token_round_trip_witness :
  Hash_refresh (New_refresh demo_bytes).1 = Some (New_refresh demo_bytes).2 ∧ len (New_refresh demo_bytes).1 = 46.
Proof.
  destruct (refresh_token_round_trip demo_bytes) as (H1 & H2 & _); [reflexivity| |by split].
  unfold demo_bytes. apply Forall_replicate. unfold is_byte. lia.
Defined.
