(* ===== verification/AccessTokens.v ===== *)
(** * Access tokens (src/internal/iam/adapters/tokens/access.go)

    Issuing and verifying the short-lived tokens of a signed-in client, and
    [Module.Authenticate], which says who presents one. JSON Web Tokens and
    Ed25519 are a library: the interface [JwtLib], with what its documentation
    says of signing, parsing and the options the code passes as [JwtLaws]. *)
From S2P Require Import Prelude GoTime GoText GoCrypto GoEncoding Shared Tables Iam IamApp Http.
Open Scope Z_scope.

(** ** The library *)

(** Times are whole seconds since 1970, as a token carries them. *)
Record RegisteredClaims := MkRegistered {
  jwt_Issuer : string; jwt_Subject : string; jwt_Audience : list string; jwt_ExpiresAt : option Z; jwt_NotBefore : option Z; jwt_IssuedAt : option Z;
  jwt_ID : string }.

(** access.go: the registered claims plus ours. *)
Record claims := MkJwtClaims { Registered : RegisteredClaims; cl_SessionID : string; cl_PlatformRole : string }.

Record parse_options := MkOptions {
  po_ValidMethods : list string; po_Issuer : string; po_Audience : string; po_ExpirationRequired : bool; po_CheckIssuedAt : bool;
  po_Leeway : Duration; po_Time : time }.

(** A [Public] is its bytes too. *)
Class JwtLib (Private Public : Type) := {
  NewKeyFromSeed : string → Private;
  PublicOf : Private → Public;
  public_bytes : Public → string;
  (** Algorithm, key, key ID and claims. *)
  SignedString : string → Private → string → claims → option string;
  (** Options, the key of a key ID ("" for none), and the token. *)
  ParseWithClaims : parse_options → (string → option Public) → string → option claims }.

(** What the validator checks. *)
Definition timely (o : parse_options) (c : claims) : Prop :=
  let r := Registered c in
  match jwt_ExpiresAt r with Some e => po_Time o < e * Second + po_Leeway o | None => po_ExpirationRequired o = false end ∧
  match jwt_NotBefore r with Some n => n * Second - po_Leeway o ≤ po_Time o | None => True end ∧
  match jwt_IssuedAt r with Some i => po_CheckIssuedAt o = true → i * Second - po_Leeway o ≤ po_Time o | None => True end ∧
  jwt_Issuer r = po_Issuer o ∧ po_Audience o ∈ jwt_Audience r.

Definition EdDSA : string := "EdDSA".

(** A token reads back when its algorithm is allowed, its key is the one its
    key ID names and it passes the checks; nothing that fails them does, and
    nothing but what was signed is read. A token is three parts of base64url, so nothing to trim. *)
Class JwtLaws (Private Public : Type) `{JwtLib Private Public} := {
  parse_signed o keys alg k kid c raw : SignedString alg k kid c = Some raw → alg ∈ po_ValidMethods o → keys kid = Some (PublicOf k) →
    timely o c → ParseWithClaims o keys raw = Some c;
  parse_checked o keys raw c : ParseWithClaims o keys raw = Some c → timely o c;
  parse_same o keys alg k kid c c' raw : SignedString alg k kid c = Some raw → ParseWithClaims o keys raw = Some c' → c' = c;
  signed_text alg k kid c raw : SignedString alg k kid c = Some raw → raw ≠ "" ∧ TrimSpace raw = raw }.

(** ** The signer *)

Definition MinTokenSecretLen : Z := 32.
Definition issuer : string := "barbershop-backend".
Definition audience : string := "barbershop-api".
Definition leeway : Duration := 30 * Second.

Inductive token_error := ErrInvalidToken | ErrSecret | ErrSign | ErrTokenPanic.

(** [jwt.NewNumericDate]: rounded down to seconds. *)
Definition NewNumericDate (t : time) : Z := Truncate t Second / Second.

Section signer.
Context {Private Public : Type} `{JwtLib Private Public} `{UuidLib}.

Record Signer := MkSigner { sg_private : Private; sg_public : Public; sg_keyID : string }.

Definition NewSigner (secret : string) : res token_error Signer :=
  if len secret <? MinTokenSecretLen then Err ErrSecret
  else
    let private := NewKeyFromSeed (Sum256 secret) in
    let public := PublicOf private in
    Ok (MkSigner private public (EncodeToString (take 8 (bytes (Sum256 (public_bytes public)))))).

Definition jwt_claims (c : AccessClaims) (newID : UUID) : claims :=
  MkJwtClaims
    (MkRegistered issuer (ID_String (ac_UserID c)) [audience] (Some (NewNumericDate (ac_ExpiresAt c))) (Some (NewNumericDate (ac_IssuedAt c)))
       (Some (NewNumericDate (ac_IssuedAt c))) (uuid_string newID))
    (ID_String (ac_SessionID c)) (ac_PlatformRole c).

(** [newID] is [uuid.NewString]. *)
Definition Signer_Issue (s : Signer) (newID : UUID) (c : AccessClaims) : res token_error string :=
  match SignedString EdDSA (sg_private s) (sg_keyID s) (jwt_claims c newID) with None => Err ErrSign | Some raw => Ok raw end.

Definition verify_options (now : time) : parse_options := MkOptions [EdDSA] issuer audience true true leeway now.
Definition key_of (s : Signer) (kid : string) : option Public := if bool_decide (kid = sg_keyID s) then Some (sg_public s) else None.

(** [c.IssuedAt.Time] and [c.ExpiresAt.Time] panic on a nil date. *)
Definition Signer_Verify (s : Signer) (now : time) (raw : string) : res token_error AccessClaims :=
  match ParseWithClaims (verify_options now) (key_of s) raw with
  | None => Err ErrInvalidToken
  | Some c =>
      match ParseID (jwt_Subject (Registered c)), ParseID (cl_SessionID c) with
      | Ok user, Ok session =>
          match jwt_IssuedAt (Registered c), jwt_ExpiresAt (Registered c) with
          | Some i, Some e => Ok (MkClaims user session (cl_PlatformRole c) (i * Second) (e * Second))
          | _, _ => Err ErrTokenPanic
          end
      | _, _ => Err ErrInvalidToken
      end
  end.

(** [Module.Authenticate]. *)
Definition Authenticate (s : Signer) (now : time) (token : string) : res token_error Principal :=
  let! c := Signer_Verify s now token in
  Ok (MkPrincipal (ac_UserID c) (value (ac_SessionID c)) (ac_PlatformRole c)).

(** The signer as the use cases see it. *)
Definition signer_ports (send : PhoneNumber → OTPCode → bool) (s : Signer) (newID : UUID) : IamPorts := {|
  SendOTP := send;
  Issue c := res_map_err (λ _, ErrUpstream) (Signer_Issue s newID c) |}.
End signer.
Arguments Signer Private Public : clear implicits.

(** ** A token's life *)

(** When a token issued for [c] is accepted, on a server whose clock is
    within the leeway. *)
Definition accepted_at (c : AccessClaims) (now : time) : Prop :=
  NewNumericDate (ac_IssuedAt c) * Second - leeway ≤ now < NewNumericDate (ac_ExpiresAt c) * Second + leeway.

#[export] Instance accepted_at_dec c now : Decision (accepted_at c now).
Proof. unfold accepted_at. apply _. Defined.

Section life.
Context {Private Public : Type} `{JwtLaws Private Public} `{UuidLib}.

Lemma issued_timely c newID now : timely (verify_options now) (jwt_claims c newID) ↔ accepted_at c now.
Proof.
  unfold timely, accepted_at. cbn. split.
  - intros (? & ? & _). lia.
  - intros [? ?]. split_and!; [lia|lia|lia|done|by left].
Qed.

Lemma Verify_issued secret s newID c raw now : NewSigner secret = Ok s → Signer_Issue s newID c = Ok raw →
  ID_IsZero (ac_UserID c) = false → ID_IsZero (ac_SessionID c) = false →
  Authenticate s now raw = if decide (accepted_at c now) then Ok (MkPrincipal (ac_UserID c) (value (ac_SessionID c)) (ac_PlatformRole c)) else Err ErrInvalidToken.
Proof.
  unfold NewSigner, Signer_Issue, Authenticate, Signer_Verify. destruct (_ <? _); [done|]. intros [= <-].
  cbn [sg_private sg_keyID sg_public]. set (kid := EncodeToString _). set (k := NewKeyFromSeed _).
  destruct (SignedString EdDSA k kid (jwt_claims c newID)) as [raw'|] eqn:Es; [|done]. intros [= ->] Hu Hn.
  assert (Hp : ∀ {T} (i : ID T), ID_IsZero i = false → ParseID (ID_String i) = Ok i).
  { intros T [i] Hi. unfold ParseID, ID_String. rewrite uuid_parse_string. cbn in *. unfold ID_IsZero in Hi. cbn in Hi. by rewrite Hi. }
  case_decide as Hacc.
  - erewrite parse_signed; [|exact Es|by left|unfold key_of; cbn [sg_keyID sg_public]; by rewrite bool_decide_eq_true_2|by apply issued_timely].
    cbn [jwt_claims Registered jwt_Subject cl_SessionID jwt_IssuedAt jwt_ExpiresAt cl_PlatformRole]. by rewrite !Hp.
  - destruct (ParseWithClaims _ _ raw) as [c'|] eqn:Ep; [|done]. exfalso. apply Hacc. apply issued_timely with newID.
    rewrite <- (parse_same _ _ _ _ _ _ _ _ Es Ep). by eapply parse_checked.
Qed.

(** The header a client sends reads back as the token. *)
Lemma bearer_header s newID c raw : Signer_Issue s newID c = Ok raw → bearerToken ("Bearer " +:+ raw) = Some raw.
Proof.
  unfold Signer_Issue. destruct (SignedString _ _ _ _) as [raw'|] eqn:Es; [|done]. intros [= ->].
  destruct (signed_text _ _ _ _ _ Es) as [Hne Ht]. unfold bearerToken.
  assert (Cut ("Bearer " +:+ raw) " " = Some ("Bearer", raw)) as -> by (destruct raw; reflexivity).
  change (is_bearer "Bearer") with true. cbn [negb]. by rewrite Ht, bool_decide_eq_false_2.
Qed.
End life.
