(* ===== verification/IamHttp.v ===== *)
(** * Signing in over HTTP (src/internal/iam/adapters/httpapi)

    The handlers of handlers.go, from the decoded request to the status and
    body answered; and how long the access token they hand out says who asks. *)
From S2P Require Import Prelude GoTime GoText GoEncoding Shared Tables Iam IamStore IamApp IamFacts IamFlow Http AccessTokens.
Open Scope Z_scope.

(** ** The API's shapes (apigen) *)

Record api_OTPRequested := MkOTPRequested { ExpiresInSeconds : Z; ResendAfterSeconds : Z }.
Record api_User := MkApiUser { au_CreatedAt : time; au_Id : UUID; au_Locale : string; au_Name : option string; au_Phone : string }.
Record TokenPair := MkTokenPair { AccessToken : string; ExpiresIn : Z; RefreshExpiresIn : Z; tp_RefreshToken : string; TokenType : string }.
Record api_Login := MkApiLogin { al_IsNewUser : bool; al_Tokens : TokenPair; al_User : api_User }.
Record OTPVerify := MkOTPVerify { ov_Code : string; ov_Phone : string }.

(** ** Errors *)

(** The reason an error carries: [RetryLaterError] wraps its own. *)
Fixpoint reason (e : iam_error) : iam_error := match e with RetryLaterError e _ => reason e | _ => e end.

Definition problem_of (err : iam_error) : option (Z * string * string) :=
  match reason err with
  | ErrPhone _ => Some (422, "validation_failed", "phone: not a Saudi mobile number")
  | ErrInvalidOTPCode => Some (422, "validation_failed", "code: must be 6 digits")
  | ErrOTPLocked => Some (429, "otp_locked", "wait before trying again")
  | ErrOTPCooldown => Some (429, "otp_cooldown", "")
  | ErrOTPRateLimited => Some (429, "rate_limited", "")
  | ErrOTPTooManyAttempts => Some (429, "otp_too_many_attempts", "request a new code")
  | ErrOTPInvalid => Some (401, "otp_invalid", "")
  | ErrOTPExpired => Some (401, "otp_expired", "request a new code")
  | ErrUserBlocked => Some (403, "user_blocked", "")
  | ErrUnauthenticated => Some unauthorized
  | ErrRefreshTokenReused => Some (401, "refresh_token_reused", "session ended; sign in again")
  | ErrRefreshTokenInvalid => Some (401, "refresh_token_invalid", "sign in again")
  | _ => None
  end.

(** Retry-After in whole seconds, rounded up; a challenge with code
    "unauthorized" only. *)
Definition problem_headers (err : iam_error) : ProblemResponseHeaders :=
  MkHeaders (match err with RetryLaterError _ after => Some (ceil_int (float_seconds after)) | _ => None end)
    (match reason err with ErrUnauthenticated => Some BearerChallenge | _ => None end).

#[export] Instance iam_problems : Problems iam_error := {|
  problem ctx err := problem_for ctx (problem_of err) (problem_headers err);
  no_principal := ErrUnauthenticated |}.

(** ** Answers *)

Definition toAPIUser (u : User) : api_User :=
  MkApiUser (us_createdAt u) (value (us_id u)) (Language_string (us_locale u)) (if bool_decide (us_name u = "") then None else Some (us_name u))
    (e164 (us_phone u)).

Definition seconds_of (d : Duration) : Z := trunc_int (float_seconds d).

Definition toAPITokens (t : Tokens) : TokenPair :=
  MkTokenPair (tk_Access t) (seconds_of (tk_AccessExpiresIn t)) (seconds_of (tk_RefreshExpiresIn t)) (tk_Refresh t) "Bearer".

Section Handlers.
Context (secret : string) (policy : OTPPolicy) (token_policy : TokenPolicy) `{IamPorts} (ctx : Ctx).

(** The tables stay as the use case left them, whatever it answered. *)
Definition answered {A B} (status : Z) (f : A → B) (r : res iam_error A * IamDB) : Response B * IamDB :=
  (reply ctx status (let! a := r.1 in Ok (f a)), r.2).

Definition PostOTPRequest (db : IamDB) (now : time) (newID : OTPChallengeID) (codes : res iam_error OTPCode) (phone : string)
  : Response api_OTPRequested * IamDB :=
  answered 202 (λ r, MkOTPRequested (seconds_of (rq_ExpiresIn r)) (seconds_of (rq_ResendAfter r)))
    (RequestOTP_handler secret policy db now newID codes phone).

Definition verify_command (accept_language : option string) (body : OTPVerify) : VerifyOTP :=
  MkVerify (ov_Phone body) (ov_Code body) (Some (match accept_language with None => Arabic | Some tag => ParseLanguage tag end)).

Definition PostOTPVerify (between1 between2 : IamDB → IamDB) (db : IamDB) (now1 now2 now3 : time) (newUser : UserID) (newSession : ID SessionTag)
    (b : list Z) (accept_language : option string) (body : OTPVerify) : Response api_Login * IamDB :=
  answered 200 (λ l, MkApiLogin (lg_IsNewUser l) (toAPITokens (lg_Tokens l)) (toAPIUser (lg_User l)))
    (VerifyOTP_handler secret policy token_policy between1 between2 db now1 now2 now3 newUser newSession b (verify_command accept_language body)).

Definition PostRefresh (between1 between2 : IamDB → IamDB) (db : IamDB) (now : time) (b : list Z) (refresh_token : string)
  : Response TokenPair * IamDB :=
  answered 200 toAPITokens (Refresh_handler token_policy between1 between2 db now b refresh_token).

Definition PostLogout (db : IamDB) (now : time) : Response unit * IamDB :=
  reply_db ctx 204 db (
    let! p := caller ctx in
    let! db' := Logout_handler db now (UserID_of p) (IDFromUUID (SessionID p)) in
    Ok (tt, db')).

Definition GetMe (db : IamDB) : Response api_User :=
  reply ctx 200 (
    let! p := caller ctx in
    let! u := GetMe_handler db (UserID_of p) in
    Ok (toAPIUser u)).
End Handlers.

(** ** The token handed out *)

Lemma floor_seconds t : NewNumericDate t * Second = Truncate t Second.
Proof.
  unfold NewNumericDate, Truncate. change (Second <=? 0) with false. cbn match.
  assert (Hz : (zero_time mod Second) = 0) by reflexivity. assert (HS : 0 < Second) by done.
  pose proof (Z.div_mod (t - (t - zero_time) mod Second) Second ltac:(lia)) as E.
  assert (Hm : (t - (t - zero_time) mod Second) mod Second = 0).
  { rewrite Zminus_mod_idemp_r. replace (t - (t - zero_time)) with zero_time by lia. exact Hz. }
  lia.
Qed.

Lemma started_ids db now id b user db' : Start_tx DefaultTokenPolicy db now id b user = Ok db' → ID_IsZero (us_id user) = false ∧ ID_IsZero id = false.
Proof.
  unfold Start_tx, NewSession. destruct (ID_IsZero id); [done|]. destruct (ID_IsZero (us_id user)); [done|]. done.
Qed.

(** C37. Signing in gives a token that says who asks, for fifteen minutes. When
    POST /v1/auth/otp/verify answered 200, the session it opened is the
    user's, and every request that carries the access token as its bearer
    token, on any server with the secret, is that user's in that session, with
    their platform role, from 30 seconds before it was issued (on whole
    seconds) until 30 seconds after the fifteen minutes; a protected operation
    then lets it pass, and GET /v1/me answers the user that signing in
    answered. Outside that time the request is nobody's. *)
Theorem signed_in_requests_are_theirs {Private Public : Type} `{JwtLaws Private Public} `{UuidLib} send tsecret s jti secret policy ctx
    between1 between2 db now1 now2 now3 newUser newSession b lang body l db' :
  NewSigner tsecret = Ok s →
  PostOTPVerify secret policy DefaultTokenPolicy (H := signer_ports send s jti) ctx between1 between2 db now1 now2 now3 newUser newSession b lang body
    = (Answer 200 l, db') →
  ∃ user, al_User l = toAPIUser user ∧ sessions db' !! newSession = Some (started_row newSession (us_id user) now3) ∧ ExpiresIn (al_Tokens l) = 900 ∧
    ∀ now id, let anonymous := MkCtx id None in
      let asking := bearerAuth (Authenticate s now) anonymous ("Bearer " +:+ AccessToken (al_Tokens l)) in
      if decide (Truncate now3 Second - leeway ≤ now < Truncate (now3 + 15 * Minute) Second + leeway) then
        PrincipalFrom asking = Some (MkPrincipal (us_id user) (value newSession) (us_role user)) ∧ protected_passes asking = true ∧
        ∀ db2, Users_ByID db2 (us_id user) = Ok user → GetMe asking db2 = Answer 200 (al_User l)
      else asking = anonymous ∧ protected_passes asking = false.
Proof.
  intros Hs. unfold PostOTPVerify, answered, VerifyOTP_handler.
  destruct (NewPhoneNumber _) as [phone|]; [|done]. destruct (ParseOTPCode _) as [code|]; [|done].
  destruct (VerifyOTP_tx _ _ _ _ _ _) as [[[e|] db1]|]; [done| |done].
  destruct (Users_Register _ _) as [[[user created]|] db2]; [|done]. destruct (IsBlocked user) eqn:Hb; [done|].
  unfold Start. destruct (Start_tx DefaultTokenPolicy (between2 db2) now3 newSession b user) as [db4|] eqn:Hst; [|done].
  unfold issue_tokens. destruct (Issue _) as [access|] eqn:Hi; [|done]. cbn [res_bind fst snd reply]. intros [= <- <-].
  destruct (started_ids _ _ _ _ _ _ Hst) as [Hu Hn]. apply Start_tx_spec in Hst as (_ & _ & _ & _ & ->).
  exists user. split; [done|]. split; [by apply lookup_insert_eq|]. split; [vm_compute; reflexivity|]. cbn [Issue signer_ports] in Hi.
  destruct (Signer_Issue s jti _) as [raw|] eqn:Hraw; [|done]. injection Hi as ->.
  intros now id. cbv zeta. cbn [al_Tokens toAPITokens tk_Access AccessToken]. unfold bearerAuth.
  rewrite (bearer_header _ _ _ _ Hraw), (Verify_issued _ _ _ _ _ now Hs Hraw Hu Hn). cbn [ac_UserID ac_SessionID ac_PlatformRole].
  set (c := MkClaims _ _ _ _ _).
  assert (Hd : accepted_at c now ↔ Truncate now3 Second - leeway ≤ now < Truncate (now3 + 15 * Minute) Second + leeway).
  { unfold accepted_at, c. cbn [ac_IssuedAt ac_ExpiresAt]. by rewrite !floor_seconds. }
  rewrite (decide_ext _ _ _ _ Hd). case_decide; [|done]. split; [done|]. split; [done|].
  intros db3 Hdb. unfold GetMe, caller. cbn. unfold GetMe_handler. rewrite Hdb, Hb. done.
Qed.

(** ** An example: one token, and a library that knows it *)

#[export] Instance registered_eq_dec : EqDecision RegisteredClaims.
Proof. solve_decision. Defined.
#[export] Instance claims_eq_dec : EqDecision claims.
Proof. solve_decision. Defined.
#[export] Instance timely_dec o c : Decision (timely o c).
Proof. unfold timely. destruct (jwt_ExpiresAt _), (jwt_NotBefore _), (jwt_IssuedAt _); apply _. Defined.

Module TokenDemo.
#[export] Existing Instance decimal_ids.
Definition minute_past : time := demo_noon + Minute.
Definition kid : string := Eval vm_compute in EncodeToString (take 8 (bytes (GoCrypto.Sum256 "public"))).
Definition the_claims : claims := jwt_claims (MkClaims (MkID 2) (MkID 3) "none" minute_past (minute_past + 15 * Minute)) 77.

#[export] Instance one_token : JwtLib unit unit := {|
  NewKeyFromSeed _ := tt;
  PublicOf _ := tt;
  public_bytes _ := "public";
  SignedString alg _ k c := if decide (alg = EdDSA ∧ k = kid ∧ c = the_claims) then Some "h.p.s" else None;
  ParseWithClaims o keys raw :=
    if decide (raw = "h.p.s" ∧ EdDSA ∈ po_ValidMethods o ∧ keys kid = Some tt ∧ timely o the_claims) then Some the_claims else None |}.

#[export] Instance one_token_laws : JwtLaws unit unit.
Proof.
  split.
  - intros o keys alg k i c raw Hs Hm Hk Ht. cbn in *. case_decide as Hd; [|done]. destruct Hd as (-> & -> & ->). injection Hs as <-.
    case_decide as Hn; [done|]. exfalso. apply Hn. by destruct k.
  - intros o keys raw c Hp. cbn in *. case_decide as Hd; [|done]. destruct Hd as (_ & _ & _ & Ht). by injection Hp as <-.
  - intros o keys alg k i c c' raw Hs Hp. cbn in *. repeat case_decide; try done. injection Hp as <-. by destruct_and!.
  - intros alg k i c raw Hs. cbn in *. case_decide; [|done]. injection Hs as <-. by split.
Qed.

Definition token_secret : string := "a token secret of thirty-two byte".
Definition signer : Signer unit unit := MkSigner tt tt kid.
Definition posted : Response api_Login * IamDB :=
  @PostOTPVerify demo_secret DefaultOTPPolicy DefaultTokenPolicy (signer_ports (λ _ _, true) signer 77) (MkCtx "R1" None) id id asked minute_past minute_past minute_past
    (MkID 2) (MkID 3) demo_bytes (Some "ar-SA") (MkOTPVerify " 042137 " "055 123 4567").
Definition tokens_of (r : Response api_Login) : api_Login :=
  match r with Answer _ l => l | Refusal _ _ => MkApiLogin false (MkTokenPair "" 0 0 "" "") (MkApiUser 0 0 "" None "") end.
End TokenDemo.
Import TokenDemo.

Lemma signer_made : NewSigner token_secret = Ok signer.
Proof. vm_compute. reflexivity. Qed.

Lemma signed_in_requests_are_theirs_witness :
  let asking now := bearerAuth (Authenticate signer now) (MkCtx "R2" None) ("Bearer " +:+ AccessToken (al_Tokens (tokens_of posted.1))) in
  status_of posted.1 = 200 ∧ protected_passes (asking (minute_past + 15 * Minute)) = true ∧ asking (minute_past + 16 * Minute) = MkCtx "R2" None.
Proof.
  cbv zeta. assert (E : posted = (Answer 200 (tokens_of posted.1), posted.2)).
  { assert (Es : status_of posted.1 = 200 ∧ match posted.1 with Answer n _ => n = 200 | _ => False end) by (vm_compute; split; reflexivity).
    destruct posted as [[n l|p h] db]; cbn in *; [by destruct Es as [_ ->]|by destruct Es]. }
  destruct (signed_in_requests_are_theirs (λ _ _, true) token_secret signer 77 demo_secret DefaultOTPPolicy (MkCtx "R1" None) id id asked minute_past minute_past minute_past
    (MkID 2) (MkID 3) demo_bytes (Some "ar-SA") (MkOTPVerify " 042137 " "055 123 4567") (tokens_of posted.1) posted.2 signer_made E)
    as (user & _ & _ & _ & H).
  split; [rewrite E; reflexivity|]. split.
  - specialize (H (minute_past + 15 * Minute) "R2"). cbv zeta in H. rewrite decide_True in H; [exact (proj1 (proj2 H))|].
    vm_compute. split; [discriminate|reflexivity].
  - specialize (H (minute_past + 16 * Minute) "R2"). cbv zeta in H. rewrite decide_False in H; [exact (proj1 H)|].
    vm_compute. intros [_ Hlt]. discriminate Hlt.
Defined.
