(* ===== verification/Outbox.v ===== *)
(** * The outbox (src/internal/platform/outbox)

    How events get from one module to another: subscriptions, publishing with
    the change an event tells of, fanning out to the subscribers, delivering
    to each of them, and scheduled tasks.

    The queue is River, a library: [Queue] below is what it documents of a
    job - worked while available, finished for good when its worker says so,
    tried again after an error until the attempts run out. Payloads are [Msg],
    and what handlers change is [W]. *)
From S2P Require Import Prelude GoTime Tables.
Open Scope Z_scope.

Section outbox.
Context {Msg W : Type}.

Record Event := MkEvent { ev_ID : N; ev_Type : string; ev_OccurredAt : time; ev_Payload : Msg }.

(** A handler or task: whether it succeeded, and what it changed, failing or not. *)
Definition Handler : Type := W → Event → bool * W.
Definition Task : Type := W → bool * W.
Record schedule := MkSchedule { every : Duration; task : Task }.

(** ** Subscriptions *)

Record Bus := MkBus { handlers : gmap string Handler; byType : gmap string (list string); tasks : gmap string schedule }.

Definition New : Bus := MkBus ∅ ∅ ∅.

Definition subscribers (b : Bus) (eventType : string) : list string := default [] (byType b !! eventType).

(** [None] is the panic of a name registered twice. *)
Definition Subscribe (b : Bus) (name eventType : string) (handler : Handler) : option Bus :=
  if present (handlers b !! name) then None
  else Some (MkBus (<[name := handler]> (handlers b)) (<[eventType := subscribers b eventType ++ [name]]> (byType b)) (tasks b)).

Definition Every (b : Bus) (name : string) (interval : Duration) (t : Task) : option Bus :=
  if present (tasks b !! name) then None
  else Some (MkBus (handlers b) (byType b) (<[name := MkSchedule interval t]> (tasks b))).

Definition riverConns : Z := 4.

(** How many handlers run at once, of a pool of [maxConns] connections. *)
Definition maxWorkers (maxConns : Z) : Z := Z.max 1 (Z.min 10 (maxConns - riverConns)).

(** ** Jobs *)

Inductive JobState := Available | Completed | Cancelled | Discarded.

#[export] Instance JobState_eq_dec : EqDecision JobState.
Proof. solve_decision. Defined.

Record Job {A : Type} := MkJob { job_Args : A; job_CreatedAt : time; job_Attempts : nat; job_State : JobState }.
Arguments Job : clear implicits.

Record eventArgs := MkEventArgs { ea_Event : Event; ea_Subscribers : list string }.
Record deliveryArgs := MkDeliveryArgs { da_Handler : string; da_Event : Event }.

(** A job for each event, with the subscribers this release knows. *)
Definition PublishTx (b : Bus) (events : list Event) : list eventArgs := (λ e, MkEventArgs e (subscribers b (ev_Type e))) <$> events.

(** The publisher's subscribers, then this release's others. *)
Definition fan_names (b : Bus) (a : eventArgs) : list string :=
  foldl (λ names name, if bool_decide (name ∈ names) then names else names ++ [name]) (ea_Subscribers a) (subscribers b (ev_Type (ea_Event a))).

Definition unknownSubscriberWait : Duration := 24 * Hour.
Definition unknownSubscriberSnooze : Duration := Minute.

(** What a worker tells River. *)
Inductive outcome := Returned (ok : bool) | JobSnooze (d : Duration) | JobCancel.

Definition deliveryWork (b : Bus) (w : W) (job : Job deliveryArgs) (now : time) : outcome * W :=
  match handlers b !! da_Handler (job_Args job) with
  | Some handler => let r := handler w (da_Event (job_Args job)) in (Returned r.1, r.2)
  | None => if GoTime.Sub now (job_CreatedAt job) <? unknownSubscriberWait then (JobSnooze unknownSubscriberSnooze, w) else (JobCancel, w)
  end.

(** A task this release doesn't have is skipped. *)
Definition taskWork (b : Bus) (w : W) (name : string) : outcome * W :=
  match tasks b !! name with
  | None => (Returned true, w)
  | Some s => let r := task s w in (Returned r.1, r.2)
  end.

(** ** The queue

    [max] is how often River tries a job. *)
Definition worked {A} (max : nat) (o : outcome) (j : Job A) : Job A :=
  match o with
  | Returned true => MkJob _ (job_Args j) (job_CreatedAt j) (S (job_Attempts j)) Completed
  | Returned false => MkJob _ (job_Args j) (job_CreatedAt j) (S (job_Attempts j)) (if (max <=? S (job_Attempts j))%nat then Discarded else Available)
  | JobSnooze _ => j
  | JobCancel => MkJob _ (job_Args j) (job_CreatedAt j) (S (job_Attempts j)) Cancelled
  end.

(** A delivery with the index of the event's job that made it; a call is a
    subscriber, an event, and whether the handler succeeded. *)
Record Delivery := MkDelivery { dv_Origin : nat; dv_Job : Job deliveryArgs }.
Record Call := MkCall { cl_Handler : string; cl_Event : Event; cl_Ok : bool }.

(** Every job ever inserted, in order; what handlers changed; and the calls
    made of them. *)
Record Queue := MkQueue { q_Events : list (Job eventArgs); q_Deliveries : list Delivery; q_World : W; q_Calls : list Call }.

Definition publish (st : Queue) (b : Bus) (events : list Event) (now : time) : Queue :=
  MkQueue (q_Events st ++ ((λ a, MkJob _ a now 0 Available) <$> PublishTx b events)) (q_Deliveries st) (q_World st) (q_Calls st).

(** The transaction of [eventWorker.Work]: a delivery for each subscriber, and
    the event's job done. *)
Definition eventWork (st : Queue) (b : Bus) (i : nat) (job : Job eventArgs) (now : time) : Queue :=
  let deliveries := (λ name, MkDelivery i (MkJob _ (MkDeliveryArgs name (ea_Event (job_Args job))) now 0 Available)) <$> fan_names b (job_Args job) in
  MkQueue (<[i := MkJob _ (job_Args job) (job_CreatedAt job) (S (job_Attempts job)) Completed]> (q_Events st)) (q_Deliveries st ++ deliveries)
    (q_World st) (q_Calls st).

Definition event_failed (max : nat) (st : Queue) (i : nat) (job : Job eventArgs) : Queue :=
  MkQueue (<[i := worked max (Returned false) job]> (q_Events st)) (q_Deliveries st) (q_World st) (q_Calls st).

Definition called (b : Bus) (job : Job deliveryArgs) (ok : bool) : list Call :=
  if present (handlers b !! da_Handler (job_Args job)) then [MkCall (da_Handler (job_Args job)) (da_Event (job_Args job)) ok] else [].

(** [heard]: whether River heard what the worker returned; a worker that died
    first has its job tried again. *)
Definition deliver (max : nat) (st : Queue) (b : Bus) (i : nat) (d : Delivery) (now : time) (heard : bool) : Queue :=
  let r := deliveryWork b (q_World st) (dv_Job d) now in
  MkQueue (q_Events st) (<[i := MkDelivery (dv_Origin d) (worked max (if heard then r.1 else Returned false) (dv_Job d))]> (q_Deliveries st)) r.2
    (q_Calls st ++ called b (dv_Job d) (match r.1 with Returned ok => ok | _ => false end)).

Inductive built : Bus → Prop :=
| built_new : built New
| built_subscribe b name ty h b' : built b → Subscribe b name ty h = Some b' → built b'
| built_every b name d t b' : built b → Every b name d t = Some b' → built b'.

(** Releases publish and work side by side while one replaces another. *)
Inductive step (max : nat) (released : Bus → Prop) : Queue → Queue → Prop :=
| step_publish st b events now : released b → step max released st (publish st b events now)
| step_fan_out st b i job now : released b → q_Events st !! i = Some job → job_State job = Available → step max released st (eventWork st b i job now)
| step_fan_out_fails st i job : q_Events st !! i = Some job → job_State job = Available → step max released st (event_failed max st i job)
| step_deliver st b i d now heard :
    released b → q_Deliveries st !! i = Some d → job_State (dv_Job d) = Available → step max released st (deliver max st b i d now heard).

Inductive reachable (max : nat) (released : Bus → Prop) (w : W) : Queue → Prop :=
| reach_start : reachable max released w (MkQueue [] [] w [])
| reach_step st st' : reachable max released w st → step max released st st' → reachable max released w st'.
End outbox.
Arguments Job : clear implicits.
Arguments Event : clear implicits.
Arguments Handler : clear implicits.
Arguments Bus : clear implicits.
Arguments Queue : clear implicits.
Arguments Call : clear implicits.
Arguments eventArgs : clear implicits.
Arguments deliveryArgs : clear implicits.
Arguments Delivery : clear implicits.
