(* ===== verification/OutboxFlow.v ===== *)
(** * What the outbox promises

    Nothing published is lost, whatever fails and however releases overlap:
    each event is fanned out to every subscriber exactly once, and a delivery
    ends only when its handler succeeded, or was tried as often as River
    tries, or when nobody knew the subscriber for a day. *)
From S2P Require Import Prelude GoTime Tables Outbox.
Open Scope Z_scope.

Section flow.
Context {Msg W : Type}.
Implicit Types (b : Bus Msg W) (st : Queue Msg W) (a : eventArgs Msg) (d : Delivery Msg).

(** ** Subscribers *)

Record bus_ok b : Prop := {
  bk_once ty : NoDup (subscribers b ty);
  bk_known ty name : name ∈ subscribers b ty → is_Some (handlers b !! name);
  bk_type ty ty' name : name ∈ subscribers b ty → name ∈ subscribers b ty' → ty = ty' }.

Lemma Subscribe_ok b name ty h b' :
  bus_ok b → Subscribe b name ty h = Some b' →
  bus_ok b' ∧ handlers b !! name = None ∧ handlers b' !! name = Some h ∧
  ∀ ty', subscribers b' ty' = if decide (ty' = ty) then subscribers b ty ++ [name] else subscribers b ty'.
Proof.
  intros [Hnd Hk Ht]. unfold Subscribe. destruct (handlers b !! name) as [|] eqn:E; [done|]. cbn [present]. intros [= <-].
  assert (Hsubs : ∀ ty', subscribers (MkBus (<[name:=h]> (handlers b)) (<[ty:=subscribers b ty ++ [name]]> (byType b)) (tasks b)) ty' =
     if decide (ty' = ty) then subscribers b ty ++ [name] else subscribers b ty').
  { intros ty'. unfold subscribers. cbn [byType]. destruct (decide (ty' = ty)) as [->|]; [by rewrite lookup_insert_eq|by rewrite lookup_insert_ne]. }
  assert (Hnew : ∀ ty', name ∉ subscribers b ty') by (intros ty' Hin; apply Hk in Hin as [? ?]; congruence).
  split_and!; [|done|cbn [handlers]; by rewrite lookup_insert_eq|done]. constructor.
  - intros ty'. rewrite Hsubs. destruct (decide _); [|done]. apply NoDup_app. split_and!; [done|by intros x Hx ->%list_elem_of_singleton; apply (Hnew ty)|apply NoDup_singleton].
  - intros ty' x. rewrite Hsubs. cbn [handlers]. intros Hx. destruct (decide (x = name)) as [->|Hne]; [rewrite lookup_insert_eq; by eexists|].
    rewrite lookup_insert_ne by done. destruct (decide _); [|by apply (Hk ty')]. apply elem_of_app in Hx as [Hx|Hx%list_elem_of_singleton]; [by apply (Hk ty)|done].
  - intros t1 t2 x. rewrite !Hsubs. destruct (decide (t1 = ty)) as [->|], (decide (t2 = ty)) as [->|]; rewrite ?elem_of_app, ?list_elem_of_singleton; try done.
    + intros [Hx| ->] Hy; [by apply (Ht ty t2 x)|by destruct (Hnew t2)].
    + intros Hx [Hy| ->]; [by apply (Ht t1 ty x)|by destruct (Hnew t1)].
    + apply Ht.
Qed.

Lemma built_ok b : built b → bus_ok b.
Proof.
  induction 1 as [|b name ty h b' _ IH Hs|b name dur t b' _ [H1 H2 H3] He].
  - constructor; intros *; unfold subscribers; cbn; rewrite ?lookup_empty; [constructor|by intros ?%not_elem_of_nil..].
  - by eapply Subscribe_ok.
  - unfold Every in He. destruct (present _); [done|]. injection He as <-. done.
Qed.

Lemma fan_names_spec b a :
  (∀ name, name ∈ fan_names b a ↔ name ∈ ea_Subscribers a ∨ name ∈ subscribers b (ev_Type (ea_Event a))) ∧ (NoDup (ea_Subscribers a) → NoDup (fan_names b a)).
Proof.
  unfold fan_names. generalize (ea_Subscribers a). induction (subscribers b _) as [|x l IH]; intros names; cbn [foldl].
  { split; [|done]. intros name. rewrite elem_of_nil. tauto. }
  case_bool_decide as Hx; destruct (IH (if bool_decide (x ∈ names) then names else names ++ [x])) as [IH1 IH2];
    [rewrite bool_decide_eq_true_2 in IH1, IH2 by done|rewrite bool_decide_eq_false_2 in IH1, IH2 by done].
  - split; [|done]. intros name. rewrite IH1, elem_of_cons. split; [tauto|]. intros [?|[->|?]]; tauto.
  - split.
    + intros name. rewrite IH1, elem_of_app, list_elem_of_singleton, elem_of_cons. tauto.
    + intros Hnd. apply IH2. apply NoDup_app. split_and!; [done|by intros y Hy ->%list_elem_of_singleton|apply NoDup_singleton].
Qed.

(** ** The queue *)

Context (max : nat) (released : Bus Msg W → Prop) (w0 : W).
Context (released_built : ∀ b, released b → built b) (max_pos : (0 < max)%nat).

(** The subscribers the job of event [i] was fanned out to. *)
Definition made st (i : nat) : list string :=
  (filter (λ p, p.1 = i) ((λ d, (dv_Origin d, da_Handler (job_Args (dv_Job d)))) <$> q_Deliveries st)).*2.

Record event_job_ok st (i : nat) (job : Job (eventArgs Msg)) : Prop := {
  ej_published : ∃ b, released b ∧ ea_Subscribers (job_Args job) = subscribers b (ev_Type (ea_Event (job_Args job)));
  ej_made : match job_State job with
            | Completed => ∃ b, released b ∧ made st i = fan_names b (job_Args job)
            | Available => made st i = [] ∧ (job_Attempts job < max)%nat
            | Discarded => made st i = [] ∧ job_Attempts job = max
            | Cancelled => False
            end }.

Record delivery_ok st (d : Delivery Msg) : Prop := {
  dl_origin : ∃ job, q_Events st !! dv_Origin d = Some job ∧ da_Event (job_Args (dv_Job d)) = ea_Event (job_Args job);
  dl_ended : match job_State (dv_Job d) with
             | Completed => MkCall (da_Handler (job_Args (dv_Job d))) (da_Event (job_Args (dv_Job d))) true ∈ q_Calls st
             | Available => (job_Attempts (dv_Job d) < max)%nat
             | Discarded => job_Attempts (dv_Job d) = max
             | Cancelled => ∃ b now, released b ∧ handlers b !! da_Handler (job_Args (dv_Job d)) = None ∧
                                     unknownSubscriberWait ≤ GoTime.Sub now (job_CreatedAt (dv_Job d))
             end }.

Record queue_ok st : Prop := {
  qk_events i job : q_Events st !! i = Some job → event_job_ok st i job;
  qk_deliveries d : d ∈ q_Deliveries st → delivery_ok st d;
  qk_calls c : c ∈ q_Calls st → ∃ d, d ∈ q_Deliveries st ∧ da_Handler (job_Args (dv_Job d)) = cl_Handler c ∧ da_Event (job_Args (dv_Job d)) = cl_Event c }.

(** Nothing an event's job depends on, of the deliveries, changes when a
    delivery is worked. *)
Lemma made_same st st' i :
  ((λ d, (dv_Origin d, da_Handler (job_Args (dv_Job d)))) <$> q_Deliveries st') = ((λ d, (dv_Origin d, da_Handler (job_Args (dv_Job d)))) <$> q_Deliveries st) →
  made st' i = made st i.
Proof. unfold made. by intros ->. Qed.

Lemma made_app st st' (i o : nat) (names : list string) (e : Event Msg) (now : time) :
  q_Deliveries st' = q_Deliveries st ++ ((λ name, MkDelivery o (MkJob _ (MkDeliveryArgs name e) now 0 Available)) <$> names) →
  made st' i = made st i ++ (if decide (o = i) then names else []).
Proof.
  intros E. unfold made. rewrite E, fmap_app, filter_app, fmap_app. f_equal. rewrite <- list_fmap_compose.
  destruct (decide (o = i)) as [->|Hne]; clear E; induction names as [|n names IH]; try done; rewrite fmap_cons, filter_cons; destruct (decide _) as [Hc|Hc]; try done.
  rewrite fmap_cons. by f_equal.
Qed.

Lemma worked_state {A} o (j : Job A) : job_State j = Available → (job_Attempts j < max)%nat →
  let j' := worked max o j in
  job_Args j' = job_Args j ∧ job_CreatedAt j' = job_CreatedAt j ∧
  match job_State j' with
  | Completed => o = Returned true
  | Cancelled => o = JobCancel
  | Discarded => job_Attempts j' = max
  | Available => (job_Attempts j' < max)%nat
  end.
Proof.
  intros Hs Ha. destruct o as [[|]|dur|]; cbn [worked job_Args job_CreatedAt job_State job_Attempts]; split_and!; try done; [|by rewrite Hs].
  destruct (Nat.leb_spec max (S (job_Attempts j))); lia.
Qed.

Lemma publish_ok st b events now : released b → queue_ok st → queue_ok (publish st b events now).
Proof.
  intros Hb [He Hd Hc]. constructor; [|intros d Hin; destruct (Hd d Hin) as [(job & Hj & Ej) Hend]; constructor; [exists job; split; [by apply lookup_app_l_Some|done]|done]|done].
  intros i job Hj. unfold publish in Hj. cbn [q_Events] in Hj. apply lookup_app_Some in Hj as [Hj|[Hi Hj]]; [destruct (He i job Hj) as [H1 H2]; by constructor|].
  rewrite list_lookup_fmap in Hj. apply fmap_Some in Hj as (a & Ha & ->). unfold PublishTx in Ha. rewrite list_lookup_fmap in Ha. apply fmap_Some in Ha as (e & _ & ->).
  constructor; cbn [job_Args ea_Subscribers ea_Event job_State job_Attempts]; [by exists b|]. split; [|done].
  destruct (made (publish st b events now) i) as [|n l] eqn:Em; [done|]. exfalso.
  assert (Hn : n ∈ made (publish st b events now) i) by (rewrite Em; by left). unfold made in Hn. apply list_elem_of_fmap in Hn as ([o n'] & _ & Hn).
  apply list_elem_of_filter in Hn as [Ho Hin]. cbn in Ho. subst o. apply list_elem_of_fmap in Hin as (d & [= E _] & Hin).
  destruct (Hd d Hin) as [(job & Hjob & _) _]. rewrite <- E in Hjob. apply lookup_lt_Some in Hjob. cbn in Hjob. lia.
Qed.

Lemma eventWork_ok st b i job now :
  released b → q_Events st !! i = Some job → job_State job = Available → queue_ok st → queue_ok (eventWork st b i job now).
Proof.
  intros Hb Hj Ha [He Hd Hc]. assert (Hmade : ∀ k, made (eventWork st b i job now) k = made st k ++ (if decide (i = k) then fan_names b (job_Args job) else []))
    by (intros k; by eapply made_app). pose proof (lookup_lt_Some _ _ _ Hj) as Hlt. constructor.
  - intros k job' Hk. unfold eventWork in Hk. cbn [q_Events] in Hk. apply list_lookup_insert_Some in Hk as [(<- & <- & _)|[Hne Hk]].
    + destruct (He i job Hj) as [Hp Hm]. rewrite Ha in Hm. destruct Hm as [Hm _]. constructor; [done|]. cbn [job_State job_Args].
      exists b. split; [done|]. rewrite Hmade, Hm. by destruct (decide (i = i)).
    + destruct (He k job' Hk) as [Hp Hm]. constructor; [done|]. rewrite Hmade. destruct (decide (i = k)); [done|]. by rewrite app_nil_r.
  - assert (Horig : ∀ o job0 (P : Job (eventArgs Msg) → Prop), (∀ j1 j2, job_Args j1 = job_Args j2 → P j1 → P j2) → q_Events st !! o = Some job0 → P job0 →
       ∃ job', q_Events (eventWork st b i job now) !! o = Some job' ∧ P job').
    { intros o job0 P HP Ho H0. unfold eventWork. cbn [q_Events]. destruct (decide (i = o)) as [->|Hne].
      - rewrite list_lookup_insert_eq by done. eexists. split; [done|]. rewrite Hj in Ho. injection Ho as ->. by apply (HP job0).
      - rewrite list_lookup_insert_ne by done. by exists job0. }
    intros d Hin. unfold eventWork in Hin. cbn [q_Deliveries] in Hin. apply elem_of_app in Hin as [Hin|Hin].
    + destruct (Hd d Hin) as [(job0 & Ho & Ee) Hend]. constructor; [|done]. apply (Horig _ job0); [by intros j1 j2 ->|done|done].
    + apply list_elem_of_fmap in Hin as (name & -> & _). constructor; [|done]. cbn [dv_Origin dv_Job job_Args da_Event]. apply (Horig _ job); [by intros j1 j2 ->|done|done].
  - intros c Hin. destruct (Hc c Hin) as (d & Hin' & E). exists d. split; [|done]. apply elem_of_app. by left.
Qed.

Lemma event_failed_ok st i job : q_Events st !! i = Some job → job_State job = Available → queue_ok st → queue_ok (event_failed max st i job).
Proof.
  intros Hj Ha [He Hd Hc]. destruct (He i job Hj) as [Hp Hm]. rewrite Ha in Hm. destruct Hm as [Hm Hlt].
  destruct (worked_state (Returned false) job Ha Hlt) as (Ea & _ & Hst). pose proof (lookup_lt_Some _ _ _ Hj) as Hi. constructor; [| |done].
  - intros k job' Hk. unfold event_failed in Hk. cbn [q_Events] in Hk. apply list_lookup_insert_Some in Hk as [(<- & <- & _)|[Hne Hk]].
    + constructor; [by rewrite Ea|]. destruct (job_State (worked _ _ _)); done.
    + destruct (He k job' Hk). by constructor.
  - intros d Hin. destruct (Hd d Hin) as [(job0 & Ho & Ee) Hend]. constructor; [|done]. unfold event_failed. cbn [q_Events].
    destruct (decide (i = dv_Origin d)) as [->|Hne]; [|rewrite list_lookup_insert_ne by done; by exists job0].
    rewrite list_lookup_insert_eq by done. eexists. split; [done|]. rewrite Hj in Ho. injection Ho as ->. by rewrite Ea.
Qed.

Lemma deliver_ok st b i d now heard :
  released b → q_Deliveries st !! i = Some d → job_State (dv_Job d) = Available → queue_ok st → queue_ok (deliver max st b i d now heard).
Proof.
  intros Hb Hi Ha [He Hd Hc]. pose proof (list_elem_of_lookup_2 _ _ _ Hi) as Hin. destruct (Hd d Hin) as [Ho Hend]. rewrite Ha in Hend.
  set (o := (deliveryWork b (q_World st) (dv_Job d) now).1). destruct (worked_state (if heard then o else Returned false) (dv_Job d) Ha Hend) as (Ea & Ec & Hst).
  pose proof (lookup_lt_Some _ _ _ Hi) as Hlt.
  set (st' := deliver max st b i d now heard). set (d' := MkDelivery (dv_Origin d) (worked max (if heard then o else Returned false) (dv_Job d))) in *.
  assert (Hdeliv : q_Deliveries st' = <[i := d']> (q_Deliveries st)) by done.
  assert (Hmade : ∀ k, made st' k = made st k).
  { intros k. apply made_same. rewrite Hdeliv, list_fmap_insert. apply list_insert_id. rewrite list_lookup_fmap, Hi. cbn. by rewrite Ea. }
  assert (Hcalls : q_Calls st' = q_Calls st ++ called b (dv_Job d) (match o with Returned ok => ok | _ => false end)) by done.
  constructor.
  - intros k job Hk. destruct (He k job Hk) as [Hp Hm]. constructor; [done|]. by rewrite Hmade.
  - intros d2 Hin2. rewrite Hdeliv in Hin2. apply list_elem_of_lookup in Hin2 as [k Hk]. apply list_lookup_insert_Some in Hk as [(<- & <- & _)|[Hne Hk]].
    + constructor; [cbn [dv_Origin dv_Job d']; by rewrite Ea|]. cbn [dv_Job d']. rewrite Ea, Ec. destruct (job_State (worked _ _ _)); [done| | |done].
      * rewrite Hcalls, elem_of_app. right. unfold called, o, deliveryWork in *. destruct heard; [|done]. cbn in Hst.
        destruct (handlers b !! _); [|by destruct (_ <? _)]. cbn in Hst |- *. injection Hst as ->. by left.
      * exists b, now. split; [done|]. unfold o, deliveryWork in Hst. destruct heard; [|done]. destruct (handlers b !! _); [done|]. split; [done|].
        destruct (Z.ltb_spec (GoTime.Sub now (job_CreatedAt (dv_Job d))) unknownSubscriberWait); [done|lia].
    + destruct (Hd d2 (list_elem_of_lookup_2 _ _ _ Hk)) as [Ho2 Hend2]. constructor; [done|]. destruct (job_State (dv_Job d2)); [done| |done|done].
      rewrite Hcalls. apply elem_of_app. by left.
  - assert (Hkeep : ∀ d2, d2 ∈ q_Deliveries st → ∃ d3, d3 ∈ q_Deliveries st' ∧ job_Args (dv_Job d3) = job_Args (dv_Job d2)).
    { intros d2 [k Hk]%list_elem_of_lookup. rewrite Hdeliv. destruct (decide (i = k)) as [->|Hne].
      - rewrite Hi in Hk. injection Hk as ->. exists d'. split; [eapply list_elem_of_lookup_2; by apply list_lookup_insert_eq|done].
      - exists d2. split; [|done]. eapply (list_elem_of_lookup_2 _ k). by rewrite list_lookup_insert_ne. }
    intros c Hin2. rewrite Hcalls in Hin2. apply elem_of_app in Hin2 as [Hin2|Hin2].
    + destruct (Hc c Hin2) as (d2 & Hd2 & E1 & E2). destruct (Hkeep d2 Hd2) as (d3 & Hd3 & E). exists d3. by rewrite E.
    + unfold called in Hin2. destruct (present _); [|by apply not_elem_of_nil in Hin2]. apply list_elem_of_singleton in Hin2 as ->.
      destruct (Hkeep d Hin) as (d3 & Hd3 & E). exists d3. by rewrite E.
Qed.

Lemma reachable_ok st : reachable max released w0 st → queue_ok st.
Proof.
  induction 1 as [|st st' _ IH Hstep].
  - constructor; cbn; [done|by intros ? ?%not_elem_of_nil..].
  - destruct Hstep; [by apply publish_ok|by apply eventWork_ok|by apply event_failed_ok|by apply deliver_ok].
Qed.

(** ** Working everything off *)

(** One pass of release [b] over the events, then over the deliveries. *)
Definition work_event b now st (i : nat) : Queue Msg W :=
  match q_Events st !! i with
  | Some job => if decide (job_State job = Available) then eventWork st b i job now else st
  | None => st
  end.

Definition work_delivery b now st (i : nat) : Queue Msg W :=
  match q_Deliveries st !! i with
  | Some d => if decide (job_State (dv_Job d) = Available) then deliver max st b i d now true else st
  | None => st
  end.

Definition work_events b now st := foldl (work_event b now) st (seq 0 (length (q_Events st))).
Definition work_deliveries b now st := foldl (work_delivery b now) st (seq 0 (length (q_Deliveries st))).
Definition drain b now st := work_deliveries b now (work_events b now st).

Lemma fold_work (f : Queue Msg W → nat → Queue Msg W) (worked_off : Queue Msg W → nat → Prop) n st :
  (∀ st i, rtc (step max released) st (f st i)) → (∀ st i, worked_off (f st i) i) → (∀ st i j, worked_off st j → worked_off (f st i) j) →
  rtc (step max released) st (foldl f st (seq 0 n)) ∧ ∀ i, (i < n)%nat → worked_off (foldl f st (seq 0 n)) i.
Proof.
  intros Hstep Hdone Hkeep. induction n as [|n [IH1 IH2]]; [split; [done|lia]|]. rewrite seq_S, foldl_app. cbn [foldl Nat.add]. split.
  - etrans; [exact IH1|apply Hstep].
  - intros i Hi. destruct (decide (i = n)) as [->|Hne]; [apply Hdone|]. apply Hkeep, IH2. lia.
Qed.

Definition event_off st (i : nat) : Prop := ∀ job, q_Events st !! i = Some job → job_State job ≠ Available.
Definition delivery_off b st (i : nat) : Prop :=
  ∀ d, q_Deliveries st !! i = Some d → job_State (dv_Job d) = Available → handlers b !! da_Handler (job_Args (dv_Job d)) = None.

Lemma work_events_off b now st : released b →
  rtc (step max released) st (work_events b now st) ∧ ∀ i, event_off (work_events b now st) i.
Proof.
  intros Hb. unfold work_events.
  assert (Hlen : ∀ is_ st, length (q_Events (foldl (work_event b now) st is_)) = length (q_Events st)).
  { induction is_ as [|i is_ IH]; intros st0; [done|]. cbn [foldl]. rewrite IH. unfold work_event. destruct (q_Events st0 !! i); [|done]. destruct (decide _); [|done].
    apply length_insert. }
  destruct (fold_work (work_event b now) event_off (length (q_Events st)) st) as [H1 H2].
  - intros st0 i. unfold work_event. destruct (q_Events st0 !! i) eqn:E; [|done]. destruct (decide _); [|done]. by apply rtc_once, step_fan_out.
  - intros st0 i job. unfold work_event. destruct (q_Events st0 !! i) as [j|] eqn:E; [|congruence]. destruct (decide _) as [Ha|Ha]; [|congruence].
    unfold eventWork. cbn [q_Events]. rewrite list_lookup_insert_eq by (by eapply lookup_lt_Some). by intros [= <-].
  - intros st0 i k Hk job. unfold work_event. destruct (q_Events st0 !! i) as [j|] eqn:E; [|apply Hk]. destruct (decide _) as [Ha|Ha]; [|apply Hk].
    unfold eventWork. cbn [q_Events]. intros [(_ & <- & _)|[_ Hl]]%list_lookup_insert_Some; [done|by apply Hk].
  - split; [done|]. intros i job Hi. apply (H2 i); [|done]. apply lookup_lt_Some in Hi. by rewrite Hlen in Hi.
Qed.

Lemma work_deliveries_off b now st : released b → (∀ name h, handlers b !! name = Some h → ∀ w e, (h w e).1 = true) →
  rtc (step max released) st (work_deliveries b now st) ∧ (∀ i, delivery_off b (work_deliveries b now st) i) ∧
  q_Events (work_deliveries b now st) = q_Events st.
Proof.
  intros Hb Hok. unfold work_deliveries.
  assert (Hlen : ∀ is_ st, length (q_Deliveries (foldl (work_delivery b now) st is_)) = length (q_Deliveries st) ∧ q_Events (foldl (work_delivery b now) st is_) = q_Events st).
  { induction is_ as [|i is_ IH]; intros st0; [done|]. cbn [foldl]. destruct (IH (work_delivery b now st0 i)) as [-> ->]. unfold work_delivery.
    destruct (q_Deliveries st0 !! i); [|done]. destruct (decide _); [|done]. split; [apply length_insert|done]. }
  destruct (fold_work (work_delivery b now) (delivery_off b) (length (q_Deliveries st)) st) as [H1 H2].
  - intros st0 i. unfold work_delivery. destruct (q_Deliveries st0 !! i) eqn:E; [|done]. destruct (decide _); [|done]. by apply rtc_once, step_deliver.
  - intros st0 i d. unfold work_delivery. destruct (q_Deliveries st0 !! i) as [d0|] eqn:E; [|congruence]. destruct (decide _) as [Ha|Ha]; [|congruence].
    unfold deliver. cbn [q_Deliveries]. rewrite list_lookup_insert_eq by (by eapply lookup_lt_Some). intros [= <-]. cbn [dv_Job]. unfold deliveryWork.
    destruct (handlers b !! _) as [h|] eqn:Eh; cbn [fst].
    + by rewrite (Hok _ h Eh).
    + destruct (_ <? _); cbn [worked job_State job_Args]; done.
  - intros st0 i k Hk d. unfold work_delivery. destruct (q_Deliveries st0 !! i) as [d0|] eqn:E; [|apply Hk]. destruct (decide _) as [Ha|Ha]; [|apply Hk].
    unfold deliver. cbn [q_Deliveries]. intros [(-> & <- & _)|[_ Hl]]%list_lookup_insert_Some; [|by apply Hk]. cbn [dv_Job]. intros _.
    assert (Hargs : ∀ o, job_Args (worked max o (dv_Job d0)) = job_Args (dv_Job d0)) by (by intros [[]| |]). rewrite Hargs. by apply (Hk d0).
  - destruct (Hlen (seq 0 (length (q_Deliveries st))) st) as [Hl He]. split_and!; [done| |done]. intros i d Hi. apply (H2 i); [|done]. apply lookup_lt_Some in Hi. by rewrite Hl in Hi.
Qed.

Lemma drain_run b now st : released b → rtc (step max released) st (drain b now st).
Proof.
  intros Hb. assert (Hfold : ∀ (f : Queue Msg W → nat → Queue Msg W) (is_ : list nat) x, (∀ st i, rtc (step max released) st (f st i)) → rtc (step max released) x (foldl f x is_)).
  { intros f is_ x Hf. revert x. induction is_ as [|i is_ IH]; intros x; [done|]. cbn [foldl]. etrans; [apply Hf|apply IH]. }
  unfold drain, work_events, work_deliveries. etrans; apply Hfold; intros st0 i; unfold work_event, work_delivery.
  - destruct (q_Events st0 !! i) eqn:E; [|done]. destruct (decide _); [|done]. by apply rtc_once, step_fan_out.
  - destruct (q_Deliveries st0 !! i) eqn:E; [|done]. destruct (decide _); [|done]. by apply rtc_once, step_deliver.
Qed.

Lemma reachable_run st st' : rtc (step max released) st st' → reachable max released w0 st → reachable max released w0 st'.
Proof. induction 1; eauto using reach_step. Qed.
End flow.

(** C23. The outbox loses nothing. In every state its queue reaches - with any
    releases working side by side, any failures, and workers that die before
    reporting - each event is fanned out at most once, and when it is, exactly
    one delivery is made for each subscriber its publisher knew (and any the
    fanning release knows); an event or a delivery not yet done is still to be
    worked, unless its attempts ran out. A delivery is done only when its
    handler succeeded on that event, and is dropped only when a release that
    does not have the subscriber has waited a day for one that does. *)
Theorem outbox_loses_nothing {Msg W} max (released : Bus Msg W → Prop) w0 st :
  (∀ b, released b → built b) → (0 < max)%nat → reachable max released w0 st →
  (∀ i job, q_Events st !! i = Some job → NoDup (made st i) ∧
     match job_State job with
     | Available => made st i = []
     | Completed => (∀ name, name ∈ ea_Subscribers (job_Args job) → name ∈ made st i) ∧ ∃ b, released b ∧ ∀ name,
         name ∈ made st i ↔ name ∈ ea_Subscribers (job_Args job) ∨ name ∈ subscribers b (ev_Type (ea_Event (job_Args job)))
     | Discarded => made st i = [] ∧ job_Attempts job = max
     | Cancelled => False
     end) ∧
  (∀ d, d ∈ q_Deliveries st →
     let name := da_Handler (job_Args (dv_Job d)) in
     let event := da_Event (job_Args (dv_Job d)) in
     (∃ job, q_Events st !! dv_Origin d = Some job ∧ event = ea_Event (job_Args job)) ∧
     match job_State (dv_Job d) with
     | Available => (job_Attempts (dv_Job d) < max)%nat
     | Completed => MkCall name event true ∈ q_Calls st
     | Discarded => job_Attempts (dv_Job d) = max
     | Cancelled => ∃ b now, released b ∧ handlers b !! name = None ∧ 24 * Hour ≤ GoTime.Sub now (job_CreatedAt (dv_Job d))
     end) ∧
  (∀ c, c ∈ q_Calls st → ∃ d, d ∈ q_Deliveries st ∧ da_Handler (job_Args (dv_Job d)) = cl_Handler c ∧ da_Event (job_Args (dv_Job d)) = cl_Event c).
Proof.
  intros Hrel Hmax Hr. destruct (reachable_ok max released w0 Hmax st Hr) as [He Hd Hc]. split_and!; [|intros d Hin; by destruct (Hd d Hin)|done].
  intros i job Hj. destruct (He i job Hj) as [(b0 & Hb0 & Esubs) Hm]. destruct (job_State job); [| |done|].
  - destruct Hm as [-> _]. split; [constructor|done].
  - destruct Hm as (b & Hb & ->). destruct (fan_names_spec b (job_Args job)) as [H1 H2]. split_and!.
    + apply H2. rewrite Esubs. apply (bk_once b0), built_ok. by apply Hrel.
    + intros name Hn. apply H1. by left.
    + by exists b.
  - destruct Hm as [-> Hm]. split; [constructor|done].
Qed.

(** C24. The outbox catches up. From every state it reaches, one pass of a release
    whose handlers succeed is a run of the queue that leaves no event waiting
    and no delivery to a subscriber it knows: each of those ended, and unless
    it was given up before, its handler succeeded on the event. *)
Theorem outbox_catches_up {Msg W} max (released : Bus Msg W → Prop) w0 st b now :
  (∀ b, released b → built b) → (0 < max)%nat → reachable max released w0 st → released b →
  (∀ name h, handlers b !! name = Some h → ∀ w e, (h w e).1 = true) →
  let st' := drain max b now st in
  reachable max released w0 st' ∧
  (∀ i job, q_Events st' !! i = Some job → job_State job = Completed ∨ job_State job = Discarded) ∧
  (∀ d, d ∈ q_Deliveries st' → is_Some (handlers b !! da_Handler (job_Args (dv_Job d))) →
     MkCall (da_Handler (job_Args (dv_Job d))) (da_Event (job_Args (dv_Job d))) true ∈ q_Calls st' ∨
     job_State (dv_Job d) = Discarded ∨ job_State (dv_Job d) = Cancelled).
Proof.
  intros Hrel Hmax Hr Hb Hok st'. destruct (work_events_off max released Hmax b now st Hb) as [R1 H1].
  destruct (work_deliveries_off max released Hmax b now (work_events b now st) Hb Hok) as (R2 & H2 & Ee).
  assert (Hr' : reachable max released w0 st').
  { eapply reachable_run; [exact R2|]. by eapply reachable_run. }
  destruct (reachable_ok max released w0 Hmax st' Hr') as [He Hd _]. split_and!; [done| |].
  - intros i job Hj. destruct (He i job Hj) as [_ Hm]. unfold st', drain in Hj. rewrite Ee in Hj. apply H1 in Hj. destruct (job_State job); tauto.
  - intros d Hin [h Hh]. destruct (Hd d Hin) as [_ Hend]. destruct (job_State (dv_Job d)) eqn:Es; [|by left|tauto..].
    apply list_elem_of_lookup in Hin as [i Hi]. rewrite (H2 i d Hi Es) in Hh. done.
Qed.

(** ** Two subscribers, one of them new *)

Module OutboxDemo.
(** Handlers that write down what they see. *)
Definition note (n : N) : Handler N (list N) := λ w e, (true, w ++ [(n * 100 + ev_Payload e)%N]).

Definition old_release : Bus N (list N) := default New (Subscribe New "billing.start_trial" "business.approved" (note 1)).
Definition new_release : Bus N (list N) := default New (Subscribe old_release "notification.welcome" "business.approved" (note 2)).
Definition both (b : Bus N (list N)) : Prop := b = old_release ∨ b = new_release.

Lemma both_built b : both b → built b.
Proof.
  assert (Hold : built old_release) by (apply (built_subscribe New "billing.start_trial" "business.approved" (note 1)); [constructor|reflexivity]).
  intros [-> | ->]; [done|]. by apply (built_subscribe old_release "notification.welcome" "business.approved" (note 2)).
Qed.

(** The old release publishes; the new one fans out and delivers. *)
Definition published : Queue N (list N) := publish (MkQueue [] [] [] []) old_release [MkEvent 7 "business.approved" 0 42%N] 1000.

Lemma published_reachable : reachable 25 both [] published.
Proof. eapply reach_step; [constructor|]. apply step_publish. by left. Qed.

Lemma notes_succeed name h : handlers new_release !! name = Some h → ∀ w e, (h w e).1 = true.
Proof.
  assert (E : handlers new_release = <["notification.welcome" := note 2]> (<["billing.start_trial" := note 1]> ∅)) by reflexivity.
  rewrite E. intros [[_ <-]|[_ Hh]]%lookup_insert_Some; [done|]. apply lookup_insert_Some in Hh as [[_ <-]|[_ Hh]]; [done|]. by rewrite lookup_empty in Hh.
Qed.
End OutboxDemo.
Import OutboxDemo.

Lemma outbox_catches_up_witness :
  q_World (drain 25 new_release 2000 published) = [142; 242]%N ∧ reachable 25 both [] (drain 25 new_release 2000 published).
Proof.
  split; [vm_compute; reflexivity|].
  apply (outbox_catches_up 25 both [] published new_release 2000 both_built ltac:(lia) published_reachable (or_intror eq_refl) notes_succeed).
Defined.

Lemma outbox_loses_nothing_witness :
  made (drain 25 new_release 2000 published) 0 = ["billing.start_trial"; "notification.welcome"] ∧ NoDup (made (drain 25 new_release 2000 published) 0).
Proof.
  assert (Hmax : (0 < 25)%nat) by lia.
  assert (Hr : reachable 25 both [] (drain 25 new_release 2000 published)).
  { eapply reachable_run; [|apply published_reachable]. apply drain_run. by right. }
  split; [vm_compute; reflexivity|].
  assert (E : ∃ job, q_Events (drain 25 new_release 2000 published) !! 0%nat = Some job) by (eexists; vm_compute; reflexivity). destruct E as [job E].
  apply (outbox_loses_nothing 25 both [] _ both_built Hmax Hr) with job. exact E.
Defined.
