(* ===== verification/Discovery.v ===== *)
(** * The discovery domain (src/internal/discovery/domain)

    The copies of branches, services and opening hours customers search, what
    a search asks and finds, and the normal form of names and searches. Which
    characters are marks, letters or digits and their lower case are the
    tables of package unicode, the interface [UnicodeLib]. *)
From Stdlib Require Import SpecFloat.
From S2P Require Import Prelude GoTime GoText Shared.
Open Scope Z_scope.

(** ** Errors and limits (listing.go) *)

Inductive disc_error :=
| ErrNoPlace | ErrRadius | ErrQueryTooShort | ErrNotSAR | ErrBadHours | ErrNotFound
| ErrUnknownCity | ErrUnknownCategory | ErrStorage.

#[export] Instance disc_error_eq_dec : EqDecision disc_error.
Proof. solve_decision. Defined.

Definition MinutesPerWeek : Z := 7 * 24 * 60.
Definition PageSize : nat := 20.
Definition DefaultRadiusKm : Z := 10.
Definition MaxRadiusKm : Z := 50.

(** ** The copies *)

Record Listing := MkListing {
  l_Branch : BranchID; l_Business : BusinessID; l_Version : Z; l_Listed : bool; l_Name : LocalizedText; l_City : City;
  l_District : string; l_Address : string; l_Location : GeoPoint; l_Phone : string; l_Timezone : string; l_UpdatedAt : time }.

Record Service := MkService {
  sv_Service : ServiceID; sv_Branch : BranchID; sv_Business : BusinessID; sv_Version : Z; sv_Offered : bool; sv_Category : Category;
  sv_Name : LocalizedText; sv_Duration : Duration; sv_PriceFrom : Money; sv_SortOrder : Z; sv_UpdatedAt : time }.

Record OpeningHours := MkHours {
  h_Branch : BranchID; h_Business : BusinessID; h_Version : Z; h_Open : list (Z * Z); h_UpdatedAt : time }.

(** ** Searches

    A distance or a match score is a float8, which pgx reads as a Go float64
    of the same value. Its order in PostgreSQL is that of the numbers, the
    two zeros equal, with NaN after them all. *)
Abbreviation Rank := float64.

Definition rank_le (a b : Rank) : bool :=
  match a, b with
  | _, S754_nan => true
  | S754_nan, _ => false
  | _, _ => SFleb a b
  end.

Definition zero_rank : Rank := S754_zero false.

(** The functions of PostGIS and pg_trgm the queries call. *)
Class SearchLib := {
  distance : GeoPoint → GeoPoint → Rank;
  within : GeoPoint → GeoPoint → float64 → bool;
  word_similarity : string → string → Rank;
  close_match : string → string → bool }.

Record Near := MkNear { n_Point : GeoPoint; n_RadiusM : float64 }.

(** [f_Text] is "" for any name. *)
Record Filter := MkFilter { f_City : option City; f_Text : string; f_Category : option Category; f_OpenNow : bool; f_At : time }.

(** A distance or score the search did not ask for is 0. *)
Record Found := MkFound {
  fd_Listing : Listing; fd_PriceFrom : Money; fd_OpenNow : bool; fd_DistanceM : Rank; fd_Score : Rank }.

Record Position := MkPosition { p_NameAr : string; p_DistanceM : Rank; p_Score : Rank; p_Branch : BranchID }.

Record MenuItem := MkMenuItem {
  mi_Service : ServiceID; mi_Category : Category; mi_Name : LocalizedText; mi_Duration : Duration; mi_PriceFrom : Money }.

Record Page := MkPage { pg_Found : Found; pg_Hours : list (Z * Z); pg_Menu : list MenuItem }.

(** The order is total: numbers by sign, exponent and mantissa. *)
Definition rank_key (f : Rank) : Z * Z * Z :=
  match f with
  | S754_nan => (3, 0, 0)
  | S754_infinity s => (if s then -2 else 2, 0, 0)
  | S754_zero _ => (0, 0, 0)
  | S754_finite s m e => if s then (-1, - e, - Z.pos m) else (1, e, Z.pos m)
  end.

Definition key_le (a b : Z * Z * Z) : bool :=
  (a.1.1 <? b.1.1) || ((a.1.1 =? b.1.1) && ((a.1.2 <? b.1.2) || ((a.1.2 =? b.1.2) && (a.2 <=? b.2)))).

Lemma rank_le_key a b : rank_le a b = key_le (rank_key a) (rank_key b).
Proof.
  destruct a as [sa|sa| |sa ma ea], b as [sb|sb| |sb mb eb]; try destruct sa; try destruct sb; try done;
    unfold rank_le, key_le, SFleb, SFcompare; cbn [rank_key fst snd]; change (Pos.compare_cont Eq ma mb) with (ma ?= mb)%positive.
  - destruct (Z.compare_spec ea eb) as [->|E|E], (Pos.compare_spec ma mb) as [->|E'|E']; cbn [CompOpp]; lia.
  - destruct (Z.compare_spec ea eb) as [->|E|E], (Pos.compare_spec ma mb) as [->|E'|E']; lia.
Qed.

Lemma rank_total a b : rank_le a b = false → rank_le b a = true.
Proof. rewrite !rank_le_key. unfold key_le. lia. Qed.

Lemma rank_trans a b c : rank_le a b = true → rank_le b c = true → rank_le a c = true.
Proof. rewrite !rank_le_key. unfold key_le. lia. Qed.

(** ** Normal form (normalize.go) *)

(** The tables of package unicode: category Mn, letters, decimal digits, and
    the lower case of a character. *)
Class UnicodeLib := { is_mn : Z → bool; is_letter : Z → bool; is_digit : Z → bool; to_lower : Z → Z }.

Definition MinQueryLen : Z := 2.
Definition tatweel : Z := 0x640.

Section Normal.
Context `{UnicodeLib}.

Definition fold (r : Z) : Z :=
  if bool_decide (r ∈ [0x623; 0x625; 0x622; 0x671]) then 0x627
  else if r =? 0x649 then 0x64A
  else if r =? 0x629 then 0x647
  else to_lower r.

(** The loop: [gap] is a separator waiting for the next word, [b] the text
    written. *)
Fixpoint normal_loop (gap : bool) (b : string) (rs : list Z) : string :=
  match rs with
  | [] => b
  | r :: rs =>
      if is_mn r || (r =? tatweel) then normal_loop gap b rs
      else if is_letter r || is_digit r then
        let b := if gap && negb (len b =? 0) then b +:+ " " else b in
        normal_loop false (b +:+ encode_rune (fold r)) rs
      else normal_loop true b rs
  end.

Definition Normalize (s : string) : string := normal_loop false "" (runes s).

Definition SearchText (name : LocalizedText) : string := TrimSpace (Normalize (ar name) +:+ " " +:+ Normalize (en name)).

Definition ParseQuery (q : string) : res disc_error string :=
  let n := Normalize q in
  if RuneCountInString n <? MinQueryLen then Err ErrQueryTooShort else Ok n.
End Normal.

(** What package unicode documents of its tables. A mark is no letter and no
    digit; nor is a space, nor a mark; lower case is
    lower case, of letters and digits again, and never a mark; Arabic letters
    have no case. *)
Class UnicodeLaws `{UnicodeLib} := {
  mn_not_word r : is_mn r = true → is_letter r = false ∧ is_digit r = false;
  space_not_word r : IsSpace r = true → is_mn r = false ∧ is_letter r = false ∧ is_digit r = false;
  lower_word r : is_letter r || is_digit r = true → is_letter (to_lower r) || is_digit (to_lower r) = true;
  lower_lower r : to_lower (to_lower r) = to_lower r;
  lower_scalar r : scalar r → scalar (to_lower r);
  arabic_case r : 0x600 ≤ to_lower r < 0x700 → to_lower r = r;
  arabic_letters r : r ∈ [0x627; 0x64A; 0x647] → is_letter r = true ∧ to_lower r = r }.

(** The normal form on characters: what [normal_loop] writes, given whether
    a word was written before. *)
Section NormalForm.
Context `{UnicodeLaws}.

Fixpoint normal (gap started : bool) (rs : list Z) : list Z :=
  match rs with
  | [] => []
  | r :: rs =>
      if is_mn r || (r =? tatweel) then normal gap started rs
      else if is_letter r || is_digit r then (if gap && started then [32] else []) ++ fold r :: normal false true rs
      else normal true started rs
  end.

Definition word_char (r : Z) : Prop := is_mn r || (r =? tatweel) = false ∧ is_letter r || is_digit r = true.

Lemma word_not_mn r : is_letter r || is_digit r = true → is_mn r = false.
Proof. intros Hw. destruct (is_mn r) eqn:E; [|done]. destruct (mn_not_word r E) as [E1 E2]. by rewrite E1, E2 in Hw. Qed.

Lemma arabic_word r : r ∈ [0x627; 0x64A; 0x647] → word_char r ∧ fold r = r.
Proof.
  intros Hr. destruct (arabic_letters r Hr) as [Hl Hc]. assert (Hw : is_letter r || is_digit r = true) by (by rewrite Hl).
  assert (Hne : r ≠ tatweel ∧ r ∉ [0x623; 0x625; 0x622; 0x671] ∧ r ≠ 0x649 ∧ r ≠ 0x629) by (unfold tatweel; set_solver by lia).
  destruct Hne as (H1 & H2 & H3 & H4). split.
  - split; [|done]. by rewrite (word_not_mn r Hw), (proj2 (Z.eqb_neq _ _) H1).
  - unfold fold. by rewrite bool_decide_eq_false_2, (proj2 (Z.eqb_neq _ _) H3), (proj2 (Z.eqb_neq _ _) H4).
Qed.

(** Folding gives a character of a word, and folding again changes nothing. *)
Lemma fold_word r : word_char r → word_char (fold r) ∧ fold (fold r) = fold r.
Proof.
  intros [Ht Hw]. destruct (decide (fold r ∈ [0x627; 0x64A; 0x647])) as [Hin|Hout]; [by apply arabic_word|].
  assert (E : fold r = to_lower r).
  { unfold fold in *. case_bool_decide; [set_solver|]. destruct (r =? 0x649); [set_solver|]. by destruct (r =? 0x629); [set_solver|]. }
  assert (Hr : r ∉ [0x623; 0x625; 0x622; 0x671] ∧ r ≠ 0x649 ∧ r ≠ 0x629).
  { unfold fold in Hout. case_bool_decide; [set_solver|]. destruct (Z.eqb_spec r 0x649); [set_solver|]. by destruct (Z.eqb_spec r 0x629); [set_solver|]. }
  destruct Hr as (H1 & H2 & H3). rewrite E. pose proof (lower_word r Hw) as Hlw.
  assert (Hback : ∀ x, 0x600 ≤ x < 0x700 → to_lower r = x → r = x) by (intros x Hx Ex; rewrite <- Ex; symmetry; apply arabic_case; by rewrite Ex).
  apply orb_false_elim in Ht as [_ Ht]. apply Z.eqb_neq in Ht. split.
  - split; [|done]. rewrite (word_not_mn _ Hlw). apply Z.eqb_neq. intros Ex. apply Ht. apply Hback; [unfold tatweel; lia|done].
  - unfold fold. rewrite bool_decide_eq_false_2.
    + rewrite (proj2 (Z.eqb_neq _ 0x649)), (proj2 (Z.eqb_neq _ 0x629)); [apply lower_lower| |]; intros Ex; by apply Hback in Ex.
    + intros Hin. apply H1. repeat (apply elem_of_cons in Hin as [Ex|Hin]; [apply Hback in Ex; [rewrite Ex; set_solver|lia]|]). by apply not_elem_of_nil in Hin.
Qed.

Lemma normal_normal gap started rs : normal false started (normal gap started rs) = normal gap started rs.
Proof.
  revert gap started. induction rs as [|r rs IH]; intros gap started; [done|]. cbn [normal].
  destruct (is_mn r || (r =? tatweel)) eqn:Ht; [apply IH|]. destruct (is_letter r || is_digit r) eqn:Hw; [|].
  - destruct (fold_word r) as [[Ht' Hw'] Hf]; [done|]. destruct (space_not_word 32 eq_refl) as (S1 & S2 & S3).
    destruct gap, started; cbn [andb app normal]; rewrite ?S1, ?S2, ?S3; change (32 =? tatweel) with false; cbn [orb];
      by rewrite Ht', Hw', Hf, IH.
  - apply IH.
Qed.

Lemma len_zero s : len s =? 0 = bool_decide (s = "").
Proof. destruct s; [done|]. rewrite bool_decide_eq_false_2 by done. unfold len. cbn [String.length]. apply Z.eqb_neq. lia. Qed.

Lemma encode_cons r rs : encode (r :: rs) = encode_rune r +:+ encode rs.
Proof. done. Qed.

Lemma encode_rune_ne r : encode_rune r ≠ "".
Proof. unfold encode_rune, str1. by repeat case_match. Qed.

Lemma string_app_ne (a b : string) : b ≠ "" → a +:+ b ≠ "".
Proof. intros Hb. by destruct a. Qed.

Lemma normal_loop_spec gap b rs : normal_loop gap b rs = b +:+ encode (normal gap (negb (bool_decide (b = ""))) rs).
Proof.
  revert gap b. induction rs as [|r rs IH]; intros gap b; cbn [normal_loop normal]; [by rewrite string_app_nil_r|].
  destruct (is_mn r || (r =? tatweel)); [apply IH|]. destruct (is_letter r || is_digit r); [|apply IH]. rewrite IH, len_zero.
  rewrite (bool_decide_eq_false_2 (_ +:+ encode_rune (fold r) = "")) by apply string_app_ne, encode_rune_ne. cbn [negb].
  destruct gap, (bool_decide (b = "")); cbn [negb andb app]; rewrite !encode_cons, ?string_app_assoc; done.
Qed.

Lemma fold_scalar r : scalar r → scalar (fold r).
Proof.
  intros Hr. unfold fold. case_bool_decide; [unfold scalar; lia|]. destruct (r =? 0x649); [unfold scalar; lia|].
  destruct (r =? 0x629); [unfold scalar; lia|]. by apply lower_scalar.
Qed.

Lemma normal_scalar gap started rs : Forall scalar rs → Forall scalar (normal gap started rs).
Proof.
  intros Hrs. revert gap started. induction Hrs as [|r rs Hr _ IH]; intros gap started; cbn [normal]; [constructor|].
  destruct (is_mn r || (r =? tatweel)); [apply IH|]. destruct (is_letter r || is_digit r); [|apply IH].
  apply Forall_app. split; [destruct (gap && started); repeat constructor; unfold scalar; lia|]. constructor; [by apply fold_scalar|apply IH].
Qed.

Lemma runes_Normalize s : runes (Normalize s) = normal false false (runes s).
Proof.
  unfold Normalize. rewrite normal_loop_spec. cbn. apply runes_encode, normal_scalar. unfold runes. apply Forall_fmap. apply chunks_scalar.
Qed.

(** A character of normal text: one of a word, folded, or a space with words
    on both sides ([started]: a word comes before the text). *)
Definition tidy_at (started : bool) (l : list Z) (i : nat) (r : Z) : Prop :=
  (word_char r ∧ fold r = r) ∨
  (r = 32 ∧ (∃ b, l !! S i = Some b ∧ word_char b) ∧ match i with O => started = true | S j => ∃ a, l !! j = Some a ∧ word_char a end).

Lemma tidy_cons started r l i x : word_char r → tidy_at true l i x → tidy_at started (r :: l) (S i) x.
Proof.
  intros Hr [Hh|(Hx & Hb & Ha)]; [by left|right]. split_and!; [done|done|]. destruct i as [|i]; [by exists r|done].
Qed.

Lemma normal_tidy gap started rs i r : normal gap started rs !! i = Some r → tidy_at started (normal gap started rs) i r.
Proof.
  revert gap started i. induction rs as [|x rs IH]; intros gap started i; [done|]. cbn [normal].
  destruct (is_mn x || (x =? tatweel)) eqn:Ht; [apply IH|]. destruct (is_letter x || is_digit x) eqn:Hw; [|apply IH].
  destruct (fold_word x) as [Hword Hf]; [done|].
  assert (Hrest : ∀ i st, (fold x :: normal false true rs) !! i = Some r → tidy_at st (fold x :: normal false true rs) i r).
  { intros [|j] st; [intros [= <-]; by left|]. intros Hj. apply tidy_cons; [done|]. by apply IH. }
  destruct (gap && started) eqn:Hg; cbn [app]; [|apply Hrest]. destruct i as [|j].
  - intros [= <-]. right. split_and!; [done|by exists (fold x)|]. by apply andb_prop in Hg as [_ ->].
  - intros Hj. destruct (Hrest j true Hj) as [Hh|(Hx & Hb & Ha)]; [by left|right]. split_and!; [done|done|].
    destruct j as [|j]; [|done]. cbn in Hj. injection Hj as <-. exfalso. destruct Hword as [_ Hword]. rewrite Hx in Hword.
    destruct (space_not_word 32 eq_refl) as (_ & S2 & S3). by rewrite S2, S3 in Hword.
Qed.

(** Names and searches meet in one form: normalising again changes nothing,
    so a search for a name as it is stored is that name; the form is words of
    letters and digits, folded, one space between them and none around. *)
Theorem Normalize_normal s :
  Normalize (Normalize s) = Normalize s ∧
  (∀ n, ParseQuery s = Ok n → n = Normalize s ∧ ParseQuery n = Ok n) ∧
  ∀ i r, runes (Normalize s) !! i = Some r → tidy_at false (runes (Normalize s)) i r.
Proof.
  assert (Hid : Normalize (Normalize s) = Normalize s).
  { unfold Normalize at 1. rewrite runes_Normalize, normal_loop_spec, normal_normal. cbn. unfold Normalize. by rewrite normal_loop_spec. }
  split_and!; [done| |].
  - intros n. unfold ParseQuery. destruct (_ <? _) eqn:E; [done|]. intros [= <-]. split; [done|]. by rewrite Hid, E.
  - intros i r. rewrite runes_Normalize. apply normal_tidy.
Qed.
End NormalForm.

(** A small alphabet: English and Arabic letters, ASCII digits, the short
    vowels. *)
Module Demo.
Definition small_tables : UnicodeLib := {|
  is_mn r := in_range 0x64B 0x65F r;
  is_letter r := in_range 65 90 r || in_range 97 122 r || in_range 0x620 0x64A r || (r =? 0x671);
  is_digit r := in_range 48 57 r;
  to_lower r := if in_range 65 90 r then r + 32 else r |}.
#[export] Existing Instance small_tables.

#[export] Instance small_laws : UnicodeLaws.
Proof.
  constructor; unfold is_mn, is_letter, is_digit, to_lower, small_tables, in_range.
  - intros r Hr. bool_prop. split; [repeat (apply orb_false_intro)|]; try (apply andb_false_iff); rewrite ?Z.leb_gt, ?Z.eqb_neq; lia.
  - intros r Hr. unfold IsSpace, in_range in Hr. rewrite !orb_true_iff, !andb_true_iff, !Z.leb_le, !Z.eqb_eq in Hr.
    split_and!; repeat (apply orb_false_intro); try (apply andb_false_iff); rewrite ?Z.leb_gt, ?Z.eqb_neq; lia.
  - intros r. destruct ((65 <=? r) && (r <=? 90)) eqn:E; [|rewrite E; by intros ->]. bool_prop. intros _.
    assert (Hl : (97 <=? r + 32) && (r + 32 <=? 122) = true) by (apply andb_true_intro; split; apply Z.leb_le; lia).
    rewrite Hl. by rewrite !orb_true_r.
  - intros r. destruct ((65 <=? r) && (r <=? 90)) eqn:E; [|by rewrite E]. bool_prop.
    assert (Hl : (65 <=? r + 32) && (r + 32 <=? 90) = false) by (apply andb_false_iff; right; apply Z.leb_gt; lia). by rewrite Hl.
  - intros r. unfold scalar. destruct ((65 <=? r) && (r <=? 90)) eqn:E; [|done]. bool_prop. lia.
  - intros r. destruct ((65 <=? r) && (r <=? 90)) eqn:E; [|done]. bool_prop. lia.
  - intros r Hr. repeat (apply elem_of_cons in Hr as [->|Hr]; [by split; vm_compute|]). by apply not_elem_of_nil in Hr.
Qed.

(** Every place at one distance, every match as good. *)
Definition flat_ranks : SearchLib := {|
  distance _ _ := zero_rank; within _ _ _ := true; word_similarity _ _ := zero_rank; close_match _ _ := false |}.
End Demo.
Import Demo.

Lemma Normalize_normal_witness :
  Normalize "  صَالُون الأنـاقة: ALI's " = "صالون الاناقه ali s" ∧ Normalize (Normalize "  صَالُون الأنـاقة: ALI's ") = Normalize "صالون الاناقه ali s".
Proof.
  split; [vm_compute; reflexivity|]. destruct (Normalize_normal "  صَالُون الأنـاقة: ALI's ") as (-> & _ & _). vm_compute. reflexivity.
Defined.
