(* ===== verification/DiscStore.v ===== *)
(** * Discovery's tables
      (src/internal/discovery/adapters/postgres; src/migrations/00021 to 00026)

    The copies of branches, services and weeks, the upserts that keep the
    newest version of each, and the searches. What PostGIS and pg_trgm compute
    is the interface SearchLib, a zone file TzLib; LIKE is written out. A
    multirange is the list of its ranges: searches only ask what it contains. *)
From Stdlib Require Import SpecFloat.
From S2P Require Import Prelude GoTime GoText Shared Tables BizBase Discovery.
Open Scope Z_scope.

(** ** Rows (sqlcgen) *)

Record ListingRow := MkListingRow {
  lr_BranchID : BranchID; lr_BusinessID : BusinessID; lr_Version : Z; lr_Listed : bool; lr_NameAr : string; lr_NameEn : string;
  lr_CityCode : string; lr_District : string; lr_Address : string; lr_Latitude : float64; lr_Longitude : float64; lr_Phone : string;
  lr_Timezone : string; lr_UpdatedAt : time; lr_SearchText : string }.

Record ServiceRow := MkServiceRow {
  sr_ServiceID : ServiceID; sr_BranchID : BranchID; sr_BusinessID : BusinessID; sr_Version : Z; sr_Offered : bool; sr_CategoryCode : string;
  sr_PriceFrom : Z; sr_UpdatedAt : time; sr_NameAr : string; sr_NameEn : string; sr_DurationMinutes : Z; sr_SortOrder : Z }.

Record HoursRow := MkHoursRow {
  hr_BranchID : BranchID; hr_BusinessID : BusinessID; hr_Version : Z; hr_Open : list (Z * Z); hr_UpdatedAt : time; hr_Intervals : list (Z * Z) }.

Record DiscDB := MkDiscDB {
  branch_listings : gmap BranchID ListingRow;
  branch_services : gmap ServiceID ServiceRow;
  branch_hours : gmap BranchID HoursRow }.

Definition empty_disc_db : DiscDB := MkDiscDB ∅ ∅ ∅.

Definition toInt32 (n : Z) : res disc_error Z := if (n <? -2147483648) || (max_int32 <? n) then Err ErrStorage else Ok n.

(** ** What the tables refuse *)

Definition in_floats (lo hi : Z) (f : float64) : bool := SFleb (float_of lo) f && SFleb f (float_of hi).

Definition listing_checks (r : ListingRow) : bool :=
  (0 <? lr_Version r) && negb (bool_decide (lr_NameAr r = "")) && in_floats (-90) 90 (lr_Latitude r) && in_floats (-180) 180 (lr_Longitude r).

Definition service_checks (r : ServiceRow) : bool := (0 <? sr_Version r) && (0 <=? sr_PriceFrom r) && (0 <=? sr_DurationMinutes r).

(** [lower(open) >= 0 AND upper(open) <= 2 * 10080 OR isempty(open)], of the
    ranges that are not empty themselves. *)
Definition hours_checks (r : HoursRow) : bool :=
  (0 <? hr_Version r)
  && forallb (λ o, (o.2 <=? o.1) || (0 <=? o.1) && (o.2 <=? 2 * 10080)) (hr_Open r).

(** ** Keeping the newest copy (listings.go)

    One statement inserts the copy or, when the stored one is older, replaces
    it; the answer is whether a row was written. *)
Definition keep_row {K V} `{Countable K} (version : V → Z) (t : gmap K V) (k : K) (row : V) : bool * gmap K V :=
  match t !! k with
  | Some old => if version old <? version row then (true, <[k := row]> t) else (false, t)
  | None => (true, <[k := row]> t)
  end.

Definition KeepListing_stmt (db : DiscDB) (row : ListingRow) : res disc_error (bool * DiscDB) :=
  check! listing_checks row else ErrStorage in
  let '(kept, t) := keep_row lr_Version (branch_listings db) (lr_BranchID row) row in
  Ok (kept, MkDiscDB t (branch_services db) (branch_hours db)).

Definition KeepService_stmt (db : DiscDB) (row : ServiceRow) : res disc_error (bool * DiscDB) :=
  check! service_checks row else ErrStorage in
  let '(kept, t) := keep_row sr_Version (branch_services db) (sr_ServiceID row) row in
  Ok (kept, MkDiscDB (branch_listings db) t (branch_hours db)).

Definition KeepHours_stmt (db : DiscDB) (row : HoursRow) : res disc_error (bool * DiscDB) :=
  check! hours_checks row else ErrStorage in
  let '(kept, t) := keep_row hr_Version (branch_hours db) (hr_BranchID row) row in
  Ok (kept, MkDiscDB (branch_listings db) (branch_services db) t).

Definition listing_row `{UnicodeLib} (l : Listing) (version : Z) : ListingRow :=
  MkListingRow (l_Branch l) (l_Business l) version (l_Listed l) (ar (l_Name l)) (en (l_Name l)) (city_code (l_City l)) (l_District l) (l_Address l)
    (lat (l_Location l)) (lng (l_Location l)) (l_Phone l) (l_Timezone l) (stored_time (l_UpdatedAt l)) (SearchText (l_Name l)).

Definition Listings_Keep `{UnicodeLib} (db : DiscDB) (l : Listing) : res disc_error (bool * DiscDB) :=
  let! version := toInt32 (l_Version l) in
  KeepListing_stmt db (listing_row l version).

Definition service_row (s : Service) (version minutes sort : Z) : ServiceRow :=
  MkServiceRow (sv_Service s) (sv_Branch s) (sv_Business s) version (sv_Offered s) (cat_code (sv_Category s)) (amount (sv_PriceFrom s))
    (stored_time (sv_UpdatedAt s)) (ar (sv_Name s)) (en (sv_Name s)) minutes sort.

Definition Listings_KeepService (db : DiscDB) (s : Service) : res disc_error (bool * DiscDB) :=
  check! bool_decide (currency (sv_PriceFrom s) = SAR) else ErrNotSAR in
  let! version := toInt32 (sv_Version s) in
  let! minutes := toInt32 (Z.quot (sv_Duration s) Minute) in
  let! sort := toInt32 (sv_SortOrder s) in
  KeepService_stmt db (service_row s version minutes sort).

Definition bad_hours (o : Z * Z) : bool := (o.1 <? 0) || (o.2 <=? o.1) || (2 * MinutesPerWeek <? o.2).

Definition Listings_KeepHours (db : DiscDB) (h : OpeningHours) : res disc_error (bool * DiscDB) :=
  check! negb (existsb bad_hours (h_Open h)) else ErrBadHours in
  let! version := toInt32 (h_Version h) in
  KeepHours_stmt db (MkHoursRow (h_Branch h) (h_Business h) version (h_Open h) (stored_time (h_UpdatedAt h)) (h_Open h)).

(** ** What searches compute *)

(** [discovery.open_at]: the minute of the week in the branch's zone, or that
    minute a week later, lies in an interval. *)
Definition week_minute (loc : Location) (at_ : time) : Z :=
  weekday_of_days (local_day loc at_) * 1440 + local_hour loc at_ * 60 + local_minute loc at_.

Definition contains_minute (open : list (Z * Z)) (m : Z) : bool := existsb (λ o, (o.1 <=? m) && (m <? o.2)) open.

Definition open_at (open : list (Z * Z)) (at_ : time) (loc : Location) : bool :=
  let m := week_minute loc at_ in contains_minute open m || contains_minute open (m + 10080).

(** [coalesce(open_at(...), false)] of the left join; an unknown zone fails
    the query. *)
Definition open_now `{TzLib} (db : DiscDB) (r : ListingRow) (at_ : time) : res disc_error bool :=
  match branch_hours db !! lr_BranchID r with
  | None => Ok false
  | Some h => match LoadLocation (lr_Timezone r) with None => Err ErrStorage | Some loc => Ok (open_at (hr_Open h) at_ loc) end
  end.

Definition in_category (category : option string) (s : ServiceRow) : bool :=
  match category with None => true | Some c => bool_decide (sr_CategoryCode s = c) end.

(** The branch's offered services, in the category if one is given. *)
Definition offered (db : DiscDB) (branch : BranchID) (category : option string) : list ServiceRow :=
  rows_where (λ s, bool_decide (sr_BranchID s = branch) && sr_Offered s && in_category category s) (branch_services db).

(** [min(price_from)]; [None] of no rows. *)
Definition min_price (l : list ServiceRow) : option Z :=
  foldr (λ s m, Some (match m with None => sr_PriceFrom s | Some p => Z.min (sr_PriceFrom s) p end)) None l.

(** [text LIKE pattern], on characters: % any characters, _ one, \ takes the
    next as itself. *)
Fixpoint like (p s : list Z) {struct p} : bool :=
  match p with
  | [] => match s with [] => true | _ :: _ => false end
  | c :: p' =>
      if c =? 37 then (fix any (s : list Z) : bool := like p' s || match s with [] => false | _ :: s => any s end) s
      else if c =? 92 then
        match p', s with
        | c' :: p'', x :: s => (x =? c') && like p'' s
        | _, _ => false
        end
      else match s with
      | x :: s => ((c =? 95) || (x =? c)) && like p' s
      | [] => false
      end
  end.

(** [escapeLike]: every \, % and _ gets a \ before it. *)
Fixpoint escapeLike (text : string) : string :=
  match text with
  | "" => ""
  | String a s => let c := byte_of a in
      if (c =? 92) || (c =? 37) || (c =? 95) then String (byte_chr 92) (String a (escapeLike s)) else String a (escapeLike s)
  end.

Definition contains_like (search_text text_like : string) : bool := like (37 :: runes text_like ++ [37]) (runes search_text).

(** ** Searching *)

(** A row of a search: the listing, its least price, whether it is open. *)
Record FoundRow := MkFoundRow { fr_Listing : ListingRow; fr_PriceFrom : Z; fr_OpenNow : bool }.

Definition categoryCode (c : option Category) : option string := cat_code <$> c.

Section Searches.
Context `{TzLib} `{SearchLib}.

Definition found_row (db : DiscDB) (f : Filter) (r : ListingRow) : res disc_error FoundRow :=
  let! o := open_now db r (f_At f) in
  Ok (MkFoundRow r (default 0 (min_price (offered db (lr_BranchID r) (categoryCode (f_Category f))))) o).

(** What every search shows: listed branches that offer a service. *)
Definition shown (db : DiscDB) (category : option string) (r : ListingRow) : bool :=
  lr_Listed r && negb (length (offered db (lr_BranchID r) category) =? 0)%nat.

Definition query (db : DiscDB) (f : Filter) (cond : ListingRow → bool) (before : ListingRow → ListingRow → bool) (limit : nat)
    : res disc_error (list FoundRow) :=
  let! rows := res_mapM (found_row db f)
                 (sort_by before (rows_where (λ r, shown db (categoryCode (f_Category f)) r && cond r) (branch_listings db))) in
  Ok (take limit (List.filter (λ r, negb (f_OpenNow f) || fr_OpenNow r) rows)).

Definition uuid_le (a b : BranchID) : bool := (value a <=? value b)%N.

(** [ORDER BY name_ar, branch_id], names by code point. *)
Definition by_name (a b : ListingRow) : bool :=
  if bool_decide (lr_NameAr a = lr_NameAr b) then uuid_le (lr_BranchID a) (lr_BranchID b) else String.leb (lr_NameAr a) (lr_NameAr b).

(** [(name_ar, branch_id) > (after_name, after_id)]. *)
Definition after_name (after : option Position) (r : ListingRow) : bool :=
  match after with
  | None => true
  | Some p => if bool_decide (lr_NameAr r = p_NameAr p) then negb (uuid_le (lr_BranchID r) (p_Branch p)) else negb (String.leb (lr_NameAr r) (p_NameAr p))
  end.

Definition in_city (c : option City) (r : ListingRow) : bool := match c with None => true | Some c => bool_decide (lr_CityCode r = city_code c) end.

Definition ListingsInCity (db : DiscDB) (city : City) (f : Filter) (after : option Position) (limit : nat) : res disc_error (list FoundRow) :=
  query db f (λ r, in_city (Some city) r && after_name after r) by_name limit.

Definition place (r : ListingRow) : GeoPoint := MkGeo (lr_Latitude r) (lr_Longitude r).

Definition matches (text : string) (r : ListingRow) : bool := contains_like (lr_SearchText r) (escapeLike text) || close_match text (lr_SearchText r).

(** Ordered by a rank, best first, then by ID. *)
Definition by_rank (rank : ListingRow → Rank) (better : Rank → Rank → bool) (a b : ListingRow) : bool :=
  if negb (better (rank b) (rank a)) then true else if negb (better (rank a) (rank b)) then false else uuid_le (lr_BranchID a) (lr_BranchID b).

Definition after_rank (rank : ListingRow → Rank) (better : Rank → Rank → bool) (after : option (Rank * BranchID)) (r : ListingRow) : bool :=
  match after with
  | None => true
  | Some (k, id) => if negb (better (rank r) k) then true else if negb (better k (rank r)) then false else negb (uuid_le (lr_BranchID r) id)
  end.

Definition nearest (a b : Rank) : bool := rank_le a b.
Definition best (a b : Rank) : bool := rank_le b a.

Definition ListingsNear (db : DiscDB) (near : Near) (f : Filter) (after : option (Rank * BranchID)) (limit : nat) : res disc_error (list FoundRow) :=
  let rank r := distance (place r) (n_Point near) in
  query db f (λ r, within (place r) (n_Point near) (n_RadiusM near) && in_city (f_City f) r
                   && (bool_decide (f_Text f = "") || matches (f_Text f) r) && after_rank rank nearest after r) (by_rank rank nearest) limit.

Definition ListingsMatching (db : DiscDB) (f : Filter) (after : option (Rank * BranchID)) (limit : nat) : res disc_error (list FoundRow) :=
  let rank r := word_similarity (f_Text f) (lr_SearchText r) in
  query db f (λ r, matches (f_Text f) r && in_city (f_City f) r && after_rank rank best after r) (by_rank rank best) limit.

(** ** Reading rows (listings.go) *)

Definition toListing (r : ListingRow) : res disc_error Listing :=
  let! name := res_map_err (λ _, ErrStorage) (NewLocalizedText (lr_NameAr r) (lr_NameEn r)) in
  let! city := res_map_err (λ _, ErrUnknownCity) (ParseCity (lr_CityCode r)) in
  let! location := res_map_err (λ _, ErrStorage) (NewGeoPoint (lr_Latitude r) (lr_Longitude r)) in
  Ok (MkListing (lr_BranchID r) (lr_BusinessID r) (lr_Version r) (lr_Listed r) name city (lr_District r) (lr_Address r) location (lr_Phone r)
        (lr_Timezone r) (lr_UpdatedAt r)).

Definition toFound (distance_m score : ListingRow → Rank) (r : FoundRow) : res disc_error Found :=
  let! l := toListing (fr_Listing r) in
  Ok (MkFound l (Halalas (fr_PriceFrom r)) (fr_OpenNow r) (distance_m (fr_Listing r)) (score (fr_Listing r))).

Definition no_rank (r : ListingRow) : Rank := zero_rank.

(** A search in a city without a city fails before the query. *)
Definition InCity (db : DiscDB) (f : Filter) (after : option Position) (limit : nat) : res disc_error (list Found) :=
  match f_City f with
  | None => Err ErrStorage
  | Some city =>
      let! rows := ListingsInCity db city f after limit in
      res_mapM (toFound no_rank no_rank) rows
  end.

Definition Listings_Near (db : DiscDB) (near : Near) (f : Filter) (after : option Position) (limit : nat) : res disc_error (list Found) :=
  let! rows := ListingsNear db near f ((λ p, (p_DistanceM p, p_Branch p)) <$> after) limit in
  res_mapM (toFound (λ r, distance (place r) (n_Point near)) no_rank) rows.

Definition Matching (db : DiscDB) (f : Filter) (after : option Position) (limit : nat) : res disc_error (list Found) :=
  let! rows := ListingsMatching db f ((λ p, (p_Score p, p_Branch p)) <$> after) limit in
  res_mapM (toFound no_rank (λ r, word_similarity (f_Text f) (lr_SearchText r))) rows.

(** ** A branch's page *)

Definition toMenuItem (r : ServiceRow) : res disc_error MenuItem :=
  let! category := res_map_err (λ _, ErrUnknownCategory) (ParseCategory (sr_CategoryCode r)) in
  let! name := res_map_err (λ _, ErrStorage) (NewLocalizedText (sr_NameAr r) (sr_NameEn r)) in
  Ok (MkMenuItem (sr_ServiceID r) category name (int64 (sr_DurationMinutes r * Minute)) (Halalas (sr_PriceFrom r))).

(** [ORDER BY sort_order, name_ar COLLATE "C", service_id]. *)
Definition by_menu (a b : ServiceRow) : bool :=
  if sr_SortOrder a <? sr_SortOrder b then true else if sr_SortOrder b <? sr_SortOrder a then false
  else if bool_decide (sr_NameAr a = sr_NameAr b) then (value (sr_ServiceID a) <=? value (sr_ServiceID b))%N
  else String.leb (sr_NameAr a) (sr_NameAr b).

Definition BranchMenu (db : DiscDB) (branch : BranchID) : list ServiceRow := sort_by by_menu (offered db branch None).

(** The row, its price and whether it is open, and the week as set. *)
Definition BranchPage (db : DiscDB) (branch : BranchID) (at_ : time) : res disc_error (FoundRow * list (Z * Z)) :=
  match branch_listings db !! branch with
  | None => Err ErrNotFound
  | Some r =>
      check! shown db None r else ErrNotFound in
      let! o := open_now db r at_ in
      Ok (MkFoundRow r (default 0 (min_price (offered db branch None))) o, from_option hr_Intervals [] (branch_hours db !! branch))
  end.

(** Both queries read one snapshot. *)
Definition Listings_Page (db : DiscDB) (branch : BranchID) (at_ : time) : res disc_error Page :=
  let! row := BranchPage db branch at_ in
  let! f := toFound no_rank no_rank row.1 in
  let! menu := res_mapM toMenuItem (BranchMenu db branch) in
  Ok (MkPage f row.2 menu).
End Searches.
