(* ===== verification/DiscApp.v ===== *)
(** * Discovery's use cases (src/internal/discovery/app, module.go)

    Keeping the copies from the events of other modules, and answering
    searches, a page at a time. *)
From Stdlib Require Import SpecFloat.
From S2P Require Import Prelude GoTime GoText Shared Tables BizBase Discovery DiscStore.
Open Scope Z_scope.

(** ** Keeping copies (app.go, module.go) *)

(** A branch as business's events describe it. *)
Record BranchEvent := MkBranchEvent {
  be_BusinessID : BusinessID; be_BranchID : BranchID; be_Version : Z; be_Published : bool; be_Name : LocalizedText; be_City : string;
  be_District : string; be_Address : string; be_Location : GeoPoint; be_Phone : string; be_Timezone : string; be_At : time }.

(** A service as catalog's events describe it. *)
Record ServiceEvent := MkServiceEvent {
  se_BusinessID : BusinessID; se_BranchID : BranchID; se_ServiceID : ServiceID; se_Version : Z; se_Offered : bool; se_Category : string;
  se_Name : LocalizedText; se_Duration : Duration; se_PriceFrom : Money; se_SortOrder : Z; se_At : time }.

(** Opening hours as scheduling's events describe them. *)
Record HoursEvent := MkHoursEvent {
  he_BusinessID : BusinessID; he_BranchID : BranchID; he_Version : Z; he_Open : list (Z * Z); he_At : time }.

Definition Keep `{UnicodeLib} (db : DiscDB) (l : Listing) : res disc_error DiscDB := let! r := Listings_Keep db l in Ok r.2.
Definition KeepService_handler (db : DiscDB) (s : Service) : res disc_error DiscDB := let! r := Listings_KeepService db s in Ok r.2.
Definition KeepHours_handler (db : DiscDB) (h : OpeningHours) : res disc_error DiscDB := let! r := Listings_KeepHours db h in Ok r.2.

Definition KeepBranch `{UnicodeLib} (db : DiscDB) (b : BranchEvent) : res disc_error DiscDB :=
  let! city := res_map_err (λ _, ErrUnknownCity) (ParseCity (be_City b)) in
  Keep db (MkListing (be_BranchID b) (be_BusinessID b) (be_Version b) (be_Published b) (be_Name b) city (be_District b) (be_Address b) (be_Location b)
             (be_Phone b) (be_Timezone b) (be_At b)).

Definition KeepService (db : DiscDB) (s : ServiceEvent) : res disc_error DiscDB :=
  let! category := res_map_err (λ _, ErrUnknownCategory) (ParseCategory (se_Category s)) in
  KeepService_handler db (MkService (se_ServiceID s) (se_BranchID s) (se_BusinessID s) (se_Version s) (se_Offered s) category (se_Name s) (se_Duration s)
                            (se_PriceFrom s) (se_SortOrder s) (se_At s)).

Definition KeepHours (db : DiscDB) (h : HoursEvent) : res disc_error DiscDB :=
  KeepHours_handler db (MkHours (he_BranchID h) (he_BusinessID h) (he_Version h) (he_Open h) (he_At h)).

(** ** Searching (app.go) *)

Record Search := MkSearch { s_City : option City; s_Near : option Near; s_Text : string; s_Category : option Category; s_OpenNow : bool }.

Inductive Order := ByName | ByDistance | ByMatch.

Definition Order_of (s : Search) : Order :=
  match s_Near s with
  | Some _ => ByDistance
  | None => if negb (bool_decide (s_Text s = "")) then ByMatch else ByName
  end.

Section Searches.
Context `{UnicodeLib} `{TzLib} `{SearchLib}.

Definition Branch_page (db : DiscDB) (now : time) (id : BranchID) : res disc_error Page := Listings_Page db id now.

Record ResultPage := MkResults { rp_Found : list Found; rp_Next : option Position }.

Definition bad_radius (r : float64) : bool := SFleb r (float_of 0) || SFltb (float_of (MaxRadiusKm * 1000)) r.

(** The listings of the search's order, one more than a page. *)
Definition search_listings (db : DiscDB) (f : Filter) (s : Search) (after : option Position) : res disc_error (list Found) :=
  match s_Near s with
  | Some near =>
      check! negb (bad_radius (n_RadiusM near)) else ErrRadius in
      Listings_Near db near f after (PageSize + 1)
  | None =>
      if negb (bool_decide (s_Text s = "")) then Matching db f after (PageSize + 1)
      else
        check! present (s_City s) else ErrNoPlace in
        InCity db f after (PageSize + 1)
  end.

Definition next_position (o : Order) (last : Found) : Position :=
  let id := l_Branch (fd_Listing last) in
  match o with
  | ByDistance => MkPosition "" (fd_DistanceM last) zero_rank id
  | ByMatch => MkPosition "" zero_rank (fd_Score last) id
  | ByName => MkPosition (ar (l_Name (fd_Listing last))) zero_rank zero_rank id
  end.

Definition Search_handler (db : DiscDB) (now : time) (s : Search) (after : option Position) : res disc_error ResultPage :=
  let! text := if bool_decide (s_Text s = "") then Ok "" else ParseQuery (s_Text s) in
  let! found := search_listings db (MkFilter (s_City s) text (s_Category s) (s_OpenNow s) now) s after in
  if (length found <=? PageSize)%nat then Ok (MkResults found None)
  else
    let found := take PageSize found in
    Ok (MkResults found (next_position (Order_of s) <$> last found)).
End Searches.
