(* ===== verification/DiscFacts.v ===== *)
(** * Searching by name

    A name search is a substring search: LIKE, its wildcards and escapes, and
    the normal forms both sides are compared in. *)
From Stdlib Require Import SpecFloat.
From S2P Require Import Prelude GoTime GoText Shared Tables BizBase Discovery DiscStore DiscApp.
Open Scope Z_scope.

(** ** LIKE and its escapes *)

(** Escaped text, as characters: the escape goes before the characters that
    mean something. *)
Definition special (r : Z) : bool := (r =? 92) || (r =? 37) || (r =? 95).
Definition escaped (rs : list Z) : list Z := rs ≫= λ r, if special r then [92; r] else [r].

Lemma byte_lead_plain (a : Ascii.ascii) : 128 ≤ byte_of a → special (byte_of a) = false.
Proof. intros Ha. unfold special. by rewrite !(proj2 (Z.eqb_neq _ _)) by lia. Qed.

Lemma escapeLike_plain a s : special (byte_of a) = false → escapeLike (String a s) = String a (escapeLike s).
Proof. intros Ha. cbn [escapeLike]. unfold special in Ha. by rewrite Ha. Qed.

(** A pattern made of escaped text matches that text only. *)
Lemma like_escaped t p s : like (escaped t ++ p) (t ++ s) = like p s.
Proof.
  induction t as [|r t IH]; [done|]. change (escaped (r :: t)) with ((if special r then [92; r] else [r]) ++ escaped t).
  destruct (special r) eqn:E; cbn [app].
  - cbn [like]. change (92 =? 37) with false. change (92 =? 92) with true. cbn [app]. rewrite Z.eqb_refl. exact IH.
  - cbn [like]. unfold special in E. bool_prop. rewrite (proj2 (Z.eqb_neq r 37)), (proj2 (Z.eqb_neq r 92)), (proj2 (Z.eqb_neq r 95)), Z.eqb_refl by done. exact IH.
Qed.

Lemma like_escaped_inv t p s : like (escaped t ++ p) s = true → ∃ s', s = t ++ s' ∧ like p s' = true.
Proof.
  revert s. induction t as [|r t IH]; intros s; [intros Hl; by exists s|]. change (escaped (r :: t)) with ((if special r then [92; r] else [r]) ++ escaped t).
  destruct (special r) eqn:E; cbn [app].
  - cbn [like]. change (92 =? 37) with false. change (92 =? 92) with true. destruct s as [|x s]; [done|]. intros [Hx Hl]%andb_prop.
    apply Z.eqb_eq in Hx as ->. destruct (IH s Hl) as (s' & -> & Hs'). by exists s'.
  - cbn [like]. unfold special in E. bool_prop. rewrite (proj2 (Z.eqb_neq r 37)), (proj2 (Z.eqb_neq r 92)), (proj2 (Z.eqb_neq r 95)) by done.
    destruct s as [|x s]; [done|]. cbn [orb]. intros [Hx Hl]%andb_prop. apply Z.eqb_eq in Hx as ->. destruct (IH s Hl) as (s' & -> & Hs'). by exists s'.
Qed.

Lemma like_any p s : like (37 :: p) s = true ↔ ∃ a b, s = a ++ b ∧ like p b = true.
Proof.
  cbn [like]. change (37 =? 37) with true. cbn iota. induction s as [|x s IH].
  - rewrite orb_false_r. split; [intros Hl; by exists [], []|]. intros (a & b & E & Hl). symmetry in E. apply app_nil in E as [-> ->]. done.
  - rewrite orb_true_iff, IH. split.
    + intros [Hl|(a & b & -> & Hl)]; [by exists [], (x :: s)|by exists (x :: a), b].
    + intros ([|y a] & b & E & Hl); [left; by rewrite E|right]. injection E as -> ->. by exists a, b.
Qed.

Lemma like_rest s : like [37] s = true.
Proof. apply like_any. exists s, []. by rewrite app_nil_r. Qed.

(** The escapes are the same on bytes and on characters: no byte of a longer
    character is one of the special ones. *)
Lemma escapeLike_app s t : escapeLike (s +:+ t) = escapeLike s +:+ escapeLike t.
Proof. induction s as [|a s IH]; [done|]. change (String a s +:+ t) with (String a (s +:+ t)). cbn [escapeLike]. rewrite IH. by destruct (_ || _ || _). Qed.

Lemma escapeLike_bytes s : Forall (λ b, special b = false) (bytes s) → escapeLike s = s.
Proof.
  induction s as [|a s IH]; [done|]. cbn [bytes]. rewrite Forall_cons. intros [Ha Hs]. rewrite escapeLike_plain by done. by rewrite IH.
Qed.

Lemma long_rune_bytes r : scalar r → 128 ≤ r → Forall (λ b, 128 ≤ b) (bytes (encode_rune r)).
Proof.
  intros Hr Hge. unfold scalar in Hr. unfold encode_rune, str1. rewrite (proj2 (Z.ltb_ge r 128)) by done.
  destruct (Z.ltb_spec r 2048), (Z.ltb_spec r 65536); cbn [bytes]; try lia; repeat (apply Forall_cons; split); try apply Forall_nil_2;
    rewrite byte_of_chr; Z.div_mod_to_equations; lia.
Qed.

Lemma escapeLike_rune r : scalar r → escapeLike (encode_rune r) = if special r then encode_rune 92 +:+ encode_rune r else encode_rune r.
Proof.
  intros Hr. destruct (Z.ltb_spec r 128) as [Hlt|Hge].
  - unfold encode_rune at 1 3 4. rewrite (proj2 (Z.ltb_lt r 128)) by done. unfold scalar in Hr. unfold str1. cbn [escapeLike].
    rewrite byte_of_chr by lia. fold (special r). by destruct (special r).
  - assert (Hs : special r = false) by (unfold special; rewrite !(proj2 (Z.eqb_neq _ _)) by lia; done). rewrite Hs. apply escapeLike_bytes.
    eapply Forall_impl; [by apply long_rune_bytes|]. intros b Hb. cbn beta in Hb. unfold special. by rewrite !(proj2 (Z.eqb_neq _ _)) by lia.
Qed.

Lemma escapeLike_encode rs : Forall scalar rs → escapeLike (encode rs) = encode (escaped rs).
Proof.
  induction 1 as [|r rs Hr _ IH]; [done|]. rewrite encode_cons, escapeLike_app, IH, escapeLike_rune by done.
  change (escaped (r :: rs)) with ((if special r then [92; r] else [r]) ++ escaped rs). destruct (special r); cbn [app]; rewrite !encode_cons; [|done].
  by rewrite string_app_assoc.
Qed.

Lemma runes_escapeLike rs : Forall scalar rs → runes (escapeLike (encode rs)) = escaped rs.
Proof.
  intros Hrs. rewrite escapeLike_encode by done. apply runes_encode. unfold escaped. apply Forall_bind. eapply Forall_impl; [exact Hrs|].
  intros r Hr. unfold compose. destruct (special r); (repeat apply Forall_cons_2); try apply Forall_nil_2; unfold scalar in *; lia.
Qed.

(** ** A name search is a substring search *)

Definition infix {A} (w l : list A) : Prop := ∃ a b, l = a ++ w ++ b.

Lemma contains_like_infix s rs : Forall scalar rs → contains_like s (escapeLike (encode rs)) = true ↔ infix rs (runes s).
Proof.
  intros Hrs. unfold contains_like. rewrite runes_escapeLike, like_any by done. split.
  - intros (a & b & E & Hl). apply like_escaped_inv in Hl as (b' & -> & _). by exists a, b'.
  - intros (a & b & E). exists a, (rs ++ b). split; [done|]. rewrite like_escaped. apply like_rest.
Qed.

(** Trimming keeps what neither starts nor ends with a space. *)
Lemma infix_trim (f : Z → bool) w l :
  infix w l → (∀ x, head w = Some x → f x = false) → (∀ x, last w = Some x → f x = false) → w ≠ [] → infix w (trim_both f l).
Proof.
  intros (a & b & E) Hh Hl Hne. destruct (trim_both_split f l) as (pre & post & E2 & Hsp). set (m := trim_both f l) in *. clearbody m. rewrite E in E2.
  apply Forall_app in Hsp as [Hpre Hpost].
  assert (Ha : ∃ a', a = pre ++ a').
  { symmetry in E2. apply app_eq_app in E2 as (k & [[-> E3]|[-> E3]]); [|by exists k]. destruct k as [|x k]; [exists []; by rewrite !app_nil_r|].
    destruct w as [|y w]; [done|]. injection E3 as -> _. apply Forall_app in Hpre as [_ Hk]. apply Forall_cons in Hk as [Hk _].
    rewrite (Hh x eq_refl) in Hk. done. }
  destruct Ha as [a' ->]. rewrite <- app_assoc in E2. apply app_inv_head in E2. rewrite !app_assoc in E2.
  apply app_eq_app in E2 as (k & [[E3 ->]|[E3 ->]]); [|exists a', k; by rewrite E3, app_assoc].
  destruct (last w) as [x|] eqn:Ex; [|by apply last_None in Ex]. apply last_Some in Ex as [w' ->].
  destruct k as [|y k _] using rev_ind; [exists a', []; rewrite app_nil_r in E3; by rewrite <- E3, app_nil_r|].
  exfalso. rewrite !app_assoc in E3. apply app_inj_tail in E3 as [_ <-]. apply Forall_app in Hpost as [Hk _]. apply Forall_app in Hk as [_ Hk].
  apply Forall_cons in Hk as [Hk _]. by rewrite (Hl x eq_refl) in Hk.
Qed.

Lemma drop_while_fmap {A B} (g : A → B) (f : B → bool) l : drop_while f (g <$> l) = g <$> drop_while (λ a, f (g a)) l.
Proof. induction l as [|a l IH]; [done|]. rewrite fmap_cons. cbn [drop_while]. rewrite IH. by destruct (f (g a)). Qed.

Lemma runes_TrimSpace s : runes (TrimSpace s) = trim_both IsSpace (runes s).
Proof.
  unfold runes. rewrite chunks_TrimSpace. unfold trim_both. by rewrite drop_while_fmap, <- fmap_reverse, drop_while_fmap, fmap_reverse.
Qed.

Lemma encode_app a b : encode (a ++ b) = encode a +:+ encode b.
Proof. induction a as [|r a IH]; [done|]. cbn [app]. by rewrite !encode_cons, IH, string_app_assoc. Qed.

Section names.
Context `{UnicodeLaws} `{!SearchLib}.

Lemma Normalize_encode s : Normalize s = encode (normal false false (runes s)) ∧ Forall scalar (normal false false (runes s)).
Proof.
  split; [unfold Normalize; by rewrite normal_loop_spec|]. apply normal_scalar. unfold runes. apply Forall_fmap. apply chunks_scalar.
Qed.

Lemma runes_SearchText name : runes (SearchText name) = trim_both IsSpace (runes (Normalize (ar name)) ++ 32 :: runes (Normalize (en name))).
Proof.
  unfold SearchText. rewrite runes_TrimSpace, !runes_Normalize. f_equal. destruct (Normalize_encode (ar name)) as [-> Ha], (Normalize_encode (en name)) as [-> He].
  change " " with (encode [32]). rewrite <- !encode_app. apply runes_encode. apply Forall_app. split; [done|]. apply Forall_cons. split; [unfold scalar; lia|done].
Qed.

(** Normal text neither starts nor ends with a space. *)
Lemma normal_ends s r : head (runes (Normalize s)) = Some r ∨ last (runes (Normalize s)) = Some r → IsSpace r = false.
Proof.
  intros Hr. assert (Hw : word_char r).
  { rewrite runes_Normalize in Hr. destruct Hr as [Hr|Hr].
    - rewrite head_lookup in Hr. apply normal_tidy in Hr as [[? _]|(_ & _ & Hf)]; done.
    - rewrite last_lookup in Hr. pose proof Hr as Hlt%lookup_lt_Some. apply normal_tidy in Hr as [[? _]|(_ & (b & Hb & _) & _)]; [done|].
      apply lookup_lt_Some in Hb. lia. }
  destruct (IsSpace r) eqn:E; [|done]. destruct (space_not_word r E) as (_ & E1 & E2). destruct Hw as [_ Hw]. by rewrite E1, E2 in Hw.
Qed.

(** A name search is a substring search. The query's normal form matches a
    branch when it is part of the branch's search text, or close to it as
    PostgreSQL measures; %, _ and \ in it stand for themselves. Part of a
    branch's Arabic or English name, however it is spelled, finds it. *)
Theorem name_search q n name r :
  ParseQuery q = Ok n → lr_SearchText r = SearchText name →
  (matches n r = true ↔ infix (runes n) (runes (SearchText name)) ∨ close_match n (SearchText name) = true) ∧
  (infix (runes n) (runes (Normalize (ar name))) ∨ infix (runes n) (runes (Normalize (en name))) → matches n r = true).
Proof.
  intros Hq Hr. unfold ParseQuery in Hq. destruct (_ <? _) eqn:El; [done|]. injection Hq as <-.
  destruct (Normalize_encode q) as [En Hn]. assert (Hm : matches (Normalize q) r = true ↔ infix (runes (Normalize q)) (runes (SearchText name)) ∨ close_match (Normalize q) (SearchText name) = true).
  { unfold matches. rewrite Hr, orb_true_iff, runes_Normalize. rewrite En at 1. by rewrite contains_like_infix. }
  split; [exact Hm|]. intros Hin. apply Hm. left. rewrite runes_SearchText. apply infix_trim.
  - destruct Hin as [(a & b & ->)|(a & b & ->)]; [exists a, (b ++ 32 :: runes (Normalize (en name)))|exists (runes (Normalize (ar name)) ++ 32 :: a), b];
      by rewrite <- ?app_assoc.
  - intros x Hx. apply (normal_ends q). by left.
  - intros x Hx. apply (normal_ends q). by right.
  - intros E. bool_prop. unfold RuneCountInString, MinQueryLen, runes in *. apply (f_equal length) in E. rewrite length_fmap in E. cbn in E. lia.
Qed.
End names.

Section demo.
Import Discovery.Demo.
#[local] Existing Instance flat_ranks.

Definition salon : LocalizedText := MkLocalized "صَالُون الأناقة" "100% Style_Salon".
Definition salon_row : ListingRow :=
  MkListingRow (MkID 2) (MkID 1) 1 true (ar salon) (en salon) "riyadh" "" "" (float_of 24) (float_of 46) "" "Asia/Riyadh" 0 (SearchText salon).

Lemma name_search_witness :
  ParseQuery "الأنَاقة" = Ok "الاناقه" ∧ matches "الاناقه" salon_row = true ∧ matches "style_" salon_row = false.
Proof.
  assert (Hq : ParseQuery "الأنَاقة" = Ok "الاناقه") by (vm_compute; reflexivity). split; [exact Hq|]. split; [|vm_compute; reflexivity].
  destruct (name_search "الأنَاقة" "الاناقه" salon salon_row Hq eq_refl) as [_ Hin]. apply Hin. left. exists (runes "صالون "), []. vm_compute. reflexivity.
Defined.
End demo.
