(* ===== verification/DiscFlow.v ===== *)
(** * Discovery's copies over time

    Copies converge: whatever order events arrive in and however often, the
    tables keep the newest of each, and every row reads back. *)
From Stdlib Require Import SpecFloat.
From S2P Require Import Prelude GoTime GoText Shared Tables BizBase Discovery DiscStore DiscApp.
Open Scope Z_scope.

(** ** The newest copy of each key *)

Section newest.
Context {K V : Type} `{Countable K} (key : V → K) (version : V → Z).
Implicit Types (rows : list V) (t : gmap K V).

Definition keep_all t rows : gmap K V := foldl (λ t r, (keep_row version t (key r) r).2) t rows.

(** [r] is the newest of [rows] with key [k]. *)
Definition newest rows (k : K) (r : V) : Prop := r ∈ rows ∧ key r = k ∧ ∀ r', r' ∈ rows → key r' = k → version r' ≤ version r.

(** One copy per version. *)
Definition one_per_version rows : Prop := ∀ r r', r ∈ rows → r' ∈ rows → key r = key r' → version r = version r' → r = r'.

Lemma newest_unique rows k r r' : one_per_version rows → newest rows k r → newest rows k r' → r = r'.
Proof.
  intros Hone (Hin & Hk & Hle) (Hin' & Hk' & Hle'). apply Hone; [done|done|congruence|].
  pose proof (Hle r' Hin' Hk'). pose proof (Hle' r Hin Hk). lia.
Qed.

Lemma newest_app rows x k r : newest rows k r → (key x = k → version x ≤ version r) → newest (rows ++ [x]) k r.
Proof.
  intros (Hin & Hk & Hle) Hx. split_and!; [apply elem_of_app; by left|done|].
  intros r' [Hr'| ->%list_elem_of_singleton]%elem_of_app Hk'; [by apply Hle|by apply Hx].
Qed.

(** What is kept is the newest, and nothing only of no rows. *)
Lemma keep_all_spec rows k : match keep_all ∅ rows !! k with Some r => newest rows k r | None => ∀ r, r ∈ rows → key r ≠ k end.
Proof.
  induction rows as [|x rows IH] using rev_ind; [cbn; rewrite lookup_empty; by intros ? ?%not_elem_of_nil|].
  unfold keep_all in *. rewrite foldl_app. cbn [foldl]. set (t := foldl _ _ rows) in *. unfold keep_row.
  assert (Hx : (∀ r, r ∈ rows → key r = key x → version r ≤ version x) → newest (rows ++ [x]) (key x) x).
  { intros Hmax. split_and!; [apply elem_of_app; right; by left|done|]. intros r' [?| ->%list_elem_of_singleton]%elem_of_app ?; [by apply Hmax|lia]. }
  assert (Hother : k ≠ key x → match t !! k with Some r => newest (rows ++ [x]) k r | None => ∀ r, r ∈ rows ++ [x] → key r ≠ k end).
  { intros Hne. destruct (t !! k); [by apply newest_app|]. intros r [?| ->%list_elem_of_singleton]%elem_of_app; [by apply IH|done]. }
  destruct (decide (k = key x)) as [->|Hne].
  - destruct (t !! key x) as [old|] eqn:Eold.
    + destruct (Z.ltb_spec (version old) (version x)); cbn [snd]; rewrite ?lookup_insert_eq, ?Eold; [|by apply newest_app].
      apply Hx. intros r Hr Hk. destruct IH as (_ & _ & Hle). specialize (Hle r Hr Hk). lia.
    + cbn [snd]. rewrite lookup_insert_eq. apply Hx. intros r Hr Hk. by destruct (IH r Hr).
  - destruct (t !! key x) as [old|]; [destruct (_ <? _)|]; cbn [snd]; rewrite ?lookup_insert_ne by done; by apply Hother.
Qed.

Lemma keep_all_newest rows k r : one_per_version rows → keep_all ∅ rows !! k = Some r ↔ newest rows k r.
Proof.
  intros Hone. pose proof (keep_all_spec rows k) as Hk. destruct (keep_all ∅ rows !! k) as [m|]; (split; [intros E|intros Hr]).
  - by injection E as <-.
  - f_equal. by eapply newest_unique.
  - done.
  - destruct Hr as (Hin & Hkey & _). by destruct (Hk r).
Qed.

Lemma newest_same rows rows' k r : (∀ x, x ∈ rows ↔ x ∈ rows') → newest rows k r ↔ newest rows' k r.
Proof. intros Hs. unfold newest. setoid_rewrite Hs. done. Qed.

Lemma keep_all_converge rows rows' : one_per_version rows → (∀ x, x ∈ rows ↔ x ∈ rows') → keep_all ∅ rows = keep_all ∅ rows'.
Proof.
  intros Hone Hs. assert (Hone' : one_per_version rows') by (intros a b Ha%Hs Hb%Hs; by apply Hone).
  apply map_eq. intros k. apply option_eq. intros r. rewrite !keep_all_newest by done. by apply newest_same.
Qed.
End newest.

(** ** Deliveries *)

Inductive disc_event := EvBranch (b : BranchEvent) | EvService (s : ServiceEvent) | EvHours (h : HoursEvent).

Section deliveries.
Context `{UnicodeLib}.
Implicit Types (db : DiscDB) (e : disc_event) (es : list disc_event).

Definition keep_event db e : res disc_error DiscDB :=
  match e with EvBranch b => KeepBranch db b | EvService s => KeepService db s | EvHours h => KeepHours db h end.

(** One that fails changes nothing; it is delivered again later. *)
Definition deliver db e : DiscDB := match keep_event db e with Ok db' => db' | Err _ => db end.
Definition deliver_all db es : DiscDB := foldl deliver db es.

(** The row an event asks for, or why it is refused. *)
Definition branch_row (b : BranchEvent) : res disc_error ListingRow :=
  let! city := res_map_err (λ _, ErrUnknownCity) (ParseCity (be_City b)) in
  let! version := toInt32 (be_Version b) in
  let row := MkListingRow (be_BranchID b) (be_BusinessID b) version (be_Published b) (ar (be_Name b)) (en (be_Name b)) (city_code city) (be_District b)
               (be_Address b) (lat (be_Location b)) (lng (be_Location b)) (be_Phone b) (be_Timezone b) (stored_time (be_At b)) (SearchText (be_Name b)) in
  check! listing_checks row else ErrStorage in Ok row.

Definition menu_row (s : ServiceEvent) : res disc_error ServiceRow :=
  let! category := res_map_err (λ _, ErrUnknownCategory) (ParseCategory (se_Category s)) in
  check! bool_decide (currency (se_PriceFrom s) = SAR) else ErrNotSAR in
  let! version := toInt32 (se_Version s) in
  let! minutes := toInt32 (Z.quot (se_Duration s) Minute) in
  let! sort := toInt32 (se_SortOrder s) in
  let row := MkServiceRow (se_ServiceID s) (se_BranchID s) (se_BusinessID s) version (se_Offered s) (cat_code category) (amount (se_PriceFrom s))
               (stored_time (se_At s)) (ar (se_Name s)) (en (se_Name s)) minutes sort in
  check! service_checks row else ErrStorage in Ok row.

Definition week_row (h : HoursEvent) : res disc_error HoursRow :=
  check! negb (existsb bad_hours (he_Open h)) else ErrBadHours in
  let! version := toInt32 (he_Version h) in
  let row := MkHoursRow (he_BranchID h) (he_BusinessID h) version (he_Open h) (stored_time (he_At h)) (he_Open h) in
  check! hours_checks row else ErrStorage in Ok row.

Definition put_listing db row := MkDiscDB (keep_row lr_Version (branch_listings db) (lr_BranchID row) row).2 (branch_services db) (branch_hours db).
Definition put_service db row := MkDiscDB (branch_listings db) (keep_row sr_Version (branch_services db) (sr_ServiceID row) row).2 (branch_hours db).
Definition put_hours db row := MkDiscDB (branch_listings db) (branch_services db) (keep_row hr_Version (branch_hours db) (hr_BranchID row) row).2.

Lemma KeepBranch_row db b : KeepBranch db b = let! row := branch_row b in Ok (put_listing db row).
Proof.
  unfold KeepBranch, branch_row, Keep, Listings_Keep, KeepListing_stmt, put_listing, listing_row. cbn [l_Version l_Branch].
  destruct (res_map_err _ (ParseCity _)) as [city|]; [|done]. cbn [res_bind l_Version]. destruct (toInt32 _) as [v|]; [|done]. cbn [res_bind].
  unfold listing_row. cbn [l_Version l_Branch l_Business l_Listed l_Name l_City l_District l_Address l_Location l_Phone l_Timezone l_UpdatedAt].
  destruct (listing_checks _); [|done]. cbn [ensure res_bind lr_BranchID]. by destruct (keep_row _ _ _ _).
Qed.

Lemma KeepService_row db s : KeepService db s = let! row := menu_row s in Ok (put_service db row).
Proof.
  unfold KeepService, menu_row, KeepService_handler, Listings_KeepService, KeepService_stmt, put_service.
  destruct (res_map_err _ (ParseCategory _)) as [c|]; [|done]. cbn [res_bind sv_PriceFrom sv_Version sv_Duration sv_SortOrder].
  destruct (bool_decide (currency _ = SAR)); [|done]. cbn [ensure res_bind].
  destruct (toInt32 (se_Version s)) as [v|]; [|done]. cbn [res_bind]. destruct (toInt32 (Z.quot _ _)) as [m|]; [|done]. cbn [res_bind].
  destruct (toInt32 (se_SortOrder s)) as [o|]; [|done]. cbn [res_bind]. unfold service_row.
  cbn [sv_Service sv_Branch sv_Business sv_Offered sv_Category sv_Name sv_PriceFrom sv_UpdatedAt].
  destruct (service_checks _); [|done]. cbn [ensure res_bind sr_ServiceID]. by destruct (keep_row _ _ _ _).
Qed.

Lemma KeepHours_row db h : KeepHours db h = let! row := week_row h in Ok (put_hours db row).
Proof.
  unfold KeepHours, week_row, KeepHours_handler, Listings_KeepHours, KeepHours_stmt, put_hours. cbn [h_Open h_Version h_Branch h_Business h_UpdatedAt].
  destruct (negb _); [|done]. cbn [ensure res_bind]. destruct (toInt32 _) as [v|]; [|done]. cbn [res_bind].
  destruct (hours_checks _); [|done]. cbn [ensure res_bind hr_BranchID]. by destruct (keep_row _ _ _ _).
Qed.

Definition ok_part {E A} (r : res E A) : option A := match r with Ok a => Some a | Err _ => None end.
Definition listing_of e : option ListingRow := match e with EvBranch b => ok_part (branch_row b) | _ => None end.
Definition service_of e : option ServiceRow := match e with EvService s => ok_part (menu_row s) | _ => None end.
Definition hours_of e : option HoursRow := match e with EvHours h => ok_part (week_row h) | _ => None end.

Lemma deliver_all_tables db es :
  deliver_all db es = MkDiscDB (keep_all lr_BranchID lr_Version (branch_listings db) (omap listing_of es))
                        (keep_all sr_ServiceID sr_Version (branch_services db) (omap service_of es))
                        (keep_all hr_BranchID hr_Version (branch_hours db) (omap hours_of es)).
Proof.
  revert db. induction es as [|e es IH]; intros db; [by destruct db|]. cbn [deliver_all foldl]. fold (deliver_all (deliver db e) es). rewrite IH.
  unfold deliver. destruct e as [b|s|h]; cbn [keep_event omap list_omap listing_of service_of hours_of];
    rewrite ?KeepBranch_row, ?KeepService_row, ?KeepHours_row.
  - by destruct (branch_row b).
  - by destruct (menu_row s).
  - by destruct (week_row h).
Qed.

(** Two accepted events of one copy and version ask for the same. *)
Definition one_copy_each es : Prop :=
  one_per_version lr_BranchID lr_Version (omap listing_of es) ∧ one_per_version sr_ServiceID sr_Version (omap service_of es) ∧
  one_per_version hr_BranchID hr_Version (omap hours_of es).

Lemma omap_same {A B} (f : A → option B) (l l' : list A) : (∀ x, x ∈ l ↔ x ∈ l') → ∀ y, y ∈ omap f l ↔ y ∈ omap f l'.
Proof. intros Hs y. rewrite !list_elem_of_omap. by setoid_rewrite Hs. Qed.

(** C25. Discovery's copies converge. The event stream repeats events and
    delivers them in any order; whatever it does, as long as versions are
    never reused the tables end up the same, and they are the reference: of
    every branch, service and week exactly the newest copy among the accepted
    events. Whether an event is refused does not depend on what is stored. *)
Theorem copies_converge es es' :
  one_copy_each es → (∀ e, e ∈ es ↔ e ∈ es') →
  deliver_all empty_disc_db es = deliver_all empty_disc_db es' ∧
  (∀ id r, branch_listings (deliver_all empty_disc_db es) !! id = Some r ↔ newest lr_BranchID lr_Version (omap listing_of es) id r) ∧
  (∀ id r, branch_services (deliver_all empty_disc_db es) !! id = Some r ↔ newest sr_ServiceID sr_Version (omap service_of es) id r) ∧
  (∀ id r, branch_hours (deliver_all empty_disc_db es) !! id = Some r ↔ newest hr_BranchID hr_Version (omap hours_of es) id r) ∧
  ∀ db db' e, is_ok (keep_event db e) = is_ok (keep_event db' e).
Proof.
  intros (H1 & H2 & H3) Hs. rewrite !deliver_all_tables. cbn [empty_disc_db branch_listings branch_services branch_hours]. split_and!.
  - f_equal; (apply keep_all_converge; [done|by apply omap_same]).
  - intros id r. by apply keep_all_newest.
  - intros id r. by apply keep_all_newest.
  - intros id r. by apply keep_all_newest.
  - intros db db' [b|s|h]; cbn [keep_event]; rewrite ?KeepBranch_row, ?KeepService_row, ?KeepHours_row;
      [by destruct (branch_row b)|by destruct (menu_row s)|by destruct (week_row h)].
Qed.
End deliveries.
