(* ===== verification/DiscPages.v ===== *)
(** * Following a search to its end

    Pages are kept apart by position, not by offset: the next page starts
    after the last branch shown. Following them to the end shows every branch
    the search finds, once, best first. *)
From Stdlib Require Import SpecFloat.
From S2P Require Import Prelude GoTime GoText Shared Tables BizBase Discovery DiscStore DiscApp DiscFlow.
Open Scope Z_scope.

(** ** Reading the copies *)

(** What every event of business, catalog and scheduling carries: names as
    their constructor makes them, a place on Earth, a zone that exists. *)
Definition event_ok `{TzLib} (e : disc_event) : Prop :=
  match e with
  | EvBranch b => NewLocalizedText (ar (be_Name b)) (en (be_Name b)) = Ok (be_Name b) ∧
                  NewGeoPoint (lat (be_Location b)) (lng (be_Location b)) = Ok (be_Location b) ∧ is_Some (LoadLocation (be_Timezone b))
  | EvService s => NewLocalizedText (ar (se_Name s)) (en (se_Name s)) = Ok (se_Name s)
  | EvHours _ => True
  end.

Record listing_ok `{TzLib} (r : ListingRow) : Prop := {
  lo_reads : ∃ l, toListing r = Ok l ∧ ar (l_Name l) = lr_NameAr r ∧ l_Branch l = lr_BranchID r;
  lo_zone : is_Some (LoadLocation (lr_Timezone r)) }.

Definition menu_ok (r : ServiceRow) : Prop := is_ok (toMenuItem r) = true ∧ 0 ≤ sr_PriceFrom r.

(** The tables, each row under its key and readable. *)
Record disc_ok `{TzLib} (db : DiscDB) : Prop := {
  dk_listing id r : branch_listings db !! id = Some r → lr_BranchID r = id ∧ listing_ok r;
  dk_service id r : branch_services db !! id = Some r → sr_ServiceID r = id ∧ menu_ok r;
  dk_hours id r : branch_hours db !! id = Some r → hr_BranchID r = id }.

Lemma ParseCity_code code c : ParseCity code = Ok c → ParseCity (city_code c) = Ok c ∧ city_code c = code.
Proof.
  unfold ParseCity. destruct (find_first _ cities) as [x|] eqn:E; [|done]. intros [= ->]. apply find_first_some in E as E2. destruct E2 as [_ Hc].
  apply bool_decide_eq_true in Hc. by rewrite Hc, E.
Qed.

Lemma ParseCategory_code code c : ParseCategory code = Ok c → ParseCategory (cat_code c) = Ok c ∧ cat_code c = code.
Proof.
  unfold ParseCategory. destruct (find_first _ categories) as [x|] eqn:E; [|done]. intros [= ->]. apply find_first_some in E as E2. destruct E2 as [_ Hc].
  apply bool_decide_eq_true in Hc. by rewrite Hc, E.
Qed.

Lemma disc_int32_ok n v : toInt32 n = Ok v ↔ v = n ∧ -2147483648 ≤ n ≤ max_int32.
Proof. unfold toInt32, max_int32. destruct (Z.ltb_spec n (-2147483648)), (Z.ltb_spec 2147483647 n); cbn [orb]; (split; [intros E|intros [-> ?]]); try done; try lia; try (injection E as <-; lia). Qed.

Lemma listing_of_ok `{UnicodeLib} `{TzLib} e r : event_ok e → listing_of e = Some r → listing_ok r.
Proof.
  destruct e as [b| |]; [|done..]. cbn. intros (Hn & Hg & Hz) Hr. destruct (branch_row b) as [row|] eqn:Er; [|done]. injection Hr as ->.
  unfold branch_row in Er. destruct (ParseCity (be_City b)) as [c|] eqn:Ec; [|done]. cbn [res_map_err res_bind] in Er.
  apply res_bind_ok in Er as (v & Hv & Er). apply res_bind_ok in Er as ([] & _ & [= <-]). apply ParseCity_code in Ec as [Ec _].
  constructor; [|done]. unfold toListing. cbn [lr_NameAr lr_NameEn lr_CityCode lr_Latitude lr_Longitude]. rewrite Hn, Ec, Hg.
  cbn [res_map_err res_bind]. by eexists.
Qed.

Lemma service_of_ok `{UnicodeLib} `{TzLib} e r : event_ok e → service_of e = Some r → menu_ok r.
Proof.
  destruct e as [|s|]; [done| |done]. cbn. intros Hn Hr. destruct (menu_row s) as [row|] eqn:Er; [|done]. injection Hr as ->.
  unfold menu_row in Er. destruct (ParseCategory (se_Category s)) as [c|] eqn:Ec; [|done]. cbn [res_map_err res_bind] in Er.
  apply res_bind_ok in Er as ([] & _ & Er). apply res_bind_ok in Er as (v & Hv & Er). apply res_bind_ok in Er as (m & Hm & Er).
  apply res_bind_ok in Er as (o & Ho & Er). apply res_bind_ok in Er as ([] & Hc & [= <-]). apply ParseCategory_code in Ec as [Ec _].
  apply ensure_ok in Hc. unfold service_checks in Hc. cbn in Hc. bool_prop. split; [|done]. unfold toMenuItem.
  cbn [sr_CategoryCode sr_NameAr sr_NameEn]. by rewrite Ec, Hn.
Qed.

(** Every table the events build reads back. *)
Lemma deliver_all_ok `{UnicodeLib} `{TzLib} es : Forall event_ok es → disc_ok (deliver_all empty_disc_db es).
Proof.
  intros Hes. rewrite Forall_forall in Hes. rewrite deliver_all_tables. cbn [empty_disc_db branch_listings branch_services branch_hours].
  constructor; cbn [branch_listings branch_services branch_hours]; intros id r Hr.
  - pose proof (keep_all_spec lr_BranchID lr_Version (omap listing_of es) id) as Hk. rewrite Hr in Hk. destruct Hk as (Hin & Hk & _).
    split; [done|]. apply list_elem_of_omap in Hin as (e & He & Hr'). by apply (listing_of_ok e r); [apply Hes|].
  - pose proof (keep_all_spec sr_ServiceID sr_Version (omap service_of es) id) as Hk. rewrite Hr in Hk. destruct Hk as (Hin & Hk & _).
    split; [done|]. apply list_elem_of_omap in Hin as (e & He & Hr'). by apply (service_of_ok e r); [apply Hes|].
  - pose proof (keep_all_spec hr_BranchID hr_Version (omap hours_of es) id) as Hk. rewrite Hr in Hk. by destruct Hk as (_ & Hk & _).
Qed.

(** ** What a search finds *)

Section search.
Context `{UnicodeLib} `{TzLib} `{!SearchLib} (db : DiscDB) (now : time) (s : Search).

(** Why a search cannot be answered, the first reason. *)
Definition search_refusal : option disc_error :=
  if negb (bool_decide (s_Text s = "")) && (RuneCountInString (Normalize (s_Text s)) <? MinQueryLen) then Some ErrQueryTooShort
  else match s_Near s with
  | Some near => if bad_radius (n_RadiusM near) then Some ErrRadius else None
  | None => if bool_decide (s_Text s = "") && negb (present (s_City s)) then Some ErrNoPlace else None
  end.

Definition text : string := if bool_decide (s_Text s = "") then "" else Normalize (s_Text s).

Definition is_open (r : ListingRow) : bool :=
  match branch_hours db !! lr_BranchID r, LoadLocation (lr_Timezone r) with
  | Some h, Some loc => open_at (hr_Open h) now loc
  | _, _ => false
  end.

(** Listed, selling something of the category, in the city, near the point,
    of that name, and open if asked. *)
Definition finds (r : ListingRow) : bool :=
  shown db (categoryCode (s_Category s)) r && in_city (s_City s) r
  && match s_Near s with Some near => within (place r) (n_Point near) (n_RadiusM near) | None => true end
  && (bool_decide (s_Text s = "") || matches text r) && (negb (s_OpenNow s) || is_open r).

(** Nearest first, or the best match first, or by name. *)
Definition better_first (a b : ListingRow) : bool :=
  match s_Near s with
  | Some near => by_rank (λ r, distance (place r) (n_Point near)) nearest a b
  | None => if bool_decide (s_Text s = "") then by_name a b else by_rank (λ r, word_similarity text (lr_SearchText r)) best a b
  end.

Definition prices_of (r : ListingRow) : list Z := sr_PriceFrom <$> offered db (lr_BranchID r) (categoryCode (s_Category s)).

(** A branch as a search shows it: its copy, the least price, whether it is
    open, how far or how good a match. *)
Record shows (r : ListingRow) (x : Found) : Prop := {
  sh_listing : toListing r = Ok (fd_Listing x);
  sh_price : ∃ p, fd_PriceFrom x = Halalas p ∧ p ∈ prices_of r ∧ ∀ q, q ∈ prices_of r → p ≤ q;
  sh_open : fd_OpenNow x = is_open r;
  sh_distance near : s_Near s = Some near → fd_DistanceM x = distance (place r) (n_Point near);
  sh_score : s_Near s = None → s_Text s ≠ "" → fd_Score x = word_similarity text (lr_SearchText r) }.

(** Following the pages; [None] of an error, or of more pages than [fuel]. *)
Fixpoint pages (fuel : nat) (after : option Position) : option (list (list Found)) :=
  match fuel with
  | O => None
  | S fuel =>
      match Search_handler db now s after with
      | Err _ => None
      | Ok page => match rp_Next page with
                   | None => Some [rp_Found page]
                   | Some _ => cons (rp_Found page) <$> pages fuel (rp_Next page)
                   end
      end
  end.
End search.

Section paging.
Context `{UnicodeLib} `{TzLib} `{!SearchLib} (db : DiscDB) (now : time) (s : Search) (Hdb : disc_ok db).
Implicit Types (r : ListingRow) (x : Found).

Lemma min_price_spec l : match min_price l with
  | None => l = []
  | Some p => p ∈ sr_PriceFrom <$> l ∧ ∀ q, q ∈ sr_PriceFrom <$> l → p ≤ q
  end.
Proof.
  induction l as [|v l IH]; [done|]. cbn [min_price foldr]. fold (min_price l). rewrite fmap_cons. destruct (min_price l) as [p|].
  - destruct IH as [Hin Hle]. split.
    + destruct (Z.min_spec (sr_PriceFrom v) p) as [[_ ->]|[_ ->]]; [by left|by right].
    + intros q [->|Hq]%elem_of_cons; [lia|]. specialize (Hle q Hq). lia.
  - subst l. split; [by left|]. by intros q ->%list_elem_of_singleton.
Qed.

Definition filter_of : Filter := MkFilter (s_City s) (text s) (s_Category s) (s_OpenNow s) now.
Definition found_of r : FoundRow :=
  MkFoundRow r (default 0 (min_price (offered db (lr_BranchID r) (categoryCode (s_Category s))))) (is_open db now r).

Lemma found_row_ok r : listing_ok r → found_row db filter_of r = Ok (found_of r).
Proof.
  intros [_ [loc Hloc]]. unfold found_row, open_now, found_of, is_open. cbn. rewrite Hloc. by destruct (branch_hours db !! _).
Qed.

Lemma row_ok p r : r ∈ rows_where p (branch_listings db) → listing_ok r ∧ p r = true.
Proof. intros (k & Hk & Hp)%elem_of_rows_where. split; [by apply (dk_listing db Hdb k)|done]. Qed.

(** ** Orders *)

Definition total_order (le : ListingRow → ListingRow → bool) : Prop :=
  (∀ a b, le a b = false → le b a = true) ∧ (∀ a b c, le a b = true → le b c = true → le a c = true) ∧
  (∀ a b, le a b = true → le b a = true → lr_BranchID a = lr_BranchID b).

Lemma uuid_le_iff (a b : BranchID) : uuid_le a b = true ↔ (value a ≤ value b)%N.
Proof. apply N.leb_le. Qed.

Lemma by_name_order : total_order by_name.
Proof.
  unfold by_name, total_order. split_and!.
  - intros a b. repeat case_bool_decide; try congruence; [|apply string_leb_total]. unfold uuid_le. rewrite N.leb_gt, N.leb_le. lia.
  - intros a b c. repeat case_bool_decide; rewrite ?uuid_le_iff; try congruence; try lia; try (eapply string_leb_trans).
    intros L1 L2. pose proof (string_leb_trans _ _ _ L1 L2). assert (E : lr_NameAr b = lr_NameAr a) by (apply String.leb_antisym; congruence). congruence.
  - intros a b. repeat case_bool_decide; try congruence.
    + rewrite !uuid_le_iff. intros. destruct (lr_BranchID a), (lr_BranchID b); cbn in *. f_equal. lia.
    + intros L1 L2. by pose proof (String.leb_antisym _ _ L1 L2).
Qed.

Lemma by_rank_order rank (le : Rank → Rank → bool) :
  (∀ a b, le a b = false → le b a = true) → (∀ a b c, le a b = true → le b c = true → le a c = true) → total_order (by_rank rank le).
Proof.
  intros Ht Htr. unfold by_rank, total_order.
  assert (Hneg : ∀ a b, negb (le a b) = true → le b a = true) by (intros a b E; apply Ht; by destruct (le a b)).
  split_and!.
  - intros a b. destruct (le (rank a) (rank b)) eqn:E1, (le (rank b) (rank a)) eqn:E2; cbn; try done. unfold uuid_le. rewrite N.leb_gt, N.leb_le. lia.
  - intros a b c. destruct (le (rank a) (rank b)) eqn:E1, (le (rank b) (rank a)) eqn:E2, (le (rank b) (rank c)) eqn:E3, (le (rank c) (rank b)) eqn:E4;
      cbn; try done; try (rewrite (Ht _ _ E1) in E2; done); try (rewrite (Ht _ _ E3) in E4; done); rewrite ?uuid_le_iff.
    + rewrite (Htr _ _ _ E1 E3), (Htr _ _ _ E4 E2). cbn. rewrite uuid_le_iff. lia.
    + destruct (le (rank c) (rank a)) eqn:E5; [|done]. by rewrite (Htr _ _ _ E5 E1) in E4.
    + destruct (le (rank c) (rank a)) eqn:E5; [|done]. by rewrite (Htr _ _ _ E3 E5) in E2.
    + destruct (le (rank c) (rank a)) eqn:E5; [|done]. by rewrite (Htr _ _ _ E5 E1) in E4.
  - intros a b. destruct (le (rank a) (rank b)) eqn:E1, (le (rank b) (rank a)) eqn:E2; cbn; try done; [|by rewrite (Ht _ _ E1) in E2].
    rewrite !uuid_le_iff. intros. destruct (lr_BranchID a), (lr_BranchID b); cbn in *. f_equal. lia.
Qed.

Lemma better_first_order : total_order (better_first s).
Proof.
  unfold better_first. destruct (s_Near s) as [near|]; [|case_bool_decide; [apply by_name_order|]].
  - by apply (by_rank_order (λ r, distance (place r) (n_Point near))); unfold nearest; [apply rank_total|apply rank_trans].
  - apply (by_rank_order (λ r, word_similarity (text s) (lr_SearchText r))); unfold best; [intros a b; apply rank_total|]. intros a b c E1 E2. by eapply rank_trans.
Qed.

Lemma branch_ids_once p : NoDup (lr_BranchID <$> rows_where p (branch_listings db)).
Proof. apply (rows_where_NoDup lr_BranchID (λ k, k)); [done|]. intros k r Hr. by apply (dk_listing db Hdb). Qed.

Lemma sort_where le p q :
  total_order le →
  sort_by le (rows_where (λ r, p r && q r) (branch_listings db)) = filter (λ r, q r = true) (sort_by le (rows_where p (branch_listings db))).
Proof.
  intros (Ht & Htr & Hid). apply (strict_unique le Ht).
  - eapply sort_strict; [done..|apply branch_ids_once].
  - apply strict_filter. eapply sort_strict; [done..|apply branch_ids_once].
  - rewrite !sort_by_perm. unfold rows_where. by rewrite filter_filter.
Qed.

Lemma query_spec le base aft limit :
  total_order le →
  query db filter_of (λ r, base r && aft r) le limit =
    Ok (take limit (found_of <$> filter (λ r, aft r = true)
       (sort_by le (rows_where (λ r, shown db (categoryCode (s_Category s)) r && base r && (negb (s_OpenNow s) || is_open db now r)) (branch_listings db))))).
Proof.
  intros Hle. unfold query. rewrite (res_mapM_pure _ found_of).
  2: { intros r. rewrite elem_of_sort_by. intros [Hr _]%row_ok. by apply found_row_ok. }
  cbn [res_bind]. rewrite List_filter_fmap. cbn [f_OpenNow filter_of found_of fr_OpenNow f_Category]. do 3 f_equal.
  rewrite (sort_where le (shown db (categoryCode (s_Category s))) (λ r, base r && aft r)) by done.
  rewrite (sort_where le (λ r, shown db (categoryCode (s_Category s)) r && base r)) by done.
  rewrite (sort_where le (shown db (categoryCode (s_Category s))) base) by done.
  rewrite !filter_filter. apply list_filter_iff. intros r. rewrite !andb_true_iff. tauto.
Qed.

(** ** One page *)

(** Everything the search finds, best first. *)
Definition results : list ListingRow := sort_by (better_first s) (rows_where (finds db now s) (branch_listings db)).

Definition after_pos (after : option Position) (r : ListingRow) : bool :=
  match s_Near s with
  | Some near => after_rank (λ r, distance (place r) (n_Point near)) nearest ((λ p, (p_DistanceM p, p_Branch p)) <$> after) r
  | None => if bool_decide (s_Text s = "") then after_name after r
            else after_rank (λ r, word_similarity (text s) (lr_SearchText r)) best ((λ p, (p_Score p, p_Branch p)) <$> after) r
  end.

Lemma query_results base after limit :
  (∀ r, finds db now s r = shown db (categoryCode (s_Category s)) r && base r && (negb (s_OpenNow s) || is_open db now r)) →
  query db filter_of (λ r, base r && after_pos after r) (better_first s) limit =
    Ok (take limit (found_of <$> filter (λ r, after_pos after r = true) results)).
Proof.
  intros Hbase. rewrite query_spec by apply better_first_order. do 3 f_equal. unfold results. f_equal. f_equal. unfold rows_where.
  apply list_filter_iff. intros r. by rewrite Hbase.
Qed.

Lemma results_rows r : r ∈ results ↔ branch_listings db !! lr_BranchID r = Some r ∧ finds db now s r = true.
Proof.
  unfold results. rewrite elem_of_sort_by, elem_of_rows_where. split; [|by intros [? ?]; exists (lr_BranchID r)].
  intros (k & Hk & Hr). destruct (dk_listing db Hdb k r Hk) as [-> _]. done.
Qed.

Lemma results_ok r : r ∈ results → listing_ok r ∧ shown db (categoryCode (s_Category s)) r = true.
Proof.
  intros [Hk Hr]%results_rows. split; [by apply (dk_listing db Hdb (lr_BranchID r))|]. unfold finds in Hr. by destruct (shown _ _ _).
Qed.

Lemma results_strict : StronglySorted (strictly (better_first s)) results.
Proof. destruct better_first_order as (Ht & Htr & Hid). eapply sort_strict; [done..|apply branch_ids_once]. Qed.

Lemma toFound_shows dm sc r :
  listing_ok r → shown db (categoryCode (s_Category s)) r = true →
  (∀ near, s_Near s = Some near → dm r = distance (place r) (n_Point near)) →
  (s_Near s = None → s_Text s ≠ "" → sc r = word_similarity (text s) (lr_SearchText r)) →
  ∃ x, toFound dm sc (found_of r) = Ok x ∧ shows db now s r x.
Proof.
  intros [(l & Hl & _) _] Hshown Hd Hs. unfold toFound, found_of. cbn [fr_Listing fr_PriceFrom fr_OpenNow]. rewrite Hl. cbn [res_bind].
  eexists. split; [done|]. constructor; cbn; [done| |done|done|done].
  pose proof (min_price_spec (offered db (lr_BranchID r) (categoryCode (s_Category s)))) as Hp. destruct (min_price _) as [p|]; [by exists p|].
  unfold shown in Hshown. rewrite Hp in Hshown. by rewrite andb_false_r in Hshown.
Qed.

Lemma map_shows dm sc rows :
  (∀ r, r ∈ rows → r ∈ results) → (∀ r near, s_Near s = Some near → dm r = distance (place r) (n_Point near)) →
  (∀ r, s_Near s = None → s_Text s ≠ "" → sc r = word_similarity (text s) (lr_SearchText r)) →
  ∃ xs, res_mapM (toFound dm sc) (found_of <$> rows) = Ok xs ∧ Forall2 (shows db now s) rows xs.
Proof.
  intros Hin Hd Hs. induction rows as [|r rows IH]; [by exists []|].
  destruct (results_ok r) as [Hok Hsh]; [apply Hin; by left|]. destruct (toFound_shows dm sc r) as (x & Hx & Hshows); [done|done|by intros; apply Hd|by intros; apply Hs|].
  destruct IH as (xs & Hxs & Hall); [intros; apply Hin; by right|]. exists (x :: xs). rewrite fmap_cons. cbn [res_mapM]. rewrite Hx, Hxs. split; [done|by constructor].
Qed.

Lemma text_empty : search_refusal s = None → bool_decide (text s = "") = bool_decide (s_Text s = "").
Proof.
  unfold search_refusal, text. case_bool_decide as E; cbn [negb andb]; [by rewrite bool_decide_eq_true_2|]. destruct (_ <? _) eqn:El; [done|].
  intros _. apply bool_decide_eq_false_2. intros En. by rewrite En in El.
Qed.

(** A page: the next [PageSize + 1] results. *)
Lemma search_listings_spec after :
  search_refusal s = None →
  ∃ xs, search_listings db filter_of s after = Ok xs ∧ Forall2 (shows db now s) (take (PageSize + 1) (filter (λ r, after_pos after r = true) results)) xs.
Proof.
  intros Hs. assert (Hrows : ∀ r n, r ∈ take n (filter (λ r, after_pos after r = true) results) → r ∈ results).
  { intros r n Hr. eapply elem_of_sublist in Hr; [|apply sublist_take]. by apply list_elem_of_filter in Hr as [_ ?]. }
  assert (Hq : ∀ base, (∀ r, finds db now s r = shown db (categoryCode (s_Category s)) r && base r && (negb (s_OpenNow s) || is_open db now r)) →
     query db filter_of (λ r, base r && after_pos after r) (better_first s) (PageSize + 1) =
       Ok (found_of <$> take (PageSize + 1) (filter (λ r, after_pos after r = true) results))).
  { intros base Hb. rewrite query_results by done. by rewrite fmap_take. }
  unfold search_refusal in Hs. unfold search_listings, after_pos, finds, better_first in *. destruct (s_Near s) as [near|] eqn:En.
  - destruct (_ && _) eqn:E in Hs; [done|]. destruct (bad_radius _) eqn:Hr; [done|]. cbn [negb ensure res_bind]. unfold Listings_Near, ListingsNear.
    cbn [f_City f_Text filter_of].
    rewrite (Hq (λ r, within (place r) (n_Point near) (n_RadiusM near) && in_city (s_City s) r && (bool_decide (text s = "") || matches (text s) r))).
    + cbn [res_bind]. apply map_shows; [by intros r; apply Hrows|by rewrite En; intros ? ? [= <-]|by rewrite En].
    + intros r. rewrite text_empty by (unfold search_refusal; by rewrite E, En, Hr). by destruct (shown _ _ _), (in_city _ _), (within _ _ _).
  - destruct (_ && (_ <? _)) eqn:E in Hs; [done|]. assert (Ht : search_refusal s = None) by (unfold search_refusal; by rewrite E, En).
    apply text_empty in Ht. destruct (bool_decide (s_Text s = "")) eqn:Et; cbn [negb andb orb] in *.
    + destruct (s_City s) as [city|] eqn:Ec; [|done]. cbn [present ensure res_bind]. unfold InCity, ListingsInCity. cbn [f_City filter_of]. rewrite Ec.
      change by_name with (λ a b : ListingRow, by_name a b). rewrite (Hq (in_city (Some city))).
      * cbn [res_bind]. apply map_shows; [by intros r; apply Hrows|by rewrite En|by apply bool_decide_eq_true in Et].
      * intros r. by rewrite !andb_true_r.
    + unfold Matching, ListingsMatching. cbn [f_Text filter_of f_City]. rewrite (Hq (λ r, matches (text s) r && in_city (s_City s) r)).
      * cbn [res_bind]. apply map_shows; [by intros r; apply Hrows|by rewrite En|done].
      * intros r. cbn [orb]. by destruct (shown _ _ _), (in_city _ _), (matches _ _).
Qed.

(** The position a page ends at is the one its successor starts after. *)
Lemma next_after r x r' :
  listing_ok r → shows db now s r x → after_pos (Some (next_position (Order_of s) x)) r' = negb (better_first s r' r).
Proof.
  intros [(l & Hl & Hname & Hid) _] [Hx _ _ Hd Hsc]. rewrite Hl in Hx. injection Hx as Hx. subst l.
  assert (Hrank : ∀ rank better, (∀ a b, better a b = false → better b a = true) →
     after_rank rank better (Some (rank r, lr_BranchID r)) r' = negb (by_rank rank better r' r)).
  { intros rank better Ht. unfold after_rank, by_rank. destruct (better (rank r') (rank r)) eqn:E1, (better (rank r) (rank r')) eqn:E2; try done.
    by rewrite (Ht _ _ E1) in E2. }
  unfold after_pos, better_first, Order_of, next_position. destruct (s_Near s) as [near|].
  - cbn [fmap option_fmap option_map p_DistanceM p_Branch]. rewrite (Hd near), Hid by done. apply Hrank. intros a b. apply rank_total.
  - case_bool_decide as Et; cbn [negb fmap option_fmap option_map p_Score p_Branch p_NameAr].
    + unfold after_name, by_name. cbn [p_NameAr p_Branch]. rewrite Hname, Hid. by case_bool_decide.
    + rewrite (Hsc eq_refl Et), Hid. apply Hrank. intros a b. apply rank_total.
Qed.

Lemma after_start r : after_pos None r = true.
Proof. unfold after_pos. destruct (s_Near s); [done|]. by case_bool_decide. Qed.

Lemma search_text : search_refusal s = None → (if bool_decide (s_Text s = "") then Ok "" else ParseQuery (s_Text s)) = Ok (text s).
Proof.
  unfold search_refusal, text, ParseQuery. case_bool_decide; [done|]. cbn [negb andb]. by destruct (_ <? _).
Qed.

(** Following the pages from [after] shows what is left. *)
Lemma pages_from n after k :
  search_refusal s = None → filter (λ r, after_pos after r = true) results = drop k results → (length results - k ≤ n)%nat →
  ∃ pss, pages db now s (S n) after = Some pss ∧ Forall2 (shows db now s) (drop k results) (concat pss) ∧ Forall (λ ps, length ps ≤ PageSize)%nat pss.
Proof.
  intros Hs. revert after k. induction n as [n IH] using lt_wf_ind; intros after k Hk Hn. cbn [pages]. unfold Search_handler.
  rewrite search_text by done. cbn [res_bind]. destruct (search_listings_spec after Hs) as (xs & Hxs & Hall). unfold filter_of in Hxs. rewrite Hxs, Hk in *.
  cbn [res_bind]. pose proof (Forall2_length _ _ _ Hall) as Hlen. rewrite length_take, length_drop in Hlen. destruct (Nat.leb_spec (length xs) PageSize) as [Hle|Hgt].
  - cbn [rp_Next rp_Found]. exists [xs]. split_and!; [done| |by constructor; [|constructor]]. cbn [concat]. rewrite app_nil_r.
    rewrite take_ge in Hall by (rewrite length_drop; lia). done.
  - assert (Hsplit : Forall2 (shows db now s) (take PageSize (drop k results)) (take PageSize xs)).
    { apply (Forall2_take _ _ _ PageSize) in Hall. by rewrite take_take, Nat.min_l in Hall by lia. }
    destruct (lookup_lt_is_Some_2 xs (Nat.pred PageSize)) as [x Hx]; [unfold PageSize in *; lia|].
    assert (Hlast : last (take PageSize xs) = Some x).
    { rewrite last_lookup, length_take, Nat.min_l by lia. by rewrite lookup_take_lt by (unfold PageSize; lia). }
    rewrite Hlast. cbn [rp_Next rp_Found fmap option_fmap option_map].
    destruct (Forall2_lookup_r _ _ _ _ _ Hall Hx) as (r & Hr & Hshows). rewrite lookup_take_lt, lookup_drop in Hr by (unfold PageSize; lia).
    destruct (results_ok r) as [Hok _]; [by eapply list_elem_of_lookup_2|].
    assert (Hnext : filter (λ r', after_pos (Some (next_position (Order_of s) x)) r' = true) results = drop (k + PageSize) results).
    { replace (k + PageSize)%nat with (S (k + Nat.pred PageSize)) by (unfold PageSize; lia).
      rewrite <- (strict_after (better_first s) (proj1 better_first_order) results (k + Nat.pred PageSize) r results_strict Hr).
      apply list_filter_iff. intros r'. by rewrite (next_after r). }
    destruct n as [|n]; [unfold PageSize in *; lia|].
    destruct (IH n ltac:(lia) _ (k + PageSize)%nat Hnext) as (pss & Hpss & Hall2 & Hsize); [unfold PageSize in *; lia|].
    rewrite Hpss. exists (take PageSize xs :: pss). split_and!; [done| |constructor; [rewrite length_take; lia|done]].
    cbn [concat]. rewrite <- (take_drop PageSize (drop k results)), drop_drop. by apply Forall2_app.
Qed.
End paging.

(** ** Pages are complete *)

(** Customers see everything a search finds. A search that is refused
    says why, on every page; any other, over tables built from the modules'
    events, is answered to the end: following each page's position gives
    pages of at most [PageSize], as many as it takes, that show exactly the
    listed branches the search finds, each once, best first - by distance, by
    match or by name. *)
Theorem pages_complete `{UnicodeLib} `{TzLib} `{!SearchLib} es now s :
  Forall event_ok es →
  let db := deliver_all empty_disc_db es in
  match search_refusal s with
  | Some e => ∀ after, Search_handler db now s after = Err e
  | None => ∃ rows pss,
      pages db now s (S (length rows)) None = Some pss ∧ Forall2 (shows db now s) rows (concat pss) ∧ Forall (λ ps, length ps ≤ PageSize)%nat pss ∧
      (∀ r, r ∈ rows ↔ branch_listings db !! lr_BranchID r = Some r ∧ finds db now s r = true) ∧
      NoDup (lr_BranchID <$> rows) ∧ StronglySorted (λ a b, better_first s b a = false) rows
  end.
Proof.
  intros Hes%deliver_all_ok db. destruct (search_refusal s) as [e|] eqn:Hs.
  - intros after. unfold search_refusal in Hs. unfold Search_handler, ParseQuery, search_listings. destruct (bool_decide (s_Text s = "")) eqn:Et; cbn [negb andb res_bind] in *.
    + destruct (s_Near s) as [near|]; [destruct (bad_radius _); [|done]; by injection Hs as <-|]. destruct (present (s_City s)); [done|]. by injection Hs as <-.
    + destruct (_ <? _); cbn [res_bind]; [by injection Hs as <-|]. destruct (s_Near s) as [near|]; [|done]. destruct (bad_radius _); [|done]. by injection Hs as <-.
  - destruct (pages_from db now s Hes (length (results db now s)) None 0 Hs) as (pss & Hp & Hall & Hsize); [|lia|].
    + rewrite drop_0. rewrite <- (filter_id_true (results db now s)) at 2. apply list_filter_iff. intros r. by rewrite after_start.
    + rewrite drop_0 in Hall. exists (results db now s), pss. split_and!; [done..|by apply results_rows| |by apply results_strict].
      unfold results. rewrite sort_by_perm. by apply branch_ids_once.
Qed.

(** ** A branch's page *)

Lemma menu_reads `{UnicodeLib} `{TzLib} es branch :
  Forall event_ok es → let db := deliver_all empty_disc_db es in
  ∃ menu, res_mapM toMenuItem (BranchMenu db branch) = Ok menu ∧
    mi_Service <$> menu ≡ₚ sr_ServiceID <$> offered db branch None ∧ mi_PriceFrom <$> menu ≡ₚ (λ s, Halalas (sr_PriceFrom s)) <$> offered db branch None.
Proof.
  intros Hes%deliver_all_ok db. enough (Hperm : ∃ menu, res_mapM toMenuItem (BranchMenu db branch) = Ok menu ∧
    mi_Service <$> menu ≡ₚ sr_ServiceID <$> BranchMenu db branch ∧ mi_PriceFrom <$> menu ≡ₚ (λ s, Halalas (sr_PriceFrom s)) <$> BranchMenu db branch).
  { destruct Hperm as (menu & Hm & E1 & E2). exists menu. split; [done|]. unfold BranchMenu in E1, E2. by rewrite sort_by_perm in E1, E2. }
  assert (Hok : ∀ r, r ∈ BranchMenu db branch → menu_ok r).
  { intros r. unfold BranchMenu, offered. rewrite elem_of_sort_by, elem_of_rows_where. intros (k & Hk & _). by apply (dk_service db Hes k). }
  induction (BranchMenu db branch) as [|r rows IH]; [by exists []|]. destruct IH as (menu & Hmenu & E1 & E2); [intros; apply Hok; by right|].
  destruct (Hok r) as [Hr _]; [by left|]. destruct (toMenuItem r) as [it|] eqn:Ei; [|done]. exists (it :: menu). cbn [res_mapM]. rewrite Ei, Hmenu.
  unfold toMenuItem in Ei. apply res_bind_ok in Ei as (c & _ & Ei). apply res_bind_ok in Ei as (n & _ & [= <-]). rewrite !fmap_cons. split_and!; [done|..]; by constructor.
Qed.

(** A branch's page is there exactly when searches can show it: listed and
    selling something. It shows the branch's copy, its week as set, whether
    it is open now, and a menu of exactly the services it offers, each once,
    priced from the least of them. Any other branch is not found, whether it
    exists or not. *)
Theorem branch_page `{UnicodeLib} `{TzLib} `{!SearchLib} es now id :
  Forall event_ok es →
  let db := deliver_all empty_disc_db es in
  match branch_listings db !! id ≫= λ r, if shown db None r then Some r else None with
  | None => Branch_page db now id = Err ErrNotFound
  | Some r => ∃ page, Branch_page db now id = Ok page ∧ toListing r = Ok (fd_Listing (pg_Found page)) ∧
      fd_OpenNow (pg_Found page) = is_open db now r ∧ pg_Hours page = from_option hr_Intervals [] (branch_hours db !! id) ∧
      NoDup (mi_Service <$> pg_Menu page) ∧
      (∀ sid, sid ∈ mi_Service <$> pg_Menu page ↔ ∃ s, branch_services db !! sid = Some s ∧ sr_BranchID s = id ∧ sr_Offered s = true) ∧
      fd_PriceFrom (pg_Found page) ∈ mi_PriceFrom <$> pg_Menu page ∧
      ∀ p, p ∈ mi_PriceFrom <$> pg_Menu page → amount (fd_PriceFrom (pg_Found page)) ≤ amount p
  end.
Proof.
  intros Hes db. pose proof (deliver_all_ok es Hes) as Hdb. unfold Branch_page, Listings_Page, BranchPage. fold db in Hdb.
  destruct (branch_listings db !! id) as [r|] eqn:Er; [|done]. destruct (dk_listing db Hdb id r Er) as [Hid Hok]. destruct Hok as [(l & Hl & _) [loc Hloc]].
  cbn [mbind option_bind]. destruct (shown db None r) eqn:Hs; [|done]. cbn [ensure res_bind]. destruct (menu_reads es id Hes) as (menu & Hmenu & Eids & Eprices). fold db in Hmenu, Eids, Eprices.
  assert (Ho : open_now db r now = Ok (is_open db now r)) by (unfold open_now, is_open; rewrite Hloc; by destruct (branch_hours db !! _)).
  rewrite Ho. cbn [res_bind fst snd]. unfold toFound. cbn [fr_Listing fr_PriceFrom fr_OpenNow]. rewrite Hl. cbn [res_bind]. rewrite Hmenu. cbn [res_bind].
  eexists. split; [done|]. cbn [pg_Found pg_Hours pg_Menu fd_Listing fd_OpenNow fd_PriceFrom]. split_and!; try done.
  - rewrite Eids. apply (rows_where_NoDup sr_ServiceID (λ k, k)); [done|]. intros k s Hk. by apply (dk_service db Hdb k).
  - intros sid. rewrite Eids, list_elem_of_fmap. setoid_rewrite elem_of_rows_where. split.
    + intros (s & -> & k & Hk & Hp). cbn in Hp. bool_prop. destruct (dk_service db Hdb k s Hk) as [-> _]. exists s. done.
    + intros (s & Hk & Hb & Hof). exists s. split; [symmetry; by apply (dk_service db Hdb sid)|]. exists sid. split; [done|]. cbn. rewrite Hof. by rewrite bool_decide_eq_true_2.
  - rewrite Eprices. pose proof (min_price_spec (offered db id None)) as Hp. unfold shown in Hs. rewrite Hid in Hs. destruct (min_price _) as [p|].
    + destruct Hp as [Hin _]. apply list_elem_of_fmap in Hin as (s & -> & Hin). by apply (list_elem_of_fmap_2 (λ s, Halalas (sr_PriceFrom s))).
    + rewrite Hp, andb_false_r in Hs. done.
  - intros p. rewrite Eprices, list_elem_of_fmap. intros (s & -> & Hin). cbn. pose proof (min_price_spec (offered db id None)) as Hp.
    destruct (min_price _) as [p|]; [|rewrite Hp in Hin; by apply not_elem_of_nil in Hin]. destruct Hp as [_ Hle]. apply Hle. by apply list_elem_of_fmap_2.
Qed.

(** ** An example: two branches of Riyadh, a third not listed *)

Module DiscDemo.
Import Discovery.Demo.
Definition demo_zones : TzLib := {| LoadLocation n := if bool_decide (n = "Asia/Riyadh") then Some (fixed_zone 10800) else None |}.
#[export] Existing Instances demo_zones flat_ranks.

Definition olaya : GeoPoint := MkGeo (float_of 24) (float_of 46).
Definition shop (id version : Z) (listed : bool) (name : string) : disc_event :=
  EvBranch (MkBranchEvent (MkID 1) (MkID (Z.to_N id)) version listed (MkLocalized name "") "riyadh" "Olaya" "" olaya "" "Asia/Riyadh" 0).
Definition haircut (id branch price : Z) : disc_event :=
  EvService (MkServiceEvent (MkID 1) (MkID (Z.to_N branch)) (MkID (Z.to_N id)) 1 true "haircut" (MkLocalized "قص" "") (30 * Minute) (Halalas price) 0 0).

Definition events : list disc_event :=
  [shop 2 1 true "صالون الأناقة"; haircut 20 2 5000; haircut 21 2 3000; shop 3 2 true "حلاق الحي"; haircut 30 3 4000;
   shop 3 1 false "حلاق"; shop 4 1 false "جديد"; haircut 40 4 1000].
(** The same, late and repeated. *)
Definition events_again : list disc_event := reverse events ++ [shop 3 1 false "حلاق"].

Definition in_riyadh : Search := MkSearch (Some (city "riyadh" "الرياض" "Riyadh")) None "" None false.

Lemma events_ok : Forall event_ok events.
Proof. repeat (constructor; [by vm_compute; (reflexivity || (split_and!; [reflexivity|reflexivity|eexists; reflexivity]))|]). constructor. Qed.
End DiscDemo.
Import Discovery.Demo DiscDemo.

Lemma copies_converge_witness :
  deliver_all empty_disc_db events = deliver_all empty_disc_db events_again ∧
  (lr_Version <$> branch_listings (deliver_all empty_disc_db events_again) !! MkID 3) = Some 2.
Proof.
  destruct (copies_converge events events_again) as (E & _).
  - unfold one_copy_each. split_and!; intros r r' Hr Hr'; vm_compute in Hr, Hr'; set_solver.
  - intros e. unfold events_again. rewrite elem_of_app, list_elem_of_singleton. rewrite elem_of_reverse. split; [tauto|]. intros [?| ->]; [done|]. unfold events. set_solver.
  - split; [exact E|]. rewrite <- E. vm_compute. reflexivity.
Defined.

Lemma pages_complete_witness :
  option_map (map (map (λ x, value (l_Branch (fd_Listing x))))) (pages (deliver_all empty_disc_db events) 0 in_riyadh 3 None) = Some [[3%N; 2%N]] ∧
  ∃ rows : list ListingRow, NoDup (map lr_BranchID rows) ∧ Forall (λ r, finds (deliver_all empty_disc_db events) 0 in_riyadh r = true) rows.
Proof.
  split; [vm_compute; reflexivity|]. pose proof (pages_complete events 0 in_riyadh events_ok) as Hp. cbn zeta in Hp.
  assert (E : search_refusal in_riyadh = None) by (vm_compute; reflexivity). rewrite E in Hp. destruct Hp as (rows & pss & _ & _ & _ & Hrows & Hnd & _).
  exists rows. split; [exact Hnd|]. apply Forall_forall. intros r Hr. apply Hrows, Hr.
Defined.

Lemma branch_page_witness :
  ∃ page : Page, Branch_page (deliver_all empty_disc_db events) 0 (MkID 2) = Ok page ∧ amount (fd_PriceFrom (pg_Found page)) = 3000 ∧
    NoDup (map mi_Service (pg_Menu page)) ∧ Branch_page (deliver_all empty_disc_db events) 0 (MkID 4) = Err ErrNotFound.
Proof.
  assert (Hhere : ∃ r, (branch_listings (deliver_all empty_disc_db events) !! MkID 2 ≫= λ r, if shown (deliver_all empty_disc_db events) None r then Some r else None) = Some r)
    by (eexists; vm_compute; reflexivity).
  destruct Hhere as [r Hhere]. pose proof (branch_page events 0 (MkID 2) events_ok) as Hp. cbn zeta in Hp. rewrite Hhere in Hp.
  destruct Hp as (page & Hpage & _ & _ & _ & Hnd & _). exists page. split; [exact Hpage|]. split.
  - vm_compute in Hpage. injection Hpage as <-. reflexivity.
  - split; [exact Hnd|vm_compute; reflexivity].
Defined.
