(* ===== verification/Settled.v ===== *)
(** * A module behind the queue

    What the events of other modules do to a module's own tables once the
    queue has settled, whatever order the deliveries ran in: they are the
    tables after applying what the published events say, in some order, each
    at least once. [view] is the module's tables among all that handlers
    change, [subs] the handler names and event types [main] subscribes,
    [decode] what the module reads of an event. *)
From S2P Require Import Prelude GoTime GoText Shared Tables Outbox OutboxFlow.
Open Scope Z_scope.

Section settled.
Context {Payload W V Ev : Type} (view : W → V) (apply_event : V → Ev → V) (subs : list (string * string)) (decode : Event Payload → option Ev).

(** A release that runs the module: it knows the names, whichever of them its
    publisher gave an event, and no other handler writes the module's tables. *)
Record keeps (b : Bus Payload W) : Prop := {
  kp_built : built b;
  kp_subs name ty : (name, ty) ∈ subs → name ∈ subscribers b ty;
  kp_handler name h : handlers b !! name = Some h →
    ∀ w e, view (h w e).2 = if decide (name ∈ subs.*1) then default (view w) (apply_event (view w) <$> decode e) else view w }.

Context (max : nat) (released : Bus Payload W → Prop) (w0 : W).
Context (Hrel : ∀ b, released b → keeps b) (Hmax : (0 < max)%nat).

(** What the calls of the handlers delivered. *)
Definition call_event (c : Call Payload) : option Ev := if decide (cl_Handler c ∈ subs.*1) then decode (cl_Event c) else None.

Lemma view_applied st : reachable max released w0 st → view (q_World st) = foldl apply_event (view w0) (omap call_event (q_Calls st)).
Proof using Hrel.
  induction 1 as [|st st' _ IH Hstep]; [done|]. destruct Hstep as [st b events now Hb|st b i job now Hb Hi Ha|st i job Hi Ha|st b i d now heard Hb Hi Ha]; [done..|].
  unfold Outbox.deliver. cbn [q_World q_Calls]. rewrite omap_app, foldl_app, <- IH.
  unfold deliveryWork, called. destruct (handlers b !! _) as [h|] eqn:Eh; cbn [present]; [|by destruct (_ <? _)].
  cbn [fst snd omap list_omap]. rewrite (kp_handler b (Hrel b Hb) _ _ Eh). unfold call_event. cbn [cl_Handler cl_Event].
  destruct (decide (_ ∈ _)); [|done]. by destruct (decode _).
Qed.

(** The module's handlers get only events of the types they are subscribed
    to, whichever release published or fanned them out. *)
Lemma delivered_type st d : reachable max released w0 st → (∀ job, job ∈ q_Events st → job_State job = Completed) →
  d ∈ q_Deliveries st → da_Handler (job_Args (dv_Job d)) ∈ subs.*1 → ev_Type (da_Event (job_Args (dv_Job d))) ∈ subs.*2.
Proof using Hrel Hmax.
  intros Hr Hfanned Hin Hname. destruct (reachable_ok max released w0 Hmax st Hr) as [He Hd _].
  destruct (dl_origin _ _ _ _ (Hd d Hin)) as (job & Hi & ->). destruct (He _ job Hi) as [(b0 & Hb0 & Esubs) Hm].
  rewrite (Hfanned job) in Hm by (by eapply list_elem_of_lookup_2). destruct Hm as (b & Hb & Em).
  assert (Hmade : da_Handler (job_Args (dv_Job d)) ∈ made st (dv_Origin d)).
  { unfold made. apply list_elem_of_fmap. exists (dv_Origin d, da_Handler (job_Args (dv_Job d))). split; [done|].
    apply list_elem_of_filter. split; [done|]. apply list_elem_of_fmap. by exists d. }
  rewrite Em in Hmade. apply (proj1 (fan_names_spec b (job_Args job))) in Hmade. rewrite Esubs in Hmade.
  apply list_elem_of_fmap in Hname as ([name ty] & En & Hsub). cbn in En. rewrite En in Hmade.
  apply list_elem_of_fmap. exists (name, ty). split; [|done]. cbn.
  assert (Hone : ∀ b, released b → ∀ ty', name ∈ subscribers b ty' → ty' = ty).
  { intros b1 Hb1 ty' Hty'. apply (bk_type b1 (built_ok b1 (kp_built b1 (Hrel b1 Hb1))) ty' ty name); [done|]. by apply (kp_subs b1 (Hrel b1 Hb1)). }
  destruct Hmade as [Hs|Hs]; [by apply (Hone b0)|by apply (Hone b)].
Qed.

Lemma settled_view st :
  reachable max released w0 st →
  (∀ job, job ∈ q_Events st → job_State job = Completed) →
  (∀ d, d ∈ q_Deliveries st → da_Handler (job_Args (dv_Job d)) ∈ subs.*1 → job_State (dv_Job d) = Completed) →
  ∃ es, view (q_World st) = foldl apply_event (view w0) es ∧
    (∀ ev, ev ∈ es → ∃ job, job ∈ q_Events st ∧ decode (ea_Event (job_Args job)) = Some ev ∧ ev_Type (ea_Event (job_Args job)) ∈ subs.*2) ∧
    (∀ job ev, job ∈ q_Events st → decode (ea_Event (job_Args job)) = Some ev → ev_Type (ea_Event (job_Args job)) ∈ subs.*2 → ev ∈ es).
Proof using Hrel Hmax.
  intros Hr Hfanned Hdone. exists (omap call_event (q_Calls st)). split; [by apply view_applied|].
  destruct (reachable_ok max released w0 Hmax st Hr) as [He Hd Hc]. split.
  - intros ev (c & Hin & Ev')%list_elem_of_omap. unfold call_event in Ev'. destruct (decide _) as [Hname|]; [|done].
    destruct (Hc c Hin) as (d & Hd' & Hc' & Ee). destruct (dl_origin _ _ _ _ (Hd d Hd')) as (job & Hjob & Ej).
    exists job. split_and!; [by eapply list_elem_of_lookup_2|by rewrite <- Ej, Ee|].
    rewrite <- Ej. eapply (delivered_type st d); [done|done|done|]. by rewrite Hc'.
  - intros job ev Hjob Hev Hty. pose proof (Hfanned job Hjob) as Hst. apply list_elem_of_lookup in Hjob as [i Hi].
    destruct (He i job Hi) as [(b0 & Hb0 & Esubs) Hm]. rewrite Hst in Hm. destruct Hm as (b & Hb & Em).
    destruct (fan_names_spec b (job_Args job)) as [Hfan _].
    apply list_elem_of_fmap in Hty as ([name ty] & Ety & Hsub). cbn in Ety.
    assert (Hmade : name ∈ made st i).
    { rewrite Em, Hfan. right. rewrite Ety. by apply (kp_subs b (Hrel b Hb)). }
    unfold made in Hmade. apply list_elem_of_fmap in Hmade as ([o n] & En0 & Hin). cbn in En0. subst n.
    apply list_elem_of_filter in Hin as [Ho Hin]. cbn in Ho. subst o. apply list_elem_of_fmap in Hin as (d & [= Eo En] & Hin).
    assert (Hkeep : name ∈ subs.*1) by (apply list_elem_of_fmap; by exists (name, ty)).
    destruct (Hd d Hin) as [(job' & Hjob' & Ee) Hend]. rewrite Hdone in Hend by (done || by rewrite <- En).
    rewrite <- Eo, Hi in Hjob'. injection Hjob' as <-. apply list_elem_of_omap. eexists. split; [exact Hend|].
    unfold call_event. cbn [cl_Handler cl_Event]. rewrite <- En. destruct (decide _); [|done]. by rewrite Ee.
Qed.
End settled.
