(* ===== verification/DiscQueue.v ===== *)
(** * Discovery behind the queue

    What any module's events do to discovery's copies once the queue has
    settled, whatever order the deliveries ran in. A module gives the handler
    names and types [main] subscribes, and how discovery reads an event. *)
From S2P Require Import Prelude GoTime GoText Shared Tables BizBase Outbox OutboxFlow Settled Discovery DiscStore DiscApp DiscFlow.
Open Scope Z_scope.

Section queue.
Context {Payload : Type} `{UnicodeLib} (subs : list (string * string)) (decode : Event Payload → option disc_event).

(** A release that keeps discovery's copies. *)
Definition keeps_copies : Bus Payload DiscDB → Prop := keeps (λ db, db) deliver subs decode.

(** Once it has settled, the copies are what the published events say. *)
Lemma settled_copies max (released : Bus Payload DiscDB → Prop) (Hrel : ∀ b, released b → keeps_copies b) (Hmax : (0 < max)%nat) st :
  reachable max released empty_disc_db st →
  (∀ job, job ∈ q_Events st → job_State job = Completed) →
  (∀ d, d ∈ q_Deliveries st → da_Handler (job_Args (dv_Job d)) ∈ subs.*1 → job_State (dv_Job d) = Completed) →
  ∃ es, q_World st = deliver_all empty_disc_db es ∧
    (∀ ev, ev ∈ es → ∃ job, job ∈ q_Events st ∧ decode (ea_Event (job_Args job)) = Some ev) ∧
    (∀ job ev, job ∈ q_Events st → decode (ea_Event (job_Args job)) = Some ev → ev_Type (ea_Event (job_Args job)) ∈ subs.*2 → ev ∈ es).
Proof.
  intros Hr Hf Hd. destruct (settled_view (λ db, db) deliver subs decode max released empty_disc_db Hrel Hmax st Hr Hf Hd) as (es & E & Hfrom & Hto).
  exists es. split_and!; [exact E| |exact Hto]. intros ev (job & ? & ? & _)%Hfrom. by exists job.
Qed.
End queue.
