(* ===== verification/DiscCatalog.v ===== *)
(** * Discovery follows the catalog (src/cmd/server/main.go, subscribe)

    [main] hands every service event of catalog to discovery. Whatever order
    they arrive in and however often, the menus customers search are those
    the catalog's tables hold.

    Catalog's names are used in full. *)
From S2P Require Import Prelude GoTime GoText Shared Tables BizBase Outbox OutboxFlow Discovery DiscStore DiscApp DiscFlow DiscPages DiscQueue.
From S2P Require Catalog CatStore CatApp CatFacts CatFlow.
Open Scope Z_scope.

(** [discoveryModule.KeepService(ctx, discovery.Service(e))]. *)
Definition service_event (c : CatStore.ServiceChanged) : disc_event :=
  EvService (MkServiceEvent (CatStore.sc_BusinessID c) (CatStore.sc_BranchID c) (CatStore.sc_ServiceID c) (CatStore.sc_Version c) (CatStore.sc_Offered c)
    (CatStore.sc_Category c) (CatStore.sc_Name c) (CatStore.sc_Duration c) (CatStore.sc_PriceFrom c) (CatStore.sc_SortOrder c) (CatStore.sc_At c)).

(** A copy that says what a service is. *)
Record copies (s : Catalog.Service) (r : ServiceRow) : Prop := {
  cp_ids : sr_ServiceID r = Catalog.sv_id s ∧ sr_BranchID r = Catalog.sv_branch s ∧ sr_BusinessID r = Catalog.sv_business s;
  cp_version : sr_Version r = Catalog.sv_version s;
  cp_offered : sr_Offered r = true ↔ Catalog.sv_active s = true ∧ Catalog.sv_offerings s ≠ [];
  cp_category : sr_CategoryCode r = Catalog.d_Category (Catalog.sv_details s);
  cp_name : MkLocalized (sr_NameAr r) (sr_NameEn r) = Catalog.d_Name (Catalog.sv_details s);
  cp_minutes : sr_DurationMinutes r * Minute = Catalog.d_Duration (Catalog.sv_details s);
  cp_sort : sr_SortOrder r = Catalog.d_SortOrder (Catalog.sv_details s);
  cp_price : if (length (Catalog.sv_offerings s) =? 0)%nat then Halalas (sr_PriceFrom r) = Catalog.d_Price (Catalog.sv_details s)
             else Halalas (sr_PriceFrom r) ∈ CatFlow.prices s ∧ ∀ p, p ∈ CatFlow.prices s → sr_PriceFrom r ≤ amount p }.

Section follows.
Context `{UuidLib} `{UnicodeLib}.

(** What catalog announces is accepted, and copied as the service is. *)
Lemma told_copies s c :
  CatFacts.svc_ok s → Catalog.sv_version s ≤ max_int32 → CatFlow.tells s c → ∃ r, service_of (service_event c) = Some r ∧ copies s r.
Proof.
  intros Hs Hmax [(I1 & I2 & I3) Hv Ho (D1 & D2 & D3 & D4) Hp]. pose proof (CatFacts.vk_details s Hs) as Hd.
  pose proof (CatFacts.vk_version s Hs) as Hv1. destruct (CatFacts.five_minutes_minutes _ (Catalog.do_duration _ Hd)) as (k & Ek & _ & Hk & _).
  pose proof (Catalog.do_sort _ Hd) as Hsort. unfold Catalog.MaxSortOrder in Hsort.
  assert (Hprice : Catalog.price_ok (CatStore.sc_PriceFrom c)).
  { destruct (_ =? 0)%nat; [rewrite Hp; apply Hd|]. destruct Hp as [Hin _]. unfold CatFlow.prices in Hin.
    apply list_elem_of_fmap in Hin as (o & -> & Ho'). by apply CatFlow.price_or_ok. }
  destruct Hprice as [Hsar Hamount]. pose proof (Catalog.do_category _ Hd) as Hcat.
  destruct (ParseCategory (Catalog.d_Category (Catalog.sv_details s))) as [cat|] eqn:Ec; [|done].
  assert (Hmoney : Halalas (amount (CatStore.sc_PriceFrom c)) = CatStore.sc_PriceFrom c).
  { unfold Halalas. rewrite <- Hsar. by destruct (CatStore.sc_PriceFrom c). }
  cbn [service_of service_event]. unfold menu_row.
  cbn [se_Category se_PriceFrom se_Version se_Duration se_SortOrder se_ServiceID se_BranchID se_BusinessID se_Offered se_Name se_At].
  rewrite D1, Ec. cbn [res_map_err res_bind]. rewrite bool_decide_eq_true_2 by done. cbn [ensure res_bind].
  rewrite Hv, D3, D4, Ek. rewrite Z.quot_mul by done.
  rewrite !(proj2 (disc_int32_ok _ _)) by (split; [reflexivity|unfold max_int32 in *; lia]). cbn [res_bind].
  apply ParseCategory_code in Ec as [_ Ecode]. unfold service_checks. cbn [sr_Version sr_PriceFrom sr_DurationMinutes].
  rewrite (proj2 (Z.ltb_lt _ _)), (proj2 (Z.leb_le _ (amount _))), (proj2 (Z.leb_le _ (k * 5))) by lia. cbn [andb ensure res_bind ok_part].
  eexists. split; [done|]. constructor; cbn; try done; [by rewrite D2; destruct (Catalog.d_Name _)|]. rewrite Hmoney.
  destruct (_ =? 0)%nat; [done|]. destruct Hp as [Hin Hle]. done.
Qed.

(** The rows of catalog's announcements. *)
Definition rows_of (cs : list CatStore.ServiceChanged) : list ServiceRow := omap (λ c, service_of (service_event c)) cs.

Lemma row_of_change c r : service_of (service_event c) = Some r → sr_ServiceID r = CatStore.sc_ServiceID c ∧ sr_Version r = CatStore.sc_Version c.
Proof.
  cbn [service_of service_event]. unfold menu_row, ok_part. cbn [se_Version se_ServiceID]. intros Hr.
  repeat (match type of Hr with match res_bind ?x _ with _ => _ end = _ => destruct x eqn:?; cbn [res_bind] in Hr; [|done] end).
  injection Hr as <-. cbn. split; [done|]. repeat match goal with E : toInt32 _ = Ok _ |- _ => apply disc_int32_ok in E as [-> _] end. done.
Qed.

(** Each version of a service was announced once. *)
Lemma announced_once cat cs c c' :
  CatFlow.log_ok cat cs → c ∈ cs → c' ∈ cs → CatStore.sc_ServiceID c = CatStore.sc_ServiceID c' → CatStore.sc_Version c = CatStore.sc_Version c' → c = c'.
Proof.
  intros Hlog Hc Hc' Eid Ev. pose proof (CatFlow.lg_versions _ _ Hlog (CatStore.sc_ServiceID c')) as Hvs. unfold CatFlow.versions in Hvs.
  assert (Hnd : NoDup (CatStore.sc_Version <$> filter (λ x, CatStore.sc_ServiceID x = CatStore.sc_ServiceID c') cs)) by (rewrite Hvs; apply NoDup_seqZ).
  apply list_elem_of_lookup in Hc as Hi. assert (Hin : c ∈ filter (λ x, CatStore.sc_ServiceID x = CatStore.sc_ServiceID c') cs) by (by apply list_elem_of_filter).
  assert (Hin' : c' ∈ filter (λ x, CatStore.sc_ServiceID x = CatStore.sc_ServiceID c') cs) by (by apply list_elem_of_filter).
  apply list_elem_of_lookup in Hin as [i Ei]. apply list_elem_of_lookup in Hin' as [j Ej].
  assert (i = j) as ->; [|congruence]. eapply NoDup_lookup; [exact Hnd|..]; rewrite list_lookup_fmap; [by rewrite Ei|]. by rewrite Ej, Ev.
Qed.

Lemma rows_of_once cat cs : CatFlow.log_ok cat cs → one_per_version sr_ServiceID sr_Version (rows_of cs).
Proof.
  intros Hlog r r' (c & Hc & Er)%list_elem_of_omap (c' & Hc' & Er')%list_elem_of_omap Eid Ev.
  pose proof (row_of_change _ _ Er) as [I1 V1]. pose proof (row_of_change _ _ Er') as [I2 V2].
  assert (c = c') as -> by (eapply announced_once; [done..|congruence|congruence]). congruence.
Qed.

(** The newest copy is the service as catalog's tables hold it. *)
Lemma newest_copies cat cs sid r :
  CatFacts.cat_ok cat → CatFlow.log_ok cat cs → newest sr_ServiceID sr_Version (rows_of cs) sid r →
  ∃ s, CatFacts.stored cat s ∧ CatFacts.svc_ok s ∧ Catalog.sv_id s = sid ∧ copies s r.
Proof.
  intros Hcat Hlog Hn. pose proof Hn as (Hin & Hid & _). apply list_elem_of_omap in Hin as (c & Hc & Er). pose proof (row_of_change _ _ Er) as [I V].
  assert (Hrow : ∃ row, CatStore.services cat !! sid = Some row).
  { destruct (CatStore.services cat !! sid) as [row|] eqn:E; [by exists row|]. pose proof (CatFlow.lg_versions _ _ Hlog sid) as Hvs.
    unfold CatFlow.version_of in Hvs. rewrite E in Hvs. apply fmap_nil_inv in Hvs.
    assert (Hf : c ∈ filter (λ x, CatStore.sc_ServiceID x = sid) cs) by (apply list_elem_of_filter; split; [congruence|done]).
    rewrite Hvs in Hf. by apply not_elem_of_nil in Hf. }
  destruct Hrow as [row Hrow]. destruct (CatFacts.service_at cat Hcat sid row Hrow) as (s & Hsid & Hs & Hst & -> & Hmax).
  exists s. split_and!; [done..|]. destruct (CatFlow.lg_newest _ _ Hlog s Hst Hs) as (c' & Hc' & Ht).
  destruct (told_copies s c' Hs Hmax Ht) as (r' & Er' & Hcp). pose proof (row_of_change _ _ Er') as [I' V'].
  enough (r = r') as -> by done. eapply newest_unique; [by eapply rows_of_once|exact Hn|].
  split_and!; [apply list_elem_of_omap; by exists c'|rewrite I'; destruct (CatFlow.te_ids _ _ Ht) as (_ & _ & ->); done|].
  intros r2 (c2 & Hc2 & Er2)%list_elem_of_omap Hid2. pose proof (row_of_change _ _ Er2) as [I2 V2]. rewrite V', V2.
  assert (Hv : CatStore.sc_Version c2 ∈ CatFlow.versions sid cs).
  { unfold CatFlow.versions. apply list_elem_of_fmap. exists c2. split; [done|]. apply list_elem_of_filter. split; [congruence|done]. }
  rewrite (CatFlow.lg_versions _ _ Hlog), elem_of_seqZ in Hv. unfold CatFlow.version_of in Hv. rewrite Hrow in Hv. cbn in Hv.
  rewrite (CatFlow.te_version _ _ Ht). lia.
Qed.

(** Every stored service has a copy. *)
Lemma copied cat cs s :
  CatFacts.cat_ok cat → CatFlow.log_ok cat cs → CatFacts.stored cat s → CatFacts.svc_ok s → ∃ r, r ∈ rows_of cs ∧ sr_ServiceID r = Catalog.sv_id s.
Proof.
  intros Hcat Hlog Hst Hs. destruct (CatFlow.lg_newest _ _ Hlog s Hst Hs) as (c & Hc & Ht).
  assert (Hmax : Catalog.sv_version s ≤ max_int32).
  { destruct (CatFacts.service_at cat Hcat _ _ (CatFacts.st_row _ _ Hst)) as (s' & _ & _ & _ & E & Hm). pose proof (f_equal CatStore.v_Version E) as Ev. cbn in Ev. lia. }
  destruct (told_copies s c Hs Hmax Ht) as (r & Er & Hcp). exists r. split; [apply list_elem_of_omap; by exists c|]. apply (cp_ids _ _ Hcp).
Qed.

Lemma copies_same cat s s' r :
  CatFacts.stored cat s → CatFacts.svc_ok s → CatFacts.stored cat s' → CatFacts.svc_ok s' → Catalog.sv_id s' = Catalog.sv_id s → copies s r → copies s' r.
Proof.
  intros Hst Hs Hst' Hs' Eid [Hids Hv Ho Hcat Hn Hm Hsort Hp]. destruct (CatFlow.stored_same cat s s' Hst Hs Hst' Hs' Eid) as (Er & Ed & Ep).
  assert (Epr : CatFlow.prices s' ≡ₚ CatFlow.prices s) by (unfold CatFlow.prices; by rewrite Ed, Ep).
  pose proof (f_equal CatStore.v_Version Er) as E1. pose proof (f_equal CatStore.v_BranchID Er) as E2. pose proof (f_equal CatStore.v_BusinessID Er) as E3.
  pose proof (f_equal CatStore.v_Active Er) as E4. cbn in E1, E2, E3, E4.
  constructor; [destruct Hids as (? & ? & ?); split_and!; congruence|congruence| |by rewrite Ed..|].
  - rewrite Ho, E4. enough (Catalog.sv_offerings s' = [] ↔ Catalog.sv_offerings s = []) by tauto.
    split; intros En; rewrite En in Ep; [by apply Permutation_nil in Ep|by symmetry in Ep; apply Permutation_nil in Ep].
  - rewrite (Permutation_length Ep). destruct (_ =? _)%nat; [by rewrite Ed|]. setoid_rewrite Epr. done.
Qed.
End follows.

(** Once all of catalog's announcements arrived, in whatever order and however
    often, the copies are its services as stored. *)
Lemma catalog_copied `{UuidLib} `{UnicodeLib} cat es :
  CatFlow.cat_reachable cat →
  (∀ s, EvService s ∈ es ↔ ∃ m c, m ∈ CatStore.cat_outbox cat ∧ CatStore.decodeServiceChanged m = Ok c ∧ EvService s = service_event c) →
  let db := deliver_all empty_disc_db es in
  (∀ sid r, branch_services db !! sid = Some r → ∃ s, CatFacts.stored cat s ∧ CatFacts.svc_ok s ∧ Catalog.sv_id s = sid ∧ copies s r) ∧
  (∀ s, CatFacts.stored cat s → CatFacts.svc_ok s → ∃ r, branch_services db !! Catalog.sv_id s = Some r ∧ copies s r) ∧
  (∀ s branch, CatFacts.stored cat s → CatFacts.svc_ok s →
     (∃ r, r ∈ offered db branch None ∧ sr_ServiceID r = Catalog.sv_id s) ↔
     Catalog.sv_branch s = branch ∧ Catalog.sv_active s = true ∧ Catalog.sv_offerings s ≠ []).
Proof.
  intros Hr Hes db. destruct (CatFlow.cat_reachable_ok cat Hr) as [Hcat [cs Hlog]].
  assert (Hrows : ∀ r, r ∈ omap service_of es ↔ r ∈ rows_of cs).
  { intros r. unfold rows_of. rewrite !list_elem_of_omap. pose proof (CatFlow.lg_read _ _ Hlog) as Hread. apply res_mapM_ok in Hread. split.
    - intros ([b|s|h] & He & Er); [done| |done]. apply Hes in He as (m & c & Hm & Hc & Es). exists c. rewrite <- Es. split; [|done].
      apply list_elem_of_lookup in Hm as [i Hi]. destruct (Forall2_lookup_l _ _ _ _ _ Hread Hi) as (c' & Hc' & Ec). rewrite Hc in Ec. injection Ec as ->.
      by eapply list_elem_of_lookup_2.
    - intros (c & Hc & Er). exists (service_event c). split; [|done]. apply Hes. apply list_elem_of_lookup in Hc as [i Hi].
      destruct (Forall2_lookup_r _ _ _ _ _ Hread Hi) as (m & Hm & Ec). exists m, c. split_and!; [by eapply list_elem_of_lookup_2|done|done]. }
  assert (Hsvc : ∀ sid r, branch_services db !! sid = Some r ↔ newest sr_ServiceID sr_Version (rows_of cs) sid r).
  { intros sid r. unfold db. rewrite deliver_all_tables. cbn [branch_services empty_disc_db]. rewrite keep_all_newest; [by apply newest_same|].
    intros a b Ha%Hrows Hb%Hrows. by eapply rows_of_once. }
  assert (Hto : ∀ sid r, branch_services db !! sid = Some r → ∃ s, CatFacts.stored cat s ∧ CatFacts.svc_ok s ∧ Catalog.sv_id s = sid ∧ copies s r).
  { intros sid r Hr'%Hsvc. by eapply newest_copies. }
  assert (Hof : ∀ s, CatFacts.stored cat s → CatFacts.svc_ok s → ∃ r, branch_services db !! Catalog.sv_id s = Some r ∧ copies s r).
  { intros s Hst Hs. destruct (copied cat cs s Hcat Hlog Hst Hs) as (r0 & Hin & Hid).
    pose proof (keep_all_spec sr_ServiceID sr_Version (rows_of cs) (Catalog.sv_id s)) as Hk. destruct (keep_all _ _ _ _ !! _) as [r|]; [|by destruct (Hk r0)].
    apply Hsvc in Hk. exists r. split; [done|]. destruct (Hto _ _ Hk) as (s' & Hst' & Hs' & Eid & Hc).
    by apply (copies_same cat s' s). }
  split_and!; [done..|]. intros s branch Hst Hs. destruct (Hof s Hst Hs) as (r & Hr' & Hc). destruct (cp_ids _ _ Hc) as (I1 & I2 & _). split.
  - intros (r2 & Hin & Hid). unfold offered in Hin. apply elem_of_rows_where in Hin as (k & Hk & Hp). cbn in Hp. bool_prop.
    destruct (Hto _ _ Hk) as (s2 & _ & _ & E2 & Hc2). destruct (cp_ids _ _ Hc2) as (J1 & _ & _).
    assert (k = Catalog.sv_id s) as -> by congruence. rewrite Hr' in Hk. injection Hk as ->.
    split; [congruence|]. by apply (cp_offered _ _ Hc).
  - intros (Hb & Hof'%(cp_offered _ _ Hc)). exists r. split; [|done]. unfold offered. apply elem_of_rows_where. exists (Catalog.sv_id s). split; [done|].
    cbn. rewrite Hof', andb_true_r. rewrite bool_decide_eq_true_2; [done|congruence].
Qed.

(** ** Through the outbox *)

Definition Payload : Type := CatStore.ServicePayload.
Definition outbox_event (id : N) (m : CatStore.OutboxEvent) : Event Payload :=
  MkEvent id (CatStore.ob_Type m) (CatStore.ob_OccurredAt m) (CatStore.ob_Payload m).
Definition received (e : Event Payload) : CatStore.OutboxEvent := CatStore.MkOutbox (ev_Type e) (ev_OccurredAt e) (ev_Payload e).

(** [OnServiceChanged]'s [handle]. *)
Definition handle {W} (fn : W → CatStore.ServiceChanged → bool * W) : Handler Payload W :=
  λ w e, match CatStore.decodeServiceChanged (received e) with Err _ => (false, w) | Ok c => fn w c end.

Definition OnServiceChanged {W} (b : Bus Payload W) (name : string) (fn : W → CatStore.ServiceChanged → bool * W) : option (Bus Payload W) :=
  b ← Subscribe b (name +:+ ".created") CatStore.TypeServiceCreated (handle fn);
  Subscribe b (name +:+ ".updated") CatStore.TypeServiceUpdated (handle fn).

(** The copies are kept by [subscribe]'s function; a delivery that fails
    changes nothing. *)
Definition keep_service `{UnicodeLib} (db : DiscDB) (c : CatStore.ServiceChanged) : bool * DiscDB :=
  match keep_event db (service_event c) with Ok db' => (true, db') | Err _ => (false, db) end.

Definition keep_names : list string := ["discovery.keep_service.created"; "discovery.keep_service.updated"].

(** A release that runs discovery: it knows both names, whichever of them its
    publisher gave an event, and no other handler writes discovery's tables. *)
Record runs_discovery `{UnicodeLib} (b : Bus Payload DiscDB) : Prop := {
  rd_built : built b;
  rd_created : "discovery.keep_service.created" ∈ subscribers b CatStore.TypeServiceCreated;
  rd_updated : "discovery.keep_service.updated" ∈ subscribers b CatStore.TypeServiceUpdated;
  rd_keep name h : handlers b !! name = Some h → if decide (name ∈ keep_names) then h = handle keep_service else ∀ w e, (h w e).2 = w }.

(** Discovery's side of such a release. *)
Definition subs : list (string * string) :=
  [("discovery.keep_service.created", CatStore.TypeServiceCreated); ("discovery.keep_service.updated", CatStore.TypeServiceUpdated)].
Definition decoded (e : Event Payload) : option disc_event := service_event <$> ok_part (CatStore.decodeServiceChanged (received e)).

Lemma runs_keeps `{UnicodeLib} b : runs_discovery b → keeps_copies subs decoded b.
Proof.
  intros [Hb Hc Hu Hk]. constructor; [done| |].
  - unfold subs. intros name ty [[= -> ->]|[[= -> ->]|[]%not_elem_of_nil]%elem_of_cons]%elem_of_cons; done.
  - intros name h Hh w e. pose proof (Hk name h Hh) as Hn. change (subs.*1) with keep_names. destruct (decide _); [|by apply Hn]. subst h.
    unfold handle, decoded. destruct (CatStore.decodeServiceChanged _) as [c|]; [|done]. cbn [ok_part fmap option_fmap option_map default from_option id].
    unfold keep_service, DiscFlow.deliver. by destruct (keep_event w (service_event c)).
Qed.

(** Catalog publishes two types of events. *)
Lemma catalog_types `{UuidLib} cat m : CatFlow.cat_reachable cat → m ∈ CatStore.cat_outbox cat → CatStore.ob_Type m ∈ [CatStore.TypeServiceCreated; CatStore.TypeServiceUpdated].
Proof.
  intros Hr. revert m. induction Hr as [|db db' Hr IH Hst]; intros m; [by intros ?%not_elem_of_nil|].
  destruct (CatFlow.cat_step_change db db' (proj1 (CatFlow.cat_reachable_ok db Hr)) Hst) as [s [_ _ _ (e & Ee & He) ->]]. cbn. rewrite Ee.
  intros [Hm|Hm]%elem_of_app; [by apply IH|]. apply list_elem_of_singleton in Hm as ->. destruct He as [-> | ->]; cbn; [by left|by right; left].
Qed.

(** C22. Customers search what the catalog sells. Let catalog's tables reach any
    state, its events be published with its changes, and the queue run them in
    any order, with failures, repeats and releases side by side. Once it is
    settled - every event fanned out, every delivery to discovery's handlers
    done - discovery's copies are catalog's services as stored: each once, at
    its newest version, with the least price its performers charge; and a
    branch offers a service to customers exactly when it is active and someone
    performs it. *)
Theorem search_follows_catalog `{UuidLib} `{UnicodeLib} max (released : Bus Payload DiscDB → Prop) cat st :
  (∀ b, released b → runs_discovery b) → (0 < max)%nat → CatFlow.cat_reachable cat →
  reachable max released empty_disc_db st →
  (∀ m, m ∈ CatStore.cat_outbox cat ↔ ∃ job, job ∈ q_Events st ∧ m = received (ea_Event (job_Args job))) →
  (∀ job, job ∈ q_Events st → job_State job = Completed) →
  (∀ d, d ∈ q_Deliveries st → da_Handler (job_Args (dv_Job d)) ∈ keep_names → job_State (dv_Job d) = Completed) →
  let db := q_World st in
  (∀ sid r, branch_services db !! sid = Some r → ∃ s, CatFacts.stored cat s ∧ CatFacts.svc_ok s ∧ Catalog.sv_id s = sid ∧ copies s r) ∧
  (∀ s, CatFacts.stored cat s → CatFacts.svc_ok s → ∃ r, branch_services db !! Catalog.sv_id s = Some r ∧ copies s r) ∧
  (∀ s branch, CatFacts.stored cat s → CatFacts.svc_ok s →
     (∃ r, r ∈ offered db branch None ∧ sr_ServiceID r = Catalog.sv_id s) ↔
     Catalog.sv_branch s = branch ∧ Catalog.sv_active s = true ∧ Catalog.sv_offerings s ≠ []).
Proof.
  intros Hrel Hmax Hcat Hr Hpub Hfanned Hdone.
  destruct (settled_copies subs decoded max released (λ b Hb, runs_keeps b (Hrel b Hb)) Hmax st Hr Hfanned Hdone) as (es & -> & Hfrom & Hto).
  assert (Hdec : ∀ job s, decoded (ea_Event (job_Args job)) = Some (EvService s) ↔
    ∃ c, CatStore.decodeServiceChanged (received (ea_Event (job_Args job))) = Ok c ∧ EvService s = service_event c).
  { intros job s. unfold decoded. destruct (CatStore.decodeServiceChanged _) as [c|]; cbn; [|by split; [|intros (? & ? & _)]].
    split; [intros Ec%(inj Some); by exists c|intros (c' & [= <-] & ->); done]. }
  apply catalog_copied; [done|]. intros s. split.
  - intros (job & Hjob & (c & Hc & Es)%Hdec)%Hfrom. exists (received (ea_Event (job_Args job))), c. split_and!; [|done|done]. apply Hpub. by exists job.
  - intros (m & c & Hm & Hc & Es). pose proof (catalog_types cat m Hcat Hm) as Hty. apply Hpub in Hm as (job & Hjob & ->).
    apply (Hto job); [done| |exact Hty]. apply Hdec. by exists c.
Qed.

(** ** The catalog's example shop, its events through the queue *)

Section demo.
#[local] Existing Instances decimal_ids Discovery.Demo.small_tables.

Definition release : Bus Payload DiscDB := default New (OnServiceChanged New "discovery.keep_service" keep_service).

Lemma release_runs : runs_discovery release.
Proof.
  constructor.
  - unfold release, OnServiceChanged. destruct (Subscribe New _ _ _) as [b|] eqn:E1; [|constructor]. cbn [mbind option_bind].
    destruct (Subscribe b _ _ _) as [b'|] eqn:E2; [|constructor]. by eapply built_subscribe, E2; eapply built_subscribe, E1; constructor.
  - vm_compute. by left.
  - vm_compute. by left.
  - intros name h Hh.
    assert (E : handlers release = <["discovery.keep_service.updated" := handle keep_service]> (<["discovery.keep_service.created" := handle keep_service]> ∅)) by reflexivity.
    rewrite E in Hh. apply lookup_insert_Some in Hh as [[<- <-]|[_ Hh]]; [done|].
    apply lookup_insert_Some in Hh as [[<- <-]|[_ Hh]]; [done|]. by rewrite lookup_empty in Hh.
Qed.

Definition shop_published : Queue Payload DiscDB :=
  publish (MkQueue [] [] empty_disc_db []) release (imap (λ i m, outbox_event (N.of_nat i) m) (CatStore.cat_outbox CatFlow.after_offerings)) 5000.
Definition shop_settled : Queue Payload DiscDB := drain 25 release 6000 shop_published.

Lemma search_follows_catalog_witness :
  ∃ r, branch_services (q_World shop_settled) !! MkID 7 = Some r ∧ sr_Version r = 2 ∧ sr_PriceFrom r = 4500 ∧
    ∃ s, CatFacts.stored CatFlow.after_offerings s ∧ copies s r.
Proof.
  assert (Hr : reachable 25 (λ b, b = release) empty_disc_db shop_settled).
  { eapply reachable_run; [apply drain_run; reflexivity|]. eapply reach_step; [constructor|]. by apply step_publish. }
  assert (Hmax : (0 < 25)%nat) by lia.
  assert (Hrel : ∀ b, b = release → runs_discovery b) by (intros b ->; exact release_runs).
  assert (Hpub : ∀ m, m ∈ CatStore.cat_outbox CatFlow.after_offerings ↔ ∃ job, job ∈ q_Events shop_settled ∧ m = received (ea_Event (job_Args job))).
  { intros m. assert (E : CatStore.cat_outbox CatFlow.after_offerings = (λ job, received (ea_Event (job_Args job))) <$> q_Events shop_settled) by (vm_compute; reflexivity).
    rewrite E, list_elem_of_fmap. split; intros (job & H1 & H2); by exists job. }
  assert (Hfan : ∀ job, job ∈ q_Events shop_settled → job_State job = Completed).
  { apply Forall_forall. apply (bool_decide_eq_true_1 (Forall (λ job, job_State job = Completed) _)). vm_compute. reflexivity. }
  assert (Hdone : ∀ d, d ∈ q_Deliveries shop_settled → da_Handler (job_Args (dv_Job d)) ∈ keep_names → job_State (dv_Job d) = Completed).
  { assert (Hall : Forall (λ d, job_State (dv_Job d) = Completed) (q_Deliveries shop_settled)).
    { apply (bool_decide_eq_true_1 (Forall (λ d, job_State (dv_Job d) = Completed) _)). vm_compute. reflexivity. }
    intros d Hd _. by apply (proj1 (Forall_forall _ _) Hall). }
  destruct (search_follows_catalog 25 (λ b, b = release) CatFlow.after_offerings shop_settled Hrel Hmax CatFlow.shop_reached Hr Hpub Hfan Hdone) as (Hto & _).
  assert (E : ∃ r, branch_services (q_World shop_settled) !! MkID 7 = Some r ∧ sr_Version r = 2 ∧ sr_PriceFrom r = 4500)
    by (eexists; vm_compute; (split; [reflexivity|split; reflexivity])).
  destruct E as (r & Hrow & Hv & Hp). exists r. split; [exact Hrow|split; [exact Hv|split; [exact Hp|]]].
  destruct (Hto _ _ Hrow) as (s & Hst & _ & _ & Hc). exists s. split; [exact Hst|exact Hc].
Defined.
End demo.
