(* ===== verification/DiscHttp.v ===== *)
(** * Discovery over HTTP (src/internal/discovery/adapters/httpapi/handlers.go)

    Searches from query parameters, the cursor that carries a page's last
    position to the next request, a branch's public page, and the problems
    errors are answered with. How a float is written and read is strconv's,
    the interface [FloatText]. *)
From Stdlib Require Import SpecFloat.
From S2P Require Import Prelude GoTime GoText GoCrypto GoEncoding Shared Tables BizBase Discovery DiscStore DiscApp DiscFlow DiscPages Http.
Open Scope Z_scope.

(** ** strconv and math *)

(** [strconv.FormatFloat(f, 'g', -1, 64)] and [strconv.ParseFloat(s, 64)]. *)
Class FloatText := { FormatFloat : float64 → string; ParseFloat : string → option float64 }.

(** A float64 that is a number. *)
Definition is_number (f : float64) : Prop := valid_binary 53 1024 f = true ∧ isFinite f = true.

(** As documented: the shortest text that reads back as the same float; and
    no float is written as nothing. *)
Class FloatTextLaws `{FloatText} := {
  parse_format f : is_number f → ParseFloat (FormatFloat f) = Some f;
  parse_nothing : ParseFloat "" = None }.

(** [math.MaxFloat64]. *)
Definition MaxFloat64 : float64 := S754_finite false 9007199254740991 971.

(** [int(math.Round(f))]: halves away from zero; of no number, 0 (the
    language leaves it open). *)
Definition round_int (f : float64) : Z :=
  match f with
  | S754_finite s m e =>
      let n := if 0 <=? e then Z.pos m * 2 ^ e else (2 * Z.pos m + 2 ^ - e) / (2 * 2 ^ - e) in
      if s then - n else n
  | _ => 0
  end.

Example round_half : round_int (S754_finite false 5 (-1)) = 3 ∧ round_int (S754_finite true 5 (-1)) = -3 ∧ round_int (S754_finite false 9 (-2)) = 2.
Proof. by split_and!. Qed.

(** ** The API's shapes (apigen) *)

Record api_City := MkApiCity { ac_Code : string; ac_Name : api_LocalizedText }.
Record api_GeoPoint := MkApiPoint { ap_Latitude : float64; ap_Longitude : float64 }.

Record BranchListing := MkBranchListing {
  bl_Id : UUID; bl_Name : api_LocalizedText; bl_City : api_City; bl_District : string; bl_Address : string; bl_Location : api_GeoPoint;
  bl_PriceFrom : api_Money; bl_OpenNow : bool; bl_DistanceM : option Z }.

Record BranchListingPage := MkListingPage { lp_Data : list BranchListing; lp_NextCursor : option string }.

Record BranchService := MkBranchService {
  bs_Id : UUID; bs_Category : string; bs_Name : api_LocalizedText; bs_DurationMinutes : Z; bs_PriceFrom : api_Money }.

Record api_BranchPage := MkApiBranchPage {
  bp_Id : UUID; bp_Name : api_LocalizedText; bp_City : api_City; bp_District : string; bp_Address : string; bp_Location : api_GeoPoint;
  bp_Timezone : string; bp_PriceFrom : api_Money; bp_OpenNow : bool; bp_OpeningHours : list DayHours; bp_Services : list BranchService;
  bp_Phone : option string }.

Record SearchBranchesParams := MkParams {
  sp_City : option string; sp_Q : option string; sp_Category : option string; sp_OpenNow : option bool; sp_Lat : option float64;
  sp_Lng : option float64; sp_RadiusKm : option Z; sp_Cursor : option string }.

Definition toAPICity (c : City) : api_City := MkApiCity (city_code c) (APIText (city_name c)).

(** A week of spans, each on the day it starts. *)
Definition clock (minutes : Z) : string := fmt_0d 2 (Z.quot minutes 60) +:+ ":" +:+ fmt_0d 2 (Z.rem minutes 60).

Definition week_range (w : Z * Z) : Z * TimeRange :=
  let d := Z.rem (Z.quot w.1 1440) 7 in
  let opens := Z.rem w.1 1440 in
  let closes := opens + w.2 - w.1 in
  (d, MkRange (clock opens) (clock (if closes =? 1440 then closes else Z.rem closes 1440))).

Definition toAPIWeek (week : list (Z * Z)) : list DayHours :=
  (λ d, MkDayHours (weekday_name d) (snd <$> filter (λ r, r.1 = d) (week_range <$> week))) <$> seqZ 0 7.

(** ** Errors *)

Inductive http_error := errHalfAPlace | errRadiusAlone | errBadCoordinates | errBadCursor | UseCase (e : disc_error).

#[export] Instance http_error_eq_dec : EqDecision http_error.
Proof. solve_decision. Defined.

Definition problem_of (err : http_error) : option (Z * string * string) :=
  match err with
  | UseCase ErrUnknownCity => Some (422, "unknown_city", "city: not one of the cities in GET /v1/cities")
  | UseCase ErrNotFound => Some (404, "not_found", "")
  | UseCase ErrUnknownCategory => Some (422, "unknown_category", "category: not one of the categories in GET /v1/service-categories")
  | errBadCursor => Some (400, "validation_failed", "cursor: pass next_cursor from the previous page, with the same search")
  | UseCase ErrNoPlace => Some (400, "validation_failed", "pass city, lat and lng, or q")
  | UseCase ErrQueryTooShort => Some (400, "validation_failed", "q: at least two letters or digits")
  | UseCase ErrRadius => Some (400, "validation_failed", "radius_km: 1 to 50")
  | errHalfAPlace => Some (400, "validation_failed", "lat and lng: pass both")
  | errRadiusAlone => Some (400, "validation_failed", "radius_km: only with lat and lng")
  | errBadCoordinates => Some (400, "validation_failed", "lat, lng: not a place on Earth")
  | UseCase _ => None
  end.

Definition problem (ctx : Ctx) (err : http_error) : Problem :=
  let '(status, code, detail) := default (500, "internal", "") (problem_of err) in APIProblem ctx status code detail.

Definition answer {A} (ctx : Ctx) (r : res http_error A) : Response A :=
  match r with Ok a => Answer 200 a | Err e => Refusal (problem ctx e) no_headers end.

Definition uc {A} (r : res disc_error A) : res http_error A := res_map_err UseCase r.

(** ** Searches from parameters *)

(** [float64(radius) * 1000]. *)
Definition metres (radius_km : Z) : float64 := SFmul 53 1024 (float_of radius_km) (float_of 1000).

Definition near_of (p : SearchBranchesParams) : res http_error (option Near) :=
  match sp_Lat p, sp_Lng p with
  | Some la, Some ln =>
      let! point := res_map_err (λ _, errBadCoordinates) (NewGeoPoint la ln) in
      Ok (Some (MkNear point (metres (default DefaultRadiusKm (sp_RadiusKm p)))))
  | None, None => if present (sp_RadiusKm p) then Err errRadiusAlone else Ok None
  | _, _ => Err errHalfAPlace
  end.

Definition searchOf (p : SearchBranchesParams) : res http_error Search :=
  let! city := match sp_City p with
               | None => Ok None
               | Some c => let! city := res_map_err (λ _, UseCase ErrUnknownCity) (ParseCity c) in Ok (Some city)
               end in
  let! category := match sp_Category p with
                   | None => Ok None
                   | Some c => let! category := res_map_err (λ _, UseCase ErrUnknownCategory) (ParseCategory c) in Ok (Some category)
                   end in
  let! near := near_of p in
  Ok (MkSearch city near (default "" (sp_Q p)) category (default false (sp_OpenNow p))).

(** ** Cursors *)

Section Cursors.
Context `{UuidLib} `{FloatText}.

Definition cursorKind (o : Order) : string := match o with ByName => "n" | ByDistance => "d" | ByMatch => "m" end.

Definition cursor_key (p : Position) (o : Order) : string :=
  match o with ByName => p_NameAr p | ByDistance => FormatFloat (p_DistanceM p) | ByMatch => FormatFloat (p_Score p) end.

Definition encodeCursor (p : Position) (o : Order) : string :=
  EncodeToString (bytes (cursorKind o +:+ "|" +:+ ID_String (p_Branch p) +:+ "|" +:+ cursor_key p o)).

Definition number (s : string) (lo hi : float64) : option float64 :=
  match ParseFloat s with
  | Some v => if SFleb lo v && SFleb v hi then Some v else None
  | None => None
  end.

(** [None] is [errBadCursor]. *)
Definition decodeCursor (s : string) (o : Order) : option Position :=
  raw ← string_of_bytes <$> DecodeString s;
  rest ← CutPrefix raw (cursorKind o +:+ "|");
  '(id, key) ← Cut rest "|";
  if bool_decide (key = "") then None
  else
    u ← uuid_parse id;
    match o with
    | ByName => Some (MkPosition key zero_rank zero_rank (IDFromUUID u))
    | ByDistance => d ← number key (S754_zero false) MaxFloat64; Some (MkPosition "" d zero_rank (IDFromUUID u))
    | ByMatch => m ← number key (S754_zero false) (float_of 1); Some (MkPosition "" zero_rank m (IDFromUUID u))
    end.
End Cursors.

(** ** The handlers *)

Definition ListCities (ctx : Ctx) : Response (list api_City) := Answer 200 (toAPICity <$> Cities).

Section Handlers.
Context `{UnicodeLib} `{TzLib} `{!SearchLib} `{UuidLib} `{FloatText} (ctx : Ctx) (db : DiscDB) (now : time).

Definition listing_item (s : Search) (f : Found) : BranchListing :=
  let l := fd_Listing f in
  MkBranchListing (value (l_Branch l)) (APIText (l_Name l)) (toAPICity (l_City l)) (l_District l) (l_Address l)
    (MkApiPoint (lat (l_Location l)) (lng (l_Location l))) (toAPIMoney (fd_PriceFrom f)) (fd_OpenNow f)
    (match s_Near s with Some _ => Some (round_int (fd_DistanceM f)) | None => None end).

Definition SearchBranches (p : SearchBranchesParams) : Response BranchListingPage :=
  answer ctx (
    let! s := searchOf p in
    let! after := match sp_Cursor p with
                  | None => Ok None
                  | Some c => match decodeCursor c (Order_of s) with Some pos => Ok (Some pos) | None => Err errBadCursor end
                  end in
    let! page := uc (Search_handler db now s after) in
    Ok (MkListingPage (listing_item s <$> rp_Found page) ((λ pos, encodeCursor pos (Order_of s)) <$> rp_Next page))).

Definition menu_service (m : MenuItem) : BranchService :=
  MkBranchService (value (mi_Service m)) (cat_code (mi_Category m)) (APIText (mi_Name m)) (Z.quot (mi_Duration m) Minute) (toAPIMoney (mi_PriceFrom m)).

Definition GetBranchPage (branch : UUID) : Response api_BranchPage :=
  answer ctx (
    let! p := uc (Branch_page db now (IDFromUUID branch)) in
    let l := fd_Listing (pg_Found p) in
    Ok (MkApiBranchPage (value (l_Branch l)) (APIText (l_Name l)) (toAPICity (l_City l)) (l_District l) (l_Address l)
          (MkApiPoint (lat (l_Location l)) (lng (l_Location l))) (l_Timezone l) (toAPIMoney (fd_PriceFrom (pg_Found p))) (fd_OpenNow (pg_Found p))
          (toAPIWeek (pg_Hours p)) (menu_service <$> pg_Menu p) (if bool_decide (l_Phone l = "") then None else Some (l_Phone l)))).
End Handlers.

(** ** Cursors read back *)

(** What the interface [UuidLib] is of package uuid: its text is digits and
    dashes. *)
Class UuidText `{UuidLib} := { uuid_no_bar u : 124 ∉ bytes (uuid_string u) }.

Lemma SFleb_number lo hi v : SFleb lo v = true → SFleb v hi = true → isFinite lo = true → isFinite hi = true → isFinite v = true.
Proof. destruct v as [s|[]| |s m e]; destruct lo, hi; done. Qed.

(** The part of a position its order's cursor carries. *)
Definition carried (p : Position) (o : Order) : Position :=
  match o with
  | ByName => MkPosition (p_NameAr p) zero_rank zero_rank (p_Branch p)
  | ByDistance => MkPosition "" (p_DistanceM p) zero_rank (p_Branch p)
  | ByMatch => MkPosition "" zero_rank (p_Score p) (p_Branch p)
  end.

(** A distance or a score PostgreSQL computes: a number in its range. *)
Definition in_bounds (lo hi v : float64) : Prop := valid_binary 53 1024 v = true ∧ SFleb lo v = true ∧ SFleb v hi = true.

(** A position a page can end at. *)
Definition carries (p : Position) (o : Order) : Prop :=
  match o with
  | ByName => p_NameAr p ≠ ""
  | ByDistance => in_bounds (S754_zero false) MaxFloat64 (p_DistanceM p)
  | ByMatch => in_bounds (S754_zero false) (float_of 1) (p_Score p)
  end.

Section RoundTrip.
Context `{UuidText} `{FloatTextLaws}.

Lemma raw_cursor p o : DecodeString (encodeCursor p o) = Some (bytes (cursorKind o +:+ "|" +:+ ID_String (p_Branch p) +:+ "|" +:+ cursor_key p o)).
Proof. unfold encodeCursor. rewrite DecodeString_Encode; [done|apply bytes_range]. Qed.

Lemma number_format lo hi v : isFinite lo = true → isFinite hi = true → in_bounds lo hi v →
  number (FormatFloat v) lo hi = Some v ∧ FormatFloat v ≠ "".
Proof.
  intros Hlo Hhi (Hv & Hge & Hle). assert (Hn : is_number v) by (split; [done|by eapply SFleb_number]). pose proof (parse_format v Hn) as Hp.
  unfold number. rewrite Hp, Hge, Hle. split; [done|]. intros E. by rewrite E, parse_nothing in Hp.
Qed.

Lemma number_spec s lo hi v : number s lo hi = Some v → SFleb lo v = true ∧ SFleb v hi = true.
Proof.
  unfold number. destruct (ParseFloat s) as [x|]; [|done]. destruct (SFleb lo x && SFleb x hi) eqn:E; [|done].
  intros [= ->]. by apply andb_true_iff in E.
Qed.

Lemma decode_encode p o : carries p o → decodeCursor (encodeCursor p o) o = Some (carried p o).
Proof.
  intros Hc. unfold decodeCursor. rewrite raw_cursor. cbn [fmap option_fmap option_map mbind option_bind]. rewrite string_of_bytes_bytes.
  rewrite <- !string_app_assoc, (string_app_assoc (cursorKind o) "|"), !string_app_assoc, <- (string_app_assoc (cursorKind o) "|").
  rewrite CutPrefix_self. cbn [mbind option_bind]. rewrite (Cut_char (byte_chr 124) (ID_String (p_Branch p)) (cursor_key p o) (uuid_no_bar _)). cbn [mbind option_bind].
  assert (Hid : uuid_parse (ID_String (p_Branch p)) = Some (value (p_Branch p))) by apply uuid_parse_string.
  destruct o; cbn [carries cursor_key carried] in *.
  - rewrite bool_decide_eq_false_2 by done. rewrite Hid. by destruct (p_Branch p).
  - destruct (number_format (S754_zero false) MaxFloat64 _ eq_refl eq_refl Hc) as [Hn Hne]. rewrite bool_decide_eq_false_2 by done. rewrite Hid. cbn [mbind option_bind].
    rewrite Hn. by destruct (p_Branch p).
  - destruct (number_format (S754_zero false) (float_of 1) _ eq_refl eq_refl Hc) as [Hn Hne]. rewrite bool_decide_eq_false_2 by done. rewrite Hid. cbn [mbind option_bind].
    rewrite Hn. by destruct (p_Branch p).
Qed.

Lemma decode_other p o o' : o ≠ o' → decodeCursor (encodeCursor p o) o' = None.
Proof.
  intros Hne. unfold decodeCursor. rewrite raw_cursor. cbn [fmap option_fmap option_map mbind option_bind]. rewrite string_of_bytes_bytes.
  destruct o, o'; done.
Qed.

(** What is accepted can be searched from: never NaN, never infinite. *)
Lemma decoded_sane c o p : decodeCursor c o = Some p →
  match o with
  | ByName => p_NameAr p ≠ ""
  | ByDistance => SFleb (S754_zero false) (p_DistanceM p) = true ∧ SFleb (p_DistanceM p) MaxFloat64 = true
  | ByMatch => SFleb (S754_zero false) (p_Score p) = true ∧ SFleb (p_Score p) (float_of 1) = true
  end.
Proof.
  unfold decodeCursor. intros (raw & _ & (rest & _ & ([id key] & _ & E)%bind_Some)%bind_Some)%bind_Some.
  case_bool_decide as Hk; [done|]. apply bind_Some in E as (u & _ & E). destruct o.
  - by injection E as <-.
  - apply bind_Some in E as (d & Hd & [= <-]). by apply number_spec in Hd.
  - apply bind_Some in E as (d & Hd & [= <-]). by apply number_spec in Hd.
Qed.
End RoundTrip.
