(* ===== verification/DiscClient.v ===== *)
(** * A client following the pages
      (src/internal/discovery/adapters/httpapi/handlers.go, SearchBranches)

    The last branch of a page becomes a cursor, the cursor the next page's
    start. A client that passes each [next_cursor] back sees exactly what the
    use case's pages hold. *)
From Stdlib Require Import SpecFloat.
From S2P Require Import Prelude GoTime GoText GoEncoding Shared Tables BizBase Discovery DiscStore DiscApp DiscFlow DiscPages Http DiscHttp.
Open Scope Z_scope.

(** What PostGIS and pg_trgm document: a distance is a number of metres, a
    similarity one from 0 to 1. *)
Class SearchBounds `{SearchLib} := {
  distance_number a b : in_bounds (S754_zero false) MaxFloat64 (distance a b);
  similarity_number a b : in_bounds (S754_zero false) (float_of 1) (word_similarity a b) }.

Definition with_cursor (p : SearchBranchesParams) (c : string) : SearchBranchesParams :=
  MkParams (sp_City p) (sp_Q p) (sp_Category p) (sp_OpenNow p) (sp_Lat p) (sp_Lng p) (sp_RadiusKm p) (Some c).

(** A cursor says where a page ended, exactly, and nothing else: reading
    the cursor of a position a page can end at - a name, a distance or a score
    in its range, down to the last bit - gives that position back, in the
    order it was written for; in any other order it is refused; and whatever
    text a client makes up, a position that is accepted holds a name, or a
    number in range, never NaN or an infinity. *)
Theorem cursor_round_trip `{UuidText} `{FloatTextLaws} p o :
  carries p o →
  decodeCursor (encodeCursor p o) o = Some (carried p o) ∧
  (∀ o', o ≠ o' → decodeCursor (encodeCursor p o) o' = None) ∧
  ∀ c o' p', decodeCursor c o' = Some p' →
    match o' with
    | ByName => p_NameAr p' ≠ ""
    | ByDistance => SFleb (S754_zero false) (p_DistanceM p') = true ∧ SFleb (p_DistanceM p') MaxFloat64 = true
    | ByMatch => SFleb (S754_zero false) (p_Score p') = true ∧ SFleb (p_Score p') (float_of 1) = true
    end.
Proof.
  intros Hc. split_and!; [by apply decode_encode|intros o' Hne; by apply decode_other|intros c o' p' Hd; by apply (decoded_sane c o')].
Qed.

Section client.
Context `{UnicodeLib} `{TzLib} `{SearchBounds} `{UuidText} `{FloatTextLaws} (ctx : Ctx) (db : DiscDB) (now : time).

(** Following the cursors; [None] of a refusal, or of more pages than [fuel]. *)
Fixpoint api_pages (fuel : nat) (p : SearchBranchesParams) : option (list (list BranchListing)) :=
  match fuel with
  | O => None
  | S fuel =>
      match SearchBranches ctx db now p with
      | Refusal _ _ => None
      | Answer _ page => match lp_NextCursor page with
                         | None => Some [lp_Data page]
                         | Some c => cons (lp_Data page) <$> api_pages fuel (with_cursor p c)
                         end
      end
  end.

Lemma found_reads dm sc rows xs x : res_mapM (toFound dm sc) rows = Ok xs → x ∈ xs →
  ar (l_Name (fd_Listing x)) ≠ "" ∧ ∃ r, fd_DistanceM x = dm r ∧ fd_Score x = sc r.
Proof.
  intros Hx Hin. apply res_mapM_ok in Hx. apply list_elem_of_lookup in Hin as [i Hi]. destruct (Forall2_lookup_r _ _ _ _ _ Hx Hi) as (row & _ & Hr).
  unfold toFound in Hr. apply res_bind_ok in Hr as (l & Hl & [= <-]). unfold toListing in Hl. apply res_bind_ok in Hl as (name & Hname & Hl).
  apply res_bind_ok in Hl as (c & _ & Hl). apply res_bind_ok in Hl as (loc & _ & [= <-]). cbn. split; [|by eexists].
  destruct (NewLocalizedText _ _) as [t|] eqn:E; [|done]. injection Hname as <-. by apply (NewLocalizedText_stored _ _ _ E).
Qed.

(** Every page ends at a position its cursor carries. *)
Lemma next_carries s after page pos :
  Search_handler db now s after = Ok page → rp_Next page = Some pos → carries pos (Order_of s) ∧ carried pos (Order_of s) = pos.
Proof.
  unfold Search_handler. intros Hs Hn. apply res_bind_ok in Hs as (t & _ & Hs). apply res_bind_ok in Hs as (xs & Hxs & Hs).
  destruct (_ <=? _)%nat; injection Hs as <-; [done|]. cbn [rp_Next] in Hn. apply fmap_Some in Hn as (x & Hlast & ->).
  assert (Hin : x ∈ xs) by (apply last_Some_elem_of, elem_of_take in Hlast as (i & Hi & _); by eapply list_elem_of_lookup_2).
  unfold search_listings in Hxs. unfold Order_of, next_position. destruct (s_Near s) as [near|].
  - apply res_bind_ok in Hxs as ([] & _ & Hxs). unfold Listings_Near in Hxs. apply res_bind_ok in Hxs as (rows & _ & Hxs).
    destruct (found_reads _ _ _ _ _ Hxs Hin) as (_ & r & -> & _). split; [apply distance_number|done].
  - destruct (negb _).
    + unfold Matching in Hxs. apply res_bind_ok in Hxs as (rows & _ & Hxs).
      destruct (found_reads _ _ _ _ _ Hxs Hin) as (_ & r & _ & ->). split; [apply similarity_number|done].
    + apply res_bind_ok in Hxs as ([] & _ & Hxs). unfold InCity in Hxs. destruct (f_City _); [|done]. apply res_bind_ok in Hxs as (rows & _ & Hxs).
      destruct (found_reads _ _ _ _ _ Hxs Hin) as (Hne & _). by split.
Qed.

(** The cursor of a request, as the handler reads it. *)
Definition starts_at (p : SearchBranchesParams) (s : Search) (after : option Position) : Prop :=
  match sp_Cursor p with None => after = None | Some c => decodeCursor c (Order_of s) = after ∧ is_Some after end.

Lemma api_pages_same fuel p s after :
  searchOf p = Ok s → starts_at p s after → api_pages fuel p = fmap (M := option) (fmap (M := list) (fmap (M := list) (listing_item s))) (pages db now s fuel after).
Proof.
  revert p after. induction fuel as [|fuel IH]; intros p after Hs Hstart; [done|]. cbn [api_pages pages]. unfold SearchBranches. rewrite Hs. cbn [res_bind].
  assert (Hafter : match sp_Cursor p with
    | None => Ok None
    | Some c => match decodeCursor c (Order_of s) with Some pos => Ok (Some pos) | None => Err errBadCursor end
    end = Ok after :> res http_error (option Position)).
  { unfold starts_at in Hstart. destruct (sp_Cursor p); [|by subst]. destruct Hstart as [-> [pos ->]]. done. }
  rewrite Hafter. cbn [res_bind]. destruct (Search_handler db now s after) as [page|] eqn:Epage; [|done].
  cbn [uc res_map_err res_bind answer lp_NextCursor lp_Data]. destruct (rp_Next page) as [pos|] eqn:Enext; [|done]. cbn [fmap option_fmap option_map].
  destruct (next_carries _ _ _ _ Epage Enext) as [Hc He]. rewrite (IH (with_cursor p (encodeCursor pos (Order_of s))) (Some pos)).
  - by destruct (pages db now s fuel (Some pos)).
  - exact Hs.
  - unfold starts_at. cbn [with_cursor sp_Cursor]. rewrite decode_encode, He by done. by split.
Qed.
End client.

(** C34. A client that passes each page's [next_cursor] back sees everything
    its search finds: over copies built from any events, in any order, a
    search the use case refuses is a 400 that says why; any other ends after
    some pages of at most twenty, and together they list every branch that
    matches - listed, in the city or within the radius, selling the category,
    of that name, open if asked - exactly once, nearest, best match or
    alphabetically first, as its copy says. *)
Theorem client_sees_every_branch `{UnicodeLib} `{TzLib} `{SearchBounds} `{UuidText} `{FloatTextLaws} ctx es now p s :
  Forall event_ok es → searchOf p = Ok s → sp_Cursor p = None →
  let db := deliver_all empty_disc_db es in
  match search_refusal s with
  | Some e => SearchBranches ctx db now p = Refusal (problem ctx (UseCase e)) no_headers ∧ pb_Status (problem ctx (UseCase e)) = 400
  | None => ∃ rows shown,
      api_pages ctx db now (S (length rows)) p = Some shown ∧ Forall (λ page, length page ≤ PageSize)%nat shown ∧
      Forall2 (λ r item, ∃ x, shows db now s r x ∧ item = listing_item s x) rows (concat shown) ∧
      (∀ r, r ∈ rows ↔ branch_listings db !! lr_BranchID r = Some r ∧ finds db now s r = true) ∧
      NoDup (lr_BranchID <$> rows) ∧ StronglySorted (λ a b, better_first s b a = false) rows
  end.
Proof.
  intros Hes Hs Hcur db. pose proof (pages_complete es now s Hes) as Hp. cbn zeta in Hp. fold db in Hp.
  destruct (search_refusal s) as [e|] eqn:Er.
  - split.
    + unfold SearchBranches. rewrite Hs, Hcur. cbn [res_bind]. by rewrite Hp.
    + unfold search_refusal in Er. destruct (_ && _); [by injection Er as <-|]. destruct (s_Near s); [destruct (bad_radius _); [|done]|destruct (_ && _); [|done]];
        by injection Er as <-.
  - destruct Hp as (rows & pss & Hpss & Hall & Hsize & Hrows & Hnd & Hso). exists rows, (fmap (M := list) (listing_item s) <$> pss).
    split_and!; [| | |done..].
    + rewrite (api_pages_same ctx db now _ p s None Hs); [by rewrite Hpss|]. unfold starts_at. by rewrite Hcur.
    + apply Forall_fmap. eapply Forall_impl; [exact Hsize|]. intros page Hle. cbn. by rewrite length_fmap.
    + assert (Ec : concat (fmap (M := list) (listing_item s) <$> pss) = listing_item s <$> concat pss).
      { clear. induction pss as [|ps pss IH]; [done|]. cbn [fmap list_fmap concat]. by rewrite fmap_app, <- IH. }
      rewrite Ec. apply Forall2_fmap_r. eapply Forall2_impl; [exact Hall|]. intros r x Hx. by exists x.
Qed.

(** ** An example: the two branches of Riyadh, over HTTP *)

Module ClientDemo.
Import Discovery.Demo DiscPages.DiscDemo.

(** A text for floats: sign, mantissa, and the exponent after p or q. *)
Definition exact_text : FloatText := {|
  FormatFloat f := match f with
                   | S754_zero s => if s then "-0" else "+0"
                   | S754_finite s m e => (if s then "-" else "+") +:+ itoa (Z.pos m) +:+ (if e <? 0 then "q" else "p") +:+ itoa (Z.abs e)
                   | _ => "x"
                   end;
  ParseFloat t :=
    if bool_decide (t = "+0") then Some (S754_zero false) else if bool_decide (t = "-0") then Some (S754_zero true)
    else
      let s := bool_decide (take_bytes 1 t = "-") in
      let number m e (negative : bool) :=
        match digits_value 0 (bytes m), digits_value 0 (bytes e) with
        | Some (Z.pos m), Some e => Some (S754_finite s m (if negative then - e else e))
        | _, _ => None
        end in
      match Cut (drop_bytes 1 t) "p" with
      | Some (m, e) => number m e false
      | None => match Cut (drop_bytes 1 t) "q" with Some (m, e) => number m e true | None => None end
      end |}.

Lemma itoa_no_letter c n : 57 < byte_of c → 0 ≤ n → byte_of c ∉ bytes (itoa n).
Proof. intros Hc Hn Hin. destruct (itoa_digits n Hn) as (_ & F & _). rewrite Forall_forall in F. specialize (F _ Hin). cbn in F. lia. Qed.

Lemma Cut_absent c s : byte_of c ∉ bytes s → Cut s (str1 c) = None.
Proof.
  induction s as [|x s IH]; intros Hs; [done|]. cbn [bytes] in Hs. apply not_elem_of_cons in Hs as [Hx Hs]. cbn [Cut].
  change (CutPrefix (String x s) (str1 c)) with (CutPrefix (String x s) (String c "")). rewrite CutPrefix_cons_ne; [by rewrite IH|]. intros ->. by apply Hx.
Qed.

Lemma exact_text_reads f : isFinite f = true → @ParseFloat exact_text (@FormatFloat exact_text f) = Some f.
Proof.
  destruct f as [s|s| |s m e]; [by destruct s|done|done|]. intros _. cbn [ParseFloat FormatFloat exact_text].
  destruct (itoa_digits (Z.pos m) ltac:(lia)) as (Em & Fm & Nm). destruct (itoa_digits (Z.abs e) ltac:(lia)) as (Ee & Fe & Ne).
  set (sign := if s then "-" else "+"). set (rest := itoa (Z.pos m) +:+ (if e <? 0 then "q" else "p") +:+ itoa (Z.abs e)).
  assert (Hsign : ∃ c, sign = str1 c ∧ c = byte_chr (if s then 45 else 43)) by (destruct s; by eexists). destruct Hsign as (c & Hsign & Hc).
  assert (Hnot : ∀ c', sign +:+ rest ≠ String c' "0").
  { intros c' E. rewrite Hsign in E. injection E as _ E. apply (f_equal bytes) in E. unfold rest in E. rewrite !bytes_app in E.
    destruct (bytes (itoa (Z.pos m))) as [|b l] eqn:Eb; [done|]. injection E as _ E. apply app_eq_nil in E as [_ E]. apply app_eq_nil in E as [E _].
    by destruct (e <? 0). }
  rewrite !bool_decide_eq_false_2 by apply Hnot.
  assert (Htake : bool_decide (take_bytes 1 (sign +:+ rest) = "-") = s) by (rewrite Hsign; change (take_bytes 1 (str1 c +:+ rest)) with (str1 c); rewrite Hc; by destruct s).
  assert (Hdrop : drop_bytes 1 (sign +:+ rest) = rest) by (by rewrite Hsign). rewrite Htake, Hdrop. unfold rest. destruct (Z.ltb_spec e 0) as [He|He].
  - assert (Hp : Cut (itoa (Z.pos m) +:+ "q" +:+ itoa (Z.abs e)) "p" = None).
    { apply (Cut_absent (byte_chr 112)). rewrite !bytes_app, !not_elem_of_app.
      split_and!; [apply itoa_no_letter; done| |apply itoa_no_letter; [done|lia]]. by intros [=]%list_elem_of_singleton. }
    pose proof (Cut_char (byte_chr 113) (itoa (Z.pos m)) (itoa (Z.abs e)) ltac:(apply itoa_no_letter; done)) as Hq.
    change (str1 (byte_chr 113)) with "q" in Hq.
    rewrite Hp, Hq, Em, Ee. do 2 f_equal. lia.
  - pose proof (Cut_char (byte_chr 112) (itoa (Z.pos m)) (itoa (Z.abs e)) ltac:(apply itoa_no_letter; done)) as Hp.
    change (str1 (byte_chr 112)) with "p" in Hp.
    rewrite Hp, Em, Ee. do 2 f_equal. lia.
Qed.

#[export] Existing Instances decimal_ids exact_text.

#[export] Instance exact_laws : FloatTextLaws.
Proof. constructor; [intros f [_ Hf]; by apply exact_text_reads|done]. Qed.

#[export] Instance decimal_text : UuidText.
Proof.
  constructor. intros u. enough (H : Forall (λ b, 48 ≤ b ≤ 57) (bytes (uuid_string u))) by (intros Hin; rewrite Forall_forall in H; specialize (H _ Hin); cbn in H; lia).
  assert (He : ∀ d, Forall (λ b, 48 ≤ b ≤ 57) (bytes (DecimalString.NilEmpty.string_of_uint d))) by (induction d; cbn; repeat constructor; done || lia).
  cbn. destruct (N.to_uint u) eqn:E; cbn [DecimalString.NilZero.string_of_uint]; [apply (bool_decide_eq_true_1 (Forall (λ b, 48 ≤ b ≤ 57) _)); vm_compute; reflexivity|apply He..].
Qed.

#[export] Instance flat_bounds : SearchBounds.
Proof. by constructor. Qed.

Definition riyadh_params : SearchBranchesParams := MkParams (Some "riyadh") None None None None None None None.
Definition anyone : Ctx := MkCtx "R1" None.
Definition copies : DiscDB := deliver_all empty_disc_db DiscDemo.events.

(** Twenty-one branches: two pages. *)
Definition many : list disc_event :=
  concat ((λ n, [DiscDemo.shop (100 + n) 1 true ("صالون " +:+ itoa n); DiscDemo.haircut (200 + n) (100 + n) 4000]) <$> seqZ 0 21).
End ClientDemo.

Section witnesses.
Import Discovery.Demo DiscPages.DiscDemo ClientDemo.

Lemma names_stored n : n ∈ seqZ 0 21 → NewLocalizedText ("صالون " +:+ itoa n) "" = Ok (MkLocalized ("صالون " +:+ itoa n) "").
Proof.
  intros Hn%elem_of_seqZ. set (name := "صالون " +:+ itoa n).
  pose (p := λ n, match NewLocalizedText ("صالون " +:+ itoa n) "" with Ok t => bool_decide (t = MkLocalized ("صالون " +:+ itoa n) "") | Err _ => false end).
  assert (Hp : p n = true) by (apply (below_forall 21); [vm_compute; reflexivity|lia]). unfold p in Hp. fold name in Hp.
  destruct (NewLocalizedText name "") as [t|]; [|done]. by apply bool_decide_eq_true in Hp as ->.
Qed.

Lemma many_ok : Forall event_ok many.
Proof.
  unfold many. apply Forall_concat, Forall_fmap, Forall_forall. intros n Hn. cbn beta. constructor; [|constructor; [|constructor]].
  - split_and!; [by apply names_stored|vm_compute; reflexivity|by eexists].
  - vm_compute. reflexivity.
Qed.

Lemma client_sees_every_branch_witness :
  (map length <$> api_pages anyone (deliver_all empty_disc_db many) 0 3 riyadh_params) = Some [20%nat; 1%nat] ∧
  ∃ rows : list ListingRow, NoDup (map lr_BranchID rows) ∧ Forall (λ r, finds (deliver_all empty_disc_db many) 0 in_riyadh r = true) rows.
Proof.
  split; [vm_compute; reflexivity|].
  pose proof (client_sees_every_branch anyone many 0 riyadh_params in_riyadh many_ok eq_refl eq_refl) as Hp. cbn zeta in Hp.
  assert (E : search_refusal in_riyadh = None) by (vm_compute; reflexivity). rewrite E in Hp. destruct Hp as (rows & shown & _ & _ & _ & Hrows & Hnd & _).
  exists rows. split; [exact Hnd|]. apply Forall_forall. intros r Hr. apply Hrows, Hr.
Defined.

Lemma cursor_round_trip_witness :
  ∃ c, c = encodeCursor (MkPosition "" (S754_finite false 7881299347898368 (-51)) zero_rank (MkID 42)) ByDistance ∧
    decodeCursor c ByDistance = Some (MkPosition "" (S754_finite false 7881299347898368 (-51)) zero_rank (MkID 42)) ∧ decodeCursor c ByMatch = None.
Proof.
  eexists. split; [reflexivity|].
  destruct (cursor_round_trip (MkPosition "" (S754_finite false 7881299347898368 (-51)) zero_rank (MkID 42)) ByDistance) as (H1 & H2 & _).
  - cbn [carries p_DistanceM]. unfold in_bounds. split_and!; [vm_compute|vm_compute|vm_compute]; reflexivity.
  - split; [exact H1|]. apply H2. discriminate.
Defined.
End witnesses.
