(* ===== verification/HoursFlow.v ===== *)
(** * Discovery follows the opening hours
      (src/internal/scheduling/events, module.go, adapters/postgres/repository.go; src/cmd/server/main.go, subscribe)

    Scheduling publishes a branch's hours with every change; [main] hands
    them to discovery, for "open now". Whatever order they arrive in and
    however often, a branch is open to customers exactly when its calendar
    says so.

    Discovery's names are used in full where they clash with scheduling's. *)
From S2P Require Import Prelude GoTime GoText Shared Tables SchedWeekly SchedDate Spans SchedCalendar SchedWindows SchedStore SchedApp Outbox.
From S2P Require BizBase OutboxFlow Discovery DiscStore DiscApp DiscFlow DiscQueue Http SchedHttp DiscHttp.
Open Scope Z_scope.

(** ** The contract (events.go) *)

Definition TypeOpeningHoursChanged : string := "scheduling.opening_hours_changed".

Record HoursInterval := MkHoursInterval { hi_Weekday : Z; hi_StartMinute : Z; hi_Minutes : Z }.
Record CalendarPayload := MkCalendarPayload { cp_Version : Z; cp_Hours : list HoursInterval }.
Record HoursPayload := MkHoursPayload { hp_BusinessID : UUID; hp_BranchID : UUID; hp_ChangedAt : time; hp_Calendar : CalendarPayload }.

(** What the outbox is handed of a recorded event ([publish], repository.go). *)
Definition hours_payload (e : OpeningHoursChangedEvent) : HoursPayload :=
  MkHoursPayload (value (ohc_Business e)) (value (ohc_Branch e)) (ohc_At e)
    (MkCalendarPayload (ohc_Version e) ((λ i, MkHoursInterval (Day i) (Start i) (Minutes i)) <$> intervals (ohc_Hours e))).

Definition hours_event (id : UUID) (e : OpeningHoursChangedEvent) : Event HoursPayload :=
  MkEvent id TypeOpeningHoursChanged (ohc_At e) (hours_payload e).

(** ** Reading it (module.go) *)

Record OpeningHoursChanged := MkOpeningHoursChanged {
  oh_BusinessID : BusinessID; oh_BranchID : BranchID; oh_Version : Z; oh_Open : list (Z * Z); oh_At : time }.

(** [None] is any error of the decoding. *)
Definition decodeOpeningHoursChanged (e : Event HoursPayload) : option OpeningHoursChanged :=
  let p := ev_Payload e in
  let c := hp_Calendar p in
  if cp_Version c <? 1 then None
  else
    match NewWeeklyHours ((λ i, MkWeekly (hi_Weekday i) (hi_StartMinute i) (hi_Minutes i)) <$> cp_Hours c) with
    | Err _ => None
    | Ok week =>
        Some (MkOpeningHoursChanged (IDFromUUID (hp_BusinessID p)) (IDFromUUID (hp_BranchID p)) (cp_Version c)
                ((λ i, (weekStart i, int64 (weekStart i + Minutes i))) <$> intervals week) (ev_OccurredAt e))
    end.

(** The handler [OnOpeningHoursChanged] subscribes. *)
Definition hours_handler {W} (fn : W → OpeningHoursChanged → bool * W) : Handler HoursPayload W :=
  λ w e, match decodeOpeningHoursChanged e with None => (false, w) | Some h => fn w h end.

Definition OnOpeningHoursChanged {W} (b : Bus HoursPayload W) (name : string) (fn : W → OpeningHoursChanged → bool * W) : option (Bus HoursPayload W) :=
  Subscribe b name TypeOpeningHoursChanged (hours_handler fn).

(** [discovery.OpeningHours(e)]. *)
Definition to_discovery (e : OpeningHoursChanged) : DiscFlow.disc_event :=
  DiscFlow.EvHours (DiscApp.MkHoursEvent (oh_BusinessID e) (oh_BranchID e) (oh_Version e) (oh_Open e) (oh_At e)).

Definition keep_hours `{Discovery.UnicodeLib} (db : DiscStore.DiscDB) (e : OpeningHoursChanged) : bool * DiscStore.DiscDB :=
  match DiscFlow.keep_event db (to_discovery e) with Ok db' => (true, db') | Err _ => (false, db) end.

(** ** What is published *)

(** Every event says valid hours under a version, and the newest of a branch
    says what its calendar holds. *)
Record hours_log (db : SchedDB) : Prop := {
  hl_event e : e ∈ outbox db → week_ok (ohc_Hours e) ∧ 0 < ohc_Version e ≤ max_int32;
  hl_newest b br row : branch_calendars db !! (b, br) = Some row →
    ∃ e cal, e ∈ outbox db ∧ event_key e = (b, br) ∧ ohc_Version e = row_version row ∧ Calendars_Get db b br = Ok cal ∧ cal_hours cal = ohc_Hours e }.

Lemma Calendars_Get_ext db db' : branch_calendars db' = branch_calendars db → opening_hours db' = opening_hours db →
  ∀ b br, Calendars_Get db' b br = Calendars_Get db b br.
Proof. intros E1 E2 b br. unfold Calendars_Get, loadCalendar. by rewrite E1, E2. Qed.

Lemma hours_log_same db db' :
  branch_calendars db' = branch_calendars db → opening_hours db' = opening_hours db → outbox db' = outbox db → hours_log db → hours_log db'.
Proof.
  intros E1 E2 E3 [He Hn]. constructor; rewrite E3; [done|]. intros b br row Hrow. rewrite E1 in Hrow.
  destruct (Hn b br row Hrow) as (e & cal & Hin & Hk & Hv & HG & Hh). exists e, cal. split_and!; [done..| |done]. by rewrite (Calendars_Get_ext db db').
Qed.

Lemma sched_step_log db db' : db_ok db → sched_step db db' → hours_log db → hours_log db'.
Proof.
  intros Hok Hstep Hl. destruct Hstep as [A now ref expected l cal H|A now ref expected l ovs visit order s Hv Ho H
    |A now newID actor b st from to reason t H|A actor b st id H].
  - unfold SetOpeningHours_handler in H. apply res_bind_ok in H as ([] & _ & H). apply res_bind_ok in H as (w & Hw & H).
    apply NewWeeklyHours_week_ok in Hw. set (b := br_Business ref) in *. set (br := br_Branch ref) in *.
    pose proof (set_hours_effect db b br expected w now Hok Hw) as He. cbv zeta in He. rewrite H in He.
    destruct (set_hours_keeps _ _ _ _ _ _ _ _ Hok Hw H) as [_ HG']. destruct He as (_ & Hlt & -> & rows & Hrows & Edb).
    pose proof (current_version_range db (b, br) Hok) as Hr. set (cur := current_version _ _) in *.
    set (ev := hours_change b br w (cur + 1) (Truncate now Microsecond)) in *.
    assert (Eo : outbox db' = outbox db ++ [ev]) by (by rewrite Edb).
    constructor; rewrite Eo.
    + intros e [He|He]%elem_of_app; [by apply (hl_event _ Hl)|]. apply list_elem_of_singleton in He as ->. cbn. split; [done|lia].
    + intros b' br' row Hrow. destruct (decide ((b', br') = (b, br))) as [[= -> ->]|Hne].
      * exists ev, (RehydrateBranchCalendar b br w (cur + 1) (Truncate now Microsecond)). rewrite Edb in Hrow. cbn [branch_calendars] in Hrow.
        rewrite lookup_insert_eq in Hrow. injection Hrow as <-. split_and!; [apply elem_of_app; right; by left|done|done|exact HG'|done].
      * assert (Hrow' : branch_calendars db !! (b', br') = Some row).
        { rewrite Edb in Hrow. cbn [branch_calendars] in Hrow. by rewrite lookup_insert_ne in Hrow. }
        destruct (hl_newest _ Hl _ _ _ Hrow') as (e & cal & Hin & Hk & Hv & HG & Hh). exists e, cal.
        split_and!; [apply elem_of_app; by left|done|done| |done]. rewrite Edb. unfold Calendars_Get, loadCalendar in *.
        cbn [branch_calendars opening_hours]. by rewrite !lookup_insert_ne.
  - unfold SetSchedule_handler in H. apply res_bind_ok in H as ([] & _ & H). apply res_bind_ok in H as (w & Hw & H).
    apply NewWeeklyHours_week_ok in Hw.
    destruct (set_schedule_effect _ _ _ _ _ _ _ _ _ _ Hok Hw Hv Ho _ _ H) as (_ & _ & _ & _ & _ & rows & ovs' & _ & _ & _ & ->). by apply (hours_log_same db).
  - unfold AddTimeOff_handler in H. apply res_bind_ok in H as ([] & _ & H). apply res_bind_ok in H as (t' & _ & H).
    apply res_bind_ok in H as (db1 & H & [= _ <-]). apply TimeOffs_Add_ok in H as (_ & _ & _ & ->); [|done]. by apply (hours_log_same db).
  - unfold DeleteTimeOff_handler in H. apply res_bind_ok in H as ([] & _ & H). apply TimeOffs_Delete_ok in H as [_ ->]. by apply (hours_log_same db).
Qed.

Lemma sched_reachable_log db : sched_reachable db → hours_log db.
Proof.
  intros Hr. enough (db_ok db ∧ hours_log db) by tauto. eapply (rtc_ind_r (λ db, db_ok db ∧ hours_log db) empty_db); [|intros x y _ Hs [H1 H2]|exact Hr].
  - split; [apply empty_db_ok|]. constructor; [by intros ? ?%not_elem_of_nil|done].
  - split; [by eapply sched_step_keeps|by eapply sched_step_log].
Qed.

(** ** What is kept *)

(** The spans of a week, in minutes after Sunday 00:00. *)
Definition spans (w : WeeklyHours) : list (Z * Z) := (λ i, (Day i * 1440 + Start i, Day i * 1440 + Start i + Minutes i)) <$> intervals w.

Lemma decode_published n e : week_ok (ohc_Hours e) → 0 < ohc_Version e →
  decodeOpeningHoursChanged (hours_event n e) =
    Some (MkOpeningHoursChanged (ohc_Business e) (ohc_Branch e) (ohc_Version e) (spans (ohc_Hours e)) (ohc_At e)).
Proof.
  intros Hw Hv. unfold decodeOpeningHoursChanged, hours_event, hours_payload. cbn [ev_Payload hp_Calendar cp_Version cp_Hours hp_BusinessID hp_BranchID ev_OccurredAt].
  rewrite (proj2 (Z.ltb_ge _ _)) by lia. rewrite <- list_fmap_compose. rewrite (list_fmap_ext _ id) by (by intros ? [] ?). rewrite list_fmap_id.
  rewrite NewWeeklyHours_again by done. f_equal.
  assert (Es : (λ i, (weekStart i, int64 (weekStart i + Minutes i))) <$> intervals (ohc_Hours e) = spans (ohc_Hours e)).
  { apply list_fmap_ext. intros k i Hi%list_elem_of_lookup_2. destruct Hw as [[Hv' _] _]. rewrite Forall_forall in Hv'. specialize (Hv' i Hi).
    destruct (weekStart_valid i Hv') as [Ew _]. destruct (week_sum_exact i Hv') as [-> _]. by rewrite Ew. }
  rewrite Es. by destruct (ohc_Business e), (ohc_Branch e).
Qed.

Lemma span_bounds w s : week_ok w → s ∈ spans w → 0 ≤ s.1 < 10080 ∧ s.1 + 5 ≤ s.2 ≤ s.1 + 1440.
Proof.
  intros [[Hv _] _] (i & -> & Hi)%list_elem_of_fmap. rewrite Forall_forall in Hv. destruct (Hv i Hi) as (? & ? & _ & ? & _). cbn. lia.
Qed.

(** Discovery accepts it. *)
Lemma kept_row h w : week_ok w → oh_Open h = spans w → 0 < oh_Version h ≤ max_int32 →
  DiscFlow.hours_of (to_discovery h) = Some (DiscStore.MkHoursRow (oh_BranchID h) (oh_BusinessID h) (oh_Version h) (spans w) (stored_time (oh_At h)) (spans w)).
Proof.
  intros Hw Eo Hv. unfold DiscFlow.hours_of, to_discovery, DiscFlow.week_row. cbn [DiscApp.he_Open DiscApp.he_Version DiscApp.he_BranchID DiscApp.he_BusinessID DiscApp.he_At].
  rewrite Eo. assert (Hb : existsb DiscStore.bad_hours (spans w) = false).
  { apply existsb_elem_false. intros s Hs. destruct (span_bounds w s Hw Hs). unfold DiscStore.bad_hours, Discovery.MinutesPerWeek. rewrite !orb_false_iff, !Z.ltb_ge, Z.leb_gt. lia. }
  rewrite Hb. cbn [negb ensure res_bind].
  assert (Ht : DiscStore.toInt32 (oh_Version h) = Ok (oh_Version h)).
  { unfold DiscStore.toInt32. rewrite (proj2 (Z.ltb_ge (oh_Version h) _)), (proj2 (Z.ltb_ge max_int32 _)) by lia. done. }
  rewrite Ht. cbn [res_bind]. unfold DiscStore.hours_checks. cbn [DiscStore.hr_Version DiscStore.hr_Open].
  rewrite (proj2 (Z.ltb_lt 0 _)) by lia. cbn [andb].
  assert (Hf : forallb (λ o, (o.2 <=? o.1) || (0 <=? o.1) && (o.2 <=? 2 * 10080)) (spans w) = true).
  { apply forallb_forall. intros s Hs%list_elem_of_In. destruct (span_bounds w s Hw Hs). apply orb_true_iff. right. rewrite andb_true_iff, !Z.leb_le. lia. }
  by rewrite Hf.
Qed.

(** ** Open now *)

Lemma week_minute_range loc t : 0 ≤ DiscStore.week_minute loc t < 10080.
Proof.
  unfold DiscStore.week_minute, local_hour, local_minute, secs_per_day. pose proof (weekday_range (local_day loc t)).
  Z.to_euclidean_division_equations. lia.
Qed.

Lemma open_at_spans w loc t : week_ok w →
  DiscStore.open_at (spans w) t loc = true ↔ ∃ i, i ∈ intervals w ∧ covers_minute i (DiscStore.week_minute loc t).
Proof.
  intros Hw. unfold DiscStore.open_at. pose proof (week_minute_range loc t) as Hm. set (m := DiscStore.week_minute loc t) in *. clearbody m.
  unfold DiscStore.contains_minute. rewrite orb_true_iff, !existsb_elem. unfold covers_minute.
  assert (Hi : ∀ i, i ∈ intervals w → 0 ≤ Day i * 1440 + Start i < 10080 ∧ 5 ≤ Minutes i ≤ 1440).
  { intros i Hi. destruct Hw as [[Hv _] _]. rewrite Forall_forall in Hv. destruct (Hv i Hi) as (? & ? & _ & ? & _). lia. }
  split.
  - intros [(s & (i & -> & Hin)%list_elem_of_fmap & Hc)|(s & (i & -> & Hin)%list_elem_of_fmap & Hc)]; exists i; (split; [done|]);
      cbn in Hc; bool_prop; destruct (Hi i Hin).
    + rewrite Z.mod_small; lia.
    + replace (m - (Day i * 1440 + Start i)) with (m + 10080 - (Day i * 1440 + Start i) + (-1) * 10080) by lia. rewrite Z.mod_add, Z.mod_small; lia.
  - intros (i & Hin & Hc). destruct (Hi i Hin) as [H1 H2]. destruct (Z.le_gt_cases (Day i * 1440 + Start i) m).
    + rewrite Z.mod_small in Hc by lia. left. eexists. split; [apply list_elem_of_fmap; by exists i|]. cbn. rewrite andb_true_iff, Z.leb_le, Z.ltb_lt. lia.
    + replace (m - (Day i * 1440 + Start i)) with (m + 10080 - (Day i * 1440 + Start i) + (-1) * 10080) in Hc by lia.
      rewrite Z.mod_add, Z.mod_small in Hc by lia. right. eexists. split; [apply list_elem_of_fmap; by exists i|]. cbn.
      rewrite andb_true_iff, Z.leb_le, Z.ltb_lt. lia.
Qed.

(** The page of a branch shows its week as its owner's screens do. *)
Lemma span_shown i : valid_interval i → DiscHttp.week_range (Day i * 1440 + Start i, Day i * 1440 + Start i + Minutes i) = (Day i, SchedHttp.clock_range i).
Proof.
  intros Hi. unfold DiscHttp.week_range, SchedHttp.clock_range. rewrite SchedHttp.Clock_valid by done. destruct Hi as (Hd & Hs & _ & Hm & _). cbn [fst snd].
  assert (Eq : Z.quot (Day i * 1440 + Start i) 1440 = Day i) by (Z.to_euclidean_division_equations; lia).
  assert (Er : Z.rem (Day i * 1440 + Start i) 1440 = Start i) by (Z.to_euclidean_division_equations; lia). rewrite Eq, Er.
  replace (Start i + (Day i * 1440 + Start i + Minutes i) - (Day i * 1440 + Start i)) with (Start i + Minutes i) by lia.
  rewrite (Z.rem_small (Day i) 7) by lia. unfold DiscHttp.clock, Http.formatClock.
  destruct (Z.eqb_spec (Start i + Minutes i) 1440) as [->|]; [done|]. by rewrite (Z.rem_mod_nonneg (Start i + Minutes i) 1440) by lia.
Qed.

Lemma week_shown w : week_ok w → DiscHttp.toAPIWeek (spans w) = SchedHttp.toAPIWeek w.
Proof.
  intros [[Hv _] _]. rewrite SchedHttp.toAPIWeek_days. unfold DiscHttp.toAPIWeek. apply list_fmap_ext. intros k d _. f_equal.
  assert (E : DiscHttp.week_range <$> spans w = (λ i, (Day i, SchedHttp.clock_range i)) <$> intervals w).
  { unfold spans. rewrite <- list_fmap_compose. apply list_fmap_ext. intros j i Hi%list_elem_of_lookup_2. rewrite Forall_forall in Hv. by apply span_shown, Hv. }
  rewrite E. clear. induction (intervals w) as [|i l IH]; [done|]. cbn [fmap list_fmap]. rewrite !filter_cons. cbn [fst].
  destruct (decide (Day i = d)); cbn [fmap list_fmap snd]; by rewrite <- IH.
Qed.

(** ** Through the outbox *)

Definition subs : list (string * string) := [("discovery.keep_hours", TypeOpeningHoursChanged)].

(** A release that runs discovery: it knows the handler, and no other writes
    discovery's tables. *)
Record runs_hours `{Discovery.UnicodeLib} (b : Bus HoursPayload DiscStore.DiscDB) : Prop := {
  rh_built : built b;
  rh_sub : "discovery.keep_hours" ∈ subscribers b TypeOpeningHoursChanged;
  rh_keep name h : handlers b !! name = Some h → if decide (name = "discovery.keep_hours") then h = hours_handler keep_hours else ∀ w e, (h w e).2 = w }.

Definition decoded (e : Event HoursPayload) : option DiscFlow.disc_event := to_discovery <$> decodeOpeningHoursChanged e.

Lemma hours_keeps `{Discovery.UnicodeLib} b : runs_hours b → DiscQueue.keeps_copies subs decoded b.
Proof.
  intros [Hb Hs Hk]. constructor; [done| |].
  - intros name ty [= -> ->]%list_elem_of_singleton. done.
  - intros name h Hh w e. pose proof (Hk name h Hh) as Hn. change (subs.*1) with ["discovery.keep_hours"].
    destruct (decide (name = "discovery.keep_hours")) as [E|E].
    + rewrite decide_True by (rewrite E; by left). subst h. unfold hours_handler, decoded. destruct (decodeOpeningHoursChanged e) as [c|]; [|done].
      cbn [fmap option_fmap option_map default from_option id]. unfold keep_hours, DiscFlow.deliver. by destruct (DiscFlow.keep_event w (to_discovery c)).
    + rewrite decide_False by (by rewrite list_elem_of_singleton). by apply Hn.
Qed.

(** The newest copy of a branch's hours is its calendar's. *)
Lemma hours_copied `{Discovery.UnicodeLib} db es b br cal :
  sched_reachable db → Calendars_Get db b br = Ok cal → (∀ e, e ∈ outbox db → ohc_Branch e = br → ohc_Business e = b) →
  (∀ ev, ev ∈ es → ∃ n e, e ∈ outbox db ∧ decoded (hours_event n e) = Some ev) →
  (∀ e, e ∈ outbox db → ∃ n ev, decoded (hours_event n e) = Some ev ∧ ev ∈ es) →
  match DiscStore.branch_hours (DiscFlow.deliver_all DiscStore.empty_disc_db es) !! br with
  | Some r => DiscStore.hr_Open r = spans (cal_hours cal) ∧ DiscStore.hr_Intervals r = spans (cal_hours cal)
  | None => spans (cal_hours cal) = []
  end.
Proof.
  intros Hreach Hcal Hone Hfrom Hto. pose proof (sched_reachable_ok _ Hreach) as Hok. pose proof (sched_reachable_log _ Hreach) as Hlog.
  rewrite DiscFlow.deliver_all_tables. cbn [DiscStore.branch_hours DiscStore.empty_disc_db].
  assert (Hrow : ∀ e, e ∈ outbox db → ∃ t, ∀ n ev, decoded (hours_event n e) = Some ev →
    DiscFlow.hours_of ev = Some (DiscStore.MkHoursRow (ohc_Branch e) (ohc_Business e) (ohc_Version e) (spans (ohc_Hours e)) t (spans (ohc_Hours e)))).
  { intros e He. destruct (hl_event _ Hlog e He) as [Hw Hv]. exists (stored_time (ohc_At e)). intros n ev. unfold decoded. rewrite decode_published by (done || lia).
    cbn [fmap option_fmap option_map]. intros <-%(inj Some).
    exact (kept_row (MkOpeningHoursChanged (ohc_Business e) (ohc_Branch e) (ohc_Version e) (spans (ohc_Hours e)) (ohc_At e)) (ohc_Hours e) Hw eq_refl Hv). }
  pose proof (DiscFlow.keep_all_spec DiscStore.hr_BranchID DiscStore.hr_Version (omap DiscFlow.hours_of es) br) as Hk.
  destruct (DiscFlow.keep_all _ _ _ _ !! br) as [r|].
  - destruct Hk as ((ev & Hev & Er)%list_elem_of_omap & Hbr & Hmax). destruct (Hfrom _ Hev) as (n & e & He & Hd).
    destruct (Hrow e He) as [t Ht]. rewrite (Ht _ _ Hd) in Er. injection Er as <-. cbn in Hbr, Hmax. pose proof (Hone e He Hbr) as Hb.
    assert (Hcur : ohc_Version e ∈ seqZ 1 (current_version (branch_calendars db) (b, br))).
    { rewrite <- (ok_events _ Hok). apply list_elem_of_fmap. exists e. split; [done|]. apply list_elem_of_filter. split; [|done]. unfold event_key. congruence. }
    assert (Hsome : ∃ row, branch_calendars db !! (b, br) = Some row).
    { unfold current_version in Hcur. destruct (branch_calendars db !! (b, br)) as [row|]; [by exists row|]. cbn in Hcur. apply elem_of_seqZ in Hcur. lia. }
    destruct Hsome as [row Erow]. destruct (hl_newest _ Hlog _ _ _ Erow) as (e' & cal' & He' & Hk' & Hv' & HG & Hh).
    rewrite Hcal in HG. injection HG as <-. injection Hk' as Hb' Hbr'. apply elem_of_seqZ in Hcur. unfold current_version in Hcur. rewrite Erow in Hcur. cbn in Hcur.
    assert (e = e') as <-.
    { destruct (Hto e' He') as (n' & ev' & Hd' & Hin'). destruct (Hrow e' He') as [t' Ht'].
      specialize (Hmax _ (proj2 (list_elem_of_omap _ _ _) (ex_intro _ ev' (conj Hin' (Ht' _ _ Hd')))) Hbr'). cbn in Hmax.
      pose proof (ok_events _ Hok (b, br)) as Hvs. unfold published_versions in Hvs.
      assert (Hnd : NoDup (ohc_Version <$> filter (λ x, event_key x = (b, br)) (outbox db))) by (rewrite Hvs; apply NoDup_seqZ).
      assert (Hin : e ∈ filter (λ x, event_key x = (b, br)) (outbox db)) by (apply list_elem_of_filter; split; [unfold event_key; congruence|done]).
      assert (Hin2 : e' ∈ filter (λ x, event_key x = (b, br)) (outbox db)) by (apply list_elem_of_filter; split; [unfold event_key; congruence|done]).
      apply list_elem_of_lookup in Hin as [i Ei]. apply list_elem_of_lookup in Hin2 as [j Ej].
      assert (i = j) as ->; [|congruence]. eapply NoDup_lookup; [exact Hnd|..]; rewrite list_lookup_fmap; [by rewrite Ei|]. rewrite Ej. cbn. f_equal. lia. }
    cbn. by rewrite Hh.
  - unfold Calendars_Get in Hcal. destruct (branch_calendars db !! (b, br)) as [row|] eqn:Erow; [|by injection Hcal as <-].
    destruct (hl_newest _ Hlog _ _ _ Erow) as (e' & _ & He' & [= _ Hbr'] & _). destruct (Hto e' He') as (n' & ev' & Hd' & Hin').
    destruct (Hrow e' He') as [t' Ht']. exfalso. eapply Hk; [apply list_elem_of_omap; exists ev'; split; [exact Hin'|exact (Ht' _ _ Hd')]|exact Hbr'].
Qed.

(** C33. Customers are told a branch is open exactly when its calendar says so.
    Let opening hours be set in any way, their events be published with the
    changes, and the queue run them in any order, with failures, repeats and
    releases side by side. Once it is settled, a listed branch is "open now"
    at a moment exactly when the calendar's hours - as scheduling reads them
    back - cover that minute of the branch's own week, nights past Saturday
    midnight included; a branch that never set hours is closed; and the hours
    its page shows are the calendar's, day by day as the owner's screens show
    them. *)
Theorem open_now_follows_hours `{Discovery.UnicodeLib} `{BizBase.TzLib} max (released : Bus HoursPayload DiscStore.DiscDB → Prop) db st b br cal :
  (∀ bus, released bus → runs_hours bus) → (0 < max)%nat → sched_reachable db → reachable max released DiscStore.empty_disc_db st →
  (∀ e, e ∈ outbox db → ∃ n job, job ∈ q_Events st ∧ ea_Event (job_Args job) = hours_event n e) →
  (∀ job, job ∈ q_Events st → ∃ n e, e ∈ outbox db ∧ ea_Event (job_Args job) = hours_event n e) →
  (∀ job, job ∈ q_Events st → job_State job = Completed) →
  (∀ d, d ∈ q_Deliveries st → da_Handler (job_Args (dv_Job d)) = "discovery.keep_hours" → job_State (dv_Job d) = Completed) →
  Calendars_Get db b br = Ok cal → (∀ e, e ∈ outbox db → ohc_Branch e = br → ohc_Business e = b) →
  let disc := q_World st in
  DiscHttp.toAPIWeek (from_option DiscStore.hr_Intervals [] (DiscStore.branch_hours disc !! br)) = SchedHttp.ao_Days (SchedHttp.toAPIOpeningHours cal) ∧
  ∀ r loc t, DiscStore.lr_BranchID r = br → BizBase.LoadLocation (DiscStore.lr_Timezone r) = Some loc →
    ∃ open, DiscStore.open_now disc r t = Ok open ∧
      (open = true ↔ ∃ i, i ∈ intervals (cal_hours cal) ∧ covers_minute i (DiscStore.week_minute loc t)).
Proof.
  intros Hrel Hmax Hreach Hr Hpub Honly Hfanned Hdone Hcal Hone.
  destruct (DiscQueue.settled_copies subs decoded max released (λ bus Hb, hours_keeps bus (Hrel bus Hb)) Hmax st Hr Hfanned) as (es & -> & Hfrom & Hto).
  { intros d Hd Hname. apply Hdone; [done|]. by apply list_elem_of_singleton in Hname. }
  pose proof (sched_reachable_log _ Hreach) as Hlog.
  pose proof (hours_copied db es b br cal Hreach Hcal Hone) as Hc.
  assert (Hw : week_ok (cal_hours cal)).
  { destruct (Calendars_Get_ok db b br (sched_reachable_ok _ Hreach)) as (cal' & HG & _ & _ & _ & _ & Hw). rewrite Hcal in HG. by injection HG as <-. }
  specialize (Hc ltac:(intros ev Hev; destruct (Hfrom ev Hev) as (job & Hj & Hd); destruct (Honly job Hj) as (n & e & He & Ee); exists n, e;
                       split; [exact He|by rewrite <- Ee])).
  specialize (Hc ltac:(intros e He; destruct (Hpub e He) as (n & job & Hj & Ee); destruct (hl_event _ Hlog e He) as [Hwe Hve];
                       exists n; eexists; split; [unfold decoded; rewrite decode_published by (done || lia); reflexivity|];
                       apply (Hto job); [exact Hj|rewrite Ee; unfold decoded; rewrite decode_published by (done || lia); reflexivity|rewrite Ee; by left])).
  split.
  - cbn [SchedHttp.toAPIOpeningHours SchedHttp.ao_Days]. rewrite <- week_shown by done. f_equal. destruct (DiscStore.branch_hours _ !! br); [by destruct Hc|by rewrite Hc].
  - intros r loc t Hid Hz. unfold DiscStore.open_now. rewrite Hid, Hz.
    destruct (DiscStore.branch_hours _ !! br) as [row|].
    + eexists. split; [done|]. destruct Hc as [-> _]. by apply open_at_spans.
    + eexists. split; [done|]. split; [done|]. intros (i & Hi & _). unfold spans in Hc. apply fmap_nil_inv in Hc. rewrite Hc in Hi. by apply not_elem_of_nil in Hi.
Qed.

(** ** The shop's hours, its events through the queue *)

Section demo.
#[local] Existing Instances Discovery.Demo.small_tables.

Definition hours_release : Bus HoursPayload DiscStore.DiscDB := default New (OnOpeningHoursChanged New "discovery.keep_hours" keep_hours).

Lemma hours_release_runs : runs_hours hours_release.
Proof.
  constructor.
  - unfold hours_release, OnOpeningHoursChanged. destruct (Subscribe New _ _ _) as [b|] eqn:E; [|constructor]. by eapply built_subscribe, E; constructor.
  - vm_compute. by left.
  - intros name h Hh. assert (E : handlers hours_release = <["discovery.keep_hours" := hours_handler keep_hours]> ∅) by reflexivity.
    rewrite E in Hh. apply lookup_insert_Some in Hh as [[<- <-]|[_ Hh]]; [done|]. by rewrite lookup_empty in Hh.
Qed.

Definition hours_published : Queue HoursPayload DiscStore.DiscDB :=
  publish (MkQueue [] [] DiscStore.empty_disc_db []) hours_release (imap (λ i e, hours_event (N.of_nat i) e) (outbox shop_db)) 5000.
Definition hours_settled : Queue HoursPayload DiscStore.DiscDB := OutboxFlow.drain 25 hours_release 6000 hours_published.

Lemma published_are (jobs : list (Job (eventArgs HoursPayload))) l :
  (λ job, ea_Event (job_Args job)) <$> jobs = imap (λ i e, hours_event (N.of_nat i) e) l →
  (∀ e, e ∈ l → ∃ n job, job ∈ jobs ∧ ea_Event (job_Args job) = hours_event n e) ∧
  (∀ job, job ∈ jobs → ∃ n e, e ∈ l ∧ ea_Event (job_Args job) = hours_event n e).
Proof.
  intros E. split.
  - intros e [i Hi]%list_elem_of_lookup. exists (N.of_nat i). pose proof (f_equal (.!! i) E) as Ei. cbn beta in Ei.
    rewrite list_lookup_fmap, list_lookup_imap, Hi in Ei. destruct (jobs !! i) as [job|] eqn:Ej; [|done]. exists job.
    split; [by eapply list_elem_of_lookup_2|]. by injection Ei.
  - intros job [i Hi]%list_elem_of_lookup. exists (N.of_nat i). pose proof (f_equal (.!! i) E) as Ei. cbn beta in Ei.
    rewrite list_lookup_fmap, list_lookup_imap, Hi in Ei. destruct (l !! i) as [e|] eqn:Ej; [|done]. exists e.
    split; [by eapply list_elem_of_lookup_2|]. by injection Ei.
Qed.

(** The branch's listing, in a zone three hours ahead. *)
Definition listed : DiscStore.ListingRow :=
  DiscStore.MkListingRow (MkID 2) (MkID 1) 1 true "حلاق" "" "riyadh" "" "" (float_of 24) (float_of 46) "" "Asia/Riyadh" 0 "".
#[local] Instance riyadh_zone : BizBase.TzLib := {| BizBase.LoadLocation n := if bool_decide (n = "Asia/Riyadh") then Some riyadh else None |}.

Lemma open_now_follows_hours_witness :
  ∃ open, DiscStore.open_now (q_World hours_settled) listed (riyadh_at 1 1020) = Ok open ∧ open = true ∧
    DiscHttp.toAPIWeek (from_option DiscStore.hr_Intervals [] (DiscStore.branch_hours (q_World hours_settled) !! MkID 2)) !! 4%nat
    = Some (Http.MkDayHours "thursday" [Http.MkRange "16:00" "02:00"]).
Proof.
  assert (Hr : reachable 25 (λ b, b = hours_release) DiscStore.empty_disc_db hours_settled).
  { eapply OutboxFlow.reachable_run; [apply OutboxFlow.drain_run; reflexivity|]. eapply reach_step; [constructor|]. by apply step_publish. }
  assert (Hmax : (0 < 25)%nat) by lia.
  assert (Hrel : ∀ b, b = hours_release → runs_hours b) by (intros b ->; exact hours_release_runs).
  assert (E : (λ job, ea_Event (job_Args job)) <$> q_Events hours_settled = imap (λ i e, hours_event (N.of_nat i) e) (outbox shop_db)) by (vm_compute; reflexivity).
  destruct (published_are _ _ E) as [Hpub Honly].
  assert (Hfan : ∀ job, job ∈ q_Events hours_settled → job_State job = Completed).
  { apply Forall_forall. apply (bool_decide_eq_true_1 (Forall (λ job, job_State job = Completed) _)). vm_compute. reflexivity. }
  assert (Hdone : ∀ d, d ∈ q_Deliveries hours_settled → da_Handler (job_Args (dv_Job d)) = "discovery.keep_hours" → job_State (dv_Job d) = Completed).
  { assert (Hall : Forall (λ d, job_State (dv_Job d) = Completed) (q_Deliveries hours_settled)).
    { apply (bool_decide_eq_true_1 (Forall (λ d, job_State (dv_Job d) = Completed) _)). vm_compute. reflexivity. }
    intros d Hd _. by apply (proj1 (Forall_forall _ _) Hall). }
  assert (Ec : ∃ cal, Calendars_Get shop_db (MkID 1) (MkID 2) = Ok cal ∧ intervals (cal_hours cal) = [MkWeekly 4 960 600]) by (eexists; vm_compute; split; reflexivity).
  destruct Ec as (cal & Ec & Ei).
  assert (Hone : ∀ e, e ∈ outbox shop_db → ohc_Branch e = MkID 2 → ohc_Business e = MkID 1).
  { intros e He _. revert e He. apply Forall_forall. apply (bool_decide_eq_true_1 (Forall (λ e, ohc_Business e = MkID 1) _)). vm_compute. reflexivity. }
  destruct (open_now_follows_hours 25 (λ b, b = hours_release) shop_db hours_settled (MkID 1) (MkID 2) cal Hrel Hmax shop_reachable Hr Hpub Honly Hfan Hdone Ec Hone)
    as [Hpage Hopen].
  destruct (Hopen listed riyadh (riyadh_at 1 1020) eq_refl eq_refl) as (open & Ho & Hiff). exists open. split; [exact Ho|]. split.
  - apply Hiff. rewrite Ei. exists (MkWeekly 4 960 600). split; [by left|]. unfold covers_minute. vm_compute. reflexivity.
  - rewrite Hpage. cbn [SchedHttp.toAPIOpeningHours SchedHttp.ao_Days]. unfold SchedHttp.toAPIWeek, SchedHttp.by_day. rewrite Ei. vm_compute. reflexivity.
Defined.
End demo.
