(* ===== verification/Notification.v ===== *)
(** * The notification module (src/internal/notification)

    The devices that receive a user's pushes, the copies of branches messages
    need, what a customer is told of a booking and in which words, and pushing
    an event to each device once. The push service is an argument: what it
    answers to a push. Registrations and events are taken statement by
    statement, so that others' statements may come in between. *)
From Stdlib Require Import Ascii.
From S2P Require Import Prelude GoTime GoText Shared Tables BizBase DiscStore.
Open Scope Z_scope.

(** ** Devices (domain/device.go) *)

Inductive notif_error := ErrNotFound | ErrBadToken | ErrBadPlatform | ErrUnknownBranch | ErrBadZone | ErrPush | ErrStorage.

#[export] Instance notif_error_eq_dec : EqDecision notif_error.
Proof. solve_decision. Defined.

Definition MaxDevicesPerUser : nat := 10.

Inductive DeviceTag := .
Definition DeviceID : Type := ID DeviceTag.

Inductive Platform := IOS | Android.

#[export] Instance Platform_eq_dec : EqDecision Platform.
Proof. solve_decision. Defined.

Definition Platform_string (p : Platform) : string := match p with IOS => "ios" | Android => "android" end.

Definition ParsePlatform (p : string) : res notif_error Platform :=
  if bool_decide (p = "ios") then Ok IOS else if bool_decide (p = "android") then Ok Android else Err ErrBadPlatform.

(** A push token, [Reveal]ed only to the push service. *)
Record Token := MkToken { Reveal : string }.

Definition minTokenLen : Z := 32.
Definition maxTokenLen : Z := 4096.

(** [^[A-Za-z0-9:_\-.]+$]. *)
Definition token_char (b : Z) : bool :=
  in_range 65 90 b || in_range 97 122 b || in_range 48 57 b || (b =? 58) || (b =? 95) || (b =? 45) || (b =? 46).
Definition tokenChars (s : string) : bool := negb (bool_decide (s = "")) && forallb token_char (bytes s).

Definition ParseToken (s : string) : res notif_error Token :=
  if (len s <? minTokenLen) || (maxTokenLen <? len s) || negb (tokenChars s) then Err ErrBadToken else Ok (MkToken s).

(** A token printed or logged, in any format but %q. *)
Definition redacted : string := "[redacted]".
Definition Token_LogValue (t : Token) : string := redacted.

Record Device := MkDevice {
  dev_ID : DeviceID; dev_User : UserID; dev_Token : Token; dev_Platform : Platform; dev_Locale : Language; dev_CreatedAt : time; dev_UpdatedAt : time }.

Record Branch := MkBranch { nb_ID : BranchID; nb_Version : Z; nb_Name : LocalizedText; nb_Timezone : string }.

(** ** What customers are told (domain/notice.go) *)

Inductive Kind := BookingRequested | BookingConfirmed | BookingDeclined | BookingExpired | BookingCancelled.

#[export] Instance Kind_eq_dec : EqDecision Kind.
Proof. solve_decision. Defined.

Definition Kind_string (k : Kind) : string :=
  match k with
  | BookingRequested => "booking_requested" | BookingConfirmed => "booking_confirmed" | BookingDeclined => "booking_declined"
  | BookingExpired => "booking_expired" | BookingCancelled => "booking_cancelled"
  end.

(** [None]: nothing to tell. *)
Definition CustomerNotice (what status cancelledBy : string) : option Kind :=
  if bool_decide (what = "booked") then
    if bool_decide (status = "confirmed") then Some BookingConfirmed
    else if bool_decide (status = "pending") then Some BookingRequested else None
  else if bool_decide (what = "confirmed") then Some BookingConfirmed
  else if bool_decide (what = "rejected") then Some BookingDeclined
  else if bool_decide (what = "expired") then Some BookingExpired
  else if bool_decide (what = "cancelled") then (if bool_decide (cancelledBy = "staff") then Some BookingCancelled else None)
  else None.

(** ** In which words (domain/messages.go) *)

Record message := MkMessage { title : string; body : string }.

Definition messages (k : Kind) (l : Language) : message :=
  match k, l with
  | BookingRequested, Arabic => MkMessage "تم إرسال طلب الحجز" "%[1]s، %[2]s. سنخبرك حين يرد الصالون."
  | BookingRequested, English => MkMessage "Booking request sent" "%[1]s, %[2]s. We'll let you know when the shop answers."
  | BookingConfirmed, Arabic => MkMessage "تم تأكيد حجزك" "%[1]s، %[2]s. نراك قريبًا."
  | BookingConfirmed, English => MkMessage "Booking confirmed" "%[1]s, %[2]s. See you there."
  | BookingDeclined, Arabic => MkMessage "لم يُقبل طلب الحجز" "تعذّر على %[1]s قبول حجزك %[2]s. جرّب وقتًا آخر."
  | BookingDeclined, English => MkMessage "Booking declined" "%[1]s can't take your booking for %[2]s. Try another time."
  | BookingExpired, Arabic => MkMessage "انتهت مهلة طلب الحجز" "لم يرد %[1]s على طلبك لموعد %[2]s في الوقت المحدد. جرّب وقتًا آخر."
  | BookingExpired, English => MkMessage "Booking request expired" "%[1]s didn't answer your request for %[2]s in time. Try another time."
  | BookingCancelled, Arabic => MkMessage "أُلغي موعدك" "ألغى %[1]s موعدك %[2]s."
  | BookingCancelled, English => MkMessage "Booking cancelled" "%[1]s cancelled your booking for %[2]s."
  end.

(** [fmt.Sprintf] of formats with only %[1]s and %[2]s. *)
Fixpoint sprintf2 (format a b : string) : string :=
  match format with
  | String "%"%char (String "["%char (String "1"%char (String "]"%char (String "s"%char rest)))) => a +:+ sprintf2 rest a b
  | String "%"%char (String "["%char (String "2"%char (String "]"%char (String "s"%char rest)))) => b +:+ sprintf2 rest a b
  | String c rest => String c (sprintf2 rest a b)
  | EmptyString => ""
  end.

Definition arabicWeekdays : list string := ["الأحد"; "الاثنين"; "الثلاثاء"; "الأربعاء"; "الخميس"; "الجمعة"; "السبت"].
Definition arabicMonths : list string :=
  ["يناير"; "فبراير"; "مارس"; "أبريل"; "مايو"; "يونيو"; "يوليو"; "أغسطس"; "سبتمبر"; "أكتوبر"; "نوفمبر"; "ديسمبر"].
(** [time.Format]'s Mon and Jan. *)
Definition shortWeekdays : list string := ["Sun"; "Mon"; "Tue"; "Wed"; "Thu"; "Fri"; "Sat"].
Definition shortMonths : list string := ["Jan"; "Feb"; "Mar"; "Apr"; "May"; "Jun"; "Jul"; "Aug"; "Sep"; "Oct"; "Nov"; "Dec"].

Definition nth_name (l : list string) (i : Z) : string := default "" (l !! Z.to_nat i).

(** [t.Format("15:04")]. *)
Definition clock (loc : Location) (t : time) : string := fmt_0d 2 (local_hour loc t) +:+ ":" +:+ fmt_0d 2 (local_minute loc t).

Definition when (lang : Language) (loc : Location) (t : time) : string :=
  let '(_, m, d) := local_date loc t in
  let w := weekday_of_days (local_day loc t) in
  match lang with
  | Arabic => nth_name arabicWeekdays w +:+ " " +:+ itoa d +:+ " " +:+ nth_name arabicMonths (m - 1) +:+ "، " +:+ clock loc t
  | English => nth_name shortWeekdays w +:+ " " +:+ itoa d +:+ " " +:+ nth_name shortMonths (m - 1) +:+ ", " +:+ clock loc t
  end.

Definition Message `{TzLib} (k : Kind) (lang : Language) (branch : Branch) (start : time) : res notif_error (string * string) :=
  match LoadLocation (nb_Timezone branch) with
  | None => Err ErrBadZone
  | Some loc =>
      let name := if bool_decide (lang = English) && negb (bool_decide (en (nb_Name branch) = "")) then en (nb_Name branch) else ar (nb_Name branch) in
      Ok (title (messages k lang), sprintf2 (body (messages k lang)) name (when lang loc start))
  end.

(** ** The tables (adapters/postgres; migrations 00027, 00028) *)

Record DeviceRow := MkDeviceRow {
  dr_ID : DeviceID; dr_UserID : UserID; dr_Token : string; dr_Platform : string; dr_Locale : string; dr_CreatedAt : time; dr_UpdatedAt : time }.
Record BranchRow := MkNBranchRow { nr_BranchID : BranchID; nr_Version : Z; nr_NameAr : string; nr_NameEn : string; nr_Timezone : string }.
Record DeliveryRow := MkDeliveryRow {
  dl_EventID : UUID; dl_DeviceID : DeviceID; dl_UserID : UserID; dl_Kind : string; dl_AppointmentID : option AppointmentID; dl_SentAt : time; dl_Outcome : string }.

Record NotifDB := MkNotifDB {
  devices : gmap DeviceID DeviceRow;
  branches : gmap BranchID BranchRow;
  deliveries : gmap (UUID * DeviceID) DeliveryRow }.

Definition empty_notif_db : NotifDB := MkNotifDB ∅ ∅ ∅.

Definition device_checks (r : DeviceRow) : bool :=
  (32 <=? RuneCountInString (dr_Token r)) && (RuneCountInString (dr_Token r) <=? 4096) && bool_decide (dr_Platform r ∈ ["ios"; "android"])
  && bool_decide (dr_Locale r ∈ ["ar"; "en"]).

Definition branch_row_checks (r : BranchRow) : bool := (0 <? nr_Version r) && negb (bool_decide (nr_NameAr r = "")).
Definition delivery_checks (r : DeliveryRow) : bool := bool_decide (dl_Outcome r ∈ ["sent"; "rejected"]).

Definition set_devices (db : NotifDB) t : NotifDB := MkNotifDB t (branches db) (deliveries db).

Definition token_row (db : NotifDB) (token : string) : option DeviceRow := head (rows_where (λ r, bool_decide (dr_Token r = token)) (devices db)).

(** SaveDevice's first statement, on the tables committed when it runs: the row
    it writes, a new one or the token's row, moved to the user. *)
Definition SaveDevice_stmt (db : NotifDB) (d : Device) : res notif_error DeviceRow :=
  let now := stored_time (dev_UpdatedAt d) in
  let fresh := MkDeviceRow (dev_ID d) (dev_User d) (Reveal (dev_Token d)) (Platform_string (dev_Platform d)) (Language_string (dev_Locale d)) now now in
  let '(row, t) := match token_row db (dr_Token fresh) with
                   | None => (fresh, devices db)
                   | Some old =>
                       (if bool_decide (dr_UserID old = dr_UserID fresh)
                        then MkDeviceRow (dr_ID old) (dr_UserID fresh) (dr_Token fresh) (dr_Platform fresh) (dr_Locale fresh) (dr_CreatedAt old) now
                        else fresh,
                        delete (dr_ID old) (devices db))
                   end in
  check! device_checks row else ErrStorage in
  check! negb (present (t !! dr_ID row)) else ErrStorage in
  Ok row.

(** The tables with a transaction's row in place of its token's: what the
    transaction itself sees, and what others see once it commits. *)
Definition with_row (row : DeviceRow) (db : NotifDB) : NotifDB :=
  set_devices db (<[dr_ID row := row]> (filter (λ kv, dr_Token kv.2 ≠ dr_Token row) (devices db))).

(** [ORDER BY updated_at DESC, id DESC]. *)
Definition newest_first (a b : DeviceRow) : bool :=
  if dr_UpdatedAt b <? dr_UpdatedAt a then true else if dr_UpdatedAt a <? dr_UpdatedAt b then false else (value (dr_ID b) <=? value (dr_ID a))%N.

Definition DevicesOfUser (db : NotifDB) (user : UserID) : list DeviceRow :=
  sort_by newest_first (rows_where (λ r, bool_decide (dr_UserID r = user)) (devices db)).

(** TrimDevices finds the rows to delete in the tables its statement sees... *)
Definition TrimDevices (seen : NotifDB) (user : UserID) (keep : nat) : list DeviceID :=
  let kept := dr_ID <$> take keep (DevicesOfUser seen user) in
  filter (λ id, id ∉ kept) (dr_ID <$> DevicesOfUser seen user).

(** ...and deletes those that are still the user's. *)
Definition delete_devices (ids : list DeviceID) (user : UserID) (db : NotifDB) : NotifDB :=
  set_devices db (filter (λ kv, ¬ (dr_ID kv.2 ∈ ids ∧ dr_UserID kv.2 = user)) (devices db)).

Definition toDevice (r : DeviceRow) (token : Token) : res notif_error Device :=
  let! p := ParsePlatform (dr_Platform r) in
  Ok (MkDevice (dr_ID r) (dr_UserID r) token p (ParseLanguage (dr_Locale r)) (dr_CreatedAt r) (dr_UpdatedAt r)).

(** SaveDevice's transaction, READ COMMITTED and without a lock on the user:
    the tables committed when it saves, when it trims, and when it commits. *)
Definition SaveDevice (saving trimming committing : NotifDB) (d : Device) : res notif_error (Device * NotifDB) :=
  let! row := SaveDevice_stmt saving d in
  let trimmed := TrimDevices (with_row row trimming) (dev_User d) MaxDevicesPerUser in
  let! saved := toDevice row (dev_Token d) in
  Ok (saved, delete_devices trimmed (dev_User d) (with_row row committing)).

Definition Store_RemoveDevice (db : NotifDB) (user : UserID) (id : DeviceID) : res notif_error NotifDB :=
  match devices db !! id with
  | Some r => if bool_decide (dr_UserID r = user) then Ok (set_devices db (delete id (devices db))) else Err ErrNotFound
  | None => Err ErrNotFound
  end.

Definition ForgetDevice (db : NotifDB) (id : DeviceID) : NotifDB := set_devices db (delete id (devices db)).

Definition Store_Devices (db : NotifDB) (user : UserID) : res notif_error (list Device) :=
  res_mapM (λ r, let! token := res_map_err (λ _, ErrStorage) (ParseToken (dr_Token r)) in toDevice r token) (DevicesOfUser db user).

Definition Store_KeepBranch (db : NotifDB) (b : Branch) : res notif_error (bool * NotifDB) :=
  check! negb ((nb_Version b <? 1) || (max_int32 <? nb_Version b)) else ErrStorage in
  let row := MkNBranchRow (nb_ID b) (nb_Version b) (ar (nb_Name b)) (en (nb_Name b)) (nb_Timezone b) in
  check! branch_row_checks row else ErrStorage in
  let '(kept, t) := keep_row nr_Version (branches db) (nr_BranchID row) row in
  Ok (kept, MkNotifDB (devices db) t (deliveries db)).

Definition Store_Branch (db : NotifDB) (id : BranchID) : res notif_error Branch :=
  match branches db !! id with
  | None => Err ErrUnknownBranch
  | Some row =>
      let! name := res_map_err (λ _, ErrStorage) (NewLocalizedText (nr_NameAr row) (nr_NameEn row)) in
      Ok (MkBranch id (nr_Version row) name (nr_Timezone row))
  end.

Definition Delivered (db : NotifDB) (event : UUID) (device : DeviceID) : bool := present (deliveries db !! (event, device)).

Inductive Outcome := Sent | Rejected.
Definition Outcome_string (o : Outcome) : string := match o with Sent => "sent" | Rejected => "rejected" end.

Record Delivery := MkDelivery {
  de_Event : UUID; de_Device : DeviceID; de_User : UserID; de_Kind : Kind; de_Appointment : AppointmentID; de_Outcome : Outcome; de_SentAt : time }.

Definition RecordDelivery (db : NotifDB) (d : Delivery) : NotifDB :=
  match deliveries db !! (de_Event d, de_Device d) with
  | Some _ => db
  | None =>
      MkNotifDB (devices db) (branches db)
        (<[(de_Event d, de_Device d) :=
             MkDeliveryRow (de_Event d) (de_Device d) (de_User d) (Kind_string (de_Kind d))
               (if ID_IsZero (de_Appointment d) then None else Some (de_Appointment d)) (stored_time (de_SentAt d)) (Outcome_string (de_Outcome d))]> (deliveries db))
  end.

(** ** Use cases (app/app.go, module.go) *)

Section handlers.
Context `{TzLib}.

(** The command's checks, and the device to save. *)
Definition new_device (now : time) (newID : DeviceID) (user : UserID) (token platform : string) (locale : Language) : res notif_error Device :=
  let! token := ParseToken token in
  let! platform := ParsePlatform platform in
  Ok (MkDevice newID user token platform locale now now).

Definition RegisterDevice (saving trimming committing : NotifDB) (now : time) (newID : DeviceID) (user : UserID) (token platform : string) (locale : Language) :
  res notif_error (Device * NotifDB) :=
  let! d := new_device now newID user token platform locale in
  SaveDevice saving trimming committing d.

Definition RemoveDevice (db : NotifDB) (user : UserID) (id : DeviceID) : res notif_error NotifDB := Store_RemoveDevice db user id.

Definition KeepBranch (db : NotifDB) (b : Branch) : res notif_error NotifDB := let! r := Store_KeepBranch db b in Ok r.2.

(** A push and what the push service answered to it. *)
Record Push := MkPush { pu_Device : Device; pu_Title : string; pu_Body : string; pu_Kind : Kind; pu_Appointment : AppointmentID; pu_CollapseKey : UUID }.
Inductive answer := PushSent | DeviceGone | PushRejected | PushFailed.

Record AppointmentChange := MkChange {
  ch_Event : UUID; ch_Appointment : AppointmentID; ch_Branch : BranchID; ch_Customer : UserID; ch_What : string; ch_Status : string; ch_CancelledBy : string;
  ch_StartsAt : time }.

(** A push sent, its answer, and whether the statement that notes the answer
    reached the database. *)
Record Attempt := MkAttempt { at_Push : Push; at_Answer : answer; at_Noted : bool }.

(** The tables, and every push whose answer came, or was lost, in the order
    they were dealt with. *)
Record World := MkWorld { notif_db : NotifDB; pushed : list Attempt }.

(** Where others' statements run between those of a [Notify]. *)
Inductive Moment := BeforeDevices | BeforeCheck (d : DeviceID) | BeforeNote (d : DeviceID).

(** One run: the clock, the push service's answers, whether the statement
    after a push reached the database, and what others did meanwhile. *)
Record Run := MkRun { now : DeviceID → time; send : Push → answer; reached : DeviceID → bool; others : Moment → World → World }.

Definition push_of (c : AppointmentChange) (kind : Kind) (d : Device) (m : string * string) : Push :=
  MkPush d m.1 m.2 kind (ch_Appointment c) (ch_Event c).

(** [pushOnce], up to the push: [None] if the device heard of the event. *)
Definition check_device (c : AppointmentChange) (kind : Kind) (branch : Branch) (db : NotifDB) (d : Device) : res notif_error (option Push) :=
  if Delivered db (ch_Event c) (dev_ID d) then Ok None
  else let! m := Message kind (dev_Locale d) branch (ch_StartsAt c) in Ok (Some (push_of c kind d m)).

(** [pushOnce], from the push on: the statement its answer calls for. *)
Definition note_answer (run : Run) (c : AppointmentChange) (kind : Kind) (w : World) (p : Push) (d : Device) : res notif_error unit * World :=
  let log db := MkWorld db (pushed w ++ [MkAttempt p (send run p) (reached run (dev_ID d))]) in
  let record outcome :=
    RecordDelivery (notif_db w) (MkDelivery (ch_Event c) (dev_ID d) (dev_User d) kind (ch_Appointment c) outcome (now run (dev_ID d))) in
  match send run p with
  | PushFailed => (Err ErrPush, log (notif_db w))
  | a => if negb (reached run (dev_ID d)) then (Err ErrStorage, log (notif_db w))
         else (Ok tt, log (match a with DeviceGone => ForgetDevice (notif_db w) (dev_ID d) | PushRejected => record Rejected | _ => record Sent end))
  end.

(** What it changed stays, whether it fails or not. *)
Definition pushOnce (run : Run) (c : AppointmentChange) (kind : Kind) (branch : Branch) (w : World) (d : Device) : res notif_error unit * World :=
  let w := others run (BeforeCheck (dev_ID d)) w in
  match check_device c kind branch (notif_db w) d with
  | Err e => (Err e, w)
  | Ok None => (Ok tt, w)
  | Ok (Some p) => note_answer run c kind (others run (BeforeNote (dev_ID d)) w) p d
  end.

(** Each device is tried, whatever happens to the others; the first failure is
    the answer. *)
Definition push_all (run : Run) (c : AppointmentChange) (kind : Kind) (branch : Branch) (w : World) (ds : list Device) : res notif_error unit * World :=
  foldl (λ (acc : res notif_error unit * World) d, let r := pushOnce run c kind branch acc.2 d in
           (match acc.1 with Err e => Err e | Ok _ => r.1 end, r.2)) (Ok tt, w) ds.

Definition Notify (run : Run) (w : World) (c : AppointmentChange) : res notif_error unit * World :=
  match CustomerNotice (ch_What c) (ch_Status c) (ch_CancelledBy c) with
  | None => (Ok tt, w)
  | Some kind =>
      if ID_IsZero (ch_Customer c) then (Ok tt, w)
      else match Store_Branch (notif_db w) (ch_Branch c) with
      | Err e => (Err e, w)
      | Ok branch =>
          let w := others run BeforeDevices w in
          match Store_Devices (notif_db w) (ch_Customer c) with
          | Err e => (Err e, w)
          | Ok ds => push_all run c kind branch w ds
          end
      end
  end.

(** ** Calls and events at once

    Registrations are transactions whose statements may come between those of
    others; an event is told in as many statements as [Notify] makes, with the
    push service in between. *)

(** How far a SaveDevice transaction is: its row is saved; TrimDevices has
    found its rows; and it has deleted, and so locked, them. *)
Inductive RegStage := RowSaved | TrimFound (ids : list DeviceID) | TrimDone (ids : list DeviceID).

(** A SaveDevice transaction under way. Until it commits nobody else sees its
    row or misses what it deletes. *)
Record Registration := MkRegistration { rg_Device : Device; rg_Row : DeviceRow; rg_Stage : RegStage }.

(** The rows it has locked: its token's, and those it has deleted. *)
Definition holds (db : NotifDB) (g : Registration) (id : DeviceID) : Prop :=
  match devices db !! id with
  | None => False
  | Some r => dr_Token r = dr_Token (rg_Row g) ∨ match rg_Stage g with TrimDone ids => id ∈ ids ∧ dr_UserID r = dev_User (rg_Device g) | _ => False end
  end.

#[export] Instance holds_decision db g id : Decision (holds db g id).
Proof. unfold holds. destruct (devices db !! id); [destruct (rg_Stage g)|]; apply _. Defined.

(** How far a [Notify] is. *)
Inductive Stage :=
| AtBranch | AtDevices (branch : Branch) | AtCheck (branch : Branch) (ds : list Device) | AtNote (branch : Branch) (p : Push) (d : Device) (ds : list Device).

Record Telling := MkTelling { te_Run : Run; te_Change : AppointmentChange; te_Kind : Kind; te_Stage : Stage }.

(** The devices it is still to deal with. *)
Definition listed (t : Telling) : list Device := match te_Stage t with AtCheck _ ds => ds | AtNote _ _ d ds => d :: ds | _ => [] end.

(** Its next statement: what it did, and how far it is then, [None] when it has
    answered. *)
Definition advance (w : World) (t : Telling) : World * option Telling :=
  let at_ stage := Some (MkTelling (te_Run t) (te_Change t) (te_Kind t) stage) in
  match te_Stage t with
  | AtBranch => match Store_Branch (notif_db w) (ch_Branch (te_Change t)) with Err _ => (w, None) | Ok b => (w, at_ (AtDevices b)) end
  | AtDevices b => match Store_Devices (notif_db w) (ch_Customer (te_Change t)) with Err _ => (w, None) | Ok ds => (w, at_ (AtCheck b ds)) end
  | AtCheck b [] => (w, None)
  | AtCheck b (d :: ds) =>
      match check_device (te_Change t) (te_Kind t) b (notif_db w) d with Ok (Some p) => (w, at_ (AtNote b p d ds)) | _ => (w, at_ (AtCheck b ds)) end
  | AtNote b p d ds => ((note_answer (te_Run t) (te_Change t) (te_Kind t) w p d).2, at_ (AtCheck b ds))
  end.

(** The tables and pushes, the registrations under way by the ID each
    generated, and the events being told: the queue runs an event's job once
    at a time. *)
Record System := MkSystem { world : World; registering : gmap DeviceID Registration; telling : gmap UUID Telling }.

Definition with_db (s : System) (db : NotifDB) : System := MkSystem (MkWorld db (pushed (world s))) (registering s) (telling s).
Definition with_registering (s : System) (rs : gmap DeviceID Registration) : System := MkSystem (world s) rs (telling s).

(** A row no registration under way has locked, but for one's own. *)
Definition free (s : System) (own : option DeviceID) (id : DeviceID) : Prop :=
  map_Forall (λ k g, own = Some k ∨ ¬ holds (notif_db (world s)) g id) (registering s).

(** The unique index makes the second of two registrations of a token wait, as
    a locked row does. *)
Definition token_free (s : System) (token : string) : Prop :=
  map_Forall (λ _ g, dr_Token (rg_Row g) ≠ token) (registering s) ∧
  match token_row (notif_db (world s)) token with None => True | Some r => free s None (dr_ID r) end.

(** An ID generated now: nobody has it. *)
Definition unused (s : System) (id : DeviceID) : Prop :=
  devices (notif_db (world s)) !! id = None ∧ registering s !! id = None ∧
  Forall (λ a, dev_ID (pu_Device (at_Push a)) ≠ id) (pushed (world s)) ∧
  map_Forall (λ _ t, Forall (λ d, dev_ID d ≠ id) (listed t)) (telling s).

(** A step of one of them. Steps that wait for a lock come when it is free; a
    registration may fail at any point, and so may the job telling an event. *)
Inductive notif_step (s : System) : System → Prop :=
| step_save now id user token platform locale d row :
    unused s id → new_device now id user token platform locale = Ok d → token_free s (Reveal (dev_Token d)) →
    SaveDevice_stmt (notif_db (world s)) d = Ok row →
    notif_step s (with_registering s (<[id := MkRegistration d row RowSaved]> (registering s)))
| step_trim id g :
    registering s !! id = Some g → rg_Stage g = RowSaved →
    let ids := TrimDevices (with_row (rg_Row g) (notif_db (world s))) (dev_User (rg_Device g)) MaxDevicesPerUser in
    notif_step s (with_registering s (<[id := MkRegistration (rg_Device g) (rg_Row g) (TrimFound ids)]> (registering s)))
| step_delete id g ids :
    registering s !! id = Some g → rg_Stage g = TrimFound ids → Forall (free s (Some id)) ids →
    notif_step s (with_registering s (<[id := MkRegistration (rg_Device g) (rg_Row g) (TrimDone ids)]> (registering s)))
| step_commit id g ids :
    registering s !! id = Some g → rg_Stage g = TrimDone ids →
    notif_step s (with_registering (with_db s (delete_devices ids (dev_User (rg_Device g)) (with_row (rg_Row g) (notif_db (world s))))) (delete id (registering s)))
| step_abort id : notif_step s (with_registering s (delete id (registering s)))
| step_remove user id db : free s None id → RemoveDevice (notif_db (world s)) user id = Ok db → notif_step s (with_db s db)
| step_branch b db :
    NewLocalizedText (ar (nb_Name b)) (en (nb_Name b)) = Ok (nb_Name b) → KeepBranch (notif_db (world s)) b = Ok db → notif_step s (with_db s db)
| step_notify run c kind :
    CustomerNotice (ch_What c) (ch_Status c) (ch_CancelledBy c) = Some kind → ID_IsZero (ch_Customer c) = false → telling s !! ch_Event c = None →
    notif_step s (MkSystem (world s) (registering s) (<[ch_Event c := MkTelling run c kind AtBranch]> (telling s)))
| step_tell event t :
    telling s !! event = Some t → match te_Stage t with AtNote _ _ d _ => free s None (dev_ID d) | _ => True end →
    notif_step s (MkSystem (advance (world s) t).1 (registering s) (partial_alter (λ _, (advance (world s) t).2) event (telling s)))
| step_stop event : notif_step s (MkSystem (world s) (registering s) (delete event (telling s))).

Definition empty_system : System := MkSystem (MkWorld empty_notif_db []) ∅ ∅.
Definition system_reachable : System → Prop := rtc notif_step empty_system.
Definition notif_reachable (w : World) : Prop := ∃ s, system_reachable s ∧ world s = w.

(** A history in which no two registrations of one user are under way at once. *)
Definition one_each (s : System) : Prop :=
  ∀ k k' g g', registering s !! k = Some g → registering s !! k' = Some g' → dev_User (rg_Device g) = dev_User (rg_Device g') → k = k'.
Definition notif_step_one (s s' : System) : Prop := notif_step s s' ∧ one_each s'.
Definition reachable_one (w : World) : Prop := ∃ s, rtc notif_step_one empty_system s ∧ world s = w.
End handlers.
