(* ===== verification/NotifFlow.v ===== *)
(** * What notification's tables keep

    Every row reads back and a token has one owner, whatever statement comes
    next; what trimming keeps; and what registering a device changes, exactly,
    when nothing of notification runs meanwhile. Then registrations at once,
    their statements between each other's: a row a transaction refreshes stays
    until it commits, and a user has at most ten devices as long as no two of
    their registrations are under way at once. *)
From S2P Require Import Prelude GoTime GoText Shared Tables BizBase DiscStore Notification.
Open Scope Z_scope.

(** ** Rows that read back *)

Record device_ok (r : DeviceRow) : Prop := {
  do_token : ParseToken (dr_Token r) = Ok (MkToken (dr_Token r));
  do_platform : ∃ p, dr_Platform r = Platform_string p;
  do_locale : ∃ l, dr_Locale r = Language_string l }.

Lemma platform_round_trip p : ParsePlatform (Platform_string p) = Ok p.
Proof. by destruct p. Qed.

Lemma ParsePlatform_ok s p : ParsePlatform s = Ok p → s = Platform_string p.
Proof. unfold ParsePlatform. repeat case_bool_decide; [by intros [= <-]..|done]. Qed.

Lemma locale_round_trip l : ParseLanguage (Language_string l) = l.
Proof. by destruct l. Qed.

Lemma ParseToken_ok s t : ParseToken s = Ok t → t = MkToken s ∧ ParseToken s = Ok (MkToken s).
Proof. unfold ParseToken. destruct (_ || _); [done|]. by intros [= <-]. Qed.

(** A token is ASCII: its characters are its bytes. *)
Lemma token_runes s t : ParseToken s = Ok t → 32 ≤ RuneCountInString s ≤ 4096.
Proof.
  unfold ParseToken, tokenChars. destruct (_ || _) eqn:E; [done|]. intros _. bool_prop.
  assert (Ha : ascii_only s).
  { apply Forall_forall. intros b Hb%list_elem_of_In. match goal with Hf : forallb _ _ = true |- _ => rewrite forallb_forall in Hf; pose proof (Hf b Hb) as Ef end. unfold token_char, in_range in Ef.
    rewrite !orb_true_iff, !andb_true_iff, !Z.leb_le, !Z.eqb_eq in Ef. lia. }
  apply runes_ascii in Ha. apply (f_equal length) in Ha. unfold runes in Ha. rewrite length_fmap, length_bytes in Ha.
  unfold RuneCountInString. rewrite Ha. unfold len, minTokenLen, maxTokenLen in *. lia.
Qed.

(** The device a row reads as. *)
Definition device_of (r : DeviceRow) : Device :=
  MkDevice (dr_ID r) (dr_UserID r) (MkToken (dr_Token r)) (if bool_decide (dr_Platform r = "ios") then IOS else Android) (ParseLanguage (dr_Locale r))
    (dr_CreatedAt r) (dr_UpdatedAt r).

Lemma toDevice_ok r : device_ok r → toDevice r (MkToken (dr_Token r)) = Ok (device_of r).
Proof. intros [_ [p Hp] _]. unfold toDevice, device_of. rewrite Hp, platform_round_trip. by destruct p. Qed.

(** ** Newest first *)

Lemma newest_first_total a b : newest_first a b = false → newest_first b a = true.
Proof.
  unfold newest_first. destruct (Z.ltb_spec (dr_UpdatedAt b) (dr_UpdatedAt a)), (Z.ltb_spec (dr_UpdatedAt a) (dr_UpdatedAt b)); try done; try lia.
  rewrite N.leb_gt, N.leb_le. lia.
Qed.

Lemma newest_first_trans a b c : newest_first a b = true → newest_first b c = true → newest_first a c = true.
Proof.
  unfold newest_first.
  destruct (Z.ltb_spec (dr_UpdatedAt b) (dr_UpdatedAt a)), (Z.ltb_spec (dr_UpdatedAt a) (dr_UpdatedAt b)), (Z.ltb_spec (dr_UpdatedAt c) (dr_UpdatedAt b)),
    (Z.ltb_spec (dr_UpdatedAt b) (dr_UpdatedAt c)), (Z.ltb_spec (dr_UpdatedAt c) (dr_UpdatedAt a)), (Z.ltb_spec (dr_UpdatedAt a) (dr_UpdatedAt c)); try done; try lia.
  rewrite !N.leb_le. lia.
Qed.

Lemma newest_first_id a b : newest_first a b = true → newest_first b a = true → dr_ID a = dr_ID b.
Proof.
  unfold newest_first. destruct (Z.ltb_spec (dr_UpdatedAt b) (dr_UpdatedAt a)), (Z.ltb_spec (dr_UpdatedAt a) (dr_UpdatedAt b)); try done; try lia.
  rewrite !N.leb_le. intros. destruct (dr_ID a), (dr_ID b); cbn in *. f_equal. lia.
Qed.

Abbreviation newer := (strictly newest_first).

(** ** A user's devices *)

Definition keyed (db : NotifDB) : Prop := ∀ id r, devices db !! id = Some r → dr_ID r = id.

Lemma elem_of_DevicesOfUser db user r : keyed db → r ∈ DevicesOfUser db user ↔ devices db !! dr_ID r = Some r ∧ dr_UserID r = user.
Proof.
  intros Hk. unfold DevicesOfUser. rewrite elem_of_sort_by, elem_of_rows_where. split.
  - intros (id & Hr & Hu). rewrite (Hk _ _ Hr). by apply bool_decide_eq_true in Hu.
  - intros [Hr Hu]. exists (dr_ID r). by rewrite bool_decide_eq_true.
Qed.

Lemma DevicesOfUser_newer db user : keyed db → StronglySorted newer (DevicesOfUser db user).
Proof.
  intros Hk. apply (sort_strict dr_ID newest_first newest_first_total newest_first_trans newest_first_id).
  by apply (rows_where_NoDup dr_ID (λ k, k)).
Qed.

Lemma newer_NoDup l : StronglySorted newer l → NoDup l.
Proof.
  induction 1 as [|a l _ IH Ha]; constructor; [|done]. intros Hin. rewrite Forall_forall in Ha. specialize (Ha a Hin).
  unfold strictly in Ha. by rewrite (newest_first_total a a Ha) in Ha.
Qed.

(** It is the one newest-first list of the user's rows. *)
Lemma DevicesOfUser_is db user l :
  keyed db → StronglySorted newer l → (∀ r, r ∈ l ↔ devices db !! dr_ID r = Some r ∧ dr_UserID r = user) → DevicesOfUser db user = l.
Proof.
  intros Hk Hl Hin. pose proof (DevicesOfUser_newer db user Hk) as Hs. apply (strict_unique newest_first newest_first_total); [done|done|].
  apply NoDup_Permutation; [by apply newer_NoDup..|]. intros r. by rewrite elem_of_DevicesOfUser, Hin.
Qed.

Lemma DevicesOfUser_ids db user : keyed db → NoDup (dr_ID <$> DevicesOfUser db user).
Proof.
  intros Hk. apply NoDup_fmap_2_strong; [|by apply newer_NoDup, DevicesOfUser_newer].
  intros a b [Ha _]%(elem_of_DevicesOfUser db user a Hk) [Hb _]%(elem_of_DevicesOfUser db user b Hk) E. congruence.
Qed.

Lemma newer_take n l : StronglySorted newer l → StronglySorted newer (take n l).
Proof. intros Hl. rewrite <- (take_drop n l) in Hl. by apply StronglySorted_app_1_l in Hl. Qed.

(** ** What always holds *)

Record notif_ok (db : NotifDB) : Prop := {
  nk_keyed : keyed db;
  nk_device id r : devices db !! id = Some r → device_ok r;
  nk_token id id' r r' : devices db !! id = Some r → devices db !! id' = Some r' → dr_Token r = dr_Token r' → id = id';
  nk_branch id r : branches db !! id = Some r → is_ok (NewLocalizedText (nr_NameAr r) (nr_NameEn r)) = true;
  nk_delivery key r : deliveries db !! key = Some r → delivery_checks r = true ∧ (dl_EventID r, dl_DeviceID r) = key }.

Lemma empty_notif_ok : notif_ok empty_notif_db.
Proof. split; by intros ?? ?. Qed.

Lemma device_checks_ok r : device_ok r → device_checks r = true.
Proof.
  intros [Ht [p Hp] [l Hl]]. apply token_runes in Ht. unfold device_checks.
  rewrite Hp, Hl, !andb_true_iff, !Z.leb_le, !bool_decide_eq_true. split_and!; [lia|lia|destruct p; set_solver|destruct l; set_solver].
Qed.

(** Fewer devices are still well kept. *)
Lemma fewer_devices db (P : DeviceRow → Prop) `{∀ r, Decision (P r)} :
  keyed db → keyed (set_devices db (filter (λ kv, P kv.2) (devices db))) ∧
  ∀ v, DevicesOfUser (set_devices db (filter (λ kv, P kv.2) (devices db))) v = filter P (DevicesOfUser db v).
Proof.
  intros Hk. assert (Hk' : keyed (set_devices db (filter (λ kv, P kv.2) (devices db)))).
  { intros id r. cbn. rewrite map_lookup_filter_Some. intros [Hr _]. by apply Hk. }
  split; [done|]. intros v. apply DevicesOfUser_is; [done| |].
  - pose proof (DevicesOfUser_newer db v Hk) as Hs. induction Hs as [|a l Hs IH Ha]; [constructor|]. rewrite filter_cons.
    destruct (decide (P a)); [|done]. constructor; [done|]. rewrite Forall_forall in Ha |- *. intros b [_ Hb]%list_elem_of_filter. by apply Ha.
  - intros r. rewrite list_elem_of_filter, elem_of_DevicesOfUser by done. cbn. rewrite map_lookup_filter_Some. cbn. tauto.
Qed.

Lemma fewer_devices_ok db (P : DeviceRow → Prop) `{∀ r, Decision (P r)} :
  notif_ok db → notif_ok (set_devices db (filter (λ kv, P kv.2) (devices db))).
Proof.
  intros Hdb. destruct (fewer_devices db P (nk_keyed db Hdb)) as [Hk Hu]. split; [done| | | |].
  - intros id r. cbn. intros [Hr _]%map_lookup_filter_Some. by eapply nk_device.
  - intros id id' r r'. cbn. intros [Hr _]%map_lookup_filter_Some [Hr' _]%map_lookup_filter_Some. by eapply nk_token.
  - apply (nk_branch db Hdb).
  - apply (nk_delivery db Hdb).
Qed.

Lemma delete_device db id : keyed db → set_devices db (delete id (devices db)) = set_devices db (filter (λ kv, dr_ID kv.2 ≠ id) (devices db)).
Proof.
  intros Hk. unfold set_devices. f_equal. apply map_eq. intros k. apply option_eq. intros r.
  rewrite lookup_delete_Some, map_lookup_filter_Some. cbn. split.
  - intros [Hne Hr]. split; [done|]. by rewrite (Hk _ _ Hr).
  - intros [Hr Hne]. split; [|done]. by rewrite <- (Hk _ _ Hr).
Qed.

Lemma delete_device_ok db id : notif_ok db → notif_ok (set_devices db (delete id (devices db))).
Proof. intros Hdb. rewrite delete_device by apply (nk_keyed db Hdb). exact (fewer_devices_ok db (λ r, dr_ID r ≠ id) Hdb). Qed.

(** ** Registering a device *)

Definition without (token : string) (l : list DeviceRow) : list DeviceRow := filter (λ r, dr_Token r ≠ token) l.

Lemma token_row_Some db token r : notif_ok db → token_row db token = Some r ↔ devices db !! dr_ID r = Some r ∧ dr_Token r = token.
Proof.
  intros Hdb. unfold token_row. split.
  - intros Hr. apply head_Some_elem_of, elem_of_rows_where in Hr as (id & Hr & Ht). rewrite (nk_keyed db Hdb _ _ Hr).
    by apply bool_decide_eq_true in Ht.
  - intros [Hr <-]. rewrite (rows_where_one _ _ (dr_ID r) r); [done|done|by apply bool_decide_eq_true|].
    intros id o Ho Ht%bool_decide_eq_true. by eapply nk_token.
Qed.

Lemma token_row_None db token : notif_ok db → token_row db token = None → ∀ id r, devices db !! id = Some r → dr_Token r ≠ token.
Proof.
  intros Hdb Hn id r Hr Ht. rewrite <- (nk_keyed db Hdb id r Hr) in Hr. pose proof (proj2 (token_row_Some db token r Hdb) (conj Hr Ht)). congruence.
Qed.

(** The row [SaveDevice] writes: the user's own row of the token, or a new one. *)
Definition saved_row (db : NotifDB) (d : Device) : DeviceRow :=
  let now := stored_time (dev_UpdatedAt d) in
  let row id created := MkDeviceRow id (dev_User d) (Reveal (dev_Token d)) (Platform_string (dev_Platform d)) (Language_string (dev_Locale d)) created now in
  match token_row db (Reveal (dev_Token d)) with
  | Some old => if bool_decide (dr_UserID old = dev_User d) then row (dr_ID old) (dr_CreatedAt old) else row (dev_ID d) now
  | None => row (dev_ID d) now
  end.

Lemma saved_row_fields db d :
  dr_UserID (saved_row db d) = dev_User d ∧ dr_Token (saved_row db d) = Reveal (dev_Token d) ∧ dr_UpdatedAt (saved_row db d) = stored_time (dev_UpdatedAt d) ∧
  dr_Platform (saved_row db d) = Platform_string (dev_Platform d) ∧ dr_Locale (saved_row db d) = Language_string (dev_Locale d).
Proof. unfold saved_row. destruct (token_row _ _); [case_bool_decide|]; done. Qed.

Lemma saved_row_ok db d : ParseToken (Reveal (dev_Token d)) = Ok (dev_Token d) → device_ok (saved_row db d).
Proof.
  intros Ht. destruct (saved_row_fields db d) as (_ & Et & _ & Ep & El). split; rewrite ?Et, ?Ep, ?El; [|by eauto..].
  by destruct (ParseToken_ok _ _ Ht).
Qed.

(** No other device has its ID. *)
Lemma saved_row_new db d id r :
  notif_ok db → devices db !! dev_ID d = None → devices db !! id = Some r → dr_Token r ≠ Reveal (dev_Token d) → id ≠ dr_ID (saved_row db d).
Proof.
  intros Hdb Hnew Hr Ht ->. unfold saved_row in Hr. destruct (token_row db _) as [old|] eqn:Eo; [|cbn in Hr; congruence].
  apply token_row_Some in Eo as [Ho Eo]; [|done]. case_bool_decide; cbn in Hr; congruence.
Qed.

Lemma token_deleted db d :
  notif_ok db →
  match token_row db (Reveal (dev_Token d)) with Some old => delete (dr_ID old) (devices db) | None => devices db end
  = filter (λ kv, dr_Token kv.2 ≠ Reveal (dev_Token d)) (devices db).
Proof.
  intros Hdb. apply map_eq. intros k. apply option_eq. intros r. rewrite map_lookup_filter_Some. cbn. destruct (token_row db _) as [old|] eqn:Eo.
  - apply token_row_Some in Eo as [Ho Eo]; [|done]. rewrite lookup_delete_Some. split; intros [A B].
    + split; [done|]. intros E. destruct A. eapply nk_token; [done..|congruence].
    + split; [|done]. intros <-. congruence.
  - split; [|by intros []]. intros Hr. split; [done|]. by eapply token_row_None.
Qed.

Lemma SaveDevice_stmt_ok db d :
  notif_ok db → ParseToken (Reveal (dev_Token d)) = Ok (dev_Token d) → devices db !! dev_ID d = None →
  SaveDevice_stmt db d = Ok (saved_row db d).
Proof.
  intros Hdb Ht Hnew. unfold SaveDevice_stmt. cbn [dr_Token dr_UserID].
  assert (E : ∀ row t, row = saved_row db d → t = filter (λ kv, dr_Token kv.2 ≠ Reveal (dev_Token d)) (devices db) →
    (check! device_checks row else ErrStorage in check! negb (present (t !! dr_ID row)) else ErrStorage in Ok row) = Ok (saved_row db d)).
  { intros row t -> ->. rewrite (device_checks_ok _ (saved_row_ok db d Ht)).
    destruct (filter _ _ !! _) as [r|] eqn:Er; [|done].
    apply map_lookup_filter_Some in Er as [Hr Hne]. by destruct (saved_row_new db d _ r Hdb Hnew Hr Hne). }
  pose proof (token_deleted db d Hdb) as Hdel. destruct (token_row db _) as [old|] eqn:Eo; refine (E _ _ _ Hdel); unfold saved_row; by rewrite Eo.
Qed.

(** ** Reading a user's devices *)

Lemma Store_Devices_ok db user : notif_ok db → Store_Devices db user = Ok (device_of <$> DevicesOfUser db user).
Proof.
  intros Hdb. unfold Store_Devices. apply res_mapM_pure. intros r [Hr _]%(elem_of_DevicesOfUser db user r (nk_keyed db Hdb)).
  pose proof (nk_device db Hdb _ _ Hr) as Hok. rewrite (do_token r Hok). cbn [res_map_err res_bind]. by apply toDevice_ok.
Qed.

Lemma user_device_ids db user : notif_ok db → NoDup (dev_ID <$> (device_of <$> DevicesOfUser db user)).
Proof. intros Hdb. rewrite <- list_fmap_compose. by apply DevicesOfUser_ids, (nk_keyed db Hdb). Qed.

(** ** A transaction's row among the tables *)

Section row.
Context (row : DeviceRow) (db : NotifDB).
Abbreviation token := (dr_Token row).

Lemma with_row_devices id r :
  devices (with_row row db) !! id = Some r ↔ (id = dr_ID row ∧ r = row) ∨ (id ≠ dr_ID row ∧ devices db !! id = Some r ∧ dr_Token r ≠ token).
Proof. cbn [with_row set_devices devices]. rewrite lookup_insert_Some, map_lookup_filter_Some. cbn. naive_solver. Qed.

Lemma with_row_None i : i ≠ dr_ID row → devices db !! i = None → devices (with_row row db) !! i = None.
Proof. intros Hi Hn. destruct (devices (with_row row db) !! i) as [r|] eqn:Er; [|done]. apply with_row_devices in Er as [[-> _]|(_ & Er & _)]; congruence. Qed.

Lemma with_device_row_ok : notif_ok db → device_ok row → notif_ok (with_row row db).
Proof.
  intros Hdb Hrow. split.
  - intros id r [[-> ->]|(_ & Hr & _)]%with_row_devices; [done|]. by apply (nk_keyed db Hdb).
  - intros id r [[_ ->]|(_ & Hr & _)]%with_row_devices; [done|]. by eapply nk_device.
  - intros id id' r r' [[-> ->]|(_ & Hr & Hn)]%with_row_devices [[-> ->]|(_ & Hr' & Hn')]%with_row_devices E; [done|congruence..|]. by eapply nk_token.
  - apply (nk_branch db Hdb).
  - apply (nk_delivery db Hdb).
Qed.

Lemma without_newer v : keyed db → StronglySorted newer (without token (DevicesOfUser db v)).
Proof. intros Hk. destruct (fewer_devices db (λ r, dr_Token r ≠ token) Hk) as [Hk' Hu]. unfold without. rewrite <- Hu. by apply DevicesOfUser_newer. Qed.

Lemma elem_of_without v r : keyed db → r ∈ without token (DevicesOfUser db v) ↔ dr_Token r ≠ token ∧ devices db !! dr_ID r = Some r ∧ dr_UserID r = v.
Proof. intros Hk. unfold without. rewrite list_elem_of_filter, elem_of_DevicesOfUser by done. done. Qed.

(** No row of another token has its ID. *)
Definition row_id_free : Prop := ∀ r, devices db !! dr_ID row = Some r → dr_Token r = token.

Lemma with_row_devices_free id r :
  row_id_free → devices (with_row row db) !! id = Some r ↔ (id = dr_ID row ∧ r = row) ∨ (devices db !! id = Some r ∧ dr_Token r ≠ token).
Proof. intros Hf. rewrite with_row_devices. split; [naive_solver|]. intros [?|[Hr Hne]]; [by left|]. right. split_and!; [|done..]. intros ->. by apply Hne, Hf. Qed.

Lemma with_row_other v : notif_ok db → device_ok row → row_id_free → v ≠ dr_UserID row → DevicesOfUser (with_row row db) v = without token (DevicesOfUser db v).
Proof.
  intros Hdb Hrow Hf Hv. pose proof (nk_keyed db Hdb) as Hk. apply DevicesOfUser_is; [by apply nk_keyed, with_device_row_ok|by apply without_newer|].
  intros r. rewrite elem_of_without, with_row_devices_free by done. split; [naive_solver|]. intros [[[_ ->]|?] ?]; [congruence|tauto].
Qed.

Lemma with_row_user :
  notif_ok db → device_ok row → row_id_free → (∀ r, r ∈ DevicesOfUser db (dr_UserID row) → dr_UpdatedAt r < dr_UpdatedAt row) →
  DevicesOfUser (with_row row db) (dr_UserID row) = row :: without token (DevicesOfUser db (dr_UserID row)).
Proof.
  intros Hdb Hrow Hf Hlate. pose proof (nk_keyed db Hdb) as Hk. apply DevicesOfUser_is; [by apply nk_keyed, with_device_row_ok| |].
  - constructor; [by apply without_newer|]. apply Forall_forall. intros r [_ Hr]%list_elem_of_filter. specialize (Hlate r Hr). unfold strictly, newest_first.
    destruct (Z.ltb_spec (dr_UpdatedAt row) (dr_UpdatedAt r)), (Z.ltb_spec (dr_UpdatedAt r) (dr_UpdatedAt row)); done || lia.
  - intros r. rewrite elem_of_cons, elem_of_without, with_row_devices_free by done. naive_solver.
Qed.
End row.

(** ** Trimming *)

Lemma list_filter_all {A} (P : A → Prop) `{∀ a, Decision (P a)} l : Forall P l → filter P l = l.
Proof. induction 1 as [|a l Ha _ IH]; [done|]. rewrite filter_cons, decide_True by done. by rewrite IH. Qed.

Lemma list_filter_none {A} (P : A → Prop) `{∀ a, Decision (P a)} l : Forall (λ a, ¬ P a) l → filter P l = [].
Proof. induction 1 as [|a l Ha _ IH]; [done|]. by rewrite filter_cons, decide_False. Qed.

Lemma elem_of_TrimDevices db user k id :
  id ∈ TrimDevices db user k ↔ id ∈ dr_ID <$> DevicesOfUser db user ∧ id ∉ dr_ID <$> take k (DevicesOfUser db user).
Proof. unfold TrimDevices. rewrite list_elem_of_filter. tauto. Qed.

Lemma delete_devices_ok ids user db : notif_ok db → notif_ok (delete_devices ids user db).
Proof. exact (fewer_devices_ok db (λ r, ¬ (dr_ID r ∈ ids ∧ dr_UserID r = user))). Qed.

Lemma delete_devices_user ids user db v :
  keyed db → DevicesOfUser (delete_devices ids user db) v = filter (λ r, ¬ (dr_ID r ∈ ids ∧ dr_UserID r = user)) (DevicesOfUser db v).
Proof. intros Hk. by destruct (fewer_devices db (λ r, ¬ (dr_ID r ∈ ids ∧ dr_UserID r = user)) Hk) as [_ ->]. Qed.

Lemma deleted_devices ids user db id r :
  keyed db → devices (delete_devices ids user db) !! id = Some r ↔ devices db !! id = Some r ∧ ¬ (id ∈ ids ∧ dr_UserID r = user).
Proof.
  intros Hk. cbn [delete_devices set_devices devices]. rewrite map_lookup_filter_Some. cbn. split; intros [Hr Hn]; (split; [done|]); by rewrite (Hk _ _ Hr) in *.
Qed.

(** Trimmed right away, the user's newest stay. *)
Lemma trimmed_same db user k : keyed db → DevicesOfUser (delete_devices (TrimDevices db user k) user db) user = take k (DevicesOfUser db user).
Proof.
  intros Hk. rewrite delete_devices_user by done. pose proof (DevicesOfUser_ids db user Hk) as Hnd.
  assert (Hu : ∀ r, r ∈ DevicesOfUser db user → dr_UserID r = user) by (by intros r [_ Hr]%(elem_of_DevicesOfUser db user r Hk)).
  pose proof (elem_of_TrimDevices db user k) as Ht. rewrite <- (take_drop k (DevicesOfUser db user)) at 1. rewrite filter_app.
  rewrite <- (take_drop k (DevicesOfUser db user)) in Hnd at 1. rewrite fmap_app, NoDup_app in Hnd. destruct Hnd as (_ & Hdis & _).
  assert (E1 : filter (λ r, ¬ (dr_ID r ∈ TrimDevices db user k ∧ dr_UserID r = user)) (take k (DevicesOfUser db user)) = take k (DevicesOfUser db user)).
  { apply list_filter_all. apply Forall_forall. intros r Hr [Hin _]. apply Ht in Hin as [_ []]. by apply list_elem_of_fmap_2. }
  assert (E2 : filter (λ r, ¬ (dr_ID r ∈ TrimDevices db user k ∧ dr_UserID r = user)) (drop k (DevicesOfUser db user)) = []).
  { apply list_filter_none. apply Forall_forall. intros r Hr Hn. assert (Hall : r ∈ DevicesOfUser db user) by (rewrite <- (take_drop k (DevicesOfUser db user)); apply elem_of_app; by right).
    apply Hn. split; [|by apply Hu]. apply Ht. split; [by apply list_elem_of_fmap_2|]. intros Hin. apply (Hdis _ Hin). by apply list_elem_of_fmap_2. }
  by rewrite E1, E2, app_nil_r.
Qed.

Lemma trimmed_other ids db user v : keyed db → v ≠ user → DevicesOfUser (delete_devices ids user db) v = DevicesOfUser db v.
Proof.
  intros Hk Hv. rewrite delete_devices_user by done. apply list_filter_all. apply Forall_forall. intros r [_ Hr]%(elem_of_DevicesOfUser db v r Hk). naive_solver.
Qed.

(** ** Registering a device *)

Section saving.
Context (db : NotifDB) (d : Device) (Hdb : notif_ok db) (Ht : ParseToken (Reveal (dev_Token d)) = Ok (dev_Token d)) (Hnew : devices db !! dev_ID d = None).
Abbreviation row := (saved_row db d).

Lemma saved_row_id_free : row_id_free row db.
Proof using Hdb Hnew.
  intros r Hr. destruct (saved_row_fields db d) as (_ & -> & _). destruct (decide (dr_Token r = Reveal (dev_Token d))) as [|Hne]; [done|].
  by destruct (saved_row_new db d _ r Hdb Hnew Hr Hne).
Qed.

Lemma saved_row_device : toDevice row (dev_Token d) = Ok (device_of row).
Proof using Ht.
  pose proof (toDevice_ok row (saved_row_ok db d Ht)) as E. destruct (saved_row_fields db d) as (_ & Htok & _). rewrite Htok in E. by destruct (dev_Token d).
Qed.

Lemma SaveDevice_ok trimming committing :
  SaveDevice db trimming committing d
  = Ok (device_of row, delete_devices (TrimDevices (with_row row trimming) (dev_User d) MaxDevicesPerUser) (dev_User d) (with_row row committing)).
Proof using Hdb Hnew Ht. unfold SaveDevice. rewrite (SaveDevice_stmt_ok db d Hdb Ht Hnew). cbn [res_bind]. by rewrite saved_row_device. Qed.
End saving.

Lemma new_device_ok now id user token platform locale d :
  new_device now id user token platform locale = Ok d →
  ∃ p, d = MkDevice id user (MkToken token) p locale now now ∧ ParseToken token = Ok (MkToken token) ∧ platform = Platform_string p.
Proof.
  unfold new_device. intros (t & Ht & (p & Hp & [= <-])%res_bind_ok)%res_bind_ok. apply ParsePlatform_ok in Hp as ->.
  destruct (ParseToken_ok _ _ Ht) as [-> Ht']. by exists p.
Qed.

(** Registering a device moves its token: with nothing else of notification
    running meanwhile, the caller gets it as their newest device, keeping its
    ID if it was theirs, and keeps their nine others that registered last, of
    however many; whoever else had it loses it, and nothing else changes. A
    text that is no token, or no platform, changes nothing. *)
Theorem registering_moves_the_device db now newID user token platform locale :
  notif_ok db → devices db !! newID = None → (∀ r, r ∈ DevicesOfUser db user → dr_UpdatedAt r < stored_time now) →
  match RegisterDevice db db db now newID user token platform locale with
  | Err e =>
      (e = ErrBadToken ∧ ParseToken token = Err ErrBadToken) ∨ (e = ErrBadPlatform ∧ is_ok (ParseToken token) = true ∧ platform ≠ "ios" ∧ platform ≠ "android")
  | Ok (d, db') =>
      notif_ok db' ∧ branches db' = branches db ∧ deliveries db' = deliveries db ∧
      dev_User d = user ∧ Reveal (dev_Token d) = token ∧ Platform_string (dev_Platform d) = platform ∧ dev_Locale d = locale ∧ dev_UpdatedAt d = stored_time now ∧
      dev_ID d = match token_row db token with Some r => if bool_decide (dr_UserID r = user) then dr_ID r else newID | None => newID end ∧
      (∃ r, device_of r = d ∧ dr_Token r = token ∧
         DevicesOfUser db' user = r :: take 9 (without token (DevicesOfUser db user))) ∧
      ∀ v, v ≠ user → DevicesOfUser db' v = without token (DevicesOfUser db v)
  end.
Proof.
  intros Hdb Hnew Hlate. unfold RegisterDevice. destruct (new_device now newID user token platform locale) as [d|e] eqn:En; cbn [res_bind].
  2:{ unfold new_device in En. destruct (ParseToken token) as [t|e'] eqn:Et; cbn [res_bind] in En.
      - right. unfold ParsePlatform in En. repeat case_bool_decide; [done..|]. by injection En as <-.
      - left. injection En as <-. revert Et. unfold ParseToken. destruct (_ || _); [|done]. by intros [= <-]. }
  apply new_device_ok in En as (p & -> & Et & ->). set (d := MkDevice newID user (MkToken token) p locale now now).
  rewrite (SaveDevice_ok db d Hdb Et Hnew). pose proof (saved_row_ok db d Et) as Hrow. pose proof (saved_row_id_free db d Hdb Hnew) as Hfree.
  pose proof (with_device_row_ok _ db Hdb Hrow) as Hwith. destruct (saved_row_fields db d) as (Hu & Htok & Hup & Hp & Hl). cbn in Hu, Htok, Hup, Hp, Hl.
  split; [by apply delete_devices_ok|]. cbn [branches deliveries delete_devices with_row set_devices device_of dev_User dev_Token Reveal dev_Platform dev_Locale dev_UpdatedAt dev_ID].
  rewrite Hu, Htok, Hup, Hp, Hl, locale_round_trip. split_and!; try done; [by destruct p|..].
  - unfold saved_row. cbn [dev_Token Reveal dev_User dev_ID d]. destruct (token_row db token); [case_bool_decide|]; done.
  - exists (saved_row db d). split_and!; [done|done|]. fold (with_row (saved_row db d) db). change (dev_User d) with user.
    pose proof (with_row_user _ db Hdb Hrow Hfree) as E. rewrite Hu, Hup, Htok in E.
    etrans; [apply trimmed_same, (nk_keyed _ Hwith)|]. by rewrite E.
  - intros v Hv. etrans; [by apply trimmed_other; [apply (nk_keyed _ Hwith)|]|]. rewrite with_row_other by (done || congruence). by rewrite Htok.
Qed.

Lemma registering_moves_the_device_witness :
  let token := "abcdefghijklmnopqrstuvwxyz012345"%string in
  let row := MkDeviceRow (MkID 50) (MkID 5) token "ios" "ar" 1000 1000 in
  let db := MkNotifDB {[MkID 50 := row]} ∅ ∅ in
  ∃ d db', RegisterDevice db db db 90000 (MkID 60) (MkID 6) token "android" English = Ok (d, db') ∧ dev_ID d = MkID 60 ∧
    DevicesOfUser db' (MkID 5) = [] ∧ notif_ok db'.
Proof.
  cbn zeta. set (token := "abcdefghijklmnopqrstuvwxyz012345"%string). set (row := MkDeviceRow (MkID 50) (MkID 5) token "ios" "ar" 1000 1000).
  set (db := MkNotifDB {[MkID 50 := row]} ∅ ∅).
  assert (Hone : ∀ id r, devices db !! id = Some r → id = MkID 50 ∧ r = row) by (intros id r Hr; change (({[MkID 50 := row]} : gmap DeviceID DeviceRow) !! id = Some r) in Hr; apply lookup_singleton_Some in Hr as [<- <-]; split; reflexivity).
  assert (Hrow : device_ok row) by (split; [reflexivity|exists IOS; reflexivity|exists Arabic; reflexivity]).
  assert (Hdb : notif_ok db).
  { split.
    - intros id r Hr. apply Hone in Hr as [-> ->]. reflexivity.
    - intros id r Hr. apply Hone in Hr as [-> ->]. exact Hrow.
    - intros id id' r r' Hr Hr' _. apply Hone in Hr as [-> _], Hr' as [-> _]. reflexivity.
    - intros id r Hr. done.
    - intros key r Hr. done. }
  destruct (RegisterDevice db db db 90000 (MkID 60) (MkID 6) token "android" English) as [[d db']|e] eqn:E; [|vm_compute in E; discriminate].
  exists d, db'. split; [done|].
  assert (Hlate : ∀ r, r ∈ DevicesOfUser db (MkID 6) → dr_UpdatedAt r < stored_time 90000).
  { intros r Hr. apply elem_of_DevicesOfUser in Hr as [Hr Hu]; [|apply (nk_keyed db Hdb)]. apply Hone in Hr as [_ ->]. discriminate. }
  pose proof (registering_moves_the_device db 90000 (MkID 60) (MkID 6) token "android" English Hdb eq_refl Hlate) as Hreg.
  rewrite E in Hreg. destruct Hreg as (Hok & _ & _ & _ & _ & _ & _ & _ & Hid & _ & Hothers). split; [rewrite Hid; vm_compute; reflexivity|]. split; [|exact Hok].
  rewrite Hothers by done. vm_compute. reflexivity.
Defined.

(** ** Registrations at once *)

Section steps.
Context `{TzLib}.

(** ** Single statements *)

Lemma KeepBranch_effect db b db' :
  notif_ok db → NewLocalizedText (ar (nb_Name b)) (en (nb_Name b)) = Ok (nb_Name b) → KeepBranch db b = Ok db' →
  notif_ok db' ∧ deliveries db' = deliveries db ∧ devices db' = devices db.
Proof.
  intros Hdb Hn HK. unfold KeepBranch, Store_KeepBranch in HK. destruct (negb _); [|done]. destruct (branch_row_checks _); [|done].
  set (row := MkNBranchRow _ _ _ _ _) in HK. destruct (keep_row nr_Version (branches db) (nr_BranchID row) row) as [kept t] eqn:Ek. injection HK as <-.
  split; [|done]. destruct Hdb as [H1 H2 H3 H4 H5]. split; [done..| |done]. intros id r. cbn. unfold keep_row in Ek.
  assert (Hrow : ∀ old, <[nr_BranchID row := row]> (branches db) !! id = Some r → old = r → is_ok (NewLocalizedText (nr_NameAr old) (nr_NameEn old)) = true).
  { intros old Hr ->. apply lookup_insert_Some in Hr as [[_ <-]|[_ Hr]]; [|by eapply H4]. cbn. by rewrite Hn. }
  destruct (branches db !! nr_BranchID row); [destruct (_ <? _)|]; injection Ek as <- <-; [|apply H4|]; intros Hr; by apply (Hrow r).
Qed.

Lemma RemoveDevice_effect db user id db' : RemoveDevice db user id = Ok db' → db' = set_devices db (delete id (devices db)).
Proof. unfold RemoveDevice, Store_RemoveDevice. destruct (devices db !! id) as [r|]; [|done]. case_bool_decide; [|done]. by intros [= <-]. Qed.

(** What a push's answer does to the devices. *)
Lemma note_answer_devices run c kind w p d :
  devices (notif_db (note_answer run c kind w p d).2) = devices (notif_db w) ∨
  devices (notif_db (note_answer run c kind w p d).2) = delete (dev_ID d) (devices (notif_db w)).
Proof.
  unfold note_answer, RecordDelivery. destruct (send run p), (reached run (dev_ID d)); cbn [negb snd notif_db]; try (by left); try (by right); left; by destruct (deliveries _ !! _).
Qed.

Lemma note_answer_ok run c kind w p d : notif_ok (notif_db w) → notif_ok (notif_db (note_answer run c kind w p d).2).
Proof.
  intros Hdb. assert (Hrec : ∀ o, notif_ok (RecordDelivery (notif_db w) (MkDelivery (ch_Event c) (dev_ID d) (dev_User d) kind (ch_Appointment c) o (now run (dev_ID d))))).
  { intros o. unfold RecordDelivery. destruct (deliveries _ !! _); [done|]. destruct Hdb as [H1 H2 H3 H4 H5]. split; [done..|].
    intros key r. cbn [deliveries]. rewrite lookup_insert_Some. intros [[<- <-]|[_ Hr]]; [by destruct o|by apply H5]. }
  unfold note_answer. destruct (send run p), (reached run (dev_ID d)); cbn [negb snd notif_db]; try done; try apply Hrec. by apply delete_device_ok.
Qed.

Lemma advance_ok w t : notif_ok (notif_db w) → notif_ok (notif_db (advance w t).1).
Proof.
  intros Hdb. unfold advance. destruct (te_Stage t) as [|b|b [|d ds]|b p d ds]; [by destruct (Store_Branch _ _)|by destruct (Store_Devices _ _)|done| |by apply note_answer_ok].
  by destruct (check_device _ _ _ _ _) as [[]|].
Qed.

(** Only the note of an answer changes the tables, and of the devices only that
    of the push. *)
Lemma advance_devices w t :
  devices (notif_db (advance w t).1) = devices (notif_db w) ∨
  ∃ b p d ds, te_Stage t = AtNote b p d ds ∧ devices (notif_db (advance w t).1) = delete (dev_ID d) (devices (notif_db w)).
Proof.
  unfold advance. destruct (te_Stage t) as [|b|b [|d ds]|b p d ds]; cbn [fst].
  - left. by destruct (Store_Branch _ _).
  - left. by destruct (Store_Devices _ _).
  - by left.
  - left. by destruct (check_device _ _ _ _ _) as [[]|].
  - destruct (note_answer_devices (te_Run t) (te_Change t) (te_Kind t) w p d) as [E|E]; [by left|right]. by exists b, p, d, ds.
Qed.

(** ** What the transactions under way keep *)

Definition fresh_id (s : System) (id : DeviceID) : Prop :=
  devices (notif_db (world s)) !! id = None ∧ Forall (λ a, dev_ID (pu_Device (at_Push a)) ≠ id) (pushed (world s)) ∧
  map_Forall (λ _ t, Forall (λ d, dev_ID d ≠ id) (listed t)) (telling s).

(** A transaction's row: of the device it registers, new or the user's own. *)
Record reg_ok (s : System) (id : DeviceID) (g : Registration) : Prop := {
  ro_row : device_ok (rg_Row g);
  ro_user : dr_UserID (rg_Row g) = dev_User (rg_Device g);
  ro_id : (dr_ID (rg_Row g) = id ∧ fresh_id s id) ∨
          ∃ r, devices (notif_db (world s)) !! dr_ID (rg_Row g) = Some r ∧ dr_Token r = dr_Token (rg_Row g) ∧ dr_UserID r = dr_UserID (rg_Row g);
  ro_deleted ids v id' g' r : rg_Stage g = TrimDone ids → v ∈ ids → registering s !! id' = Some g' → id' ≠ id →
    devices (notif_db (world s)) !! v = Some r → dr_UserID r = dev_User (rg_Device g) → dr_Token r ≠ dr_Token (rg_Row g') }.

(** A run is of its event, and what it is about to note is its push to that device. *)
Definition telling_ok (e : UUID) (t : Telling) : Prop :=
  ch_Event (te_Change t) = e ∧ match te_Stage t with AtNote _ p d _ => ∃ m, p = push_of (te_Change t) (te_Kind t) d m | _ => True end.

Record system_ok (s : System) : Prop := {
  so_db : notif_ok (notif_db (world s));
  so_reg id g : registering s !! id = Some g → reg_ok s id g;
  so_tokens id id' g g' : registering s !! id = Some g → registering s !! id' = Some g' → dr_Token (rg_Row g) = dr_Token (rg_Row g') → id = id';
  so_telling : map_Forall telling_ok (telling s) }.

Lemma empty_system_ok : system_ok empty_system.
Proof. split; [apply empty_notif_ok|by intros ?? ?..|by intros ?? ?]. Qed.

(** Rows may go that no transaction has locked, and transactions may fail. *)
Lemma fewer_rows_ok s s' :
  system_ok s → notif_ok (notif_db (world s')) → (∀ id g, registering s' !! id = Some g → registering s !! id = Some g) →
  (∀ i r, devices (notif_db (world s')) !! i = Some r → devices (notif_db (world s)) !! i = Some r) →
  (∀ id g i r, registering s' !! id = Some g → devices (notif_db (world s)) !! i = Some r → dr_Token r = dr_Token (rg_Row g) → devices (notif_db (world s')) !! i = Some r) →
  (∀ id, fresh_id s id → devices (notif_db (world s')) !! id = None → fresh_id s' id) → map_Forall telling_ok (telling s') → system_ok s'.
Proof.
  intros [Hdb Hreg Htok _] Hdb' Hin Hless Hheld Hfresh Htell.
  split; [done| |eauto|done]. intros id g Hg. destruct (Hreg id g (Hin id g Hg)) as [Hrow Hu Hid Hdel]. split; [done|done| |].
  - destruct Hid as [[E Hf]|(r & Hr & Et & Eu)]; [left|right; exists r; eauto]. split; [done|]. apply Hfresh; [done|].
    destruct (devices (notif_db (world s')) !! id) as [r|] eqn:Er; [|done]. apply Hless in Er. destruct Hf as [Hn _]. congruence.
  - intros ids v id' g' r Hst Hv Hg' Hne Hr Hu'. eapply Hdel; eauto.
Qed.

Lemma fresh_id_world s s' id :
  pushed (world s') = pushed (world s) → telling s' = telling s → fresh_id s id → devices (notif_db (world s')) !! id = None → fresh_id s' id.
Proof. intros Ep Et (_ & Hp & Ht) Hn. unfold fresh_id. by rewrite Ep, Et. Qed.

(** ** Each step *)

Lemma fresh_new s id : unused s id → fresh_id s id.
Proof. intros (Hn & _ & Hp & Ht). done. Qed.

Lemma with_stage_ok s id g stage :
  system_ok s → registering s !! id = Some g →
  (∀ ids v id' g' r, stage = TrimDone ids → v ∈ ids → registering s !! id' = Some g' → id' ≠ id →
    devices (notif_db (world s)) !! v = Some r → dr_UserID r = dev_User (rg_Device g) → dr_Token r ≠ dr_Token (rg_Row g')) →
  system_ok (with_registering s (<[id := MkRegistration (rg_Device g) (rg_Row g) stage]> (registering s))).
Proof.
  intros [Hdb Hreg Htok Htell] Hg Hst.
  assert (Hrow : ∀ id' g', <[id := MkRegistration (rg_Device g) (rg_Row g) stage]> (registering s) !! id' = Some g' →
    ∃ g0, registering s !! id' = Some g0 ∧ rg_Device g' = rg_Device g0 ∧ rg_Row g' = rg_Row g0 ∧ (id' ≠ id → g' = g0)).
  { intros id' g' [[<- <-]|[Hne Hg']]%lookup_insert_Some; [exists g|exists g']; done. }
  split; [done| | |exact Htell]; cbn [with_registering world registering telling].
  - intros id' g' Hg'. destruct (Hrow id' g' Hg') as (g0 & Hg0 & Ed & Er & Eg). destruct (Hreg id' g0 Hg0) as [H1 H2 H3 H4].
    split; rewrite ?Ed, ?Er; [done..|]. intros ids v id2 g2 r Est Hv Hg2 Hne Hr Hu. destruct (Hrow id2 g2 Hg2) as (g3 & Hg3 & _ & -> & _).
    destruct (decide (id' = id)) as [->|Hid'].
    + rewrite lookup_insert_eq in Hg'. injection Hg' as <-. cbn in Est. assert (g0 = g) as -> by congruence. eapply Hst; eauto.
    + rewrite (Eg Hid') in Est. eapply H4; eauto.
  - intros id1 id2 g1 g2 (g3 & Hg3 & _ & -> & _)%Hrow (g4 & Hg4 & _ & -> & _)%Hrow. by apply Htok.
Qed.

Lemma step_save_ok s now id user token platform locale d row :
  system_ok s → unused s id → new_device now id user token platform locale = Ok d → token_free s (Reveal (dev_Token d)) →
  SaveDevice_stmt (notif_db (world s)) d = Ok row → system_ok (with_registering s (<[id := MkRegistration d row RowSaved]> (registering s))).
Proof.
  intros [Hdb Hreg Htok Htell] Hun Hnew [Hfree Hlock] Hsave. destruct Hun as (Hnone & Hnoreg & Hp & Ht).
  apply new_device_ok in Hnew as (p & -> & Et & _). set (d := MkDevice id user (MkToken token) p locale now now) in *.
  rewrite (SaveDevice_stmt_ok _ d Hdb Et Hnone) in Hsave. injection Hsave as <-. destruct (saved_row_fields (notif_db (world s)) d) as (Eu & Etok & _).
  set (row := saved_row _ d) in *. cbn in Etok.
  assert (Hnt : ∀ id' g', registering s !! id' = Some g' → dr_Token (rg_Row g') ≠ token) by (intros id' g' Hg'; by apply (Hfree id' g')).
  split; [done| | |exact Htell]; cbn [with_registering world registering telling].
  - intros id' g' [[<- <-]|[Hne Hg']]%lookup_insert_Some.
    + split; cbn [rg_Row rg_Device rg_Stage]; [by apply saved_row_ok|done| |done]. unfold row, saved_row. cbn [dev_Token Reveal dev_User dev_ID d].
      destruct (token_row (notif_db (world s)) token) as [old|] eqn:Eo; [|by left]. apply token_row_Some in Eo as [Ho Eo]; [|done].
      case_bool_decide as Eou; [right|by left]. by exists old.
    + destruct (Hreg id' g' Hg') as [H1 H2 H3 H4]. split; [done..|]. intros ids v id2 g2 r Est Hv Hg2 Hne2 Hr Hu.
      cbn [with_registering world registering] in Hg2, Hr. apply lookup_insert_Some in Hg2 as [[<- <-]|[_ Hg2]]; [|by eapply H4]. cbn [rg_Row]. rewrite Etok. intros Er.
      assert (Eo : token_row (notif_db (world s)) token = Some r) by (apply token_row_Some; [done|]; by rewrite (nk_keyed _ Hdb _ _ Hr)).
      cbn [dev_Token Reveal d] in Hlock. rewrite Eo in Hlock. destruct (Hlock id' g' Hg') as [|Hno]; [done|]. apply Hno. unfold holds.
      rewrite (nk_keyed _ Hdb _ _ Hr), Hr, Est. by right.
  - intros id1 id2 g1 g2 [[<- <-]|[_ H1]]%lookup_insert_Some [[<- <-]|[_ H2]]%lookup_insert_Some E; [done| | |by eapply Htok]; cbn [rg_Row] in E; rewrite Etok in E;
      [by destruct (Hnt _ _ H2)|by destruct (Hnt _ _ H1)].
Qed.

Lemma commit_devices s g ids i r :
  notif_ok (notif_db (world s)) → device_ok (rg_Row g) →
  devices (delete_devices ids (dev_User (rg_Device g)) (with_row (rg_Row g) (notif_db (world s)))) !! i = Some r ↔
  ((i = dr_ID (rg_Row g) ∧ r = rg_Row g) ∨ (i ≠ dr_ID (rg_Row g) ∧ devices (notif_db (world s)) !! i = Some r ∧ dr_Token r ≠ dr_Token (rg_Row g))) ∧
  ¬ (i ∈ ids ∧ dr_UserID r = dev_User (rg_Device g)).
Proof. intros Hdb Hrow. rewrite deleted_devices, with_row_devices; [done|]. by apply nk_keyed, with_device_row_ok. Qed.

Lemma step_commit_ok s id g ids :
  system_ok s → registering s !! id = Some g → rg_Stage g = TrimDone ids →
  system_ok (with_registering (with_db s (delete_devices ids (dev_User (rg_Device g)) (with_row (rg_Row g) (notif_db (world s))))) (delete id (registering s))).
Proof.
  intros [Hdb Hreg Htok Htell] Hg Est. destruct (Hreg id g Hg) as [Hrow Hu Hid Hdel].
  assert (Hother : ∀ id' g', registering s !! id' = Some g' → id' ≠ id → dr_Token (rg_Row g) ≠ dr_Token (rg_Row g')) by (intros id' g' Hg' Hne E; by eapply Hne, Htok).
  split; cbn [with_registering with_db world notif_db registering].
  - by apply delete_devices_ok, with_device_row_ok.
  - intros id' g' [Hne Hg']%lookup_delete_Some. destruct (Hreg id' g' Hg') as [H1 H2 H3 H4]. split; [done|done| |]; cbn [world notif_db].
    + destruct H3 as [[E (Hn & Hp & Ht)]|(r & Hr & Et' & Eu')]; [left|right].
      * split; [done|]. split; [|done]. cbn [with_registering with_db world notif_db]. destruct (devices (delete_devices _ _ _) !! id') as [r|] eqn:Er; [|done].
        apply commit_devices in Er as [[[-> ->]|(_ & Er & _)] _]; [|congruence|done|done]. destruct Hid as [[Hid _]|(r' & Hr' & _)]; congruence.
      * exists r. split; [|done]. apply commit_devices; [done..|]. split.
        -- right. assert (Htr : dr_Token r ≠ dr_Token (rg_Row g)) by (rewrite Et'; apply not_eq_sym; by eapply Hother, not_eq_sym). split_and!; [|done|done].
           intros Ei. rewrite Ei in Hr. destruct Hid as [[Hid (Hn & _)]|(r' & Hr' & Et2 & _)]; [congruence|]. apply Htr. congruence.
        -- intros [Hin Hur]. by eapply (Hdel ids _ id' g' r).
    + intros ids' v id2 g2 r Est' Hv Hg2 Hne' Hr Hur. cbn [with_registering with_db world notif_db registering] in Hg2, Hr. apply lookup_delete_Some in Hg2 as [Hne2 Hg2].
      apply commit_devices in Hr as [[[-> ->]|(_ & Hr & _)] _]; [|by eapply H4|done|done]. by eapply Hother, not_eq_sym.
  - intros id1 id2 g1 g2 [_ H1]%lookup_delete_Some [_ H2]%lookup_delete_Some. by apply Htok.
  - exact Htell.
Qed.

Lemma step_delete_ok s id g ids :
  system_ok s → registering s !! id = Some g → Forall (free s (Some id)) ids →
  system_ok (with_registering s (<[id := MkRegistration (rg_Device g) (rg_Row g) (TrimDone ids)]> (registering s))).
Proof.
  intros Hok Hg Hfree. apply with_stage_ok; [done..|]. intros ? v id' g' r [= <-] Hv Hg' Hne Hr _ Et. rewrite Forall_forall in Hfree.
  destruct (Hfree v Hv id' g' Hg') as [E|Hno]; [congruence|]. apply Hno. unfold holds. rewrite Hr. by left.
Qed.


(** ** Telling an event, a statement at a time *)

Definition attempt_of (run : Run) (p : Push) (d : Device) : Attempt := MkAttempt p (send run p) (reached run (dev_ID d)).

Lemma note_answer_pushed run c kind w p d : pushed (note_answer run c kind w p d).2 = pushed w ++ [attempt_of run p d].
Proof. unfold note_answer, attempt_of. by destruct (send run p), (reached run (dev_ID d)). Qed.

(** What a statement pushes, and what it lists. *)
Definition pushes (t : Telling) : list Attempt := match te_Stage t with AtNote _ p d _ => [attempt_of (te_Run t) p d] | _ => [] end.

Lemma advance_pushed w t : pushed (advance w t).1 = pushed w ++ pushes t.
Proof.
  unfold advance, pushes. destruct (te_Stage t) as [|b|b [|d ds]|b p d ds]; cbn [fst]; rewrite ?app_nil_r; [by destruct (Store_Branch _ _)|by destruct (Store_Devices _ _)|done| |apply note_answer_pushed].
  by destruct (check_device _ _ _ _ _) as [[]|].
Qed.

Lemma check_device_ok c kind b db d p :
  check_device c kind b db d = Ok (Some p) → Delivered db (ch_Event c) (dev_ID d) = false ∧ ∃ m, p = push_of c kind d m.
Proof. unfold check_device. destruct (Delivered _ _ _); [done|]. intros (m & _ & [= <-])%res_bind_ok. split; [done|]. by exists m. Qed.

(** Of the devices listed next, in order: those listed before, or those the
    customer has. *)
Lemma advance_listed w t e t' :
  notif_ok (notif_db w) → telling_ok e t → (advance w t).2 = Some t' →
  telling_ok e t' ∧ te_Run t' = te_Run t ∧ te_Change t' = te_Change t ∧ te_Kind t' = te_Kind t ∧
  (suffix (listed t') (listed t) ∨
   (∃ b, te_Stage t' = AtCheck b (listed t')) ∧ listed t' = device_of <$> DevicesOfUser (notif_db w) (ch_Customer (te_Change t))) ∧
  match te_Stage t' with AtNote _ _ d _ => Delivered (notif_db w) (ch_Event (te_Change t)) (dev_ID d) = false | _ => True end ∧
  match te_Stage t with AtNote _ _ _ ds => listed t' = ds ∧ ∃ b, te_Stage t' = AtCheck b ds | _ => True end.
Proof.
  intros Hdb [He Hp]. unfold advance, telling_ok, listed. destruct (te_Stage t) as [|b|b [|d ds]|b p d ds] eqn:Est; cbn [snd].
  - destruct (Store_Branch _ _); [|done]. intros [= <-]. split_and!; try done. left. apply suffix_nil.
  - rewrite Store_Devices_ok by done. intros [= <-]. cbn [te_Stage te_Run te_Change te_Kind]. split_and!; try done. right. split; [by eexists|done].
  - done.
  - destruct (check_device _ _ _ _ _) as [[p|]|] eqn:Ec; intros [= <-]; cbn [te_Stage te_Run te_Change te_Kind].
    + apply check_device_ok in Ec as [Ed [m ->]]. split_and!; try done; [by exists m|]. left. done.
    + split_and!; try done. left. by exists [d].
    + split_and!; try done. left. by exists [d].
  - intros [= <-]. cbn [te_Stage te_Run te_Change te_Kind]. split_and!; try done; [left; by exists [d]|by exists b].
Qed.

(** ** Every step *)

Lemma map_Forall_step {A} (P : UUID → A → Prop) (m : gmap UUID A) k o :
  map_Forall P m → (∀ x, o = Some x → P k x) → map_Forall P (partial_alter (λ _, o) k m).
Proof.
  intros Hm Ho k' x. destruct (decide (k' = k)) as [->|Hne]; [rewrite lookup_partial_alter_eq; apply Ho|].
  rewrite lookup_partial_alter_ne by done. apply Hm.
Qed.

Lemma fresh_advance s event t id :
  notif_ok (notif_db (world s)) → telling_ok event t → telling s !! event = Some t → fresh_id s id →
  Forall (λ a, dev_ID (pu_Device (at_Push a)) ≠ id) (pushed (advance (world s) t).1) ∧
  ∀ t', (advance (world s) t).2 = Some t' → Forall (λ d, dev_ID d ≠ id) (listed t').
Proof.
  intros Hdb Hto Ht (Hnone & Hp & Hl). pose proof (Hl event t Ht) as Hlt. cbn in Hlt. split.
  - rewrite advance_pushed. apply Forall_app. split; [done|]. unfold pushes. destruct Hto as [_ Hstage]. unfold listed in Hlt.
    destruct (te_Stage t) as [| | |b p d ds]; [done..|]. destruct Hstage as [m ->]. apply Forall_singleton. cbn. by apply Forall_cons in Hlt as [? _].
  - intros t' Ht'. destruct (advance_listed _ _ _ _ Hdb Hto Ht') as (_ & _ & _ & _ & [[pre E]|[_ E]] & _).
    + rewrite E in Hlt. by apply Forall_app in Hlt as [_ ?].
    + rewrite E. apply Forall_forall. intros d (r & -> & [Hr _]%elem_of_DevicesOfUser)%list_elem_of_fmap_1; [|apply (nk_keyed _ Hdb)].
      cbn. intros <-. congruence.
Qed.

(** A row goes that nobody has locked. *)
Lemma row_gone_ok s s' id :
  system_ok s → free s None id → registering s' = registering s → devices (notif_db (world s')) = delete id (devices (notif_db (world s))) →
  notif_ok (notif_db (world s')) → (∀ i, fresh_id s i → devices (notif_db (world s')) !! i = None → fresh_id s' i) → map_Forall telling_ok (telling s') → system_ok s'.
Proof.
  intros Hok Hfree Ereg Edev Hdb' Hfresh Htell. eapply (fewer_rows_ok s); [done|done|by rewrite Ereg|..|done|done].
  - rewrite Edev. by intros i r [_ Hr]%lookup_delete_Some.
  - intros id' g i r. rewrite Ereg, Edev. intros Hg Hr Et. apply lookup_delete_Some. split; [|done]. intros ->. destruct (Hfree id' g Hg) as [|Hno]; [done|].
    apply Hno. unfold holds. rewrite Hr. by left.
Qed.

Lemma step_tell_ok s event t :
  system_ok s → telling s !! event = Some t → match te_Stage t with AtNote _ _ d _ => free s None (dev_ID d) | _ => True end →
  system_ok (MkSystem (advance (world s) t).1 (registering s) (partial_alter (λ _, (advance (world s) t).2) event (telling s))).
Proof.
  intros Hok Ht Hfree. pose proof Hok as [Hdb _ _ Htell]. pose proof (Htell event t Ht) as Hto. cbn in Hto.
  assert (Htell' : map_Forall telling_ok (partial_alter (λ _, (advance (world s) t).2) event (telling s))).
  { apply map_Forall_step; [done|]. intros t' Ht'. by destruct (advance_listed _ _ _ _ Hdb Hto Ht'). }
  assert (Hfresh : ∀ i, fresh_id s i → devices (notif_db (advance (world s) t).1) !! i = None →
    fresh_id (MkSystem (advance (world s) t).1 (registering s) (partial_alter (λ _, (advance (world s) t).2) event (telling s))) i).
  { intros i Hf Hnone. destruct (fresh_advance s event t i Hdb Hto Ht Hf) as [Hp Hl]. split_and!; [done|done|]. cbn [telling].
    destruct Hf as (_ & _ & Hl0). by apply map_Forall_step. }
  pose proof (advance_ok (world s) t Hdb) as Hdb'. destruct (advance_devices (world s) t) as [Hdev|(b & p & d & ds & Est & Hdev)].
  - eapply (fewer_rows_ok s); [done|done|done| | |done|done]; cbn [world]; rewrite Hdev; done.
  - rewrite Est in Hfree. by eapply (row_gone_ok s _ (dev_ID d)).
Qed.

Lemma notif_step_ok s s' : system_ok s → notif_step s s' → system_ok s'.
Proof.
  intros Hok Hs. pose proof Hok as [Hdb Hreg Htok Htell].
  destruct Hs as [now id user token platform locale d row Hun Hnew Hfree Hsave|id g Hg Est ids|id g ids Hg Est Hfree|id g ids Hg Est|id|user id db Hfree HR|b db Hn HK
    |run c kind Hk Hc Ht|event t Ht Hfree|event].
  - by eapply step_save_ok.
  - apply with_stage_ok; [done..|]. intros ids' v id' g' r E. discriminate.
  - by apply step_delete_ok.
  - by apply step_commit_ok.
  - eapply (fewer_rows_ok s); [done|done| |done|done| |done].
    + cbn [with_registering registering]. by intros id' g [_ Hg]%lookup_delete_Some.
    + intros id' Hf Hnone. by apply (fresh_id_world s).
  - apply RemoveDevice_effect in HR as ->. eapply (row_gone_ok s _ id); [done|done|done|done|by apply delete_device_ok| |done].
    intros id' Hf Hnone. by apply (fresh_id_world s).
  - destruct (KeepBranch_effect _ _ _ Hdb Hn HK) as (Hdb' & _ & Hdev).
    eapply (fewer_rows_ok s); [done|done|done|cbn [with_db world notif_db]; by rewrite Hdev..| |done].
    intros id' Hf Hnone. by apply (fresh_id_world s).
  - eapply (fewer_rows_ok s); [done|done|done|done|done| |].
    + intros id (Hnone & Hp & Hl) _. split_and!; [done|done|]. cbn [telling]. by apply map_Forall_insert_2; [constructor|].
    + cbn [telling]. by apply map_Forall_insert_2; [split|].
  - by apply step_tell_ok.
  - eapply (fewer_rows_ok s); [done|done|done|done|done| |].
    + intros id (Hnone & Hp & Hl) _. split_and!; [done|done|]. cbn [telling]. by apply map_Forall_delete.
    + cbn [telling]. by apply map_Forall_delete.
Qed.

Lemma system_reachable_ok s : system_reachable s → system_ok s.
Proof.
  unfold system_reachable. intros Hr. eapply (rtc_ind_r system_ok empty_system); [apply empty_system_ok| |exact Hr].
  intros ? ? _ Hs Hok. by eapply notif_step_ok.
Qed.

Lemma notif_reachable_ok w : notif_reachable w → notif_ok (notif_db w).
Proof. intros (s & Hr & <-). by apply so_db, system_reachable_ok. Qed.

(** ** At most ten, one registration at a time *)

(** Its commit. *)
Definition committed (g : Registration) (ids : list DeviceID) (db : NotifDB) : NotifDB :=
  delete_devices ids (dev_User (rg_Device g)) (with_row (rg_Row g) db).

(** A user's rows only go. *)
Definition rows_go (u : UserID) (db db' : NotifDB) : Prop :=
  ∀ id r, devices db' !! id = Some r → dr_UserID r = u → devices db !! id = Some r.

Lemma rows_go_length u db db' : keyed db → keyed db' → rows_go u db db' → (length (DevicesOfUser db' u) ≤ length (DevicesOfUser db u))%nat.
Proof.
  intros Hk Hk' Hgo. apply submseteq_length, NoDup_submseteq; [by apply newer_NoDup, DevicesOfUser_newer|].
  intros r [Hr Hu]%(elem_of_DevicesOfUser db' u r Hk'). apply elem_of_DevicesOfUser; [done|]. split; [by apply Hgo|done].
Qed.

Lemma committed_ok g ids db : notif_ok db → device_ok (rg_Row g) → notif_ok (committed g ids db).
Proof. intros Hdb Hrow. by apply delete_devices_ok, with_device_row_ok. Qed.

Lemma committed_go g ids u db db' :
  notif_ok db → notif_ok db' → device_ok (rg_Row g) → rows_go u db db' → rows_go u (committed g ids db) (committed g ids db').
Proof.
  intros Hdb Hdb' Hrow Hgo i r. unfold committed. rewrite !deleted_devices by (by apply nk_keyed, with_device_row_ok). rewrite !with_row_devices.
  intros [[?|(Hi & Hr & Ht)] Hn] Hu; (split; [|done]); [by left|right]. split_and!; [done| |done]. by apply Hgo.
Qed.

(** Nobody else's rows come. *)
Lemma committed_others g ids u db : notif_ok db → device_ok (rg_Row g) → dr_UserID (rg_Row g) ≠ u → rows_go u db (committed g ids db).
Proof.
  intros Hdb Hrow Hu i r. unfold committed. rewrite deleted_devices, with_row_devices by (by apply nk_keyed, with_device_row_ok).
  intros [[[_ ->]|(_ & Hr & _)] _] Hur; done.
Qed.

Definition limited (db : NotifDB) (u : UserID) : Prop := (length (DevicesOfUser db u) ≤ MaxDevicesPerUser)%nat.

Definition trimmed_to (g : Registration) (db : NotifDB) : Prop :=
  match rg_Stage g with RowSaved => True | TrimFound ids | TrimDone ids => limited (committed g ids db) (dev_User (rg_Device g)) end.

Record limit_inv (s : System) : Prop := {
  li_users u : limited (notif_db (world s)) u;
  li_reg : map_Forall (λ _ g, trimmed_to g (notif_db (world s))) (registering s) }.

Lemma trimmed_to_go g db db' :
  notif_ok db → notif_ok db' → device_ok (rg_Row g) → rows_go (dev_User (rg_Device g)) db db' → trimmed_to g db → trimmed_to g db'.
Proof.
  intros Hdb Hdb' Hrow Hgo. unfold trimmed_to, limited. destruct (rg_Stage g) as [|ids|ids]; [done|intros Hl; etrans; [|exact Hl]..];
    (apply rows_go_length; [by apply nk_keyed, committed_ok..|by apply committed_go]).
Qed.

Lemma trimmed_to_now g db : notif_ok db → device_ok (rg_Row g) →
  limited (committed g (TrimDevices (with_row (rg_Row g) db) (dev_User (rg_Device g)) MaxDevicesPerUser) db) (dev_User (rg_Device g)).
Proof. intros Hdb Hrow. unfold limited, committed. rewrite trimmed_same by (by apply nk_keyed, with_device_row_ok). rewrite length_take. lia. Qed.

(** Where everybody's rows only go, the limit stays. *)
Lemma limit_go s s' :
  system_ok s → system_ok s' → limit_inv s → (∀ u, rows_go u (notif_db (world s)) (notif_db (world s'))) →
  (∀ id g, registering s' !! id = Some g → registering s !! id = Some g) → limit_inv s'.
Proof.
  intros Hok Hok' [Hu Hreg] Hgo Hin. pose proof (so_db s Hok) as Hdb. pose proof (so_db s' Hok') as Hdb'. split.
  - intros u. unfold limited. etrans; [|apply (Hu u)]. by apply rows_go_length; [apply nk_keyed..|].
  - intros id g Hg. apply (trimmed_to_go g (notif_db (world s))); [done|done|by eapply ro_row, so_reg, Hin|apply Hgo|by eapply Hreg, Hin].
Qed.

Lemma limit_step s s' : system_ok s → one_each s → limit_inv s → notif_step s s' → limit_inv s'.
Proof.
  intros Hok Hone Hlim Hs. pose proof (notif_step_ok s s' Hok Hs) as Hok'. pose proof Hok as [Hdb Hreg _ _]. pose proof Hlim as [Hu Hr].
  assert (Hgone : ∀ id u db, devices db = delete id (devices (notif_db (world s))) → rows_go u (notif_db (world s)) db).
  { intros id u db E i r. rewrite E. by intros [_ ?]%lookup_delete_Some. }
  destruct Hs as [now id user token platform locale d row Hun Hnew Hfree Hsave|id g Hg Est ids|id g ids Hg Est Hfree|id g ids Hg Est|id|user id db Hfree HR|b db Hn HK
    |run c kind Hk Hc Ht|event t Ht Hfree|event].
  - split; [done|]. cbn [with_registering registering world]. by apply map_Forall_insert_2.
  - split; [done|]. cbn [with_registering registering world]. apply map_Forall_insert_2; [|done]. exact (trimmed_to_now g _ Hdb (ro_row _ _ _ (Hreg id g Hg))).
  - split; [done|]. cbn [with_registering registering world]. apply map_Forall_insert_2; [|done]. pose proof (Hr id g Hg) as Ht. unfold trimmed_to in Ht |- *.
    by rewrite Est in Ht.
  - pose proof (Hreg id g Hg) as [Hrow Hru _ _]. pose proof (Hr id g Hg) as Ht. cbn in Ht. unfold trimmed_to in Ht. rewrite Est in Ht.
    assert (Hgo : ∀ u, u ≠ dev_User (rg_Device g) → rows_go u (notif_db (world s)) (committed g ids (notif_db (world s)))) by (intros u Hne; apply committed_others; [done|done|congruence]).
    split; cbn [with_registering with_db registering world notif_db].
    + intros u. destruct (decide (u = dev_User (rg_Device g))) as [->|Hne]; [done|]. unfold limited. etrans; [|apply (Hu u)].
      apply rows_go_length; [by apply nk_keyed|by apply nk_keyed, committed_ok|by apply Hgo].
    + intros id' g' [Hne Hg']%lookup_delete_Some. pose proof (Hreg id' g' Hg') as [Hrow' _ _ _].
      apply (trimmed_to_go g' (notif_db (world s))); [done|by apply committed_ok|done| |by eapply Hr]. apply Hgo. intros E. apply Hne. by eapply Hone.
  - eapply (limit_go s); [done|done|done|by intros ? ? ?|]. cbn [with_registering registering]. by intros id' g [_ Hg]%lookup_delete_Some.
  - apply RemoveDevice_effect in HR as ->. eapply (limit_go s); [done|done|done| |done]. intros u. by apply (Hgone id).
  - destruct (KeepBranch_effect _ _ _ Hdb Hn HK) as (_ & _ & Hdev). eapply (limit_go s); [done|done|done| |done]. intros u i r. cbn [with_db world notif_db]. by rewrite Hdev.
  - by eapply (limit_go s); [done|done|done|intros ? ? ?|].
  - eapply (limit_go s); [done|done|done| |done]. intros u. cbn [world].
    destruct (advance_devices (world s) t) as [Hdev|(_ & _ & d & _ & _ & Hdev)]; [intros i r; by rewrite Hdev|by apply (Hgone (dev_ID d))].
  - by eapply (limit_go s); [done|done|done|intros ? ? ?|].
Qed.

(** No user has more than ten devices in a history in which no two of their
    registrations were under way at once. *)
Lemma reachable_one_limited w u : reachable_one w → limited (notif_db w) u.
Proof.
  intros (s & Hr & <-). assert (Hall : system_ok s ∧ one_each s ∧ limit_inv s).
  { eapply (rtc_ind_r (λ s, system_ok s ∧ one_each s ∧ limit_inv s) empty_system); [| |exact Hr].
    - split; [apply empty_system_ok|]. split; [by intros ???? ?|]. split; [|by intros ?? ?]. intros v. unfold limited.
      change (DevicesOfUser _ v) with (@nil DeviceRow). cbn. lia.
    - intros x y _ [Hs Hone] (Hok & Hone' & Hlim). split_and!; [by eapply notif_step_ok|done|]. by eapply limit_step. }
  destruct Hall as (_ & _ & Hlim). apply (li_users s Hlim).
Qed.

Lemma reachable_one_reachable w : reachable_one w → notif_reachable w.
Proof. intros (s & Hr & <-). exists s. split; [|done]. eapply (rtc_subrel notif_step_one notif_step); [by intros ? ? []|exact Hr]. Qed.
End steps.
