(* ===== verification/Notices.v ===== *)
(** * What customers are told, and how often

    Telling one event: who is pushed what, what is noted of it, and what the
    answer is. And over any interleaving of calls and events, statement by
    statement: every table reads back, and a device that has heard of an event,
    or refused it, never hears of it again. *)
From S2P Require Import Prelude GoTime GoText Shared Tables BizBase DiscStore Notification NotifFlow.
Open Scope Z_scope.

(** ** One event *)

(** Trying again is not needed. *)
Definition settled (a : Attempt) : bool := at_Noted a && match at_Answer a with PushFailed => false | _ => true end.

(** What is told, and which device. *)
Definition told_key (a : Attempt) : UUID * DeviceID := (pu_CollapseKey (at_Push a), dev_ID (pu_Device (at_Push a))).

Definition branch_of (id : BranchID) (r : BranchRow) : option Branch :=
  match NewLocalizedText (nr_NameAr r) (nr_NameEn r) with Ok name => Some (MkBranch id (nr_Version r) name (nr_Timezone r)) | Err _ => None end.

Section telling.
Context `{TzLib} (run : Run) (c : AppointmentChange) (kind : Kind) (branch : Branch).
Abbreviation event := (ch_Event c).

Definition words (l : Language) : string * string := match Message kind l branch (ch_StartsAt c) with Ok m => m | Err _ => ("", "")%string end.
Definition notice (d : Device) : Push := push_of c kind d (words (dev_Locale d)).
Definition attempt (d : Device) : Attempt := attempt_of run (notice d) d.

(** What is kept of the answer. *)
Definition outcome_row (d : Device) (o : Outcome) : DeliveryRow :=
  MkDeliveryRow event (dev_ID d) (dev_User d) (Kind_string kind) (if ID_IsZero (ch_Appointment c) then None else Some (ch_Appointment c)) (stored_time (now run (dev_ID d)))
    (Outcome_string o).
Definition noted_row (d : Device) : option DeliveryRow :=
  if at_Noted (attempt d) then match at_Answer (attempt d) with PushSent => Some (outcome_row d Sent) | PushRejected => Some (outcome_row d Rejected) | _ => None end else None.
Definition gone (d : Device) : bool := at_Noted (attempt d) && match at_Answer (attempt d) with DeviceGone => true | _ => false end.

Definition note (db : NotifDB) (d : Device) : NotifDB :=
  MkNotifDB (if gone d then delete (dev_ID d) (devices db) else devices db) (branches db)
    (match noted_row d with Some r => <[(event, dev_ID d) := r]> (deliveries db) | None => deliveries db end).

Definition untold (db : NotifDB) (ds : list Device) : list Device := filter (λ d, Delivered db event (dev_ID d) = false) ds.

Lemma Message_words l loc : LoadLocation (nb_Timezone branch) = Some loc → Message kind l branch (ch_StartsAt c) = Ok (words l).
Proof. intros Hloc. unfold words, Message. by rewrite Hloc. Qed.

Lemma note_answer_spec w d :
  Delivered (notif_db w) event (dev_ID d) = false →
  (note_answer run c kind w (notice d) d).2 = MkWorld (note (notif_db w) d) (pushed w ++ [attempt d]) ∧
  is_ok (note_answer run c kind w (notice d) d).1 = settled (attempt d).
Proof.
  intros Ed. unfold note_answer, settled, note, gone, noted_row, attempt, attempt_of. cbn [at_Noted at_Answer].
  assert (Er : ∀ o, RecordDelivery (notif_db w) (MkDelivery event (dev_ID d) (dev_User d) kind (ch_Appointment c) o (now run (dev_ID d)))
    = MkNotifDB (devices (notif_db w)) (branches (notif_db w)) (<[(event, dev_ID d) := outcome_row d o]> (deliveries (notif_db w)))).
  { intros o. unfold RecordDelivery. cbn [de_Event de_Device]. unfold Delivered in Ed. by destruct (deliveries _ !! _). }
  destruct w as [[ds bs dl] ps]. cbn [notif_db pushed] in *.
  destruct (send run (notice d)), (reached run (dev_ID d)); cbn [negb notif_db pushed]; rewrite ?Er; done.
Qed.

(** Nobody else's statements come in between. *)
Context (Halone : ∀ m w, others run m w = w).

Lemma pushOnce_spec w d :
  LoadLocation (nb_Timezone branch) ≠ None →
  (pushOnce run c kind branch w d).2 = (if Delivered (notif_db w) event (dev_ID d) then w else MkWorld (note (notif_db w) d) (pushed w ++ [attempt d])) ∧
  is_ok (pushOnce run c kind branch w d).1 = Delivered (notif_db w) event (dev_ID d) || settled (attempt d).
Proof using Halone.
  intros [loc Hloc]%not_eq_None_Some. unfold pushOnce, check_device. rewrite !Halone. destruct (Delivered _ _ _) eqn:Ed; [done|]. rewrite (Message_words _ loc Hloc).
  cbn [res_bind orb]. by apply note_answer_spec.
Qed.

Lemma pushOnce_no_zone w d :
  LoadLocation (nb_Timezone branch) = None →
  pushOnce run c kind branch w d = (if Delivered (notif_db w) event (dev_ID d) then Ok tt else Err ErrBadZone, w).
Proof using Halone. intros Hz. unfold pushOnce, check_device, Message. rewrite Halone, Hz. by destruct (Delivered _ _ _). Qed.

Lemma note_Delivered db d id : id ≠ dev_ID d → Delivered (note db d) event id = Delivered db event id.
Proof. intros Hne. unfold Delivered, note. cbn [deliveries]. destruct (noted_row d); [|done]. by rewrite lookup_insert_ne by congruence. Qed.

Lemma untold_cons db d ds : untold db (d :: ds) = if Delivered db event (dev_ID d) then untold db ds else d :: untold db ds.
Proof. unfold untold. rewrite filter_cons. destruct (Delivered _ _ _), (decide _); done. Qed.

Lemma untold_note db d ds : dev_ID d ∉ dev_ID <$> ds → untold (note db d) ds = untold db ds.
Proof.
  intros Hout. induction ds as [|d' ds IH]; [done|]. rewrite fmap_cons, not_elem_of_cons in Hout. destruct Hout as [Hne Hout].
  rewrite !untold_cons, note_Delivered by done. by rewrite IH.
Qed.

(** All devices: each untold one is tried, whatever the others answer. *)
Lemma push_all_spec ds w :
  LoadLocation (nb_Timezone branch) ≠ None → NoDup (dev_ID <$> ds) →
  (push_all run c kind branch w ds).2 = MkWorld (foldl note (notif_db w) (untold (notif_db w) ds)) (pushed w ++ (attempt <$> untold (notif_db w) ds)) ∧
  is_ok (push_all run c kind branch w ds).1 = forallb (λ d, settled (attempt d)) (untold (notif_db w) ds).
Proof using Halone.
  intros Hz. unfold push_all. change (is_ok ?x = ?y) with (is_ok x = is_ok (@Ok notif_error _ tt) && y). generalize (@Ok notif_error _ tt) as acc. revert w.
  induction ds as [|d ds IH]; intros w acc Hnd.
  - cbn. rewrite app_nil_r, andb_true_r. by destruct w.
  - rewrite fmap_cons, NoDup_cons in Hnd. destruct Hnd as [Hout Hnd]. destruct (pushOnce_spec w d Hz) as [Ew Eok]. cbn [foldl fst snd].
    destruct (IH (pushOnce run c kind branch w d).2 (match acc with Ok _ => (pushOnce run c kind branch w d).1 | Err e => Err e end) Hnd) as [-> ->].
    rewrite Ew, untold_cons. destruct (Delivered (notif_db w) event (dev_ID d)) eqn:Ed.
    + split; [done|]. by destruct acc; cbn [is_ok]; rewrite ?Eok.
    + cbn [notif_db pushed foldl]. rewrite untold_note by done. rewrite fmap_cons, <- app_assoc. split; [done|].
      cbn [forallb]. destruct acc; cbn [is_ok andb]; [|done]. by rewrite Eok.
Qed.

Lemma push_all_no_zone ds w :
  LoadLocation (nb_Timezone branch) = None →
  (push_all run c kind branch w ds).2 = w ∧ is_ok (push_all run c kind branch w ds).1 = bool_decide (untold (notif_db w) ds = []).
Proof using Halone.
  intros Hz. unfold push_all. change (is_ok ?x = ?y) with (is_ok x = is_ok (@Ok notif_error _ tt) && y). generalize (@Ok notif_error _ tt) as acc.
  induction ds as [|d ds IH]; intros acc; [cbn; by rewrite andb_true_r|]. cbn [foldl fst snd]. rewrite (pushOnce_no_zone w d Hz). cbn [fst snd].
  destruct (IH (match acc with Ok _ => if Delivered (notif_db w) event (dev_ID d) then Ok tt else Err ErrBadZone | Err e => Err e end)) as [-> ->].
  split; [done|]. rewrite untold_cons. destruct (Delivered _ _ _), acc; done.
Qed.

(** What is kept of all of them. *)
Lemma note_all ds db :
  NoDup (dev_ID <$> ds) → let db' := foldl note db ds in
  (∀ d, d ∈ ds → devices db' !! dev_ID d = (if gone d then None else devices db !! dev_ID d) ∧
     deliveries db' !! (event, dev_ID d) = match noted_row d with Some r => Some r | None => deliveries db !! (event, dev_ID d) end) ∧
  (∀ id, id ∉ dev_ID <$> ds → devices db' !! id = devices db !! id) ∧
  (∀ key, key.1 ≠ event ∨ key.2 ∉ dev_ID <$> ds → deliveries db' !! key = deliveries db !! key) ∧ branches db' = branches db.
Proof.
  cbn zeta. revert db. induction ds as [|d ds IH]; intros db Hnd; [split_and!; [by intros ? ?%not_elem_of_nil|done..]|].
  rewrite fmap_cons, NoDup_cons in Hnd. destruct Hnd as [Hout Hnd]. cbn [foldl]. destruct (IH (note db d) Hnd) as (Hin & Hdev & Hdel & Hbr).
  assert (Hdev1 : ∀ id, id ≠ dev_ID d → devices (note db d) !! id = devices db !! id).
  { intros id Hne. unfold note. cbn [devices]. destruct (gone d); [|done]. by rewrite lookup_delete_ne by congruence. }
  assert (Hdel1 : ∀ key, key ≠ (event, dev_ID d) → deliveries (note db d) !! key = deliveries db !! key).
  { intros key Hne. unfold note. cbn [deliveries]. destruct (noted_row d); [|done]. by rewrite lookup_insert_ne by congruence. }
  split_and!.
  - intros d' [->|Hd']%elem_of_cons.
    + rewrite Hdev, (Hdel (event, dev_ID d)) by (done || by right). unfold note. cbn [devices deliveries]. split; [destruct (gone d); [apply lookup_delete_eq|done]|].
      destruct (noted_row d); [apply lookup_insert_eq|done].
    + assert (Hne : dev_ID d' ≠ dev_ID d) by (intros E; rewrite <- E in Hout; by apply Hout, list_elem_of_fmap_2).
      destruct (Hin d' Hd') as [-> ->]. rewrite Hdev1, Hdel1 by congruence. done.
  - intros id Hid. rewrite fmap_cons, not_elem_of_cons in Hid. destruct Hid as [Hne Hid]. by rewrite Hdev, Hdev1.
  - intros key Hkey. rewrite fmap_cons, not_elem_of_cons in Hkey. rewrite Hdel, Hdel1; [done| |naive_solver].
    intros ->. naive_solver.
  - by rewrite Hbr.
Qed.

End telling.

(** ** Reading the tables *)

Lemma Store_Branch_ok db id : notif_ok db → Store_Branch db id = from_option (λ r, match branch_of id r with Some b => Ok b | None => Err ErrStorage end) (Err ErrUnknownBranch) (branches db !! id).
Proof. intros Hdb. unfold Store_Branch, branch_of. destruct (branches db !! id) as [r|]; [|done]. cbn. by destruct (NewLocalizedText _ _). Qed.

Lemma branch_reads db id r : notif_ok db → branches db !! id = Some r → ∃ b, branch_of id r = Some b ∧ nb_Timezone b = nr_Timezone r.
Proof. intros Hdb Hr. pose proof (nk_branch db Hdb _ _ Hr) as Hok. unfold branch_of. destruct (NewLocalizedText _ _); [by eexists|done]. Qed.

Lemma NoDup_fmap_filter {A B} (f : A → B) (P : A → Prop) `{∀ a, Decision (P a)} l : NoDup (f <$> l) → NoDup (f <$> filter P l).
Proof.
  induction l as [|a l IH]; [done|]. rewrite fmap_cons, filter_cons, NoDup_cons. intros [Hout Hnd]. destruct (decide (P a)); [|by apply IH].
  rewrite fmap_cons. constructor; [|by apply IH]. intros (b & E & [_ Hb]%list_elem_of_filter)%list_elem_of_fmap_1. apply Hout. rewrite E. by apply list_elem_of_fmap_2.
Qed.

Lemma untold_ids c db user : notif_ok db → NoDup (dev_ID <$> untold c db (device_of <$> DevicesOfUser db user)).
Proof.
  intros Hdb. apply NoDup_fmap_filter. by apply user_device_ids.
Qed.

Lemma is_ok_unit {E} (r : res E unit) : is_ok r = true ↔ r = Ok tt.
Proof. destruct r as [[]|]; done. Qed.

(** ** Telling an event *)

Section answers.
Context `{TzLib}.

(** Telling an event with nobody's statements in between, on every branch: an event nobody is told of, or of a
    walk-in, changes nothing; one about a branch not heard of yet fails before
    any push, to be tried again. Else every device the customer has that has
    not heard of it is pushed, newest first, the customer's words in its own
    language, whatever the others answer; what is sent or refused is noted
    once, a device the service no longer knows is forgotten, a failed push
    leaves no trace, and the answer is success exactly when no device needs
    another try. *)
Theorem notice_answers run w c answer w' :
  (∀ m w, others run m w = w) → notif_ok (notif_db w) → Notify run w c = (answer, w') →
  let db := notif_db w in
  match CustomerNotice (ch_What c) (ch_Status c) (ch_CancelledBy c) with
  | None => answer = Ok tt ∧ w' = w
  | Some kind =>
      if ID_IsZero (ch_Customer c) then answer = Ok tt ∧ w' = w
      else match branches db !! ch_Branch c with
      | None => answer = Err ErrUnknownBranch ∧ w' = w
      | Some row =>
          let ds := untold c db (device_of <$> DevicesOfUser db (ch_Customer c)) in
          ∃ branch, branch_of (ch_Branch c) row = Some branch ∧
          if bool_decide (LoadLocation (nr_Timezone row) = None) then w' = w ∧ (answer = Ok tt ↔ ds = [])
          else
            (∀ d, d ∈ ds → Message kind (dev_Locale d) branch (ch_StartsAt c) = Ok (pu_Title (notice c kind branch d), pu_Body (notice c kind branch d))) ∧
            pushed w' = pushed w ++ (attempt run c kind branch <$> ds) ∧
            (answer = Ok tt ↔ ∀ d, d ∈ ds → settled (attempt run c kind branch d) = true) ∧
            (∀ d, d ∈ ds →
               devices (notif_db w') !! dev_ID d = (if gone run c kind branch d then None else devices db !! dev_ID d) ∧
               deliveries (notif_db w') !! (ch_Event c, dev_ID d) = noted_row run c kind branch d) ∧
            (∀ id, id ∉ dev_ID <$> ds → devices (notif_db w') !! id = devices db !! id) ∧
            (∀ key, key.1 ≠ ch_Event c ∨ key.2 ∉ dev_ID <$> ds → deliveries (notif_db w') !! key = deliveries db !! key) ∧
            branches (notif_db w') = branches db
      end
  end.
Proof.
  intros Halone Hdb. cbn zeta. unfold Notify. destruct (CustomerNotice _ _ _) as [kind|]; [|by intros [= <- <-]]. destruct (ID_IsZero _); [by intros [= <- <-]|].
  rewrite Halone, Store_Branch_ok, Store_Devices_ok by done. destruct (branches (notif_db w) !! ch_Branch c) as [row|] eqn:Erow; cbn [from_option]; [|by intros [= <- <-]].
  destruct (branch_reads _ _ _ Hdb Erow) as (branch & Eb & Etz). rewrite Eb. set (ds := device_of <$> _). intros E. exists branch. split; [done|].
  rewrite <- Etz. case_bool_decide as Hz.
  - destruct (push_all_no_zone run c kind branch Halone ds w Hz) as [Ew Eok]. rewrite E in Ew, Eok. cbn [fst snd] in *. split; [done|].
    rewrite <- is_ok_unit, Eok. apply bool_decide_eq_true.
  - destruct (push_all_spec run c kind branch Halone ds w Hz) as [Ew Eok]; [by apply user_device_ids|]. rewrite E in Ew, Eok. cbn [fst snd] in *. subst w'.
    assert (Hnd : NoDup (dev_ID <$> untold c (notif_db w) ds)) by by apply untold_ids. apply not_eq_None_Some in Hz as [loc Hloc].
    destruct (note_all run c kind branch (untold c (notif_db w) ds) (notif_db w) Hnd) as (Hin & Hdev & Hdel & Hbr). split_and!; [|done| |..|done|done|done].
    + intros d _. rewrite (Message_words c kind branch (dev_Locale d) loc Hloc). cbn. by destruct (words _ _ _ _).
    + rewrite <- is_ok_unit, Eok, forallb_forall. by setoid_rewrite list_elem_of_In.
    + cbn [notif_db]. intros d Hd. destruct (Hin d Hd) as [-> ->]. split; [done|]. apply list_elem_of_filter in Hd as [Hd _]. unfold Delivered in Hd.
      destruct (noted_row _ _ _ _ d); [done|]. by destruct (deliveries _ !! _).
Qed.
End answers.

(** ** Told once *)

Section told.
Context `{TzLib}.

(** What is known of an event being told: no device is listed twice, one that
    settled is on record, and what is about to be noted is not. *)
Definition tells_once (w : World) (e : UUID) (t : Telling) : Prop :=
  NoDup (dev_ID <$> listed t) ∧
  (∀ d a, d ∈ listed t → a ∈ pushed w → settled a = true → told_key a = (e, dev_ID d) → deliveries (notif_db w) !! (e, dev_ID d) ≠ None) ∧
  match te_Stage t with AtNote _ _ d _ => deliveries (notif_db w) !! (e, dev_ID d) = None | _ => True end.

(** What settled is noted, or its device is gone; and never came again. *)
Record told_inv (s : System) : Prop := {
  ti_noted a : a ∈ pushed (world s) → settled a = true →
    deliveries (notif_db (world s)) !! told_key a ≠ None ∨ devices (notif_db (world s)) !! (told_key a).2 = None;
  ti_once : StronglySorted (λ a b, settled a = true → told_key b ≠ told_key a) (pushed (world s));
  ti_telling : map_Forall (tells_once (world s)) (telling s) }.

(** Nothing pushed and nothing forgotten is undone by a statement on the devices
    or branches. *)
Lemma told_inv_tables s s' :
  told_inv s → pushed (world s') = pushed (world s) → deliveries (notif_db (world s')) = deliveries (notif_db (world s)) →
  (∀ a, a ∈ pushed (world s) → devices (notif_db (world s)) !! (told_key a).2 = None → devices (notif_db (world s')) !! (told_key a).2 = None) →
  map_Forall (tells_once (world s)) (telling s') → told_inv s'.
Proof.
  intros [Hn Ho _] Ep Edel Hdev Ht. split; rewrite ?Ep; [|done|].
  - intros a Ha Hs. rewrite Edel. destruct (Hn a Ha Hs); [by left|right; by apply Hdev].
  - intros e t He. unfold tells_once. rewrite Ep, Edel. by apply Ht.
Qed.

(** A registration brings no ID back. *)
Lemma committed_None s id g ids i :
  system_ok s → registering s !! id = Some g → i ≠ id → devices (notif_db (world s)) !! i = None → devices (committed g ids (notif_db (world s))) !! i = None.
Proof.
  intros Hok Hg Hi Hnone. destruct (so_reg s Hok id g Hg) as [Hrow _ Hid _]. destruct (devices (committed _ _ _) !! i) as [r|] eqn:Er; [|done].
  apply commit_devices in Er as [[[-> ->]|(_ & Er & _)] _]; [|congruence|by apply so_db|done]. destruct Hid as [[E _]|(r' & Hr' & _)]; congruence.
Qed.

(** What noting an answer does. *)
Lemma note_answer_effect run c kind w p d :
  let w' := (note_answer run c kind w p d).2 in
  (∀ key, key ≠ (ch_Event c, dev_ID d) → deliveries (notif_db w') !! key = deliveries (notif_db w) !! key) ∧
  (∀ key, deliveries (notif_db w) !! key ≠ None → deliveries (notif_db w') !! key ≠ None) ∧
  (∀ i, devices (notif_db w) !! i = None → devices (notif_db w') !! i = None) ∧
  (settled (attempt_of run p d) = true → deliveries (notif_db w') !! (ch_Event c, dev_ID d) ≠ None ∨ devices (notif_db w') !! dev_ID d = None).
Proof.
  cbn zeta.
  assert (Hrec : ∀ o, let db := RecordDelivery (notif_db w) (MkDelivery (ch_Event c) (dev_ID d) (dev_User d) kind (ch_Appointment c) o (now run (dev_ID d))) in
    (∀ key, key ≠ (ch_Event c, dev_ID d) → deliveries db !! key = deliveries (notif_db w) !! key) ∧
    (∀ key, deliveries (notif_db w) !! key ≠ None → deliveries db !! key ≠ None) ∧ devices db = devices (notif_db w) ∧ deliveries db !! (ch_Event c, dev_ID d) ≠ None).
  { intros o. cbn zeta. unfold RecordDelivery. cbn [de_Event de_Device]. destruct (deliveries _ !! _) as [r|] eqn:Er; [split_and!; [done..|congruence]|].
    cbn [deliveries devices]. split_and!; [|..|done|by rewrite lookup_insert_eq]; intros key Hk; [by rewrite lookup_insert_ne|].
    destruct (decide (key = (ch_Event c, dev_ID d))) as [->|Hne]; [by rewrite lookup_insert_eq|by rewrite lookup_insert_ne]. }
  unfold note_answer, settled, attempt_of. cbn [at_Noted at_Answer].
  destruct (send run p), (reached run (dev_ID d)); cbn [negb snd notif_db andb]; try (by split_and!).
  - destruct (Hrec Sent) as (H1 & H2 & H3 & H4). split_and!; [done|done|by rewrite H3|by left].
  - split_and!; [done|done| |]; cbn [ForgetDevice set_devices devices]; [|intros _; right; apply lookup_delete_eq]. intros i Hi. apply lookup_delete_None. by right.
  - destruct (Hrec Rejected) as (H1 & H2 & H3 & H4). split_and!; [done|done|by rewrite H3|by left].
Qed.

(** A statement that notes nothing changes nothing, and what it lists next is
    told once. *)
Lemma advance_reads w t : match te_Stage t with AtNote _ _ _ _ => True | _ => (advance w t).1 = w end.
Proof.
  unfold advance. destruct (te_Stage t) as [|b|b [|d ds]|]; try done; [by destruct (Store_Branch _ _)|by destruct (Store_Devices _ _)|].
  by destruct (check_device _ _ _ _ _) as [[]|].
Qed.

Lemma tells_once_next s e t t' :
  system_ok s → told_inv s → telling s !! e = Some t → (advance (world s) t).2 = Some t' → tells_once (world s) e t'.
Proof.
  intros Hok [Hn _ Htell] Ht Ht'. pose proof (so_db s Hok) as Hdb. pose proof (so_telling s Hok e t Ht) as Hto. cbn in Hto.
  destruct (advance_listed _ _ _ _ Hdb Hto Ht') as (_ & _ & _ & _ & Hl & Hnote & _). destruct Hto as [Ee _]. destruct (Htell e t Ht) as (Hnd & Hset & _).
  assert (Hdel : match te_Stage t' with AtNote _ _ d _ => deliveries (notif_db (world s)) !! (e, dev_ID d) = None | _ => True end).
  { rewrite <- Ee. destruct (te_Stage t'); [done..|]. unfold Delivered in Hnote. by destruct (deliveries _ !! _). }
  destruct Hl as [[pre E]|[_ E]].
  - rewrite E in Hnd, Hset. rewrite fmap_app, NoDup_app in Hnd. split_and!; [by destruct Hnd as (_ & _ & ?)| |done].
    intros d a Hd. apply Hset. apply elem_of_app. by right.
  - split_and!; [rewrite E; by apply user_device_ids| |done]. rewrite E. intros d a (r & -> & Hr)%list_elem_of_fmap_1 Ha Hs Ek. apply elem_of_DevicesOfUser in Hr as [Hr _]; [|by apply nk_keyed].
    destruct (Hn a Ha Hs) as [Hd|Hd]; rewrite Ek in Hd; [done|]. cbn in Hd. congruence.
Qed.

Lemma told_inv_note s e t b p d ds :
  system_ok s → told_inv s → telling s !! e = Some t → te_Stage t = AtNote b p d ds →
  told_inv (MkSystem (advance (world s) t).1 (registering s) (partial_alter (λ _, (advance (world s) t).2) e (telling s))).
Proof.
  intros Hok [Hn Ho Htell] Ht Est. destruct (so_telling s Hok e t Ht) as [Ee Hp]. rewrite Est in Hp. destruct Hp as [m Hp].
  destruct (Htell e t Ht) as (Hnd & Hset & Hnone). unfold listed in Hnd, Hset. rewrite Est in Hnd, Hset, Hnone.
  unfold advance. rewrite Est. cbn [fst snd]. pose proof (note_answer_pushed (te_Run t) (te_Change t) (te_Kind t) (world s) p d) as Epush.
  pose proof (note_answer_effect (te_Run t) (te_Change t) (te_Kind t) (world s) p d) as Heff. cbn zeta in Heff. rewrite Ee in Heff.
  set (w' := (note_answer _ _ _ _ p d).2) in *. set (a0 := attempt_of (te_Run t) p d) in *. destruct Heff as (Hkeys & Hmore & Hgone & Hsettled).
  assert (Ek : told_key a0 = (e, dev_ID d)) by (rewrite <- Ee; unfold a0, told_key; by rewrite Hp).
  assert (Hnot : ∀ a, a ∈ pushed (world s) → settled a = true → told_key a ≠ (e, dev_ID d)).
  { intros a Ha Hs E. apply (Hset d a) in E; [done|left|done|done]. }
  split; cbn [world telling].
  - intros a. rewrite Epush. intros [Ha|Ea%list_elem_of_singleton]%elem_of_app Hs; [|subst a; rewrite Ek; by apply Hsettled].
    destruct (Hn a Ha Hs) as [Hd|Hd]; [left; by apply Hmore|right; by apply Hgone].
  - rewrite Epush. apply StronglySorted_app_2; [|done|repeat constructor]. intros a a' Ha Ea%list_elem_of_singleton Hs E. subst a'. apply (Hnot a Ha Hs). by rewrite <- E, Ek.
  - rewrite fmap_cons, NoDup_cons in Hnd. destruct Hnd as [Hout Hnd]. intros e' t'. destruct (decide (e' = e)) as [->|Hne].
    + rewrite lookup_partial_alter_eq. intros [= <-]. unfold tells_once, listed. cbn [te_Stage]. split_and!; [done| |done].
      intros d' a Hd'. rewrite Epush. intros [Ha|Ea%list_elem_of_singleton]%elem_of_app Hs E.
      * apply Hmore. apply (Hset d' a); [by right|done..].
      * subst a. rewrite Ek in E. injection E as E. destruct Hout. rewrite E. by apply list_elem_of_fmap_2.
    + rewrite lookup_partial_alter_ne by done. intros Ht'. destruct (Htell e' t' Ht') as (Hnd' & Hset' & Hnote'). split_and!; [done| |].
      * intros d' a Hd'. rewrite Epush. intros [Ha|Ea%list_elem_of_singleton]%elem_of_app Hs E; [apply Hmore; by apply (Hset' d' a)|].
        subst a. rewrite Ek in E. injection E as E _. congruence.
      * destruct (te_Stage t'); [done..|]. rewrite Hkeys; [done|]. congruence.
Qed.

Lemma told_inv_step s s' : system_ok s → told_inv s → notif_step s s' → told_inv s'.
Proof.
  intros Hok Hinv Hs. pose proof (so_db s Hok) as Hdb. pose proof (ti_telling s Hinv) as Htell.
  destruct Hs as [now id user token platform locale d row Hun Hnew Hfree Hsave|id g Hg Est ids|id g ids Hg Est Hfree|id g ids Hg Est|id|user id db Hfree HR|b db Hn HK
    |run c kind Hk Hc Ht|event t Ht Hfree|event].
  - by apply (told_inv_tables s).
  - by apply (told_inv_tables s).
  - by apply (told_inv_tables s).
  - apply (told_inv_tables s); [done|done|done| |done]. intros a Ha Hnone. cbn [with_registering with_db world notif_db].
    destruct (decide ((told_key a).2 = id)) as [E|Hne]; [|by apply (committed_None s id)].
    destruct (so_reg s Hok id g Hg) as [Hrow _ Hid _]. destruct (devices (delete_devices _ _ _) !! _) as [r|] eqn:Er; [|done].
    apply commit_devices in Er as [[[Ei _]|(_ & Er & _)] _]; [|congruence|done|done]. destruct Hid as [[Eid (_ & Hp & _)]|(r' & Hr' & _)]; [|congruence].
    rewrite Forall_forall in Hp. by destruct (Hp a Ha).
  - by apply (told_inv_tables s).
  - apply RemoveDevice_effect in HR as ->. apply (told_inv_tables s); [done|done|done| |done]. intros a _ Hnone. cbn. apply lookup_delete_None. by right.
  - destruct (KeepBranch_effect _ _ _ Hdb Hn HK) as (_ & Edel & Edev). apply (told_inv_tables s); [done|done|done| |done]. intros a _. cbn [with_db world notif_db]. by rewrite Edev.
  - apply (told_inv_tables s); [done|done|done|done|]. cbn [telling]. apply map_Forall_insert_2; [|done]. split_and!; [constructor|by intros ?? ?%not_elem_of_nil|done].
  - pose proof (advance_reads (world s) t) as Hread.
    assert (Hnext : (advance (world s) t).1 = world s → told_inv (MkSystem (advance (world s) t).1 (registering s) (partial_alter (λ _, (advance (world s) t).2) event (telling s)))).
    { intros E. apply (told_inv_tables s); cbn [world telling]; rewrite ?E; [done|done|done|done|]. apply map_Forall_step; [done|].
      intros t' Ht'. by eapply tells_once_next. }
    destruct (te_Stage t) as [|b|b ds|b p d ds] eqn:Est; [by apply Hnext..|]. by eapply told_inv_note.
  - apply (told_inv_tables s); [done|done|done|done|]. cbn [telling]. by apply map_Forall_delete.
Qed.

Lemma reachable_told s : system_reachable s → told_inv s.
Proof.
  unfold system_reachable. intros Hr. eapply (rtc_ind_r told_inv empty_system); [| |exact Hr].
  - split; [by intros ? ?%not_elem_of_nil|constructor|by intros ?? ?].
  - intros x y Hx Hs IH. eapply told_inv_step; [by apply system_reachable_ok|done|done].
Qed.

End told.

(** ** The handlers are histories *)

Section histories.
Context `{TzLib}.

(** A registration with no other under way. *)
Lemma RegisterDevice_history s now id user token platform locale d db :
  registering s = ∅ → unused s id → RegisterDevice (notif_db (world s)) (notif_db (world s)) (notif_db (world s)) now id user token platform locale = Ok (d, db) →
  rtc notif_step_one s (with_db s db).
Proof.
  intros Hreg Hun (dev & Hnew & (row & Hsave & (d' & _ & [= _ <-])%res_bind_ok)%res_bind_ok)%res_bind_ok.
  assert (Hone : ∀ s' g, registering s' = {[id := g]} → one_each s').
  { intros s' g E k k' g1 g2. rewrite E. intros [<- _]%lookup_singleton_Some [<- _]%lookup_singleton_Some. done. }
  destruct s as [[db0 ps] rs ts]. cbn [registering world notif_db] in *. subst rs. set (ids := TrimDevices (with_row row db0) (dev_User dev) MaxDevicesPerUser).
  eapply rtc_l; [split|eapply rtc_l; [split|eapply rtc_l; [split|eapply rtc_l; [split|]]]].
  - eapply step_save; [done|done| |done]. split; [done|]. by destruct (token_row _ _).
  - by eapply Hone.
  - eapply (step_trim _ id (MkRegistration dev row RowSaved)); [apply lookup_insert_eq|done].
  - eapply Hone. cbn [with_registering registering world notif_db rg_Row rg_Device]. by rewrite !insert_insert_eq.
  - eapply (step_delete _ id (MkRegistration dev row (TrimFound ids)) ids); [apply lookup_insert_eq|done|]. apply Forall_forall. intros v _ k g.
    cbn [with_registering registering]. rewrite !insert_insert_eq. intros [<- _]%lookup_singleton_Some. by left.
  - eapply Hone. cbn [with_registering registering world notif_db rg_Row rg_Device]. by rewrite !insert_insert_eq.
  - eapply (step_commit _ id (MkRegistration dev row (TrimDone ids)) ids); [apply lookup_insert_eq|done].
  - cbn [with_registering with_db registering]. rewrite !insert_insert_eq, delete_insert_eq. by intros ?? ? ?.
  - unfold with_registering, with_db. cbn [world notif_db pushed registering telling rg_Row rg_Device]. rewrite !insert_insert_eq, delete_insert_eq. apply rtc_refl.
Qed.

(** Two at once, of two new tokens: both look for what to trim before either
    commits. *)
Lemma RegisterDevice_at_once s now now' id id' user token token' platform locale d d' db db' :
  registering s = ∅ → unused s id → unused s id' → id ≠ id' → token ≠ token' →
  token_row (notif_db (world s)) token = None → token_row (notif_db (world s)) token' = None →
  let db0 := notif_db (world s) in
  RegisterDevice db0 db0 db0 now id user token platform locale = Ok (d, db) →
  RegisterDevice db0 db0 db now' id' user token' platform locale = Ok (d', db') →
  rtc notif_step s (with_db s db').
Proof.
  intros Hreg Hun Hun' Hid Htok Hno Hno'. cbn zeta.
  intros (dev & Hnew & (row & Hsave & (? & _ & [= _ <-])%res_bind_ok)%res_bind_ok)%res_bind_ok.
  intros (dev' & Hnew' & (row' & Hsave' & (? & _ & [= _ <-])%res_bind_ok)%res_bind_ok)%res_bind_ok.
  assert (Erow : dr_Token row = token ∧ Reveal (dev_Token dev) = token).
  { apply new_device_ok in Hnew as (p & -> & _). revert Hsave. unfold SaveDevice_stmt. cbn [dr_Token dev_Token Reveal]. rewrite Hno. by destruct (device_checks _), (negb _); try done; intros [= <-]. }
  assert (Erow' : dr_Token row' = token' ∧ Reveal (dev_Token dev') = token').
  { apply new_device_ok in Hnew' as (p & -> & _). revert Hsave'. unfold SaveDevice_stmt. cbn [dr_Token dev_Token Reveal]. rewrite Hno'. by destruct (device_checks _), (negb _); try done; intros [= <-]. }
  destruct Erow as [Erow Et], Erow' as [Erow' Et']. destruct s as [[db0 ps] rs ts]. cbn [registering world notif_db] in *. subst rs.
  set (ids := TrimDevices (with_row row db0) (dev_User dev) MaxDevicesPerUser). set (ids' := TrimDevices (with_row row' db0) (dev_User dev') MaxDevicesPerUser).
  set (g := MkRegistration dev row). set (g' := MkRegistration dev' row'). set (st db rs := MkSystem (MkWorld db ps) rs ts).
  set (db1 := delete_devices ids (dev_User dev) (with_row row db0)).
  set (m1 := <[id := g RowSaved]> (∅ : gmap DeviceID Registration)). set (m2 := <[id' := g' RowSaved]> m1). set (m3 := <[id := g (TrimFound ids)]> m2).
  set (m4 := <[id' := g' (TrimFound ids')]> m3). set (m5 := <[id := g (TrimDone ids)]> m4). set (m6 := delete id m5).
  set (m7 := <[id' := g' (TrimDone ids')]> m6).
  assert (Honly : ∀ k, k ≠ id → k ≠ id' → m4 !! k = None) by (intros k H1 H2; unfold m4, m3, m2, m1; by rewrite !lookup_insert_ne by done).
  assert (Hm6 : ∀ k, k ≠ id' → m6 !! k = None).
  { intros k Hk. unfold m6, m5. rewrite delete_insert_eq. destruct (decide (k = id)) as [->|]; [apply lookup_delete_eq|]. rewrite lookup_delete_ne by done. by apply Honly. }
  assert (Hm6' : m6 !! id' = Some (g' (TrimFound ids'))) by (unfold m6, m5, m4; rewrite lookup_delete_ne, lookup_insert_ne by done; apply lookup_insert_eq).
  assert (Hfree : ∀ v, ¬ holds db0 (g' (TrimFound ids')) v).
  { intros v. unfold holds. destruct (devices db0 !! v) as [r|] eqn:Er; [|by intros []]. intros [E|[]]. cbn in E. rewrite Erow' in E.
    unfold token_row in Hno'. apply head_None in Hno'. assert (Hr : r ∈ rows_where (λ r, bool_decide (dr_Token r = token')) (devices db0))
      by (apply elem_of_rows_where; exists v; by rewrite bool_decide_eq_true). rewrite Hno' in Hr. by apply not_elem_of_nil in Hr. }
  assert (T1 : token_free (st db0 ∅) (Reveal (dev_Token dev))) by (rewrite Et; split; [done|]; change (notif_db _) with db0; by rewrite Hno).
  assert (U2 : unused (st db0 m1) id') by (destruct Hun' as (H1 & H2 & H3); split; [done|split; [|exact H3]]; change (m1 !! id' = None); unfold m1; by rewrite lookup_insert_ne).
  assert (T2 : token_free (st db0 m1) (Reveal (dev_Token dev'))).
  { rewrite Et'. split; [|change (notif_db _) with db0; by rewrite Hno']. intros k g0 Hk. change (m1 !! k = Some g0) in Hk. apply lookup_insert_Some in Hk as [[_ <-]|[_ Hk]]; [cbn; congruence|done]. }
  assert (L3 : m2 !! id = Some (g RowSaved)) by (unfold m2; rewrite lookup_insert_ne by done; apply lookup_insert_eq).
  assert (L4 : m3 !! id' = Some (g' RowSaved)) by (unfold m3; rewrite lookup_insert_ne by done; apply lookup_insert_eq).
  assert (L5 : m4 !! id = Some (g (TrimFound ids))) by (unfold m4; rewrite lookup_insert_ne by done; apply lookup_insert_eq).
  assert (F5 : Forall (free (st db0 m4) (Some id)) ids).
  { apply Forall_forall. intros v _ k g0 Hk. destruct (decide (k = id)) as [->|H1]; [by left|]. destruct (decide (k = id')) as [->|H2]; [right|change (m4 !! k = Some g0) in Hk; by rewrite Honly in Hk].
    change (m4 !! id' = Some g0) in Hk. unfold m4 in Hk. rewrite lookup_insert_eq in Hk. injection Hk as <-. apply Hfree. }
  assert (F7 : Forall (free (st db1 m6) (Some id')) ids').
  { apply Forall_forall. intros v _ k g0 Hk. destruct (decide (k = id')) as [->|H2]; [by left|]. change (m6 !! k = Some g0) in Hk. by rewrite Hm6 in Hk. }
  assert (L6 : m5 !! id = Some (g (TrimDone ids))) by apply lookup_insert_eq. assert (L8 : m7 !! id' = Some (g' (TrimDone ids'))) by apply lookup_insert_eq.
  assert (E8 : delete id' m7 = ∅) by (unfold m7; rewrite delete_insert_eq; apply map_eq; intros k; rewrite lookup_empty;
    destruct (decide (k = id')) as [->|]; [apply lookup_delete_eq|rewrite lookup_delete_ne by done; by apply Hm6]).
  eapply rtc_l; [exact (step_save (st db0 ∅) now id user token platform locale dev row Hun Hnew T1 Hsave)|].
  eapply rtc_l; [exact (step_save (st db0 m1) now' id' user token' platform locale dev' row' U2 Hnew' T2 Hsave')|].
  eapply rtc_l; [exact (step_trim (st db0 m2) id (g RowSaved) L3 eq_refl)|].
  eapply rtc_l; [exact (step_trim (st db0 m3) id' (g' RowSaved) L4 eq_refl)|].
  eapply rtc_l; [exact (step_delete (st db0 m4) id (g (TrimFound ids)) ids L5 eq_refl F5)|].
  eapply rtc_l; [exact (step_commit (st db0 m5) id (g (TrimDone ids)) ids L6 eq_refl)|].
  eapply rtc_l; [exact (step_delete (st db1 m6) id' (g' (TrimFound ids')) ids' Hm6' eq_refl F7)|].
  eapply rtc_l; [exact (step_commit (st db1 m7) id' (g' (TrimDone ids')) ids' L8 eq_refl)|].
  unfold with_registering. cbn [st registering]. rewrite E8. apply rtc_refl.
Qed.

(** A [Notify], whatever others do between its statements. *)
Section notify.
Context (run : Run) (c : AppointmentChange).
Context (Hothers : ∀ m s, registering s = ∅ →
  ∃ s', rtc notif_step s s' ∧ world s' = others run m (world s) ∧ registering s' = ∅ ∧ telling s' !! ch_Event c = telling s !! ch_Event c).

Definition told_by (s : System) (w : World) (o : option Telling) : Prop :=
  ∃ s', rtc notif_step s s' ∧ world s' = w ∧ registering s' = ∅ ∧ telling s' !! ch_Event c = o.

Lemma told_by_trans s s' w o : rtc notif_step s s' → told_by s' w o → told_by s w o.
Proof. intros Hs (s2 & Hs2 & Hw). exists s2. split; [by etrans|done]. Qed.

Lemma told_by_advance s t : registering s = ∅ → telling s !! ch_Event c = Some t → told_by s (advance (world s) t).1 (advance (world s) t).2.
Proof.
  intros Hreg Ht. eexists. split; [apply rtc_once, (step_tell s _ t Ht); destruct (te_Stage t); [done..|]; intros k g; by rewrite Hreg|].
  cbn [world registering telling]. split_and!; [done|done|apply lookup_partial_alter_eq].
Qed.

Lemma pushOnce_history kind branch d ds s :
  registering s = ∅ → telling s !! ch_Event c = Some (MkTelling run c kind (AtCheck branch (d :: ds))) →
  told_by s (pushOnce run c kind branch (world s) d).2 (Some (MkTelling run c kind (AtCheck branch ds))).
Proof using Hothers.
  intros Hreg Ht. destruct (Hothers (BeforeCheck (dev_ID d)) s Hreg) as (s1 & Hs1 & Ew1 & Hreg1 & Ht1). apply (told_by_trans _ s1); [done|].
  rewrite Ht in Ht1. destruct (told_by_advance s1 _ Hreg1 Ht1) as (s2 & Hs2 & Ew2 & Hreg2 & Ht2). apply (told_by_trans _ s2); [done|].
  unfold pushOnce. rewrite <- Ew1. unfold advance in Ew2, Ht2. cbn [te_Stage te_Run te_Change te_Kind] in Ew2, Ht2.
  destruct (check_device c kind branch (notif_db (world s1)) d) as [[p|]|e]; cbn [fst snd] in *; [|by exists s2..].
  destruct (Hothers (BeforeNote (dev_ID d)) s2 Hreg2) as (s3 & Hs3 & Ew3 & Hreg3 & Ht3). apply (told_by_trans _ s3); [done|].
  rewrite <- Ew2, <- Ew3. rewrite Ht2 in Ht3. exact (told_by_advance s3 _ Hreg3 Ht3).
Qed.

Lemma push_all_history kind branch ds acc s :
  registering s = ∅ → telling s !! ch_Event c = Some (MkTelling run c kind (AtCheck branch ds)) →
  told_by s (foldl (λ (acc : res notif_error unit * World) d, let r := pushOnce run c kind branch acc.2 d in
    (match acc.1 with Err e => Err e | Ok _ => r.1 end, r.2)) (acc, world s) ds).2 None.
Proof using Hothers.
  revert acc s. induction ds as [|d ds IH]; intros acc s Hreg Ht; [exact (told_by_advance s _ Hreg Ht)|].
  destruct (pushOnce_history kind branch d ds s Hreg Ht) as (s1 & Hs1 & Ew1 & Hreg1 & Ht1). cbn [foldl fst snd]. rewrite <- Ew1.
  apply (told_by_trans _ s1); [done|]. by apply IH.
Qed.

(** Whatever a [Notify] does, with others' statements in between, is a history. *)
Lemma Notify_history s :
  registering s = ∅ → telling s !! ch_Event c = None → told_by s (Notify run (world s) c).2 None.
Proof using Hothers.
  intros Hreg Ht. unfold Notify. destruct (CustomerNotice _ _ _) as [kind|] eqn:Ek; [|by exists s]. destruct (ID_IsZero _) eqn:Ez; [by exists s|].
  set (s0 := MkSystem (world s) (registering s) (<[ch_Event c := MkTelling run c kind AtBranch]> (telling s))).
  assert (Ht0 : telling s0 !! ch_Event c = Some (MkTelling run c kind AtBranch)) by apply lookup_insert_eq.
  apply (told_by_trans _ s0); [by apply rtc_once, step_notify|]. destruct (told_by_advance s0 _ Hreg Ht0) as (s1 & Hs1 & Ew1 & Hreg1 & Ht1).
  apply (told_by_trans _ s1); [done|]. change (world s) with (world s0). unfold advance in Ew1, Ht1. cbn [te_Stage te_Run te_Change te_Kind] in Ew1, Ht1.
  destruct (Store_Branch (notif_db (world s0)) (ch_Branch c)) as [branch|e]; cbn [fst snd] in *; [|by exists s1].
  destruct (Hothers BeforeDevices s1 Hreg1) as (s2 & Hs2 & Ew2 & Hreg2 & Ht2). apply (told_by_trans _ s2); [done|].
  rewrite <- Ew1, <- Ew2. rewrite Ht1 in Ht2. destruct (told_by_advance s2 _ Hreg2 Ht2) as (s3 & Hs3 & Ew3 & Hreg3 & Ht3). apply (told_by_trans _ s3); [done|].
  unfold advance in Ew3, Ht3. cbn [te_Stage te_Run te_Change te_Kind] in Ew3, Ht3.
  destruct (Store_Devices (notif_db (world s2)) (ch_Customer c)) as [ds|e]; cbn [fst snd] in *; [|by exists s3].
  rewrite <- Ew3. unfold push_all. by apply push_all_history.
Qed.
End notify.
End histories.

Section over_time.
Context `{TzLib}.

(** C27. A device that has heard of an event, or whose push was refused, never
    hears of it again: of two pushes of one event to one device, in any
    history of calls and events, their statements interleaved, the first had
    failed or its answer was lost.
    And what settled is on record, or the device is gone. *)
Theorem told_once w :
  notif_reachable w →
  (∀ i j a b, (i < j)%nat → pushed w !! i = Some a → pushed w !! j = Some b → told_key a = told_key b → settled a = false) ∧
  ∀ a, a ∈ pushed w → settled a = true → Delivered (notif_db w) (told_key a).1 (told_key a).2 = true ∨ devices (notif_db w) !! (told_key a).2 = None.
Proof.
  intros (s & Hr & <-). destruct (reachable_told s Hr) as [Hn Ho _]. split.
  - intros i j a b Hij Ha Hb E. destruct (settled a) eqn:Es; [|done]. destruct (pairwise_lookup _ _ i j a b Ho Hij Ha Hb Es). done.
  - intros a Ha Hs. destruct (Hn a Ha Hs) as [Hd|Hd]; [left|by right]. unfold Delivered. rewrite <- surjective_pairing. by destruct (deliveries _ !! _).
Qed.

(** C28. Whatever happened, in whatever interleaving of calls and events, the
    tables are well typed: every device row reads as a device with a valid
    token, its own user's, no token has two owners, every branch copy reads,
    and every CHECK constraint holds. And no user has more than ten devices,
    the limit SaveDevice trims to, as long as no two registrations of one user
    were under way at once; it takes no lock on the user, so two at once can
    leave eleven ([two_at_once_leave_eleven]). *)
Theorem notification_tables_read w :
  notif_reachable w → let db := notif_db w in
  (∀ user, ∃ ds, Store_Devices db user = Ok ds ∧ NoDup (dev_ID <$> ds) ∧ (reachable_one w → (length ds ≤ MaxDevicesPerUser)%nat) ∧
     ∀ d, d ∈ ds → dev_User d = user ∧ ParseToken (Reveal (dev_Token d)) = Ok (dev_Token d)) ∧
  (∀ user user' ds ds' d d', Store_Devices db user = Ok ds → Store_Devices db user' = Ok ds' → d ∈ ds → d' ∈ ds' → dev_Token d = dev_Token d' → d = d') ∧
  (∀ id, Store_Branch db id = Err ErrUnknownBranch ∨ is_ok (Store_Branch db id) = true) ∧
  (∀ id r, devices db !! id = Some r → dr_ID r = id ∧ device_checks r = true) ∧
  ∀ key r, deliveries db !! key = Some r → (dl_EventID r, dl_DeviceID r) = key ∧ delivery_checks r = true.
Proof.
  cbn zeta. intros Hreach. pose proof (notif_reachable_ok w Hreach) as Hr. pose proof (λ u r, proj1 (elem_of_DevicesOfUser (notif_db w) u r (nk_keyed _ Hr))) as He. split_and!.
  - intros user. eexists. split; [by apply Store_Devices_ok|]. rewrite length_fmap. split_and!; [by apply user_device_ids|apply reachable_one_limited|].
    intros d (r & -> & [Hs Hu]%He)%list_elem_of_fmap_1. split; [done|]. apply (nk_device _ Hr _ _ Hs).
  - intros user user' ds ds' d d'. rewrite !Store_Devices_ok by done. intros [= <-] [= <-].
    intros (r & -> & [Hs _]%He)%list_elem_of_fmap_1 (r' & -> & [Hs' _]%He)%list_elem_of_fmap_1.
    cbn. intros [= E]. pose proof (nk_token _ Hr _ _ _ _ Hs Hs' E) as Eid. rewrite Eid in Hs. congruence.
  - intros id. rewrite Store_Branch_ok by done. destruct (branches _ !! id) as [r|] eqn:Er; [right|by left]. cbn. by destruct (branch_reads _ _ _ Hr Er) as (b & -> & _).
  - intros id r Hs. split; [by apply (nk_keyed _ Hr)|]. by eapply device_checks_ok, nk_device.
  - intros key r Hd. by destruct (nk_delivery _ Hr _ _ Hd).
Qed.
End over_time.

(** ** An example: one customer, two devices, one of them offline at first *)

Module NoticeDemo.
Definition demo_zones : TzLib := {| LoadLocation n := if bool_decide (n = "Asia/Riyadh") then Some (GoTime.fixed_zone 10800) else None |}.
#[export] Existing Instance demo_zones.

Definition phone_token : string := "abcdefghijklmnopqrstuvwxyz012345".
Definition tablet_token : string := "ABCDEFGHIJKLMNOPQRSTUVWXYZ012345".
Definition salon : Branch := MkBranch (MkID 2) 1 (MkLocalized "صالون" "Salon") "Asia/Riyadh".
Definition confirmed : AppointmentChange := MkChange 900 (MkID 77) (MkID 2) (MkID 5) "confirmed" "confirmed" "" (1759406400 * Second).
Definition offline : Run :=
  MkRun (λ _, 1000 * Second) (λ p, if bool_decide (dev_ID (pu_Device p) = MkID 50) then PushSent else PushFailed) (λ _, true) (λ _ w, w).
Definition online : Run := MkRun (λ _, 2000 * Second) (λ _, PushSent) (λ _, true) (λ _ w, w).

Definition idle (w : World) : System := MkSystem w ∅ ∅.
Definition or_before {A} (r : res notif_error (A * NotifDB)) (w : World) : World := match r with Ok (_, db) => MkWorld db (pushed w) | Err _ => w end.
Definition register_in (w : World) := let db := notif_db w in RegisterDevice db db db.
Definition w1 : World := or_before (register_in (world empty_system) (10 * Second) (MkID 50) (MkID 5) phone_token "ios" Arabic) (world empty_system).
Definition w2 : World := or_before (register_in w1 (20 * Second) (MkID 51) (MkID 5) tablet_token "android" English) w1.
Definition w3 : World := match KeepBranch (notif_db w2) salon with Ok db => MkWorld db (pushed w2) | Err _ => w2 end.
Definition w4 : World := (Notify offline w3 confirmed).2.
Definition w5 : World := (Notify online w4 confirmed).2.

(** In a system with nothing pushed or under way, an ID no device has is unused. *)
Lemma idle_unused w id : pushed w = [] → devices (notif_db w) !! id = None → unused (idle w) id.
Proof. intros Hp Hd. split_and!; [done|done|cbn [idle world]; by rewrite Hp|done]. Qed.

Lemma registered w now id user token platform locale :
  pushed w = [] → devices (notif_db w) !! id = None → is_ok (register_in w now id user token platform locale) = true →
  rtc notif_step_one (idle w) (idle (or_before (register_in w now id user token platform locale) w)).
Proof.
  intros Hp Hd Hok. destruct (register_in w now id user token platform locale) as [[d db]|e] eqn:E; [|done].
  eapply (RegisterDevice_history (idle w) now id user token platform locale d db); [done|by apply idle_unused|exact E].
Qed.

Lemma w3_history : rtc notif_step_one empty_system (idle w3).
Proof.
  etrans; [apply (registered (world empty_system) (10 * Second) (MkID 50) (MkID 5) phone_token "ios" Arabic); by vm_compute|].
  etrans; [apply (registered w1 (20 * Second) (MkID 51) (MkID 5) tablet_token "android" English); by vm_compute|].
  apply rtc_once. split; [apply (step_branch (idle w2) salon); vm_compute; reflexivity|by intros ???? ?].
Qed.

Lemma w3_one : reachable_one w3.
Proof. exists (idle w3). split; [apply w3_history|done]. Qed.

Lemma w3_reachable : notif_reachable w3.
Proof. apply reachable_one_reachable, w3_one. Qed.

Lemma w5_reachable : notif_reachable w5.
Proof.
  assert (Hhist : rtc notif_step empty_system (idle w3)) by (eapply (rtc_subrel notif_step_one notif_step); [by intros ? ? []|apply w3_history]).
  destruct (Notify_history offline confirmed (λ m s H, ex_intro _ s (conj (rtc_refl _ s) (conj eq_refl (conj H eq_refl)))) (idle w3) eq_refl eq_refl) as (s4 & H4 & E4 & R4 & T4).
  change (world (idle w3)) with w3 in E4.
  destruct (Notify_history online confirmed (λ m s H, ex_intro _ s (conj (rtc_refl _ s) (conj eq_refl (conj H eq_refl)))) s4 R4 T4) as (s5 & H5 & E5 & _).
  exists s5. split; [|by rewrite E5, E4]. unfold system_reachable. etrans; [apply Hhist|]. by etrans.
Qed.

(** Ten devices of one user, and two more at once. *)
Definition token_no (n : nat) : string := "abcdefghijklmnopqrstuvwxyz01234" +:+ String (Ascii.ascii_of_nat (65 + n)) "".
Definition register_no (w : World) (n : nat) := register_in w (Z.of_nat (100 + n) * Second) (MkID (N.of_nat (100 + n))) (MkID 7) (token_no n) "ios" Arabic.
Definition ten : World := foldl (λ w n, or_before (register_no w n) w) (world empty_system) (seq 0 10).
Definition eleventh : res notif_error (Device * NotifDB) := register_no ten 10.
Definition two_at_once : World :=
  match eleventh with
  | Ok (_, db) => or_before (RegisterDevice (notif_db ten) (notif_db ten) db (111 * Second) (MkID 111) (MkID 7) (token_no 11) "ios" Arabic) ten
  | Err _ => ten
  end.

Fixpoint all_registered (w : World) (ns : list nat) : bool :=
  match ns with
  | [] => true
  | n :: ns =>
      bool_decide (length (pushed w) = 0%nat) && negb (present (devices (notif_db w) !! MkID (N.of_nat (100 + n)))) && is_ok (register_no w n)
      && all_registered (or_before (register_no w n) w) ns
  end.

Lemma registered_history ns w :
  all_registered w ns = true → rtc notif_step_one (idle w) (idle (foldl (λ w n, or_before (register_no w n) w) w ns)).
Proof.
  revert w. induction ns as [|n ns IH]; intros w; cbn [all_registered foldl]; [by intros; apply rtc_refl|].
  intros [[[Hp%bool_decide_eq_true Hd]%andb_prop Hok]%andb_prop Hns]%andb_prop. etrans; [|by apply IH]. apply registered; [by apply nil_length_inv| |exact Hok].
  by destruct (devices (notif_db w) !! _).
Qed.
End NoticeDemo.
Import NoticeDemo.

(** The limit of ten does not survive two registrations at once: SaveDevice
    takes no lock on the user, and both trim what neither has committed. *)
Lemma two_at_once_leave_eleven :
  ∃ w, notif_reachable w ∧ length (DevicesOfUser (notif_db w) (MkID 7)) = 11%nat.
Proof.
  exists two_at_once. split; [|vm_compute; reflexivity]. exists (idle two_at_once). split; [|reflexivity]. unfold system_reachable.
  transitivity (idle ten).
  - eapply (rtc_subrel notif_step_one notif_step); [intros x y Hxy; exact (proj1 Hxy)|]. apply (registered_history (seq 0 10) (world empty_system)). vm_compute. reflexivity.
  - destruct eleventh as [[d db]|e] eqn:E; [|vm_compute in E; discriminate].
    destruct (RegisterDevice (notif_db ten) (notif_db ten) db (111 * Second) (MkID 111) (MkID 7) (token_no 11) "ios" Arabic) as [[d' db']|e] eqn:E'.
    2:{ exfalso. revert E'. unfold eleventh in E. vm_compute in E. injection E as _ <-. vm_compute. discriminate. }
    assert (Ew : idle two_at_once = with_db (idle ten) db') by (unfold two_at_once; rewrite E; cbn [or_before]; rewrite E'; reflexivity). rewrite Ew.
    apply (RegisterDevice_at_once (idle ten) (110 * Second) (111 * Second) (MkID 110) (MkID 111) (MkID 7) (token_no 10) (token_no 11) "ios" Arabic d d' db db');
      [reflexivity|apply idle_unused; vm_compute; reflexivity|apply idle_unused; vm_compute; reflexivity|discriminate|discriminate|vm_compute; reflexivity|vm_compute; reflexivity|exact E|exact E'].
Qed.

Lemma notice_answers_witness :
  ∃ w' a1 a2, Notify offline w3 confirmed = (Err ErrPush, w') ∧ pushed w' = [a1; a2] ∧ settled a2 = true ∧
    at_Push a2 = notice confirmed BookingConfirmed salon (pu_Device (at_Push a2)) ∧
    pu_Body (at_Push a1) = "Salon, Thu 2 Oct, 15:00. See you there."%string.
Proof.
  destruct (Notify offline w3 confirmed) as [answer w'] eqn:E. pose proof (notif_reachable_ok w3 w3_reachable) as Hok.
  pose proof (notice_answers offline w3 confirmed answer w' (λ _ _, eq_refl) Hok E) as Hn. cbn zeta in Hn.
  assert (Ek : CustomerNotice (ch_What confirmed) (ch_Status confirmed) (ch_CancelledBy confirmed) = Some BookingConfirmed) by (vm_compute; reflexivity).
  rewrite Ek in Hn. assert (Ez : ID_IsZero (ch_Customer confirmed) = false) by (vm_compute; reflexivity). rewrite Ez in Hn.
  assert (Eb : branches (notif_db w3) !! ch_Branch confirmed = Some (MkNBranchRow (MkID 2) 1 "صالون" "Salon" "Asia/Riyadh")) by (vm_compute; reflexivity).
  rewrite Eb in Hn. destruct Hn as (branch & Ebr & Hn). assert (E2 : branch = salon) by (vm_compute in Ebr; injection Ebr as <-; reflexivity). subst branch.
  assert (Ezone : bool_decide (LoadLocation (nr_Timezone (MkNBranchRow (MkID 2) 1 "صالون" "Salon" "Asia/Riyadh")) = None) = false) by (vm_compute; reflexivity).
  rewrite Ezone in Hn. destruct Hn as (_ & Hp & _). assert (Ea : answer = Err ErrPush) by (apply (f_equal fst) in E; vm_compute in E; symmetry; exact E). subst answer.
  exists w'. vm_compute in Hp. eexists _, _. split; [reflexivity|]. split; [exact Hp|]. split; [reflexivity|]. split; vm_compute; reflexivity.
Defined.

Lemma told_once_witness :
  length (pushed w5) = 3%nat ∧ Forall (λ a, settled a = true → Delivered (notif_db w5) (told_key a).1 (told_key a).2 = true ∨ devices (notif_db w5) !! (told_key a).2 = None) (pushed w5).
Proof.
  split; [vm_compute; reflexivity|]. apply Forall_forall. destruct (told_once w5 w5_reachable) as [_ Hn]. exact Hn.
Defined.

Lemma notification_tables_read_witness :
  ∃ ds, Store_Devices (notif_db w3) (MkID 5) = Ok ds ∧ (length ds ≤ MaxDevicesPerUser)%nat ∧ (dev_ID <$> ds) = [MkID 51; MkID 50].
Proof.
  destruct (notification_tables_read w3 w3_reachable) as (Hd & _). destruct (Hd (MkID 5)) as (ds & E & _ & Hl & _). exists ds. split; [exact E|]. split; [exact (Hl w3_one)|].
  vm_compute in E. injection E as <-. reflexivity.
Defined.
