(* ===== verification/NotifHttp.v ===== *)
(** * Devices over HTTP (src/internal/notification/adapters/httpapi/handlers.go)

    Registering and removing the signed-in user's devices, from the decoded
    request to the status and body answered. The token is never answered. *)
From S2P Require Import Prelude GoTime GoText Shared Tables Notification Http.
Open Scope Z_scope.

Record api_Device := MkApiDevice { ad_CreatedAt : time; ad_Id : UUID; ad_Locale : string; ad_Platform : string; ad_UpdatedAt : time }.
Record DeviceRegistration := MkDeviceRegistration { dg_Locale : string; dg_Platform : string; dg_Token : string }.

Inductive http_error := ErrNoPrincipal | UseCase (e : notif_error).

Definition problem_of (err : http_error) : option (Z * string * string) :=
  match err with
  | ErrNoPrincipal => Some unauthorized
  | UseCase ErrNotFound => Some (404, "not_found", "")
  | UseCase ErrBadToken => Some (422, "validation_failed", "token: the push service's registration token")
  | UseCase ErrBadPlatform => Some (422, "validation_failed", "platform: ios or android")
  | UseCase (ErrUnknownBranch | ErrBadZone | ErrPush | ErrStorage) => None
  end.

#[export] Instance notif_problems : Problems http_error := {|
  problem ctx err := problem_for ctx (problem_of err) (match err with ErrNoPrincipal => challenge | _ => no_headers end);
  no_principal := ErrNoPrincipal |}.

Definition uc {A} (r : res notif_error A) : res http_error A := res_map_err UseCase r.

Definition toAPIDevice (d : Device) : api_Device :=
  MkApiDevice (dev_CreatedAt d) (value (dev_ID d)) (Language_string (dev_Locale d)) (Platform_string (dev_Platform d)) (dev_UpdatedAt d).

Section Handlers.
Context (ctx : Ctx).

(** [saving] and [trimming]: the tables its transaction's statements saw before
    it committed to [db]. *)
Definition PostDevice (saving trimming db : NotifDB) (now : time) (newID : DeviceID) (body : DeviceRegistration) : Response api_Device * NotifDB :=
  reply_db ctx 200 db (
    let! p := caller ctx in
    let! r := uc (RegisterDevice saving trimming db now newID (UserID_of p) (dg_Token body) (dg_Platform body) (ParseLanguage (dg_Locale body))) in
    Ok (toAPIDevice r.1, r.2)).

Definition DeleteDevice (db : NotifDB) (device : UUID) : Response unit * NotifDB :=
  reply_db ctx 204 db (
    let! p := caller ctx in
    let! db' := uc (RemoveDevice db (UserID_of p) (IDFromUUID device)) in
    Ok (tt, db')).
End Handlers.
