(* ===== verification/Fcm.v ===== *)
(** * Pushing through Firebase Cloud Messaging (src/internal/notification/adapters/push)

    [FCM.Send] with what it calls: the service account and its configuration,
    the cache of access tokens, one attempt and the retries. Google's replies,
    the clock, pauses, jitter and what pushes running at the same time do to
    the cache are the interface [Outside]; JSON and RSA are [FcmLib]. *)
From S2P Require Import Prelude GoTime GoText GoEncoding Shared Http Notification.
Open Scope Z_scope.

(** ** The service account and the configuration *)

Record serviceAccount := MkAccount {
  sa_Type : string; sa_ProjectID : string; sa_PrivateKeyID : string; sa_PrivateKey : string; sa_ClientEmail : string; sa_TokenURI : string }.

(** What is signed to get an access token; [kid] is in the header. *)
Record claims := MkClaims { cl_kid : string; cl_iss : string; cl_scope : string; cl_aud : string; cl_iat : Z; cl_exp : Z }.

Class FcmLib (Key : Type) := {
  unmarshal_account : string → option serviceAccount;
  ParseRSAPrivateKeyFromPEM : string → option Key;
  SignedString : Key → claims → option string;
  (** [http.NewRequestWithContext] accepts the URL. *)
  url_ok : string → bool }.

Inductive config_error := ErrNotJSON | ErrNotAccount | ErrNoProject | ErrTokenURI | ErrNotRSA | ErrTimeout | ErrBaseURL.

Record retryPolicy := MkRetry { rt_attempts : Z; rt_base : Duration; rt_cap : Duration; rt_maxWait : Duration }.
Definition defaultRetry : retryPolicy := MkRetry 3 (250 * Millisecond) (2 * Second) (10 * Second).

Definition fcmBaseURL : string := "https://fcm.googleapis.com".
Definition fcmScope : string := "https://www.googleapis.com/auth/firebase.messaging".

(** [url.PathEscape]: letters, digits and these marks stay as they are. *)
Definition path_char (b : Z) : bool :=
  in_range 97 122 b || in_range 65 90 b || in_range 48 57 b || existsb (Z.eqb b) [45; 95; 46; 126; 36; 38; 43; 61; 58; 64].
Definition upper_hex (d : Z) : Ascii.ascii := byte_chr (if d <? 10 then 48 + d else 55 + d).
Definition escape_byte (b : Z) : string := if path_char b then str1 (byte_chr b) else String (byte_chr 37) (String (upper_hex (b / 16)) (str1 (upper_hex (b mod 16)))).
Definition PathEscape (s : string) : string := foldr (λ b acc, escape_byte b +:+ acc) "" (bytes s).

Section account.
Context {Key : Type} `{FcmLib Key}.

Definition parseServiceAccount (raw : string) : res config_error (serviceAccount * Key) :=
  match unmarshal_account raw with
  | None => Err ErrNotJSON
  | Some a =>
      if negb (bool_decide (sa_Type a = "service_account")) then Err ErrNotAccount
      else if bool_decide (sa_ProjectID a = "") || bool_decide (sa_ClientEmail a = "") then Err ErrNoProject
      else if negb (HasPrefix (sa_TokenURI a) "https://") then Err ErrTokenURI
      else match ParseRSAPrivateKeyFromPEM (sa_PrivateKey a) with
      | None => Err ErrNotRSA
      | Some key => Ok (MkAccount (sa_Type a) (sa_ProjectID a) (sa_PrivateKeyID a) "" (sa_ClientEmail a) (sa_TokenURI a), key)
      end
  end.

Record FCMConfig := MkFCMConfig { cf_Credentials : string; cf_Timeout : Duration; cf_BaseURL : string }.
Record FCM := MkFCM { f_endpoint : string; f_account : serviceAccount; f_key : Key; f_retry : retryPolicy }.

Definition NewFCM (cfg : FCMConfig) : res config_error FCM :=
  let! r := parseServiceAccount (cf_Credentials cfg) in
  let base := if bool_decide (cf_BaseURL cfg = "") then fcmBaseURL else cf_BaseURL cfg in
  if cf_Timeout cfg <=? 0 then Err ErrTimeout
  else if negb (HasPrefix base "https://") then Err ErrBaseURL
  else Ok (MkFCM (base +:+ "/v1/projects/" +:+ PathEscape (sa_ProjectID r.1) +:+ "/messages:send") r.1 r.2 defaultRetry).
End account.
Arguments FCM Key : clear implicits.

(** ** Requests, replies and the world *)

Record fcmNotification := MkFcmNotification { fn_Title : string; fn_Body : string }.
Record fcmAndroid := MkFcmAndroid { an_CollapseKey : string; an_Priority : string }.
Record fcmAPNs := MkFcmAPNs { ap_Headers : gmap string string }.
Record fcmMessage := MkFcmMessage {
  fm_Token : string; fm_Notification : fcmNotification; fm_Data : gmap string string; fm_Android : fcmAndroid; fm_APNs : fcmAPNs }.
Record fcmRequest := MkFcmRequest { fr_Message : fcmMessage }.

Inductive payload := Form (fields : list (string * string)) | Json (r : fcmRequest).
Record Request := MkRequest { rq_URL : string; rq_Authorization : option string; rq_ContentType : string; rq_Body : payload }.

(** A reply's body, read as the one shape or the other: a token and an OAuth
    error, whether or not the whole decoded, and FCM's error. *)
Record token_body := MkTokenBody { tb_Decoded : bool; tb_AccessToken : string; tb_ExpiresIn : Z; tb_Error : string }.
Record error_body := MkErrorBody { eb_Status : string; eb_Details : list (string * string) }.
Record Reply := MkReply { rp_Status : Z; rp_RetryAfter : string; rp_Token : token_body; rp_Error : option error_body }.

(** The cached token. *)
Record accessTokens := MkTokens { at_token : string; at_expires : time }.

Class Outside (W : Type) := {
  Now : W → time;
  (** [http.Client.Do]: [None] is network trouble or a timeout. *)
  Do : Request → W → option Reply * W;
  (** [ctx.Err() != nil]. *)
  Cancelled : W → bool;
  (** [rand.N n], for a positive [n]. *)
  rand : Z → W → Z * W;
  (** False when the job was cancelled. *)
  sleep : Duration → W → bool * W;
  (** What pushes running at the same time did to the cache. *)
  others : accessTokens → W → accessTokens * W }.

(** What a push did, in order. *)
Inductive event := Exchanged (r : Request) (a : option Reply) | NotSent | Slept (d : Duration).

Record St (W : Type) := MkSt { tokens : accessTokens; world : W; done : list event }.
Arguments MkSt {W} _ _ _.
Arguments tokens {W} _.
Arguments world {W} _.
Arguments done {W} _.

Inductive send_error :=
| ErrDeviceGone | ErrPushRejected | errUnauthorized
| retryable (after : Duration)
| ErrTokenRefused (status : Z) | ErrRequest | ErrFailed (status : Z) (code : string) | ErrCancelled
| ErrGaveUp | ErrAskedToWait (after : Duration) | ErrRandPanic.

(** What the token endpoint's refusal is told apart by. *)
Inductive get_error := tokenError (status : Z) (code : string) | ErrGet.

Definition tokenMargin : Duration := 5 * Minute.

(** [Retry-After], in seconds. *)
Definition retryAfter (v : string) : Duration :=
  match Atoi (TrimSpace v) with None => 0 | Some s => if s <=? 0 then 0 else int64 (s * Second) end.

Definition errorCode (body : option error_body) : string :=
  match body with
  | None => ""
  | Some b => match find (λ d, bool_decide (d.1 = "type.googleapis.com/google.firebase.fcm.v1.FcmError") && negb (bool_decide (d.2 = ""))) (eb_Details b) with
              | Some d => d.2
              | None => eb_Status b
              end
  end.

(** The Data the use case gives a push, and the message FCM takes. *)
Definition data_of `{UuidLib} (p : Push) : gmap string string :=
  {[ "kind" := Kind_string (pu_Kind p); "appointment_id" := ID_String (pu_Appointment p) ]}.

Definition fcm_message `{UuidLib} (p : Push) : fcmMessage :=
  let collapse := uuid_string (pu_CollapseKey p) in
  let headers : gmap string string := {[ "apns-priority" := "10" ]} in
  let headers := if bool_decide (collapse = "") then headers else <["apns-collapse-id" := collapse]> headers in
  MkFcmMessage (Reveal (dev_Token (pu_Device p))) (MkFcmNotification (pu_Title p) (pu_Body p)) (data_of p)
    (MkFcmAndroid collapse "high") (MkFcmAPNs headers).

(** ** Sending *)

Section sending.
Context {Key W : Type} `{FcmLib Key} `{Outside W} `{UuidLib}.

Definition note (s : St W) (e : event) : St W := MkSt (tokens s) (world s) (done s ++ [e]).

Definition exchange (r : Request) (s : St W) : option Reply * St W :=
  let '(a, w) := Do r (world s) in (a, note (MkSt (tokens s) w (done s)) (Exchanged r a)).

Definition meanwhile (s : St W) : St W := let '(t, w) := others (tokens s) (world s) in MkSt t w (done s).

Definition sign_in_claims (f : FCM Key) (now : time) : claims :=
  let a := f_account f in
  MkClaims (sa_PrivateKeyID a) (sa_ClientEmail a) fcmScope (sa_TokenURI a) (now / Second) (GoTime.Add now Hour / Second).

Definition sign_in_request (f : FCM Key) (signed : string) : Request :=
  MkRequest (sa_TokenURI (f_account f)) None "application/x-www-form-urlencoded"
    (Form [("grant_type", "urn:ietf:params:oauth:grant-type:jwt-bearer"); ("assertion", signed)]).

(** [accessTokens.get], with the lock held throughout. *)
Definition get (f : FCM Key) (s : St W) : res get_error string * St W :=
  let now := Now (world s) in
  let t := tokens s in
  if negb (bool_decide (at_token t = "")) && Before now (GoTime.Add (at_expires t) (- tokenMargin)) then (Ok (at_token t), s)
  else match SignedString (f_key f) (sign_in_claims f now) with
  | None => (Err ErrGet, note s NotSent)
  | Some signed =>
      if negb (url_ok (sa_TokenURI (f_account f))) then (Err ErrGet, note s NotSent)
      else let '(resp, s) := exchange (sign_in_request f signed) s in
      match resp with
      | None => (Err ErrGet, s)
      | Some rp =>
          let b := rp_Token rp in
          if negb (tb_Decoded b) && (rp_Status rp =? 200) then (Err ErrGet, s)
          else if negb (rp_Status rp =? 200) || bool_decide (tb_AccessToken b = "") || (tb_ExpiresIn b <=? 0)
          then (Err (tokenError (rp_Status rp) (tb_Error b)), s)
          else (Ok (tb_AccessToken b), MkSt (MkTokens (tb_AccessToken b) (GoTime.Add now (int64 (tb_ExpiresIn b * Second)))) (world s) (done s))
      end
  end.

Definition forget (token : string) (s : St W) : St W :=
  if bool_decide (at_token (tokens s) = token) then MkSt (MkTokens "" (at_expires (tokens s))) (world s) (done s) else s.

Definition push_request (f : FCM Key) (token : string) (m : fcmMessage) : Request :=
  MkRequest (f_endpoint f) (Some ("Bearer " +:+ token)) "application/json; charset=utf-8" (Json (MkFcmRequest m)).

(** What a reply to a push says, but for the cache. *)
Definition reply_error (rp : Reply) : res send_error unit :=
  let code := errorCode (rp_Error rp) in
  if rp_Status rp =? 200 then Ok tt
  else if bool_decide (code = "UNREGISTERED") || bool_decide (code = "SENDER_ID_MISMATCH") then Err ErrDeviceGone
  else if (rp_Status rp =? 401) && negb (bool_decide (code = "THIRD_PARTY_AUTH_ERROR")) then Err errUnauthorized
  else if rp_Status rp =? 400 then Err ErrPushRejected
  else if (rp_Status rp =? 429) || (500 <=? rp_Status rp) then Err (retryable (retryAfter (rp_RetryAfter rp)))
  else Err (ErrFailed (rp_Status rp) code).

(** [post]: one attempt. *)
Definition post (f : FCM Key) (m : fcmMessage) (s : St W) : res send_error unit * St W :=
  match get f s with
  | (Err e, s) =>
      (Err (match e with
            | tokenError status _ => if negb (status =? 429) && (status <? 500) then ErrTokenRefused status else retryable 0
            | ErrGet => retryable 0
            end), s)
  | (Ok token, s) =>
      if negb (url_ok (f_endpoint f)) then (Err ErrRequest, s)
      else let '(resp, s) := exchange (push_request f token m) s in
      let s := meanwhile s in
      match resp with
      | None => (Err (if Cancelled (world s) then ErrCancelled else retryable 0), s)
      | Some rp => (reply_error rp, match reply_error rp with Err errUnauthorized => forget token s | _ => s end)
      end
  end.

(** [retryPolicy.pause]; [None] is [rand.N]'s panic. *)
Definition pause (p : retryPolicy) (n : Z) (s : St W) : option Duration * St W :=
  let ceiling := Z.min (rt_cap p) (int64 (Z.shiftl (rt_base p) n)) in
  if ceiling <=? 0 then (None, s)
  else let '(r, w) := rand ceiling (world s) in (Some (dur_add r 1), MkSt (tokens s) w (done s)).

Definition sleep_for (d : Duration) (s : St W) : bool * St W :=
  let '(ok, w) := sleep d (world s) in (ok, meanwhile (note (MkSt (tokens s) w (done s)) (Slept d))).

(** What follows a failure that may pass, on try [n]: another try, or the
    end. *)
Definition wait_before (p : retryPolicy) (n : Z) (after : Duration) (s : St W) : res send_error unit * St W :=
  if rt_attempts p <=? n + 1 then (Err ErrGaveUp, s)
  else match pause p n s with
  | (None, s) => (Err ErrRandPanic, s)
  | (Some wait, s) =>
      if (0 <? after) && (rt_maxWait p <? after) then (Err (ErrAskedToWait after), s)
      else let '(ok, s) := sleep_for (if 0 <? after then Z.max wait after else wait) s in
           (if ok : bool then Ok tt else Err ErrCancelled, s)
  end.

Fixpoint send_loop (fuel : nat) (f : FCM Key) (m : fcmMessage) (n : Z) (refreshed : bool) (s : St W) : option (res send_error unit * St W) :=
  match fuel with
  | O => None
  | S fuel =>
      let '(r, s) := post f m s in
      match r with
      | Err errUnauthorized => if refreshed then Some (r, s) else send_loop fuel f m n true s
      | Err (retryable after) =>
          match wait_before (f_retry f) n after s with
          | (Err e, s) => Some (Err e, s)
          | (Ok _, s) => send_loop fuel f m (n + 1) refreshed s
          end
      | _ => Some (r, s)
      end
  end.

(** [FCM.Send]: at most each try, and one more after a new token. *)
Definition Send (f : FCM Key) (p : Push) (s : St W) : option (res send_error unit * St W) :=
  send_loop (S (S (Z.to_nat (rt_attempts (f_retry f))))) f (fcm_message p) 0 false s.
End sending.

(** What the use case makes of it ([pushOnce] of src/internal/notification/app/app.go). *)
Definition answer_of (r : res send_error unit) : answer :=
  match r with Ok _ => PushSent | Err ErrDeviceGone => DeviceGone | Err ErrPushRejected => PushRejected | Err _ => PushFailed end.

(** [Console.Send]: the development sender only logs. *)
Definition Console_Send (p : Push) : answer := PushSent.

(** ** What one push can do

    [attempt]: what an attempt answers for what it exchanged with Google.
    [sends]: the attempts of a push from try [n] on, as ADR-0034 tells them. *)

Class OutsideLaws (W : Type) `{Outside W} := { rand_range (w : W) n : 0 < n → 0 ≤ (rand n w).1 < n }.

Section protocol.
Context {Key W : Type} `{FcmLib Key} `{OutsideLaws W} `{UuidLib}.
Variables (f : FCM Key) (m : fcmMessage).

Definition later (status : Z) : Prop := status = 429 ∨ 500 ≤ status.

(** How the token came: cached, or signed in for. *)
Inductive signed_in (token : string) : list event → Prop :=
| with_cached : signed_in token []
| with_new x rp : rp_Status rp = 200 → tb_Decoded (rp_Token rp) = true → tb_AccessToken (rp_Token rp) = token → 0 < tb_ExpiresIn (rp_Token rp) →
    signed_in token [Exchanged (sign_in_request f x) (Some rp)].

Inductive attempt : res send_error unit → list event → Prop :=
| not_signed : attempt (Err (retryable 0)) [NotSent]
| sign_in_lost x : attempt (Err (retryable 0)) [Exchanged (sign_in_request f x) None]
| sign_in_later x rp : later (rp_Status rp) ∨ (rp_Status rp = 200 ∧ tb_Decoded (rp_Token rp) = false) →
    attempt (Err (retryable 0)) [Exchanged (sign_in_request f x) (Some rp)]
| sign_in_refused x rp : ¬ later (rp_Status rp) → attempt (Err (ErrTokenRefused (rp_Status rp))) [Exchanged (sign_in_request f x) (Some rp)]
| no_request token pre : signed_in token pre → url_ok (f_endpoint f) = false → attempt (Err ErrRequest) pre
| push_lost token pre : signed_in token pre → attempt (Err (retryable 0)) (pre ++ [Exchanged (push_request f token m) None])
| push_cancelled token pre : signed_in token pre → attempt (Err ErrCancelled) (pre ++ [Exchanged (push_request f token m) None])
| push_replied token pre rp : signed_in token pre → token ≠ "" → attempt (reply_error rp) (pre ++ [Exchanged (push_request f token m) (Some rp)]).

Definition final (r : res send_error unit) : Prop := match r with Err errUnauthorized | Err (retryable _) => False | _ => True end.

Inductive sends : Z → bool → res send_error unit → list event → Prop :=
| sends_end n again r new : attempt r new → final r → sends n again r new
| sends_refused n new : attempt (Err errUnauthorized) new → sends n true (Err errUnauthorized) new
| sends_new_token n new r rest : attempt (Err errUnauthorized) new → sends n true r rest → sends n false r (new ++ rest)
| sends_give_up n again a new : attempt (Err (retryable a)) new → 3 ≤ n + 1 → sends n again (Err ErrGaveUp) new
| sends_asked n again a new : attempt (Err (retryable a)) new → n + 1 < 3 → 10 * Second < a → sends n again (Err (ErrAskedToWait a)) new
| sends_stopped n again a d new : attempt (Err (retryable a)) new → n + 1 < 3 → a ≤ d → 0 < d ≤ 10 * Second →
    sends n again (Err ErrCancelled) (new ++ [Slept d])
| sends_again n again a d new r rest : attempt (Err (retryable a)) new → n + 1 < 3 → a ≤ d → 0 < d ≤ 10 * Second →
    sends (n + 1) again r rest → sends n again r ((new ++ [Slept d]) ++ rest).

Lemma exchange_done r (s : St W) : ∃ s' a, exchange r s = (a, s') ∧ done s' = done s ++ [Exchanged r a].
Proof. unfold exchange, note. destruct (Do r (world s)) as [a w]. by eexists _, _. Qed.

Lemma meanwhile_done (s : St W) : done (meanwhile s) = done s.
Proof. unfold meanwhile. by destruct (others _ _). Qed.

Lemma forget_done token (s : St W) : done (forget token s) = done s.
Proof. unfold forget. by case_bool_decide. Qed.

Lemma get_attempt (s : St W) :
  match get f s with
  | (Ok token, s') => ∃ new, done s' = done s ++ new ∧ signed_in token new ∧ token ≠ ""
  | (Err e, s') => ∃ new, done s' = done s ++ new ∧
      attempt (Err (match e with tokenError st _ => if negb (st =? 429) && (st <? 500) then ErrTokenRefused st else retryable 0 | ErrGet => retryable 0 end)) new
  end.
Proof.
  unfold get. destruct (negb (bool_decide (at_token (tokens s) = "")) && _) eqn:Ec.
  { bool_prop. exists []. rewrite app_nil_r. split_and!; [done|constructor|done]. }
  destruct (SignedString _ _) as [x|]; [|by exists [NotSent]; split; [|constructor]].
  destruct (negb (url_ok _)); [by exists [NotSent]; split; [|constructor]|].
  destruct (exchange_done (sign_in_request f x) s) as (s' & a & -> & Ed).
  destruct a as [rp|]; [|by exists [Exchanged (sign_in_request f x) None]; split; [|constructor]].
  destruct (negb (tb_Decoded _) && _) eqn:Eg.
  { bool_prop. eexists. split; [exact Ed|]. apply sign_in_later. right. by split. }
  destruct (negb (rp_Status rp =? 200) || _ || _) eqn:Er.
  - eexists. split; [exact Ed|]. destruct (negb (rp_Status rp =? 429) && (rp_Status rp <? 500)) eqn:El.
    + apply sign_in_refused. unfold later. bool_prop. lia.
    + apply sign_in_later. left. unfold later. destruct (Z.eqb_spec (rp_Status rp) 429); [lia|]. cbn [negb andb] in El. lia.
  - apply orb_false_iff in Er as [Er Ex]. apply orb_false_iff in Er as [Es Et]. bool_prop.
    eexists. split; [exact Ed|]. split; [|done]. assert (Es' : rp_Status rp = 200) by lia. rewrite Es' in Eg. cbn in Eg.
    apply with_new; [done| |done|lia]. by destruct (tb_Decoded _).
Qed.

Lemma post_attempt (s : St W) r s' : post f m s = (r, s') → ∃ new, done s' = done s ++ new ∧ attempt r new.
Proof.
  unfold post. pose proof (get_attempt s) as Hg. destruct (get f s) as [[token|e] s1].
  2: { intros [= <- <-]. exact Hg. }
  destruct Hg as (pre & Ed & Hs & Hne). destruct (url_ok (f_endpoint f)) eqn:Eu; cbn [negb].
  2: { intros [= <- <-]. exists pre. split; [done|by eapply no_request]. }
  destruct (exchange_done (push_request f token m) s1) as (s2 & a & -> & Ed2). rewrite Ed, <- app_assoc in Ed2.
  destruct a as [rp|]; intros [= <- <-]; (eexists; split; [|]).
  - destruct (reply_error rp) as [|[]]; rewrite ?forget_done, meanwhile_done; exact Ed2.
  - by eapply push_replied.
  - rewrite meanwhile_done. exact Ed2.
  - destruct (Cancelled _); [by eapply push_cancelled|by eapply push_lost].
Qed.

Hypothesis f_default : f_retry f = defaultRetry.

Lemma pause_bounds n (s : St W) : 0 ≤ n → n + 1 < 3 → ∃ d s', pause (f_retry f) n s = (Some d, s') ∧ done s' = done s ∧ 0 < d ≤ 2 * Second.
Proof.
  intros Hn Hn3. rewrite f_default. unfold pause.
  assert (Hc : 0 < Z.min (rt_cap defaultRetry) (int64 (Z.shiftl (rt_base defaultRetry) n)) ≤ 2 * Second).
  { assert (n = 0 ∨ n = 1) as [-> | ->] by lia; vm_compute; split; congruence. }
  revert Hc. generalize (Z.min (rt_cap defaultRetry) (int64 (Z.shiftl (rt_base defaultRetry) n))) as c. intros c Hc.
  rewrite (proj2 (Z.leb_gt c 0)) by lia. pose proof (rand_range (world s) c ltac:(lia)) as Hr.
  destruct (rand c (world s)) as [r w]. cbn [fst] in Hr. eexists _, _. split; [done|]. split; [done|].
  unfold dur_add. rewrite int64_id by (unfold in_int64, min_int64, max_int64, Second, Millisecond, Microsecond in *; lia). lia.
Qed.

Lemma wait_sends n again a (s : St W) : 0 ≤ n →
  match wait_before (f_retry f) n a s with
  | (Err e, s') => ∃ w, done s' = done s ++ w ∧ ∀ new, attempt (Err (retryable a)) new → sends n again (Err e) (new ++ w)
  | (Ok _, s') => n + 1 < 3 ∧ ∃ d, done s' = done s ++ [Slept d] ∧ a ≤ d ∧ 0 < d ≤ 10 * Second
  end.
Proof.
  intros Hn. unfold wait_before. rewrite f_default. cbn [rt_attempts rt_maxWait defaultRetry]. destruct (3 <=? n + 1) eqn:E3; bool_prop.
  { exists []. rewrite app_nil_r. split; [done|]. intros new Hnew. rewrite app_nil_r. by eapply sends_give_up. }
  destruct (pause_bounds n s Hn E3) as (wait & s1 & Ep & Ed & Hw). rewrite f_default in Ep. rewrite Ep.
  destruct ((0 <? a) && (10 * Second <? a)) eqn:Ea.
  { bool_prop. exists []. rewrite Ed, app_nil_r. split; [done|]. intros new Hnew. rewrite app_nil_r. by eapply sends_asked. }
  set (d := if 0 <? a then Z.max wait a else wait).
  assert (Hd : a ≤ d ∧ 0 < d ≤ 10 * Second).
  { subst d. unfold Second, Millisecond, Microsecond in *. destruct (0 <? a) eqn:E0; cbn [andb] in Ea; bool_prop; lia. }
  clearbody d. destruct Hd as [Had Hd]. unfold sleep_for. destruct (sleep d (world s1)) as [[] w]; cbn.
  - split; [done|]. exists d. rewrite meanwhile_done. cbn. by rewrite Ed.
  - exists [Slept d]. rewrite meanwhile_done. cbn. rewrite Ed. split; [done|]. intros new Hnew. by eapply sends_stopped.
Qed.

(** With fuel for the tries left and one more token, the loop ends, and did
    what the protocol allows. *)
Lemma loop_sends fuel : ∀ n again (s : St W), 0 ≤ n ≤ 3 → (Z.to_nat (3 - n) + (if again : bool then 0 else 1) < fuel)%nat →
  n < 3 → ∃ r s' new, send_loop fuel f m n again s = Some (r, s') ∧ done s' = done s ++ new ∧ sends n again r new.
Proof.
  induction fuel as [|fuel IH]; intros n again s Hn Hf Hn3; [lia|]. cbn [send_loop].
  destruct (post f m s) as [r s1] eqn:Ep. destruct (post_attempt _ _ _ Ep) as (new & Ed & Ha).
  assert (Hfinal : final r → ∃ r' s' new', Some (r, s1) = Some (r', s') ∧ done s' = done s ++ new' ∧ sends n again r' new').
  { intros Hr. exists r, s1, new. split_and!; [done..|]. by apply sends_end. }
  destruct r as [u|e]; [by apply Hfinal|]. destruct e as [| | |a|st| |st c| | |a|]; try by apply Hfinal.
  - destruct again.
    + eexists _, _, new. split_and!; [done..|]. by apply sends_refused.
    + destruct (IH n true s1 Hn ltac:(cbn in *; lia) Hn3) as (r & s2 & rest & E & Ed2 & Hr). exists r, s2, (new ++ rest).
      rewrite Ed2, Ed, <- app_assoc. split_and!; [done..|]. by eapply sends_new_token.
  - pose proof (wait_sends n again a s1 ltac:(lia)) as Hw. destruct (wait_before _ _ _ _) as [[u|e] s2].
    + destruct Hw as (Hn1 & d & Ed2 & Had & Hd). destruct (IH (n + 1) again s2) as (r & s3 & rest & E & Ed3 & Hr); [lia|lia|lia|].
      exists r, s3, ((new ++ [Slept d]) ++ rest). rewrite Ed3, Ed2, Ed, <- !app_assoc. split_and!; [done..|].
      rewrite app_assoc. by eapply sends_again.
    + destruct Hw as (w & Ed2 & Hw). eexists _, _, (new ++ w). rewrite Ed2, Ed, <- app_assoc. split_and!; [done..|]. by apply Hw.
Qed.
End protocol.

(** ** What follows for a push *)

Definition is_push (e : event) : bool := match e with Exchanged r _ => match rq_Body r with Json _ => true | Form _ => false end | _ => false end.
Definition is_sign_in (e : event) : bool := match e with Exchanged r _ => match rq_Body r with Form _ => true | Json _ => false end | _ => false end.
Definition slept (e : event) : option Duration := match e with Slept d => Some d | _ => None end.
Definition push_reply (e : event) : option Reply := match e with Exchanged r (Some rp) => if is_push e then Some rp else None | _ => None end.
Definition count (p : event → bool) (l : list event) : nat := length (List.filter p l).

(** ADR-0034's table of what FCM says. *)
Definition google_says (rp : Reply) : answer :=
  if rp_Status rp =? 200 then PushSent
  else if bool_decide (errorCode (rp_Error rp) ∈ ["UNREGISTERED"; "SENDER_ID_MISMATCH"]) then DeviceGone
  else if rp_Status rp =? 400 then PushRejected
  else PushFailed.

(** A try that may pass later: nothing could be sent or came back, throttling,
    Google's own errors. *)
Definition failed_try (e : event) : bool :=
  match e with
  | NotSent | Exchanged _ None => true
  | Slept _ => false
  | Exchanged r (Some rp) =>
      (rp_Status rp =? 429) || (500 <=? rp_Status rp)
      || (is_sign_in e && (rp_Status rp =? 200) && negb (tb_Decoded (rp_Token rp)))
  end.

(** Every request: over TLS, and a push is this message under a token. *)
Definition sent_safely (m : fcmMessage) (e : event) : Prop :=
  match e with
  | Exchanged r _ => HasPrefix (rq_URL r) "https://" = true ∧
      (is_push e = true → rq_Body r = Json (MkFcmRequest m) ∧ ∃ token, rq_Authorization r = Some ("Bearer " +:+ token))
  | _ => True
  end.

Lemma HasPrefix_app s t p : HasPrefix s p = true → HasPrefix (s +:+ t) p = true.
Proof.
  unfold HasPrefix. destruct (CutPrefix s p) as [r|] eqn:E; [|done]. apply CutPrefix_app in E as ->. by rewrite string_app_assoc, CutPrefix_self.
Qed.

Lemma count_app p a b : count p (a ++ b) = (count p a + count p b)%nat.
Proof. unfold count. by rewrite List.filter_app, length_app. Qed.

Lemma reply_answer rp : answer_of (reply_error rp) = google_says rp.
Proof.
  unfold reply_error, google_says. destruct (rp_Status rp =? 200); [done|].
  replace (bool_decide (errorCode (rp_Error rp) ∈ ["UNREGISTERED"; "SENDER_ID_MISMATCH"]))
    with (bool_decide (errorCode (rp_Error rp) = "UNREGISTERED") || bool_decide (errorCode (rp_Error rp) = "SENDER_ID_MISMATCH")).
  2: { repeat case_bool_decide; set_solver. }
  destruct (_ || _); [done|]. destruct ((rp_Status rp =? 401) && _) eqn:E; [bool_prop; by rewrite (proj2 (Z.eqb_neq _ 400)) by lia|].
  destruct (rp_Status rp =? 400); [done|]. by destruct (_ || _).
Qed.

Lemma reply_later rp a : reply_error rp = Err (retryable a) → later (rp_Status rp).
Proof.
  unfold reply_error. destruct (rp_Status rp =? 200); [done|]. destruct (_ || _); [done|]. destruct (_ && _); [done|].
  destruct (rp_Status rp =? 400); [done|]. destruct (_ || _) eqn:E; [|done]. intros _. unfold later. apply orb_true_iff in E as [E|E]; bool_prop; lia.
Qed.

Lemma later_true status : later status → (status =? 429) || (500 <=? status) = true.
Proof. unfold later. intros H. apply orb_true_iff. rewrite Z.eqb_eq, Z.leb_le. lia. Qed.

Lemma reply_refused rp : reply_error rp = Err errUnauthorized → rp_Status rp = 401.
Proof.
  unfold reply_error. destruct (rp_Status rp =? 200); [done|]. destruct (_ || _); [done|]. destruct (_ && _) eqn:E; [bool_prop; done|].
  destruct (rp_Status rp =? 400); [done|]. by destruct (_ || _).
Qed.

Section consequences.
Context {Key : Type} `{FcmLib Key}.
Variables (f : FCM Key) (m : fcmMessage).
Hypothesis tls : HasPrefix (f_endpoint f) "https://" = true ∧ HasPrefix (sa_TokenURI (f_account f)) "https://" = true.

Definition shown (new : list event) : answer := from_option google_says PushFailed (last new ≫= push_reply).

Record attempted (r : res send_error unit) (new : list event) : Prop := {
  at_once : (count is_push new ≤ 1)%nat ∧ (count is_sign_in new ≤ 1)%nat;
  at_no_wait : omap slept new = [];
  at_safe : Forall (sent_safely m) new;
  at_shown : answer_of r = shown new;
  at_failed : match r with Err (retryable _) => count failed_try new = 1%nat | Err errUnauthorized => count failed_try new = 0%nat | _ => True end }.

Lemma signed_in_facts token pre : signed_in f token pre →
  count is_push pre = 0%nat ∧ (count is_sign_in pre ≤ 1)%nat ∧ omap slept pre = [] ∧ Forall (sent_safely m) pre ∧ count failed_try pre = 0%nat ∧ shown pre = PushFailed.
Proof.
  destruct tls as [_ Ht]. intros [|x rp Hs Hdec Ha He]; split_and!; try done; try (cbn; lia).
  - constructor; [|done]. by split.
  - unfold count. cbn -[Z.leb]. by rewrite Hs, Hdec.
Qed.

Lemma attempt_facts r new : attempt f m r new → attempted r new.
Proof.
  destruct tls as [Hp Ht]. intros Ha.
  assert (Hone : ∀ e, is_push e = false → slept e = None → sent_safely m e → answer_of r = PushFailed →
    match r with Err (retryable _) => failed_try e = true | Err errUnauthorized => False | _ => True end → attempted r [e]).
  { intros e H1 H2 H3 H4 H5. assert (Hpr : push_reply e = None) by (destruct e as [? []| |]; cbn in *; rewrite ?H1; done).
    split; [split| |by constructor| |]; unfold count; cbn; rewrite ?H1, ?H2; try (cbn; lia); try done.
    - destruct (is_sign_in e); cbn; lia.
    - unfold shown. cbn. by rewrite Hpr.
    - destruct r as [|[]]; try done. by rewrite H5. }
  assert (Hpush : ∀ token pre resp, signed_in f token pre → answer_of r = from_option google_says PushFailed resp →
    match r with Err (retryable _) => failed_try (Exchanged (push_request f token m) resp) = true
                | Err errUnauthorized => failed_try (Exchanged (push_request f token m) resp) = false | _ => True end →
    attempted r (pre ++ [Exchanged (push_request f token m) resp])).
  { intros token pre resp Hs H1 H2. destruct (signed_in_facts _ _ Hs) as (E1 & E2 & E3 & E4 & E5 & E6). split.
    - rewrite !count_app, E1. cbn. lia.
    - by rewrite omap_app, E3.
    - apply Forall_app. split; [done|]. constructor; [|done]. split; [done|]. intros _. split; [done|by eexists].
    - unfold shown. rewrite last_snoc. by destruct resp.
    - rewrite count_app, E5. unfold count. cbn [List.filter]. destruct r as [|[]]; try done; by rewrite H2. }
  destruct Ha as [|x|x rp Hl|x rp Hl|token pre Hs|token pre Hs|token pre Hs|token pre rp Hs Hne].
  - by apply Hone.
  - by apply Hone.
  - apply Hone; try done. cbn. destruct Hl as [[E|E]|[E1 E2]]; [by rewrite later_true by (by left)|by rewrite later_true by (by right)|by rewrite E1, E2].
  - by apply Hone.
  - destruct (signed_in_facts _ _ Hs) as (E1 & E2 & E3 & E4 & E5 & E6). split; try done. rewrite E1. lia.
  - by apply Hpush.
  - by apply Hpush.
  - apply Hpush; [done|apply reply_answer|]. destruct (reply_error rp) as [|[]] eqn:Er; try done; cbn.
    + apply reply_refused in Er. by rewrite Er.
    + apply reply_later in Er. by rewrite later_true.
Qed.

(** What the protocol allows, in numbers: [n] tries were made. *)
Record bounded (n : Z) (again : bool) (r : res send_error unit) (new : list event) : Prop := {
  bd_push : Z.of_nat (count is_push new) ≤ 3 - n + (if again then 0 else 1);
  bd_sign_in : Z.of_nat (count is_sign_in new) ≤ 3 - n + (if again then 0 else 1);
  bd_waits : Z.of_nat (length (omap slept new)) ≤ 2 - n;
  bd_wait : Forall (λ d, 0 < d ≤ 10 * Second) (omap slept new);
  bd_safe : Forall (sent_safely m) new;
  bd_shown : answer_of r = shown new;
  bd_gave_up : r = Err ErrGaveUp → Z.of_nat (count failed_try new) = 3 - n;
  bd_no_panic : r ≠ Err ErrRandPanic }.

Lemma attempt_ends r new : attempt f m r new → r ≠ Err ErrRandPanic ∧ r ≠ Err ErrGaveUp.
Proof. destruct 1 as [| | | | | | |token pre rp]; try done. unfold reply_error. by repeat case_match. Qed.

Lemma shown_app a b : shown a = PushFailed → shown (a ++ b) = shown b.
Proof. intros Ha. destruct b as [|e b _] using rev_ind; [by rewrite app_nil_r|]. unfold shown. by rewrite app_assoc, !last_snoc. Qed.

Lemma bounded_end n again r r' new w : n ≤ 2 → attempted r new → answer_of r' = answer_of r → r' ≠ Err ErrRandPanic →
  (r' = Err ErrGaveUp → 3 - n ≤ 1 ∧ (∃ a, r = Err (retryable a)) ∧ 2 ≤ n) → w = [] ∨ (answer_of r = PushFailed ∧ n < 2 ∧ ∃ d, w = [Slept d] ∧ 0 < d ≤ 10 * Second) →
  bounded n again r' (new ++ w).
Proof.
  intros Hn [[Ap As] Aw Asafe Ash Af] Ha Hp Hg Hw.
  assert (Hc : count is_push w = 0%nat ∧ count is_sign_in w = 0%nat ∧ count failed_try w = 0%nat ∧ Forall (λ d, 0 < d ≤ 10 * Second) (omap slept w)
    ∧ Forall (sent_safely m) w ∧ Z.of_nat (length (omap slept w)) ≤ 2 - n ∧ shown (new ++ w) = shown new).
  { destruct Hw as [->|(E & Hn2 & d & -> & Hd)]; [split_and!; try done; [cbn; lia|by rewrite app_nil_r]|].
    split_and!; try done; [by apply (Forall_singleton _ d)|by apply Forall_singleton|cbn; lia|]. rewrite shown_app by congruence. by rewrite <- Ash, E. }
  destruct Hc as (C1 & C2 & C3 & C4 & C5 & C6 & C7). split; rewrite ?count_app, ?omap_app, ?C1, ?C2, ?C3, ?Aw; try done.
  - destruct again; lia.
  - destruct again; lia.
  - apply Forall_app. by split.
  - by rewrite C7, <- Ash, Ha.
  - intros E. destruct (Hg E) as (? & [a ->] & ?). rewrite Af. lia.
Qed.

Lemma bounded_more n again r new w n' again' r' rest :
  attempted r new → answer_of r = PushFailed → bounded n' again' r' rest →
  (r = Err errUnauthorized ∧ w = [] ∧ n' = n ∧ again = false ∧ again' = true
   ∨ (∃ a d, r = Err (retryable a) ∧ w = [Slept d] ∧ 0 < d ≤ 10 * Second ∧ n' = n + 1 ∧ again' = again)) →
  bounded n again r' ((new ++ w) ++ rest).
Proof.
  intros [[Ap As] Aw Asafe Ash Af] Ha [B1 B2 B3 B4 B5 B6 B7 B8] Hc. rewrite <- app_assoc.
  destruct Hc as [(-> & -> & -> & -> & ->)|(a & d & -> & -> & Hd & -> & ->)].
  - split; cbn [app]; rewrite ?count_app, ?omap_app, ?Aw; try done; try lia.
    + apply Forall_app. by split.
    + rewrite shown_app; congruence.
    + intros E. specialize (B7 E). lia.
  - split; rewrite ?count_app, ?omap_app, ?Aw; cbn; try done.
    + change (count is_push (Slept d :: rest)) with (count is_push rest). destruct again; lia.
    + change (count is_sign_in (Slept d :: rest)) with (count is_sign_in rest). destruct again; lia.
    + lia.
    + by constructor.
    + apply Forall_app. split; [done|]. by constructor.
    + rewrite shown_app by congruence. by change (Slept d :: rest) with ([Slept d] ++ rest); rewrite (shown_app [Slept d]).
    + intros E. specialize (B7 E). change (count failed_try (Slept d :: rest)) with (count failed_try rest). lia.
Qed.

Lemma sends_bounded n again r new : sends f m n again r new → n ≤ 2 → bounded n again r new.
Proof.
  induction 1 as [n again r new Ha Hf|n new Ha|n new r rest Ha Hs IH|n again a new Ha Hn|n again a new Ha Hn Hl|n again a d new Ha Hn Had Hd|n again a d new r rest Ha Hn Had Hd Hs IH];
    intros Hn2; pose proof (attempt_facts _ _ Ha) as At; pose proof (attempt_ends _ _ Ha) as [He1 He2].
  - rewrite <- (app_nil_r new). eapply bounded_end; try done. by left.
  - rewrite <- (app_nil_r new). eapply bounded_end; try done. by left.
  - rewrite <- (app_nil_r new). eapply bounded_more; [done..|by apply IH|]. by left.
  - rewrite <- (app_nil_r new). eapply bounded_end; try done; [|by left]. intros _. split_and!; [lia|by eexists|lia].
  - rewrite <- (app_nil_r new). eapply bounded_end; try done. by left.
  - eapply bounded_end; try done. right. split_and!; [done|lia|by eexists].
  - eapply bounded_more; [done..|apply IH; lia|]. right. by exists a, d.
Qed.
End consequences.

Lemma NewFCM_ok {Key} `{FcmLib Key} cfg f : NewFCM cfg = Ok f →
  f_retry f = defaultRetry ∧ HasPrefix (f_endpoint f) "https://" = true ∧ HasPrefix (sa_TokenURI (f_account f)) "https://" = true.
Proof.
  unfold NewFCM. intros E. apply res_bind_ok in E as ([a k] & Ea & E). cbn [fst snd] in E.
  destruct (cf_Timeout cfg <=? 0); [done|]. destruct (HasPrefix (if bool_decide (cf_BaseURL cfg = "") then fcmBaseURL else cf_BaseURL cfg) "https://") eqn:Eh; [|done].
  injection E as <-. cbn [f_retry f_endpoint f_account]. split; [done|]. split.
  - by apply HasPrefix_app.
  - unfold parseServiceAccount in Ea. destruct (unmarshal_account _) as [b|]; [|done]. destruct (negb _); [done|]. destruct (_ || _); [done|].
    destruct (HasPrefix (sa_TokenURI b) "https://") eqn:Et; [|done]. destruct (ParseRSAPrivateKeyFromPEM _); [|done]. by injection Ea as <- <-.
Qed.

(** C35. A push always ends, and its device is treated as Google says. However
    Google and the network behave and whatever other pushes do meanwhile, a
    sender the server started with makes at most three tries and one more under
    a new token: four requests to push and four to sign in, all over TLS, each
    push this message under a bearer token. It pauses at most twice, never more
    than ten seconds nor less than Google asked for; it follows ADR-0034's
    protocol step by step. The device counts as reached, gone or refused exactly
    when the last reply says so in the ADR's table; every other end is an error
    that the outbox tries again, and giving up takes three failed tries. *)
Theorem pushing_ends {Key W : Type} `{FcmLib Key} `{OutsideLaws W} `{UuidLib} cfg f p (s : St W) :
  NewFCM cfg = Ok f →
  ∃ r s' new, Send f p s = Some (r, s') ∧ done s' = done s ++ new ∧ sends f (fcm_message p) 0 false r new ∧
    (count is_push new ≤ 4)%nat ∧ (count is_sign_in new ≤ 4)%nat ∧ (length (omap slept new) ≤ 2)%nat ∧
    Forall (λ d, 0 < d ≤ 10 * Second) (omap slept new) ∧ Forall (sent_safely (fcm_message p)) new ∧
    answer_of r = from_option google_says PushFailed (last new ≫= push_reply) ∧
    (r = Err ErrGaveUp → count failed_try new = 3%nat) ∧ r ≠ Err ErrRandPanic.
Proof.
  intros Hf. destruct (NewFCM_ok _ _ Hf) as [Hd Htls]. unfold Send. rewrite Hd. cbn [rt_attempts defaultRetry].
  destruct (loop_sends f (fcm_message p) Hd 5 0 false s) as (r & s' & new & E & Ed & Hs); [lia|cbn; lia|lia|].
  exists r, s', new. destruct (sends_bounded f (fcm_message p) Htls _ _ _ _ Hs) as [B1 B2 B3 B4 B5 B6 B7 B8]; [lia|].
  split_and!; try done; try lia. intros Hr. specialize (B7 Hr). lia.
Qed.

(** ** An example: a sender, and a Google that answers from a script *)
Module FcmDemo.
Definition script : Type := list (option Reply).

#[export] Instance demo_lib : FcmLib unit := {|
  unmarshal_account raw := Some (MkAccount "service_account" "barber shop" "k1" raw "push@project" "https://oauth2.googleapis.com/token");
  ParseRSAPrivateKeyFromPEM _ := Some tt;
  SignedString _ _ := Some "signed";
  url_ok _ := true |}.

#[export] Instance scripted : Outside script := {|
  Now _ := 1000 * Second;
  Do _ w := match w with [] => (None, []) | a :: w => (a, w) end;
  Cancelled _ := false;
  rand n w := (n / 2, w);
  sleep _ w := (true, w);
  others t w := (t, w) |}.

#[export] Instance scripted_laws : OutsideLaws script.
Proof. constructor. intros w n Hn. cbn. split; [apply Z.div_pos; lia|apply Z.div_lt; lia]. Qed.

Definition no_token : token_body := MkTokenBody false "" 0 "".
Definition token (t : string) : option Reply := Some (MkReply 200 "" (MkTokenBody true t 3599 "") None).
Definition says (status : Z) (retry code : string) : option Reply := Some (MkReply status retry no_token (Some (MkErrorBody code []))).
Definition accepted : option Reply := Some (MkReply 200 "" no_token None).

Definition cfg : FCMConfig := MkFCMConfig "key" (5 * Second) "".
Definition sender : FCM unit := match NewFCM cfg with Ok f => f | Err _ => MkFCM "" (MkAccount "" "" "" "" "" "") tt defaultRetry end.
Definition push : Push :=
  MkPush (MkDevice (MkID 1) (MkID 2) (MkToken "device") Android Arabic 0 0) "Confirmed" "See you" BookingConfirmed (MkID 3) 4.
Definition from (w : script) : St script := MkSt (MkTokens "" 0) w [].
#[local] Existing Instance decimal_ids.

Lemma sender_ok : NewFCM cfg = Ok sender.
Proof. vm_compute. reflexivity. Qed.

(** Throttled for three seconds, then the token is refused, then it arrives. *)
Example after_a_while :
  option_map (λ x, (x.1, omap slept (done x.2), count is_push (done x.2)))
    (Send sender push (from [token "t1"; says 429 "3" "UNAVAILABLE"; says 401 "" "UNAUTHENTICATED"; token "t2"; accepted]))
  = Some (Ok tt, [3 * Second], 3%nat).
Proof. vm_compute. reflexivity. Qed.

(** Down throughout: three tries. *)
Example down : option_map (λ x, (x.1, count failed_try (done x.2))) (Send sender push (from [token "t1"])) = Some (Err ErrGaveUp, 3%nat).
Proof. vm_compute. reflexivity. Qed.

(** [time.Duration(s) * time.Second] wraps: a [Retry-After] of more than 292
    years counts as none, and the pause is the usual one. *)
Example huge_retry_after : retryAfter "9223372037" < 0 ∧
  option_map (λ x, omap slept (done x.2)) (Send sender push (from [token "t1"; says 503 "9223372037" "UNAVAILABLE"; accepted])) = Some [125 * Millisecond + 1].
Proof. vm_compute. split; reflexivity. Qed.
End FcmDemo.

Import FcmDemo.
#[local] Existing Instance decimal_ids.
Lemma pushing_ends_witness : ∃ r s' new,
  Send sender push (from [token "t1"; says 404 "" "UNREGISTERED"]) = Some (r, s') ∧ done s' = [] ++ new ∧ answer_of r = DeviceGone ∧ (count is_push new ≤ 4)%nat.
Proof.
  destruct (pushing_ends cfg sender push (from [token "t1"; says 404 "" "UNREGISTERED"]) sender_ok) as (r & s' & new & E & Ed & _ & Hc & _ & _ & _ & _ & Ha & _).
  exists r, s', new. split_and!; [exact E|exact Ed| |exact Hc].
  assert (Er : option_map fst (Send sender push (from [token "t1"; says 404 "" "UNREGISTERED"])) = Some (Err ErrDeviceGone)) by (vm_compute; reflexivity).
  rewrite E in Er. injection Er as ->. reflexivity.
Defined.
