(* ===== verification/BookNotices.v ===== *)
(** * Customers are told of their bookings (src/internal/booking/module.go,
    src/cmd/server/main.go)

    [main] subscribes notification to every appointment event of booking: the
    event is decoded, handed over field by field, and told to the customer.
    Which customer hears what of which change follows.

    Booking's names are used in full. *)
From S2P Require Import Prelude GoTime GoText Shared Tables BizBase Outbox DiscStore Notification NotifFlow Notices.
From S2P Require Appointment BookStore.
Import Appointment (Status, StatusPending, StatusConfirmed, StatusRejected, StatusExpired, StatusCancelled, StatusCompleted, StatusNoShow, Canceller, ByCustomer, ByStaff, Status_text, Canceller_text).
Open Scope Z_scope.

(** ** The contract (booking/events, booking/module.go) *)

(** The payload as it is read: the fields both payloads share. *)
Record AppointmentStatusChanged := MkPayload {
  pa_AppointmentID : AppointmentID; pa_BusinessID : BusinessID; pa_BranchID : BranchID; pa_BarberID : StaffID; pa_CustomerID : option UserID;
  pa_Status : string; pa_StartsAt : time; pa_CancelledBy : string }.

Definition payload (e : BookStore.OutboxEvent) : AppointmentStatusChanged :=
  MkPayload (BookStore.ob_Appointment e) (BookStore.ob_Business e) (BookStore.ob_Branch e) (BookStore.ob_Barber e) (BookStore.ob_Customer e)
    (Status_text (BookStore.ob_Status e)) (BookStore.ob_StartsAt e) (from_option Canceller_text "" (BookStore.ob_CancelledBy e)).

Record AppointmentChanged := MkChanged {
  ac_EventID : UUID; ac_AppointmentID : AppointmentID; ac_BusinessID : BusinessID; ac_BranchID : BranchID; ac_BarberID : StaffID; ac_CustomerID : UserID;
  ac_What : string; ac_Status : string; ac_CancelledBy : string; ac_StartsAt : time; ac_At : time }.

Definition TypeAppointmentBooked : string := "booking.appointment_booked".
Definition TypeAppointmentConfirmed : string := "booking.appointment_confirmed".
Definition TypeAppointmentRejected : string := "booking.appointment_rejected".
Definition TypeAppointmentCancelled : string := "booking.appointment_cancelled".
Definition TypeAppointmentCompleted : string := "booking.appointment_completed".
Definition TypeAppointmentNoShow : string := "booking.appointment_no_show".
Definition TypeAppointmentExpired : string := "booking.appointment_expired".
Definition appointment_types : list string :=
  [TypeAppointmentBooked; TypeAppointmentConfirmed; TypeAppointmentRejected; TypeAppointmentCancelled; TypeAppointmentCompleted; TypeAppointmentNoShow;
   TypeAppointmentExpired].

(** [strings.TrimPrefix]. *)
Definition TrimPrefix (s p : string) : string := if String.prefix p s then drop_bytes (String.length p) s else s.

Definition what (eventType : string) : string := TrimPrefix eventType "booking.appointment_".

(** [None]: the payload is incomplete. *)
Definition decodeAppointmentChanged (e : Event AppointmentStatusChanged) : option AppointmentChanged :=
  let p := ev_Payload e in
  if ID_IsZero (pa_AppointmentID p) || ID_IsZero (pa_BranchID p) || bool_decide (pa_Status p = "") || IsZero (pa_StartsAt p) then None
  else Some (MkChanged (ev_ID e) (pa_AppointmentID p) (pa_BusinessID p) (pa_BranchID p) (pa_BarberID p) (default (MkID 0) (pa_CustomerID p))
               (what (ev_Type e)) (pa_Status p) (pa_CancelledBy p) (pa_StartsAt p) (ev_OccurredAt e)).

Definition handle {W} (fn : W → AppointmentChanged → bool * W) : Handler AppointmentStatusChanged W :=
  λ w e, match decodeAppointmentChanged e with None => (false, w) | Some a => fn w a end.

(** One subscription for each type; [None] if a name is taken. *)
Definition OnAppointmentChanged {W} (b : Bus AppointmentStatusChanged W) (name : string) (fn : W → AppointmentChanged → bool * W) :
  option (Bus AppointmentStatusChanged W) :=
  foldl (λ b t, b ← b; Subscribe b (name +:+ "." +:+ what t) t (handle fn)) (Some b) appointment_types.

(** ** Notification's side (notification/module.go; main.go, subscribe) *)

Section wired.
Context `{TzLib}.

Definition change_of (a : AppointmentChanged) : AppointmentChange :=
  MkChange (ac_EventID a) (ac_AppointmentID a) (ac_BranchID a) (ac_CustomerID a) (ac_What a) (ac_Status a) (ac_CancelledBy a) (ac_StartsAt a).

Definition Module_AppointmentChanged (run : Run) (w : World) (a : AppointmentChanged) : bool * World :=
  let r := Notify run w (change_of a) in (is_ok r.1, r.2).

(** What the subscriptions do with an event. *)
Definition tell (run : Run) (w : World) (e : Event AppointmentStatusChanged) : bool * World := handle (Module_AppointmentChanged run) w e.

(** ** Who is told of what *)

(** The events of booking's tables: their type says what happened, and a
    customer named is one. *)
Definition event_ok (e : BookStore.OutboxEvent) : Prop :=
  match BookStore.ob_From e with
  | None => BookStore.ob_Type e = TypeAppointmentBooked
  | Some from => Appointment.transition from (BookStore.ob_Status e) = true ∧ BookStore.event_type (BookStore.ob_Status e) = Some (BookStore.ob_Type e)
  end ∧ ∀ u, BookStore.ob_Customer e = Some u → ID_IsZero u = false.

Lemma optional_nonzero c u : BookStore.optional c = Some u → ID_IsZero u = false.
Proof. unfold BookStore.optional. destruct (ID_IsZero c) eqn:E; [done|]. by intros [= <-]. Qed.

Lemma moves_events d d' out : BookStore.diary_moves d d' out → Forall event_ok out.
Proof.
  induction 1 as [|d d1 d2 out out' Hm _ IH]; [constructor|]. apply Forall_app. split; [|done]. destruct Hm as [s|s op now a _ Ha]; apply Forall_singleton.
  - split; [done|]. apply optional_nonzero.
  - split; [|apply optional_nonzero]. apply Appointment.apply_op_ok in Ha as [He ->]. apply Appointment.enabled_transition in He. cbn in He |- *.
    split; [done|]. destruct op; try done.
Qed.

Lemma reachable_events db : BookStore.store_reachable db → Forall event_ok (BookStore.book_outbox db).
Proof.
  unfold BookStore.store_reachable. intros Hr. eapply (rtc_ind_r (λ db, Forall event_ok (BookStore.book_outbox db)) BookStore.empty_book_db); [constructor| |exact Hr].
  intros x y Hx Hs IH. destruct (BookStore.store_step_moves x y (BookStore.store_reachable_ok x Hx) Hs) as (_ & _ & out & Hm & ->).
  apply Forall_app. split; [done|]. by eapply moves_events.
Qed.

(** What an event tells its customer: nothing of what they did themselves, or
    of what comes after the visit. *)
Definition notice_of (e : BookStore.OutboxEvent) : option Kind :=
  match BookStore.ob_From e, BookStore.ob_Status e with
  | None, StatusPending => Some BookingRequested
  | None, StatusConfirmed | Some _, StatusConfirmed => Some BookingConfirmed
  | Some _, StatusRejected => Some BookingDeclined
  | Some _, StatusExpired => Some BookingExpired
  | Some _, StatusCancelled => match BookStore.ob_CancelledBy e with Some ByStaff => Some BookingCancelled | _ => None end
  | _, _ => None
  end.

Definition sent_event (id : UUID) (e : BookStore.OutboxEvent) : Event AppointmentStatusChanged :=
  MkEvent id (BookStore.ob_Type e) (BookStore.ob_OccurredAt e) (payload e).

Lemma notice_told e id a :
  event_ok e → decodeAppointmentChanged (sent_event id e) = Some a → CustomerNotice (ac_What a) (ac_Status a) (ac_CancelledBy a) = notice_of e.
Proof.
  intros [Hok _] Ha. unfold decodeAppointmentChanged in Ha. cbn [sent_event ev_Payload ev_Type ev_ID ev_OccurredAt] in Ha.
  destruct (_ || _ || _ || _); [done|]. injection Ha as <-. cbn [ac_What ac_Status ac_CancelledBy payload pa_Status pa_CancelledBy]. unfold notice_of.
  destruct (BookStore.ob_From e) as [from|].
  - destruct Hok as [Ht Hty]. destruct (BookStore.ob_Status e); cbn in Hty; try done; injection Hty as <-; try (by vm_compute).
    by destruct (BookStore.ob_CancelledBy e) as [[]|]; vm_compute.
  - rewrite Hok. destruct (BookStore.ob_Status e); by vm_compute.
Qed.

(** Every type has its own subscription. *)
Lemma subscribe_all {W} (name : string → string) (h : Handler AppointmentStatusChanged W) ts b b' :
  NoDup ts → foldl (λ b t, b ← b; Subscribe b (name t) t h) (Some b) ts = Some b' →
  (∀ t, t ∈ ts → subscribers b' t = subscribers b t ++ [name t] ∧ handlers b' !! name t = Some h) ∧
  (∀ t, t ∉ ts → subscribers b' t = subscribers b t) ∧ ∀ n h', handlers b !! n = Some h' → handlers b' !! n = Some h'.
Proof.
  intros Hnd. revert b. induction Hnd as [|t ts Hout Hnd IH]; intros b; cbn [foldl mbind option_bind].
  - intros [= <-]. split_and!; [by intros ? ?%not_elem_of_nil|done..].
  - unfold Subscribe at 2. destruct (handlers b !! name t) eqn:En; cbn [present].
    { assert (Hnone : foldl (λ b t, b ← b; Subscribe b (name t) t h) None ts = None) by (clear; induction ts; done). by rewrite Hnone. }
    intros (Hin & Hother & Hkeep)%IH. unfold subscribers in Hin, Hother. cbn [byType handlers] in *.
    assert (Hsub : ∀ t', t' ≠ t → <[t := subscribers b t ++ [name t]]> (byType b) !! t' = byType b !! t') by (intros; by rewrite lookup_insert_ne).
    split_and!.
    + intros t' [->|Ht']%elem_of_cons.
      * split; [|by apply Hkeep, lookup_insert_eq]. unfold subscribers at 1. rewrite (Hother t Hout). by rewrite lookup_insert_eq.
      * destruct (Hin t' Ht') as [Es Eh]. split; [|done]. unfold subscribers. rewrite Es, Hsub; [done|]. by intros ->.
    + intros t' [Hne Ht']%not_elem_of_cons. unfold subscribers. by rewrite Hother, Hsub.
    + intros n h' Hn. apply Hkeep. rewrite lookup_insert_ne; [done|]. congruence.
Qed.

Lemma subscribed {W} (fn : W → AppointmentChanged → bool * W) b :
  OnAppointmentChanged New "notification.appointment" fn = Some b →
  ∀ t, t ∈ appointment_types → ∃ n, subscribers b t = [n] ∧ handlers b !! n = Some (handle fn).
Proof.
  intros E t Ht. destruct (subscribe_all (λ t, "notification.appointment" +:+ "." +:+ what t) (handle fn) appointment_types New b) as (Hin & _);
    [apply (proj1 (has_dup_false [] appointment_types)); vm_compute; reflexivity|exact E|]. destruct (Hin t Ht) as [Es Eh]. exists ("notification.appointment" +:+ "." +:+ what t). split; [|exact Eh].
  rewrite Es. unfold subscribers. cbn [New byType]. by rewrite lookup_empty.
Qed.

Lemma event_types s t : BookStore.event_type s = Some t → t ∈ appointment_types.
Proof.
  intros Ht. apply (bool_decide_eq_true_1 (t ∈ appointment_types)). destruct s; cbn in Ht; try discriminate; injection Ht as <-; vm_compute; reflexivity.
Qed.

Lemma event_subscribed e : event_ok e → BookStore.ob_Type e ∈ appointment_types.
Proof. intros [Hok _]. destruct (BookStore.ob_From e); [by eapply event_types, Hok|]. rewrite Hok. left. Qed.

Lemma decode_fields e id a :
  decodeAppointmentChanged (sent_event id e) = Some a →
  ac_EventID a = id ∧ ac_AppointmentID a = BookStore.ob_Appointment e ∧ ac_BranchID a = BookStore.ob_Branch e ∧
  ac_StartsAt a = BookStore.ob_StartsAt e ∧ ac_CustomerID a = default (MkID 0) (BookStore.ob_Customer e).
Proof. unfold decodeAppointmentChanged. destruct (_ || _ || _ || _); [discriminate|]. intros E. injection E as <-. split_and!; reflexivity. Qed.

(** A complete event is read. *)
Lemma decode_complete e id :
  ID_IsZero (BookStore.ob_Appointment e) = false → ID_IsZero (BookStore.ob_Branch e) = false → IsZero (BookStore.ob_StartsAt e) = false →
  ∃ a, decodeAppointmentChanged (sent_event id e) = Some a.
Proof.
  intros Hap Hbr Hst. unfold decodeAppointmentChanged. cbn [sent_event ev_Payload payload pa_AppointmentID pa_BranchID pa_Status pa_StartsAt].
  rewrite Hap, Hbr, Hst. cbn [orb]. rewrite bool_decide_eq_false_2 by (by destruct (BookStore.ob_Status e)). by eexists.
Qed.

(** C26. Whatever happens to a booking, its customer hears of it exactly as the
    shop means them to: asked, confirmed (at once or by the shop), declined,
    expired, cancelled by the shop; nothing of what they cancelled themselves
    or of a visit that is over, and nobody hears of a walk-in. Every event of
    booking's tables has its subscription, is read, and is told about the
    right booking, branch and customer. *)
Theorem customers_are_told db e id run w b :
  BookStore.store_reachable db → e ∈ BookStore.book_outbox db →
  ID_IsZero (BookStore.ob_Appointment e) = false → ID_IsZero (BookStore.ob_Branch e) = false → IsZero (BookStore.ob_StartsAt e) = false →
  OnAppointmentChanged New "notification.appointment" (Module_AppointmentChanged run) = Some b →
  (∃ n h, subscribers b (BookStore.ob_Type e) = [n] ∧ handlers b !! n = Some h ∧ ∀ w, h w (sent_event id e) = tell run w (sent_event id e)) ∧
  match notice_of e, BookStore.ob_Customer e with
  | Some kind, Some u =>
      ∃ c, tell run w (sent_event id e) = (is_ok (Notify run w c).1, (Notify run w c).2) ∧
        CustomerNotice (ch_What c) (ch_Status c) (ch_CancelledBy c) = Some kind ∧ ch_Customer c = u ∧ ID_IsZero u = false ∧
        ch_Event c = id ∧ ch_Appointment c = BookStore.ob_Appointment e ∧ ch_Branch c = BookStore.ob_Branch e ∧ ch_StartsAt c = BookStore.ob_StartsAt e
  | _, _ => tell run w (sent_event id e) = (true, w)
  end.
Proof.
  intros Hr He Hap Hbr Hst Hb. pose proof (proj1 (Forall_forall _ _) (reachable_events db Hr) e He) as Hok. split.
  - destruct (subscribed _ b Hb _ (event_subscribed e Hok)) as (n & Hn & Hh). exists n, (handle (Module_AppointmentChanged run)). split_and!; [exact Hn|exact Hh|reflexivity].
  - clear Hb. destruct (decode_complete e id Hap Hbr Hst) as [a Ed]. pose proof (notice_told e id a Hok Ed) as Hn.
    destruct (decode_fields e id a Ed) as (Eid & Eap & Ebr & Est & Ecu). unfold tell, handle. rewrite Ed. unfold Module_AppointmentChanged. cbn zeta. clear Ed.
    assert (Hnot : ∀ r, CustomerNotice (ac_What a) (ac_Status a) (ac_CancelledBy a) = r → r = None ∨ ID_IsZero (ac_CustomerID a) = true → Notify run w (change_of a) = (Ok tt, w)).
    { intros r Er Hnone. unfold Notify, change_of. cbn [ch_What ch_Status ch_CancelledBy ch_Customer]. rewrite Er. destruct Hnone as [->| ->]; [done|]. by destruct r. }
    destruct (notice_of e) as [kind|]; [|by rewrite (Hnot None Hn (or_introl eq_refl))].
    destruct (BookStore.ob_Customer e) as [u|] eqn:Eu; [|rewrite (Hnot _ Hn); [done|right; by rewrite Ecu]].
    exists (change_of a). split_and!; [done|exact Hn|exact Ecu| |done..]. by apply (proj2 Hok).
Qed.
End wired.

(** ** An example: the example booking of booking's tables, told to its customer *)
Section demo.
#[local] Existing Instance NoticeDemo.demo_zones.

Definition demo_event : BookStore.OutboxEvent := BookStore.booked_event (Appointment.state Appointment.demo_appointment).

Lemma customers_are_told_witness :
  ∃ c, tell NoticeDemo.online NoticeDemo.w3 (sent_event 700 demo_event) = (is_ok (Notify NoticeDemo.online NoticeDemo.w3 c).1, (Notify NoticeDemo.online NoticeDemo.w3 c).2) ∧
    CustomerNotice (ch_What c) (ch_Status c) (ch_CancelledBy c) = Some BookingRequested ∧ ch_Event c = 700%N.
Proof.
  assert (Hin : demo_event ∈ BookStore.book_outbox BookStore.demo_db) by (apply list_elem_of_lookup_2 with 0%nat; vm_compute; reflexivity).
  destruct (OnAppointmentChanged New "notification.appointment" (Module_AppointmentChanged NoticeDemo.online)) as [b|] eqn:Hb.
  2:{ exfalso. assert (E : present (OnAppointmentChanged New "notification.appointment" (Module_AppointmentChanged NoticeDemo.online)) = true) by (vm_compute; reflexivity).
      rewrite Hb in E. discriminate. }
  assert (H1 : ID_IsZero (BookStore.ob_Appointment demo_event) = false) by (vm_compute; reflexivity).
  assert (H2 : ID_IsZero (BookStore.ob_Branch demo_event) = false) by (vm_compute; reflexivity).
  assert (H3 : IsZero (BookStore.ob_StartsAt demo_event) = false) by (vm_compute; reflexivity).
  pose proof (customers_are_told BookStore.demo_db demo_event 700 NoticeDemo.online NoticeDemo.w3 b BookStore.demo_reachable Hin H1 H2 H3 Hb) as [_ Htold].
  assert (En : notice_of demo_event = Some BookingRequested) by (vm_compute; reflexivity).
  assert (Eu : ∃ u, BookStore.ob_Customer demo_event = Some u) by (eexists; vm_compute; reflexivity). destruct Eu as [u Eu].
  rewrite En, Eu in Htold. destruct Htold as (c & Ht & Hk & _ & _ & Hid & _). exists c. split; [exact Ht|split; [exact Hk|exact Hid]].
Defined.
End demo.
