(* ===== verification/Media.v ===== *)
(** * The media module (src/internal/media)

    Stored files: which kinds are accepted and how big, the rows and the files
    on disk, signed download links. A file and the body of an upload are byte
    strings; what fails on the way - the client's connection, the disk, the
    database - is an argument. *)
From Stdlib Require Import Ascii.
From S2P Require Import Prelude GoTime GoText GoCrypto GoEncoding Shared Tables.
Open Scope Z_scope.

(** ** Files (domain/object.go) *)

Inductive media_error :=
  ErrNotFound | ErrEmpty | ErrTooLarge | ErrUnsupportedType | ErrUnknownPurpose | ErrLinkInvalid | ErrChecksum | ErrSecret | ErrKey | ErrRead | ErrStorage.

#[export] Instance media_error_eq_dec : EqDecision media_error.
Proof. solve_decision. Defined.

(** [10 << 20]. *)
Definition MaxSize : Z := Z.shiftl 10 20.

Inductive Purpose := PurposeCRDocument.

Definition Purpose_string (p : Purpose) : string := match p with PurposeCRDocument => "cr_document" end.
Definition ParsePurpose (s : string) : res media_error Purpose := if bool_decide (s = "cr_document") then Ok PurposeCRDocument else Err ErrUnknownPurpose.

Inductive ContentType := PDF | JPEG | PNG.

#[export] Instance ContentType_eq_dec : EqDecision ContentType.
Proof. solve_decision. Defined.

Definition ContentType_string (ct : ContentType) : string := match ct with PDF => "application/pdf" | JPEG => "image/jpeg" | PNG => "image/png" end.

Definition SniffLen : nat := 8.

(** The type the first bytes are of. *)
Definition magic (ct : ContentType) : string :=
  match ct with
  | PDF => "%PDF-"
  | JPEG => string_of_bytes [255; 216; 255]
  | PNG => string_of_bytes [137; 80; 78; 71; 13; 10; 26; 10]
  end.

Definition Sniff (head : string) : res media_error ContentType :=
  if HasPrefix head (magic PDF) then Ok PDF
  else if HasPrefix head (magic JPEG) then Ok JPEG
  else if HasPrefix head (magic PNG) then Ok PNG
  else Err ErrUnsupportedType.

Definition ParseContentType (s : string) : res media_error ContentType :=
  if bool_decide (s = "application/pdf") then Ok PDF
  else if bool_decide (s = "image/jpeg") then Ok JPEG
  else if bool_decide (s = "image/png") then Ok PNG
  else Err ErrUnsupportedType.

Record Object := MkObject {
  id : MediaID; purpose : Purpose; contentType : ContentType; size : Z; sha256 : string; createdBy : UserID; createdAt : time }.

Definition NewObject (id : MediaID) (purpose : Purpose) (ct : ContentType) (size : Z) (sha256 : string) (by_ : UserID) (now : time) : res media_error Object :=
  check! negb (size <=? 0) else ErrEmpty in
  check! negb (MaxSize <? size) else ErrTooLarge in
  check! (len sha256 =? 32) else ErrChecksum in
  Ok (MkObject id purpose ct size sha256 by_ (Truncate now Microsecond)).

Definition RehydrateObject (id : MediaID) (purpose : Purpose) (ct : ContentType) (size : Z) (sha256 : string) (by_ : UserID) (createdAt : time) : Object :=
  MkObject id purpose ct size sha256 by_ createdAt.

(** ** Rows (adapters/postgres, migrations) *)

Record ObjectRow := MkObjectRow {
  or_ID : MediaID; or_Purpose : string; or_ContentType : string; or_SizeBytes : Z; or_Sha256 : string; or_CreatedBy : UserID; or_CreatedAt : time }.

Abbreviation Rows := (gmap MediaID ObjectRow).

Definition object_checks (r : ObjectRow) : bool :=
  bool_decide (or_Purpose r ∈ ["cr_document"]) && bool_decide (or_ContentType r ∈ ["application/pdf"; "image/jpeg"; "image/png"])
  && (1 <=? or_SizeBytes r) && (or_SizeBytes r <=? 10485760) && (len (or_Sha256 r) =? 32).

Definition object_row (o : Object) : ObjectRow :=
  MkObjectRow (id o) (Purpose_string (purpose o)) (ContentType_string (contentType o)) (size o) (sha256 o) (createdBy o) (stored_time (createdAt o)).

Definition Objects_Add (t : Rows) (o : Object) : res media_error Rows :=
  check! object_checks (object_row o) else ErrStorage in
  check! negb (present (t !! id o)) else ErrStorage in
  Ok (<[id o := object_row o]> t).

Definition Objects_ByID (t : Rows) (oid : MediaID) : res media_error Object :=
  match t !! oid with
  | None => Err ErrNotFound
  | Some row =>
      let! purpose := ParsePurpose (or_Purpose row) in
      let! ct := ParseContentType (or_ContentType row) in
      Ok (RehydrateObject oid purpose ct (or_SizeBytes row) (or_Sha256 row) (or_CreatedBy row) (or_CreatedAt row))
  end.

Definition Objects_Delete (t : Rows) (oid : MediaID) : Rows := delete oid t.

(** ** Link signatures (adapters/signer) *)

Section media.
Context `{UuidLib}.

Definition MinSecretLen : Z := 32.
Definition NewSigner (secret : string) : res media_error string := if len secret <? MinSecretLen then Err ErrSecret else Ok secret.

Definition nul : string := string_of_bytes [0].

Definition signed_text (oid : MediaID) (expires : Z) : string := "media-download" +:+ nul +:+ ID_String oid +:+ nul +:+ itoa expires.
Definition mac (key : string) (oid : MediaID) (expires : Z) : string := HMAC_Sum256 key (signed_text oid expires).

Definition Sign (key : string) (oid : MediaID) (expires : Z) : string := EncodeToString (bytes (mac key oid expires)).
Definition Verify (key : string) (oid : MediaID) (expires : Z) (signature : string) : bool :=
  match DecodeString signature with
  | None => false
  | Some got => bool_decide (got = bytes (mac key oid expires))
  end.

(** ** Files on disk (adapters/disk) *)

Abbreviation Disk := (gmap string string).

(** The path of a key, if it is a UUID's text. *)
Definition name (key : string) : option string :=
  match uuid_parse key with
  | Some u => if bool_decide (uuid_string u = key) then Some (take_bytes 2 key +:+ "/" +:+ key) else None
  | None => None
  end.

(** How a reader ends: with its bytes, or broken off - [io.ErrUnexpectedEOF] is
    what net/http answers of a body cut short - and then it goes on failing. *)
Inductive io_error := EOF | ErrUnexpectedEOF | OtherError.

#[export] Instance io_error_eq_dec : EqDecision io_error.
Proof. solve_decision. Defined.

(** A reader: what it gives, and the error after that. *)
Record Body := MkBody { content : string; ends : io_error }.
Definition broken (b : Body) : bool := negb (bool_decide (ends b = EOF)).

(** [io.LimitReader]: a reader that fails past the limit is not read so far. *)
Definition LimitReader (b : Body) (n : Z) : Body := if len (content b) <? n then b else MkBody (take_bytes (Z.to_nat n) (content b)) EOF.

(** What goes wrong of a call: writing or opening the file, removing it, the
    statement on the row. *)
Record Faults := MkFaults { file_fails : bool; remove_fails : bool; row_fails : bool }.

(** A file appears under its name whole, or not at all. *)
Definition Disk_Put (disk : Disk) (f : Faults) (key : string) (b : Body) : res media_error Disk :=
  match name key with
  | None => Err ErrKey
  | Some path => if file_fails f || broken b then Err ErrStorage else Ok (<[path := content b]> disk)
  end.

Definition Disk_Open (disk : Disk) (f : Faults) (key : string) : res media_error string :=
  match name key with
  | None => Err ErrKey
  | Some path => if file_fails f then Err ErrStorage else match disk !! path with None => Err ErrNotFound | Some file => Ok file end
  end.

Definition Disk_Remove (disk : Disk) (f : Faults) (key : string) : res media_error Disk :=
  match name key with
  | None => Err ErrKey
  | Some path => if remove_fails f then Err ErrStorage else Ok (delete path disk)
  end.

(** ** Use cases (app/app.go, module.go) *)

Record World := MkWorld { objects : Rows; disk : Disk }.
Definition empty_world : World := MkWorld ∅ ∅.

Definition LinkTTL : Duration := 5 * Minute.

(** [discard]: a file that can't be removed stays, and is logged. *)
Definition discard (w : World) (f : Faults) (oid : MediaID) : World :=
  match Disk_Remove (disk w) f (ID_String oid) with Ok d => MkWorld (objects w) d | Err _ => w end.

(** [io.ReadFull]: [n] bytes, or what there are and why there are no more; no
    error where it filled the buffer. *)
Definition ReadFull (b : Body) (n : nat) : string * option io_error :=
  if Z.of_nat n <=? len (content b) then (take_bytes n (content b), None)
  else (content b, Some (if negb (bool_decide (content b = "")) && bool_decide (ends b = EOF) then ErrUnexpectedEOF else ends b)).

(** The head of the file, by what [io.ReadFull] answers. *)
Definition read_head (b : Body) : res media_error string :=
  let '(head, err) := ReadFull b SniffLen in
  if bool_decide (head = "") && bool_decide (err = None ∨ err = Some EOF) then Err ErrEmpty
  else if bool_decide (err = Some OtherError) then Err ErrRead
  else Ok head.

Definition Store (w : World) (f : Faults) (newID : MediaID) (now : time) (purpose : string) (by_ : UserID) (body : Body) : res media_error Object * World :=
  match ParsePurpose purpose with Err e => (Err e, w) | Ok purpose =>
  match read_head body with Err e => (Err e, w) | Ok head =>
  match Sniff head with Err e => (Err e, w) | Ok ct =>
  let read := LimitReader body (MaxSize + 1) in
  match Disk_Put (disk w) f (ID_String newID) read with Err e => (Err e, w) | Ok d =>
  let w := MkWorld (objects w) d in
  let n := len (content read) in
  if MaxSize <? n then (Err ErrTooLarge, discard w f newID)
  else match NewObject newID purpose ct n (Sum256 (content read)) by_ now with Err e => (Err e, discard w f newID) | Ok obj =>
  match (if row_fails f then Err ErrStorage else Objects_Add (objects w) obj) with
  | Err e => (Err e, discard w f newID)
  | Ok t => (Ok obj, MkWorld t (disk w))
  end end end end end end.

(** The row goes first. *)
Definition Delete (w : World) (f : Faults) (oid : MediaID) : res media_error unit * World :=
  if row_fails f then (Err ErrStorage, w)
  else
    let w := MkWorld (Objects_Delete (objects w) oid) (disk w) in
    match Disk_Remove (disk w) f (ID_String oid) with Err e => (Err e, w) | Ok d => (Ok tt, MkWorld (objects w) d) end.

(** [t.Unix()]. *)
Definition Unix (t : time) : Z := t / Second.

Definition DownloadPath (key : string) (now : time) (oid : MediaID) : string * time :=
  let expires := Truncate (GoTime.Add now LinkTTL) Second in
  let sig := Sign key oid (Unix expires) in
  ("/v1/media/" +:+ ID_String oid +:+ "?expires=" +:+ itoa (Unix expires) +:+ "&signature=" +:+ sig, expires).

Definition Open (key : string) (w : World) (f : Faults) (now : time) (oid : MediaID) (expires : Z) (signature : string) : res media_error (Object * string) :=
  check! negb ((expires <? Unix now) || negb (Verify key oid expires signature)) else ErrLinkInvalid in
  let! obj := if row_fails f then Err ErrStorage else Objects_ByID (objects w) oid in
  let! file := Disk_Open (disk w) f (ID_String oid) in
  Ok (obj, file).

(** What other modules see. *)
Record Stored := MkStored { st_ID : MediaID; st_ContentType : string; st_Size : Z; st_CreatedAt : time }.

Definition Module_Store (w : World) (f : Faults) (newID : MediaID) (now : time) (purpose : string) (by_ : UserID) (body : Body) : res media_error Stored * World :=
  match Store w f newID now purpose by_ body with
  | (Err e, w) => (Err e, w)
  | (Ok o, w) => (Ok (MkStored (id o) (ContentType_string (contentType o)) (size o) (createdAt o)), w)
  end.

Definition Module_Delete (w : World) (f : Faults) (oid : MediaID) : res media_error unit * World := Delete w f oid.
Definition Module_DownloadURL (key : string) (now : time) (oid : MediaID) : string * time := DownloadPath key now oid.
End media.
