(* ===== verification/MediaFlow.v ===== *)
(** * What media promises

    A row never points at nothing: its file is there, whole, of the size, the
    checksum and the type the row says, whatever failed on the way. What an
    upload is refused for. And a link opens the file it was made for, until it
    expires, and no other. *)
From S2P Require Import Prelude GoTime GoText GoCrypto GoEncoding Shared Tables Media.
Open Scope Z_scope.

(** ** Byte strings *)

Lemma bytes_take n s : bytes (take_bytes n s) = take n (bytes s).
Proof. revert s. induction n as [|n IH]; intros [|a s]; try done. cbn [take_bytes bytes take]. by rewrite IH. Qed.

Lemma len_take n s : len (take_bytes n s) = Z.min (Z.of_nat n) (len s).
Proof. unfold len. rewrite <- !length_bytes, bytes_take, length_take. lia. Qed.

Lemma take_all n s : len s ≤ Z.of_nat n → take_bytes n s = s.
Proof. intros Hn. apply bytes_inj. rewrite bytes_take, take_ge; [done|]. rewrite length_bytes. unfold len in Hn. lia. Qed.

Lemma len_empty s : len s = 0 ↔ s = "".
Proof. unfold len. destruct s; cbn; split; (done || lia). Qed.

(** A prefix of the first bytes is one of the whole. *)
Lemma HasPrefix_take n s p : (String.length p ≤ n)%nat → HasPrefix (take_bytes n s) p = HasPrefix s p.
Proof.
  unfold HasPrefix. revert n s. induction p as [|a p IH]; intros n s Hp; [by destruct n, s|]. cbn in Hp. destruct n as [|n]; [lia|]. destruct s as [|b s]; [done|].
  cbn [take_bytes CutPrefix]. destruct (Ascii.eqb b a); [apply IH; lia|done].
Qed.

(** ** What is signed *)

Lemma pretty_N_no_nul x s : 0 ∉ bytes s → 0 ∉ bytes (pretty.pretty_N_go x s).
Proof.
  revert s. induction (N.lt_wf_0 x) as [x _ IH]; intros s Hs. destruct (decide (x = 0)%N) as [->|Hx]; [by rewrite pretty.pretty_N_go_0|].
  rewrite pretty.pretty_N_go_step by lia. apply IH; [apply N.div_lt; lia|]. cbn [bytes]. rewrite not_elem_of_cons. split; [|done].
  unfold pretty.pretty_N_char. pose proof (N.mod_lt x 10). repeat case_match; vm_compute; done.
Qed.

Lemma itoa_no_nul z : 0 ∉ bytes (itoa z).
Proof.
  assert (HN : ∀ n : N, 0 ∉ bytes (pretty n)).
  { intros n. unfold pretty, pretty.pretty_N. destruct (decide (n = 0)%N); [vm_compute; by intros ?%list_elem_of_singleton|]. apply pretty_N_no_nul, not_elem_of_nil. }
  unfold itoa, pretty, pretty.pretty_Z. destruct z; [vm_compute; by intros ?%list_elem_of_singleton|apply HN|].
  change (0 ∉ 45 :: bytes (pretty (N.pos p))). rewrite not_elem_of_cons. split; [done|apply HN].
Qed.

(** The last NUL splits the text. *)
Lemma nul_split (u u' x y : list Z) : u ++ 0 :: x = u' ++ 0 :: y → 0 ∉ x → 0 ∉ y → u = u' ∧ x = y.
Proof.
  intros E Hx Hy. revert u' E. induction u as [|a u IH]; intros [|b u'] E; cbn in E.
  - by injection E as ->.
  - injection E as _ ->. destruct Hx. apply elem_of_app. right. left.
  - injection E as _ E. destruct Hy. rewrite <- E. apply elem_of_app. right. left.
  - injection E as -> E. destruct (IH u' E) as [-> ->]. done.
Qed.

Section flow.
Context `{UuidLib}.

Lemma ID_String_inj {T} (a b : ID T) : ID_String a = ID_String b → a = b.
Proof.
  unfold ID_String. intros E. pose proof (uuid_parse_string (value a)) as Ha. rewrite E, uuid_parse_string in Ha. injection Ha as Ha.
  destruct a, b. cbn in Ha. by subst.
Qed.

Lemma signed_text_inj a b e f : signed_text a e = signed_text b f → a = b ∧ e = f.
Proof.
  unfold signed_text. intros E. apply (f_equal bytes) in E. rewrite !bytes_app in E. apply app_inv_head in E. apply app_inv_head in E.
  change (bytes nul) with [0] in E. destruct (nul_split _ _ _ _ E (itoa_no_nul e) (itoa_no_nul f)) as [Ea Ee].
  apply bytes_inj in Ea, Ee. split; [by apply ID_String_inj|]. by apply (inj pretty) in Ee.
Qed.

Lemma bytes_is_byte s : Forall is_byte (bytes s).
Proof. induction s as [|a s IH]; constructor; [apply byte_of_range|done]. Qed.

Lemma Verify_Sign key oid expires : Verify key oid expires (Sign key oid expires) = true.
Proof. unfold Verify, Sign. rewrite DecodeString_Encode by apply bytes_is_byte. by apply bool_decide_eq_true. Qed.

(** ** Where files are *)

Definition path_of (key : string) : string := take_bytes 2 key +:+ "/" +:+ key.

Lemma name_ID (oid : MediaID) : name (ID_String oid) = Some (path_of (ID_String oid)).
Proof. unfold name, ID_String. rewrite uuid_parse_string. by rewrite bool_decide_eq_true_2. Qed.

Lemma path_of_inj a b : path_of a = path_of b → a = b.
Proof.
  unfold path_of. intros E. apply (f_equal bytes) in E. rewrite !bytes_app, !bytes_take in E.
  assert (El : length (bytes a) = length (bytes b)).
  { apply (f_equal length) in E. rewrite !length_app, !length_take in E. change (length (bytes "/")) with 1%nat in E. lia. }
  apply app_inj_1 in E as [_ E]; [|rewrite !length_take; lia]. injection E as E. by apply bytes_inj.
Qed.

Lemma path_ne (a b : MediaID) : a ≠ b → path_of (ID_String a) ≠ path_of (ID_String b).
Proof. intros Hne E%path_of_inj%ID_String_inj. done. Qed.

(** ** Types and what is refused *)

Lemma Sniff_head b : Sniff (take_bytes SniffLen b) = Sniff b.
Proof. unfold Sniff. by rewrite !HasPrefix_take by (vm_compute; lia). Qed.

(** Nothing is no type. *)
Lemma Sniff_some s ct : Sniff s = Ok ct → 1 ≤ len s.
Proof. destruct s as [|a s]; [done|]. intros _. unfold len. cbn. lia. Qed.

Lemma ParseContentType_string ct : ParseContentType (ContentType_string ct) = Ok ct.
Proof. by destruct ct. Qed.

(** The head, whatever [io.ReadFull] says of it. *)
Lemma read_head_spec b :
  read_head b = if bool_decide (content b = "" ∧ ends b = EOF) then Err ErrEmpty
    else if (len (content b) <? Z.of_nat SniffLen) && bool_decide (ends b = OtherError) then Err ErrRead else Ok (take_bytes SniffLen (content b)).
Proof.
  unfold read_head, ReadFull. destruct (Z.leb_spec (Z.of_nat SniffLen) (len (content b))) as [Hl|Hl].
  - rewrite (proj2 (Z.ltb_ge _ _)) by done. assert (Hne : content b ≠ "") by (intros E; rewrite E in Hl; by vm_compute in Hl).
    assert (Ht : take_bytes SniffLen (content b) ≠ "").
    { intros E%len_empty. rewrite len_take in E. change (Z.of_nat SniffLen) with 8 in *. lia. }
    rewrite !(bool_decide_eq_false_2 (_ = "")), (bool_decide_eq_false_2 (_ ∧ _)) by tauto. cbn [andb]. by rewrite bool_decide_eq_false_2.
  - rewrite (proj2 (Z.ltb_lt _ _)), take_all by lia. destruct (decide (content b = "")) as [->|Hne].
    + rewrite (bool_decide_eq_true_2 ("" = "")) by done. by destruct (ends b); cbn.
    + rewrite !(bool_decide_eq_false_2 (_ = "")), (bool_decide_eq_false_2 (_ ∧ _)) by tauto. by destruct (ends b); cbn.
Qed.

(** Why an upload is refused, if it is, when nothing else goes wrong. *)
Definition refusal (purpose : string) (b : Body) : option media_error :=
  if negb (bool_decide (purpose = "cr_document")) then Some ErrUnknownPurpose
  else if bool_decide (content b = "" ∧ ends b = EOF) then Some ErrEmpty
  else if (len (content b) <? Z.of_nat SniffLen) && bool_decide (ends b = OtherError) then Some ErrRead
  else match Sniff (content b) with
  | Err e => Some e
  | Ok _ => if MaxSize <? len (content b) then Some ErrTooLarge else if broken b then Some ErrStorage else None
  end.

(** What a whole upload is stored as. *)
Definition stored_object (newID : MediaID) (now : time) (by_ : UserID) (file : string) : Object :=
  MkObject newID PurposeCRDocument (match Sniff file with Ok ct => ct | Err _ => PDF end) (len file) (Sum256 file) by_ (Truncate now Microsecond).

Lemma LimitReader_whole b : len (content b) ≤ MaxSize → LimitReader b (MaxSize + 1) = b.
Proof. intros Hl. unfold LimitReader. by rewrite (proj2 (Z.ltb_lt _ _)) by lia. Qed.

Lemma LimitReader_long b : MaxSize < len (content b) → len (content (LimitReader b (MaxSize + 1))) = MaxSize + 1 ∧ broken (LimitReader b (MaxSize + 1)) = false.
Proof. intros Hl. unfold LimitReader. rewrite (proj2 (Z.ltb_ge _ _)) by lia. unfold broken. cbn [content ends]. rewrite len_take, Z2Nat.id by (vm_compute; done). split; [lia|done]. Qed.

Lemma object_checks_ok newID now by_ file ct :
  Sniff file = Ok ct → 1 ≤ len file ≤ MaxSize → object_checks (object_row (stored_object newID now by_ file)) = true.
Proof.
  intros Hs Hl. unfold object_checks, object_row, stored_object.
  cbn [or_Purpose or_ContentType or_SizeBytes or_Sha256 purpose contentType size sha256 Purpose_string]. rewrite len_Sum256, Hs, !andb_true_iff, !Z.leb_le, !bool_decide_eq_true.
  change MaxSize with 10485760 in Hl. split_and!; [set_solver|destruct ct; set_solver|lia..|done].
Qed.

(** The effect of [discard]: at most the new file goes. *)
Lemma discard_spec w f newID :
  objects (discard w f newID) = objects w ∧
  disk (discard w f newID) = if remove_fails f then disk w else delete (path_of (ID_String newID)) (disk w).
Proof. unfold discard, Disk_Remove. rewrite name_ID. by destruct (remove_fails f). Qed.

Definition put (w : World) (newID : MediaID) (file : string) : World := MkWorld (objects w) (<[path_of (ID_String newID) := file]> (disk w)).

(** Every way [Store] goes. *)
Lemma Store_spec w f newID now purpose by_ body :
  objects w !! newID = None →
  match refusal purpose body with
  | Some e =>
      is_ok (Store w f newID now purpose by_ body).1 = false ∧ (file_fails f = false → (Store w f newID now purpose by_ body).1 = Err e) ∧
      ((Store w f newID now purpose by_ body).2 = w ∨ ∃ file, (Store w f newID now purpose by_ body).2 = discard (put w newID file) f newID)
  | None =>
      let file := content body in
      Store w f newID now purpose by_ body =
      if file_fails f then (Err ErrStorage, w)
      else if row_fails f then (Err ErrStorage, discard (put w newID file) f newID)
      else (Ok (stored_object newID now by_ file), MkWorld (<[newID := object_row (stored_object newID now by_ file)]> (objects w)) (disk (put w newID file)))
  end.
Proof.
  intros Hnew. unfold refusal, Store, ParsePurpose. rewrite read_head_spec. case_bool_decide; cbn [negb]; [|split_and!; auto].
  case_bool_decide as He; [split_and!; auto|]. destruct (_ && bool_decide (ends body = OtherError)); [split_and!; auto|]. rewrite Sniff_head.
  destruct (Sniff (content body)) as [ct|e] eqn:Es; [|split_and!; auto].
  unfold Disk_Put. rewrite name_ID. destruct (Z.ltb_spec MaxSize (len (content body))) as [Hl|Hl].
  - destruct (LimitReader_long body Hl) as [El Eb]. rewrite Eb, orb_false_r. destruct (file_fails f); [split_and!; auto; done|].
    rewrite El. rewrite (proj2 (Z.ltb_lt MaxSize (MaxSize + 1))) by lia. split_and!; [done|done|]. right. by eexists.
  - rewrite LimitReader_whole by done. destruct (broken body) eqn:Eb; rewrite ?orb_true_r, ?orb_false_r; [split_and!; auto|]. destruct (file_fails f); [done|].
    rewrite (proj2 (Z.ltb_ge MaxSize _)) by done. assert (Hpos : 1 ≤ len (content body)).
    { by eapply Sniff_some. }
    assert (En : NewObject newID PurposeCRDocument ct (len (content body)) (Sum256 (content body)) by_ now = Ok (stored_object newID now by_ (content body))).
    { unfold NewObject. rewrite (proj2 (Z.leb_gt _ _)), (proj2 (Z.ltb_ge MaxSize _)), len_Sum256 by lia. cbn. unfold stored_object. by rewrite Es. }
    rewrite En. destruct (row_fails f); [done|]. unfold Objects_Add. cbn [objects].
    rewrite (object_checks_ok newID now by_ (content body) ct Es) by lia. cbn [stored_object id]. by rewrite Hnew.
Qed.

(** What [Store] does to the rows. *)
Lemma Store_rows w f newID now purpose by_ body answer w' :
  objects w !! newID = None → Store w f newID now purpose by_ body = (answer, w') →
  match answer with Ok o => objects w' = <[newID := object_row o]> (objects w) ∧ id o = newID | Err _ => objects w' = objects w end.
Proof.
  intros Hnew E. pose proof (Store_spec w f newID now purpose by_ body Hnew) as Hs. rewrite E in Hs. cbn [fst snd] in Hs.
  assert (Hd : ∀ file, objects (discard (put w newID file) f newID) = objects w) by (intros file; by destruct (discard_spec (put w newID file) f newID) as [-> _]).
  destruct (refusal purpose body) as [e|].
  - destruct Hs as (Hno & _ & Hw). destruct answer; [done|]. destruct Hw as [->|[file ->]]; [done|apply Hd].
  - cbn zeta in Hs. destruct (file_fails f); [by injection Hs as -> ->|]. destruct (row_fails f); injection Hs as -> ->; [apply Hd|done].
Qed.

(** ** Over time *)

Definition no_faults : Faults := MkFaults false false false.

(** Uploads and deletions, with whatever fails of them. Stopping between the
    file and its row is a row that fails and a file that stays. *)
Inductive media_step (w : World) : World → Prop :=
| step_store f newID now purpose by_ body : objects w !! newID = None → media_step w (Store w f newID now purpose by_ body).2
| step_delete f oid : media_step w (Delete w f oid).2.

Definition media_reachable : World → Prop := rtc media_step empty_world.

(** What a row says of its file. *)
Record describes (r : ObjectRow) (file : string) : Prop := {
  ds_size : or_SizeBytes r = len file ∧ 1 ≤ len file ≤ MaxSize;
  ds_sha : or_Sha256 r = Sum256 file;
  ds_type : ∃ ct, Sniff (take_bytes SniffLen file) = Ok ct ∧ or_ContentType r = ContentType_string ct }.

Definition media_ok (w : World) : Prop :=
  ∀ oid r, objects w !! oid = Some r →
    or_ID r = oid ∧ object_checks r = true ∧ ∃ file, disk w !! path_of (ID_String oid) = Some file ∧ describes r file.

(** A file without a row comes and goes. *)
Lemma media_ok_unused w d newID :
  media_ok w → objects w !! newID = None → (∀ p, p ≠ path_of (ID_String newID) → d !! p = disk w !! p) → media_ok (MkWorld (objects w) d).
Proof.
  intros Hok Hnew Hd oid r Hr. destruct (Hok oid r Hr) as (Hid & Hc & file & Hf & Hdesc). split_and!; [done..|]. exists file. split; [|done]. cbn.
  rewrite Hd; [done|]. apply path_ne. intros ->. cbn in Hr. congruence.
Qed.

Lemma discard_put_unused w f newID file p : p ≠ path_of (ID_String newID) → disk (discard (put w newID file) f newID) !! p = disk w !! p.
Proof.
  intros Hp. destruct (discard_spec (put w newID file) f newID) as [_ ->]. cbn [put disk].
  destruct (remove_fails f); rewrite ?lookup_delete_ne, lookup_insert_ne by congruence; done.
Qed.

Lemma discard_put_ok w f newID file : media_ok w → objects w !! newID = None → media_ok (discard (put w newID file) f newID).
Proof.
  intros Hok Hnew. pose proof (media_ok_unused w (disk (discard (put w newID file) f newID)) newID Hok Hnew (discard_put_unused w f newID file)) as Hu.
  destruct (discard_spec (put w newID file) f newID) as [Eo _]. destruct (discard _ _ _). cbn in *. by rewrite Eo.
Qed.

Lemma refusal_None purpose body :
  refusal purpose body = None → 1 ≤ len (content body) ≤ MaxSize ∧ broken body = false ∧ purpose = "cr_document" ∧ ∃ ct, Sniff (content body) = Ok ct.
Proof.
  unfold refusal. case_bool_decide; [|done]. case_bool_decide as He; [done|]. destruct (_ && _); [done|]. destruct (Sniff _) as [ct|] eqn:Es; [|done].
  destruct (Z.ltb_spec MaxSize (len (content body))); [done|]. destruct (broken body); [done|]. intros _. split_and!; [by eapply Sniff_some|done..|by eexists].
Qed.

Lemma media_step_ok w w' : media_ok w → media_step w w' → media_ok w'.
Proof.
  intros Hok [f newID now purpose by_ body Hnew|f oid].
  - pose proof (Store_spec w f newID now purpose by_ body Hnew) as Hs. destruct (refusal purpose body) as [e|] eqn:Er.
    + destruct Hs as (_ & _ & [->|[file ->]]); [done|by apply discard_put_ok].
    + cbn zeta in Hs. rewrite Hs. destruct (file_fails f); [done|]. destruct (row_fails f); [by apply discard_put_ok|].
      destruct (refusal_None _ _ Er) as (Hl & _ & _ & ct & Hct). intros oid r. cbn [snd objects]. intros [[<- <-]|[Hne Hr]]%lookup_insert_Some.
      * cbn [snd objects disk put]. split_and!; [done|by eapply object_checks_ok|]. exists (content body). split; [apply lookup_insert_eq|].
        unfold object_row, stored_object. rewrite Hct. split; [split; [done|lia]|done|]. exists ct. by rewrite Sniff_head.
      * destruct (Hok oid r Hr) as (Hid & Hc & file & Hf & Hdesc). split_and!; [done..|]. exists file. split; [|done]. cbn [snd objects disk put].
        rewrite lookup_insert_ne; [done|by apply path_ne].
  - unfold Delete. destruct (row_fails f); [done|]. unfold Disk_Remove. rewrite name_ID. cbn [disk objects].
    assert (Hd : media_ok (MkWorld (delete oid (objects w)) (disk w))) by (intros o r; cbn [objects]; intros [_ Hr]%lookup_delete_Some; by apply Hok).
    destruct (remove_fails f); [done|]. intros o r. cbn [snd objects]. unfold Objects_Delete. intros [Hne Hr]%lookup_delete_Some. destruct (Hok o r Hr) as (Hid & Hc & file & Hf & Hdesc).
    split_and!; [done..|]. exists file. split; [|done]. cbn. rewrite lookup_delete_ne; [done|by apply path_ne].
Qed.

Lemma media_reachable_ok w : media_reachable w → media_ok w.
Proof.
  unfold media_reachable. intros Hr. eapply (rtc_ind_r media_ok empty_world); [by intros ? ? ?| |exact Hr]. intros ? ? _ Hs IH. by eapply media_step_ok.
Qed.

(** A row never points at nothing: in any history of uploads and
    deletions, with the disk, the database and the clients failing anywhere,
    the file of every row opens, whole, of the size, the checksum and the type
    the row says - a type told from its first bytes - and every CHECK holds. *)
Theorem media_rows_have_files w oid r :
  media_reachable w → objects w !! oid = Some r →
  or_ID r = oid ∧ object_checks r = true ∧ ∃ file, Disk_Open (disk w) no_faults (ID_String oid) = Ok file ∧ describes r file.
Proof.
  intros Hr Hrow. destruct (media_reachable_ok w Hr oid r Hrow) as (Hid & Hc & file & Hf & Hd). split_and!; [done..|]. exists file. split; [|done]. unfold Disk_Open. by rewrite name_ID, Hf.
Qed.

(** C31. What an upload is refused for, in order ([refusal]): its purpose; an
    empty body; a read that fails within the first eight bytes, but for a body
    cut short, of which what came goes on; a type told from the first bytes
    that is not accepted; its size - read no further than a byte past the
    limit - or a body that breaks off, cut short or not, which storage cannot
    write. That is the answer, unless the disk or the database fails first.
    Refused or failed, it leaves no row and, when the clean-up works, no file;
    else it is stored whole; and no other file or row changes. *)
Theorem uploads_are_checked w f newID now purpose by_ body answer w' :
  objects w !! newID = None → Store w f newID now purpose by_ body = (answer, w') →
  (answer = match refusal purpose body with Some e => Err e | None => Ok (stored_object newID now by_ (content body)) end ∨
     (file_fails f = true ∨ row_fails f = true) ∧ is_ok answer = false) ∧
  (∀ p, p ≠ path_of (ID_String newID) → disk w' !! p = disk w !! p) ∧
  match answer with
  | Err _ => objects w' = objects w ∧ (disk w !! path_of (ID_String newID) = None → remove_fails f = false → disk w' = disk w)
  | Ok o =>
      refusal purpose body = None ∧ objects w' = <[newID := object_row o]> (objects w) ∧
      Disk_Open (disk w') no_faults (ID_String newID) = Ok (content body)
  end.
Proof.
  intros Hnew E. pose proof (Store_spec w f newID now purpose by_ body Hnew) as Hs. rewrite E in Hs. cbn [fst snd] in Hs.
  assert (Hdisc : ∀ file, objects (discard (put w newID file) f newID) = objects w ∧
    (disk w !! path_of (ID_String newID) = None → remove_fails f = false → disk (discard (put w newID file) f newID) = disk w)).
  { intros file. destruct (discard_spec (put w newID file) f newID) as [-> ->]. split; [done|]. intros Hp ->. cbn. by rewrite delete_insert_id. }
  destruct (refusal purpose body) as [e|] eqn:Er.
  - destruct Hs as (Hno & He & Hw). destruct answer as [|e']; [done|]. split_and!.
    + destruct (file_fails f); [right; auto|left; by apply He].
    + intros p Hp. destruct Hw as [->|[file ->]]; [done|by apply discard_put_unused].
    + destruct Hw as [->|[file ->]]; [done|apply Hdisc].
    + destruct Hw as [->|[file ->]]; [done|apply Hdisc].
  - cbn zeta in Hs. destruct (file_fails f) eqn:Ef; [injection Hs as -> ->; split_and!; auto|]. destruct (row_fails f) eqn:Ew; injection Hs as -> ->.
    + split_and!; [right; auto|by apply discard_put_unused|apply Hdisc..].
    + split_and!; [by left| |done|done|].
      * intros p Hp. cbn. by rewrite lookup_insert_ne.
      * unfold Disk_Open. rewrite name_ID. cbn. by rewrite lookup_insert_eq.
Qed.

(** ** Links *)

Lemma Objects_ByID_row w oid r :
  media_ok w → objects w !! oid = Some r → ∃ o, Objects_ByID (objects w) oid = Ok o ∧ id o = oid ∧ size o = or_SizeBytes r ∧ sha256 o = or_Sha256 r.
Proof.
  intros Hok Hr. unfold Objects_ByID. rewrite Hr. destruct (Hok oid r Hr) as (_ & Hc & _ & _ & [_ _ [ct [_ Ect]]]). unfold object_checks in Hc. bool_prop.
  assert (Ep : or_Purpose r = "cr_document") by set_solver. rewrite Ep, Ect, ParseContentType_string. cbn [ParsePurpose res_bind]. by eexists.
Qed.

Lemma expiry t : let e := Truncate (GoTime.Add t LinkTTL) Second in t + LinkTTL - Second < e ≤ t + LinkTTL ∧ ∀ now, Unix now ≤ Unix e ↔ now < e + Second.
Proof.
  cbn zeta. unfold GoTime.Add. set (x := t + LinkTTL). rewrite Truncate_epoch by done. pose proof (Z.mod_pos_bound x Second eq_refl).
  split; [lia|]. intros now. unfold Unix. assert (E : x - x mod Second = x / Second * Second) by (pose proof (Z.div_mod x Second); lia).
  rewrite E, Z.div_mul by done. pose proof (Z.div_mod now Second ltac:(done)). pose proof (Z.mod_pos_bound now Second eq_refl).
  change Second with 1000000000 in *. lia.
Qed.

(** C30. A link opens the file it was made for, from when it was made until the
    second it names is over - five minutes, to the second - if the file is
    still there: its row, and all its bytes. Nothing opens without the
    server's MAC of what is asked for, in time; and what is signed determines
    the file and the expiry, so that MAC is of no other link. *)
Theorem links_open_their_files key w t oid :
  media_reachable w →
  let link := (DownloadPath key t oid).1 in let expires := (DownloadPath key t oid).2 in
  t + LinkTTL - Second < expires ≤ t + LinkTTL ∧
  (∃ sig, link = "/v1/media/" +:+ ID_String oid +:+ "?expires=" +:+ itoa (Unix expires) +:+ "&signature=" +:+ sig ∧
     ∀ now, match Open key w no_faults now oid (Unix expires) sig with
            | Err e => (e = ErrLinkInvalid ∧ expires + Second ≤ now) ∨ (e = ErrNotFound ∧ now < expires + Second ∧ objects w !! oid = None)
            | Ok (o, file) => now < expires + Second ∧ ∃ r, objects w !! oid = Some r ∧ describes r file ∧ id o = oid ∧ size o = len file
            end) ∧
  ∀ f now oid' expires' sig' x, Open key w f now oid' expires' sig' = Ok x →
    Unix now ≤ expires' ∧ DecodeString sig' = Some (bytes (HMAC_Sum256 key (signed_text oid' expires'))) ∧
    (signed_text oid' expires' = signed_text oid (Unix expires) → oid' = oid ∧ expires' = Unix expires).
Proof.
  intros Hr. cbn zeta. unfold DownloadPath. cbn [fst snd]. destruct (expiry t) as [Hexp Hin]. set (expires := Truncate _ _) in *. split; [done|]. split.
  - exists (Sign key oid (Unix expires)). split; [done|]. intros now. unfold Open. rewrite Verify_Sign, orb_false_r. specialize (Hin now).
    destruct (Z.ltb_spec (Unix expires) (Unix now)); cbn [negb]; [left; split; [done|lia]|]. cbn [no_faults row_fails].
    destruct (objects w !! oid) as [r|] eqn:Erow.
    + assert (Hok : media_ok w) by by apply media_reachable_ok. destruct (Objects_ByID_row w oid r Hok Erow) as (o & -> & Hid & Hsz & _).
      destruct (Hok oid r Erow) as (_ & _ & file & Hf & Hd). cbn [res_bind]. unfold Disk_Open. rewrite name_ID, Hf. cbn. split; [lia|].
      exists r. split_and!; [done..|]. rewrite Hsz. apply (ds_size _ _ Hd).
    + unfold Objects_ByID. rewrite Erow. cbn. right. split_and!; [done|lia|done].
  - intros f now oid' expires' sig' x. unfold Open. destruct (Z.ltb_spec expires' (Unix now)); [done|]. cbn [orb]. rewrite negb_involutive.
    unfold Verify. destruct (DecodeString sig') as [got|]; [|done]. case_bool_decide as Hg; [|done]. intros _. subst got. split_and!; [done|done|]. apply signed_text_inj.
Qed.
End flow.

(** ** An example: a certificate uploaded, and its link *)

Module MediaDemo.
(** UUIDs written in decimal, to try things out. *)
#[export] Existing Instance decimal_ids.
Definition certificate : Body := MkBody "%PDF-1.7 certificate" EOF.
Definition w1 : World := (Store empty_world no_faults (MkID 7) (1000 * Second) "cr_document" (MkID 5) certificate).2.
Lemma w1_reachable : media_reachable w1.
Proof. apply rtc_once. by apply (step_store empty_world no_faults (MkID 7) (1000 * Second) "cr_document" (MkID 5) certificate). Qed.
End MediaDemo.
Import MediaDemo.

Lemma media_rows_have_files_witness :
  ∃ r file, objects w1 !! MkID 7 = Some r ∧ Disk_Open (disk w1) no_faults (ID_String (MkID 7 : MediaID)) = Ok file ∧ describes r file ∧ or_SizeBytes r = 20.
Proof.
  assert (E : ∃ r, objects w1 !! MkID 7 = Some r ∧ or_SizeBytes r = 20) by (eexists; vm_compute; split; reflexivity). destruct E as (r & Hr & Hs).
  destruct (media_rows_have_files w1 (MkID 7) r w1_reachable Hr) as (_ & _ & file & Hf & Hd). exists r, file. split; [exact Hr|split; [exact Hf|split; [exact Hd|exact Hs]]].
Defined.

(** Bodies cut short are sniffed with what came of them; other failures are not. *)
Example bodies_broken_off :
  let answer s e := (Store w1 no_faults (MkID 8) (2000 * Second) "cr_document" (MkID 5) (MkBody s e)).1 in
  answer "" EOF = Err ErrEmpty ∧ answer "" ErrUnexpectedEOF = Err ErrUnsupportedType ∧ answer "%PDF" ErrUnexpectedEOF = Err ErrUnsupportedType ∧
  answer "%PDF-" ErrUnexpectedEOF = Err ErrStorage ∧ answer "%PDF-" OtherError = Err ErrRead ∧ is_ok (answer "%PDF-" EOF) = true ∧
  answer "%PDF-1.7 certificate" OtherError = Err ErrStorage.
Proof. vm_compute. by split_and!. Qed.

Lemma uploads_are_checked_witness :
  ∃ w', Store w1 no_faults (MkID 8) (2000 * Second) "cr_document" (MkID 5) (MkBody "<html>not a certificate" EOF) = (Err ErrUnsupportedType, w') ∧
    objects w' = objects w1 ∧ disk w' = disk w1.
Proof.
  assert (Hnew : objects w1 !! MkID 8 = None) by (vm_compute; reflexivity).
  destruct (Store w1 no_faults (MkID 8) (2000 * Second) "cr_document" (MkID 5) (MkBody "<html>not a certificate" EOF)) as [answer w'] eqn:E.
  destruct (uploads_are_checked w1 no_faults (MkID 8) (2000 * Second) "cr_document" (MkID 5) _ answer w' Hnew E) as (Ha & _ & Hs).
  assert (Ea : answer = Err ErrUnsupportedType) by (destruct Ha as [Ha|[[Hf|Hf] _]]; [vm_compute in Ha; exact Ha|discriminate Hf|discriminate Hf]).
  subst answer. destruct Hs as [Ho Hd]. exists w'. split; [reflexivity|]. split; [exact Ho|]. apply Hd; [vm_compute; reflexivity|reflexivity].
Defined.

Lemma links_open_their_files_witness :
  let key := "0123456789abcdef0123456789abcdef"%string in
  ∃ sig, (DownloadPath key (3000 * Second) (MkID 7)).1 = ("/v1/media/7?expires=3300&signature=" +:+ sig)%string ∧
    ∃ o, Open key w1 no_faults (3200 * Second) (MkID 7) 3300 sig = Ok (o, content certificate) ∧ size o = 20.
Proof.
  cbn zeta. set (key := "0123456789abcdef0123456789abcdef"%string).
  destruct (links_open_their_files key w1 (3000 * Second) (MkID 7) w1_reachable) as (_ & (sig & Hlink & Hopen) & _).
  assert (Ee : Unix (DownloadPath key (3000 * Second) (MkID 7)).2 = 3300) by (vm_compute; reflexivity). rewrite Ee in Hlink, Hopen. exists sig.
  split; [rewrite Hlink; vm_compute; reflexivity|]. specialize (Hopen (3200 * Second)).
  destruct (Open key w1 no_faults (3200 * Second) (MkID 7) 3300 sig) as [[o file]|e] eqn:E.
  - destruct Hopen as (_ & r & Hr & Hd & _ & Hsz). assert (Er : or_SizeBytes r = 20) by (vm_compute in Hr; injection Hr as <-; reflexivity).
    destruct (ds_size _ _ Hd) as [Hlen _]. exists o. split; [|rewrite Hsz, <- Hlen; exact Er].
    unfold Open in E. apply res_bind_ok in E as (? & _ & E). apply res_bind_ok in E as (o' & _ & E). apply res_bind_ok in E as (file' & Hf & E).
    apply (inj Ok) in E. apply (f_equal snd) in E. cbn [snd] in E. assert (Ef : Disk_Open (disk w1) no_faults (ID_String (MkID 7 : MediaID)) = Ok (content certificate)) by (vm_compute; reflexivity). rewrite Ef in Hf. apply (inj Ok) in Hf. rewrite <- E, <- Hf. reflexivity.
  - exfalso. destruct Hopen as [[_ Hl]|(_ & _ & Hn)]; [vm_compute in Hl; by destruct Hl|vm_compute in Hn; discriminate Hn].
Defined.
