(* ===== verification/MediaHttp.v ===== *)
(** * Downloads over HTTP (src/internal/media/adapters/httpapi/handlers.go)

    A signed link answered with its file - always an attachment of unknown
    type, so that no browser renders it - or the problem. *)
From S2P Require Import Prelude GoTime GoText GoCrypto GoEncoding Shared Tables Media Http.
Open Scope Z_scope.

Record DownloadMediaParams := MkDownloadParams { dp_Expires : Z; dp_Signature : string }.
Record DownloadMedia200ResponseHeaders := MkDownloadHeaders {
  dh_CacheControl : option string; dh_ContentDisposition : option string; dh_XContentTypeOptions : option string }.
Record Download := MkDownload { dl_Body : string; dl_Headers : DownloadMedia200ResponseHeaders; dl_ContentLength : Z }.

Definition extension (ct : ContentType) : string := match ct with PDF => ".pdf" | JPEG => ".jpg" | PNG => ".png" end.

Definition problem (ctx : Ctx) (err : media_error) : Problem :=
  match err with
  | ErrLinkInvalid => APIProblem ctx 403 "download_link_invalid" "the link is invalid or expired; ask for a new one"
  | ErrNotFound => APIProblem ctx 404 "not_found" ""
  | _ => APIProblem ctx 500 "internal" ""
  end.

Section Handlers.
Context `{UuidLib}.

Definition disposition (id : MediaID) (ct : ContentType) : string :=
  let quote := str1 (byte_chr 34) in
  "attachment; filename=" +:+ quote +:+ ID_String id +:+ extension ct +:+ quote.

Definition DownloadMedia (ctx : Ctx) (key : string) (w : World) (f : Faults) (now : time) (media : UUID) (params : DownloadMediaParams) : Response Download :=
  let id := IDFromUUID media in
  match Open key w f now id (dp_Expires params) (dp_Signature params) with
  | Err e => Refusal (problem ctx e) no_headers
  | Ok (obj, body) =>
      Answer 200 (MkDownload body
        (MkDownloadHeaders (Some "private, no-store") (Some (disposition id (contentType obj))) (Some "nosniff")) (size obj))
  end.
End Handlers.
