(* ===== verification/Billing.v ===== *)
(** * The billing module (src/internal/billing)

    Plans, and the trial a business gets when it is approved. *)
From S2P Require Import Prelude GoTime GoText Shared Tables.
Open Scope Z_scope.

(** ** Plans (domain/plan.go) *)

Inductive bill_error := ErrUnknownPlan | ErrNotFound | ErrStorage.

#[export] Instance bill_error_eq_dec : EqDecision bill_error.
Proof. solve_decision. Defined.

Definition PlanCode : Type := string.
Definition PlanFree : PlanCode := "free".
Definition PlanPro : PlanCode := "pro".

Record Plan := MkPlan { pl_Code : PlanCode; pl_Name : LocalizedText; pl_MaxBranches : Z; pl_MaxStaff : Z }.

Definition TrialPlan : PlanCode := PlanPro.
Definition TrialLength : Duration := 30 * 24 * Hour.

(** A text [mustText] panics on would be [None]. *)
Definition mustText (a e : string) : option LocalizedText := match NewLocalizedText a e with Ok t => Some t | Err _ => None end.
Definition no_text : LocalizedText := MkLocalized "" "".

Definition plans : gmap PlanCode Plan :=
  {[ PlanFree := MkPlan PlanFree (default no_text (mustText "المجانية" "Free")) 1 3;
     PlanPro := MkPlan PlanPro (default no_text (mustText "الاحترافية" "Pro")) 5 30 ]}.

Definition zero_plan : Plan := MkPlan "" no_text 0 0.

Definition PlanByCode (code : PlanCode) : res bill_error Plan :=
  match plans !! code with None => Err ErrUnknownPlan | Some p => Ok p end.

(** [p, _ := PlanByCode(code)]. *)
Definition plan_or_zero (code : PlanCode) : Plan := match PlanByCode code with Ok p => p | Err _ => zero_plan end.

(** ** Subscriptions (domain/subscription.go) *)

Definition Status : Type := string.
Definition StatusSetup : Status := "setup".
Definition StatusTrialing : Status := "trialing".
Definition StatusFree : Status := "free".

Record Standing := MkStanding { st_Plan : Plan; st_Status : Status; st_TrialEndsAt : option time }.

Definition SetupStanding : Standing := MkStanding (plan_or_zero TrialPlan) StatusSetup None.

Record Subscription := MkSubscription { su_business : BusinessID; su_plan : PlanCode; su_periodEnd : time; su_createdAt : time }.

Definition StartTrial_sub (business : BusinessID) (approvedAt : time) : Subscription :=
  let at_ := Truncate approvedAt Microsecond in MkSubscription business TrialPlan (GoTime.Add at_ TrialLength) at_.

Definition RehydrateSubscription (business : BusinessID) (plan : PlanCode) (periodEnd createdAt : time) : Subscription :=
  MkSubscription business plan periodEnd createdAt.

Definition StandingAt (s : Subscription) (now : time) : Standing :=
  let end_ := su_periodEnd s in
  if Before now end_ then MkStanding (plan_or_zero (su_plan s)) StatusTrialing (Some end_)
  else MkStanding (plan_or_zero PlanFree) StatusFree (Some end_).

(** ** The table (adapters/postgres; migration 00011) *)

Record SubscriptionRow := MkSubRow { sb_BusinessID : BusinessID; sb_PlanCode : string; sb_Status : string; sb_CurrentPeriodEnd : time; sb_CreatedAt : time }.

Notation BillDB := (gmap BusinessID SubscriptionRow).

Definition subscription_checks (r : SubscriptionRow) : bool :=
  bool_decide (sb_PlanCode r ∈ ["free"; "pro"]) && bool_decide (sb_Status r ∈ ["trialing"]) && (sb_CreatedAt r <? sb_CurrentPeriodEnd r).

Definition InsertSubscriptionIfAbsent (db : BillDB) (row : SubscriptionRow) : res bill_error (bool * BillDB) :=
  check! subscription_checks row else ErrStorage in
  match db !! sb_BusinessID row with
  | Some _ => Ok (false, db)
  | None => Ok (true, <[sb_BusinessID row := row]> db)
  end.

Definition AddIfAbsent (db : BillDB) (s : Subscription) : res bill_error (bool * BillDB) :=
  InsertSubscriptionIfAbsent db
    (MkSubRow (su_business s) (su_plan s) "trialing" (stored_time (su_periodEnd s)) (stored_time (su_createdAt s))).

Definition ForBusiness (db : BillDB) (business : BusinessID) : res bill_error Subscription :=
  match db !! business with
  | None => Err ErrNotFound
  | Some row => Ok (RehydrateSubscription (sb_BusinessID row) (sb_PlanCode row) (sb_CurrentPeriodEnd row) (sb_CreatedAt row))
  end.

(** ** Use cases (app/app.go, module.go) *)

Definition StartTrial (db : BillDB) (business : BusinessID) (approvedAt : time) : res bill_error BillDB :=
  let! r := AddIfAbsent db (StartTrial_sub business approvedAt) in Ok r.2.

Definition Standing_handler (db : BillDB) (now : time) (business : BusinessID) : res bill_error Standing :=
  match ForBusiness db business with
  | Err ErrNotFound => Ok SetupStanding
  | Err e => Err e
  | Ok s => Ok (StandingAt s now)
  end.

(** What other modules see. *)
Record PublicStanding := MkPublic {
  pu_Plan : string; pu_PlanName : LocalizedText; pu_Status : string; pu_TrialEndsAt : option time; pu_MaxBranches : Z; pu_MaxStaff : Z }.

Definition Module_Standing (db : BillDB) (now : time) (business : BusinessID) : res bill_error PublicStanding :=
  let! s := Standing_handler db now business in
  Ok (MkPublic (pl_Code (st_Plan s)) (pl_Name (st_Plan s)) (st_Status s) (st_TrialEndsAt s) (pl_MaxBranches (st_Plan s)) (pl_MaxStaff (st_Plan s))).

(** ** Trials *)

(** Approvals as they are delivered, some again. *)
Definition approve_all (db : BillDB) (approvals : list (BusinessID * time)) : res bill_error BillDB :=
  foldl (λ r a, let! db := r in StartTrial db a.1 a.2) (Ok db) approvals.

Definition trial_row (business : BusinessID) (at_ : time) : SubscriptionRow :=
  MkSubRow business PlanPro "trialing" (stored_time at_ + TrialLength) (stored_time at_).

Lemma StartTrial_row db business at_ :
  StartTrial db business at_ = Ok (match db !! business with Some _ => db | None => <[business := trial_row business at_]> db end).
Proof.
  unfold StartTrial, AddIfAbsent, InsertSubscriptionIfAbsent, StartTrial_sub. cbn [su_business su_plan su_periodEnd su_createdAt sb_BusinessID].
  fold (stored_time at_). rewrite stored_time_idem. unfold GoTime.Add.
  assert (E : stored_time (stored_time at_ + TrialLength) = stored_time at_ + TrialLength).
  { change TrialLength with (43200 * Minute). by rewrite stored_minutes, stored_time_idem. }
  rewrite E. fold (trial_row business at_). unfold subscription_checks, trial_row. cbn [sb_PlanCode sb_Status sb_CreatedAt sb_CurrentPeriodEnd].
  rewrite !bool_decide_eq_true_2 by (unfold PlanPro; set_solver). rewrite (proj2 (Z.ltb_lt _ _)) by (change TrialLength with 2592000000000000; lia).
  cbn [andb ensure res_bind]. unfold TrialPlan. by destruct (db !! business).
Qed.

(** The first approval of a business is the one that counts. *)
Lemma approve_all_row db approvals :
  ∃ db', approve_all db approvals = Ok db' ∧
    ∀ b, db' !! b = match db !! b with
                    | Some row => Some row
                    | None => (λ a, trial_row b a.2) <$> find_first (λ a, bool_decide (a.1 = b)) approvals
                    end.
Proof.
  revert db. induction approvals as [|[b0 at0] approvals IH]; intros db; [exists db; split; [done|]; intros b; by destruct (db !! b)|].
  unfold approve_all. cbn [foldl res_bind fst snd]. rewrite StartTrial_row. destruct (IH (match db !! b0 with Some _ => db | None => <[b0 := trial_row b0 at0]> db end)) as (db' & E & Hrows).
  exists db'. split; [exact E|]. intros b. rewrite Hrows. cbn [find_first fst]. destruct (decide (b0 = b)) as [->|Hne].
  - rewrite bool_decide_eq_true_2 by done. destruct (db !! b) as [row|] eqn:Er; [by rewrite Er|]. by rewrite lookup_insert_eq.
  - rewrite bool_decide_eq_false_2 by done. destruct (db !! b0); [done|]. by rewrite lookup_insert_ne.
Qed.

(** Every business has its trial once, from its approval. Approvals arrive in
    any order and repeated, with each business's own time of approval; none
    is refused, and a business is then on the top plan until thirty days
    after it was approved, to the microsecond, and on the free plan from
    that instant on, however often its approval arrives again. One not
    approved sets up under the top plan's limits. *)
Theorem trial_standing approvals now business :
  (∀ b at1 at2, (b, at1) ∈ approvals → (b, at2) ∈ approvals → at1 = at2) →
  ∃ db, approve_all ∅ approvals = Ok db ∧
    match find_first (λ a, bool_decide (a.1 = business)) approvals with
    | None => (∀ at_, (business, at_) ∉ approvals) ∧
        Module_Standing db now business = Ok (MkPublic "pro" (MkLocalized "الاحترافية" "Pro") "setup" None 5 30)
    | Some a => a = (business, a.2) ∧
        let ends := stored_time a.2 + 30 * 24 * Hour in
        Module_Standing db now business =
          Ok (if now <? ends then MkPublic "pro" (MkLocalized "الاحترافية" "Pro") "trialing" (Some ends) 5 30
              else MkPublic "free" (MkLocalized "المجانية" "Free") "free" (Some ends) 1 3) ∧
        ∀ again, (∀ a', a' ∈ again → a' ∈ approvals) →
          ∃ db', approve_all ∅ (again ++ approvals) = Ok db' ∧ Module_Standing db' now business = Module_Standing db now business
    end.
Proof.
  intros Hone. destruct (approve_all_row ∅ approvals) as (db & E & Hrows). exists db. split; [done|].
  assert (Hnone : ∀ l, find_first (λ a : BusinessID * time, bool_decide (a.1 = business)) l = None → ∀ at_, (business, at_) ∉ l).
  { intros l Hf at_ Hin. rewrite find_first_none in Hf. apply Hf in Hin. cbn in Hin. by bool_prop. }
  assert (Hst : ∀ db', Module_Standing db' now business = let! s := Standing_handler db' now business in
     Ok (MkPublic (pl_Code (st_Plan s)) (pl_Name (st_Plan s)) (st_Status s) (st_TrialEndsAt s) (pl_MaxBranches (st_Plan s)) (pl_MaxStaff (st_Plan s)))) by done.
  destruct (find_first _ approvals) as [[b at_]|] eqn:Ef.
  - apply find_first_some in Ef as Hin. destruct Hin as [Hin Hb]. cbn in Hb. bool_prop. subst b. split; [done|]. cbn [snd]. split.
    + rewrite Hst. unfold Standing_handler, ForBusiness. rewrite Hrows, lookup_empty, Ef. cbn [fmap option_fmap option_map snd trial_row].
      cbn [sb_BusinessID sb_PlanCode sb_CurrentPeriodEnd sb_CreatedAt]. unfold StandingAt, RehydrateSubscription, Before. cbn [su_periodEnd su_plan].
      change (30 * 24 * Hour) with TrialLength. by destruct (now <? _).
    + intros again Hagain. destruct (approve_all_row ∅ (again ++ approvals)) as (db' & E' & Hrows'). exists db'. split; [done|].
      rewrite !Hst. unfold Standing_handler, ForBusiness. rewrite Hrows, Hrows', !lookup_empty, Ef.
      destruct (find_first _ (again ++ approvals)) as [[b2 at2]|] eqn:Ef2.
      * apply find_first_some in Ef2 as [Hin2 Hb2]. cbn in Hb2. bool_prop. subst b2.
        assert (at2 = at_) as ->; [|done]. apply (Hone business); [|done]. apply elem_of_app in Hin2 as [?|?]; [by apply Hagain|done].
      * exfalso. apply (Hnone _ Ef2 at_). apply elem_of_app. by right.
  - split; [by apply Hnone|]. rewrite Hst. unfold Standing_handler, ForBusiness. by rewrite Hrows, lookup_empty, Ef.
Qed.

Lemma trial_standing_witness :
  ∃ db, approve_all ∅ [(MkID 1, 1500); (MkID 2, 0); (MkID 1, 1500)] = Ok db ∧
    Module_Standing db (1000 + 30 * 24 * Hour) (MkID 1) = Ok (MkPublic "free" (MkLocalized "المجانية" "Free") "free" (Some (1000 + 30 * 24 * Hour)) 1 3).
Proof.
  destruct (trial_standing [(MkID 1, 1500); (MkID 2, 0); (MkID 1, 1500)] (1000 + 30 * 24 * Hour) (MkID 1)) as (db & E & _ & Hst & _).
  - intros b at1 at2 H1 H2. set_solver.
  - exists db. split; [exact E|]. cbn [find_first] in Hst. rewrite Hst. vm_compute. reflexivity.
Defined.
