(* ===== verification/Edge.v ===== *)
(** * The way of a request (src/internal/platform/httpx)

    From net/http to a module's handler and back: the request ID, the access
    log, panics, who is asking, the specification's checks, and the caps and
    deadlines of bodies. A handler is a function from a request and the
    connection to how it ended; a middleware is a function between handlers.

    The specification and its validator, chi's routing and the generated code
    that decodes a request are arguments. *)
From S2P Require Import Prelude GoTime GoText GoCrypto GoEncoding Shared Tables Http Media MediaFlow.
Open Scope Z_scope.

(** ** Package mime *)

Definition isTSpecial (b : Z) : bool := bool_decide (b ∈ bytes "()<>@,;:\/[]?=" ++ [34]).
Definition isTokenChar (b : Z) : bool := (32 <? b) && (b <? 127) && negb (isTSpecial b).

Definition TrimLeft (s : string) : string := concat_strings (drop_while (λ c, IsSpace c.1) (chunks s)).*2.

Fixpoint consumeToken (v : string) : string * string :=
  match v with
  | EmptyString => ("", "")
  | String a v' => if isTokenChar (byte_of a) then let '(t, rest) := consumeToken v' in (String a t, rest) else ("", v)
  end.

(** What follows an opening quote: the text, and what follows the closing one. *)
Fixpoint quoted (v : string) : option (string * string) :=
  match v with
  | EmptyString => None
  | String a v' =>
      let literal := match quoted v' with Some (t, rest) => Some (String a t, rest) | None => None end in
      if byte_of a =? 34 then Some ("", v')
      else if byte_of a =? 92 then
        match v' with
        | String b v'' => if isTSpecial (byte_of b) then match quoted v'' with Some (t, rest) => Some (String b t, rest) | None => None end else literal
        | EmptyString => literal
        end
      else if (byte_of a =? 13) || (byte_of a =? 10) then None
      else literal
  end.

Definition consumeValue (v : string) : string * string :=
  match v with
  | EmptyString => ("", "")
  | String a v' => if byte_of a =? 34 then default ("", v) (quoted v') else consumeToken v
  end.

(** [("", _, v)] is no parameter. *)
Definition consumeMediaParam (v : string) : string * string * string :=
  match CutPrefix (TrimLeft v) ";" with
  | None => ("", "", v)
  | Some rest =>
      let '(param, rest) := consumeToken (TrimLeft rest) in
      let param := ToLower param in
      if bool_decide (param = "") then ("", "", v)
      else match CutPrefix (TrimLeft rest) "=" with
      | None => ("", "", v)
      | Some rest =>
          let rest := TrimLeft rest in
          let '(value, rest2) := consumeValue rest in
          if bool_decide (value = "") && bool_decide (rest2 = rest) then ("", "", v) else (param, value, rest2)
      end
  end.

Definition media_type_ok (s : string) : bool :=
  let '(typ, rest) := consumeToken s in
  if bool_decide (typ = "") then false
  else if bool_decide (rest = "") then true
  else match CutPrefix rest "/" with
  | None => false
  | Some rest => let '(subtype, rest) := consumeToken rest in negb (bool_decide (subtype = "")) && bool_decide (rest = "")
  end.

(** Whether a parameter is given twice with two values. A parameter is at
    least a byte, so the length of the text is fuel enough. *)
Fixpoint duplicate_param (fuel : nat) (seen : gmap string string) (v : string) : bool :=
  match fuel with
  | O => false
  | S fuel =>
      let v := TrimLeft v in
      if bool_decide (v = "") then false
      else
        let '(key, value, rest) := consumeMediaParam v in
        if bool_decide (key = "") then false
        else if match seen !! key with Some old => negb (bool_decide (old = value)) | None => false end then true
        else duplicate_param fuel (<[key := value]> seen) rest
  end.

(** [strings.ToLower], where the answer can be ASCII: two letters outside it
    have a lower case inside. *)
Definition lower_chunk (c : Z * string) : string := if c.1 =? 304 then "i" else if c.1 =? 8490 then "k" else ToLower c.2.

(** The media type of [mime.ParseMediaType]: empty for what is not one. *)
Definition ParseMediaType (v : string) : string :=
  let base := match Cut v ";" with Some (before, _) => before | None => v end in
  let mediatype := TrimSpace (concat_strings (lower_chunk <$> chunks base)) in
  if negb (media_type_ok mediatype) then ""
  else if duplicate_param (S (String.length v)) ∅ (drop_bytes (String.length base) v) then ""
  else mediatype.

Example media_types :
  ParseMediaType "Application/Octet-Stream ; a=1; b=x" = "application/octet-stream" ∧ ParseMediaType "application/json" = "application/json" ∧
  ParseMediaType "application/" = "" ∧ ParseMediaType "" = "" ∧ ParseMediaType "text/plain; a=1; a=1" = "text/plain" ∧ ParseMediaType "text/plain; a=1; A=2" = "".
Proof. vm_compute. by split_and!. Qed.

(** ** Package net/http *)

(** [UnexpectedEOF]: the connection ended before the body did; [ClientGone] is
    any other failure of it. *)
Inductive read_error := MaxBytesError | UnexpectedEOF | ClientGone.

(** A body: its bytes, and the error that ends it, if it is not their end. *)
Record Reader := MkReader { rd_bytes : string; rd_error : option read_error }.

Definition NoBody : Reader := MkReader "" None.
Definition MaxBytesReader (r : Reader) (n : Z) : Reader :=
  if len (rd_bytes r) <=? n then r else MkReader (take_bytes (Z.to_nat n) (rd_bytes r)) (Some MaxBytesError).

(** A body as the media module reads it. *)
Definition stream (r : Reader) : Body :=
  MkBody (rd_bytes r) (match rd_error r with None => EOF | Some UnexpectedEOF => ErrUnexpectedEOF | Some (MaxBytesError | ClientGone) => OtherError end).

(** [http.ErrAbortHandler], or any other value. *)
Inductive panic := ErrAbortHandler | PanicValue (message : string).

(** An upload's body on its way around the validator. *)
Record upload := MkUpload { up_body : Reader; up_typeOK : bool }.

Record Request := MkRequest {
  rq_Method : string; rq_URL : string; rq_Authorization : string; rq_ContentType : string; rq_Body : Reader; rq_Context : Ctx; rq_upload : option upload }.

Definition with_context (r : Request) (ctx : Ctx) : Request :=
  MkRequest (rq_Method r) (rq_URL r) (rq_Authorization r) (rq_ContentType r) (rq_Body r) ctx (rq_upload r).
Definition with_body (r : Request) (b : Reader) : Request :=
  MkRequest (rq_Method r) (rq_URL r) (rq_Authorization r) (rq_ContentType r) b (rq_Context r) (rq_upload r).
Definition with_upload (r : Request) (u : upload) : Request :=
  MkRequest (rq_Method r) (rq_URL r) (rq_Authorization r) (rq_ContentType r) (rq_Body r) (rq_Context r) (Some u).

(** [httpx.Problem]. *)
Record edge_problem := MkEdgeProblem { ep_Type : string; ep_Title : string; ep_Status : Z; ep_Code : string; ep_Detail : string; ep_RequestID : string }.

Record healthStatus := MkHealth { hs_Status : string; hs_Checks : list (string * string) }.

(** What is written to a response. *)
Inductive part := ProblemJSON (p : edge_problem) | HealthJSON (h : healthStatus) | Bytes (s : string).

(** The lines of the log, less sizes, durations and stacks. *)
Inductive line :=
| HTTPRequest (error : bool) (method path : string) (status : Z) (request_id : string)
| PanicRecovered (request_id : string)
| ResponseCutShort | HandlerFailed | NotReady.

(** The connection: the headers so far, the status line once it is out with
    the headers it went with, what followed it, and the deadlines; next to
    them the log and the application's own state. *)
Record Conn (A : Type) := MkConn {
  headers : gmap string string; sent : option (Z * gmap string string); written : list part;
  read_deadline : option time; write_deadline : option time; log : list line; app : A }.
Arguments MkConn {A} _ _ _ _ _ _ _.
Arguments headers {A} _. Arguments sent {A} _. Arguments written {A} _.
Arguments read_deadline {A} _. Arguments write_deadline {A} _. Arguments log {A} _. Arguments app {A} _.

Section conn.
Context {A : Type}.
Implicit Types c : Conn A.

Definition Header_Set (k v : string) c : Conn A :=
  MkConn (<[k := v]> (headers c)) (sent c) (written c) (read_deadline c) (write_deadline c) (log c) (app c).
(** A second status line is not sent. *)
Definition WriteHeader (status : Z) c : Conn A :=
  match sent c with
  | Some _ => c
  | None => MkConn (headers c) (Some (status, headers c)) (written c) (read_deadline c) (write_deadline c) (log c) (app c)
  end.
Definition Write (p : part) c : Conn A :=
  let c := WriteHeader 200 c in
  MkConn (headers c) (sent c) (written c ++ [p]) (read_deadline c) (write_deadline c) (log c) (app c).
Definition Log (l : line) c : Conn A := MkConn (headers c) (sent c) (written c) (read_deadline c) (write_deadline c) (log c ++ [l]) (app c).
Definition SetReadDeadline (t : time) c : Conn A := MkConn (headers c) (sent c) (written c) (Some t) (write_deadline c) (log c) (app c).
Definition SetWriteDeadline (t : time) c : Conn A := MkConn (headers c) (sent c) (written c) (read_deadline c) (Some t) (log c) (app c).

(** [responseStarted], of the writer [AccessLog] wraps every response in. *)
Definition responseStarted c : bool := present (sent c).

(** ** Problems (problem.go) *)

Definition problem_of (status : Z) (code detail : string) : edge_problem := MkEdgeProblem "" "" status code detail "".

Definition writeJSON (status : Z) (contentType : string) (v : part) c : Conn A :=
  Write v (WriteHeader status (Header_Set "X-Content-Type-Options" "nosniff" (Header_Set "Content-Type" contentType c))).
Definition WriteJSON (status : Z) (v : part) c : Conn A := writeJSON status "application/json" v c.

Definition stamped (r : Request) (p : edge_problem) : edge_problem :=
  MkEdgeProblem (if bool_decide (ep_Type p = "") then "about:blank" else ep_Type p)
    (if bool_decide (ep_Title p = "") then StatusText (ep_Status p) else ep_Title p)
    (ep_Status p) (ep_Code p) (ep_Detail p) (RequestIDFrom (rq_Context r)).
Definition WriteProblem (r : Request) (p : edge_problem) c : Conn A :=
  writeJSON (ep_Status p) "application/problem+json" (ProblemJSON (stamped r p)) c.

Definition notFound (r : Request) c : Conn A := WriteProblem r (problem_of 404 "not_found" "") c.
Definition methodNotAllowed (r : Request) c : Conn A := WriteProblem r (problem_of 405 "method_not_allowed" "") c.

(** ** Health checks (health.go) *)

Definition Live c : Conn A := WriteJSON 200 (HealthJSON (MkHealth "ok" [])) c.
Definition Ready (ping : bool) (r : Request) c : Conn A :=
  if ping then WriteJSON 200 (HealthJSON (MkHealth "ok" [("database", "ok")])) c
  else WriteProblem r (problem_of 503 "not_ready" "database unavailable") (Log NotReady c).
End conn.

(** ** Handlers and middleware (middleware.go) *)

Inductive outcome (A : Type) := Returned (c : Conn A) | Panicked (p : panic) (c : Conn A).
Arguments Returned {A} c. Arguments Panicked {A} p c.

Definition conn_of {A} (o : outcome A) : Conn A := match o with Returned c | Panicked _ c => c end.

Abbreviation Handler A := (Request → Conn A → outcome A).

Definition logMethod (method : string) : string :=
  if bool_decide (method ∈ ["GET"; "POST"; "PUT"; "PATCH"; "DELETE"; "HEAD"; "OPTIONS"; "CONNECT"; "TRACE"]) then method else "OTHER".

(** How chi routes a method and a path, and the pattern it met on the way. *)
Inductive route := Healthz | Readyz | Operation | Unmatched | WrongMethod.
Class Chi := { Match : string → string → route; RoutePattern : string → string → option string }.

Section middleware.
Context {A : Type} `{Chi}.
Implicit Types (next : Handler A) (r : Request) (c : Conn A).

(** A fresh [rand.Text()], never the client's. *)
Definition RequestID (id : string) next : Handler A := λ r c,
  next (with_context r (MkCtx id (ctx_Principal (rq_Context r)))) (Header_Set "X-Request-Id" id c).

Definition routePattern r : string := default "unmatched" (RoutePattern (rq_Method r) (rq_URL r)).

Definition AccessLog next : Handler A := λ r c,
  match next r c with
  | Panicked p c => Panicked p c
  | Returned c =>
      let status := match sent c with Some (status, _) => status | None => 200 end in
      Returned (Log (HTTPRequest (500 <=? status) (logMethod (rq_Method r)) (routePattern r) status (RequestIDFrom (rq_Context r))) c)
  end.

Definition Recover next : Handler A := λ r c,
  match next r c with
  | Returned c => Returned c
  | Panicked ErrAbortHandler c => Panicked ErrAbortHandler c
  | Panicked (PanicValue _) c =>
      let c := Log (PanicRecovered (RequestIDFrom (rq_Context r))) c in
      if responseStarted c then Panicked ErrAbortHandler c
      else Returned (WriteProblem r (problem_of 500 "internal" "") c)
  end.
End middleware.

(** ** The API's operations (api.go) *)

Definition maxBodyBytes : Z := Z.shiftl 1 20.
Definition maxUploadBytes : Z := Z.shiftl 10 20 + 1.
Definition transferTime : Duration := 2 * Minute.

Inductive opKind := plainOp | uploadOp | downloadOp.
#[export] Instance opKind_eq_dec : EqDecision opKind.
Proof. solve_decision. Defined.

Record operation := MkOperation { op_kind : opKind; op_bodyTypes : list string }.

(** The media types of a body in the specification, each with its schema's
    format, if it has a schema. *)
Abbreviation Content := (list (string * option string)).
Definition binary (content : Content) : bool := existsb (λ mt, bool_decide (mt.2 = Some "binary")) content.

(** Why the validator refuses a request: whether reading the body met its cap,
    and the status of the error. *)
Record refused := MkRefused { rf_max_bytes : bool; rf_status : Z }.

(** The embedded specification: which operation a request is, what the
    operation's bodies are and whether it needs a caller; and the validator,
    told whether to leave the body alone and whether there is a caller. *)
Class OpenAPI := {
  Op : Type;
  FindRoute : string → string → option Op;
  RequestBody : Op → option Content;
  ResponseOK : Op → option Content;
  Secured : Op → bool;
  Validate : bool → bool → Request → option refused }.

(** What is documented of it: an unknown operation is refused, and a secured
    one without a caller; a body is read to its end and only then passed on. *)
Class OpenAPILaws `{OpenAPI} := {
  unknown_refused exclude caller r : FindRoute (rq_Method r) (rq_URL r) = None → Validate exclude caller r ≠ None;
  secured_refused exclude r op : FindRoute (rq_Method r) (rq_URL r) = Some op → Secured op = true → Validate exclude false r ≠ None;
  body_read caller r op : FindRoute (rq_Method r) (rq_URL r) = Some op → present (RequestBody op) = true →
    Validate false caller r = None → rd_error (rq_Body r) = None }.

(** The generated server: what decoding a request and calling its module's
    handler comes to. *)
Inductive dispatched (A : Type) :=
| BadParameter
| BadBody
| HandlerError (c : Conn A)
| Served (o : outcome A).
Arguments BadParameter {A}. Arguments BadBody {A}. Arguments HandlerError {A} c. Arguments Served {A} o.

Class Server (A : Type) := { dispatch : Request → Conn A → dispatched A }.

Section api.
Context {A E : Type} `{OpenAPI, Server A}.
Variable authenticate : string → res E Principal.
Variable now : time.
Implicit Types (next : Handler A) (r : Request) (c : Conn A).

Definition validationDetail : string := "request does not match the API specification".

Definition operation_kind (op : Op) : operation :=
  match RequestBody op with
  | Some content => if binary content then MkOperation uploadOp content.*1 else
      match ResponseOK op with Some content => MkOperation (if binary content then downloadOp else plainOp) [] | None => MkOperation plainOp [] end
  | None => match ResponseOK op with Some content => MkOperation (if binary content then downloadOp else plainOp) [] | None => MkOperation plainOp [] end
  end.
Definition operationOf r : operation :=
  match FindRoute (rq_Method r) (rq_URL r) with None => MkOperation plainOp [] | Some op => operation_kind op end.

(** [ErrorHandlerWithOpts]. *)
Definition refusal r (err : refused) c : Conn A :=
  if rf_max_bytes err then WriteProblem r (problem_of 413 "payload_too_large" "the request body is too large") c
  else if rf_status err =? 401 then
    WriteProblem r (problem_of 401 "unauthorized" "a valid access token is required") (Header_Set "WWW-Authenticate" BearerChallenge c)
  else WriteProblem r (problem_of (rf_status err) "validation_failed" validationDetail) c.

(** The validator around a handler; [excludeBody] are the options of files. *)
Definition OapiRequestValidator (excludeBody : bool) next : Handler A := λ r c,
  match Validate excludeBody (protected_passes (rq_Context r)) r with
  | Some err => Returned (refusal r err c)
  | None => next r c
  end.

Definition bearer next : Handler A := λ r c,
  next (with_context r (bearerAuth authenticate (rq_Context r) (rq_Authorization r))) c.

Definition bad_request r c : outcome A := Returned (WriteProblem r (problem_of 400 "validation_failed" validationDetail) c).

(** The upload as the validator lets it through. *)
Definition checked_upload next : Handler A := λ r c,
  match rq_upload r with
  | None => bad_request r c
  | Some up => if negb (up_typeOK up) then bad_request r c else next (with_body r (up_body up)) c
  end.

Definition deadlines (kind : opKind) c : Conn A :=
  if bool_decide (kind = plainOp) then c else SetWriteDeadline (GoTime.Add now transferTime) (SetReadDeadline (GoTime.Add now transferTime) c).

Definition transfers next : Handler A := λ r c,
  let op := operationOf r in
  let c := deadlines (op_kind op) c in
  match op_kind op with
  | uploadOp =>
      let up := MkUpload (MaxBytesReader (rq_Body r) maxUploadBytes) (bool_decide (ParseMediaType (rq_ContentType r) ∈ op_bodyTypes op)) in
      OapiRequestValidator true (checked_upload next) (with_body (with_upload r up) NoBody) c
  | _ => OapiRequestValidator false next (with_body r (MaxBytesReader (rq_Body r) maxBodyBytes)) c
  end.

(** The generated handler with the error functions it is given. *)
Definition generated : Handler A := λ r c,
  match dispatch r c with
  | BadParameter => bad_request r c
  | BadBody => Returned (WriteProblem r (problem_of 400 "validation_failed" "request body is not valid JSON") c)
  | HandlerError c =>
      Returned (if responseStarted c then Log ResponseCutShort c
                else WriteProblem r (problem_of 500 "internal" "") (Log HandlerFailed c))
  | Served o => o
  end.

(** [MountAPI]. *)
Definition mounted : Handler A := bearer (transfers generated).

(** [NewRouter], with the API mounted on it. *)
Definition mux `{Chi} (ping : bool) : Handler A := λ r c,
  match Match (rq_Method r) (rq_URL r) with
  | Healthz => Returned (Live c)
  | Readyz => Returned (Ready ping r c)
  | Operation => mounted r c
  | Unmatched => Returned (notFound r c)
  | WrongMethod => Returned (methodNotAllowed r c)
  end.
Definition router `{Chi} (ping : bool) (id : string) : Handler A := RequestID id (AccessLog (Recover (mux ping))).
End api.
