(* ===== verification/EdgeFlow.v ===== *)
(** * What the edge promises (src/internal/platform/httpx)

    A module's handler sees only requests that passed: to an operation of the
    specification, with a verified caller where it needs one, and a body of
    its operation's size and kind. What goes wrong in a handler is answered
    once, and the log has a line of it. *)
From S2P Require Import Prelude GoTime GoText GoCrypto GoEncoding Shared Tables Http Media MediaFlow Edge.
Open Scope Z_scope.

(** ** Media types *)

Lemma TrimLeft_length s : (String.length (TrimLeft s) ≤ String.length s)%nat.
Proof.
  rewrite <- (chunks_concat s) at 2. unfold TrimLeft. destruct (drop_while_split (λ c : Z * string, IsSpace c.1) (chunks s)) as (l & E & _).
  rewrite E at 2. rewrite fmap_app, concat_strings_app, string_length_app. lia.
Qed.

Lemma consumeToken_length v : let '(t, rest) := consumeToken v in (String.length t + String.length rest = String.length v)%nat.
Proof.
  induction v as [|a v IH]; [done|]. cbn [consumeToken]. destruct (isTokenChar _); [|done]. destruct (consumeToken v) as [t rest]. cbn. lia.
Qed.

Lemma quoted_length v : ∀ t rest, quoted v = Some (t, rest) → (String.length rest < String.length v)%nat.
Proof.
  assert (Hn : ∀ n v t rest, (String.length v < n)%nat → quoted v = Some (t, rest) → (String.length rest < String.length v)%nat);
    [|intros t rest; apply (Hn (S (String.length v))); lia].
  clear v. induction n as [|n IH]; intros v t rest Hv; [lia|]. destruct v as [|a v]; [done|]. cbn in Hv.
  assert (Hlit : match quoted v with Some (t, rest) => Some (String a t, rest) | None => None end = Some (t, rest) → (String.length rest < S (String.length v))%nat).
  { destruct (quoted v) as [[t' r']|] eqn:Eq; [|done]. intros [= <- <-]. apply IH in Eq; lia. }
  cbn [quoted String.length]. destruct (byte_of a =? 34); [intros [= <- <-]; lia|]. destruct (byte_of a =? 92).
  - destruct v as [|b v]; [exact Hlit|]. destruct (isTSpecial _); [|exact Hlit]. cbn in Hv |- *.
    destruct (quoted v) as [[t' r']|] eqn:Eq; [|done]. intros [= <- <-]. apply IH in Eq; lia.
  - destruct (_ || _); [done|exact Hlit].
Qed.

Lemma consumeMediaParam_length v : let '(key, value, rest) := consumeMediaParam v in key ≠ "" → (String.length rest < String.length v)%nat.
Proof.
  unfold consumeMediaParam. destruct (CutPrefix (TrimLeft v) ";") as [r0|] eqn:E0; [|done]. apply CutPrefix_app in E0.
  pose proof (TrimLeft_length v) as H0. rewrite E0, string_length_app in H0. change (String.length ";") with 1%nat in H0.
  pose proof (TrimLeft_length r0) as H1. pose proof (consumeToken_length (TrimLeft r0)) as H2. destruct (consumeToken (TrimLeft r0)) as [param r1].
  case_bool_decide; [done|]. destruct (CutPrefix (TrimLeft r1) "=") as [r2|] eqn:E2; [|done]. apply CutPrefix_app in E2.
  pose proof (TrimLeft_length r1) as H3. rewrite E2, string_length_app in H3. pose proof (TrimLeft_length r2) as H4.
  assert (H5 : let '(value, r) := consumeValue (TrimLeft r2) in (String.length r ≤ String.length (TrimLeft r2))%nat).
  { unfold consumeValue. destruct (TrimLeft r2) as [|a v']; [done|]. destruct (_ =? 34).
    - destruct (quoted v') as [[t' r']|] eqn:Eq; cbn; [apply quoted_length in Eq; lia|done].
    - pose proof (consumeToken_length (String a v')) as H5. destruct (consumeToken (String a v')). lia. }
  destruct (consumeValue _) as [value r]. destruct (_ && _); [done|]. lia.
Qed.

(** Each parameter takes some of the text: its length is fuel enough. *)
Lemma duplicate_param_fuel fuel : ∀ fuel' seen v,
  (String.length v < fuel)%nat → (String.length v < fuel')%nat → duplicate_param fuel seen v = duplicate_param fuel' seen v.
Proof.
  induction fuel as [|fuel IH]; intros [|fuel'] seen v Hf Hf'; [lia..|]. cbn [duplicate_param].
  pose proof (TrimLeft_length v) as Ht. case_bool_decide; [done|].
  pose proof (consumeMediaParam_length (TrimLeft v)) as Hc. destruct (consumeMediaParam _) as [[key value] rest].
  case_bool_decide; [done|]. destruct (match seen !! key with Some old => _ | None => _ end); [done|]. specialize (Hc ltac:(done)). apply IH; lia.
Qed.

(** ** Bodies *)

Lemma take_bytes_take n m s : (n ≤ m)%nat → take_bytes n (take_bytes m s) = take_bytes n s.
Proof.
  revert m s. induction n as [|n IH]; intros m s Hnm; [by destruct (take_bytes m s)|].
  destruct m as [|m]; [lia|]. destruct s as [|a s]; [done|]. cbn [take_bytes]. f_equal. apply IH. lia.
Qed.

Lemma MaxBytesReader_len r n : 0 ≤ n → len (rd_bytes (MaxBytesReader r n)) ≤ n.
Proof.
  intros Hn. unfold MaxBytesReader. destruct (Z.leb_spec (len (rd_bytes r)) n) as [Hl|Hl]; [done|]. cbn [rd_bytes]. rewrite len_take, Z2Nat.id by done. lia.
Qed.

Lemma MaxBytesReader_whole r n : rd_error (MaxBytesReader r n) = None → MaxBytesReader r n = r.
Proof. unfold MaxBytesReader. destruct (_ <=? _); [done|]. cbn. done. Qed.

(** The byte past media's limit tells it what it needs: it answers an upload
    as if the body had no cap. *)
Lemma cap_unseen `{UuidLib} w f newID now purpose by_ r :
  Store w f newID now purpose by_ (stream (MaxBytesReader r maxUploadBytes)) = Store w f newID now purpose by_ (stream r).
Proof.
  unfold MaxBytesReader. destruct (Z.leb_spec (len (rd_bytes r)) maxUploadBytes) as [Hl|Hl]; [done|].
  destruct r as [s e]. cbn [rd_bytes] in *.
  assert (Hm : maxUploadBytes = MaxSize + 1) by reflexivity. assert (H8 : 8 ≤ MaxSize) by (vm_compute; done).
  rewrite Hm in *. clear Hm. unfold Store. revert Hl H8. generalize MaxSize. intros m Hl H8.
  set (r' := MkReader (take_bytes (Z.to_nat (m + 1)) s) (Some MaxBytesError)).
  assert (Hlen : len (take_bytes (Z.to_nat (m + 1)) s) = m + 1) by (rewrite len_take, Z2Nat.id, Z.min_l; lia).
  assert (Hr : LimitReader (stream r') (m + 1) = LimitReader (stream (MkReader s e)) (m + 1)).
  { unfold LimitReader, stream, r'. cbn [content rd_bytes]. rewrite !(proj2 (Z.ltb_ge _ _)) by lia. f_equal. by apply take_bytes_take. }
  assert (Hh : read_head (stream r') = read_head (stream (MkReader s e))).
  { unfold read_head, ReadFull, stream, r'. cbn [content rd_bytes].
    rewrite !(proj2 (Z.leb_le _ _)) by (change (Z.of_nat SniffLen) with 8; lia). by rewrite take_bytes_take by (change SniffLen with 8%nat; lia). }
  by rewrite Hh, Hr.
Qed.

(** ** What reaches a handler *)

Section api.
Context {A E : Type} `{OpenAPILaws, Server A, UuidLib}.
Variable authenticate : string → res E Principal.
Variable now : time.
Implicit Types (r : Request) (c : Conn A).

(** A request as its handler gets it, of the request the client sent. *)
Record admitted r r' op : Prop := {
  ad_operation : FindRoute (rq_Method r) (rq_URL r) = Some op ∧ rq_Method r' = rq_Method r ∧ rq_URL r' = rq_URL r ∧
    RequestIDFrom (rq_Context r') = RequestIDFrom (rq_Context r);
  ad_caller p : PrincipalFrom (rq_Context r') = Some p ↔ ∃ token, bearerToken (rq_Authorization r) = Some token ∧ authenticate token = Ok p;
  ad_secured : Secured op = true → is_Some (PrincipalFrom (rq_Context r'));
  ad_json : op_kind (operation_kind op) ≠ uploadOp → len (rd_bytes (rq_Body r')) ≤ maxBodyBytes ∧
    (present (RequestBody op) = true → rq_Body r' = rq_Body r ∧ rd_error (rq_Body r) = None);
  ad_file : op_kind (operation_kind op) = uploadOp → len (rd_bytes (rq_Body r')) ≤ maxUploadBytes ∧
    ParseMediaType (rq_ContentType r) ∈ op_bodyTypes (operation_kind op) ∧
    ∀ w f newID now purpose by_, Store w f newID now purpose by_ (stream (rq_Body r')) = Store w f newID now purpose by_ (stream (rq_Body r)) }.

(** A request turned away: only a problem is written, under its ID. *)
Definition turned_away r c c' : Prop :=
  app c' = app c ∧ log c' = log c ∧
  ∃ p, written c' = written c ++ [ProblemJSON p] ∧ ep_RequestID p = RequestIDFrom (rq_Context r) ∧
       (sent c = None → ∃ h, sent c' = Some (ep_Status p, h) ∧ h !! "Content-Type" = Some "application/problem+json" ∧
          (ep_Code p = "unauthorized" → ep_Status p = 401 ∧ h !! "WWW-Authenticate" = Some BearerChallenge)).

Lemma WriteProblem_written r p c : written (WriteProblem r p c) = written c ++ [ProblemJSON (stamped r p)].
Proof. by destruct c as [? [?|] ? ? ? ? ?]. Qed.
Lemma WriteProblem_kept r p c : app (WriteProblem r p c) = app c ∧ log (WriteProblem r p c) = log c.
Proof. by destruct c as [? [?|] ? ? ? ? ?]. Qed.
Lemma WriteProblem_sent r p c : sent c = None →
  sent (WriteProblem r p c) = Some (ep_Status p, <["X-Content-Type-Options" := "nosniff"]> (<["Content-Type" := "application/problem+json"]> (headers c))).
Proof. destruct c as [? [?|] ? ? ? ? ?]; [done|]. done. Qed.

Lemma turned_away_problem r r' p c c' :
  app c' = app c → log c' = log c → written c' = written c → sent c' = sent c →
  RequestIDFrom (rq_Context r') = RequestIDFrom (rq_Context r) →
  (ep_Code p = "unauthorized" → ep_Status p = 401 ∧ headers c' !! "WWW-Authenticate" = Some BearerChallenge) →
  turned_away r c (WriteProblem r' p c').
Proof.
  intros Ha Hl Hw Hs Hid Hch. unfold turned_away. destruct (WriteProblem_kept r' p c') as [-> ->]. split_and!; [done..|].
  exists (stamped r' p). rewrite WriteProblem_written, Hw. split_and!; [done|done|]. intros Hn. rewrite <- Hs in Hn.
  eexists. rewrite WriteProblem_sent by done. split_and!; [done|by rewrite lookup_insert_ne, lookup_insert_eq by done|].
  intros Hu. rewrite !lookup_insert_ne by done. by apply Hch.
Qed.

Lemma deadlines_kept kind c : let c' := deadlines now kind c in
  app c' = app c ∧ log c' = log c ∧ written c' = written c ∧ sent c' = sent c ∧ headers c' = headers c.
Proof. cbv zeta. unfold deadlines. by case_bool_decide. Qed.

Lemma refusal_turned_away r r' err c kind :
  RequestIDFrom (rq_Context r') = RequestIDFrom (rq_Context r) → turned_away r c (refusal r' err (deadlines now kind c)).
Proof.
  intros Hid. destruct (deadlines_kept kind c) as (Ha & Hl & Hw & Hs & _). unfold refusal.
  destruct (rf_max_bytes err); [by apply turned_away_problem|]. destruct (_ =? 401); [|by apply turned_away_problem].
  apply turned_away_problem; try done. intros _. split; [done|]. cbn [Header_Set headers]. by rewrite lookup_insert_eq.
Qed.

Lemma bad_request_turned_away r r' c kind :
  RequestIDFrom (rq_Context r') = RequestIDFrom (rq_Context r) → ∃ c', bad_request r' (deadlines now kind c) = Returned c' ∧ turned_away r c c'.
Proof. intros Hid. destruct (deadlines_kept kind c) as (? & ? & ? & ? & _). eexists. split; [done|]. by apply turned_away_problem. Qed.

(** The context after [bearerAuth]. *)
Lemma bearer_context ctx authorization : PrincipalFrom ctx = None →
  let ctx' := bearerAuth authenticate ctx authorization in
  RequestIDFrom ctx' = RequestIDFrom ctx ∧
  ∀ p, PrincipalFrom ctx' = Some p ↔ ∃ token, bearerToken authorization = Some token ∧ authenticate token = Ok p.
Proof.
  intros Hnone. unfold bearerAuth. destruct (bearerToken authorization) as [token|]; [|split; [done|]; intros p; rewrite Hnone; split; [done|by intros (? & ? & _)]].
  destruct (authenticate token) as [p'|e] eqn:Ea; (split; [done|]); intros p; [cbn|rewrite Hnone]; split.
  - intros [= <-]. by exists token.
  - intros (t & [= <-] & Et). congruence.
  - done.
  - intros (t & [= <-] & Et). congruence.
Qed.

(** C39. What reaches a handler of the API. Every request either reaches the
    handler of an operation the specification knows, or is answered with a
    problem, under the request's ID, and changes nothing else. A request that
    reaches it has a caller exactly when its bearer token verifies, and has one
    when the operation is secured; a body the specification describes arrives
    whole and within 1 MiB, and any other body is cut there; a file is of a
    media type the operation declares, and although it is cut off past 10 MiB
    and a byte, media answers exactly as it would without the cap. A refusal
    as 401 carries the bearer challenge. *)
Theorem requests_reach_handlers_checked r c :
  PrincipalFrom (rq_Context r) = None →
  (∃ r' op, mounted authenticate now r c = generated r' (deadlines now (op_kind (operation_kind op)) c) ∧ admitted r r' op) ∨
  (∃ c', mounted authenticate now r c = Returned c' ∧ turned_away r c c').
Proof.
  intros Hnone. unfold mounted, bearer. destruct (bearer_context _ (rq_Authorization r) Hnone) as [Hid Hp].
  set (ctx := bearerAuth _ _ _) in *. set (r1 := with_context r ctx).
  assert (Hop : ∀ exclude r', rq_Method r' = rq_Method r → rq_URL r' = rq_URL r → rq_Context r' = ctx →
    Validate exclude (protected_passes ctx) r' = None → ∃ op, FindRoute (rq_Method r) (rq_URL r) = Some op ∧ operationOf r1 = operation_kind op ∧
      (Secured op = true → is_Some (PrincipalFrom ctx))).
  { intros exclude r' Hm Hu Hc Hv. destruct (FindRoute (rq_Method r) (rq_URL r)) as [op|] eqn:Ef.
    - exists op. split_and!; [done|unfold operationOf; cbn; by rewrite Ef|]. intros Hs. apply present_Some. destruct (present _) eqn:Ep; [done|].
      exfalso. apply (secured_refused exclude r' op); [by rewrite Hm, Hu|done|]. unfold protected_passes in Hv. by rewrite Ep in Hv.
    - exfalso. apply (unknown_refused exclude (protected_passes ctx) r'); [by rewrite Hm, Hu|done]. }
  unfold transfers. destruct (op_kind (operationOf r1)) eqn:Ek.
  2:{ unfold OapiRequestValidator. cbn [rq_Context with_body with_upload with_context].
      destruct (Validate _ _ _) as [err|] eqn:Ev; [right; eexists; split; [done|]; by apply refusal_turned_away|].
      edestruct (Hop true) as (op & Ef & Eo & Hs); [| | |exact Ev|]; [done..|]. unfold checked_upload. cbn [rq_upload with_body with_upload up_typeOK up_body].
      case_bool_decide as Ht; cbn [negb]; [|right; by apply bad_request_turned_away]. left. eexists _, op.
      split; [rewrite <- Eo, Ek; done|]. rewrite Eo in Ht, Ek. constructor; [by split_and!|exact Hp|exact Hs|congruence|].
      intros _. cbn [rq_Body with_body]. split_and!; [by apply MaxBytesReader_len|exact Ht|]. intros *. apply cap_unseen. }
  all: unfold OapiRequestValidator; cbn [rq_Context with_body with_context];
    destruct (Validate _ _ _) as [err|] eqn:Ev; [right; eexists; split; [done|]; by apply refusal_turned_away|];
    (edestruct (Hop false) as (op & Ef & Eo & Hs); [| | |exact Ev|]; [done..|]); left; eexists _, op;
    split; [rewrite <- Eo, Ek; done|]; rewrite Eo in Ek; (constructor; [by split_and!|exact Hp|exact Hs| |congruence]);
    intros _; cbn [rq_Body with_body]; split; [by apply MaxBytesReader_len|]; intros Hb;
    (pose proof Ev as Hr; eapply body_read in Hr; [|exact Ef|exact Hb]); cbn [rq_Body with_body] in Hr; pose proof (MaxBytesReader_whole _ _ Hr) as Hw; by rewrite Hw in Hr |- *.
Qed.
End api.

(** ** What goes wrong in a handler *)

Section router.
Context {A E : Type} `{OpenAPI, Server A, Chi}.
Variable authenticate : string → res E Principal.
Variables (now : time) (ping : bool) (id : string).
Implicit Types (r : Request) (c : Conn A).

(** The request and the connection as the routes get them. *)
Definition routed r : Request := with_context r (MkCtx id (ctx_Principal (rq_Context r))).
Definition opened c : Conn A := Header_Set "X-Request-Id" id c.
Definition access_line r (status : Z) : line := HTTPRequest (500 <=? status) (logMethod (rq_Method r)) (routePattern r) status id.

(** A panic never leaves a request unanswered: before the response started it
    becomes a 500 under the request's ID, logged twice; after that the
    connection is aborted, and the access log has no line of the request.
    Anything else is one line, with the status that was sent. *)
Theorem panics_are_contained r c :
  let served := mux authenticate now ping (routed r) (opened c) in
  let answer := router authenticate now ping id r c in
  match served with
  | Returned c' =>
      let status := match sent c' with Some (status, _) => status | None => 200 end in answer = Returned (Log (access_line r status) c')
  | Panicked (PanicValue _) c' =>
      let problem := MkEdgeProblem "about:blank" "Internal Server Error" 500 "internal" "" id in
      match sent c' with
      | None => ∃ c'', answer = Returned c'' ∧ written c'' = written c' ++ [ProblemJSON problem] ∧ (∃ h, sent c'' = Some (500, h)) ∧
                       log c'' = log c' ++ [PanicRecovered id; access_line r 500] ∧ app c'' = app c'
      | Some _ => answer = Panicked ErrAbortHandler (Log (PanicRecovered id) c')
      end
  | Panicked ErrAbortHandler c' => answer = Panicked ErrAbortHandler c'
  end.
Proof.
  cbv zeta. unfold router, RequestID, AccessLog, Recover. fold (routed r). fold (opened c).
  destruct (mux _ _ _ _ _) as [c'|[|m] c']; [done..|]. unfold responseStarted. destruct c' as [h [[status h']|] w rd wd l a]; cbn [sent Log present]; [done|].
  eexists. split; [done|]. cbn. rewrite <- app_assoc. split_and!; [done|by eexists|done|done].
Qed.
End router.

(** ** Concrete requests *)

Module EdgeDemo.
#[local] Existing Instance decimal_ids.

(** One operation takes a file and one a document; both need a caller. *)
Definition find (url : string) : option bool := if bool_decide (url = "/files") then Some true else if bool_decide (url = "/me") then Some false else None.
Definition body_of (op : bool) : option Content := if op then Some [("application/octet-stream", Some "binary")] else Some [("application/json", None)].
Definition check_request (exclude caller : bool) (r : Request) : option refused :=
  match find (rq_URL r) with
  | None => Some (MkRefused false 404)
  | Some _ => if negb caller then Some (MkRefused false 401)
              else if exclude then None
              else match rd_error (rq_Body r) with None => None | Some MaxBytesError => Some (MkRefused true 400) | Some (UnexpectedEOF | ClientGone) => Some (MkRefused false 400) end
  end.
#[local] Instance api : OpenAPI := {|
  Op := bool; FindRoute _ url := find url; RequestBody := body_of; ResponseOK _ := None; Secured _ := true; Validate := check_request |}.
#[local] Instance api_laws : OpenAPILaws.
Proof.
  constructor; cbn; unfold check_request.
  - intros * ->. done.
  - intros * -> _. done.
  - intros [] r op Hf _; rewrite Hf; cbn; [|done]. by destruct (rd_error (rq_Body r)) as [[]|].
Qed.
(** A handler that counts the bytes it is given. *)
#[local] Instance counting : Server Z := {|
  dispatch r c := Served (Returned (WriteJSON 201 (Bytes "") (MkConn (headers c) (sent c) (written c) (read_deadline c) (write_deadline c) (log c) (len (rd_bytes (rq_Body r)))))) |}.

Definition signed_in (token : string) : res unit Principal := if bool_decide (token = "t") then Ok (MkPrincipal (MkID 1) 2 "none") else Err tt.
Definition post (url authorization ctype body : string) : Request := MkRequest "POST" url authorization ctype (MkReader body None) (MkCtx "R1" None) None.
Definition idle : Conn Z := MkConn ∅ None [] None None [] 0.
Definition answer (r : Request) : option Z * Z := let c := conn_of (mounted signed_in 0 r idle) in (fst <$> sent c, app c).

Example answers :
  answer (post "/files" "bearer t" "application/octet-stream" "%PDF-1") = (Some 201, 6) ∧
  answer (post "/files" "Bearer t" "application/json" "%PDF-1") = (Some 400, 0) ∧
  answer (post "/files" "Bearer no" "application/json" "%PDF-1") = (Some 401, 0) ∧
  answer (post "/me" "Bearer t" "application/octet-stream" "{}") = (Some 201, 2) ∧
  answer (post "/nowhere" "Bearer t" "" "") = (Some 404, 0).
Proof. vm_compute. by split_and!. Qed.

Lemma requests_reach_handlers_checked_witness :
  let r := post "/files" "bearer t" "application/octet-stream" "%PDF-1" in
  answer r = (Some 201, 6) ∧ PrincipalFrom (rq_Context r) = None ∧
  ((∃ r' op, mounted signed_in 0 r idle = generated r' (deadlines 0 (op_kind (operation_kind op)) idle) ∧ admitted signed_in r r' op) ∨
   (∃ c', mounted signed_in 0 r idle = Returned c' ∧ turned_away r idle c')).
Proof. cbv zeta. split; [vm_compute; reflexivity|]. split; [reflexivity|]. by apply (requests_reach_handlers_checked signed_in 0). Defined.
End EdgeDemo.
