(* ===== verification/Config.v ===== *)
(** * Configuration and start-up
      (src/internal/platform/config/config.go, platform/database/database.go, src/cmd/server/main.go)

    The environment read into a [Config], checked once; the role the process
    runs, the pool it opens, the modules it wires and who is subscribed to
    which event. The library that parses the environment, the pool and the
    disk are arguments. *)
From S2P Require Import Prelude GoTime GoText Shared Tables Http Outbox.
From S2P Require Iam IamApp AccessTokens Media Fcm OutboxFlow BizStore CatStore HoursFlow BookNotices.
Open Scope Z_scope.

(** ** The configuration (config.go) *)

Definition EnvDevelopment : string := "development".
Definition EnvTest : string := "test".
Definition EnvStaging : string := "staging".
Definition EnvProduction : string := "production".

Record Push := MkPush { pu_Provider : string; pu_FCMCredentialsFile : string; pu_FCMTimeout : Duration }.
Record Worker := MkWorker { wk_StopTimeout : Duration }.
Record HTTP := MkHTTP {
  ht_Addr : string; ht_ReadHeaderTimeout : Duration; ht_ReadTimeout : Duration; ht_WriteTimeout : Duration; ht_IdleTimeout : Duration; ht_ShutdownTimeout : Duration }.
Record Database := MkDatabase { da_URL : string; da_MaxConns : Z; da_StatementTimeout : Duration; da_LockTimeout : Duration; da_IdleInTxTimeout : Duration }.
Record Auth := MkAuth { au_OTPSecret : string; au_SMSProvider : string; au_TokenSecret : string }.
Record MediaConfig := MkMedia { me_Dir : string; me_SigningSecret : string }.
Record LogConfig := MkLog { lo_Level : Z; lo_Format : string }.
Record Config := MkConfig {
  c_Env : string; c_HTTP : HTTP; c_Database : Database; c_Log : LogConfig; c_Auth : Auth; c_Media : MediaConfig; c_Worker : Worker; c_Push : Push }.

(** The fields with their [env] tags, as reflection sees them. *)
Inductive field := Leaf (name tag : string) | Nested (name : string) (fields : list field).

Definition Config_type : list field :=
  [ Leaf "Env" "APP_ENV,required,notEmpty";
    Nested "HTTP" [Leaf "Addr" "HTTP_ADDR"; Leaf "ReadHeaderTimeout" "HTTP_READ_HEADER_TIMEOUT"; Leaf "ReadTimeout" "HTTP_READ_TIMEOUT";
                   Leaf "WriteTimeout" "HTTP_WRITE_TIMEOUT"; Leaf "IdleTimeout" "HTTP_IDLE_TIMEOUT"; Leaf "ShutdownTimeout" "HTTP_SHUTDOWN_TIMEOUT"];
    Nested "Database" [Leaf "URL" "DATABASE_URL,required,notEmpty"; Leaf "MaxConns" "DATABASE_MAX_CONNS"; Leaf "StatementTimeout" "DATABASE_STATEMENT_TIMEOUT";
                       Leaf "LockTimeout" "DATABASE_LOCK_TIMEOUT"; Leaf "IdleInTxTimeout" "DATABASE_IDLE_IN_TRANSACTION_SESSION_TIMEOUT"];
    Nested "Log" [Leaf "Level" "LOG_LEVEL"; Leaf "Format" "LOG_FORMAT"];
    Nested "Auth" [Leaf "OTPSecret" "OTP_SECRET,required,notEmpty"; Leaf "SMSProvider" "SMS_PROVIDER"; Leaf "TokenSecret" "TOKEN_SIGNING_SECRET,required,notEmpty"];
    Nested "Media" [Leaf "Dir" "MEDIA_DIR"; Leaf "SigningSecret" "MEDIA_SIGNING_SECRET,required,notEmpty"];
    Nested "Worker" [Leaf "StopTimeout" "WORKER_SHUTDOWN_TIMEOUT"];
    Nested "Push" [Leaf "Provider" "PUSH_PROVIDER"; Leaf "FCMCredentialsFile" "FCM_CREDENTIALS_FILE"; Leaf "FCMTimeout" "FCM_TIMEOUT"] ].

Definition env_key (tag : string) : string := match Cut tag "," with Some (key, _) => key | None => tag end.

(** A name met again takes the later key. *)
Fixpoint add_keys (keys : gmap string string) (f : field) : gmap string string :=
  match f with
  | Leaf name tag => if bool_decide (tag = "") then keys else <[name := env_key tag]> keys
  | Nested _ fields => (fix go keys fields := match fields with [] => keys | f :: fields => go (add_keys keys f) fields end) keys fields
  end.
Definition envKeys (t : list field) : gmap string string := foldl add_keys ∅ t.

Definition devSecrets : gmap string string := list_to_map
  [ ("OTP_SECRET", "local-development-otp-secret-not-for-real-use");
    ("TOKEN_SIGNING_SECRET", "local-development-token-signing-secret-not-for-real-use");
    ("MEDIA_SIGNING_SECRET", "local-development-media-signing-secret-not-for-real-use") ].

(** [filepath.IsAbs], on the systems the service runs on. *)
Definition IsAbs (path : string) : bool := HasPrefix path "/".

Definition timeouts (c : Config) : list (string * Duration) :=
  [ ("HTTP_READ_HEADER_TIMEOUT", ht_ReadHeaderTimeout (c_HTTP c));
    ("HTTP_READ_TIMEOUT", ht_ReadTimeout (c_HTTP c));
    ("HTTP_WRITE_TIMEOUT", ht_WriteTimeout (c_HTTP c));
    ("HTTP_IDLE_TIMEOUT", ht_IdleTimeout (c_HTTP c));
    ("HTTP_SHUTDOWN_TIMEOUT", ht_ShutdownTimeout (c_HTTP c));
    ("WORKER_SHUTDOWN_TIMEOUT", wk_StopTimeout (c_Worker c));
    ("DATABASE_STATEMENT_TIMEOUT", da_StatementTimeout (c_Database c));
    ("DATABASE_LOCK_TIMEOUT", da_LockTimeout (c_Database c));
    ("DATABASE_IDLE_IN_TRANSACTION_SESSION_TIMEOUT", da_IdleInTxTimeout (c_Database c));
    ("FCM_TIMEOUT", pu_FCMTimeout (c_Push c)) ].

Definition secrets (c : Config) : list (string * string) :=
  [ ("OTP_SECRET", au_OTPSecret (c_Auth c)); ("TOKEN_SIGNING_SECRET", au_TokenSecret (c_Auth c)); ("MEDIA_SIGNING_SECRET", me_SigningSecret (c_Media c)) ].

Definition said (wrong : bool) (message : string) : list string := if wrong then [message] else [].

(** Every problem at once, in this order; none is [nil]. *)
Definition validate (c : Config) : list string :=
  let env := c_Env c in
  said (negb (bool_decide (env ∈ [EnvDevelopment; EnvTest; EnvStaging; EnvProduction]))) "APP_ENV must be development, test, staging or production" ++
  said (negb (bool_decide (lo_Format (c_Log c) ∈ ["json"; "text"]))) "LOG_FORMAT must be json or text" ++
  said (da_MaxConns (c_Database c) <? 2) "DATABASE_MAX_CONNS must be at least 2" ++
  concat ((λ t, said (t.2 <=? 0) (t.1 +:+ " must be positive")) <$> timeouts c) ++
  concat ((λ s, said (len s.2 <? 32) (s.1 +:+ " must be at least 32 bytes")) <$> secrets c) ++
  (if bool_decide (env = EnvStaging) || bool_decide (env = EnvProduction) then
     said (negb (IsAbs (me_Dir (c_Media c)))) "MEDIA_DIR must be an absolute path outside development" ++
     concat ((λ s, said (bool_decide (s.2 = default "" (devSecrets !! s.1))) (s.1 +:+ " is the public development value; set a real secret")) <$> secrets c)
   else []) ++
  said (negb (bool_decide (au_SMSProvider (c_Auth c) = "console"))) "SMS_PROVIDER must be console (the only provider so far)" ++
  said (bool_decide (env = EnvProduction) && bool_decide (au_SMSProvider (c_Auth c) = "console"))
    "SMS_PROVIDER=console prints login codes to the log and is not allowed in production" ++
  (if bool_decide (pu_Provider (c_Push c) = "console") then []
   else if bool_decide (pu_Provider (c_Push c) = "fcm") then
     said (negb (IsAbs (pu_FCMCredentialsFile (c_Push c)))) "FCM_CREDENTIALS_FILE must be the absolute path of the service account key when PUSH_PROVIDER=fcm"
   else ["PUSH_PROVIDER must be console or fcm"]) ++
  said (bool_decide (env = EnvProduction) && bool_decide (pu_Provider (c_Push c) = "console"))
    "PUSH_PROVIDER=console writes notifications to the log instead of sending them and is not allowed in production".

(** The library's errors: several at once, or another. *)
Inductive parse_error := ParseError (field_name text : string) | OtherError (text : string).
Inductive env_error := AggregateError (errors : list parse_error) | PlainError (text : string).

Class EnvLib := { ParseWithOptions : list string → res env_error Config }.

Definition text_of (e : parse_error) : string := match e with ParseError _ text | OtherError text => text end.

Definition with_env_name (keys : gmap string string) (e : parse_error) : string :=
  match e with
  | ParseError name text => let key := default "" (keys !! name) in if bool_decide (key = "") then text else key +:+ ": invalid value"
  | OtherError text => text
  end.
Definition withEnvNames (e : env_error) : list string :=
  match e with PlainError text => [text] | AggregateError errors => with_env_name (envKeys Config_type) <$> errors end.

Inductive load_error := ParseEnvironment (lines : list string) | InvalidConfiguration (lines : list string).

Definition Load `{EnvLib} (environ : list string) : res load_error Config :=
  match ParseWithOptions environ with
  | Err e => Err (ParseEnvironment (withEnvNames e))
  | Ok cfg => match validate cfg with [] => Ok cfg | lines => Err (InvalidConfiguration lines) end
  end.

(** ** The pool (database.go) *)

Definition Milliseconds (d : Duration) : Z := Z.quot d Millisecond.

(** The settings of every connection; 0 and less are not set. *)
Definition pool_params (cfg : Database) : gmap string string :=
  foldr (λ p params, if 0 <? p.2 then <[p.1 := itoa (Milliseconds p.2)]> params else params) ∅
    [ ("statement_timeout", da_StatementTimeout cfg); ("lock_timeout", da_LockTimeout cfg); ("idle_in_transaction_session_timeout", da_IdleInTxTimeout cfg) ].

Record Pool := MkPool { pl_URL : string; pl_MaxConns : Z; pl_Params : gmap string string }.

Definition pool_of (cfg : Database) : Pool := MkPool (da_URL cfg) (da_MaxConns cfg) (pool_params cfg).

(** Migrations run without the limits. *)
Definition without_limits (cfg : Database) : Database := MkDatabase (da_URL cfg) (da_MaxConns cfg) 0 0 0.

(** ** Wiring the modules (main.go, newApplication; notification/module.go, New) *)

Inductive start_error :=
  ErrOutbox | ErrOTPSecret | ErrTokenSecret | ErrMediaSecret | ErrMediaDir | ErrCredentialsFile | ErrCredentials (e : Fcm.config_error) | ErrProvider | ErrMount.

(** What the machine and the libraries answer at the start. *)
Class Host := {
  river_ok : bool;
  directory_ok : string → bool;
  ReadFile : string → option string;
  spec_ok : bool;
  pool_ok : Pool → bool }.

Section start.
Context {Private Public Key : Type} `{AccessTokens.JwtLib Private Public, Fcm.FcmLib Key, Host, EnvLib}.

(** [notification.New]: [None] is the console. *)
Definition NewSender (provider credentials : string) (timeout : Duration) : res start_error (option (Fcm.FCM Key)) :=
  if bool_decide (provider = "fcm") then
    let! fcm := res_map_err ErrCredentials (Fcm.NewFCM (Fcm.MkFCMConfig credentials timeout "")) in Ok (Some fcm)
  else if bool_decide (provider = "console") || bool_decide (provider = "") then Ok None
  else Err ErrProvider.

(** What the modules are given that a secret or a file decides. *)
Record application := MkApplication {
  ap_hasher : string; ap_signer : AccessTokens.Signer Private Public; ap_links : string; ap_sender : option (Fcm.FCM Key) }.

Definition newApplication (cfg : Config) : res start_error application :=
  check! river_ok else ErrOutbox in
  let! hasher := res_map_err (λ _, ErrOTPSecret) (IamApp.NewHMACHasher (au_OTPSecret (c_Auth cfg))) in
  let! signer := res_map_err (λ _, ErrTokenSecret) (AccessTokens.NewSigner (au_TokenSecret (c_Auth cfg))) in
  let! links := res_map_err (λ _, ErrMediaSecret) (Media.NewSigner (me_SigningSecret (c_Media cfg))) in
  check! directory_ok (me_Dir (c_Media cfg)) else ErrMediaDir in
  let push := c_Push cfg in
  let! credentials :=
    if bool_decide (pu_Provider push = "fcm") then match ReadFile (pu_FCMCredentialsFile push) with Some file => Ok file | None => Err ErrCredentialsFile end
    else Ok "" in
  let! sender := NewSender (pu_Provider push) credentials (pu_FCMTimeout push) in
  check! spec_ok else ErrMount in
  Ok (MkApplication hasher signer links sender).

(** ** Roles (main.go, run) *)

Inductive role := Api | Work | Migrate.

Definition role_of (args : list string) : option role :=
  let name := match args with [] => "api" | name :: _ => name end in
  if bool_decide (name = "api") then Some Api
  else if bool_decide (name = "worker") then Some Work
  else if bool_decide (name = "migrate") then Some Migrate
  else None.

Inductive run_error := UnknownCommand | LoadFailed (e : load_error) | NoPool | StartFailed (e : start_error).

(** What the process goes on to do. *)
Inductive running :=
| Migrating (p : Pool)
| Working (p : Pool) (workers : Z) (stop : Duration) (a : application)
| Serving (p : Pool) (cfg : HTTP) (a : application).

Definition run (args environ : list string) : res run_error running :=
  match role_of args with
  | None => Err UnknownCommand
  | Some role =>
      let! cfg := res_map_err LoadFailed (Load environ) in
      let pool := pool_of (match role with Migrate => without_limits (c_Database cfg) | _ => c_Database cfg end) in
      check! pool_ok pool else NoPool in
      match role with
      | Migrate => Ok (Migrating pool)
      | Work => let! a := res_map_err StartFailed (newApplication cfg) in
                Ok (Working pool (maxWorkers (pl_MaxConns pool)) (wk_StopTimeout (c_Worker cfg)) a)
      | Api => let! a := res_map_err StartFailed (newApplication cfg) in Ok (Serving pool (c_HTTP cfg) a)
      end
  end.
End start.
Arguments application : clear implicits.
Arguments running : clear implicits.

(** ** Who reacts to which event (main.go, subscribe; the modules' On... functions) *)

Definition branch_events (name : string) : list (string * string) :=
  [(name +:+ ".published", BizStore.TypeBranchPublished); (name +:+ ".unpublished", BizStore.TypeBranchUnpublished); (name +:+ ".updated", BizStore.TypeBranchUpdated)].
Definition service_events (name : string) : list (string * string) :=
  [(name +:+ ".created", CatStore.TypeServiceCreated); (name +:+ ".updated", CatStore.TypeServiceUpdated)].
Definition appointment_events (name : string) : list (string * string) :=
  (λ t, (name +:+ "." +:+ BookNotices.what t, t)) <$> BookNotices.appointment_types.

Definition subscriptions : list (string * string) :=
  [("billing.start_trial", BizStore.TypeBusinessApproved)] ++ branch_events "discovery.keep_branch" ++ service_events "discovery.keep_service" ++
  [("discovery.keep_hours", HoursFlow.TypeOpeningHoursChanged)] ++ branch_events "notification.keep_branch" ++ appointment_events "notification.appointment".

(** [handle] is the handler of each name; [None] is the panic of a name
    registered twice. *)
Definition subscribe_to {Msg W} (handle : string → Handler Msg W) (l : list (string * string)) (b : option (Bus Msg W)) : option (Bus Msg W) :=
  foldl (λ b s, b ← b; Subscribe b s.1 s.2 (handle s.1)) b l.
Definition subscribe {Msg W} (handle : string → Handler Msg W) (b : Bus Msg W) : option (Bus Msg W) := subscribe_to handle subscriptions (Some b).

(** ** What a valid configuration is *)

Record valid (c : Config) : Prop := {
  va_env : c_Env c ∈ [EnvDevelopment; EnvTest; EnvStaging; EnvProduction];
  va_format : lo_Format (c_Log c) ∈ ["json"; "text"];
  va_conns : 2 ≤ da_MaxConns (c_Database c);
  va_timeouts : ∀ key d, (key, d) ∈ timeouts c → 0 < d;
  va_secrets : ∀ key s, (key, s) ∈ secrets c → 32 ≤ len s;
  va_public : c_Env c = EnvStaging → IsAbs (me_Dir (c_Media c)) = true ∧ ∀ key s, (key, s) ∈ secrets c → devSecrets !! key ≠ Some s;
  va_sms : au_SMSProvider (c_Auth c) = "console";
  va_production : c_Env c ≠ EnvProduction;
  va_push : pu_Provider (c_Push c) = "console" ∨ pu_Provider (c_Push c) = "fcm" ∧ IsAbs (pu_FCMCredentialsFile (c_Push c)) = true }.

Lemma said_nil b m : said b m = [] ↔ b = false.
Proof. by destruct b. Qed.

Lemma concat_said_nil {B} (f : B → bool) (m : B → string) l : concat ((λ x, said (f x) (m x)) <$> l) = [] ↔ ∀ x, x ∈ l → f x = false.
Proof.
  induction l as [|x l IH]; [split; [by intros _ ? ?%not_elem_of_nil|done]|]. rewrite fmap_cons. cbn [concat]. rewrite app_nil, said_nil, IH.
  setoid_rewrite elem_of_cons. split; [by intros [? ?] ? [->|?]; auto|]. intros Hall. split; [apply Hall; by left|]. intros y Hy. apply Hall. by right.
Qed.

(** A configuration passes exactly when it is valid. The SMS provider can only
    be the console, which production refuses: no production configuration
    passes yet. *)
Theorem validate_valid c : validate c = [] ↔ valid c.
Proof.
  unfold validate. rewrite !app_nil, !said_nil, !concat_said_nil, !negb_false_iff, !bool_decide_eq_true, Z.ltb_ge. split.
  - intros (Henv & Hfmt & Hconns & Htime & Hlen & Hpub & Hsms & Hprod & Hpush & _). constructor; try done.
    + intros key d Hin. specialize (Htime _ Hin). cbn in Htime. lia.
    + intros key s Hin. specialize (Hlen _ Hin). cbn in Hlen. lia.
    + intros Es. rewrite Es in Hpub. cbn [bool_decide orb] in Hpub. rewrite bool_decide_eq_true_2 in Hpub by done. cbn [orb] in Hpub.
      apply app_nil in Hpub as [Hd Hs]. rewrite said_nil, negb_false_iff in Hd. rewrite concat_said_nil in Hs. split; [done|].
      intros key s Hin E. specialize (Hs _ Hin). cbn [fst snd] in Hs. rewrite E in Hs. by rewrite bool_decide_eq_true_2 in Hs.
    + intros E. rewrite E, Hsms in Hprod. by rewrite !bool_decide_eq_true_2 in Hprod by done.
    + destruct (bool_decide_reflect (pu_Provider (c_Push c) = "console")); [by left|]. right.
      destruct (bool_decide_reflect (pu_Provider (c_Push c) = "fcm")); [|done]. apply said_nil in Hpush. by apply negb_false_iff in Hpush.
  - intros [Henv Hfmt Hconns Htime Hlen Hpub Hsms Hprod Hpush]. split_and!; try done.
    + intros [key d] Hin. cbn. specialize (Htime _ _ Hin). lia.
    + intros [key s] Hin. cbn. specialize (Hlen _ _ Hin). lia.
    + rewrite (bool_decide_eq_false_2 (c_Env c = EnvProduction)), orb_false_r by done. destruct (bool_decide_reflect (c_Env c = EnvStaging)) as [Es|]; [|done].
      destruct (Hpub Es) as [Hd Hs]. rewrite Hd. apply concat_said_nil. intros [key s] Hin. cbn [fst snd]. apply bool_decide_eq_false. intros E.
      specialize (Hs _ _ Hin). specialize (Hlen _ _ Hin). destruct (devSecrets !! key) as [t|]; [by apply Hs; rewrite E|].
      rewrite E in Hlen. change (len (default "" None)) with 0 in Hlen. lia.
    + by rewrite bool_decide_eq_false_2.
    + destruct Hpush as [->|[-> Ha]]; [done|]. cbn. by rewrite Ha.
    + by rewrite bool_decide_eq_false_2.
Qed.

Lemma Load_valid `{EnvLib} environ c : Load environ = Ok c → valid c.
Proof. unfold Load. destruct (ParseWithOptions environ) as [c'|]; [|done]. destruct (validate c') eqn:E; [|done]. intros [= <-]. by apply validate_valid. Qed.

(** *** Errors name the environment *)

Fixpoint leaves (f : field) : list (string * string) :=
  match f with
  | Leaf name tag => [(name, env_key tag)]
  | Nested _ fields => (fix go fields := match fields with [] => [] | f :: fields => leaves f ++ go fields end) fields
  end.

(** Field names are unique in the configuration, and each has a variable: an
    operator is told the variable of every value that could not be read, and
    nothing of the value. *)
Theorem errors_name_variables :
  NoDup (concat (leaves <$> Config_type)).*1 ∧
  ∀ name key text, (name, key) ∈ concat (leaves <$> Config_type) → with_env_name (envKeys Config_type) (ParseError name text) = key +:+ ": invalid value".
Proof.
  split; [apply (bool_decide_eq_true_1 (NoDup _)); vm_compute; reflexivity|]. intros name key text Hin. unfold with_env_name.
  assert (Hall : Forall (λ l, default "" (envKeys Config_type !! l.1) = l.2 ∧ l.2 ≠ "") (concat (leaves <$> Config_type))).
  { apply (bool_decide_eq_true_1 (Forall _ _)). vm_compute. reflexivity. }
  rewrite Forall_forall in Hall. destruct (Hall _ Hin) as [E Hne]. cbn [fst snd] in E, Hne. rewrite E. by rewrite bool_decide_eq_false_2.
Qed.

(** *** Limits of the pool *)

(** A limit shorter than a millisecond passes the check and is sent as 0, which
    to PostgreSQL is no limit. *)
Theorem short_limits_are_none cfg : 0 < da_StatementTimeout cfg < Millisecond → pool_params cfg !! "statement_timeout" = Some "0".
Proof.
  intros Hd. unfold pool_params. cbn [foldr fst snd]. rewrite (proj2 (Z.ltb_lt 0 _)) by lia. rewrite lookup_insert_eq. unfold Milliseconds.
  by rewrite Z.quot_small by lia.
Qed.

(** Otherwise the limits are the configured ones in milliseconds, rounded down;
    a migration has none. *)
Lemma limits_set cfg : Millisecond ≤ da_StatementTimeout cfg →
  pool_params cfg !! "statement_timeout" = Some (itoa (Z.quot (da_StatementTimeout cfg) Millisecond)) ∧ pool_params (without_limits cfg) = ∅.
Proof.
  intros Hd. change Millisecond with 1000000 in *. unfold pool_params. cbn [foldr fst snd]. rewrite (proj2 (Z.ltb_lt 0 (da_StatementTimeout cfg))) by lia.
  by rewrite lookup_insert_eq.
Qed.

(** With fewer than five connections, River's own and a handler's are more
    than the pool has. *)
Lemma small_pools_short n : 2 ≤ n < 5 → n < maxWorkers n + riverConns.
Proof. unfold maxWorkers, riverConns. lia. Qed.
Lemma workers_fit n : 5 ≤ n → maxWorkers n + riverConns ≤ n ∧ 1 ≤ maxWorkers n ≤ 10.
Proof. unfold maxWorkers, riverConns. lia. Qed.

(** *** Starting *)

Section started.
Context {Private Public Key : Type} `{AccessTokens.JwtLib Private Public, Fcm.FcmLib Key, Host, EnvLib}.

(** The configuration's check is the modules' check: after it no secret and no
    provider is refused. What can still stop the start is outside - the queue,
    the disk, the service account's file, the specification. *)
Theorem checked_configuration_starts c :
  validate c = [] →
  match newApplication (Private := Private) (Public := Public) (Key := Key) c with
  | Ok a => ap_hasher a = au_OTPSecret (c_Auth c) ∧ ap_links a = me_SigningSecret (c_Media c) ∧
            AccessTokens.NewSigner (au_TokenSecret (c_Auth c)) = Ok (ap_signer a) ∧
            (pu_Provider (c_Push c) = "console" → ap_sender a = None) ∧ (pu_Provider (c_Push c) = "fcm" → is_Some (ap_sender a))
  | Err e => match e with
             | ErrOutbox => river_ok = false
             | ErrMediaDir => directory_ok (me_Dir (c_Media c)) = false
             | ErrCredentialsFile => ReadFile (pu_FCMCredentialsFile (c_Push c)) = None
             | ErrCredentials e => e ≠ Fcm.ErrTimeout ∧ e ≠ Fcm.ErrBaseURL
             | ErrMount => spec_ok = false
             | _ => False
             end
  end.
Proof.
  intros [Henv _ _ Htime Hlen _ _ _ Hpush]%validate_valid. unfold newApplication.
  assert (Hs : ∀ key s, (key, s) ∈ secrets c → (len s <? 32) = false) by (intros key s Hin; apply Z.ltb_ge; by eapply Hlen).
  destruct river_ok eqn:Er; [|done]. cbn [ensure res_bind].
  unfold IamApp.NewHMACHasher, AccessTokens.NewSigner, Media.NewSigner, IamApp.MinSecretLen, AccessTokens.MinTokenSecretLen, Media.MinSecretLen.
  rewrite (Hs "OTP_SECRET"), (Hs "TOKEN_SIGNING_SECRET"), (Hs "MEDIA_SIGNING_SECRET") by (unfold secrets; set_solver). cbn [res_map_err res_bind].
  destruct (directory_ok _) eqn:Ed; [|done]. cbn [ensure res_bind]. unfold NewSender.
  destruct Hpush as [Hp|[Hp _]]; rewrite Hp.
  - rewrite bool_decide_eq_false_2 by done. cbn [res_bind]. rewrite bool_decide_eq_true_2 by done. cbn [orb res_bind].
    destruct spec_ok eqn:Esp; [|done]. cbn. by split_and!.
  - rewrite bool_decide_eq_true_2 by done. destruct (ReadFile _) as [file|] eqn:Ef; [|done]. cbn [res_bind].
    destruct (Fcm.NewFCM _) as [fcm|e] eqn:En; cbn [res_map_err res_bind].
    + destruct spec_ok eqn:Esp; [|done]. cbn. split_and!; [done..|by eexists].
    + unfold Fcm.NewFCM in En. cbn [Fcm.cf_Credentials Fcm.cf_BaseURL Fcm.cf_Timeout] in En. destruct (Fcm.parseServiceAccount file) as [r|e'] eqn:Ep; cbn [res_bind] in En.
      * exfalso. rewrite (proj2 (Z.leb_gt _ _)) in En by (eapply (Htime "FCM_TIMEOUT"); unfold timeouts; set_solver). done.
      * injection En as <-. unfold Fcm.parseServiceAccount in Ep. destruct (Fcm.unmarshal_account file); [|injection Ep as <-; done].
        repeat (match type of Ep with (if ?b then _ else _) = _ => destruct b; [injection Ep as <-; done|] end).
        destruct (Fcm.ParseRSAPrivateKeyFromPEM _); [done|]. injection Ep as <-. done.
Qed.

(** Whatever it runs as, the process runs on a valid configuration, with the
    limits it says unless it migrates. *)
Theorem run_checks_first args environ r :
  run (Private := Private) (Public := Public) (Key := Key) args environ = Ok r →
  ∃ c, Load environ = Ok c ∧ valid c ∧
    match r with
    | Migrating p => role_of args = Some Migrate ∧ p = pool_of (without_limits (c_Database c)) ∧ pl_Params p = ∅
    | Working p workers stop a => role_of args = Some Work ∧ p = pool_of (c_Database c) ∧ 1 ≤ workers ≤ 10 ∧ 0 < stop ∧ newApplication c = Ok a
    | Serving p cfg a => role_of args = Some Api ∧ p = pool_of (c_Database c) ∧ cfg = c_HTTP c ∧ newApplication c = Ok a
    end.
Proof.
  unfold run. destruct (role_of args) as [role|] eqn:Ero; [|done]. destruct (Load environ) as [c|] eqn:El; [|done]. cbn [res_map_err res_bind].
  pose proof (Load_valid _ _ El) as Hv. destruct (pool_ok _); [|done]. cbn [ensure res_bind]. intros Hr. exists c. split_and!; [done|done|].
  destruct role; [destruct (newApplication c) as [a|] eqn:Ea; [|done]; injection Hr as <-; done| |injection Hr as <-; done].
  destruct (newApplication c) as [a|] eqn:Ea; [|done]. injection Hr as <-. split_and!; try done; [unfold maxWorkers, riverConns; lia..|].
  eapply (va_timeouts _ Hv "WORKER_SHUTDOWN_TIMEOUT"). unfold timeouts. set_solver.
Qed.
End started.

(** *** Subscriptions *)

Section wiring.
Context {Msg W : Type} (handle : string → Handler Msg W).
Implicit Types b : Bus Msg W.

Lemma subscribe_each l b :
  NoDup l.*1 → (∀ name, name ∈ l.*1 → handlers b !! name = None) →
  ∃ b', subscribe_to handle l (Some b) = Some b' ∧ (built b → built b') ∧
    (∀ ty, subscribers b' ty = subscribers b ty ++ (filter (λ s, s.2 = ty) l).*1) ∧
    ∀ name, handlers b' !! name = if decide (name ∈ l.*1) then Some (handle name) else handlers b !! name.
Proof.
  revert b. induction l as [|[name ty] l IH]; intros b Hnd Hfree.
  - exists b. split_and!; [done|done|intros ty; by rewrite app_nil_r|done].
  - rewrite fmap_cons in Hnd, Hfree. cbn [fst] in Hnd, Hfree. apply NoDup_cons in Hnd as [Hni Hnd]. unfold subscribe_to. cbn [foldl fst snd mbind option_bind].
    destruct (Subscribe b name ty (handle name)) as [b1|] eqn:Es; [|exfalso; revert Es; unfold Subscribe; by rewrite Hfree by (by left)].
    assert (Eb : b1 = MkBus (<[name := handle name]> (handlers b)) (<[ty := subscribers b ty ++ [name]]> (byType b)) (tasks b)).
    { revert Es. unfold Subscribe. rewrite Hfree by (by left). by intros [= <-]. }
    destruct (IH b1) as (b' & E & Hb & Hs & Hh); [done| |].
    { intros n Hn. rewrite Eb. cbn [handlers]. rewrite lookup_insert_ne by (by intros ->). apply Hfree. by right. }
    exists b'. split_and!; [done|intros H; apply Hb; by eapply built_subscribe| |].
    + intros ty'. rewrite Hs, Eb. unfold subscribers at 1. cbn [byType]. rewrite filter_cons. cbn [snd].
      destruct (decide (ty = ty')) as [->|Hne]; [rewrite lookup_insert_eq; cbn; by rewrite <- app_assoc|by rewrite lookup_insert_ne].
    + intros n. rewrite Hh, Eb. cbn [handlers]. rewrite fmap_cons. cbn [fst]. destruct (decide (n ∈ l.*1)) as [Hn|Hn].
      * by rewrite decide_True by (by right).
      * destruct (decide (n = name)) as [->|Hne]; [by rewrite lookup_insert_eq, decide_True by (by left)|].
        rewrite lookup_insert_ne, decide_False by (done || by intros [?|?]%elem_of_cons). done.
Qed.

(** [main]'s subscriptions never clash; every event type has exactly the
    subscribers listed, each with its handler. *)
Theorem subscriptions_wired : ∃ b, subscribe handle New = Some b ∧ built b ∧
  (∀ name ty, name ∈ subscribers b ty ↔ (name, ty) ∈ subscriptions) ∧ ∀ name ty, (name, ty) ∈ subscriptions → handlers b !! name = Some (handle name).
Proof.
  destruct (subscribe_each subscriptions New) as (b & E & Hb & Hs & Hh).
  - apply (bool_decide_eq_true_1 (NoDup _)). vm_compute. reflexivity.
  - intros name _. cbn. apply lookup_empty.
  - exists b. split_and!; [exact E|apply Hb; constructor| |].
    + intros name ty. rewrite Hs. change (subscribers New ty) with (@nil string). rewrite app_nil_l, list_elem_of_fmap. split.
      * intros ([n t] & -> & [Ht Hin]%list_elem_of_filter). cbn in Ht. by subst t.
      * intros Hin. exists (name, ty). split; [done|]. by apply list_elem_of_filter.
    + intros name ty Hin. rewrite Hh, decide_True; [done|]. apply list_elem_of_fmap. by exists (name, ty).
Qed.
End wiring.
