(* ===== verification/BranchFlow.v ===== *)
(** * What business announces (src/internal/business/module.go; src/cmd/server/main.go, subscribe)

    Business publishes every approval and every change of a branch with the
    change; [main] hands them to billing and to discovery. Whatever order they
    arrive in and however often, customers find exactly the branches that are
    published, as their owners keep them, and every approved business has its
    trial.

    Discovery's and billing's names are used in full. *)
From S2P Require Import Prelude GoTime GoText GoCrypto Shared Tables BizBase Business Branch Invitation BizStore BizFacts BizApp BizFlow.
From S2P Require Outbox OutboxFlow Settled Discovery DiscStore DiscApp DiscFlow DiscPages Billing.
Open Scope Z_scope.

(** ** Reading the events (module.go) *)






(** ** What [main] does with them *)






(** ** What is announced *)







Section log.
Context `{TzLib}.







End log.

(** ** In every history *)

Section history.
Context `{UuidLib} `{TzLib}.
Context {Files : Type} (Save : Files → UserID → string → res biz_error StoredFile * Files) (Discard : Files → MediaID → Files).


End history.


(** ** What is kept *)


Section kept.
Context `{TzLib} `{Discovery.UnicodeLib}.


End kept.


Section copied.
Context `{TzLib} `{Discovery.UnicodeLib}.




End copied.

(** ** Through the outbox *)

Import Outbox.
Abbreviation biz_outbox db := (BizStore.outbox db).



Section queue.
Context `{Discovery.UnicodeLib}.





End queue.

Section theorem.
Context `{UuidLib} `{TzLib} `{Discovery.UnicodeLib}.
Context {Files : Type} (Save : Files → UserID → string → res biz_error StoredFile * Files) (Discard : Files → MediaID → Files).



End theorem.

(** ** An example: the shop that opened *)

Module BranchDemo.
#[local] Existing Instances decimal_ids demo_zones Discovery.Demo.small_tables.




End BranchDemo.
