(* ===== verification/Acl.v ===== *)
(** * The modules wired together
      (src/internal/{business,catalog,scheduling,booking}/adapters/acl, src/cmd/server/main.go)

    Each module states what it asks the others as an interface; here are the
    adapters that answer it from the other modules, and the readiness answer
    [main] puts together. An adapter knows the errors it translates; any
    other one is the asking module's [ErrStorage].

    The modules' names are used in full (BizApp.Role, SchedApp.Role, ...). *)
From S2P Require Import Prelude GoTime GoText Shared Tables.
From S2P Require SchedWeekly SchedCalendar SchedStore SchedApp Appointment BookApp BizBase BizStore BizApp Branch Catalog CatStore CatApp Billing Iam IamStore IamApp Media.
Open Scope Z_scope.

Import (hints) BizBase.
Import BizBase(TzLib).

(** ** What catalog asks business (catalog/adapters/acl/business.go) *)

(** [switch { case errors.Is(err, ErrNotFound) ... case ErrForbidden ... }]. *)
Definition cat_translate (e : BizBase.biz_error) : Catalog.cat_error :=
  match e with
  | BizBase.ErrNotFound => Catalog.ErrNotFound
  | BizBase.ErrForbidden => Catalog.ErrForbidden
  | _ => Catalog.ErrUpstream
  end.

Definition cat_staff_error (e : BizBase.biz_error) : Catalog.cat_error :=
  match e with BizBase.ErrNotFound => Catalog.ErrUnknownStaff | _ => Catalog.ErrUpstream end.

Definition cat_role (need : CatApp.Role) : string := match need with CatApp.RoleManager => "manager" | CatApp.RoleBarber => "barber" end.

Definition cat_access (bz : BizStore.BizDB) : CatApp.Access := {|
  CatApp.Access_Branch actor business branch need :=
    res_map_err cat_translate (BizApp.Module_AuthorizeBranch bz bz actor business branch (cat_role need));
  CatApp.Access_StaffAtBranch business branch staff := res_map_err cat_staff_error (BizApp.StaffAtBranch bz bz business branch staff) |}.

(** ** What business asks billing and iam (business/adapters/acl/billing.go, iam.go) *)

Definition BillingPlans (bill : Billing.BillDB) (now : time) (business : BusinessID) : res BizBase.biz_error BizApp.PlanStanding :=
  let! s := res_map_err (λ _, BizBase.ErrUpstream) (Billing.Module_Standing bill now business) in
  Ok (BizApp.MkStanding (Billing.pu_Plan s) (Billing.pu_PlanName s) (Billing.pu_Status s) (Billing.pu_TrialEndsAt s)
        (BizBase.MkLimits (Billing.pu_MaxBranches s) (Billing.pu_MaxStaff s))).

Definition IAMUsers_PhoneOf (iam : IamStore.IamDB) (user : UserID) : res BizBase.biz_error PhoneNumber :=
  res_map_err (λ e, match e with Iam.ErrNotFound => BizBase.ErrNotFound | _ => BizBase.ErrUpstream end) (IamApp.PhoneOf iam user).

(** Verification documents are media's files; [ends] is how the request's
    body ends. *)
Definition MediaFiles_Save `{UuidLib} (f : Media.Faults) (newID : MediaID) (now : time) (ends : Media.io_error)
    (w : Media.World) (by_ : UserID) (body : string) : res BizBase.biz_error BizApp.StoredFile * Media.World :=
  match Media.Module_Store w f newID now "cr_document" by_ (Media.MkBody body ends) with
  | (Ok s, w) => (Ok (BizApp.MkStoredFile (Media.st_ID s) (Media.st_ContentType s) (Media.st_Size s)), w)
  | (Err Media.ErrEmpty, w) => (Err BizBase.ErrEmptyFile, w)
  | (Err Media.ErrTooLarge, w) => (Err BizBase.ErrFileTooLarge, w)
  | (Err Media.ErrUnsupportedType, w) => (Err BizBase.ErrUnsupportedFile, w)
  | (Err _, w) => (Err BizBase.ErrUpstream, w)
  end.

Definition MediaFiles_Discard `{UuidLib} (f : Media.Faults) (w : Media.World) (oid : MediaID) : Media.World := (Media.Module_Delete w f oid).2.

Definition MediaFiles_DownloadURL `{UuidLib} (key : string) (now : time) (oid : MediaID) : string * time := Media.Module_DownloadURL key now oid.

(** ** What scheduling asks business (scheduling/adapters/acl/business.go) *)

Definition sched_translate (e : BizBase.biz_error) : SchedWeekly.sched_error :=
  match e with
  | BizBase.ErrNotFound => SchedWeekly.ErrNotFound
  | BizBase.ErrForbidden => SchedWeekly.ErrForbidden
  | _ => SchedWeekly.ErrStorage
  end.

Definition sched_role (need : SchedApp.Role) : string := match need with SchedApp.RoleManager => "manager" | SchedApp.RoleBarber => "barber" end.

Definition toMember (s : BizApp.Member) : SchedApp.Member :=
  SchedApp.MkMember (BizApp.m_ID s) (bool_decide (BizApp.m_Role s = BizBase.RoleOwner)) (bool_decide (BizApp.m_Role s = BizBase.RoleManager))
    (BizApp.m_Branches s).

(** [return toMember(m), translate(err)]: the member only counts without an error. *)
Definition member_answer (r : res BizBase.biz_error BizApp.Member) : res SchedWeekly.sched_error SchedApp.Member :=
  let! m := res_map_err sched_translate r in Ok (toMember m).

Definition sched_access `{TzLib} (bz : BizStore.BizDB) : SchedApp.Access := {|
  SchedApp.acc_Branch actor business branch need :=
    res_map_err sched_translate (BizApp.Module_AuthorizeBranch bz bz actor business branch (sched_role need));
  SchedApp.acc_MemberOf actor business := member_answer (BizApp.MemberOf bz actor business);
  SchedApp.acc_StaffMember business staff := member_answer (BizApp.StaffMember_of bz business staff);
  SchedApp.acc_StaffAtBranch business branch staff := res_map_err sched_translate (BizApp.StaffAtBranch bz bz business branch staff);
  SchedApp.acc_BranchLocation business branch := res_map_err sched_translate (BizApp.BranchLocation bz business branch) |}.

(** ** What booking asks the others (booking/adapters/acl/acl.go) *)

Definition book_translate (e : BizBase.biz_error) : Appointment.book_error :=
  match e with BizBase.ErrNotFound => Appointment.ErrNotFound | _ => Appointment.ErrStorage end.

Definition book_policy (p : BizBase.PolicyRules) : BookApp.Policy :=
  BookApp.MkPolicy (BizBase.MinLead p) (BizBase.HorizonDays p) (BizBase.SlotInterval p) (BizBase.Buffer p) (BizBase.AutoConfirm p)
    (BizBase.PendingExpiry p) (BizBase.MaxActiveBookings p) (BizBase.CancellationWindow p).

Definition Bookable `{TzLib} (bz : BizStore.BizDB) (branch : BranchID) : res Appointment.book_error BookApp.Branch :=
  let! b := res_map_err book_translate (BizApp.Module_BookableBranch bz branch) in
  Ok (BookApp.MkBranch (BizApp.bb_BusinessID b) (BizApp.bb_BranchID b) (BizApp.bb_Location b) (book_policy (BizApp.bb_Policy b))).

Definition Barbers (bz : BizStore.BizDB) (business : BusinessID) (branch : BranchID) (staff : list StaffID) : res Appointment.book_error (list BookApp.Barber) :=
  let! barbers := res_map_err (λ _, Appointment.ErrStorage) (BizApp.BranchBarbers bz business branch staff) in
  Ok ((λ b, BookApp.MkBarber (BizApp.bar_ID b) (BizApp.bar_Name b)) <$> barbers).

Definition book_performer (p : CatApp.Performer) : BookApp.Performer := BookApp.MkPerformer (CatApp.pf_Staff p) (CatApp.pf_Duration p) (CatApp.pf_Price p).
Definition book_item (it : CatApp.MenuItem) : BookApp.MenuItem :=
  BookApp.MkMenuItem (CatApp.mn_ID it) (CatApp.mn_Name it) (book_performer <$> CatApp.mn_Performers it).

Definition Menu (cat : CatStore.CatDB) (business : BusinessID) (branch : BranchID) : res Appointment.book_error (list BookApp.MenuItem) :=
  let! items := res_map_err (λ _, Appointment.ErrStorage) (CatApp.Menu cat business branch) in
  Ok (book_item <$> items).

(** A barber who left between two answers: no windows, rather than an error.
    A [None] inside is scheduling's panic. *)
Definition WorkingWindows `{TzLib} (bz : BizStore.BizDB) (sched : SchedStore.SchedDB) (business : BusinessID) (branch : BranchID)
    (staff : list StaffID) (from to : time) : res Appointment.book_error (gmap StaffID (list Interval)) :=
  match @SchedApp.Windows (sched_access bz) sched business branch staff from to with
  | Err SchedWeekly.ErrNotFound => Ok ∅
  | Err _ => Err Appointment.ErrStorage
  | Ok w => if forallb (λ e, present e.2) (map_to_list w) then Ok (omap id w) else Err Appointment.ErrPanic
  end.

Definition book_role (r : BizBase.Role) : BookApp.Role :=
  match r with
  | BizBase.RoleOwner => BookApp.RoleOwner
  | BizBase.RoleManager => BookApp.RoleManager
  | BizBase.RoleBarber => BookApp.RoleBarber
  end.

Definition MemberOf (bz : BizStore.BizDB) (actor : UserID) (business : BusinessID) : res Appointment.book_error BookApp.Member :=
  let! m := res_map_err book_translate (BizApp.MemberOf bz actor business) in
  Ok (BookApp.MkMember (BizApp.m_ID m) (book_role (BizApp.m_Role m)) (BizApp.m_Branches m)).

Definition BranchLocation `{TzLib} (bz : BizStore.BizDB) (business : BusinessID) (branch : BranchID) : res Appointment.book_error Location :=
  res_map_err book_translate (BizApp.BranchLocation bz business branch).

(** Booking's ports, answered from the tables of the three modules as they
    are while a request runs. *)
Definition booking_ports `{TzLib} (bz : BizStore.BizDB) (cat : CatStore.CatDB) (sched : SchedStore.SchedDB) : BookApp.Ports := {|
  BookApp.Bookable := Bookable bz;
  BookApp.Barbers := Barbers bz;
  BookApp.Menu := Menu cat;
  BookApp.WorkingWindows := WorkingWindows bz sched;
  BookApp.MemberOf := MemberOf bz;
  BookApp.BranchLocation := BranchLocation bz |}.

(** ** Whether a branch could take a booking (cmd/server/main.go) *)

Definition BranchReadiness `{UuidLib} (cat : CatStore.CatDB) (sched : SchedStore.SchedDB) (business : BusinessID) (branch : BranchID)
    : res BizBase.biz_error Branch.BranchReadiness :=
  let! performers := res_map_err (λ _, BizBase.ErrUpstream) (CatApp.PerformingStaff cat business branch) in
  let! hs := res_map_err (λ _, BizBase.ErrUpstream) (SchedApp.Readiness sched business branch performers) in
  Ok (Branch.MkBranchReadiness hs.1 (negb (length performers =? 0)%nat) (negb (length hs.2 =? 0)%nat)).
