(* ===== verification/DocFiles.v ===== *)
(** * Verification documents and their files
      (src/internal/business/adapters/acl/media.go, business/app/documents.go)

    Business keeps which documents an applicant attached, media the files.
    Composed, a document always has its file.

    Business's and media's names are used in full. *)
From S2P Require Import Prelude GoTime GoText GoCrypto Shared Tables Acl.
From S2P Require BizBase Business BizStore BizFacts BizApp BizFlow Media MediaFlow.
Open Scope Z_scope.

Section documents.
Context `{UuidLib} `{BizApp.Ports}.

(** Uploading a document through the adapter. *)
Definition UploadDocument (f g : Media.Faults) (newID : MediaID) (t : time) (ends : Media.io_error) (auth seen seen2 db : BizStore.BizDB) (w : Media.World) (now : time)
    (cmd : BizApp.UploadDocument) : res BizBase.biz_error BizApp.DocumentView * BizStore.BizDB * Media.World :=
  BizApp.Upload (MediaFiles_Save f newID t ends) (MediaFiles_Discard g) auth seen seen2 db w now cmd.

(** Uploads, among calls of business that leave documents alone: only
    uploading attaches one, and none is ever removed. *)
Inductive doc_step : BizStore.BizDB * Media.World → BizStore.BizDB * Media.World → Prop :=
| step_upload db w f g newID t ends auth seen seen2 now cmd :
    Media.objects w !! newID = None →
    let r := UploadDocument f g newID t ends auth seen seen2 db w now cmd in doc_step (db, w) (r.1.2, r.2)
| step_other db w db' : BizStore.documents db' = BizStore.documents db → doc_step (db, w) (db', w).

Definition doc_reachable : BizStore.BizDB * Media.World → Prop := rtc doc_step (BizStore.empty_biz_db, Media.empty_world).

(** A document's row is of a stored file, with its type and size. *)
Definition backed (db : BizStore.BizDB) (w : Media.World) : Prop :=
  ∀ oid d, BizStore.documents db !! oid = Some d →
    BizStore.d_ObjectID d = oid ∧ ∃ r, Media.objects w !! oid = Some r ∧ Media.or_ContentType r = BizStore.d_ContentType d ∧ Media.or_SizeBytes r = BizStore.d_SizeBytes d.

Lemma Save_spec f newID t ends w by_ body :
  Media.objects w !! newID = None →
  ∃ w', (MediaFiles_Save f newID t ends w by_ body).2 = w' ∧ MediaFlow.media_step w w' ∧
  match (MediaFiles_Save f newID t ends w by_ body).1 with
  | Ok s => ∃ o, Media.objects w' = <[newID := Media.object_row o]> (Media.objects w) ∧ BizApp.f_ID s = newID ∧
      BizApp.f_ContentType s = Media.ContentType_string (Media.contentType o) ∧ BizApp.f_Size s = Media.size o
  | Err _ => Media.objects w' = Media.objects w
  end.
Proof.
  intros Hnew. pose proof (MediaFlow.step_store w f newID t "cr_document" by_ (Media.MkBody body ends) Hnew) as Hstep.
  unfold MediaFiles_Save, Media.Module_Store. destruct (Media.Store _ _ _ _ _ _ _) as [[o|e] w'] eqn:E; cbn [snd] in Hstep; exists w'.
  - destruct (MediaFlow.Store_rows _ _ _ _ _ _ _ _ _ Hnew E) as (Ho & Hid). split_and!; [done|done|]. exists o. by rewrite Hid.
  - pose proof (MediaFlow.Store_rows _ _ _ _ _ _ _ _ _ Hnew E) as Ho. destruct e; by split_and!.
Qed.

Lemma Discard_spec g w oid :
  MediaFlow.media_step w (MediaFiles_Discard g w oid) ∧ ∀ o, o ≠ oid → Media.objects (MediaFiles_Discard g w oid) !! o = Media.objects w !! o.
Proof.
  split; [apply MediaFlow.step_delete|]. intros o Hne. unfold MediaFiles_Discard, Media.Module_Delete, Media.Delete, Media.Objects_Delete, Media.Disk_Remove.
  rewrite MediaFlow.name_ID. destruct (Media.row_fails g); [done|]. cbn. destruct (Media.remove_fails g); cbn; by rewrite lookup_delete_ne.
Qed.

Lemma backed_more db w w' :
  backed db w → (∀ oid, BizStore.documents db !! oid ≠ None → Media.objects w' !! oid = Media.objects w !! oid) → backed db w'.
Proof. intros Hb Hw oid d Hd. destruct (Hb oid d Hd) as (Hid & r & Hr & Hrest). split; [done|]. exists r. rewrite Hw; [done|congruence]. Qed.

Lemma doc_step_ok db w db' w' :
  MediaFlow.media_reachable w ∧ backed db w → doc_step (db, w) (db', w') → MediaFlow.media_reachable w' ∧ backed db' w'.
Proof.
  intros [Hm Hb] Hs. inversion Hs as [? ? f g newID t ends auth seen seen2 now cmd Hnew r E1 E2|? ? ? Hd]; subst.
  2:{ split; [done|]. intros oid d. rewrite Hd. apply Hb. }
  subst r. unfold UploadDocument, BizApp.Upload. destruct (BizApp.Upload_check _ _ _ _) as [kind|]; [|done].
  assert (Hnone : BizStore.documents db !! newID = None).
  { destruct (BizStore.documents db !! newID) as [d|] eqn:Ed; [|done]. destruct (Hb newID d Ed) as (_ & r & Hr & _). congruence. }
  destruct (Save_spec f newID t ends w (BizApp.ud_Actor cmd) (BizApp.ud_Body cmd) Hnew) as (w1 & Ew & Hw & Hsave).
  destruct (MediaFiles_Save _ _ _ _ _ _ _) as [[s|e] w1'] eqn:Esave; cbn [fst snd] in Ew, Hsave; subst w1'.
  2:{ split; [by eapply rtc_r|]. apply (backed_more db w); [done|]. intros. cbn [snd]. by rewrite Hsave. }
  destruct Hsave as (o & Ho & Hid & Hct & Hsz).
  assert (Hkeep : ∀ oid, BizStore.documents db !! oid ≠ None → Media.objects w1 !! oid = Media.objects w !! oid).
  { intros oid Hoid. rewrite Ho, lookup_insert_ne; [done|]. by intros ->. }
  set (attach := BizStore.Attach db _ Business.CanAttachDocument). destruct attach as [db1|e] eqn:Ea; subst attach; cbn [fst snd].
  - split; [by eapply rtc_r|]. apply BizFacts.Attach_effect in Ea as (_ & _ & _ & _ & _ & _ & ->).
    intros oid d. cbn [BizStore.documents BizStore.set_documents Business.doc_file Business.NewVerificationDocument]. rewrite Hid. intros [[<- <-]|[Hne Hd]]%lookup_insert_Some; [|by apply (backed_more db w w1 Hb Hkeep)]. split; [by rewrite <- Hid|].
    exists (Media.object_row o). rewrite Ho, lookup_insert_eq. split_and!; [done|symmetry; exact Hct|symmetry; exact Hsz].
  - rewrite Hid. destruct (Discard_spec g w1 newID) as [Hstep Hother]. split; [by eapply rtc_r, Hstep; eapply rtc_r|].
    apply (backed_more db w); [done|]. intros oid Hoid. rewrite Hother, Hkeep; [done|done|]. by intros ->.
Qed.

Lemma doc_reachable_ok s : doc_reachable s → MediaFlow.media_reachable s.2 ∧ backed s.1 s.2.
Proof.
  unfold doc_reachable. intros Hr. eapply (rtc_ind_r (λ s, MediaFlow.media_reachable s.2 ∧ backed s.1 s.2) (BizStore.empty_biz_db, Media.empty_world)); [| |exact Hr].
  - split; [constructor|by intros ? ?].
  - intros [db1 w1] [db2 w2] _ Hs IH. by eapply doc_step_ok.
Qed.

(** C29. A document an applicant attached always has its file: whatever fails
    of uploading, attaching and cleaning up, and in whatever order requests
    run, media has the row of every document of business, with the type and
    size business shows, and the file opens, whole, as that row says. *)
Theorem documents_have_files db w oid d :
  doc_reachable (db, w) → BizStore.documents db !! oid = Some d →
  ∃ r file, Media.objects w !! oid = Some r ∧ Media.Disk_Open (Media.disk w) MediaFlow.no_faults (ID_String oid) = Ok file ∧ MediaFlow.describes r file ∧
    BizStore.d_ObjectID d = oid ∧ BizStore.d_ContentType d = Media.or_ContentType r ∧ BizStore.d_SizeBytes d = len file ∧ 1 ≤ len file ≤ Media.MaxSize.
Proof.
  intros Hr Hd. pose proof (doc_reachable_ok (db, w) Hr) as Hok.
  destruct Hok as [Hm Hb]. destruct (Hb oid d Hd) as (Hid & r & Hrow & Hct & Hsz).
  destruct (MediaFlow.media_reachable_ok w Hm oid r Hrow) as (_ & _ & file & Hf & Hdesc). exists r, file. destruct (MediaFlow.ds_size _ _ Hdesc) as [Hlen Hmax].
  split_and!; try done; [|congruence|lia..]. unfold Media.Disk_Open. by rewrite MediaFlow.name_ID, Hf.
Qed.
End documents.

(** ** An example: the certificate of the example business *)
Section demo.
#[local] Existing Instances decimal_ids.

Definition certificate_stored : BizStore.BizDB * Media.World :=
  let r := @UploadDocument decimal_ids BizFlow.demo_ports MediaFlow.no_faults MediaFlow.no_faults (MkID 90) (1800000120 * Second) Media.EOF BizFlow.s2 BizFlow.s2 BizFlow.s2 BizFlow.s2
    Media.empty_world (1800000120 * Second) BizFlow.upload_cmd in (r.1.2, r.2).

Lemma documents_have_files_witness :
  ∃ d r, BizStore.documents certificate_stored.1 !! MkID 90 = Some d ∧ Media.objects certificate_stored.2 !! MkID 90 = Some r ∧
    BizStore.d_ContentType d = Media.or_ContentType r ∧ Media.or_SizeBytes r = 6.
Proof.
  assert (Hr : @doc_reachable decimal_ids BizFlow.demo_ports certificate_stored).
  { eapply rtc_r; [eapply rtc_once, (step_other _ _ BizFlow.s2); vm_compute; reflexivity|]. apply step_upload. reflexivity. }
  assert (Ed : ∃ d, BizStore.documents certificate_stored.1 !! MkID 90 = Some d) by (eexists; vm_compute; reflexivity). destruct Ed as [d Ed].
  destruct (@documents_have_files decimal_ids BizFlow.demo_ports certificate_stored.1 certificate_stored.2 (MkID 90) d) as (r & file & Hrow & _ & _ & _ & Hct & _);
    [rewrite <- surjective_pairing; exact Hr|exact Ed|].
  exists d, r. split; [exact Ed|]. split; [exact Hrow|]. split; [exact Hct|]. vm_compute in Hrow. injection Hrow as <-. reflexivity.
Defined.
End demo.
