(* ===== verification/Compose.v ===== *)
(** * Booking over the real modules

    The adapters of Acl discharge the laws booking relies on: in every state
    the business, catalog and scheduling tables reach, the composed ports
    answer as [PortsLaws] asks. With them, what the composed shop offers can
    be booked. *)
From S2P Require Import Prelude GoTime GoText Shared Tables Spans BookStore BookApp BookFlow.
From S2P Require SchedWeekly SchedCalendar SchedStore SchedApp BizBase Branch Business BizStore BizFacts BizApp BizFlow Catalog CatStore CatFacts CatApp CatFlow Acl.
Open Scope Z_scope.

Import (hints) BizBase.
Import BizBase(TzLib, LoadLocation).
Import BizStore(BizDB, find_branch, branches).

(** ** Business's answers *)

Section business.
Context `{TzLib} (bz : BizDB) (Hbz : BizFacts.db_ok bz).

(** Someone who works at a branch the business has. *)
Definition staff_at (biz : BusinessID) (br : BranchID) (st : StaffID) : Prop :=
  is_Some (find_branch bz biz br) ∧
  ∃ ms m, BizStore.List_staff bz biz = Ok ms ∧ m ∈ ms ∧ BizApp.works_there br m = true ∧ BizBase.sm_id m = st.

Lemma List_staff_ok biz : ∃ ms, BizStore.List_staff bz biz = Ok ms.
Proof using Hbz.
  unfold BizStore.List_staff.
  assert (Hall : ∀ r, r ∈ sort_by BizStore.by_created (rows_where (λ r, bool_decide (BizStore.s_BusinessID r = biz)) (BizStore.staff_members bz)) →
    ∃ m, BizStore.load_member bz r = Ok m).
  { intros r Hr. rewrite elem_of_sort_by in Hr. apply elem_of_rows_where in Hr as (k & Hk & _).
    destruct (BizFacts.do_staff bz Hbz k r Hk) as (m & -> & _). unfold BizStore.load_member, BizStore.toStaffMember, BizFacts.staff_row. cbn.
    rewrite BizBase.ParseRole_string. by eexists. }
  induction (sort_by _ _) as [|r l IH]; [by exists []|]. destruct (Hall r ltac:(by left)) as [m Hm].
  destruct IH as [ms Hms]; [intros; apply Hall; by right|]. exists (m :: ms). simpl. rewrite Hm. simpl. by rewrite Hms.
Qed.

Lemma Branches_ByID_found biz br : is_Some (find_branch bz biz br) → ∃ b, BizStore.Branches_ByID bz biz br = Ok b ∧ Branch.branch_ok b ∧
  branches bz !! br = Some (BizFacts.branch_row b).
Proof using Hbz.
  intros [r Hr]. destruct (BizFacts.Branches_ByID_ok bz biz br Hbz) as [[E _]|(b & Eb & _ & _ & E & Hb)]; [congruence|]. by exists b.
Qed.

Lemma StaffAtBranch_ok biz br staff :
  is_Some (find_branch bz biz br) → Forall (staff_at biz br) staff → BizApp.StaffAtBranch bz bz biz br staff = Ok tt.
Proof using Hbz.
  intros Hbr Hst. destruct (Branches_ByID_found biz br Hbr) as (b & Eb & _). unfold BizApp.StaffAtBranch. rewrite Eb. cbn [res_bind].
  destruct (length staff =? 0)%nat; [done|]. destruct (List_staff_ok biz) as [ms Ems]. rewrite Ems. cbn [res_bind].
  assert (forallb (λ s, bool_decide (s ∈ BizBase.sm_id <$> filter (λ m, BizApp.works_there br m = true) ms)) staff = true) as ->; [|done].
  apply forallb_forall. intros st Hin%list_elem_of_In. rewrite Forall_forall in Hst. destruct (Hst st Hin) as (_ & ms' & m & Ems' & Hm & Hw & <-).
  rewrite Ems in Ems'. injection Ems' as <-. apply bool_decide_eq_true, list_elem_of_fmap_2. by apply list_elem_of_filter.
Qed.

(** Zones without clock changes, as Saudi Arabia's. *)
Definition no_clock_changes : Prop := ∀ k r, branches bz !! k = Some r → ∃ off, LoadLocation (BizStore.b_Timezone r) = Some (fixed_zone off).

Lemma BranchLocation_ok biz br : no_clock_changes → is_Some (find_branch bz biz br) → ∃ off, BizApp.BranchLocation bz biz br = Ok (fixed_zone off).
Proof using Hbz.
  intros Hz Hbr. destruct (Branches_ByID_found biz br Hbr) as (b & Eb & _ & Er). destruct (Hz _ _ Er) as [off Hoff].
  exists off. unfold BizApp.BranchLocation. rewrite Eb. cbn [res_bind]. cbn in Hoff. by rewrite Hoff.
Qed.

Lemma Bookable_ok id b : Acl.Bookable bz id = Ok b →
  b_ID b = id ∧ policy_ok (b_Policy b) ∧ is_Some (find_branch bz (b_BusinessID b) id) ∧
  (no_clock_changes → ∃ off, b_Location b = fixed_zone off).
Proof using Hbz.
  unfold Acl.Bookable, BizApp.Module_BookableBranch. intros (bb & Hbb & [= <-])%res_bind_ok. cbn [b_ID b_Policy b_BusinessID b_Location].
  destruct (BizStore.Branches_Bookable bz id) as [br|e] eqn:Ebr; cbn [res_bind] in Hbb; [|by destruct e].
  unfold BizStore.Branches_Bookable in Ebr. destruct (branches bz !! id) as [r|] eqn:Er; [|done]. destruct (_ && _); [|done].
  destruct (BizFacts.do_branch bz Hbz id r Er) as (b0 & Hb0 & Hid & -> & _ & Hev & _). rewrite BizFacts.toBranch_row in Ebr by done.
  rewrite BizFacts.branch_loaded_fresh in Ebr by done. injection Ebr as <-.
  destruct (LoadLocation _) as [l|] eqn:El; cbn in Hbb; [|done]. injection Hbb as <-. cbn. split; [done|].
  destruct (Branch.bk_policy b0 Hb0) as [_ _ Hslot (m & Em & Hm) _ _ _]. split; [split; cbn|].
  - rewrite Em. unfold Hour, Minute, Second, Millisecond, Microsecond. lia.
  - unfold BizBase.slotIntervals in Hslot. rewrite !elem_of_cons, elem_of_nil in Hslot.
    destruct Hslot as [->|[->|[->|[->|[->|[->|[]]]]]]]; [by exists 5|by exists 10|by exists 15|by exists 20|by exists 30|by exists 60].
  - split; [eexists; apply BizFacts.find_branch_some; by split|]. intros Hz. destruct (Hz _ _ Er) as [off Hoff]. cbn in Hoff. exists off. congruence.
Qed.

Lemma Barbers_ok biz br staff bs b :
  is_Some (find_branch bz biz br) → Acl.Barbers bz biz br staff = Ok bs → b ∈ bs → staff_at biz br (barber_ID b).
Proof using Hbz.
  intros Hbr Hbs Hin. unfold Acl.Barbers, BizApp.BranchBarbers in Hbs. destruct (List_staff_ok biz) as [ms Ems]. rewrite Ems in Hbs.
  cbn [res_bind res_map_err] in Hbs. injection Hbs as <-. apply list_elem_of_fmap in Hin as (x & -> & Hx).
  apply list_elem_of_omap in Hx as (st & _ & Hx). cbn.
  assert (Hget : ∀ l (t : gmap StaffID BizBase.StaffMember) m, foldl (λ t m, <[BizBase.sm_id m := m]> t) t l !! st = Some m →
    t !! st = Some m ∨ m ∈ l ∧ BizBase.sm_id m = st).
  { induction l as [|y l IH]; intros t m Hm; [by left|]. cbn [foldl] in Hm. destruct (IH _ _ Hm) as [Hi|[? ?]]; [|right; split; [by right|done]].
    apply lookup_insert_Some in Hi as [[? ->]|[_ ?]]; [right; split; [by left|done]|by left]. }
  destruct (foldl _ _ _ !! st) as [m|] eqn:Em; [|done]. cbn in Hx. injection Hx as <-. cbn.
  apply Hget in Em as [?|[Hm Eid]]; [done|]. apply list_elem_of_filter in Hm as [Hw Hm]. split; [done|]. exists ms, m. done.
Qed.
End business.

(** ** Catalog's answer *)

Lemma Menu_items_ok cat biz br menu : CatFacts.cat_ok cat → Acl.Menu cat biz br = Ok menu → Forall menu_item_ok menu.
Proof.
  intros Hcat Hm. unfold Acl.Menu in Hm. destruct (CatFlow.Menu_ok cat biz br Hcat) as (ss & _ & Em & _ & Hin & _). rewrite Em in Hm.
  cbn [res_map_err res_bind] in Hm. injection Hm as <-. apply Forall_forall. intros m (it & -> & (s & Hs & Eit)%list_elem_of_omap)%list_elem_of_fmap.
  destruct (Hin s Hs) as (_ & Hok & _). pose proof Eit as [_ E]%CatFlow.item_from_some. split.
  - cbn. rewrite <- list_fmap_compose, E. cbn. rewrite <- list_fmap_compose. apply Hok.
  - intros p (q & -> & Hq)%list_elem_of_fmap. destruct (CatFlow.menu_performer s it q Hok Eit Hq) as [(k & Ek & Hk) [Hc Ha]].
    cbn. rewrite E. cbn. unfold item_storable, Appointment.item_ok. cbn. unfold Catalog.DurationStep in Ek. unfold Catalog.MaxPriceHalalas in Ha. split_and!; try done.
    + rewrite Ek. unfold Minute, Second, Millisecond, Microsecond. lia.
    + rewrite Ek. unfold Minute, Second, Millisecond, Microsecond. lia.
    + lia.
    + lia.
    + exists (k * 5). lia.
    + apply Hok.
Qed.

(** ** The laws *)

Section laws.
Context `{UuidLib} `{TzLib} (bz : BizDB) (cat : CatStore.CatDB) (sched : SchedStore.SchedDB).
Context (Hbz : BizFacts.db_ok bz) (Hcat : CatFacts.cat_ok cat) (Hsched : SchedStore.db_ok sched) (Hz : no_clock_changes bz).

(** When someone can work: as scheduling's tables say, in the branch's zone. *)
Definition can_work (biz : BusinessID) (br : BranchID) (st : StaffID) (t : time) : Prop :=
  ∃ loc, BizApp.BranchLocation bz biz br = Ok loc ∧ SchedApp.available sched loc biz br st t.

Lemma windows_law biz br staff from to :
  from < to → to - from ≤ 62 * 86400 * Second → Forall (staff_at bz biz br) staff →
  ∃ out, Acl.WorkingWindows bz sched biz br staff from to = Ok out ∧
    ∀ st, st ∈ staff → ∃ r, out !! st = Some r ∧ normalized r ∧ ∀ t, covered t r ↔ from ≤ t < to ∧ can_work biz br st t.
Proof using Hbz Hsched Hz.
  intros Hlt Hlen Hst. unfold Acl.WorkingWindows. destruct (find_branch bz biz br) as [r|] eqn:Er.
  - assert (Hbr : is_Some (find_branch bz biz br)) by (by eexists). destruct (BranchLocation_ok bz Hbz biz br Hz Hbr) as [off Hoff].
    destruct (@SchedApp.Windows_ok (Acl.sched_access bz) sched biz br staff from to off) as (w & Ew & Hw); try done.
    { cbn. by rewrite (StaffAtBranch_ok bz Hbz). }
    { cbn. by rewrite Hoff. }
    rewrite Ew. assert (forallb (λ e, present e.2) (map_to_list w) = true) as ->.
    { apply forallb_forall. intros [st x] Hin%list_elem_of_In. apply elem_of_map_to_list in Hin. specialize (Hw st). rewrite Hin in Hw. by destruct x. }
    eexists. split; [done|]. intros st Hin. specialize (Hw st). rewrite lookup_omap. destruct (w !! st) as [[x|]|]; [|done..].
    destruct Hw as (_ & Hn & Hc). exists x. split; [done|]. split; [done|]. intros t. rewrite Hc. unfold can_work. rewrite Hoff.
    split; intros [Ht Ha]; (split; [done|]); [by exists (fixed_zone off)|]. by destruct Ha as (loc & [= <-] & Ha).
  - assert (staff = []) as ->.
    { destruct staff as [|st staff]; [done|]. apply Forall_cons in Hst as [[[x Hx] _] _]. congruence. }
    assert (E : BizStore.Branches_ByID bz biz br = Err BizBase.ErrNotFound) by (unfold BizStore.Branches_ByID; by rewrite Er).
    assert (@SchedApp.Windows (Acl.sched_access bz) sched biz br [] from to = Err SchedWeekly.ErrNotFound) as ->.
    { unfold SchedApp.Windows, SchedApp.compute, After. rewrite (proj2 (Z.ltb_lt _ _)) by done.
      assert ((SchedApp.MaxWindowsRange <? Sub to from) = false) as ->.
      { apply SchedCalendar.Sub_le_bound; [vm_compute; split; [intros ?|]; congruence|lia|]. change SchedApp.MaxWindowsRange with (62 * 86400 * Second). lia. }
      cbn [negb orb ensure res_bind SchedApp.acc_StaffAtBranch Acl.sched_access]. unfold BizApp.StaffAtBranch. by rewrite E. }
    exists ∅. split; [done|]. by intros st ?%not_elem_of_nil.
Qed.

(** The composed ports keep booking's laws. *)
#[export] Instance composed_laws : PortsLaws (Acl.booking_ports bz cat sched).
Proof using Hbz Hcat Hsched Hz.
  refine {| at_branch := staff_at bz; works := can_work |}.
  - intros id b Hb. by apply (Bookable_ok bz Hbz) in Hb as (? & ? & _).
  - intros id branch staff bs b Hb Hbs Hin. apply (Bookable_ok bz Hbz) in Hb as (<- & _ & Hbr & _). exact (Barbers_ok bz Hbz _ _ staff bs b Hbr Hbs Hin).
  - intros biz br menu. by apply Menu_items_ok.
  - apply windows_law.
Defined.
End laws.

(** ** The composed shop *)

Section shop.
Context `{UuidLib} `{TzLib} {Files : Type} (Save : Files → UserID → string → res BizBase.biz_error BizApp.StoredFile * Files) (Discard : Files → MediaID → Files).

(** C17. The modules keep booking's contract, whatever each has been through: with
    the tables of business, catalog and scheduling in any states they reach,
    and shops in zones without clock changes, a slot that booking offers from
    their answers can be booked at once by a customer below their limit,
    with a barber it named - someone who works at the branch and, for every
    instant of the visit and its buffer, is inside the opening hours and
    their own schedule, takes no time off and has no other appointment. *)
Theorem shop_books_what_it_offers h bz cat sched quote db now q av slots s st cmd newID :
  BizFlow.biz_history Save Discard h → bz ∈ h → no_clock_changes bz →
  CatFlow.cat_reachable cat → SchedApp.sched_reachable sched → store_reachable db →
  @Query _ (Acl.booking_ports bz cat sched) db now q = Ok av → av_Slots av = Some slots → s ∈ slots → st ∈ BookSlots.slot_Staff s →
  BookSlots.valid_day_of (q_Day q) →
  c_Branch cmd = q_Branch q → c_Services cmd = q_Services q → c_Start cmd = BookSlots.slot_Start s →
  (c_Barber cmd = q_Barber q ∨ c_Barber cmd = Some st) →
  c_Customer cmd ≠ MkID 0 → RuneCountInString (TrimSpace (c_Note cmd)) ≤ Appointment.MaxNoteLen →
  idempotency_keys db !! (c_Customer cmd, c_IdempotencyKey cmd) = None → appointments db !! newID 0%nat = None →
  CountActiveBookings db (c_Customer cmd) (b_ID (av_Branch av)) now < MaxActiveBookings (b_Policy (av_Branch av)) →
  ∃ a db',
    @Book _ (Acl.booking_ports bz cat sched) quote db db db now newID (Acl.WorkingWindows bz sched) cmd = Ok (Some a, false, db') ∧
    diary db' !! newID 0%nat = Some (Appointment.state a) ∧
    let biz := b_BusinessID (av_Branch av) in
    let who := Appointment.ap_Barber (Appointment.state a) in
    Appointment.ap_Start (Appointment.state a) = BookSlots.slot_Start s ∧ who ∈ BookSlots.slot_Staff s ∧ staff_at bz biz (b_ID (av_Branch av)) who ∧
    ∀ t, BookSlots.slot_Start s ≤ t < Appointment.ap_BusyUntil (Appointment.state a) →
      can_work bz sched biz (b_ID (av_Branch av)) who t ∧ ¬ taken db who t.
Proof.
  intros Hh Hin Hz Hcat Hsched Hdb HQ Hslots Hs Hst Hday. intros Ebr Eserv Estart Hwho Hcust Hnote Hkey Hid Hlim.
  assert (Hbz : BizFacts.db_ok bz).
  { destruct h as [|db0 past]; [by apply not_elem_of_nil in Hin|].
    by destruct (BizFlow.biz_history_ok Save Discard (db0 :: past) db0 past Hh eq_refl bz Hin). }
  apply CatFlow.cat_reachable_ok in Hcat as [Hcat _]. apply SchedApp.sched_reachable_ok in Hsched.
  pose (L := composed_laws bz cat sched Hbz Hcat Hsched Hz).
  assert (Hbk : Acl.Bookable bz (q_Branch q) = Ok (av_Branch av)).
  { unfold Query in HQ. destruct (services_ok _); cbn [ensure res_bind] in HQ; [|done].
    apply res_bind_ok in HQ as (b & Hb & HQ). cbn in Hb. rewrite Hb. f_equal. repeat (apply res_bind_ok in HQ as (? & _ & HQ)).
    destruct (_ || _ || _) in HQ; [by injection HQ as <-|]. apply res_bind_ok in HQ as (? & _ & HQ). by injection HQ as <-. }
  destruct (Bookable_ok bz Hbz _ _ Hbk) as (_ & _ & _ & Hloc). destruct (Hloc Hz) as [off Hoff].
  destruct (@offered_slot_books _ (Acl.booking_ports bz cat sched) L quote db now q av slots s st off cmd newID
    Hdb HQ Hslots Hs Hst Hoff Hday Ebr Eserv Estart Hwho Hcust Hnote Hkey Hid Hlim)
    as (a & db' & HB & Es & Hb & _ & Hd & Hat & Hpos & Hfree).
  exists a, db'. split; [exact HB|]. split; [exact Hd|]. cbn zeta. split; [done|]. split; [done|]. split; [exact Hat|].
  intros t Ht. apply Hfree. lia.
Qed.
End shop.

(** ** A day at a composed shop

    The shop of BizFlow's example - approved, published, its barber hired -
    adds a service, assigns the barber, opens Saturdays from ten to six and
    schedules the barber; a customer asks for Saturday and books. Each module
    is asked through its adapter. *)

Section demo.
#[local] Existing Instance decimal_ids.
#[local] Existing Instance BizFacts.demo_zones.

Definition salon : BizDB := BizFlow.s8.
Definition owner_here : CatApp.BranchRef := CatApp.MkRef BizFlow.founder (MkID 1) (MkID 2).

Definition add_haircut : CatApp.CreateService :=
  CatApp.MkCreateService owner_here "haircut" (CatApp.MkName "قص شعر" "Haircut") (Catalog.MkDescription "" "") (30 * Minute) (CatApp.MkMoneyInput 6000 "SAR") 1.
Definition assign_salem : CatApp.SetOfferingsCmd := CatApp.MkSetOfferings owner_here (MkID 7) 1 [CatApp.MkOfferingInput (MkID 4) None None].

Definition menu1 : CatStore.CatDB := Eval vm_compute in
  match @CatApp.Create (Acl.cat_access salon) CatStore.empty_cat_db 0 (MkID 7) add_haircut with Ok (_, db) => db | Err _ => CatStore.empty_cat_db end.
Definition menu2 : CatStore.CatDB := Eval vm_compute in
  match @CatApp.SetOfferings_handler _ (Acl.cat_access salon) menu1 0 assign_salem with Ok (_, db) => db | Err _ => CatStore.empty_cat_db end.

Lemma menu_reached : CatFlow.cat_reachable menu2.
Proof.
  apply (CatFlow.cat_next menu1); [apply (CatFlow.cat_next CatStore.empty_cat_db); [constructor|]|].
  - assert (E : ∃ s, @CatApp.Create (Acl.cat_access salon) CatStore.empty_cat_db 0 (MkID 7) add_haircut = Ok (s, menu1)) by (vm_compute; eauto).
    destruct E as [s E]. by eapply CatFlow.step_create.
  - assert (E : ∃ s, @CatApp.SetOfferings_handler _ (Acl.cat_access salon) menu1 0 assign_salem = Ok (s, menu2)) by (vm_compute; eauto).
    destruct E as [s E]. by eapply CatFlow.step_offerings.
Qed.

Definition open_here : SchedApp.BranchRef := SchedApp.MkBranchRef BizFlow.founder (MkID 1) (MkID 2).
Definition saturday : list SchedWeekly.WeeklyInterval := [SchedWeekly.MkWeekly 6 600 480].
Definition overrides_in_order (s : SchedCalendar.BarberSchedule) := map_to_list (SchedCalendar.sch_overrides s).

Definition hours1 : SchedStore.SchedDB := Eval vm_compute in
  match @SchedApp.SetOpeningHours_handler (Acl.sched_access salon) SchedStore.empty_db 0 open_here 0 saturday with Ok (_, db) => db | Err _ => SchedStore.empty_db end.
Definition hours2 : SchedStore.SchedDB := Eval vm_compute in
  match @SchedApp.SetSchedule_handler (Acl.sched_access salon) hours1 0 (SchedApp.MkStaffRef open_here (MkID 4)) 0 saturday ∅ [] overrides_in_order with
  | Ok (_, db) => db | Err _ => SchedStore.empty_db end.

Lemma hours_reached : SchedApp.sched_reachable hours2.
Proof.
  assert (E1 : ∃ c, @SchedApp.SetOpeningHours_handler (Acl.sched_access salon) SchedStore.empty_db 0 open_here 0 saturday = Ok (c, hours1)) by (vm_compute; eauto).
  assert (E2 : ∃ s, @SchedApp.SetSchedule_handler (Acl.sched_access salon) hours1 0 (SchedApp.MkStaffRef open_here (MkID 4)) 0 saturday ∅ [] overrides_in_order = Ok (s, hours2))
    by (vm_compute; eauto).
  destruct E1 as [c E1], E2 as [s E2].
  eapply rtc_l; [by eapply (SchedApp.step_hours _ _ (Acl.sched_access salon))|].
  eapply rtc_l; [eapply (SchedApp.step_schedule _ _ (Acl.sched_access salon)); [| |exact E2]; done|]. apply rtc_refl.
Qed.

Lemma salon_zone : no_clock_changes salon.
Proof.
  intros k r Hr. apply elem_of_map_to_list in Hr. revert Hr. vm_compute (map_to_list _). intros Hr.
  apply list_elem_of_singleton in Hr as [= -> ->]. by exists 10800.
Qed.

(** Friday the 15th of January 2027, noon in Riyadh; and the day after. *)
Definition friday : time := BizFlow.minute 60.
Definition ask_saturday : AvailabilityQuery := MkQuery (MkID 2) (BookSlots.MkDayOf (SchedDate.MkDate 2027 1 16)) [MkID 7] None.

Definition saturday_answer : Availability := Eval vm_compute in
  match @Query _ (Acl.booking_ports salon menu2 hours2) empty_book_db friday ask_saturday with
  | Ok av => av
  | Err _ => MkAvailability (MkBranch (MkID 0) (MkID 0) UTC (MkPolicy 0 0 0 0 false 0 0 0)) (BookSlots.MkDayOf (SchedDate.MkDate 1 1 1)) [] None
  end.

Definition first_slot : time := 1800082800 * Second.
Definition book_it : BookAppointment := MkBook (MkID 50) 900 (MkID 2) first_slot [MkID 7] None "".

Lemma shop_books_what_it_offers_witness :
  ∃ a db', @Book _ (Acl.booking_ports salon menu2 hours2) plain_quote empty_book_db empty_book_db empty_book_db friday demo_id (Acl.WorkingWindows salon hours2) book_it
      = Ok (Some a, false, db') ∧
    Appointment.ap_Start (Appointment.state a) = first_slot ∧ Appointment.ap_Barber (Appointment.state a) ∈ [MkID 4 : StaffID].
Proof.
  assert (EQ : @Query _ (Acl.booking_ports salon menu2 hours2) empty_book_db friday ask_saturday = Ok saturday_answer) by (vm_compute; reflexivity).
  destruct (shop_books_what_it_offers BizFlow.demo_save BizFlow.demo_discard BizFlow.demo_past salon menu2 hours2 plain_quote empty_book_db friday
    ask_saturday saturday_answer (default [] (av_Slots saturday_answer)) (BookSlots.MkSlot first_slot [MkID 4]) (MkID 4) book_it demo_id
    BizFlow.demo_history) as (a & db' & HB & _ & Hs & Hb & _).
  - left.
  - exact salon_zone.
  - exact menu_reached.
  - exact hours_reached.
  - apply rtc_refl.
  - exact EQ.
  - vm_compute. reflexivity.
  - vm_compute. left.
  - left.
  - split; vm_compute; split; congruence.
  - reflexivity.
  - reflexivity.
  - reflexivity.
  - left. reflexivity.
  - discriminate.
  - vm_compute. congruence.
  - reflexivity.
  - reflexivity.
  - vm_compute. reflexivity.
  - exists a, db'. split; [exact HB|]. split; [exact Hs|exact Hb].
Defined.
End demo.
