(* ===== verification/StaffLock.v ===== *)
(** * Bookings and changes of hours at the same time
      (src/internal/platform/database/locks.go; booking/adapters/postgres/book.go, Book and try;
       scheduling/adapters/postgres/schedules.go, Schedules.Update and TimeOffs.Add)

    A booking looks at a barber's hours on one connection and saves itself on
    another; meanwhile the shop may take those hours away. Both take the
    barber's lock ([LockStaff]) first. Here the transactions run step by step
    in any interleaving: what a booking saw of its barber still stands when
    it commits, and nobody waits for ever.

    Scheduling's names are used in full. *)
From S2P Require Import Prelude GoTime GoText Shared Tables Spans Appointment BookStore BookApp BookFlow.
From S2P Require SchedWeekly SchedDate SchedCalendar SchedWindows SchedStore SchedApp BizBase BizStore BizFacts BizApp BizFlow Acl Compose.
Import BizBase(TzLib, LoadLocation).
Open Scope Z_scope.

(** ** Locks (locks.go) *)

(** Who holds a lock: a booking, or a transaction of scheduling's. *)
Inductive owner := Booker (n : nat) | Changer.

(** [LockStaff]: [None] waits. *)
Definition LockStaff (locks : gmap StaffID owner) (staff : StaffID) (who : owner) : option (gmap StaffID owner) :=
  match locks !! staff with Some _ => None | None => Some (<[staff := who]> locks) end.

(** ** A booking on its way (book.go) *)

(** Waiting for the lock of the first draft left; holding it; or told, by
    these tables of scheduling's and of business's, that the barber works. *)
Inductive phase := Waiting | Holding | Working (seen : SchedStore.SchedDB) (shop : BizStore.BizDB).

Definition holds (p : phase) : bool := match p with Waiting => false | _ => true end.

Record Trying := MkTrying { tr_Attempt : BookingAttempt; tr_Branch : Branch; tr_Left : list Appointment; tr_Phase : phase }.

(** What a commit was: the draft, what its check read, and scheduling's tables
    at that instant. *)
Record Committed := MkCommitted {
  cm_Draft : Appointment; cm_Branch : Branch; cm_Seen : SchedStore.SchedDB; cm_Shop : BizStore.BizDB; cm_At : SchedStore.SchedDB }.

(** The tables as committed, who holds which lock, the bookings in flight; and
    the commits so far, which the program does not keep. *)
Record Sys := MkSys {
  sy_Sched : SchedStore.SchedDB; sy_Book : BookDB; sy_Locks : gmap StaffID owner; sy_Trying : gmap nat Trying; sy_Log : list Committed }.

Definition barber (d : Appointment) : StaffID := ap_Barber (state d).

Definition with_sched (s : Sys) (db : SchedStore.SchedDB) : Sys := MkSys db (sy_Book s) (sy_Locks s) (sy_Trying s) (sy_Log s).
Definition with_book (s : Sys) (db : BookDB) : Sys := MkSys (sy_Sched s) db (sy_Locks s) (sy_Trying s) (sy_Log s).
Definition with_locks (s : Sys) (l : gmap StaffID owner) : Sys := MkSys (sy_Sched s) (sy_Book s) l (sy_Trying s) (sy_Log s).
Definition goes_on (s : Sys) (n : nat) (t : Trying) : Sys := MkSys (sy_Sched s) (sy_Book s) (sy_Locks s) (<[n := t]> (sy_Trying s)) (sy_Log s).
Definition ends (s : Sys) (n : nat) : Sys := MkSys (sy_Sched s) (sy_Book s) (sy_Locks s) (delete n (sy_Trying s)) (sy_Log s).
Definition unlock (s : Sys) (staff : StaffID) : Sys := with_locks s (delete staff (sy_Locks s)).

Definition to_phase (t : Trying) (p : phase) : Trying := MkTrying (tr_Attempt t) (tr_Branch t) (tr_Left t) p.
(** The savepoint rolled back: the next draft, without the lock. *)
Definition next_draft (t : Trying) : Trying := MkTrying (tr_Attempt t) (tr_Branch t) (tail (tr_Left t)) Waiting.

(** The attempt as it is once only this draft is left to save. Its key and its
    limit are asked at the commit: until then the claimed key's row and the
    customer's lock let nobody else book with the one or against the other. *)
Definition alone (att : BookingAttempt) (d : Appointment) : BookingAttempt :=
  MkAttempt (att_Requester att) (att_Branch att) (att_Key att) (att_RequestHash att) (att_Now att) (att_Allow att) [d] (λ _, Ok true).

(** [StillWorking] answered. *)
Definition after_check (s : Sys) (n : nat) (t : Trying) (d : Appointment) (shop : BizStore.BizDB) (answer : res book_error bool) : Sys :=
  match answer with
  | Ok true => goes_on s n (to_phase t (Working (sy_Sched s) shop))
  | Ok false => goes_on (unlock s (barber d)) n (next_draft t)
  | Err _ => ends (unlock s (barber d)) n
  end.

(** The insert, and the commit if it went in. No row of another transaction
    can clash that is not committed: it would need the same barber's lock. *)
Definition after_insert (s : Sys) (n : nat) (t : Trying) (d : Appointment) (seen : SchedStore.SchedDB) (shop : BizStore.BizDB) : Sys :=
  match insert (sy_Book s) d with
  | Excluded => goes_on (unlock s (barber d)) n (next_draft t)
  | Refused _ => ends (unlock s (barber d)) n
  | Inserted _ =>
      match Store_Book (sy_Book s) (alone (tr_Attempt t) d) with
      | Ok (_, false, db) =>
          let s := ends (unlock (with_book s db) (barber d)) n in
          MkSys (sy_Sched s) (sy_Book s) (sy_Locks s) (sy_Trying s) (sy_Log s ++ [MkCommitted d (tr_Branch t) seen shop (sy_Sched s)])
      | _ => ends (unlock s (barber d)) n
      end
  end.

(** ** What else happens *)

Section system.
Context `{TzLib} (shops : BizStore.BizDB → Prop).

(** Scheduling's changes that lock a person, and those that lock nobody. *)
Inductive staff_change (staff : StaffID) (db db' : SchedStore.SchedDB) : Prop :=
| change_schedule (A : SchedApp.Access) now ref expected l overrides visit order s :
    visit ≡ₚ map_to_list overrides → (∀ s, order s ≡ₚ map_to_list (SchedCalendar.sch_overrides s)) → SchedApp.sr_Staff ref = staff →
    SchedApp.SetSchedule_handler db now ref expected l overrides visit order = Ok (s, db') → staff_change staff db db'
| change_time_off (A : SchedApp.Access) now newID actor business from to reason t :
    SchedApp.AddTimeOff_handler db now newID actor business staff from to reason = Ok (t, db') → staff_change staff db db'.

Inductive free_change (db db' : SchedStore.SchedDB) : Prop :=
| change_hours (A : SchedApp.Access) now ref expected l cal :
    SchedApp.SetOpeningHours_handler db now ref expected l = Ok (cal, db') → free_change db db'
| change_back (A : SchedApp.Access) actor business staff id :
    SchedApp.DeleteTimeOff_handler db actor business staff id = Ok db' → free_change db db'.

Inductive step (s : Sys) : Sys → Prop :=
| booking_begins n att branch :
    sy_Trying s !! n = None → Forall draft_ok (att_Drafts att) → step s (goes_on s n (MkTrying att branch (att_Drafts att) Waiting))
| booking_locks n t d rest locks :
    sy_Trying s !! n = Some t → tr_Phase t = Waiting → tr_Left t = d :: rest → LockStaff (sy_Locks s) (barber d) (Booker n) = Some locks →
    step s (goes_on (with_locks s locks) n (to_phase t Holding))
| booking_checks n t d rest shop :
    sy_Trying s !! n = Some t → tr_Phase t = Holding → tr_Left t = d :: rest → shops shop →
    step s (after_check s n t d shop (stillWorking (tr_Branch t) (Acl.WorkingWindows shop (sy_Sched s)) d))
| booking_saves n t d rest seen shop :
    sy_Trying s !! n = Some t → tr_Phase t = Working seen shop → tr_Left t = d :: rest → step s (after_insert s n t d seen shop)
| booking_out_of_drafts n t :
    sy_Trying s !! n = Some t → tr_Left t = [] → step s (ends s n)
| booking_lost n t d rest :
    sy_Trying s !! n = Some t → tr_Left t = d :: rest → step s (ends (if holds (tr_Phase t) then unlock s (barber d) else s) n)
| change_locks staff locks :
    LockStaff (sy_Locks s) staff Changer = Some locks → step s (with_locks s locks)
| change_commits staff db :
    sy_Locks s !! staff = Some Changer → staff_change staff (sy_Sched s) db → step s (unlock (with_sched s db) staff)
| change_lost staff :
    sy_Locks s !! staff = Some Changer → step s (unlock s staff)
| hours_change db :
    free_change (sy_Sched s) db → step s (with_sched s db)
| appointments_change db :
    store_step (sy_Book s) db → dom (appointments db) = dom (appointments (sy_Book s)) → step s (with_book s db).

Definition idle (sched : SchedStore.SchedDB) (book : BookDB) : Sys := MkSys sched book ∅ ∅ [].
End system.

(** ** What a lock keeps *)

(** Of one person's hours nothing was taken away: their schedules are the
    same, and they have no new time off. *)
Record kept (staff : StaffID) (db db' : SchedStore.SchedDB) : Prop := {
  kp_schedules k : k.2 = staff → SchedStore.barber_schedules db' !! k = SchedStore.barber_schedules db !! k ∧
    SchedStore.barber_hours db' !! k = SchedStore.barber_hours db !! k ∧ SchedStore.schedule_overrides db' !! k = SchedStore.schedule_overrides db !! k;
  kp_off id o : SchedStore.time_off db' !! id = Some o → SchedCalendar.off_staff o = staff → SchedStore.time_off db !! id = Some o }.

Lemma kept_refl staff db : kept staff db db.
Proof. by constructor. Qed.
Lemma kept_trans staff a b c : kept staff a b → kept staff b c → kept staff a c.
Proof.
  intros [S1 O1] [S2 O2]. constructor; [|by eauto]. intros k Hk. destruct (S1 k Hk) as (? & ? & ?), (S2 k Hk) as (? & ? & ?). split_and!; congruence.
Qed.

Lemma hours_kept {A : SchedApp.Access} staff db now ref expected l cal db' :
  SchedApp.SetOpeningHours_handler db now ref expected l = Ok (cal, db') → kept staff db db'.
Proof.
  unfold SchedApp.SetOpeningHours_handler. intros (? & _ & (? & _ & Hu)%res_bind_ok)%res_bind_ok. unfold SchedStore.Calendars_Update in Hu.
  destruct (SchedStore.out_of_int32 _); [done|]. apply res_bind_ok in Hu as (? & _ & Hu). apply res_bind_ok in Hu as (? & _ & Hu).
  apply res_bind_ok in Hu as (? & _ & Hu). apply res_bind_ok in Hu as (? & _ & Hu). apply res_bind_ok in Hu as (? & _ & Hu).
  apply res_bind_ok in Hu as (db1 & Hs & [= _ <-]). unfold SchedStore.saveHours in Hs. apply res_bind_ok in Hs as (? & _ & [= <-]). by constructor.
Qed.

Lemma schedule_kept {A : SchedApp.Access} staff db now ref expected l overrides visit order s db' :
  SchedApp.sr_Staff ref ≠ staff → SchedApp.SetSchedule_handler db now ref expected l overrides visit order = Ok (s, db') → kept staff db db'.
Proof.
  intros Hne. unfold SchedApp.SetSchedule_handler. intros (? & _ & (? & _ & Hu)%res_bind_ok)%res_bind_ok. unfold SchedStore.Schedules_Update in Hu.
  destruct (SchedStore.out_of_int32 _); [done|]. apply res_bind_ok in Hu as (? & _ & Hu). apply res_bind_ok in Hu as (? & _ & Hu).
  apply res_bind_ok in Hu as (? & _ & Hu). apply res_bind_ok in Hu as (? & _ & Hu). apply res_bind_ok in Hu as (db1 & Hs & [= _ <-]).
  unfold SchedStore.saveSchedule in Hs. apply res_bind_ok in Hs as (? & _ & Hs). apply res_bind_ok in Hs as (? & _ & Hs).
  apply res_bind_ok in Hs as (t & Hw & Hs). apply res_bind_ok in Hs as (? & _ & Hs). apply res_bind_ok in Hs as (? & _ & [= <-]).
  constructor; [|done]. intros k Hk. cbn. assert (Hkne : (SchedApp.br_Business (SchedApp.sr_Branch ref), SchedApp.br_Branch (SchedApp.sr_Branch ref), SchedApp.sr_Staff ref) ≠ k)
    by (intros <-; done). rewrite !lookup_insert_ne by done. split_and!; [|done..].
  unfold SchedStore.write_version in Hw. apply res_bind_ok in Hw as (? & _ & Hw).
  repeat (match type of Hw with context [match ?x with _ => _ end] => destruct x end; try done); injection Hw as <-; by rewrite lookup_insert_ne.
Qed.

Lemma time_off_kept {A : SchedApp.Access} staff other db now newID actor business from to reason t db' :
  other ≠ staff → SchedApp.AddTimeOff_handler db now newID actor business other from to reason = Ok (t, db') → kept staff db db'.
Proof.
  intros Hne. unfold SchedApp.AddTimeOff_handler. intros (? & _ & (t' & Ht & (db1 & Ha & [= <- <-])%res_bind_ok)%res_bind_ok)%res_bind_ok.
  assert (Hst : SchedCalendar.off_staff t' = other).
  { unfold SchedCalendar.NewTimeOff in Ht. repeat (match type of Ht with res_bind _ _ = _ => apply res_bind_ok in Ht as (? & _ & Ht) end). by injection Ht as <-. }
  unfold SchedStore.TimeOffs_Add in Ha. apply res_bind_ok in Ha as (? & _ & Ha). apply res_bind_ok in Ha as (? & _ & Ha).
  destruct (existsb _ _); [done|]. injection Ha as <-. constructor; [done|]. cbn. intros id o Ho Hs.
  apply lookup_insert_Some in Ho as [[_ <-]|[_ Ho]]; [congruence|done].
Qed.

Lemma staff_change_kept staff other db db' : other ≠ staff → staff_change other db db' → kept staff db db'.
Proof. intros Hne [A ? ? ? ? ? ? ? ? ? ? <- Hs|A ? ? ? ? ? ? ? ? Hs]; [by eapply schedule_kept|by eapply time_off_kept]. Qed.
Lemma free_change_kept staff db db' : free_change db db' → kept staff db db'.
Proof.
  intros [A ? ? ? ? ? Hs|A actor business st id Hs]; [by eapply hours_kept|].
  unfold SchedApp.DeleteTimeOff_handler in Hs. apply res_bind_ok in Hs as (? & _ & Hs). unfold SchedStore.TimeOffs_Delete in Hs.
  destruct (SchedStore.time_off db !! id); [|done]. destruct (_ && _); [|done]. injection Hs as <-. constructor; [done|]. cbn.
  intros id' o [_ Ho]%lookup_delete_Some _. done.
Qed.

Lemma staff_change_step staff db db' : staff_change staff db db' → SchedApp.sched_step db db'.
Proof. intros [A ? ? ? ? ? ? ? ? ? ? _ Hs|A ? ? ? ? ? ? ? ? Hs]; [by eapply (SchedApp.step_schedule _ _ A)|by eapply (SchedApp.step_time_off _ _ A)]. Qed.
Lemma free_change_step db db' : free_change db db' → SchedApp.sched_step db db'.
Proof. intros [A ? ? ? ? ? Hs|A ? ? ? ? Hs]; [by eapply (SchedApp.step_hours _ _ A)|by eapply (SchedApp.step_delete_time_off _ _ A)]. Qed.

(** ** What a check says *)

Lemma busy_span a : storable a → Busy a = MkInterval (ap_Start a) (ap_BusyUntil a) ∧ ap_Start a < ap_BusyUntil a.
Proof. intros Hs. pose proof (st_times _ Hs). split; [|lia]. unfold Busy, NewInterval, After. by rewrite (proj2 (Z.ltb_lt _ _)) by lia. Qed.

(** Scheduling's tables with the opening hours of [seen]. *)
Definition opening_as (seen db : SchedStore.SchedDB) : SchedStore.SchedDB :=
  SchedStore.MkSchedDB (SchedStore.branch_calendars seen) (SchedStore.opening_hours seen) (SchedStore.barber_schedules db) (SchedStore.barber_hours db)
    (SchedStore.schedule_overrides db) (SchedStore.time_off db) (SchedStore.outbox db).

Section invariant.
Context `{TzLib} (shops : BizStore.BizDB → Prop).
Context (Hshops : ∀ shop, shops shop → BizFacts.db_ok shop ∧ Compose.no_clock_changes shop).
Implicit Types s : Sys.

Lemma check_says shop sched b d :
  shops shop → SchedStore.db_ok sched → storable (state d) → stillWorking b (Acl.WorkingWindows shop sched) d = Ok true →
  ∃ off, BizApp.BranchLocation shop (b_BusinessID b) (b_ID b) = Ok (fixed_zone off) ∧
    ∀ t, ap_Start (state d) ≤ t < ap_BusyUntil (state d) → SchedApp.available sched (fixed_zone off) (b_BusinessID b) (b_ID b) (barber d) t.
Proof using Hshops.
  intros [Hshop Hz]%Hshops Hok Hs. destruct (busy_span _ Hs) as [Eb Hlt]. unfold stillWorking. rewrite Eb. cbn [i_start i_end].
  intros (w & Hw & Hc)%res_bind_ok. apply (inj Ok) in Hc. apply existsb_elem in Hc as (i & Hin & Hi%Covers_true). cbn [i_start i_end] in Hi.
  unfold Acl.WorkingWindows in Hw. destruct (SchedApp.Windows _ _ _ _ _ _) as [w'|e] eqn:Ew.
  2:{ destruct e; try done. injection Hw as <-. rewrite lookup_empty in Hin. by apply not_elem_of_nil in Hin. }
  destruct (forallb _ _); [|done]. injection Hw as <-. rewrite lookup_omap in Hin.
  assert (Hargs : SchedApp.acc_StaffAtBranch (Access := Acl.sched_access shop) (b_BusinessID b) (b_ID b) [ap_Barber (state d)] = Ok tt ∧
    ap_BusyUntil (state d) - ap_Start (state d) ≤ 62 * 86400 * Second ∧
    ∃ loc, SchedApp.acc_BranchLocation (Access := Acl.sched_access shop) (b_BusinessID b) (b_ID b) = Ok loc).
  { unfold SchedApp.Windows, SchedApp.compute in Ew. apply res_bind_ok in Ew as (? & Ew & _). apply res_bind_ok in Ew as (? & Hr & Ew).
    apply res_bind_ok in Ew as ([] & Hst & Ew). apply res_bind_ok in Ew as (loc & Hl & _). split; [done|]. split; [|by exists loc].
    apply ensure_ok, negb_true_iff, orb_false_iff in Hr as [_ Hr%Z.ltb_ge]. unfold Sub in Hr.
    change SchedApp.MaxWindowsRange with (62 * 86400 * Second) in Hr. unfold max_int64, min_int64, Second, Millisecond, Microsecond in *. lia. }
  destruct Hargs as (Hst & Hlen & loc & Hl).
  assert (Hoff : ∃ off, BizApp.BranchLocation shop (b_BusinessID b) (b_ID b) = Ok (fixed_zone off)).
  { apply Compose.BranchLocation_ok; [done..|]. cbn in Hl. destruct (BizApp.BranchLocation shop _ _) as [l|] eqn:El; [|done].
    unfold BizApp.BranchLocation, BizStore.Branches_ByID in El. destruct (BizStore.find_branch shop _ _); [by eexists|done]. }
  destruct Hoff as [off Hoff]. exists off. split; [done|].
  destruct (SchedApp.Windows_ok (A := Acl.sched_access shop) sched (b_BusinessID b) (b_ID b) [ap_Barber (state d)] (ap_Start (state d)) (ap_BusyUntil (state d)) off)
    as (out & Eo & Hall); [done|done|done|done|cbn; by rewrite Hoff|].
  rewrite Ew in Eo. injection Eo as <-. specialize (Hall (ap_Barber (state d))). destruct (w' !! ap_Barber (state d)) as [[r|]|]; [|done|by apply not_elem_of_nil in Hin].
  cbn in Hin. destruct Hall as (_ & _ & Hall). intros t Ht. apply Hall. exists i. split; [done|]. unfold in_span. lia.
Qed.

Lemma available_kept seen db loc b br st t :
  kept st seen db → SchedApp.available seen loc b br st t → SchedApp.available (opening_as seen db) loc b br st t.
Proof.
  intros [Hs Ho] (cal & sch & Hc & Hsch & Hopen & Hworks & Hoff). exists cal, sch. split_and!; [exact Hc| |done|done|].
  - destruct (Hs (b, br, st) eq_refl) as (E1 & E2 & E3). revert Hsch. unfold SchedStore.Schedules_Get, SchedStore.loadSchedule, opening_as. cbn. by rewrite E1, E2, E3.
  - intros (id & o & Hid & ? & Hst & ?). apply Hoff. exists id, o. split_and!; [by apply Ho|done..].
Qed.

(** ** The invariant *)

(** What a booking past its check has seen. *)
Definition checked (b : Branch) (d : Appointment) (seen : SchedStore.SchedDB) (shop : BizStore.BizDB) (now : SchedStore.SchedDB) : Prop :=
  shops shop ∧ SchedStore.db_ok seen ∧ stillWorking b (Acl.WorkingWindows shop seen) d = Ok true ∧ kept (barber d) seen now.

Definition holds_first (s : Sys) (n : nat) (t : Trying) : Prop := ∃ d rest, tr_Left t = d :: rest ∧ sy_Locks s !! barber d = Some (Booker n).

Record trying_ok (s : Sys) (n : nat) (t : Trying) : Prop := {
  to_drafts : Forall draft_ok (tr_Left t);
  to_lock : holds (tr_Phase t) = true → holds_first s n t;
  to_checked seen shop d rest : tr_Phase t = Working seen shop → tr_Left t = d :: rest → checked (tr_Branch t) d seen shop (sy_Sched s) }.

Record committed_ok (c : Committed) : Prop := {
  co_draft : draft_ok (cm_Draft c);
  co_checked : checked (cm_Branch c) (cm_Draft c) (cm_Seen c) (cm_Shop c) (cm_At c) }.

Record sys_ok (s : Sys) : Prop := {
  so_sched : SchedStore.db_ok (sy_Sched s);
  so_book : store_ok (sy_Book s);
  so_trying n t : sy_Trying s !! n = Some t → trying_ok s n t;
  so_locks st n : sy_Locks s !! st = Some (Booker n) → ∃ t d rest, sy_Trying s !! n = Some t ∧ holds (tr_Phase t) = true ∧ tr_Left t = d :: rest ∧ barber d = st;
  so_log c : c ∈ sy_Log s → committed_ok c;
  so_rows id a : diary (sy_Book s) !! id = Some a → ∃ c, c ∈ sy_Log s ∧ same_booking (state (cm_Draft c)) a }.

Lemma idle_ok sched : SchedStore.db_ok sched → sys_ok (idle sched empty_book_db).
Proof.
  intros Hok. constructor; cbn; [done|apply store_reachable_ok, rtc_refl|by intros n t|by intros st n|by intros c ?%not_elem_of_nil|].
  intros id a Ha. assert (E : diary empty_book_db !! id = None) by (apply diary_none; [apply store_reachable_ok, rtc_refl|done]). congruence.
Qed.

(** Scheduling's tables change, and take nothing away from anyone a booking
    has checked. *)
Lemma sched_changes s db locks :
  sys_ok s → SchedStore.db_ok db →
  (∀ st n, locks !! st = Some (Booker n) ↔ sy_Locks s !! st = Some (Booker n)) →
  (∀ st n, sy_Locks s !! st = Some (Booker n) → kept st (sy_Sched s) db) →
  sys_ok (with_locks (with_sched s db) locks).
Proof.
  intros [Hs Hb Ht Hl Hg Hr] Hdb Hlocks Hkept. constructor; cbn; try done; [|intros st n Hst; by apply Hl, Hlocks].
  intros n t Hn. destruct (Ht n t Hn) as [Hd Hlock Hc]. constructor; [done| |].
  - intros (d & rest & E & Hd')%Hlock. exists d, rest. split; [done|]. by apply Hlocks.
  - intros seen shop d rest Ep El. destruct (Hc seen shop d rest Ep El) as (? & ? & ? & Hk). split_and!; [done..|]. eapply kept_trans; [exact Hk|].
    destruct Hlock as (d' & rest' & E & Hd'); [by rewrite Ep|]. rewrite El in E. injection E as <- <-. by eapply Hkept.
Qed.

(** A booking goes on or ends, with or without its lock. *)
Lemma booking_moves s n next locks :
  sys_ok s →
  (∀ st m, m ≠ n → locks !! st = Some (Booker m) ↔ sy_Locks s !! st = Some (Booker m)) →
  let s' := MkSys (sy_Sched s) (sy_Book s) locks (match next with Some t' => <[n := t']> (sy_Trying s) | None => delete n (sy_Trying s) end) (sy_Log s) in
  (∀ st, locks !! st = Some (Booker n) → ∃ t' d rest, next = Some t' ∧ holds (tr_Phase t') = true ∧ tr_Left t' = d :: rest ∧ barber d = st) →
  (∀ t', next = Some t' → trying_ok s' n t') →
  sys_ok s'.
Proof.
  intros [Hs Hb Ht Hl Hg Hr] Hother s' Hmine Hnext. assert (Hne : ∀ m, m ≠ n → sy_Trying s' !! m = sy_Trying s !! m).
  { intros m Hm. unfold s'. cbn. destruct next; [by rewrite lookup_insert_ne|by rewrite lookup_delete_ne]. }
  constructor; try done.
  - intros m t' Hm. destruct (decide (m = n)) as [->|Hmn].
    + unfold s' in Hm. cbn in Hm. destruct next as [t''|]; [|by rewrite lookup_delete_eq in Hm]. rewrite lookup_insert_eq in Hm. injection Hm as <-. by apply Hnext.
    + rewrite Hne in Hm by done. destruct (Ht m t' Hm) as [Hd Hlock Hc]. constructor; [done| |done].
      intros (d & rest & E & Hd')%Hlock. exists d, rest. split; [done|]. by apply Hother.
  - intros st m Hm. destruct (decide (m = n)) as [->|Hmn].
    + destruct (Hmine st Hm) as (t' & d & rest & Et & ?). exists t', d, rest. split; [|done]. unfold s'. cbn. rewrite Et. apply lookup_insert_eq.
    + destruct (Hl st m) as (t' & d & rest & Et & ?); [by apply Hother|]. exists t', d, rest. by rewrite Hne.
Qed.

(** The lock of a draft that is passed over, or saved, is given back. *)
Lemma gives_back s n t d rest next :
  sys_ok s → sy_Trying s !! n = Some t → holds (tr_Phase t) = true → tr_Left t = d :: rest → next = None ∨ next = Some (next_draft t) →
  sys_ok (MkSys (sy_Sched s) (sy_Book s) (delete (barber d) (sy_Locks s))
    (match next with Some t' => <[n := t']> (sy_Trying s) | None => delete n (sy_Trying s) end) (sy_Log s)).
Proof using Type.
  intros Hok Hn Hp El Hnext. destruct (to_lock _ _ _ (so_trying _ Hok n t Hn) Hp) as (d' & rest' & El' & Hlock). rewrite El in El'. injection El' as <- <-.
  apply booking_moves; [done| | |].
  - intros st m Hm. rewrite lookup_delete_Some. split; [by intros [_ ?]|]. intros Hst. split; [|done]. intros E. congruence.
  - intros st [Hne Hst]%lookup_delete_Some. destruct (so_locks _ Hok st n Hst) as (t' & d' & rest' & Ht' & _ & El' & Hb). congruence.
  - intros t' ->. destruct Hnext as [|[= ->]]; [done|]. constructor; cbn; [|done|done].
    rewrite El. cbn. pose proof (to_drafts _ _ _ (so_trying _ Hok n t Hn)) as Hd. rewrite El in Hd. by apply Forall_cons in Hd as [_ Hd].
Qed.

Lemma book_changes s db log :
  sys_ok s → store_ok db → (∀ c, c ∈ sy_Log s → c ∈ log) → (∀ c, c ∈ log → committed_ok c) →
  (∀ id a, diary db !! id = Some a → (∃ a0, diary (sy_Book s) !! id = Some a0 ∧ same_booking a0 a) ∨ ∃ c, c ∈ log ∧ same_booking (state (cm_Draft c)) a) →
  sys_ok (MkSys (sy_Sched s) db (sy_Locks s) (sy_Trying s) log).
Proof using Type.
  intros [Hs Hb Ht Hl Hg Hr] Hdb Hsub Hlog Hdiary. constructor; try done.
  - intros n t Hn. destruct (Ht n t Hn) as [? Hlock ?]. constructor; [done| |done]. intros (d & rest & ? & ?)%Hlock. by exists d, rest.
  - intros id a Ha. cbn in Ha. destruct (Hdiary id a Ha) as [(a0 & Ha0 & Hsame)|?]; [|done]. destruct (Hr id a0 Ha0) as (c & Hc & Hc').
    exists c. split; [by apply Hsub|]. by eapply same_booking_trans.
Qed.

Lemma saving_keeps s n t d rest seen shop :
  sys_ok s → sy_Trying s !! n = Some t → tr_Phase t = Working seen shop → tr_Left t = d :: rest → sys_ok (after_insert s n t d seen shop).
Proof using Type.
  intros Hok Hn Hp El. assert (Hh : holds (tr_Phase t) = true) by (by rewrite Hp). pose proof (so_trying _ Hok n t Hn) as [Hd _ Hc].
  rewrite El in Hd. apply Forall_cons in Hd as [Hd _]. unfold after_insert.
  destruct (insert (sy_Book s) d); [|apply (gives_back s n t d rest (Some (next_draft t))); by auto|apply (gives_back s n t d rest None); by auto].
  destruct (Store_Book (sy_Book s) (alone (tr_Attempt t) d)) as [[[r []] db']|] eqn:EB; try (apply (gives_back s n t d rest None); by auto).
  destruct (Store_Book_spec (sy_Book s) (alone (tr_Attempt t) d) r false db' (so_book _ Hok)) as (a & _ & [[? _]|(_ & _ & _ & (before & after & Eatt & _) & (_ & Hnew & Hex) & ->)]);
    [by constructor|done|done|].
  assert (d = a) as <- by (destruct before as [|? []]; cbn in Eatt; congruence).
  destruct (with_booking_ok (sy_Book s) (attempt_key (alone (tr_Attempt t) d)) (claim (alone (tr_Attempt t) d)) (state d) (so_book _ Hok) (proj1 Hd) Hnew Hex) as [Hst Hdi].
  set (c := MkCommitted d (tr_Branch t) seen shop (sy_Sched s)). set (saved := with_booking _ _ _ _) in *. clearbody saved.
  apply (gives_back (MkSys (sy_Sched s) saved (sy_Locks s) (sy_Trying s) (sy_Log s ++ [c])) n t d rest None); [|done|done|done|by left].
  apply book_changes; [done|exact Hst|intros c' ?; apply elem_of_app; by left| |].
  - intros c' [Hc'|Hc']%elem_of_app; [by apply (so_log _ Hok)|]. apply list_elem_of_singleton in Hc' as ->. constructor; [done|by eapply Hc].
  - intros id a. rewrite Hdi. intros [[_ <-]|[_ Ha]]%lookup_insert_Some; [right; exists c; split; [apply elem_of_app; right; by left|apply same_booking_refl]|].
    left. exists a. split; [done|apply same_booking_refl].
Qed.

Lemma step_ok s s' : sys_ok s → step shops s s' → sys_ok s'.
Proof using Type.
  intros Hok Hstep. destruct Hstep as [n att branch Hn Hd|n t d rest locks Hn Hp El Hlock|n t d rest shop Hn Hp El Hshop|n t d rest seen shop Hn Hp El
    |n t Hn El|n t d rest Hn El|staff locks Hlock|staff db Hst Hch|staff Hst|db Hch|db Hs Hdom].
  - apply (booking_moves s n (Some _) (sy_Locks s)); [done|done| |].
    + intros st (t & _ & _ & Ht & _)%(so_locks _ Hok). congruence.
    + intros t' [= <-]. by constructor.
  - pose proof (so_trying _ Hok n t Hn) as [Hd _ _]. unfold LockStaff in Hlock. destruct (sy_Locks s !! barber d) eqn:Enone; [done|]. injection Hlock as <-.
    apply (booking_moves s n (Some _) (<[barber d := Booker n]> (sy_Locks s))); [done| | |].
    + intros st m Hm. rewrite lookup_insert_Some. split; [intros [[_ [= ->]]|[_ ?]]; done|]. intros Hst. right. split; [intros E; congruence|done].
    + intros st [[<- _]|[_ Hst]]%lookup_insert_Some; [by exists (to_phase t Holding), d, rest|].
      destruct (so_locks _ Hok st n Hst) as (t' & _ & _ & Ht' & Hh & _). rewrite Hn in Ht'. injection Ht' as <-. by rewrite Hp in Hh.
    + intros t' [= <-]. constructor; cbn; [done|intros _; exists d, rest; split; [done|apply lookup_insert_eq]|done].
  - unfold after_check. destruct (stillWorking _ _ _) as [[]|] eqn:Ew.
    + pose proof (so_trying _ Hok n t Hn) as [Hd Hlock _]. apply (booking_moves s n (Some _) (sy_Locks s)); [done|done| |].
      * intros st Hst. destruct (so_locks _ Hok st n Hst) as (t' & d' & rest' & Ht' & Hh & El' & Eb). rewrite Hn in Ht'. injection Ht' as <-.
        by exists (to_phase t (Working (sy_Sched s) shop)), d', rest'.
      * intros t' [= <-]. constructor; cbn; [done|intros _; apply Hlock; by rewrite Hp|]. intros seen' shop' d' rest' [= <- <-] El'. rewrite El in El'. injection El' as <- <-.
        split_and!; [done|apply (so_sched _ Hok)|done|apply kept_refl].
    + apply (gives_back s n t d rest (Some (next_draft t))); auto. by rewrite Hp.
    + apply (gives_back s n t d rest None); auto. by rewrite Hp.
  - by eapply saving_keeps.
  - apply (booking_moves s n None (sy_Locks s)); [done|done| |done].
    intros st (t' & d & rest & Ht' & _ & El' & _)%(so_locks _ Hok). congruence.
  - destruct (holds (tr_Phase t)) eqn:Hh; [apply (gives_back s n t d rest None); auto|].
    apply (booking_moves s n None (sy_Locks s)); [done|done| |done]. intros st (t' & ? & ? & Ht' & Hh' & _)%(so_locks _ Hok). congruence.
  - unfold LockStaff in Hlock. destruct (sy_Locks s !! staff) eqn:Enone; [done|]. injection Hlock as <-.
    apply (sched_changes s (sy_Sched s)); [done|apply (so_sched _ Hok)| |intros; apply kept_refl].
    intros st n. rewrite lookup_insert_Some. split; [intros [[_ ?]|[_ ?]]; done|]. intros Hst. right. split; [intros E; congruence|done].
  - apply (sched_changes s db); [done|eapply SchedApp.sched_step_keeps; [by eapply staff_change_step|apply (so_sched _ Hok)]| |].
    + intros st n. rewrite lookup_delete_Some. split; [by intros [_ ?]|]. intros Hn. split; [intros E; congruence|done].
    + intros st n Hn. eapply staff_change_kept; [|exact Hch]. intros ->. congruence.
  - apply (sched_changes s (sy_Sched s)); [done|apply (so_sched _ Hok)| |intros; apply kept_refl].
    intros st n. rewrite lookup_delete_Some. split; [by intros [_ ?]|]. intros Hn. split; [intros E; congruence|done].
  - apply (sched_changes s db (sy_Locks s)); [done|eapply SchedApp.sched_step_keeps; [by apply free_change_step|apply (so_sched _ Hok)]|done|].
    intros st n _. by apply free_change_kept.
  - destruct (store_step_moves _ _ (so_book _ Hok) Hs) as (Hdb & _ & out & Hm & _).
    apply (book_changes s db (sy_Log s)); [done|done|done|apply (so_log _ Hok)|]. intros id a Ha. left.
    assert (Hin : is_Some (appointments (sy_Book s) !! id)).
    { apply elem_of_dom. rewrite <- Hdom. apply elem_of_dom. destruct (appointments db !! id) eqn:E; [by eexists|]. apply diary_none in E; [congruence|apply Hdb]. }
    destruct (diary (sy_Book s) !! id) as [a0|] eqn:E0; [|apply diary_none in E0; [by rewrite E0 in Hin; destruct Hin|apply (so_book _ Hok)]].
    destruct (diary_moves_keep _ _ _ Hm id a0 E0) as (a' & Ha' & Hsame). exists a0. split; [done|]. congruence.
Qed.

Lemma interleaved_ok sched s : SchedStore.db_ok sched → rtc (step shops) (idle sched empty_book_db) s → sys_ok s.
Proof using Type.
  intros Hok Hr. eapply (rtc_ind_r (λ s, sys_ok s)); [by apply idle_ok| |exact Hr]. intros. by eapply step_ok.
Qed.
End invariant.

(** C4. A booking never slips into hours that are being taken away. However
    bookings, changes of schedules, new time off, changes of opening hours and
    everything else that happens to appointments interleave - lost
    transactions included -: every appointment in the tables was committed
    while its barber's schedule was the one its check had read, with no time
    off added since, so that for every instant it keeps the barber busy the
    barber then had a shift, at a branch open by the hours of the check, and
    no time off. And no booking waits for ever: each holds at most one lock,
    and whoever holds the lock another booking waits for is not waiting. *)
Theorem booked_hours_hold `{TzLib} (shops : BizStore.BizDB → Prop) sched s :
  (∀ shop, shops shop → BizFacts.db_ok shop ∧ Compose.no_clock_changes shop) → SchedApp.sched_reachable sched →
  rtc (step shops) (idle sched empty_book_db) s →
  (∀ id a, diary (sy_Book s) !! id = Some a → ∃ c, c ∈ sy_Log s ∧ same_booking (state (cm_Draft c)) a) ∧
  (∀ c, c ∈ sy_Log s →
     let a := state (cm_Draft c) in let b := cm_Branch c in
     kept (ap_Barber a) (cm_Seen c) (cm_At c) ∧
     ∃ off, BizApp.BranchLocation (cm_Shop c) (b_BusinessID b) (b_ID b) = Ok (fixed_zone off) ∧
       ∀ t, ap_Start a ≤ t < ap_BusyUntil a →
         SchedApp.available (opening_as (cm_Seen c) (cm_At c)) (fixed_zone off) (b_BusinessID b) (b_ID b) (ap_Barber a) t) ∧
  (∀ n st st', sy_Locks s !! st = Some (Booker n) → sy_Locks s !! st' = Some (Booker n) → st = st') ∧
  ∀ n t d rest m, sy_Trying s !! n = Some t → tr_Phase t = Waiting → tr_Left t = d :: rest → sy_Locks s !! barber d = Some (Booker m) →
    ∃ t', sy_Trying s !! m = Some t' ∧ tr_Phase t' ≠ Waiting.
Proof.
  intros Hshops Hsched Hr. pose proof (interleaved_ok shops sched s (SchedApp.sched_reachable_ok _ Hsched) Hr) as Hok. split_and!.
  - apply (so_rows _ _ Hok).
  - intros c Hc. destruct (so_log _ _ Hok c Hc) as [[Hst _] (Hshop & Hseen & Hw & Hk)]. cbv zeta. split; [exact Hk|].
    destruct (check_says shops Hshops _ _ _ _ Hshop Hseen Hst Hw) as (off & Hoff & Ha). exists off. split; [done|].
    intros t Ht. apply available_kept; [exact Hk|by apply Ha].
  - intros n st st' (t & d & rest & Ht & _ & El & <-)%(so_locks _ _ Hok) (t' & d' & rest' & Ht' & _ & El' & <-)%(so_locks _ _ Hok). congruence.
  - intros n t d rest m _ _ _ (t' & ? & ? & Ht' & Hh & _)%(so_locks _ _ Hok). exists t'. split; [done|]. intros E. by rewrite E in Hh.
Qed.

(** ** An example: a booking while the shop closes *)

(** One booking alone, from its first step to its commit; between its check
    and its commit the opening hours may change. *)
Definition one_booking (sched later : SchedStore.SchedDB) (att : BookingAttempt) (branch : Branch) (shop : BizStore.BizDB) (d : Appointment) : Sys :=
  after_insert (MkSys later empty_book_db {[barber d := Booker 0]} {[0%nat := MkTrying att branch (att_Drafts att) (Working sched shop)]} [])
    0 (MkTrying att branch (att_Drafts att) (Working sched shop)) d sched shop.

Lemma one_booking_runs `{TzLib} (shops : BizStore.BizDB → Prop) sched later att branch shop d rest :
  shops shop → Forall draft_ok (att_Drafts att) → att_Drafts att = d :: rest →
  stillWorking branch (Acl.WorkingWindows shop sched) d = Ok true → later = sched ∨ free_change sched later →
  rtc (step shops) (idle sched empty_book_db) (one_booking sched later att branch shop d).
Proof.
  intros Hshop Hd El Hw Hlater. set (t := λ p, MkTrying att branch (att_Drafts att) p).
  eapply rtc_l; [by apply (booking_begins _ _ 0 att branch)|].
  eapply rtc_l; [apply (booking_locks _ _ 0 (t Waiting) d rest {[barber d := Booker 0]}); [apply lookup_insert_eq|done|done|done]|].
  eapply rtc_l; [apply (booking_checks _ _ 0 (t Holding) d rest shop); [apply lookup_insert_eq|done|done|done]|].
  cbn [tr_Branch t goes_on with_locks idle sy_Sched to_phase]. rewrite Hw. cbn [after_check].
  set (s3 := goes_on _ _ _). assert (E3 : s3 = MkSys sched empty_book_db {[barber d := Booker 0]} {[0%nat := t (Working sched shop)]} []).
  { unfold s3, goes_on. cbn. by rewrite !insert_insert_eq. }
  clearbody s3. subst s3. destruct Hlater as [->|Hlater].
  - apply rtc_once. by apply (booking_saves _ _ 0 (t (Working sched shop)) d rest sched shop); [apply lookup_singleton_eq|..].
  - eapply rtc_l; [by apply (hours_change _ _ later)|]. apply rtc_once.
    by apply (booking_saves _ _ 0 (t (Working sched shop)) d rest sched shop); [apply lookup_singleton_eq|..].
Qed.

Module LockDemo.
#[local] Existing Instances decimal_ids BizFacts.demo_zones.
Import Compose.

Definition plan_drafts (p : res book_error plan) : list Appointment := match p with Ok (Attempt att) => att_Drafts att | _ => [] end.
Definition asked : res book_error plan :=
  @Book_plan _ (Acl.booking_ports salon menu2 hours2) plain_quote empty_book_db empty_book_db friday demo_id (Acl.WorkingWindows salon hours2) book_it.
Definition drafts : list Appointment := Eval vm_compute in plan_drafts asked.
Definition attempt : BookingAttempt := MkAttempt (MkID 50) (MkID 2) 900 "thirty-two bytes of a request..." friday None drafts (λ _, Ok true).
Definition here : Branch := av_Branch saturday_answer.
Definition closed_hours : SchedStore.SchedDB := Eval vm_compute in
  match @SchedApp.SetOpeningHours_handler (Acl.sched_access salon) hours2 friday open_here 1 [] with Ok (_, db) => db | Err _ => SchedStore.empty_db end.

Lemma salon_ok : BizFacts.db_ok salon.
Proof. apply (BizFlow.demo_ok salon). by left. Qed.

Lemma drafts_ok : Forall draft_ok drafts.
Proof.
  assert (E : plan_drafts asked = drafts) by (vm_compute; reflexivity). rewrite <- E. destruct asked as [[a|att]|] eqn:EP; [constructor| |constructor].
  destruct (CatFlow.cat_reachable_ok _ menu_reached) as [Hcat _].
  pose (L := composed_laws salon menu2 hours2 salon_ok Hcat (SchedApp.sched_reachable_ok _ hours_reached) salon_zone).
  by destruct (@Book_plan_attempt _ (Acl.booking_ports salon menu2 hours2) L _ _ _ _ _ _ _ _ EP) as (? & ? & _ & _ & _ & _ & Hd & _).
Qed.

Lemma closing : free_change hours2 closed_hours.
Proof.
  assert (E : ∃ cal, @SchedApp.SetOpeningHours_handler (Acl.sched_access salon) hours2 friday open_here 1 [] = Ok (cal, closed_hours)) by (vm_compute; eauto).
  destruct E as [cal E]. by eapply (change_hours _ _ (Acl.sched_access salon)).
Qed.

(** The first draft: what the run does with it. *)
Lemma first_draft : ∃ d rest, drafts = d :: rest ∧ stillWorking here (Acl.WorkingWindows salon hours2) d = Ok true ∧
  ap_Barber (state d) = MkID 4 ∧ ap_Start (state d) = first_slot ∧ first_slot < ap_BusyUntil (state d) ∧
  (∀ later, sy_Log (one_booking hours2 later attempt here salon d) = [MkCommitted d here hours2 salon later]).
Proof.
  eexists _, _. split; [reflexivity|]. split; [vm_compute; reflexivity|]. split; [reflexivity|]. split; [reflexivity|]. split; [vm_compute; reflexivity|].
  intros later. vm_compute. reflexivity.
Qed.

Lemma run_to later : later = hours2 ∨ later = closed_hours → ∃ d,
  rtc (step (λ shop, shop = salon)) (idle hours2 empty_book_db) (one_booking hours2 later attempt here salon d) ∧
  ap_Barber (state d) = MkID 4 ∧ ap_Start (state d) = first_slot ∧ first_slot < ap_BusyUntil (state d) ∧
  sy_Log (one_booking hours2 later attempt here salon d) = [MkCommitted d here hours2 salon later].
Proof.
  intros Hl. destruct first_draft as (d & rest & Ed & Hw & Hb & Hs & Hu & Hlog). exists d. split_and!; try done.
  eapply one_booking_runs; [done|exact drafts_ok|exact Ed|exact Hw|]. destruct Hl as [->| ->]; [by left|right; exact closing].
Qed.

Lemma booked_hours_hold_witness : ∃ s c off, rtc (step (λ shop, shop = salon)) (idle hours2 empty_book_db) s ∧ sy_Log s = [c] ∧
  ap_Start (state (cm_Draft c)) = first_slot ∧ SchedApp.available (opening_as (cm_Seen c) (cm_At c)) (fixed_zone off) (MkID 1) (MkID 2) (MkID 4) first_slot.
Proof.
  destruct (run_to hours2 ltac:(by left)) as (d & Hr & Hb & Hs & Hu & Hlog).
  destruct (booked_hours_hold (λ shop, shop = salon) hours2 (one_booking hours2 hours2 attempt here salon d)) as (_ & Hc & _).
  - intros shop ->. split; [exact salon_ok|exact salon_zone].
  - exact hours_reached.
  - exact Hr.
  - destruct (Hc (MkCommitted d here hours2 salon hours2)) as (_ & off & _ & Ha); [rewrite Hlog; by left|].
    exists (one_booking hours2 hours2 attempt here salon d), (MkCommitted d here hours2 salon hours2), off. split_and!; [exact Hr|exact Hlog|exact Hs|].
    cbn [cm_Draft cm_Branch cm_Seen cm_At] in Ha |- *. rewrite Hb, Hs in Ha. apply (Ha first_slot). lia.
Defined.

(** Opening hours are changed without the lock: a booking that was checked
    while the branch was open commits after it closed. *)
Theorem opening_hours_take_no_lock : ∃ s c, rtc (step (λ shop, shop = salon)) (idle hours2 empty_book_db) s ∧ sy_Log s = [c] ∧
  ap_Start (state (cm_Draft c)) = first_slot ∧ ∀ loc, ¬ SchedApp.available (cm_At c) loc (MkID 1) (MkID 2) (MkID 4) first_slot.
Proof.
  destruct (run_to closed_hours ltac:(by right)) as (d & Hr & _ & Hs & _ & Hlog).
  exists (one_booking hours2 closed_hours attempt here salon d), (MkCommitted d here hours2 salon closed_hours). split_and!; [exact Hr|exact Hlog|exact Hs|].
  intros loc (cal & sch & Hc & _ & (day & _ & Hin) & _).
  assert (E : ∃ c, SchedStore.Calendars_Get closed_hours (MkID 1) (MkID 2) = Ok c ∧ SchedWeekly.intervals (SchedCalendar.cal_hours c) = []) by (eexists; vm_compute; split; reflexivity).
  destruct E as (c & Ec & Ei). cbn [cm_At] in Hc. rewrite Ec in Hc. injection Hc as <-. revert Hin. cbn [SchedWindows.in_Opening]. unfold SchedCalendar.startingOn. rewrite Ei. cbn.
  unfold SchedWindows.in_any. intros (i & Hi & _). by apply not_elem_of_nil in Hi.
Qed.
End LockDemo.
